(* ===== verification/_CoqProject ===== *)
-Q . S2P
Prelude.v
Table.v
Hash.v
HashSpec.v
Store.v
Registry.v
RegistrySpec.v
Types.v
TypesSpec.v
TypesLayoutSpec.v
TypesBaseSpec.v
TypesCopySpec.v
TypesDeriveSpec.v
Elist.v
ElistSpec.v
Btree.v
BtreeSpec.v
Vectors.v
VectorsSpec.v
AllocProfiler.v
AllocProfilerSpec.v
Config.v
ConfigSpec.v
Gdbwrap.v
GdbwrapSpec.v
GdbSessionSpec.v
Leb128.v
Leb128Spec.v
Container.v
ContainerSpec.v
Blocks.v
BlocksSpec.v
SplitSpec.v
Dump.v
DumpSpec.v
DumpFloodSpec.v
DumpRouteSpec.v
DumpLiveSpec.v
ElfSym.v
ElfSymSpec.v
Elf.v
ElfHash.v
ElfHashSpec.v
ElfSpec.v
ElfTableSpec.v
ElfEditSpec.v
ElfLayoutSpec.v
ElfDataSpec.v
LibasmVector.v
Ia32.v
Ia32Operand.v
Ia32Arith.v
Ia32Move.v
Ia32Fpu.v
Ia32Misc.v
Ia32Ext.v
Ia32Fetch.v
Ia32Wp.v
Ia32Intel.v
Ia32ArithSpec.v
Ia32MiscSpec.v
Ia32ExtSpec.v
Ia32LenSpec.v
Ia32StructSpec.v
Ia32EaSpec.v
Cfg.v
CfgSpec.v
BranchSpec.v
Mips.v
MipsCpu.v
MipsCop.v
MipsFetch.v
MipsManual.v
MipsSpec.v
MipsDisplaySpec.v
Scan.v
