(* ===== verification/Prelude.v ===== *)
(** * ERESI: a verification development

    The ERESI project (src/) is a set of C libraries that read, analyse, instrument and debug
    programs.  This development models the libraries below and proves what makes them correct.
    It is a library: this file is its prelude, and each component has a file that models it
    and files named [...Spec] that state and prove its properties.

    ** The parts and how they interact

    - libaspect, the ground of all the others.  [Hash] (libhash.c) is the chained hash table;
      [Table] is what it promises to its clients, a class of finite maps from strings that
      [HashSpec] discharges and against which [Config], [Vectors], [Elist] and the rest are
      proved.  [Registry] (the other part of libhash.c) finds tables by name, with the class
      [Store] for its clients; [Types] (types.c) keeps the types of the unified type system in
      such tables.  [Elist] (liblist.c), [Btree] (libbtree.c), [Vectors] (vectors.c),
      [Config] (config.c) and [AllocProfiler] (profiler.c) are the other containers and
      services.
    - libasm, the disassembler.  IA-32: [Ia32] is the data of an instruction and of the
      processor (libasm-structs.h, libasm-i386.h) and the monad of the handlers, [Ia32Operand]
      the operands, [Ia32Arith], [Ia32Move], [Ia32Fpu], [Ia32Misc] and [Ia32Ext] the handlers,
      one definition for each file of arch/ia32/handlers, and [Ia32Fetch] their registration
      and the recursion on prefixes.  MIPS: [Mips] (formats of the fields and operands),
      [MipsCpu] and [MipsCop] (handlers), [MipsFetch] (tables, registration, choice of the
      handler, output).  Both register their handlers in vectors ([LibasmVector]).
    - libmjollnir, the control-flow analysis.  [Container] (containers.c of libaspect and
      container.c) is the registry of blocks, functions and links; [Blocks] (blocks.c, links.c,
      function.c) looks them up, splits and links them, over the class [ElfLayer] of what it
      asks of libelfsh; [Cfg] (core.c, cfg.c, history.c, findentry.c) is the driver, which
      disassembles with [Ia32Fetch] what the class [CodeLayer] reads in a section, and cuts and
      links blocks.  They use [Hash], [Elist] and [Btree].
    - libelfsh, the ELF objects.  [ElfSym] (sym_common.c, sort.c) is the symbol; [Elf]
      (section.c, strtab.c, symbol.c, dynsym.c, sht.c, sort.c) the sections, their data, names
      and symbols; [ElfHash] (hash.c) the hash table of the dynamic symbols.
    - libgdbwrap, the GDB remote protocol: [Gdbwrap] (gdbwrapper.c).
    - libdump, source routing between hosts: [Dump] (dump.c, send.c, recv.c).
    - libedfmt: [Leb128] (dwarf2-utils.c), the numbers of DWARF.
    - librevm: [Scan] (lang/scanner.c, api/filter.c), the words and escapes of a line.

    ** How the code is read

    A C integer of [w] bits is a [Z] with its wrap-around written out ([wrapu], [wraps]); a
    plain [char] is signed.  A structure is a record; what a pointer points to is either kept
    in the structure that owns it (a chain is a list, a tree is a tree) or, where the code
    shares or aliases it, reached by its address in a map that is part of the state ([Types],
    [Registry], [Container], [Elist], [Elf]).  An operation takes the state and gives the new
    one with the result.  [None] is a behaviour that C leaves undefined: a NULL or
    out-of-bounds access, a division by zero, a signed sum that does not fit, a copy by
    [memcpy], [strcpy] or [strncpy] between areas that overlap, memory read after it is freed,
    a failed [assert]; in [Dump] it is [Undef], next to [Exit], and in [Ia32] an [Overread].
    Theorems that give [Some] therefore say that the code returns.  The profiler and the
    messages it prints are ignored, and XALLOC, which exits when memory is exhausted, always
    succeeds and gives zeroed memory.  The build is not a release one: the ASSERT of
    libgdbwrap is checked.  libmjollnir and libelfsh are built for 32-bit objects (ERESI32); a
    word of [Leb128], [Types] and [Dump] has 64 bits; the hash of a name is proved for both
    widths.  The host is little-endian.

    Where cells or strings are shared, the model says so: [Elist.elist_replace] gives the cells
    of one list to another, and [ElistSpec.lists_step] takes the former away from its clients;
    [Registry] records the tables that [hash_merge] has made share the strings of their keys,
    and destroying one of these is undefined; [Dump.send_waiting] leaves in the queue the packet
    it has freed.  Three things are left out of this: the strings of the keys of lists, which
    [elist_empty] frees and [elist_merge] shares; the counters [elmnbr], which are unbounded
    here (an entry takes 12 bytes or more: memory of 32-bit addresses is exhausted first); and the copies [elfsh_readmema] makes of bytes onto themselves.

    What is not under src/ is a parameter: [qsort] (class [Qsort], a permutation sorted by the
    comparison), the clock, the random numbers and the sockets of [Dump], the two ends of the
    connection of [Gdbwrap] (what the next calls of [recv] and of [send] do, a closed connection
    staying closed).  The object file under the analysis is an interface too ([ElfLayer],
    [CodeLayer]; [LowObject] adds that the sections end under 2^31).  Each is instantiated by a
    function where a witness needs one.

    ** What is proved

    - [HashSpec]: each operation refines one on finite maps, for any keys that collide;
      [RegistrySpec]: names lead to tables; [ElistSpec], [BtreeSpec], [VectorsSpec],
      [ConfigSpec], [AllocProfilerSpec]: invariants and functional behaviour.
    - [TypesSpec], [TypesLayoutSpec], [TypesBaseSpec], [TypesCopySpec], [TypesDeriveSpec]: the
      layout of records and unions, the registry of types stays well formed, extension copies
      the fields, and a record that points to itself cannot be extended.
    - [Ia32Wp] is the logic of the handlers and [Ia32Intel] the reference, after the opcode maps
      of the processor; [Ia32ArithSpec], [Ia32MiscSpec], [Ia32ExtSpec]: each handler against its
      line of the maps; [Ia32LenSpec]: lengths and flow of control of all opcodes but a stated
      list; [Ia32EaSpec]: addresses of memory operands; [Ia32StructSpec]: on any bytes, the
      disassembler ends and gives the processor back as it was.
    - [MipsManual] is the manual of the architecture as a table; [MipsSpec]: which of its rows
      are read as it says; [MipsDisplaySpec]: no word overflows the buffers of the output.
    - [ContainerSpec], [BlocksSpec], [SplitSpec]: the registry, the links, the search tree of
      disjoint blocks, and the splitting of a block; [CfgSpec]: the analysis ends and forgets
      no block; [BranchSpec]: the successors of an instruction, from its bytes, are those of the
      processor.
    - [GdbwrapSpec], [GdbSessionSpec]: hexadecimal and run-length decoding, framing,
      acknowledgement and retransmission, and the replies whose verification is undefined.
    - [DumpSpec], [DumpFloodSpec], [DumpRouteSpec], [DumpLiveSpec]: packets round trip; in a
      network of hosts, a step relation, the flood of a request ends, a route is found and
      comes back, and a packet that follows it reaches the destination; what a host does with
      the reply, which is undefined when a packet waits for it.
    - [Leb128Spec]: decoding of any bytes, and the round trip.
    - [ElfSymSpec]: the nearest symbol, the hash of the ELF specification; [ElfHashSpec]: the
      lookup by hash ends and is right on a well-formed table; [ElfSpec] and [ElfTableSpec]:
      what appending, inserting, sorting and removing do to the sections; [ElfEditSpec]: the
      symbol tables as lists of named symbols, and the removals whose copy overlaps;
      [ElfLayoutSpec]: a section that grows keeps the layout and the symbols at their places;
      [ElfDataSpec]: reads and writes stay in bounds.
    - [Scan] ends with its theorems: a line that is typed is cut back into its words.

    ** Fuel

    Loops that are not structural take fuel, and theorems show that the fuel given is enough.
    [Hash.hash_add] nests once (a table grows once per insertion) and [Registry.hash_init]
    three levels deep (a table, the table of tables, the list of lists).  The walks of
    [Types] along a chain have as many steps as there are cells, and its copies as the depth
    asked.  [Dump.send_waiting] has two steps: the first packet found is sent, and the second
    search ends or reads it again.  [Gdbwrap] repeats an exchange as long as the stub refuses
    it: the fuel is one more than the number of events, and on a closed connection none is
    enough ([GdbSessionSpec.send_loop_closed]).  [ElfHash.chain_loop] ends within the length of
    the chain; on a chain that loops no fuel is enough ([ElfHashSpec.by_hash_cycle]).  The
    disassembler nests at most as deep as the buffer has bytes.  The analysis of an address
    ends with 2^33 steps: each nested call has marked an address of 32 bits, and the loop on
    instructions advances in a section under 2^31.  [Scan] takes the length of the buffer.

    ** Not modelled

    Input and output, terminals, signals, threads, foreign memory: libui, libe2dbg, libkernsh,
    libetrace, the programs.  libelfsh: loading and saving of files, the rebuilding of stripped
    tables, segments, relocations, injection and the code of each processor; so a path of [Elf]
    that loads or rebuilds a table is [None].  libasm: SPARC, ARM and the AT&T output of IA-32.
    libedfmt: the readers of DWARF and stabs.  libmjollnir: the storage of the results in the
    file (ondisk.c), fingerprints and dumps.  librevm and libstderesi: the language, its virtual
    machine, the access to the objects and the commands.  liballocproxy and libregex are
    vendored. *)
From stdpp Require Export base decidable option list gmap strings pretty.
From Stdlib Require Export ZArith Lia.

#[global] Set Default Goal Selector "!".

(** ** Machine integers

    A C integer of [w] bits is a [Z]; conversions wrap as the compilers the
    project targets wrap them (two's complement). *)

Declare Scope eresi_scope.
Delimit Scope eresi_scope with eresi.
Open Scope Z_scope.
Open Scope eresi_scope.

Definition wrapu (w z : Z) : Z := z mod 2 ^ w.
Definition wraps (w z : Z) : Z := (z + 2 ^ (w - 1)) mod 2 ^ w - 2 ^ (w - 1).

Abbreviation u8 := (wrapu 8).
Abbreviation u16 := (wrapu 16).
Abbreviation u32 := (wrapu 32).
Abbreviation u64 := (wrapu 64).
Abbreviation i8 := (wraps 8).
Abbreviation i16 := (wraps 16).
Abbreviation i32 := (wraps 32).
Abbreviation i64 := (wraps 64).

Infix "&&&" := Z.land (at level 40, left associativity) : eresi_scope.
Infix "|||" := Z.lor (at level 50, left associativity) : eresi_scope.

Create HintDb cint.

Lemma wrapu_range w z : 0 ≤ w → 0 ≤ wrapu w z < 2 ^ w.
Proof. intros ?. apply Z.mod_pos_bound. lia. Qed.

Lemma wrapu_small w z : 0 ≤ z < 2 ^ w → wrapu w z = z.
Proof. apply Z.mod_small. Qed.

Lemma wrapu_wrapu w z : 0 ≤ w → wrapu w (wrapu w z) = wrapu w z.
Proof. intros ?. apply wrapu_small, wrapu_range. done. Qed.

Lemma wrapu_wraps w z : wrapu w (wraps w z) = wrapu w z.
Proof. unfold wrapu, wraps. rewrite Zminus_mod_idemp_l. f_equal. lia. Qed.

Lemma wraps_range w z : 0 < w → - 2 ^ (w - 1) ≤ wraps w z < 2 ^ (w - 1).
Proof.
  intros ?. unfold wraps.
  assert (2 ^ w = 2 * 2 ^ (w - 1)) as Hw by (rewrite <-Z.pow_succ_r by lia; f_equal; lia).
  pose proof (Z.mod_pos_bound (z + 2 ^ (w - 1)) (2 ^ w)). lia.
Qed.

Lemma wraps_small w z : 0 < w → - 2 ^ (w - 1) ≤ z < 2 ^ (w - 1) → wraps w z = z.
Proof.
  intros ? ?. unfold wraps.
  assert (2 ^ w = 2 * 2 ^ (w - 1)) as Hw by (rewrite <-Z.pow_succ_r by lia; f_equal; lia).
  rewrite Z.mod_small; lia.
Qed.

Lemma wrapu_unique w z r k : 0 ≤ r < 2 ^ w → z = r + k * 2 ^ w → wrapu w z = r.
Proof. intros Hr ->. unfold wrapu. by rewrite Z.mod_add, Z.mod_small by lia. Qed.

Lemma wraps_unique w z r k :
  0 < w → - 2 ^ (w - 1) ≤ r < 2 ^ (w - 1) → z = r + k * 2 ^ w → wraps w z = r.
Proof.
  intros Hw Hr ->. unfold wraps. rewrite <-(wraps_small w r) at 2 by done. unfold wraps.
  replace (r + k * 2 ^ w + 2 ^ (w - 1)) with (r + 2 ^ (w - 1) + k * 2 ^ w) by lia.
  by rewrite Z.mod_add by lia.
Qed.

(** A wrapped number differs from the number by a multiple of [2 ^ w]. *)
Lemma wraps_eq w z : wraps w z = z - 2 ^ w * ((z + 2 ^ (w - 1)) / 2 ^ w).
Proof.
  unfold wraps. destruct (decide (2 ^ w = 0)) as [E |].
  - rewrite E, Z.mod_0_r. lia.
  - rewrite Z.mod_eq by done. lia.
Qed.

#[export] Hint Resolve wrapu_range wraps_range : cint.

(** Masks, and the union of bits that do not overlap. *)

Lemma land_255 x : x &&& 255 = x mod 256.
Proof. change 255 with (Z.ones 8). rewrite Z.land_ones by lia. done. Qed.

Lemma land_byte x k : 0 ≤ k → x &&& (255 ≪ k) = ((x / 2 ^ k) mod 256) * 2 ^ k.
Proof.
  intros Hk. rewrite <-land_255, <-Z.shiftr_div_pow2, <-Z.shiftl_mul_pow2 by done.
  apply Z.bits_inj'. intros n Hn. rewrite Z.land_spec, !Z.shiftl_spec by done.
  destruct (Z.ltb_spec n k).
  - rewrite !(Z.testbit_neg_r _ (n - k)) by lia. by rewrite andb_false_r.
  - rewrite Z.land_spec, Z.shiftr_spec by lia. do 2 f_equal. lia.
Qed.

Lemma lor_low q r k : 0 ≤ k → 0 ≤ r < 2 ^ k → (q * 2 ^ k) ||| r = q * 2 ^ k + r.
Proof.
  intros Hk Hr. rewrite <-Z.shiftl_mul_pow2 by done.
  rewrite <-Z.lxor_lor, <-Z.add_nocarry_lxor; [done | |].
  all: apply Z.bits_inj'; intros n Hn; rewrite Z.land_spec, Z.shiftl_spec, Z.bits_0 by done.
  all: destruct (Z.ltb_spec n k); [by rewrite (Z.testbit_neg_r q) by lia |].
  all: rewrite <-(Z.mod_small r (2 ^ k)) by done.
  all: by rewrite Z.mod_pow2_bits_high, andb_false_r by lia.
Qed.

(** A plain [char] is signed on the targets of the project. *)
Definition schar (c : Ascii.ascii) : Z := i8 (Z.of_N (Ascii.N_of_ascii c)).

(** ** Undefined behaviour

    A computation is an [option]: [None] is a behaviour C leaves undefined (a
    NULL or out-of-bounds access, a division by zero, a failed [assert]), and
    stdpp's option monad sequences them. *)

Definition guard_ub (b : bool) : option unit := if b then Some tt else None.

(** [a[i] = x] on an array of the length of [a]. *)
Definition store {A} (a : list A) (i : nat) (x : A) : option (list A) :=
  if bool_decide (i < length a)%nat then Some (<[i := x]> a) else None.

Lemma store_Some {A} (a : list A) i x :
  (i < length a)%nat → store a i x = Some (<[i := x]> a).
Proof. intros ?. unfold store. by rewrite bool_decide_true. Qed.

(** ** C strings

    A string is the list of its bytes before the NUL. *)

Definition bytes (s : string) : list Z :=
  (λ c, Z.of_N (Ascii.N_of_ascii c)) <$> String.list_ascii_of_string s.

(** The string at the start of a buffer; without a NUL it is undefined. *)
Fixpoint cstr (buf : list Z) : option (list Z) :=
  match buf with
  | [] => None
  | c :: buf => if c =? 0 then Some [] else cons c <$> cstr buf
  end.

Lemma cstr_app s rest : Forall (λ c, 0 < c < 256) s → cstr (s ++ 0 :: rest) = Some s.
Proof.
  induction 1 as [| c s Hc _ IH]; [done |]. cbn [app cstr].
  rewrite (proj2 (Z.eqb_neq _ _)) by lia. by rewrite IH.
Qed.

(** ** Tactics *)

(** Split the binds, tests and matches of the hypotheses of an execution. *)
Ltac c_step :=
  match goal with
  | H : Some _ = Some _ |- _ => injection H as H; subst
  | H : None = Some _ |- _ => discriminate H
  | H : Some _ = None |- _ => discriminate H
  | H : (_, _) = (_, _) |- _ => injection H as H; subst
  | H : context [mbind _ ?x] |- _ => destruct x eqn:?; simpl in H
  | H : context [match ?x with _ => _ end] |- _ => destruct x eqn:?; simpl in H
  end.
(** Reduce the binds of the option monad and nothing else. *)
Ltac mstep := cbn [mbind option_bind mjoin option_join fmap option_fmap option_map].

Ltac c_run := simpl in *; repeat c_step.

(** ** Lists *)

Lemma insert_split {A} (l : list A) i x :
  l !! i = Some x →
  ∃ l1 l2, l = l1 ++ x :: l2 ∧ length l1 = i ∧ ∀ y, <[i := y]> l = l1 ++ y :: l2.
Proof.
  intros Hi. exists (take i l), (drop (S i) l).
  pose proof (lookup_lt_Some _ _ _ Hi) as Hlt.
  split_and!.
  - symmetry. by apply take_drop_middle.
  - rewrite length_take. lia.
  - intros y. apply insert_take_drop. done.
Qed.

Lemma mapM_lookup_seq {A} (l : list A) n :
  length l = n → mapM (λ i, l !! i) (seq 0 n) = Some l.
Proof.
  intros <-. apply mapM_Some, Forall2_same_length_lookup. split; [by rewrite length_seq |].
  intros i j y Hi Hy. apply lookup_seq in Hi as [-> _]. done.
Qed.

Lemma filter_imp_le {A} (f g : A → bool) (l : list A) :
  (∀ x, f x = true → g x = true) → (length (List.filter f l) ≤ length (List.filter g l))%nat.
Proof.
  intros Hfg. induction l as [| x l IH]; [done |]. cbn. specialize (Hfg x).
  destruct (f x); [rewrite Hfg by done; cbn; lia |]. destruct (g x); cbn; lia.
Qed.

Lemma filter_imp_lt {A} (f g : A → bool) (l : list A) x :
  (∀ x, f x = true → g x = true) → x ∈ l → f x = false → g x = true →
  (length (List.filter f l) < length (List.filter g l))%nat.
Proof.
  intros Hfg Hin Hf Hg. apply list_elem_of_split in Hin as (l1 & l2 & ->).
  rewrite !List.filter_app, !length_app. cbn. rewrite Hf, Hg. cbn.
  pose proof (filter_imp_le f g l1 Hfg). pose proof (filter_imp_le f g l2 Hfg). lia.
Qed.
