(* ===== verification/Table.v ===== *)
(** * The dictionary interface

    What the hash tables of libaspect promise to the components built on them
    (types, configuration, registries): operations on a table of [V] pointers,
    and the laws that make it a finite map from strings.  HashSpec.v gives the
    instance; clients are proved against the laws alone. *)
From S2P Require Import Prelude.

Class Table (T : Type → Type) := {
  t_create {V} : string → Z → Z → T V;
  t_get {V} : T V → string → option (option V);
  t_add {V} : T V → string → option V → option (T V * Z);
  t_set {V} : T V → string → option V → option (T V * Z);
  t_del {V} : T V → string → option (T V * Z);
  (** [t_repr h m]: the table [h] holds the pairs of [m]. *)
  t_repr {V} : T V → gmap string V → Prop;
  t_create_repr {V} nm sz ty : 0 < sz < 2 ^ 31 → t_repr (V := V) (t_create nm sz ty) ∅;
  t_get_repr {V} (h : T V) m k : t_repr h m → t_get h k = Some (m !! k);
  t_add_repr {V} (h : T V) m k v :
    t_repr h m → ∃ h' r, t_add h k (Some v) = Some (h', r) ∧ t_repr h' (<[k := v]> m);
  t_set_repr {V} (h : T V) m k v :
    t_repr h m → ∃ h' r, t_set h k (Some v) = Some (h', r) ∧ t_repr h' (<[k := v]> m);
  t_del_repr {V} (h : T V) m k :
    t_repr h m → ∃ h' r, t_del h k = Some (h', r) ∧ t_repr h' (delete k m);
}.

(** Run the next table operation of the goal through its law. *)
Ltac table_step :=
  match goal with
  | H : t_repr ?h ?m |- context [t_get ?h ?k] => rewrite (t_get_repr h m k H); mstep
  | H : t_repr ?h ?m |- context [t_add ?h ?k (Some ?v)] =>
      let h' := fresh "h" in let r := fresh "r" in
      destruct (t_add_repr h m k v H) as (h' & r & -> & ?); mstep
  | H : t_repr ?h ?m |- context [t_set ?h ?k (Some ?v)] =>
      let h' := fresh "h" in let r := fresh "r" in
      destruct (t_set_repr h m k v H) as (h' & r & -> & ?); mstep
  | H : t_repr ?h ?m |- context [t_del ?h ?k] =>
      let h' := fresh "h" in let r := fresh "r" in
      destruct (t_del_repr h m k H) as (h' & r & -> & ?); mstep
  end.
