(* ===== verification/Hash.v ===== *)
(** * Hash tables (src/libaspect/libhash.c)

    A table is an array of [size] list heads.  The head of a slot is stored in
    the array itself; further entries of the slot hang off its [next] pointer.
    The file gives the operations on one table; [HashSpec] shows that a
    well-formed table implements a finite map from strings to pointers. *)
From S2P Require Import Prelude.

Section defs.
Context {V : Type}.

(** ** State: [listent_t] and [hash_t]

    [data] is a [void *]: [None] is NULL.  The [next] chain of an entry is the
    list that follows it. *)
Record listent := Listent { key : option string; data : option V }.

Definition listent0 : listent := Listent None None.

(** A slot: the entry stored in the array, and its [next] chain. *)
Record slot := Slot { first : listent; next : list listent }.

Definition slot0 : slot := Slot listent0 [].

Definition chain_of (b : slot) : list listent := first b :: next b.

Record hash_t := Hash {
  ent : option (list slot);
  size : Z;
  elmnbr : Z;
  type : Z;
  linearity : Z;
  name : option string;
}.

Definition set_ent (t : option (list slot)) (h : hash_t) : hash_t :=
  Hash t (size h) (elmnbr h) (type h) (linearity h) (name h).
Definition set_elmnbr (n : Z) (h : hash_t) : hash_t :=
  Hash (ent h) (size h) n (type h) (linearity h) (name h).

(** ** Finding the slot of a key: [hash_get_head] *)

(** [for (index = 0; *backup; backup++) index += *backup;] on a [u_int]. *)
Fixpoint hash_sum (index : Z) (backup : string) : Z :=
  match backup with
  | EmptyString => index
  | String c backup => hash_sum (u32 (index + schar c)) backup
  end.

(** [index % h->size]: the [int] size is converted to [u_int]. *)
Definition hash_index (h : hash_t) (k : string) : option nat :=
  let m := u32 (size h) in
  if m =? 0 then None else Some (Z.to_nat (hash_sum 0 k mod m)).

Definition hash_get_head (h : hash_t) (k : string) : option (nat * slot) :=
  index ← hash_index h k;
  t ← ent h;
  actual ← t !! index;
  Some (index, actual).

(** [while (actual && actual->key && strcmp(actual->key, key)) actual =
    actual->next;] *)
Fixpoint walk (k : string) (actual : list listent) : option listent :=
  match actual with
  | [] => None
  | e :: next =>
      match key e with
      | None => Some e
      | Some k' => if bool_decide (k' = k) then Some e else walk k next
      end
  end.

Definition hash_get_ent (h : hash_t) (k : string) : option (option listent) :=
  '(_, actual) ← hash_get_head h k;
  Some (walk k (chain_of actual)).

Definition hash_get (h : hash_t) (k : string) : option (option V) :=
  '(_, actual) ← hash_get_head h k;
  Some (match walk k (chain_of actual) with Some e => data e | None => None end).

(** [&actual->data], as the slot and the rank of the entry in its chain. *)
Fixpoint walk_rank (k : string) (actual : list listent) (rank : nat) : option nat :=
  match actual with
  | [] => None
  | e :: next =>
      match key e with
      | None => Some rank
      | Some k' => if bool_decide (k' = k) then Some rank else walk_rank k next (S rank)
      end
  end.

Definition hash_select (h : hash_t) (k : string) : option (option (nat * nat)) :=
  '(index, actual) ← hash_get_head h k;
  Some (pair index <$> walk_rank k (chain_of actual) 0).

(** ** Updates *)

Definition set_slot (h : hash_t) (index : nat) (b : slot) : hash_t :=
  set_ent (<[index := b]> <$> ent h) h.

(** [ent->data = data] on the entry [walk] stops at. *)
Fixpoint walk_set (k : string) (d : option V) (actual : list listent) : list listent :=
  match actual with
  | [] => []
  | e :: next =>
      match key e with
      | None => Listent (key e) d :: next
      | Some k' =>
          if bool_decide (k' = k) then Listent (key e) d :: next
          else e :: walk_set k d next
      end
  end.

Definition slot_of (c : list listent) : slot :=
  match c with e :: next => Slot e next | [] => slot0 end.

(** [hash_set], over the [hash_add] it calls when the key has no entry. *)
Definition hash_set_with (add : hash_t → string → option V → option (hash_t * Z))
    (h : hash_t) (k : string) (d : option V) : option (hash_t * Z) :=
  e ← hash_get_ent h k;
  match e with
  | None | Some (Listent None None) => add h k d
  | Some _ =>
      '(index, actual) ← hash_get_head h k;
      Some (set_slot h index (slot_of (walk_set k d (chain_of actual))), 0)
  end.

(** The insertion of a new entry by [hash_add]: in the array when the slot is
    free, else at the end of the chain. *)
Definition hash_insert (h : hash_t) (k : string) (d : option V) : option (hash_t * Z) :=
  index ← hash_index h k;
  t ← ent h;
  b ← t !! index;
  let b' :=
    match key (first b) with
    | None => Slot (Listent (Some k) d) (next b)
    | Some _ => Slot (first b) (next b ++ [Listent (Some k) d])
    end in
  Some (set_elmnbr (elmnbr h + 1) (set_slot h index b'), i32 (Z.of_nat index)).

(** [hash_add] and [hash_set] call each other; [fuel] bounds the nesting and
    [hash_add_fuel] shows that one level is enough. *)
Fixpoint hash_add_rec (fuel : nat) (h : hash_t) (k : string) (d : option V) :
    option (hash_t * Z) :=
  match fuel with
  | O => None
  | S fuel =>
      actual ← hash_get h k;
      match actual with
      | Some _ => hash_set_with (hash_add_rec fuel) h k d
      | None => hash_insert h k d
      end
  end.

Definition hash_add_to (h : hash_t) (k : string) (d : option V) : option (hash_t * Z) :=
  hash_add_rec 1 h k d.

(** [hash_add] with its test of NULL arguments. *)
Definition hash_add (h : option hash_t) (k : option string) (d : option V) :
    option (option hash_t * Z) :=
  match h, k with
  | Some h, Some k => '(h', ret) ← hash_add_to h k d; Some (Some h', ret)
  | _, _ => Some (h, -1)
  end.

Definition hash_set (h : hash_t) (k : string) (d : option V) : option (hash_t * Z) :=
  hash_set_with hash_add_to h k d.

(** [while (actual->next && actual->next->key && strcmp(...)) actual =
    actual->next;] then unlinking [actual->next]: the chain without the entry
    the loop stops before, if any. *)
Fixpoint unlink (k : string) (next : list listent) : option (list listent) :=
  match next with
  | [] => None
  | e :: next' =>
      match key e with
      | None => Some next'
      | Some k' =>
          if bool_decide (k' = k) then Some next' else cons e <$> unlink k next'
      end
  end.

Definition hash_del (h : hash_t) (k : string) : option (hash_t * Z) :=
  '(index, actual) ← hash_get_head h k;
  if bool_decide (key (first actual) = Some k) then
    let b' := match next actual with e :: next' => Slot e next' | [] => slot0 end in
    Some (set_elmnbr (elmnbr h - 1) (set_slot h index b'), 0)
  else
    match unlink k (next actual) with
    | None => Some (h, -1)
    | Some next' =>
        Some (set_elmnbr (elmnbr h - 1) (set_slot h index (Slot (first actual) next')), 0)
    end.

(** ** Iteration *)

(** The entries a [for (actual = ...; actual && actual->key; actual =
    actual->next)] loop visits. *)
Fixpoint live (actual : list listent) : list (string * option V) :=
  match actual with
  | [] => []
  | e :: next => match key e with None => [] | Some k => (k, data e) :: live next end
  end.

(** The slots [h->ent[0]] to [h->ent[h->size - 1]]. *)
Definition slots (h : hash_t) : option (list slot) :=
  mapM (λ i, default [] (ent h) !! i) (seq 0 (Z.to_nat (size h))).

Definition entries (h : hash_t) : option (list (string * option V)) :=
  bs ← slots h; Some (mjoin ((live ∘ chain_of) <$> bs)).

(** The writes of [keys[last]], then [keys[last] = NULL], in the array of
    [elmnbr + 1] pointers; a write past its end is undefined. *)
Fixpoint fill_keys (keys : list (option string)) (last : nat) (l : list string) :
    option (list (option string)) :=
  match l with
  | [] => store keys last None
  | k :: l => keys ← store keys last (Some k); fill_keys keys (S last) l
  end.

(** The returned array ([None] is NULL) and [*n]. *)
Definition hash_get_keys (h : option hash_t) :
    option (option (list (option string)) * Z) :=
  match h with
  | None => Some (None, 0)
  | Some h =>
      if elmnbr h =? 0 then Some (None, 0)
      else
        l ← entries h;
        keys ← fill_keys (replicate (Z.to_nat (elmnbr h + 1)) None) 0 l.*1;
        Some (Some keys, elmnbr h)
  end.

(** [hash_apply]: [func] may write the entry it is given and its argument. *)
Fixpoint apply_chain {P} (func : listent → P → listent * P * Z)
    (actual : list listent) (ptr : P) (ret : Z) : list listent * P * Z :=
  match actual with
  | [] => ([], ptr, ret)
  | e :: next =>
      match key e with
      | None => (e :: next, ptr, ret)
      | Some _ =>
          let '(e', ptr, r) := func e ptr in
          let '(next', ptr, ret) := apply_chain func next ptr (Z.lor ret r) in
          (e' :: next', ptr, ret)
      end
  end.

Fixpoint apply_slots {P} (func : listent → P → listent * P * Z)
    (bs : list slot) (ptr : P) (ret : Z) : list slot * P * Z :=
  match bs with
  | [] => ([], ptr, ret)
  | b :: bs =>
      let '(c, ptr, ret) := apply_chain func (chain_of b) ptr ret in
      let '(bs', ptr, ret) := apply_slots func bs ptr ret in
      (slot_of c :: bs', ptr, ret)
  end.

Definition hash_apply {P} (h : hash_t) (ptr : P) (func : listent → P → listent * P * Z) :
    option (hash_t * P * Z) :=
  bs ← slots h;
  let '(bs', ptr, ret) := apply_slots func bs ptr 0 in
  Some (set_ent ((λ t, bs' ++ drop (length bs') t) <$> ent h) h, ptr, ret).

(** ** Operations on two tables *)

Section compare.
Context `{EqDecision V}.

(** [m++] for each entry of the first table whose data differ in the second;
    reading [bis->data] is undefined when [bis] is NULL. *)
Fixpoint compare_entries (two : hash_t) (l : list (string * option V)) (m : Z) : option Z :=
  match l with
  | [] => Some m
  | (k, d) :: l =>
      bis ← hash_get_ent two k;
      bis ← bis;
      compare_entries two l (if bool_decide (d = data bis) then m else m + 1)
  end.

Definition hash_compare (first two : hash_t) : option Z :=
  if bool_decide (size first = size two) then
    l ← entries first;
    m ← compare_entries two l 0;
    Some (if m =? 0 then 0 else -1)
  else Some (-1).
End compare.

(** [ret += ...] on a signed [int]: the overflow is undefined. *)
Definition int_add (a b : Z) : option Z :=
  if (- 2 ^ 31 <=? a + b) && (a + b <? 2 ^ 31) then Some (a + b) else None.

Fixpoint merge_entries (dst : hash_t) (l : list (string * option V)) (ret : Z) :
    option (hash_t * Z) :=
  match l with
  | [] => Some (dst, ret)
  | (k, d) :: l =>
      cur ← hash_get dst k;
      match cur with
      | Some _ => merge_entries dst l ret
      | None =>
          '(dst, r) ← hash_add_to dst k d;
          ret ← int_add ret r;
          merge_entries dst l ret
      end
  end.

Definition hash_merge (dst src : option hash_t) : option (option hash_t * Z) :=
  match dst, src with
  | Some d, Some s =>
      if elmnbr s =? 0 then Some (dst, 0)
      else l ← entries s; '(d', ret) ← merge_entries d l 0; Some (Some d', ret)
  | _, _ => Some (dst, 0)
  end.

(** The loop of [hash_inter] on [keys[idx]]; a NULL key is undefined. *)
Fixpoint inter_keys (dst src : hash_t) (keys : list (option string)) (ret : Z) :
    option (hash_t * Z) :=
  match keys with
  | [] => Some (dst, ret)
  | curkey :: keys =>
      curkey ← curkey;
      cur ← hash_get src curkey;
      match cur with
      | Some _ => inter_keys dst src keys ret
      | None => '(dst, r) ← hash_del dst curkey; inter_keys dst src keys (ret + r)
      end
  end.

Definition hash_inter (dst src : option hash_t) : option (option hash_t * Z) :=
  match dst, src with
  | Some d, Some s =>
      if (elmnbr s =? 0) || (elmnbr d =? 0) then Some (dst, 0)
      else
        '(keys, keynbr) ← hash_get_keys dst;
        keys ← keys;
        '(d', ret) ← inter_keys d s (take (Z.to_nat keynbr) keys) 0;
        Some (Some d', ret)
  | _, _ => Some (dst, 0)
  end.

Fixpoint unmerge_entries (dst : hash_t) (l : list (string * option V)) (ret : Z) :
    option (hash_t * Z) :=
  match l with
  | [] => Some (dst, ret)
  | (k, _) :: l =>
      cur ← hash_get dst k;
      match cur with
      | Some _ => '(dst, r) ← hash_del dst k; unmerge_entries dst l (ret + r)
      | None => unmerge_entries dst l ret
      end
  end.

Definition hash_unmerge (dst src : option hash_t) : option (option hash_t * Z) :=
  match dst, src with
  | Some d, Some s =>
      if elmnbr s =? 0 then Some (dst, 0)
      else l ← entries s; '(d', ret) ← unmerge_entries d l 0; Some (Some d', ret)
  | _, _ => Some (dst, 0)
  end.

(** ** Observers *)

Definition hash_size (h : option hash_t) : Z :=
  match h with Some h => elmnbr h | None => 0 end.

(** [hash_get(hash, keys[0])] *)
Definition first_data (h : hash_t) : option (option V) :=
  '(keys, _) ← hash_get_keys (Some h);
  keys ← keys;
  k ← mjoin (keys !! 0%nat);
  hash_get h k.

Definition hash_get_single (h : option hash_t) : option (option V) :=
  match h with
  | None => Some None
  | Some t => if hash_size h =? 1 then first_data t else Some None
  end.

Definition hash_get_one (h : option hash_t) : option (option V) :=
  match h with
  | None => Some None
  | Some t => if hash_size h =? 0 then Some None else first_data t
  end.

Definition hash_linearity_get (h : option hash_t) : Z :=
  match h with Some h => linearity h | None => 0 end.

Definition hash_linearity_set (h : option hash_t) (val : Z) : option hash_t :=
  (λ h, Hash (ent h) (size h) (elmnbr h) (type h) (u8 val) (name h)) <$> h.

(** The table part of [hash_init]: [size] zeroed entries. *)
Definition hash_create (nm : string) (sz ty : Z) : hash_t :=
  Hash (Some (replicate (Z.to_nat sz) slot0)) sz 0 ty 0 (Some nm).

End defs.

Arguments listent : clear implicits.
Arguments slot : clear implicits.
Arguments hash_t : clear implicits.
