(* ===== verification/HashSpec.v ===== *)
(** * Hash tables: well-formedness and refinement to finite maps *)
From S2P Require Import Prelude.
From S2P Require Import Hash.
From S2P Require Import Table.

(** All the entries of the slots [t], in the order of the iterations, and the
    entries a finite map stands for. *)
#[local] Abbreviation all t := (mjoin ((live ∘ chain_of) <$> t)).
#[local] Abbreviation pairs m := (prod_map id Some <$> map_to_list m).

Section spec.
Context {V : Type}.
Implicit Types (h : hash_t V) (t : list (slot V)) (b : slot V) (k : string) (d : option V).

(** A slot is free (all zero) or holds only entries with a key; the keys it
    holds are the ones that hash to it. *)
Definition slot_ok h (i : nat) b : Prop :=
  (b = slot0 ∨ Forall (λ e, is_Some (key e)) (chain_of b)) ∧
  ∀ k, k ∈ (live (chain_of b)).*1 → hash_index h k = Some i.

Record hash_wf h t : Prop := {
  wf_ent : ent h = Some t;
  wf_length : Z.of_nat (length t) = Hash.size h;
  wf_size : 0 < Hash.size h < 2 ^ 31;
  wf_slot i b : t !! i = Some b → slot_ok h i b;
  wf_nodup : NoDup (all t).*1;
  wf_elmnbr : elmnbr h = Z.of_nat (length (all t));
}.

(** The table [h] stores exactly the pairs of the finite map [m]. *)
Definition Repr h (m : gmap string V) : Prop :=
  ∃ t, hash_wf h t ∧ all t ≡ₚ prod_map id Some <$> map_to_list m.

(** ** Slots *)

Lemma hash_index_range h k :
  0 < Hash.size h < 2 ^ 31 →
  ∃ i, hash_index h k = Some i ∧ (Z.of_nat i < Hash.size h).
Proof.
  intros Hs. unfold hash_index. rewrite wrapu_small by lia.
  rewrite (proj2 (Z.eqb_neq _ _)) by lia. eexists. split; [done |].
  pose proof (Z.mod_pos_bound (hash_sum 0 k) (Hash.size h)). lia.
Qed.

Lemma hash_get_head_wf h t k :
  hash_wf h t →
  ∃ i b, hash_get_head h k = Some (i, b) ∧ t !! i = Some b ∧ hash_index h k = Some i.
Proof.
  intros [He Hl Hs _ _ _]. destruct (hash_index_range h k Hs) as (i & Hi & Hlt).
  destruct (lookup_lt_is_Some_2 t i) as [b Hb]; [lia |].
  exists i, b. unfold hash_get_head. by rewrite Hi, He; simpl; rewrite Hb.
Qed.

Lemma slots_wf h t : hash_wf h t → slots h = Some t.
Proof.
  intros [He Hl _ _ _ _]. unfold slots. rewrite He. simpl.
  apply mapM_lookup_seq. lia.
Qed.

Lemma entries_wf h t : hash_wf h t → entries h = Some (all t).
Proof. intros Hwf. unfold entries. by rewrite (slots_wf _ _ Hwf). Qed.

Lemma elem_of_all t (x : string * option V) :
  x ∈ all t ↔ ∃ i b, t !! i = Some b ∧ x ∈ live (chain_of b).
Proof.
  rewrite list_elem_of_join. split.
  - intros (l & Hx & Hl). apply list_elem_of_fmap in Hl as (b & -> & Hb).
    apply list_elem_of_lookup in Hb as [i Hi]. eauto.
  - intros (i & b & Hi & Hx). exists (live (chain_of b)). split; [done |].
    apply list_elem_of_fmap. exists b. split; [done |]. by eapply list_elem_of_lookup_2.
Qed.

(** An entry is in the slot of its key. *)
Lemma elem_of_slot h t k d i b :
  hash_wf h t → hash_index h k = Some i → t !! i = Some b →
  (k, d) ∈ all t ↔ (k, d) ∈ live (chain_of b).
Proof.
  intros Hwf Hi Hb. rewrite elem_of_all. split; [| eauto].
  intros (j & b' & Hj & Hin).
  assert (hash_index h k = Some j) as Hk.
  { apply (wf_slot _ _ Hwf _ _ Hj). apply list_elem_of_fmap. by exists (k, d). }
  by simplify_eq.
Qed.

Lemma all_insert t i b b' :
  t !! i = Some b →
  ∃ rest, all t ≡ₚ live (chain_of b) ++ rest ∧
          all (<[i := b']> t) ≡ₚ live (chain_of b') ++ rest.
Proof.
  intros Hi. destruct (insert_split _ _ _ Hi) as (t1 & t2 & -> & _ & Hins).
  exists (all t1 ++ all t2). rewrite Hins, !fmap_app, !fmap_cons, !join_app. simpl.
  split; by rewrite Permutation_app_swap_app.
Qed.

(** ** Chains *)

Definition keyed (c : list (listent V)) : Prop := Forall (λ e, is_Some (key e)) c.

Lemma live_keyed c : keyed c → live c = (λ e, (default "" (key e), data e)) <$> c.
Proof.
  induction 1 as [| [ko dd] c [k Hk] _ IH]; simpl in *; [done |]. subst. by rewrite IH.
Qed.

Lemma live_app c1 c2 : keyed c1 → live (c1 ++ c2) = live c1 ++ live c2.
Proof.
  induction 1 as [| [ko dd] c [k Hk] _ IH]; simpl in *; [done |]. subst. by rewrite IH.
Qed.

Lemma walk_in c k d :
  keyed c → NoDup (live c).*1 → (k, d) ∈ live c → walk k c = Some (Listent (Some k) d).
Proof.
  induction 1 as [| [ko dd] c [k' Hk] _ IH]; simpl in *; subst; simpl.
  { by intros _ ?%not_elem_of_nil. }
  intros [Hnot Hnd]%NoDup_cons [? | Hin]%elem_of_cons; simplify_eq.
  - by rewrite bool_decide_true.
  - rewrite bool_decide_false; [by apply IH |]. intros ->. apply Hnot, list_elem_of_fmap.
    by exists (k, d).
Qed.

Lemma walk_out c k : keyed c → k ∉ (live c).*1 → walk k c = None.
Proof.
  induction 1 as [| [ko dd] c [k' Hk] _ IH]; simpl in *; subst; simpl; [done |].
  intros [Hne Hnot]%not_elem_of_cons. rewrite bool_decide_false by done. by apply IH.
Qed.

Lemma walk_set_in c k d d' :
  keyed c → NoDup (live c).*1 → (k, d) ∈ live c →
  keyed (walk_set k d' c) ∧
  ∃ rest, live c ≡ₚ (k, d) :: rest ∧ live (walk_set k d' c) ≡ₚ (k, d') :: rest.
Proof.
  induction 1 as [| [ko dd] c [k' Hk] Hc IH]; simpl in *; subst; simpl.
  { by intros _ ?%not_elem_of_nil. }
  intros [Hnot Hnd]%NoDup_cons [? | Hin]%elem_of_cons; simplify_eq.
  - rewrite bool_decide_true by done. split; [by constructor |]. by exists (live c).
  - rewrite bool_decide_false.
    2: { intros ->. apply Hnot, list_elem_of_fmap. by exists (k, d). }
    destruct (IH Hnd Hin) as (Hk & rest & H1 & H2).
    split; [by constructor |]. exists ((k', dd) :: rest). simpl.
    by rewrite H1, H2, !(Permutation_swap _ (k', dd)).
Qed.

Lemma unlink_in c k d :
  keyed c → NoDup (live c).*1 → (k, d) ∈ live c →
  ∃ c', unlink k c = Some c' ∧ keyed c' ∧ live c ≡ₚ (k, d) :: live c'.
Proof.
  induction 1 as [| [ko dd] c [k' Hk] Hc IH]; simpl in *; subst; simpl.
  { by intros _ ?%not_elem_of_nil. }
  intros [Hnot Hnd]%NoDup_cons [? | Hin]%elem_of_cons; simplify_eq.
  - rewrite bool_decide_true by done. by exists c.
  - rewrite bool_decide_false.
    2: { intros ->. apply Hnot, list_elem_of_fmap. by exists (k, d). }
    destruct (IH Hnd Hin) as (c' & -> & Hk & Hp).
    exists (Listent (Some k') dd :: c'). simpl. split_and!; [done | by constructor |].
    by rewrite Hp, Permutation_swap.
Qed.

Lemma unlink_out c k : keyed c → k ∉ (live c).*1 → unlink k c = None.
Proof.
  induction 1 as [| [ko dd] c [k' Hk] _ IH]; simpl in *; subst; simpl; [done |].
  intros [Hne Hnot]%not_elem_of_cons. rewrite bool_decide_false by done. by rewrite IH.
Qed.

(** ** Replacing the slot of a key *)

Lemma hash_index_set_slot h i b n k :
  hash_index (set_elmnbr n (set_slot h i b)) k = hash_index h k.
Proof. done. Qed.

(** The slot [b] of [k] loses the entries [old] and gains [new]. *)
Lemma wf_replace h t i b b' old new k n :
  hash_wf h t → t !! i = Some b → hash_index h k = Some i →
  (b' = slot0 ∨ keyed (chain_of b')) →
  (∃ r, live (chain_of b) ≡ₚ old ++ r ∧ live (chain_of b') ≡ₚ new ++ r) →
  Forall (λ x, x.1 = k) new →
  ∃ rest, all t ≡ₚ old ++ rest ∧ all (<[i := b']> t) ≡ₚ new ++ rest ∧
    (NoDup (new ++ rest).*1 → n = Z.of_nat (length (new ++ rest)) →
     hash_wf (set_elmnbr n (set_slot h i b')) (<[i := b']> t)).
Proof.
  intros Hwf Hb Hi Hshape (r & Hold & Hnew) Hk.
  destruct (all_insert t i b b' Hb) as (rest & Ht & Ht').
  exists (r ++ rest). rewrite Ht, Ht', Hold, Hnew, <-!app_assoc. split_and!; [done.. |].
  intros Hnd Hn.
  assert (all (<[i := b']> t) ≡ₚ new ++ r ++ rest) as Hall by by rewrite Ht', Hnew, app_assoc.
  split; simpl.
  - by rewrite (wf_ent _ _ Hwf).
  - rewrite length_insert. apply Hwf.
  - apply Hwf.
  - intros j bj [(<- & -> & _) | (_ & Hj)]%list_lookup_insert_Some; [| by apply (wf_slot _ _ Hwf)].
    split; [done |]. intros k' Hk'. rewrite Hnew, fmap_app in Hk'.
    apply elem_of_app in Hk' as [Hk' | Hk'].
    + apply list_elem_of_fmap in Hk' as (x & -> & Hx).
      rewrite Forall_forall in Hk. by rewrite (Hk _ Hx).
    + apply (wf_slot _ _ Hwf _ _ Hb). rewrite Hold, fmap_app.
      apply elem_of_app. by right.
  - by rewrite Hall.
  - by rewrite Hall.
Qed.

Lemma set_elmnbr_id h : set_elmnbr (elmnbr h) h = h.
Proof. by destruct h. Qed.

(** ** Lookup *)

Lemma elem_of_pairs (m : gmap string V) k d :
  (k, d) ∈ pairs m ↔ ∃ v, d = Some v ∧ m !! k = Some v.
Proof.
  rewrite list_elem_of_fmap. split.
  - intros ([k' v] & ? & Hin%elem_of_map_to_list). simplify_eq/=. eauto.
  - intros (v & -> & Hv). exists (k, v). by rewrite elem_of_map_to_list.
Qed.

Lemma fst_pairs (m : gmap string V) : (pairs m).*1 = (map_to_list m).*1.
Proof. rewrite <-list_fmap_compose. by apply list_fmap_ext; intros ? []. Qed.

(** What the walk of a key meets in its slot. *)
Inductive slot_view h t k (m : gmap string V) : option V → Prop :=
| view_in i b v :
    hash_get_head h k = Some (i, b) → t !! i = Some b → hash_index h k = Some i →
    keyed (chain_of b) → NoDup (live (chain_of b)).*1 →
    m !! k = Some v → (k, Some v) ∈ live (chain_of b) →
    slot_view h t k m (Some v)
| view_free i :
    hash_get_head h k = Some (i, slot0) → t !! i = Some slot0 →
    hash_index h k = Some i → m !! k = None → slot_view h t k m None
| view_out i b :
    hash_get_head h k = Some (i, b) → t !! i = Some b → hash_index h k = Some i →
    keyed (chain_of b) → k ∉ (live (chain_of b)).*1 → m !! k = None →
    slot_view h t k m None.

Lemma live_sublist_all t i b : t !! i = Some b → ∃ rest, all t ≡ₚ live (chain_of b) ++ rest.
Proof. intros Hb. destruct (all_insert t i b b Hb) as (rest & ? & _). eauto. Qed.

Lemma slot_view_of h t m k :
  hash_wf h t → all t ≡ₚ pairs m → slot_view h t k m (m !! k).
Proof.
  intros Hwf Hm. destruct (hash_get_head_wf h t k Hwf) as (i & b & Hh & Hb & Hi).
  destruct (proj1 (wf_slot _ _ Hwf _ _ Hb)) as [-> | Hk].
  - destruct (m !! k) as [v |] eqn:Hv; [| by eapply view_free].
    assert ((k, Some v) ∈ all t) as Hin by (rewrite Hm; apply elem_of_pairs; eauto).
    rewrite (elem_of_slot h t k _ i _ Hwf Hi Hb) in Hin. by apply not_elem_of_nil in Hin.
  - destruct (live_sublist_all t i b Hb) as [rest Hrest].
    assert (NoDup (live (chain_of b)).*1) as Hnd.
    { pose proof (wf_nodup _ _ Hwf) as Hall. rewrite Hrest, fmap_app in Hall.
      by apply NoDup_app in Hall as [? _]. }
    destruct (m !! k) as [v |] eqn:Hv.
    + eapply view_in; try done. apply (elem_of_slot h t k _ i _ Hwf Hi Hb).
      rewrite Hm. apply elem_of_pairs. eauto.
    + eapply view_out; try done. intros ([k' d] & -> & Hin)%list_elem_of_fmap.
      apply (elem_of_slot h t _ _ i _ Hwf Hi Hb) in Hin. rewrite Hm in Hin.
      apply elem_of_pairs in Hin as (v & _ & Hv'). simpl in *. congruence.
Qed.

Lemma hash_get_wf_in h t k d : hash_wf h t → (k, d) ∈ all t → hash_get h k = Some d.
Proof.
  intros Hwf Hin. destruct (hash_get_head_wf h t k Hwf) as (i & b & Hh & Hb & Hi).
  unfold hash_get. rewrite Hh. mstep.
  rewrite (elem_of_slot h t k d i b Hwf Hi Hb) in Hin.
  destruct (live_sublist_all t i b Hb) as [rest Hrest].
  destruct (proj1 (wf_slot _ _ Hwf _ _ Hb)) as [-> | Hkey]; [by apply not_elem_of_nil in Hin |].
  rewrite (walk_in _ k d Hkey); [done | | done].
  pose proof (wf_nodup _ _ Hwf) as Hnd. rewrite Hrest, fmap_app in Hnd.
  by apply NoDup_app in Hnd as [? _].
Qed.

Lemma hash_get_Repr h m k : Repr h m → hash_get h k = Some (m !! k).
Proof.
  intros (t & Hwf & Hm). unfold hash_get.
  destruct (slot_view_of h t m k Hwf Hm) as [i b v Hh _ _ Hk Hnd _ Hin | i Hh _ _ _ | i b Hh _ _ Hk Hout _];
    rewrite Hh; mstep.
  - by rewrite (walk_in _ _ _ Hk Hnd Hin).
  - done.
  - by rewrite (walk_out _ _ Hk Hout).
Qed.

Lemma Repr_elmnbr h m : Repr h m → elmnbr h = Z.of_nat (base.size m).
Proof.
  intros (t & Hwf & Hm). rewrite (wf_elmnbr _ _ Hwf), Hm, length_fmap.
  by rewrite length_map_to_list.
Qed.

(** ** Updates *)

(** The fields an update of the entries leaves alone. *)
Definition same_meta h h' : Prop :=
  Hash.size h' = Hash.size h ∧ type h' = type h ∧
  linearity h' = linearity h ∧ name h' = name h.

Lemma pairs_insert (m : gmap string V) k v :
  m !! k = None → pairs (<[k := v]> m) ≡ₚ (k, Some v) :: pairs m.
Proof. intros Hk. by rewrite (map_to_list_insert m k v Hk). Qed.

Lemma pairs_delete (m : gmap string V) k v :
  m !! k = Some v → pairs m ≡ₚ (k, Some v) :: pairs (delete k m).
Proof. intros Hk. by rewrite <-(map_to_list_delete m k v Hk). Qed.

Lemma nodup_pairs (m : gmap string V) : NoDup (pairs m).*1.
Proof. rewrite fst_pairs. apply NoDup_fst_map_to_list. Qed.

(** The slot of [k] exchanges [old] for [new]: the table then represents any
    map whose pairs do the same. *)
Lemma Repr_replace h t m m' i b b' old new k n :
  hash_wf h t → all t ≡ₚ pairs m →
  t !! i = Some b → hash_index h k = Some i →
  (b' = slot0 ∨ keyed (chain_of b')) →
  (∃ r, live (chain_of b) ≡ₚ old ++ r ∧ live (chain_of b') ≡ₚ new ++ r) →
  Forall (λ x, x.1 = k) new →
  (∀ rest, pairs m ≡ₚ old ++ rest → pairs m' ≡ₚ new ++ rest) →
  n = Z.of_nat (base.size m') →
  Repr (set_elmnbr n (set_slot h i b')) m'.
Proof.
  intros Hwf Hm Hb Hi Hshape Hr Hnew Hm' ->.
  destruct (wf_replace h t i b b' old new k (Z.of_nat (base.size m')) Hwf Hb Hi Hshape Hr Hnew)
    as (rest & Hold & Hall & Hwf').
  specialize (Hm' rest). rewrite <-Hm, Hold in Hm'. specialize (Hm' (reflexivity _)).
  exists (<[i := b']> t). split; [apply Hwf' | by rewrite Hall, Hm'].
  - rewrite <-Hm'. apply nodup_pairs.
  - by rewrite <-Hm', length_fmap, length_map_to_list.
Qed.

(** [hash_insert] stores the entry whatever its pointer and whether or not the
    key is there already. *)
Lemma hash_insert_wf h t k d :
  hash_wf h t →
  ∃ h' t' i, hash_insert h k d = Some (h', Z.of_nat i) ∧ hash_index h k = Some i ∧
    same_meta h h' ∧ elmnbr h' = elmnbr h + 1 ∧
    ent h' = Some t' ∧ length t' = length t ∧ all t' ≡ₚ (k, d) :: all t ∧
    (k ∉ (all t).*1 → hash_wf h' t').
Proof.
  intros Hwf. destruct (hash_get_head_wf h t k Hwf) as (i & b & _ & Hb & Hi).
  pose proof (wf_size _ _ Hwf) as Hs. pose proof (wf_length _ _ Hwf) as Hlen.
  pose proof (lookup_lt_Some _ _ _ Hb) as Hlt.
  set (b' := match key (first b) with
             | None => Slot (Listent (Some k) d) (next b)
             | Some _ => Slot (first b) (next b ++ [Listent (Some k) d])
             end).
  assert (keyed (chain_of b') ∧ live (chain_of b') ≡ₚ [(k, d)] ++ live (chain_of b)) as [Hk' Hl'].
  { unfold b'. destruct (proj1 (wf_slot _ _ Hwf _ _ Hb)) as [-> | Hk].
    - split; [| done]. repeat constructor; eauto.
    - pose proof (Forall_cons_1 _ _ _ Hk) as [[k0 Hk0] Hc]. rewrite Hk0. split.
      + constructor; [simpl; eauto |]. apply Forall_app. split; [done |]. repeat constructor; eauto.
      + change (chain_of (Slot _ _)) with (chain_of b ++ [Listent (Some k) d]).
        rewrite live_app by done. by rewrite (comm (++)). }
  destruct (wf_replace h t i b b' [] [(k, d)] k (elmnbr h + 1) Hwf Hb Hi)
    as (rest & Hold & Hall & Hwf'); [by right | by exists (live (chain_of b)) | by constructor |].
  exists (set_elmnbr (elmnbr h + 1) (set_slot h i b')), (<[i := b']> t), i.
  split_and!; [| done.. | | | |]; simpl.
  - unfold hash_insert. rewrite Hi, (wf_ent _ _ Hwf). mstep. rewrite Hb. mstep. fold b'.
    do 2 f_equal. apply wraps_small; simpl; lia.
  - by rewrite (wf_ent _ _ Hwf).
  - apply length_insert.
  - by rewrite Hall, Hold.
  - intros Hnot. apply Hwf'.
    + simpl. constructor; [by rewrite <-Hold |]. rewrite <-Hold. apply Hwf.
    + rewrite (wf_elmnbr _ _ Hwf), Hold. simpl. lia.
Qed.

Lemma not_elem_of_pairs (m : gmap string V) k : m !! k = None → k ∉ (pairs m).*1.
Proof.
  rewrite fst_pairs, list_elem_of_fmap. intros Hk ([k' v] & -> & Hv%elem_of_map_to_list). simpl in *.
  congruence.
Qed.

Lemma hash_insert_Repr h m k v :
  Repr h m → m !! k = None →
  ∃ h' i, hash_insert h k (Some v) = Some (h', Z.of_nat i) ∧ hash_index h k = Some i ∧
    Repr h' (<[k := v]> m) ∧ same_meta h h'.
Proof.
  intros (t & Hwf & Hm) Hnone.
  destruct (hash_insert_wf h t k (Some v) Hwf) as (h' & t' & i & ? & ? & ? & _ & _ & _ & Hall & Hwf').
  exists h', i. split_and!; [done.. | | done]. exists t'. split.
  - apply Hwf'. rewrite Hm. by apply not_elem_of_pairs.
  - by rewrite Hall, Hm, pairs_insert.
Qed.

Lemma hash_set_with_Repr add h m k v v0 :
  Repr h m → m !! k = Some v0 →
  ∃ h', hash_set_with add h k (Some v) = Some (h', 0) ∧
    Repr h' (<[k := v]> m) ∧ same_meta h h'.
Proof.
  intros HR Hv0. pose proof (Repr_elmnbr _ _ HR) as Hn. destruct HR as (t & Hwf & Hm).
  pose proof (slot_view_of h t m k Hwf Hm) as Hview. rewrite Hv0 in Hview.
  inversion Hview as [i b v' Hh Hb Hi Hk Hnd _ Hin | |]; subst.
  unfold hash_set_with, hash_get_ent. rewrite Hh. mstep.
  rewrite (walk_in _ _ _ Hk Hnd Hin).
  destruct (walk_set_in _ _ _ (Some v) Hk Hnd Hin) as (Hk' & rest & Hl & Hl').
  eexists. split_and!; [done | | done].
  rewrite <-(set_elmnbr_id (set_slot _ _ _)).
  destruct (walk_set k (Some v) (chain_of b)) as [| e c] eqn:Hc.
  { by apply Permutation_nil_cons in Hl'. }
  eapply (Repr_replace h t m _ i b _ [(k, Some v0)] [(k, Some v)] k); try done.
  - by right.
  - by exists rest.
  - by constructor.
  - intros rest' Hr. rewrite <-insert_delete_eq, pairs_insert by apply lookup_delete_eq.
    rewrite (pairs_delete m k v0) in Hr by done. by apply Permutation_cons_inv in Hr as ->.
  - simpl. rewrite Hn, map_size_insert_Some by done. done.
Qed.

Lemma hash_add_to_Repr h m k v :
  Repr h m →
  ∃ h' r, hash_add_to h k (Some v) = Some (h', r) ∧
    Repr h' (<[k := v]> m) ∧ same_meta h h' ∧
    match m !! k with
    | Some _ => r = 0
    | None => ∃ i, hash_index h k = Some i ∧ r = Z.of_nat i
    end.
Proof.
  intros HR. unfold hash_add_to. simpl. rewrite (hash_get_Repr _ _ _ HR). simpl.
  destruct (m !! k) as [v0 |] eqn:Hv0.
  - destruct (hash_set_with_Repr (λ _ _ _, None) h m k v v0 HR Hv0) as (h' & -> & ? & ?).
    by exists h', 0.
  - destruct (hash_insert_Repr h m k v HR Hv0) as (h' & i & -> & ? & ? & ?).
    exists h', (Z.of_nat i). split_and!; [done.. |]. eauto.
Qed.

Lemma hash_set_Repr h m k v :
  Repr h m →
  ∃ h' r, hash_set h k (Some v) = Some (h', r) ∧ Repr h' (<[k := v]> m) ∧ same_meta h h'.
Proof.
  intros HR. unfold hash_set. destruct (m !! k) as [v0 |] eqn:Hv0.
  - destruct (hash_set_with_Repr hash_add_to h m k v v0 HR Hv0) as (h' & -> & ? & ?). eauto.
  - destruct (hash_add_to_Repr h m k v HR) as (h' & r & Hadd & ? & ? & _).
    exists h', r. split; [| done].
    destruct HR as (t & Hwf & Hm).
    pose proof (slot_view_of h t m k Hwf Hm) as Hview. rewrite Hv0 in Hview.
    unfold hash_set_with, hash_get_ent.
    inversion Hview as [| i Hh _ _ _ | i b Hh _ _ Hk Hout _]; subst; rewrite Hh; mstep.
    + done.
    + by rewrite (walk_out _ _ Hk Hout).
Qed.

Lemma hash_del_Repr h m k :
  Repr h m →
  ∃ h', hash_del h k = Some (h', if bool_decide (is_Some (m !! k)) then 0 else -1) ∧
    Repr h' (delete k m) ∧ same_meta h h'.
Proof.
  intros HR. pose proof (Repr_elmnbr _ _ HR) as Hn. pose proof HR as (t & Hwf & Hm).
  unfold hash_del.
  destruct (slot_view_of h t m k Hwf Hm)
    as [i b v Hh Hb Hi Hk Hnd Hv Hin | i Hh _ _ Hv | i b Hh _ _ Hk Hout Hv]; rewrite Hh; mstep.
  - assert (∀ b', (b' = slot0 ∨ keyed (chain_of b')) →
              live (chain_of b) ≡ₚ (k, Some v) :: live (chain_of b') →
              Repr (set_elmnbr (elmnbr h - 1) (set_slot h i b')) (delete k m)) as Hdel.
    { intros b' Hb' Hl. eapply (Repr_replace h t m _ i b _ [(k, Some v)] [] k); try done.
      - by exists (live (chain_of b')).
      - intros rest Hr. rewrite (pairs_delete m k v) in Hr by done.
        by apply Permutation_cons_inv in Hr.
      - rewrite Hn, map_size_delete_Some by done.
        assert (base.size m ≠ 0%nat) by by eapply map_size_ne_0_lookup_2. lia. }
    destruct b as [[k0 d0] c]. apply Forall_cons in Hk as [[k1 ?] Hc]. simplify_eq/=.
    apply NoDup_cons in Hnd as [Hnot Hnd].
    destruct (decide (k1 = k)) as [-> | Hne].
    + rewrite bool_decide_true by done. eexists. split_and!; [done | | done].
      apply elem_of_cons in Hin as [? | Hin]; simplify_eq.
      2: { destruct Hnot. apply list_elem_of_fmap. by exists (k, Some v). }
      apply Hdel; destruct c; [by left | by right | done..].
    + rewrite bool_decide_false by congruence.
      apply elem_of_cons in Hin as [? | Hin]; simplify_eq.
      destruct (unlink_in _ _ _ Hc Hnd Hin) as (c' & -> & Hc' & Hl).
      eexists. split_and!; [done | | done].
      apply Hdel; [right; constructor; simpl; eauto |]. unfold chain_of. simpl.
      by rewrite Hl, Permutation_swap.
  - exists h. simpl. by rewrite delete_id.
  - exists h. destruct b as [[k0 d0] c]. apply Forall_cons in Hk as [[k1 ?] Hc]. simplify_eq/=.
    apply not_elem_of_cons in Hout as [Hne Hout].
    rewrite bool_decide_false by congruence. rewrite (unlink_out _ _ Hc Hout).
    by rewrite delete_id.
Qed.

(** ** Creation *)

Lemma mjoin_free n : all (replicate n (@slot0 V)) = [].
Proof. induction n; simpl; auto. Qed.

Lemma hash_create_Repr nm sz ty : 0 < sz < 2 ^ 31 → Repr (hash_create nm sz ty) ∅.
Proof.
  intros Hsz. exists (replicate (Z.to_nat sz) slot0). rewrite mjoin_free, map_to_list_empty.
  split; [| done]. split; simpl; rewrite ?mjoin_free; try done.
  - rewrite length_replicate. lia.
  - intros i b [-> _]%lookup_replicate. split; [by left |]. by intros k ?%not_elem_of_nil.
  - constructor.
Qed.

(** ** Walking one table *)

Lemma entries_Repr h m : Repr h m → ∃ l, entries h = Some l ∧ l ≡ₚ pairs m.
Proof. intros (t & Hwf & Hm). exists (all t). split; [by apply entries_wf | done]. Qed.

Lemma fill_keys_fits (l : list string) (pre : list (option string)) n :
  n = S (length l) →
  fill_keys (pre ++ replicate n None) (length pre) l =
    Some (pre ++ (Some <$> l) ++ [None]).
Proof.
  revert pre n. induction l as [| k l IH]; intros pre n ->; simpl.
  - rewrite store_Some by (rewrite length_app; simpl; lia).
    f_equal. by apply list_insert_id'; intros _; rewrite lookup_app_r, Nat.sub_diag by lia.
  - rewrite store_Some by (rewrite length_app; simpl; lia). mstep.
    replace (<[length pre := Some k]> (pre ++ None :: None :: replicate (length l) None))
      with ((pre ++ [Some k]) ++ replicate (S (length l)) (@None string)).
    2: { rewrite insert_app_r_alt, Nat.sub_diag by lia. simpl. by rewrite <-app_assoc. }
    replace (S (length pre)) with (length (pre ++ [Some k])) by (rewrite length_app; simpl; lia).
    rewrite IH by done. by rewrite <-app_assoc.
Qed.

Lemma fill_keys_new (l : list string) n :
  n = S (length l) → fill_keys (replicate n None) 0 l = Some ((Some <$> l) ++ [None]).
Proof. apply (fill_keys_fits l []). Qed.

Lemma hash_get_keys_Repr h m :
  Repr h m → m ≠ ∅ →
  ∃ ks, hash_get_keys (Some h) = Some (Some ((Some <$> ks) ++ [None]), Z.of_nat (length ks)) ∧
    ks ≡ₚ (map_to_list m).*1.
Proof.
  intros HR Hne. destruct (entries_Repr h m HR) as (l & Hl & Hp).
  exists l.*1. split; [| by rewrite Hp, fst_pairs].
  assert (Z.of_nat (length l) = elmnbr h) as Hlen.
  { by rewrite Hp, length_fmap, length_map_to_list, (Repr_elmnbr _ _ HR). }
  unfold hash_get_keys. rewrite (proj2 (Z.eqb_neq _ _)).
  2: { rewrite (Repr_elmnbr _ _ HR). intros ?. apply Hne, map_size_empty_inv. lia. }
  rewrite Hl. mstep.
  rewrite fill_keys_new by (rewrite length_fmap; lia). mstep. by rewrite length_fmap, Hlen.
Qed.

Lemma first_data_Repr h m :
  Repr h m → m ≠ ∅ → ∃ k v, first_data h = Some (Some v) ∧ m !! k = Some v.
Proof.
  intros HR Hne. destruct (hash_get_keys_Repr h m HR Hne) as (ks & Hks & Hp).
  unfold first_data. rewrite Hks. mstep.
  destruct ks as [| k ks].
  { apply Permutation_nil in Hp. apply fmap_nil_inv in Hp. by apply map_to_list_empty_iff in Hp. }
  assert (k ∈ (map_to_list m).*1) as ([k' v] & -> & Hv)%list_elem_of_fmap by (rewrite <-Hp; by left).
  apply elem_of_map_to_list in Hv. exists k', v. simpl. by rewrite (hash_get_Repr _ _ _ HR), Hv.
Qed.

(** What [hash_get_ent] meets: the entry, the zeroed head of a free slot, or the
    end of the chain of a slot that holds other keys. *)
Lemma hash_get_ent_Repr h m k :
  Repr h m →
  match m !! k with
  | Some v => hash_get_ent h k = Some (Some (Listent (Some k) (Some v)))
  | None =>
      (hash_get_ent h k = Some (Some listent0) ∧
       ∀ k', is_Some (m !! k') → hash_index h k' ≠ hash_index h k) ∨
      (hash_get_ent h k = Some None ∧
       ∃ k', is_Some (m !! k') ∧ hash_index h k' = hash_index h k)
  end.
Proof.
  intros (t & Hwf & Hm). unfold hash_get_ent.
  destruct (slot_view_of h t m k Hwf Hm)
    as [i b v Hh _ _ Hk Hnd _ Hin | i Hh Hb Hi _ | i b Hh Hb Hi Hk Hout _]; rewrite Hh; mstep.
  - by rewrite (walk_in _ _ _ Hk Hnd Hin).
  - left. split; [done |]. rewrite Hi. intros k' [v' Hv'] Hi'.
    assert ((k', Some v') ∈ all t) as Hin by (rewrite Hm; apply elem_of_pairs; eauto).
    rewrite (elem_of_slot h t k' _ i _ Hwf Hi' Hb) in Hin. by apply not_elem_of_nil in Hin.
  - right. rewrite (walk_out _ _ Hk Hout). split; [done |].
    destruct b as [[k0 d0] c]. apply Forall_cons in Hk as [[k1 ?] _]. simplify_eq/=.
    assert ((k1, d0) ∈ all t) as Hin.
    { apply elem_of_all. exists i. eexists. split; [done |]. by left. }
    exists k1. split.
    + rewrite Hm in Hin. apply elem_of_pairs in Hin as (v & _ & ?). eauto.
    + rewrite Hi. apply (wf_slot _ _ Hwf _ _ Hb). by left.
Qed.

Lemma elem_of_keys (l : list (string * option V)) (m : gmap string V) k :
  l ≡ₚ pairs m → k ∈ l.*1 ↔ is_Some (m !! k).
Proof.
  intros ->. rewrite fst_pairs, list_elem_of_fmap. split.
  - intros ([k' v] & -> & Hv%elem_of_map_to_list). eauto.
  - intros [v Hv]. exists (k, v). by rewrite elem_of_map_to_list.
Qed.

(** ** Two tables *)

(** The pairs of a list of entries none of which is NULL. *)
Definition strip (l : list (string * option V)) : list (string * V) :=
  omap (λ x, pair x.1 <$> x.2) l.

Lemma strip_pairs (l : list (string * option V)) (m : gmap string V) :
  l ≡ₚ pairs m → Forall (λ x, is_Some x.2) l ∧ strip l ≡ₚ map_to_list m.
Proof.
  intros Hl. split.
  - rewrite Hl. apply Forall_fmap, Forall_true. intros [? ?]. simpl. eauto.
  - unfold strip. rewrite Hl. clear Hl.
    induction (map_to_list m) as [| [k v] l' IH]; simpl; [done |]. by rewrite IH.
Qed.

Lemma list_to_map_strip (l : list (string * option V)) (m : gmap string V) :
  l ≡ₚ pairs m → list_to_map (strip l) = m.
Proof.
  intros Hl. destruct (strip_pairs l m Hl) as [_ Hs].
  rewrite <-(list_to_map_to_list m). apply list_to_map_proper; [| done].
  rewrite Hs. apply NoDup_fst_map_to_list.
Qed.

(** The sum of the slots of some keys, which [hash_merge] returns. *)
Definition slot_sum (h : hash_t V) (ks : list string) : Z :=
  foldr (λ k s, default 0 (Z.of_nat <$> hash_index h k) + s) 0 ks.

Lemma hash_index_meta h h' k : Hash.size h' = Hash.size h → hash_index h' k = hash_index h k.
Proof. unfold hash_index. by intros ->. Qed.

Lemma slot_sum_meta h h' ks : Hash.size h' = Hash.size h → slot_sum h' ks = slot_sum h ks.
Proof.
  intros Hs. induction ks as [| k ks IH]; [done |]. simpl. by rewrite (hash_index_meta h h'), IH.
Qed.

Lemma slot_sum_perm h ks ks' : ks ≡ₚ ks' → slot_sum h ks = slot_sum h ks'.
Proof. unfold slot_sum. induction 1; simpl; lia. Qed.

Lemma slot_sum_pos h ks : 0 ≤ slot_sum h ks.
Proof. induction ks as [| k ks IH]; simpl; [lia |]. destruct (hash_index h k); simpl; lia. Qed.

Lemma slot_sum_le h ks : 0 ≤ Hash.size h → slot_sum h ks ≤ Hash.size h * Z.of_nat (length ks).
Proof.
  intros Hs. induction ks as [| k ks IH]; [simpl; lia |]. cbn [slot_sum foldr length]. fold (slot_sum h ks).
  enough (default 0 (Z.of_nat <$> hash_index h k) ≤ Hash.size h) by lia.
  unfold hash_index. case_match eqn:Hm; [done |]. cbn [fmap option_fmap option_map default from_option id].
  pose proof (wrapu_range 32 (Hash.size h) ltac:(lia)).
  pose proof (Z.mod_pos_bound (hash_sum 0 k) (u32 (Hash.size h)) ltac:(lia)).
  pose proof (Z.mod_le (Hash.size h) (2 ^ 32) Hs ltac:(lia)). unfold wrapu in *. lia.
Qed.

Lemma int_add_pos x y : 0 ≤ x → 0 ≤ y →
  int_add x y = if bool_decide (x + y < 2 ^ 31) then Some (x + y) else None.
Proof.
  intros ? ?. unfold int_add. rewrite (proj2 (Z.leb_le _ _)) by lia. cbn [andb].
  case_bool_decide; [rewrite (proj2 (Z.ltb_lt _ _)) by lia | rewrite (proj2 (Z.ltb_ge _ _)) by lia]; done.
Qed.

(** The keys of a list that a table lacks. *)
Definition lacking (m : gmap string V) (ks : list string) : list string :=
  filter (λ k, m !! k = None) ks.

Lemma lacking_insert (m : gmap string V) k v ks :
  k ∉ ks → lacking (<[k := v]> m) ks = lacking m ks.
Proof.
  intros Hk. unfold lacking. induction ks as [| k' ks IH]; [done |].
  apply not_elem_of_cons in Hk as [Hne Hk]. rewrite !filter_cons, IH by done.
  by rewrite lookup_insert_ne.
Qed.

Lemma merge_entries_Repr (l : list (string * option V)) h (m : gmap string V) ret :
  Repr h m → Forall (λ x, is_Some x.2) l → NoDup l.*1 → 0 ≤ ret < 2 ^ 31 →
  let r := ret + slot_sum h (lacking m l.*1) in
  if bool_decide (r < 2 ^ 31) then
    ∃ h', merge_entries h l ret = Some (h', r) ∧
      Repr h' (m ∪ list_to_map (strip l)) ∧ same_meta h h'
  else merge_entries h l ret = None.
Proof.
  intros HR Hl. revert h m ret HR.
  induction Hl as [| [k d] l [v Hd] _ IH]; intros h m ret HR Hnd Hret.
  { simpl. rewrite Z.add_0_r, bool_decide_true by lia.
    exists h. by rewrite (right_id_L ∅ (∪)). }
  simpl in Hd. subst d. rewrite fmap_cons in *. cbn [fst] in *. apply NoDup_cons in Hnd as [Hk' Hnd].
  cbn [merge_entries]. rewrite (hash_get_Repr _ _ _ HR). mstep.
  unfold lacking. rewrite filter_cons. fold (lacking m l.*1). destruct (m !! k) as [v0 |] eqn:Hk.
  - rewrite decide_False by done. cbv zeta. pose proof (IH h m ret HR Hnd Hret) as IHm. cbv zeta in IHm.
    case_bool_decide; [| done]. destruct IHm as (h' & ? & HR' & ?). exists h'. split_and!; [done | | done].
    eapply (eq_rect _ (Repr h')); [exact HR' |]. apply map_eq. intros k'.
    cbn [strip omap list_omap snd fmap option_fmap option_map fst]. fold (strip l).
    rewrite list_to_map_cons, !lookup_union, lookup_insert.
    case_decide; [| done]. subst. rewrite Hk.
    by destruct ((list_to_map (strip l) : gmap string V) !! k').
  - rewrite decide_True by done. cbv zeta.
    destruct (hash_add_to_Repr h m k v HR) as (h1 & r1 & -> & HR1 & Hmeta & Hr1). mstep.
    rewrite Hk in Hr1. destruct Hr1 as (i & Hi & ->).
    cbn [slot_sum foldr]. fold (slot_sum h (lacking m l.*1)). rewrite Hi. cbn [fmap option_fmap option_map default from_option id].
    rewrite int_add_pos by lia. pose proof (slot_sum_pos h (lacking m l.*1)) as Hpos.
    destruct (bool_decide (ret + Z.of_nat i < 2 ^ 31)) eqn:Hlt; mstep.
    2: { apply bool_decide_eq_false in Hlt. rewrite bool_decide_false by lia. done. }
    apply bool_decide_eq_true in Hlt.
    pose proof (IH h1 _ (ret + Z.of_nat i) HR1 Hnd ltac:(lia)) as IHm. cbv zeta in IHm.
    rewrite lacking_insert, (slot_sum_meta h h1), <-Z.add_assoc in IHm by (done || apply Hmeta).
    case_bool_decide; [| done]. destruct IHm as (h' & -> & HR' & Hmeta'). exists h'. split_and!; [done | |].
    + cbn [strip omap list_omap snd fmap option_fmap option_map fst]. fold (strip l).
      by rewrite list_to_map_cons, <-insert_union_r, insert_union_l.
    + unfold same_meta in *. destruct_and!. split_and!; congruence.
Qed.

(** The keys [hash_merge] adds. *)
Definition new_keys (m1 m2 : gmap string V) : list string := (map_to_list (m2 ∖ m1)).*1.

Lemma lacking_new (l : list (string * option V)) (m1 m2 : gmap string V) :
  l ≡ₚ pairs m2 → lacking m1 l.*1 ≡ₚ new_keys m1 m2.
Proof.
  intros Hl. apply NoDup_Permutation.
  - apply NoDup_filter. rewrite Hl. apply nodup_pairs.
  - apply NoDup_fst_map_to_list.
  - intros k. unfold lacking, new_keys. rewrite list_elem_of_filter, (elem_of_keys l m2 k Hl), <-fst_pairs.
    rewrite (elem_of_keys _ (m2 ∖ m1) k (reflexivity _)), lookup_difference_is_Some. tauto.
Qed.

Lemma hash_merge_Repr h1 h2 m1 m2 :
  Repr h1 m1 → Repr h2 m2 →
  let r := slot_sum h1 (new_keys m1 m2) in
  if bool_decide (r < 2 ^ 31) then
    ∃ h', hash_merge (Some h1) (Some h2) = Some (Some h', r) ∧ Repr h' (m1 ∪ m2) ∧ same_meta h1 h'
  else hash_merge (Some h1) (Some h2) = None.
Proof.
  intros HR1 HR2 r. unfold hash_merge. rewrite (Repr_elmnbr _ _ HR2).
  destruct (Z.of_nat (base.size m2) =? 0) eqn:Hsz.
  { apply Z.eqb_eq in Hsz. assert (m2 = ∅) as -> by (apply map_size_empty_inv; lia).
    assert (r = 0) as Hr by (subst r; unfold new_keys; by replace (∅ ∖ m1) with (∅ : gmap string V)
      by (apply map_eq; intros k; by rewrite lookup_difference, lookup_empty; case_match)).
    rewrite Hr, bool_decide_true by lia.
    exists h1. by rewrite (right_id_L ∅ (∪)). }
  destruct (entries_Repr h2 m2 HR2) as (l & -> & Hl). mstep.
  destruct (strip_pairs l m2 Hl) as [Hsome _].
  pose proof (merge_entries_Repr l h1 m1 0 HR1 Hsome ltac:(rewrite Hl; apply nodup_pairs) ltac:(lia)) as Hm.
  cbv zeta in Hm. rewrite Z.add_0_l, (slot_sum_perm h1 _ _ (lacking_new l m1 m2 Hl)) in Hm. fold r in Hm.
  case_bool_decide; [| by rewrite Hm].
  destruct Hm as (h' & -> & HR' & ?). rewrite (list_to_map_strip l m2 Hl) in HR'. by exists h'.
Qed.

Lemma Repr_size h (m : gmap string V) : Repr h m → 0 < Hash.size h < 2 ^ 31.
Proof. by intros (t & [_ _ ? _ _ _] & _). Qed.

(** Few enough keys for any slots. *)
Lemma hash_merge_small h1 h2 m1 m2 :
  Repr h1 m1 → Repr h2 m2 → Hash.size h1 * Z.of_nat (base.size m2) < 2 ^ 31 →
  ∃ h' r, hash_merge (Some h1) (Some h2) = Some (Some h', r) ∧ Repr h' (m1 ∪ m2) ∧ same_meta h1 h'.
Proof.
  intros HR1 HR2 Hb. pose proof (hash_merge_Repr h1 h2 m1 m2 HR1 HR2) as Hm. cbv zeta in Hm.
  pose proof (Repr_size _ _ HR1) as Hs.
  pose proof (slot_sum_le h1 (new_keys m1 m2) ltac:(lia)) as Hle.
  assert (length (new_keys m1 m2) ≤ base.size m2)%nat as Hn.
  { unfold new_keys. rewrite length_fmap, length_map_to_list. apply map_subseteq_size, map_subseteq_difference_l, reflexivity. }
  rewrite bool_decide_true in Hm by nia. destruct Hm as (h' & ? & ? & ?). by eexists h', _.
Qed.

Lemma same_meta_trans h h1 h2 : same_meta h h1 → same_meta h1 h2 → same_meta h h2.
Proof. unfold same_meta. intros ? ?. destruct_and!. split_and!; congruence. Qed.

Lemma inter_keys_Repr src (m2 : gmap string V) (ks : list string) h (m : gmap string V) ret :
  Repr src m2 → Repr h m → Forall (λ k, is_Some (m !! k)) ks → NoDup ks →
  ∃ h' m', inter_keys h src (Some <$> ks) ret = Some (h', ret) ∧ same_meta h h' ∧
    Repr h' m' ∧
    ∀ k, m' !! k = if bool_decide (k ∈ ks ∧ m2 !! k = None) then None else m !! k.
Proof.
  intros Hsrc. revert h m ret. induction ks as [| k ks IH]; intros h m ret HR Hin Hnd.
  { exists h, m. split_and!; [done.. |]. intros k. rewrite bool_decide_false; [done |].
    by intros [?%not_elem_of_nil _]. }
  cbn [inter_keys fmap list_fmap]. mstep.
  rewrite (hash_get_Repr _ _ _ Hsrc). mstep.
  apply Forall_cons in Hin as [Hk Hin]. apply NoDup_cons in Hnd as [Hnot Hnd].
  destruct (m2 !! k) as [v2 |] eqn:Hk2.
  - destruct (IH h m ret HR Hin Hnd) as (h' & m' & -> & ? & HR' & Hm').
    exists h', m'. split_and!; [done.. |]. intros k'. rewrite Hm'.
    erewrite bool_decide_ext; [done |]. rewrite elem_of_cons. intuition congruence.
  - destruct (hash_del_Repr h m k HR) as (h1 & -> & HR1 & Hmeta). mstep.
    rewrite bool_decide_true, Z.add_0_r by done.
    destruct (IH h1 _ ret HR1) as (h' & m' & -> & Hmeta' & HR' & Hm'); [| done |].
    { rewrite Forall_forall in Hin |- *. intros k' Hk'. rewrite lookup_delete_ne; [by apply Hin |].
      by intros ->. }
    exists h', m'. split_and!; [done | by eapply same_meta_trans | done |].
    intros k'. rewrite Hm'. destruct (decide (k' = k)) as [-> | Hne].
    + rewrite lookup_delete_eq, (bool_decide_true (k ∈ k :: ks ∧ _)) by (split; [by left | done]).
      by case_match.
    + rewrite lookup_delete_ne by done.
      erewrite bool_decide_ext; [done |]. rewrite elem_of_cons. intuition congruence.
Qed.

Lemma unmerge_entries_Repr (l : list (string * option V)) h (m : gmap string V) ret :
  Repr h m →
  ∃ h' m', unmerge_entries h l ret = Some (h', ret) ∧ same_meta h h' ∧ Repr h' m' ∧
    ∀ k, m' !! k = if bool_decide (k ∈ l.*1) then None else m !! k.
Proof.
  revert h m ret. induction l as [| [k d] l IH]; intros h m ret HR.
  { exists h, m. split_and!; done. }
  cbn [unmerge_entries fmap list_fmap fst].
  rewrite (hash_get_Repr _ _ _ HR). mstep. destruct (m !! k) as [v |] eqn:Hk.
  - destruct (hash_del_Repr h m k HR) as (h1 & -> & HR1 & Hmeta). mstep.
    rewrite Hk, bool_decide_true, Z.add_0_r by done.
    destruct (IH h1 _ ret HR1) as (h' & m' & -> & Hmeta' & HR' & Hm').
    exists h', m'. split_and!; [done | by eapply same_meta_trans | done |].
    intros k'. rewrite Hm'. destruct (decide (k' = k)) as [-> | Hne].
    + rewrite lookup_delete_eq, (bool_decide_true (k ∈ k :: _)) by by left. by case_match.
    + rewrite lookup_delete_ne by done.
      erewrite bool_decide_ext; [done |]. rewrite elem_of_cons. intuition congruence.
  - destruct (IH h m ret HR) as (h' & m' & -> & ? & HR' & Hm').
    exists h', m'. split_and!; [done.. |]. intros k'. rewrite Hm'.
    destruct (decide (k' = k)) as [-> | Hne].
    + rewrite Hk, (bool_decide_true (k ∈ k :: _)) by by left. by case_match.
    + erewrite bool_decide_ext; [done |]. rewrite elem_of_cons. intuition congruence.
Qed.

(** ** Comparison *)

Section compare.
Context `{EqDecision V}.

Lemma compare_entries_Repr (l : list (string * option V)) two (m2 : gmap string V) n :
  Repr two m2 → Forall (λ x, is_Some x.2) l →
  (∃ k, k ∈ l.*1 ∧ hash_get_ent two k = Some None) ∧ compare_entries two l n = None ∨
  (∀ k, k ∈ l.*1 → hash_get_ent two k ≠ Some None) ∧
  ∃ m, compare_entries two l n = Some m ∧ n ≤ m ∧
    (m = n ↔ ∀ k v, (k, Some v) ∈ l → m2 !! k = Some v).
Proof.
  intros HR Hl. revert n. induction Hl as [| [k d] l [v Hd] _ IH]; intros n; simpl in *; subst.
  { right. split; [by intros ? ?%not_elem_of_nil |]. exists n. split_and!; [done.. |].
    split; [by intros _ ? ? ?%not_elem_of_nil | done]. }
  pose proof (hash_get_ent_Repr two m2 k HR) as Hk.
  assert (∀ e, hash_get_ent two k = Some (Some e) → data e = m2 !! k →
    (∃ k', k' ∈ k :: l.*1 ∧ hash_get_ent two k' = Some None) ∧
      compare_entries two l (if bool_decide (Some v = data e) then n else n + 1) = None ∨
    (∀ k', k' ∈ k :: l.*1 → hash_get_ent two k' ≠ Some None) ∧
    ∃ m, compare_entries two l (if bool_decide (Some v = data e) then n else n + 1) = Some m ∧
      n ≤ m ∧ (m = n ↔ ∀ k' v', (k', Some v') ∈ (k, Some v) :: l → m2 !! k' = Some v'))
    as Hstep.
  { intros e He Hd.
    destruct (IH (if bool_decide (Some v = data e) then n else n + 1))
      as [[(k' & Hk' & Hnull) Hnone] | (Hall & m & Hm & Hle & Hiff)].
    - left. split; [| done]. exists k'. split; [by right | done].
    - right. split.
      { intros k' [-> | Hk']%elem_of_cons; [by rewrite He | by apply Hall]. }
      exists m. split; [done |]. rewrite Hd in *. case_bool_decide as Hv.
      + split; [done |]. rewrite Hiff. split; intros Hx k' v'.
        * intros [? | ?]%elem_of_cons; simplify_eq; [done | by apply Hx].
        * intros ?. apply Hx. by right.
      + split; [lia |]. split; [lia |]. intros Hx. destruct Hv. symmetry. apply Hx. by left. }
  destruct (m2 !! k) as [v2 |] eqn:Hk2.
  - rewrite Hk. mstep. by apply (Hstep _ Hk).
  - destruct Hk as [[Hk _] | [Hk _]]; rewrite Hk; mstep.
    + by apply (Hstep _ Hk).
    + left. split; [| done]. exists k. split; [by left | done].
Qed.
End compare.

End spec.

(** ** The dictionary interface *)

Section laws.
Context {V : Type}.
Implicit Types (h : hash_t V) (m : gmap string V) (k : string).

Lemma hash_add_law h m k v :
  Repr h m → ∃ h' r, hash_add_to h k (Some v) = Some (h', r) ∧ Repr h' (<[k := v]> m).
Proof. intros HR. destruct (hash_add_to_Repr h m k v HR) as (h' & r & ? & ? & _). eauto. Qed.

Lemma hash_set_law h m k v :
  Repr h m → ∃ h' r, hash_set h k (Some v) = Some (h', r) ∧ Repr h' (<[k := v]> m).
Proof. intros HR. destruct (hash_set_Repr h m k v HR) as (h' & r & ? & ? & _). eauto. Qed.

Lemma hash_del_law h m k :
  Repr h m → ∃ h' r, hash_del h k = Some (h', r) ∧ Repr h' (delete k m).
Proof. intros HR. destruct (hash_del_Repr h m k HR) as (h' & ? & ? & _). eauto. Qed.
End laws.

#[export] Instance hash_Table : Table hash_t := {
  t_create V := @hash_create V;
  t_get V := @hash_get V;
  t_add V := @hash_add_to V;
  t_set V := @hash_set V;
  t_del V := @hash_del V;
  t_repr V := @Repr V;
  t_create_repr V := @hash_create_Repr V;
  t_get_repr V := @hash_get_Repr V;
  t_add_repr V := @hash_add_law V;
  t_set_repr V := @hash_set_law V;
  t_del_repr V := @hash_del_law V;
}.

(** ** Nesting of [hash_add] and [hash_set] *)

Lemma hash_add_fuel {V} n (h : hash_t V) k d :
  hash_add_rec (S n) h k d = hash_add_to h k d.
Proof.
  unfold hash_add_to. cbn [hash_add_rec]. unfold hash_get, hash_set_with, hash_get_ent.
  destruct (hash_get_head h k) as [[i b] |]; mstep; [| done].
  destruct (walk k (chain_of b)) as [[[k' |] [d' |]] |]; mstep; done.
Qed.

(** ** Properties *)

Section properties.
Context {V : Type}.
Implicit Types (h : hash_t V) (m : gmap string V) (k : string).

(** C1. [hash_add] on a well-formed table inserts the binding: the table then
    represents the map with the key bound to the new pointer (an existing
    binding is replaced, and 0 returned; otherwise the slot number is), and its
    size, type, linearity and name are untouched. *)
Theorem hash_add_refines h m k v :
  Repr h m →
  ∃ h' r, hash_add (Some h) (Some k) (Some v) = Some (Some h', r) ∧
    Repr h' (<[k := v]> m) ∧ same_meta h h' ∧
    match m !! k with
    | Some _ => r = 0
    | None => ∃ i, hash_index h k = Some i ∧ r = Z.of_nat i
    end.
Proof.
  intros HR. destruct (hash_add_to_Repr h m k v HR) as (h' & r & Hadd & ? & ? & ?).
  exists h', r. cbn [hash_add]. by rewrite Hadd.
Qed.

(** C2. [hash_del] removes the binding of the key, if any, and reports with 0 or
    -1 whether there was one; the other bindings, in the slot or elsewhere,
    survive the copy of the second entry over the head. *)
Theorem hash_del_refines h m k :
  Repr h m →
  ∃ h' r, hash_del h k = Some (h', r) ∧ Repr h' (delete k m) ∧ same_meta h h' ∧
    (r = 0 ↔ is_Some (m !! k)) ∧ (r = -1 ↔ m !! k = None).
Proof.
  intros HR. destruct (hash_del_Repr h m k HR) as (h' & Hdel & ? & ?).
  exists h', (if bool_decide (is_Some (m !! k)) then 0 else -1).
  split_and!; [done.. | |]; case_bool_decide as Hk; try done; [by destruct Hk as [? ->] |].
  split; [intros _ | done]. by apply eq_None_not_Some.
Qed.

(** C3. [hash_get_keys] on a non-empty table returns an array of exactly the
    keys, each once, closed by NULL, and its number; no write leaves the
    [elmnbr + 1] pointers allocated for it.  On an empty table it returns NULL. *)
Theorem hash_get_keys_complete h m :
  Repr h m →
  (m = ∅ → hash_get_keys (Some h) = Some (None, 0)) ∧
  (m ≠ ∅ → ∃ ks,
     hash_get_keys (Some h) = Some (Some ((Some <$> ks) ++ [None]), Z.of_nat (base.size m)) ∧
     NoDup ks ∧ ∀ k, k ∈ ks ↔ is_Some (m !! k)).
Proof.
  intros HR. split.
  - intros ->. unfold hash_get_keys. by rewrite (Repr_elmnbr _ _ HR).
  - intros Hne. destruct (hash_get_keys_Repr h m HR Hne) as (ks & Hks & Hp).
    exists ks. rewrite Hks, <-length_map_to_list, <-(length_fmap fst), <-Hp. split_and!; [done | |].
    + rewrite Hp. apply NoDup_fst_map_to_list.
    + intros k. rewrite Hp, <-fst_pairs. by apply elem_of_keys.
Qed.

(** C4. [hash_merge] adds to the destination the bindings of the source whose
    key it lacks: the result represents the union, the destination's bindings
    having precedence, and the value returned is the sum of the slots of the
    keys added, as long as an [int] holds it; when it does not, the addition
    overflows and the call is undefined. *)
Theorem hash_merge_union h1 h2 m1 m2 :
  Repr h1 m1 → Repr h2 m2 →
  let r := slot_sum h1 (new_keys m1 m2) in
  if bool_decide (r < 2 ^ 31) then
    ∃ h', hash_merge (Some h1) (Some h2) = Some (Some h', r) ∧ Repr h' (m1 ∪ m2) ∧ same_meta h1 h'
  else hash_merge (Some h1) (Some h2) = None.
Proof. apply hash_merge_Repr. Qed.

(** [hash_inter] keeps of the destination the bindings whose key the source
    has: the intersection, except that an empty source leaves the destination
    whole instead of emptying it. *)
Lemma hash_inter_intersection h1 h2 m1 m2 :
  Repr h1 m1 → Repr h2 m2 →
  ∃ h', hash_inter (Some h1) (Some h2) = Some (Some h', 0) ∧ same_meta h1 h' ∧
    Repr h' (if bool_decide (m2 = ∅) then m1 else m1 ∩ m2).
Proof.
  intros HR1 HR2. unfold hash_inter.
  rewrite (Repr_elmnbr _ _ HR1), (Repr_elmnbr _ _ HR2).
  case_bool_decide as Hm2; [subst; by exists h1 |].
  rewrite (proj2 (Z.eqb_neq (Z.of_nat (base.size m2)) 0)).
  2: { intros ?. apply Hm2, map_size_empty_inv. lia. }
  destruct (decide (m1 = ∅)) as [-> | Hm1].
  { exists h1. by rewrite (left_absorb_L ∅ (∩)). }
  rewrite (proj2 (Z.eqb_neq (Z.of_nat (base.size m1)) 0)).
  2: { intros ?. apply Hm1, map_size_empty_inv. lia. }
  cbn [orb]. destruct (hash_get_keys_Repr h1 m1 HR1 Hm1) as (ks & Hks & Hp).
  rewrite Hks. mstep. rewrite Nat2Z.id, take_app_length' by by rewrite length_fmap.
  destruct (inter_keys_Repr h2 m2 ks h1 m1 0 HR2 HR1) as (h' & m' & -> & ? & HR' & Hm').
  - rewrite Forall_forall. intros k. rewrite Hp, <-fst_pairs. by apply elem_of_keys.
  - rewrite Hp. apply NoDup_fst_map_to_list.
  - exists h'. split_and!; [done.. |]. replace (m1 ∩ m2) with m'; [done |].
    apply map_eq. intros k. rewrite Hm', lookup_intersection.
    case_bool_decide as Hk; [by destruct Hk as [_ ->]; destruct (m1 !! k) |].
    destruct (m1 !! k) as [v |] eqn:Hv; [| done]. destruct (m2 !! k) eqn:Hv2; [done |].
    destruct Hk. split; [| done]. rewrite Hp, <-fst_pairs. apply (elem_of_keys _ m1); eauto.
Qed.

(** [hash_unmerge] deletes from the destination every key of the source: the
    result represents the difference. *)
Lemma hash_unmerge_difference h1 h2 m1 m2 :
  Repr h1 m1 → Repr h2 m2 →
  ∃ h', hash_unmerge (Some h1) (Some h2) = Some (Some h', 0) ∧ same_meta h1 h' ∧
    Repr h' (m1 ∖ m2).
Proof.
  intros HR1 HR2. unfold hash_unmerge. rewrite (Repr_elmnbr _ _ HR2).
  case_match eqn:Hsz.
  { exists h1. replace m2 with (∅ : gmap string V).
    2: { symmetry. apply map_size_empty_inv. lia. }
    by rewrite map_difference_empty. }
  destruct (entries_Repr h2 m2 HR2) as (l & -> & Hl). mstep.
  destruct (unmerge_entries_Repr l h1 m1 0 HR1) as (h' & m' & -> & ? & HR' & Hm').
  exists h'. split_and!; [done.. |]. replace (m1 ∖ m2) with m'; [done |].
  apply map_eq. intros k. rewrite Hm', lookup_difference.
  case_bool_decide as Hin; rewrite (elem_of_keys l m2) in Hin by done; [by destruct Hin as [? ->] |].
  apply eq_None_not_Some in Hin as ->. done.
Qed.

(** [hash_compare] of two tables of one size answers 0 exactly when every
    binding of the first is one of the second (the converse is not looked at)
    and -1 otherwise; it dereferences NULL exactly when a key of the first table
    is missing from the second and its slot there holds other keys. *)
Lemma hash_compare_inclusion `{EqDecision V} h1 h2 m1 m2 :
  Repr h1 m1 → Repr h2 m2 → Hash.size h1 = Hash.size h2 →
  (hash_compare h1 h2 = None ↔
     ∃ k k', is_Some (m1 !! k) ∧ m2 !! k = None ∧
       is_Some (m2 !! k') ∧ hash_index h2 k' = hash_index h2 k) ∧
  (hash_compare h1 h2 ≠ None →
     hash_compare h1 h2 = Some (if bool_decide (m1 ⊆ m2) then 0 else -1)).
Proof.
  intros HR1 HR2 Hsz. unfold hash_compare. rewrite bool_decide_true by done.
  destruct (entries_Repr h1 m1 HR1) as (l & -> & Hl). mstep.
  destruct (strip_pairs l m1 Hl) as [Hsome _].
  pose proof (λ k, elem_of_keys l m1 k Hl) as Hk.
  assert (∀ k, hash_get_ent h2 k = Some None ↔
     m2 !! k = None ∧ ∃ k', is_Some (m2 !! k') ∧ hash_index h2 k' = hash_index h2 k) as Hent.
  { intros k. pose proof (hash_get_ent_Repr h2 m2 k HR2) as He.
    destruct (m2 !! k); [rewrite He; split; [done | by intros [? _]] |].
    destruct He as [[-> Hno] | [-> Hyes]]; [| done].
    split; [done |]. intros (_ & k' & Hk' & Hi). by destruct (Hno k'). }
  destruct (compare_entries_Repr l h2 m2 0 HR2 Hsome)
    as [[(k & Hin & Hnull) ->] | (Hnn & n & -> & Hle & Hiff)]; mstep.
  - split; [| done]. split; [intros _ | done].
    apply Hent in Hnull as (? & k' & ? & ?). exists k, k'. by rewrite <-Hk.
  - split.
    + split; [done |]. intros (k & k' & Hin & Hno & Hk' & Hi).
      destruct (Hnn k); [by rewrite Hk |]. apply Hent. eauto.
    + intros _. f_equal.
      assert (n = 0 ↔ m1 ⊆ m2) as Heq.
      { rewrite Hiff, map_subseteq_spec. split; intros Hx k v.
        - intros Hv. apply Hx. rewrite Hl. apply elem_of_pairs. eauto.
        - rewrite Hl. intros (v' & ? & ?)%elem_of_pairs. simplify_eq. by apply Hx. }
      destruct (Z.eqb_spec n 0) as [-> | Hn].
      * by rewrite bool_decide_true by by apply Heq.
      * rewrite bool_decide_false; [done |]. by rewrite <-Heq.
Qed.

(** A NULL pointer defeats the test for an existing key: adding a key with
    NULL twice stores it twice, and counts it twice. *)
Lemma hash_add_null_twice h m k :
  Repr h m → m !! k = None →
  ∃ h1 h2 r l, hash_add_to h k None = Some (h1, r) ∧ hash_add_to h1 k None = Some (h2, r) ∧
    entries h2 = Some l ∧ l ≡ₚ (k, None) :: (k, None) :: pairs m ∧
    elmnbr h2 = elmnbr h + 2.
Proof.
  intros HR Hk. pose proof HR as (t & Hwf & Hm).
  destruct (hash_insert_wf h t k None Hwf)
    as (h1 & t1 & i & Hins & Hi & Hmeta & Hn & _ & _ & Hall & Hwf1).
  specialize (Hwf1 ltac:(rewrite Hm; by apply not_elem_of_pairs)).
  destruct (hash_insert_wf h1 t1 k None Hwf1)
    as (h2 & t2 & i2 & Hins2 & Hi2 & Hmeta2 & Hn2 & He2 & Hlen2 & Hall2 & _).
  assert (hash_index h1 k = hash_index h k) as Heq.
  { unfold hash_index. by destruct Hmeta as [-> _]. }
  exists h1, h2, (Z.of_nat i), (all t2). split_and!.
  - unfold hash_add_to. cbn [hash_add_rec]. by rewrite (hash_get_Repr h m k HR), Hk.
  - unfold hash_add_to. cbn [hash_add_rec].
    rewrite (hash_get_wf_in h1 t1 k None Hwf1) by (rewrite Hall; by left).
    simpl. rewrite Hins2. congruence.
  - unfold entries, slots. rewrite He2. cbn [default]. rewrite mapM_lookup_seq; [done |].
    pose proof (wf_length _ _ Hwf1) as Hl1. destruct Hmeta2 as [-> _]. simpl. lia.
  - by rewrite Hall2, Hall, Hm.
  - lia.
Qed.

End properties.

(** ** A table with a collision

    ["ad"] and ["bc"] have the same sum: the second entry hangs off the first. *)

Definition demo_table : hash_t Z :=
  default (hash_create "demo" 7 0)
    ('(h, _) ← hash_add_to (hash_create "demo" 7 0) "ad" (Some 1);
     '(h, _) ← hash_add_to h "bc" (Some 2);
     Some h).

Definition demo_map : gmap string Z := <["bc" := 2]> (<["ad" := 1]> ∅).

Lemma demo_Repr : Repr demo_table demo_map.
Proof.
  unfold demo_table, demo_map.
  assert (Repr (hash_create "demo" 7 0) (∅ : gmap string Z)) as H0 by by apply hash_create_Repr.
  destruct (hash_add_law _ _ "ad" 1 H0) as (h1 & r1 & -> & H1). mstep.
  destruct (hash_add_law _ _ "bc" 2 H1) as (h2 & r2 & -> & H2). done.
Qed.

(** A table of one binding. *)
Definition single_table (k : string) (v : Z) : hash_t Z :=
  default (hash_create "other" 7 0) (fst <$> hash_add_to (hash_create "other" 7 0) k (Some v)).

Lemma other_Repr k v : Repr (single_table k v) {[k := v]}.
Proof.
  unfold single_table.
  assert (Repr (hash_create "other" 7 0) (∅ : gmap string Z)) as H0 by by apply hash_create_Repr.
  by destruct (hash_add_law _ _ k v H0) as (h1 & r1 & -> & H1).
Qed.

Lemma hash_add_refines_witness :
  ∃ h' r, hash_add (Some demo_table) (Some "da") (Some 3) = Some (Some h', r) ∧
    Repr h' (<["da" := 3]> demo_map).
Proof.
  destruct (hash_add_refines demo_table demo_map "da" 3 demo_Repr) as (h' & r & H1 & H2 & _).
  exists h', r. exact (conj H1 H2).
Defined.

Lemma hash_del_refines_witness :
  ∃ h' r, hash_del demo_table "ad" = Some (h', r) ∧ Repr h' (delete "ad" demo_map).
Proof.
  destruct (hash_del_refines demo_table demo_map "ad" demo_Repr) as (h' & r & H1 & H2 & _).
  exists h', r. exact (conj H1 H2).
Defined.

Lemma hash_get_keys_complete_witness :
  ∃ ks, hash_get_keys (Some demo_table) = Some (Some ((Some <$> ks) ++ [None]), 2) ∧
    NoDup ks ∧ ∀ k, k ∈ ks ↔ is_Some (demo_map !! k).
Proof. exact (proj2 (hash_get_keys_complete demo_table demo_map demo_Repr) ltac:(done)). Defined.

Lemma hash_merge_union_witness :
  ∃ h', hash_merge (Some demo_table) (Some (single_table "da" 9)) = Some (Some h', 1) ∧
    Repr h' (demo_map ∪ {["da" := 9]}).
Proof.
  pose proof (hash_merge_union _ _ _ _ demo_Repr (other_Repr "da" 9)) as H. cbv zeta in H.
  replace (slot_sum _ _) with 1 in H by (vm_compute; reflexivity).
  rewrite bool_decide_true in H by lia. destruct H as (h' & H1 & H2 & _).
  exists h'. exact (conj H1 H2).
Defined.

(** The key ["da"] hashes to the slot of the other two: its entry is NULL. *)
