(* ===== verification/Store.v ===== *)
(** * The registry interface

    What the registry of hash tables promises to the components that keep tables
    of pointers in it: tables are made under a name, found by this name, read and
    written by address, and destroyed.  RegistrySpec.v gives the instance. *)
From S2P Require Import Prelude.

(** What a table is for its users. *)
Record tinfo := Tinfo { ti_name : string; ti_size : Z; ti_type : Z; ti_map : gmap string Z }.

Definition with_map (m : gmap string Z) (i : tinfo) : tinfo :=
  Tinfo (ti_name i) (ti_size i) (ti_type i) m.

Class Store (R : Type) := {
  (** [aspect_type_nbr] *)
  s_nbr : R → Z;
  s_set_nbr : Z → R → R;
  (** [hash_init] on a zeroed table *)
  s_new : R → string → Z → Z → option (R * Z);
  s_find : R → string → option (option Z);
  s_get : R → Z → string → option (option Z);
  s_add : R → Z → string → Z → option (R * Z);
  s_set : R → Z → string → Z → option (R * Z);
  s_destroy : R → Z → option R;
  (** [s_repr r N M]: the names lead to the addresses [N], where the tables [M] are. *)
  s_repr : R → gmap string Z → gmap Z tinfo → Prop;
  s_nbr_range r N M : s_repr r N M → 0 < s_nbr r < 2 ^ 31;
  s_set_nbr_repr r N M n :
    s_repr r N M → 0 < n < 2 ^ 31 → s_repr (s_set_nbr n r) N M ∧ s_nbr (s_set_nbr n r) = n;
  s_new_repr r N M nm sz ty :
    s_repr r N M → 0 < sz < 2 ^ 31 → 0 ≤ ty < s_nbr r →
    ∃ r' p, s_new r nm sz ty = Some (r', p) ∧ M !! p = None ∧ s_nbr r' = s_nbr r ∧
      s_repr r' (<[nm := p]> N) (<[p := Tinfo nm sz ty ∅]> M);
  s_find_repr r N M nm : s_repr r N M → s_find r nm = Some (N !! nm);
  s_get_repr r N M p i k : s_repr r N M → M !! p = Some i → s_get r p k = Some (ti_map i !! k);
  s_add_repr r N M p i k v :
    s_repr r N M → M !! p = Some i →
    ∃ r' x, s_add r p k v = Some (r', x) ∧ s_nbr r' = s_nbr r ∧
      s_repr r' N (<[p := with_map (<[k := v]> (ti_map i)) i]> M);
  s_set_repr r N M p i k v :
    s_repr r N M → M !! p = Some i →
    ∃ r' x, s_set r p k v = Some (r', x) ∧ s_nbr r' = s_nbr r ∧
      s_repr r' N (<[p := with_map (<[k := v]> (ti_map i)) i]> M);
  s_destroy_repr r N M p i :
    s_repr r N M → M !! p = Some i →
    ∃ r', s_destroy r p = Some r' ∧ s_nbr r' = s_nbr r ∧
      s_repr r' (delete (ti_name i) N) (delete p M);
}.
