(* ===== verification/Registry.v ===== *)
(** * The registry of hash tables (src/libaspect/libhash.c)

    A [hash_t] is known by its address.  The table [hash_hash] gives the address
    of every initialised table, itself included, under its name; [hash_lists] is
    made along with it.  Pointers are numbers; [None] is NULL.

    The strings of the keys belong to the table they are added to, which frees
    them when it is destroyed.  [hash_merge] copies the pointers of the keys: the
    two tables then share strings, and [shared] holds the tables that do.
    Destroying such a table while it has keys leaves the other with keys that
    have been freed, which its next walk reads: it is given no result here. *)
From S2P Require Import Prelude.
From S2P Require Import Hash.

Record hworld := Hworld {
  tables : gmap Z (hash_t Z);
  hash_hash : option Z;
  hash_lists : option Z;
  hbrk : Z;
  aspect_type_nbr : Z;
  shared : gset Z;
}.

Definition set_table (p : Z) (h : hash_t Z) (w : hworld) : hworld :=
  Hworld (<[p := h]> (tables w)) (hash_hash w) (hash_lists w) (hbrk w) (aspect_type_nbr w) (shared w).
Definition set_hash_hash (p : Z) (w : hworld) : hworld :=
  Hworld (tables w) (Some p) (hash_lists w) (hbrk w) (aspect_type_nbr w) (shared w).
Definition set_hash_lists (p : Z) (w : hworld) : hworld :=
  Hworld (tables w) (hash_hash w) (Some p) (hbrk w) (aspect_type_nbr w) (shared w).
Definition set_type_nbr (n : Z) (w : hworld) : hworld :=
  Hworld (tables w) (hash_hash w) (hash_lists w) (hbrk w) n (shared w).
Definition set_shared (s : gset Z) (w : hworld) : hworld :=
  Hworld (tables w) (hash_hash w) (hash_lists w) (hbrk w) (aspect_type_nbr w) s.

(** A zeroed [hash_t]. *)
Definition hash0 : hash_t Z := Hash None 0 0 0 0 None.

Definition alloc_table (w : hworld) : hworld * Z :=
  (Hworld (<[hbrk w := hash0]> (tables w)) (hash_hash w) (hash_lists w) (hbrk w + 1)
     (aspect_type_nbr w) (shared w), hbrk w).

(** An operation on the table at [p]. *)
Definition on_table (w : hworld) (p : Z) (f : hash_t Z → option (hash_t Z * Z)) :
    option (hworld * Z) :=
  h ← tables w !! p; '(h, r) ← f h; Some (set_table p h w, r).

Definition hash_find (w : hworld) (name : option string) : option (option Z) :=
  match name with
  | None => Some None
  | Some name => hh ← hash_hash w; h ← tables w !! hh; hash_get h name
  end.

(** The call nests when [hash_hash] or [hash_lists] is NULL: three levels are enough. *)
Fixpoint hash_init_rec (fuel : nat) (w : hworld) (h : Z) (name : string) (size type : Z) :
    option (hworld * Z) :=
  match fuel with
  | O => None
  | S fuel =>
      w ← match hash_hash w with
          | Some _ => Some w
          | None =>
              let '(w, p) := alloc_table w in
              '(w, _) ← hash_init_rec fuel (set_hash_hash p w) p "hashes" 51 0; Some w
          end;
      if u32 (aspect_type_nbr w) <=? type then Some (w, -1) else
      hh ← hash_hash w;
      f ← (if h =? hh then Some None else hash_find w (Some name));
      t ← tables w !! h;
      match f, ent t with
      | Some _, Some _ => Some (w, 1)
      | _, _ =>
          let w := set_table h (hash_create name size type) w in
          '(w, _) ← on_table w hh (λ t, hash_add_to t name (Some h));
          match hash_lists w with
          | Some _ => Some (w, 0)
          | None =>
              let '(w, p) := alloc_table w in
              '(w, _) ← hash_init_rec fuel (set_hash_lists p w) p "lists" 51 0; Some (w, 0)
          end
      end
  end.

Definition hash_init (w : hworld) (h : Z) (name : string) (size type : Z) :
    option (hworld * Z) :=
  hash_init_rec 3 w h name size type.

(** [keys] is an array of [elmnbr + 1] pointers that the function fills before it frees
    what they point to, which no other table may hold. *)
Definition hash_destroy (w : hworld) (hash : Z) : option hworld :=
  h ← tables w !! hash;
  '(_, keynbr) ← hash_get_keys (Some h);
  _ ← guard_ub ((keynbr =? 0) || negb (bool_decide (hash ∈ shared w)));
  hh ← hash_hash w;
  nm ← name h;
  '(w, _) ← on_table w hh (λ t, hash_del t nm);
  h ← tables w !! hash;
  Some (set_shared (shared w ∖ {[hash]}) (set_table hash (set_ent None h) w)).

(** The type goes through a [char]. *)
Definition hash_empty (w : hworld) (nm : string) : option (hworld * option Z) :=
  hash ← hash_find w (Some nm);
  match hash with
  | None => Some (w, None)
  | Some p =>
      h ← tables w !! p;
      let size := size h in
      let type := i8 (type h) in
      hh ← hash_hash w;
      '(w, _) ← on_table w hh (λ t, hash_del t nm);
      w ← hash_destroy w p;
      '(w, _) ← hash_init w p nm size (u32 type);
      Some (w, Some p)
  end.

Definition set_type (ty : Z) (h : hash_t Z) : hash_t Z :=
  Hash (ent h) (size h) (elmnbr h) ty (linearity h) (name h).

(** [hash_merge] of two tables of the registry: when a key is added, they share its string. *)
Definition merge_tables (w : hworld) (dst src : Z) : option hworld :=
  d ← tables w !! dst;
  s ← tables w !! src;
  '(d', _) ← hash_merge (Some d) (Some s);
  d' ← d';
  let sh := if elmnbr d' =? elmnbr d then shared w else {[dst; src]} ∪ shared w in
  Some (set_shared sh (set_table dst d' w)).

Definition hash_register (w : hworld) (table : Z) (nm : string) : option (hworld * Z) :=
  hh ← hash_hash w;
  reg ← tables w !! hh;
  h ← hash_get reg nm;
  t ← tables w !! table;
  match h with
  | Some p =>
      h ← tables w !! p;
      let h := if type h =? 0 then set_type (type t) h else h in
      let w := set_table p h w in
      t ← tables w !! table;
      if negb (type h =? type t) then Some (w, -1) else
      '(w, p) ← (if negb (elmnbr h =? 0) then hash_empty w nm else Some (w, Some p));
      p ← p;
      w ← merge_tables w p table;
      Some (w, 0)
  | None =>
      let '(w, p) := alloc_table w in
      let sz := if elmnbr t <? size t then size t else elmnbr t in
      '(w, _) ← hash_init w p nm sz (type t);
      Some (w, 0)
  end.

(** ** Operations on a table by its address *)

Definition hget (w : hworld) (p : Z) (k : string) : option (option Z) :=
  h ← tables w !! p; hash_get h k.
Definition hadd (w : hworld) (p : Z) (k : string) (v : Z) : option (hworld * Z) :=
  on_table w p (λ h, hash_add_to h k (Some v)).
Definition hset (w : hworld) (p : Z) (k : string) (v : Z) : option (hworld * Z) :=
  on_table w p (λ h, hash_set h k (Some v)).
