(* ===== verification/RegistrySpec.v ===== *)
(** * The registry of hash tables refines maps from names to tables *)
From S2P Require Import Prelude.
From S2P Require Import Hash.
From S2P Require Import HashSpec.
From S2P Require Import Registry.
From S2P Require Import Store.

(** The initialised table [h] is what [i] says. *)
Definition tinfo_of (h : hash_t Z) (i : tinfo) : Prop :=
  name h = Some (ti_name i) ∧ Hash.size h = ti_size i ∧ type h = ti_type i ∧ Repr h (ti_map i).

(** The registry gives the names [N] to addresses; [M] holds the initialised tables, apart
    from the registry itself at [hh].  A registered name leads to a table of that name. *)
Record regs (w : hworld) (hh : Z) (N : gmap string Z) (M : gmap Z tinfo) : Prop := {
  rg_hash : hash_hash w = Some hh;
  rg_self : ∃ rt, tables w !! hh = Some rt ∧ Repr rt N;
  rg_lists : is_Some (hash_lists w);
  rg_nbr : 0 < aspect_type_nbr w < 2 ^ 31;
  rg_tables p i : M !! p = Some i → ∃ h, tables w !! p = Some h ∧ tinfo_of h i ∧ 0 ≤ ti_type i;
  rg_other : M !! hh = None;
  rg_names nm p : N !! nm = Some p → p = hh ∨ ∃ i, M !! p = Some i ∧ ti_name i = nm;
  rg_fresh p : hbrk w ≤ p → tables w !! p = None;
}.

Lemma Repr_ent {V} (h : hash_t V) m : Repr h m → is_Some (ent h).
Proof. intros (t & [-> _ _ _ _ _] & _). by eexists. Qed.

Lemma same_meta_info h h' i m :
  tinfo_of h i → same_meta h h' → Repr h' m → tinfo_of h' (with_map m i).
Proof. intros (? & ? & ? & _) (? & ? & ? & ?) HR. split_and!; cbn; congruence. Qed.

(** ** Strings shared by tables *)

Lemma regs_shared w hh N M s : regs w hh N M → regs (set_shared s w) hh N M.
Proof. intros [? ? ? ? ? ? ? ?]. by split. Qed.

Lemma on_table_shared w p f w' r : on_table w p f = Some (w', r) → shared w' = shared w.
Proof. unfold on_table. intros. by simplify_option_eq; repeat case_match; simplify_option_eq. Qed.

Lemma hash_init_shared fuel w p nm sz ty w' r :
  hash_init_rec fuel w p nm sz ty = Some (w', r) → shared w' = shared w.
Proof.
  revert w p nm sz ty w' r. induction fuel as [| fuel IH]; intros w p nm sz ty w' r; [done |].
  cbn [hash_init_rec]. intros H. apply bind_Some in H as (w1 & H1 & H).
  assert (shared w1 = shared w) as <-.
  { destruct (hash_hash w); [by simplify_eq |]. cbn in H1. apply bind_Some in H1 as ([w2 ?] & H2 & [= <-]).
    by apply IH in H2. }
  case_match; [by simplify_eq |]. apply bind_Some in H as (hh & _ & H).
  apply bind_Some in H as (f & _ & H). apply bind_Some in H as (t & _ & H).
  assert (∀ w'' r'', ('(w, _) ← on_table (set_table p (hash_create nm sz ty) w1) hh (λ t, hash_add_to t nm (Some p));
          match hash_lists w with
          | Some _ => Some (w, 0)
          | None =>
              let '(w, p) := alloc_table w in
              '(w, _) ← hash_init_rec fuel (set_hash_lists p w) p "lists" 51 0; Some (w, 0)
          end) = Some (w'', r'') → shared w'' = shared w1) as Hrest.
  { intros w'' r'' H2. apply bind_Some in H2 as ([w2 ?] & H2 & H3). apply on_table_shared in H2. cbn in H2.
    destruct (hash_lists w2); [by simplify_eq |]. cbn in H3. apply bind_Some in H3 as ([w3 ?] & H3 & [= <- <-]).
    apply IH in H3. cbn in H3. congruence. }
  destruct f, (ent t); simplify_eq; eauto.
Qed.

Lemma hash_destroy_shared w p w' : hash_destroy w p = Some w' → shared w' = shared w ∖ {[p]}.
Proof.
  unfold hash_destroy. intros H. apply bind_Some in H as (? & _ & H). apply bind_Some in H as ([? ?] & _ & H).
  apply bind_Some in H as (? & _ & H). apply bind_Some in H as (? & _ & H). apply bind_Some in H as (? & _ & H).
  apply bind_Some in H as ([w1 ?] & Hon & H). apply on_table_shared in Hon.
  apply bind_Some in H as (? & _ & [= <-]). cbn. by rewrite Hon.
Qed.

Lemma hash_empty_shared w nm p w' :
  hash_empty w nm = Some (w', Some p) → shared w' = shared w ∖ {[p]}.
Proof.
  unfold hash_empty. intros H. apply bind_Some in H as ([q |] & _ & H); [| done].
  apply bind_Some in H as (? & _ & H). apply bind_Some in H as (? & _ & H).
  apply bind_Some in H as ([w1 ?] & H1 & H). apply bind_Some in H as (w2 & H2 & H).
  apply bind_Some in H as ([w3 ?] & H3 & [= <- <-]). apply on_table_shared in H1.
  apply hash_destroy_shared in H2. apply hash_init_shared in H3. congruence.
Qed.

(** ** Tables *)

Lemma regs_find w hh N M nm : regs w hh N M → hash_find w (Some nm) = Some (N !! nm).
Proof.
  intros Hr. destruct (rg_self _ _ _ _ Hr) as (rt & Ht & HR). unfold hash_find.
  rewrite (rg_hash _ _ _ _ Hr). mstep. rewrite Ht. mstep. by apply hash_get_Repr.
Qed.

Lemma regs_get w hh N M p i k :
  regs w hh N M → M !! p = Some i → hget w p k = Some (ti_map i !! k).
Proof.
  intros Hr Hp. destruct (rg_tables _ _ _ _ Hr _ _ Hp) as (h & Hh & (_ & _ & _ & HR) & _).
  unfold hget. rewrite Hh. mstep. by apply hash_get_Repr.
Qed.

(** The table at [p] changes. *)
Lemma regs_set w hh N M p i h' m :
  regs w hh N M → M !! p = Some i → tinfo_of h' (with_map m i) →
  regs (set_table p h' w) hh N (<[p := with_map m i]> M).
Proof.
  intros [Hh (rt & Ht & HR) Hl Hn Htab Hoth Hnam Hf] Hp Hi.
  assert (p ≠ hh) as Hne by congruence.
  split; cbn; try done.
  - exists rt. by rewrite lookup_insert_ne.
  - intros q iq. destruct (decide (q = p)) as [-> |].
    + rewrite lookup_insert_eq. intros [= <-]. exists h'. rewrite lookup_insert_eq. split_and!; try done.
      cbn. by destruct (Htab _ _ Hp) as (? & _ & _ & ?).
    + rewrite !lookup_insert_ne by done. apply Htab.
  - by rewrite lookup_insert_ne.
  - intros nm q Hq. destruct (Hnam _ _ Hq) as [-> | (iq & Hiq & Hnm)]; [by left | right].
    destruct (decide (q = p)) as [-> |].
    + rewrite lookup_insert_eq. eexists. split; [done |]. simplify_eq. done.
    + rewrite lookup_insert_ne by done. eauto.
  - intros q Hq. destruct (decide (q = p)) as [-> |].
    + destruct (Htab _ _ Hp) as (h & Hp' & _). by rewrite Hf in Hp'.
    + rewrite lookup_insert_ne by done. by apply Hf.
Qed.

Lemma regs_on w hh N M p i f m :
  regs w hh N M → M !! p = Some i →
  (∀ h, tinfo_of h i → ∃ h' r, f h = Some (h', r) ∧ Repr h' m ∧ same_meta h h') →
  ∃ w' r, on_table w p f = Some (w', r) ∧ regs w' hh N (<[p := with_map m i]> M) ∧
    aspect_type_nbr w' = aspect_type_nbr w.
Proof.
  intros Hr Hp Hf. destruct (rg_tables _ _ _ _ Hr _ _ Hp) as (h & Hh & Hi & _).
  destruct (Hf h Hi) as (h' & r & Hfh & HR & Hm). unfold on_table. rewrite Hh. mstep. rewrite Hfh.
  mstep. eexists _, r. split_and!; [done | | done]. apply regs_set; try done. by apply (same_meta_info h).
Qed.

Lemma regs_add w hh N M p i k v :
  regs w hh N M → M !! p = Some i →
  ∃ w' r, hadd w p k v = Some (w', r) ∧ regs w' hh N (<[p := with_map (<[k := v]> (ti_map i)) i]> M) ∧
    aspect_type_nbr w' = aspect_type_nbr w.
Proof.
  intros Hr Hp. apply regs_on; try done. intros h (_ & _ & _ & HR).
  destruct (hash_add_to_Repr h (ti_map i) k v HR) as (h' & r & ? & ? & ? & _). eauto.
Qed.

Lemma regs_set_key w hh N M p i k v :
  regs w hh N M → M !! p = Some i →
  ∃ w' r, hset w p k v = Some (w', r) ∧ regs w' hh N (<[p := with_map (<[k := v]> (ti_map i)) i]> M) ∧
    aspect_type_nbr w' = aspect_type_nbr w.
Proof.
  intros Hr Hp. apply regs_on; try done. intros h (_ & _ & _ & HR).
  destruct (hash_set_Repr h (ti_map i) k v HR) as (h' & r & ? & ? & ?). eauto.
Qed.

(** The names change. *)
Lemma regs_names w hh N M rt' N' :
  regs w hh N M → Repr rt' N' →
  (∀ nm p, N' !! nm = Some p → p = hh ∨ ∃ i, M !! p = Some i ∧ ti_name i = nm) →
  regs (set_table hh rt' w) hh N' M.
Proof.
  intros [Hh (rt & Ht & HR) Hl Hn Htab Hoth Hnam Hf] HR' Hnam'. split; cbn; try done.
  - exists rt'. by rewrite lookup_insert_eq.
  - intros p i Hp. assert (p ≠ hh) by congruence. rewrite lookup_insert_ne by done. by apply Htab.
  - intros p Hp. destruct (decide (p = hh)) as [-> |].
    + by rewrite Hf in Ht.
    + rewrite lookup_insert_ne by done. by apply Hf.
Qed.

Lemma regs_del_name w hh N M nm :
  regs w hh N M →
  ∃ w' r, on_table w hh (λ t, hash_del t nm) = Some (w', r) ∧ regs w' hh (delete nm N) M ∧
    aspect_type_nbr w' = aspect_type_nbr w ∧ (∀ p, p ≠ hh → tables w' !! p = tables w !! p).
Proof.
  intros Hr. destruct (rg_self _ _ _ _ Hr) as (rt & Ht & HR).
  destruct (hash_del_Repr rt N nm HR) as (rt' & Hd & HR' & _).
  unfold on_table. rewrite Ht. mstep. rewrite Hd. mstep. eexists _, _. split_and!; [done | | done |].
  - apply (regs_names w hh N); [done.. |]. intros k p. rewrite lookup_delete_Some. intros [_ Hk].
    by apply (rg_names _ _ _ _ Hr).
  - intros p Hp. cbn. by rewrite lookup_insert_ne.
Qed.

(** ** Creation *)

Lemma regs_init w hh N M p t nm sz ty fuel :
  regs w hh N M → tables w !! p = Some t → ent t = None → M !! p = None →
  0 < sz < 2 ^ 31 → 0 ≤ ty < aspect_type_nbr w →
  ∃ w', hash_init_rec (S fuel) w p nm sz ty = Some (w', 0) ∧
    regs w' hh (<[nm := p]> N) (<[p := Tinfo nm sz ty ∅]> M) ∧ aspect_type_nbr w' = aspect_type_nbr w ∧
    (∀ q, q ≠ p → q ≠ hh → tables w' !! q = tables w !! q).
Proof.
  intros Hr Hp Hent HM Hsz Hty. pose proof Hr as [Hh (rt & Ht & HR) [hl Hl] Hn Htab Hoth Hnam Hf].
  assert (p ≠ hh) as Hne.
  { intros ->. rewrite Ht in Hp. simplify_eq. destruct (Repr_ent _ _ HR). congruence. }
  cbn [hash_init_rec]. rewrite Hh. mstep. unfold wrapu. rewrite Z.mod_small by lia.
  rewrite (proj2 (Z.leb_gt _ _)) by lia. rewrite Hh. mstep.
  rewrite (proj2 (Z.eqb_neq p hh)) by done. rewrite (regs_find w hh N M nm Hr). mstep.
  rewrite Hp. mstep. rewrite Hent.
  set (w1 := set_table p (hash_create nm sz ty) w).
  destruct (hash_add_to_Repr rt N nm p HR) as (rt' & r & Hadd & HR' & _).
  assert (on_table w1 hh (λ t, hash_add_to t nm (Some p)) = Some (set_table hh rt' w1, r)) as Hon.
  { unfold on_table. replace (tables w1 !! hh) with (Some rt) by (symmetry; cbn; by rewrite lookup_insert_ne).
    mstep. by rewrite Hadd. }
  assert (regs (set_table hh rt' w1) hh (<[nm := p]> N) (<[p := Tinfo nm sz ty ∅]> M)) as Hr'.
  { unfold w1. split; cbn; try done.
    - exists rt'. by rewrite lookup_insert_eq.
    - intros q i. destruct (decide (q = p)) as [-> |].
      + rewrite lookup_insert_eq. intros [= <-]. rewrite lookup_insert_ne by done. rewrite lookup_insert_eq.
        eexists. split; [done |]. split; [| cbn; lia]. split_and!; try done. by apply hash_create_Repr.
      + rewrite lookup_insert_ne by done. intros Hi. assert (q ≠ hh) by congruence.
        rewrite !lookup_insert_ne by done. by apply Htab.
    - by rewrite lookup_insert_ne.
    - intros k q. destruct (decide (k = nm)) as [-> |].
      + rewrite lookup_insert_eq. intros [= <-]. right. eexists. rewrite lookup_insert_eq. by split.
      + rewrite lookup_insert_ne by done. intros Hq. destruct (Hnam _ _ Hq) as [-> | (i & Hi & Hk)]; [by left |].
        right. exists i. rewrite lookup_insert_ne; [done |]. congruence.
    - intros q Hq. assert (q ≠ hh) by (intros ->; by rewrite Hf in Ht).
      assert (q ≠ p) by (intros ->; by rewrite Hf in Hp). rewrite !lookup_insert_ne by done. by apply Hf. }
  exists (set_table hh rt' w1).
  split; [| split_and!; [done.. |]; intros q ? ?; cbn; by rewrite !lookup_insert_ne].
  destruct (N !! nm); rewrite Hon; mstep; cbn [hash_lists set_table w1]; by rewrite Hl.
Qed.

(** A zeroed table is allocated. *)
Lemma regs_alloc w hh N M :
  regs w hh N M →
  let '(w', p) := alloc_table w in
  regs w' hh N M ∧ tables w' !! p = Some hash0 ∧ M !! p = None ∧ aspect_type_nbr w' = aspect_type_nbr w ∧
  hh ≠ p ∧ tables w !! p = None ∧ (∀ q, q ≠ p → tables w' !! q = tables w !! q).
Proof.
  intros Hr. pose proof Hr as [Hh (rt & Ht & HR) Hl Hn Htab Hoth Hnam Hf]. cbn.
  assert (tables w !! hbrk w = None) as Hnew by (apply Hf; lia).
  assert (hh ≠ hbrk w) as Hne by congruence.
  assert (M !! hbrk w = None) as HM.
  { destruct (M !! hbrk w) eqn:E; [| done]. destruct (Htab _ _ E) as (? & ? & _). congruence. }
  split_and!; try done; [| apply lookup_insert_eq | by intros q Hq; apply lookup_insert_ne].
  split; cbn; try done.
  - exists rt. by rewrite lookup_insert_ne.
  - intros p i Hp. rewrite lookup_insert_ne by congruence. by apply Htab.
  - intros p Hp. rewrite lookup_insert_ne by lia. apply Hf. lia.
Qed.

(** The first call makes the registry and the table of lists. *)
Definition unborn (w : hworld) : Prop :=
  hash_hash w = None ∧ hash_lists w = None ∧ 0 < aspect_type_nbr w < 2 ^ 31 ∧
  ∀ p, hbrk w ≤ p → tables w !! p = None.

Lemma registry_made w fuel :
  unborn w →
  let w1 := set_hash_hash (hbrk w) (alloc_table w).1 in
  ∃ w', hash_init_rec (S (S fuel)) w1 (hbrk w) "hashes" 51 0 = Some (w', 0) ∧
    regs w' (hbrk w) {["hashes" := hbrk w; "lists" := hbrk w + 1]}
      {[hbrk w + 1 := Tinfo "lists" 51 0 ∅]} ∧
    aspect_type_nbr w' = aspect_type_nbr w ∧ (∀ p, p < hbrk w → tables w' !! p = tables w !! p).
Proof.
  intros (Hhh & Hhl & Hn & Hf) w1. set (hh := hbrk w).
  assert (∃ rt r, hash_add_to (hash_create "hashes" 51 0) "hashes" (Some hh) = Some (rt, r) ∧
    Repr rt {["hashes" := hh]}) as (rt & r & Hadd & HR).
  { destruct (hash_add_to_Repr (V := Z) (hash_create "hashes" 51 0) ∅ "hashes" hh) as (rt & r & ? & ? & _).
    - by apply hash_create_Repr.
    - exists rt, r. split; [done |]. by rewrite insert_empty in H0. }
  set (w2 := set_hash_lists (hh + 1) (Hworld (<[hh + 1 := hash0]> (<[hh := rt]> (tables w))) (Some hh) None
               (hh + 2) (aspect_type_nbr w) (shared w))).
  assert (regs w2 hh {["hashes" := hh]} ∅) as Hr2.
  { split; cbn; try done.
    - exists rt. rewrite lookup_insert_ne, lookup_insert_eq by lia. done.
    - intros nm p. rewrite lookup_singleton_Some. intros [_ <-]. by left.
    - intros p Hp. rewrite !lookup_insert_ne by lia. apply Hf. unfold hh in *. lia. }
  destruct (regs_init w2 hh _ _ (hh + 1) hash0 "lists" 51 0 fuel Hr2) as (w' & Hi & Hr' & Hn' & Hfr); try done.
  { cbn. apply lookup_insert_eq. }
  { cbn. lia. }
  assert (∀ x, hash_init_rec (S fuel) w2 (hh + 1) "lists" 51 0 = x →
    hash_init_rec (S (S fuel)) w1 hh "hashes" 51 0 = ('(w, _) ← x; Some (w, 0))) as Heq.
  { intros x <-. cbn [hash_init_rec]. change (hash_hash w1) with (Some hh). mstep.
    change (aspect_type_nbr w1) with (aspect_type_nbr w). rewrite wrapu_small by lia.
    rewrite (proj2 (Z.leb_gt _ _)) by lia. change (hash_hash w1) with (Some hh). mstep. rewrite Z.eqb_refl. mstep.
    assert (tables w1 !! hh = Some hash0) as -> by (cbn; apply lookup_insert_eq). mstep.
    unfold on_table. assert (∀ x, tables (set_table hh x w1) !! hh = Some x) as ->
      by (intros; cbn; apply lookup_insert_eq). mstep. rewrite Hadd. mstep.
    change (hash_lists (set_table hh rt (set_table hh (hash_create "hashes" 51 0) w1))) with (hash_lists w).
    rewrite Hhl. do 2 f_equal. unfold w2, set_hash_lists, alloc_table, set_table, w1, set_hash_hash. cbn.
    fold hh. rewrite !insert_insert_eq. replace (hh + 1 + 1) with (hh + 2) by lia. done. }
  exists w'. rewrite (Heq _ Hi). mstep. split; [done |]. split; [| split; [done |]].
  - rewrite insert_empty in Hr'. rewrite <-!insert_empty, insert_insert_ne by done. by rewrite !insert_empty.
  - intros p Hp. rewrite Hfr by lia. cbn. by rewrite !lookup_insert_ne by lia.
Qed.

Lemma hash_init_first fuel w w1 hh p nm sz ty :
  hash_hash w = None → hash_hash w1 = Some hh →
  hash_init_rec fuel (set_hash_hash (hbrk w) (alloc_table w).1) (hbrk w) "hashes" 51 0 = Some (w1, 0) →
  hash_init_rec (S fuel) w p nm sz ty = hash_init_rec (S fuel) w1 p nm sz ty.
Proof.
  intros Hn Hh Hi. change (hbrk w) with (alloc_table w).2 in Hi. cbn [hash_init_rec]. rewrite Hn.
  destruct (alloc_table w) as [w' q]. cbn [fst snd] in Hi. rewrite Hi. mstep. rewrite Hh. mstep. rewrite Hh. done.
Qed.

Lemma regs_first w p t nm sz ty :
  unborn w → tables w !! p = Some t → ent t = None → 0 < sz < 2 ^ 31 → 0 ≤ ty < aspect_type_nbr w →
  ∃ w' hh hl, hash_init w p nm sz ty = Some (w', 0) ∧
    regs w' hh (<[nm := p]> {["hashes" := hh; "lists" := hl]})
      (<[p := Tinfo nm sz ty ∅]> {[hl := Tinfo "lists" 51 0 ∅]}) ∧ aspect_type_nbr w' = aspect_type_nbr w.
Proof.
  intros Hu Hp Hent Hsz Hty. pose proof Hu as (Hhh & _ & _ & Hf).
  assert (p < hbrk w) as Hlt by (destruct (Z.lt_ge_cases p (hbrk w)); [done | by rewrite Hf in Hp]).
  destruct (registry_made w 0 Hu) as (w1 & Hi & Hr & Hn & Hfr).
  destruct (regs_init w1 _ _ _ p t nm sz ty 2 Hr) as (w' & Hi' & Hr' & Hn' & _); try done.
  { by rewrite Hfr. }
  { by rewrite lookup_singleton_ne by lia. }
  { lia. }
  exists w', (hbrk w), (hbrk w + 1). split; [| split; [done | congruence]].
  rewrite <-Hi'. apply (hash_init_first 2 w w1 (hbrk w)); [done | apply (rg_hash _ _ _ _ Hr) | exact Hi].
Qed.

(** ** Destruction and emptying *)

(** Freeing the entries of a table that is not in use any more. *)
Lemma regs_free w hh N M p h i :
  regs w hh N M → M !! p = Some i → (∀ nm, N !! nm ≠ Some p) →
  tables w !! p = Some h →
  regs (set_table p (set_ent None h) w) hh N (delete p M).
Proof.
  intros [Hh (rt & Ht & HR) Hl Hn Htab Hoth Hnam Hf] Hp Hno Hph. assert (p ≠ hh) as Hne by congruence.
  split; cbn; try done.
  - exists rt. by rewrite lookup_insert_ne.
  - intros q j. rewrite lookup_delete_Some. intros [Hq Hj]. rewrite lookup_insert_ne by done. by apply Htab.
  - by rewrite lookup_delete_ne.
  - intros nm q Hq. destruct (Hnam _ _ Hq) as [-> | (j & Hj & Hnm)]; [by left | right].
    exists j. rewrite lookup_delete_ne; [done |]. intros ->. by apply (Hno nm).
  - intros q Hq. destruct (decide (q = p)) as [-> |]; [| rewrite lookup_insert_ne by done; by apply Hf].
    by rewrite Hf in Hph.
Qed.

Lemma regs_keys w hh N M p i h :
  regs w hh N M → M !! p = Some i → tables w !! p = Some h →
  ∃ ks n, hash_get_keys (Some h) = Some (ks, n) ∧ (ti_map i = ∅ → n = 0).
Proof.
  intros Hr Hp Hph. destruct (rg_tables _ _ _ _ Hr _ _ Hp) as (h' & Hh' & (_ & _ & _ & HR) & _). simplify_eq.
  destruct (decide (ti_map i = ∅)) as [He |].
  - unfold hash_get_keys. rewrite (Repr_elmnbr _ _ HR), He. by eexists _, _.
  - destruct (hash_get_keys_Repr h (ti_map i) HR) as (ks & -> & _); [done |]. by eexists _, _.
Qed.

Lemma regs_destroy w hh N M p i :
  regs w hh N M → M !! p = Some i → ti_map i = ∅ ∨ p ∉ shared w →
  ∃ w' h', hash_destroy w p = Some w' ∧ regs w' hh (delete (ti_name i) N) (delete p M) ∧
    aspect_type_nbr w' = aspect_type_nbr w ∧ tables w' !! p = Some h' ∧ ent h' = None.
Proof.
  intros Hr Hp Hown. pose proof Hr as [Hh _ _ _ _ Hoth Hnam _].
  destruct (rg_tables _ _ _ _ Hr _ _ Hp) as (h & Hph & (Hnm & _ & _ & HR) & _).
  destruct (regs_del_name w hh N M (ti_name i) Hr) as (w1 & r & Hdel & Hr1 & Hn1 & Hsame).
  assert (p ≠ hh) as Hne by congruence. assert (tables w1 !! p = Some h) as Hp1 by by rewrite Hsame.
  unfold hash_destroy. rewrite Hph. mstep. destruct (regs_keys w hh N M p i h Hr Hp Hph) as (ks & n & -> & Hks). mstep.
  assert ((n =? 0) || negb (bool_decide (p ∈ shared w)) = true) as ->.
  { destruct Hown as [->%Hks | Hown]; [done |]. rewrite bool_decide_false by done. apply orb_true_r. }
  unfold guard_ub. mstep. rewrite Hh, Hnm. mstep. rewrite Hdel. mstep. rewrite Hp1. mstep.
  eexists _, (set_ent None h). split; [done |].
  split_and!; [| done | cbn; apply lookup_insert_eq | done].
  apply regs_shared, (regs_free w1 hh _ _ p h i); try done. intros k. rewrite lookup_delete_Some. intros [Hk Hkp].
  destruct (Hnam _ _ Hkp) as [-> | (j & Hj & Hjk)]; [congruence |]. by simplify_eq.
Qed.

(** What is left of a table emptied under the name [nm]. *)
Definition emptied (nm : string) (p : Z) (i : tinfo) (N : gmap string Z) (M : gmap Z tinfo) :
    gmap string Z * gmap Z tinfo :=
  if i8 (ti_type i) <? 0 then (delete nm N, delete p M)
  else (N, <[p := Tinfo nm (ti_size i) (i8 (ti_type i)) ∅]> M).

Lemma i8_le z : 0 ≤ z → i8 z ≤ z.
Proof. intros Hz. unfold wraps. pose proof (Z.mod_le (z + 2 ^ (8 - 1)) (2 ^ 8)). lia. Qed.

Lemma regs_empty w hh N M nm p i :
  regs w hh N M → N !! nm = Some p → M !! p = Some i → ti_name i = nm →
  ti_type i < aspect_type_nbr w → ti_map i = ∅ ∨ p ∉ shared w →
  ∃ w', hash_empty w nm = Some (w', Some p) ∧
    regs w' hh (emptied nm p i N M).1 (emptied nm p i N M).2 ∧ aspect_type_nbr w' = aspect_type_nbr w ∧
    (i8 (ti_type i) < 0 → ∃ h', tables w' !! p = Some h' ∧ ent h' = None).
Proof.
  intros Hr HN Hp Hnm Hty Hown.
  destruct (rg_tables _ _ _ _ Hr _ _ Hp) as (h & Hph & (_ & Hsz & Htyp & HR) & Hty0).
  pose proof (Repr_size _ _ HR) as Hsz'. pose proof (rg_nbr _ _ _ _ Hr) as Hnb.
  unfold hash_empty. rewrite (regs_find _ _ _ _ nm Hr), HN. mstep. rewrite Hph. mstep.
  rewrite (rg_hash _ _ _ _ Hr). mstep.
  destruct (regs_del_name w hh N M nm Hr) as (w1 & r & Hon & Hr1 & Hn1 & Hsame). rewrite Hon. mstep.
  apply on_table_shared in Hon. rewrite <-Hon in Hown.
  destruct (regs_destroy w1 hh _ M p i Hr1 Hp Hown) as (w2 & h2 & -> & Hr2 & Hn2 & Hp2 & He2). mstep.
  rewrite Hnm in Hr2. rewrite delete_delete_eq in Hr2. rewrite Hsz, Htyp.
  pose proof (i8_le _ Hty0). pose proof (wraps_range 8 (ti_type i) ltac:(lia)) as Hr8.
  unfold emptied. destruct (Z.ltb_spec (i8 (ti_type i)) 0) as [Hneg | Hpos]; cbn [fst snd].
  - assert (hash_init w2 p nm (ti_size i) (u32 (i8 (ti_type i))) = Some (w2, -1)) as ->.
    { unfold hash_init. cbn [hash_init_rec]. rewrite (rg_hash _ _ _ _ Hr2). mstep.
      rewrite (wrapu_small 32 (aspect_type_nbr w2)) by (rewrite Hn2, Hn1; lia).
      rewrite (wrapu_unique 32 _ (i8 (ti_type i) + 2 ^ 32) (-1)) by (cbn in *; lia).
      rewrite (proj2 (Z.leb_le _ _)); [done |]. rewrite Hn2, Hn1. cbn in *. lia. }
    mstep. exists w2. split_and!; [done | done | congruence |]. intros _. by exists h2.
  - rewrite (wrapu_small 32) by (cbn in *; lia).
    destruct (regs_init w2 hh (delete nm N) (delete p M) p h2 nm (ti_size i) (i8 (ti_type i)) 2)
      as (w3 & Hi & Hr3 & Hn3 & _); try done.
    { apply lookup_delete_eq. }
    { lia. }
    { rewrite Hn2, Hn1. lia. }
    unfold hash_init. rewrite Hi. mstep. exists w3. split_and!; [done | | congruence | lia].
    rewrite insert_delete_eq in Hr3. rewrite insert_delete_eq in Hr3. by rewrite (insert_id N) in Hr3.
Qed.

(** ** Registration *)

Lemma merge_tables_spec w hh N M dst src id isrc :
  regs w hh N M → M !! dst = Some id → M !! src = Some isrc →
  ti_size id * Z.of_nat (base.size (ti_map isrc)) < 2 ^ 31 →
  ∃ w', merge_tables w dst src = Some w' ∧
    regs w' hh N (<[dst := with_map (ti_map id ∪ ti_map isrc) id]> M) ∧
    aspect_type_nbr w' = aspect_type_nbr w ∧
    shared w' = if bool_decide (base.size (ti_map id ∪ ti_map isrc) = base.size (ti_map id)) then shared w
                else {[dst; src]} ∪ shared w.
Proof.
  intros Hr Hd Hs Hb. destruct (rg_tables _ _ _ _ Hr _ _ Hd) as (hd & Hhd & Hid & _).
  destruct (rg_tables _ _ _ _ Hr _ _ Hs) as (hs & Hhs & (_ & _ & _ & HRs) & _).
  pose proof Hid as (_ & Hsz & _ & HRd).
  destruct (hash_merge_small hd hs (ti_map id) (ti_map isrc)) as (h' & r & Hm & HR & Hsm); [done | done | by rewrite Hsz |].
  unfold merge_tables. rewrite Hhd. mstep. rewrite Hhs. mstep. rewrite Hm. mstep. eexists. split_and!; [done | | done |].
  - apply regs_shared, regs_set; try done. by apply (same_meta_info hd).
  - cbn [shared set_shared]. rewrite (Repr_elmnbr _ _ HR), (Repr_elmnbr _ _ HRd).
    case_bool_decide; [rewrite (proj2 (Z.eqb_eq _ _)) by lia; done | rewrite (proj2 (Z.eqb_neq _ _)) by lia; done].
Qed.

Lemma type_of_table w hh N M p i h :
  regs w hh N M → M !! p = Some i → tables w !! p = Some h → tinfo_of h i.
Proof. intros Hr Hp Hh. destruct (rg_tables _ _ _ _ Hr _ _ Hp) as (? & ? & ? & _). by simplify_eq. Qed.

Lemma Repr_set_type h (m : gmap string Z) ty : Repr h m → Repr (set_type ty h) m.
Proof. intros (t & [He Hl Hs Hsl Hn He'] & Hm). exists t. split; [| done]. by split. Qed.

(** The registered table as [hash_register] sees it: an unknown type is set first. *)
Definition typed (i it : tinfo) : tinfo :=
  if ti_type i =? 0 then Tinfo (ti_name i) (ti_size i) (ti_type it) (ti_map i) else i.

Lemma typed_name i it : ti_name (typed i it) = ti_name i.
Proof. unfold typed. by destruct (ti_type i =? 0). Qed.
Lemma typed_size i it : ti_size (typed i it) = ti_size i.
Proof. unfold typed. by destruct (ti_type i =? 0). Qed.
Lemma typed_map i it : ti_map (typed i it) = ti_map i.
Proof. unfold typed. by destruct (ti_type i =? 0). Qed.

Lemma with_map_same i : with_map (ti_map i) i = i.
Proof. by destruct i. Qed.

Lemma regs_typed w hh N M p i it h :
  regs w hh N M → M !! p = Some i → tables w !! p = Some h → 0 ≤ ti_type it →
  regs (set_table p (if type h =? 0 then set_type (ti_type it) h else h) w) hh N (<[p := typed i it]> M) ∧
  tinfo_of (if type h =? 0 then set_type (ti_type it) h else h) (typed i it).
Proof.
  intros Hr Hp Hh Hty. pose proof (type_of_table _ _ _ _ _ _ _ Hr Hp Hh) as (Hnm & Hsz & Htp & HR).
  pose proof Hr as [? (rt & Ht & HRt) ? ? Htab Hoth Hnam Hf]. assert (p ≠ hh) by congruence.
  set (h' := if _ : bool then _ else _).
  assert (tinfo_of h' (typed i it)) as Hi'.
  { unfold typed, h'. rewrite Htp. destruct (ti_type i =? 0); [| done].
    split_and!; try done. by apply Repr_set_type. }
  split; [| done]. split; cbn; try done.
  - exists rt. by rewrite lookup_insert_ne.
  - intros q j. destruct (decide (q = p)) as [-> |].
    + rewrite !lookup_insert_eq. intros [= <-]. exists h'. split_and!; [done | done |].
      unfold typed. destruct (Htab _ _ Hp) as (_ & _ & _ & ?). by case_match.
    + rewrite !lookup_insert_ne by done. apply Htab.
  - by rewrite lookup_insert_ne.
  - intros nm q Hq. destruct (Hnam _ _ Hq) as [-> | (j & Hj & Hjn)]; [by left | right].
    destruct (decide (q = p)) as [-> |].
    + rewrite lookup_insert_eq. eexists. split; [done |]. simplify_eq. unfold typed. by case_match.
    + rewrite lookup_insert_ne by done. eauto.
  - intros q Hq. destruct (decide (q = p)) as [-> |]; [by rewrite Hf in Hh |].
    rewrite lookup_insert_ne by done. by apply Hf.
Qed.

Section register.
Context {w : hworld} {hh : Z} {N : gmap string Z} {M : gmap Z tinfo} {table : Z} {it : tinfo}.
Context (Hr : regs w hh N M) (Ht : M !! table = Some it) (Hty : ti_type it < aspect_type_nbr w).

Lemma register_unknown nm :
  N !! nm = None → Z.of_nat (base.size (ti_map it)) < 2 ^ 31 →
  ∃ w' p, hash_register w table nm = Some (w', 0) ∧ M !! p = None ∧
    regs w' hh (<[nm := p]> N)
      (<[p := Tinfo nm (Z.max (ti_size it) (Z.of_nat (base.size (ti_map it)))) (ti_type it) ∅]> M) ∧
    shared w' = shared w.
Proof using Hr Ht Hty.
  intros HN Hsz. destruct (rg_tables _ _ _ _ Hr _ _ Ht) as (t & Htt & (Hnm & Hs & Htp & HR) & Hty0).
  destruct (rg_self _ _ _ _ Hr) as (rt & Hrt & HRt). pose proof (Repr_size _ _ HR) as Hsz'.
  pose proof (regs_alloc w hh N M Hr) as Hal. unfold hash_register. rewrite (rg_hash _ _ _ _ Hr). mstep.
  rewrite Hrt. mstep. rewrite (hash_get_Repr rt N nm HRt), HN. mstep. rewrite Htt. mstep.
  assert (shared (alloc_table w).1 = shared w) as Hsh1 by done. destruct (alloc_table w) as [w1 p]. cbn [fst] in Hsh1. destruct Hal as (Hr1 & Hp & HM & Hn1 & _).
  rewrite (Repr_elmnbr _ _ HR).
  destruct (regs_init w1 hh N M p hash0 nm (Z.max (ti_size it) (Z.of_nat (base.size (ti_map it)))) (ti_type it) 2)
    as (w2 & Hi & Hr2 & _); try done; [lia | lia |].
  replace (if _ : bool then _ else _) with (Z.max (ti_size it) (Z.of_nat (base.size (ti_map it))))
    by (rewrite Hs; case_match; lia).
  unfold hash_init. rewrite Htp, Hi. mstep. apply hash_init_shared in Hi. exists w2, p.
  split_and!; [done.. | congruence].
Qed.

Lemma register_known nm p i :
  N !! nm = Some p → M !! p = Some i →
  ∃ h t, tables w !! p = Some h ∧ tables w !! table = Some t ∧
  hash_register w table nm =
    let h' := if type h =? 0 then set_type (ti_type it) h else h in
    let w' := set_table p h' w in
    if negb (ti_type (typed i it) =? ti_type it) then Some (w', -1)
    else
      '(w', p) ← (if negb (Z.of_nat (base.size (ti_map i)) =? 0) then hash_empty w' nm else Some (w', Some p));
      p ← p; w' ← merge_tables w' p table; Some (w', 0).
Proof using Hr Ht.
  intros HN Hp. destruct (rg_tables _ _ _ _ Hr _ _ Ht) as (t & Htt & Hti & Hty0).
  destruct (rg_tables _ _ _ _ Hr _ _ Hp) as (h & Hhh & Hhi & _).
  destruct (rg_self _ _ _ _ Hr) as (rt & Hrt & HRt). exists h, t. split_and!; [done | done |].
  unfold hash_register. rewrite (rg_hash _ _ _ _ Hr). mstep.
  rewrite Hrt. mstep. rewrite (hash_get_Repr rt N nm HRt), HN. mstep. rewrite Htt. mstep. rewrite Hhh. mstep.
  assert (type t = ti_type it) as -> by apply Hti.
  destruct (regs_typed w hh N M p i it h Hr Hp Hhh Hty0) as [_ (_ & _ & Htp' & HR')].
  set (h' := if _ : bool then _ else _) in *. rewrite Htp', (Repr_elmnbr _ _ HR').
  rewrite typed_map.
  destruct (decide (p = table)) as [-> | Hne]; cbn [tables set_table].
  - rewrite lookup_insert_eq. mstep. rewrite Htp'. simplify_eq.
    replace (ti_type (typed it it)) with (ti_type it) by (unfold typed; by case_match). done.
  - rewrite lookup_insert_ne, Htt by done. mstep. by replace (type t) with (ti_type it) by (symmetry; apply Hti).
Qed.

(** The type is kept by the [char] of [hash_empty].  The strings of the keys copied are shared. *)
Lemma register_merged nm p i :
  N !! nm = Some p → M !! p = Some i → i8 (ti_type it) = ti_type it →
  ti_type (typed i it) = ti_type it → ti_map i = ∅ ∨ p ∉ shared w →
  ti_size i * Z.of_nat (base.size (ti_map it)) < 2 ^ 31 →
  ∃ w', hash_register w table nm = Some (w', 0) ∧
    regs w' hh N (<[p := Tinfo nm (ti_size i) (ti_type it)
                     (if bool_decide (p = table) then ∅ else ti_map it)]> M) ∧
    shared w' = if bool_decide (p = table ∨ ti_map it = ∅) then shared w else {[p; table]} ∪ shared w.
Proof using Hr Ht Hty.
  intros HN Hp H8 Hsame Hown Hfit. destruct (register_known nm p i HN Hp) as (h & t & Hh & Htt & ->).
  destruct (rg_tables _ _ _ _ Hr _ _ Ht) as (t' & Htt' & Hti & Hty0).
  destruct (regs_typed w hh N M p i it h Hr Hp Hh Hty0) as [Hr' Hi']. cbv zeta.
  set (w1 := set_table p _ w) in *. rewrite Hsame, Z.eqb_refl. cbn [negb].
  assert (p ≠ hh) as Hne by (intros ->; by rewrite (rg_other _ _ _ _ Hr) in Hp).
  assert (ti_name i = nm) as Hnm.
  { destruct (rg_names _ _ _ _ Hr _ _ HN) as [? | (j & Hj & ?)]; [done |]. by simplify_eq. }
  assert (ti_name (typed i it) = nm) as Hnm' by by rewrite typed_name.
  pose proof (typed_size i it) as Hsz'.
  set (M1 := <[p := typed i it]> M) in *.
  assert (M1 !! p = Some (typed i it)) as Hp1 by apply lookup_insert_eq.
  assert (∃ w2, (if negb (Z.of_nat (base.size (ti_map i)) =? 0) then hash_empty w1 nm else Some (w1, Some p)) =
            Some (w2, Some p) ∧ regs w2 hh N (<[p := Tinfo nm (ti_size i) (ti_type it) ∅]> M) ∧
            shared w2 = shared w) as (w2 & -> & Hr2 & Hsh2).
  { destruct (Z.eqb_spec (Z.of_nat (base.size (ti_map i))) 0) as [Hz | Hz]; cbn [negb].
    - exists w1. split; [done |]. assert (ti_map i = ∅) as He by (apply map_size_empty_inv; lia). split; [| done].
      unfold M1 in Hr'. replace (typed i it) with (Tinfo nm (ti_size i) (ti_type it) ∅) in Hr'; [done |].
      unfold typed in *. destruct i as [? ? ? ?]. cbn in *. case_match; cbn in *; by subst.
    - assert (p ∉ shared w) as Hnot.
      { destruct Hown as [He |]; [| done]. rewrite He in Hz. done. }
      destruct (regs_empty w1 hh N M1 nm p (typed i it) Hr' HN Hp1 Hnm') as (w2 & He & Hr2 & _).
      { rewrite Hsame. done. }
      { by right. }
      rewrite He. exists w2. split; [done |]. apply hash_empty_shared in He. split; [| cbn in He; by rewrite He, difference_disjoint_L by set_solver].
      unfold emptied in Hr2. rewrite Hsame, H8 in Hr2.
      rewrite (proj2 (Z.ltb_ge _ _)) in Hr2 by done. cbn [fst snd] in Hr2.
      rewrite Hsz' in Hr2. unfold M1 in Hr2. by rewrite insert_insert_eq in Hr2. }
  mstep. set (M2 := <[p := Tinfo nm (ti_size i) (ti_type it) ∅]> M) in *.
  assert (M2 !! p = Some (Tinfo nm (ti_size i) (ti_type it) ∅)) as Hp2 by apply lookup_insert_eq.
  assert (∃ it', M2 !! table = Some it' ∧ ti_map it' = if bool_decide (p = table) then ∅ else ti_map it)
    as (it' & Ht2 & Hit').
  { case_bool_decide; [subst; by eexists |]. exists it. split; [| done]. unfold M2. by rewrite lookup_insert_ne. }
  destruct (merge_tables_spec w2 hh N M2 p table _ it' Hr2 Hp2 Ht2) as (w3 & -> & Hr3 & _ & Hsh3).
  { rewrite Hit'. cbn [ti_size]. pose proof (Repr_size _ _ (proj2 (proj2 (proj2 Hi')))).
    case_bool_decide; [rewrite map_size_empty; lia | done]. }
  mstep. exists w3. cbn [ti_map] in Hr3, Hsh3. rewrite (left_id_L ∅ (∪)) in Hr3, Hsh3.
  split_and!; [done | |].
  - unfold M2 in Hr3. rewrite insert_insert_eq in Hr3. cbn in Hr3. by rewrite Hit' in Hr3.
  - rewrite Hsh3, Hsh2, Hit', map_size_empty. destruct (decide (p = table)) as [Hpt | Hpt].
    { rewrite (bool_decide_true (p = table)), (bool_decide_true (p = table ∨ _)) by (done || by left). done. }
    rewrite (bool_decide_false (p = table)) by done.
    assert (base.size (ti_map it) = 0%nat ↔ ti_map it = ∅) as Hem.
    { split; [apply map_size_empty_inv | intros ->; apply map_size_empty]. }
    erewrite bool_decide_ext; [reflexivity |]. rewrite Hem. intuition congruence.
Qed.
End register.

(** ** The instance of the interface *)

(** A zeroed table, initialised. *)
Definition new_table (w : hworld) (nm : string) (sz ty : Z) : option (hworld * Z) :=
  let '(w, p) := alloc_table w in '(w, _) ← hash_init w p nm sz ty; Some (w, p).

Definition registered (w : hworld) (N : gmap string Z) (M : gmap Z tinfo) : Prop :=
  ∃ hh, regs w hh N M ∧ shared w = ∅.

Lemma registered_nbr w N M : registered w N M → 0 < aspect_type_nbr w < 2 ^ 31.
Proof. intros (hh & Hr & _). apply (rg_nbr _ _ _ _ Hr). Qed.

Lemma registered_set_nbr w N M n :
  registered w N M → 0 < n < 2 ^ 31 →
  registered (set_type_nbr n w) N M ∧ aspect_type_nbr (set_type_nbr n w) = n.
Proof.
  intros (hh & [? ? ? ? ? ? ? ?] & ?) Hn. split; [| done]. exists hh. split; [by split | done].
Qed.

Lemma registered_new w N M nm sz ty :
  registered w N M → 0 < sz < 2 ^ 31 → 0 ≤ ty < aspect_type_nbr w →
  ∃ w' p, new_table w nm sz ty = Some (w', p) ∧ M !! p = None ∧ aspect_type_nbr w' = aspect_type_nbr w ∧
    registered w' (<[nm := p]> N) (<[p := Tinfo nm sz ty ∅]> M).
Proof.
  intros (hh & Hr & Hsh) Hsz Hty. pose proof (regs_alloc w hh N M Hr) as Hal. unfold new_table.
  assert (shared (alloc_table w).1 = ∅) as Hsh1 by done.
  destruct (alloc_table w) as [w1 p]. cbn [fst] in Hsh1. destruct Hal as (Hr1 & Hp & HM & Hn1 & _).
  destruct (regs_init w1 hh N M p hash0 nm sz ty 2 Hr1) as (w2 & Hi & Hr2 & Hn2 & _); try done; [lia |].
  unfold hash_init. rewrite Hi. mstep. apply hash_init_shared in Hi.
  exists w2, p. split_and!; [done | done | congruence | exists hh; split; [done | congruence]].
Qed.

Lemma registered_find w N M nm : registered w N M → hash_find w (Some nm) = Some (N !! nm).
Proof. intros (hh & Hr & _). by apply (regs_find _ hh _ M). Qed.

Lemma registered_get w N M p i k :
  registered w N M → M !! p = Some i → hget w p k = Some (ti_map i !! k).
Proof. intros (hh & Hr & _). by apply (regs_get _ hh N M). Qed.

Lemma registered_add w N M p i k v :
  registered w N M → M !! p = Some i →
  ∃ w' r, hadd w p k v = Some (w', r) ∧ aspect_type_nbr w' = aspect_type_nbr w ∧
    registered w' N (<[p := with_map (<[k := v]> (ti_map i)) i]> M).
Proof.
  intros (hh & Hr & Hsh) Hp. destruct (regs_add w hh N M p i k v Hr Hp) as (w' & r & Hon & ? & ?).
  exists w', r. split_and!; [done | done |]. apply on_table_shared in Hon. exists hh. split; [done | congruence].
Qed.

Lemma registered_set w N M p i k v :
  registered w N M → M !! p = Some i →
  ∃ w' r, hset w p k v = Some (w', r) ∧ aspect_type_nbr w' = aspect_type_nbr w ∧
    registered w' N (<[p := with_map (<[k := v]> (ti_map i)) i]> M).
Proof.
  intros (hh & Hr & Hsh) Hp. destruct (regs_set_key w hh N M p i k v Hr Hp) as (w' & r & Hon & ? & ?).
  exists w', r. split_and!; [done | done |]. apply on_table_shared in Hon. exists hh. split; [done | congruence].
Qed.

Lemma registered_destroy w N M p i :
  registered w N M → M !! p = Some i →
  ∃ w', hash_destroy w p = Some w' ∧ aspect_type_nbr w' = aspect_type_nbr w ∧
    registered w' (delete (ti_name i) N) (delete p M).
Proof.
  intros (hh & Hr & Hsh) Hp.
  destruct (regs_destroy w hh N M p i Hr Hp) as (w' & h' & Hd & ? & ? & _); [right; set_solver |].
  exists w'. split_and!; [done | done |]. apply hash_destroy_shared in Hd. rewrite Hsh, empty_difference_L in Hd. by exists hh.
Qed.

#[export] Instance hworld_Store : Store hworld := {
  s_nbr := aspect_type_nbr;
  s_set_nbr := set_type_nbr;
  s_new := new_table;
  s_find w nm := hash_find w (Some nm);
  s_get := hget;
  s_add := hadd;
  s_set := hset;
  s_destroy := hash_destroy;
  s_repr := registered;
  s_nbr_range := registered_nbr;
  s_set_nbr_repr := registered_set_nbr;
  s_new_repr := registered_new;
  s_find_repr := registered_find;
  s_get_repr := registered_get;
  s_add_repr := registered_add;
  s_set_repr := registered_set;
  s_destroy_repr := registered_destroy;
}.

(** ** Properties *)


(** [hash_empty] keeps the type in a [char]: a table whose type is 128 or more, up to 255,
    is destroyed and not made again. *)
Lemma hash_empty_high w hh N M nm p i :
  regs w hh N M → N !! nm = Some p → M !! p = Some i → 128 ≤ ti_type i < 256 →
  ti_type i < aspect_type_nbr w → ti_map i = ∅ ∨ p ∉ shared w →
  ∃ w' h', hash_empty w nm = Some (w', Some p) ∧ regs w' hh (delete nm N) (delete p M) ∧
    tables w' !! p = Some h' ∧ ent h' = None.
Proof.
  intros Hr HN Hp Hty Hlt Hown. assert (ti_name i = nm) as Hnm.
  { destruct (rg_names _ _ _ _ Hr _ _ HN) as [-> | (j & Hj & ?)]; [| by simplify_eq].
    by rewrite (rg_other _ _ _ _ Hr) in Hp. }
  assert (i8 (ti_type i) < 0) as Hneg.
  { rewrite (wraps_unique 8 _ (ti_type i - 256) 1) by (cbn; lia). lia. }
  destruct (regs_empty w hh N M nm p i Hr HN Hp Hnm Hlt Hown) as (w' & He & Hr' & _ & Hent).
  destruct (Hent Hneg) as (h' & ? & ?). exists w', h'. unfold emptied in Hr'.
  by rewrite (proj2 (Z.ltb_lt _ _)) in Hr'.
Qed.

(** ** A registry *)

Definition demo_unborn : hworld := Hworld {[0 := hash0]} None None 1 18 ∅.

Lemma demo_unborn_ok : unborn demo_unborn.
Proof.
  split_and!; try done. intros p Hp. cbn in *. rewrite lookup_singleton_ne by lia. done.
Qed.

Lemma demo_regs :
  ∃ w hh hl, hash_init demo_unborn 0 "types" 11 0 = Some (w, 0) ∧
    regs w hh (<["types" := 0]> {["hashes" := hh; "lists" := hl]})
      (<[0 := Tinfo "types" 11 0 ∅]> {[hl := Tinfo "lists" 51 0 ∅]}) ∧ aspect_type_nbr w = 18.
Proof. by apply (regs_first demo_unborn 0 hash0); [apply demo_unborn_ok | ..]. Qed.

