(* ===== verification/Types.v ===== *)
(** * The unified type system (src/libaspect/types.c)

    A type is a tree of [aspectype_t] cells: a record has a chain of fields under
    [childs], linked by [next].  Cells are known by their address; the names of
    the types lead to their cell through the table [types_hash] of the registry,
    any implementation of the [Store] interface.  Sizes are those of 64-bit
    objects on a 64-bit machine.  The arrays of dimensions are never written
    again, so they are values.  The strings cut in place by the parser belong to
    the caller: the functions give the rest of the label back and drop the
    fields. *)
From Stdlib Require Import Ascii.
From S2P Require Import Prelude.
From S2P Require Import Store.

Definition ASPECT_TYPE_UNKNOW : Z := 0.
Definition ASPECT_TYPE_RAW : Z := 1.
Definition ASPECT_TYPE_BIT : Z := 9.
Definition ASPECT_TYPE_CORENUM : Z := 11.
Definition ASPECT_TYPE_SIMPLENUM : Z := 14.
Definition ASPECT_TYPE_BASENUM : Z := 18.
Definition ASPECT_TYPE_MAXPTRDEPTH : Z := 1.

Record typeinfo_t := Typeinfo { iname : string; isize : Z }.

Record aspectype_t := Type_ {
  type : Z;
  isptr : Z;
  size : Z;
  off : Z;
  dimnbr : Z;
  elemnbr : option (list Z);
  name : option string;
  fieldname : option string;
  childs : option Z;
  next : option Z;
}.

(** A zeroed cell. *)
Definition type0 : aspectype_t := Type_ 0 0 0 0 0 None None None None None.

Definition set_type (x : Z) (t : aspectype_t) : aspectype_t :=
  Type_ x (isptr t) (size t) (off t) (dimnbr t) (elemnbr t) (name t) (fieldname t) (childs t) (next t).
Definition set_size (x : Z) (t : aspectype_t) : aspectype_t :=
  Type_ (type t) (isptr t) x (off t) (dimnbr t) (elemnbr t) (name t) (fieldname t) (childs t) (next t).
Definition set_name (x : option string) (t : aspectype_t) : aspectype_t :=
  Type_ (type t) (isptr t) (size t) (off t) (dimnbr t) (elemnbr t) x (fieldname t) (childs t) (next t).
Definition set_childs (x : option Z) (t : aspectype_t) : aspectype_t :=
  Type_ (type t) (isptr t) (size t) (off t) (dimnbr t) (elemnbr t) (name t) (fieldname t) x (next t).
Definition set_next (x : option Z) (t : aspectype_t) : aspectype_t :=
  Type_ (type t) (isptr t) (size t) (off t) (dimnbr t) (elemnbr t) (name t) (fieldname t) (childs t) x.

(** [sizeof] of the C types of the table, on a 64-bit machine; the last four are the
    numbers of the source. *)
Definition aspect_typeinfo_base : list typeinfo_t :=
  [ Typeinfo "unknown" 0; Typeinfo "raw" 0; Typeinfo "byte" 1; Typeinfo "string" 8;
    Typeinfo "short" 2; Typeinfo "int" 4; Typeinfo "long" 8; Typeinfo "daddr" 8;
    Typeinfo "caddr" 8; Typeinfo "bit" 1; Typeinfo "oid" 4; Typeinfo "vector" 48;
    Typeinfo "hash" 32; Typeinfo "list" 32; Typeinfo "expr" 28; Typeinfo "bloc" 13;
    Typeinfo "func" 110; Typeinfo "link" 6 ].

(** ** Strings *)

(** [strchr(s, c)]: what precedes the character and what follows it. *)
Fixpoint strchr (c : ascii) (s : string) : option (string * string) :=
  match s with
  | EmptyString => None
  | String a s =>
      if bool_decide (a = c) then Some (EmptyString, s)
      else '(l, r) ← strchr c s; Some (String a l, r)
  end.

(** [strstr(label, "::")] *)
Fixpoint strstr_colons (s : string) : option (string * string) :=
  match s with
  | EmptyString => None
  | String a s' =>
      match s' with
      | String b r =>
          if bool_decide (a = ":"%char ∧ b = ":"%char) then Some (EmptyString, r)
          else '(l, r) ← strstr_colons s'; Some (String a l, r)
      | EmptyString => None
      end
  end.

Definition isspace (c : ascii) : bool :=
  let n := Ascii.nat_of_ascii c in ((9 <=? n) && (n <=? 13) || (n =? 32))%nat.
Definition digit (c : ascii) : option Z :=
  let n := Z.of_nat (Ascii.nat_of_ascii c) in
  if (48 <=? n) && (n <=? 57) then Some (n - 48) else None.

Fixpoint atoi_digits (acc : Z) (s : string) : Z :=
  match s with
  | EmptyString => acc
  | String c s => match digit c with Some d => atoi_digits (acc * 10 + d) s | None => acc end
  end.

(** [(int) strtol(s, NULL, 10)] *)
Fixpoint atoi (s : string) : Z :=
  match s with
  | EmptyString => 0
  | String c s' =>
      if isspace c then atoi s'
      else
        let n := if bool_decide (c = "-"%char) then - atoi_digits 0 s'
                 else if bool_decide (c = "+"%char) then atoi_digits 0 s'
                 else atoi_digits 0 s in
        i32 (Z.max (- 2 ^ 63) (Z.min n (2 ^ 63 - 1)))
  end.

(** ** State *)

Section types.
Context {R : Type} `{!Store R}.

Record tworld := Tworld {
  cells : gmap Z aspectype_t;
  cbrk : Z;
  store : R;
  types_hash : Z;
  aspect_typeinfo : option (list typeinfo_t);
  done : bool;
}.

Definition set_cells (c : gmap Z aspectype_t) (w : tworld) : tworld :=
  Tworld c (cbrk w) (store w) (types_hash w) (aspect_typeinfo w) (done w).
Definition set_store (r : R) (w : tworld) : tworld :=
  Tworld (cells w) (cbrk w) r (types_hash w) (aspect_typeinfo w) (done w).
Definition set_typeinfo (l : list typeinfo_t) (w : tworld) : tworld :=
  Tworld (cells w) (cbrk w) (store w) (types_hash w) (Some l) (done w).
Definition set_done (w : tworld) : tworld :=
  Tworld (cells w) (cbrk w) (store w) (types_hash w) (aspect_typeinfo w) true.
Definition alloc (t : aspectype_t) (w : tworld) : tworld :=
  Tworld (<[cbrk w := t]> (cells w)) (cbrk w + 1) (store w) (types_hash w) (aspect_typeinfo w) (done w).
Definition upd (p : Z) (f : aspectype_t → aspectype_t) (w : tworld) : option tworld :=
  t ← cells w !! p; Some (set_cells (<[p := f t]> (cells w)) w).

(** [hash_get], [hash_add] and [hash_set] on the tables of the registry. *)
Definition tget (w : tworld) (h : Z) (k : string) : option (option Z) := s_get (store w) h k.
Definition tadd (w : tworld) (h : Z) (k : string) (v : Z) : option tworld :=
  '(r, _) ← s_add (store w) h k v; Some (set_store r w).
Definition tset (w : tworld) (h : Z) (k : string) (v : Z) : option tworld :=
  '(r, _) ← s_set (store w) h k v; Some (set_store r w).
Definition tdestroy (w : tworld) (h : Z) : option tworld :=
  r ← s_destroy (store w) h; Some (set_store r w).

Definition aspect_type_simple (typeid : Z) : Z :=
  if negb (typeid =? ASPECT_TYPE_UNKNOW) && (typeid <? ASPECT_TYPE_SIMPLENUM) then 1 else 0.

(** ** Copies *)

Definition aspect_type_copy (w : tworld) (type_ off_ isptr_ elemnbr_ : Z) (fieldname_ : string)
    (dims : option (list Z)) : option (tworld * Z) :=
  t ← cells w !! type_;
  Some (alloc (Type_ (type t) (u8 isptr_) (size t) off_ elemnbr_ dims (name t) (Some fieldname_)
                 (childs t) (next t)) w, cbrk w).

(** A record is followed through its fields, and through as many pointers as [maxdepth];
    [fuel] bounds the nesting of the calls and the turns of the loop. *)
Fixpoint aspect_type_copy_by_name (fuel : nat) (w : tworld) (type_ : Z) (name_ : option string)
    (fieldshash : option Z) (curdepth maxdepth : Z) : option (tworld * option Z) :=
  match fuel with
  | O => None
  | S fuel =>
      if maxdepth <? curdepth then Some (w, None) else
      t ← cells w !! type_;
      let result := cbrk w in
      let t := match name_ with Some _ => set_name name_ t | None => t end in
      let w := alloc t w in
      w ← match fieldshash, fieldname t with
          | Some h, Some f => tadd w h f 1
          | _, _ => Some w
          end;
      w ← match childs t with
          | None => Some w
          | Some c =>
              if (isptr t =? 0) || negb (curdepth =? maxdepth) || (maxdepth =? 0) then
                '(w, c') ← aspect_type_copy_by_name fuel w c None
                             (match fieldname t with None => fieldshash | Some _ => None end)
                             (if isptr t =? 0 then curdepth else curdepth + 1) maxdepth;
                upd result (set_childs c') w
              else upd result (set_childs None) w
          end;
      w ← copy_fields fuel w (next t) result fieldshash curdepth maxdepth;
      Some (w, Some result)
  end
with copy_fields (fuel : nat) (w : tworld) (next_ : option Z) (prev : Z) (fieldshash : option Z)
    (curdepth maxdepth : Z) : option tworld :=
  match fuel with
  | O => None
  | S fuel =>
      match next_ with
      | None => Some w
      | Some n =>
          t ← cells w !! n;
          let newtype := cbrk w in
          let w := alloc t w in
          w ← match fieldshash with
              | Some h => f ← fieldname t; tadd w h f 1
              | None => Some w
              end;
          w ← match childs t with
              | None => Some w
              | Some c =>
                  ct ← cells w !! c;
                  if (isptr ct =? 0) || negb (curdepth =? maxdepth) || (maxdepth =? 0) then
                    '(w, c') ← aspect_type_copy_by_name fuel w c None None
                                 (if isptr ct =? 0 then curdepth else curdepth + 1) maxdepth;
                    upd newtype (set_childs c') w
                  else upd n (set_childs None) w
              end;
          w ← upd prev (set_next (Some newtype)) w;
          t ← cells w !! n;
          copy_fields fuel w (next t) newtype fieldshash curdepth maxdepth
      end
  end.

(** ** Fields *)

(** [for (next = p; next->next; next = next->next);] *)
Fixpoint last_field (fuel : nat) (w : tworld) (p : Z) : option Z :=
  match fuel with
  | O => None
  | S fuel =>
      t ← cells w !! p;
      match next t with None => Some p | Some n => last_field fuel w n end
  end.

(** The chain has no more fields than there are cells. *)
Definition chain_fuel (w : tworld) : nat := S (base.size (cells w)).

Definition aspect_type_addfield (w : tworld) (parent field : option Z) : option (tworld * Z) :=
  match parent, field with
  | Some parent, Some field =>
      t ← cells w !! parent;
      w ← match childs t with
          | None => upd parent (set_childs (Some field)) w
          | Some c => n ← last_field (chain_fuel w) w c; upd n (set_next (Some field)) w
          end;
      Some (w, 0)
  | _, _ => Some (w, -1)
  end.

(** The number of dimensions; [None] is a bracket that is not closed. *)
Fixpoint count_dims (fuel : nat) (s : string) : option nat :=
  match fuel with
  | O => Some O
  | S fuel =>
      match strchr "["%char s with
      | None => Some O
      | Some (_, s) => '(_, s) ← strchr "]"%char s; S <$> count_dims fuel s
      end
  end.

(** The numbers of elements; [None] is a dimension without elements. *)
Fixpoint fill_dims (idx : nat) (s : string) : option (list Z) :=
  match idx with
  | O => Some []
  | S idx =>
      '(_, s) ← strchr "["%char s;
      let sz := u32 (atoi s) in
      if sz =? 0 then None else '(_, s) ← strchr "]"%char s; cons sz <$> fill_dims idx s
  end.

(** The array ([None] is NULL), the number of dimensions, and the name of the type as it
    is left: it is cut at the first bracket unless the count failed. *)
Definition aspect_type_getdims (typename : string) : option (list Z) * Z * string :=
  match count_dims (String.length typename) typename with
  | None => (None, 0, typename)
  | Some idx =>
      (fill_dims idx typename, Z.of_nat idx,
       match idx, strchr "["%char typename with S _, Some (l, _) => l | _, _ => typename end)
  end.

(** The loop over the fields, [int] against [u_int]. *)
Fixpoint biggest_size (fuel : nat) (w : tworld) (p : option Z) (biggest : Z) : option Z :=
  match fuel with
  | O => None
  | S fuel =>
      match p with
      | None => Some biggest
      | Some p =>
          t ← cells w !! p;
          biggest_size fuel w (next t) (if u32 biggest <? size t then i32 (size t) else biggest)
      end
  end.

Definition aspect_type_find_union_size (w : tworld) (utype : option Z) : option Z :=
  match utype with
  | None => Some 0
  | Some p =>
      t ← cells w !! p;
      let utype := match next t, childs t with None, Some c => Some c | _, _ => Some p end in
      biggest_size (S (chain_fuel w)) w utype 0
  end.

(** ** Creation *)

(** The name of the field, of its type, and its size: [name:type] or [name%size]. *)
Definition split_field (f : string) : string * option string * option string :=
  let '(lhs, typename) :=
    match strchr ":"%char f with Some (l, r) => (l, Some r) | None => (f, None) end in
  match strchr "%"%char lhs with Some (l, r) => (l, typename, Some r) | None => (lhs, typename, None) end.

Definition bad_field (w : tworld) (fields_hash : Z) (fieldname_ : string)
    (typename fieldsz : option string) : option bool :=
  if bool_decide (fieldname_ = EmptyString) then Some true else
  known ← tget w fields_hash fieldname_;
  Some (bool_decide (is_Some known) ||
    match typename, fieldsz with
    | None, None | Some _, Some _ => true
    | Some ty, None => bool_decide (ty = EmptyString)
    | None, Some sz => bool_decide (sz = EmptyString) || (atoi sz =? 0)
    end).

(** [while (typename[0] == '*') isptr++, typename++;] on a [char]. *)
Fixpoint pointers (isptr_ : Z) (s : string) : Z * string :=
  match s with
  | String c s' => if bool_decide (c = "*"%char) then pointers (i8 (isptr_ + 1)) s' else (isptr_, s)
  | EmptyString => (isptr_, s)
  end.

(** What the errors free: the table of the field names and the type. *)
Definition abandon (w : tworld) (fields_hash newtype : Z) : option tworld :=
  w ← tdestroy w fields_hash; Some (set_cells (delete newtype (cells w)) w).

(** The type of a field, the size of an element, and the pointer flag; [None] inside is
    an unknown type. *)
Definition child_type (w : tworld) (label typename : string) (newtype isptr_ : Z) :
    option (tworld * option (Z * Z * Z)) :=
  childtype ← tget w (types_hash w) typename;
  match childtype with
  | None =>
      if bool_decide (label = typename) then Some (w, Some (newtype, 8, 1))
      else if negb (isptr_ =? 0) then
        Some (alloc (set_name (Some typename) type0) w, Some (cbrk w, 0, isptr_))
      else Some (w, None)
  | Some c =>
      t ← cells w !! c;
      Some (w, Some (c, if isptr_ =? 0 then size t else 8, isptr_))
  end.

(** A type of [size] bytes. *)
Definition raw_type (w : tworld) (sz : string) : option (tworld * option (Z * Z * Z)) :=
  info ← aspect_typeinfo w;
  raw ← info !! Z.to_nat ASPECT_TYPE_RAW;
  let off := u32 (atoi sz) in
  Some (alloc (set_name (Some (iname raw)) (set_size off (set_type ASPECT_TYPE_RAW type0))) w,
        Some (cbrk w, off, 0)).

(** [off * dims[0] * ... ], then the bytes of a bit field. *)
Definition field_size (off dimnbr_ : Z) (dims : option (list Z)) (type_ : Z) : Z :=
  let size := match dims with
              | Some l => foldl (λ s d, u32 (s * d)) off (take (Z.to_nat dimnbr_) l)
              | None => off
              end in
  if type_ =? ASPECT_TYPE_BIT then u32 (size / 8 + 1) else size.

(** One turn of the loop: the next offset, or [None] after an error. *)
Definition create_field (w : tworld) (isunion : Z) (label : string) (newtype fields_hash curoff : Z)
    (field : string) : option (tworld * option Z) :=
  let '(fieldname_, typename, fieldsz) := split_field field in
  bad ← bad_field w fields_hash fieldname_ typename fieldsz;
  if bad : bool then w ← abandon w fields_hash newtype; Some (w, None) else
  w ← tadd w fields_hash fieldname_ 1;
  '(w, child, dimnbr_, dims) ←
    match typename, fieldsz with
    | None, Some sz => '(w, child) ← raw_type w sz; Some (w, child, 0, None)
    | Some ty, _ =>
        let '(isptr_, ty) := pointers 0 ty in
        let '(dims, dimnbr_, ty) := aspect_type_getdims ty in
        '(w, child) ← child_type w label ty newtype isptr_;
        Some (w, child, dimnbr_, dims)
    | None, None => None
    end;
  match child with
  | None => w ← abandon w fields_hash newtype; Some (w, None)
  | Some (childtype, off, isptr_) =>
      '(w, copy) ← aspect_type_copy w childtype (if isunion =? 0 then curoff else 0) isptr_ dimnbr_
                     fieldname_ dims;
      t ← cells w !! childtype;
      '(w, _) ← aspect_type_addfield w (Some newtype) (Some copy);
      Some (w, Some (u32 (curoff + field_size off dimnbr_ dims (type t))))
  end.

Fixpoint create_fields (w : tworld) (isunion : Z) (label : string) (newtype fields_hash curoff : Z)
    (fields : list string) : option (tworld * option Z) :=
  match fields with
  | [] => Some (w, Some curoff)
  | f :: fields =>
      '(w, off) ← create_field w isunion label newtype fields_hash curoff f;
      match off with
      | None => Some (w, None)
      | Some curoff => create_fields w isunion label newtype fields_hash curoff fields
      end
  end.

(** The type that is extended, and the label without its name. *)
Definition supertype_of (w : tworld) (label : string) : option (string * option (option Z)) :=
  match strstr_colons label with
  | None => Some (label, None)
  | Some (label, super) => s ← tget w (types_hash w) super; Some (label, Some s)
  end.

(** The type ([None] is NULL) and the label as it is left. *)
Definition aspect_type_create (fuel : nat) (w : tworld) (isunion : Z) (label : option string)
    (fields : option (list string)) (fieldnbr : Z) : option (tworld * option Z * option string) :=
  match label, fields with
  | Some lab, Some fields =>
      if fieldnbr =? 0 then Some (w, None, label) else
      '(lab, super) ← supertype_of w lab;
      match super with
      | Some None => Some (w, None, Some lab)
      | _ =>
          known ← tget w (types_hash w) lab;
          taken ← match known with
                  | None => Some false
                  | Some k => t ← cells w !! k;
                      Some ((type t <? ASPECT_TYPE_CORENUM) || (ASPECT_TYPE_BASENUM <=? type t))
                  end;
          if taken : bool then Some (w, None, Some lab) else
          '(r, fields_hash) ← s_new (store w) "localfields" 10 ASPECT_TYPE_UNKNOW;
          let w := set_store r w in
          '(w, newtype, curoff) ←
            match super with
            | Some (Some s) =>
                '(w, p) ← aspect_type_copy_by_name fuel w s (Some lab) (Some fields_hash) 0
                            ASPECT_TYPE_MAXPTRDEPTH;
                p ← p; t ← cells w !! p; Some (w, p, size t)
            | _ => Some (alloc (set_name (Some lab) type0) w, cbrk w, 0)
            end;
          '(w, off) ← create_fields w isunion lab newtype fields_hash curoff
                        (take (Z.to_nat fieldnbr) fields);
          match off with
          | None => Some (w, None, Some lab)
          | Some curoff =>
              _ ← guard_ub (bool_decide (fieldnbr ≤ Z.of_nat (length fields)));
              sz ← (if isunion =? 0 then Some curoff else aspect_type_find_union_size w (Some newtype));
              w ← upd newtype (set_size (u32 sz)) w;
              w ← tdestroy w fields_hash;
              Some (w, Some newtype, Some lab)
          end
      end
  | _, _ => Some (w, None, label)
  end.

(** ** Registration *)

(** [aspect_type_nbr++], the array of informations made longer and its last element set. *)
Definition push_typeinfo (w : tworld) (nm : string) (sz : Z) : option tworld :=
  let nbr := s_nbr (store w) + 1 in
  let w := set_store (s_set_nbr nbr (store w)) w in
  let info := default [] (aspect_typeinfo w) in
  info ← Prelude.store (resize (Z.to_nat nbr) (Typeinfo "" 0) info) (Z.to_nat (nbr - 1)) (Typeinfo nm sz);
  Some (set_typeinfo info w).

Definition aspect_type_register_real (w : tworld) (label : string) (ntype : Z) :
    option (tworld * Z) :=
  update ← tget w (types_hash w) label;
  match update with
  | Some u =>
      ut ← cells w !! u;
      w ← upd ntype (set_type (type ut)) w;
      w ← tset w (types_hash w) label ntype;
      nt ← cells w !! ntype;
      info ← aspect_typeinfo w;
      old ← info !! Z.to_nat (type nt);
      Some (set_typeinfo (<[Z.to_nat (type nt) := Typeinfo (iname old) (size nt)]> info) w, 0)
  | None =>
      w ← tadd w (types_hash w) label ntype;
      nt ← cells w !! ntype;
      w ← push_typeinfo w label (size nt);
      w ← upd ntype (set_type (u32 (s_nbr (store w) - 1))) w;
      Some (w, 0)
  end.

Definition aspect_type_register (fuel : nat) (w : tworld) (isunion : Z) (label : option string)
    (fields : option (list string)) (fieldnbr : Z) : option (tworld * Z) :=
  '(w, ret, label) ← aspect_type_create fuel w isunion label fields fieldnbr;
  match ret with
  | None => Some (w, -1)
  | Some p => label ← label; aspect_type_register_real w label p
  end.

(** [snprintf] in a buffer of [BUFSIZ] characters. *)
Definition object_table (nm : string) : string := String.substring 0 (Z.to_nat (8192 - 1)) ("type_" +:+ nm).

Definition aspect_basetype_create (w : tworld) (type_ : Z) (info : typeinfo_t) : option tworld :=
  let newtype := cbrk w in
  let w := alloc (set_name (Some (iname info)) (set_size (isize info) (set_type type_ type0))) w in
  w ← tadd w (types_hash w) (iname info) newtype;
  '(r, _) ← s_new (store w) (object_table (iname info)) 11 ASPECT_TYPE_UNKNOW;
  Some (set_store r w).

Fixpoint create_bases (w : tworld) (index : Z) (infos : list typeinfo_t) : option tworld :=
  match infos with
  | [] => Some w
  | i :: infos => w ← aspect_basetype_create w index i; create_bases w (index + 1) infos
  end.

Definition aspect_basetypes_create (w : tworld) : option (tworld * Z) :=
  if done w then Some (w, 0) else
  let w := set_typeinfo aspect_typeinfo_base (set_done w) in
  w ← create_bases w 1 (tail aspect_typeinfo_base);
  Some (w, 0).

Definition aspect_basetype_register (w : tworld) (nm : option string) (sz : Z) :
    option (tworld * Z) :=
  match nm with
  | None => Some (w, -1)
  | Some nm =>
      exist ← tget w (types_hash w) nm;
      match exist with
      | Some _ => Some (w, -1)
      | None =>
          w ← aspect_basetype_create w (u32 (s_nbr (store w))) (Typeinfo nm sz);
          w ← push_typeinfo w nm sz;
          Some (w, 0)
      end
  end.

(** ** Lookup *)

Fixpoint find_child (fuel : nat) (w : tworld) (cur : option Z) (nm : string) : option (option Z) :=
  match fuel with
  | O => None
  | S fuel =>
      match cur with
      | None => Some None
      | Some c =>
          t ← cells w !! c;
          f ← fieldname t;
          if bool_decide (f = nm) then Some (Some c) else find_child fuel w (next t) nm
      end
  end.

Definition aspect_type_get_child (w : tworld) (parent : Z) (nm : string) : option (option Z) :=
  t ← cells w !! parent; find_child (S (chain_fuel w)) w (childs t) nm.

Definition aspect_type_get_by_id (w : tworld) (id : Z) : option (option Z) :=
  if u32 (s_nbr (store w)) <=? id then Some None else
  info ← aspect_typeinfo w; i ← info !! Z.to_nat id; tget w (types_hash w) (iname i).

Definition aspect_type_get_by_name (w : tworld) (nm : string) : option (option Z) :=
  tget w (types_hash w) nm.

Definition aspect_typename_get (w : tworld) (type_ : Z) : option (option string) :=
  if u32 (s_nbr (store w)) <=? type_ then Some None else
  info ← aspect_typeinfo w; i ← info !! Z.to_nat type_; Some (Some (iname i)).

Definition aspect_typesize_get (w : tworld) (type_ : Z) : option Z :=
  if u32 (s_nbr (store w)) <=? type_ then Some 0 else
  info ← aspect_typeinfo w; i ← info !! Z.to_nat type_; Some (isize i).

End types.

Arguments tworld : clear implicits.
