(* ===== verification/TypesSpec.v ===== *)
(** * Types: chains of fields, and what the creation of a type builds *)
From Stdlib Require Import Ascii.
From S2P Require Import Prelude.
From S2P Require Import Store.
From S2P Require Import Types.

(** ** Chains of fields

    [chain m h l]: following [next] from [h] meets the fields [l], each with its address;
    the links themselves are left out of the cells of [l]. *)
Inductive chain (m : gmap Z aspectype_t) : option Z → list (Z * aspectype_t) → Prop :=
  | chain_nil : chain m None []
  | chain_cons p t l :
      m !! p = Some t → chain m (next t) l → chain m (Some p) ((p, set_next None t) :: l).

Lemma set_next_next t x y : set_next x (set_next y t) = set_next x t.
Proof. done. Qed.
Lemma set_next_id t : set_next (next t) t = t.
Proof. by destruct t. Qed.

Lemma chain_agree m m' h l :
  (∀ p, p ∈ l.*1 → m' !! p = m !! p) → chain m h l → chain m' h l.
Proof.
  intros Heq Hc. induction Hc as [| p t l Hp Hc IH]; [constructor |].
  constructor; [rewrite Heq; [done | by left] |]. apply IH. intros q Hq. apply Heq. by right.
Qed.

Lemma chain_det m h l l' : chain m h l → chain m h l' → l = l'.
Proof.
  intros Hc. revert l'. induction Hc as [| p t l Hp Hc IH]; intros l' Hc'; inversion Hc'; simplify_eq.
  - done.
  - f_equal. by apply IH.
Qed.

Lemma chain_from m h l1 p t l2 : chain m h (l1 ++ (p, t) :: l2) → chain m (Some p) ((p, t) :: l2).
Proof.
  revert h. induction l1 as [| [q u] l1 IH]; intros h Hc; inversion Hc; simplify_eq/=.
  - by constructor.
  - eapply IH. done.
Qed.

Lemma chain_NoDup m h l : chain m h l → NoDup l.*1.
Proof.
  induction 1 as [| p t l Hp Hc IH]; [constructor |]. cbn. constructor; [| done].
  intros ([q u] & Heq & Hin)%list_elem_of_fmap. cbn in Heq. subst q.
  apply list_elem_of_split in Hin as (l1 & l2 & ->).
  assert (chain m (Some p) ((p, set_next None t) :: l1 ++ (p, u) :: l2)) as Hc1 by by constructor.
  pose proof (chain_from m _ l1 p u l2 Hc) as Hc2. pose proof (chain_det _ _ _ _ Hc1 Hc2) as Heq.
  apply (f_equal length) in Heq. cbn in Heq. rewrite length_app in Heq. cbn in Heq. lia.
Qed.

Lemma chain_in m h l p t : chain m h l → (p, t) ∈ l → ∃ t', m !! p = Some t' ∧ t = set_next None t'.
Proof.
  induction 1 as [| q u l Hq Hc IH]; [by intros ?%not_elem_of_nil |].
  intros [Heq | Hin]%elem_of_cons; [simplify_eq; eauto | by apply IH].
Qed.

Lemma chain_mem m h l p : chain m h l → p ∈ l.*1 → is_Some (m !! p).
Proof.
  intros Hc ([q t] & -> & Hin)%list_elem_of_fmap.
  destruct (chain_in _ _ _ _ _ Hc Hin) as (t' & Ht & _). by exists t'.
Qed.

Lemma NoDup_bounded (l : list Z) (m : gmap Z aspectype_t) :
  NoDup l → (∀ p, p ∈ l → is_Some (m !! p)) → (length l ≤ base.size m)%nat.
Proof.
  intros Hnd Hin. rewrite <-(size_dom (D := gset Z)), <-(size_list_to_set (C := gset Z) l) by done.
  apply subseteq_size. intros p Hp%elem_of_list_to_set. apply elem_of_dom. by apply Hin.
Qed.

Lemma chain_length m h l : chain m h l → (length l ≤ base.size m)%nat.
Proof.
  intros Hc. rewrite <-(length_fmap fst l). apply NoDup_bounded; [by eapply chain_NoDup |].
  intros p. by apply (chain_mem _ h).
Qed.

(** A field is added at the end. *)
Lemma chain_snoc m p t l q tq :
  chain m (Some p) l → m !! q = Some tq → next tq = None → q ∉ l.*1 →
  last l = Some t → ∃ u, m !! t.1 = Some u ∧ next u = None ∧
    chain (<[t.1 := set_next (Some q) u]> m) (Some p) (l ++ [(q, set_next None tq)]).
Proof.
  intros Hc. remember (Some p) as h eqn:Eh. revert p Eh t.
  induction Hc as [| p' u l Hp Hc IH]; [done |]. intros p [= <-] t Hq Hnq Hnin Hlast.
  apply not_elem_of_cons in Hnin as [Hne Hnin].
  pose proof (chain_NoDup m _ _ (chain_cons m p' u l Hp Hc)) as [Hnd _]%NoDup_cons.
  inversion Hc as [Hn Hl | p2 u2 l2 Hp2 Hc2 Hn Hl]; subst l.
  - cbn in Hlast. simplify_eq. exists u. split_and!; [done | done |]. cbn.
    change (set_next None u) with (set_next None (set_next (Some q) u)). constructor.
    + apply lookup_insert_eq.
    + cbn. constructor; [by rewrite lookup_insert_ne by done |]. rewrite Hnq. constructor.
  - destruct (IH p2 (eq_sym Hn) t Hq Hnq Hnin) as (v & Hv & Hnv & Hch).
    { by rewrite last_cons_cons in Hlast. }
    exists v. split_and!; [done | done |]. cbn [app]. constructor.
    + rewrite lookup_insert_ne; [done |]. intros Heq. apply Hnd. rewrite <-Heq.
      rewrite last_cons_cons in Hlast. apply last_Some_elem_of in Hlast. exact (list_elem_of_fmap_2 fst _ _ Hlast).
    + done.
Qed.

Section spec.
Context {R : Type} `{!Store R}.
Implicit Types (w : tworld R).

Lemma last_field_spec fuel w p l t :
  chain (cells w) (Some p) l → (length l ≤ fuel)%nat → last l = Some t → last_field fuel w p = Some t.1.
Proof.
  intros Hc. remember (Some p) as h eqn:Eh. revert p Eh fuel.
  induction Hc as [| p' u l Hp Hc IH]; [done |]. intros p [= <-] [| fuel] Hf Hlast; cbn in Hf; [lia |].
  cbn [last_field]. rewrite Hp. mstep. inversion Hc as [Hn Hl | p2 u2 l2 Hp2 Hc2 Hn Hl]; subst l.
  - cbn in Hlast. by simplify_eq.
  - apply IH; [done | lia | by rewrite last_cons_cons in Hlast].
Qed.

(** The new field [q] goes at the end of the fields of [parent]. *)
Lemma addfield_spec w parent pt l q tq :
  cells w !! parent = Some pt → chain (cells w) (childs pt) l →
  cells w !! q = Some tq → next tq = None → q ∉ parent :: l.*1 → parent ∉ l.*1 →
  ∃ w' pt', aspect_type_addfield w (Some parent) (Some q) = Some (w', 0) ∧
    cells w' !! parent = Some pt' ∧ set_childs None pt' = set_childs None pt ∧
    chain (cells w') (childs pt') (l ++ [(q, set_next None tq)]) ∧
    (∀ x, x ∉ parent :: l.*1 → cells w' !! x = cells w !! x) ∧ w' = set_cells (cells w') w.
Proof.
  intros Hp Hc Hq Hnq [Hqp Hql]%not_elem_of_cons Hpl. cbn [aspect_type_addfield]. rewrite Hp. mstep.
  destruct (childs pt) as [c |] eqn:Hch.
  - destruct (last l) as [t |] eqn:Hlast.
    2: { apply last_None in Hlast as ->. inversion Hc. }
    rewrite (last_field_spec _ w c l t) by (done || (unfold chain_fuel; pose proof (chain_length _ _ _ Hc); lia)).
    mstep. destruct (chain_snoc _ c t l q tq Hc Hq Hnq Hql Hlast) as (u & Hu & _ & Hc').
    unfold upd. rewrite Hu. mstep. eexists _, pt. split; [done |]. cbn [cells set_cells].
    assert (t.1 ∈ l.*1) as Hin by (apply list_elem_of_fmap_2; by apply last_Some_elem_of).
    split_and!; try done.
    + rewrite lookup_insert_ne; [done |]. intros Heq. by rewrite Heq in Hin.
    + by rewrite Hch.
    + intros x [Hxp Hxl]%not_elem_of_cons. rewrite lookup_insert_ne; [done |]. by intros <-.
  - inversion Hc; subst. unfold upd. rewrite Hp. mstep. eexists _, (set_childs (Some q) pt). split; [done |].
    cbn [cells set_cells]. split_and!; try done.
    + apply lookup_insert_eq.
    + cbn. constructor; [by rewrite lookup_insert_ne |]. rewrite Hnq. constructor.
    + intros x [Hxp _]%not_elem_of_cons. by rewrite lookup_insert_ne.
Qed.

(** ** The registry of types

    The names [ti_map i] of the types lead to their cells: the cell has the number of the
    type, and the array of informations has its name and size under this number. *)
Record types_ok w (N : gmap string Z) (M : gmap Z tinfo) (i : tinfo) (info : list typeinfo_t) : Prop := {
  tk_store : s_repr (store w) N M;
  tk_hash : M !! types_hash w = Some i;
  tk_info : aspect_typeinfo w = Some info;
  tk_nbr : Z.of_nat (length info) = s_nbr (store w);
  tk_base : ASPECT_TYPE_BASENUM ≤ s_nbr (store w);
  tk_ids (id : nat) x : (1 ≤ id)%nat → info !! id = Some x →
    ∃ p t, ti_map i !! iname x = Some p ∧ cells w !! p = Some t ∧ type t = Z.of_nat id;
  tk_names nm p : ti_map i !! nm = Some p →
    ∃ t, cells w !! p = Some t ∧ next t = None ∧ name t = Some nm ∧ 1 ≤ type t ∧
      info !! Z.to_nat (type t) = Some (Typeinfo nm (size t));
  tk_fresh p : cbrk w ≤ p → cells w !! p = None;
}.

(** The world when [aspect_type_create] is over, but for the new type: [w0] is the world
    before. *)
Record restored w0 w N (M : gmap Z tinfo) : Prop := {
  rs_store : s_repr (store w) N M;
  rs_nbr : s_nbr (store w) = s_nbr (store w0);
  rs_hash : types_hash w = types_hash w0;
  rs_info : aspect_typeinfo w = aspect_typeinfo w0;
  rs_brk : cbrk w0 ≤ cbrk w;
  rs_old p : p < cbrk w0 → cells w !! p = cells w0 !! p;
  rs_fresh p : cbrk w ≤ p → cells w !! p = None;
}.

Lemma restored_ok w0 w N M N' M' i info :
  types_ok w0 N M i info → restored w0 w N' M' → M' !! types_hash w0 = Some i → types_ok w N' M' i info.
Proof.
  intros [Hs Hh Hi Hn Hb Hids Hnam Hf] [Hs' Hn' Hh' Hi' Hbr Hold Hf'] HM.
  assert (∀ p t, cells w0 !! p = Some t → cells w !! p = Some t) as Hkeep.
  { intros p t Hp. rewrite Hold; [done |]. destruct (Z.lt_ge_cases p (cbrk w0)); [done |].
    by rewrite Hf in Hp. }
  split; try done; [by rewrite Hh' | by rewrite Hi' | congruence | by rewrite Hn' | |].
  - intros id x Hid Hx. destruct (Hids id x Hid Hx) as (p & t & ? & ? & ?). eauto 10.
  - intros nm p Hp. destruct (Hnam nm p Hp) as (t & ? & ? & ? & ? & ?). eauto 10.
Qed.

(** ** Fields *)

(** What is known of a field from its text: its name, its type, the pointer flag, the size
    of its type, its dimensions, and the bytes it takes. *)
Record fdesc := Fdesc {
  fd_name : string;
  fd_type : Z;
  fd_ptr : Z;
  fd_size : Z;
  fd_dimnbr : Z;
  fd_dims : option (list Z);
  fd_bytes : Z;
}.

Definition bad_syntax (nm : string) (typename fieldsz : option string) : bool :=
  bool_decide (nm = EmptyString) ||
  match typename, fieldsz with
  | None, None | Some _, Some _ => true
  | Some ty, None => bool_decide (ty = EmptyString)
  | None, Some sz => bool_decide (sz = EmptyString) || (atoi sz =? 0)
  end.

(** [env] gives the registered types; [self] is the new one while it is made.  The type of the
    field, its size, the bytes of an element and the pointer flag: a pointer to a type that
    is not known takes no bytes. *)
Definition child_desc (env : string → option aspectype_t) (label : string) (self : aspectype_t)
    (ptr : Z) (ty : string) : option (Z * Z * Z * Z) :=
  match env ty with
  | Some t => Some (type t, size t, if ptr =? 0 then size t else 8, ptr)
  | None =>
      if bool_decide (label = ty) then Some (type self, size self, 8, 1)
      else if negb (ptr =? 0) then Some (ASPECT_TYPE_UNKNOW, 0, 0, ptr)
      else None
  end.

Definition field_desc (env : string → option aspectype_t) (label : string) (self : aspectype_t)
    (f : string) : option fdesc :=
  let '(nm, typename, fieldsz) := split_field f in
  if bad_syntax nm typename fieldsz then None else
  match typename, fieldsz with
  | None, Some sz =>
      Some (Fdesc nm ASPECT_TYPE_RAW 0 (u32 (atoi sz)) 0 None (u32 (atoi sz)))
  | Some ty, _ =>
      let '(ptr, ty) := pointers 0 ty in
      let '(dims, n, ty) := aspect_type_getdims ty in
      '(cty, ts, o, ip) ← child_desc env label self ptr ty;
      Some (Fdesc nm cty (u8 ip) ts n dims (field_size o n dims cty))
  | None, None => None
  end.

(** The descriptions of the fields, whose names must differ from each other and from
    [names]. *)
Fixpoint field_descs (env : string → option aspectype_t) (label : string) (self : aspectype_t)
    (names : list string) (fs : list string) : option (list fdesc) :=
  match fs with
  | [] => Some []
  | f :: fs =>
      d ← field_desc env label self f;
      if bool_decide (fd_name d ∈ names) then None
      else cons d <$> field_descs env label self (fd_name d :: names) fs
  end.

(** The cell [t] is the field [d] at the offset [o]. *)
Definition has_desc (t : aspectype_t) (o : Z) (d : fdesc) : Prop :=
  type t = fd_type d ∧ isptr t = fd_ptr d ∧ size t = fd_size d ∧ off t = o ∧ dimnbr t = fd_dimnbr d ∧
  elemnbr t = fd_dims d ∧ fieldname t = Some (fd_name d).

Definition types_env w (i : tinfo) (nm : string) : option aspectype_t :=
  p ← ti_map i !! nm; cells w !! p.

(** The names that are taken. *)
Definition marks (names : list string) : gmap string Z := foldr (λ n m, <[n := 1]> m) ∅ names.

Lemma marks_lookup names n : is_Some (marks names !! n) ↔ n ∈ names.
Proof.
  induction names as [| k names IH]; cbn.
  - rewrite lookup_empty. split; [by intros [] | by intros ?%not_elem_of_nil].
  - rewrite elem_of_cons. destruct (decide (n = k)) as [-> |].
    + rewrite lookup_insert_eq. split; [by left | by eexists].
    + rewrite lookup_insert_ne by done. rewrite IH. split; [by right | by intros []].
Qed.

(** The new type [newtype] while its fields are made: [l] are the ones it has, [self] its cell
    without them. *)
Record building w0 N M (i : tinfo) (fh newtype : Z) (self : aspectype_t) w
    (l : list (Z * aspectype_t)) (names : list string) : Prop := {
  bd_rest : restored w0 w (<["localfields" := fh]> N)
              (<[fh := Tinfo "localfields" 10 0 (marks names)]> M);
  bd_new : cbrk w0 ≤ newtype < cbrk w;
  bd_type : ∃ nt, cells w !! newtype = Some nt ∧ set_childs None nt = self ∧
              chain (cells w) (childs nt) l;
  bd_fields p : p ∈ l.*1 → cbrk w0 ≤ p;
  bd_notin : newtype ∉ l.*1;
}.

Section build.
Context {w0 : tworld R} {N : gmap string Z} {M : gmap Z tinfo} {i : tinfo} {info : list typeinfo_t}.
Context (Hok : types_ok w0 N M i info).
Context {fh newtype : Z} {self : aspectype_t}.
Context (Hfh : M !! fh = None) (Hself : next self = None).

Local Abbreviation bld := (building w0 N M i fh newtype self).

Lemma types_not_fh : types_hash w0 ≠ fh.
Proof using Hok Hfh. intros Heq. pose proof (tk_hash _ _ _ _ _ Hok). congruence. Qed.

Lemma bd_types w l names k :
  bld w l names → tget w (types_hash w) k = Some (ti_map i !! k).
Proof using Hok Hfh.
  intros [[Hs _ -> _ _ _ _] _ _ _ _]. unfold tget. eapply s_get_repr; [done |].
  rewrite lookup_insert_ne by (symmetry; apply types_not_fh). apply (tk_hash _ _ _ _ _ Hok).
Qed.

Lemma bd_known w l names k : bld w l names → tget w fh k = Some (marks names !! k).
Proof using Type.
  intros [[Hs _ _ _ _ _ _] _ _ _ _]. unfold tget.
  exact (s_get_repr _ _ _ _ _ k Hs (lookup_insert_eq _ _ _)).
Qed.

Lemma bd_cell w l names nm p t :
  bld w l names → ti_map i !! nm = Some p → cells w0 !! p = Some t → cells w !! p = Some t.
Proof using Hok.
  intros Hb Hp Ht. rewrite (rs_old _ _ _ _ (bd_rest _ _ _ _ _ _ _ _ _ _ Hb)); [done |].
  destruct (Z.lt_ge_cases p (cbrk w0)); [done |]. by rewrite (tk_fresh _ _ _ _ _ Hok) in Ht.
Qed.

Lemma bd_alloc w l names t :
  bld w l names → bld (alloc t w) l names ∧ cells (alloc t w) !! cbrk w = Some t.
Proof using Type.
  intros [[Hs Hn Hh Hi Hbr Hold Hf] [Hn1 Hn2] (nt & Hnt & Hse & Hc) Hfl Hni].
  assert (∀ p, p ≠ cbrk w → cells (alloc t w) !! p = cells w !! p) as Hne
    by (intros p Hp; cbn; by rewrite lookup_insert_ne).
  assert (∀ p, p ∈ l.*1 → p ≠ cbrk w) as Hlt.
  { intros p Hin ->. destruct (chain_mem _ _ _ _ Hc Hin) as [? Hq]. by rewrite Hf in Hq by done. }
  split; [| cbn; apply lookup_insert_eq]. split; [split; try done | | | done | done].
  - cbn. lia.
  - intros p Hp. rewrite Hne by lia. by apply Hold.
  - intros p Hp. cbn in Hp. rewrite Hne by lia. apply Hf. lia.
  - cbn. lia.
  - exists nt. rewrite Hne by lia. split_and!; try done. apply (chain_agree (cells w)); [| done].
    intros p Hp. by apply Hne, Hlt.
Qed.

Lemma bd_add w l names nm :
  bld w l names →
  ∃ w', tadd w fh nm 1 = Some w' ∧ bld w' l (nm :: names) ∧ cells w' = cells w ∧ cbrk w' = cbrk w.
Proof using Type.
  intros [[Hs Hn Hh Hi Hbr Hold Hf] Hnw Hty Hfl Hni]. unfold tadd.
  destruct (s_add_repr _ _ _ _ _ nm 1 Hs (lookup_insert_eq _ _ _)) as (r & x & -> & Hnr & Hr). mstep.
  eexists. split; [done |]. split; [| done]. split; [split; try done | done.. ].
  - by rewrite insert_insert_eq in Hr.
  - cbn. congruence.
Qed.

Lemma bd_abandon w l names :
  bld w l names →
  ∃ w', abandon w fh newtype = Some w' ∧ restored w0 w' (delete "localfields" N) M.
Proof using Hfh.
  intros [[Hs Hn Hh Hi Hbr Hold Hf] Hnw Hty Hfl Hni]. unfold abandon, tdestroy.
  destruct (s_destroy_repr _ _ _ _ _ Hs (lookup_insert_eq _ _ _)) as (r & -> & Hnr & Hr). mstep.
  eexists. split; [done |]. cbn [ti_name] in Hr. rewrite delete_insert_eq, (delete_insert_id M) in Hr by done.
  split; try done; cbn [cells set_cells set_store store cbrk].
  - congruence.
  - intros p Hp. rewrite lookup_delete_ne by lia. by apply Hold.
  - intros p Hp. rewrite lookup_delete_ne by lia. by apply Hf.
Qed.

(** The copy of the child type [tc] becomes the last field. *)
Lemma bd_field w l names c tc o ip n dims nm :
  bld w l names → cells w !! c = Some tc → next tc = None →
  ∃ w1 w2 p t, aspect_type_copy w c o ip n nm dims = Some (w1, p) ∧ cells w1 !! c = Some tc ∧
    aspect_type_addfield w1 (Some newtype) (Some p) = Some (w2, 0) ∧ bld w2 (l ++ [(p, t)]) names ∧
    has_desc t o (Fdesc nm (type tc) (u8 ip) (size tc) n dims 0).
Proof using Hself.
  intros Hb Hc Hnx. set (t := Type_ (type tc) (u8 ip) (size tc) o n dims (name tc) (Some nm) (childs tc) (next tc)).
  destruct (bd_alloc w l names t Hb) as [Hb1 Hp]. set (w1 := alloc t w) in *.
  pose proof Hb1 as [[Hs Hn Hh Hi Hbr Hold Hf] [Hn1 Hn2] (nt & Hnt & Hse & Hch) Hfl Hni].
  pose proof (rs_fresh _ _ _ _ (bd_rest _ _ _ _ _ _ _ _ _ _ Hb)) as Hf0.
  assert (c ≠ cbrk w) as Hcw by (intros ->; by rewrite Hf0 in Hc).
  assert (cbrk w ∉ l.*1) as Hnl.
  { intros Hin. destruct (bd_type _ _ _ _ _ _ _ _ _ _ Hb) as (nt' & _ & _ & Hch').
    destruct (chain_mem _ _ _ _ Hch' Hin) as [? Hq]. by rewrite Hf0 in Hq by done. }
  assert (cbrk w ≠ newtype) as Hnn.
  { pose proof (bd_new _ _ _ _ _ _ _ _ _ _ Hb). lia. }
  destruct (addfield_spec w1 newtype nt l (cbrk w) t) as (w2 & nt' & Ha & Hnt' & Hsame & Hch2 & Hfr & Hw2); try done.
  { apply not_elem_of_cons. by split. }
  exists w1, w2, (cbrk w), (set_next None t). unfold aspect_type_copy. rewrite Hc. mstep.
  split; [done |]. split; [cbn; by rewrite lookup_insert_ne |]. split; [done |]. split; [| by split_and!].
  pose proof (rs_brk _ _ _ _ (bd_rest _ _ _ _ _ _ _ _ _ _ Hb)).
  assert (cbrk w2 = cbrk w + 1) as Hb2 by by rewrite Hw2. change (cbrk w1) with (cbrk w + 1) in *.
  split; [split; rewrite ?Hb2; try (by rewrite Hw2); try done | | | |].
  - intros p Hlt. rewrite Hfr; [by apply Hold |]. apply not_elem_of_cons. split; [lia |].
    intros Hin%Hfl. lia.
  - intros p Hle. rewrite Hfr; [apply Hf; done |]. apply not_elem_of_cons. split; [lia |].
    intros Hin. destruct (chain_mem _ _ _ _ Hch Hin) as [? Hq]. by rewrite Hf in Hq.
  - rewrite Hb2. lia.
  - exists nt'. split_and!; [done | congruence | done].
  - intros p. rewrite fmap_app. intros [Hin | ->%list_elem_of_singleton]%elem_of_app; [by apply Hfl | cbn; lia].
  - rewrite fmap_app. intros [Hin | Heq%list_elem_of_singleton]%elem_of_app; [done |]. by cbn in Heq.
Qed.

Lemma bd_env ty p : ti_map i !! ty = Some p → ∃ t, types_env w0 i ty = Some t ∧ cells w0 !! p = Some t ∧ next t = None.
Proof using Hok.
  intros Hp. destruct (tk_names _ _ _ _ _ Hok _ _ Hp) as (t & Ht & Hn & _). exists t.
  unfold types_env. rewrite Hp. mstep. done.
Qed.

Lemma child_spec w l names label ty ptr :
  bld w l names →
  match child_desc (types_env w0 i) label self ptr ty with
  | None => child_type w label ty newtype ptr = Some (w, None)
  | Some (cty, ts, o, ip) =>
      ∃ w' c t, child_type w label ty newtype ptr = Some (w', Some (c, o, ip)) ∧ bld w' l names ∧
        cells w' !! c = Some t ∧ next t = None ∧ type t = cty ∧ size t = ts
  end.
Proof using Hok Hfh Hself.
  intros Hb. unfold child_type, child_desc. rewrite (bd_types w l names ty Hb). mstep.
  destruct (ti_map i !! ty) as [p |] eqn:Hp.
  - destruct (bd_env ty p Hp) as (t & -> & Ht & Hn). pose proof (bd_cell w l names ty p t Hb Hp Ht) as Hc.
    rewrite Hc. mstep. eauto 10.
  - unfold types_env. rewrite Hp. mstep. case_bool_decide.
    + destruct (bd_type _ _ _ _ _ _ _ _ _ _ Hb) as (nt & Hnt & Hse & _). subst self.
      exists w, newtype, nt. split_and!; done.
    + destruct (negb (ptr =? 0)); [| done]. destruct (bd_alloc w l names (set_name (Some ty) type0) Hb) as [Hb' Hc].
      by eexists _, _, _.
Qed.

Lemma raw_spec w l names sz :
  bld w l names →
  ∃ w' c t, raw_type w sz = Some (w', Some (c, u32 (atoi sz), 0)) ∧ bld w' l names ∧
    cells w' !! c = Some t ∧ next t = None ∧ type t = ASPECT_TYPE_RAW ∧ size t = u32 (atoi sz).
Proof using Hok.
  intros Hb. unfold raw_type. rewrite (rs_info _ _ _ _ (bd_rest _ _ _ _ _ _ _ _ _ _ Hb)), (tk_info _ _ _ _ _ Hok).
  mstep. destruct (lookup_lt_is_Some_2 info (Z.to_nat ASPECT_TYPE_RAW)) as [x ->].
  { pose proof (tk_nbr _ _ _ _ _ Hok). pose proof (tk_base _ _ _ _ _ Hok).
    unfold ASPECT_TYPE_BASENUM, ASPECT_TYPE_RAW in *. lia. }
  mstep. set (t := set_name _ _). destruct (bd_alloc w l names t Hb) as [Hb' Hc].
  by eexists _, _, t.
Qed.

(** The end of a turn of the loop. *)
Lemma field_end w l names nm c t isunion curoff o ip n dims :
  bld w l names → cells w !! c = Some t → next t = None →
  ∃ w' p u,
    ('(w, copy) ← aspect_type_copy w c (if isunion =? 0 then curoff else 0) ip n nm dims;
     t ← cells w !! c;
     '(w, _) ← aspect_type_addfield w (Some newtype) (Some copy);
     Some (w, Some (u32 (curoff + field_size o n dims (type t))))) =
      Some (w', Some (u32 (curoff + field_size o n dims (type t)))) ∧
    bld w' (l ++ [(p, u)]) names ∧
    has_desc u (if isunion =? 0 then curoff else 0)
      (Fdesc nm (type t) (u8 ip) (size t) n dims (field_size o n dims (type t))).
Proof using Hself.
  intros Hb Hc Hn.
  destruct (bd_field w l names c t (if isunion =? 0 then curoff else 0) ip n dims nm Hb Hc Hn)
    as (w1 & w2 & p & u & -> & Hc1 & Ha & Hb2 & Hd).
  mstep. rewrite Hc1. mstep. rewrite Ha. mstep. by eexists _, p, u.
Qed.

Lemma bad_field_spec w l names nm ty sz :
  bld w l names →
  bad_field w fh nm ty sz = Some (bad_syntax nm ty sz || bool_decide (nm ∈ names)).
Proof using Type.
  intros Hb. unfold bad_field, bad_syntax. case_bool_decide; [done |].
  rewrite (bd_known w l names nm Hb). mstep. cbn [orb]. rewrite orb_comm. do 2 f_equal.
  apply bool_decide_ext, marks_lookup.
Qed.

Lemma create_field_spec w l names isunion label curoff f :
  bld w l names →
  match field_desc (types_env w0 i) label self f with
  | Some d =>
      if bool_decide (fd_name d ∈ names) then
        ∃ w', create_field w isunion label newtype fh curoff f = Some (w', None) ∧
          restored w0 w' (delete "localfields" N) M
      else
        ∃ w' p u, create_field w isunion label newtype fh curoff f =
            Some (w', Some (u32 (curoff + fd_bytes d))) ∧
          bld w' (l ++ [(p, u)]) (fd_name d :: names) ∧ has_desc u (if isunion =? 0 then curoff else 0) d
  | None => ∃ w', create_field w isunion label newtype fh curoff f = Some (w', None) ∧
      restored w0 w' (delete "localfields" N) M
  end.
Proof using Hok Hfh Hself.
  intros Hb. unfold create_field, field_desc. destruct (split_field f) as [[nm ty] sz].
  rewrite (bad_field_spec w l names nm ty sz Hb). mstep.
  destruct (bad_syntax nm ty sz) eqn:Hbad; cbn [orb].
  { destruct (bd_abandon w l names Hb) as (w' & -> & Hr). mstep. eauto. }
  destruct (bd_abandon w l names Hb) as (wa & Hwa & Hra).
  destruct (bd_add w l names nm Hb) as (w1 & Hadd & Hb1 & _).
  destruct (bd_abandon w1 l _ Hb1) as (wb & Hwb & Hrb).
  destruct ty as [ty |].
  - destruct (pointers 0 ty) as [ptr ty1]. destruct (aspect_type_getdims ty1) as [[dims n] ty2].
    pose proof (child_spec w1 l (nm :: names) label ty2 ptr Hb1) as Hch.
    destruct (child_desc (types_env w0 i) label self ptr ty2) as [[[[cty ts] o] ip] |]; mstep.
    + destruct Hch as (w2 & c & t & Hcs & Hb2 & Hc & Hn & <- & <-). cbn [fd_name fd_bytes].
      case_bool_decide; [rewrite Hwa; mstep; eauto |].
      rewrite Hadd. mstep. rewrite Hcs. mstep. by apply field_end.
    + case_bool_decide; [rewrite Hwa; mstep; eauto |]. rewrite Hadd. mstep. rewrite Hch. mstep.
      rewrite Hwb. mstep. eauto.
  - destruct sz as [sz |]; [| unfold bad_syntax in Hbad; by destruct (bool_decide (nm = EmptyString))]. cbn [fd_name fd_bytes].
    case_bool_decide; [rewrite Hwa; mstep; eauto |]. rewrite Hadd. mstep.
    destruct (raw_spec w1 l (nm :: names) sz Hb1) as (w2 & c & t & Hrt & Hb2 & Hc & Hn & Hty & Hsz).
    rewrite Hrt. mstep.
    destruct (field_end w2 l (nm :: names) nm c t isunion curoff (u32 (atoi sz)) 0 0 None Hb2 Hc Hn)
      as (w3 & p & u & He & Hb3 & Hd).
    rewrite Hty, Hsz in Hd. rewrite Hty in He. by exists w3, p, u.
Qed.
End build.
End spec.
