(* ===== verification/TypesLayoutSpec.v ===== *)
(** * Types: layout and registration *)
From Stdlib Require Import Ascii.
From S2P Require Import Prelude.
From S2P Require Import Store.
From S2P Require Import Types.
From S2P Require Import TypesSpec.

(** The cells are the fields described, one after the other from an offset to another; those
    of a union are all at 0. *)
Inductive laid (union : bool) : Z → list fdesc → list aspectype_t → Z → Prop :=
  | laid_nil o : laid union o [] [] o
  | laid_cons o d ds u us e :
      has_desc u (if union then 0 else o) d → laid union (u32 (o + fd_bytes d)) ds us e →
      laid union o (d :: ds) (u :: us) e.

Section layout.
Context {R : Type} `{!Store R}.
Implicit Types (w : tworld R).

(** ** The loop over the fields *)

Section build.
Context {w0 : tworld R} {N : gmap string Z} {M : gmap Z tinfo} {i : tinfo} {info : list typeinfo_t}.
Context (Hok : types_ok w0 N M i info).
Context {fh newtype : Z} {self : aspectype_t}.
Context (Hfh : M !! fh = None) (Hself : next self = None).

Local Abbreviation bld := (building w0 N M i fh newtype self).

Lemma create_fields_spec fs w l names isunion label curoff :
  bld w l names →
  match field_descs (types_env w0 i) label self names fs with
  | Some ds => ∃ w' l' e, create_fields w isunion label newtype fh curoff fs = Some (w', Some e) ∧
      bld w' (l ++ l') (rev (fd_name <$> ds) ++ names) ∧
      laid (negb (isunion =? 0)) curoff ds l'.*2 e
  | None => ∃ w', create_fields w isunion label newtype fh curoff fs = Some (w', None) ∧
      restored w0 w' (delete "localfields" N) M
  end.
Proof using Hok Hfh Hself.
  revert w l names curoff. induction fs as [| f fs IH]; intros w l names curoff Hb; cbn [field_descs create_fields].
  { exists w, [], curoff. rewrite app_nil_r. split_and!; [done | done | constructor]. }
  pose proof (create_field_spec Hok Hfh Hself w l names isunion label curoff f Hb) as Hf.
  destruct (field_desc _ _ _ _) as [d |]; mstep.
  2: { destruct Hf as (w' & -> & Hr). mstep. eauto. }
  case_bool_decide.
  { destruct Hf as (w' & -> & Hr). mstep. eauto. }
  destruct Hf as (w1 & p & u & -> & Hb1 & Hd). mstep.
  specialize (IH w1 _ _ (u32 (curoff + fd_bytes d)) Hb1).
  destruct (field_descs _ _ _ _ fs) as [ds |]; mstep; [| done].
  destruct IH as (w' & l' & e & He & Hb' & Hl). exists w', ((p, u) :: l'), e. split; [done |].
  rewrite <-app_assoc in Hb'. cbn [app] in Hb'. cbn [fmap list_fmap rev]. rewrite <-app_assoc. split; [done |].
  cbn. constructor; [| done]. by destruct (isunion =? 0).
Qed.
End build.

(** ** The size of a union *)

Definition largest (l : list aspectype_t) : Z := foldr Z.max 0 (size <$> l).

Lemma largest_cons (e : Z * aspectype_t) l : largest (e :: l).*2 = Z.max (size e.2) (largest l.*2).
Proof. done. Qed.

Lemma biggest_size_spec fuel w h l b :
  chain (cells w) h l → (length l < fuel)%nat → Forall (λ e, 0 ≤ size e.2 < 2 ^ 31) l → 0 ≤ b < 2 ^ 31 →
  biggest_size fuel w h b = Some (Z.max b (largest l.*2)).
Proof.
  intros Hc. revert fuel b. induction Hc as [| p t l Hp Hc IH]; intros [| fuel] b Hf Hs Hb; cbn in Hf; try lia.
  - cbn. f_equal. lia.
  - apply Forall_cons in Hs as [Ht Hs]. cbn in Ht. cbn [biggest_size]. rewrite Hp. mstep.
    rewrite (wrapu_small 32 b) by lia. rewrite (wraps_small 32 (size t)) by lia.
    rewrite IH; [| lia | done | destruct (b <? size t); lia].
    rewrite largest_cons. f_equal. cbn.
    destruct (Z.ltb_spec b (size t)); lia.
Qed.

Lemma largest_range l : Forall (λ e, 0 ≤ size e < 2 ^ 31) l → 0 ≤ largest l < 2 ^ 31.
Proof. unfold largest. induction 1; cbn; lia. Qed.

Lemma union_size_spec w p t l :
  cells w !! p = Some t → next t = None → chain (cells w) (childs t) l → l ≠ [] →
  Forall (λ e, 0 ≤ size e.2 < 2 ^ 31) l →
  aspect_type_find_union_size w (Some p) = Some (largest l.*2).
Proof.
  intros Hp Hn Hc Hl Hs. cbn [aspect_type_find_union_size]. rewrite Hp. mstep. rewrite Hn.
  destruct (childs t) as [c |] eqn:Ec; [| by inversion Hc].
  assert (0 ≤ largest l.*2 < 2 ^ 31) by by apply largest_range, Forall_fmap.
  rewrite (biggest_size_spec _ w (Some c) l 0); [f_equal; lia | done | | done | lia].
  pose proof (chain_length _ _ _ Hc). unfold chain_fuel. lia.
Qed.

(** ** Registration *)

Lemma types_fresh w N M i info p : types_ok w N M i info → cbrk w ≤ p → ∀ nm, ti_map i !! nm ≠ Some p.
Proof.
  intros Hok Hp nm Hnm. destruct (tk_names _ _ _ _ _ Hok _ _ Hnm) as (t & Ht & _).
  by rewrite (tk_fresh _ _ _ _ _ Hok) in Ht.
Qed.

Lemma types_nbr w N M i info : types_ok w N M i info → 18 ≤ s_nbr (store w) < 2 ^ 31.
Proof.
  intros Hok. pose proof (s_nbr_range _ _ _ (tk_store _ _ _ _ _ Hok)). pose proof (tk_base _ _ _ _ _ Hok).
  unfold ASPECT_TYPE_BASENUM in *. lia.
Qed.

(** A name keeps its number; a new one gets the next number. *)
Definition next_id w (i : tinfo) (label : string) : Z :=
  match types_env w i label with Some t => type t | None => s_nbr (store w) end.

Lemma push_info (info : list typeinfo_t) n x :
  Z.of_nat (length info) = n →
  Prelude.store (resize (Z.to_nat (n + 1)) (Typeinfo "" 0) (default [] (Some info))) (Z.to_nat (n + 1 - 1)) x =
  Some (info ++ [x]).
Proof.
  intros <-. change (default [] (Some info)) with info. rewrite resize_ge by lia.
  replace (Z.to_nat (Z.of_nat (length info) + 1) - length info)%nat with 1%nat by lia.
  replace (Z.to_nat (Z.of_nat (length info) + 1 - 1)) with (length info) by lia.
  rewrite store_Some by (rewrite length_app; cbn; lia).
  rewrite insert_app_r_alt by done. by rewrite Nat.sub_diag.
Qed.

Section real.
Context {w : tworld R} {N : gmap string Z} {M : gmap Z tinfo} {i : tinfo} {info : list typeinfo_t}.
Context (Hok : types_ok w N M i info) (Hlim : s_nbr (store w) + 1 < 2 ^ 31).
Context {label : string} {p : Z} {nt : aspectype_t}.
Context (Hp : cells w !! p = Some nt) (Hn : next nt = None) (Hnm : name nt = Some label).
Context (Hnew : ∀ nm, ti_map i !! nm ≠ Some p).

(** The new type under the number [id], the informations [info'] agreeing with it. *)
Lemma types_ok_named w' (i' : tinfo) id info' N' M' :
  s_repr (store w') N' M' → M' !! types_hash w' = Some i' → ti_map i' = <[label := p]> (ti_map i) →
  cells w' = <[p := set_type id nt]> (cells w) → cbrk w' = cbrk w → aspect_typeinfo w' = Some info' →
  Z.of_nat (length info') = s_nbr (store w') → s_nbr (store w) ≤ s_nbr (store w') →
  1 ≤ id → info' !! Z.to_nat id = Some (Typeinfo label (size nt)) →
  (∀ k x, k ≠ Z.to_nat id → info' !! k = Some x → info !! k = Some x) →
  (∀ k x, k ≠ Z.to_nat id → info !! k = Some x → info' !! k = Some x ∧ ((1 ≤ k)%nat → iname x ≠ label)) →
  (∀ nm q t, ti_map i !! nm = Some q → cells w !! q = Some t → nm ≠ label → type t ≠ id) →
  types_ok w' N' M' i' info'.
Proof using Hok Hp Hn Hnm Hnew.
  intros Hs Hh Hmap Hc Hbr Hi Hl Hle Hid Hlab Hback Hkeep Hdis.
  assert (∀ q t nm, ti_map i !! nm = Some q → cells w !! q = Some t → cells w' !! q = Some t) as Hold.
  { intros q t nm Hq Ht. rewrite Hc, lookup_insert_ne; [done |]. intros ->. by apply (Hnew nm). }
  split; try done.
  - pose proof (tk_base _ _ _ _ _ Hok). lia.
  - intros k x Hk Hx. destruct (decide (k = Z.to_nat id)) as [-> | Hne].
    + rewrite Hlab in Hx. simplify_eq. exists p, (set_type id nt). rewrite Hmap, Hc. cbn [iname].
      rewrite !lookup_insert_eq. split_and!; [done | done |]. cbn. lia.
    + destruct (tk_ids _ _ _ _ _ Hok k x Hk (Hback k x Hne Hx)) as (q & t & Hq & Ht & Hty).
      destruct (Hkeep k x Hne (Hback k x Hne Hx)) as [_ Hnl].
      exists q, t. rewrite Hmap, lookup_insert_ne by (symmetry; by apply Hnl). split_and!; [done | by eapply Hold | done].
  - intros nm q. rewrite Hmap. destruct (decide (nm = label)) as [-> | Hne].
    + rewrite lookup_insert_eq. intros [= <-]. exists (set_type id nt). rewrite Hc, lookup_insert_eq.
      split_and!; done.
    + rewrite lookup_insert_ne by done. intros Hq.
      destruct (tk_names _ _ _ _ _ Hok nm q Hq) as (t & Ht & Hnt & Hmt & H1 & Hit).
      exists t. split_and!; try done; [by eapply Hold |].
      apply Hkeep; [| done]. pose proof (Hdis nm q t Hq Ht Hne). lia.
  - intros q Hq. rewrite Hbr in Hq. rewrite Hc, lookup_insert_ne; [by apply (tk_fresh _ _ _ _ _ Hok) |].
    intros <-. by rewrite (tk_fresh _ _ _ _ _ Hok) in Hp.
Qed.

(** Two names have two numbers. *)
Lemma types_distinct nm q t nm' q' t' :
  ti_map i !! nm = Some q → cells w !! q = Some t → ti_map i !! nm' = Some q' → cells w !! q' = Some t' →
  nm ≠ nm' → type t ≠ type t'.
Proof using Hok.
  intros Hq Ht Hq' Ht' Hne Heq.
  destruct (tk_names _ _ _ _ _ Hok nm q Hq) as (u & Hu & _ & _ & _ & Hi). 
  destruct (tk_names _ _ _ _ _ Hok nm' q' Hq') as (u' & Hu' & _ & _ & _ & Hi').
  simplify_eq. rewrite Heq in Hi. rewrite Hi in Hi'. by simplify_eq.
Qed.

(** A new name gets the next number. *)
Lemma types_ok_pushed w' (i' : tinfo) N' M' :
  s_repr (store w') N' M' → M' !! types_hash w' = Some i' → ti_map i' = <[label := p]> (ti_map i) →
  ti_map i !! label = None → cells w' = <[p := set_type (s_nbr (store w)) nt]> (cells w) →
  cbrk w' = cbrk w → aspect_typeinfo w' = Some (info ++ [Typeinfo label (size nt)]) →
  s_nbr (store w') = s_nbr (store w) + 1 → types_ok w' N' M' i' (info ++ [Typeinfo label (size nt)]).
Proof using Hok Hp Hn Hnm Hnew.
  intros Hs Hh Hmap Hu Hc Hbr Hi Hnb. pose proof (tk_nbr _ _ _ _ _ Hok) as Hl.
  pose proof (types_nbr _ _ _ _ _ Hok) as Hr.
  apply (types_ok_named w' i' (s_nbr (store w))); try done.
  - rewrite length_app, Hnb. cbn. lia.
  - lia.
  - lia.
  - rewrite <-Hl, Nat2Z.id. by rewrite list_lookup_middle.
  - intros k y Hk Hy%lookup_app_Some. destruct Hy as [Hy | [Hle Hy]]; [done |].
    apply list_lookup_singleton_Some in Hy as [? _]. lia.
  - intros k y Hk Hy. split; [by apply lookup_app_l_Some |]. intros Hk1 Hyl.
    destruct (tk_ids _ _ _ _ _ Hok k y Hk1 Hy) as (q & t & Hq & _). rewrite Hyl in Hq. congruence.
  - intros nm q t Hq Ht Hne Hty. destruct (tk_names _ _ _ _ _ Hok nm q Hq) as (t' & Ht' & _ & _ & _ & Hi').
    simplify_eq. apply lookup_lt_Some in Hi'. lia.
Qed.

Lemma register_real_spec :
  ∃ w' M' i' info', aspect_type_register_real w label p = Some (w', 0) ∧
    types_ok w' N M' i' info' ∧ ti_map i' = <[label := p]> (ti_map i) ∧
    cells w' = <[p := set_type (next_id w i label) nt]> (cells w) ∧ cbrk w' = cbrk w.
Proof using Hok Hp Hn Hnm Hnew Hlim.
  unfold aspect_type_register_real, tget.
  rewrite (s_get_repr _ _ _ _ _ label (tk_store _ _ _ _ _ Hok) (tk_hash _ _ _ _ _ Hok)). mstep.
  pose proof (types_nbr _ _ _ _ _ Hok) as Hr. unfold next_id, types_env.
  destruct (ti_map i !! label) as [u |] eqn:Hu; mstep.
  - destruct (tk_names _ _ _ _ _ Hok label u Hu) as (ut & Hut & _ & _ & H1 & Hiu). rewrite Hut. mstep.
    unfold upd. rewrite Hp. mstep. unfold tset. cbn [store set_cells types_hash].
    destruct (s_set_repr _ _ _ _ _ label p (tk_store _ _ _ _ _ Hok) (tk_hash _ _ _ _ _ Hok))
      as (r & x & -> & Hnr & Hs). mstep.
    cbn [cells set_cells set_store aspect_typeinfo]. rewrite lookup_insert_eq. mstep.
    rewrite (tk_info _ _ _ _ _ Hok). mstep. cbn [type set_type size]. rewrite Hiu. mstep. cbn [iname].
    pose proof (lookup_lt_Some _ _ _ Hiu) as Hlt.
    set (i' := with_map (<[label := p]> (ti_map i)) i) in *.
    eexists _, (<[types_hash w := i']> M), i', _. split; [done |]. split; [| done].
    apply (types_ok_named _ i' (type ut)
             (<[Z.to_nat (type ut) := Typeinfo label (size nt)]> info)); try done.
    + cbn. apply lookup_insert_eq.
    + cbn. rewrite length_insert, Hnr. apply (tk_nbr _ _ _ _ _ Hok).
    + cbn. lia.
    + by rewrite list_lookup_insert_eq.
    + intros k y Hk. by rewrite list_lookup_insert_ne.
    + intros k y Hk Hy. rewrite list_lookup_insert_ne by done. split; [done |]. intros Hk1 Hyl.
      destruct (tk_ids _ _ _ _ _ Hok k y Hk1 Hy) as (q & t & Hq & Ht & Hty). rewrite Hyl in Hq.
      simplify_eq. lia.
    + intros nm q t Hq Ht Hne. by apply (types_distinct nm q t label u ut).
  - unfold tadd.
    destruct (s_add_repr _ _ _ _ _ label p (tk_store _ _ _ _ _ Hok) (tk_hash _ _ _ _ _ Hok))
      as (r & x & -> & Hnr & Hs). mstep.
    cbn [cells set_store]. rewrite Hp. mstep. set (i' := with_map (<[label := p]> (ti_map i)) i) in *.
    pose proof (tk_nbr _ _ _ _ _ Hok) as Hl.
    destruct (s_set_nbr_repr _ _ _ (s_nbr r + 1) Hs) as [Hs' Hn']; [rewrite Hnr; lia |].
    unfold push_typeinfo. cbn [set_store aspect_typeinfo store]. rewrite (tk_info _ _ _ _ _ Hok).
    rewrite push_info by (rewrite Hnr; done). mstep.
    unfold upd. cbn [cells set_typeinfo set_store store]. rewrite Hp. mstep. rewrite Hn'.
    replace (u32 (s_nbr r + 1 - 1)) with (s_nbr (store w)) by (rewrite wrapu_small; lia).
    eexists _, (<[types_hash w := i']> M), i', _. split; [done |]. split; [| done].
    apply (types_ok_pushed _ i'); try done; cbn.
    + apply lookup_insert_eq.
    + by rewrite Hn', Hnr.
Qed.
End real.

(** ** Creation *)

(** The new type, once it is made. *)
Record created w0 w N M (newtype : Z) (nt self : aspectype_t) (l : list (Z * aspectype_t)) : Prop := {
  cr_rest : restored w0 w N M;
  cr_new : cbrk w0 ≤ newtype < cbrk w;
  cr_cell : cells w !! newtype = Some nt;
  cr_self : set_childs None nt = self;
  cr_chain : chain (cells w) (childs nt) l;
  cr_notin : newtype ∉ l.*1;
}.

(** What [aspect_type_create] does once the new type is there, with the fields it inherits. *)
Definition finish w (isunion : Z) (lab : string) (fh newtype curoff fieldnbr : Z) (fields : list string) :
    option (tworld R * option Z * option string) :=
  '(w, off) ← create_fields w isunion lab newtype fh curoff (take (Z.to_nat fieldnbr) fields);
  match off with
  | None => Some (w, None, Some lab)
  | Some curoff =>
      _ ← guard_ub (bool_decide (fieldnbr ≤ Z.of_nat (length fields)));
      sz ← (if isunion =? 0 then Some curoff else aspect_type_find_union_size w (Some newtype));
      w ← upd newtype (set_size (u32 sz)) w;
      w ← tdestroy w fh;
      Some (w, Some newtype, Some lab)
  end.

Definition type_size (isunion e : Z) (l : list (Z * aspectype_t)) : Z :=
  u32 (if isunion =? 0 then e else largest l.*2).

Section finish.
Context {w0 : tworld R} {N : gmap string Z} {M : gmap Z tinfo} {i : tinfo} {info : list typeinfo_t}.
Context (Hok : types_ok w0 N M i info).
Context {fh newtype : Z} {self : aspectype_t}.
Context (Hfh : M !! fh = None) (Hself : next self = None).

Lemma bd_sized w l names sz :
  building w0 N M i fh newtype self w l names →
  ∃ w1 w2 nt, upd newtype (set_size sz) w = Some w1 ∧ tdestroy w1 fh = Some w2 ∧
    created w0 w2 (delete "localfields" N) M newtype nt (set_size sz self) l.
Proof using Hfh.
  intros [[Hs Hn Hh Hi Hbr Hold Hf] Hnw (nt & Hnt & Hse & Hch) Hfl Hni]. unfold upd. rewrite Hnt. mstep.
  exists (set_cells (<[newtype := set_size sz nt]> (cells w)) w). unfold tdestroy. cbn [store set_cells].
  destruct (s_destroy_repr _ _ _ _ _ Hs (lookup_insert_eq _ _ _)) as (r & -> & Hnr & Hr). mstep.
  eexists _, (set_size sz nt). split; [done |]. split; [done |].
  cbn [ti_name] in Hr. rewrite delete_insert_eq, (delete_insert_id M) in Hr by done.
  assert (∀ p, p ≠ newtype → <[newtype := set_size sz nt]> (cells w) !! p = cells w !! p) as Hne
    by (intros p Hp; by rewrite lookup_insert_ne).
  split; cbn [cells cbrk set_store set_cells].
  - split; try done; cbn [cells cbrk set_store set_cells store].
    + congruence.
    + intros p Hp. rewrite Hne by lia. by apply Hold.
    + intros p Hp. rewrite Hne by lia. by apply Hf.
  - done.
  - apply lookup_insert_eq.
  - by rewrite <-Hse.
  - apply (chain_agree (cells w)); [| done]. intros p Hp. apply Hne. by intros ->.
  - done.
Qed.

Lemma finish_spec w l0 names isunion lab curoff fs :
  building w0 N M i fh newtype self w l0 names → fs ≠ [] →
  (isunion ≠ 0 → Forall (λ e, 0 ≤ size e.2 < 2 ^ 31) l0) →
  match field_descs (types_env w0 i) lab self names fs with
  | None => ∃ w', finish w isunion lab fh newtype curoff (Z.of_nat (length fs)) fs = Some (w', None, Some lab) ∧
      restored w0 w' (delete "localfields" N) M
  | Some ds => (isunion ≠ 0 → Forall (λ d, 0 ≤ fd_size d < 2 ^ 31) ds) →
      ∃ w' nt l e, finish w isunion lab fh newtype curoff (Z.of_nat (length fs)) fs =
          Some (w', Some newtype, Some lab) ∧
        created w0 w' (delete "localfields" N) M newtype nt
          (set_size (type_size isunion e (l0 ++ l)) self) (l0 ++ l) ∧
        laid (negb (isunion =? 0)) curoff ds l.*2 e
  end.
Proof using Hok Hfh Hself.
  intros Hb Hfs Hl0. unfold finish. rewrite Nat2Z.id, take_ge by done.
  pose proof (create_fields_spec Hok Hfh Hself fs w l0 names isunion lab curoff Hb) as Hc.
  destruct (field_descs _ _ _ _ fs) as [ds |] eqn:Hds.
  2: { destruct Hc as (w' & -> & Hr). mstep. eauto. }
  destruct Hc as (w1 & l & e & -> & Hb1 & Hl). intros Hsz. mstep. unfold guard_ub. rewrite bool_decide_true by done.
  mstep.
  destruct (bd_type _ _ _ _ _ _ _ _ _ _ Hb1) as (nt & Hnt & Hse & Hch).
  assert ((if isunion =? 0 then Some e else aspect_type_find_union_size w1 (Some newtype)) =
          Some (if isunion =? 0 then e else largest (l0 ++ l).*2)) as ->.
  { destruct (Z.eqb_spec isunion 0) as [| Hu]; [done |]. apply (union_size_spec w1 newtype nt); try done.
    - by rewrite <-Hse in Hself.
    - intros [-> ->]%app_nil. destruct fs as [| f fs]; [done |]. cbn in Hds.
      destruct (field_desc _ _ _ f) as [d |]; [| done]. cbn in Hds. case_bool_decide; [done |].
      destruct (field_descs _ _ _ _ fs); [| done]. cbn in Hds. simplify_eq. inversion Hl.
    - apply Forall_app. split; [by apply Hl0 |]. specialize (Hsz Hu). clear -Hl Hsz.
      assert (Forall (λ t, 0 ≤ size t < 2 ^ 31) l.*2) as Hall; [| by apply Forall_fmap in Hall].
      remember l.*2 as us eqn:E. clear E. induction Hl as [| o d ds u us e (_ & _ & Hu & _) Hl IH]; [done |].
      apply Forall_cons in Hsz as [? ?]. constructor; [by rewrite Hu | auto]. }
  mstep. destruct (bd_sized w1 _ _ (type_size isunion e (l0 ++ l)) Hb1) as (w2 & w3 & nt' & Hu & Hd & Hcr).
  fold (type_size isunion e (l0 ++ l)). rewrite Hu. mstep. rewrite Hd. mstep. by exists w3, nt', l, e.
Qed.
End finish.

(** ** A new record or union *)

(** A name that may be given: it is free, or that of one of the types the sources of ERESI
    redefine. *)
Definition free_name w (i : tinfo) (label : string) : Prop :=
  match types_env w i label with
  | None => True
  | Some t => ASPECT_TYPE_CORENUM ≤ type t < ASPECT_TYPE_BASENUM
  end.

#[export] Instance free_name_dec w i label : Decision (free_name w i label).
Proof. unfold free_name. destruct (types_env w i label); apply _. Defined.

Definition plain_self (label : string) : aspectype_t := set_name (Some label) type0.

Section create.
Context {w0 : tworld R} {N : gmap string Z} {M : gmap Z tinfo} {i : tinfo} {info : list typeinfo_t}.
Context (Hok : types_ok w0 N M i info).

Lemma types_get label : tget w0 (types_hash w0) label = Some (ti_map i !! label).
Proof using Hok. unfold tget. eapply s_get_repr; apply Hok. Qed.

Lemma new_fields_table :
  ∃ r fh, s_new (store w0) "localfields" 10 ASPECT_TYPE_UNKNOW = Some (r, fh) ∧ M !! fh = None ∧
    restored w0 (set_store r w0) (<["localfields" := fh]> N) (<[fh := Tinfo "localfields" 10 0 ∅]> M).
Proof using Hok.
  pose proof (types_nbr _ _ _ _ _ Hok).
  destruct (s_new_repr _ _ _ "localfields" 10 ASPECT_TYPE_UNKNOW (tk_store _ _ _ _ _ Hok))
    as (r & fh & Hnew & HM & Hn & Hr); [lia | unfold ASPECT_TYPE_UNKNOW; lia |].
  exists r, fh. split_and!; [done | done |]. split; try done. apply (tk_fresh _ _ _ _ _ Hok).
Qed.

(** The test of the name. *)
Lemma taken_spec label :
  match ti_map i !! label with
  | None => Some false
  | Some k => t ← cells w0 !! k;
      Some ((type t <? ASPECT_TYPE_CORENUM) || (ASPECT_TYPE_BASENUM <=? type t))
  end = Some (negb (bool_decide (free_name w0 i label))).
Proof using Hok.
  unfold types_env. destruct (ti_map i !! label) as [k |] eqn:Hk; mstep.
  - destruct (tk_names _ _ _ _ _ Hok _ _ Hk) as (t & Ht & _). rewrite Ht. mstep. f_equal.
    case_bool_decide as Hf; unfold free_name, types_env in Hf; rewrite Hk in Hf; cbn [mbind option_bind] in Hf; rewrite Ht in Hf.
    + rewrite (proj2 (Z.ltb_ge _ _)), (proj2 (Z.leb_gt _ _)) by lia. done.
    + destruct (Z.ltb_spec (type t) ASPECT_TYPE_CORENUM); [done |].
      destruct (Z.leb_spec ASPECT_TYPE_BASENUM (type t)); [done |]. lia.
  - rewrite bool_decide_true; [done |]. unfold free_name, types_env. by rewrite Hk.
Qed.

Lemma begin_plain label r fh :
  M !! fh = None →
  restored w0 (set_store r w0) (<["localfields" := fh]> N) (<[fh := Tinfo "localfields" 10 0 ∅]> M) →
  building w0 N M i fh (cbrk w0) (plain_self label) (alloc (plain_self label) (set_store r w0)) [] [].
Proof using Type.
  intros HM [Hs Hn Hh Hi Hbr Hold Hf]. cbn in Hbr, Hf. split; [split; try done | | | |]; cbn.
  - lia.
  - intros p Hp. by rewrite lookup_insert_ne by lia.
  - intros p Hp. rewrite lookup_insert_ne by lia. apply Hf. lia.
  - lia.
  - exists (plain_self label). rewrite lookup_insert_eq. split_and!; [done | done | constructor].
  - by intros p ?%not_elem_of_nil.
  - apply not_elem_of_nil.
Qed.

Lemma create_plain fuel isunion label fs :
  strstr_colons label = None → fs ≠ [] → free_name w0 i label →
  ∃ fh, M !! fh = None ∧ ∃ w1,
    building w0 N M i fh (cbrk w0) (plain_self label) w1 [] [] ∧
    aspect_type_create fuel w0 isunion (Some label) (Some fs) (Z.of_nat (length fs)) =
    finish w1 isunion label fh (cbrk w0) 0 (Z.of_nat (length fs)) fs.
Proof using Hok.
  intros Hcol Hfs Hfree. destruct new_fields_table as (r & fh & Hnew & HM & Hr).
  exists fh. split; [done |]. eexists. split; [by apply begin_plain |].
  unfold aspect_type_create. rewrite (proj2 (Z.eqb_neq _ _)) by (by destruct fs).
  unfold supertype_of. rewrite Hcol. mstep.
  rewrite types_get. mstep. rewrite taken_spec, (bool_decide_true (free_name w0 i label)) by done. mstep. cbn [negb].
  rewrite Hnew. mstep. done.
Qed.

Lemma create_taken fuel isunion label fs n :
  strstr_colons label = None → n ≠ 0 → ¬ free_name w0 i label →
  aspect_type_create fuel w0 isunion (Some label) (Some fs) n = Some (w0, None, Some label).
Proof using Hok.
  intros Hcol Hn Hfree. unfold aspect_type_create. rewrite (proj2 (Z.eqb_neq _ _)) by done.
  unfold supertype_of. rewrite Hcol. mstep. rewrite types_get. mstep.
  rewrite taken_spec, (bool_decide_false (free_name w0 i label)) by done. mstep. done.
Qed.

(** What the registration of a type that is made leaves. *)
Lemma created_register w N' newtype nt self l label :
  created w0 w N' M newtype nt self l → next self = None → name self = Some label →
  s_nbr (store w0) + 1 < 2 ^ 31 →
  ∃ w' M' i' info' t, aspect_type_register_real w label newtype = Some (w', 0) ∧
    types_ok w' N' M' i' info' ∧ ti_map i' = <[label := newtype]> (ti_map i) ∧
    (∀ q, q < cbrk w0 → cells w' !! q = cells w0 !! q) ∧
    cells w' !! newtype = Some t ∧ set_childs None t = set_type (next_id w0 i label) self ∧
    chain (cells w') (childs t) l.
Proof using Hok.
  intros [Hr [Hn1 Hn2] Hc Hs Hch Hni] Hself Hname Hlim.
  assert (types_ok w N' M i info) as Hok' by (apply (restored_ok w0 w N M); try done; apply Hok).
  destruct (register_real_spec Hok') with (label := label) (p := newtype) (nt := nt)
    as (w' & M' & i' & info' & Hreg & Hok2 & Hmap & Hcells & Hbr); try done.
  - by rewrite (rs_nbr _ _ _ _ Hr).
  - by rewrite <-Hs in Hself.
  - by rewrite <-Hs in Hname.
  - by apply (types_fresh _ _ _ _ _ _ Hok).
  - assert (∀ q, q ≠ newtype → cells w' !! q = cells w !! q) as Hne
      by (intros q Hq; rewrite Hcells; by rewrite lookup_insert_ne).
    assert (next_id w i label = next_id w0 i label) as Hid.
    { unfold next_id, types_env. rewrite (rs_nbr _ _ _ _ Hr).
      destruct (ti_map i !! label) as [q |] eqn:Hq; mstep; [| done].
      destruct (tk_names _ _ _ _ _ Hok _ _ Hq) as (t & Ht & _). rewrite (rs_old _ _ _ _ Hr); [done |].
      destruct (Z.lt_ge_cases q (cbrk w0)); [done |]. by rewrite (tk_fresh _ _ _ _ _ Hok) in Ht. }
    exists w', M', i', info', (set_type (next_id w0 i label) nt). split_and!; try done.
    + intros q Hq. rewrite Hne by lia. by apply (rs_old _ _ _ _ Hr).
    + rewrite Hcells, Hid. apply lookup_insert_eq.
    + by rewrite <-Hs.
    + apply (chain_agree (cells w)); [| done]. intros q Hq. apply Hne. by intros ->.
Qed.
End create.

(** Fields laid out in less than 2^32 bytes do not overlap. *)
Definition total (ds : list fdesc) : Z := foldr Z.add 0 (fd_bytes <$> ds).

Lemma total_nonneg ds : Forall (λ d, 0 ≤ fd_bytes d) ds → 0 ≤ total ds.
Proof. unfold total. induction 1; cbn; lia. Qed.

Lemma total_app ds ds' : total (ds ++ ds') = total ds + total ds'.
Proof. unfold total. induction ds as [| d ds IH]; cbn; [done |]. cbn in IH. lia. Qed.

Lemma laid_offsets o ds us e :
  laid false o ds us e → Forall (λ d, 0 ≤ fd_bytes d) ds → 0 ≤ o → o + total ds < 2 ^ 32 →
  e = o + total ds ∧
  ∀ k d u, ds !! k = Some d → us !! k = Some u → has_desc u (o + total (take k ds)) d.
Proof.
  induction 1 as [o | o d ds u us e Hd Hl IH]; intros Hpos Ho Hlt.
  - unfold total. cbn. split; [lia |]. by intros [] ? ? ?.
  - apply Forall_cons in Hpos as [Hp Hpos]. pose proof (total_nonneg ds Hpos).
    change (total (d :: ds)) with (fd_bytes d + total ds) in *.
    rewrite wrapu_small in IH by lia. destruct (IH Hpos) as [-> Hk]; [lia | lia |]. split; [lia |].
    intros [| k] d' u' Hd' Hu'; cbn in *; simplify_eq.
    + unfold total. cbn. by rewrite Z.add_0_r.
    + change (total (d :: take k ds)) with (fd_bytes d + total (take k ds)).
      specialize (Hk k d' u' Hd' Hu'). by rewrite Z.add_assoc.
Qed.

End layout.
