(* ===== verification/TypesBaseSpec.v ===== *)
(** * Types: the base types *)
From Stdlib Require Import Ascii.
From S2P Require Import Prelude.
From S2P Require Import Hash.
From S2P Require Import HashSpec.
From S2P Require Import Store.
From S2P Require Import Registry.
From S2P Require Import RegistrySpec.
From S2P Require Import Types.
From S2P Require Import TypesSpec.
From S2P Require Import TypesLayoutSpec.

Section base.
Context {R : Type} `{!Store R}.
Implicit Types (w : tworld R).

(** The cell of a base type. *)
Definition base_cell (id : Z) (x : typeinfo_t) : aspectype_t :=
  set_name (Some (iname x)) (set_size (isize x) (set_type id type0)).

Lemma basetype_create_spec w N M i id x :
  s_repr (store w) N M → M !! types_hash w = Some i →
  ∃ w' q, aspect_basetype_create w id x = Some w' ∧
    s_repr (store w') (<[object_table (iname x) := q]> N)
      (<[q := Tinfo (object_table (iname x)) 11 0 ∅]>
         (<[types_hash w := with_map (<[iname x := cbrk w]> (ti_map i)) i]> M)) ∧
    q ≠ types_hash w ∧ s_nbr (store w') = s_nbr (store w) ∧ types_hash w' = types_hash w ∧
    aspect_typeinfo w' = aspect_typeinfo w ∧ cells w' = <[cbrk w := base_cell id x]> (cells w) ∧
    cbrk w' = cbrk w + 1 ∧ done w' = done w.
Proof.
  intros Hs Hh. pose proof (s_nbr_range _ _ _ Hs) as Hn. unfold aspect_basetype_create, tadd.
  cbn [store alloc types_hash].
  destruct (s_add_repr _ _ _ _ _ (iname x) (cbrk w) Hs Hh) as (r & y & -> & Hnr & Hr). mstep.
  cbn [store set_store].
  destruct (s_new_repr _ _ _ (object_table (iname x)) 11 ASPECT_TYPE_UNKNOW Hr) as (r' & q & Hnew & HM & Hnr' & Hr');
    [lia | rewrite Hnr; unfold ASPECT_TYPE_UNKNOW; lia |].
  rewrite Hnew. mstep. eexists _, q. split; [done |]. split; [exact Hr' |]. split_and!; try done.
  - intros ->. by rewrite lookup_insert_eq in HM.
  - cbn. congruence.
Qed.

(** The base types are made up to the number [k]. *)
Record bases_ok (k : nat) w (N : gmap string Z) (M : gmap Z tinfo) (i : tinfo) : Prop := {
  bs_store : s_repr (store w) N M;
  bs_hash : M !! types_hash w = Some i;
  bs_info : aspect_typeinfo w = Some aspect_typeinfo_base;
  bs_nbr : s_nbr (store w) = ASPECT_TYPE_BASENUM;
  bs_ids (id : nat) x : (1 ≤ id < k)%nat → aspect_typeinfo_base !! id = Some x →
    ∃ p, ti_map i !! iname x = Some p ∧ cells w !! p = Some (base_cell (Z.of_nat id) x) ∧
      is_Some (N !! object_table (iname x));
  bs_names nm p : ti_map i !! nm = Some p →
    ∃ (id : nat) x, (1 ≤ id < k)%nat ∧ aspect_typeinfo_base !! id = Some x ∧ iname x = nm;
  bs_fresh p : cbrk w ≤ p → cells w !! p = None;
}.

Lemma base_names_distinct (j k : nat) x y :
  aspect_typeinfo_base !! j = Some x → aspect_typeinfo_base !! k = Some y → j ≠ k → iname x ≠ iname y.
Proof.
  intros Hj Hk Hne Heq. apply Hne.
  assert (NoDup (iname <$> aspect_typeinfo_base)) as Hnd by (apply (bool_decide_unpack _); vm_compute; exact I).
  eapply (NoDup_lookup _ j k (iname x)); [done | |].
  - by rewrite list_lookup_fmap, Hj.
  - by rewrite list_lookup_fmap, Hk, Heq.
Qed.

Lemma bases_step k w N M i x :
  bases_ok k w N M i → (1 ≤ k)%nat → aspect_typeinfo_base !! k = Some x →
  ∃ w' N' M' i', aspect_basetype_create w (Z.of_nat k) x = Some w' ∧ bases_ok (S k) w' N' M' i'.
Proof.
  intros [Hs Hh Hi Hn Hids Hnam Hf] Hk Hx.
  destruct (basetype_create_spec w N M i (Z.of_nat k) x Hs Hh)
    as (w' & q & Hc & Hs' & Hq & Hn' & Hth & Hi' & Hce & Hbr & _).
  eexists w', _, _, (with_map (<[iname x := cbrk w]> (ti_map i)) i). split; [done |].
  split; [exact Hs' | | | | | |].
  - rewrite Hth, lookup_insert_ne by done. apply lookup_insert_eq.
  - congruence.
  - congruence.
  - intros id y Hid Hy. cbn [ti_map with_map]. destruct (decide (id = k)) as [-> |].
    + simplify_eq. exists (cbrk w). rewrite Hce, !lookup_insert_eq. split_and!; done.
    + destruct (Hids id y) as (p & Hp & Hpc & Hob); [lia | done |]. exists p.
      rewrite lookup_insert_ne by (by eapply base_names_distinct). split_and!; [done | |].
      * rewrite Hce, lookup_insert_ne; [done |]. intros <-. by rewrite Hf in Hpc by done.
      * destruct (decide (object_table (iname y) = object_table (iname x))) as [-> |].
        -- rewrite lookup_insert_eq. by eexists.
        -- by rewrite lookup_insert_ne.
  - intros nm p. cbn [ti_map with_map]. destruct (decide (nm = iname x)) as [-> |].
    + rewrite lookup_insert_eq. intros _. exists k, x. split_and!; [lia | lia | done | done].
    + rewrite lookup_insert_ne by done. intros Hp. destruct (Hnam nm p Hp) as (id & y & ? & ? & ?).
      exists id, y. split_and!; [lia | lia | done | done].
  - intros p. rewrite Hbr, Hce. intros Hp. rewrite lookup_insert_ne by lia. apply Hf. lia.
Qed.

Lemma create_bases_spec l k w N M i :
  bases_ok k w N M i → (1 ≤ k)%nat → drop k aspect_typeinfo_base = l →
  ∃ w' N' M' i', create_bases w (Z.of_nat k) l = Some w' ∧ bases_ok (k + length l) w' N' M' i'.
Proof.
  revert k w N M i. induction l as [| x l IH]; intros k w N M i Hb Hk Hd.
  - rewrite Nat.add_0_r. by eexists w, _, _, _.
  - assert (aspect_typeinfo_base !! k = Some x) as Hx.
    { rewrite <-(Nat.add_0_r k), <-lookup_drop, Hd. done. }
    destruct (bases_step k w N M i x Hb Hk Hx) as (w1 & N1 & M1 & i1 & Hc & Hb1).
    cbn [create_bases]. rewrite Hc. mstep. replace (Z.of_nat k + 1) with (Z.of_nat (S k)) by lia.
    destruct (IH (S k) w1 N1 M1 i1 Hb1) as (w' & N' & M' & i' & He & Hb'); [lia | |].
    + rewrite <-(Nat.add_1_r k), <-drop_drop, Hd. done.
    + exists w', N', M', i'. split; [done |]. cbn [length]. by rewrite Nat.add_succ_r.
Qed.

Lemma bases_types w N M i : bases_ok 18 w N M i → types_ok w N M i aspect_typeinfo_base.
Proof.
  intros [Hs Hh Hi Hn Hids Hnam Hf]. split; try done.
  - by rewrite Hn.
  - intros id x Hid Hx. pose proof (lookup_lt_Some _ _ _ Hx) as Hlt. cbn in Hlt.
    destruct (Hids id x) as (p & Hp & Hc & _); [lia | done |]. by eexists p, _.
  - intros nm p Hp. destruct (Hnam nm p Hp) as (id & x & Hid & Hx & <-).
    destruct (Hids id x) as (p' & Hp' & Hc & _); [done | done |]. simplify_eq.
    exists (base_cell (Z.of_nat id) x). split_and!; try done; cbn; [lia |]. rewrite Nat2Z.id, Hx. by destruct x.
Qed.

(** The first call makes the base types, with a table for the objects of each; the next
    calls do nothing. *)
Lemma basetypes_create_spec w N M i :
  s_repr (store w) N M → M !! types_hash w = Some i → ti_map i = ∅ →
  s_nbr (store w) = ASPECT_TYPE_BASENUM → done w = false → (∀ p, cbrk w ≤ p → cells w !! p = None) →
  ∃ w' N' M' i', aspect_basetypes_create w = Some (w', 0) ∧ types_ok w' N' M' i' aspect_typeinfo_base ∧
    bases_ok 18 w' N' M' i'.
Proof.
  intros Hs Hh He Hn Hd Hf. unfold aspect_basetypes_create. rewrite Hd.
  set (w1 := set_typeinfo _ _).
  assert (bases_ok 1 w1 N M i) as Hb.
  { split; try done.
    - intros id x Hid. lia.
    - intros nm p. by rewrite He, lookup_empty. }
  destruct (create_bases_spec (tail aspect_typeinfo_base) 1 w1 N M i Hb) as (w' & N' & M' & i' & Hc & Hb'); [lia | done |].
  change (Z.of_nat 1) with 1 in Hc. rewrite Hc. mstep. exists w', N', M', i'. split; [done |].
  split; [by apply bases_types | exact Hb'].
Qed.

(** Looking up a base type. *)
Lemma bases_env w N M i (id : nat) x :
  bases_ok 18 w N M i → (1 ≤ id)%nat → aspect_typeinfo_base !! id = Some x →
  types_env w i (iname x) = Some (base_cell (Z.of_nat id) x).
Proof.
  intros Hb Hid Hx. pose proof (lookup_lt_Some _ _ _ Hx) as Hlt. cbn in Hlt.
  destruct (bs_ids _ _ _ _ _ Hb id x) as (p & Hp & Hc & _); [lia | done |].
  unfold types_env. rewrite Hp. mstep. exact Hc.
Qed.

(** ** New base types *)

Lemma types_alloc w N M i info t :
  types_ok w N M i info → types_ok (alloc t w) N M i info.
Proof.
  intros Hok. apply (restored_ok w _ N M); [done | | apply (tk_hash _ _ _ _ _ Hok)].
  split; try done; cbn; [apply Hok | lia | |].
  - intros p Hp. by rewrite lookup_insert_ne by lia.
  - intros p Hp. rewrite lookup_insert_ne by lia. apply (tk_fresh _ _ _ _ _ Hok). lia.
Qed.

Lemma basetype_register_spec w N M i info nm sz :
  types_ok w N M i info → ti_map i !! nm = None → s_nbr (store w) + 1 < 2 ^ 31 →
  ∃ w' N' M' i' info', aspect_basetype_register w (Some nm) sz = Some (w', 0) ∧
    types_ok w' N' M' i' info' ∧ ti_map i' = <[nm := cbrk w]> (ti_map i) ∧
    cells w' = <[cbrk w := base_cell (s_nbr (store w)) (Typeinfo nm sz)]> (cells w).
Proof.
  intros Hok Hnm Hlim. pose proof (types_nbr _ _ _ _ _ Hok) as Hr. unfold aspect_basetype_register.
  rewrite (types_get Hok), Hnm. mstep. rewrite wrapu_small by lia. set (x := Typeinfo nm sz).
  destruct (basetype_create_spec w N M i (s_nbr (store w)) x (tk_store _ _ _ _ _ Hok) (tk_hash _ _ _ _ _ Hok))
    as (w1 & q & Hc & Hs1 & Hq & Hn1 & Hth1 & Hi1 & Hce1 & Hb1 & _).
  rewrite Hc. mstep. pose proof (tk_nbr _ _ _ _ _ Hok) as Hl.
  destruct (s_set_nbr_repr _ _ _ (s_nbr (store w) + 1) Hs1) as [Hs2 Hn2]; [lia |].
  unfold push_typeinfo. rewrite Hn1. cbn [set_store aspect_typeinfo]. rewrite Hi1, (tk_info _ _ _ _ _ Hok).
  rewrite push_info by done. mstep.
  set (cell := base_cell (s_nbr (store w)) x).
  set (M1 := <[types_hash w := with_map (<[nm := cbrk w]> (ti_map i)) i]> M) in *.
  set (i' := with_map (<[nm := cbrk w]> (ti_map i)) i) in *.
  eexists _, _, _, i', _. split; [done |]. split; [| by split].
  pose proof (types_alloc w N M i info cell Hok) as Hoka.
  apply (types_ok_pushed (p := cbrk w) (label := nm) (nt := cell) Hoka); try done.
  - cbn. apply lookup_insert_eq.
  - by apply (types_fresh _ _ _ _ _ _ Hok).
  - cbn. rewrite Hth1, lookup_insert_ne by done. apply lookup_insert_eq.
  - cbn. rewrite Hce1. by rewrite insert_insert_eq.
Qed.

(** ** Lookup by number *)

(** The numbers of the types, but for 0, and their names are in correspondence: the
    number gives the cell of a type of this number, registered under the name and with the
    size that the number has. *)
Lemma type_by_id w N M i info id :
  types_ok w N M i info → 1 ≤ id < s_nbr (store w) →
  ∃ p t nm, aspect_type_get_by_id w id = Some (Some p) ∧ cells w !! p = Some t ∧ type t = id ∧
    name t = Some nm ∧ aspect_typename_get w id = Some (Some nm) ∧ aspect_typesize_get w id = Some (size t) ∧
    aspect_type_get_by_name w nm = Some (Some p).
Proof.
  intros Hok Hid. pose proof (tk_nbr _ _ _ _ _ Hok) as Hl. pose proof (types_nbr _ _ _ _ _ Hok) as Hr.
  destruct (lookup_lt_is_Some_2 info (Z.to_nat id)) as [x Hx]; [lia |].
  destruct (tk_ids _ _ _ _ _ Hok (Z.to_nat id) x) as (p & t & Hp & Ht & Hty); [lia | done |].
  destruct (tk_names _ _ _ _ _ Hok _ _ Hp) as (t' & Ht' & _ & Hnm & _ & Hi). simplify_eq.
  rewrite Hty, Nat2Z.id in Hi. rewrite Hx in Hi. simplify_eq. cbn [iname] in *.
  unfold aspect_type_get_by_id, aspect_typename_get, aspect_typesize_get, aspect_type_get_by_name.
  rewrite (wrapu_small 32) by lia. rewrite (proj2 (Z.leb_gt _ _)) by lia. rewrite (tk_info _ _ _ _ _ Hok). mstep.
  rewrite Hx. mstep. cbn [iname isize]. rewrite (types_get Hok). exists p, t, (iname x). rewrite Hp.
  split_and!; try done; [lia | by rewrite Hi | by rewrite (types_get Hok), Hp].
Qed.
End base.

(** ** A world with the base types *)

Definition start (r : hworld) (p : Z) : tworld hworld := Tworld ∅ 1 r p None false.

Lemma start_types :
  ∃ w N M i, types_ok w N M i aspect_typeinfo_base ∧ bases_ok 18 w N M i ∧ s_nbr (store w) = 18.
Proof.
  destruct demo_regs as (r & hh & hl & Hi & Hr & Hn). apply hash_init_shared in Hi.
  assert (registered r _ _) as Hreg by by exists hh.
  destruct (@basetypes_create_spec hworld hworld_Store (start r 0) _ _ (Tinfo "types" 11 0 ∅) Hreg)
    as (w & N & M & i & _ & Hok & Hb); try done.
  - apply lookup_insert_eq.
  - exists w, N, M, i. split_and!; [done | done |]. by rewrite <-(tk_nbr _ _ _ _ _ Hok).
Qed.

