(* ===== verification/TypesCopySpec.v ===== *)
(** * Types: copies, and types that extend a type *)
From Stdlib Require Import Ascii.
From S2P Require Import Prelude.
From S2P Require Import Store.
From S2P Require Import Types.
From S2P Require Import TypesSpec.
From S2P Require Import TypesLayoutSpec.

(** ** Types as trees

    A cell without its links, and its fields. *)
Inductive tree := Tree (t : aspectype_t) (ks : list tree).

Definition node (x : tree) : aspectype_t := match x with Tree t _ => t end.
Definition kids (x : tree) : list tree := match x with Tree _ ks => ks end.

Definition bare (t : aspectype_t) : aspectype_t := set_childs None (set_next None t).

(** [forest D m h l]: the chain from [h] holds the trees [l], in cells of [D]. *)
Inductive forest (D : Z → Prop) (m : gmap Z aspectype_t) : option Z → list tree → Prop :=
  | forest_nil : forest D m None []
  | forest_cons p t ks l :
      D p → m !! p = Some t → forest D m (childs t) ks → forest D m (next t) l →
      forest D m (Some p) (Tree (bare t) ks :: l).

Lemma forest_agree D m m' h l :
  (∀ p, D p → m' !! p = m !! p) → forest D m h l → forest D m' h l.
Proof.
  intros Heq. induction 1 as [| p t ks l HD Hp _ IHk _ IHl]; [constructor |].
  constructor; [done | by rewrite Heq | done | done].
Qed.

Lemma forest_weaken (D D' : Z → Prop) m h l : (∀ p, D p → D' p) → forest D m h l → forest D' m h l.
Proof. intros HD. induction 1; [constructor |]. constructor; auto. Qed.

(** The fields are a chain. *)
Lemma forest_chain D m h l :
  forest D m h l → ∃ c, chain m h c ∧ (set_childs None ∘ snd) <$> c = node <$> l ∧ (∀ p, p ∈ c.*1 → D p).
Proof.
  induction 1 as [| p t ks l HD Hp _ _ _ (c & Hc & Heq & HDc)].
  - exists []. split_and!; [constructor | done | by intros p ?%not_elem_of_nil].
  - exists ((p, set_next None t) :: c). split_and!; [by constructor | cbn; by f_equal |].
    intros q [-> | Hq]%elem_of_cons; [done | by apply HDc].
Qed.

(** The trees that are copied whole.  The first field of a chain counts a pointer of its own,
    the others the pointer flag of their first field; one pointer is followed. *)
Inductive copyable : Z → bool → list tree → Prop :=
  | cp_nil cd b : copyable cd b []
  | cp_leaf cd b t r : copyable cd false r → copyable cd b (Tree t [] :: r)
  | cp_node cd (b : bool) t k ks r d :
      d = (if isptr (if b then t else node k) =? 0 then cd else cd + 1) →
      d ≤ ASPECT_TYPE_MAXPTRDEPTH → copyable d true (k :: ks) → copyable cd false r →
      copyable cd b (Tree t (k :: ks) :: r).

Section copy.
Context {R : Type} `{!Store R}.
Implicit Types (w : tworld R).

(** What the copy of the fields [l] does to the table of the names that are taken. *)
Definition taken (fh : option Z) (l : list tree) w w' : Prop :=
  match fh with
  | None => store w' = store w
  | Some h => ∀ N M i names, s_repr (store w) N M → M !! h = Some i → ti_map i = marks names →
      ∃ names' i', s_repr (store w') N (<[h := i']> M) ∧ ti_name i' = ti_name i ∧ ti_size i' = ti_size i ∧
        ti_type i' = ti_type i ∧ ti_map i' = marks names' ∧ s_nbr (store w') = s_nbr (store w) ∧
        ∀ n, n ∈ names' ↔ n ∈ names ∨ ∃ x, x ∈ l ∧ fieldname (node x) = Some n
  end.

(** The world only grows: the cells below the break stay, but for [prev]. *)
Record grown (prev : option Z) w w' : Prop := {
  gr_brk : cbrk w ≤ cbrk w';
  gr_old p : p < cbrk w → Some p ≠ prev → cells w' !! p = cells w !! p;
  gr_fresh : (∀ p, cbrk w ≤ p → cells w !! p = None) → ∀ p, cbrk w' ≤ p → cells w' !! p = None;
  gr_hash : types_hash w' = types_hash w;
  gr_info : aspect_typeinfo w' = aspect_typeinfo w;
}.

Lemma grown_refl prev w : grown prev w w.
Proof. by split. Qed.

Lemma grown_trans p q w1 w2 w3 :
  grown p w1 w2 → grown q w2 w3 → (∀ x, q = Some x → x < cbrk w1 → p = q) → grown p w1 w3.
Proof.
  intros [] [] Hq. split; [lia | | auto | congruence | congruence].
  intros x Hx Hne. rewrite gr_old1; [by apply gr_old0 | lia |]. intros <-. apply Hne. symmetry. by eapply Hq.
Qed.

Lemma grown_alloc t w : grown None w (alloc t w).
Proof.
  split; cbn; try done; [lia | |].
  - intros p Hp _. by rewrite lookup_insert_ne by lia.
  - intros Hf p Hp. rewrite lookup_insert_ne by lia. apply Hf. lia.
Qed.

Lemma grown_upd p f w t :
  cells w !! p = Some t → ∃ w', upd p f w = Some w' ∧ grown (Some p) w w' ∧
    cells w' !! p = Some (f t) ∧ (∀ q, q ≠ p → cells w' !! q = cells w !! q) ∧ store w' = store w ∧ cbrk w' = cbrk w.
Proof.
  intros Hp. unfold upd. rewrite Hp. mstep. eexists. split; [done |].
  assert (∀ q, q ≠ p → <[p := f t]> (cells w) !! q = cells w !! q) as Hne by (intros; by rewrite lookup_insert_ne).
  split; [| split_and!; cbn; try done; apply lookup_insert_eq].
  split; cbn; try done.
  - intros q _ Hq. apply Hne. by intros ->.
  - intros Hf q Hq. destruct (decide (q = p)) as [-> |]; [by rewrite Hf in Hp | rewrite Hne by done; by apply Hf].
Qed.

(** A name is taken. *)
Lemma taken_add w h nm t :
  fieldname t = Some nm →
  (∃ N M i, s_repr (store w) N M ∧ M !! h = Some i) →
  ∃ w', tadd w h nm 1 = Some w' ∧ taken (Some h) [Tree t []] w w' ∧ grown None w w' ∧ cells w' = cells w ∧
    cbrk w' = cbrk w.
Proof.
  intros Hnm (N & M & i & Hs & Hh). unfold tadd.
  destruct (s_add_repr _ _ _ _ _ nm 1 Hs Hh) as (r & x & Ha & _). rewrite Ha. mstep.
  eexists. split; [done |]. split_and!; try done.
  intros N' M' j names Hs' Hj Hmap. destruct (s_add_repr _ _ _ _ _ nm 1 Hs' Hj) as (r' & x' & Ha' & Hn' & Hr').
  rewrite Ha in Ha'. simplify_eq. exists (nm :: names), (with_map (<[nm := 1]> (ti_map j)) j). cbn.
  split_and!; try done.
  - by rewrite Hmap.
  - intros n. rewrite elem_of_cons. split.
    + intros [-> | ?]; [right | by left]. exists (Tree t []). split; [by left | done].
    + intros [? | (y & ->%list_elem_of_singleton & Hy)]; [by right |]. cbn in Hy. simplify_eq. by left.
Qed.

Lemma taken_trans fh l1 l2 w1 w2 w3 :
  taken fh l1 w1 w2 → taken fh l2 w2 w3 → taken fh (l1 ++ l2) w1 w3.
Proof.
  destruct fh as [h |]; cbn; [| congruence]. intros H1 H2 N M i names Hs Hh Hm.
  destruct (H1 N M i names Hs Hh Hm) as (n1 & i1 & Hs1 & ? & ? & ? & Hm1 & ? & Hn1).
  destruct (H2 N _ i1 n1 Hs1 (lookup_insert_eq _ _ _) Hm1) as (n2 & i2 & Hs2 & ? & ? & ? & Hm2 & ? & Hn2).
  rewrite insert_insert_eq in Hs2. exists n2, i2. split_and!; try congruence.
  intros n. rewrite Hn2, Hn1. split.
  - intros [[? | (x & ? & ?)] | (x & ? & ?)]; [by left | |]; right; exists x;
      (split; [apply elem_of_app; auto | done]).
  - intros [? | (x & [? | ?]%elem_of_app & ?)]; [by left; left | left; right | right]; by exists x.
Qed.

Lemma taken_same fh w w' : store w' = store w → taken fh [] w w'.
Proof.
  intros Heq. destruct fh as [h |]; cbn; [| done]. intros N M i names Hs Hh Hm. rewrite Heq.
  exists names, i. rewrite (insert_id M) by done. split_and!; try done. intros n. split; [by left |].
  intros [? | (x & ?%not_elem_of_nil & _)]; done.
Qed.

Lemma taken_store fh l w1 w2 w : store w1 = store w2 → taken fh l w1 w → taken fh l w2 w.
Proof. intros Heq. destruct fh; cbn; rewrite Heq; done. Qed.

Lemma taken_store_r fh l w w1 w2 : store w2 = store w1 → taken fh l w w1 → taken fh l w w2.
Proof. intros Heq. destruct fh; cbn; rewrite Heq; done. Qed.

Lemma tree_eta x : x = Tree (node x) (kids x).
Proof. by destruct x. Qed.

(** The table of the names is there. *)
Definition has_table (fh : option Z) w : Prop :=
  ∀ h, fh = Some h → ∃ N M i names, s_repr (store w) N M ∧ M !! h = Some i ∧ ti_map i = marks names.

Lemma taken_table fh l w w' : has_table fh w → taken fh l w w' → has_table fh w'.
Proof.
  intros Ht Hk h ->. destruct (Ht h eq_refl) as (N & M & i & names & Hs & Hh & Hm).
  destruct (Hk N M i names Hs Hh Hm) as (n' & i' & Hs' & _ & _ & _ & Hm' & _ & _).
  exists N, (<[h := i']> M), i', n'. split_and!; [done | apply lookup_insert_eq | done].
Qed.

(** The source: cells below [b] that hold the trees. *)
Definition source (b : Z) w h l : Prop := b ≤ cbrk w ∧ forest (λ p, p < b) (cells w) h l.

Lemma source_grown b prev w w' h l :
  source b w h l → grown prev w w' → (∀ p, prev = Some p → b ≤ p) → source b w' h l.
Proof.
  intros [Hb Hf] [Hbr Hold _ _ _] Hp. split; [lia |]. eapply forest_agree; [| done].
  intros p Hlt. cbn in Hlt. apply Hold; [lia |]. intros Heq. specialize (Hp p (eq_sym Heq)). lia.
Qed.

Definition named (fh : option Z) (l : list tree) : Prop :=
  fh = None ∨ Forall (λ x, is_Some (fieldname (node x))) l.

Definition fresh w : Prop := ∀ p, cbrk w ≤ p → cells w !! p = None.

Definition between (lo hi p : Z) : Prop := lo ≤ p < hi.

(** The copy of a chain, from its first field on. *)
Definition first_ok (b cd : Z) (l : list tree) : Prop := ∀ w p fh nm x r,
  l = x :: r → cd ≤ ASPECT_TYPE_MAXPTRDEPTH → source b w (Some p) l → named fh l → has_table fh w → fresh w →
  ∃ f w', (∀ fuel, (f ≤ fuel)%nat →
      aspect_type_copy_by_name fuel w p nm fh cd ASPECT_TYPE_MAXPTRDEPTH = Some (w', Some (cbrk w))) ∧
    grown None w w' ∧ taken fh l w w' ∧ fresh w' ∧
    forest (between (cbrk w) (cbrk w')) (cells w') (Some (cbrk w))
      (Tree (match nm with Some _ => set_name nm (node x) | None => node x end) (kids x) :: r).

(** The copy of the rest of a chain, behind the cell [prev]. *)
Definition rest_ok (b cd : Z) (l : list tree) : Prop := ∀ w h prev tp fh,
  cd ≤ ASPECT_TYPE_MAXPTRDEPTH → source b w h l → named fh l → has_table fh w → fresh w →
  cells w !! prev = Some tp → next tp = h → b ≤ prev →
  ∃ f w' h', (∀ fuel, (f ≤ fuel)%nat →
      copy_fields fuel w h prev fh cd ASPECT_TYPE_MAXPTRDEPTH = Some w') ∧
    grown (Some prev) w w' ∧ taken fh l w w' ∧ fresh w' ∧
    cells w' !! prev = Some (set_next h' tp) ∧
    forest (between (cbrk w) (cbrk w')) (cells w') h' l.

(** The fields of one cell. *)
Lemma kids_copy b d w newtype t1 c k ks :
  first_ok b d (k :: ks) → d ≤ ASPECT_TYPE_MAXPTRDEPTH →
  source b w (Some c) (k :: ks) → fresh w → cells w !! newtype = Some t1 → newtype < cbrk w →
  ∃ f w', (∀ fuel, (f ≤ fuel)%nat →
      ('(w, c') ← aspect_type_copy_by_name fuel w c None None d ASPECT_TYPE_MAXPTRDEPTH;
       upd newtype (set_childs c') w) = Some w') ∧
    grown (Some newtype) w w' ∧ store w' = store w ∧ fresh w' ∧
    cells w' !! newtype = Some (set_childs (Some (cbrk w)) t1) ∧
    forest (between (cbrk w) (cbrk w')) (cells w') (Some (cbrk w)) (k :: ks).
Proof.
  intros IH Hd Hsrc Hf Hnt Hlt.
  destruct (IH w c None None k ks eq_refl Hd Hsrc) as (f & w1 & Hc & Hg & Htk & Hf1 & Hfo);
    [by left | by intros ? [=] | done |].
  assert (cells w1 !! newtype = Some t1) as Hnt1 by (by rewrite (gr_old _ _ _ Hg)).
  destruct (grown_upd newtype (set_childs (Some (cbrk w))) w1 t1 Hnt1) as (w2 & Hu & Hg2 & Hn2 & Hne & Hst & Hbr).
  exists f, w2. split; [intros fuel Hfu; rewrite Hc by done; mstep; exact Hu |]. split_and!; [| | | done |].
  - destruct Hg as [G1 G2 G3 G4 G5], Hg2 as [K1 K2 K3 K4 K5]. split; [lia | | auto | congruence | congruence].
    intros q Hq Hqn. rewrite K2 by (lia || done). by apply G2.
  - rewrite Hst. exact Htk.
  - intros q Hq. by apply (gr_fresh _ _ _ Hg2).
  - rewrite Hbr. destruct k as [tk kk]. eapply forest_agree; [| exact Hfo].
    intros q [? ?]. apply Hne. lia.
Qed.

(** The name of a field is taken, or there is no table. *)
Lemma name_copy w fh t x :
  fieldname t = fieldname (node x) → named fh [x] → has_table fh w →
  ∃ w', match fh, fieldname t with Some h, Some f => tadd w h f 1 | _, _ => Some w end = Some w' ∧
    match fh with Some h => f ← fieldname t; tadd w h f 1 | None => Some w end = Some w' ∧
    taken fh [x] w w' ∧ grown None w w' ∧ cells w' = cells w ∧ cbrk w' = cbrk w.
Proof.
  intros Hfn Hnm Htab. destruct fh as [h |].
  - destruct Hnm as [? | Hall]; [done |]. apply Forall_inv in Hall as [nm Hx]. rewrite Hfn, Hx. mstep.
    destruct (Htab h eq_refl) as (N & M & i & names & Hs & Hh & _).
    destruct (taken_add w h nm (node x) Hx) as (w' & -> & Htk & Hg & Hc & Hb); [eauto |].
    exists w'. split_and!; try done. intros N' M' i' names' Hs' Hh' Hm'.
    destruct (Htk N' M' i' names' Hs' Hh' Hm') as (n2 & i2 & ? & ? & ? & ? & ? & ? & Hn).
    exists n2, i2. split_and!; try done. intros n. rewrite Hn. split.
    + intros [? | (y & ->%list_elem_of_singleton & ?)]; [by left | right; exists x; split; [by left | done]].
    + intros [? | (y & ->%list_elem_of_singleton & ?)]; [by left | right; eexists; split; [by left | done]].
  - exists w. split_and!; try done; apply grown_refl.
Qed.

Lemma copyable_turn cd (z : Z) :
  (if z =? 0 then cd else cd + 1) ≤ ASPECT_TYPE_MAXPTRDEPTH →
  (z =? 0) || negb (cd =? ASPECT_TYPE_MAXPTRDEPTH) || (ASPECT_TYPE_MAXPTRDEPTH =? 0) = true.
Proof.
  unfold ASPECT_TYPE_MAXPTRDEPTH. intros Hd. destruct (z =? 0); [done |].
  rewrite (proj2 (Z.eqb_neq cd 1)) by lia. done.
Qed.

Lemma named_cons fh x l : named fh (x :: l) → named fh [x] ∧ named fh l.
Proof.
  intros [-> | Hall]; [split; by left |]. apply Forall_cons in Hall as [Hx Hl].
  split; right; [by constructor | done].
Qed.

Lemma fresh_grown prev w w' : fresh w → grown prev w w' → fresh w'.
Proof. intros Hf Hg. exact (gr_fresh _ _ _ Hg Hf). Qed.

Lemma source_cell b w p x l :
  source b w (Some p) (x :: l) →
  ∃ t, cells w !! p = Some t ∧ p < b ∧ node x = bare t ∧ source b w (childs t) (kids x) ∧ source b w (next t) l.
Proof.
  intros [Hb Hf]. inversion Hf; subst. exists t. by split_and!.
Qed.

Lemma source_nil b w h : source b w h [] → h = None.
Proof. intros [_ Hf]. by inversion Hf. Qed.

(** One turn: the cell of the copy, its name, its fields; [nk] is the pointer flag that
    counts. *)
Definition turn_ok (b cd : Z) (x : tree) (nk : Z) : Prop :=
  kids x = [] ∨
  let d := if nk =? 0 then cd else cd + 1 in
  d ≤ ASPECT_TYPE_MAXPTRDEPTH ∧ first_ok b d (kids x).

(** The part of a turn that follows the naming. *)
Lemma turn b cd w newtype t0 t1 x nk :
  turn_ok b cd x nk → cells w !! newtype = Some t1 → childs t1 = childs t0 → newtype < cbrk w →
  source b w (childs t0) (kids x) → fresh w →
  ∃ f w' h', (∀ fuel (e : option (tworld R)), (f ≤ fuel)%nat →
      match childs t0 with
      | None => Some w
      | Some c =>
          if (nk =? 0) || negb (cd =? ASPECT_TYPE_MAXPTRDEPTH) || (ASPECT_TYPE_MAXPTRDEPTH =? 0) then
            '(w, c') ← aspect_type_copy_by_name fuel w c None None
                         (if nk =? 0 then cd else cd + 1) ASPECT_TYPE_MAXPTRDEPTH;
            upd newtype (set_childs c') w
          else e
      end = Some w') ∧
    grown (Some newtype) w w' ∧ store w' = store w ∧ fresh w' ∧
    cells w' !! newtype = Some (set_childs h' t1) ∧
    forest (between (cbrk w) (cbrk w')) (cells w') h' (kids x).
Proof.
  intros Hturn Hnt Hch Hlt Hsrc Hf. destruct (kids x) as [| k ks] eqn:Ek.
  - apply source_nil in Hsrc. exists O, w, None. rewrite Hsrc in Hch |- *. split_and!; try done.
    + rewrite Hnt. f_equal. by destruct t1; cbn in *; subst.
    + constructor.
  - destruct Hturn as [? | [Hd IH]]; [congruence |]. rewrite Ek in IH.
    destruct (childs t0) as [c |] eqn:Ec; [| destruct Hsrc as [_ Hs]; inversion Hs].
    destruct (kids_copy b _ w newtype t1 c k ks IH Hd Hsrc Hf Hnt Hlt) as (f & w' & Hc & Hg & Hst & Hf' & Hn' & Hfo).
    exists f, w', (Some (cbrk w)). split_and!; try done. intros fuel e Hfu.
    rewrite copyable_turn by done. by apply Hc.
Qed.

(** ** One level of the two functions *)

Lemma copy_by_name_S fuel w type_ name_ fieldshash curdepth maxdepth :
  aspect_type_copy_by_name (S fuel) w type_ name_ fieldshash curdepth maxdepth =
  (
      if maxdepth <? curdepth then Some (w, None) else
      t ← cells w !! type_;
      let result := cbrk w in
      let t := match name_ with Some _ => set_name name_ t | None => t end in
      let w := alloc t w in
      w ← match fieldshash, fieldname t with
          | Some h, Some f => tadd w h f 1
          | _, _ => Some w
          end;
      w ← match childs t with
          | None => Some w
          | Some c =>
              if (isptr t =? 0) || negb (curdepth =? maxdepth) || (maxdepth =? 0) then
                '(w, c') ← aspect_type_copy_by_name fuel w c None
                             (match fieldname t with None => fieldshash | Some _ => None end)
                             (if isptr t =? 0 then curdepth else curdepth + 1) maxdepth;
                upd result (set_childs c') w
              else upd result (set_childs None) w
          end;
      w ← copy_fields fuel w (next t) result fieldshash curdepth maxdepth;
      Some (w, Some result)).
Proof. reflexivity. Qed.

Lemma copy_fields_S fuel w next_ prev fieldshash curdepth maxdepth :
  copy_fields (S fuel) w next_ prev fieldshash curdepth maxdepth =
  (
      match next_ with
      | None => Some w
      | Some n =>
          t ← cells w !! n;
          let newtype := cbrk w in
          let w := alloc t w in
          w ← match fieldshash with
              | Some h => f ← fieldname t; tadd w h f 1
              | None => Some w
              end;
          w ← match childs t with
              | None => Some w
              | Some c =>
                  ct ← cells w !! c;
                  if (isptr ct =? 0) || negb (curdepth =? maxdepth) || (maxdepth =? 0) then
                    '(w, c') ← aspect_type_copy_by_name fuel w c None None
                                 (if isptr ct =? 0 then curdepth else curdepth + 1) maxdepth;
                    upd newtype (set_childs c') w
                  else upd n (set_childs None) w
              end;
          w ← upd prev (set_next (Some newtype)) w;
          t ← cells w !! n;
          copy_fields fuel w (next t) newtype fieldshash curdepth maxdepth
      end).
Proof. reflexivity. Qed.

Lemma rest_nil b cd : rest_ok b cd [].
Proof.
  intros w h prev tp fh Hcd Hsrc _ _ Hf Hp Hn _. apply source_nil in Hsrc as ->.
  exists 1%nat, w, None. split_and!.
  - intros [| fuel] Hfu; [lia | done].
  - apply grown_refl.
  - by apply taken_same.
  - done.
  - rewrite Hp. f_equal. by destruct tp; cbn in *; subst.
  - constructor.
Qed.

(** The pointer flag of the first field is read in its cell. *)
Lemma field_flag b w h l (F : Z → Z → option (tworld R)) :
  source b w h l →
  match h with None => Some w | Some c => ct ← cells w !! c; F c (isptr ct) end =
  match h with
  | None => Some w
  | Some c => F c (match l with k :: _ => isptr (node k) | [] => 0 end)
  end.
Proof.
  intros Hsrc. destruct h as [c |]; [| done].
  destruct l as [| k l]; [by apply source_nil in Hsrc |].
  destruct (source_cell _ _ _ _ _ Hsrc) as (t & Ht & _ & Hn & _). rewrite Ht. mstep. by rewrite Hn.
Qed.

(** The turns of a loop, one after the other. *)
Lemma grown_turn prev q w w2 w3 w4 w5 :
  grown None w w2 → grown (Some q) w2 w3 → grown (Some prev) w3 w4 → grown (Some q) w4 w5 →
  cbrk w ≤ q → grown (Some prev) w w5.
Proof.
  intros [A1 A2 A3 A4 A5] [B1 B2 B3 B4 B5] [C1 C2 C3 C4 C5] [D1 D2 D3 D4 D5] Hq.
  split; [lia | | auto | congruence | congruence].
  intros p Hp Hne. rewrite D2, C2, B2, A2; [done | lia | done | lia | | lia | done | lia |];
    intros [= ->]; lia.
Qed.

Lemma rest_step b cd x r :
  turn_ok b cd x (match kids x with k :: _ => isptr (node k) | [] => 0 end) → rest_ok b cd r →
  rest_ok b cd (x :: r).
Proof.
  intros Hturn IHr w h prev tp fh Hcd Hsrc Hnm Htab Hf Hp Hn Hbp.
  destruct (named_cons _ _ _ Hnm) as [Hnx Hnr].
  assert (∃ n, h = Some n) as [n ->] by (destruct Hsrc as [_ Hs]; inversion Hs; eauto).
  destruct (source_cell _ _ _ _ _ Hsrc) as (t0 & Ht0 & Hnb & Hnode & Hk & Hr).
  assert (prev < cbrk w) as Hpw by (destruct (Z.lt_ge_cases prev (cbrk w)); [done | by rewrite Hf in Hp]).
  pose proof (grown_alloc t0 w) as Hg1. set (w1 := alloc t0 w) in *.
  assert (cells w1 !! cbrk w = Some t0) as Hc1 by (cbn; apply lookup_insert_eq).
  destruct (name_copy w1 fh t0 x) as (w2 & _ & Hadd & Htk & Hg2 & Hce2 & Hb2);
    [by rewrite Hnode | done | done |].
  assert (grown None w w2) as Hg12 by (eapply grown_trans; [done | done | done]).
  assert (b ≤ cbrk w) as Hbw by apply Hsrc.
  assert (source b w2 (childs t0) (kids x)) as Hk2 by by eapply source_grown.
  assert (fresh w2) as Hf2 by by eapply fresh_grown.
  assert (cbrk w2 = cbrk w + 1) as Hbr2 by by rewrite Hb2.
  assert (cells w2 !! cbrk w = Some t0) as Hc2 by by rewrite Hce2.
  destruct (turn b cd w2 (cbrk w) t0 t0 x _ Hturn Hc2 eq_refl ltac:(lia) Hk2 Hf2)
    as (f1 & w3 & h3 & Hrun & Hg3 & Hst3 & Hf3 & Hc3 & Hfo3).
  assert (cells w3 !! prev = Some tp) as Hp3.
  { rewrite (gr_old _ _ _ Hg3); [| lia | intros [= ->]; lia]. by rewrite (gr_old _ _ _ Hg12). }
  destruct (grown_upd prev (set_next (Some (cbrk w))) w3 tp Hp3) as (w4 & Hu & Hg4 & Hp4 & Hne4 & Hst4 & Hb4).
  assert (cells w4 !! n = Some t0) as Hn4.
  { rewrite Hne4 by lia. rewrite (gr_old _ _ _ Hg3); [| lia | intros [= ->]; lia]. by rewrite (gr_old _ _ _ Hg12) by (lia || done). }
  assert (has_table fh w4) as Htab4.
  { intros h Hh. destruct (taken_table fh [x] w1 w2 Htab Htk h Hh) as (N & M & i & names & ?).
    rewrite Hst4, Hst3. eauto. }
  assert (source b w4 (next t0) r) as Hr4.
  { eapply (source_grown b (Some prev) w3); [| done | by intros q [= <-]].
    eapply (source_grown b (Some (cbrk w)) w2); [| done | by intros q [= <-]]. by eapply source_grown. }
  assert (fresh w4) as Hf4 by by eapply fresh_grown.
  assert (cells w4 !! cbrk w = Some (set_childs h3 t0)) as Hc4 by (by rewrite Hne4 by lia).
  destruct (IHr w4 (next t0) (cbrk w) (set_childs h3 t0) fh Hcd Hr4 Hnr Htab4 Hf4 Hc4 eq_refl Hbw)
    as (f2 & w5 & h5 & Hrun5 & Hg5 & Htk5 & Hf5 & Hc5 & Hfo5).
  pose proof (gr_brk _ _ _ Hg3). pose proof (gr_brk _ _ _ Hg5).
  exists (S (Nat.max f1 f2)), w5, (Some (cbrk w)). split_and!; [| | | done | |].
  - intros [| fuel] Hfu; [lia |]. rewrite copy_fields_S, Ht0. mstep. fold w1. rewrite Hadd. mstep.
    specialize (Hrun fuel (upd n (set_childs None) w2) ltac:(lia)).
    pose proof (field_flag b w2 (childs t0) (kids x) (λ c z,
      if (z =? 0) || negb (cd =? ASPECT_TYPE_MAXPTRDEPTH) || (ASPECT_TYPE_MAXPTRDEPTH =? 0) then
        '(w', c') ← aspect_type_copy_by_name fuel w2 c None None (if z =? 0 then cd else cd + 1)
                      ASPECT_TYPE_MAXPTRDEPTH;
        upd (cbrk w) (set_childs c') w'
      else upd n (set_childs None) w2) Hk2) as Hff.
    cbv beta in Hff. rewrite Hff, Hrun. mstep. rewrite Hu. mstep. rewrite Hn4. mstep. apply Hrun5. lia.
  - by apply (grown_turn prev (cbrk w) w w2 w3 w4 w5).
  - apply (taken_trans fh [x] r w w2); [done |]. eapply taken_store; [| done]. congruence.
  - rewrite (gr_old _ _ _ Hg5); [done | lia | intros [= ->]; lia].
  - rewrite (tree_eta x), Hnode. change (bare t0) with (bare (set_next h5 (set_childs h3 t0))).
    constructor; [split; lia | done | |].
    + apply (forest_weaken (between (cbrk w2) (cbrk w3))); [intros q [? ?]; split; lia |].
      apply (forest_agree _ (cells w3)); [| done]. intros q [? ?].
      rewrite (gr_old _ _ _ Hg5); [apply Hne4; lia | lia | intros [= ->]; lia].
    + apply (forest_weaken (between (cbrk w4) (cbrk w5))); [intros q [? ?]; split; lia | done].
Qed.

Lemma first_step b cd x r :
  turn_ok b cd x (isptr (node x)) → rest_ok b cd r → first_ok b cd (x :: r).
Proof.
  intros Hturn IHr w p fh nm x' r' [= <- <-] Hcd Hsrc Hnm Htab Hf.
  destruct (named_cons _ _ _ Hnm) as [Hnx Hnr].
  destruct (source_cell _ _ _ _ _ Hsrc) as (t0 & Ht0 & Hnb & Hnode & Hk & Hr).
  set (t1 := match nm with Some _ => set_name nm t0 | None => t0 end).
  assert (childs t1 = childs t0 ∧ next t1 = next t0 ∧ fieldname t1 = fieldname t0 ∧ isptr t1 = isptr t0)
    as (Hch1 & Hnx1 & Hfn1 & Hip1) by (unfold t1; by destruct nm).
  pose proof (grown_alloc t1 w) as Hg1. set (w1 := alloc t1 w) in *.
  assert (cells w1 !! cbrk w = Some t1) as Hc1 by (cbn; apply lookup_insert_eq).
  destruct (name_copy w1 fh t1 x) as (w2 & Hadd & _ & Htk & Hg2 & Hce2 & Hb2);
    [by rewrite Hnode | done | done |].
  assert (grown None w w2) as Hg12 by (eapply grown_trans; [done | done | done]).
  assert (b ≤ cbrk w) as Hbw by apply Hsrc.
  assert (source b w2 (childs t0) (kids x)) as Hk2 by by eapply source_grown.
  assert (fresh w2) as Hf2 by by eapply fresh_grown.
  assert (cbrk w2 = cbrk w + 1) as Hbr2 by by rewrite Hb2.
  assert (cells w2 !! cbrk w = Some t1) as Hc2 by by rewrite Hce2.
  destruct (turn b cd w2 (cbrk w) t0 t1 x _ Hturn Hc2 Hch1 ltac:(lia) Hk2 Hf2)
    as (f1 & w3 & h3 & Hrun & Hg3 & Hst3 & Hf3 & Hc3 & Hfo3).
  assert (has_table fh w3) as Htab3.
  { intros h Hh. destruct (taken_table fh [x] w1 w2 Htab Htk h Hh) as (N & M & i & names & ?).
    rewrite Hst3. eauto. }
  assert (source b w3 (next t0) r) as Hr3.
  { eapply (source_grown b (Some (cbrk w)) w2); [| done | by intros q [= <-]]. by eapply source_grown. }
  destruct (IHr w3 (next t0) (cbrk w) (set_childs h3 t1) fh Hcd Hr3 Hnr Htab3 Hf3 Hc3 Hnx1 Hbw)
    as (f2 & w5 & h5 & Hrun5 & Hg5 & Htk5 & Hf5 & Hc5 & Hfo5).
  pose proof (gr_brk _ _ _ Hg3). pose proof (gr_brk _ _ _ Hg5).
  exists (S (Nat.max f1 f2)), w5. split_and!; [| | | done |].
  - intros [| fuel] Hfu; [lia |]. rewrite copy_by_name_S.
    rewrite (proj2 (Z.ltb_ge _ _)) by done. rewrite Ht0. mstep. fold t1 w1. rewrite Hadd. mstep.
    replace (match fieldname t1 with Some _ => None | None => fh end) with (@None Z).
    2: { destruct Hnm as [-> | Hall]; [by destruct (fieldname t1) |].
         apply Forall_inv in Hall as [? Hx]. rewrite Hnode in Hx. cbn in Hx. by rewrite Hfn1, Hx. }
    specialize (Hrun fuel (upd (cbrk w) (set_childs None) w2) ltac:(lia)).
    replace (isptr (node x)) with (isptr t1) in Hrun by by rewrite Hnode, Hip1.
    rewrite Hch1, Hrun. mstep. rewrite Hnx1, Hrun5 by lia. mstep. done.
  - destruct Hg12 as [A1 A2 A3 A4 A5], Hg3 as [B1 B2 B3 B4 B5], Hg5 as [D1 D2 D3 D4 D5].
    split; [lia | | auto | congruence | congruence].
    intros q Hq _. rewrite D2, B2, A2; [done | lia | done | lia | | lia |]; intros [= ->]; lia.
  - apply (taken_trans fh [x] r w w2); [done |]. eapply taken_store; [| done]. congruence.
  - assert (match nm with Some _ => set_name nm (node x) | None => node x end =
            bare (set_next h5 (set_childs h3 t1))) as ->.
    { rewrite Hnode. unfold t1. by destruct nm. }
    constructor; [split; lia | done | |].
    + apply (forest_weaken (between (cbrk w2) (cbrk w3))); [intros q [? ?]; split; lia |].
      apply (forest_agree _ (cells w3)); [| done]. intros q [? ?].
      apply (gr_old _ _ _ Hg5); [lia | intros [= ->]; lia].
    + apply (forest_weaken (between (cbrk w3) (cbrk w5))); [intros q [? ?]; split; lia | done].
Qed.

(** A tree that is copied whole is copied whole. *)
Lemma copy_all b cd first l :
  copyable cd first l → if first then l = [] ∨ first_ok b cd l else rest_ok b cd l.
Proof.
  induction 1 as [cd first | cd first t r Hr IHr | cd first t k ks r d Hd Hle Hk IHk Hr IHr].
  - destruct first; [by left | apply rest_nil].
  - destruct first; [right; apply first_step | apply rest_step]; try done; by left.
  - destruct IHk as [? | IHk]; [done |].
    destruct first; [right; apply first_step | apply rest_step]; try done; right; cbn; by rewrite <-Hd.
Qed.

(** The root of a type: it has no field name, and the names of its fields are taken. *)
Lemma copy_root b w p h label t ks :
  source b w (Some p) [Tree t ks] → copyable 0 true [Tree t ks] → fieldname t = None →
  Forall (λ x, is_Some (fieldname (node x))) ks → has_table (Some h) w → fresh w →
  ∃ f w' h', (∀ fuel, (f ≤ fuel)%nat →
      aspect_type_copy_by_name fuel w p (Some label) (Some h) 0 ASPECT_TYPE_MAXPTRDEPTH =
        Some (w', Some (cbrk w))) ∧
    grown None w w' ∧ taken (Some h) ks w w' ∧ fresh w' ∧ cbrk w < cbrk w' ∧
    cells w' !! cbrk w = Some (set_childs h' (set_name (Some label) t)) ∧
    forest (between (cbrk w + 1) (cbrk w')) (cells w') h' ks.
Proof.
  intros Hsrc Hcp Hfn Hnames Htab Hf. destruct (source_cell _ _ _ _ _ Hsrc) as (t0 & Ht0 & Hpb & Hnode & Hk & Hr).
  cbn [node] in Hnode. subst t. apply source_nil in Hr. cbn [kids] in Hk.
  set (t1 := set_name (Some label) t0). pose proof (grown_alloc t1 w) as Hg1. set (w1 := alloc t1 w) in *.
  assert (cells w1 !! cbrk w = Some t1) as Hc1 by (cbn; apply lookup_insert_eq).
  assert (b ≤ cbrk w) as Hbw by apply Hsrc. change (cbrk w + 1) with (cbrk w1).
  assert (cbrk w1 = cbrk w + 1) as Hb1 by done.
  assert (fresh w1) as Hf1 by by eapply fresh_grown.
  assert (source b w1 (childs t0) ks) as Hk1 by by eapply source_grown.
  assert (set_childs (childs t0) (set_name (Some label) (bare t0)) = t1) as Hsame
    by (unfold t1; destruct t0; cbn in *; by subst).
  destruct ks as [| k ks].
  - apply source_nil in Hk1. exists 2%nat, w1, None. split_and!; try done.
    + intros [| [| fuel]] Hfu; [lia | lia |]. rewrite copy_by_name_S.
      rewrite (proj2 (Z.ltb_ge _ _)) by (unfold ASPECT_TYPE_MAXPTRDEPTH; lia). rewrite Ht0. mstep.
      fold t1 w1. change (fieldname t1) with (fieldname t0). cbn in Hfn. rewrite Hfn. mstep.
      change (childs t1) with (childs t0). rewrite Hk1. mstep. change (next t1) with (next t0).
      rewrite Hr, copy_fields_S. done.
    + by apply taken_same.
    + lia.
    + rewrite Hc1, <-Hsame. by rewrite Hk1.
    + constructor.
  - inversion Hcp as [| | cd first t' k' ks' r d Hd Hle Hck _]; subst.
    destruct (copy_all b _ true _ Hck) as [? | IH]; [done |].
    change (isptr (bare t0)) with (isptr t0) in *.
    destruct (childs t0) as [c |] eqn:Ec; [| by destruct Hk1 as [_ Hs]; inversion Hs].
    destruct (IH w1 c (Some h) None k ks eq_refl Hle Hk1) as (f & w2 & Hrun & Hg2 & Htk & Hf2 & Hfo); try done.
    { by right. }
    assert (cells w2 !! cbrk w = Some t1) as Hc2 by (by rewrite (gr_old _ _ _ Hg2) by (lia || done)).
    destruct (grown_upd (cbrk w) (set_childs (Some (cbrk w1))) w2 t1 Hc2) as (w3 & Hu & Hg3 & Hc3 & Hne & Hst & Hb3).
    pose proof (gr_brk _ _ _ Hg2).
    exists (S (S f)), w3, (Some (cbrk w1)). split_and!.
    + intros [| fuel] Hfu; [lia |]. rewrite copy_by_name_S.
      rewrite (proj2 (Z.ltb_ge _ _)) by (unfold ASPECT_TYPE_MAXPTRDEPTH; lia). rewrite Ht0. mstep.
      fold t1 w1. change (fieldname t1) with (fieldname t0). cbn in Hfn. rewrite Hfn. mstep.
      change (childs t1) with (childs t0). rewrite Ec. change (isptr t1) with (isptr t0).
      rewrite copyable_turn by done. rewrite Hrun by lia. mstep. rewrite Hu. mstep.
      change (next t1) with (next t0). rewrite Hr. destruct fuel as [| fuel]; [lia |].
      rewrite copy_fields_S. done.
    + destruct Hg1 as [A1 A2 A3 A4 A5], Hg2 as [B1 B2 B3 B4 B5], Hg3 as [D1 D2 D3 D4 D5].
      split; [lia | | auto | congruence | congruence].
      intros q Hq _. rewrite Hne, B2, A2 by (lia || done). done.
    + eapply taken_store_r; [exact Hst |]. by apply (taken_store _ _ w1).
    + by eapply fresh_grown.
    + lia.
    + rewrite Hc3. f_equal. unfold t1. destruct t0; cbn in *; by subst.
    + rewrite Hb3. destruct k as [tk kk]. eapply forest_agree; [| exact Hfo]. intros q [? ?]. apply Hne. lia.
Qed.
End copy.
