(* ===== verification/TypesDeriveSpec.v ===== *)
(** * Types: declarations, the fields inherited, and the records that cannot be extended *)
From Stdlib Require Import Ascii.
From S2P Require Import Prelude.
From S2P Require Import Store.
From S2P Require Import Registry.
From S2P Require Import RegistrySpec.
From S2P Require Import Types.
From S2P Require Import TypesSpec.
From S2P Require Import TypesLayoutSpec.
From S2P Require Import TypesBaseSpec.
From S2P Require Import TypesCopySpec.

Section derive.
Context {R : Type} `{!Store R}.
Implicit Types (w : tworld R).

(** Only the membership of the names that are taken matters. *)
Lemma field_descs_ext env label self names names' fs :
  (∀ n, n ∈ names ↔ n ∈ names') →
  field_descs env label self names fs = field_descs env label self names' fs.
Proof.
  revert names names'. induction fs as [| f fs IH]; intros names names' Heq; [done |]. cbn [field_descs].
  destruct (field_desc env label self f) as [d |]; mstep; [| done].
  rewrite (bool_decide_ext _ _ (Heq (fd_name d))). case_bool_decide; [done |]. f_equal. apply IH.
  intros n. rewrite !elem_of_cons. by rewrite Heq.
Qed.

(** The names of the fields that are inherited. *)
Definition kid_names (ks : list tree) : list string := omap (fieldname ∘ node) ks.

Lemma kid_names_in ks n : n ∈ kid_names ks ↔ ∃ x, x ∈ ks ∧ fieldname (node x) = Some n.
Proof. unfold kid_names. by rewrite list_elem_of_omap. Qed.

(** A type that can be extended: a registered record whose tree is copied whole. *)
Record extensible w (i : tinfo) (super : string) (t : aspectype_t) (ks : list tree) : Prop := {
  ex_cell : ∃ p, ti_map i !! super = Some p ∧ forest (λ q, q < cbrk w) (cells w) (Some p) [Tree t ks];
  ex_root : fieldname t = None;
  ex_names : Forall (λ x, is_Some (fieldname (node x))) ks;
  ex_copy : copyable 0 true [Tree t ks];
}.

Section super.
Context {w0 : tworld R} {N : gmap string Z} {M : gmap Z tinfo} {i : tinfo} {info : list typeinfo_t}.
Context (Hok : types_ok w0 N M i info).
Context {super : string} {t : aspectype_t} {ks : list tree} (Hex : extensible w0 i super t ks).

Lemma forest_bare D m h x l : forest D m h (x :: l) → node x = bare (node x).
Proof using Type. intros Hf. by inversion Hf. Qed.

Lemma begin_super label r fh :
  M !! fh = None →
  restored w0 (set_store r w0) (<["localfields" := fh]> N) (<[fh := Tinfo "localfields" 10 0 ∅]> M) →
  ∃ p f w1 nt l0 names, ti_map i !! super = Some p ∧
    (∀ fuel, (f ≤ fuel)%nat →
      aspect_type_copy_by_name fuel (set_store r w0) p (Some label) (Some fh) 0 ASPECT_TYPE_MAXPTRDEPTH =
        Some (w1, Some (cbrk w0))) ∧
    cells w1 !! cbrk w0 = Some nt ∧ size nt = size t ∧
    building w0 N M i fh (cbrk w0) (set_name (Some label) t) w1 l0 names ∧
    (∀ n, n ∈ names ↔ n ∈ kid_names ks) ∧ (set_childs None ∘ snd) <$> l0 = node <$> ks.
Proof using Hex Hok.
  intros HM Hr. destruct Hex as [(p & Hp & Hfo) Hroot Hnames Hcp].
  pose proof (forest_bare _ _ _ _ _ Hfo) as Hbare. cbn [node] in Hbare.
  assert (has_table (Some fh) (set_store r w0)) as Htab.
  { intros h [= <-]. eexists _, _, (Tinfo "localfields" 10 0 ∅), []. split; [apply Hr |].
    split; [apply lookup_insert_eq | done]. }
  destruct (copy_root (cbrk w0) (set_store r w0) p fh label t ks) as (f & w1 & h' & Hrun & Hg & Htk & Hf1 & Hlt & Hc & Hfk);
    try done; [exact (tk_fresh _ _ _ _ _ Hok) |].
  destruct (forest_chain _ _ _ _ Hfk) as (l0 & Hch & Hl0 & Hbt).
  destruct (Htk _ _ (Tinfo "localfields" 10 0 ∅) [] (rs_store _ _ _ _ Hr) (lookup_insert_eq _ _ _) eq_refl)
    as (names & i' & Hs' & Hi1 & Hi2 & Hi3 & Hi4 & Hnb & Hin).
  exists p, f, w1, (set_childs h' (set_name (Some label) t)), l0, names. split_and!; try done.
  - split; [split | | | |].
    + rewrite insert_insert_eq in Hs'. destruct i'; cbn in *; by subst.
    + rewrite Hnb. apply (rs_nbr _ _ _ _ Hr).
    + apply (gr_hash _ _ _ Hg).
    + apply (gr_info _ _ _ Hg).
    + cbn in Hlt. lia.
    + intros q Hq. by rewrite (gr_old _ _ _ Hg).
    + done.
    + cbn in Hlt. lia.
    + eexists. split; [exact Hc |]. split; [| exact Hch]. rewrite Hbare. done.
    + intros q Hq. apply Hbt in Hq as [? _]. cbn in *. lia.
    + intros Hq. apply Hbt in Hq as [? _]. cbn in *. lia.
  - intros n. rewrite Hin, kid_names_in. split; [| by right]. intros [?%not_elem_of_nil | ?]; done.
Qed.

Lemma create_super label0 label fs :
  strstr_colons label0 = Some (label, super) → fs ≠ [] → free_name w0 i label →
  ∃ fh f w1 l0 names, M !! fh = None ∧
    building w0 N M i fh (cbrk w0) (set_name (Some label) t) w1 l0 names ∧
    (∀ n, n ∈ names ↔ n ∈ kid_names ks) ∧ (set_childs None ∘ snd) <$> l0 = node <$> ks ∧
    ∀ fuel isunion, (f ≤ fuel)%nat →
      aspect_type_create fuel w0 isunion (Some label0) (Some fs) (Z.of_nat (length fs)) =
      finish w1 isunion label fh (cbrk w0) (size t) (Z.of_nat (length fs)) fs.
Proof using Hok Hex.
  intros Hcol Hfs Hfree. destruct (new_fields_table Hok) as (r & fh & Hnew & HM & Hr).
  destruct (begin_super label r fh HM Hr) as (p & f & w1 & nt & l0 & names & Hp & Hrun & Hnt & Hsz & Hb & Hin & Hl0).
  exists fh, f, w1, l0, names. split_and!; try done. intros fuel isunion Hfu.
  unfold aspect_type_create. rewrite (proj2 (Z.eqb_neq _ _)) by (by destruct fs).
  unfold supertype_of. rewrite Hcol, (types_get Hok), Hp. mstep. rewrite (types_get Hok). mstep.
  rewrite (taken_spec Hok), (bool_decide_true (free_name w0 i label)) by done. mstep. cbn [negb].
  rewrite Hnew. mstep. rewrite (Hrun fuel Hfu). mstep. rewrite Hnt. mstep. by rewrite Hsz.
Qed.
End super.

(** C19. The declaration of a record or of a union (no supertype).  A name that is taken, or a
    field that is badly written, twice there or of an unknown type, is refused and leaves
    the types as they were.  Otherwise the type is registered under its name and its number
    (a new one but for a name that is redefined), no other type changes, the registry of
    types is well formed again, and the new type has the fields declared, in order, each at
    the offset where the one before it ends (at 0 in a union); its size is the end of the
    last one, or the largest size of a type of the fields of the union - not counting their
    dimensions. *)
Theorem type_register_layout fuel w N M i info isunion label fs :
  types_ok w N M i info → s_nbr (store w) + 1 < 2 ^ 31 → strstr_colons label = None → fs ≠ [] →
  let declare := aspect_type_register fuel w isunion (Some label) (Some fs) (Z.of_nat (length fs)) in
  match (if bool_decide (free_name w i label)
         then field_descs (types_env w i) label (plain_self label) [] fs else None) with
  | None => ∃ w' N', declare = Some (w', -1) ∧ types_ok w' N' M i info
  | Some ds => (isunion ≠ 0 → Forall (λ d, 0 ≤ fd_size d < 2 ^ 31) ds) →
      ∃ w' N' M' i' info' p t l e, declare = Some (w', 0) ∧
        types_ok w' N' M' i' info' ∧ ti_map i' = <[label := p]> (ti_map i) ∧
        (∀ q, q < cbrk w → cells w' !! q = cells w !! q) ∧
        cells w' !! p = Some t ∧ type t = next_id w i label ∧ size t = type_size isunion e l ∧
        chain (cells w') (childs t) l ∧ laid (negb (isunion =? 0)) 0 ds l.*2 e
  end.
Proof.
  intros Hok Hlim Hcol Hfs declare. subst declare. unfold aspect_type_register.
  assert (Z.of_nat (length fs) ≠ 0) as Hn by (by destruct fs).
  case_bool_decide as Hfree.
  2: { exists w, N. rewrite (create_taken Hok) by done. mstep. done. }
  destruct (create_plain Hok fuel isunion label fs Hcol Hfs Hfree) as (fh & Hfh & w1 & Hb & ->).
  pose proof (finish_spec Hok Hfh (self := plain_self label) eq_refl w1 [] [] isunion label 0 fs Hb Hfs) as Hf.
  destruct (field_descs _ _ _ _ fs) as [ds |].
  - intros Hsz. destruct Hf as (w2 & nt & l & e & -> & Hcr & Hl); [done | done |]. mstep.
    destruct (created_register Hok w2 _ _ _ _ _ label Hcr eq_refl eq_refl Hlim)
      as (w3 & M' & i' & info' & t & -> & Hok' & Hmap & Hold & Ht & Hse & Hch).
    exists w3, (delete "localfields" N), M', i', info', (cbrk w), t, l, e.
    cbn [app] in *. split_and!; try done.
    + change (type t) with (type (set_childs None t)). by rewrite Hse.
    + change (size t) with (size (set_childs None t)). by rewrite Hse.
  - destruct Hf as (w2 & -> & Hr); [done |]. mstep. exists w2, (delete "localfields" N). split; [done |].
    apply (restored_ok w w2 N M); try done. apply Hok.
Qed.

(** C20. A record that extends a type, [label::super]: its fields are copies of those of the type
    it extends - the same names, types, offsets - followed by its own, laid from the end of
    the type it extends on; a name that the type extended already has is refused.  The type it
    extends, like all the others, is left as it was. *)
Theorem type_derive_layout w N M i info label0 label super t ks fs :
  types_ok w N M i info → s_nbr (store w) + 1 < 2 ^ 31 →
  strstr_colons label0 = Some (label, super) → extensible w i super t ks →
  free_name w i label → fs ≠ [] →
  ∃ f, ∀ fuel, (f ≤ fuel)%nat →
  let declare := aspect_type_register fuel w 0 (Some label0) (Some fs) (Z.of_nat (length fs)) in
  match field_descs (types_env w i) label (set_name (Some label) t) (kid_names ks) fs with
  | None => ∃ w' N', declare = Some (w', -1) ∧ types_ok w' N' M i info
  | Some ds => ∃ w' N' M' i' info' p t' l0 l e, declare = Some (w', 0) ∧
      types_ok w' N' M' i' info' ∧ ti_map i' = <[label := p]> (ti_map i) ∧
      (∀ q, q < cbrk w → cells w' !! q = cells w !! q) ∧
      cells w' !! p = Some t' ∧ type t' = next_id w i label ∧ size t' = u32 e ∧
      chain (cells w') (childs t') (l0 ++ l) ∧
      (set_childs None ∘ snd) <$> l0 = node <$> ks ∧ laid false (size t) ds l.*2 e
  end.
Proof.
  intros Hok Hlim Hcol Hex Hfree Hfs.
  destruct (create_super Hok Hex label0 label fs Hcol Hfs Hfree)
    as (fh & f & w1 & l0 & names & HM & Hb & Hin & Hl0 & Hcreate).
  exists f. intros fuel Hfu declare. subst declare. unfold aspect_type_register. rewrite Hcreate by done.
  assert (next (set_name (Some label) t) = None) as Hnext.
  { destruct (ex_cell _ _ _ _ _ Hex) as (p & _ & Hfo). apply forest_bare in Hfo. cbn in Hfo. by rewrite Hfo. }
  pose proof (finish_spec Hok HM Hnext w1 l0 names 0 label (size t) fs Hb Hfs ltac:(done)) as Hfin.
  rewrite (field_descs_ext _ _ _ names (kid_names ks) fs Hin) in Hfin.
  destruct (field_descs _ _ _ (kid_names ks) fs) as [ds |].
  - destruct Hfin as (w2 & nt & l & e & -> & Hcr & Hl); [done |]. mstep.
    destruct (created_register Hok w2 _ _ _ _ _ label Hcr Hnext eq_refl Hlim)
      as (w3 & M' & i' & info' & t' & -> & Hok' & Hmap & Hold & Ht' & Hse & Hch).
    exists w3, (delete "localfields" N), M', i', info', (cbrk w), t', l0, l, e. split_and!; try done.
    + change (type t') with (type (set_childs None t')). by rewrite Hse.
    + change (size t') with (size (set_childs None t')). by rewrite Hse.
  - destruct Hfin as (w2 & -> & Hr). mstep. exists w2, (delete "localfields" N). split; [done |].
    apply (restored_ok w w2 N M); try done. apply Hok.
Qed.

(** ** Records that contain themselves *)

(** A chain of two fields: a plain one, then one whose fields are this very chain, the way a
    record that holds a pointer to itself is built. *)
Definition looped w (a n : Z) : Prop :=
  ∃ ta tn, cells w !! a = Some ta ∧ childs ta = None ∧ next ta = Some n ∧ isptr ta = 0 ∧
    cells w !! n = Some tn ∧ childs tn = Some a ∧ fresh w.

Lemma looped_alloc w a n t : looped w a n → looped (alloc t w) a n.
Proof.
  intros (ta & tn & Ha & Hca & Hna & Hia & Hn & Hcn & Hf). exists ta, tn. cbn [cells alloc].
  rewrite !lookup_insert_ne; [| by intros <-; rewrite Hf in Hn | by intros <-; rewrite Hf in Ha].
  split_and!; try done. intros q Hq. cbn in *. rewrite lookup_insert_ne by lia. apply Hf. lia.
Qed.

Lemma looped_tadd w a n h k v w' : looped w a n → tadd w h k v = Some w' → looped w' a n.
Proof.
  unfold tadd. destruct (s_add (store w) h k v) as [[r x] |]; mstep; [| done]. intros Hl [= <-]. exact Hl.
Qed.

Lemma looped_diverges fuel w a n nm fh cd :
  looped w a n → cd ≤ ASPECT_TYPE_MAXPTRDEPTH →
  aspect_type_copy_by_name fuel w a nm fh cd ASPECT_TYPE_MAXPTRDEPTH = None.
Proof.
  revert w nm fh. induction (lt_wf fuel) as [fuel _ IH]. intros w nm fh Hl Hcd.
  destruct fuel as [| [| fuel]]; [done | |].
  all: pose proof Hl as (ta & tn & Ha & Hca & Hna & Hia & Hn & Hcn & Hf).
  all: rewrite copy_by_name_S, (proj2 (Z.ltb_ge _ _)), Ha by done; mstep.
  all: set (t1 := match nm with Some _ => _ | None => _ end).
  all: assert (childs t1 = None ∧ next t1 = Some n) as [-> ->] by (unfold t1; by destruct nm).
  all: pose proof (looped_alloc w a n t1 Hl) as Hl1.
  all: destruct (match fh with Some _ => _ | None => _ end) as [w1 |] eqn:E; mstep; [| done].
  all: assert (looped w1 a n) as Hl2
    by (destruct fh; [destruct (fieldname t1) |]; simplify_eq; try done; by eapply looped_tadd).
  { done. }
  rewrite copy_fields_S. pose proof Hl2 as (ta2 & tn2 & _ & _ & _ & _ & Hn2 & Hcn2 & _). rewrite Hn2. mstep.
  destruct (match fh with Some _ => _ | None => Some (alloc tn2 w1) end) as [w2 |] eqn:E2; mstep; [| done].
  assert (looped w2 a n) as Hl3.
  { pose proof (looped_alloc w1 a n tn2 Hl2) as Hl3. destruct fh; [| by simplify_eq].
    destruct (fieldname tn2); [| done]. by eapply looped_tadd. }
  rewrite Hcn2. pose proof Hl3 as (ta3 & _ & Ha3 & _ & _ & Hia3 & _). rewrite Ha3. mstep. rewrite Hia3. cbn [Z.eqb orb].
  rewrite (IH fuel) by (lia || done). done.
Qed.

(** C21. A record whose first field is plain and that holds a pointer to itself cannot be
    extended: the copy of its fields follows the pointer back to the first one, whatever the
    depth, and the declaration never returns. *)
Theorem derive_recursive_diverges fuel w label0 label super p root a n fs :
  strstr_colons label0 = Some (label, super) →
  tget w (types_hash w) super = Some (Some p) → tget w (types_hash w) label = Some None →
  cells w !! p = Some root → childs root = Some a → isptr root = 0 → looped w a n → fs ≠ [] →
  aspect_type_register fuel w 0 (Some label0) (Some fs) (Z.of_nat (length fs)) = None.
Proof.
  intros Hcol Hsup Hlab Hp Hch Hip Hl Hfs. unfold aspect_type_register, aspect_type_create.
  rewrite (proj2 (Z.eqb_neq _ _)) by (by destruct fs). unfold supertype_of. rewrite Hcol, Hsup. mstep.
  rewrite Hlab. mstep. destruct (s_new _ _ _ _) as [[r fh] |]; mstep; [| done].
  assert (looped (set_store r w) a n) as Hl1 by exact Hl.
  destruct fuel as [| fuel]; [done |]. rewrite copy_by_name_S.
  rewrite (proj2 (Z.ltb_ge _ _)) by (unfold ASPECT_TYPE_MAXPTRDEPTH; lia).
  change (cells (set_store r w)) with (cells w). rewrite Hp. mstep.
  set (t1 := set_name _ root). pose proof (looped_alloc _ a n t1 Hl1) as Hl2.
  change (fieldname t1) with (fieldname root). change (childs t1) with (childs root).
  change (isptr t1) with (isptr root).
  destruct (match fieldname root with Some f => tadd (alloc t1 (set_store r w)) fh f 1 | None => _ end)
    as [w1 |] eqn:E; mstep; [| done].
  assert (looped w1 a n) as Hl3
    by (destruct (fieldname root); [by eapply looped_tadd | by simplify_eq]).
  rewrite Hch, Hip. cbn [Z.eqb orb].
  rewrite (looped_diverges fuel w1 a n) by (done || unfold ASPECT_TYPE_MAXPTRDEPTH; lia). done.
Qed.
End derive.

(** ** Declarations *)

(** A record on the base types. *)
Definition point_fields : list string := ["x:int"; "y:short[3][2]"; "u:*elsewhere"].
Definition point_descs : list fdesc :=
  [Fdesc "x" 5 0 4 0 (Some []) 4; Fdesc "y" 4 0 2 2 (Some [3; 2]) 12; Fdesc "u" 0 1 0 0 (Some []) 0].

(** A field of a type that is known, and a pointer to one that is not. *)
Lemma field_desc_of (env : string → option aspectype_t) label self f nm ty ptr ty1 dims n ty2 cty ts o ip d :
  split_field f = (nm, Some ty, None) → bad_syntax nm (Some ty) None = false →
  pointers 0 ty = (ptr, ty1) → aspect_type_getdims ty1 = (dims, n, ty2) →
  child_desc env label self ptr ty2 = Some (cty, ts, o, ip) →
  Fdesc nm cty (u8 ip) ts n dims (field_size o n dims cty) = d →
  field_desc env label self f = Some d.
Proof. intros Hs Hb Hp Hd Hc <-. unfold field_desc. by rewrite Hs, Hb, Hp, Hd, Hc. Qed.

Lemma child_known (env : string → option aspectype_t) label self ptr ty t :
  env ty = Some t → child_desc env label self ptr ty = Some (type t, size t, if ptr =? 0 then size t else 8, ptr).
Proof. intros H. unfold child_desc. by rewrite H. Qed.

Lemma child_unknown (env : string → option aspectype_t) label self ptr ty :
  env ty = None → label ≠ ty → ptr ≠ 0 → child_desc env label self ptr ty = Some (0, 0, 0, ptr).
Proof.
  intros H Hl Hp. unfold child_desc. rewrite H, bool_decide_false by done. by rewrite (proj2 (Z.eqb_neq _ _)).
Qed.

Lemma field_descs_cons env label self names f fs d ds :
  field_desc env label self f = Some d → fd_name d ∉ names →
  field_descs env label self (fd_name d :: names) fs = Some ds →
  field_descs env label self names (f :: fs) = Some (d :: ds).
Proof. intros Hf Hn Hd. cbn [field_descs]. rewrite Hf. mstep. by rewrite bool_decide_false, Hd. Qed.

Ltac field_step tac :=
  eapply field_descs_cons;
  [ eapply field_desc_of; [reflexivity | reflexivity | reflexivity | reflexivity | by tac | reflexivity]
  | cbn [fd_name]; apply (bool_decide_unpack _); vm_compute; exact I | ].

Lemma point_descs_eq (env : string → option aspectype_t) :
  env "int" = Some (base_cell 5 (Typeinfo "int" 4)) → env "short" = Some (base_cell 4 (Typeinfo "short" 2)) →
  env "elsewhere" = None → field_descs env "point" (plain_self "point") [] point_fields = Some point_descs.
Proof.
  intros H1 H2 H3. unfold point_fields.
  field_step ltac:(apply child_known). field_step ltac:(apply child_known).
  field_step ltac:(apply child_unknown). reflexivity.
Qed.

Lemma base_unknown (w : tworld hworld) N M i nm :
  bases_ok 18 w N M i → nm ∉ (iname <$> aspect_typeinfo_base) → types_env w i nm = None.
Proof.
  intros Hb Hnm. unfold types_env. destruct (ti_map i !! nm) as [p |] eqn:Hp; mstep; [| done].
  destruct (bs_names _ _ _ _ _ Hb nm p Hp) as (id & x & _ & Hx & <-). destruct Hnm.
  apply list_elem_of_fmap_2. by eapply list_elem_of_lookup_2.
Qed.

Lemma type_register_layout_witness :
  ∃ (w w' : tworld hworld) p t l e,
    aspect_type_register 0 w 0 (Some "point") (Some point_fields) 3 = Some (w', 0) ∧
    cells w' !! p = Some t ∧ size t = type_size 0 e l ∧ chain (cells w') (childs t) l ∧
    laid false 0 point_descs l.*2 e.
Proof.
  destruct start_types as (w & N & M & i & Hok & Hb & Hn).
  pose proof (bases_env w N M i 5 _ Hb ltac:(lia) eq_refl) as H5.
  pose proof (bases_env w N M i 4 _ Hb ltac:(lia) eq_refl) as H4.
  pose proof (base_unknown w N M i "elsewhere" Hb) as Hu.
  pose proof (base_unknown w N M i "point" Hb) as Hp.
  pose proof (type_register_layout 0 w N M i _ 0 "point" point_fields Hok) as Hreg.
  cbv zeta in Hreg. rewrite bool_decide_true in Hreg.
  2: { unfold free_name. rewrite Hp; [done |]. apply (bool_decide_unpack _). vm_compute. exact I. }
  rewrite (point_descs_eq (types_env w i)) in Hreg; [| done | done |].
  2: { apply Hu. apply (bool_decide_unpack _). vm_compute. exact I. }
  destruct Hreg as (w' & N' & M' & i' & info' & p & t & l & e & Hr & _ & _ & _ & Ht & _ & Hsz & Hch & Hl);
    [rewrite Hn; lia | done | done | done |].
  by exists w, w', p, t, l, e.
Defined.

(** A record that extends the base type [int]. *)
Lemma type_derive_layout_witness :
  ∃ (w : tworld hworld) f, ∀ fuel, (f ≤ fuel)%nat → ∃ w' p t l e,
    aspect_type_register fuel w 0 (Some "wide::int") (Some ["y:short[2]"]) 1 = Some (w', 0) ∧
    cells w' !! p = Some t ∧ size t = u32 e ∧ chain (cells w') (childs t) l ∧
    laid false 4 [Fdesc "y" 4 0 2 1 (Some [2]) 4] l.*2 e.
Proof.
  destruct start_types as (w & N & M & i & Hok & Hb & Hn).
  pose proof (bases_env w N M i 4 _ Hb ltac:(lia) eq_refl) as H4.
  pose proof (bases_env w N M i 5 _ Hb ltac:(lia) eq_refl) as H5.
  set (c := base_cell 5 (Typeinfo "int" 4)) in *.
  assert (extensible w i "int" c []) as Hex.
  { unfold types_env in H5. destruct (ti_map i !! iname (Typeinfo "int" 4)) as [p |] eqn:Hp; mstep; [| done].
    cbn [mbind option_bind] in H5. split; [| done | done | apply cp_leaf, cp_nil].
    exists p. split; [done |]. apply (forest_cons _ _ p c); [| done | constructor | constructor].
    destruct (Z.lt_ge_cases p (cbrk w)); [done |]. by rewrite (tk_fresh _ _ _ _ _ Hok) in H5. }
  destruct (type_derive_layout w N M i _ "wide::int" "wide" "int" c [] ["y:short[2]"] Hok) as (f & Hf);
    try done.
  { rewrite Hn. lia. }
  { unfold free_name. rewrite (base_unknown w N M i "wide" Hb); [done |].
    apply (bool_decide_unpack _). vm_compute. exact I. }
  exists w, f. intros fuel Hfu. specialize (Hf fuel Hfu). cbv zeta in Hf.
  assert (∀ env : string → option aspectype_t, env "short" = Some (base_cell 4 (Typeinfo "short" 2)) →
    field_descs env "wide" (set_name (Some "wide") c) (kid_names []) ["y:short[2]"] =
      Some [Fdesc "y" 4 0 2 1 (Some [2]) 4]) as Hd.
  { intros env He. field_step ltac:(apply child_known). reflexivity. }
  rewrite (Hd (types_env w i) H4) in Hf.
  destruct Hf as (w' & N' & M' & i' & info' & p & t & l0 & l & e & Hr & _ & _ & _ & Ht & _ & Hsz & Hch & Hl0 & Hl).
  apply fmap_nil_inv in Hl0 as ->. by exists w', p, t, l, e.
Defined.

(** A record that holds a pointer to itself, made from the start. *)
Definition node_world : option (tworld hworld) :=
  '(r, p) ← s_new (Hworld ∅ None None 1 18 ∅) "types" 11 0;
  '(w, _) ← aspect_basetypes_create (start r p);
  '(w, _) ← aspect_type_register 0 w 0 (Some "node") (Some ["x:int"; "next:*node"]) 2;
  Some w.

Definition node_start : tworld hworld := default (start (Hworld ∅ None None 1 18 ∅) 0) node_world.

Lemma node_looped : looped node_start 19 20.
Proof.
  assert (map_Forall (λ p _, p < cbrk node_start) (cells node_start)) as Hb
    by (apply (bool_decide_unpack _); vm_compute; exact I).
  eexists _, _. split_and!; try (vm_compute; reflexivity).
  intros p Hp. destruct (cells node_start !! p) eqn:E; [| done]. specialize (Hb p _ E). cbv beta in Hb. lia.
Qed.

Lemma derive_recursive_diverges_witness :
  node_world = Some node_start ∧
  ∀ fuel, aspect_type_register fuel node_start 0 (Some "sub::node") (Some ["y:int"]) 1 = None.
Proof.
  split; [vm_compute; reflexivity |]. intros fuel.
  apply (derive_recursive_diverges fuel node_start "sub::node" "sub" "node" 18
           (default type0 (cells node_start !! 18)) 19 20 ["y:int"]);
    try (vm_compute; reflexivity); [apply node_looped | done].
Defined.
