(* ===== verification/Elist.v ===== *)
(** * Linked lists (src/libaspect/liblist.c)

    A [list_t] is a header with a chain of entries and their number.  The first
    part gives the operations on one list; the second the registry of named
    lists, whose lists live at addresses and are found through a hash table.  The
    counter [elmnbr] is an [int], here a [Z]: an entry takes 12 bytes or more, so
    that it does not overflow in 24 GB. *)
From S2P Require Import Prelude.
From S2P Require Import Hash.

(** ** Lists *)

Section lists.
Context {V : Type}.

(** [listent_t]: the list operations never store a NULL key; [None] is a NULL
    data pointer. *)
Record lent := Lent { lkey : string; ldata : option V }.

Record list_t := List {
  head : list lent;
  lelmnbr : Z;
  ltype : Z;
  llinearity : Z;
  lname : option string;
}.

Definition list0 : list_t := List [] 0 0 0 None.

Definition set_head (c : list lent) (h : list_t) : list_t :=
  List c (lelmnbr h) (ltype h) (llinearity h) (lname h).
Definition set_lelmnbr (n : Z) (h : list_t) : list_t :=
  List (head h) n (ltype h) (llinearity h) (lname h).

Definition elist_add (h : option list_t) (key : option string) (data : option V) :
    option list_t * Z :=
  match h, key, data with
  | Some h, Some key, Some data =>
      let cur := Lent key (Some data) in
      (Some (set_lelmnbr (lelmnbr h + 1) (set_head (cur :: head h) h)), 0)
  | _, _, _ => (h, -1)
  end.

Definition elist_append (h : option list_t) (key : option string) (data : option V) :
    option list_t * Z :=
  match h, key, data with
  | Some h', Some k, Some d =>
      match head h' with
      | [] =>
          let '(h1, ret) := elist_add h key data in
          if ret <? 0 then (h1, -1) else (h1, 0)
      | c => (Some (set_lelmnbr (lelmnbr h' + 1) (set_head (c ++ [Lent k (Some d)]) h')), 0)
      end
  | _, _, _ => (h, -1)
  end.

(** [BUFSIZ] of the C library. *)
Definition BUFSIZ : Z := 8192.

(** [snprintf(buf, BUFSIZ, ...)] keeps [BUFSIZ - 1] characters. *)
Definition snprintf (s : string) : string :=
  String.substring 0 (Z.to_nat (BUFSIZ - 1)) s.

Definition push_key (name : string) (elmnbr : Z) : string :=
  snprintf (name +:+ "_" +:+ pretty (u32 elmnbr)).

(** A NULL name is undefined for the [%s] of the key. *)
Definition elist_push (h : option list_t) (data : option V) : option (option list_t * Z) :=
  match h, data with
  | Some h', Some _ =>
      name ← lname h';
      Some ((elist_add h (Some (push_key name (lelmnbr h'))) data).1, 0)
  | _, _ => Some (h, -1)
  end.

Definition elist_pop (h : option list_t) : option list_t * option V :=
  match h with
  | None => (h, None)
  | Some l =>
      match head l with
      | [] => (h, None)
      | _ :: c =>
          (Some (set_lelmnbr (lelmnbr l - 1) (set_head c l)),
           match c with [] => None | e :: _ => ldata e end)
      end
  end.

(** The loop that looks for the entry of a key and the unlinking of it. *)
Fixpoint del_ent (key : string) (c : list lent) : option (list lent) :=
  match c with
  | [] => None
  | e :: c => if bool_decide (lkey e = key) then Some c else cons e <$> del_ent key c
  end.

Definition elist_del (h : option list_t) (key : option string) : option list_t * Z :=
  match h, key with
  | Some l, Some key =>
      match del_ent key (head l) with
      | None => (h, 0)
      | Some c =>
          let n := lelmnbr l - 1 in
          (Some (set_lelmnbr n (set_head (if n =? 0 then [] else c) l)), 0)
      end
  | _, _ => (h, -1)
  end.

Fixpoint find_ent (key : string) (c : list lent) : option lent :=
  match c with
  | [] => None
  | e :: c => if bool_decide (lkey e = key) then Some e else find_ent key c
  end.

Definition elist_get_ent (h : option list_t) (key : option string) : option lent :=
  match h, key with Some l, Some key => find_ent key (head l) | _, _ => None end.

Definition elist_get (h : option list_t) (key : option string) : option V :=
  match h, key with
  | Some l, Some key => match find_ent key (head l) with Some e => ldata e | None => None end
  | _, _ => None
  end.

Definition elist_select (h : option list_t) (key : option string) : option V :=
  match h, key with
  | Some l, Some key => match find_ent key (head l) with Some e => ldata e | None => None end
  | _, _ => None
  end.

(** The chain that starts at the returned entry; the empty chain is NULL. *)
Definition elist_get_head (h : option list_t) : list lent :=
  match h with Some l => head l | None => [] end.

Definition elist_get_headptr (h : option list_t) : option V :=
  match h with
  | Some l => match head l with e :: _ => ldata e | [] => None end
  | None => None
  end.

Fixpoint set_ent_data (key : string) (data : option V) (c : list lent) : option (list lent) :=
  match c with
  | [] => None
  | e :: c =>
      if bool_decide (lkey e = key) then Some (Lent (lkey e) data :: c)
      else cons e <$> set_ent_data key data c
  end.

Definition elist_set (h : option list_t) (key : option string) (data : option V) :
    option list_t * Z :=
  match h, key with
  | Some l, Some key =>
      match set_ent_data key data (head l) with
      | Some c => (Some (set_head c l), 0)
      | None => (h, -1)
      end
  | _, _ => (h, -1)
  end.

(** The chain before the entry of a key, and the chain after it. *)
Fixpoint split_ent (key : string) (c : list lent) : option (list lent * list lent) :=
  match c with
  | [] => None
  | e :: c =>
      if bool_decide (lkey e = key) then Some ([], c)
      else '(l, r) ← split_ent key c; Some (e :: l, r)
  end.

(** The entries of [newlist] themselves are spliced into [h]: both lists then have
    these cells and those after them, the value given for [newlist] being what its
    header reaches on return, with a counter that is not updated.  From there on an
    operation on one list acts on the other's cells: [ElistSpec.lists_step] takes
    [newlist] away from the client. *)
Definition elist_replace (h : option list_t) (key : option string)
    (newlist : option list_t) : option list_t * option list_t * Z :=
  match h, key, newlist with
  | Some l, Some key, Some nl =>
      match head nl with
      | [] => (h, newlist, 0)
      | nh =>
          match split_ent key (head l) with
          | None => (h, newlist, -1)
          | Some (prev, next) =>
              (Some (set_lelmnbr (lelmnbr l + (lelmnbr nl - 1)) (set_head (prev ++ nh ++ next) l)),
               Some (set_head (nh ++ next) nl), 0)
          end
      end
  | _, _, _ => (h, newlist, 0)
  end.

Definition elist_get_keys (h : option list_t) : option (option (list (option string)) * Z) :=
  match h with
  | None => Some (None, 0)
  | Some l =>
      if lelmnbr l =? 0 then Some (None, 0)
      else
        keys ← fill_keys (replicate (Z.to_nat (lelmnbr l + 1)) None) 0 (lkey <$> head l);
        Some (Some keys, lelmnbr l)
  end.

(** [elmnbr] steps along the chain; going past its end is undefined. *)
Fixpoint apply_ents {P} (func : lent → P → lent * P * Z) (n : nat) (c : list lent)
    (ptr : P) (ret : Z) : option (list lent * P * Z) :=
  match n, c with
  | O, _ => Some (c, ptr, ret)
  | S n, [] => None
  | S n, e :: c =>
      let '(e', ptr, r) := func e ptr in
      '(c', ptr, ret) ← apply_ents func n c ptr (Z.lor ret r);
      Some (e' :: c', ptr, ret)
  end.

Definition elist_apply {P} (h : option list_t) (ptr : P)
    (func : option (lent → P → lent * P * Z)) : option (option list_t * P * Z) :=
  match h, func with
  | Some l, Some func =>
      '(c, ptr, ret) ← apply_ents func (Z.to_nat (lelmnbr l)) (head l) ptr 0;
      Some (Some (set_head c l), ptr, ret)
  | _, _ => Some (h, ptr, -1)
  end.

(** [dst] and [src] are two different lists; when they are the same, the loop also
    counts the entries it adds and runs past the end of the chain, and
    [elist_unmerge] frees the entry its loop stands on. *)
Fixpoint merge_ents (dst : option list_t) (n : nat) (c : list lent) : option (option list_t) :=
  match n, c with
  | O, _ => Some dst
  | S n, [] => None
  | S n, e :: c => merge_ents (elist_add dst (Some (lkey e)) (ldata e)).1 n c
  end.

Definition elist_merge (dst src : option list_t) : option (option list_t * Z) :=
  match dst, src with
  | Some _, Some s =>
      dst ← merge_ents dst (Z.to_nat (lelmnbr s)) (head s);
      Some (dst, 0)
  | _, _ => Some (dst, -1)
  end.

Fixpoint unmerge_ents (dst : option list_t) (c : list lent) : option list_t :=
  match c with
  | [] => dst
  | e :: c => unmerge_ents (elist_del dst (Some (lkey e))).1 c
  end.

Definition elist_unmerge (dst src : option list_t) : option list_t * Z :=
  match dst, src with
  | Some _, Some s => (unmerge_ents dst (head s), 0)
  | _, _ => (dst, -1)
  end.

Definition elist_size (h : option list_t) : Z :=
  match h with Some l => lelmnbr l | None => 0 end.

Definition elist_compare (first two : option list_t) : Z := -1.

Definition elist_linearity_get (l : option list_t) : Z :=
  match l with Some l => llinearity l | None => 0 end.

Definition elist_linearity_set (l : option list_t) (val : Z) : option list_t :=
  (λ l, List (head l) (lelmnbr l) (ltype l) (u8 val) (lname l)) <$> l.

End lists.

Arguments lent : clear implicits.
Arguments list_t : clear implicits.

(** ** Copies

    [elist_copy] duplicates the objects the entries point to: the memory is a map
    from the address of an allocated block to its bytes. *)

Record memory := Memory { blocks : gmap Z (list Z); brk : Z }.

Definition malloc (m : memory) (bytes : list Z) : memory * Z :=
  (Memory (<[brk m := bytes]> (blocks m)) (brk m + 1), brk m).

(** [XALLOC(newelem, size); memcpy(newelem, data, size)] *)
Definition copy_block (m : memory) (data : option Z) (size : Z) : option (memory * Z) :=
  if size =? 0 then Some (malloc m [])
  else
    p ← data;
    bytes ← blocks m !! p;
    _ ← guard_ub (bool_decide (size ≤ Z.of_nat (length bytes)));
    Some (malloc m (take (Z.to_nat size) bytes)).

Definition ELIST_DATA_COPY : Z := 0.
Definition ELIST_DATA_NOCOPY : Z := 1.

Fixpoint copy_ents (m : memory) (datacopy size : Z) (c : list (lent Z)) :
    option (memory * list (lent Z)) :=
  match c with
  | [] => Some (m, [])
  | e :: c =>
      '(m, newelem) ← (if datacopy =? ELIST_DATA_COPY
                       then '(m, p) ← copy_block m (ldata e) size; Some (m, Some p)
                       else Some (m, ldata e));
      '(m, c') ← copy_ents m datacopy size c;
      Some (m, Lent (lkey e) newelem :: c')
  end.

(** [size] is what [aspect_typesize_get] answers for the type of the list. *)
Definition elist_copy (typesize : Z → Z) (m : memory) (h : list_t Z) (datacopy : Z) :
    option (memory * option (list_t Z)) :=
  if negb (datacopy =? ELIST_DATA_COPY) && negb (datacopy =? ELIST_DATA_NOCOPY)
  then Some (m, None)
  else
    '(m, c) ← copy_ents m datacopy (typesize (ltype h)) (head h);
    Some (m, Some (set_head c h)).

(** ** The registry of lists *)

Section registry.
Context {V : Type}.

(** Lists by address, the table [hash_lists] of their names, the next address
    [calloc] returns and the number of types. *)
Record lworld := Lworld {
  lists : gmap Z (list_t V);
  hash_lists : hash_t Z;
  lbrk : Z;
  aspect_type_nbr : Z;
}.

Definition set_list (p : Z) (l : list_t V) (w : lworld) : lworld :=
  Lworld (<[p := l]> (lists w)) (hash_lists w) (lbrk w) (aspect_type_nbr w).
Definition set_hash_lists (h : hash_t Z) (w : lworld) : lworld :=
  Lworld (lists w) h (lbrk w) (aspect_type_nbr w).
Definition free_list (p : Z) (w : lworld) : lworld :=
  Lworld (delete p (lists w)) (hash_lists w) (lbrk w) (aspect_type_nbr w).
Definition new_list (w : lworld) : lworld * Z :=
  (Lworld (<[lbrk w := list0]> (lists w)) (hash_lists w) (lbrk w + 1) (aspect_type_nbr w),
   lbrk w).

Definition elist_find (w : lworld) (name : string) : option (option Z) :=
  hash_get (hash_lists w) name.

Definition elist_init (w : lworld) (h : Z) (name : string) (type : Z) : option (lworld * Z) :=
  if u32 (aspect_type_nbr w) <=? u32 type then Some (w, -1)
  else
    exist ← elist_find w name;
    match exist with
    | Some _ => Some (w, 1)
    | None =>
        _ ← lists w !! h;
        let w := set_list h (List [] 0 (u32 type) 0 (Some name)) w in
        '(t, _) ← hash_add_to (hash_lists w) name (Some h);
        Some (set_hash_lists t w, 0)
    end.

(** [elist_empty] and [elist_destroy] also free the strings of the keys, which are not
    tracked: a list that [elist_merge] gave these strings to keeps freed keys. *)
Definition elist_empty (w : lworld) (name : string) : option (lworld * option Z) :=
  p ← elist_find w name;
  match p with
  | None => Some (w, None)
  | Some p =>
      l ← lists w !! p;
      _ ← elist_get_keys (Some l);
      Some (set_list p (List [] 0 (ltype l) 0 (lname l)) w, Some p)
  end.

Definition elist_register (w : lworld) (list : Z) (name : string) : option (lworld * Z) :=
  h ← elist_find w name;
  match h with
  | Some h =>
      hl ← lists w !! h;
      src ← lists w !! list;
      let hl := if ltype hl =? 0
                then List (head hl) (lelmnbr hl) (ltype src) (llinearity hl) (lname hl)
                else hl in
      let w := set_list h hl w in
      if negb (ltype hl =? ltype src) then Some (w, -1)
      else
        '(w, h) ← (if lelmnbr hl =? 0 then Some (w, Some h) else elist_empty w name);
        h ← h;
        dst ← lists w !! h;
        src ← lists w !! list;
        '(dst, _) ← elist_merge (Some dst) (Some src);
        dst ← dst;
        Some (set_list h dst w, 0)
  | None =>
      let '(w, h) := new_list w in
      hl ← lists w !! h;
      '(w, _) ← elist_init w h name (ltype hl);
      Some (w, 0)
  end.

(** Copy the list inserting at the beginning all the time. *)
Fixpoint reverse_ents (newlist : option (list_t V)) (c : list (lent V)) : option (list_t V) :=
  match c with
  | [] => newlist
  | e :: c => reverse_ents (elist_add newlist (Some (lkey e)) (ldata e)).1 c
  end.

(** The name of the list is the key that is removed; a NULL one is undefined. *)
Definition elist_reverse (w : lworld) (l : Z) : option (lworld * Z) :=
  old ← lists w !! l;
  name ← lname old;
  '(t, _) ← hash_del (hash_lists w) name;
  let '(w, newlist) := new_list (set_hash_lists t w) in
  '(w, _) ← elist_init w newlist name (ltype old);
  nl ← lists w !! newlist;
  nl ← reverse_ents (Some nl) (head old);
  Some (free_list l (set_list newlist nl w), newlist).

Definition elist_destroy (w : lworld) (h : Z) : option lworld :=
  l ← lists w !! h;
  _ ← elist_get_keys (Some l);
  name ← lname l;
  '(t, _) ← hash_del (hash_lists w) name;
  Some (free_list h (set_hash_lists t w)).

End registry.

Arguments lworld : clear implicits.
