(* ===== verification/ElistSpec.v ===== *)
(** * Linked lists: invariant, stack discipline, splicing, copies, reversal *)
From S2P Require Import Prelude.
From S2P Require Import Table.
From S2P Require Import Hash.
From S2P Require Import HashSpec.
From S2P Require Import Elist.

Section spec.
Context {V : Type}.
Implicit Types (l h src dst : list_t V) (c : list (lent V)) (k : string) (d : option V).

(** The counter of the header is the length of the chain. *)
Definition elist_wf l : Prop := lelmnbr l = Z.of_nat (length (head l)).

(** The entries carry a pointer, as [elist_add] demands. *)
Definition with_data c : Prop := Forall (λ e, is_Some (ldata e)) c.

(** ** Chains *)

Lemma del_ent_Some k c c' :
  del_ent k c = Some c' →
  ∃ c1 e c2, c = c1 ++ e :: c2 ∧ c' = c1 ++ c2 ∧ lkey e = k ∧ k ∉ (lkey <$> c1).
Proof.
  revert c'. induction c as [| e c IH]; intros c' Hd; simpl in *; [done |].
  case_bool_decide as Hk; simplify_eq.
  - exists [], e, c'. split_and!; try done. by apply not_elem_of_nil.
  - destruct (del_ent k c) as [c0 |]; simplify_eq/=.
    destruct (IH c0 eq_refl) as (c1 & e' & c2 & -> & -> & ? & Hn).
    exists (e :: c1), e', c2. split_and!; try done. by apply not_elem_of_cons.
Qed.

Lemma del_ent_None k c : del_ent k c = None ↔ k ∉ (lkey <$> c).
Proof.
  induction c as [| e c IH]; simpl; [by split; [intros _; apply not_elem_of_nil |] |].
  rewrite not_elem_of_cons. case_bool_decide as Hk.
  - split; [done |]. by intros [? _].
  - rewrite <-IH. destruct (del_ent k c); simpl; split; intuition congruence.
Qed.

Lemma del_ent_app k c1 c2 :
  k ∈ (lkey <$> c1) → ∃ c1', del_ent k (c1 ++ c2) = Some (c1' ++ c2) ∧
    (lkey <$> c1) ≡ₚ k :: (lkey <$> c1').
Proof.
  induction c1 as [| e c1 IH]; simpl; [by intros ?%not_elem_of_nil |].
  intros Hk. case_bool_decide as He; [subst; by exists c1 |].
  apply elem_of_cons in Hk as [-> | Hk]; [done |].
  destruct (IH Hk) as (c1' & -> & Hp). exists (e :: c1'). split; [done |].
  simpl. rewrite Hp. by rewrite Permutation_swap.
Qed.

Lemma split_ent_Some k c :
  k ∈ (lkey <$> c) →
  ∃ c1 e c2, split_ent k c = Some (c1, c2) ∧ c = c1 ++ e :: c2 ∧ lkey e = k ∧
    k ∉ (lkey <$> c1).
Proof.
  induction c as [| e c IH]; simpl; [by intros ?%not_elem_of_nil |].
  intros Hk. case_bool_decide as He.
  - exists [], e, c. split_and!; try done. by apply not_elem_of_nil.
  - apply elem_of_cons in Hk as [-> | Hk]; [done |].
    destruct (IH Hk) as (c1 & e' & c2 & -> & -> & ? & ?). mstep.
    exists (e :: c1), e', c2. split_and!; try done. by apply not_elem_of_cons.
Qed.

Lemma split_ent_None k c : k ∉ (lkey <$> c) → split_ent k c = None.
Proof.
  induction c as [| e c IH]; simpl; [done |]. intros [Hne Hn]%not_elem_of_cons.
  rewrite bool_decide_false by congruence. by rewrite IH.
Qed.

Lemma split_ent_length k c c1 c2 :
  split_ent k c = Some (c1, c2) → length c = S (length c1 + length c2).
Proof.
  revert c1. induction c as [| e c IH]; intros c1 Hs; simpl in *; [done |].
  case_bool_decide; simplify_eq/=; [done |].
  destruct (split_ent k c) as [[c1' c2'] |]; simplify_eq/=. by rewrite (IH _ eq_refl).
Qed.

Lemma set_ent_data_length k d c c' :
  set_ent_data k d c = Some c' → length c' = length c.
Proof.
  revert c'. induction c as [| e c IH]; intros c' Hs; simpl in *; [done |].
  case_bool_decide; simplify_eq/=; [done |].
  destruct (set_ent_data k d c); simplify_eq/=. by rewrite (IH _ eq_refl).
Qed.

Lemma apply_ents_total {P} (func : lent V → P → lent V * P * Z) c ptr ret :
  ∃ c' ptr' ret', apply_ents func (length c) c ptr ret = Some (c', ptr', ret') ∧
    length c' = length c.
Proof.
  revert ptr ret. induction c as [| e c IH]; intros ptr ret; simpl; [eauto 6 |].
  destruct (func e ptr) as [[e' p'] r]. destruct (IH p' (Z.lor ret r)) as (c' & p2 & r2 & -> & Hl).
  mstep. do 3 eexists. split; [done |]. simpl. by rewrite Hl.
Qed.

(** ** Entries added at the head *)

Lemma elist_add_wf h (key : option string) d h' r :
  elist_add (Some h) key d = (Some h', r) → elist_wf h → elist_wf h'.
Proof.
  unfold elist_wf. destruct key, d; simpl; intros ? ?; simplify_eq/=; lia.
Qed.

Lemma elist_add_Some h key d : ∃ h', (elist_add (Some h) key d).1 = Some h' ∧
  (elist_wf h → elist_wf h').
Proof.
  destruct (elist_add (Some h) key d) as [[h' |] r] eqn:Ha.
  - exists h'. split; [done |]. by eapply elist_add_wf.
  - destruct key, d; simplify_eq/=.
Qed.

Lemma merge_ents_spec c c' h :
  with_data c →
  merge_ents (Some h) (length c) (c ++ c') =
    Some (Some (set_lelmnbr (lelmnbr h + Z.of_nat (length c)) (set_head (rev c ++ head h) h))).
Proof.
  intros Hd. revert h. induction Hd as [| [k [d |]] c [v Hv] _ IH]; intros h; simplify_eq/=.
  - destruct h. unfold set_lelmnbr, set_head. simpl. by rewrite Z.add_0_r.
  - rewrite IH. unfold set_lelmnbr, set_head. simpl. do 2 f_equal.
    + f_equal; [by rewrite <-app_assoc | lia].
Qed.

Lemma merge_ents_wf c n h :
  elist_wf h → (n <= length c)%nat → ∃ h', merge_ents (Some h) n c = Some (Some h') ∧ elist_wf h'.
Proof.
  revert n h. induction c as [| e c IH]; intros [| n] h Hwf Hn; cbn [merge_ents length] in *;
    try lia; eauto.
  destruct (elist_add_Some h (Some (lkey e)) (ldata e)) as (h' & -> & Hh'). apply IH; [auto | lia].
Qed.

Lemma reverse_ents_eq nl c : merge_ents nl (length c) c = Some (reverse_ents nl c).
Proof. revert nl. induction c as [| e c IH]; intros nl; simpl; [done |]. apply IH. Qed.

Lemma reverse_ents_spec c h :
  with_data c →
  reverse_ents (Some h) c =
    Some (set_lelmnbr (lelmnbr h + Z.of_nat (length c)) (set_head (rev c ++ head h) h)).
Proof.
  intros Hd. pose proof (merge_ents_spec c [] h Hd) as Hm.
  rewrite app_nil_r, reverse_ents_eq in Hm. by simplify_eq.
Qed.

(** ** Deletions *)

Lemma elist_del_step l k :
  elist_wf l →
  (elist_del (Some l) (Some k)).1 =
    Some match del_ent k (head l) with
         | Some c => set_lelmnbr (lelmnbr l - 1) (set_head c l)
         | None => l
         end.
Proof.
  intros Hwf. unfold elist_del. destruct (del_ent k (head l)) as [c |] eqn:Hd; [| done].
  simpl. destruct (Z.eqb_spec (lelmnbr l - 1) 0) as [Hz |]; [| done].
  apply del_ent_Some in Hd as (c1 & e & c2 & Hl & -> & _). rewrite Hwf, Hl, length_app in Hz.
  simpl in Hz. destruct c1, c2; simpl in Hz; try lia. done.
Qed.

Lemma elist_del_wf l k : elist_wf l → ∃ l', (elist_del (Some l) (Some k)).1 = Some l' ∧ elist_wf l'.
Proof.
  intros Hwf. rewrite elist_del_step by done. eexists. split; [done |].
  destruct (del_ent k (head l)) as [c |] eqn:Hd; [| done].
  apply del_ent_Some in Hd as (c1 & e & c2 & Hl & -> & _). unfold elist_wf in *. simpl.
  rewrite Hwf, Hl, !length_app. simpl. lia.
Qed.

Lemma unmerge_ents_wf c l : elist_wf l → ∃ l', unmerge_ents (Some l) c = Some l' ∧ elist_wf l'.
Proof.
  revert l. induction c as [| e c IH]; intros l Hwf; cbn [unmerge_ents]; [eauto |].
  destruct (elist_del_wf l (lkey e) Hwf) as (l1 & -> & Hwf1). by apply IH.
Qed.

Lemma unmerge_ents_prefix c p l q :
  elist_wf l → head l = p ++ q → (lkey <$> p) ≡ₚ (lkey <$> c) →
  unmerge_ents (Some l) c =
    Some (set_lelmnbr (lelmnbr l - Z.of_nat (length c)) (set_head q l)).
Proof.
  revert p l. induction c as [| e c IH]; intros p l Hwf Hl Hp; cbn [unmerge_ents length].
  - apply Permutation_nil_r in Hp. destruct p; [| done]. simpl in Hl.
    destruct l; unfold set_lelmnbr, set_head; simpl in *; subst. by rewrite Z.sub_0_r.
  - destruct (del_ent_app (lkey e) p q) as (p' & Hd & Hp'); [rewrite Hp; by left |].
    destruct (elist_del_wf l (lkey e) Hwf) as (l1 & Hl1 & Hwf1).
    pose proof Hl1 as Heq. rewrite elist_del_step, Hl, Hd in Heq by done. simplify_eq.
    rewrite Hl1. rewrite (IH p'); [| done | done |].
    + unfold set_lelmnbr, set_head. simpl. do 2 f_equal. lia.
    + rewrite Hp' in Hp. simpl in Hp. by apply Permutation_cons_inv in Hp.
Qed.

(** ** The operations as steps *)

(** One call on one list that succeeds or fails without undefined behaviour; the
    arguments are any pointers, NULL included. *)
Inductive elist_step : list_t V → list_t V → Prop :=
| step_add h (k : option string) d h' r : elist_add (Some h) k d = (Some h', r) → elist_step h h'
| step_append h (k : option string) d h' r : elist_append (Some h) k d = (Some h', r) → elist_step h h'
| step_push h d h' r : elist_push (Some h) d = Some (Some h', r) → elist_step h h'
| step_pop h h' d : elist_pop (Some h) = (Some h', d) → elist_step h h'
| step_del h (k : option string) h' r : elist_del (Some h) k = (Some h', r) → elist_step h h'
| step_set h (k : option string) d h' r : elist_set (Some h) k d = (Some h', r) → elist_step h h'
| step_apply {P} h (p p' : P) func h' r :
    elist_apply (Some h) p func = Some (Some h', p', r) → elist_step h h'
| step_linearity h v h' : elist_linearity_set (Some h) v = Some h' → elist_step h h'.

Lemma elist_step_wf h h' : elist_step h h' → elist_wf h → elist_wf h'.
Proof.
  intros Hs Hwf.
  destruct Hs as [h k d h' r Hs | h k d h' r Hs | h d h' r Hs | h h' d Hs | h k h' r Hs
    | h k d h' r Hs | P h p p' func h' r Hs | h v h' Hs].
  - by eapply elist_add_wf.
  - unfold elist_append in Hs. destruct k as [k |], d as [d |]; simplify_eq; try done.
    unfold elist_wf in *. destruct (head h) as [| e c] eqn:Hh; simplify_eq/=.
    + rewrite Hh. simpl. lia.
    + rewrite length_app. simpl. lia.
  - unfold elist_push in Hs. destruct d as [d |]; simplify_eq; [| done].
    destruct (lname h) as [nm |]; simplify_eq/=. by eapply (elist_add_wf h (Some _) (Some d)).
  - unfold elist_pop in Hs. unfold elist_wf in *. destruct (head h) as [| e c] eqn:Hh;
      simplify_eq/=; [by rewrite Hh |]. lia.
  - destruct k as [k |]; [| by simplify_eq/=].
    destruct (elist_del_wf h k Hwf) as (h1 & Hh1 & ?). rewrite Hs in Hh1. by simplify_eq/=.
  - unfold elist_set in Hs. destruct k as [k |]; [| by simplify_eq].
    destruct (set_ent_data k d (head h)) eqn:Hd; simplify_eq; [| done].
    unfold elist_wf in *. simpl. by rewrite (set_ent_data_length _ _ _ _ Hd).
  - unfold elist_apply in Hs. destruct func as [func |]; [| by simplify_eq].
    unfold elist_wf in *. rewrite Hwf, Nat2Z.id in Hs.
    destruct (apply_ents_total func (head h) p 0) as (c' & q & r' & Ha & Hl).
    rewrite Ha in Hs. simplify_eq/=. by rewrite Hl, Hwf.
  - by simplify_eq/=.
Qed.

Lemma elist_merge_wf h src h' r :
  elist_wf h → elist_wf src → elist_merge (Some h) (Some src) = Some (Some h', r) → elist_wf h'.
Proof.
  intros Hwf Hsrc Hs. unfold elist_merge in Hs.
  destruct (merge_ents_wf (head src) (Z.to_nat (lelmnbr src)) h Hwf) as (h1 & Hm & ?).
  { unfold elist_wf in Hsrc. lia. }
  rewrite Hm in Hs. by simplify_eq/=.
Qed.

Lemma elist_unmerge_wf h src h' r :
  elist_wf h → elist_unmerge (Some h) (Some src) = (Some h', r) → elist_wf h'.
Proof.
  intros Hwf Hs. unfold elist_unmerge in Hs.
  destruct (unmerge_ents_wf (head src) h Hwf) as (h1 & Hm & ?).
  rewrite Hm in Hs. by simplify_eq/=.
Qed.

Lemma elist_replace_wf h (k : option string) nl h' nl' r :
  elist_wf h → elist_wf nl → elist_replace (Some h) k (Some nl) = (Some h', Some nl', r) →
  elist_wf h' ∧ (nl' = nl → elist_wf nl').
Proof.
  intros Hwf Hnl Hs. split; [| by intros ->].
  unfold elist_replace in Hs. destruct k as [k |]; [| by simplify_eq].
  unfold elist_wf in *. destruct (head nl) as [| e c] eqn:Hh; [by simplify_eq |].
  destruct (split_ent k (head h)) as [[c1 c2] |] eqn:Hsp; simplify_eq; [| done].
  simpl. rewrite Hwf, Hnl, (split_ent_length _ _ _ _ Hsp), !length_app. simpl.
  rewrite length_app. lia.
Qed.

(** *** A system of lists

    The lists of a program by address, each the owner of its cells.  A list is made,
    changed by a call of its own, or by one that takes another list, a different one.
    A list spliced into another by [elist_replace] (which then returns 0 and finds it
    not empty) has given its cells away and leaves the system.  The count of a list
    fits in an [int] as long as the calls leave it below [INT_MAX]. *)
Definition elist_fits l : Prop := lelmnbr l < 2 ^ 31 - 1.

Definition spliced l (nl : list_t V) (k : option string) : bool :=
  match k, head nl with
  | Some k, _ :: _ => match split_ent k (head l) with Some _ => true | None => false end
  | _, _ => false
  end.

Inductive lists_step (S : gmap Z (list_t V)) : gmap Z (list_t V) → Prop :=
| lists_new p ty nm : S !! p = None → lists_step S (<[p := List [] 0 ty 0 nm]> S)
| lists_one p h h' : S !! p = Some h → elist_step h h' → elist_fits h' → lists_step S (<[p := h']> S)
| lists_merge p q h src h' r :
    p ≠ q → S !! p = Some h → S !! q = Some src →
    elist_merge (Some h) (Some src) = Some (Some h', r) → elist_fits h' →
    lists_step S (<[p := h']> S)
| lists_unmerge p q h src h' r :
    p ≠ q → S !! p = Some h → S !! q = Some src →
    elist_unmerge (Some h) (Some src) = (Some h', r) → elist_fits h' →
    lists_step S (<[p := h']> S)
| lists_replace p q h (k : option string) nl h' nl' r :
    p ≠ q → S !! p = Some h → S !! q = Some nl →
    elist_replace (Some h) k (Some nl) = (Some h', nl', r) → elist_fits h' →
    lists_step S (if spliced h nl k then delete q (<[p := h']> S) else <[p := h']> S).

Definition lists_wf (S : gmap Z (list_t V)) : Prop :=
  map_Forall (λ _ l, elist_wf l ∧ elist_fits l) S.

Lemma lists_step_wf S S' : lists_step S S' → lists_wf S → lists_wf S'.
Proof.
  intros Hs Hwf. destruct Hs as [p ty nm _ | p h h' Hp Hs Hf | p q h src h' r _ Hp Hq Hs Hf
    | p q h src h' r _ Hp Hq Hs Hf | p q h k nl h' nl' r _ Hp Hq Hs Hf].
  - apply map_Forall_insert_2; [by split | done].
  - apply map_Forall_insert_2; [| done]. split; [| done]. by eapply elist_step_wf, Hwf.
  - apply map_Forall_insert_2; [| done]. split; [| done].
    by eapply elist_merge_wf; [apply (Hwf p) | apply (Hwf q) |].
  - apply map_Forall_insert_2; [| done]. split; [| done]. by eapply elist_unmerge_wf; [apply (Hwf p) |].
  - assert (elist_wf h') as Hwf'.
    { destruct (elist_replace (Some h) k (Some nl)) as [[? [nl1 |]] ?] eqn:He; simplify_eq.
      - exact (proj1 (elist_replace_wf _ _ _ _ _ _ (proj1 (Hwf p _ Hp)) (proj1 (Hwf q _ Hq)) He)).
      - unfold elist_replace in He. repeat case_match; simplify_eq. }
    assert (lists_wf (<[p := h']> S)) as Hw by (by apply map_Forall_insert_2).
    case_match; [| done]. by apply map_Forall_delete.
Qed.

(** ** Properties *)


(** [elist_push] then [elist_pop] restores the list, but the pointer popped is
    not the one pushed: it is the one below it (NULL on an empty list). *)
Lemma elist_push_pop l name v :
  lname l = Some name →
  ∃ l1, elist_push (Some l) (Some v) = Some (Some l1, 0) ∧
    elist_get_headptr (Some l1) = Some v ∧ lelmnbr l1 = lelmnbr l + 1 ∧
    elist_pop (Some l1) = (Some l, elist_get_headptr (Some l)).
Proof.
  intros Hn. unfold elist_push. rewrite Hn. mstep. eexists. split_and!; [done.. |].
  destruct l as [c n t ln nm]. unfold set_lelmnbr, set_head. simpl.
  replace (n + 1 - 1) with n by lia. by destruct c.
Qed.

(** [elist_replace] puts the whole chain of the new list in the place of the
    first entry of the key, and keeps the counter right; the two lists then share
    their tails, so the new list keeps its invariant only if the entry replaced
    was the last.  A missing key leaves both alone. *)
Lemma elist_replace_splice l nl k :
  elist_wf l → elist_wf nl → head nl ≠ [] →
  (k ∉ (lkey <$> head l) → elist_replace (Some l) (Some k) (Some nl) = (Some l, Some nl, -1)) ∧
  (k ∈ (lkey <$> head l) →
     ∃ l' nl' c1 e c2, elist_replace (Some l) (Some k) (Some nl) = (Some l', Some nl', 0) ∧
       head l = c1 ++ e :: c2 ∧ lkey e = k ∧ (k ∉ lkey <$> c1) ∧
       head l' = c1 ++ head nl ++ c2 ∧ elist_wf l' ∧
       head nl' = head nl ++ c2 ∧ (elist_wf nl' ↔ c2 = [])).
Proof.
  intros Hwf Hnl Hne. unfold elist_replace.
  assert (∃ e c, head nl = e :: c) as (e0 & c0 & Hh) by (destruct (head nl); [done | eauto]).
  split; intros Hk.
  - by rewrite Hh, (split_ent_None _ _ Hk).
  - destruct (split_ent_Some _ _ Hk) as (c1 & e & c2 & Hs & Hl & He & Hn).
    unfold elist_wf in *. rewrite Hs. rewrite Hh.
    eexists _, _, c1, e, c2. split_and!; [done.. | | done |]; simpl.
    + rewrite Hwf, Hnl, Hl, Hh, !length_app. simpl. rewrite length_app. lia.
    + rewrite Hnl, Hh, length_app. simpl. destruct c2; simpl; split; try done; [| intros ?]; lia.
Qed.

(** Merging a list into another puts its entries in front, in reverse order;
    unmerging the same list removes exactly those, even when the destination had
    entries of the same keys. *)
Lemma elist_merge_unmerge dst src :
  elist_wf dst → elist_wf src → with_data (head src) →
  ∃ m, elist_merge (Some dst) (Some src) = Some (Some m, 0) ∧
    head m = rev (head src) ++ head dst ∧ elist_wf m ∧
    elist_unmerge (Some m) (Some src) = (Some dst, 0).
Proof.
  intros Hd Hs Hdata. unfold elist_merge, elist_unmerge.
  pose proof (merge_ents_spec (head src) [] dst Hdata) as Hm. rewrite app_nil_r in Hm.
  unfold elist_wf in *. rewrite Hs, Nat2Z.id, Hm. mstep. eexists. split; [done |].
  assert (elist_wf (set_lelmnbr (lelmnbr dst + Z.of_nat (length (head src)))
                      (set_head (rev (head src) ++ head dst) dst))) as Hwf.
  { unfold elist_wf. simpl. rewrite length_app, length_rev. lia. }
  split_and!; [done | done |].
  rewrite (unmerge_ents_prefix _ (rev (head src)) _ (head dst) Hwf); [| done |].
  - f_equal. f_equal. destruct dst as [c n t ln nm]. unfold set_lelmnbr, set_head. simpl.
    by rewrite Z.add_simpl_r.
  - by rewrite <-(Permutation_rev (head src)).
Qed.

(** ** The registry *)

(** The names of the table are those of allocated lists; addresses from [lbrk]
    on are free. *)
Record lworld_ok (w : lworld V) (m : gmap string Z) : Prop := {
  lw_repr : Repr (hash_lists w) m;
  lw_wf p l : lists w !! p = Some l → elist_wf l ∧ p < lbrk w;
  lw_named name p : m !! name = Some p → is_Some (lists w !! p);
  lw_types : 0 ≤ aspect_type_nbr w < 2 ^ 32;
}.

Lemma elist_init_new (w : lworld V) m (h : Z) name ty :
  Repr (hash_lists w) m → m !! name = None → is_Some (lists w !! h) →
  0 ≤ ty < aspect_type_nbr w → aspect_type_nbr w < 2 ^ 32 →
  ∃ t, elist_init w h name ty =
         Some (set_hash_lists t (set_list h (List [] 0 ty 0 (Some name)) w), 0) ∧
       Repr t (<[name := h]> m).
Proof.
  intros HR Hm [old Hh] Hty Hn. unfold elist_init, elist_find.
  rewrite !wrapu_small by lia. rewrite (proj2 (Z.leb_gt _ _)) by lia.
  rewrite (hash_get_Repr _ _ _ HR), Hm. mstep. rewrite Hh. mstep.
  destruct (hash_add_law _ _ name h HR) as (t & r & Hadd & Ht). simpl.
  rewrite Hadd. mstep. eauto.
Qed.

(** [elist_reverse] returns a new list, at a fresh address and under the same
    name, that holds the entries in reverse order; the old one is freed and no
    other list is touched. *)
Lemma elist_reverse_spec (w : lworld V) m p l name :
  lworld_ok w m → lists w !! p = Some l → lname l = Some name →
  with_data (head l) → 0 ≤ ltype l < aspect_type_nbr w →
  ∃ w', elist_reverse w p = Some (w', lbrk w) ∧
    lists w' = delete p (<[lbrk w := List (rev (head l)) (lelmnbr l) (ltype l) 0 (Some name)]>
                           (lists w)) ∧
    Repr (hash_lists w') (<[name := lbrk w]> m).
Proof.
  intros [HR Hwf _ Hty] Hp Hn Hd Ht. destruct (Hwf _ _ Hp) as [Hl Hlt].
  unfold elist_reverse. rewrite Hp. mstep. rewrite Hn. mstep.
  destruct (hash_del_law _ _ name HR) as (t & r & -> & Ht'). mstep.
  unfold new_list. simpl.
  edestruct (elist_init_new
    (Lworld (<[lbrk w := list0]> (lists w)) t (lbrk w + 1) (aspect_type_nbr w))
    (delete name m) (lbrk w) name (ltype l)) as (t2 & Hi & HR2); simpl; try done.
  { by rewrite lookup_delete_eq. } { rewrite lookup_insert_eq. by eexists. } { lia. }
  rewrite Hi. mstep. simpl. rewrite lookup_insert_eq. mstep.
  rewrite reverse_ents_spec by done. mstep. eexists. split; [done |]. simpl. split.
  - rewrite !insert_insert_eq. unfold set_lelmnbr, set_head. simpl. by rewrite app_nil_r, Hl.
  - by rewrite insert_delete_eq in HR2.
Qed.

(** [elist_register] under a name in use replaces the entries of the
    registered list by those of the new one, reversed, if the types agree (an
    unknown type takes the new one).  Under a new name it registers an empty list
    of unknown type: the list given is ignored. *)
Lemma elist_register_spec (w : lworld V) m p src name :
  lworld_ok w m → lists w !! p = Some src → with_data (head src) →
  match m !! name with
  | None =>
      0 < aspect_type_nbr w →
      ∃ w', elist_register w p name = Some (w', 0) ∧
        lists w' = <[lbrk w := List [] 0 0 0 (Some name)]> (lists w) ∧
        Repr (hash_lists w') (<[name := lbrk w]> m)
  | Some h =>
      ∀ hl, lists w !! h = Some hl → h ≠ p →
        if bool_decide (ltype hl = ltype src ∨ ltype hl = 0) then
          ∃ w' ln, elist_register w p name = Some (w', 0) ∧ hash_lists w' = hash_lists w ∧
            lists w' = <[h := List (rev (head src)) (lelmnbr src) (ltype src) ln (lname hl)]>
                         (lists w)
        else elist_register w p name = Some (w, -1)
  end.
Proof.
  intros [HR Hwf Hnamed Hty] Hp Hd. destruct (Hwf _ _ Hp) as [Hs _].
  unfold elist_register, elist_find. rewrite (hash_get_Repr _ _ _ HR). mstep.
  destruct (m !! name) as [h |] eqn:Hm.
  - intros hl Hh Hne. destruct (Hwf _ _ Hh) as [Hhl _]. rewrite Hh. mstep. rewrite Hp. mstep.
    set (hl' := if ltype hl =? 0 then _ else hl).
    assert (lelmnbr hl' = lelmnbr hl ∧ head hl' = head hl ∧ lname hl' = lname hl) as (Hn' & Hh' & Hl').
    { unfold hl'. by case_match. }
    case_bool_decide as Hc.
    + assert (ltype hl' = ltype src) as Ht.
      { unfold hl'. case_match eqn:He; [done |]. destruct Hc; [done |]. lia. }
      rewrite Ht, Z.eqb_refl. cbn [negb].
      assert (∃ ln, (if lelmnbr hl' =? 0 then Some (set_list h hl' w, Some h)
                     else elist_empty (set_list h hl' w) name) =
                    Some (set_list h (List [] 0 (ltype src) ln (lname hl)) w, Some h)) as (ln & ->).
      { case_match eqn:Hz.
        - exists (llinearity hl'). do 3 f_equal. unfold elist_wf in Hhl.
          destruct hl' as [c n t li nm]; simpl in *; subst.
          apply Z.eqb_eq in Hz. rewrite Hz in *. by destruct (head hl).
        - unfold elist_empty, elist_find. simpl. rewrite (hash_get_Repr _ _ _ HR), Hm. mstep.
          rewrite lookup_insert_eq. mstep. unfold elist_get_keys. rewrite Hz.
          rewrite fill_keys_new. 2: { rewrite length_fmap, Hh', Hn', Hhl. lia. }
          mstep. exists 0. unfold set_list. simpl. by rewrite insert_insert_eq, Ht, Hl'. }
      mstep. simpl. rewrite lookup_insert_eq. mstep. rewrite lookup_insert_ne, Hp by done. mstep.
      pose proof (merge_ents_spec (head src) [] (List [] 0 (ltype src) ln (lname hl)) Hd) as Hme.
      rewrite app_nil_r in Hme. unfold elist_merge. rewrite Hs, Nat2Z.id, Hme. mstep.
      eexists _, ln. split_and!; [done | done |]. simpl. rewrite insert_insert_eq.
      unfold set_lelmnbr, set_head. simpl. by rewrite app_nil_r.
    + assert (hl' = hl) as -> by (unfold hl'; case_match eqn:He; [| done]; destruct Hc; right; lia).
      rewrite (proj2 (Z.eqb_neq _ _)) by (intros ?; apply Hc; by left). simpl.
      unfold set_list. rewrite insert_id by done. by destruct w.
  - intros Hpos. unfold new_list. simpl. rewrite lookup_insert_eq. mstep.
    edestruct (elist_init_new
      (Lworld (<[lbrk w := list0]> (lists w)) (hash_lists w) (lbrk w + 1) (aspect_type_nbr w))
      m (lbrk w) name 0) as (t2 & Hi & HR2); simpl; try done; try lia.
    { rewrite lookup_insert_eq. by eexists. }
    rewrite Hi. mstep. eexists. split; [done |]. simpl. by rewrite insert_insert_eq.
Qed.

End spec.

(** ** Copies *)

Section copy.
Implicit Types (m : memory) (c : list (lent Z)) (size : Z).

(** Addresses from [brk] on are free. *)
Definition mem_ok m : Prop := ∀ p b, blocks m !! p = Some b → p < brk m.

(** The object of an entry has at least [size] bytes. *)
Definition readable m size (e : lent Z) : Prop :=
  ∃ p b, ldata e = Some p ∧ blocks m !! p = Some b ∧ size ≤ Z.of_nat (length b).

(** The entry [e'] of the memory [m'] owns a copy of the object of [e]. *)
Definition copy_of m m' size (e e' : lent Z) : Prop :=
  lkey e' = lkey e ∧
  ∃ p b p', ldata e = Some p ∧ blocks m !! p = Some b ∧
    ldata e' = Some p' ∧ brk m ≤ p' ∧ blocks m' !! p' = Some (take (Z.to_nat size) b).

Lemma copy_block_spec m size e :
  mem_ok m → 0 ≤ size → readable m size e →
  ∃ p b, ldata e = Some p ∧ blocks m !! p = Some b ∧
    copy_block m (ldata e) size =
      Some (Memory (<[brk m := take (Z.to_nat size) b]> (blocks m)) (brk m + 1), brk m).
Proof.
  intros Hok Hs (p & b & Hp & Hb & Hle). exists p, b. split_and!; [done.. |].
  unfold copy_block, malloc. case_match eqn:Hz.
  - apply Z.eqb_eq in Hz as ->. done.
  - rewrite Hp. mstep. rewrite Hb. mstep. unfold guard_ub. by rewrite bool_decide_true.
Qed.

Lemma copy_ents_spec c m size :
  mem_ok m → 0 ≤ size → Forall (readable m size) c →
  ∃ m' c', copy_ents m ELIST_DATA_COPY size c = Some (m', c') ∧
    mem_ok m' ∧ brk m ≤ brk m' ∧
    (∀ p b, blocks m !! p = Some b → blocks m' !! p = Some b) ∧
    Forall2 (copy_of m m' size) c c' ∧
    (∀ e p, e ∈ c' → ldata e = Some p → brk m ≤ p) ∧ NoDup (ldata <$> c').
Proof.
  revert m. induction c as [| e c IH]; intros m Hok Hs Hr.
  { exists m, []. split_and!; try done; try by constructor.
    by intros ? ? ?%not_elem_of_nil. }
  apply Forall_cons in Hr as [He Hr].
  destruct (copy_block_spec m size e Hok Hs He) as (p & b & Hp & Hb & Hcp).
  set (m1 := Memory (<[brk m := take (Z.to_nat size) b]> (blocks m)) (brk m + 1)) in Hcp.
  assert (∀ q d, blocks m !! q = Some d → blocks m1 !! q = Some d) as Hkeep.
  { intros q d Hq. simpl. pose proof (Hok _ _ Hq). by rewrite lookup_insert_ne by lia. }
  destruct (IH m1) as (m' & c' & Hc & Hok' & Hbrk & Hk' & Hf & Hfresh & Hnd); [| done | |].
  { intros q d. simpl. intros [(<- & _) | (_ & Hq)]%lookup_insert_Some; [lia |].
    specialize (Hok _ _ Hq). lia. }
  { eapply Forall_impl; [exact Hr |]. intros e' (q & d & ? & ? & ?). exists q, d. eauto. }
  simpl in Hbrk, Hfresh. exists m', (Lent (lkey e) (Some (brk m)) :: c').
  cbn [copy_ents]. rewrite Z.eqb_refl, Hcp. mstep. rewrite Hc. mstep.
  split_and!; [done | done | lia | by eauto | | |].
  - constructor.
    + split; [done |]. exists p, b, (brk m). split_and!; try done. apply Hk'. simpl.
      by rewrite lookup_insert_eq.
    + apply Forall2_same_length_lookup. split; [by eapply Forall2_length |].
      intros i e1 e2 Hi1 Hi2. pose proof (Forall_lookup_1 _ _ _ _ Hr Hi1) as (q & d & Hq & Hd & _).
      destruct (Forall2_lookup_lr _ _ _ _ _ _ Hf Hi1 Hi2)
        as (Hky & q' & d' & q2 & Hq' & Hd' & Hq2 & Hle & Hbl).
      split; [done |]. simplify_eq. rewrite (Hkeep _ _ Hd) in Hd'. simplify_eq.
      exists q, d', q2. simpl in Hle. split_and!; try done. lia.
  - intros e' q [-> | Hin]%elem_of_cons Hq; simplify_eq/=; [lia |].
    specialize (Hfresh _ _ Hin Hq). lia.
  - simpl. constructor; [| done]. intros (e' & Hq & Hin)%list_elem_of_fmap.
    specialize (Hfresh _ _ Hin (eq_sym Hq)). lia.
Qed.

Lemma copy_ents_nocopy c m size f :
  f ≠ ELIST_DATA_COPY → copy_ents m f size c = Some (m, c).
Proof.
  intros Hf. induction c as [| [k d] c IH]; [done |]. cbn [copy_ents].
  rewrite (proj2 (Z.eqb_neq _ _) Hf). mstep. by rewrite IH.
Qed.

(** [elist_copy] with [ELIST_DATA_COPY] yields a list of the same keys whose
    pointers are fresh and distinct, each to a block with the first bytes of the
    object it copies, and leaves every existing object alone; with
    [ELIST_DATA_NOCOPY] the new list shares the objects; with another flag there
    is no list. *)
Lemma elist_copy_deep typesize m (h : list_t Z) flag :
  mem_ok m → 0 ≤ typesize (ltype h) → Forall (readable m (typesize (ltype h))) (head h) →
  if flag =? ELIST_DATA_COPY then
    ∃ m' h', elist_copy typesize m h flag = Some (m', Some h') ∧
      lelmnbr h' = lelmnbr h ∧ ltype h' = ltype h ∧
      Forall2 (copy_of m m' (typesize (ltype h))) (head h) (head h') ∧
      NoDup (ldata <$> head h') ∧
      ∀ p b, blocks m !! p = Some b → blocks m' !! p = Some b
  else elist_copy typesize m h flag =
         Some (m, if flag =? ELIST_DATA_NOCOPY then Some h else None).
Proof.
  intros Hok Hs Hr. unfold elist_copy. case_match eqn:Hf.
  - apply Z.eqb_eq in Hf as ->. cbn [negb andb].
    destruct (copy_ents_spec _ _ _ Hok Hs Hr) as (m' & c' & -> & _ & _ & ? & ? & _ & ?).
    mstep. eexists _, _. by split_and!.
  - apply Z.eqb_neq in Hf. cbn [negb andb].
    destruct (flag =? ELIST_DATA_NOCOPY); [| done]. cbn [negb].
    rewrite copy_ents_nocopy by done. mstep. by destruct h.
Qed.

End copy.

(** ** Witnesses *)

Definition demo_list : list_t Z := List [Lent "b" (Some 2); Lent "a" (Some 1)] 2 1 0 (Some "l").

Definition demo_new : list_t Z := List [Lent "x" (Some 8); Lent "y" (Some 9)] 2 1 0 (Some "n").

(** Two lists, the second registered as ["l"]. *)
Definition demo_world : lworld Z :=
  Lworld (<[1 := demo_new]> (<[0 := demo_list]> ∅))
    (single_table "l" 0) 2 5.

Lemma demo_world_ok : lworld_ok demo_world {["l" := 0]}.
Proof.
  split; [apply other_Repr | | | done].
  - simpl. intros p l [(<- & <-) | (_ & [(<- & <-) | (_ & Hl)]%lookup_insert_Some)]%lookup_insert_Some;
      [done | done |]. by rewrite lookup_empty in Hl.
  - intros name p [<- <-]%lookup_singleton_Some. by eexists.
Qed.



