(* ===== verification/Btree.v ===== *)
(** * Binary trees (src/libaspect/libbtree.c)

    A [btree_t *] is [Leaf] when NULL.  [V] is the type of the pointers the nodes
    hold; handlers passed to the operations are functions of the model, those
    with effects take and return the state they act on. *)
From S2P Require Import Prelude.

Section defs.
Context {V : Type}.

Inductive btree : Type :=
| Leaf
| Node (id : Z) (elem : V) (left right : btree).

(** [ptr] is a zeroed node. *)
Fixpoint btree_insert (root : btree) (id : Z) (elem : V) : btree :=
  match root with
  | Leaf => Node id elem Leaf Leaf
  | Node id0 e l r =>
      if id <? id0 then Node id0 e (btree_insert l id elem) r
      else Node id0 e l (btree_insert r id elem)
  end.

(** [addr] is the address of an element, of which [(u_int) elem] keeps 32 bits. *)
Fixpoint btree_insert_sort (addr : V → Z) (root : btree) (apply : V → V → Z) (elem : V) : btree :=
  match root with
  | Leaf => btree_insert Leaf (u32 (addr elem)) elem
  | Node id0 e l r =>
      let ret := apply e elem in
      if negb (ret =? 0) then
        if 0 <? ret then Node id0 e l (btree_insert_sort addr r apply elem)
        else Node id0 e (btree_insert_sort addr l apply elem) r
      else root
  end.

Fixpoint btree_get_elem (root : btree) (id : Z) : option V :=
  match root with
  | Leaf => None
  | Node id0 e l r =>
      if id0 =? id then Some e
      else if id <? id0 then btree_get_elem l id
      else if id0 <? id then btree_get_elem r id
      else None
  end.

Fixpoint btree_find_elem {P} (root : btree) (match_ : V → P → Z) (ptr : P) : option V :=
  match root with
  | Leaf => None
  | Node _ e l r =>
      let ret := match_ e ptr in
      if ret =? 0 then Some e
      else if 0 <? ret then btree_find_elem r match_ ptr
      else btree_find_elem l match_ ptr
  end.

(** [apply(elem, ptr)] on a state that includes what [ptr] points to. *)
Fixpoint btree_browse_prefix {S} (root : btree) (apply : V → S → S) (s : S) : S :=
  match root with
  | Leaf => s
  | Node _ e l r => btree_browse_prefix r apply (btree_browse_prefix l apply (apply e s))
  end.

Fixpoint btree_browse_infix {S} (root : btree) (apply : V → S → S) (s : S) : S :=
  match root with
  | Leaf => s
  | Node _ e l r => btree_browse_infix r apply (apply e (btree_browse_infix l apply s))
  end.

Fixpoint btree_browse_suffix {S} (root : btree) (apply : V → S → S) (s : S) : S :=
  match root with
  | Leaf => s
  | Node _ e l r => apply e (btree_browse_suffix r apply (btree_browse_suffix l apply s))
  end.

Fixpoint btree_browse_prefix_debug {S} (root : btree) (apply : V → S → btree → S) (s : S) : S :=
  match root with
  | Leaf => s
  | Node _ e l r =>
      btree_browse_prefix_debug r apply (btree_browse_prefix_debug l apply (apply e s root))
  end.

(** The calls of [XFREE], in order. *)
Inductive freed := FreeElem (e : V) | FreeNode (t : btree).

Definition BTREE_FREE_ELEM : Z := 1.
Definition BTREE_FREE_TREE : Z := 0.

Fixpoint btree_free (root : btree) (mode : Z) : list freed :=
  match root with
  | Leaf => []
  | Node _ e l r =>
      (if negb (mode =? 0) then [FreeElem e] else []) ++
      btree_free l mode ++ btree_free r mode ++ [FreeNode root]
  end.

End defs.

Arguments btree : clear implicits.
Arguments freed : clear implicits.
