(* ===== verification/BtreeSpec.v ===== *)
(** * Binary trees: lookups, stable sorting, discarding of duplicates *)
From stdpp Require Import sorting.
From S2P Require Import Prelude.
From S2P Require Import Btree.

Section spec.
Context {V : Type}.
Implicit Types (t : btree V) (e : V) (id : Z).

(** ** Traversals as lists *)

Fixpoint infix t : list (Z * V) :=
  match t with Leaf => [] | Node id e l r => infix l ++ (id, e) :: infix r end.
Fixpoint prefix_order t : list V :=
  match t with Leaf => [] | Node _ e l r => e :: prefix_order l ++ prefix_order r end.
Fixpoint suffix_order t : list V :=
  match t with Leaf => [] | Node _ e l r => suffix_order l ++ suffix_order r ++ [e] end.

Lemma browse_infix_fold {S} t (apply : V → S → S) s :
  btree_browse_infix t apply s = fold_left (λ s x, apply x.2 s) (infix t) s.
Proof.
  revert s. induction t as [| id e l IHl r IHr]; intros s; simpl; [done |].
  by rewrite fold_left_app, IHl; simpl; rewrite IHr.
Qed.

Lemma browse_prefix_fold {S} t (apply : V → S → S) s :
  btree_browse_prefix t apply s = fold_left (λ s x, apply x s) (prefix_order t) s.
Proof.
  revert s. induction t as [| id e l IHl r IHr]; intros s; simpl; [done |].
  by rewrite fold_left_app, IHl, IHr.
Qed.

Lemma browse_suffix_fold {S} t (apply : V → S → S) s :
  btree_browse_suffix t apply s = fold_left (λ s x, apply x s) (suffix_order t) s.
Proof.
  revert s. induction t as [| id e l IHl r IHr]; intros s; simpl; [done |].
  by rewrite !fold_left_app, IHl, IHr.
Qed.

Lemma prefix_order_perm t : prefix_order t ≡ₚ (infix t).*2.
Proof.
  induction t as [| id e l IHl r IHr]; simpl; [done |].
  by rewrite fmap_app, fmap_cons, IHl, IHr, Permutation_middle.
Qed.

Lemma suffix_order_perm t : suffix_order t ≡ₚ (infix t).*2.
Proof.
  induction t as [| id e l IHl r IHr]; simpl; [done |].
  rewrite fmap_app, fmap_cons, IHl, IHr. f_equiv. by rewrite (comm (++)).
Qed.

(** ** Search trees by identifier *)

Fixpoint bst t : Prop :=
  match t with
  | Leaf => True
  | Node id _ l r =>
      bst l ∧ bst r ∧ Forall (λ x, x.1 < id) (infix l) ∧ Forall (λ x, id ≤ x.1) (infix r)
  end.

(** Insertion puts the new pair after those of a lower or equal identifier. *)
Lemma infix_insert t id e :
  bst t →
  ∃ l1 l2, infix t = l1 ++ l2 ∧ infix (btree_insert t id e) = l1 ++ (id, e) :: l2 ∧
    Forall (λ x, x.1 ≤ id) l1 ∧ Forall (λ x, id < x.1) l2.
Proof.
  induction t as [| id0 e0 l IHl r IHr]; simpl.
  { intros _. by exists [], []. }
  intros (Hl & Hr & Hlt & Hge). destruct (Z.ltb_spec id id0) as [Hid | Hid].
  - destruct (IHl Hl) as (l1 & l2 & E & E' & H1 & H2).
    exists l1, (l2 ++ (id0, e0) :: infix r). simpl. rewrite E, E'. split_and!.
    + by rewrite <-app_assoc.
    + by rewrite <-app_assoc.
    + done.
    + apply Forall_app. split; [done |]. constructor; [done |].
      eapply Forall_impl; [exact Hge |]. simpl. lia.
  - destruct (IHr Hr) as (l1 & l2 & E & E' & H1 & H2).
    exists (infix l ++ (id0, e0) :: l1), l2. simpl. rewrite E, E'. split_and!.
    + by rewrite <-app_assoc.
    + by rewrite <-app_assoc.
    + apply Forall_app. split; [| by constructor].
      eapply Forall_impl; [exact Hlt |]. simpl. lia.
    + done.
Qed.

Lemma insert_perm t id e : bst t → infix (btree_insert t id e) ≡ₚ (id, e) :: infix t.
Proof.
  intros Ht. destruct (infix_insert t id e Ht) as (l1 & l2 & -> & -> & _).
  by rewrite Permutation_middle.
Qed.

Lemma insert_bst t id e : bst t → bst (btree_insert t id e).
Proof.
  induction t as [| id0 e0 l IHl r IHr]; simpl; [done |].
  intros (Hl & Hr & Hlt & Hge). destruct (Z.ltb_spec id id0) as [Hid | Hid]; simpl;
    split_and!; try by auto.
  - rewrite insert_perm by done. by constructor.
  - rewrite insert_perm by done. by constructor.
Qed.

Lemma bst_sorted t : bst t → StronglySorted (λ x y, x.1 ≤ y.1) (infix t).
Proof.
  induction t as [| id e l IHl r IHr]; simpl; [by constructor |].
  intros (Hl & Hr & Hlt & Hge). apply StronglySorted_app_2; [| by auto | constructor].
  - intros x1 x2 H1 [-> | H2]%elem_of_cons.
    + rewrite Forall_forall in Hlt. specialize (Hlt _ H1). simpl. lia.
    + rewrite Forall_forall in Hlt, Hge. specialize (Hlt _ H1). specialize (Hge _ H2). lia.
  - by auto.
  - done.
Qed.

(** The tree of a sequence of insertions. *)
Definition inserts (l : list (Z * V)) : btree V :=
  fold_left (λ t x, btree_insert t x.1 x.2) l Leaf.

Lemma inserts_snoc (l : list (Z * V)) x :
  inserts (l ++ [x]) = btree_insert (inserts l) x.1 x.2.
Proof. unfold inserts. by rewrite fold_left_app. Qed.

Lemma inserts_bst (l : list (Z * V)) : bst (inserts l).
Proof.
  induction l as [| x l IH] using rev_ind; [done |].
  rewrite inserts_snoc. by apply insert_bst.
Qed.

Lemma filter_none (k : Z) (l : list (Z * V)) :
  Forall (λ x, x.1 ≠ k) l → filter (λ x, x.1 = k) l = [].
Proof.
  intros Hl. induction Hl as [| x l Hx _ IH]; [done |]. by rewrite filter_cons_False.
Qed.

Lemma insert_filter t id e k :
  bst t →
  filter (λ x, x.1 = k) (infix (btree_insert t id e)) =
    filter (λ x, x.1 = k) (infix t) ++ filter (λ x, x.1 = k) [(id, e)].
Proof.
  intros Ht. destruct (infix_insert t id e Ht) as (l1 & l2 & -> & -> & H1 & H2).
  rewrite !filter_app, filter_cons, (filter_cons _ (id, e) []). case_decide as Hk; simpl in Hk.
  - subst. rewrite (filter_none _ l2), app_nil_r; [done |].
    eapply Forall_impl; [exact H2 |]. simpl. lia.
  - by rewrite app_nil_r.
Qed.

(** ** Properties *)

(** C6. Inserting pairs in any order and browsing the tree in infix order is a
    stable sort: the pairs come by increasing identifier, those of one
    identifier in the order of their insertion.  The three browses apply the
    handler once per inserted element. *)
Theorem btree_browse_sorts (l : list (Z * V)) :
  ∃ s, (∀ S (apply : V → S → S) st,
          btree_browse_infix (inserts l) apply st = fold_left (λ st x, apply x st) s.*2 st) ∧
    StronglySorted (λ x y, x.1 ≤ y.1) s ∧
    (∀ k, filter (λ x, x.1 = k) s = filter (λ x, x.1 = k) l) ∧ s ≡ₚ l ∧
    ∃ p q, p ≡ₚ l.*2 ∧ q ≡ₚ l.*2 ∧
      ∀ S (apply : V → S → S) st,
        btree_browse_prefix (inserts l) apply st = fold_left (λ st x, apply x st) p st ∧
        btree_browse_suffix (inserts l) apply st = fold_left (λ st x, apply x st) q st.
Proof.
  assert (infix (inserts l) ≡ₚ l) as Hp.
  { induction l as [| x l IH] using rev_ind; [done |].
    rewrite inserts_snoc, insert_perm, IH by apply inserts_bst.
    rewrite (comm (++)). by destruct x. }
  exists (infix (inserts l)). split_and!.
  - intros S apply st. rewrite browse_infix_fold. generalize (infix (inserts l)) as s.
    intros s. revert st. induction s as [| x s IH]; intros st; simpl; [done | apply IH].
  - apply bst_sorted, inserts_bst.
  - intros k. clear Hp. induction l as [| x l IH] using rev_ind; [done |].
    rewrite inserts_snoc, insert_filter, IH by apply inserts_bst.
    rewrite filter_app. by destruct x.
  - done.
  - exists (prefix_order (inserts l)), (suffix_order (inserts l)).
    rewrite prefix_order_perm, suffix_order_perm, Hp. split_and!; [done.. |].
    intros S apply st. by rewrite browse_prefix_fold, browse_suffix_fold.
Qed.

(** [btree_get_elem] after [btree_insert]: the new element is found under its
    identifier unless one was already there, which hides it; every other
    identifier gives what it gave. *)
Lemma btree_get_insert t id e id' :
  btree_get_elem (btree_insert t id e) id' =
    if bool_decide (id' = id) then Some (default e (btree_get_elem t id))
    else btree_get_elem t id'.
Proof.
  induction t as [| id0 e0 l IHl r IHr].
  - simpl. case_bool_decide as Hc; [subst; by rewrite Z.eqb_refl |].
    rewrite (proj2 (Z.eqb_neq _ _)) by congruence. by repeat case_match.
  - simpl. destruct (Z.ltb_spec id id0) as [Hid | Hid]; simpl; rewrite ?IHl, ?IHr;
      case_bool_decide as Hc; subst; try done.
    + rewrite (proj2 (Z.eqb_neq id0 id)) by lia. by rewrite (proj2 (Z.ltb_lt _ _)) by done.
    + rewrite (proj2 (Z.ltb_ge id id0)) by done.
      destruct (Z.eqb_spec id0 id) as [-> | Hne]; [done |].
      by rewrite (proj2 (Z.ltb_lt id0 id)) by lia.
Qed.

(** [btree_find_elem] after [btree_insert_sort], for a probe that the matching
    function tells apart from the nodes as the sorting function tells the new
    element apart: it finds the element stored first, and [btree_insert_sort]
    discards a second one.  A probe that does not match the new element finds
    what it found, whatever the two functions are. *)
Lemma btree_find_insert_sort {P} addr t (apply : V → V → Z) (match_ : V → P → Z) e (p : P) :
  (match_ e p ≠ 0 →
     btree_find_elem (btree_insert_sort addr t apply e) match_ p = btree_find_elem t match_ p) ∧
  (match_ e p = 0 → (∀ x, x ∈ prefix_order t → Z.sgn (match_ x p) = Z.sgn (apply x e)) →
     btree_find_elem (btree_insert_sort addr t apply e) match_ p =
       Some (default e (btree_find_elem t match_ p)) ∧
     (is_Some (btree_find_elem t match_ p) → btree_insert_sort addr t apply e = t)).
Proof.
  induction t as [| id0 e0 l [IHl1 IHl2] r [IHr1 IHr2]].
  - simpl. split; intros Hm.
    + rewrite (proj2 (Z.eqb_neq _ _) Hm). by case_match.
    + intros _. rewrite Hm. split; [done |]. by intros [? ?].
  - simpl. split.
    + intros Hm. repeat (case_match; simpl); try done; auto.
    + intros Hm Hs. pose proof (Hs e0 ltac:(by left)) as He.
      specialize (IHl2 Hm (λ x Hx, Hs x ltac:(right; apply elem_of_app; by left))).
      specialize (IHr2 Hm (λ x Hx, Hs x ltac:(right; apply elem_of_app; by right))).
      destruct (Z.eqb_spec (apply e0 e) 0) as [H0 | H0]; simpl.
      { rewrite (proj2 (Z.eqb_eq (match_ e0 p) 0)) by lia. done. }
      rewrite (proj2 (Z.eqb_neq (match_ e0 p) 0)) by lia.
      destruct (Z.ltb_spec 0 (apply e0 e)) as [Hp | Hp]; simpl;
        rewrite (proj2 (Z.eqb_neq (match_ e0 p) 0)) by lia.
      * rewrite (proj2 (Z.ltb_lt 0 (match_ e0 p))) by lia. destruct IHr2 as [-> Heq].
        split; [done |]. intros Hf. by rewrite Heq.
      * rewrite (proj2 (Z.ltb_ge 0 (match_ e0 p))) by lia. destruct IHl2 as [-> Heq].
        split; [done |]. intros Hf. by rewrite Heq.
Qed.

End spec.

(** A tree of the numbers 5, 3 and 9 sorted by difference. *)
