(* ===== verification/Vectors.v ===== *)
(** * Vectors of handlers (src/libaspect/vectors.c)

    A vector is a tree of arrays of words: the arrays of the last dimension hold
    the handlers, the others pointers to arrays.  The heap maps the address of an
    allocated array to its words; a pointer is an address and an offset in words,
    and an access outside an array is undefined. *)
From S2P Require Import Prelude.
From S2P Require Import Table.

(** ** Memory *)

(** An [unsigned long]: a handler (a number) or a pointer to an array. *)
Inductive word := WNum (n : Z) | WPtr (block off : Z).

#[export] Instance word_eq_dec : EqDecision word.
Proof. solve_decision. Defined.

Record heap := Heap { arrays : gmap Z (list word); hbrk : Z }.

Definition calloc (h : heap) (n : Z) : heap * Z :=
  (Heap (<[hbrk h := replicate (Z.to_nat n) (WNum 0)]> (arrays h)) (hbrk h + 1), hbrk h).

Definition load (h : heap) (block off : Z) : option word :=
  a ← arrays h !! block;
  if bool_decide (0 ≤ off) then a !! Z.to_nat off else None.

Definition store_word (h : heap) (block off : Z) (v : word) : option heap :=
  a ← arrays h !! block;
  a' ← (if bool_decide (0 ≤ off) then store a (Z.to_nat off) v else None);
  Some (Heap (<[block := a']> (arrays h)) (hbrk h)).

(** [for (idx = 0; idx < n; idx++) f(idx)] *)
Definition for_idx (n : Z) (f : Z → heap → option heap) (h : heap) : option heap :=
  foldl (λ acc idx, h ← acc; f idx h) (Some h) (seqZ 0 n).

(** ** Vectors *)

Record vector_t := Vector {
  hook : Z;
  register_func : word;
  default_func : word;
  arraydims : list Z;
  strdims : list string;
  arraysz : Z;
  vtype : Z;
}.

(** The walk of the dimensions: [n] remaining, [tmp] at [block], [off]; the last
    dimension is not dereferenced. *)
Fixpoint project (h : heap) (block off : Z) (dim : list Z) (n : nat) : option (Z * Z) :=
  match n with
  | O => Some (block, off)
  | S n =>
      d ← head dim;
      let off := off + d in
      if bool_decide (0 < n)%nat then
        w ← load h block off;
        match w with
        | WPtr block off => project h block off (tail dim) n
        | WNum _ => None
        end
      else Some (block, off)
  end.

Definition aspect_vectors_insert (h : heap) (vect : vector_t) (dim : list Z) (fct : word) :
    option heap :=
  '(block, off) ← project h (hook vect) 0 dim (Z.to_nat (arraysz vect));
  store_word h block off fct.

(** [tmp = *tmp] at every dimension, the last included. *)
Fixpoint select_from (h : heap) (tmp : word) (dim : list Z) (n : nat) : option word :=
  match n with
  | O => Some tmp
  | S n =>
      d ← head dim;
      match tmp with
      | WPtr block off => w ← load h block (off + d); select_from h w (tail dim) n
      | WNum _ => None
      end
  end.

Definition aspect_vectors_select (h : heap) (vect : vector_t) (dim : list Z) : option word :=
  select_from h (WPtr (hook vect) 0) dim (Z.to_nat (arraysz vect)).

Definition aspect_vectors_selectptr (h : heap) (vect : vector_t) (dim : list Z) :
    option (Z * Z) :=
  project h (hook vect) 0 dim (Z.to_nat (arraysz vect)).

(** [rest] is [dimsz - depth], the depth that remains. *)
Fixpoint aspect_vectors_recalloc (rest : nat) (h : heap) (tab : Z) (dims : list Z) (depth : nat) :
    option heap :=
  match rest with
  | O => Some h
  | S rest =>
      n ← dims !! (depth - 1)%nat;
      for_idx n (λ idx h,
        m ← dims !! depth;
        let '(h, ptr) := calloc h m in
        h ← store_word h tab idx (WPtr ptr 0);
        aspect_vectors_recalloc rest h ptr dims (S depth)) h
  end.

Fixpoint aspect_vectors_recinit (rest : nat) (h : heap) (tab : Z) (dims : list Z) (depth : nat)
    (defaultelem : word) : option heap :=
  n ← dims !! (depth - 1)%nat;
  match rest with
  | O => for_idx n (λ idx h, store_word h tab idx defaultelem) h
  | S rest =>
      for_idx n (λ idx h,
        w ← load h tab idx;
        match w with
        | WPtr b 0 => aspect_vectors_recinit rest h b dims (S depth) defaultelem
        | _ => None
        end) h
  end.

(** ** The registry of vectors *)

Section registry.
Context {T : Type → Type} `{!Table T}.

Record vworld := Vworld {
  vheap : heap;
  vectors : gmap Z vector_t;
  vbrk : Z;
  vector_hash : option (T Z);
  vtype_nbr : Z;
}.

(** [vector_hash] is NULL before the library is initialised. *)
Definition aspect_vector_get (w : vworld) (name : string) : option (option Z) :=
  match vector_hash w with
  | None => Some None
  | Some t => t_get t name
  end.

Definition aspect_vecthash_get (w : vworld) : option (T Z) := vector_hash w.

(** NULL pointers are [None] ([WNum 0] for the handler); a NULL [vector_hash]
    makes [hash_add] fail without effect. *)
Definition aspect_register_vector (w : vworld) (name : option string) (defaultfunc : word)
    (dimensions : option (list Z)) (strdims : list string) (dimsz : Z) (vectype : Z) :
    option (vworld * Z) :=
  match dimensions with
  | None => Some (w, -1)
  | Some dims =>
      if bool_decide (defaultfunc = WNum 0) || (dimsz =? 0) then Some (w, -1)
      else if u32 (vtype_nbr w) <=? vectype then Some (w, -1)
      else
        d0 ← dims !! 0%nat;
        let '(h, ptr) := calloc (vheap w) d0 in
        h ← (if 1 <? dimsz
             then aspect_vectors_recalloc (Z.to_nat dimsz - 1) h ptr dims 1
             else Some h);
        let vector := Vector ptr (WNum 0) defaultfunc dims strdims dimsz 0 in
        t ← match vector_hash w, name with
            | Some t, Some name => '(t, _) ← t_add t name (Some (vbrk w)); Some (Some t)
            | t, _ => Some t
            end;
        h ← aspect_vectors_recinit (Z.to_nat dimsz - 1) h ptr dims 1 defaultfunc;
        Some (Vworld h (<[vbrk w := vector]> (vectors w)) (vbrk w + 1) t (vtype_nbr w), 0)
  end.

End registry.

Arguments vworld : clear implicits.
