(* ===== verification/VectorsSpec.v ===== *)
(** * Vectors: a fresh vector holds its default, writes are separate *)
From S2P Require Import Prelude.
From S2P Require Import Table.
From S2P Require Import Hash.
From S2P Require Import HashSpec.
From S2P Require Import Vectors.

Implicit Types (h : heap) (dims dim : list Z) (fp : list Z) (p : Z).

(** ** Memory *)

(** Addresses from [hbrk] on are free. *)
Definition heap_ok h : Prop := ∀ b a, arrays h !! b = Some a → b < hbrk h.

(** The arrays of [h] outside [fp] are those of [h']. *)
Definition frame fp h h' : Prop :=
  hbrk h ≤ hbrk h' ∧
  ∀ b, b ∉ fp → b < hbrk h → arrays h' !! b = arrays h !! b.

Lemma frame_refl fp h : frame fp h h.
Proof. by split. Qed.

Lemma frame_trans fp fp' h1 h2 h3 :
  frame fp h1 h2 → frame fp' h2 h3 → frame (fp ++ fp') h1 h3.
Proof.
  intros [Hb1 H1] [Hb2 H2]. split; [lia |]. intros b Hb Hlt.
  apply not_elem_of_app in Hb as [? ?]. rewrite H2, H1; [done | done | done | done | lia].
Qed.

Lemma frame_weaken fp fp' h h' : frame fp h h' → fp ⊆ fp' → frame fp' h h'.
Proof. intros [? Hf] Hsub. split; [done |]. intros b Hb ?. apply Hf; auto. Qed.

Lemma store_word_ok h b a off v :
  arrays h !! b = Some a → 0 ≤ off < Z.of_nat (length a) →
  store_word h b off v = Some (Heap (<[b := <[Z.to_nat off := v]> a]> (arrays h)) (hbrk h)).
Proof.
  intros Hb Hoff. unfold store_word. rewrite Hb. mstep. rewrite bool_decide_true by lia.
  by rewrite store_Some by lia.
Qed.

(** ** Loops *)

Lemma for_idx_ind (P : Z → heap → Prop) n f h :
  0 ≤ n → P 0 h →
  (∀ i h, 0 ≤ i < n → P i h → ∃ h', f i h = Some h' ∧ P (i + 1) h') →
  ∃ h', for_idx n f h = Some h' ∧ P n h'.
Proof.
  intros Hn H0 Hstep. unfold for_idx.
  assert (∀ k : nat, Z.of_nat k ≤ n →
    ∃ h', foldl (λ acc idx, h ← acc; f idx h) (Some h) (seqZ 0 (Z.of_nat k)) = Some h' ∧ P (Z.of_nat k) h') as Hk.
  { induction k as [| k IH]; intros Hle; [by exists h |].
    destruct IH as (h1 & Hf & HP); [lia |].
    rewrite seqZ_S, foldl_app, Hf. cbn [foldl]. mstep.
    rewrite Z.add_0_l, Nat2Z.inj_succ. replace (Z.succ (Z.of_nat k)) with (Z.of_nat k + 1) by lia. apply Hstep; [lia | done]. }
  specialize (Hk (Z.to_nat n)). rewrite Z2Nat.id in Hk by done. by apply Hk.
Qed.

Lemma elem_of_concat (fps : list (list Z)) b :
  b ∈ concat fps ↔ ∃ i f, fps !! i = Some f ∧ b ∈ f.
Proof.
  induction fps as [| f0 fps IH]; simpl.
  - split; [by intros ?%not_elem_of_nil | by intros (i & f & Hi & _)].
  - rewrite elem_of_app, IH. split.
    + intros [? | (i & f & ? & ?)]; [by exists 0%nat, f0 | by exists (S i), f].
    + intros ([| i] & f & Hi & ?); simplify_eq/=; [by left | right; eauto].
Qed.

(** ** Trees of arrays *)

(** The array [p] is the root of a tree of dimensions [ds] whose arrays are [fp]. *)
Fixpoint tree h p (ds : list Z) fp : Prop :=
  match ds with
  | [] => False
  | n :: ds =>
      ∃ a, arrays h !! p = Some a ∧ Z.of_nat (length a) = n ∧
        match ds with
        | [] => fp = [p]
        | _ => ∃ qs fps, a = (λ q, WPtr q 0) <$> qs ∧ fp = p :: concat fps ∧
                 Forall2 (λ q f, tree h q ds f) qs fps
        end
  end.

Definition in_range (ds dim : list Z) : Prop := Forall2 (λ n d, 0 ≤ d < n) ds dim.

(** The word at the index [dim]. *)
Definition cell h p (ds dim : list Z) : option word :=
  select_from h (WPtr p 0) dim (length ds).

Lemma tree_root h p ds fp : tree h p ds fp → p ∈ fp.
Proof.
  destruct ds as [| n [| m ds]]; simpl; [done | |].
  - intros (a & _ & _ & ->). by left.
  - intros (a & _ & _ & qs & fps & _ & -> & _). by left.
Qed.

Lemma tree_same h h' p ds fp :
  (∀ b, b ∈ fp → arrays h' !! b = arrays h !! b) → tree h p ds fp → tree h' p ds fp.
Proof.
  revert p fp. induction ds as [| n ds IH]; intros p fp Hs Ht; [done |].
  pose proof (tree_root _ _ _ _ Ht) as Hp. destruct Ht as (a & Ha & Hn & Hrest).
  exists a. split_and!; [by rewrite Hs | done |]. destruct ds as [| m ds]; [done |].
  destruct Hrest as (qs & fps & Hq & -> & Hf). exists qs, fps. split_and!; [done.. |].
  apply Forall2_same_length_lookup. split; [by eapply Forall2_length |].
  intros i q f Hqi Hfi. apply IH; [| by eapply (Forall2_lookup_lr _ _ _ _ _ _ Hf)].
  intros b Hb. apply Hs. right. apply elem_of_concat. eauto.
Qed.

Lemma load_ptrs h p qs d :
  arrays h !! p = Some ((λ q, WPtr q 0) <$> qs) → 0 ≤ d →
  load h p d = (λ q, WPtr q 0) <$> (qs !! Z.to_nat d).
Proof.
  intros Ha Hd. unfold load. rewrite Ha. mstep. rewrite bool_decide_true by done.
  by rewrite list_lookup_fmap.
Qed.

(** The step of a walk through an inner dimension. *)
Lemma tree_cons h p n m ds fp :
  tree h p (n :: m :: ds) fp ↔
  ∃ qs fps, arrays h !! p = Some ((λ q, WPtr q 0) <$> qs) ∧ Z.of_nat (length qs) = n ∧
    fp = p :: concat fps ∧ Forall2 (λ q f, tree h q (m :: ds) f) qs fps.
Proof.
  split.
  - intros (a & Ha & Hn & qs & fps & -> & Hfp & Hf). exists qs, fps.
    rewrite length_fmap in Hn. done.
  - intros (qs & fps & Ha & Hn & Hfp & Hf). exists ((λ q, WPtr q 0) <$> qs).
    rewrite length_fmap. split_and!; [done.. |]. eauto.
Qed.

Lemma cell_cons h p qs n m ds d dim q :
  arrays h !! p = Some ((λ q, WPtr q 0) <$> qs) → 0 ≤ d → qs !! Z.to_nat d = Some q →
  cell h p (n :: m :: ds) (d :: dim) = cell h q (m :: ds) dim.
Proof.
  intros Ha Hd Hq. unfold cell. cbn [length select_from head tail]. mstep.
  rewrite Z.add_0_l, (load_ptrs h p qs d Ha Hd), Hq. reflexivity.
Qed.

Lemma project_cons h p qs (n m : Z) (ds : list Z) d dim q :
  arrays h !! p = Some ((λ q, WPtr q 0) <$> qs) → 0 ≤ d → qs !! Z.to_nat d = Some q →
  project h p 0 (d :: dim) (length (n :: m :: ds)) = project h q 0 dim (length (m :: ds)).
Proof.
  intros Ha Hd Hq. change (length (n :: m :: ds)) with (S (length (m :: ds))).
  cbn [project head tail]. mstep. rewrite bool_decide_true by (simpl; lia).
  by rewrite Z.add_0_l, (load_ptrs h p qs d Ha Hd), Hq.
Qed.

Lemma cell_same h h' p ds fp dim :
  (∀ b, b ∈ fp → arrays h' !! b = arrays h !! b) → tree h p ds fp → in_range ds dim →
  cell h' p ds dim = cell h p ds dim.
Proof.
  revert p fp dim. induction ds as [| n ds IH]; intros p fp dim Hs Ht Hd; [done |].
  apply Forall2_cons_inv_l in Hd as (d & dim' & [Hd0 Hdn] & Hd & ->).
  pose proof (tree_root _ _ _ _ Ht) as Hp. destruct ds as [| m ds].
  - unfold cell. simpl. unfold load. by rewrite Hs.
  - apply tree_cons in Ht as (qs & fps & Ha & Hn & -> & Hf).
    destruct (lookup_lt_is_Some_2 qs (Z.to_nat d)) as [q Hq]; [lia |].
    destruct (Forall2_lookup_l _ _ _ _ _ Hf Hq) as (f & Hfi & Ht).
    rewrite (cell_cons h p qs n m ds d dim' q), (cell_cons h' p qs n m ds d dim' q); try done.
    2: { by rewrite Hs. }
    apply (IH q f); [| done | done]. intros b Hb. apply Hs. right. apply elem_of_concat. eauto.
Qed.

(** Replacing a subtree inside its own footprint. *)
Lemma tree_subtree h h' p n m ds qs fps d q f :
  arrays h !! p = Some ((λ q, WPtr q 0) <$> qs) → Z.of_nat (length qs) = n →
  NoDup (p :: concat fps) → Forall2 (λ q f, tree h q (m :: ds) f) qs fps →
  qs !! d = Some q → fps !! d = Some f →
  (∀ b, b ∉ f → arrays h' !! b = arrays h !! b) → tree h' q (m :: ds) f →
  arrays h' !! p = Some ((λ q, WPtr q 0) <$> qs) ∧
  Forall2 (λ q f, tree h' q (m :: ds) f) qs fps ∧
  ∀ d' q' dim, d' ≠ d → qs !! d' = Some q' → in_range (m :: ds) dim →
    cell h' q' (m :: ds) dim = cell h q' (m :: ds) dim.
Proof.
  intros Ha Hn [Hp Hnd]%NoDup_cons Hf Hq Hfd Hs Ht.
  assert (∀ d' f', d' ≠ d → fps !! d' = Some f' → ∀ b, b ∈ f' → b ∉ f) as Hdisj.
  { clear -Hnd Hfd. revert d Hfd. induction fps as [| f0 fps IH]; intros d Hfd d' f' Hne Hf' b Hb Hb'; [done |].
    simpl in Hnd. apply NoDup_app in Hnd as (_ & Hx & Hnd).
    destruct d as [| d], d' as [| d']; simplify_eq/=.
    - apply (Hx b Hb'), elem_of_concat. eauto.
    - apply (Hx b Hb), elem_of_concat. eauto.
    - by eapply (IH Hnd d Hfd d' f'); eauto. }
  assert (p ∉ f) as Hpf by (intros ?; apply Hp, elem_of_concat; eauto).
  split_and!.
  - by rewrite Hs.
  - apply Forall2_same_length_lookup. split; [by eapply Forall2_length |].
    intros i qi fi Hqi Hfi. destruct (decide (i = d)) as [-> | Hne]; [by simplify_eq |].
    eapply tree_same; [| by eapply (Forall2_lookup_lr _ _ _ _ _ _ Hf)].
    intros b Hb. apply Hs. by eapply Hdisj.
  - intros d' q' dim Hne Hq' Hdim. destruct (Forall2_lookup_l _ _ _ _ _ Hf Hq') as (f' & Hf' & Ht').
    apply (cell_same h h' q' (m :: ds) f'); [| done | done].
    intros b Hb. apply Hs. by eapply Hdisj.
Qed.

(** ** Insertion *)

Lemma tree_insert h p ds fp dim v :
  tree h p ds fp → NoDup fp → in_range ds dim →
  ∃ b off h', project h p 0 dim (length ds) = Some (b, off) ∧
    store_word h b off v = Some h' ∧ load h b off = cell h p ds dim ∧
    tree h' p ds fp ∧ (∀ b, b ∉ fp → arrays h' !! b = arrays h !! b) ∧ hbrk h' = hbrk h ∧
    ∀ dim', in_range ds dim' →
      cell h' p ds dim' = if bool_decide (dim' = dim) then Some v else cell h p ds dim'.
Proof.
  revert p fp dim. induction ds as [| n ds IH]; intros p fp dim Ht Hnd Hd; [done |].
  apply Forall2_cons_inv_l in Hd as (d & dim1 & [Hd0 Hdn] & Hd & ->).
  destruct ds as [| m ds].
  - apply Forall2_nil_inv_l in Hd as ->. destruct Ht as (a & Ha & Hn & ->).
    exists p, d. eexists. split_and!; [done | apply (store_word_ok h p a); [done | lia] | | | | done |].
    + unfold cell. simpl. by rewrite Z.add_0_l; destruct (load h p d).
    + simpl. rewrite lookup_insert_eq. eexists. split_and!; [done | by rewrite length_insert | done].
    + intros b Hb. simpl. rewrite lookup_insert_ne; [done |]. intros ->. apply Hb. by left.
    + intros dim' Hd'. apply Forall2_cons_inv_l in Hd' as (d' & ? & [Hd0' Hdn'] & Hnil & ->).
      apply Forall2_nil_inv_l in Hnil as ->. unfold cell. simpl. unfold load. simpl.
      rewrite lookup_insert_eq, Ha. mstep. rewrite !Z.add_0_l, !bool_decide_true by done.
      case_bool_decide as Hc; simplify_eq.
      * rewrite list_lookup_insert_eq; [done | lia].
      * rewrite list_lookup_insert_ne; [done |]. intros ?. apply Hc. f_equal. lia.
  - apply tree_cons in Ht as (qs & fps & Ha & Hn & -> & Hf).
    destruct (lookup_lt_is_Some_2 qs (Z.to_nat d)) as [q Hq]; [lia |].
    destruct (Forall2_lookup_l _ _ _ _ _ Hf Hq) as (f & Hfd & Ht).
    assert (NoDup f) as Hndf.
    { apply NoDup_cons in Hnd as [_ Hnd]. clear -Hnd Hfd. revert f Hfd. generalize (Z.to_nat d) as i.
      induction fps as [| f0 fps IH]; intros [| i] f Hi; simplify_eq/=;
        apply NoDup_app in Hnd as (? & _ & ?); eauto. }
    destruct (IH q f dim1 Ht Hndf Hd) as (b & off & h' & Hp & Hst & Hld & Ht' & Hs & Hbrk & Hc).
    destruct (tree_subtree h h' p n m ds qs fps _ q f Ha Hn Hnd Hf Hq Hfd Hs Ht')
      as (Ha' & Hf' & Hother).
    exists b, off, h'. split_and!; try done.
    + by rewrite (project_cons h p qs n m ds d dim1 q Ha Hd0 Hq).
    + by rewrite (cell_cons h p qs n m ds d dim1 q Ha Hd0 Hq).
    + apply tree_cons. eauto 6.
    + intros b' Hb'. apply Hs. intros ?. apply Hb'. right. apply elem_of_concat. eauto.
    + intros dim' Hd'. apply Forall2_cons_inv_l in Hd' as (d' & dim2 & [Hd0' Hdn'] & Hd' & ->).
      destruct (lookup_lt_is_Some_2 qs (Z.to_nat d')) as [q' Hq']; [lia |].
      rewrite (cell_cons h p qs n m ds d' dim2 q' Ha Hd0' Hq').
      rewrite (cell_cons h' p qs n m ds d' dim2 q' Ha' Hd0' Hq').
      destruct (decide (d' = d)) as [-> | Hne].
      * simplify_eq. rewrite Hc by done. repeat case_bool_decide; congruence.
      * rewrite bool_decide_false by congruence. apply (Hother (Z.to_nat d')); [lia | done | done].
Qed.

(** ** Initialisation *)

Lemma concat_nodup (fps : list (list Z)) i f :
  NoDup (concat fps) → fps !! i = Some f → NoDup f.
Proof.
  revert i. induction fps as [| f0 fps IH]; intros [| i] Hnd Hi; simplify_eq/=;
    apply NoDup_app in Hnd as (? & _ & ?); eauto.
Qed.

Lemma drop_cons (l : list Z) k n ds :
  drop k l = n :: ds → l !! k = Some n ∧ drop (S k) l = ds.
Proof.
  intros Hd. split.
  - rewrite <-(Nat.add_0_r k), <-lookup_drop, Hd. done.
  - rewrite <-(Nat.add_1_r k), <-drop_drop, Hd. done.
Qed.

Lemma recinit_spec rest h p dims depth ds fp v :
  drop (depth - 1) dims = ds → (0 < depth)%nat → length ds = S rest →
  tree h p ds fp → NoDup fp →
  ∃ h', aspect_vectors_recinit rest h p dims depth v = Some h' ∧
    tree h' p ds fp ∧ (∀ b, b ∉ fp → arrays h' !! b = arrays h !! b) ∧ hbrk h' = hbrk h ∧
    ∀ dim, in_range ds dim → cell h' p ds dim = Some v.
Proof.
  revert h p depth ds fp. induction rest as [| rest IH]; intros h p depth ds fp Hdr Hdep Hlen Ht Hnd.
  - destruct ds as [| n [|]]; try done. destruct (drop_cons _ _ _ _ Hdr) as [Hn _].
    cbn [aspect_vectors_recinit]. rewrite Hn. mstep. destruct Ht as (a & Ha & Hla & ->).
    destruct (for_idx_ind (λ i h', ∃ a', arrays h' !! p = Some a' ∧ length a' = length a ∧
        (∀ b, b ∉ [p] → arrays h' !! b = arrays h !! b) ∧ hbrk h' = hbrk h ∧
        ∀ d : nat, Z.of_nat d < i → a' !! d = Some v) n (λ idx h, store_word h p idx v) h)
      as (h' & -> & a' & Ha' & Hla' & Hs & Hb & Hv).
    + lia.
    + exists a. split_and!; try done. lia.
    + intros i h1 Hi (a1 & Ha1 & Hl1 & Hs1 & Hb1 & Hv1). rewrite (store_word_ok _ _ a1) by (done || lia).
      eexists. split; [done |]. simpl. rewrite lookup_insert_eq. eexists. split; [done |].
      rewrite length_insert. split_and!; try done.
      * intros b Hbn. rewrite lookup_insert_ne; [by apply Hs1 |]. intros ->. apply Hbn. by left.
      * intros d Hd. destruct (decide (d = Z.to_nat i)) as [-> | Hne].
        -- rewrite list_lookup_insert_eq; [done | lia].
        -- rewrite list_lookup_insert_ne by done. apply Hv1. lia.
    + exists h'. split_and!; try done; [simpl; exists a'; split_and!; [done | lia | done] |].
      intros dim Hd. apply Forall2_cons_inv_l in Hd as (d & ? & [? ?] & Hnil & ->).
      apply Forall2_nil_inv_l in Hnil as ->. unfold cell. simpl. unfold load. rewrite Ha'. mstep.
      rewrite Z.add_0_l, bool_decide_true by done. rewrite Hv by lia. done.
  - destruct ds as [| n [| m ds]]; try done. destruct (drop_cons _ _ _ _ Hdr) as [Hn Hdr'].
    cbn [aspect_vectors_recinit]. rewrite Hn. mstep.
    apply tree_cons in Ht as (qs & fps & Ha & Hlq & -> & Hf).
    set (body := λ idx h, w ← load h p idx; _).
    destruct (for_idx_ind (λ i h', arrays h' !! p = Some ((λ q, WPtr q 0) <$> qs) ∧
        Forall2 (λ q f, tree h' q (m :: ds) f) qs fps ∧
        (∀ b, b ∉ p :: concat fps → arrays h' !! b = arrays h !! b) ∧ hbrk h' = hbrk h ∧
        ∀ (d : nat) q dim, Z.of_nat d < i → qs !! d = Some q → in_range (m :: ds) dim →
          cell h' q (m :: ds) dim = Some v) n body h)
      as (h' & -> & Ha' & Hf' & Hs & Hb & Hv).
    + lia.
    + split_and!; try done. lia.
    + intros i h1 Hi (Ha1 & Hf1 & Hs1 & Hb1 & Hv1). unfold body.
      destruct (lookup_lt_is_Some_2 qs (Z.to_nat i)) as [q Hq]; [lia |].
      destruct (Forall2_lookup_l _ _ _ _ _ Hf1 Hq) as (f & Hfi & Htf).
      rewrite (load_ptrs _ _ qs) by (done || lia). rewrite Hq. mstep.
      destruct (IH h1 q (S depth) (m :: ds) f) as (h2 & Hi2 & Ht2 & Hs2 & Hb2 & Hc2);
        [by rewrite <-Hdr'; f_equal; lia | lia | simpl in *; lia | done | |].
      { eapply concat_nodup; [| done]. by apply NoDup_cons in Hnd as [_ ?]. }
      rewrite Hi2. exists h2. split; [done |].
      destruct (tree_subtree h1 h2 p n m ds qs fps _ q f Ha1 Hlq Hnd Hf1 Hq Hfi Hs2 Ht2)
        as (Ha2 & Hf2 & Hother). split_and!; [done | done | | lia |].
      * intros b Hbn. rewrite Hs2; [by apply Hs1 |]. intros ?. apply Hbn. right.
        apply elem_of_concat. eauto.
      * intros d q' dim Hd Hq' Hdim. destruct (decide (d = Z.to_nat i)) as [-> | Hne].
        -- simplify_eq. by apply Hc2.
        -- rewrite (Hother d q' dim Hne Hq' Hdim). apply (Hv1 d); [lia | done | done].
    + exists h'. split_and!; try done; [apply tree_cons; eauto 6 |].
      intros dim Hd. apply Forall2_cons_inv_l in Hd as (d & dim1 & [? ?] & Hd & ->).
      destruct (lookup_lt_is_Some_2 qs (Z.to_nat d)) as [q Hq]; [lia |].
      rewrite (cell_cons h' p qs n m ds d dim1 q) by done. eapply (Hv (Z.to_nat d)); [lia | done | done].
Qed.

(** ** Allocation *)

Lemma heap_ok_alloc h n : heap_ok h → heap_ok (calloc h n).1.
Proof.
  intros Hok b a. simpl. intros [(<- & _) | (_ & Hb)]%lookup_insert_Some; [lia |].
  specialize (Hok _ _ Hb). lia.
Qed.

Lemma heap_ok_store h p a b :
  heap_ok h → arrays h !! p = Some a → heap_ok (Heap (<[p := b]> (arrays h)) (hbrk h)).
Proof.
  intros Hok Ha c d. simpl. intros [(<- & _) | (_ & Hb)]%lookup_insert_Some; eauto.
Qed.

(** What the loop of [aspect_vectors_recalloc] has built when [i] pointers are in
    the array [p]. *)
Definition partial h p n ds (i : Z) h1 : Prop :=
  ∃ a qs fps, arrays h1 !! p = Some a ∧ Z.of_nat (length a) = n ∧
    take (Z.to_nat i) a = (λ q, WPtr q 0) <$> qs ∧ Forall2 (λ q f, tree h1 q ds f) qs fps ∧
    NoDup (concat fps) ∧ heap_ok h1 ∧ frame [p] h h1 ∧
    ∀ b, b ∈ concat fps → hbrk h ≤ b < hbrk h1.

Definition allocates h p ds h' : Prop :=
  ∃ fp, tree h' p ds fp ∧ NoDup fp ∧ heap_ok h' ∧ frame [p] h h' ∧
    ∀ b, b ∈ fp → b = p ∨ hbrk h ≤ b < hbrk h'.

(** One turn of the loop: an array is allocated, linked and expanded. *)
Lemma partial_step h p n m ds i h1 (f : heap → Z → option heap) :
  heap_ok h → p < hbrk h → 0 ≤ i < n → 0 ≤ m → partial h p n (m :: ds) i h1 →
  (∀ h3, heap_ok h3 → arrays h3 !! hbrk h1 = Some (replicate (Z.to_nat m) (WNum 0)) →
     ∃ h', f h3 (hbrk h1) = Some h' ∧ allocates h3 (hbrk h1) (m :: ds) h') →
  ∃ h', (h3 ← store_word (calloc h1 m).1 p i (WPtr (hbrk h1) 0); f h3 (hbrk h1)) = Some h' ∧
    partial h p n (m :: ds) (i + 1) h'.
Proof.
  intros Hok Hp Hi Hm (a & qs & fps & Ha & Hla & Htk & Hf & Hnd & Hok1 & [Hbrk Hfr] & Hfp) IH.
  assert (p ≠ hbrk h1) as Hne by lia.
  rewrite (store_word_ok _ _ a) by (simpl; rewrite ?lookup_insert_ne; done || lia). mstep. simpl.
  set (h3 := Heap _ _).
  assert (heap_ok h3) as Hok3.
  { unfold h3. apply (heap_ok_store (calloc h1 m).1 p a); [by apply heap_ok_alloc |].
    simpl. by rewrite lookup_insert_ne. }
  destruct (IH h3 Hok3) as (h' & -> & fp & Ht & Hndf & Hok' & [Hbrk' Hfr'] & Hfp').
  { simpl. by rewrite lookup_insert_ne, lookup_insert_eq. }
  simpl in Hbrk', Hfp'.
  assert (∀ b, b < hbrk h1 → b ≠ p → arrays h' !! b = arrays h1 !! b) as Hkeep.
  { intros b Hb Hbp. rewrite Hfr'; [| set_unfold; lia | simpl; lia]. simpl.
    by rewrite !lookup_insert_ne by lia. }
  exists h'. split; [done |].
  exists (<[Z.to_nat i := WPtr (hbrk h1) 0]> a), (qs ++ [hbrk h1]), (fps ++ [fp]). split_and!.
  - rewrite Hfr'; [| set_unfold; lia | simpl; lia]. simpl. by rewrite lookup_insert_eq.
  - by rewrite length_insert.
  - replace (Z.to_nat (i + 1)) with (S (Z.to_nat i)) by lia.
    rewrite (take_S_r _ _ (WPtr (hbrk h1) 0)) by (apply list_lookup_insert_eq; lia).
    by rewrite take_insert_ge, Htk, fmap_app by lia.
  - apply Forall2_app; [| by constructor].
    apply Forall2_same_length_lookup. split; [by eapply Forall2_length |].
    intros j q g Hq Hg. eapply tree_same; [| by eapply (Forall2_lookup_lr _ _ _ _ _ _ Hf)].
    intros b Hb. assert (b ∈ concat fps) as Hin by (apply elem_of_concat; eauto).
    specialize (Hfp _ Hin). apply Hkeep; lia.
  - rewrite concat_app. simpl. rewrite app_nil_r. apply NoDup_app. split_and!; [done | | done].
    intros b Hb Hb'. specialize (Hfp _ Hb). specialize (Hfp' _ Hb'). lia.
  - done.
  - split; [lia |]. intros b Hb Hlt. assert (b ≠ p) by (intros ->; apply Hb; by left).
    rewrite Hkeep by lia. by apply Hfr.
  - intros b. rewrite concat_app. simpl. rewrite app_nil_r. intros [Hb | Hb]%elem_of_app.
    + specialize (Hfp _ Hb). lia.
    + specialize (Hfp' _ Hb). lia.
Qed.

Lemma recalloc_spec rest h p dims depth ds a :
  drop (depth - 1) dims = ds → (0 < depth)%nat → length ds = S rest → Forall (λ n, 0 ≤ n) ds →
  heap_ok h → arrays h !! p = Some a → Some (Z.of_nat (length a)) = head ds →
  ∃ h', aspect_vectors_recalloc rest h p dims depth = Some h' ∧ allocates h p ds h'.
Proof.
  revert h p depth ds a. induction rest as [| rest IH];
    intros h p depth ds a Hdr Hdep Hlen Hpos Hok Ha Hla.
  - destruct ds as [| n [|]]; simplify_eq/=. exists h. split; [done |]. exists [p].
    split_and!; [by exists a | by apply NoDup_singleton | done | apply frame_refl |].
    intros b ?%list_elem_of_singleton. by left.
  - destruct ds as [| n [| m ds]]; simplify_eq/=. destruct (drop_cons _ _ _ _ Hdr) as [Hn Hdr'].
    replace (S (depth - 1)) with depth in Hdr' by lia.
    destruct (drop_cons _ _ _ _ Hdr') as [Hm _].
    apply Forall_cons in Hpos as [Hn0 Hpos]. pose proof (Forall_cons_1 _ _ _ Hpos) as [Hm0 _].
    rewrite Hn. mstep. set (body := λ idx h, m ← dims !! depth; _).
    destruct (for_idx_ind (partial h p (Z.of_nat (length a)) (m :: ds)) (Z.of_nat (length a)) body h)
      as (h' & -> & a' & qs & fps & Ha' & Hla' & Htk & Hf & Hnd & Hok' & Hfr & Hfp).
    + lia.
    + exists a, [], []. split_and!; try done; [by apply NoDup_nil_2 |].
      by intros b ?%not_elem_of_nil.
    + intros i h1 Hi HP. unfold body. rewrite Hm. mstep.
      destruct (partial_step h p (Z.of_nat (length a)) m ds i h1
        (λ h3 ptr, aspect_vectors_recalloc (length ds) h3 ptr dims (S depth)) Hok (Hok _ _ Ha) Hi Hm0 HP)
        as (h' & Hst & HP'); [| by exists h'].
      intros h3 Hok3 Hp3.
      destruct (IH h3 (hbrk h1) (S depth) (m :: ds) (replicate (Z.to_nat m) (WNum 0))) as (h' & -> & ?);
        [by rewrite <-Hdr'; f_equal; lia | lia | simpl; lia | done | done | exact Hp3 | | by exists h'].
      rewrite length_replicate. simpl. f_equal. lia.
    + exists h'. split; [done |]. exists (p :: concat fps).
      rewrite firstn_all2 in Htk by lia. subst a'. rewrite length_fmap in Hla'.
      pose proof (Hok _ _ Ha). split_and!; [apply tree_cons; eauto 6 | | done | done |].
      * constructor; [| done]. intros Hp. specialize (Hfp _ Hp). lia.
      * intros b [-> | Hb]%elem_of_cons; [by left | right; by apply Hfp].
Qed.

(** ** Properties *)

(** A vector whose arrays are [fp]. *)
Definition vector_ok h (v : vector_t) fp : Prop :=
  arraysz v = Z.of_nat (length (arraydims v)) ∧ tree h (hook v) (arraydims v) fp ∧ NoDup fp.

(** [aspect_vectors_insert] at an index in range succeeds;
    [aspect_vectors_select] then gives the new handler at that index and what it
    gave before at every other, [aspect_vectors_selectptr] points to the word the
    selection reads, and only arrays of the vector are written. *)
Lemma vectors_insert_select h v fp dim fct :
  vector_ok h v fp → in_range (arraydims v) dim →
  ∃ h' block off, aspect_vectors_insert h v dim fct = Some h' ∧
    aspect_vectors_selectptr h v dim = Some (block, off) ∧
    load h block off = aspect_vectors_select h v dim ∧
    (∀ dim', in_range (arraydims v) dim' →
       aspect_vectors_select h' v dim' =
         if bool_decide (dim' = dim) then Some fct else aspect_vectors_select h v dim') ∧
    vector_ok h' v fp ∧ ∀ b, b ∉ fp → arrays h' !! b = arrays h !! b.
Proof.
  intros (Hsz & Ht & Hnd) Hd.
  destruct (tree_insert h (hook v) _ fp dim fct Ht Hnd Hd)
    as (b & off & h' & Hp & Hst & Hld & Ht' & Hs & _ & Hc).
  exists h', b, off. unfold aspect_vectors_insert, aspect_vectors_selectptr, aspect_vectors_select.
  rewrite Hsz, Nat2Z.id, Hp. mstep. by split_and!.
Qed.

Section registry.
Context {T : Type → Type} `{!Table T}.
Implicit Types (w : vworld T).

Record vworld_ok w (m : gmap string Z) : Prop := {
  vw_heap : heap_ok (vheap w);
  vw_hash t : vector_hash w = Some t → t_repr t m;
}.

(** C7. [aspect_register_vector] with a default handler and the sizes of its
    dimensions allocates a well-formed vector: it is found under its name, every
    selection in range gives the default handler, and the arrays of the other
    vectors are untouched.  The type of its elements is only tested: the vector
    keeps type 0. *)
Theorem register_vector_spec w m t name def dims strs ty :
  vworld_ok w m → vector_hash w = Some t → def ≠ WNum 0 → dims ≠ [] →
  Forall (λ n, 0 ≤ n) dims → 0 ≤ ty < u32 (vtype_nbr w) →
  ∃ w' v fp,
    aspect_register_vector w (Some name) def (Some dims) strs (Z.of_nat (length dims)) ty =
      Some (w', 0) ∧
    aspect_vector_get w' name = Some (Some (vbrk w)) ∧ vectors w' !! vbrk w = Some v ∧
    arraydims v = dims ∧ vtype v = 0 ∧ vector_ok (vheap w') v fp ∧
    (∀ dim, in_range dims dim → aspect_vectors_select (vheap w') v dim = Some def) ∧
    (∀ b a, arrays (vheap w) !! b = Some a → arrays (vheap w') !! b = Some a) ∧
    vworld_ok w' (<[name := vbrk w]> m).
Proof.
  intros [Hok Hrepr] Ht Hdef Hne Hpos Hty. specialize (Hrepr t Ht).
  destruct dims as [| n ds]; [done |]. unfold aspect_register_vector.
  rewrite bool_decide_false by done. rewrite (proj2 (Z.eqb_neq (Z.of_nat _) 0)) by (simpl; lia).
  cbn [orb]. rewrite (proj2 (Z.leb_gt _ _)) by lia. cbn [lookup list_lookup]. mstep.
  set (hp := calloc (vheap w) n). pose proof (heap_ok_alloc _ n Hok) as Hok1. fold hp in Hok1.
  destruct (recalloc_spec (length ds) hp.1 hp.2 (n :: ds) 1 (n :: ds)
              (replicate (Z.to_nat n) (WNum 0))) as (h2 & Hra & fp & Htree & Hnd & Hok2 & [Hb Hfr] & Hfp);
    [done | lia | done | done | done | by simpl; rewrite lookup_insert_eq | |].
  { apply Forall_cons_1 in Hpos as [? _]. rewrite length_replicate. simpl. f_equal. lia. }
  assert ((if 1 <? Z.of_nat (length (n :: ds))
           then aspect_vectors_recalloc (Z.to_nat (Z.of_nat (length (n :: ds))) - 1) hp.1 hp.2 (n :: ds) 1
           else Some hp.1) = Some h2) as Halloc.
  { rewrite Nat2Z.id. replace (length (n :: ds) - 1)%nat with (length ds) by (simpl; lia).
    case_match eqn:Hlt; [done |]. apply Z.ltb_ge in Hlt.
    destruct ds; [by simpl in Hra | rewrite !length_cons in Hlt; lia]. }
  destruct (recinit_spec (length ds) h2 hp.2 (n :: ds) 1 (n :: ds) fp def)
    as (h3 & Hri & Htree3 & Hs3 & Hb3 & Hc); [done | lia | done | done | done |].
  destruct hp as [h1 ptr] eqn:Hhp. simpl in *. injection Hhp as <- <-. rewrite Halloc. mstep.
  rewrite Ht. destruct (t_add_repr t m name (vbrk w) Hrepr) as (t' & r & -> & Hrepr'). mstep.
  replace (Z.to_nat (Z.of_nat (S (length ds))) - 1)%nat with (length ds) by lia.
  rewrite Hri. mstep. eexists _, _, fp. split; [done |]. cbn [vectors vheap].
  rewrite lookup_insert_eq. unfold aspect_vector_get. cbn [vector_hash].
  rewrite (t_get_repr _ _ name Hrepr'), lookup_insert_eq. split_and!; try done.
  - intros dim Hd. unfold aspect_vectors_select. cbn [arraysz hook]. rewrite Nat2Z.id. by apply Hc.
  - intros b a Ha. pose proof (Hok _ _ Ha) as Hlt. simpl in Hfp, Hb, Hfr.
    rewrite Hs3. 2: { intros Hin. specialize (Hfp _ Hin). lia. }
    rewrite Hfr; [| intros ?%list_elem_of_singleton; lia | lia]. by rewrite lookup_insert_ne by lia.
  - split; cbn [vheap vector_hash]; [| by intros ? [= <-]].
    intros b a Ha. rewrite Hb3. destruct (decide (b ∈ fp)) as [Hin | Hin].
    + specialize (Hfp _ Hin). simpl in Hfp, Hb. lia.
    + rewrite Hs3 in Ha by done. by eapply Hok2.
Qed.

End registry.

(** ** Witnesses *)

(** A vector of 2 by 2 handlers. *)
Definition demo_heap : heap :=
  Heap (<[0 := [WPtr 1 0; WPtr 2 0]]> (<[1 := [WNum 5; WNum 5]]> (<[2 := [WNum 5; WNum 6]]> ∅))) 3.

Definition demo_vector : vector_t := Vector 0 (WNum 0) (WNum 5) [2; 2] ["row"; "column"] 2 0.

Lemma demo_vector_ok : vector_ok demo_heap demo_vector [0; 1; 2].
Proof.
  split; [done |]. split; [| by apply (bool_decide_unpack _)].
  eexists. split_and!; [done.. |]. exists [1; 2], [[1]; [2]]. split_and!; [done.. |].
  repeat constructor; eexists; by split_and!.
Qed.

Lemma register_vector_spec_witness :
  ∃ w' v, aspect_register_vector
      (Vworld (Heap ∅ 0) ∅ 0 (Some (hash_create "type_vector" 11 0)) 18)
      (Some "disasm") (WNum 5) (Some [2; 3]) ["proc"; "op"] 2 6 = Some (w', 0) ∧
    vectors w' !! 0 = Some v ∧ aspect_vectors_select (vheap w') v [1; 2] = Some (WNum 5).
Proof.
  destruct (register_vector_spec
    (Vworld (Heap ∅ 0) ∅ 0 (Some (hash_create (V := Z) "type_vector" 11 0)) 18) ∅
    (hash_create "type_vector" 11 0) "disasm" (WNum 5) [2; 3] ["proc"; "op"] 6)
    as (w' & v & fp & H & _ & Hv & _ & _ & _ & Hs & _).
  - split; [intros b a Hb; simpl in Hb; by rewrite lookup_empty in Hb |].
    simpl. intros t [= <-]. by apply (hash_create_Repr (V := Z)).
  - done.
  - done.
  - done.
  - by repeat constructor.
  - done.
  - exists w', v. split; [exact H | split; [exact Hv |]].
    apply Hs. constructor; [done | constructor; [done | constructor]].
Defined.
