(* ===== verification/AllocProfiler.v ===== *)
(** * The allocation profiler (src/libaspect/profiler.c, first part)

    A window on the last allocations, kept in an array of [PROFILER_MAX_ALLOC]
    entries; every update may emit warnings, some of which end the process.  The
    printing of a message is an event of the log (its text is not modelled). *)
From S2P Require Import Prelude.

Definition PROFILER_WARNING_UNKNOW : Z := 0.
Definition PROFILER_WARNING_LAST : Z := 1.
Definition PROFILER_WARNING_FIRST : Z := 2.
Definition PROFILER_ALLOC_UNKNOW : Z := 0.
Definition PROFILER_ALLOC_LEGIT : Z := 1.
Definition PROFILER_ALLOC_PROXY : Z := 2.
Definition PROFILER_OP_UNKNOW : Z := 0.
Definition PROFILER_OP_ALLOC : Z := 1.
Definition PROFILER_OP_REALLOC : Z := 2.
Definition PROFILER_OP_FREE : Z := 3.
Definition PROFILER_MAX_ALLOC : nat := 2000.
Definition PROFILE_ALLOC : Z := 4.

Record profallocentry_t := Entry {
  alloctype : Z;
  optype : Z;
  filename : string;
  funcname : string;
  linenbr : Z;
  addr : Z;
}.

Definition entry0 : profallocentry_t := Entry 0 0 "" "" 0 0.

(** The messages. *)
Inductive event :=
| OpTrace (func file : string) (line : Z) (free : bool) (a : Z)
| DoubleFree (idx : nat)
| WrongAllocator (idx : nat)
| ReallocNotFound (idx : nat)
| ReallocUnknown (idx : nat)
| ReallocFreed (idx : nat)
| AllocTwice (idx : nat)
| Leak (idx : nat)
| UnknownWarning
| UnknownDirection.

Record profiler := Profiler {
  allocentries : list profallocentry_t;
  profiler_adepth : Z;
  proflevel : Z;
  log : list event;
}.

(** The process after a step: running, or ended by [exit(-1)]. *)
Inductive process := Running (s : profiler) | Exited (s : profiler).

Definition andthen (p : process) (f : profiler → option process) : option process :=
  match p with Running s => f s | Exited s => Some (Exited s) end.

Definition emit (e : event) (s : profiler) : profiler :=
  Profiler (allocentries s) (profiler_adepth s) (proflevel s) (log s ++ [e]).

Definition matches (a otype : Z) (e : profallocentry_t) : bool :=
  (addr e =? a) && (optype e =? otype).

(** [for (index = n; index; index--)] and [for (index = from; n more; index++)];
    an index outside the array is undefined. *)
Fixpoint find_down (s : profiler) (a otype : Z) (index : nat) : option (option nat) :=
  match index with
  | O => Some None
  | S i =>
      e ← allocentries s !! index;
      if matches a otype e then Some (Some index) else find_down s a otype i
  end.

Fixpoint find_up (s : profiler) (a otype : Z) (index n : nat) : option (option nat) :=
  match n with
  | O => Some None
  | S n =>
      e ← allocentries s !! index;
      if matches a otype e then Some (Some index) else find_up s a otype (S index) n
  end.

(** The returned entry is its index, [None] for NULL. *)
Definition profiler_alloc_find (s : profiler) (direction a otype : Z) :
    option (profiler * option nat) :=
  if direction =? PROFILER_WARNING_LAST then
    r ← find_down s a otype (Z.to_nat (u32 (profiler_adepth s - 1))); Some (s, r)
  else if direction =? PROFILER_WARNING_FIRST then
    r ← find_up s a otype 1 (Z.to_nat (profiler_adepth s) - 1); Some (s, r)
  else Some (emit UnknownDirection s, None).

Definition profiler_alloc_warnprint (e : event) (fatal : bool) (s : profiler) : process :=
  if fatal then Exited (emit e s) else Running (emit e s).

(** [p > q] on entry pointers, NULL being the lowest. *)
Definition ptr_gt (p q : option nat) : bool :=
  match p, q with
  | Some i, Some j => bool_decide (j < i)%nat
  | Some _, None => true
  | None, _ => false
  end.

Definition warn_if (c : bool) (e : event) (fatal : bool) (s : profiler) : process :=
  if c then profiler_alloc_warnprint e fatal s else Running s.

(** The checks of the last entry. *)
Definition warning_last (s : profiler) : option process :=
  let d := Z.to_nat (profiler_adepth s) in
  cur ← allocentries s !! d;
  '(s, ent2) ← profiler_alloc_find s PROFILER_WARNING_LAST (addr cur) PROFILER_OP_FREE;
  '(s, ent) ← profiler_alloc_find s PROFILER_WARNING_LAST (addr cur) PROFILER_OP_ALLOC;
  '(s, ent3) ← profiler_alloc_find s PROFILER_WARNING_LAST (addr cur) PROFILER_OP_REALLOC;
  enttype ← match ent with
            | Some i => e ← allocentries s !! i; Some (Some (alloctype e))
            | None => Some None
            end;
  let op := optype cur in
  andthen (warn_if ((op =? PROFILER_OP_FREE) && bool_decide (is_Some ent2) && ptr_gt ent2 ent)
             (DoubleFree d) true s) (λ s,
  andthen (warn_if (((op =? PROFILER_OP_FREE) || (op =? PROFILER_OP_REALLOC)) &&
                    match enttype with Some t => negb (t =? alloctype cur) | None => false end)
             (WrongAllocator d) true s) (λ s,
  andthen (warn_if ((op =? PROFILER_OP_REALLOC) && bool_decide (ent = None))
             (ReallocNotFound d) false s) (λ s,
  andthen (warn_if ((op =? PROFILER_OP_REALLOC) && bool_decide (ent = None) &&
                    bool_decide (ent2 = None))
             (ReallocUnknown d) false s) (λ s,
  andthen (warn_if ((op =? PROFILER_OP_REALLOC) && bool_decide (is_Some ent2) && ptr_gt ent2 ent)
             (ReallocFreed d) true s) (λ s,
  Some (warn_if ((op =? PROFILER_OP_ALLOC) && bool_decide (is_Some ent) &&
                 (ptr_gt ent ent2 || ptr_gt ent ent3))
          (AllocTwice d) true s)))))).

Definition warning_first (s : profiler) : option process :=
  e ← allocentries s !! 0%nat;
  if optype e =? PROFILER_OP_FREE then Some (Running s)
  else
    '(s, ent) ← profiler_alloc_find s PROFILER_WARNING_FIRST (addr e) PROFILER_OP_FREE;
    Some (warn_if (bool_decide (ent = None)) (Leak 0) false s).

Definition profiler_alloc_warning (s : profiler) (warntype : Z) : option process :=
  if (proflevel s &&& PROFILE_ALLOC) =? 0 then Some (Running s)
  else if warntype =? PROFILER_WARNING_LAST then warning_last s
  else if warntype =? PROFILER_WARNING_FIRST then warning_first s
  else Some (Exited (emit UnknownWarning s)).

(** The last entry keeps its place: the loop copies entries 1 to
    [PROFILER_MAX_ALLOC - 1] one down. *)
Definition profiler_alloc_shift (s : profiler) : profiler :=
  let a := allocentries s in
  Profiler (tail a ++ drop (length a - 1) a) (u32 (profiler_adepth s - 1)) (proflevel s) (log s).

Definition profiler_alloc_add (s : profiler) (file func : string) (line a atype otype : Z) :
    option profiler :=
  es ← store (allocentries s) (Z.to_nat (profiler_adepth s)) (Entry atype otype file func line a);
  Some (Profiler es (u32 (profiler_adepth s + 1)) (proflevel s) (log s)).

Definition profiler_alloc_update (s : profiler) (file func : string) (line a atype otype : Z) :
    option (process * Z) :=
  let s := if negb ((proflevel s &&& PROFILE_ALLOC) =? 0)
           then emit (OpTrace func file line (atype =? PROFILER_OP_FREE) a) s else s in
  if negb (u32 (profiler_adepth s + 1) =? Z.of_nat PROFILER_MAX_ALLOC) then
    s ← profiler_alloc_add s file func line a atype otype;
    p ← profiler_alloc_warning s PROFILER_WARNING_LAST;
    Some (p, 0)
  else
    p ← profiler_alloc_warning s PROFILER_WARNING_FIRST;
    p ← andthen p (λ s,
          s ← profiler_alloc_add (profiler_alloc_shift s) file func line a atype otype;
          profiler_alloc_warning s PROFILER_WARNING_LAST);
    Some (p, 1).
