(* ===== verification/AllocProfilerSpec.v ===== *)
(** * The allocation profiler: a sliding window that never looks at its last entry *)
From S2P Require Import Prelude.
From S2P Require Import AllocProfiler.

Implicit Types (s : profiler) (es : list profallocentry_t).

(** The array holds the entries [es], then zeroes; there is room for one more. *)
Definition window s es : Prop :=
  allocentries s = es ++ replicate (PROFILER_MAX_ALLOC - length es) entry0 ∧
  profiler_adepth s = Z.of_nat (length es) ∧ (length es < PROFILER_MAX_ALLOC)%nat.

Lemma max_alloc : PROFILER_MAX_ALLOC = 2000%nat.
Proof. done. Qed.

#[local] Opaque PROFILER_MAX_ALLOC.

(** The entries kept from a history. *)
Definition lastn (n : nat) es : list profallocentry_t := drop (length es - n) es.

(** The events the profiler really emits. *)
Definition harmless (e : event) : Prop :=
  match e with Leak _ | OpTrace _ _ _ _ _ => True | _ => False end.

Lemma window_next s es : window s es → allocentries s !! length es = Some entry0.
Proof.
  intros (-> & _ & Hl). rewrite lookup_app_r, Nat.sub_diag by done.
  apply lookup_replicate. split; [done | lia].
Qed.

Lemma window_length s es : window s es → length (allocentries s) = PROFILER_MAX_ALLOC.
Proof. intros (-> & _ & Hl). rewrite length_app, length_replicate. lia. Qed.

Lemma find_down_total s a o n :
  (n < length (allocentries s))%nat →
  ∃ r, find_down s a o n = Some r ∧ ∀ i, r = Some i → (i ≤ n)%nat.
Proof.
  induction n as [| n IH]; intros Hn; cbn [find_down]; [by exists None |].
  destruct (lookup_lt_is_Some_2 (allocentries s) (S n) Hn) as [e ->]. mstep.
  case_match; [by exists (Some (S n)); split; [done | intros ? [= <-]] |].
  destruct IH as (r & -> & Hr); [lia |]. exists r. split; [done |].
  intros i Hi. specialize (Hr i Hi). lia.
Qed.

Lemma find_up_total s a o n i :
  (i + n ≤ length (allocentries s))%nat → ∃ r, find_up s a o i n = Some r.
Proof.
  revert i. induction n as [| n IH]; intros i Hn; cbn [find_up]; [by exists None |].
  destruct (lookup_lt_is_Some_2 (allocentries s) i) as [e ->]; [lia |]. mstep.
  case_match; [by eexists | apply IH; lia].
Qed.

Lemma find_last_total s es a o :
  window s es → es ≠ [] →
  ∃ r, profiler_alloc_find s PROFILER_WARNING_LAST a o = Some (s, r) ∧
    ∀ i, r = Some i → (i < length es)%nat.
Proof.
  intros Hw Hne. pose proof (window_length _ _ Hw) as Hlen. destruct Hw as (_ & Hd & Hl).
  unfold profiler_alloc_find. cbn [Z.eqb]. rewrite Hd. pose proof max_alloc.
  assert (0 < length es)%nat by (destruct es; simpl; [done | lia]).
  rewrite wrapu_small by lia.
  destruct (find_down_total s a o (Z.to_nat (Z.of_nat (length es) - 1))) as (r & -> & Hr); [lia |].
  mstep. exists r. split; [done |]. intros i Hi. specialize (Hr i Hi). lia.
Qed.

(** The checks of the last entry look one past it, where the array is zero: none
    of them applies. *)
Lemma warning_last_silent s es :
  window s es → es ≠ [] → profiler_alloc_warning s PROFILER_WARNING_LAST = Some (Running s).
Proof.
  intros Hw Hne. unfold profiler_alloc_warning. case_match; [done |]. cbn [Z.eqb].
  unfold warning_last. replace (Z.to_nat (profiler_adepth s)) with (length es).
  2: { destruct Hw as (_ & -> & _). lia. }
  rewrite (window_next _ _ Hw). mstep. cbn [entry0 addr optype].
  destruct (find_last_total s es 0 PROFILER_OP_FREE Hw Hne) as (r2 & -> & _). mstep.
  destruct (find_last_total s es 0 PROFILER_OP_ALLOC Hw Hne) as (r1 & -> & Hr1). mstep.
  destruct (find_last_total s es 0 PROFILER_OP_REALLOC Hw Hne) as (r3 & -> & _). mstep.
  destruct r1 as [i |]; [| done].
  destruct (lookup_lt_is_Some_2 (allocentries s) i) as [e ->]; [| done].
  rewrite (window_length _ _ Hw). specialize (Hr1 i eq_refl). destruct Hw as (_ & _ & ?). lia.
Qed.

Lemma emit_window s es e : window s es → window (emit e s) es.
Proof. done. Qed.

Lemma window_add s es file func line a atype otype :
  window s es → (S (length es) < PROFILER_MAX_ALLOC)%nat →
  ∃ s', profiler_alloc_add s file func line a atype otype = Some s' ∧
    window s' (es ++ [Entry atype otype file func line a]) ∧
    log s' = log s ∧ proflevel s' = proflevel s.
Proof.
  intros Hw Hlt. pose proof (window_length _ _ Hw) as Hlen. destruct Hw as (He & Hd & Hl).
  unfold profiler_alloc_add. rewrite Hd, Nat2Z.id, store_Some by lia. mstep.
  eexists. split; [done |]. split; [| done]. unfold window. split_and!; simpl.
  - rewrite He, insert_app_r_alt, Nat.sub_diag, length_app by lia. simpl.
    replace (PROFILER_MAX_ALLOC - length es)%nat
      with (S (PROFILER_MAX_ALLOC - (length es + 1))) by lia.
    simpl. by rewrite <-app_assoc.
  - rewrite length_app. simpl. pose proof max_alloc. rewrite wrapu_small by lia. lia.
  - rewrite length_app. simpl. lia.
Qed.

Lemma window_shift s e es :
  window s (e :: es) → length (e :: es) = (PROFILER_MAX_ALLOC - 1)%nat →
  window (profiler_alloc_shift s) es.
Proof.
  intros (He & Hd & Hl) Hfull. unfold window, profiler_alloc_shift. simpl. rewrite He.
  rewrite Hfull. cbn [app tail]. replace (PROFILER_MAX_ALLOC - (PROFILER_MAX_ALLOC - 1))%nat with 1%nat
    by (pose proof max_alloc; lia).
  simpl in Hfull, Hl. split_and!.
  - cbn [replicate length]. rewrite length_app. simpl. rewrite <-app_assoc. f_equal.
    replace (length es + 1 - 0)%nat with (S (length es)) by lia. cbn [drop].
    rewrite drop_app_length. cbn [app].
    replace (PROFILER_MAX_ALLOC - length es)%nat with 2%nat by lia. done.
  - rewrite Hd. simpl. pose proof max_alloc. rewrite wrapu_small by lia. lia.
  - lia.
Qed.

(** One call: a window of [PROFILER_MAX_ALLOC - 1] operations slides over the
    history, and nothing but a trace and a leak is reported. *)
Lemma update_spec s hist file func line a atype otype :
  window s (lastn (PROFILER_MAX_ALLOC - 1) hist) → Forall harmless (log s) →
  ∃ s' r, profiler_alloc_update s file func line a atype otype = Some (Running s', r) ∧
    window s' (lastn (PROFILER_MAX_ALLOC - 1) (hist ++ [Entry atype otype file func line a])) ∧
    Forall harmless (log s') ∧ proflevel s' = proflevel s ∧
    (r = 1 ↔ (PROFILER_MAX_ALLOC - 1 ≤ length hist)%nat).
Proof.
  intros Hw Hlog. pose proof max_alloc as HM. unfold profiler_alloc_update.
  set (s0 := if negb _ then _ else s).
  assert (window s0 (lastn (PROFILER_MAX_ALLOC - 1) hist) ∧ Forall harmless (log s0) ∧
          proflevel s0 = proflevel s) as (Hw0 & Hlog0 & <-).
  { unfold s0. case_match; [| done]. split_and!; [by apply emit_window | | done].
    apply Forall_app. split; [done |]. by repeat constructor. }
  clearbody s0. clear Hw Hlog s. rename s0 into s, Hw0 into Hw, Hlog0 into Hlog.
  assert (length (lastn (PROFILER_MAX_ALLOC - 1) hist) =
          Nat.min (PROFILER_MAX_ALLOC - 1) (length hist)) as Hlen.
  { unfold lastn. rewrite length_drop. lia. }
  assert (profiler_adepth s = Z.of_nat (Nat.min (PROFILER_MAX_ALLOC - 1) (length hist))) as Hd.
  { rewrite <-Hlen. apply Hw. }
  rewrite wrapu_small by lia. case_match eqn:Hfull.
  - apply negb_true_iff, Z.eqb_neq in Hfull.
    destruct (window_add s _ file func line a atype otype Hw) as (s1 & -> & Hw1 & Hl1 & Hp1).
    { rewrite Hlen. lia. }
    mstep. rewrite (warning_last_silent _ _ Hw1) by (by destruct (lastn _ hist)). mstep.
    exists s1, 0. split_and!; [done | | by rewrite Hl1 | done | split; [done |]; lia].
    unfold lastn in *. rewrite !length_app, skipn_app. simpl length.
    replace (length hist + 1 - (PROFILER_MAX_ALLOC - 1))%nat with 0%nat by lia.
    replace (length hist - (PROFILER_MAX_ALLOC - 1))%nat with 0%nat in Hw1 by lia. done.
  - apply negb_false_iff, Z.eqb_eq in Hfull.
    assert (1999 ≤ length hist)%nat as Hlong by lia.
    destruct (lastn (PROFILER_MAX_ALLOC - 1) hist) as [| e0 es] eqn:He; [simpl in Hlen; lia |].
    assert (∃ s1, profiler_alloc_warning s PROFILER_WARNING_FIRST = Some (Running s1) ∧
      window s1 (e0 :: es) ∧ Forall harmless (log s1) ∧ proflevel s1 = proflevel s)
      as (s1 & -> & Hw1 & Hlog1 & Hp1).
    { unfold profiler_alloc_warning.
      destruct (proflevel s &&& PROFILE_ALLOC =? 0); [by exists s |].
      change (PROFILER_WARNING_FIRST =? PROFILER_WARNING_LAST) with false.
      change (PROFILER_WARNING_FIRST =? PROFILER_WARNING_FIRST) with true. cbn match.
      unfold warning_first. pose proof Hw as (Hes & _). rewrite Hes. cbn [app lookup list_lookup].
      mstep. destruct (optype e0 =? PROFILER_OP_FREE); [by exists s |]. unfold profiler_alloc_find.
      change (PROFILER_WARNING_FIRST =? PROFILER_WARNING_LAST) with false.
      change (PROFILER_WARNING_FIRST =? PROFILER_WARNING_FIRST) with true. cbn match.
      destruct (find_up_total s (addr e0) PROFILER_OP_FREE (Z.to_nat (profiler_adepth s) - 1) 1)
        as (r & ->); [rewrite (window_length _ _ Hw), Hd; lia |].
      mstep. unfold warn_if. destruct (bool_decide (r = None)); [| by exists s].
      exists (emit (Leak 0) s). split_and!; [done | by apply emit_window | | done].
      apply Forall_app. split; [done |]. by repeat constructor. }
    mstep. cbn [andthen].
    assert (length (e0 :: es) = (PROFILER_MAX_ALLOC - 1)%nat) as Hfl.
    { rewrite Hlen. lia. }
    pose proof (window_shift s1 e0 es Hw1 Hfl) as Hw2.
    destruct (window_add _ _ file func line a atype otype Hw2) as (s3 & -> & Hw3 & Hl3 & Hp3).
    { simpl in Hfl. lia. }
    mstep. rewrite (warning_last_silent _ _ Hw3) by (by destruct es). mstep.
    exists s3, 1. split_and!; [done | | by rewrite Hl3 | by rewrite Hp3 | ].
    2: { split; [intros _; lia | done]. }
    replace (lastn (PROFILER_MAX_ALLOC - 1) (hist ++ [Entry atype otype file func line a]))
      with (es ++ [Entry atype otype file func line a]); [done |].
    unfold lastn in *. rewrite length_app. simpl length.
    replace (length hist + 1 - (PROFILER_MAX_ALLOC - 1))%nat
      with (S (length hist - (PROFILER_MAX_ALLOC - 1))) by lia.
    rewrite skipn_app. replace (S (length hist - _) - length hist)%nat with 0%nat
      by lia.
    rewrite <-(Nat.add_1_r (length hist - _)), <-drop_drop, He. done.
Qed.

(** ** Properties *)

(** A call of the profiler by one of the allocation macros. *)
Record call := Call { c_file : string; c_func : string; c_line : Z; c_addr : Z; c_atype : Z; c_otype : Z }.

Definition entry_of (c : call) : profallocentry_t :=
  Entry (c_atype c) (c_otype c) (c_file c) (c_func c) (c_line c) (c_addr c).

Fixpoint updates s (l : list call) : option process :=
  match l with
  | [] => Some (Running s)
  | c :: l =>
      '(p, _) ← profiler_alloc_update s (c_file c) (c_func c) (c_line c) (c_addr c) (c_atype c) (c_otype c);
      andthen p (λ s, updates s l)
  end.

Definition profiler0 (level : Z) : profiler :=
  Profiler (replicate PROFILER_MAX_ALLOC entry0) 0 level [].

(** C8. Whatever the calls, the cache holds the last 1999 of them in order and the
    process is never ended: of the warnings on the last entry (double free, wrong
    allocator, unknown or freed reallocation, double allocation) none is ever
    emitted, since the checks read the zeroed entry after the last one. *)
Theorem profiler_window (l : list call) level :
  ∃ s, updates (profiler0 level) l = Some (Running s) ∧
    window s (lastn (PROFILER_MAX_ALLOC - 1) (entry_of <$> l)) ∧ Forall harmless (log s).
Proof.
  assert (∀ l s hist, window s (lastn (PROFILER_MAX_ALLOC - 1) hist) → Forall harmless (log s) →
    ∃ s', updates s l = Some (Running s') ∧
      window s' (lastn (PROFILER_MAX_ALLOC - 1) (hist ++ (entry_of <$> l))) ∧
      Forall harmless (log s')) as H.
  { clear. intros l. induction l as [| c l IH]; intros s hist Hw Hlog.
    { exists s. by rewrite app_nil_r. }
    cbn [updates]. destruct (update_spec s hist (c_file c) (c_func c) (c_line c) (c_addr c)
      (c_atype c) (c_otype c) Hw Hlog) as (s1 & r & -> & Hw1 & Hlog1 & _). mstep.
    destruct (IH s1 _ Hw1 Hlog1) as (s' & H1 & H2 & H3). exists s'. split_and!; [done | | done].
    by rewrite <-app_assoc in H2. }
  destruct (H l (profiler0 level) []) as (s & ? & ? & ?); [| done | by exists s].
  unfold window. simpl. pose proof max_alloc. split_and!; [by rewrite Nat.sub_0_r | done | lia].
Qed.
