(* ===== verification/Config.v ===== *)
(** * Configuration items and profiling level (src/libaspect/config.c, init.c)

    Items live at addresses and are found by name through the table
    [aspectworld.config_hash], any implementation of the dictionary interface. *)
From S2P Require Import Prelude.
From S2P Require Import Table.

(** A [void *] argument: a number cast to a pointer, or a string. *)
Inductive cdata := CNum (n : Z) | CStr (s : string).

Definition CONFIG_TYPE_INT : Z := 0.
Definition CONFIG_TYPE_STR : Z := 1.
Definition CONFIG_MODE_RW : Z := 0.
Definition CONFIG_MODE_RO : Z := 1.

Record configitem_t := Item {
  iname : string;
  itype : Z;
  ival : Z;
  imode : Z;
  idata : option string;
}.

Definition CONFIG_NAME_SAFEMODE : string := "safemode".
Definition CONFIG_SAFEMODE_OFF : Z := 0.
Definition CONFIG_SAFEMODE_ON : Z := 1.
Definition CONFIG_CFGDEPTH : string := "mjr.cfg_depth".
Definition CONFIG_CFGDEPTH_DEFAULT : Z := 1.
Definition CONFIG_ASM_ENDIAN_FLAG : string := "libasm.endian.flag".
Definition CONFIG_ASM_LITTLE_ENDIAN : Z := 0.
Definition CONFIG_ASM_ATT_MARGIN_FLAG : string := "libasm.output.att.margin".
Definition CONFIG_ASM_ATT_MARGIN_DEFAULT : Z := 14.
Definition CONFIG_ASM_SYNTHINSTRS : string := "libasm.output.synth.instrs".
Definition CONFIG_ASM_SYNTHINSTRS_DEFAULT : Z := 1.
Definition CONFIG_HASH_SIZE : Z := 256.

Definition PROFILE_NONE : Z := 0.
Definition PROFILE_WARN : Z := 1.
Definition PROFILE_FUNCS : Z := 2.
Definition PROFILE_ALLOC : Z := 4.
Definition PROFILE_DEBUG : Z := 8.

(** The conversion of a string's address to [int], and of a number to the string
    [strdup] reads, are undefined here. *)
Definition config_update_item (item : configitem_t) (data : cdata) : option configitem_t :=
  if itype item =? CONFIG_TYPE_INT then
    match data with
    | CNum n => Some (Item (iname item) (itype item) (u32 (i32 n)) (imode item) (idata item))
    | CStr _ => None
    end
  else if itype item =? CONFIG_TYPE_STR then
    match data with
    | CStr s => Some (Item (iname item) (itype item) (ival item) (imode item) (Some s))
    | CNum _ => None
    end
  else Some item.

Section config.
Context {T : Type → Type} `{!Table T}.

Record aspectworld := World {
  items : gmap Z configitem_t;
  ibrk : Z;
  config_hash : T Z;
  proflevel : Z;
}.

Definition set_item (p : Z) (i : configitem_t) (w : aspectworld) : aspectworld :=
  World (<[p := i]> (items w)) (ibrk w) (config_hash w) (proflevel w).
Definition set_config_hash (t : T Z) (w : aspectworld) : aspectworld :=
  World (items w) (ibrk w) t (proflevel w).
Definition set_proflevel (l : Z) (w : aspectworld) : aspectworld :=
  World (items w) (ibrk w) (config_hash w) l.

Definition config_add_item (w : aspectworld) (name : string) (type mode : Z) (data : cdata) :
    option aspectworld :=
  let tmp := ibrk w in
  item ← config_update_item (Item name (u32 type) (u32 (-1)) (u32 mode) None) data;
  let w := World (<[tmp := item]> (items w)) (tmp + 1) (config_hash w) (proflevel w) in
  e ← t_get (config_hash w) (iname item);
  match e with
  | None => '(t, _) ← t_add (config_hash w) (iname item) (Some tmp); Some (set_config_hash t w)
  | Some _ => Some w
  end.

Definition config_update_key (w : aspectworld) (name : string) (data : cdata) :
    option aspectworld :=
  tmp ← t_get (config_hash w) name;
  match tmp with
  | None => Some w
  | Some tmp =>
      item ← items w !! tmp;
      item ← config_update_item item data;
      let w := set_item tmp item w in
      '(t, _) ← t_del (T := T) (config_hash w) name;
      '(t, _) ← t_add (T := T) t (iname item) (Some tmp);
      Some (set_config_hash t w)
  end.

(** A number cast to a pointer, a string, or NULL. *)
Definition config_get_data (w : aspectworld) (name : string) : option (option cdata) :=
  item ← t_get (config_hash w) name;
  match item with
  | None => Some None
  | Some p =>
      item ← items w !! p;
      Some (if itype item =? CONFIG_TYPE_INT then Some (CNum (ival item))
            else if itype item =? CONFIG_TYPE_STR then CStr <$> idata item
            else None)
  end.

Definition config_safemode_set (w : aspectworld) : option aspectworld :=
  config_update_key w CONFIG_NAME_SAFEMODE (CNum CONFIG_SAFEMODE_ON).

Definition config_safemode_reset (w : aspectworld) : option aspectworld :=
  config_update_key w CONFIG_NAME_SAFEMODE (CNum CONFIG_SAFEMODE_OFF).

(** [(int)] of the pointer; the address of a string is undefined here. *)
Definition config_safemode (w : aspectworld) : option Z :=
  d ← config_get_data w CONFIG_NAME_SAFEMODE;
  match d with
  | None => Some 0
  | Some (CNum n) => Some (i32 n)
  | Some (CStr _) => None
  end.

(** ** Profiling level, an [u_char] *)

Definition profiler_enable_err (w : aspectworld) : aspectworld :=
  set_proflevel (u8 (proflevel w ||| PROFILE_WARN)) w.
Definition profiler_enable_out (w : aspectworld) : aspectworld :=
  set_proflevel (u8 (proflevel w ||| PROFILE_FUNCS)) w.
Definition profiler_enable_alloc (w : aspectworld) : aspectworld :=
  set_proflevel (u8 (proflevel w ||| PROFILE_ALLOC)) w.
Definition profiler_enable_debug (w : aspectworld) : aspectworld :=
  set_proflevel (u8 (proflevel w ||| PROFILE_DEBUG)) w.
Definition profiler_disable_err (w : aspectworld) : aspectworld :=
  set_proflevel (u8 (proflevel w &&& Z.lnot PROFILE_WARN)) w.
Definition profiler_disable_out (w : aspectworld) : aspectworld :=
  set_proflevel (u8 (proflevel w &&& Z.lnot PROFILE_FUNCS)) w.
Definition profiler_disable_alloc (w : aspectworld) : aspectworld :=
  set_proflevel (u8 (proflevel w &&& Z.lnot PROFILE_ALLOC)) w.
Definition profiler_disable_debug (w : aspectworld) : aspectworld :=
  set_proflevel (u8 (proflevel w &&& Z.lnot PROFILE_DEBUG)) w.
Definition profiler_disable_all (w : aspectworld) : aspectworld := set_proflevel PROFILE_NONE w.
Definition profiler_enable_all (w : aspectworld) : aspectworld :=
  profiler_enable_alloc (profiler_enable_out (profiler_enable_err w)).
Definition profiler_enabled (w : aspectworld) : Z := proflevel w.
Definition profiler_is_enabled (w : aspectworld) (mask : Z) : Z := proflevel w &&& mask.

(** ** Initialisation *)

Definition aspect_config_init : option aspectworld :=
  let w := World ∅ 0 (t_create "configuration" CONFIG_HASH_SIZE 0) PROFILE_NONE in
  w ← config_add_item w CONFIG_CFGDEPTH CONFIG_TYPE_INT CONFIG_MODE_RW (CNum CONFIG_CFGDEPTH_DEFAULT);
  w ← config_add_item w CONFIG_NAME_SAFEMODE CONFIG_TYPE_INT CONFIG_MODE_RW (CNum CONFIG_SAFEMODE_OFF);
  w ← config_add_item w CONFIG_ASM_ENDIAN_FLAG CONFIG_TYPE_INT CONFIG_MODE_RW
        (CNum CONFIG_ASM_LITTLE_ENDIAN);
  w ← config_add_item w CONFIG_ASM_ATT_MARGIN_FLAG CONFIG_TYPE_INT CONFIG_MODE_RW
        (CNum CONFIG_ASM_ATT_MARGIN_DEFAULT);
  config_add_item w CONFIG_ASM_SYNTHINSTRS CONFIG_TYPE_INT CONFIG_MODE_RW
    (CNum CONFIG_ASM_SYNTHINSTRS_DEFAULT).

End config.

Arguments aspectworld : clear implicits.
