(* ===== verification/ConfigSpec.v ===== *)
(** * Configuration: what is set is what is got, over any dictionary *)
From S2P Require Import Prelude.
From S2P Require Import Table.
From S2P Require Import Hash.
From S2P Require Import HashSpec.
From S2P Require Import Config.

Section spec.
Context {T : Type → Type} `{!Table T}.
Implicit Types (w : aspectworld T) (m : gmap string Z).

(** The names of the table are those of the items they lead to, at distinct
    addresses below the next free one. *)
Record config_ok w m : Prop := {
  co_repr : t_repr (config_hash w) m;
  co_item name p : m !! name = Some p → ∃ i, items w !! p = Some i ∧ iname i = name;
  co_fresh p i : items w !! p = Some i → p < ibrk w;
}.

(** What [config_get_data] answers on an item. *)
Definition item_data (i : configitem_t) : option cdata :=
  if itype i =? CONFIG_TYPE_INT then Some (CNum (ival i))
  else if itype i =? CONFIG_TYPE_STR then CStr <$> idata i
  else None.

(** The data fits the type of the item. *)
Definition data_fits (type : Z) (d : cdata) : Prop :=
  match d with
  | CNum n => type = CONFIG_TYPE_INT ∧ 0 ≤ n < 2 ^ 32
  | CStr _ => type = CONFIG_TYPE_STR
  end.

Lemma config_get_ok w m name :
  config_ok w m →
  config_get_data w name = Some (p ← m !! name; i ← items w !! p; item_data i).
Proof.
  intros [Hr Hi _]. unfold config_get_data. table_step.
  destruct (m !! name) as [p |] eqn:Hm; [| done]. mstep.
  destruct (Hi _ _ Hm) as (i & -> & _). done.
Qed.

Lemma update_item_fits i d :
  data_fits (itype i) d →
  ∃ i', config_update_item i d = Some i' ∧ iname i' = iname i ∧ itype i' = itype i ∧
    imode i' = imode i ∧ item_data i' = Some d.
Proof.
  unfold config_update_item, item_data. destruct d as [n | s]; simpl.
  - intros [-> Hn]. eexists. split; [done |]. simpl. by rewrite wrapu_wraps, wrapu_small.
  - intros ->. eexists. by split.
Qed.

(** [config_add_item] of a value that fits its type makes [config_get_data]
    answer that value when the name is new, and changes nothing to what it answers
    otherwise. *)
Lemma config_add_get w m name type mode d :
  config_ok w m → 0 ≤ type < 2 ^ 32 → data_fits type d →
  ∃ w', config_add_item w name type mode d = Some w' ∧
    config_ok w' (if bool_decide (m !! name = None) then <[name := ibrk w]> m else m) ∧
    (∀ p j, items w' !! p = Some j → items w !! p = Some j ∨ itype j = type) ∧
    ∀ name', config_get_data w' name' =
      if bool_decide (name' = name ∧ m !! name = None) then Some (Some d)
      else config_get_data w name'.
Proof.
  intros Hok Hty Hd. pose proof Hok as [Hr Hi Hf]. unfold config_add_item.
  destruct (update_item_fits (Item name (u32 type) (u32 (-1)) (u32 mode) None) d)
    as (i & -> & Hn & Hit & _ & Hid); [simpl; by rewrite wrapu_small |].
  mstep. cbn [config_hash]. simpl in Hn. rewrite Hn. table_step.
  simpl in Hit. rewrite wrapu_small in Hit by done.
  assert (∀ p j, (<[ibrk w := i]> (items w)) !! p = Some j → items w !! p = Some j ∨ itype j = type)
    as Htypes.
  { intros p j [(_ & <-) | (_ & Hp)]%lookup_insert_Some; [by right | by left]. }
  assert (items w !! ibrk w = None) as Hnew.
  { destruct (items w !! ibrk w) eqn:He; [| done]. specialize (Hf _ _ He). lia. }
  assert (∀ p j, items w !! p = Some j → (<[ibrk w := i]> (items w)) !! p = Some j) as Hkeep.
  { intros p j Hp. rewrite lookup_insert_ne; [done |]. intros <-. congruence. }
  assert (∀ p j, (<[ibrk w := i]> (items w)) !! p = Some j → p < ibrk w + 1) as Hf'.
  { intros p j [(<- & _) | (_ & Hp)]%lookup_insert_Some; [lia |]. specialize (Hf _ _ Hp). lia. }
  destruct (m !! name) as [p |] eqn:Hm.
  - eexists. split; [done |]. rewrite bool_decide_false by done.
    assert (config_ok (World (<[ibrk w := i]> (items w)) (ibrk w + 1) (config_hash w) (proflevel w)) m)
      as Hok'.
    { split; simpl; [done | | done]. intros nm q Hq. destruct (Hi _ _ Hq) as (j & Hj & ?).
      exists j. split; [by apply Hkeep | done]. }
    split_and!; [done | done |]. intros nm. rewrite bool_decide_false by by intros [_ ?].
    rewrite (config_get_ok _ _ _ Hok'), (config_get_ok _ _ _ Hok). cbn [items].
    destruct (m !! nm) as [q |] eqn:Hq; [| done]. mstep.
    destruct (Hi _ _ Hq) as (j & Hj & _). by rewrite Hj, (Hkeep _ _ Hj).
  - table_step. unfold set_config_hash. cbn [items ibrk proflevel].
    eexists. split; [done |]. rewrite bool_decide_true by done.
    assert (config_ok (World (<[ibrk w := i]> (items w)) (ibrk w + 1) h (proflevel w))
              (<[name := ibrk w]> m)) as Hok'.
    { split; simpl; [done | | done].
      intros nm q [(<- & <-) | (_ & Hq)]%lookup_insert_Some.
      - exists i. by rewrite lookup_insert_eq.
      - destruct (Hi _ _ Hq) as (j & Hj & ?). exists j. split; [by apply Hkeep | done]. }
    split_and!; [done | done |]. intros nm.
    rewrite (config_get_ok _ _ _ Hok'), (config_get_ok _ _ _ Hok). cbn [items].
    case_bool_decide as Hc.
    + destruct Hc as [-> _]. rewrite lookup_insert_eq. mstep. rewrite lookup_insert_eq. mstep.
      by rewrite Hid.
    + rewrite lookup_insert_ne by (intros ->; by apply Hc).
      destruct (m !! nm) as [q |] eqn:Hq; [| done]. mstep.
      destruct (Hi _ _ Hq) as (j & Hj & _). by rewrite Hj, (Hkeep _ _ Hj).
Qed.

(** [config_update_key] makes [config_get_data] answer the new value for an
    item of that name, whatever its mode (read-only items too), and leaves every
    other name alone; an unknown name is ignored. *)
Lemma config_update_get w m name d :
  config_ok w m →
  (∀ p i, m !! name = Some p → items w !! p = Some i → data_fits (itype i) d) →
  ∃ w', config_update_key w name d = Some w' ∧ config_ok w' m ∧
    ∀ name', config_get_data w' name' =
      if bool_decide (name' = name ∧ is_Some (m !! name)) then Some (Some d)
      else config_get_data w name'.
Proof.
  intros Hok Hfit. pose proof Hok as [Hr Hi Hf]. unfold config_update_key. table_step.
  destruct (m !! name) as [p |] eqn:Hm.
  2: { exists w. split_and!; [done | done |]. intros nm.
       by rewrite bool_decide_false by by intros [_ [? ?]]. }
  destruct (Hi _ _ Hm) as (i & Hp & Hn). rewrite Hp. mstep.
  destruct (update_item_fits i d (Hfit _ _ eq_refl Hp)) as (i' & -> & Hn' & _ & _ & Hid). mstep.
  cbn [set_item config_hash]. table_step. rewrite Hn', Hn. table_step.
  eexists. split; [done |].
  rewrite insert_delete_eq, (insert_id m name p Hm) in *.
  assert (config_ok (World (<[p := i']> (items w)) (ibrk w) h0 (proflevel w)) m) as Hok'.
  { split; simpl; [done | |].
    - intros nm q Hq. destruct (Hi _ _ Hq) as (j & Hj & Hnj).
      destruct (decide (q = p)) as [-> | Hne].
      + exists i'. rewrite lookup_insert_eq. split; [done |]. congruence.
      + exists j. by rewrite lookup_insert_ne.
    - intros q j [(<- & _) | (_ & Hq)]%lookup_insert_Some; eauto. }
  split; [done |]. intros nm. rewrite (config_get_ok _ _ _ Hok'), (config_get_ok _ _ _ Hok).
  cbn [items]. case_bool_decide as Hc.
  - destruct Hc as [-> _]. rewrite Hm. mstep. rewrite lookup_insert_eq. mstep. by rewrite Hid.
  - destruct (m !! nm) as [q |] eqn:Hq; [| done]. mstep.
    rewrite lookup_insert_ne; [done |]. intros <-. apply Hc. split; [| by eexists].
    destruct (Hi _ _ Hq) as (j & Hj & Hnj). congruence.
Qed.

(** An item that answers a number has the type of numbers. *)
Lemma item_data_num i n : item_data i = Some (CNum n) → itype i = CONFIG_TYPE_INT.
Proof.
  unfold item_data. case_match eqn:Ht; [by apply Z.eqb_eq in Ht |].
  case_match; [| done]. by destruct (idata i).
Qed.

Lemma safemode_update w m n n' :
  config_ok w m → config_get_data w CONFIG_NAME_SAFEMODE = Some (Some (CNum n)) →
  0 ≤ n' < 2 ^ 31 →
  ∃ w', config_update_key w CONFIG_NAME_SAFEMODE (CNum n') = Some w' ∧ config_ok w' m ∧
    config_get_data w' CONFIG_NAME_SAFEMODE = Some (Some (CNum n')).
Proof.
  intros Hok Hg Hn. rewrite (config_get_ok _ _ _ Hok) in Hg.
  destruct (m !! CONFIG_NAME_SAFEMODE) as [p |] eqn:Hp; [| done].
  destruct (co_item _ _ Hok _ _ Hp) as (i & Hi & _). simpl in Hg. rewrite Hi in Hg. simpl in Hg.
  destruct (config_update_get w m CONFIG_NAME_SAFEMODE (CNum n') Hok) as (w' & H1 & H2 & H3).
  - intros q j Hq Hj. simplify_eq. split; [by eapply item_data_num | lia].
  - exists w'. split_and!; [done.. |]. rewrite H3, bool_decide_true; [done |]. by rewrite Hp.
Qed.

(** What is set is what is got: [config_add_item] of a value that fits its
    type makes [config_get_data] answer it under a new name and never overwrites
    an existing item; [config_update_key] makes it answer the new value under the
    name of an existing item, read-only or not, and ignores an unknown name.  No
    other name is concerned. *)
Lemma config_set_get w m name type mode d :
  config_ok w m → 0 ≤ type < 2 ^ 32 → data_fits type d →
  (∃ w', config_add_item w name type mode d = Some w' ∧
     ∀ name', config_get_data w' name' =
       if bool_decide (name' = name ∧ m !! name = None) then Some (Some d)
       else config_get_data w name') ∧
  ((∀ p i, m !! name = Some p → items w !! p = Some i → itype i = type) →
   ∃ w', config_update_key w name d = Some w' ∧ config_ok w' m ∧
     ∀ name', config_get_data w' name' =
       if bool_decide (name' = name ∧ is_Some (m !! name)) then Some (Some d)
       else config_get_data w name').
Proof.
  intros Hok Hty Hd. split.
  - destruct (config_add_get w m name type mode d Hok Hty Hd) as (w' & ? & _ & _ & ?). eauto.
  - intros Hi. apply config_update_get; [done |]. intros p i Hp Hpi. by rewrite (Hi p i Hp Hpi).
Qed.

(** Adding a number under a new name to a table of numbers. *)
Definition int_items w : Prop := ∀ p i, items w !! p = Some i → itype i = CONFIG_TYPE_INT.

Lemma config_add_int w m name n :
  config_ok w m → int_items w → m !! name = None → 0 ≤ n < 2 ^ 32 →
  ∃ w', config_add_item w name CONFIG_TYPE_INT CONFIG_MODE_RW (CNum n) = Some w' ∧
    config_ok w' (<[name := ibrk w]> m) ∧ int_items w' ∧
    config_get_data w' name = Some (Some (CNum n)) ∧
    ∀ name', name' ≠ name → config_get_data w' name' = config_get_data w name'.
Proof.
  intros Hok Hint Hm Hn.
  destruct (config_add_get w m name CONFIG_TYPE_INT CONFIG_MODE_RW (CNum n) Hok)
    as (w' & ? & Hok' & Hty & Hg); [done | done |].
  rewrite bool_decide_true in Hok' by done. exists w'. split_and!; [done | done | | |].
  - intros p j Hp. destruct (Hty p j Hp) as [Hj | Hj]; [by eapply Hint | done].
  - by rewrite Hg, bool_decide_true.
  - intros nm Hne. by rewrite Hg, bool_decide_false by by intros [].
Qed.

(** The initialisation adds five numbers. *)
Lemma config_init_ok :
  ∃ w m, aspect_config_init (T := T) = Some w ∧ config_ok w m ∧ int_items w ∧
    config_get_data w CONFIG_NAME_SAFEMODE = Some (Some (CNum CONFIG_SAFEMODE_OFF)).
Proof.
  unfold aspect_config_init. set (w0 := World _ _ _ _). assert (config_ok w0 ∅) as H0.
  { split; simpl; [by apply t_create_repr | |]; intros ? ? Hx; by rewrite lookup_empty in Hx. }
  assert (int_items w0) as I0 by (intros ? ? Hx; simpl in Hx; by rewrite lookup_empty in Hx).
  clearbody w0.
  destruct (config_add_int w0 _ CONFIG_CFGDEPTH CONFIG_CFGDEPTH_DEFAULT H0 I0)
    as (w1 & -> & H1 & I1 & _); [by rewrite ?lookup_insert_ne, lookup_empty by done | done |]. mstep.
  destruct (config_add_int w1 _ CONFIG_NAME_SAFEMODE CONFIG_SAFEMODE_OFF H1 I1)
    as (w2 & -> & H2 & I2 & G2 & _); [by rewrite ?lookup_insert_ne, lookup_empty by done | done |]. mstep.
  destruct (config_add_int w2 _ CONFIG_ASM_ENDIAN_FLAG CONFIG_ASM_LITTLE_ENDIAN H2 I2)
    as (w3 & -> & H3 & I3 & _ & G3); [by rewrite ?lookup_insert_ne, lookup_empty by done | done |]. mstep.
  destruct (config_add_int w3 _ CONFIG_ASM_ATT_MARGIN_FLAG CONFIG_ASM_ATT_MARGIN_DEFAULT H3 I3)
    as (w4 & -> & H4 & I4 & _ & G4); [by rewrite ?lookup_insert_ne, lookup_empty by done | done |]. mstep.
  destruct (config_add_int w4 _ CONFIG_ASM_SYNTHINSTRS CONFIG_ASM_SYNTHINSTRS_DEFAULT H4 I4)
    as (w5 & -> & H5 & I5 & _ & G5); [by rewrite ?lookup_insert_ne, lookup_empty by done | done |].
  eexists w5, _. split_and!; [done | exact H5 | done |]. by rewrite G5, G4, G3 by done.
Qed.

(** After the initialisation of the library safe mode is off;
    [config_safemode_set] turns it on and [config_safemode_reset] off again, and
    [config_safemode] tells. *)
Lemma safemode_switch :
  ∃ w w1 w2, aspect_config_init (T := T) = Some w ∧ config_safemode w = Some 0 ∧
    config_safemode_set w = Some w1 ∧ config_safemode w1 = Some 1 ∧
    config_safemode_reset w1 = Some w2 ∧ config_safemode w2 = Some 0.
Proof.
  destruct config_init_ok as (w5 & m & E & H5 & _ & Hg5).
  destruct (safemode_update w5 _ _ CONFIG_SAFEMODE_ON H5 Hg5) as (w6 & E6 & H6 & Hg6); [done |].
  destruct (safemode_update w6 _ _ CONFIG_SAFEMODE_OFF H6 Hg6) as (w7 & E7 & H7 & Hg7); [done |].
  exists w5, w6, w7. split; [done |].
  unfold config_safemode, config_safemode_set, config_safemode_reset.
  by rewrite Hg5, E6, Hg6, E7, Hg7.
Qed.

End spec.

