(* ===== verification/Gdbwrap.v ===== *)
(** * The GDB remote protocol (src/libgdbwrap/gdbwrapper.c)

    A C string is the list of its bytes before the NUL; a buffer is the list of
    all its bytes.  The connection is what the calls of [recv] and [send] will
    return and what [send] has sent.  [None] is a behaviour C leaves undefined, a failed
    assertion, or a call of [recv] that never returns. *)
From S2P Require Import Prelude.

(** ** Strings *)

Fixpoint prefix_of (pat s : list Z) : bool :=
  match pat, s with
  | [], _ => true
  | p :: pat, c :: s => (p =? c) && prefix_of pat s
  | _ :: _, [] => false
  end.

(** [strstr]: what precedes the first occurrence, and the string from it on. *)
Fixpoint strstr (s pat : list Z) : option (list Z * list Z) :=
  if prefix_of pat s then Some ([], s)
  else match s with
       | [] => None
       | c :: s => '(l, r) ← strstr s pat; Some (c :: l, r)
       end.

(** Writing a string and its NUL at the start of a buffer. *)
Definition write_cstr (buf s : list Z) : option (list Z) :=
  if bool_decide (length s < length buf)%nat then Some (s ++ 0 :: drop (S (length s)) buf)
  else None.

Definition GDBWRAP_BEGIN_PACKET := bytes "$".
Definition GDBWRAP_END_PACKET := bytes "#".
Definition GDBWRAP_START_ENCODC : Z := 42.
Definition GDBWRAP_END_PACKETC : Z := 35.
Definition GDBWRAP_COR_CHECKSUMC : Z := 43.
Definition GDBWRAP_BAD_CHECKSUM : Z := 45.
Definition GDBWRAP_SIGNAL_RECV : Z := 84.
Definition GDBWRAP_SIGNAL_RECV2 : Z := 83.
Definition GDBWRAP_REPLAY_ERROR : Z := 69.
Definition GDBWRAP_EXIT_W_STATUS : Z := 87.
Definition GDBWRAP_EXIT_W_SIGNAL : Z := 88.
Definition MSG_BUF : Z := 80.

(** ** Parsing and encoding *)

(** [cap] is the size of the array [strret]; the NUL is written at [strsize].  [same] tells
    whether [strtoparse] starts at [strret]: [strncpy] is undefined when what it reads, from
    [offset] on, overlaps what it writes. *)
Definition gdbwrap_extract_from_packet (same : bool) (strtoparse : list Z) (cap : nat)
    (begin end_ : option (list Z)) (maxsize : Z) : option (option (list Z)) :=
  let charbegin := match begin with None => Some ([], strtoparse) | Some b => strstr strtoparse b end in
  match charbegin with
  | None => Some None
  | Some (before, charbegin) =>
      let strtorem := match begin with None => O | Some b => length b end in
      let offset := Z.of_nat (length before + strtorem) in
      let body := drop strtorem charbegin in
      let found := match end_ with None => Some body | Some e => fst <$> strstr body e end in
      match found with
      | None => Some None
      | Some body =>
          let strsize := Z.of_nat (length body) in
          let strsize := if maxsize <? strsize then maxsize else strsize in
          _ ← guard_ub (bool_decide (0 ≤ strsize < Z.of_nat cap));
          _ ← guard_ub (negb same || bool_decide (strsize ≤ offset));
          Some (Some (take (Z.to_nat strsize) body))
      end
  end.

(** [LOBYTE(addr) << (8 * (sizeof(addr) - 1 - i))] while [addr > 0]; [n] bounds
    the turns: a [la32] has four bytes. *)
Fixpoint little_endian_loop (n : nat) (addr i addrlittle : Z) : Z :=
  match n with
  | O => addrlittle
  | S n =>
      if 0 <? addr then
        little_endian_loop n (addr ≫ 8) (i + 1)
          (u32 (addrlittle + u32 ((addr &&& 255) ≪ (8 * (3 - i)))))
      else addrlittle
  end.

Definition gdbwrap_little_endian (addr : Z) : Z := little_endian_loop 4 addr 0 0.

(** The [swap32] macro of libaspect.h. *)
Definition swap32 (x : Z) : Z :=
  u32 ((u32 x &&& 255) ≪ 24) ||| u32 ((u32 x &&& 65280) ≪ 8) |||
  ((u32 x &&& 16711680) ≫ 8) ||| ((u32 x &&& 4278190080) ≫ 24).

(** The sum of the characters in an [uint8_t]. *)
Definition checksum_of (s : list Z) : Z := foldl (λ sum c, u8 (sum + i8 c)) 0 s.

(** The value of a hexadecimal digit, [None] for another character. *)
Definition hex_value (c : Z) : option Z :=
  if (65 <=? c) && (c <=? 70) then Some (c - 55)
  else if (97 <=? c) && (c <=? 102) then Some (c - 87)
  else if (48 <=? c) && (c <=? 57) then Some (c - 48)
  else None.

(** Characters are read from a buffer: past its end the read is undefined, as is
    a shift of 32 bits or more. *)
Fixpoint atoh_loop (str : list Z) (size : nat) (hex : Z) : option Z :=
  match size with
  | O => Some hex
  | S size =>
      c ← head str;
      match hex_value c with
      | None => Some 0
      | Some v =>
          let count := 4 * Z.of_nat size in
          _ ← guard_ub (bool_decide (count < 32));
          atoh_loop (tail str) size (u32 (hex + u32 (v ≪ count)))
      end
  end.

(** A NULL [str] gives 0 at its first digit. *)
Definition gdbwrap_atoh (str : option (list Z)) (size : nat) : option Z :=
  match str with
  | Some str => atoh_loop str size 0
  | None => Some 0
  end.

(** ** Run-length decoding, in the buffer *)

(** [for (iter = 0; iter < strlenc; iter++) encodestr[strlenc + numberoftimes -
    iter - 2] = encodestr[strlenc - iter]] with [encodestr] at [p]: [left] turns
    remain, so that [strlenc - iter] is [left]. *)
Fixpoint move_loop (dst : list Z) (p left : nat) (numberoftimes : Z) : option (list Z) :=
  match left with
  | O => Some dst
  | S l =>
      c ← dst !! (p + left)%nat;
      let i := Z.of_nat left + numberoftimes - 2 in
      dst ← (if bool_decide (0 ≤ i) then store dst (p + Z.to_nat i) c else None);
      move_loop dst p l numberoftimes
  end.

Definition memset (dst : list Z) (p : nat) (c : Z) (n : nat) : option (list Z) :=
  if bool_decide (p + n ≤ length dst)%nat
  then Some (take p dst ++ replicate n c ++ drop (p + n) dst) else None.

(** One turn of the loop on the buffer [dst] with [encodestr] at [p]; the
    assertion updates [check]. *)
Definition rle_step (dst : list Z) (p : nat) (check maxsize : Z) : option (list Z * Z) :=
  valuetocopy ← (if bool_decide (0 < p)%nat then dst !! (p - 1)%nat else None);
  c ← dst !! S p;
  let numberoftimes := u8 (i8 c - 29) in
  let check := u32 (check + numberoftimes) in
  _ ← guard_ub (bool_decide (check < maxsize));
  s ← cstr (drop p dst);
  dst ← move_loop dst p (length s) numberoftimes;
  dst ← memset dst p valuetocopy (Z.to_nat numberoftimes);
  Some (dst, check).

(** [strstr(dst + from, "*")]: the position of the next ['*'] before the NUL. *)
Definition find_star (dst : list Z) (from : nat) : option (option nat) :=
  s ← cstr (drop from dst);
  Some ((λ x : list Z * list Z, (from + length x.1)%nat) <$> strstr s [GDBWRAP_START_ENCODC]).

Fixpoint rle_loop (fuel : nat) (dst : list Z) (encodestr : option nat) (check maxsize : Z) :
    option (list Z) :=
  match encodestr with
  | None => Some dst
  | Some p =>
      match fuel with
      | O => None
      | S fuel =>
          '(dst, check) ← rle_step dst p check maxsize;
          next ← find_star dst (S p);
          rle_loop fuel dst next check maxsize
      end
  end.

(** Decoding in place ([srcpacket == dstpacket], as every call has it).  The
    positions of [encodestr] grow: the size of the buffer bounds the turns. *)
Definition gdbwrap_run_length_decode (dst : list Z) (maxsize : Z) : option (list Z) :=
  c ← head dst;
  _ ← guard_ub (negb (c =? GDBWRAP_START_ENCODC));
  s ← cstr dst;
  p ← find_star dst 0;
  rle_loop (length dst) dst p (Z.of_nat (length s)) maxsize.

(** ** The descriptor and the connection *)

(** What a call of [recv] returns: bytes, 0 when the peer closed, or -1 with
    [errno] set to [EINTR] or not. *)
Inductive rx_event := RxData (data : list Z) | RxClosed | RxError (eintr : bool).

(** What a call of [send] does: it takes bytes, or returns -1. *)
Inductive tx_event := TxBytes (n : nat) | TxError (eintr : bool).

(** The registers are the 16 fields of [gdbwrap_gdbreg32], from [eax].  [rx] is
    what the next calls of [recv] return, [tx] what was sent; [errno_eintr] tells
    whether [errno] is [EINTR], which only a failing [recv] or [send] changes; [sx] is what
    the next calls of [send] do, those after them taking all the bytes; [choice_mem] and
    [choice_reg] are the static variables of [gdbwrap_writemem] and
    [gdbwrap_writereg]. *)
Record gdbwrap_t := Gdb {
  packet : list Z;
  max_packet_size : Z;
  reg32 : list Z;
  is_active : bool;
  erroroccured : bool;
  interrupted : bool;
  rx : list rx_event;
  tx : list Z;
  choice_mem : Z;
  choice_reg : Z;
  errno_eintr : bool;
  sx : list tx_event;
}.

Definition set_packet (p : list Z) (d : gdbwrap_t) : gdbwrap_t :=
  Gdb p (max_packet_size d) (reg32 d) (is_active d) (erroroccured d) (interrupted d) (rx d) (tx d)
    (choice_mem d) (choice_reg d) (errno_eintr d) (sx d).
Definition set_max (m : Z) (d : gdbwrap_t) : gdbwrap_t :=
  Gdb (packet d) m (reg32 d) (is_active d) (erroroccured d) (interrupted d) (rx d) (tx d)
    (choice_mem d) (choice_reg d) (errno_eintr d) (sx d).
Definition set_reg32 (r : list Z) (d : gdbwrap_t) : gdbwrap_t :=
  Gdb (packet d) (max_packet_size d) r (is_active d) (erroroccured d) (interrupted d) (rx d) (tx d)
    (choice_mem d) (choice_reg d) (errno_eintr d) (sx d).
Definition set_active (b : bool) (d : gdbwrap_t) : gdbwrap_t :=
  Gdb (packet d) (max_packet_size d) (reg32 d) b (erroroccured d) (interrupted d) (rx d) (tx d)
    (choice_mem d) (choice_reg d) (errno_eintr d) (sx d).
Definition set_error (b : bool) (d : gdbwrap_t) : gdbwrap_t :=
  Gdb (packet d) (max_packet_size d) (reg32 d) (is_active d) b (interrupted d) (rx d) (tx d)
    (choice_mem d) (choice_reg d) (errno_eintr d) (sx d).
Definition set_interrupted (b : bool) (d : gdbwrap_t) : gdbwrap_t :=
  Gdb (packet d) (max_packet_size d) (reg32 d) (is_active d) (erroroccured d) b (rx d) (tx d)
    (choice_mem d) (choice_reg d) (errno_eintr d) (sx d).
Definition set_rx (r : list rx_event) (d : gdbwrap_t) : gdbwrap_t :=
  Gdb (packet d) (max_packet_size d) (reg32 d) (is_active d) (erroroccured d) (interrupted d) r (tx d)
    (choice_mem d) (choice_reg d) (errno_eintr d) (sx d).
Definition set_tx (t : list Z) (d : gdbwrap_t) : gdbwrap_t :=
  Gdb (packet d) (max_packet_size d) (reg32 d) (is_active d) (erroroccured d) (interrupted d) (rx d)
    t (choice_mem d) (choice_reg d) (errno_eintr d) (sx d).
Definition set_choices (m r : Z) (d : gdbwrap_t) : gdbwrap_t :=
  Gdb (packet d) (max_packet_size d) (reg32 d) (is_active d) (erroroccured d) (interrupted d) (rx d)
    (tx d) m r (errno_eintr d) (sx d).

Definition set_errno (b : bool) (d : gdbwrap_t) : gdbwrap_t :=
  Gdb (packet d) (max_packet_size d) (reg32 d) (is_active d) (erroroccured d) (interrupted d) (rx d)
    (tx d) (choice_mem d) (choice_reg d) b (sx d).
Definition set_sx (s : list tx_event) (d : gdbwrap_t) : gdbwrap_t :=
  Gdb (packet d) (max_packet_size d) (reg32 d) (is_active d) (erroroccured d) (interrupted d) (rx d)
    (tx d) (choice_mem d) (choice_reg d) (errno_eintr d) s.

(** [send(fd, data, strlen(data), 0)] and what it returns. *)
Definition send (data : list Z) (d : gdbwrap_t) : gdbwrap_t * Z :=
  match sx d with
  | [] => (set_tx (tx d ++ data) d, Z.of_nat (length data))
  | TxBytes n :: r =>
      let data := take n data in
      (set_sx r (set_tx (tx d ++ data) d), Z.of_nat (length data))
  | TxError eintr :: r => (set_errno eintr (set_sx r d), -1)
  end.

(** [recv(fd, packet + off, len, 0)]: the bytes are stored, the number returned;
    more bytes than [len] or than the buffer holds are undefined.  Once the peer has closed,
    every call returns 0. *)
Definition recv (off len : Z) (d : gdbwrap_t) : option (gdbwrap_t * Z) :=
  match rx d with
  | [] => None
  | RxClosed :: _ => Some (d, 0)
  | RxError eintr :: r => Some (set_errno eintr (set_rx r d), -1)
  | RxData data :: r =>
      let n := length data in
      let o := Z.to_nat off in
      _ ← guard_ub (bool_decide (0 < Z.of_nat n ≤ len) && bool_decide (0 ≤ off) &&
                    bool_decide (o + n ≤ length (packet d))%nat);
      Some (set_rx r (set_packet (take o (packet d) ++ data ++ drop (o + n) (packet d)) d),
            Z.of_nat n)
  end.

(** ** Packets *)

Definition gdbwrap_lastmsg (d : gdbwrap_t) : option (list Z) := cstr (packet d).

Definition gdbwrap_errorhandler (d : gdbwrap_t) (error : list Z) : gdbwrap_t * bool :=
  if prefix_of (bytes "OK") error then (set_error false d, false)
  else
    let c := default 0 (head error) in
    let d := if c =? GDBWRAP_EXIT_W_STATUS then set_active false d else d in
    let d := if c =? GDBWRAP_EXIT_W_SIGNAL then set_active false d else d in
    (set_error true d, true).

(** [same] tells whether [str] is [desc->packet]. *)
Definition gdbwrap_calc_checksum (d : gdbwrap_t) (same : bool) (str : list Z) : option (gdbwrap_t * Z) :=
  let cap := length (packet d) in
  r ← gdbwrap_extract_from_packet same str cap (Some GDBWRAP_BEGIN_PACKET) (Some GDBWRAP_END_PACKET)
        (i32 (max_packet_size d));
  result ← match r with
           | Some result => Some result
           | None => r ← gdbwrap_extract_from_packet same str cap None None (i32 (max_packet_size d)); r
           end;
  p ← write_cstr (packet d) result;
  Some (set_packet p d, checksum_of result).

(** [%x]: lower case, no leading zero; [digits] bounds their number. *)
Definition hex_digit (n : Z) : Z := if n <? 10 then 48 + n else 87 + n.

Fixpoint hex_fixed (digits : nat) (n : Z) : list Z :=
  match digits with
  | O => []
  | S digits => hex_digit ((n ≫ (4 * Z.of_nat digits)) &&& 15) :: hex_fixed digits n
  end.

Fixpoint strip_zeros (s : list Z) : list Z :=
  match s with
  | [] => []
  | [c] => [c]
  | c :: s' => if c =? 48 then strip_zeros s' else s
  end.

Definition print_x (n : Z) : list Z := strip_zeros (hex_fixed 8 (u32 n)).
(** [%.2x] and [%02x]: at least two digits. *)
Definition print_02x (n : Z) : list Z :=
  if u32 n <? 256 then hex_fixed 2 (u32 n) else print_x n.
Definition print_08x (n : Z) : list Z := hex_fixed 8 (u32 n).

(** [snprintf(buf, size, ...)] keeps [size - 1] characters. *)
Definition snprintf (size : Z) (s : list Z) : list Z := take (Z.to_nat (size - 1)) s.

(** The query is not [desc->packet], as in every call. *)
Definition gdbwrap_make_message (d : gdbwrap_t) (query : list Z) : option gdbwrap_t :=
  '(d, checksum) ← gdbwrap_calc_checksum d false query;
  let max_query_size := u32 (max_packet_size d - 3) in
  _ ← guard_ub (bool_decide (Z.of_nat (length query) < max_query_size));
  let message := GDBWRAP_BEGIN_PACKET ++ query ++ GDBWRAP_END_PACKET ++ print_02x checksum in
  p ← write_cstr (packet d) (snprintf (max_packet_size d) message);
  let ret := u8 (Z.of_nat (length message)) in
  _ ← guard_ub (bool_decide (0 < ret));
  Some (set_packet p d).

Definition gdbwrap_send_ack (d : gdbwrap_t) : gdbwrap_t := (send [GDBWRAP_COR_CHECKSUMC] d).1.

Definition gdbwrap_check_ack (d : gdbwrap_t) : option (gdbwrap_t * bool) :=
  '(d, rval) ← recv 0 1 d;
  let d := if rval =? 0 then set_active false d else d in
  c ← head (packet d);
  Some (d, (c =? GDBWRAP_COR_CHECKSUMC) && negb (rval =? -1)).

(** The loop of [gdbwrap_get_packet]; every turn consumes an event. *)
Fixpoint recv_loop (fuel : nat) (d : gdbwrap_t) (sumrval : Z) : option (gdbwrap_t * Z * Z) :=
  match fuel with
  | O => None
  | S fuel =>
      '(d, rval) ← recv sumrval (max_packet_size d) d;
      let sumrval := sumrval + rval in
      if errno_eintr d then Some (d, rval, sumrval)
      else if 3 <=? sumrval then
        c ← packet d !! Z.to_nat (sumrval - 3);
        if negb (c =? GDBWRAP_END_PACKETC) && negb (rval =? 0)
        then recv_loop fuel d sumrval else Some (d, rval, sumrval)
      else Some (d, rval, sumrval)
  end.

(** The packet is decoded in place: the result tells whether it is returned. *)
Definition accept_packet (d : gdbwrap_t) : option (gdbwrap_t * bool) :=
  msg ← cstr (packet d);
  let '(d, _) := gdbwrap_errorhandler d msg in
  p ← gdbwrap_run_length_decode (packet d) (max_packet_size d);
  Some (set_packet p d, true).

Definition gdbwrap_get_packet (d : gdbwrap_t) : option (gdbwrap_t * bool) :=
  p ← store (packet d) 0 0;
  '(d, rval, sumrval) ← recv_loop (S (length (rx d))) (set_packet p d) 0;
  if negb (rval =? 0) then
    _ ← guard_ub (bool_decide (0 ≤ sumrval));
    p ← store (packet d) (Z.to_nat sumrval) 0;
    let d := set_packet p d in
    msg ← cstr p;
    checksum ← gdbwrap_extract_from_packet false msg 3 (Some GDBWRAP_END_PACKET) None 3;
    (* an unset [checksum] array is undefined *)
    checksum ← checksum;
    sum ← gdbwrap_atoh (Some (checksum ++ [0])) (length checksum);
    '(d, ok) ← (if rval =? -1 then Some (d, false)
                else '(d, calc) ← gdbwrap_calc_checksum d true msg; Some (d, sum =? calc));
    if (ok : bool) then accept_packet (gdbwrap_send_ack d)
    else if interrupted d then accept_packet (set_interrupted false d)
    else Some (d, false)
  else Some (set_active false d, false).

(** [do { rval = send(...) } while (gdbwrap_check_ack(desc) != TRUE)].  A turn consumes an event
    unless the peer has closed, and then no turn is the last ([GdbSessionSpec.send_loop_closed]):
    the number of events bounds the turns. *)
Fixpoint send_loop (fuel : nat) (d : gdbwrap_t) (query : list Z) : option (gdbwrap_t * Z) :=
  match fuel with
  | O => None
  | S fuel =>
      d ← gdbwrap_make_message d query;
      mes ← cstr (packet d);
      let '(d, rval) := send mes d in
      '(d, ok) ← gdbwrap_check_ack d;
      if (ok : bool) then Some (d, rval) else send_loop fuel d query
  end.

(** The result tells whether the reply, in the packet buffer, is not NULL. *)
Definition gdbwrap_send_data (d : gdbwrap_t) (query : list Z) : option (gdbwrap_t * bool) :=
  if is_active d then
    '(d, rval) ← send_loop (S (length (rx d))) d query;
    _ ← guard_ub (negb (rval =? -1));
    gdbwrap_get_packet d
  else Some ((gdbwrap_errorhandler d (bytes "dead")).1, false).

(** ** Registers *)

Definition set_reg (d : gdbwrap_t) (regnumber regvalue : Z) : option gdbwrap_t :=
  r ← store (reg32 d) (Z.to_nat regnumber) regvalue;
  Some (set_reg32 r d).

(** The fields [n:r;] of the packet from [packetoffset] on. *)
Fixpoint populate_loop (fuel : nat) (d : gdbwrap_t) (packetoffset : nat) : option gdbwrap_t :=
  match fuel with
  | O => None
  | S fuel =>
      s ← cstr (drop packetoffset (packet d));
      nextpacket ← gdbwrap_extract_from_packet false s (Z.to_nat MSG_BUF) None (Some (bytes ";")) MSG_BUF;
      match nextpacket with
      | None => Some d
      | Some nextpacket =>
          nextupacket ← gdbwrap_extract_from_packet false nextpacket (Z.to_nat MSG_BUF) None
                          (Some (bytes ":")) MSG_BUF;
          nextupacket ← nextupacket;
          d ← (if bool_decide (length nextupacket = 2%nat) then
                 regnumber ← gdbwrap_atoh (Some (nextupacket ++ [0])) 2;
                 v ← gdbwrap_extract_from_packet false nextpacket (Z.to_nat MSG_BUF) (Some (bytes ":")) None
                       MSG_BUF;
                 v ← v;
                 regvalue ← gdbwrap_atoh (Some (v ++ [0])) (length v);
                 set_reg d (u8 regnumber) (gdbwrap_little_endian regvalue)
               else Some d);
          populate_loop fuel d (packetoffset + (length nextpacket + 1))
      end
  end.

Definition gdbwrap_populate_reg (d : gdbwrap_t) : option gdbwrap_t :=
  c ← head (packet d);
  populate_loop (S (length (packet d))) d (if c =? GDBWRAP_SIGNAL_RECV then 3%nat else 0%nat).

(** [*(&desc->reg32.eax + i)] for the [i] left to read, eight digits each. *)
Fixpoint read_regs (n i : nat) (d : gdbwrap_t) : option gdbwrap_t :=
  match n with
  | O => Some d
  | S n =>
      regvalue ← gdbwrap_atoh (Some (drop (8 * i) (packet d))) 8;
      d ← set_reg d (Z.of_nat i) (gdbwrap_little_endian regvalue);
      read_regs n (S i) d
  end.

(** The pointer to the registers, or NULL. *)
Definition gdbwrap_readgenreg (d : gdbwrap_t) : option (gdbwrap_t * bool) :=
  '(d, rec) ← gdbwrap_send_data d (bytes "g");
  if is_active d then
    _ ← guard_ub rec;
    d ← read_regs 16 0 d;
    Some (d, true)
  else Some (d, false).

(** ** External functions *)

Definition gdbwrap_lastsignal (d : gdbwrap_t) : option Z :=
  c ← head (packet d);
  if (c =? GDBWRAP_SIGNAL_RECV) || (c =? GDBWRAP_SIGNAL_RECV2)
  then gdbwrap_atoh (Some (tail (packet d))) 2 else Some 0.

Definition gdbwrap_lasterror (d : gdbwrap_t) : option Z :=
  c ← head (packet d);
  if c =? GDBWRAP_REPLAY_ERROR then u8 <$> gdbwrap_atoh (Some (tail (packet d))) 2 else Some 0.

Definition gdbwrap_is_active (d : gdbwrap_t) : bool := is_active d.

Definition gdbwrap_cmdnotsup (d : gdbwrap_t) : option bool := c ← head (packet d); Some (c =? 0).

Definition gdbwrap_erroroccured (d : gdbwrap_t) : bool := erroroccured d.

(** [malloc] leaves the buffer, the registers and the error flag unset: they are
    arguments. *)
Definition gdbwrap_init (garbage regs : list Z) (err : bool) (fd : Z) (conn : list rx_event)
    (sends : list tx_event) : option gdbwrap_t :=
  _ ← guard_ub (negb (fd =? 0));
  Some (Gdb garbage 2500 regs true err false conn [] 0 0 false sends).

(** [realloc] to the announced size: the bytes kept, then unset ones ([fill]); it
    does not fail. *)
Definition gdbwrap_hello (fill : Z → list Z) (d : gdbwrap_t) : option gdbwrap_t :=
  '(d, received) ← gdbwrap_send_data d (bytes "qSupported");
  if (received : bool) then
    msg ← cstr (packet d);
    result ← gdbwrap_extract_from_packet true msg (length (packet d)) (Some (bytes "PacketSize="))
               (Some (bytes ";")) (i32 (max_packet_size d));
    d ← match result with
        | None => Some d
        | Some r =>
            p ← write_cstr (packet d) r;
            m ← gdbwrap_atoh (Some p) (length r);
            let size := Z.to_nat (u32 (m + 1)) in
            Some (set_max m (set_packet (take size p ++ fill (Z.of_nat (size - length p))) d))
        end;
    p ← store (packet d) (Z.to_nat (max_packet_size d)) 0;
    Some (set_packet p d)
  else Some d.

Definition gdbwrap_bye (d : gdbwrap_t) : option gdbwrap_t :=
  '(d, _) ← gdbwrap_send_data d (bytes "k"); Some d.

Definition gdbwrap_reason_halted (d : gdbwrap_t) : option gdbwrap_t :=
  '(d, received) ← gdbwrap_send_data d (bytes "?");
  if is_active d then _ ← guard_ub received; gdbwrap_populate_reg d
  else Some (gdbwrap_errorhandler d (bytes "notable")).1.

Definition gdbwrap_continue (d : gdbwrap_t) : option gdbwrap_t :=
  if is_active d then
    '(d, rec) ← gdbwrap_send_data d (bytes "c");
    if (rec : bool) && is_active d then gdbwrap_populate_reg d else Some d
  else Some d.

Definition gdbwrap_stepi (d : gdbwrap_t) : option gdbwrap_t :=
  '(d, rec) ← gdbwrap_send_data d (bytes "s");
  if is_active d then _ ← guard_ub rec; gdbwrap_populate_reg d
  else Some (gdbwrap_errorhandler d (bytes "dead")).1.

Definition gdbwrap_signal (d : gdbwrap_t) (signal : Z) : option gdbwrap_t :=
  '(d, _) ← gdbwrap_send_data d (snprintf MSG_BUF (bytes "vCont" ++ bytes ";C" ++ print_02x signal));
  Some d.

Definition gdbwrap_readmem (d : gdbwrap_t) (linaddr n : Z) : option (gdbwrap_t * bool) :=
  gdbwrap_send_data d (snprintf MSG_BUF (bytes "m" ++ print_x linaddr ++ bytes "," ++ print_x n)).

(** The raw bytes follow the header; the string sent stops at the first NUL. *)
Definition gdbwrap_writememory (d : gdbwrap_t) (linaddr : Z) (value : list Z) :
    option (gdbwrap_t * bool) :=
  let header := snprintf MSG_BUF (bytes "X" ++ print_x linaddr ++ bytes "," ++
                                  print_x (Z.of_nat (length value)) ++ bytes ":") in
  query ← cstr (header ++ value ++ [0]);
  gdbwrap_send_data d query.

(** The counter is a [u_short]. *)
Definition gdbwrap_writememory2 (d : gdbwrap_t) (linaddr : Z) (value : list Z) :
    option (gdbwrap_t * bool) :=
  _ ← guard_ub (bool_decide (Z.of_nat (length value) < 2 ^ 16));
  let header := snprintf MSG_BUF (bytes "M" ++ print_x linaddr ++ bytes "," ++
                                  print_x (Z.of_nat (length value)) ++ bytes ":") in
  gdbwrap_send_data d (header ++ mjoin (print_02x <$> value)).

Definition set_choice_mem (c : Z) (d : gdbwrap_t) : gdbwrap_t := set_choices c (choice_reg d) d.
Definition set_choice_reg (c : Z) (d : gdbwrap_t) : gdbwrap_t := set_choices (choice_mem d) c d.

(** Every turn that is followed by another increments the choice: three turns are
    enough. *)
Fixpoint writemem_loop (fuel : nat) (d : gdbwrap_t) (linaddr : Z) (value : list Z) :
    option gdbwrap_t :=
  match fuel with
  | O => None
  | S fuel =>
      d ← (if choice_mem d =? 0 then '(d, _) ← gdbwrap_writememory d linaddr value; Some d
           else if choice_mem d =? 1 then '(d, _) ← gdbwrap_writememory2 d linaddr value; Some d
           else Some d);
      notsup ← gdbwrap_cmdnotsup d;
      let d := if (notsup : bool) && (choice_mem d <? 2)
               then set_choice_mem (u8 (choice_mem d + 1)) d else d in
      if notsup && (choice_mem d <? 2) then writemem_loop fuel d linaddr value else Some d
  end.

Definition gdbwrap_writemem (d : gdbwrap_t) (linaddr : Z) (value : list Z) : option gdbwrap_t :=
  match value with
  | [] => Some d
  | _ => writemem_loop 3 d linaddr value
  end.

(** The byte read back is returned as [datasaved]. *)
Definition gdbwrap_setbp (d : gdbwrap_t) (linaddr : Z) : option (gdbwrap_t * Z) :=
  '(d, ret) ← gdbwrap_readmem d linaddr 1;
  atohresult ← gdbwrap_atoh (if (ret : bool) then Some (packet d) else None) 2;
  d ← gdbwrap_writemem d linaddr [204];
  Some (d, u8 atohresult).

Definition gdbwrap_delbp (d : gdbwrap_t) (linaddr datasaved : Z) : option gdbwrap_t :=
  gdbwrap_writemem d linaddr [datasaved].

Definition bp_packet (cmd : string) (linaddr : Z) : list Z :=
  snprintf MSG_BUF (bytes cmd ++ bytes "," ++ print_x linaddr ++ bytes "," ++ print_x 1).

Definition gdbwrap_simplesetbp (d : gdbwrap_t) (linaddr : Z) : option gdbwrap_t :=
  '(d, _) ← gdbwrap_send_data d (bp_packet "Z0" linaddr); Some d.
Definition gdbwrap_simpledelbp (d : gdbwrap_t) (linaddr : Z) : option gdbwrap_t :=
  '(d, _) ← gdbwrap_send_data d (bp_packet "z0" linaddr); Some d.

Definition gdbwrap_writeregister (d : gdbwrap_t) (regnum val : Z) : option gdbwrap_t :=
  '(d, _) ← gdbwrap_send_data d
    (snprintf MSG_BUF (bytes "P" ++ print_x regnum ++ bytes "=" ++ print_x val));
  Some d.

(** [memcpy(ret + offset, digits, ...)] on the packet buffer. *)
Definition patch (buf : list Z) (offset : nat) (data : list Z) : option (list Z) :=
  if bool_decide (offset + length data ≤ length buf)%nat
  then Some (take offset buf ++ data ++ drop (offset + length data) buf) else None.

Definition gdbwrap_writeregister2 (d : gdbwrap_t) (regnum val : Z) : option gdbwrap_t :=
  let offset := u32 (2 * regnum * 4) in
  _ ← guard_ub (bool_decide (regnum < 16) && bool_decide (offset + 8 < max_packet_size d));
  '(d, reg) ← gdbwrap_readgenreg d;
  _ ← guard_ub reg;
  p ← patch (packet d) (Z.to_nat offset) (print_08x (gdbwrap_little_endian val));
  ret ← cstr p;
  '(d, _) ← gdbwrap_send_data (set_packet p d) (snprintf 700 (bytes "G" ++ ret));
  Some d.

Fixpoint writereg_loop (fuel : nat) (d : gdbwrap_t) (regnum val : Z) : option gdbwrap_t :=
  match fuel with
  | O => None
  | S fuel =>
      d ← (if choice_reg d =? 0 then gdbwrap_writeregister d regnum val
           else if choice_reg d =? 1 then gdbwrap_writeregister2 d regnum val
           else Some d);
      notsup ← gdbwrap_cmdnotsup d;
      let d := if (notsup : bool) && (choice_reg d <? 2)
               then set_choice_reg (u8 (choice_reg d + 1)) d else d in
      if notsup && (choice_reg d <? 2) then writereg_loop fuel d regnum val else Some d
  end.

Definition gdbwrap_writereg (d : gdbwrap_t) (regnum val : Z) : option gdbwrap_t :=
  d ← writereg_loop 3 d regnum val;
  if choice_reg d <? 2 then set_reg d regnum val else Some d.

Definition gdbwrap_shipallreg (d : gdbwrap_t) : option (gdbwrap_t * bool) :=
  let savedregs := reg32 d in
  '(d, _) ← gdbwrap_readgenreg d;
  regs ← mapM (λ i, savedregs !! i) (seq 0 9);
  let locreg := mjoin ((λ r, print_08x (gdbwrap_little_endian r)) <$> regs) in
  _ ← guard_ub (bool_decide (Z.of_nat (length locreg) < max_packet_size d));
  p ← patch (packet d) 0 locreg;
  ret ← cstr p;
  gdbwrap_send_data (set_packet p d) (snprintf 700 (bytes "G" ++ ret)).

Definition gdbwrap_ctrl_c (d : gdbwrap_t) : option gdbwrap_t :=
  '(d, _) ← recv 0 (max_packet_size d) (send [3] (set_interrupted true d)).1;
  d ← gdbwrap_populate_reg d;
  Some (gdbwrap_send_ack d).

(** [cmdcpy + 2 * i] receives two digits and a NUL: 80 bytes hold 39 characters;
    the digits of a negative [char] are the first two of eight. *)
Definition gdbwrap_remotecmd (d : gdbwrap_t) (cmd : list Z) : option (gdbwrap_t * bool) :=
  _ ← guard_ub (bool_decide (0 < length cmd < 40)%nat);
  let cmdcpy := mjoin ((λ c, take 2 (print_02x (i8 c))) <$> cmd) in
  '(d, ret) ← gdbwrap_send_data d (snprintf MSG_BUF (bytes "qRcmd" ++ bytes "," ++ cmdcpy));
  if (ret : bool) then
    msg ← cstr (packet d);
    _ ← guard_ub (bool_decide (2 ≤ length msg)%nat);
    v ← gdbwrap_atoh (Some (drop (length msg - 2) (packet d))) 2;
    if v =? 10 then
      (* the reply goes to a local buffer *)
      match rx d with
      | [] => None
      | RxError e :: r => Some (set_errno e (set_rx r (gdbwrap_send_ack d)), true)
      | RxClosed :: _ => Some (gdbwrap_send_ack d, true)
      | RxData _ :: r => Some (set_rx r (gdbwrap_send_ack d), true)
      end
    else Some (d, true)
  else Some (d, false).
