(* ===== verification/GdbwrapSpec.v ===== *)
(** * The GDB remote protocol: encodings, packets and the conversation *)
From S2P Require Import Prelude.
From S2P Require Import Gdbwrap.

Implicit Types (s buf : list Z) (d : gdbwrap_t).

(** ** Byte order *)

Definition from_bytes (b0 b1 b2 b3 : Z) : Z := b0 + b1 * 2 ^ 8 + b2 * 2 ^ 16 + b3 * 2 ^ 24.

Lemma to_bytes a :
  0 ≤ a < 2 ^ 32 → ∃ b0 b1 b2 b3, a = from_bytes b0 b1 b2 b3 ∧
    0 ≤ b0 < 256 ∧ 0 ≤ b1 < 256 ∧ 0 ≤ b2 < 256 ∧ 0 ≤ b3 < 256.
Proof.
  intros Ha. exists (a mod 256), (a / 256 mod 256), (a / 65536 mod 256), (a / 16777216).
  unfold from_bytes. change (2 ^ 32) with 4294967296 in Ha.
  Z.to_euclidean_division_equations. nia.
Qed.

Lemma little_endian_bytes b0 b1 b2 b3 :
  0 ≤ b0 < 256 → 0 ≤ b1 < 256 → 0 ≤ b2 < 256 → 0 ≤ b3 < 256 →
  gdbwrap_little_endian (from_bytes b0 b1 b2 b3) = from_bytes b3 b2 b1 b0.
Proof.
  intros H0 H1 H2 H3. unfold gdbwrap_little_endian.
  assert (∀ n a i acc, 0 ≤ i → 0 ≤ a → 0 ≤ acc →
    acc + (a mod 256) * 2 ^ (8 * (3 - i)) < 2 ^ 32 → i ≤ 3 →
    little_endian_loop (S n) a i acc =
      little_endian_loop n (a / 256) (i + 1) (acc + (a mod 256) * 2 ^ (8 * (3 - i)))) as Hstep.
  { intros n a i acc Hi Ha Hacc Hlt Hi3. cbn [little_endian_loop].
    assert (0 ≤ a mod 256 * 2 ^ (8 * (3 - i))) by (pose proof (Z.mod_pos_bound a 256); nia).
    destruct (Z.ltb_spec 0 a) as [Hp | Hp].
    - rewrite land_255, Z.shiftr_div_pow2, Z.shiftl_mul_pow2 by lia.
      rewrite (wrapu_small 32 (_ * _)) by lia. by rewrite wrapu_small by lia.
    - replace a with 0 by lia. simpl. rewrite Z.add_0_r. by destruct n. }
  unfold from_bytes.
  rewrite Hstep by (try lia; change (2 ^ 32) with 4294967296; simpl; Z.to_euclidean_division_equations; lia).
  rewrite Hstep by (try lia; change (2 ^ 32) with 4294967296; simpl; Z.to_euclidean_division_equations; lia).
  rewrite Hstep by (try lia; change (2 ^ 32) with 4294967296; simpl; Z.to_euclidean_division_equations; lia).
  rewrite Hstep by (try lia; change (2 ^ 32) with 4294967296; simpl; Z.to_euclidean_division_equations; lia).
  cbn [little_endian_loop]. simpl. Z.to_euclidean_division_equations; lia.
Qed.

Lemma swap32_bytes b0 b1 b2 b3 :
  0 ≤ b0 < 256 → 0 ≤ b1 < 256 → 0 ≤ b2 < 256 → 0 ≤ b3 < 256 →
  swap32 (from_bytes b0 b1 b2 b3) = from_bytes b3 b2 b1 b0.
Proof.
  intros H0 H1 H2 H3. unfold swap32.
  rewrite (wrapu_small 32 (from_bytes _ _ _ _))
    by (unfold from_bytes; change (2 ^ 32) with 4294967296; lia).
  change 65280 with (255 ≪ 8). change 16711680 with (255 ≪ 16). change 4278190080 with (255 ≪ 24).
  rewrite land_255, !land_byte by lia.
  assert (from_bytes b0 b1 b2 b3 mod 256 = b0 ∧ from_bytes b0 b1 b2 b3 / 2 ^ 8 mod 256 = b1 ∧
    from_bytes b0 b1 b2 b3 / 2 ^ 16 mod 256 = b2 ∧ from_bytes b0 b1 b2 b3 / 2 ^ 24 mod 256 = b3)
    as (-> & -> & -> & ->).
  { unfold from_bytes. change (2 ^ 8) with 256. change (2 ^ 16) with 65536. change (2 ^ 24) with 16777216.
    Z.to_euclidean_division_equations; lia. }
  rewrite !Z.shiftl_mul_pow2, !Z.shiftr_div_pow2 by lia.
  rewrite !(wrapu_small 32) by (change (2 ^ 32) with 4294967296; lia).
  replace (b2 * 2 ^ 16 / 2 ^ 8) with (b2 * 2 ^ 8) by (Z.to_euclidean_division_equations; lia).
  replace (b3 * 2 ^ 24 / 2 ^ 24) with b3 by (rewrite Z.div_mul; lia).
  replace (b1 * 2 ^ 8 * 2 ^ 8) with (b1 * 2 ^ 16) by lia.
  rewrite (lor_low b0) by lia.
  replace (b0 * 2 ^ 24 + b1 * 2 ^ 16) with ((b0 * 256 + b1) * 2 ^ 16) by lia. rewrite lor_low by lia.
  replace ((b0 * 256 + b1) * 2 ^ 16 + b2 * 2 ^ 8) with (((b0 * 256 + b1) * 256 + b2) * 2 ^ 8) by lia.
  rewrite lor_low by lia. unfold from_bytes. lia.
Qed.

Lemma little_endian_twice a :
  0 ≤ a < 2 ^ 32 →
  gdbwrap_little_endian (gdbwrap_little_endian a) = a ∧
  0 ≤ gdbwrap_little_endian a < 2 ^ 32.
Proof.
  intros Ha. destruct (to_bytes a Ha) as (b0 & b1 & b2 & b3 & -> & H0 & H1 & H2 & H3).
  rewrite !little_endian_bytes by done. split; [done |].
  unfold from_bytes. change (2 ^ 32) with 4294967296. lia.
Qed.

(** [gdbwrap_little_endian] reverses the four bytes of a word whatever its
    leading zeroes (its loop stops at the last non-zero byte): it agrees with the
    [swap32] macro and is its own inverse. *)
Theorem little_endian_swap32 a :
  0 ≤ a < 2 ^ 32 →
  gdbwrap_little_endian a = swap32 a ∧
  gdbwrap_little_endian (gdbwrap_little_endian a) = a.
Proof.
  intros Ha. split; [| by apply little_endian_twice].
  destruct (to_bytes a Ha) as (b0 & b1 & b2 & b3 & -> & H0 & H1 & H2 & H3).
  by rewrite little_endian_bytes, swap32_bytes.
Qed.

(** ** Hexadecimal numbers *)

(** The value of a string of hexadecimal digits. *)
Definition hex_number (ds : list Z) : Z := foldl (λ acc v, 16 * acc + v) 0 ds.

Lemma hex_number_cons v ds : hex_number (v :: ds) = v * 16 ^ Z.of_nat (length ds) + hex_number ds.
Proof.
  unfold hex_number. cbn [foldl]. rewrite Z.mul_0_r, Z.add_0_l. generalize v at 1 2 as acc. clear v.
  induction ds as [| w ds IH]; intros acc; cbn [foldl length]; [lia |].
  rewrite IH, (IH (16 * 0 + w)). rewrite Nat2Z.inj_succ, Z.pow_succ_r by lia. lia.
Qed.

Lemma hex_number_range ds :
  Forall (λ v, 0 ≤ v < 16) ds → 0 ≤ hex_number ds < 16 ^ Z.of_nat (length ds).
Proof.
  induction 1 as [| v ds Hv _ IH]; [done |].
  rewrite hex_number_cons. cbn [length]. rewrite Nat2Z.inj_succ, Z.pow_succ_r by lia. nia.
Qed.

Lemma hex_value_range c v : hex_value c = Some v → 0 ≤ v < 16.
Proof.
  unfold hex_value. repeat case_match; intros; simplify_eq;
    repeat match goal with H : (_ && _)%bool = true |- _ => apply andb_true_iff in H as [?%Z.leb_le ?%Z.leb_le] end; lia.
Qed.

Lemma digits_range s vs :
  Forall2 (λ c v, hex_value c = Some v) s vs → Forall (λ v, 0 ≤ v < 16) vs.
Proof. induction 1; constructor; [by eapply hex_value_range | done]. Qed.

Lemma atoh_loop_digits s rest vs hex :
  Forall2 (λ c v, hex_value c = Some v) s vs → (length s ≤ 8)%nat → 0 ≤ hex →
  hex + hex_number vs < 2 ^ 32 →
  atoh_loop (s ++ rest) (length s) hex = Some (hex + hex_number vs).
Proof.
  intros Hs. revert hex. induction Hs as [| c v s vs Hc Hs IH]; intros hex Hl H0 Hlt.
  { simpl. by rewrite Z.add_0_r. }
  pose proof (hex_value_range _ _ Hc) as Hv.
  assert (0 ≤ hex_number vs) as Hn.
  { by apply hex_number_range, (digits_range s). }
  rewrite hex_number_cons in Hlt |- *.
  assert (0 ≤ v * 16 ^ Z.of_nat (length vs)) by (apply Z.mul_nonneg_nonneg; lia).
  rewrite <-(Forall2_length _ _ _ Hs) in *. cbn [length] in Hl.
  cbn [length app atoh_loop head tail]. mstep. rewrite Hc. mstep.
  unfold guard_ub. rewrite bool_decide_true by lia. mstep.
  rewrite Z.shiftl_mul_pow2, Z.pow_mul_r by lia. change (2 ^ 4) with 16.
  rewrite (wrapu_small 32 (v * _)), (wrapu_small 32 (hex + _)) by lia.
  rewrite IH by lia. f_equal. lia.
Qed.

Lemma hex_value_digit n : 0 ≤ n < 16 → hex_value (hex_digit n) = Some n.
Proof.
  intros Hn. unfold hex_digit. destruct (Z.ltb_spec n 10) as [Hd | Hd]; unfold hex_value.
  - rewrite (proj2 (Z.leb_gt 65 _)), (proj2 (Z.leb_gt 97 _)) by lia. cbn [andb].
    rewrite !(proj2 (Z.leb_le _ _)) by lia. cbn [andb]. f_equal. lia.
  - rewrite (proj2 (Z.leb_gt (87 + n) 70)), andb_false_r by lia.
    rewrite !(proj2 (Z.leb_le _ _)) by lia. cbn [andb]. f_equal. lia.
Qed.

(** The digits of [hex_fixed]. *)
Definition nibbles (k : nat) (n : Z) : list Z :=
  (λ i, (n ≫ (4 * Z.of_nat i)) &&& 15) <$> rev (seq 0 k).

Lemma hex_fixed_nibbles k n :
  Forall2 (λ c v, hex_value c = Some v) (hex_fixed k n) (nibbles k n) ∧ length (hex_fixed k n) = k.
Proof.
  unfold nibbles. induction k as [| k [IH Hl]]; [by split |].
  rewrite seq_S, rev_app_distr. cbn [rev app fmap list_fmap hex_fixed length plus].
  split; [| by rewrite Hl]. constructor; [| done]. apply hex_value_digit.
  change 15 with (Z.ones 4). rewrite Z.land_ones by lia. apply Z.mod_pos_bound. lia.
Qed.

Lemma nibbles_number k n : 0 ≤ n → hex_number (nibbles k n) = n mod 16 ^ Z.of_nat k.
Proof.
  intros Hn. unfold nibbles. induction k as [| k IH]; [by rewrite Z.mod_1_r |].
  rewrite seq_S, rev_app_distr. cbn [rev app fmap list_fmap plus]. rewrite hex_number_cons.
  rewrite IH, length_fmap, length_rev, length_seq.
  change 15 with (Z.ones 4). rewrite Z.land_ones, Z.shiftr_div_pow2 by lia.
  rewrite Z.pow_mul_r by lia. change (2 ^ 4) with 16.
  rewrite Nat2Z.inj_succ, Z.pow_succ_r, (Z.mul_comm 16) by lia.
  rewrite (Z.rem_mul_r n (16 ^ Z.of_nat k) 16) by lia. lia.
Qed.

Lemma atoh_hex_fixed k n rest :
  (k ≤ 8)%nat → 0 ≤ n < 16 ^ Z.of_nat k →
  gdbwrap_atoh (Some (hex_fixed k n ++ rest)) k = Some n.
Proof.
  intros Hk Hn. destruct (hex_fixed_nibbles k n) as [Hf Hl]. unfold gdbwrap_atoh.
  assert (hex_number (nibbles k n) = n) as Hnum by by rewrite nibbles_number, Z.mod_small by lia.
  assert (16 ^ Z.of_nat k ≤ 2 ^ 32) by (change (2 ^ 32) with (16 ^ 8); apply Z.pow_le_mono_r; lia).
  pose proof (atoh_loop_digits _ rest _ 0 Hf) as Ha. rewrite Hl, Hnum, Z.add_0_l in Ha.
  apply Ha; lia.
Qed.

Lemma atoh_loop_bad s rest hex :
  mapM hex_value s = None → (length s ≤ 8)%nat →
  atoh_loop (s ++ rest) (length s) hex = Some 0.
Proof.
  revert hex. induction s as [| c s IH]; intros hex Hm Hl; [done |].
  cbn [mapM] in Hm. cbn [length app atoh_loop head tail] in *. mstep.
  destruct (hex_value c) as [v |]; mstep; [| done].
  unfold guard_ub. rewrite bool_decide_true by lia. mstep.
  apply IH; [| lia]. by destruct (mapM hex_value s).
Qed.

(** [gdbwrap_atoh] on up to eight characters gives the number they write in
    base 16, in either case, and 0 when one of them is not a digit; it reads back
    what [hex_fixed] writes.  More than eight digits shift past the width of the
    word. *)
Lemma atoh_spec s rest :
  ((length s ≤ 8)%nat →
     gdbwrap_atoh (Some (s ++ rest)) (length s) =
       Some (match mapM hex_value s with Some vs => hex_number vs | None => 0 end)) ∧
  ((8 < length s)%nat → is_Some (head s ≫= hex_value) →
     gdbwrap_atoh (Some (s ++ rest)) (length s) = None) ∧
  (∀ k n, (k ≤ 8)%nat → 0 ≤ n < 16 ^ Z.of_nat k →
     gdbwrap_atoh (Some (hex_fixed k n ++ rest)) k = Some n).
Proof.
  split_and!.
  - intros Hl. unfold gdbwrap_atoh. destruct (mapM hex_value s) as [vs |] eqn:Hm.
    + apply mapM_Some in Hm. rewrite (atoh_loop_digits s rest vs 0); try done.
      pose proof (hex_number_range vs (digits_range _ _ Hm)) as Hr.
      assert (16 ^ Z.of_nat (length vs) ≤ 2 ^ 32); [| lia].
      change (2 ^ 32) with (16 ^ 8). apply Z.pow_le_mono_r; [lia |].
      rewrite <-(Forall2_length _ _ _ Hm). lia.
    + by apply atoh_loop_bad.
  - intros Hl Hc. destruct s as [| c s]; [simpl in Hl; lia |].
    cbn [head mbind option_bind] in Hc. destruct Hc as [v Hv].
    unfold gdbwrap_atoh. cbn [length app atoh_loop head tail] in *. mstep. rewrite Hv. mstep.
    unfold guard_ub. by rewrite bool_decide_false by lia.
  - intros k n. apply atoh_hex_fixed.
Qed.

(** ** Run-length decoding *)

(** The decoder of the protocol: ['*'] and a character [n] repeat the previous
    character [n - 29] times. *)
Fixpoint rle_decode (prev : Z) s : list Z :=
  match s with
  | [] => []
  | c :: s' =>
      if c =? GDBWRAP_START_ENCODC then
        match s' with
        | [] => []
        | n :: s'' => replicate (Z.to_nat (n - 29)) prev ++ rle_decode prev s''
        end
      else c :: rle_decode c s'
  end.

(** Bytes without NUL; a repeat count is at least 2. *)
Fixpoint rle_ok s : Prop :=
  match s with
  | [] => True
  | c :: s' =>
      if c =? GDBWRAP_START_ENCODC then
        match s' with [] => False | n :: s'' => 31 ≤ n < 256 ∧ rle_ok s'' end
      else 0 < c < 256 ∧ rle_ok s'
  end.

(** The sum of the repeat counts. *)
Fixpoint rle_extra s : Z :=
  match s with
  | [] => 0
  | c :: s' =>
      if c =? GDBWRAP_START_ENCODC then
        match s' with [] => 0 | n :: s'' => (n - 29) + rle_extra s'' end
      else rle_extra s'
  end.

Definition plain s : Prop := Forall (λ c, 0 < c < 256 ∧ c ≠ GDBWRAP_START_ENCODC) s.

(** A well-formed string is plain or plain up to its first run. *)
Lemma rle_split s :
  rle_ok s →
  plain s ∧ (∀ prev, rle_decode prev s = s) ∧ rle_extra s = 0 ∨
  ∃ s1 n s2, s = s1 ++ GDBWRAP_START_ENCODC :: n :: s2 ∧ plain s1 ∧ 31 ≤ n < 256 ∧ rle_ok s2 ∧
    rle_extra s = (n - 29) + rle_extra s2 ∧
    ∀ prev, rle_decode prev s =
      s1 ++ replicate (Z.to_nat (n - 29)) (default prev (last s1)) ++
      rle_decode (default prev (last s1)) s2.
Proof.
  induction s as [| c s IH]; simpl; [by left; repeat split; constructor |].
  destruct (Z.eqb_spec c GDBWRAP_START_ENCODC) as [-> | Hc].
  - destruct s as [| n s]; [done |]. intros [Hn Hs]. right. exists [], n, s.
    split_and!; try done; try (by constructor); by apply Hn.
  - intros [Hr Hs]. destruct (IH Hs) as [(Hp & Hd & He) | (s1 & n & s2 & -> & Hp & Hn & H2 & He & Hd)].
    + left. split_and!; [by constructor | | done]. intros prev. by rewrite Hd.
    + right. exists (c :: s1), n, s2. split_and!; try done; try (by constructor); try apply Hn.
      intros prev. rewrite Hd, last_cons. by destruct (last s1).
Qed.

Lemma plain_nonzero s : plain s → Forall (λ c, 0 < c < 256) s.
Proof. intros Hs. eapply Forall_impl; [exact Hs |]. by intros ? [? _]. Qed.

Lemma rle_ok_nonzero s : rle_ok s → Forall (λ c, 0 < c < 256) s.
Proof.
  remember (length s) as k eqn:Hk. revert s Hk.
  induction k as [k IH] using lt_wf_ind. intros [| c s] ->; [constructor |]. simpl.
  destruct (Z.eqb_spec c GDBWRAP_START_ENCODC) as [-> | Hc].
  - destruct s as [| n s]; [done |]. intros [Hn Hs].
    constructor; [done |]. constructor; [lia |]. apply (IH (length s)); simpl; [lia | done | done].
  - intros [Hr Hs]. constructor; [done |]. apply (IH (length s)); [simpl; lia | done | done].
Qed.

Lemma rle_extra_nonneg s : rle_ok s → 0 ≤ rle_extra s.
Proof.
  remember (length s) as k eqn:Hk. revert s Hk.
  induction k as [k IH] using lt_wf_ind. intros [| c s] ->; [done |]. simpl.
  destruct (c =? GDBWRAP_START_ENCODC).
  - destruct s as [| m s]; [done |]. intros [Hm Hs].
    pose proof (IH (length s) ltac:(simpl; lia) s eq_refl Hs). lia.
  - intros [_ Hs]. apply (IH (length s) ltac:(simpl; lia) s eq_refl Hs).
Qed.

Lemma strstr_star_plain s :
  plain s → strstr s [GDBWRAP_START_ENCODC] = None.
Proof.
  induction 1 as [| c s [_ Hc] _ IH]; [done |]. cbn [strstr prefix_of].
  rewrite (proj2 (Z.eqb_neq _ _)) by congruence. cbn [andb]. by rewrite IH.
Qed.

Lemma strstr_star s1 s2 :
  plain s1 → strstr (s1 ++ GDBWRAP_START_ENCODC :: s2) [GDBWRAP_START_ENCODC] =
    Some (s1, GDBWRAP_START_ENCODC :: s2).
Proof.
  induction 1 as [| c s [_ Hc] _ IH]; [done |]. cbn [app strstr prefix_of].
  rewrite (proj2 (Z.eqb_neq _ _)) by congruence. cbn [andb]. by rewrite IH.
Qed.

(** Moving the tail right by [t - 2]. *)
Lemma move_loop_spec dst p t left :
  2 ≤ t → (p + left < length dst)%nat → Z.of_nat (p + left) + t - 2 < Z.of_nat (length dst) →
  ∃ dst', move_loop dst p left t = Some dst' ∧ length dst' = length dst ∧
    ∀ i, dst' !! i =
      if bool_decide (p + Z.to_nat t ≤ i + 1 ∧ i + 2 ≤ p + left + Z.to_nat t)%nat
      then dst !! (i + 2 - Z.to_nat t)%nat else dst !! i.
Proof.
  intros Ht. revert dst. induction left as [| l IH]; intros dst Hl Hlt.
  { exists dst. split_and!; [done | done |]. intros i. rewrite bool_decide_false by lia. done. }
  cbn [move_loop]. destruct (lookup_lt_is_Some_2 dst (p + S l)) as [c Hc]; [lia |]. rewrite Hc. mstep.
  rewrite bool_decide_true by lia. rewrite store_Some by lia. mstep.
  set (j := (p + Z.to_nat (Z.of_nat (S l) + t - 2))%nat).
  destruct (IH (<[j := c]> dst)) as (dst' & -> & Hlen & Hi); rewrite ?length_insert in *; [lia | lia |].
  exists dst'. split_and!; [done | done |]. intros i. rewrite Hi.
  destruct (decide (i = j)) as [-> | Hne].
  - rewrite bool_decide_false by lia. rewrite bool_decide_true by lia.
    rewrite list_lookup_insert_eq by lia. rewrite <-Hc. f_equal. lia.
  - repeat case_bool_decide; try lia; rewrite list_lookup_insert_ne; [done | lia | done | done].
Qed.

(** One run: the buffer holds [a], the run, [s2] and a NUL. *)
Lemma rle_step_spec a v n s2 junk check maxsize :
  last a = Some v → 31 ≤ n < 256 → Forall (λ c, 0 < c < 256) s2 →
  0 ≤ check → check + (n - 29) < maxsize → maxsize < 2 ^ 32 →
  (length a + Z.to_nat (n - 29) + length s2 < length (a ++ GDBWRAP_START_ENCODC :: n :: s2 ++ 0%Z :: junk))%nat →
  ∃ junk', rle_step (a ++ GDBWRAP_START_ENCODC :: n :: s2 ++ 0 :: junk) (length a) check maxsize =
      Some (a ++ replicate (Z.to_nat (n - 29)) v ++ s2 ++ 0 :: junk', check + (n - 29)) ∧
    length (a ++ replicate (Z.to_nat (n - 29)) v ++ s2 ++ 0 :: junk') =
    length (a ++ GDBWRAP_START_ENCODC :: n :: s2 ++ 0 :: junk).
Proof.
  intros Hv Hn Hs2 Hc0 Hc Hmax Hroom. set (dst := a ++ _) in *.
  assert (0 < length a)%nat by (destruct a; simpl in *; [done | lia]).
  assert (dst !! (length a - 1)%nat = Some v) as Hval.
  { unfold dst. rewrite lookup_app_l by lia. rewrite last_lookup in Hv.
    by replace (length a - 1)%nat with (pred (length a)) by lia. }
  assert (dst !! S (length a) = Some n) as Hcnt.
  { unfold dst. rewrite lookup_app_r by lia. by replace (S (length a) - length a)%nat with 1%nat by lia. }
  assert (u8 (i8 n - 29) = n - 29) as Hu8.
  { unfold wrapu, wraps. change (2 ^ (8 - 1)) with 128. change (2 ^ 8) with 256.
    Z.to_euclidean_division_equations; lia. }
  assert (cstr (drop (length a) dst) = Some (GDBWRAP_START_ENCODC :: n :: s2)) as Hstr.
  { unfold dst. rewrite drop_app_length. apply (cstr_app (GDBWRAP_START_ENCODC :: n :: s2)).
    constructor; [done |]. constructor; [lia | done]. }
  unfold rle_step. rewrite bool_decide_true by lia. rewrite Hval. mstep. rewrite Hcnt. mstep.
  rewrite Hu8, wrapu_small by lia. unfold guard_ub. rewrite bool_decide_true by lia. mstep.
  rewrite Hstr. mstep.
  assert (length dst = length a + S (S (length s2 + S (length junk))))%nat as Hlen.
  { unfold dst. rewrite length_app. simpl. rewrite length_app. done. }
  destruct (move_loop_spec dst (length a) (n - 29) (length (GDBWRAP_START_ENCODC :: n :: s2)))
    as (m & -> & Hml & Hm); [lia | simpl; lia | simpl; lia |].
  mstep. unfold memset. rewrite bool_decide_true by lia. mstep.
  set (t := Z.to_nat (n - 29)) in *.
  exists (drop (length a + t + length s2 + 1) m).
  assert (take (length a) m = a) as Htk.
  { apply list_eq. intros i. destruct (decide (i < length a)%nat).
    - rewrite lookup_take_lt, Hm, bool_decide_false by lia. unfold dst. by rewrite lookup_app_l by lia.
    - rewrite !lookup_ge_None_2; [done | lia | rewrite length_take; lia]. }
  assert (drop (length a + t) m = s2 ++ 0 :: drop (length a + t + length s2 + 1) m) as Hdr.
  { apply list_eq. intros i. rewrite lookup_drop.
    destruct (decide (i < length s2 + 1)%nat).
    - rewrite Hm, bool_decide_true by (simpl; lia). unfold dst. rewrite lookup_app_r by lia.
      replace (length a + t + i + 2 - t - length a)%nat with (S (S i)) by lia.
      change ((GDBWRAP_START_ENCODC :: n :: s2 ++ 0 :: junk) !! S (S i)) with ((s2 ++ 0 :: junk) !! i).
      destruct (decide (i < length s2)%nat).
      + by rewrite !lookup_app_l by lia.
      + replace i with (length s2) by lia. by rewrite !lookup_app_r, Nat.sub_diag by lia.
    - rewrite lookup_app_r by lia.
      replace (i - length s2)%nat with (S (i - length s2 - 1)) by lia.
      change ((0 :: drop (length a + t + length s2 + 1) m) !! S (i - length s2 - 1))
        with (drop (length a + t + length s2 + 1) m !! (i - length s2 - 1)%nat).
      rewrite lookup_drop. f_equal. lia. }
  rewrite Htk, Hdr. split; [done |].
  rewrite !length_app, length_replicate. cbn [length]. rewrite length_drop, Hml. lia.
Qed.

(** The buffer during the loop: what is decoded, what is left, a NUL.  [from] is
    where the search for the next run starts. *)
Lemma rle_loop_spec pre s junk from fuel check maxsize :
  rle_ok s → pre ≠ [] → plain (option_list (last pre)) → plain (drop from pre) → (from ≤ length pre)%nat →
  0 ≤ check → check + rle_extra s < maxsize → maxsize < 2 ^ 32 →
  Z.of_nat (length pre + length s) ≤ check → maxsize < Z.of_nat (length (pre ++ s ++ 0 :: junk)) →
  (length s < fuel)%nat →
  ∃ p junk', find_star (pre ++ s ++ 0 :: junk) from = Some p ∧
    rle_loop fuel (pre ++ s ++ 0 :: junk) p check maxsize =
      Some (pre ++ rle_decode (default 0 (last pre)) s ++ 0 :: junk') ∧
    length (pre ++ rle_decode (default 0 (last pre)) s ++ 0 :: junk') =
    length (pre ++ s ++ 0 :: junk).
Proof.
  revert pre s junk from check. induction fuel as [| fuel IH];
    intros pre s junk from check Hok Hne Hlast Hpl Hfrom Hc0 Hc Hmax Hlen Hroom Hfuel; [lia |].
  assert (cstr (drop from (pre ++ s ++ 0 :: junk)) = Some (drop from pre ++ s)) as Hstr.
  { rewrite drop_app_le by done. rewrite app_assoc. apply cstr_app, Forall_app.
    split; [by apply plain_nonzero | by apply rle_ok_nonzero]. }
  unfold find_star. rewrite Hstr. mstep.
  destruct (rle_split s Hok) as [(Hp & Hd & _) | (s1 & n & s2 & -> & Hp & Hn & H2 & He & Hd)].
  { rewrite strstr_star_plain by by apply Forall_app. exists None, junk. by rewrite Hd. }
  rewrite app_assoc, strstr_star by by apply Forall_app. mstep. cbn [fst].
  assert (plain (drop from pre ++ s1)) as Hpl1 by by apply Forall_app.
  replace (from + length (drop from pre ++ s1))%nat with (length (pre ++ s1)).
  2: { rewrite !length_app, length_drop. lia. }
  set (v := default (default 0 (last pre)) (last s1)).
  assert (last (pre ++ s1) = Some v) as Hv.
  { rewrite last_app. unfold v. destruct (last s1); [done |].
    destruct (last pre) eqn:Hl; [done |]. by apply last_None in Hl. }
  rewrite He in Hc. pose proof (rle_extra_nonneg s2 H2) as Hex.
  rewrite !length_app in Hlen. rewrite !length_app in Hroom. rewrite length_app in Hfuel.
  cbn [length] in Hlen, Hroom, Hfuel.
  destruct (rle_step_spec (pre ++ s1) v n s2 junk check maxsize Hv Hn (rle_ok_nonzero _ H2) Hc0)
    as (junk1 & Hst & Hsl); [lia | done | |].
  { rewrite !length_app. cbn [length]. rewrite length_app. cbn [length]. lia. }
  replace (pre ++ (s1 ++ GDBWRAP_START_ENCODC :: n :: s2) ++ 0 :: junk)
    with ((pre ++ s1) ++ GDBWRAP_START_ENCODC :: n :: s2 ++ 0 :: junk) by by rewrite <-!app_assoc.
  set (t := Z.to_nat (n - 29)) in *.
  assert (plain [v]) as Hpv.
  { unfold v. destruct (last s1) as [x |] eqn:Hx; simpl.
    - constructor; [| constructor]. apply (proj1 (Forall_forall _ _) Hp).
      apply last_Some in Hx as [l' ->]. apply elem_of_app. right. by left.
    - destruct (last pre) as [y |] eqn:Hy; [exact Hlast |]. by apply last_None in Hy. }
  assert (replicate t v ≠ []) as Hrep by (by unfold t; destruct (Z.to_nat (n - 29)) eqn:?; [lia |]).
  assert (last ((pre ++ s1) ++ replicate t v) = Some v) as Hv'.
  { rewrite last_app. unfold t in *. destruct (Z.to_nat (n - 29)) as [| k]; [done |].
    by rewrite replicate_S_end, last_snoc. }
  destruct (IH ((pre ++ s1) ++ replicate t v) s2 junk1 (S (length (pre ++ s1))) (check + (n - 29)))
    as (p & junk' & Hfs & Hloop & Hfl).
  - done.
  - by destruct (replicate t v); [| destruct pre].
  - by rewrite Hv'.
  - rewrite drop_app_ge by lia. replace (S (length (pre ++ s1)) - length (pre ++ s1))%nat with 1%nat by lia.
    rewrite drop_replicate. apply Forall_replicate. by apply Forall_cons_1 in Hpv as [? _].
  - rewrite !length_app, length_replicate. unfold t. lia.
  - lia.
  - lia.
  - done.
  - rewrite !length_app, length_replicate. unfold t. lia.
  - rewrite <-app_assoc. rewrite Hsl, !length_app. cbn [length]. rewrite length_app. cbn [length]. lia.
  - lia.
  - rewrite <-app_assoc in Hfs, Hloop, Hfl. unfold find_star in Hfs.
    exists (Some (length (pre ++ s1))), junk'. split; [done |].
    cbn [rle_loop]. rewrite Hst. mstep. unfold find_star. rewrite Hfs. mstep. rewrite Hloop, Hv', Hd. cbn [default from_option id].
    fold v. fold t. rewrite <-!app_assoc. split; [done |].
    rewrite Hv' in Hfl. cbn [default from_option id] in Hfl. rewrite <-!app_assoc in Hfl.
    rewrite <-!app_assoc in Hsl. by rewrite Hfl, Hsl.
Qed.

Lemma rle_buffer s junk maxsize :
  rle_ok s → (∀ c, head s = Some c → c ≠ GDBWRAP_START_ENCODC) → s ≠ [] →
  Z.of_nat (length s) + rle_extra s < maxsize → maxsize < 2 ^ 32 →
  maxsize < Z.of_nat (length (s ++ 0 :: junk)) →
  ∃ junk', gdbwrap_run_length_decode (s ++ 0 :: junk) maxsize =
      Some (rle_decode 0 s ++ 0 :: junk') ∧
    length (rle_decode 0 s ++ 0 :: junk') = length (s ++ 0 :: junk).
Proof.
  intros Hok Hhd Hne Hc Hmax Hroom. destruct s as [| c s]; [done |].
  specialize (Hhd c eq_refl). pose proof (rle_ok_nonzero _ Hok) as Hnz.
  unfold gdbwrap_run_length_decode. cbn [app head]. mstep. unfold guard_ub.
  rewrite (proj2 (Z.eqb_neq _ _)) by done. cbn [negb]. mstep.
  assert (cstr (c :: s ++ 0 :: junk) = Some (c :: s)) as -> by by apply (cstr_app (c :: s)).
  mstep.
  simpl in Hok, Hc. rewrite (proj2 (Z.eqb_neq _ _)) in Hok, Hc by done.
  destruct Hok as [Hr Hok].
  destruct (rle_loop_spec [c] s junk 0 (length (c :: s ++ 0 :: junk)) (Z.of_nat (length (c :: s)))
              maxsize) as (p & junk' & Hfs & Hl & Hlen); try done.
  - constructor; [done | constructor].
  - constructor; [done | constructor].
  - simpl. lia.
  - simpl length. rewrite length_app. lia.
  - cbn [app] in Hfs. rewrite Hfs. mstep. cbn [app last] in Hl. rewrite Hl.
    exists junk'. cbn [rle_decode]. rewrite (proj2 (Z.eqb_neq _ _)) by done. by split.
Qed.

Lemma rle_plain s prev : plain s → rle_decode prev s = s.
Proof.
  intros Hs. revert prev. induction Hs as [| c s [_ Hc] _ IH]; intros prev; [done |].
  cbn [rle_decode]. rewrite (proj2 (Z.eqb_neq _ _)) by done. by rewrite IH.
Qed.

(** C10. The in-place run-length decoder of a packet is the reference decoder: on a
    buffer that holds an encoded string whose repeat counts are at least 2, it
    leaves the decoded string, provided the announced length fits the packet
    size; it terminates and writes nothing outside the buffer. *)
Theorem run_length_decode_spec s junk maxsize :
  rle_ok s → (∀ c, head s = Some c → c ≠ GDBWRAP_START_ENCODC) → s ≠ [] →
  Z.of_nat (length s) + rle_extra s < maxsize → maxsize < 2 ^ 32 →
  maxsize < Z.of_nat (length (s ++ 0 :: junk)) →
  ∃ junk', gdbwrap_run_length_decode (s ++ 0 :: junk) maxsize =
      Some (rle_decode 0 s ++ 0 :: junk') ∧
    length (rle_decode 0 s ++ 0 :: junk') = length (s ++ 0 :: junk).
Proof. apply rle_buffer. Qed.

(** ** The theorems at concrete inputs *)

Lemma run_length_decode_spec_witness :
  ∃ junk', gdbwrap_run_length_decode (bytes "x0* y" ++ 0 :: replicate 10 0) 12 =
      Some (bytes "x0000y" ++ 0 :: junk') ∧
    length (bytes "x0000y" ++ 0 :: junk') = 16%nat.
Proof.
  by apply (run_length_decode_spec (bytes "x0* y") (replicate 10 0) 12); vm_compute;
    [repeat split; congruence | intros c [= <-] | ..].
Defined.
