(* ===== verification/GdbSessionSpec.v ===== *)
(** * Exchanges with a GDB stub: framing, acknowledgements, replies (Gdbwrap.v) *)
From S2P Require Import Prelude Gdbwrap GdbwrapSpec.

Implicit Types (s buf q : list Z) (d : gdbwrap_t).

(** ** Messages *)

(** No NUL, and no separator of packets. *)
Definition payload s : Prop := Forall (λ c, 0 < c < 256 ∧ c ≠ 36 ∧ c ≠ 35) s.

Lemma payload_nonzero s : payload s → Forall (λ c, 0 < c < 256) s.
Proof. intros Hs. eapply Forall_impl; [exact Hs |]. by intros ? [? _]. Qed.

Lemma strstr_char s1 c s2 :
  Forall (λ x, x ≠ c) s1 → strstr (s1 ++ c :: s2) [c] = Some (s1, c :: s2).
Proof.
  induction 1 as [| x s Hx _ IH]; cbn [app strstr prefix_of].
  - rewrite Z.eqb_refl. by destruct s2.
  - rewrite (proj2 (Z.eqb_neq _ _)) by congruence. cbn [andb]. by rewrite IH.
Qed.

Lemma strstr_char_none s c : Forall (λ x, x ≠ c) s → strstr s [c] = None.
Proof.
  induction 1 as [| x s Hx _ IH]; cbn [strstr prefix_of]; [done |].
  rewrite (proj2 (Z.eqb_neq _ _)) by congruence. cbn [andb]. by rewrite IH.
Qed.

Lemma payload_no c s : payload s → c = 36 ∨ c = 35 → Forall (λ x, x ≠ c) s.
Proof. intros Hs Hc. eapply Forall_impl; [exact Hs |]. simpl. intros x (_ & ? & ?). lia. Qed.

Lemma checksum_range s : 0 ≤ checksum_of s < 256.
Proof.
  unfold checksum_of.
  assert (∀ acc, 0 ≤ acc < 256 → 0 ≤ foldl (λ sum c, u8 (sum + i8 c)) acc s < 256) as H.
  { induction s as [| c s IH]; intros acc H0; [done |]. cbn [foldl]. apply IH.
    apply (wrapu_range 8). lia. }
  apply H. lia.
Qed.

(** What a message looks like on the wire. *)
Definition wire s : list Z := 36 :: s ++ 35 :: hex_fixed 2 (checksum_of s).

Lemma print_02x_byte n : 0 ≤ n < 256 → print_02x n = hex_fixed 2 n.
Proof.
  intros Hn. unfold print_02x. rewrite wrapu_small by (change (2 ^ 32) with 4294967296; lia).
  by rewrite (proj2 (Z.ltb_lt _ _)) by lia.
Qed.

Lemma hex_fixed_nonzero k n : Forall (λ c, 0 < c < 256 ∧ c ≠ 35 ∧ c ≠ 36) (hex_fixed k n).
Proof.
  induction k as [| k IH]; [constructor |]. constructor; [| done].
  assert (0 ≤ (n ≫ (4 * Z.of_nat k)) &&& 15 < 16).
  { change 15 with (Z.ones 4). rewrite Z.land_ones by lia. apply Z.mod_pos_bound. lia. }
  unfold hex_digit. case_match eqn:Hd; [apply Z.ltb_lt in Hd | apply Z.ltb_ge in Hd]; lia.
Qed.

Lemma extract_whole s cap maxsize :
  Z.of_nat (length s) ≤ maxsize → (length s < cap)%nat →
  gdbwrap_extract_from_packet false s cap None None maxsize = Some (Some s).
Proof.
  intros Hm Hc. unfold gdbwrap_extract_from_packet. cbn [length]. rewrite drop_0.
  rewrite (proj2 (Z.ltb_ge _ _)) by lia. unfold guard_ub. cbn [negb orb].
  rewrite bool_decide_true by lia. mstep. by rewrite Nat2Z.id, firstn_all.
Qed.

Lemma extract_no_begin same s cap b e maxsize :
  strstr s b = None → gdbwrap_extract_from_packet same s cap (Some b) e maxsize = Some None.
Proof. intros Hb. unfold gdbwrap_extract_from_packet. by rewrite Hb. Qed.

Lemma write_cstr_ok buf s :
  (length s < length buf)%nat →
  ∃ junk, write_cstr buf s = Some (s ++ 0 :: junk) ∧ length (s ++ 0 :: junk) = length buf.
Proof.
  intros Hl. unfold write_cstr. rewrite bool_decide_true by done. eexists. split; [done |].
  rewrite length_app. simpl. rewrite length_drop. lia.
Qed.

(** A descriptor with its buffer of [max_packet_size + 1] bytes. *)
Definition desc_ok d : Prop :=
  Z.of_nat (length (packet d)) = max_packet_size d + 1 ∧ 4 ≤ max_packet_size d < 2 ^ 31.

Lemma calc_checksum_payload d s :
  desc_ok d → payload s → Z.of_nat (length s) ≤ max_packet_size d →
  ∃ junk, gdbwrap_calc_checksum d false s = Some (set_packet (s ++ 0 :: junk) d, checksum_of s) ∧
    length (s ++ 0 :: junk) = length (packet d).
Proof.
  intros [Hb Hm] Hs Hl. unfold gdbwrap_calc_checksum.
  rewrite extract_no_begin by (apply strstr_char_none, payload_no; [done | by left]). mstep.
  rewrite wraps_small by lia. rewrite extract_whole by lia. mstep.
  destruct (write_cstr_ok (packet d) s) as (junk & -> & Hj); [lia |]. mstep. eauto.
Qed.

Lemma make_message_wire d s :
  desc_ok d → payload s → Z.of_nat (length s) < max_packet_size d - 4 →
  u8 (Z.of_nat (length s) + 4) ≠ 0 →
  ∃ junk, gdbwrap_make_message d s = Some (set_packet (wire s ++ 0 :: junk) d) ∧
    length (wire s ++ 0 :: junk) = length (packet d).
Proof.
  intros Hd Hs Hl Hret. pose proof Hd as [Hb Hm]. unfold gdbwrap_make_message.
  destruct (calc_checksum_payload d s Hd Hs) as (j0 & -> & Hj0); [lia |]. mstep.
  change (max_packet_size (set_packet (s ++ 0 :: j0) d)) with (max_packet_size d).
  change (packet (set_packet (s ++ 0 :: j0) d)) with (s ++ 0 :: j0).
  rewrite (wrapu_small 32 (max_packet_size d - 3)) by (change (2 ^ 32) with 4294967296; lia).
  unfold guard_ub. rewrite (bool_decide_true (Z.of_nat (length s) < _)) by lia. mstep.
  rewrite print_02x_byte by apply checksum_range.
  change (GDBWRAP_BEGIN_PACKET ++ s ++ GDBWRAP_END_PACKET ++ hex_fixed 2 (checksum_of s)) with (wire s).
  assert (length (wire s) = length s + 4)%nat as Hw.
  { unfold wire. cbn [length]. rewrite length_app. cbn [length].
    rewrite (proj2 (hex_fixed_nibbles 2 _)). lia. }
  unfold snprintf. rewrite take_ge by lia. rewrite Hw.
  destruct (write_cstr_ok (s ++ 0 :: j0) (wire s)) as (junk & -> & Hj); [lia |]. mstep.
  replace (Z.of_nat (length s + 4)) with (Z.of_nat (length s) + 4) by lia.
  pose proof (wrapu_range 8 (Z.of_nat (length s) + 4)).
  rewrite bool_decide_true by lia. mstep. exists junk. split; [done |]. lia.
Qed.

(** ** Receiving *)

Lemma wire_length s : length (wire s) = (length s + 4)%nat.
Proof.
  unfold wire. cbn [length]. rewrite length_app. cbn [length].
  rewrite (proj2 (hex_fixed_nibbles 2 _)). lia.
Qed.

Lemma wire_nonzero s : payload s → Forall (λ c, 0 < c < 256) (wire s).
Proof.
  intros Hs. constructor; [lia |]. apply Forall_app. split; [by apply payload_nonzero |].
  constructor; [lia |]. eapply Forall_impl; [apply hex_fixed_nonzero |]. by intros ? [? _].
Qed.

(** The separator is where three characters are left. *)
Lemma wire_separator s i :
  payload s → (i ≤ S (length s))%nat →
  ∃ c, wire s !! i = Some c ∧ (c = 35 ↔ i = S (length s)).
Proof.
  intros Hs Hi. destruct i as [| i]; [by exists 36 |].
  change (wire s !! S i) with ((s ++ 35 :: hex_fixed 2 (checksum_of s)) !! i). destruct (decide (i = length s)) as [-> | Hne].
  - exists 35. split; [| done]. by rewrite lookup_app_r, Nat.sub_diag by lia.
  - destruct (lookup_lt_is_Some_2 s i) as [c Hc]; [lia |]. exists c.
    rewrite lookup_app_l by lia. split; [done |].
    pose proof (proj1 (Forall_lookup _ _) Hs i c Hc) as (_ & _ & ?). split; [done | lia].
Qed.

Lemma recv_data d got data later :
  rx d = RxData data :: later → data ≠ [] → take (length got) (packet d) = got →
  Z.of_nat (length data) ≤ max_packet_size d →
  (length got + length data ≤ length (packet d))%nat →
  recv (Z.of_nat (length got)) (max_packet_size d) d =
    Some (set_rx later (set_packet (got ++ data ++ drop (length got + length data) (packet d)) d),
          Z.of_nat (length data)).
Proof.
  intros Hrx Hne Hgot Hmax Hroom. unfold recv, guard_ub. rewrite Hrx.
  assert (0 < length data)%nat by (destruct data; [done | simpl; lia]).
  rewrite !Nat2Z.id. rewrite !bool_decide_true by lia. cbn [andb]. mstep. by rewrite Hgot.
Qed.

(** The loop takes the chunks of a message up to its checksum and no more. *)
Lemma recv_loop_chunks s later chunks : ∀ fuel d got,
  payload s → (length chunks < fuel)%nat → Forall (λ c, c ≠ []) chunks → chunks ≠ [] →
  got ++ concat chunks = wire s → (3 ≤ length got + length (default [] (head chunks)))%nat →
  rx d = (RxData <$> chunks) ++ later → take (length got) (packet d) = got →
  desc_ok d → Z.of_nat (length (wire s)) ≤ max_packet_size d → errno_eintr d = false →
  ∃ rval, 0 < rval ∧ recv_loop fuel d (Z.of_nat (length got)) =
    Some (set_rx later (set_packet (wire s ++ drop (length (wire s)) (packet d)) d), rval,
          Z.of_nat (length (wire s))).
Proof.
  induction chunks as [| data chunks IH]; intros fuel d got Hs Hf Hne Hnil Hw H3 Hrx Hgot Hd Hmax He;
    [done |].
  destruct fuel as [| fuel]; [simpl in Hf; lia |].
  inversion Hne as [| ? ? Hdata Hne']; subst. cbn [concat head default from_option id] in *.
  pose proof Hd as [Hb Hm].
  assert (length (wire s) = length got + length data + length (concat chunks))%nat as Hlen.
  { rewrite <-Hw, !length_app. lia. }
  assert (0 < length data)%nat by (destruct data; [done | simpl; lia]).
  cbn [recv_loop]. rewrite (recv_data d got data ((RxData <$> chunks) ++ later)); try done; [| lia | lia].
  mstep.
  set (d' := set_rx _ (set_packet _ d)).
  change (errno_eintr d') with (errno_eintr d). rewrite He.
  rewrite <-Nat2Z.inj_add, (proj2 (Z.leb_le 3 _)) by lia.
  replace (Z.to_nat (Z.of_nat (length got + length data) - 3)) with (length got + length data - 3)%nat by lia.
  set (n := (length got + length data)%nat) in *.
  destruct (wire_separator s (n - 3) Hs) as (c & Hc & Hsep).
  { rewrite wire_length in Hlen. lia. }
  assert (packet d' !! (n - 3)%nat = Some c) as Hpc.
  { unfold d'. cbn [packet set_rx set_packet]. rewrite app_assoc, lookup_app_l
      by (rewrite length_app; lia).
    rewrite <-Hw, app_assoc, lookup_app_l in Hc by (rewrite length_app; lia). done. }
  rewrite Hpc. mstep. rewrite (proj2 (Z.eqb_neq (Z.of_nat (length data)) 0)) by lia.
  rewrite wire_length in Hlen. unfold GDBWRAP_END_PACKETC.
  destruct chunks as [| data2 chunks].
  - cbn [concat length] in *. rewrite app_nil_r in Hw.
    rewrite (proj2 (Z.eqb_eq c 35)) by (apply Hsep; lia). cbn [negb andb].
    exists (Z.of_nat (length data)). split; [lia |]. unfold d'. cbn [fmap list_fmap app].
    rewrite app_assoc, Hw. rewrite wire_length. replace n with (length s + 4)%nat by lia. done.
  - assert (data2 ≠ []) by (by inversion Hne'). cbn [concat] in *. rewrite length_app in Hlen.
    assert (0 < length data2)%nat by (destruct data2; [done | simpl; lia]).
    rewrite (proj2 (Z.eqb_neq c 35)) by (rewrite Hsep; lia). cbn [negb andb].
    replace n with (length (got ++ data)) by (rewrite length_app; lia).
    destruct (IH fuel d' (got ++ data)) as (rval & Hr & ->); try done.
    + simpl in Hf |- *. lia.
    + by rewrite <-app_assoc.
    + cbn [head default from_option id]. rewrite length_app. lia.
    + unfold d'. cbn [packet set_rx set_packet].
      rewrite app_assoc, take_app_length. done.
    + unfold d', desc_ok. cbn [packet set_rx set_packet max_packet_size]. split; [| done].
      rewrite !length_app, length_drop. rewrite wire_length in Hmax. unfold n in *. lia.
    + exists rval. split; [done |]. unfold d'. cbn [packet set_rx set_packet]. unfold set_rx, set_packet.
      cbn [packet max_packet_size reg32 is_active erroroccured interrupted rx tx choice_mem choice_reg errno_eintr].
      do 5 f_equal. rewrite app_assoc, drop_app_ge by (rewrite length_app, wire_length; lia).
      rewrite drop_drop. f_equal. rewrite length_app, wire_length. unfold n. lia.
Qed.

Lemma wire_extract_checksum s :
  payload s →
  gdbwrap_extract_from_packet false (wire s) 3 (Some GDBWRAP_END_PACKET) None 3 =
    Some (Some (hex_fixed 2 (checksum_of s))).
Proof.
  intros Hs. unfold gdbwrap_extract_from_packet.
  change (wire s) with ((36 :: s) ++ 35 :: hex_fixed 2 (checksum_of s)).
  change GDBWRAP_END_PACKET with [35]. rewrite strstr_char; [| constructor; [done | by apply payload_no; [| right]]].
  reflexivity.
Qed.

(** The payload is one character after the start of the buffer it is copied to. *)
Lemma wire_extract_payload s cap maxsize :
  payload s → Z.of_nat (length s) ≤ maxsize → (length s < cap)%nat →
  gdbwrap_extract_from_packet true (wire s) cap (Some GDBWRAP_BEGIN_PACKET) (Some GDBWRAP_END_PACKET)
    maxsize = if decide (length s ≤ 1)%nat then Some (Some s) else None.
Proof.
  intros Hs Hm Hc. unfold gdbwrap_extract_from_packet.
  change GDBWRAP_BEGIN_PACKET with [36]. change GDBWRAP_END_PACKET with [35].
  rewrite (strstr_char [] 36 (s ++ 35 :: hex_fixed 2 (checksum_of s)) (Forall_nil_2 _) : strstr (wire s) [36] = _).
  cbn [length drop].
  rewrite drop_0, strstr_char by (by apply payload_no; [| right]).
  cbn [fmap option_fmap option_map fst].
  rewrite (proj2 (Z.ltb_ge _ _)) by lia. unfold guard_ub.
  rewrite (bool_decide_true (0 ≤ _ < _)) by lia. mstep. cbn [negb orb]. change (Z.of_nat (0 + 1)) with 1.
  case_decide.
  - rewrite bool_decide_true by lia. mstep. by rewrite Nat2Z.id, firstn_all.
  - by rewrite bool_decide_false by lia.
Qed.

Lemma calc_checksum_wire d s :
  desc_ok d → payload s → Z.of_nat (length s) ≤ max_packet_size d →
  if decide (length s ≤ 1)%nat then
    ∃ junk, gdbwrap_calc_checksum d true (wire s) = Some (set_packet (s ++ 0 :: junk) d, checksum_of s) ∧
      length (s ++ 0 :: junk) = length (packet d)
  else gdbwrap_calc_checksum d true (wire s) = None.
Proof.
  intros [Hb Hm] Hs Hl. unfold gdbwrap_calc_checksum.
  rewrite wraps_small by lia. rewrite wire_extract_payload by (done || lia). case_decide; [| done]. mstep.
  destruct (write_cstr_ok (packet d) s) as (junk & -> & Hj); [lia |]. mstep. eauto.
Qed.

(** What [gdbwrap_errorhandler] leaves. *)
Definition error_of s : bool := negb (prefix_of (bytes "OK") s).
Definition active_of (b : bool) s : bool :=
  b && (prefix_of (bytes "OK") s ||
        negb ((default 0 (head s) =? GDBWRAP_EXIT_W_STATUS) || (default 0 (head s) =? GDBWRAP_EXIT_W_SIGNAL))).

Lemma errorhandler_eq d s :
  (gdbwrap_errorhandler d s).1 = set_active (active_of (is_active d) s) (set_error (error_of s) d).
Proof.
  unfold gdbwrap_errorhandler, active_of, error_of. destruct (prefix_of _ s); cbn [negb fst orb].
  - rewrite andb_true_r. by destruct d.
  - destruct (_ =? GDBWRAP_EXIT_W_STATUS), (_ =? GDBWRAP_EXIT_W_SIGNAL); cbn [orb negb];
      rewrite ?andb_false_r, ?andb_true_r; by destruct d.
Qed.

(** A reply with no repetition that fits the descriptor. *)
Definition reply_ok d s : Prop :=
  payload s ∧ plain s ∧ Z.of_nat (length (wire s)) ≤ max_packet_size d.

(** The stream delivers [s] framed, in nonempty chunks, the first of three bytes at least. *)
Definition delivers d s later : Prop :=
  ∃ chunks, rx d = (RxData <$> chunks) ++ later ∧ concat chunks = wire s ∧
    Forall (λ c, c ≠ []) chunks ∧ (3 ≤ length (default [] (head chunks)))%nat ∧ errno_eintr d = false.

(** A descriptor that holds the reply, after its acknowledgement. *)
Definition replied d later s junk : gdbwrap_t :=
  set_packet (s ++ 0 :: junk)
    (set_active (active_of (is_active d) s)
      (set_error (error_of s) (gdbwrap_send_ack (set_rx later d)))).

Lemma send_ack_packet d p : gdbwrap_send_ack (set_packet p d) = set_packet p (gdbwrap_send_ack d).
Proof. unfold gdbwrap_send_ack, send. cbn [sx set_packet]. by destruct (sx d) as [| []]. Qed.

Lemma send_ack_kept d :
  packet (gdbwrap_send_ack d) = packet d ∧ max_packet_size (gdbwrap_send_ack d) = max_packet_size d ∧
  is_active (gdbwrap_send_ack d) = is_active d.
Proof. unfold gdbwrap_send_ack, send. by destruct (sx d) as [| []]. Qed.

Lemma run_length_plain s junk maxsize :
  payload s → plain s → gdbwrap_run_length_decode (s ++ 0 :: junk) maxsize = Some (s ++ 0 :: junk).
Proof.
  intros Hs Hp. unfold gdbwrap_run_length_decode.
  assert (∃ c, head (s ++ 0 :: junk) = Some c ∧ c ≠ GDBWRAP_START_ENCODC) as (c & -> & Hc).
  { destruct Hp as [| c s [_ Hc] _]; [by exists 0 | by exists c]. }
  mstep. rewrite (proj2 (Z.eqb_neq _ _)) by done. unfold guard_ub. cbn [negb]. mstep.
  rewrite cstr_app by by apply payload_nonzero. mstep. unfold find_star. rewrite drop_0.
  rewrite cstr_app by by apply payload_nonzero. mstep.
  rewrite strstr_char_none by (eapply Forall_impl; [exact Hp | by intros ? [_ ?]]).
  by destruct (length (s ++ 0 :: junk)).
Qed.

Lemma accept_reply d s junk :
  reply_ok d s → packet d = s ++ 0 :: junk →
  accept_packet d = Some (set_active (active_of (is_active d) s) (set_error (error_of s) d), true).
Proof.
  intros (Hs & Hpl & _) Hp. unfold accept_packet.
  rewrite Hp, cstr_app by by apply payload_nonzero. mstep.
  pose proof (errorhandler_eq d s) as He. destruct (gdbwrap_errorhandler d s) as [d1 b].
  cbn [fst] in He. subst d1.
  change (packet (set_active _ (set_error _ d))) with (packet d). rewrite Hp, run_length_plain by done. mstep.
  destruct d. cbn in Hp. by subst.
Qed.

(** A framed reply: read to its checksum and verified, which is undefined from two characters
    on, since the payload is copied over itself by [strncpy]; then acknowledged. *)
Lemma get_packet_reply d s later :
  desc_ok d → reply_ok d s → delivers d s later →
  if decide (length s ≤ 1)%nat then
    ∃ junk, gdbwrap_get_packet d = Some (replied d later s junk, true) ∧
      length (s ++ 0 :: junk) = length (packet d)
  else gdbwrap_get_packet d = None.
Proof.
  intros Hd Hr (chunks & Hrx & Hcat & Hch & H3 & He). pose proof Hr as (Hs & Hpl & Hw).
  pose proof Hd as [Hb Hm]. unfold gdbwrap_get_packet.
  rewrite store_Some by lia. mstep. set (d0 := set_packet (<[0%nat:=0]> (packet d)) d).
  assert (length (packet d0) = length (packet d)) as Hl0 by apply length_insert.
  assert (desc_ok d0) as Hd0 by (split; [by rewrite Hl0 | exact Hm]).
  destruct (recv_loop_chunks s later chunks (S (length (rx d))) d0 []) as (rval & Hrv & Hloop); try done.
  { rewrite Hrx, length_app, length_fmap. lia. }
  { intros ->. simpl in H3. lia. }
  cbn [length] in Hloop. change (Z.of_nat 0) with 0 in Hloop. rewrite Hloop. mstep. clear Hloop.
  rewrite (proj2 (Z.eqb_neq rval 0)) by lia. cbn [negb]. unfold guard_ub at 1 2.
  rewrite bool_decide_true by lia. mstep. cbn [packet set_rx set_packet].
  rewrite Nat2Z.id, store_Some by (rewrite length_app, length_drop, Hl0; lia). mstep.
  set (rest := drop (length (wire s)) (packet d0)).
  assert (∃ j, <[length (wire s):=0]> (wire s ++ rest) = wire s ++ 0 :: j ∧
            length (wire s ++ 0 :: j) = length (packet d)) as (j & -> & Hj).
  { assert (0 < length rest)%nat as Hr1 by (unfold rest; rewrite length_drop, Hl0; lia).
    assert (length rest = length (packet d) - length (wire s))%nat as Hr2
      by (unfold rest; by rewrite length_drop, Hl0).
    destruct rest as [| r rest']; [simpl in Hr1; lia |]. exists rest'.
    split; [by rewrite (insert_app_r _ _ 0), Nat.add_0_r || by rewrite insert_app_r_alt, Nat.sub_diag by lia |].
    rewrite length_app. cbn [length] in *. lia. }
  rewrite cstr_app by by apply wire_nonzero. mstep. rewrite wire_extract_checksum by done. mstep.
  change (length (hex_fixed 2 (checksum_of s))) with 2%nat.
  rewrite atoh_hex_fixed by first [lia | exact (checksum_range s)].
  mstep.
  rewrite (proj2 (Z.eqb_neq rval (-1))) by lia.
  rewrite wire_length in Hw.
  match goal with |- context [gdbwrap_calc_checksum ?x true (wire s)] => set (d1 := x) end.
  pose proof (calc_checksum_wire d1 s) as Hcalc. case_decide as Hshort.
  2: { rewrite Hcalc; [done | | done |].
    - split; [by change (packet d1) with (wire s ++ 0 :: j); rewrite Hj | done].
    - change (max_packet_size d1) with (max_packet_size d). lia. }
  destruct Hcalc as (junk & -> & Hjl);
    [split; [by change (packet d1) with (wire s ++ 0 :: j); rewrite Hj | done] | done | |].
  { change (max_packet_size d1) with (max_packet_size d). lia. }
  mstep. rewrite Z.eqb_refl, send_ack_packet, (accept_reply _ s junk); [| | done].
  - exists junk. split; [| by rewrite Hjl; change (packet d1) with (wire s ++ 0 :: j); rewrite Hj].
    unfold d1, replied. rewrite !send_ack_packet.
    change (set_rx later (set_packet ?p d0)) with (set_packet p (set_rx later d)). rewrite send_ack_packet.
    destruct (send_ack_kept (set_rx later d)) as (_ & _ & Ha). cbn [is_active set_packet]. rewrite Ha.
    by destruct (gdbwrap_send_ack (set_rx later d)).
  - split_and!; [done | done |]. destruct (send_ack_kept d1) as (_ & Hmx & _).
    change (max_packet_size (set_packet ?p ?x)) with (max_packet_size x). rewrite Hmx, wire_length. exact Hw.
Qed.

(** ** Sending, and the acknowledgement *)

(** An answer of the peer that is not the acknowledgement. *)
Definition nak (e : rx_event) : Prop := ∃ c, e = RxData [c] ∧ c ≠ GDBWRAP_COR_CHECKSUMC.

Definition query_ok d q : Prop :=
  payload q ∧ Z.of_nat (length q) < max_packet_size d - 4 ∧ u8 (Z.of_nat (length q) + 4) ≠ 0.

Lemma send_query d q :
  desc_ok d → query_ok d q →
  ∃ junk, gdbwrap_make_message d q = Some (set_packet (wire q ++ 0 :: junk) d) ∧
    cstr (wire q ++ 0 :: junk) = Some (wire q) ∧
    length (wire q ++ 0 :: junk) = length (packet d).
Proof.
  intros Hd (Hq & Hl & Hu). destruct (make_message_wire d q) as (junk & Hm & Hlen); try done.
  exists junk. split_and!; [done | | done]. apply cstr_app. by apply wire_nonzero.
Qed.

Lemma desc_ok_packet d d' :
  desc_ok d → max_packet_size d' = max_packet_size d → length (packet d') = length (packet d) → desc_ok d'.
Proof. unfold desc_ok. intros [? ?] -> ->. done. Qed.

(** What the sending loop leaves after [n] transmissions that were taken. *)
Definition sent d q n later p : gdbwrap_t :=
  set_packet p (set_tx (tx d ++ mjoin (replicate n (wire q))) (set_rx later d)).

Lemma send_all d m : sx d = [] → send m d = (set_tx (tx d ++ m) d, Z.of_nat (length m)).
Proof. unfold send. by intros ->. Qed.

Lemma send_kept d m :
  packet (send m d).1 = packet d ∧ rx (send m d).1 = rx d ∧ max_packet_size (send m d).1 = max_packet_size d.
Proof. unfold send. by destruct (sx d) as [| []]. Qed.

Lemma check_ack_data d c x rest later :
  packet d = x :: rest → rx d = RxData [c] :: later →
  gdbwrap_check_ack d =
    Some (set_packet (c :: rest) (set_rx later d), c =? GDBWRAP_COR_CHECKSUMC).
Proof.
  intros Hp Hrx. unfold gdbwrap_check_ack, recv. rewrite Hrx, Hp. unfold guard_ub. cbn [length].
  rewrite !bool_decide_true by lia.
  transitivity (Some (set_packet (c :: rest) (set_rx later d), (c =? GDBWRAP_COR_CHECKSUMC) && true));
    [reflexivity | by rewrite andb_true_r].
Qed.

Lemma check_ack_closed d x rest later :
  packet d = x :: rest → x ≠ GDBWRAP_COR_CHECKSUMC → rx d = RxClosed :: later →
  gdbwrap_check_ack d = Some (set_active false d, false).
Proof.
  intros Hp Hx Hrx. unfold gdbwrap_check_ack, recv. rewrite Hrx. mstep.
  change (0 =? 0) with true. cbv iota.
  change (packet (set_active false d)) with (packet d). rewrite Hp. cbn [head]. mstep.
  by rewrite (proj2 (Z.eqb_neq x _)).
Qed.

Lemma send_loop_naks q later naks : ∀ fuel d,
  desc_ok d → query_ok d q → sx d = [] → Forall nak naks → (length naks < fuel)%nat →
  rx d = naks ++ RxData [GDBWRAP_COR_CHECKSUMC] :: later →
  ∃ p, send_loop fuel d q =
      Some (sent d q (S (length naks)) later p, Z.of_nat (length (wire q))) ∧ length p = length (packet d).
Proof.
  induction naks as [| e naks IH]; intros fuel d Hd Hq Hsx Hn Hf Hrx;
    (destruct fuel as [| fuel]; [simpl in Hf; lia |]);
    cbn [send_loop]; destruct (send_query d q Hd Hq) as (junk & -> & Hc & Hl); mstep;
    change (packet (set_packet ?p d)) with p; rewrite Hc; mstep; rewrite send_all by done.
  - erewrite check_ack_data by done. mstep. rewrite Z.eqb_refl.
    exists (GDBWRAP_COR_CHECKSUMC :: tail (wire q ++ 0 :: junk)). split; [| exact Hl].
    cbn [length]. unfold sent.
    change (mjoin (replicate 1 (wire q))) with (wire q ++ []). by rewrite app_nil_r.
  - inversion Hn as [| ? ? (c & -> & Hne) Hn']; subst.
    erewrite check_ack_data by done. rewrite (proj2 (Z.eqb_neq c _)) by done. mstep.
    match goal with |- context [send_loop fuel ?x q] =>
      destruct (IH fuel x) as (p & -> & Hp); try done end.
    + by apply (desc_ok_packet d).
    + simpl in Hf. lia.
    + exists p. split; [| by rewrite Hp]. unfold sent. cbn [length replicate mjoin list_join tx set_packet set_rx set_tx].
      by rewrite <-app_assoc.
Qed.

(** The peer closes before it acknowledges: the loop goes on for ever. *)
Lemma send_loop_closed q later fuel : ∀ naks d,
  desc_ok d → query_ok d q → Forall nak naks → rx d = naks ++ RxClosed :: later →
  send_loop fuel d q = None.
Proof.
  induction fuel as [| fuel IH]; intros naks d Hd Hq Hn Hrx; [done |].
  cbn [send_loop]. destruct (send_query d q Hd Hq) as (junk & -> & Hc & Hl). mstep.
  change (packet (set_packet ?p d)) with p. rewrite Hc. mstep.
  destruct (send_kept (set_packet (wire q ++ 0 :: junk) d) (wire q)) as (Hp & Hr & Hm).
  destruct (send (wire q) (set_packet (wire q ++ 0 :: junk) d)) as [d1 rval]. cbn [fst] in *.
  cbn [packet rx max_packet_size set_packet] in Hp, Hr, Hm. rewrite Hrx in Hr.
  assert (desc_ok d1) as Hd1 by (apply (desc_ok_packet d); [done | done | by rewrite Hp]).
  assert (query_ok d1 q) as Hq1 by (unfold query_ok; by rewrite Hm).
  destruct Hn as [| e naks (c & -> & Hne) Hn]; cbn [app] in Hr.
  - rewrite (check_ack_closed d1 36 (tail (wire q ++ 0 :: junk)) later) by (by rewrite ?Hp). mstep.
    by apply (IH []).
  - rewrite (check_ack_data d1 c 36 (tail (wire q ++ 0 :: junk)) (naks ++ RxClosed :: later)) by (by rewrite ?Hp).
    rewrite (proj2 (Z.eqb_neq c _)) by done. mstep. apply (IH naks); try done.
    apply (desc_ok_packet d1); [done | done |]. by rewrite Hp.
Qed.

(** The acknowledgement of a message that [send] has refused is an assertion failure. *)
Lemma send_data_refused d q e r later :
  desc_ok d → is_active d = true → query_ok d q → sx d = TxError e :: r →
  rx d = RxData [GDBWRAP_COR_CHECKSUMC] :: later → gdbwrap_send_data d q = None.
Proof.
  intros Hd Ha Hq Hsx Hrx. unfold gdbwrap_send_data. rewrite Ha. cbn [send_loop].
  destruct (send_query d q Hd Hq) as (junk & -> & Hc & Hl). mstep.
  change (packet (set_packet ?p d)) with p. rewrite Hc. mstep. unfold send. cbn [sx set_packet]. rewrite Hsx.
  by erewrite check_ack_data by done.
Qed.


(** The sender counts the message in a byte: a query of 252 characters makes a message
    of 256 bytes, whose count is 0, and the assertion on it fails, though the message
    fits the buffer. *)
Lemma make_message_256 d q :
  desc_ok d → payload q → length q = 252%nat → 300 ≤ max_packet_size d →
  gdbwrap_make_message d q = None.
Proof.
  intros Hd Hq Hl Hm. pose proof Hd as [Hb Hr]. unfold gdbwrap_make_message.
  destruct (calc_checksum_payload d q Hd Hq) as (j0 & -> & Hj0); [lia |]. mstep.
  change (max_packet_size (set_packet (q ++ 0 :: j0) d)) with (max_packet_size d).
  change (packet (set_packet (q ++ 0 :: j0) d)) with (q ++ 0 :: j0).
  rewrite print_02x_byte by apply checksum_range.
  change (GDBWRAP_BEGIN_PACKET ++ q ++ GDBWRAP_END_PACKET ++ hex_fixed 2 (checksum_of q)) with (wire q).
  destruct (guard_ub (bool_decide (Z.of_nat (length q) < _))); [mstep | done].
  destruct (write_cstr _ _); [mstep | done]. by rewrite wire_length, Hl.
Qed.

(** ** The theorem at concrete inputs *)

Ltac prove_payload := unfold payload; vm_compute bytes; repeat (constructor; [lia |]); constructor.

Definition demo_gdb (conn : list rx_event) : gdbwrap_t :=
  Gdb (replicate 301 0) 300 (replicate 16 0) true false false conn [] 0 0 false [].

