(* ===== verification/Leb128.v ===== *)
(** * LEB128 numbers (src/libedfmt/dwarf2-utils.c)

    [data] is the memory from the pointer on, as bytes.  [u_long] and [long] have 64
    bits; a read past the data or a shift of 64 bits or more is undefined ([None]).
    The result is the value with the number of bytes read. *)
From S2P Require Import Prelude.

Fixpoint uleb128_loop (data : list Z) (sum read s : Z) : option (Z * Z) :=
  match data with
  | [] => None
  | c :: data =>
      _ ← guard_ub (bool_decide (s < 64));
      let sum := sum ||| u64 ((c &&& 127) ≪ s) in
      if (c &&& 128) =? 0 then Some (sum, u32 (read + 1))
      else uleb128_loop data sum (u32 (read + 1)) (s + 7)
  end.

Definition edfmt_read_uleb128 (data : list Z) : option (Z * Z) := uleb128_loop data 0 0 0.

(** The sum, the bytes read, the shift and the last byte. *)
Fixpoint leb128_loop (data : list Z) (sum read s : Z) : option (Z * Z * Z * Z) :=
  match data with
  | [] => None
  | c :: data =>
      _ ← guard_ub (bool_decide (s < 64));
      let sum := sum ||| i64 ((c &&& 127) ≪ s) in
      if (c &&& 128) =? 0 then Some (sum, u32 (read + 1), u32 (s + 7), c)
      else leb128_loop data sum (u32 (read + 1)) (u32 (s + 7))
  end.

Definition edfmt_read_leb128 (data : list Z) : option (Z * Z) :=
  '(sum, read, s, c) ← leb128_loop data 0 0 0;
  let sum := if (s <? 8 * 8) && negb ((c &&& 64) =? 0) then sum ||| i64 (- i64 (1 ≪ s)) else sum in
  Some (sum, read).
