(* ===== verification/Leb128Spec.v ===== *)
(** * LEB128 numbers: decoding any encoding, and the round trip (Leb128.v) *)
From S2P Require Import Prelude Leb128.

Implicit Types (cs rest : list Z).

(** ** Encodings *)

(** The bytes of an encoding, all but the last. *)
Definition continued cs : Prop := Forall (λ c, 128 ≤ c < 256) cs.

(** Seven bits a byte, the low ones first. *)
Definition uleb_value (bs : list Z) : Z := foldr (λ c acc, c mod 128 + 128 * acc) 0 bs.

(** The same as a two's complement number of seven bits a byte; [c] is the last byte. *)
Definition sleb_value cs (c : Z) : Z :=
  uleb_value (cs ++ [c]) - (if c mod 128 <? 64 then 0 else 2 ^ (7 * (Z.of_nat (length cs) + 1))).

(** The encoders of the DWARF standard; ten bytes hold 64 bits. *)
Fixpoint uleb_encode (fuel : nat) (n : Z) : list Z :=
  match fuel with
  | O => []
  | S fuel => if n <? 128 then [n] else (n mod 128 + 128) :: uleb_encode fuel (n / 128)
  end.

Fixpoint sleb_encode (fuel : nat) (n : Z) : list Z :=
  match fuel with
  | O => []
  | S fuel =>
      let b := n mod 128 in
      if ((n / 128 =? 0) && (b <? 64)) || ((n / 128 =? -1) && negb (b <? 64)) then [b]
      else (b + 128) :: sleb_encode fuel (n / 128)
  end.

(** ** The loops *)

Lemma land_127 c : c &&& 127 = c mod 128.
Proof. change 127 with (Z.ones 7). by rewrite Z.land_ones by lia. Qed.

Lemma land_pow2 c k : 0 ≤ k → (c &&& 2 ^ k =? 0) = negb (Z.testbit c k).
Proof.
  intros Hk. destruct (Z.testbit c k) eqn:Hb; cbn [negb].
  - apply Z.eqb_neq. intros E. assert (Z.testbit (c &&& 2 ^ k) k = false) as Hf by by rewrite E, Z.bits_0.
    by rewrite Z.land_spec, Hb, Z.pow2_bits_true in Hf by done.
  - apply Z.eqb_eq, Z.bits_inj'. intros n Hn. rewrite Z.land_spec, Z.bits_0, Z.pow2_bits_eqb by done.
    destruct (Z.eqb_spec k n) as [-> |]; [by rewrite Hb | apply andb_false_r].
Qed.

Lemma continue_bit c : 0 ≤ c < 256 → (c &&& 128 =? 0) = (c <? 128).
Proof.
  intros Hc. change 128 with (2 ^ 7) at 1. rewrite land_pow2, Z.testbit_eqb by lia.
  change (2 ^ 7) with 128.
  destruct (Z.ltb_spec c 128); cbn [negb].
  - by rewrite Z.div_small by lia.
  - replace (c / 128) with 1 by (Z.to_euclidean_division_equations; lia). done.
Qed.

Lemma sign_bit c : (c &&& 64 =? 0) = (c mod 128 <? 64).
Proof.
  change 64 with (2 ^ 6) at 1. rewrite land_pow2, Z.testbit_eqb by lia. change (2 ^ 6) with 64.
  destruct (Z.ltb_spec (c mod 128) 64), (Z.eqb_spec ((c / 64) mod 2) 1); try done;
    Z.to_euclidean_division_equations; lia.
Qed.

Lemma or_shifted v s sum :
  0 ≤ s < 64 → 0 ≤ sum < 2 ^ s → sum ||| u64 (v ≪ s) = u64 (sum + v * 2 ^ s).
Proof.
  intros Hs Hsum. rewrite Z.shiftl_mul_pow2 by lia. unfold wrapu.
  assert (2 ^ 64 = 2 ^ (64 - s) * 2 ^ s) as H64 by (rewrite <-Z.pow_add_r by lia; f_equal; lia).
  rewrite H64, Z.mul_mod_distr_r, Z.lor_comm, lor_low by lia.
  pose proof (Z.mod_pos_bound v (2 ^ (64 - s))).
  apply Z.mod_unique_pos with (v / 2 ^ (64 - s)); [nia |].
  rewrite (Z.div_mod v (2 ^ (64 - s))) at 1 by lia. lia.
Qed.

Lemma uleb_value_cons c bs : uleb_value (c :: bs) = c mod 128 + 128 * uleb_value bs.
Proof. done. Qed.

Lemma uleb_value_range bs : 0 ≤ uleb_value bs < 2 ^ (7 * Z.of_nat (length bs)).
Proof.
  induction bs as [| c bs IH]; [done |]. rewrite uleb_value_cons. cbn [length].
  replace (7 * Z.of_nat (S (length bs))) with (7 + 7 * Z.of_nat (length bs)) by lia.
  rewrite Z.pow_add_r by lia. change (2 ^ 7) with 128.
  pose proof (Z.mod_pos_bound c 128). nia.
Qed.

Lemma or_shifted_signed v s sum :
  0 ≤ s < 64 → 0 ≤ sum < 2 ^ s → sum ||| i64 (v ≪ s) = i64 (sum + v * 2 ^ s).
Proof.
  intros Hs Hsum. rewrite Z.shiftl_mul_pow2 by lia.
  assert (2 ^ 64 = 2 ^ (64 - s) * 2 ^ s) as H64 by (rewrite <-Z.pow_add_r by lia; f_equal; lia).
  assert (2 ^ 63 = 2 ^ (63 - s) * 2 ^ s) as H63 by (rewrite <-Z.pow_add_r by lia; f_equal; lia).
  pose proof (wraps_range 64 (v * 2 ^ s)) as Hr. rewrite wraps_eq in *.
  set (k := (_ + _) / _) in *. change (64 - 1) with 63 in *.
  set (q := v - 2 ^ (64 - s) * k).
  assert (v * 2 ^ s - 2 ^ 64 * k = q * 2 ^ s) as E by (unfold q; rewrite H64; lia).
  rewrite E in *. rewrite Z.lor_comm, lor_low by lia. symmetry.
  apply (wraps_unique 64 _ _ k); [lia | | unfold q; lia].
  change (64 - 1) with 63.
  assert (q < 2 ^ (63 - s)) by (apply (Zmult_lt_reg_r _ _ (2 ^ s)); lia). nia.
Qed.

Lemma shift_bound s n : 0 ≤ n < 128 → ∀ sum, 0 ≤ s → 0 ≤ sum < 2 ^ s → 0 ≤ sum + n * 2 ^ s < 2 ^ (s + 7).
Proof. intros Hn sum Hs Hsum. rewrite Z.pow_add_r by lia. change (2 ^ 7) with 128. nia. Qed.

Lemma uleb128_loop_spec cs c rest : ∀ sum read s,
  continued cs → 0 ≤ c < 128 → 0 ≤ s → s + 7 * Z.of_nat (length cs) ≤ 63 → 0 ≤ sum < 2 ^ s →
  0 ≤ read ≤ s →
  uleb128_loop (cs ++ c :: rest) sum read s =
    Some (u64 (sum + uleb_value (cs ++ [c]) * 2 ^ s), read + Z.of_nat (length cs) + 1).
Proof.
  induction cs as [| c0 cs IH]; intros sum read s Hcs Hc Hs Hlen Hsum Hread; cbn [app uleb128_loop length] in *.
  - unfold guard_ub. rewrite bool_decide_true by lia. mstep.
    rewrite continue_bit, (proj2 (Z.ltb_lt c 128)), land_127, or_shifted by lia.
    rewrite uleb_value_cons, Z.mul_0_r, Z.add_0_r. rewrite (wrapu_small 32) by lia. do 2 f_equal. lia.
  - inversion Hcs as [| ? ? Hc0 Hcs']; subst.
    unfold guard_ub. rewrite bool_decide_true by lia. mstep.
    rewrite continue_bit, (proj2 (Z.ltb_ge c0 128)), land_127, or_shifted by lia.
    pose proof (Z.mod_pos_bound c0 128) as Hm.
    pose proof (shift_bound s (c0 mod 128) ltac:(lia) sum ltac:(lia) ltac:(lia)) as Hb.
    assert (2 ^ (s + 7) ≤ 2 ^ 63) by (apply Z.pow_le_mono_r; lia).
    rewrite (wrapu_small 64), (wrapu_small 32) by lia.
    rewrite IH by (done || lia). rewrite uleb_value_cons, Z.pow_add_r by lia.
    change (2 ^ 7) with 128. f_equal. f_equal; [f_equal | ]; lia.
Qed.

Lemma uleb128_loop_undefined cs rest : ∀ sum read s,
  continued cs → rest = [] ∨ 64 ≤ s + 7 * Z.of_nat (length cs) →
  uleb128_loop (cs ++ rest) sum read s = None.
Proof.
  induction cs as [| c0 cs IH]; intros sum read s Hcs Hd; cbn [app uleb128_loop length] in *.
  - destruct Hd as [-> | Hd]; [done |]. destruct rest; [done |]. cbn [uleb128_loop]. unfold guard_ub.
    by rewrite bool_decide_false by lia.
  - inversion Hcs as [| ? ? Hc0 Hcs']; subst.
    destruct (guard_ub _); [mstep | done].
    rewrite continue_bit, (proj2 (Z.ltb_ge c0 128)) by lia. apply IH; [done |].
    destruct Hd as [-> | Hd]; [by left | right; lia].
Qed.

Lemma leb128_loop_spec cs c rest : ∀ sum read s,
  continued cs → 0 ≤ c < 128 → 0 ≤ s → s + 7 * Z.of_nat (length cs) ≤ 63 → 0 ≤ sum < 2 ^ s →
  0 ≤ read ≤ s →
  leb128_loop (cs ++ c :: rest) sum read s =
    Some (i64 (sum + uleb_value (cs ++ [c]) * 2 ^ s), read + Z.of_nat (length cs) + 1,
          s + 7 * (Z.of_nat (length cs) + 1), c).
Proof.
  induction cs as [| c0 cs IH]; intros sum read s Hcs Hc Hs Hlen Hsum Hread; cbn [app leb128_loop length] in *.
  - unfold guard_ub. rewrite bool_decide_true by lia. mstep.
    rewrite continue_bit, (proj2 (Z.ltb_lt c 128)), land_127, or_shifted_signed by lia.
    rewrite uleb_value_cons, Z.mul_0_r, Z.add_0_r. rewrite !(wrapu_small 32) by lia.
    repeat first [reflexivity | lia | progress f_equal].
  - inversion Hcs as [| ? ? Hc0 Hcs']; subst.
    unfold guard_ub. rewrite bool_decide_true by lia. mstep.
    rewrite continue_bit, (proj2 (Z.ltb_ge c0 128)), land_127, or_shifted_signed by lia.
    pose proof (Z.mod_pos_bound c0 128) as Hm.
    pose proof (shift_bound s (c0 mod 128) ltac:(lia) sum ltac:(lia) ltac:(lia)) as Hb.
    assert (2 ^ (s + 7) ≤ 2 ^ 63) by (apply Z.pow_le_mono_r; lia).
    rewrite (wraps_small 64), !(wrapu_small 32) by (try change (64 - 1) with 63; lia).
    rewrite IH by (done || lia). rewrite uleb_value_cons, Z.pow_add_r by lia.
    change (2 ^ 7) with 128. repeat first [reflexivity | lia | progress f_equal].
Qed.

Lemma leb128_loop_undefined cs rest : ∀ sum read s,
  continued cs → 0 ≤ s → rest = [] ∨ 64 ≤ s + 7 * Z.of_nat (length cs) →
  leb128_loop (cs ++ rest) sum read s = None.
Proof.
  induction cs as [| c0 cs IH]; intros sum read s Hcs Hs Hd; cbn [app leb128_loop length] in *.
  - destruct Hd as [-> | Hd]; [done |]. destruct rest; [done |]. cbn [leb128_loop]. unfold guard_ub.
    by rewrite bool_decide_false by lia.
  - inversion Hcs as [| ? ? Hc0 Hcs']; subst. unfold guard_ub.
    case_bool_decide; mstep; [| done].
    rewrite continue_bit, (proj2 (Z.ltb_ge c0 128)) by lia. rewrite (wrapu_small 32 (s + 7)) by lia.
    apply IH; [done | lia |]. destruct Hd as [-> | Hd]; [by left | right; lia].
Qed.

(** The last byte's sign, when the shift leaves room for it. *)
Lemma or_sign sum s :
  0 < s ≤ 63 → 0 ≤ sum < 2 ^ s → sum ||| i64 (- i64 (1 ≪ s)) = sum - 2 ^ s.
Proof.
  intros Hs Hsum. rewrite Z.shiftl_1_l.
  assert (2 ^ s ≤ 2 ^ 63) by (apply Z.pow_le_mono_r; lia).
  pose proof (Z.pow_pos_nonneg 2 s).
  assert (i64 (- i64 (2 ^ s)) = - 2 ^ s) as ->.
  { destruct (decide (s = 63)) as [-> | Hne]; [done |].
    assert (2 ^ s ≤ 2 ^ 62) by (apply Z.pow_le_mono_r; lia).
    rewrite (wraps_small 64 (2 ^ s)) by (change (64 - 1) with 63; lia).
    rewrite (wraps_small 64) by (change (64 - 1) with 63; lia). lia. }
  replace (- 2 ^ s) with (-1 * 2 ^ s) by lia. rewrite Z.lor_comm, lor_low by lia. lia.
Qed.

Lemma read_uleb128 cs c rest :
  continued cs → 0 ≤ c < 128 →
  edfmt_read_uleb128 (cs ++ c :: rest) =
    if (length cs <? 10)%nat then Some (u64 (uleb_value (cs ++ [c])), Z.of_nat (length cs) + 1) else None.
Proof.
  intros Hcs Hc. unfold edfmt_read_uleb128. destruct (Nat.ltb_spec (length cs) 10).
  - rewrite uleb128_loop_spec by (done || lia). by rewrite Z.mul_1_r.
  - apply uleb128_loop_undefined; [done | right; lia].
Qed.

Lemma read_leb128 cs c rest :
  continued cs → 0 ≤ c < 128 →
  edfmt_read_leb128 (cs ++ c :: rest) =
    if (length cs <? 10)%nat then Some (i64 (sleb_value cs c), Z.of_nat (length cs) + 1) else None.
Proof.
  intros Hcs Hc. unfold edfmt_read_leb128. destruct (Nat.ltb_spec (length cs) 10).
  2: { rewrite leb128_loop_undefined; [done | done | lia | right; lia]. }
  rewrite leb128_loop_spec by (done || lia). mstep. rewrite sign_bit, Z.mul_1_r, !Z.add_0_l.
  unfold sleb_value. pose proof (uleb_value_range (cs ++ [c])) as Hv. rewrite length_app in Hv.
  replace (Z.of_nat (length cs + length [c])) with (Z.of_nat (length cs) + 1) in Hv by (simpl; lia).
  do 2 f_equal. set (v := uleb_value _) in *. set (n := Z.of_nat (length cs) + 1) in *.
  destruct (Z.ltb_spec (c mod 128) 64); cbn [negb]; [by rewrite andb_false_r, Z.sub_0_r |].
  rewrite andb_true_r. destruct (Z.ltb_spec (7 * n) (8 * 8)).
  - assert (2 ^ (7 * n) ≤ 2 ^ 63) by (apply Z.pow_le_mono_r; lia).
    rewrite (wraps_small 64 v), or_sign by (try change (64 - 1) with 63; lia).
    rewrite wraps_small; change (64 - 1) with 63; lia.
  - assert (n = 10) as -> by lia. symmetry.
    apply (wraps_unique 64 _ _ ((v + 2 ^ 63) / 2 ^ 64 - 2 ^ 6)); [lia | apply wraps_range; lia |].
    rewrite (wraps_eq 64 v). change (2 ^ (64 - 1)) with (2 ^ 63). change (2 ^ (7 * 10)) with (2 ^ 64 * 2 ^ 6). lia.
Qed.

(** ** The encoders *)

Lemma uleb_encode_bytes fuel : ∀ n,
  0 ≤ n < 2 ^ (7 * Z.of_nat fuel) → (0 < fuel)%nat →
  ∃ cs c, uleb_encode fuel n = cs ++ [c] ∧ continued cs ∧ 0 ≤ c < 128 ∧ (length cs < fuel)%nat ∧
    uleb_value (cs ++ [c]) = n.
Proof.
  induction fuel as [| fuel IH]; intros n Hn Hf; [lia |]. cbn [uleb_encode].
  replace (7 * Z.of_nat (S fuel)) with (7 + 7 * Z.of_nat fuel) in Hn by lia.
  rewrite Z.pow_add_r in Hn by lia. change (2 ^ 7) with 128 in Hn.
  destruct (Z.ltb_spec n 128).
  - exists [], n. split_and!; [done | apply Forall_nil_2 | lia | lia | simpl; lia |]. cbn [app]. rewrite uleb_value_cons. cbn.
    rewrite Z.mod_small; lia.
  - destruct (IH (n / 128)) as (cs & c & -> & Hcs & Hc & Hl & Hv).
    { split; [apply Z.div_pos; lia | apply Z.div_lt_upper_bound; lia]. }
    { destruct fuel; [simpl in Hn |]; lia. }
    pose proof (Z.mod_pos_bound n 128). exists ((n mod 128 + 128) :: cs), c.
    split_and!; [done | apply Forall_cons_2; [lia | done] | lia | lia | simpl; lia |].
    cbn [app]. rewrite uleb_value_cons, Hv. Z.to_euclidean_division_equations; lia.
Qed.

Lemma sleb_encode_bytes fuel : ∀ n,
  - 2 ^ (7 * Z.of_nat fuel - 1) ≤ n < 2 ^ (7 * Z.of_nat fuel - 1) → (0 < fuel)%nat →
  ∃ cs c, sleb_encode fuel n = cs ++ [c] ∧ continued cs ∧ 0 ≤ c < 128 ∧ (length cs < fuel)%nat ∧
    sleb_value cs c = n.
Proof.
  induction fuel as [| fuel IH]; intros n Hn Hf; [lia |]. cbn [sleb_encode].
  pose proof (Z.mod_pos_bound n 128). pose proof (Z.div_mod n 128).
  destruct (_ || _) eqn:Hend.
  - exists [], (n mod 128). split_and!; [done | apply Forall_nil_2 | lia | lia | simpl; lia |]. unfold sleb_value. cbn [app length].
    rewrite uleb_value_cons, Z.mod_mod by lia. cbn.
    apply orb_true_iff in Hend as [[Hq%Z.eqb_eq Hb]%andb_true_iff | [Hq%Z.eqb_eq Hb%negb_true_iff]%andb_true_iff];
      rewrite Hb; lia.
  - destruct fuel as [| fuel].
    { exfalso. simpl in Hn. apply orb_false_iff in Hend as [H1 H2].
      assert (n / 128 = 0 ∨ n / 128 = -1) as [E | E] by (Z.to_euclidean_division_equations; lia);
        rewrite E in H1, H2; cbn in H1, H2;
        [apply Z.ltb_ge in H1 | apply negb_false_iff, Z.ltb_lt in H2]; lia. }
    destruct (IH (n / 128)) as (cs & c & -> & Hcs & Hc & Hl & Hv); [| lia |].
    { replace (7 * Z.of_nat (S (S fuel)) - 1) with (7 + (7 * Z.of_nat (S fuel) - 1)) in Hn by lia.
      rewrite Z.pow_add_r in Hn by lia. change (2 ^ 7) with 128 in Hn.
      set (P := 2 ^ _) in *. Z.to_euclidean_division_equations; lia. }
    exists ((n mod 128 + 128) :: cs), c. split_and!; [done | apply Forall_cons_2; [lia | done] | lia | lia | simpl; lia |].
    unfold sleb_value in *. cbn [app length]. rewrite uleb_value_cons.
    replace (7 * (Z.of_nat (S (length cs)) + 1)) with (7 + 7 * (Z.of_nat (length cs) + 1)) by lia.
    rewrite Z.pow_add_r by lia. change (2 ^ 7) with 128.
    replace ((n mod 128 + 128) mod 128) with (n mod 128) by (Z.to_euclidean_division_equations; lia).
    destruct (c mod 128 <? 64); lia.
Qed.

(** C11. Both readers on any bytes: an encoding of at most ten bytes is read whole and
    gives the number its 7-bit groups make, unsigned or as two's complement, wrapped to
    64 bits; an encoding longer than that shifts past the width of the word, and one
    without a last byte reads past the data. *)
Theorem leb128_decode_spec cs c rest :
  continued cs → 0 ≤ c < 128 →
  edfmt_read_uleb128 (cs ++ c :: rest) =
    (if (length cs <? 10)%nat then Some (u64 (uleb_value (cs ++ [c])), Z.of_nat (length cs) + 1) else None) ∧
  edfmt_read_leb128 (cs ++ c :: rest) =
    (if (length cs <? 10)%nat then Some (i64 (sleb_value cs c), Z.of_nat (length cs) + 1) else None) ∧
  edfmt_read_uleb128 cs = None ∧ edfmt_read_leb128 cs = None.
Proof.
  intros Hcs Hc. split_and!; [by apply read_uleb128 | by apply read_leb128 | |].
  - rewrite <-(app_nil_r cs). apply uleb128_loop_undefined; [done | by left].
  - unfold edfmt_read_leb128. rewrite <-(app_nil_r cs). by rewrite leb128_loop_undefined; [| | | left].
Qed.

(** Every 64-bit number is read back from its encoding, whatever follows it, with the
    number of bytes of the encoding. *)
Lemma leb128_roundtrip n rest :
  (0 ≤ n < 2 ^ 64 → edfmt_read_uleb128 (uleb_encode 10 n ++ rest) =
     Some (n, Z.of_nat (length (uleb_encode 10 n)))) ∧
  (- 2 ^ 63 ≤ n < 2 ^ 63 → edfmt_read_leb128 (sleb_encode 10 n ++ rest) =
     Some (n, Z.of_nat (length (sleb_encode 10 n)))).
Proof.
  split; intros Hn.
  - destruct (uleb_encode_bytes 10 n) as (cs & c & -> & Hcs & Hc & Hl & Hv); [simpl; lia | lia |].
    rewrite <-app_assoc. change ([c] ++ rest) with (c :: rest). rewrite read_uleb128, Hv, wrapu_small by done.
    rewrite (proj2 (Nat.ltb_lt _ _)), length_app by done. do 2 f_equal. simpl. lia.
  - destruct (sleb_encode_bytes 10 n) as (cs & c & -> & Hcs & Hc & Hl & Hv); [simpl; lia | lia |].
    rewrite <-app_assoc. change ([c] ++ rest) with (c :: rest). rewrite read_leb128, Hv, wraps_small by (done || lia).
    rewrite (proj2 (Nat.ltb_lt _ _)), length_app by done. do 2 f_equal. simpl. lia.
Qed.

(** ** The theorems at concrete inputs *)

Lemma leb128_decode_spec_witness :
  edfmt_read_uleb128 [229; 142; 38; 0] = Some (624485, 3) ∧
  edfmt_read_leb128 [229; 142; 38; 0] = Some (624485, 3) ∧
  edfmt_read_uleb128 [229; 142] = None ∧ edfmt_read_leb128 [229; 142] = None.
Proof. apply (leb128_decode_spec [229; 142] 38 [0]); [repeat (constructor; [lia |]); constructor | lia]. Defined.

