(* ===== verification/Container.v ===== *)
(** * Containers, links and their registry (src/libaspect/containers.c,
    src/libmjollnir/src/container.c)

    The build is ERESI32: an address has 32 bits.  Containers live at addresses
    ([conts]), found by number through the array [reg_containers]; the lists of
    links are those of the registry of lists, shared by every container of the same
    name; a link is never changed once made, and stands for its own address. *)
From S2P Require Import Prelude.
From S2P Require Import Hash.
From S2P Require Import Elist.
From S2P Require Import Btree.

Definition ASPECT_TYPE_BLOC : Z := 15.
Definition ASPECT_TYPE_FUNC : Z := 16.
Definition ASPECT_TYPE_LINK : Z := 17.
Definition CONTAINER_LINK_IN : Z := 0.
Definition CONTAINER_LINK_OUT : Z := 1.
Definition MJR_CNTNRS_INCREMENT : Z := 200.
Definition MJR_MAX_INCREMENTS : Z := 200.
Definition MJR_LINK_FUNC_CALL : Z := 0.
Definition MJR_LINK_FUNC_RET : Z := 1.
Definition MJR_LINK_BLOCK_COND_TRUE : Z := 3.
Definition MJR_LINK_BLOCK_COND_FALSE : Z := 4.
Definition MJR_LINK_BLOCK_COND_ALWAYS : Z := 5.
Definition MJR_LINK_TYPE_DELAY : Z := 6.
Definition MJR_LINK_SCOPE_LOCAL : Z := 1.
Definition MJR_LINK_SCOPE_GLOBAL : Z := 2.

Record mjrlink_t := Link { link_id : Z; link_type : Z; link_scope : Z }.
Record mjrblock_t := Block { vaddr : Z; bsize : Z; symoff : Z; seen : Z }.
(** [first] is never set and [md5] is not modelled. *)
Record mjrfunc_t := Func { fvaddr : Z; fsize : Z; fname : string }.
Inductive cdata := DBlock (b : mjrblock_t) | DFunc (f : mjrfunc_t).

Record container_t := Container {
  cid : Z;
  ctype : Z;
  inlinks : option Z;
  outlinks : option Z;
  data : cdata;
}.

Definition set_cid (i : Z) (c : container_t) : container_t :=
  Container i (ctype c) (inlinks c) (outlinks c) (data c).
Definition set_data (d : cdata) (c : container_t) : container_t :=
  Container (cid c) (ctype c) (inlinks c) (outlinks c) d.

(** A cell of [reg_containers]: [None] is one [realloc] left unset, [Some None] is
    NULL.  [objid] is [obj->id]. *)
Record mjrcontext_t := Ctx {
  conts : gmap Z container_t;
  cbrk : Z;
  reg_containers : list (option (option Z));
  cntnrs_size : Z;
  next_id : Z;
  links : lworld mjrlink_t;
  linkhash : hash_t mjrlink_t;
  blkhash : hash_t Z;
  funchash : hash_t Z;
  block_btree : btree Z;
  curfunc : option Z;
  func_stack : list_t Z;
  objid : Z;
}.

Definition set_conts (m : gmap Z container_t) (x : mjrcontext_t) : mjrcontext_t :=
  Ctx m (cbrk x) (reg_containers x) (cntnrs_size x) (next_id x) (links x) (linkhash x) (blkhash x)
    (funchash x) (block_btree x) (curfunc x) (func_stack x) (objid x).
Definition set_reg (r : list (option (option Z))) (sz next : Z) (x : mjrcontext_t) : mjrcontext_t :=
  Ctx (conts x) (cbrk x) r sz next (links x) (linkhash x) (blkhash x)
    (funchash x) (block_btree x) (curfunc x) (func_stack x) (objid x).
Definition set_links (w : lworld mjrlink_t) (x : mjrcontext_t) : mjrcontext_t :=
  Ctx (conts x) (cbrk x) (reg_containers x) (cntnrs_size x) (next_id x) w (linkhash x) (blkhash x)
    (funchash x) (block_btree x) (curfunc x) (func_stack x) (objid x).
Definition set_linkhash (h : hash_t mjrlink_t) (x : mjrcontext_t) : mjrcontext_t :=
  Ctx (conts x) (cbrk x) (reg_containers x) (cntnrs_size x) (next_id x) (links x) h (blkhash x)
    (funchash x) (block_btree x) (curfunc x) (func_stack x) (objid x).
Definition set_blkhash (h : hash_t Z) (x : mjrcontext_t) : mjrcontext_t :=
  Ctx (conts x) (cbrk x) (reg_containers x) (cntnrs_size x) (next_id x) (links x) (linkhash x) h
    (funchash x) (block_btree x) (curfunc x) (func_stack x) (objid x).
Definition set_funchash (h : hash_t Z) (x : mjrcontext_t) : mjrcontext_t :=
  Ctx (conts x) (cbrk x) (reg_containers x) (cntnrs_size x) (next_id x) (links x) (linkhash x)
    (blkhash x) h (block_btree x) (curfunc x) (func_stack x) (objid x).
Definition set_btree (t : btree Z) (x : mjrcontext_t) : mjrcontext_t :=
  Ctx (conts x) (cbrk x) (reg_containers x) (cntnrs_size x) (next_id x) (links x) (linkhash x)
    (blkhash x) (funchash x) t (curfunc x) (func_stack x) (objid x).
Definition set_curfunc (f : option Z) (st : list_t Z) (x : mjrcontext_t) : mjrcontext_t :=
  Ctx (conts x) (cbrk x) (reg_containers x) (cntnrs_size x) (next_id x) (links x) (linkhash x)
    (blkhash x) (funchash x) (block_btree x) f st (objid x).

Definition set_cont (p : Z) (c : container_t) (x : mjrcontext_t) : mjrcontext_t :=
  set_conts (<[p := c]> (conts x)) x.

(** [XALLOC] of a container. *)
Definition new_cont (c : container_t) (x : mjrcontext_t) : mjrcontext_t * Z :=
  (Ctx (<[cbrk x := c]> (conts x)) (cbrk x + 1) (reg_containers x) (cntnrs_size x) (next_id x)
     (links x) (linkhash x) (blkhash x) (funchash x) (block_btree x) (curfunc x) (func_stack x)
     (objid x), cbrk x).

(** ** Names *)

Definition hex_char (n : Z) : Ascii.ascii :=
  Ascii.ascii_of_N (Z.to_N (if n <? 10 then 48 + n else 55 + n)).

Fixpoint hex_string (digits : nat) (n : Z) : string :=
  match digits with
  | O => EmptyString
  | S digits => String (hex_char ((n ≫ (4 * Z.of_nat digits)) &&& 15)) (hex_string digits n)
  end.

(** ["%08X"] of an address. *)
Definition AFMT (addr : Z) : string := hex_string 8 addr.
Definition vaddr2str (addr : Z) : string := AFMT addr.

(** The first word of the contained object. *)
Definition data_vaddr (d : cdata) : Z :=
  match d with DBlock b => vaddr b | DFunc f => fvaddr f end.

Section containers.
(** [aspect_type_get_by_id(type)->name], NULL for an unknown type. *)
Variable type_name : Z → option string.

(** ** Creation: [containers.c] *)

(** The list of the name if there is one, else a new one; the result of
    [elist_init] is not looked at. *)
Definition link_list (x : mjrcontext_t) (name : string) : option (mjrcontext_t * Z) :=
  newlist ← elist_find (links x) name;
  match newlist with
  | Some l => Some (x, l)
  | None =>
      let '(w, l) := new_list (links x) in
      '(w, _) ← elist_init w l name ASPECT_TYPE_LINK;
      Some (set_links w x, l)
  end.

Definition container_linklists_create (x : mjrcontext_t) (container linktype uniqid : Z) :
    option (mjrcontext_t * Z) :=
  c ← conts x !! container;
  let prefix :=
    if ctype c =? ASPECT_TYPE_BLOC then Some "bloc"%string
    else if ctype c =? ASPECT_TYPE_FUNC then Some "func"%string
    else type_name (ctype c) in
  match prefix with
  | None => Some (x, -1)
  | Some prefix =>
      let bufname (suffix : string) :=
        snprintf (pretty (i32 uniqid) +:+ "_" +:+ prefix +:+ "_" +:+ AFMT (data_vaddr (data c)) +:+
                  "_" +:+ suffix) in
      if linktype =? CONTAINER_LINK_IN then
        '(x, l) ← link_list x (bufname "inputs"%string);
        Some (set_cont container (Container (cid c) (ctype c) (Some l) (outlinks c) (data c)) x, 0)
      else if linktype =? CONTAINER_LINK_OUT then
        '(x, l) ← link_list x (bufname "outputs"%string);
        Some (set_cont container (Container (cid c) (ctype c) (inlinks c) (Some l) (data c)) x, 0)
      else Some (x, -1)
  end.

(** [elist_copy(list, ELIST_DATA_COPY)] of a list of links. *)
Definition copy_links (x : mjrcontext_t) (lst : Z) : option (mjrcontext_t * Z) :=
  l ← lists (links x) !! lst;
  let '(w, q) := new_list (links x) in
  Some (set_links (set_list q l w) x, q).

Definition container_create (x : mjrcontext_t) (type : Z) (d : cdata) (inlist outlist : option Z)
    (uniqid : Z) : option (mjrcontext_t * option Z) :=
  match type_name type with
  | None => Some (x, None)
  | Some _ =>
      let '(x, newcntnr) := new_cont (Container 0 type None None d) x in
      x ← match inlist with
          | Some l =>
              '(x, l) ← copy_links x l;
              c ← conts x !! newcntnr;
              Some (set_cont newcntnr (Container (cid c) (ctype c) (Some l) (outlinks c) (data c)) x)
          | None => '(x, _) ← container_linklists_create x newcntnr CONTAINER_LINK_IN uniqid; Some x
          end;
      x ← match outlist with
          | Some l =>
              '(x, l) ← copy_links x l;
              c ← conts x !! newcntnr;
              Some (set_cont newcntnr (Container (cid c) (ctype c) (inlinks c) (Some l) (data c)) x)
          | None => '(x, _) ← container_linklists_create x newcntnr CONTAINER_LINK_OUT uniqid; Some x
          end;
      Some (x, Some newcntnr)
  end.

(** ** The registry: [container.c] *)

(** The memory is zeroed. *)
Definition mjr_init_containers (x : mjrcontext_t) : mjrcontext_t :=
  set_reg (replicate (Z.to_nat (cntnrs_size x)) (Some None)) (cntnrs_size x) (next_id x) x.

(** [realloc] keeps the cells and leaves the new ones unset. *)
Definition mjr_resize_containers (x : mjrcontext_t) (resize : Z) : mjrcontext_t :=
  let sz := u32 (cntnrs_size x + (if negb (resize =? 0) then u32 (resize + 1) else MJR_CNTNRS_INCREMENT)) in
  let n := Z.to_nat sz in
  set_reg (take n (reg_containers x) ++ replicate (n - length (reg_containers x)) None) sz (next_id x) x.

Definition mjr_register_container (x : mjrcontext_t) (cntnr : Z) : option (mjrcontext_t * Z) :=
  if (cntnrs_size x <=? next_id x) && negb (cntnrs_size x <? MJR_CNTNRS_INCREMENT * MJR_MAX_INCREMENTS)
  then Some (x, 0)
  else
    let x := if cntnrs_size x <=? next_id x then mjr_resize_containers x 0 else x in
    r ← store (reg_containers x) (Z.to_nat (next_id x)) (Some (Some cntnr));
    c ← conts x !! cntnr;
    let id := next_id x in
    Some (set_cont cntnr (set_cid id c) (set_reg r (cntnrs_size x) (u32 (id + 1)) x), id).

Definition mjr_register_container_id (x : mjrcontext_t) (cntnr : Z) : option (mjrcontext_t * Z) :=
  c ← conts x !! cntnr;
  if (cntnrs_size x <=? cid c) && negb (cntnrs_size x <? MJR_CNTNRS_INCREMENT * MJR_MAX_INCREMENTS)
  then Some (x, 0)
  else
    let x := if cntnrs_size x <=? cid c
             then mjr_resize_containers x (u32 (cid c - cntnrs_size x)) else x in
    r ← store (reg_containers x) (Z.to_nat (cid c)) (Some (Some cntnr));
    let next := if next_id x <=? cid c then u32 (cid c + 1) else next_id x in
    Some (set_reg r (cntnrs_size x) next x, cid c).

Definition mjr_unregister_container (x : mjrcontext_t) (id : Z) : option mjrcontext_t :=
  r ← store (reg_containers x) (Z.to_nat id) (Some None);
  Some (set_reg r (cntnrs_size x) (next_id x) x).

(** An unset cell, and one past the array, are undefined. *)
Definition mjr_lookup_container (x : mjrcontext_t) (id : Z) : option (option Z) :=
  mjoin (reg_containers x !! Z.to_nat id).

(** ** Links *)

(** The list, NULL for another direction. *)
Definition mjr_link_get_by_direction (c : container_t) (dir : Z) : option Z :=
  if dir =? CONTAINER_LINK_IN then inlinks c
  else if dir =? CONTAINER_LINK_OUT then outlinks c else None.

Definition elist_del_in (w : lworld mjrlink_t) (lst : Z) (key : string) : option (lworld mjrlink_t) :=
  l ← lists w !! lst;
  l ← (elist_del (Some l) (Some key)).1;
  Some (set_list lst l w).

(** The scan for an existing link to [id]: the entries are those of the chain when
    it starts, for the scan only removes entries it has reached. *)
Fixpoint scan_links (x : mjrcontext_t) (lst : Z) (type id ltype : Z) (ents : list (lent mjrlink_t)) :
    option (mjrcontext_t * option mjrlink_t) :=
  match ents with
  | [] => Some (x, None)
  | e :: ents =>
      link ← ldata e;
      p ← mjr_lookup_container x (link_id link);
      p ← p;
      cnt ← conts x !! p;
      if (ctype cnt =? type) && (link_id link =? id) then
        if link_type link =? ltype then Some (x, Some link)
        else if (link_type link =? MJR_LINK_BLOCK_COND_ALWAYS) &&
                ((ltype =? MJR_LINK_BLOCK_COND_TRUE) || (ltype =? MJR_LINK_BLOCK_COND_FALSE)) then
          w ← elist_del_in (links x) lst (lkey e);
          scan_links (set_links w x) lst type id ltype ents
        else scan_links x lst type id ltype ents
      else scan_links x lst type id ltype ents
  end.

Definition link_name (src dst : Z) : string := pretty (u32 src) +:+ "_" +:+ pretty (u32 dst).

Definition mjr_container_add_link (x : mjrcontext_t) (cntnr id ltype lscope dir : Z) :
    option (mjrcontext_t * mjrlink_t) :=
  c ← conts x !! cntnr;
  linklist ← mjr_link_get_by_direction c dir;
  l ← lists (links x) !! linklist;
  '(x, found) ← scan_links x linklist (ctype c) id ltype (Elist.head l);
  match found with
  | Some link => Some (x, link)
  | None =>
      let link := Link id ltype lscope in
      let linkname := link_name (cid c) id in
      l ← lists (links x) !! linklist;
      l ← (elist_add (Some l) (Some linkname) (Some link)).1;
      '(h, _) ← hash_add_to (linkhash x) linkname (Some link);
      Some (set_linkhash h (set_links (set_list linklist l (links x)) x), link)
  end.

Definition mjr_get_link_by_type (listlink : option (list_t mjrlink_t)) (ltype : Z) : option mjrlink_t :=
  l ← listlink;
  (fix walk ents :=
     match ents with
     | [] => None
     | e :: ents => link ← ldata e; if link_type link =? ltype then Some link else walk ents
     end) (Elist.head l).

(** ** Containers of blocks and functions *)

Definition block_of (x : mjrcontext_t) (p : Z) : option mjrblock_t :=
  c ← conts x !! p; match data c with DBlock b => Some b | DFunc _ => None end.

(** The difference of two 32-bit words, read as an [int]; the elements of the tree
    are blocks, or the comparison is undefined (see below). *)
Definition match_block (x : mjrcontext_t) (elem match_ : Z) : Z :=
  match block_of x elem, block_of x match_ with
  | Some e, Some m => i32 (u32 (vaddr m - vaddr e))
  | _, _ => 0
  end.

Definition all_blocks (x : mjrcontext_t) (t : btree Z) : bool :=
  forallb (λ p, bool_decide (is_Some (block_of x p))) (btree_browse_prefix t cons []).

Definition mjr_create_block_container (x : mjrcontext_t) (symoff vaddr size seen : Z) :
    option (mjrcontext_t * option Z) :=
  '(x, newcntnr) ← container_create x ASPECT_TYPE_BLOC (DBlock (Block vaddr size symoff seen)) None None
                     (objid x);
  match newcntnr with
  | None => Some (x, None)
  | Some p =>
      '(x, _) ← mjr_register_container x p;
      _ ← guard_ub (all_blocks x (block_btree x));
      Some (set_btree (btree_insert_sort id (block_btree x) (match_block x) p) x, Some p)
  end.

(** The name is cut at 63 characters. *)
Definition mjr_create_function_container (x : mjrcontext_t) (vaddr size : Z) (name : option string) :
    option (mjrcontext_t * option Z) :=
  let fname := match name with Some n => String.substring 0 63 n | None => EmptyString end in
  '(x, newcntnr) ← container_create x ASPECT_TYPE_FUNC (DFunc (Func vaddr size fname)) None None
                     (objid x);
  match newcntnr with
  | None => Some (x, None)
  | Some p => '(x, _) ← mjr_register_container x p; Some (x, Some p)
  end.

(** [for (idx = 1, cur = reg[idx]; cur && idx < next_id; cur = reg[++idx])]: [fuel]
    is more than the number of cells. *)
Fixpoint find_vaddr (fuel : nat) (x : mjrcontext_t) (idx : Z) (vaddr type : Z) : option (option Z) :=
  match fuel with
  | O => None
  | S fuel =>
      cur ← mjr_lookup_container x idx;
      match cur with
      | None => Some None
      | Some p =>
          if idx <? next_id x then
            c ← conts x !! p;
            if (ctype c =? type) && (data_vaddr (data c) =? vaddr) then Some (Some p)
            else find_vaddr fuel x (idx + 1) vaddr type
          else Some None
      end
  end.

Definition mjr_get_container_by_vaddr (x : mjrcontext_t) (vaddr type : Z) : option (option Z) :=
  find_vaddr (S (length (reg_containers x))) x 1 vaddr type.

End containers.
