(* ===== verification/ContainerSpec.v ===== *)
(** * Containers: the registry of numbers, and the links (Container.v) *)
From S2P Require Import Prelude.
From S2P Require Import Hash.
From S2P Require Import HashSpec.
From S2P Require Import Elist.
From S2P Require Import ElistSpec.
From S2P Require Import Container.

Implicit Types (x : mjrcontext_t) (c : container_t) (p i : Z) (l : list_t mjrlink_t).

(** ** The registry *)

(** Every number below the next one has a cell, and a registered container carries its
    number. *)
Record reg_ok x : Prop := {
  ro_length : Z.of_nat (length (reg_containers x)) = cntnrs_size x;
  ro_next : 1 ≤ next_id x ≤ cntnrs_size x;
  ro_size : cntnrs_size x < 2 ^ 31;
  ro_set i : 0 ≤ i < next_id x → is_Some (mjr_lookup_container x i);
  ro_id i p : 0 ≤ i → mjr_lookup_container x i = Some (Some p) →
    i < next_id x ∧ ∃ c, conts x !! p = Some c ∧ cid c = i;
}.

(** No more numbers. *)
Definition reg_full x : Prop :=
  next_id x = cntnrs_size x ∧ MJR_CNTNRS_INCREMENT * MJR_MAX_INCREMENTS ≤ cntnrs_size x.

#[local] Instance reg_full_dec x : Decision (reg_full x).
Proof. apply _. Defined.

(** The array with room for the next number. *)
Definition grown x : mjrcontext_t :=
  if cntnrs_size x <=? next_id x then mjr_resize_containers x 0 else x.

Lemma grown_spec x :
  reg_ok x → ¬ reg_full x →
  ∃ pad, reg_containers (grown x) = reg_containers x ++ replicate pad None ∧
    cntnrs_size (grown x) = Z.of_nat (length (reg_containers x) + pad) ∧
    next_id x < cntnrs_size (grown x) < 2 ^ 31 ∧
    grown x = set_reg (reg_containers (grown x)) (cntnrs_size (grown x)) (next_id x) x.
Proof.
  intros [Hl Hn Hs _ _] Hf. unfold reg_full in Hf. change (MJR_CNTNRS_INCREMENT * MJR_MAX_INCREMENTS) with 40000 in Hf.
  change (2 ^ 31) with 2147483648 in *. unfold grown. destruct (Z.leb_spec (cntnrs_size x) (next_id x)).
  - exists 200%nat. unfold mjr_resize_containers, MJR_CNTNRS_INCREMENT.
    change (negb (0 =? 0)) with false. cbv iota.
    rewrite wrapu_small by (change (2 ^ 32) with 4294967296; lia).
    cbn [set_reg reg_containers cntnrs_size next_id].
    rewrite take_ge by lia.
    replace (Z.to_nat (cntnrs_size x + 200) - length (reg_containers x))%nat with 200%nat by lia.
    split_and!; try done; lia.
  - exists 0%nat. rewrite app_nil_r. split_and!; try done; [lia | by destruct x].
Qed.

Lemma lookup_store r (i j : Z) v :
  0 ≤ i < Z.of_nat (length r) → 0 ≤ j →
  mjoin ((<[Z.to_nat i := Some v]> r : list (option (option Z))) !! Z.to_nat j) =
    if bool_decide (j = i) then Some v else mjoin (r !! Z.to_nat j).
Proof.
  intros Hi Hj. case_bool_decide as Hc.
  - subst. by rewrite list_lookup_insert_eq by lia.
  - by rewrite list_lookup_insert_ne by lia.
Qed.

(** No number leads to the container yet. *)
Definition unregistered x p : Prop := ∀ i, 0 ≤ i → mjr_lookup_container x i ≠ Some (Some p).

(** The context after [p] has received the next number, its cells being [r]. *)
Definition registered x p c (r : list (option (option Z))) (sz : Z) : mjrcontext_t :=
  set_cont p (set_cid (next_id x) c) (set_reg r sz (next_id x + 1) x).

Lemma register_cells x p c :
  reg_ok x → ¬ reg_full x → conts x !! p = Some c →
  ∃ r sz, mjr_register_container x p = Some (registered x p c r sz, next_id x) ∧
    Z.of_nat (length r) = sz ∧ next_id x < sz < 2 ^ 31 ∧
    ∀ i, 0 ≤ i → mjoin (r !! Z.to_nat i) =
      if bool_decide (i = next_id x) then Some (Some p) else mjr_lookup_container x i.
Proof.
  intros Hok Hf Hc. unfold mjr_register_container.
  assert ((cntnrs_size x <=? next_id x) &&
          negb (cntnrs_size x <? MJR_CNTNRS_INCREMENT * MJR_MAX_INCREMENTS) = false) as ->.
  { apply not_true_iff_false. intros [H1%Z.leb_le H2%negb_true_iff%Z.ltb_ge]%andb_true_iff.
    apply Hf. split; [| done]. destruct Hok. lia. }
  fold (grown x). destruct (grown_spec x Hok Hf) as (pad & Hr & Hsz & Hn & Hg).
  pose proof (ro_next _ Hok) as Hnx. change (2 ^ 31) with 2147483648 in *.
  assert (length (reg_containers (grown x)) = length (reg_containers x) + pad)%nat as Hlen
    by (rewrite Hr, length_app, length_replicate; done).
  assert (next_id (grown x) = next_id x) as Hnid by (rewrite Hg; done).
  assert (conts (grown x) = conts x) as Hcx by (rewrite Hg; done).
  rewrite store_Some by lia. mstep. rewrite Hnid, Hcx, Hc. mstep.
  rewrite (wrapu_small 32) by (change (2 ^ 32) with 4294967296; lia).
  exists (<[Z.to_nat (next_id x) := Some (Some p)]> (reg_containers (grown x))), (cntnrs_size (grown x)).
  split; [by rewrite Hg |]. rewrite length_insert. split; [lia |]. split; [lia |].
  intros i Hi. rewrite lookup_store by lia. case_bool_decide; [done |].
  unfold mjr_lookup_container. rewrite Hr.
  destruct (decide (Z.to_nat i < length (reg_containers x))%nat);
    [by rewrite lookup_app_l | rewrite lookup_app_r by lia].
  rewrite (lookup_ge_None_2 (reg_containers x)) by lia.
  destruct (replicate pad None !! _) as [cell |] eqn:E; [| done]. by apply lookup_replicate in E as [-> _].
Qed.

Lemma register_new x p c :
  reg_ok x → ¬ reg_full x → conts x !! p = Some c → unregistered x p →
  ∃ r sz, mjr_register_container x p = Some (registered x p c r sz, next_id x) ∧
    reg_ok (registered x p c r sz) ∧
    ∀ i, 0 ≤ i → mjr_lookup_container (registered x p c r sz) i =
      if bool_decide (i = next_id x) then Some (Some p) else mjr_lookup_container x i.
Proof.
  intros Hok Hf Hc Hnew. destruct (register_cells x p c Hok Hf Hc) as (r & sz & -> & Hl & Hsz & Hlk).
  exists r, sz. split; [done |].
  assert (∀ i, 0 ≤ i → mjr_lookup_container (registered x p c r sz) i =
      if bool_decide (i = next_id x) then Some (Some p) else mjr_lookup_container x i) as Hlk' by apply Hlk.
  split; [| done]. pose proof Hok as [_ Hnx _ Hset Hid].
  split; try (cbn; lia).
  - intros i Hi. change (next_id (registered x p c r sz)) with (next_id x + 1) in Hi.
    rewrite Hlk' by lia. case_bool_decide; [by eexists |]. apply Hset. lia.
  - intros i q Hi. rewrite Hlk' by done.
    change (next_id (registered x p c r sz)) with (next_id x + 1).
    change (conts (registered x p c r sz)) with (<[p := set_cid (next_id x) c]> (conts x)).
    case_bool_decide as Hb; intros Hq.
    { simplify_eq. split; [lia |]. eexists. by rewrite lookup_insert_eq. }
    destruct (Hid i q Hi Hq) as (? & c' & Hc' & Hci). split; [lia |]. exists c'.
    rewrite lookup_insert_ne; [done |]. intros ->. by apply (Hnew i Hi).
Qed.

(** ** Links *)

Implicit Types (e : lent mjrlink_t) (ents : list (lent mjrlink_t)).

(** An entry of the links of [src]: its key names both ends, and it leads to a
    registered container of the type of [src]. *)
Definition entry_ok x (src type : Z) e : Prop :=
  ∃ k, ldata e = Some k ∧ 0 ≤ link_id k < 2 ^ 32 ∧ lkey e = link_name src (link_id k) ∧
    ∃ q cnt, mjr_lookup_container x (link_id k) = Some (Some q) ∧ conts x !! q = Some cnt ∧
      ctype cnt = type.

(** Does an entry lead to [id]. *)
Definition leads_to (id : Z) e : bool :=
  match ldata e with Some k => link_id k =? id | None => false end.
Definition has_type (ty : Z) e : bool :=
  match ldata e with Some k => link_type k =? ty | None => false end.

(** The first [n] entries that lead to [id] are dropped. *)
Fixpoint drop_to (n : nat) (id : Z) ents : list (lent mjrlink_t) :=
  match n, ents with
  | O, _ => ents
  | _, [] => []
  | S n', e :: ents => if leads_to id e then drop_to n' id ents else e :: drop_to n id ents
  end.

(** How many entries the scan removes: as many as there are unconditional links to
    [id], when the new link is conditional. *)
Definition replaced (ltype id : Z) ents : nat :=
  if (ltype =? MJR_LINK_BLOCK_COND_TRUE) || (ltype =? MJR_LINK_BLOCK_COND_FALSE)
  then length (filter (λ e, leads_to id e && has_type MJR_LINK_BLOCK_COND_ALWAYS e) ents) else 0.

Lemma link_name_inj src a b :
  0 ≤ a < 2 ^ 32 → 0 ≤ b < 2 ^ 32 → link_name src a = link_name src b → a = b.
Proof.
  intros Ha Hb. unfold link_name. rewrite !(wrapu_small 32 a), !(wrapu_small 32 b) by done.
  intros H. apply (inj (String.append _)) in H. apply (inj (String.append _)) in H.
  by apply (inj pretty) in H.
Qed.

Definition keyed src ents : Prop :=
  Forall (λ e, ∃ k, ldata e = Some k ∧ 0 ≤ link_id k < 2 ^ 32 ∧ lkey e = link_name src (link_id k)) ents.

Lemma entry_keyed x src type ents : Forall (entry_ok x src type) ents → keyed src ents.
Proof. intros H. eapply Forall_impl; [exact H |]. intros e (k & ? & ? & ? & _). eauto. Qed.

Lemma drop_to_0 id ents : drop_to 0 id ents = ents.
Proof. by destruct ents. Qed.

Lemma del_first src id ents :
  0 ≤ id < 2 ^ 32 → keyed src ents → existsb (leads_to id) ents = true →
  del_ent (link_name src id) ents = Some (drop_to 1 id ents).
Proof.
  intros Hid. induction 1 as [| e ents (k & Hk & Hr & Hkey) _ IH]; [done |].
  cbn [existsb del_ent drop_to]. unfold leads_to at 1 3. rewrite Hk, Hkey.
  destruct (Z.eqb_spec (link_id k) id) as [-> |]; cbn [orb]; intros Hex.
  - by rewrite bool_decide_true, drop_to_0.
  - rewrite bool_decide_false by (intros Heq; by apply link_name_inj in Heq).
    by rewrite IH.
Qed.

Lemma drop_to_add n m id ents : drop_to n id (drop_to m id ents) = drop_to (m + n) id ents.
Proof.
  revert m. induction ents as [| e ents IH]; intros m; [by destruct n, m |].
  destruct m as [| m]; [done |]. cbn [drop_to plus]. destruct (leads_to id e) eqn:He; [apply IH |].
  destruct n as [| n]; cbn [drop_to]; [by rewrite Nat.add_0_r |]. rewrite He. f_equal. apply (IH (S m)).
Qed.

Lemma drop_to_keyed src n id ents : keyed src ents → keyed src (drop_to n id ents).
Proof.
  intros H. revert n. induction H as [| e ents He Hents IH]; intros n; [by destruct n; constructor |].
  destruct n; [by apply Forall_cons_2 |]. cbn [drop_to]. case_match; [apply IH |].
  apply Forall_cons_2; [done | apply IH].
Qed.

Lemma drop_to_length n id ents :
  (n ≤ length (filter (leads_to id) ents))%nat → length (drop_to n id ents) = (length ents - n)%nat.
Proof.
  revert n. induction ents as [| e ents IH]; intros n Hn; [by destruct n |].
  destruct n as [| n]; [done |]. cbn [drop_to length].
  rewrite filter_cons in Hn. destruct (leads_to id e); cbn [length] in Hn.
  - rewrite IH; cbn [length] in Hn; case_decide; cbn [length] in *; lia || done.
  - case_decide; [done |]. cbn [length]. pose proof (length_filter (leads_to id) ents).
    rewrite IH; lia.
Qed.

Lemma drop_to_still n id ents :
  (n < length (filter (leads_to id) ents))%nat → existsb (leads_to id) (drop_to n id ents) = true.
Proof.
  revert n. induction ents as [| e ents IH]; intros n Hn; [simpl in Hn; lia |].
  rewrite filter_cons in Hn. destruct (leads_to id e) eqn:He.
  - case_decide; [| done]. cbn [length] in Hn. destruct n as [| n]; cbn [drop_to existsb]; rewrite He; [done |].
    apply IH. lia.
  - case_decide; [done |]. destruct n as [| n]; cbn [drop_to existsb]; rewrite He; cbn [orb existsb].
    + rewrite <-(drop_to_0 id ents). by apply IH.
    + rewrite He. by apply IH.
Qed.

(** The list with the first [n] entries to [id] dropped. *)
Definition dropped (n : nat) (id : Z) l : list_t mjrlink_t :=
  set_lelmnbr (Z.of_nat (length (drop_to n id (Elist.head l)))) (set_head (drop_to n id (Elist.head l)) l).

Lemma del_dropped (w : lworld mjrlink_t) lst src id n l :
  lists w !! lst = Some (dropped n id l) → 0 ≤ id < 2 ^ 32 → keyed src (Elist.head l) →
  (n < length (filter (leads_to id) (Elist.head l)))%nat →
  elist_del_in w lst (link_name src id) = Some (set_list lst (dropped (S n) id l) w).
Proof.
  intros Hl Hid Hk Hn. unfold elist_del_in. rewrite Hl. mstep. unfold elist_del, dropped.
  cbn [set_lelmnbr set_head Elist.head lelmnbr].
  rewrite (del_first src) by (done || by apply drop_to_keyed || by apply drop_to_still).
  cbn [fst]. mstep. rewrite drop_to_add, Nat.add_1_r. do 2 f_equal. unfold set_lelmnbr, set_head. cbn.
  pose proof (length_filter (leads_to id) (Elist.head l)).
  rewrite !drop_to_length by lia. f_equal; [| lia].
  case_match eqn:Hz; [| done]. apply Z.eqb_eq in Hz. symmetry. apply length_zero_iff_nil.
  rewrite drop_to_length by lia. lia.
Qed.

Lemma set_links_id x : set_links (links x) x = x.
Proof. by destruct x. Qed.

Lemma dropped_0 id l : elist_wf l → dropped 0 id l = l.
Proof. unfold elist_wf, dropped. intros Hw. rewrite drop_to_0, <-Hw. by destruct l. Qed.

Lemma set_list_set lst (l1 l2 : list_t mjrlink_t) w : set_list lst l2 (set_list lst l1 w) = set_list lst l2 w.
Proof. unfold set_list. cbn. by rewrite insert_insert_eq. Qed.

Lemma set_list_id lst l (w : lworld mjrlink_t) : lists w !! lst = Some l → set_list lst l w = w.
Proof. intros Hl. unfold set_list. rewrite insert_id by done. by destruct w. Qed.

(** The context with [n] entries to [id] dropped from the list. *)
Definition scanned x lst n id l : mjrcontext_t := set_links (set_list lst (dropped n id l) (links x)) x.

(** The condition under which the scan stops at an entry. *)
Definition same_link (ltype id : Z) e : bool := leads_to id e && has_type ltype e.

(** Does this entry make the scan remove one. *)
Definition removes (ltype id : Z) e : bool :=
  ((ltype =? MJR_LINK_BLOCK_COND_TRUE) || (ltype =? MJR_LINK_BLOCK_COND_FALSE)) &&
  (leads_to id e && has_type MJR_LINK_BLOCK_COND_ALWAYS e).

Definition nremoves (ltype id : Z) ents : nat := length (filter (removes ltype id) ents).

Lemma length_filter_cons (f : lent mjrlink_t → bool) e ents :
  length (filter f (e :: ents)) = ((if f e then 1 else 0) + length (filter f ents))%nat.
Proof. rewrite filter_cons. destruct (f e); [by rewrite decide_True | by rewrite decide_False by auto]. Qed.

Lemma scan_links_spec x lst src type id ltype l ents2 : ∀ ents n,
  lists (links x) !! lst = Some l → 0 ≤ id < 2 ^ 32 → Forall (entry_ok x src type) (Elist.head l) →
  Forall (entry_ok x src type) (ents ++ ents2) →
  Forall (λ e, same_link ltype id e = false) ents →
  (n + length (filter (leads_to id) ents) ≤ length (filter (leads_to id) (Elist.head l)))%nat →
  scan_links (scanned x lst n id l) lst type id ltype (ents ++ ents2) =
    scan_links (scanned x lst (n + nremoves ltype id ents) id l) lst type id ltype ents2.
Proof.
  induction ents as [| e ents IH]; intros n Hl Hid Hall Hents Hno Hn.
  { by rewrite Nat.add_0_r. }
  inversion Hents as [| ? ? (k & Hk & Hr & Hkey & q & cnt & Hq & Hcnt & Hty) Hents']; subst.
  inversion Hno as [| ? ? Hsame Hno']; subst.
  cbn [app scan_links]. rewrite Hk. mstep.
  change (mjr_lookup_container (scanned x lst n id l)) with (mjr_lookup_container x).
  change (conts (scanned x lst n id l)) with (conts x).
  rewrite Hq. mstep. rewrite Hcnt. mstep. rewrite Z.eqb_refl. cbn [andb].
  assert (leads_to id e = (link_id k =? id)) as Hlead by (unfold leads_to; by rewrite Hk).
  assert (∀ ty, has_type ty e = (link_type k =? ty)) as Hhas by (intros; unfold has_type; by rewrite Hk).
  unfold same_link in Hsame. rewrite Hlead, Hhas in Hsame.
  assert (nremoves ltype id (e :: ents) = ((if removes ltype id e then 1 else 0) + nremoves ltype id ents)%nat)
    as -> by apply length_filter_cons.
  rewrite length_filter_cons, Hlead in Hn. unfold removes at 1. rewrite Hlead, Hhas.
  destruct (Z.eqb_spec (link_id k) id) as [He |]; cbn [andb] in *.
  - rewrite Hsame, (andb_comm (_ || _)).
    destruct ((link_type k =? MJR_LINK_BLOCK_COND_ALWAYS) && _).
    + change (links (scanned x lst n id l)) with (set_list lst (dropped n id l) (links x)).
      rewrite Hkey, He.
      rewrite (del_dropped _ lst src id n l);
        [| by cbn; rewrite lookup_insert_eq | done | by eapply entry_keyed | lia].
      mstep. change (set_links ?w (scanned x lst n id l)) with (set_links w x).
      change (links (scanned x lst n id l)) with (set_list lst (dropped n id l) (links x)).
      rewrite set_list_set. change (set_links (set_list lst (dropped (S n) id l) (links x)) x)
        with (scanned x lst (S n) id l).
      rewrite IH by (done || lia). f_equal. f_equal. lia.
    + by rewrite IH by (done || lia).
  - rewrite andb_false_r. by rewrite IH by (done || lia).
Qed.

(** The list and the table after a new link. *)
Definition linked x lst l (name : string) (h : hash_t mjrlink_t) (k : mjrlink_t) : mjrcontext_t :=
  set_linkhash h (set_links (set_list lst
    (set_lelmnbr (lelmnbr l + 1) (set_head (Lent name (Some k) :: Elist.head l) l)) (links x)) x).

Lemma add_link_new x cntnr c lst l m id ltype scope dir :
  conts x !! cntnr = Some c → mjr_link_get_by_direction c dir = Some lst →
  lists (links x) !! lst = Some l → elist_wf l → 0 ≤ id < 2 ^ 32 →
  Forall (entry_ok x (cid c) (ctype c)) (Elist.head l) → Repr (linkhash x) m →
  Forall (λ e, same_link ltype id e = false) (Elist.head l) →
  ∃ h, mjr_container_add_link x cntnr id ltype scope dir =
      Some (linked x lst (dropped (nremoves ltype id (Elist.head l)) id l) (link_name (cid c) id) h
              (Link id ltype scope), Link id ltype scope) ∧
    Repr h (<[link_name (cid c) id := Link id ltype scope]> m).
Proof.
  intros Hc Hd Hl Hw Hid Hall HR Hno. unfold mjr_container_add_link. rewrite Hc. mstep. rewrite Hd. mstep.
  rewrite Hl. mstep.
  pose proof (scan_links_spec x lst (cid c) (ctype c) id ltype l [] (Elist.head l) 0) as Hscan.
  rewrite app_nil_r in Hscan. unfold scanned at 1 in Hscan.
  rewrite dropped_0, set_list_id, set_links_id in Hscan by done.
  rewrite Hscan by (done || lia). clear Hscan. cbn [scan_links plus]. mstep.
  set (l' := dropped _ id l).
  change (links (scanned x lst ?n id l)) with (set_list lst (dropped n id l) (links x)). fold l'.
  change (lists (set_list lst l' (links x)) !! lst) with (<[lst := l']> (lists (links x)) !! lst).
  rewrite lookup_insert_eq. mstep. cbn [elist_add fst]. mstep.
  change (linkhash (scanned x lst ?n id l)) with (linkhash x).
  destruct (hash_add_to_Repr (linkhash x) m (link_name (cid c) id) (Link id ltype scope) HR)
    as (h & r & -> & HR' & _). mstep.
  exists h. split; [| done]. rewrite set_list_set. unfold linked, l'. done.
Qed.
