(* ===== verification/Blocks.v ===== *)
(** * Control flow: blocks, their splitting and linking (src/libmjollnir/src/blocks.c,
    links.c, function.c)

    The ELF object is reached through the interface [ElfLayer]: what the functions of
    libelfsh that these files call take and return. *)
From S2P Require Import Prelude.
From S2P Require Import Hash.
From S2P Require Import Elist.
From S2P Require Import Btree.
From S2P Require Import Container.

Class ElfLayer (E : Type) := {
  (** Is there a symbol of this name. *)
  elfsh_get_symbol_by_name : E → string → bool;
  (** [secthash[ELFSH_SECTION_SYMTAB]->shdr->sh_size] *)
  symtab_size : E → Z;
  (** [elfsh_create_symbol] of a value, a size and a type, [elfsh_insert_symbol] under a
      name, and [elfsh_sync_sorted_symtab]. *)
  elfsh_insert_symbol : E → Z → Z → Z → string → E;
  (** The symbol of exactly this value. *)
  elfsh_get_symbol_by_value : E → Z → option Z;
  (** [sym->st_size = ...] *)
  set_st_size : E → Z → Z → E;
  (** The name of the section of an address, and whether its [data] is not NULL. *)
  elfsh_get_parent_section : E → Z → option (string * bool);
  (** The symbol an address is in, and the offset; the name is never NULL. *)
  elfsh_reverse_metasym : E → Z → string * Z;
}.

Definition MJR_BLOCK_GET_STRICT : Z := 0.
Definition MJR_BLOCK_GET_FUZZY : Z := 1.
Definition MJR_BLOCK_INVALID : Z := 4294967295.
Definition STT_BLOCK : Z := 7.
Definition STT_FUNC : Z := 2.

Section blocks.
Variable type_name : Z → option string.
(** What [config_get_data] answers for the two prefixes. *)
Variables bloc_prefix func_prefix : string.
Context {E : Type} `{!ElfLayer E}.

(** ** Lookup *)

Fixpoint search_block (x : mjrcontext_t) (t : btree Z) (addr : Z) : option (option Z) :=
  match t with
  | Leaf => Some None
  | Node _ ret l r =>
      tmpblock ← block_of x ret;
      if (vaddr tmpblock <=? addr) && (addr <? u32 (vaddr tmpblock + bsize tmpblock))
      then Some (Some ret)
      else if vaddr tmpblock <? addr then search_block x r addr
      else search_block x l addr
  end.

Definition mjr_block_get_by_vaddr (x : mjrcontext_t) (addr mode : Z) : option (option Z) :=
  ret ← hash_get (blkhash x) (vaddr2str addr);
  if (mode =? MJR_BLOCK_GET_STRICT) ||
     ((mode =? MJR_BLOCK_GET_FUZZY) && bool_decide (is_Some ret))
  then Some ret
  else search_block x (block_btree x) addr.

Definition mjr_block_symbol (x : mjrcontext_t) (elf : E) (csrc : Z) : option (E * Z) :=
  block ← block_of x csrc;
  let buffer := snprintf (bloc_prefix +:+ AFMT (vaddr block)) in
  if elfsh_get_symbol_by_name elf buffer then Some (elf, 0)
  else
    let off := i32 (symtab_size elf) in
    Some (elfsh_insert_symbol elf (vaddr block) (bsize block) STT_BLOCK buffer, off).

Definition set_block (x : mjrcontext_t) (p : Z) (b : mjrblock_t) : option mjrcontext_t :=
  c ← conts x !! p; Some (set_cont p (set_data (DBlock b) c) x).

(** ** Splitting *)

(** The entries are those of the chain when the loop starts: it removes each one after
    it has added the link to the other container. *)
Fixpoint relink_loop (x : mjrcontext_t) (linklist dst direction : Z) (ents : list (lent mjrlink_t)) :
    option mjrcontext_t :=
  match ents with
  | [] => Some x
  | e :: ents =>
      lnk ← ldata e;
      '(x, _) ← mjr_container_add_link x dst (link_id lnk) (link_type lnk) (link_scope lnk) direction;
      w ← elist_del_in (links x) linklist (lkey e);
      relink_loop (set_links w x) linklist dst direction ents
  end.

Definition mjr_block_relink (x : mjrcontext_t) (src dst direction : Z) : option mjrcontext_t :=
  c ← conts x !! src;
  linklist ← mjr_link_get_by_direction c direction;
  l ← lists (links x) !! linklist;
  relink_loop x linklist dst direction (Elist.head l).

(** Two links, in both directions. *)
Definition link_both (x : mjrcontext_t) (src dst tout tin scope : Z) : option mjrcontext_t :=
  cs ← conts x !! src;
  cd ← conts x !! dst;
  '(x, _) ← mjr_container_add_link x src (cid cd) tout scope CONTAINER_LINK_OUT;
  '(x, _) ← mjr_container_add_link x dst (cid cs) tin scope CONTAINER_LINK_IN;
  Some x.

(** The creation of the containers is assumed to succeed by the code: it would
    dereference NULL.  [link_with] is not used. *)
Definition mjr_block_split (x : mjrcontext_t) (elf : E) (dst link_with : Z) :
    option (mjrcontext_t * E * Z) :=
  tmpdst ← mjr_block_get_by_vaddr x dst MJR_BLOCK_GET_FUZZY;
  match tmpdst with
  | None =>
      '(x, p) ← mjr_create_block_container type_name x 0 dst 0 0;
      '(h, _) ← hash_add_to (blkhash x) (vaddr2str dst) p;
      let x := set_blkhash h x in
      p ← p;
      '(elf, off) ← mjr_block_symbol x elf p;
      b ← block_of x p;
      x ← set_block x p (Block (vaddr b) (bsize b) (u32 off) (seen b));
      Some (x, elf, p)
  | Some p =>
      blkdst ← block_of x p;
      sym ← elfsh_get_symbol_by_value elf (vaddr blkdst);
      if negb (vaddr blkdst =? dst) then
        let new_size := i32 (u32 (bsize blkdst - u32 (dst - vaddr blkdst))) in
        let size := u32 (bsize blkdst - new_size) in
        x ← set_block x p (Block (vaddr blkdst) size (symoff blkdst) (seen blkdst));
        let elf := set_st_size elf sym size in
        _ ← guard_ub (bool_decide (0 < size));
        '(x, dstend) ← mjr_create_block_container type_name x 0 dst (u32 new_size)
                         (if negb (new_size =? 0) then 1 else 0);
        '(h, _) ← hash_add_to (blkhash x) (vaddr2str dst) dstend;
        let x := set_blkhash h x in
        dstend ← dstend;
        '(elf, _) ← mjr_block_symbol x elf dstend;
        x ← mjr_block_relink x p dstend CONTAINER_LINK_OUT;
        x ← link_both x p dstend MJR_LINK_BLOCK_COND_ALWAYS MJR_LINK_BLOCK_COND_ALWAYS
              MJR_LINK_SCOPE_LOCAL;
        Some (x, elf, dstend)
      else Some (x, elf, p)
  end.

(** ** Linking blocks *)

(** The section holds data. *)
Definition in_data (elf : E) (addr : Z) : bool :=
  match elfsh_get_parent_section elf addr with Some (_, has_data) => has_data | None => false end.

(** [mjr_block_split] returns no NULL here: its failure is undefined. *)
Definition mjr_link_block_call (x : mjrcontext_t) (elf : E) (src dst ret : Z) :
    option (mjrcontext_t * E * Z) :=
  csrc ← mjr_block_get_by_vaddr x src MJR_BLOCK_GET_FUZZY;
  let dst_data := in_data elf dst in
  let ret_data := in_data elf ret in
  csrc ← csrc;
  '(elf, _) ← mjr_block_symbol x elf csrc;
  '(x, elf) ← (if negb (dst =? MJR_BLOCK_INVALID) && dst_data then
                 '(x, elf, cdst) ← mjr_block_split x elf dst MJR_LINK_FUNC_CALL;
                 x ← link_both x csrc cdst MJR_LINK_FUNC_CALL MJR_LINK_FUNC_CALL MJR_LINK_SCOPE_GLOBAL;
                 Some (x, elf)
               else Some (x, elf));
  '(x, elf) ← (if negb (ret =? MJR_BLOCK_INVALID) && ret_data then
                 '(x, elf, cret) ← mjr_block_split x elf ret MJR_LINK_FUNC_RET;
                 x ← link_both x csrc cret MJR_LINK_TYPE_DELAY MJR_LINK_TYPE_DELAY MJR_LINK_SCOPE_LOCAL;
                 Some (x, elf)
               else Some (x, elf));
  Some (x, elf, 1).

Definition mjr_link_block_jump (x : mjrcontext_t) (elf : E) (src dst ret : Z) :
    option (mjrcontext_t * E * Z) :=
  csrc ← mjr_block_get_by_vaddr x src MJR_BLOCK_GET_FUZZY;
  csrc ← csrc;
  bsrc ← block_of x csrc;
  '(x, elf, csrc) ← (if (vaddr bsrc <? dst) && (dst <=? src)
                     then mjr_block_split x elf src MJR_LINK_BLOCK_COND_ALWAYS
                     else Some (x, elf, csrc));
  '(elf, _) ← mjr_block_symbol x elf csrc;
  '(x, elf, cdst) ← mjr_block_split x elf dst MJR_LINK_BLOCK_COND_ALWAYS;
  '(x, elf, cret) ← (if negb (ret =? MJR_BLOCK_INVALID) then
                       '(x, elf, p) ← mjr_block_split x elf ret MJR_LINK_BLOCK_COND_ALWAYS;
                       Some (x, elf, Some p)
                     else Some (x, elf, None));
  x ← link_both x csrc cdst MJR_LINK_BLOCK_COND_TRUE MJR_LINK_BLOCK_COND_TRUE MJR_LINK_SCOPE_LOCAL;
  x ← match cret with
      | Some cret =>
          link_both x csrc cret MJR_LINK_BLOCK_COND_FALSE MJR_LINK_BLOCK_COND_FALSE MJR_LINK_SCOPE_LOCAL
      | None => Some x
      end;
  Some (x, elf, 1).

(** ** Functions: function.c and the call layer of links.c *)

(** The address is a [u_int]. *)
Definition mjr_function_get_by_vaddr (x : mjrcontext_t) (addr : Z) : option (option Z) :=
  hash_get (funchash x) (vaddr2str (u32 addr)).

Definition mjr_function_register (x : mjrcontext_t) (addr : Z) (fun_ : option Z) :
    option (mjrcontext_t * Z) :=
  found ← mjr_function_get_by_vaddr x addr;
  match found with
  | None =>
      '(h, _) ← hash_add_to (funchash x) (vaddr2str (u32 addr)) fun_;
      Some (set_funchash h x, 0)
  | Some _ => Some (x, 0)
  end.

(** [strstr(name, prefix)] *)
Fixpoint contains (name sub : string) : bool :=
  String.prefix sub name ||
  match name with EmptyString => false | String _ name => contains name sub end.

Definition mjr_function_symbol (x : mjrcontext_t) (elf : E) (csrc : Z) : option E :=
  c ← conts x !! csrc;
  func ← match data c with DFunc f => Some f | DBlock _ => None end;
  let '(name, off) := elfsh_reverse_metasym elf (fvaddr func) in
  if (off =? 0) && negb (contains name bloc_prefix) then Some elf
  else
    let buffer := snprintf (func_prefix +:+ AFMT (fvaddr func)) in
    Some (elfsh_insert_symbol elf (fvaddr func) (fsize func) STT_FUNC buffer).

(** [ELFSH_SECTION_NAME_PLT] *)
Definition PLT : string := ".plt".

Definition mjr_link_func_call (x : mjrcontext_t) (elf : E) (src dst ret : Z) :
    option (mjrcontext_t * E * Z) :=
  match elfsh_get_parent_section elf dst with
  | Some (sname, true) =>
      let scope := if bool_decide (sname = PLT) then MJR_LINK_SCOPE_GLOBAL else MJR_LINK_SCOPE_LOCAL in
      found ← mjr_function_get_by_vaddr x dst;
      '(x, elf, f, isnew) ←
        match found with
        | Some f => Some (x, elf, f, false)
        | None =>
            '(x, f) ← mjr_create_function_container type_name x dst 0 (Some (vaddr2str dst));
            '(x, _) ← mjr_function_register x dst f;
            f ← f;
            elf ← mjr_function_symbol x elf f;
            Some (x, elf, f, true)
        end;
      x ← match curfunc x with
          | None => Some x
          | Some cur =>
              cc ← conts x !! cur;
              cf ← conts x !! f;
              '(x, _) ← mjr_container_add_link x f (cid cc) MJR_LINK_FUNC_RET scope CONTAINER_LINK_IN;
              '(x, _) ← mjr_container_add_link x cur (cid cf) MJR_LINK_FUNC_CALL scope CONTAINER_LINK_OUT;
              Some x
          end;
      if (scope =? MJR_LINK_SCOPE_LOCAL) && (isnew : bool) then
        '(st, _) ← elist_push (Some (func_stack x)) (Some f);
        st ← st;
        Some (set_curfunc (Some f) st x, elf, 0)
      else Some (x, elf, 0)
  | _ => Some (x, elf, 0)
  end.

End blocks.
