(* ===== verification/BlocksSpec.v ===== *)
(** * Blocks: lookup by address, and splitting (Blocks.v) *)
From S2P Require Import Prelude.
From S2P Require Import Hash.
From S2P Require Import HashSpec.
From S2P Require Import Elist.
From S2P Require Import ElistSpec.
From S2P Require Import Btree.
From S2P Require Import BtreeSpec.
From S2P Require Import Container.
From S2P Require Import ContainerSpec.
From S2P Require Import Blocks.

Implicit Types (x : mjrcontext_t) (b : mjrblock_t) (p q addr : Z) (t : btree Z).

(** ** Lookup *)

Definition covers b addr : bool := (vaddr b <=? addr) && (addr <? vaddr b + bsize b).

(** The block lies in the address space. *)
Definition fits b : Prop := 0 ≤ vaddr b ∧ 0 ≤ bsize b ∧ vaddr b + bsize b < 2 ^ 32.

(** [b1] ends before [b2] starts. *)
Definition below b1 b2 : Prop := vaddr b1 < vaddr b2 ∧ vaddr b1 + bsize b1 ≤ vaddr b2.

(** Apart, and less than half the address space apart. *)
Definition apart b1 b2 : Prop :=
  (below b1 b2 ∨ below b2 b1) ∧ - 2 ^ 31 < vaddr b1 - vaddr b2 < 2 ^ 31.

(** A search tree of disjoint blocks. *)
Fixpoint ordered x t : Prop :=
  match t with
  | Leaf => True
  | Node _ p l r =>
      ordered x l ∧ ordered x r ∧
      ∃ b, block_of x p = Some b ∧ fits b ∧
        (∀ q, q ∈ prefix_order l → ∃ bq, block_of x q = Some bq ∧ below bq b) ∧
        (∀ q, q ∈ prefix_order r → ∃ bq, block_of x q = Some bq ∧ below b bq)
  end.

#[local] Instance below_dec b1 b2 : Decision (below b1 b2).
Proof. apply _. Defined.

Lemma covers_spec b addr : covers b addr = true ↔ vaddr b ≤ addr < vaddr b + bsize b.
Proof. unfold covers. rewrite andb_true_iff, Z.leb_le, Z.ltb_lt. done. Qed.

Lemma covers_false b addr : covers b addr = false ↔ ¬ vaddr b ≤ addr < vaddr b + bsize b.
Proof. rewrite <-covers_spec. by destruct (covers b addr). Qed.

(** One step of the search. *)
Lemma search_node x id p l r b addr :
  block_of x p = Some b → fits b →
  search_block x (Node id p l r) addr =
    if covers b addr then Some (Some p)
    else if vaddr b <? addr then search_block x r addr else search_block x l addr.
Proof.
  intros Hb (? & ? & ?). cbn [search_block]. rewrite Hb. mstep.
  by rewrite wrapu_small by (change (2 ^ 32) with 4294967296 in *; lia).
Qed.

Lemma search_ordered x t addr :
  ordered x t →
  match search_block x t addr with
  | Some (Some p) => p ∈ prefix_order t ∧ ∃ b, block_of x p = Some b ∧ covers b addr = true
  | Some None => ∀ p b, p ∈ prefix_order t → block_of x p = Some b → covers b addr = false
  | None => False
  end.
Proof.
  induction t as [| id p l IHl r IHr]; [by intros _ p b ?%elem_of_nil |].
  intros (Hl & Hr & b & Hb & Hf & Hbl & Hbr). rewrite (search_node _ _ _ _ _ b) by done.
  destruct (covers b addr) eqn:Hc; [split; [by left | by exists b] |].
  pose proof (proj1 (covers_false b addr) Hc) as Hcov. destruct Hf as (? & ? & ?).
  destruct (Z.ltb_spec (vaddr b) addr) as [Ha | Ha].
  - specialize (IHr Hr). destruct (search_block x r addr) as [[q |] |]; [| | done].
    + destruct IHr as [Hq Hcq]. split; [| done]. right. apply elem_of_app. by right.
    + intros q bq [-> | [Hq | Hq]%elem_of_app]%elem_of_cons Hbq; [by simplify_eq | | by apply (IHr q)].
      destruct (Hbl q Hq) as (b' & Hb' & Hbelow). simplify_eq. destruct Hbelow. apply covers_false. lia.
  - specialize (IHl Hl). destruct (search_block x l addr) as [[q |] |]; [| | done].
    + destruct IHl as [Hq Hcq]. split; [| done]. right. apply elem_of_app. by left.
    + intros q bq [-> | [Hq | Hq]%elem_of_app]%elem_of_cons Hbq; [by simplify_eq | by apply (IHl q) |].
      destruct (Hbr q Hq) as (b' & Hb' & Hbelow). simplify_eq. destruct Hbelow. apply covers_false. lia.
Qed.

(** The comparison of the insertion is exact within half the address space. *)
Lemma match_block_near x p q b bq :
  block_of x p = Some b → block_of x q = Some bq → - 2 ^ 31 < vaddr b - vaddr bq < 2 ^ 31 →
  match_block x q p = vaddr b - vaddr bq.
Proof.
  intros Hb Hbq Hn. unfold match_block. rewrite Hb, Hbq.
  change (2 ^ 31) with 2147483648 in *.
  pose proof (Z.mod_eq (vaddr b - vaddr bq) (2 ^ 32)) as Hm. unfold wrapu. rewrite Hm by done.
  apply (wraps_unique 32 _ _ (- ((vaddr b - vaddr bq) / 2 ^ 32))); [lia | | lia].
  change (2 ^ (32 - 1)) with 2147483648. lia.
Qed.

Lemma insert_sort_node x id p0 l r p b b0 :
  block_of x p0 = Some b0 → block_of x p = Some b → apart b0 b →
  btree_insert_sort Datatypes.id (Node id p0 l r) (match_block x) p =
    if bool_decide (below b0 b)
    then Node id p0 l (btree_insert_sort Datatypes.id r (match_block x) p)
    else Node id p0 (btree_insert_sort Datatypes.id l (match_block x) p) r.
Proof.
  intros H0 Hb [Hap Hn]. cbn [btree_insert_sort]. rewrite (match_block_near x p p0 b b0) by (done || lia).
  unfold below in *. rewrite (proj2 (Z.eqb_neq _ _)) by lia. cbn [negb].
  case_bool_decide; [rewrite (proj2 (Z.ltb_lt _ _)) by lia | rewrite (proj2 (Z.ltb_ge _ _)) by lia]; done.
Qed.

(** The new block is apart from all the blocks of the tree. *)
Definition apart_from x t b : Prop :=
  ∀ q, q ∈ prefix_order t → ∃ bq, block_of x q = Some bq ∧ apart bq b.

Lemma apart_from_node x id p0 l r b :
  apart_from x (Node id p0 l r) b →
  (∃ b0, block_of x p0 = Some b0 ∧ apart b0 b) ∧ apart_from x l b ∧ apart_from x r b.
Proof.
  intros H. split_and!; [apply H; by left | |]; intros q Hq; apply H; right; apply elem_of_app; auto.
Qed.

Lemma insert_elements x t p b q :
  block_of x p = Some b → apart_from x t b →
  q ∈ prefix_order (btree_insert_sort id t (match_block x) p) ↔ q = p ∨ q ∈ prefix_order t.
Proof.
  intros Hb. induction t as [| id p0 l IHl r IHr]; intros Hap.
  { cbn. rewrite elem_of_cons. done. }
  destruct (apart_from_node _ _ _ _ _ _ Hap) as ((b0 & H0 & Hap0) & Hl & Hr).
  rewrite (insert_sort_node x id p0 l r p b b0) by done.
  case_bool_decide; cbn [prefix_order]; rewrite !elem_of_cons, !elem_of_app;
    [rewrite IHr by done | rewrite IHl by done]; tauto.
Qed.

Lemma insert_ordered x t p b :
  ordered x t → block_of x p = Some b → fits b → apart_from x t b →
  ordered x (btree_insert_sort id t (match_block x) p).
Proof.
  intros Ho Hb Hf. induction t as [| id p0 l IHl r IHr]; intros Hap.
  { cbn. split_and!; try done. exists b. split_and!; try done; by intros q ?%elem_of_nil. }
  destruct (apart_from_node _ _ _ _ _ _ Hap) as ((b0 & H0 & Hap0) & Hl & Hr).
  destruct Ho as (Hol & Hor & b0' & H0' & Hf0 & Hbl & Hbr). assert (b0' = b0) as -> by congruence.
  rewrite (insert_sort_node x id p0 l r p b b0) by done.
  case_bool_decide as Hbel; cbn [ordered]; split_and!; auto; exists b0; split_and!; auto;
    intros q Hq; apply (insert_elements x _ p b) in Hq as [-> | Hq]; auto.
  - by exists b.
  - exists b. split; [done |]. by destruct Hap0 as [[] _].
Qed.

Lemma search_insert x t p b addr :
  ordered x t → block_of x p = Some b → fits b → apart_from x t b →
  search_block x (btree_insert_sort id t (match_block x) p) addr =
    if covers b addr then Some (Some p) else search_block x t addr.
Proof.
  intros Ho Hb Hf. induction t as [| id p0 l IHl r IHr]; intros Hap.
  { cbn [btree_insert_sort btree_insert]. rewrite (search_node _ _ _ _ _ b) by done. destruct (covers b addr); [done | by destruct (_ <? _)]. }
  destruct (apart_from_node _ _ _ _ _ _ Hap) as ((b0 & H0 & Hap0) & Hl & Hr).
  destruct Ho as (Hol & Hor & b0' & H0' & Hf0 & Hbl & Hbr). assert (b0' = b0) as -> by congruence.
  rewrite (insert_sort_node x id p0 l r p b b0) by done.
  rewrite (search_node _ id p0 l r b0 addr) by done.
  destruct Hap0 as [Hap0 _]. destruct Hf as (? & ? & ?), Hf0 as (? & ? & ?). unfold below in *.
  case_bool_decide as Hbel; rewrite (search_node _ _ _ _ _ b0) by done;
    (destruct (covers b0 addr) eqn:Hc0;
     [apply covers_spec in Hc0; by rewrite (proj2 (covers_false b addr)) by lia |]);
    apply covers_false in Hc0; destruct (Z.ltb_spec (vaddr b0) addr); auto;
    by rewrite (proj2 (covers_false b addr)) by lia.
Qed.
