(* ===== verification/SplitSpec.v ===== *)
(** * Splitting a block (Container.v, Blocks.v): creation, relinking, and the whole *)
From S2P Require Import Prelude.
From S2P Require Import Hash.
From S2P Require Import HashSpec.
From S2P Require Import Elist.
From S2P Require Import ElistSpec.
From S2P Require Import Btree.
From S2P Require Import BtreeSpec.
From S2P Require Import Container.
From S2P Require Import ContainerSpec.
From S2P Require Import Blocks.
From S2P Require Import BlocksSpec.

Implicit Types (x : mjrcontext_t) (b : mjrblock_t) (p q addr : Z) (t : btree Z).

(** ** Creation of a block container *)

(** The name of a list of links of the block at an address. *)
Definition list_name x addr (suffix : string) : string :=
  snprintf (pretty (i32 (objid x)) +:+ "_" +:+ "bloc" +:+ "_" +:+ AFMT addr +:+ "_" +:+ suffix).

(** The two lists of a block with this address do not exist yet. *)
Definition fresh_lists x addr (ml : gmap string Z) : Prop :=
  ml !! list_name x addr "inputs" = None ∧ ml !! list_name x addr "outputs" = None ∧
  list_name x addr "inputs" ≠ list_name x addr "outputs".

Definition empty_links (name : string) : list_t mjrlink_t := List [] 0 ASPECT_TYPE_LINK 0 (Some name).

(** A registry of lists with one more. *)
Definition with_list (w : lworld mjrlink_t) (h : hash_t Z) (name : string) : lworld mjrlink_t :=
  Lworld (<[lbrk w := empty_links name]> (lists w)) h (lbrk w + 1) (aspect_type_nbr w).

Lemma link_list_new x ml name :
  lworld_ok (links x) ml → ml !! name = None → ASPECT_TYPE_LINK < aspect_type_nbr (links x) →
  ∃ h, link_list x name = Some (set_links (with_list (links x) h name) x, lbrk (links x)) ∧
    lworld_ok (with_list (links x) h name) (<[name := lbrk (links x)]> ml).
Proof.
  intros [HR Hwf Hnm Hty] Hn Ht. unfold link_list, elist_find. rewrite (hash_get_Repr _ _ _ HR), Hn. mstep.
  unfold new_list. cbn iota beta zeta.
  set (w1 := Lworld (<[lbrk (links x) := list0]> (lists (links x))) (hash_lists (links x))
               (lbrk (links x) + 1) (aspect_type_nbr (links x))).
  destruct (elist_init_new w1 ml (lbrk (links x)) name ASPECT_TYPE_LINK) as (h & -> & HRh);
    [done | done | by cbn; rewrite lookup_insert_eq; eexists | by split | by destruct Hty |].
  mstep. exists h. split.
  - unfold set_hash_lists, set_list, with_list, w1. cbn. by rewrite insert_insert_eq.
  - split; cbn; [done | | | done].
    + intros p l. destruct (decide (p = lbrk (links x))) as [-> |].
      * rewrite lookup_insert_eq. intros [= <-]. split; [done | lia].
      * rewrite lookup_insert_ne by done. intros Hl. destruct (Hwf _ _ Hl). split; [done | lia].
    + intros nm p. destruct (decide (nm = name)) as [-> |].
      * rewrite lookup_insert_eq. intros [= <-]. rewrite lookup_insert_eq. by eexists.
      * rewrite lookup_insert_ne by done. intros Hp. destruct (Hnm _ _ Hp) as [l Hl].
        destruct (decide (p = lbrk (links x))) as [-> |];
          [rewrite lookup_insert_eq; by eexists | rewrite lookup_insert_ne by done; by eexists].
Qed.

Section creation.
Variable type_name : Z → option string.

Lemma linklists_create_in x p c b :
  conts x !! p = Some c → ctype c = ASPECT_TYPE_BLOC → data c = DBlock b →
  container_linklists_create type_name x p CONTAINER_LINK_IN (objid x) =
    '(x', l) ← link_list x (list_name x (vaddr b) "inputs");
    Some (set_cont p (Container (cid c) (ctype c) (Some l) (outlinks c) (data c)) x', 0).
Proof. intros Hc Ht Hd. unfold container_linklists_create. rewrite Hc. mstep. by rewrite Ht, Hd. Qed.

Lemma linklists_create_out x p c b :
  conts x !! p = Some c → ctype c = ASPECT_TYPE_BLOC → data c = DBlock b →
  container_linklists_create type_name x p CONTAINER_LINK_OUT (objid x) =
    '(x', l) ← link_list x (list_name x (vaddr b) "outputs");
    Some (set_cont p (Container (cid c) (ctype c) (inlinks c) (Some l) (data c)) x', 0).
Proof. intros Hc Ht Hd. unfold container_linklists_create. rewrite Hc. mstep. by rewrite Ht, Hd. Qed.

(** The context after the allocation of a block container with fresh lists. *)
Definition created x b (h1 h2 : hash_t Z) : mjrcontext_t :=
  let w1 := with_list (links x) h1 (list_name x (vaddr b) "inputs") in
  let c := Container 0 ASPECT_TYPE_BLOC (Some (lbrk (links x))) (Some (lbrk (links x) + 1)) (DBlock b) in
  Ctx (<[cbrk x := c]> (conts x)) (cbrk x + 1) (reg_containers x) (cntnrs_size x) (next_id x)
    (with_list w1 h2 (list_name x (vaddr b) "outputs")) (linkhash x) (blkhash x) (funchash x)
    (block_btree x) (curfunc x) (func_stack x) (objid x).

Lemma container_create_block x ml b :
  is_Some (type_name ASPECT_TYPE_BLOC) → lworld_ok (links x) ml → fresh_lists x (vaddr b) ml →
  ASPECT_TYPE_LINK < aspect_type_nbr (links x) →
  ∃ h1 h2, container_create type_name x ASPECT_TYPE_BLOC (DBlock b) None None (objid x) =
      Some (created x b h1 h2, Some (cbrk x)) ∧
    lworld_ok (links (created x b h1 h2))
      (<[list_name x (vaddr b) "outputs" := lbrk (links x) + 1]>
        (<[list_name x (vaddr b) "inputs" := lbrk (links x)]> ml)).
Proof.
  intros [nm Hnm] Hw (Hin & Hout & Hne) Hty. unfold container_create. rewrite Hnm. unfold new_cont.
  set (c0 := Container 0 ASPECT_TYPE_BLOC None None (DBlock b)).
  set (x1 := Ctx (<[cbrk x := c0]> (conts x)) _ _ _ _ _ _ _ _ _ _ _ _).
  pose proof (linklists_create_in x1 (cbrk x) c0 b) as E1. change (objid x1) with (objid x) in E1.
  rewrite E1 by (done || apply lookup_insert_eq).
  destruct (link_list_new x1 ml (list_name x (vaddr b) "inputs") Hw Hin Hty) as (h1 & Hl1 & Hw1).
  change (list_name x1) with (list_name x). rewrite Hl1. mstep.
  match goal with |- context [set_cont (cbrk x) ?c ?y] => set (c1 := c); set (x2 := set_cont (cbrk x) c1 y) end.
  pose proof (linklists_create_out x2 (cbrk x) c1 b) as E2. change (objid x2) with (objid x) in E2.
  rewrite E2 by (done || apply lookup_insert_eq).
  destruct (link_list_new x2 _ (list_name x (vaddr b) "outputs") Hw1) as (h2 & Hl2 & Hw2);
    [by rewrite lookup_insert_ne | done |].
  change (list_name x2) with (list_name x). rewrite Hl2. mstep.
  exists h1, h2. split; [| done]. unfold created, set_cont. cbn.
  do 3 f_equal. by rewrite !insert_insert_eq.
Qed.

(** Addresses from [cbrk] on are free. *)
Definition conts_ok x : Prop := ∀ p, cbrk x ≤ p → conts x !! p = None.

Lemma reg_ok_ext x x' :
  reg_ok x → reg_containers x' = reg_containers x → cntnrs_size x' = cntnrs_size x →
  next_id x' = next_id x →
  (∀ p c, conts x !! p = Some c → ∃ c', conts x' !! p = Some c' ∧ cid c' = cid c) → reg_ok x'.
Proof.
  intros [Hl Hn Hs Hset Hid] Hr Hsz Hni Hc.
  split; unfold mjr_lookup_container in *; rewrite ?Hr, ?Hsz, ?Hni; try done.
  intros i p Hi Hp. destruct (Hid i p Hi Hp) as (? & c & Hcp & <-). split; [done |].
  destruct (Hc _ _ Hcp) as (c' & ? & ?). by exists c'.
Qed.

Lemma unregistered_new x p : reg_ok x → conts x !! p = None → unregistered x p.
Proof. intros Hok Hp i Hi Hr. destruct (ro_id _ Hok i p Hi Hr) as (_ & c & Hc & _). congruence. Qed.

Lemma ordered_blocks x t : ordered x t → ∀ p, p ∈ prefix_order t → is_Some (block_of x p).
Proof.
  induction t as [| id p0 l IHl r IHr]; [by intros _ p ?%elem_of_nil |].
  intros (Hl & Hr & b & Hb & _) p [-> | [?|?]%elem_of_app]%elem_of_cons; [by eexists | auto | auto].
Qed.

Lemma all_blocks_true x t : (∀ p, p ∈ prefix_order t → is_Some (block_of x p)) → all_blocks x t = true.
Proof.
  intros H. unfold all_blocks. rewrite browse_prefix_fold.
  assert (∀ l acc, (∀ p, p ∈ l → is_Some (block_of x p)) → (∀ p, p ∈ acc → is_Some (block_of x p)) →
            forallb (λ p, bool_decide (is_Some (block_of x p))) (fold_left (λ s p, p :: s) l acc) = true) as Hf.
  { induction l as [| p l IH]; intros acc Hl Ha; cbn [fold_left].
    - apply forallb_forall. intros p Hp%list_elem_of_In. apply bool_decide_eq_true. auto.
    - apply IH; [intros q Hq; apply Hl; by right |].
      intros q [-> | Hq]%elem_of_cons; [apply Hl; by left | auto]. }
  apply Hf; [done | by intros p ?%elem_of_nil].
Qed.

(** What the creation of a block leaves. *)
Record block_created x x' b (ml ml' : gmap string Z) : Prop := {
  bc_conts : conts x' = <[cbrk x := Container (next_id x) ASPECT_TYPE_BLOC (Some (lbrk (links x)))
                                      (Some (lbrk (links x) + 1)) (DBlock b)]> (conts x);
  bc_cbrk : cbrk x' = cbrk x + 1;
  bc_reg : reg_ok x';
  bc_lookup i : 0 ≤ i → mjr_lookup_container x' i =
    if bool_decide (i = next_id x) then Some (Some (cbrk x)) else mjr_lookup_container x i;
  bc_next : next_id x' = next_id x + 1;
  bc_lists : lists (links x') =
    <[lbrk (links x) + 1 := empty_links (list_name x (vaddr b) "outputs")]>
      (<[lbrk (links x) := empty_links (list_name x (vaddr b) "inputs")]> (lists (links x)));
  bc_links : lworld_ok (links x') ml';
  bc_names : ml' = <[list_name x (vaddr b) "outputs" := lbrk (links x) + 1]>
                    (<[list_name x (vaddr b) "inputs" := lbrk (links x)]> ml);
  bc_types : aspect_type_nbr (links x') = aspect_type_nbr (links x);
  bc_hashes : linkhash x' = linkhash x ∧ blkhash x' = blkhash x ∧ funchash x' = funchash x;
  bc_tree : block_btree x' = btree_insert_sort id (block_btree x) (match_block x') (cbrk x);
  bc_rest : curfunc x' = curfunc x ∧ func_stack x' = func_stack x ∧ objid x' = objid x;
}.

Lemma create_block x ml b :
  is_Some (type_name ASPECT_TYPE_BLOC) → lworld_ok (links x) ml → fresh_lists x (vaddr b) ml →
  ASPECT_TYPE_LINK < aspect_type_nbr (links x) → reg_ok x → ¬ reg_full x → conts_ok x →
  (∀ p, p ∈ prefix_order (block_btree x) → is_Some (block_of x p)) →
  ∃ x' ml', mjr_create_block_container type_name x (symoff b) (vaddr b) (bsize b) (seen b) =
      Some (x', Some (cbrk x)) ∧ block_created x x' b ml ml'.
Proof.
  intros Hnm Hw Hfr Hty Hok Hf Hco Hbl. unfold mjr_create_block_container.
  replace (Block (vaddr b) (bsize b) (symoff b) (seen b)) with b by by destruct b.
  destruct (container_create_block x ml b Hnm Hw Hfr Hty) as (h1 & h2 & -> & Hw2). mstep.
  set (x1 := created x b h1 h2) in *.
  assert (conts x !! cbrk x = None) as Hnone by (apply Hco; lia).
  assert (reg_ok x1) as Hok1.
  { apply (reg_ok_ext x); try done. intros p c Hc. exists c. split; [| done].
    unfold x1, created. cbn. rewrite lookup_insert_ne; [done | congruence]. }
  assert (unregistered x1 (cbrk x)) as Hun by exact (unregistered_new x (cbrk x) Hok Hnone).
  assert (¬ reg_full x1) as Hf1 by exact Hf.
  destruct (register_new x1 (cbrk x) _ Hok1 Hf1 (lookup_insert_eq _ _ _) Hun) as (r & sz & -> & Hok2 & Hlk).
  mstep. set (x2 := registered x1 (cbrk x) _ r sz) in *.
  assert (conts x2 = <[cbrk x := Container (next_id x) ASPECT_TYPE_BLOC (Some (lbrk (links x)))
                                   (Some (lbrk (links x) + 1)) (DBlock b)]> (conts x)) as Hc2
    by apply insert_insert_eq.
  rewrite all_blocks_true; [|].
  2:{ intros p Hp. destruct (Hbl p Hp) as [b0 Hb0]. exists b0. unfold block_of in *. rewrite Hc2.
      rewrite lookup_insert_ne; [done |]. intros <-. by rewrite Hnone in Hb0. }
  unfold guard_ub. mstep. eexists _, _. split; [done |].
  split; try done. apply (reg_ok_ext x2); try done. intros p c Hc. by exists c.
Qed.

End creation.

(** ** Relinking *)

(** The context with other lists and another table of links. *)
Definition with_links x (h : hash_t mjrlink_t) (ls : gmap Z (list_t mjrlink_t)) : mjrcontext_t :=
  set_linkhash h
    (set_links (Lworld ls (hash_lists (links x)) (lbrk (links x)) (aspect_type_nbr (links x))) x).

Lemma with_links_id x : with_links x (linkhash x) (lists (links x)) = x.
Proof. by destruct x as [? ? ? ? ? []]. Qed.

Lemma with_links_twice x h1 ls1 h ls : with_links (with_links x h1 ls1) h ls = with_links x h ls.
Proof. done. Qed.

Definition the_link (e : lent mjrlink_t) : mjrlink_t := default (Link 0 0 0) (ldata e).
Definition target (e : lent mjrlink_t) : Z := link_id (the_link e).

(** The same link under the key of another source. *)
Definition renamed (src : Z) (e : lent mjrlink_t) : lent mjrlink_t :=
  Lent (link_name src (target e)) (Some (the_link e)).

Definition emptied (l : list_t mjrlink_t) : list_t mjrlink_t := set_lelmnbr 0 (set_head [] l).

(** No entry of the list leads to the target of [e]. *)
Definition no_link_to (l : list_t mjrlink_t) (id : Z) : Prop :=
  Forall (λ e, leads_to id e = false) (Elist.head l).

Lemma no_link_new l id ltype :
  no_link_to l id →
  Forall (λ e, same_link ltype id e = false) (Elist.head l) ∧ nremoves ltype id (Elist.head l) = 0%nat.
Proof.
  unfold no_link_to, nremoves, same_link. induction 1 as [| e ents He _ [IH1 IH2]]; [done |]. split.
  - constructor; [by rewrite He | done].
  - rewrite length_filter_cons. unfold removes at 1. by rewrite He, andb_false_r.
Qed.

(** Adding a link to a container without a link to the same one. *)
Lemma add_link_to x p c lst l m id ltype scope dir :
  conts x !! p = Some c → mjr_link_get_by_direction c dir = Some lst →
  lists (links x) !! lst = Some l → elist_wf l → 0 ≤ id < 2 ^ 32 →
  Forall (entry_ok x (cid c) (ctype c)) (Elist.head l) → Repr (linkhash x) m → no_link_to l id →
  ∃ h l', mjr_container_add_link x p id ltype scope dir =
      Some (with_links x h (<[lst := l']> (lists (links x))), Link id ltype scope) ∧
    elist_wf l' ∧ Elist.head l' = Lent (link_name (cid c) id) (Some (Link id ltype scope)) :: Elist.head l ∧
    Repr h (<[link_name (cid c) id := Link id ltype scope]> m).
Proof.
  intros Hc Hd Hl Hw Hid Hall HR Hno. destruct (no_link_new l id ltype Hno) as [Hs Hz].
  destruct (add_link_new x p c lst l m id ltype scope dir) as (h & -> & HRh); try done.
  rewrite Hz, dropped_0 by done. eexists h, _. split; [done |]. split; [| done].
  unfold elist_wf in *. cbn. lia.
Qed.

Lemma del_head (w : lworld mjrlink_t) lst l e ents :
  lists w !! lst = Some l → elist_wf l → Elist.head l = e :: ents →
  elist_del_in w lst (lkey e) =
    Some (set_list lst (set_lelmnbr (Z.of_nat (length ents)) (set_head ents l)) w).
Proof.
  intros Hl Hw Hh. unfold elist_del_in. rewrite Hl. mstep. unfold elist_del. rewrite Hh. cbn [del_ent].
  rewrite bool_decide_true by done. unfold elist_wf in Hw. rewrite Hw, Hh. cbn [fst length]. mstep.
  replace (Z.of_nat (S (length ents)) - 1) with (Z.of_nat (length ents)) by lia.
  do 2 f_equal. destruct ents; [done |]. by rewrite (proj2 (Z.eqb_neq _ _)) by (simpl; lia).
Qed.

Lemma relink_loop_spec src q cq lo lp ents : ∀ x lq l m,
  conts x !! q = Some cq → outlinks cq = Some lo → lo ≠ lp →
  lists (links x) !! lo = Some lq → elist_wf lq →
  Forall (entry_ok x (cid cq) (ctype cq)) (Elist.head lq) →
  lists (links x) !! lp = Some l → elist_wf l → Elist.head l = ents →
  Forall (entry_ok x src (ctype cq)) ents → NoDup (target <$> ents) →
  Forall (λ e, no_link_to lq (target e)) ents → Repr (linkhash x) m →
  ∃ h lq' m', relink_loop x lp q CONTAINER_LINK_OUT ents =
      Some (with_links x h (<[lp := emptied l]> (<[lo := lq']> (lists (links x))))) ∧
    elist_wf lq' ∧ Elist.head lq' = rev (renamed (cid cq) <$> ents) ++ Elist.head lq ∧ Repr h m'.
Proof.
  induction ents as [| e ents IH]; intros x lq l m Hq Hlo Hne Hllo Hwq Hokq Hllp Hwl Hh Hok Hnd Hno HR;
    cbn [relink_loop].
  - exists (linkhash x), lq, m. split; [| done].
    assert (emptied l = l) as ->.
    { unfold elist_wf in Hwl. rewrite Hh in Hwl. unfold emptied. destruct l. simpl in *. by subst. }
    rewrite (insert_id _ lo) by done. rewrite (insert_id _ lp) by done. by rewrite with_links_id.
  - inversion Hok as [| ? ? (k & Hk & Hr & Hkey & Hreg) Hok']; subst.
    inversion Hno as [| ? ? Hno0 Hno']; subst. cbn [fmap list_fmap] in Hnd.
    apply NoDup_cons in Hnd as [Hnin Hnd].
    assert (the_link e = k) as Hthe by (unfold the_link; by rewrite Hk).
    assert (target e = link_id k) as Htgt by (unfold target; by rewrite Hthe).
    rewrite Hk. mstep. rewrite Htgt in Hno0, Hnin.
    destruct (add_link_to x q cq lo lq m (link_id k) (link_type k) (link_scope k) CONTAINER_LINK_OUT)
      as (h1 & lq1 & -> & Hwq1 & Hhq1 & HR1); try done. mstep.
    set (x1 := with_links _ _ _).
    rewrite (del_head (links x1) lp l e ents); [| cbn; by rewrite lookup_insert_ne | done | done]. mstep.
    set (l1 := set_lelmnbr _ _).
    change (set_links (set_list lp l1 (links x1)) x1)
      with (with_links x h1 (<[lp := l1]> (<[lo := lq1]> (lists (links x))))).
    replace (Link (link_id k) (link_type k) (link_scope k)) with k in * by by destruct k.
    destruct (IH (with_links x h1 (<[lp := l1]> (<[lo := lq1]> (lists (links x))))) lq1 l1
                (<[link_name (cid cq) (link_id k) := k]> m)) as (h & lq' & m' & -> & Hwq' & Hhq' & HR');
      try done.
    + cbn. rewrite lookup_insert_ne by done. apply lookup_insert_eq.
    + rewrite Hhq1. constructor; [by exists k | done].
    + apply lookup_insert_eq.
    + rewrite Forall_forall in Hno' |- *. intros e' He'. unfold no_link_to. rewrite Hhq1.
      constructor; [| by apply Hno']. unfold leads_to. cbn. apply Z.eqb_neq. intros Heq. apply Hnin.
      apply list_elem_of_fmap. by exists e'.
    + exists h, lq', m'. split; [| split; [done |]].
      * rewrite with_links_twice. do 2 f_equal. cbn.
        rewrite (insert_insert_ne _ lo lp) by done. by rewrite !insert_insert_eq.
      * split; [| done]. rewrite Hhq', Hhq1. cbn [fmap list_fmap rev]. rewrite <-app_assoc. cbn [app].
        unfold renamed at 3. by rewrite Hthe, Htgt.
Qed.

(** A registered container of blocks, with its two lists. *)
Record block_cont x p c (li lo : Z) : Prop := {
  bk_conts : conts x !! p = Some c;
  bk_type : ctype c = ASPECT_TYPE_BLOC;
  bk_id : 0 ≤ cid c < 2 ^ 32;
  bk_lookup : mjr_lookup_container x (cid c) = Some (Some p);
  bk_in : inlinks c = Some li;
  bk_out : outlinks c = Some lo;
}.

Lemma block_cont_ext x x' p c li lo :
  conts x' = conts x → reg_containers x' = reg_containers x →
  block_cont x p c li lo → block_cont x' p c li lo.
Proof. intros Hc Hr []. split; unfold mjr_lookup_container; rewrite ?Hc, ?Hr; done. Qed.

Lemma relink_and_link x p q cp cq lip lp li lo l (lqi lqo : list_t mjrlink_t) m :
  block_cont x p cp lip lp → block_cont x q cq li lo → lp ≠ lo → lp ≠ li → lo ≠ li →
  lists (links x) !! lp = Some l → elist_wf l →
  Forall (entry_ok x (cid cp) ASPECT_TYPE_BLOC) (Elist.head l) → NoDup (target <$> Elist.head l) →
  lists (links x) !! li = Some lqi → lists (links x) !! lo = Some lqo →
  elist_wf lqi → elist_wf lqo → Elist.head lqi = [] → Elist.head lqo = [] → Repr (linkhash x) m →
  ∃ h lqi' lqo' lp' m',
    (x ← mjr_block_relink x p q CONTAINER_LINK_OUT;
     link_both x p q MJR_LINK_BLOCK_COND_ALWAYS MJR_LINK_BLOCK_COND_ALWAYS MJR_LINK_SCOPE_LOCAL) =
      Some (with_links x h (<[li := lqi']> (<[lp := lp']> (<[lo := lqo']> (lists (links x)))))) ∧
    Elist.head lqo' = rev (renamed (cid cq) <$> Elist.head l) ∧
    Elist.head lp' = [Lent (link_name (cid cp) (cid cq))
                        (Some (Link (cid cq) MJR_LINK_BLOCK_COND_ALWAYS MJR_LINK_SCOPE_LOCAL))] ∧
    Elist.head lqi' = [Lent (link_name (cid cq) (cid cp))
                         (Some (Link (cid cp) MJR_LINK_BLOCK_COND_ALWAYS MJR_LINK_SCOPE_LOCAL))] ∧
    elist_wf lqo' ∧ elist_wf lp' ∧ elist_wf lqi' ∧ Repr h m'.
Proof.
  intros Hp Hq Hpo Hpi Hoi Hl Hwl Hall Hnd Hli Hlo Hwi Hwo Hhi Hho HR.
  pose proof Hp as [Hpc Hpt Hpid Hpl Hpin Hpout]. pose proof Hq as [Hqc Hqt Hqid Hql Hqin Hqout].
  unfold mjr_block_relink. rewrite Hpc. mstep.
  unfold mjr_link_get_by_direction.
  change (CONTAINER_LINK_OUT =? CONTAINER_LINK_IN) with false. cbv iota.
  change (CONTAINER_LINK_OUT =? CONTAINER_LINK_OUT) with true. cbv iota. rewrite Hpout. mstep.
  rewrite Hl. mstep.
  destruct (relink_loop_spec (cid cp) q cq lo lp (Elist.head l) x lqo l m)
    as (h1 & lqo' & m1 & -> & Hwo' & Hho' & HR1); try done.
  { by rewrite Hho. }
  { by rewrite Hqt. }
  { apply Forall_forall. intros e _. unfold no_link_to. by rewrite Hho. }
  mstep. rewrite Hho, app_nil_r in Hho'. set (x1 := with_links _ _ _).
  unfold link_both. change (conts x1) with (conts x). rewrite Hpc, Hqc. mstep.
  destruct (add_link_to x1 p cp lp (emptied l) m1 (cid cq) MJR_LINK_BLOCK_COND_ALWAYS
              MJR_LINK_SCOPE_LOCAL CONTAINER_LINK_OUT) as (h2 & lp' & -> & Hwp' & Hhp' & HR2); try done.
  { apply lookup_insert_eq. }
  { apply Forall_nil_2. }
  mstep. set (x2 := with_links x1 _ _).
  match type of HR2 with Repr _ ?mm => set (m2 := mm) in * end.
  destruct (add_link_to x2 q cq li lqi m2 (cid cp) MJR_LINK_BLOCK_COND_ALWAYS
              MJR_LINK_SCOPE_LOCAL CONTAINER_LINK_IN) as (h3 & lqi' & -> & Hwi' & Hhi' & HR3);
    [done | done | | done | done | by rewrite Hhi | exact HR2 | by unfold no_link_to; rewrite Hhi |].
  { unfold x2, x1. cbn. by rewrite !lookup_insert_ne. }
  mstep. match type of HR3 with Repr _ ?mm => exists h3, lqi', lqo', lp', mm end.
  split; [| by rewrite Hhi', Hhi, Hhp'].
  unfold x2, x1. rewrite !with_links_twice. cbn. by rewrite insert_insert_eq.
Qed.

(** ** The search tree under the splitting *)

Lemma ordered_apart x t p q b bq :
  ordered x t → p ∈ prefix_order t → q ∈ prefix_order t → block_of x p = Some b →
  block_of x q = Some bq → p = q ∨ below b bq ∨ below bq b.
Proof.
  induction t as [| id p0 l IHl r IHr]; [by intros _ ?%elem_of_nil |].
  intros (Hol & Hor & b0 & Hb0 & _ & Hl & Hr)
    [-> | [Hp | Hp]%elem_of_app]%elem_of_cons [-> | [Hq | Hq]%elem_of_app]%elem_of_cons Hbp Hbq;
    simplify_eq; auto.
  - destruct (Hl q Hq) as (? & ? & ?). simplify_eq. auto.
  - destruct (Hr q Hq) as (? & ? & ?). simplify_eq. auto.
  - destruct (Hl p Hp) as (? & ? & ?). simplify_eq. auto.
  - destruct (Hl p Hp) as (? & ? & []), (Hr q Hq) as (? & ? & []). simplify_eq.
    right. left. unfold below in *. split; [lia |].
    destruct (Hl p Hp) as (? & ? & []). simplify_eq. lia.
  - destruct (Hr p Hp) as (? & ? & ?). simplify_eq. auto.
  - destruct (Hr p Hp) as (? & ? & []), (Hl q Hq) as (? & ? & []). simplify_eq.
    right. right. unfold below in *. split; lia.
Qed.

(** Blocks keep their address and may shrink. *)
Definition shrinks x x' t : Prop :=
  ∀ p b, p ∈ prefix_order t → block_of x p = Some b →
    ∃ b', block_of x' p = Some b' ∧ vaddr b' = vaddr b ∧ 0 ≤ bsize b' ≤ bsize b.

Lemma ordered_shrinks x x' t : ordered x t → shrinks x x' t → ordered x' t.
Proof.
  induction t as [| id p0 l IHl r IHr]; [done |].
  intros (Hol & Hor & b0 & Hb0 & (? & ? & ?) & Hl & Hr) Hs.
  destruct (Hs p0 b0 ltac:(by left) Hb0) as (b0' & Hb0' & Hv & Hsz).
  cbn [ordered]. split_and!.
  - apply IHl; [done |]. intros q bq Hq. apply Hs. right. apply elem_of_app. by left.
  - apply IHr; [done |]. intros q bq Hq. apply Hs. right. apply elem_of_app. by right.
  - exists b0'. split; [done |]. split; [unfold fits; lia |]. unfold below in *.
    split; intros q Hq;
      [destruct (Hl q Hq) as (bq & Hbq & ?) | destruct (Hr q Hq) as (bq & Hbq & ?)];
      (destruct (Hs q bq) as (bq' & ? & ? & ?); [right; apply elem_of_app; auto | done |]);
      exists bq'; (split; [done | lia]).
Qed.

Lemma ordered_ext x x' t : conts x' = conts x → ordered x t → ordered x' t.
Proof.
  intros Hc. assert (∀ p, block_of x' p = block_of x p) as Hb by (intros; unfold block_of; by rewrite Hc).
  induction t as [| id p l IHl r IHr]; [done |]. cbn [ordered]. intros (Hl & Hr & b & Hbp & Hf & Hal & Har).
  split_and!; auto. exists b. rewrite Hb. split_and!; try done; intros q Hq; rewrite Hb; auto.
Qed.

(** ** The whole *)

(** The invariant of an analysis: the registries, the tables and the search tree. *)
Record flow_ok x (ml mb : gmap string Z) (mh : gmap string mjrlink_t) : Prop := {
  fo_links : lworld_ok (links x) ml;
  fo_types : ASPECT_TYPE_LINK < aspect_type_nbr (links x);
  fo_linkhash : Repr (linkhash x) mh;
  fo_blkhash : Repr (blkhash x) mb;
  fo_reg : reg_ok x;
  fo_conts : conts_ok x;
  fo_tree : ordered x (block_btree x);
}.

(** The two halves of a block cut at [dst]. *)
Definition low_half b dst : mjrblock_t := Block (vaddr b) (dst - vaddr b) (symoff b) (seen b).
Definition high_half b dst : mjrblock_t := Block dst (vaddr b + bsize b - dst) 0 1.

Lemma split_sizes b dst :
  fits b → vaddr b < dst → covers b dst = true →
  let new_size := i32 (u32 (bsize b - u32 (dst - vaddr b))) in
  u32 (bsize b - new_size) = dst - vaddr b ∧ u32 new_size = vaddr b + bsize b - dst ∧
  (new_size =? 0) = false.
Proof.
  intros (H0 & H1 & H2) Hd Hc%covers_spec new_size. unfold new_size. clear new_size.
  change (2 ^ 32) with 4294967296 in *.
  rewrite !(wrapu_small 32 (dst - vaddr b)) by (change (2 ^ 32) with 4294967296; lia).
  rewrite !(wrapu_small 32 (bsize b - (dst - vaddr b))) by (change (2 ^ 32) with 4294967296; lia).
  rewrite (wraps_eq 32 (bsize b - (dst - vaddr b))). set (k := _ / _).
  split_and!.
  - apply (wrapu_unique 32 _ _ k); change (2 ^ 32) with 4294967296; lia.
  - apply (wrapu_unique 32 _ _ (- k)); change (2 ^ 32) with 4294967296; lia.
  - apply Z.eqb_neq. change (2 ^ 32) with 4294967296. intros Hz.
    assert (0 < 4294967296 * k < 4294967296) by lia. lia.
Qed.

Lemma lookup_covering x p b dst mb :
  Repr (blkhash x) mb → mb !! vaddr2str dst = None → ordered x (block_btree x) →
  p ∈ prefix_order (block_btree x) → block_of x p = Some b → covers b dst = true →
  mjr_block_get_by_vaddr x dst MJR_BLOCK_GET_FUZZY = Some (Some p).
Proof.
  intros HR Hn Ho Hp Hb Hc. unfold mjr_block_get_by_vaddr. rewrite (hash_get_Repr _ _ _ HR), Hn. mstep.
  change ((MJR_BLOCK_GET_FUZZY =? MJR_BLOCK_GET_STRICT) ||
    ((MJR_BLOCK_GET_FUZZY =? MJR_BLOCK_GET_FUZZY) && bool_decide (is_Some None))) with false. cbv iota.
  pose proof (search_ordered x _ dst Ho) as Hs.
  destruct (search_block x (block_btree x) dst) as [[q |] |]; [| | done].
  - destruct Hs as (Hq & bq & Hbq & Hcq).
    destruct (ordered_apart x _ p q b bq Ho Hp Hq Hb Hbq) as [-> | Hd]; [done |].
    apply covers_spec in Hc, Hcq. unfold below in Hd. lia.
  - by rewrite (Hs p b Hp Hb) in Hc.
Qed.

(** The high half is apart from every block of the tree with the low half. *)
Lemma high_apart x x' p b dst t :
  ordered x t → p ∈ prefix_order t → block_of x p = Some b → fits b → vaddr b < dst → covers b dst = true →
  (∀ q bq, q ∈ prefix_order t → block_of x q = Some bq → - 2 ^ 31 < vaddr bq - dst < 2 ^ 31) →
  block_of x' p = Some (low_half b dst) → (∀ q, q ∈ prefix_order t → q ≠ p → block_of x' q = block_of x q) →
  apart_from x' t (high_half b dst) ∧ shrinks x x' t.
Proof.
  intros Ho Hp Hb (Hf0 & Hf1 & Hf2) Hd Hc%covers_spec Hw Hp' Hq'. split.
  - intros q Hq. destruct (decide (q = p)) as [-> | Hne].
    + exists (low_half b dst). split; [done |]. unfold apart, below, low_half, high_half. cbn.
      specialize (Hw p b Hp Hb). split; [left; lia | lia].
    + rewrite Hq' by done. destruct (ordered_blocks _ _ Ho q Hq) as [bq Hbq]. exists bq. split; [done |].
      specialize (Hw q bq Hq Hbq). unfold apart, high_half. cbn. split; [| lia].
      destruct (ordered_apart x t p q b bq Ho Hp Hq Hb Hbq) as [-> | [[] | []]]; [done | |];
        unfold below; cbn; lia.
  - intros q bq Hq Hbq. destruct (decide (q = p)) as [-> | Hne].
    + simplify_eq. eexists. split; [done |]. cbn. lia.
    + rewrite Hq' by done. exists bq. split; [done |].
      assert (0 ≤ bsize bq) as Hz; [| lia].
      clear -Ho Hq Hbq. induction t as [| id p0 l IHl r IHr]; [by apply elem_of_nil in Hq |].
      destruct Ho as (Hol & Hor & b0 & Hb0 & (_ & ? & _) & _).
      apply elem_of_cons in Hq as [-> | [?|?]%elem_of_app]; [by simplify_eq | auto | auto].
Qed.

Section split.
Variable type_name : Z → option string.
Variables bloc_prefix : string.
Context {E : Type} `{!ElfLayer E}.

(** A block [p] that the address [dst] cuts, with its links. *)
Record cuts x (elf : E) p c b (lip lp : Z) (l : list_t mjrlink_t) dst
    (ml mb : gmap string Z) : Prop := {
  cu_cont : block_cont x p c lip lp;
  cu_data : data c = DBlock b;
  cu_fits : fits b;
  cu_tree : p ∈ prefix_order (block_btree x);
  cu_above : vaddr b < dst;
  cu_covers : covers b dst = true;
  cu_new : mb !! vaddr2str dst = None;
  cu_window q bq : q ∈ prefix_order (block_btree x) → block_of x q = Some bq →
    - 2 ^ 31 < vaddr bq - dst < 2 ^ 31;
  cu_sym : is_Some (elfsh_get_symbol_by_value elf (vaddr b));
  cu_fresh : fresh_lists x dst ml;
  cu_list : lists (links x) !! lp = Some l;
  cu_entries : Forall (entry_ok x (cid c) ASPECT_TYPE_BLOC) (Elist.head l);
  cu_nodup : NoDup (target <$> Elist.head l);
}.

(** What the splitting leaves. *)
Record split_done x x' p q c b (lp : Z) (l : list_t mjrlink_t) dst (mb : gmap string Z) : Prop := {
  sd_low : block_of x' p = Some (low_half b dst);
  sd_high : block_of x' q = Some (high_half b dst);
  sd_frame r : r ≠ p → r ≠ q → conts x' !! r = conts x !! r;
  sd_number : mjr_lookup_container x' (next_id x) = Some (Some q);
  sd_hash : Repr (blkhash x') (<[vaddr2str dst := q]> mb);
  sd_ordered : ordered x' (block_btree x');
  sd_lists : ∃ li lo lp' lqi lqo,
    block_cont x' q (Container (next_id x) ASPECT_TYPE_BLOC (Some li) (Some lo) (DBlock (high_half b dst)))
      li lo ∧
    lists (links x') !! lo = Some lqo ∧
    Elist.head lqo = rev (renamed (next_id x) <$> Elist.head l) ∧
    lists (links x') !! lp = Some lp' ∧
    Elist.head lp' = [Lent (link_name (cid c) (next_id x))
                        (Some (Link (next_id x) MJR_LINK_BLOCK_COND_ALWAYS MJR_LINK_SCOPE_LOCAL))] ∧
    lists (links x') !! li = Some lqi ∧
    Elist.head lqi = [Lent (link_name (next_id x) (cid c))
                        (Some (Link (cid c) MJR_LINK_BLOCK_COND_ALWAYS MJR_LINK_SCOPE_LOCAL))] ∧
    (∀ a, is_Some (lists (links x) !! a) → a ≠ lp → lists (links x') !! a = lists (links x) !! a);
}.

Lemma entry_ok_ext x x' src type e :
  (∀ i q cnt, 0 ≤ i → mjr_lookup_container x i = Some (Some q) → conts x !! q = Some cnt →
     mjr_lookup_container x' i = Some (Some q) ∧
     ∃ cnt', conts x' !! q = Some cnt' ∧ ctype cnt' = ctype cnt) →
  entry_ok x src type e → entry_ok x' src type e.
Proof.
  intros Hx (k & Hk & Hr & Hkey & q & cnt & Hq & Hcnt & Hty). exists k. split_and!; try done; [lia | lia |].
  destruct (Hx _ _ _ (proj1 Hr) Hq Hcnt) as (Hq' & cnt' & Hcnt' & Hty'). exists q, cnt'.
  split_and!; congruence.
Qed.

(** The context with the low half in the place of the block. *)
Definition lowered x p c b dst : mjrcontext_t := set_cont p (set_data (DBlock (low_half b dst)) c) x.

(** The high half is created. *)
Lemma create_high x elf p c b lip lp l dst ml mb mh :
  is_Some (type_name ASPECT_TYPE_BLOC) → flow_ok x ml mb mh → ¬ reg_full x → next_id x < 2 ^ 32 →
  cuts x elf p c b lip lp l dst ml mb →
  ∃ x' ml', mjr_create_block_container type_name (lowered x p c b dst) 0 dst
      (vaddr b + bsize b - dst) 1 = Some (x', Some (cbrk x)) ∧
    block_created (lowered x p c b dst) x' (high_half b dst) ml ml' ∧ p ≠ cbrk x ∧
    conts x' !! p = Some (set_data (DBlock (low_half b dst)) c) ∧
    ordered x' (block_btree x').
Proof.
  intros Hnm [Hw Hty Hlh Hbh Hok Hco Hord] Hf Hnx [[Hpc Hpt Hpid Hpl Hpi Hpo] Hd Hfit Ht Hab Hcov Hnew Hwin _ Hfr _ _ _].
  set (x1 := lowered x p c b dst).
  assert (p ≠ cbrk x) as Hpne by (intros ->; rewrite (Hco (cbrk x)) in Hpc; [done | lia]).
  assert (block_of x p = Some b) as Hbp by (unfold block_of; rewrite Hpc; mstep; by rewrite Hd).
  assert (block_of x1 p = Some (low_half b dst)) as Hbp1
    by (unfold block_of, x1, lowered; cbn; by rewrite lookup_insert_eq).
  assert (∀ q, q ≠ p → block_of x1 q = block_of x q) as Hbq1
    by (intros q Hq; unfold block_of, x1, lowered; cbn; by rewrite lookup_insert_ne).
  destruct (create_block type_name x1 ml (high_half b dst)) as (x' & ml' & Hcr & Hbc); try done.
  - apply (reg_ok_ext x); try done. intros r cr Hr. destruct (decide (r = p)) as [-> | Hne].
    + simplify_eq. exists (set_data (DBlock (low_half b dst)) c). split; [apply lookup_insert_eq | done].
    + exists cr. split; [| done]. unfold x1, lowered. cbn. by rewrite lookup_insert_ne.
  - intros r Hr. unfold x1, lowered in *. cbn in *. rewrite lookup_insert_ne; [by apply Hco |].
    intros ->. rewrite (Hco r) in Hpc; [done | lia].
  - intros r Hr. destruct (decide (r = p)) as [-> | Hne]; [by eexists |]. rewrite Hbq1 by done.
    by apply (ordered_blocks _ (block_btree x)).
  - exists x', ml'. split; [exact Hcr |]. split; [exact Hbc |]. split; [done |].
    assert (conts x' !! p = Some (set_data (DBlock (low_half b dst)) c)) as Hpx'.
    { rewrite (bc_conts _ _ _ _ _ Hbc). rewrite lookup_insert_ne by done. apply lookup_insert_eq. }
    split; [done |].
    assert (∀ r, r ∈ prefix_order (block_btree x) → r ≠ p → block_of x' r = block_of x r) as Hsame.
    { intros r Hr Hne. destruct (ordered_blocks _ _ Hord r Hr) as [br Hbr].
      unfold block_of in *. rewrite (bc_conts _ _ _ _ _ Hbc).
      rewrite lookup_insert_ne; [unfold x1, lowered; cbn; by rewrite lookup_insert_ne |].
      intros <-. change (cbrk x1) with (cbrk x) in Hbr. by rewrite (Hco (cbrk x)) in Hbr by lia. }
    destruct (high_apart x x' p b dst (block_btree x)) as [Hap Hsh]; try done.
    { unfold block_of. by rewrite Hpx'. }
    rewrite (bc_tree _ _ _ _ _ Hbc). apply (insert_ordered x' _ _ (high_half b dst)); [| | | done].
    + by apply (ordered_shrinks x).
    + unfold block_of. rewrite (bc_conts _ _ _ _ _ Hbc). by rewrite lookup_insert_eq.
    + apply covers_spec in Hcov. destruct Hfit as (? & ? & ?). unfold fits, high_half. cbn. lia.
Qed.

(** The container of the high half. *)
Definition high_cont x b dst : container_t :=
  Container (next_id x) ASPECT_TYPE_BLOC (Some (lbrk (links x))) (Some (lbrk (links x) + 1))
    (DBlock (high_half b dst)).

Lemma block_symbol_total x elf p b :
  block_of x p = Some b → ∃ elf' off, mjr_block_symbol bloc_prefix x elf p = Some (elf', off).
Proof. intros Hb. unfold mjr_block_symbol. rewrite Hb. mstep. case_match; eauto. Qed.

(** The old block in the context after the creation. *)
Lemma created_conts x p c b lip lp l dst elf ml mb mh x' ml' :
  flow_ok x ml mb mh → next_id x < 2 ^ 32 → cuts x elf p c b lip lp l dst ml mb →
  block_created (lowered x p c b dst) x' (high_half b dst) ml ml' →
  conts x' !! p = Some (set_data (DBlock (low_half b dst)) c) →
  block_cont x' p (set_data (DBlock (low_half b dst)) c) lip lp ∧
  block_cont x' (cbrk x) (high_cont x b dst) (lbrk (links x)) (lbrk (links x) + 1) ∧
  Forall (entry_ok x' (cid c) ASPECT_TYPE_BLOC) (Elist.head l).
Proof.
  intros Hfo Hnx Hcu Hbc Hp. pose proof Hcu as [[Hpc Hpt Hpid Hpl Hpi Hpo] _ _ _ _ _ _ _ _ _ _ Hent _].
  pose proof (fo_reg _ _ _ _ Hfo) as Hok. pose proof (ro_next _ Hok) as Hn1.
  assert (∀ i, 0 ≤ i → mjr_lookup_container x' i =
      if bool_decide (i = next_id x) then Some (Some (cbrk x)) else mjr_lookup_container x i) as Hlk
    by apply (bc_lookup _ _ _ _ _ Hbc).
  assert (∀ i q, 0 ≤ i → mjr_lookup_container x i = Some (Some q) →
            mjr_lookup_container x' i = Some (Some q)) as Hkeep.
  { intros i q Hi Hq. rewrite Hlk by done. destruct (ro_id _ Hok i q Hi Hq) as [? _].
    by rewrite bool_decide_false by lia. }
  split_and!.
  - split; try done. apply Hkeep; [apply Hpid | done].
  - unfold high_cont. split; try done; [| cbn; lia |].
    + rewrite (bc_conts _ _ _ _ _ Hbc). apply lookup_insert_eq.
    + cbn [cid]. rewrite Hlk by lia. by rewrite bool_decide_true.
  - eapply Forall_impl; [exact Hent |]. intros e. apply entry_ok_ext.
    intros i q cnt Hi Hq Hcnt. split; [by apply Hkeep |].
    rewrite (bc_conts _ _ _ _ _ Hbc).
    destruct (decide (q = cbrk x)) as [-> |].
    { by rewrite (fo_conts _ _ _ _ Hfo (cbrk x)) in Hcnt by lia. }
    rewrite lookup_insert_ne by done. unfold lowered, set_cont. cbn.
    destruct (decide (q = p)) as [-> |].
    + rewrite lookup_insert_eq. simplify_eq. by eexists.
    + rewrite lookup_insert_ne by done. by exists cnt.
Qed.

(** The end of the splitting: the links are in place. *)
Lemma relinked_done x x2 p c b lip lp l dst elf ml mb mh ml' hb h lp' lqi lqo :
  flow_ok x ml mb mh → cuts x elf p c b lip lp l dst ml mb →
  block_created (lowered x p c b dst) x2 (high_half b dst) ml ml' →
  conts x2 !! p = Some (set_data (DBlock (low_half b dst)) c) →
  block_cont x2 (cbrk x) (high_cont x b dst) (lbrk (links x)) (lbrk (links x) + 1) →
  ordered x2 (block_btree x2) → Repr hb (<[vaddr2str dst := cbrk x]> mb) →
  Elist.head lqo = rev (renamed (next_id x) <$> Elist.head l) →
  Elist.head lp' = [Lent (link_name (cid c) (next_id x))
                      (Some (Link (next_id x) MJR_LINK_BLOCK_COND_ALWAYS MJR_LINK_SCOPE_LOCAL))] →
  Elist.head lqi = [Lent (link_name (next_id x) (cid c))
                      (Some (Link (cid c) MJR_LINK_BLOCK_COND_ALWAYS MJR_LINK_SCOPE_LOCAL))] →
  split_done x (with_links (set_blkhash hb x2) h
    (<[lbrk (links x) := lqi]> (<[lp := lp']> (<[lbrk (links x) + 1 := lqo]> (lists (links x2))))))
    p (cbrk x) c b lp l dst mb.
Proof.
  intros Hfo Hcu Hbc Hp2 Hbq Hord2 HRb Ho1 Ho2 Ho3. pose proof (fo_links _ _ _ _ Hfo) as Hw.
  destruct (lw_wf _ _ Hw _ _ (cu_list _ _ _ _ _ _ _ _ _ _ _ Hcu)) as [_ Hlt].
  pose proof (bc_lists _ _ _ _ _ Hbc) as Hls. set (x4 := with_links _ _ _).
  change (lists (links (lowered x p c b dst))) with (lists (links x)) in Hls.
  change (lbrk (links (lowered x p c b dst))) with (lbrk (links x)) in Hls.
  split; try done.
  - unfold block_of. change (conts x4) with (conts x2). by rewrite Hp2.
  - unfold block_of. change (conts x4) with (conts x2). by rewrite (bk_conts _ _ _ _ _ Hbq).
  - intros a Ha Haq. change (conts x4) with (conts x2). rewrite (bc_conts _ _ _ _ _ Hbc).
    rewrite lookup_insert_ne by done. unfold lowered. cbn. by rewrite lookup_insert_ne.
  - exact (bk_lookup _ _ _ _ _ Hbq).
  - by apply (ordered_ext x2).
  - exists (lbrk (links x)), (lbrk (links x) + 1), lp', lqi, lqo. split; [by apply (block_cont_ext x2) |].
    subst x4. cbn [with_links set_linkhash set_links links lists].
    rewrite Hls. split_and!; try done.
    + rewrite !lookup_insert_ne by lia. apply lookup_insert_eq.
    + rewrite lookup_insert_ne by lia. apply lookup_insert_eq.
    + apply lookup_insert_eq.
    + intros a [la Ha] Hne. destruct (lw_wf _ _ Hw _ _ Ha) as [_ Hlta]. by rewrite !lookup_insert_ne by lia.
Qed.

(** C12. Splitting a block: an address inside a block cuts it into two blocks that cover
    the same addresses; the new container gets the next number, is found under the new
    address and in the search tree, which stays ordered; every outgoing link moves to it,
    and an unconditional link leads from the low half to it, in both directions.  No other
    container changes, and no other list: the links back, in the lists of the targets,
    still name the low half. *)
Theorem mjr_block_split_spec x elf p c b lip lp l dst link_with ml mb mh :
  is_Some (type_name ASPECT_TYPE_BLOC) → flow_ok x ml mb mh → ¬ reg_full x → next_id x < 2 ^ 32 →
  cuts x elf p c b lip lp l dst ml mb →
  ∃ x' elf', mjr_block_split type_name bloc_prefix x elf dst link_with = Some (x', elf', cbrk x) ∧
    split_done x x' p (cbrk x) c b lp l dst mb.
Proof.
  intros Hnm Hfo Hf Hnx Hcu.
  destruct (create_high x elf p c b lip lp l dst ml mb mh) as (x2 & ml' & Hcr & Hbc & Hpne & Hp2 & Hord2);
    try done.
  destruct (created_conts x p c b lip lp l dst elf ml mb mh x2 ml') as (Hbp & Hbq & Hent); try done.
  pose proof Hcu as [[Hpc Hpt Hpid Hpl Hpi Hpo] Hd Hfit Ht Hab Hcov Hnew Hwin [sym Hsym] Hfr Hl _ Hnd].
  destruct Hfo as [Hw Hty Hlh Hbh Hok Hco Hord].
  destruct (lw_wf _ _ Hw _ _ Hl) as [Hwl Hlt].
  assert (block_of x p = Some b) as Hb by (unfold block_of; rewrite Hpc; mstep; by rewrite Hd).
  unfold mjr_block_split. rewrite (lookup_covering x p b dst mb) by done. mstep. rewrite Hb. mstep.
  rewrite Hsym. mstep. rewrite (proj2 (Z.eqb_neq (vaddr b) dst)) by lia. cbn [negb].
  destruct (split_sizes b dst Hfit Hab Hcov) as (-> & -> & ->). cbn [negb].
  unfold set_block at 1. rewrite Hpc. mstep.
  unfold guard_ub. rewrite bool_decide_true by lia. mstep. fold (low_half b dst). fold (lowered x p c b dst).
  rewrite Hcr. mstep. destruct (bc_hashes _ _ _ _ _ Hbc) as (Hh1 & Hh2 & _). rewrite Hh2.
  destruct (hash_add_to_Repr (blkhash (lowered x p c b dst)) mb (vaddr2str dst) (cbrk x) Hbh)
    as (hb & r & -> & HRb & _). mstep.
  set (x3 := set_blkhash hb x2).
  destruct (block_symbol_total x3 (set_st_size elf sym (dst - vaddr b)) (cbrk x) (high_half b dst))
    as (elf' & off & ->).
  { unfold block_of. change (conts x3) with (conts x2). by rewrite (bk_conts _ _ _ _ _ Hbq). }
  mstep. pose proof (bc_lists _ _ _ _ _ Hbc) as Hls.
  change (lists (links (lowered x p c b dst))) with (lists (links x)) in Hls.
  change (lbrk (links (lowered x p c b dst))) with (lbrk (links x)) in Hls.
  destruct (relink_and_link x3 p (cbrk x) (set_data (DBlock (low_half b dst)) c) (high_cont x b dst) lip lp
              (lbrk (links x)) (lbrk (links x) + 1) l
              (empty_links (list_name (lowered x p c b dst) dst "inputs"))
              (empty_links (list_name (lowered x p c b dst) dst "outputs")) mh)
    as (h & lqi & lqo & lp' & m' & Hrl & Ho1 & Ho2 & Ho3 & _);
    [by apply (block_cont_ext x2) | by apply (block_cont_ext x2) | lia | lia | lia | | done | exact Hent | done | | | done | done | done | done | |].
  { change (links x3) with (links x2). rewrite Hls, !lookup_insert_ne by lia. done. }
  { change (links x3) with (links x2). rewrite Hls, lookup_insert_ne by lia. apply lookup_insert_eq. }
  { change (links x3) with (links x2). rewrite Hls. apply lookup_insert_eq. }
  { change (linkhash x3) with (linkhash x2). by rewrite Hh1. }
  destruct (mjr_block_relink x3 p (cbrk x) CONTAINER_LINK_OUT) as [x4 |]; [| done].
  mstep. cbn [mbind option_bind] in Hrl. rewrite Hrl. mstep. eexists _, elf'. split; [done |].
  by apply (relinked_done x x2 p c b lip lp l dst elf ml mb mh ml' hb h).
Qed.

End split.

(** ** The parts *)

(** Registering a container gives it the next free number: the registry then finds it
    under this number, every other number leads where it led, and the invariant of the
    registry holds again; when all the numbers are taken the container is not registered
    and the answer is 0. *)
Lemma mjr_register_container_spec x p c :
  reg_ok x → conts x !! p = Some c → unregistered x p →
  (reg_full x → mjr_register_container x p = Some (x, 0)) ∧
  (¬ reg_full x → ∃ x', mjr_register_container x p = Some (x', next_id x) ∧ reg_ok x' ∧
     next_id x' = next_id x + 1 ∧
     mjr_lookup_container x' (next_id x) = Some (Some p) ∧
     (∀ i, 0 ≤ i → i ≠ next_id x → mjr_lookup_container x' i = mjr_lookup_container x i) ∧
     conts x' = <[p := set_cid (next_id x) c]> (conts x)).
Proof.
  intros Hok Hc Hnew. split; intros Hf.
  - destruct Hf as [Hf1 Hf2]. unfold mjr_register_container.
    rewrite (proj2 (Z.leb_le _ _)) by lia. by rewrite (proj2 (Z.ltb_ge _ _)) by lia.
  - destruct (register_new x p c Hok Hf Hc Hnew) as (r & sz & -> & Hok' & Hlk).
    eexists. split; [done |]. split_and!; try done.
    + rewrite Hlk by (destruct Hok; lia). by rewrite bool_decide_true.
    + intros i Hi Hne. rewrite Hlk by done. by rewrite bool_decide_false.
Qed.

(** Adding a link to a container: when the list already has a link of this type to this
    container, before any removal, it is returned and nothing changes; otherwise the new
    link is put at the head of the list and under its name in the table of links, and for
    a conditional link as many entries to the container as there are unconditional ones
    are removed - the first entries to it, whatever their type, because all the links
    between two containers share one key. *)
Lemma mjr_container_add_link_spec x cntnr c lst l m id ltype scope dir :
  conts x !! cntnr = Some c → mjr_link_get_by_direction c dir = Some lst →
  lists (links x) !! lst = Some l → elist_wf l → 0 ≤ id < 2 ^ 32 →
  Forall (entry_ok x (cid c) (ctype c)) (Elist.head l) → Repr (linkhash x) m →
  (∀ k e pre post, Elist.head l = pre ++ e :: post → ldata e = Some k → link_id k = id →
     link_type k = ltype → Forall (λ e, removes ltype id e || same_link ltype id e = false) pre →
     mjr_container_add_link x cntnr id ltype scope dir = Some (x, k)) ∧
  (Forall (λ e, same_link ltype id e = false) (Elist.head l) →
   ∃ x' l' h, mjr_container_add_link x cntnr id ltype scope dir = Some (x', Link id ltype scope) ∧
     lists (links x') = <[lst := l']> (lists (links x)) ∧ elist_wf l' ∧
     Elist.head l' = Lent (link_name (cid c) id) (Some (Link id ltype scope)) ::
                     drop_to (nremoves ltype id (Elist.head l)) id (Elist.head l) ∧
     linkhash x' = h ∧ Repr h (<[link_name (cid c) id := Link id ltype scope]> m) ∧
     conts x' = conts x ∧ reg_containers x' = reg_containers x).
Proof.
  intros Hc Hd Hl Hw Hid Hall HR. split.
  - intros k e pre post Hh Hk Hki Hkt Hpre. unfold mjr_container_add_link.
    rewrite Hc. mstep. rewrite Hd. mstep. rewrite Hl. mstep. rewrite Hh in *.
    assert (Forall (λ e, same_link ltype id e = false) pre) as Hsame.
    { eapply Forall_impl; [exact Hpre |]. by intros ? [_ ?]%orb_false_iff. }
    assert (nremoves ltype id pre = 0%nat) as Hz.
    { unfold nremoves. clear -Hpre. induction Hpre as [| e pre [He _]%orb_false_iff _ IH]; [done |].
      by rewrite length_filter_cons, He. }
    pose proof (scan_links_spec x lst (cid c) (ctype c) id ltype l (e :: post) pre 0 Hl Hid) as Hscan.
    rewrite Hh, Hz, filter_app, length_app in Hscan.
    unfold scanned in Hscan. cbn [plus] in Hscan. rewrite dropped_0, set_list_id, set_links_id in Hscan by done.
    rewrite Hscan by (done || lia). clear Hscan.
    apply Forall_app in Hall as [_ Hall]. inversion Hall as [| ? ? (k' & Hk' & _ & _ & q & cnt & Hq & Hcnt & Hty) _].
    subst. simplify_eq. cbn [scan_links]. rewrite Hk. mstep. rewrite Hq. mstep. rewrite Hcnt. mstep.
    by rewrite Hty, !Z.eqb_refl.
  - intros Hno.
    destruct (add_link_new x cntnr c lst l m id ltype scope dir) as (h & Heq & HRh); try done.
    rewrite Heq. eexists _, _, h. split; [done |]. split; [done |]. split_and!; try done.
    unfold elist_wf. cbn. lia.
Qed.

(** C13. Looking up the block of an address.  On a search tree of disjoint blocks the fuzzy
    lookup returns the block that covers the address, or NULL when none does (a block
    registered under this very address comes first); inserting a block less than half the
    address space apart from the others keeps the tree a search tree and makes its
    addresses, and no others, lead to it. *)
Theorem block_lookup_spec x m t p b addr :
  block_btree x = t → ordered x t → Repr (blkhash x) m → block_of x p = Some b → fits b →
  apart_from x t b →
  (∃ r, mjr_block_get_by_vaddr x addr MJR_BLOCK_GET_FUZZY = Some r ∧
     match m !! vaddr2str addr, r with
     | Some q, _ => r = Some q
     | None, Some q => q ∈ prefix_order t ∧ ∃ bq, block_of x q = Some bq ∧ covers bq addr = true
     | None, None => ∀ q bq, q ∈ prefix_order t → block_of x q = Some bq → covers bq addr = false
     end) ∧
  ordered x (btree_insert_sort id t (match_block x) p) ∧
  search_block x (btree_insert_sort id t (match_block x) p) addr =
    (if covers b addr then Some (Some p) else search_block x t addr).
Proof.
  intros Ht Ho HR Hb Hf Hap. split_and!.
  - unfold mjr_block_get_by_vaddr. rewrite (hash_get_Repr _ _ _ HR). mstep. rewrite Ht.
    destruct (m !! vaddr2str addr) as [q |]; [by exists (Some q) |].
    change ((MJR_BLOCK_GET_FUZZY =? MJR_BLOCK_GET_STRICT) ||
      ((MJR_BLOCK_GET_FUZZY =? MJR_BLOCK_GET_FUZZY) && bool_decide (is_Some None))) with false. cbv iota.
    pose proof (search_ordered x t addr Ho) as Hs.
    destruct (search_block x t addr) as [r |]; [| done]. exists r. by destruct r.
  - by apply (insert_ordered x t p b).
  - by apply search_insert.
Qed.

(** The insertion compares addresses by the sign of their difference in 32 bits and the
    lookup compares them unsigned: of two blocks half the address space apart or more, the
    higher one goes to the left of the lower one, and no address of it is found. *)
Lemma block_lookup_far x p1 p2 b1 b2 addr :
  block_of x p1 = Some b1 → block_of x p2 = Some b2 → fits b1 → fits b2 → below b1 b2 →
  2 ^ 31 ≤ vaddr b2 - vaddr b1 → covers b2 addr = true →
  search_block x
    (btree_insert_sort id (btree_insert_sort id Leaf (match_block x) p1) (match_block x) p2) addr =
    Some None.
Proof.
  intros H1 H2 Hf1 Hf2 Hb Hd Hc. apply covers_spec in Hc.
  destruct Hb, Hf1 as (? & ? & ?), Hf2 as (? & ? & ?). cbn [btree_insert_sort btree_insert].
  assert (match_block x p1 p2 = vaddr b2 - vaddr b1 - 2 ^ 32) as ->.
  { unfold match_block. rewrite H1, H2.
    rewrite wrapu_small by (change (2 ^ 31) with 2147483648 in *; change (2 ^ 32) with 4294967296 in *; lia).
    apply (wraps_unique 32 _ _ 1); [lia | | lia].
    change (2 ^ (32 - 1)) with 2147483648. change (2 ^ 31) with 2147483648 in *.
    change (2 ^ 32) with 4294967296 in *. lia. }
  rewrite (proj2 (Z.eqb_neq _ _)) by lia. cbn [negb]. rewrite (proj2 (Z.ltb_ge _ _)) by lia.
  rewrite (search_node _ _ _ _ _ b1) by (done || by repeat split).
  rewrite (proj2 (covers_false b1 addr)) by lia. by rewrite (proj2 (Z.ltb_lt _ _)) by lia.
Qed.

(** ** The theorems at concrete inputs *)

(** Two blocks side by side, 4096-4111 and 4112-4119, the first linked to the second. *)
Definition demo_link : mjrlink_t := Link 2 MJR_LINK_BLOCK_COND_TRUE MJR_LINK_SCOPE_LOCAL.
Definition demo_list (ents : list (lent mjrlink_t)) (name : string) : list_t mjrlink_t :=
  List ents (Z.of_nat (length ents)) ASPECT_TYPE_LINK 0 (Some name).
Definition demo_out : list_t mjrlink_t := demo_list [Lent (link_name 1 2) (Some demo_link)] "out".
Definition demo_block1 : mjrblock_t := Block 4096 16 0 1.
Definition demo_block2 : mjrblock_t := Block 4112 8 0 1.
Definition demo_cont1 : container_t := Container 1 ASPECT_TYPE_BLOC (Some 10) (Some 11) (DBlock demo_block1).
Definition demo_cont2 : container_t := Container 2 ASPECT_TYPE_BLOC (Some 12) (Some 13) (DBlock demo_block2).
Definition demo_lists : gmap Z (list_t mjrlink_t) :=
  {[10 := demo_list [] "a"; 11 := demo_out; 12 := demo_list [] "b"; 13 := demo_list [] "c"]}.
Definition demo_ctx : mjrcontext_t :=
  Ctx {[1 := demo_cont1; 2 := demo_cont2]} 3
    ([Some None; Some (Some 1); Some (Some 2)] ++ replicate 197 (Some None)) 200 3
    (Lworld demo_lists (hash_create "lists" 3 0) 14 18)
    (hash_create "links" 3 0) (hash_create "blocks" 3 0) (hash_create "funcs" 3 0)
    (Node 1 1 Leaf (Node 2 2 Leaf Leaf)) None (List [] 0 0 0 None) 0.
Definition demo_types (ty : Z) : option string :=
  if ty =? ASPECT_TYPE_BLOC then Some "bloc"%string else None.

(** An object whose symbols are their values. *)
#[local] Instance demo_elf : ElfLayer (list Z) := {
  elfsh_get_symbol_by_name _ _ := false;
  symtab_size e := Z.of_nat (length e);
  elfsh_insert_symbol e v _ _ _ := v :: e;
  elfsh_get_symbol_by_value e v := if bool_decide (v ∈ e) then Some v else None;
  set_st_size e _ _ := e;
  elfsh_get_parent_section _ _ := Some (".text"%string, true);
  elfsh_reverse_metasym _ _ := (""%string, 1);
}.

Lemma demo_lookup i :
  mjr_lookup_container demo_ctx i = Some None ∨ mjr_lookup_container demo_ctx i = None ∨
  (Z.to_nat i = 1%nat ∧ mjr_lookup_container demo_ctx i = Some (Some 1)) ∨
  (Z.to_nat i = 2%nat ∧ mjr_lookup_container demo_ctx i = Some (Some 2)).
Proof.
  unfold mjr_lookup_container. cbn [demo_ctx reg_containers].
  destruct (Z.to_nat i) as [| [| [| n]]]; auto. cbn [app lookup list_lookup].
  change (mjoin (replicate 197 (Some (None : option Z)) !! n) = Some None ∨
    mjoin (replicate 197 (Some (None : option Z)) !! n) = None ∨
    (S (S (S n)) = 1%nat ∧ mjoin (replicate 197 (Some (None : option Z)) !! n) = Some (Some 1)) ∨
    (S (S (S n)) = 2%nat ∧ mjoin (replicate 197 (Some (None : option Z)) !! n) = Some (Some 2))).
  destruct (replicate 197 (Some (None : option Z)) !! n) as [cell |] eqn:Hc; [| by right; left].
  apply lookup_replicate in Hc as [-> _]. by left.
Qed.

Lemma demo_reg_ok : reg_ok demo_ctx.
Proof.
  split; [done | cbn; lia | done | |].
  - cbn. intros i Hi. assert (i = 0 ∨ i = 1 ∨ i = 2) as [-> | [-> | ->]] by lia; by eexists.
  - intros i p Hi Hp. cbn [next_id demo_ctx].
    destruct (demo_lookup i) as [H | [H | [[Hi' H] | [Hi' H]]]]; rewrite H in Hp; simplify_eq;
      (split; [lia |]).
    + exists demo_cont1. split; [done | cbn; lia].
    + exists demo_cont2. split; [done | cbn; lia].
Qed.

Lemma demo_ordered x :
  block_of x 1 = Some demo_block1 → block_of x 2 = Some demo_block2 → ordered x (block_btree demo_ctx).
Proof.
  intros H1 H2. cbn. split_and!; try done.
  - exists demo_block2. split_and!; try done; by intros q ?%elem_of_nil.
  - exists demo_block1. split_and!; try done; [by intros q ?%elem_of_nil |].
    intros q ->%list_elem_of_singleton. by exists demo_block2.
Qed.

Lemma demo_flow : flow_ok demo_ctx ∅ ∅ ∅.
Proof.
  split; try done; try (apply hash_create_Repr; lia).
  - split; [apply hash_create_Repr; lia | | by intros ? ? ? | done].
    cbn. intros p l. unfold demo_lists. rewrite !lookup_insert_Some, lookup_singleton_Some.
    intros [[<- <-] | [_ [[<- <-] | [_ [[<- <-] | [_ [<- <-]]]]]]]; split; done || lia.
  - apply demo_reg_ok.
  - intros p Hp. cbn in *. by rewrite lookup_insert_ne, lookup_singleton_ne by lia.
  - exact (demo_ordered demo_ctx eq_refl eq_refl).
Qed.

Lemma demo_entry : Forall (entry_ok demo_ctx 1 ASPECT_TYPE_BLOC) (Elist.head demo_out).
Proof.
  constructor; [| constructor]. exists demo_link. split_and!; try done. by exists 2, demo_cont2.
Qed.

Lemma block_lookup_spec_witness :
  search_block (set_cont 3 (set_data (DBlock (Block 8192 4 0 1)) demo_cont1) demo_ctx)
    (btree_insert_sort id (block_btree demo_ctx)
       (match_block (set_cont 3 (set_data (DBlock (Block 8192 4 0 1)) demo_cont1) demo_ctx)) 3) 8194 =
    Some (Some 3).
Proof.
  apply (block_lookup_spec (set_cont 3 (set_data (DBlock (Block 8192 4 0 1)) demo_cont1) demo_ctx) ∅
           (block_btree demo_ctx) 3 (Block 8192 4 0 1) 8194); try done.
  - by apply demo_ordered.
  - apply hash_create_Repr. lia.
  - intros q [-> | ->%list_elem_of_singleton]%elem_of_cons;
      [exists demo_block1 | exists demo_block2]; (split; [done |]); (split; [left |]); done.
Defined.

Lemma mjr_block_split_spec_witness :
  ∃ x' elf', mjr_block_split demo_types "bloc_" demo_ctx [4096] 4100 MJR_LINK_FUNC_CALL =
      Some (x', elf', 3) ∧
    split_done demo_ctx x' 1 3 demo_cont1 demo_block1 11 demo_out 4100 ∅.
Proof.
  apply (mjr_block_split_spec demo_types "bloc_" demo_ctx [4096] 1 demo_cont1 demo_block1 10 11 demo_out
           4100 MJR_LINK_FUNC_CALL ∅ ∅ ∅).
  - by eexists.
  - exact demo_flow.
  - by intros [Hf _].
  - done.
  - split; try done.
    + by left.
    + intros q bq [-> | ->%list_elem_of_singleton]%elem_of_cons Hb; vm_compute in Hb; simplify_eq; done.
    + exact demo_entry.
    + apply NoDup_singleton.
Defined.
