(* ===== verification/Dump.v ===== *)
(** * Source routing between hosts (src/libdump/dump.c, send.c, recv.c)

    A host keeps its neighbours, its own addresses, the requests and replies it saw
    recently, and the packets that wait for a route.  The numbers of a packet are
    given as [ntohl] reads them; its lengths are those of its path and its data.

    The build has 64-bit pointers and ERESI_INTERNAL is not defined.  A socket is a
    number, an address a 32-bit word; [rand] is the generator of the C library, the
    clock is an argument, and [dead] holds the sockets on which [send] fails. *)
From S2P Require Import Prelude.
From S2P Require Import Hash.

(** ** Results *)

(** [Exit] is a call of [exit], [Undef] a behaviour C leaves undefined. *)
Inductive result (A : Type) := Ok (a : A) | Exit | Undef.
Arguments Ok {A} _.
Arguments Exit {A}.
Arguments Undef {A}.

#[export] Instance result_bind : MBind result := λ A B f m,
  match m with Ok a => f a | Exit => Exit | Undef => Undef end.

Definition lift {A} (o : option A) : result A :=
  match o with Some a => Ok a | None => Undef end.

(** ** Addresses *)

Definition byte_of (n k : Z) : Z := (n ≫ (8 * k)) &&& 255.

Definition inet_ntoa (addr : Z) : string :=
  pretty (byte_of addr 3) +:+ "." +:+ pretty (byte_of addr 2) +:+ "." +:+
  pretty (byte_of addr 1) +:+ "." +:+ pretty (byte_of addr 0).

(** The number at the head of a string, and the rest. *)
Fixpoint decimal (s : string) (acc : Z) : Z * string :=
  match s with
  | EmptyString => (acc, s)
  | String c s' =>
      let d := Z.of_N (Ascii.N_of_ascii c) - 48 in
      if (0 <=? d) && (d <=? 9) then decimal s' (10 * acc + d) else (acc, s)
  end.

Definition dot (s : string) : option string :=
  match s with
  | String c s => if Ascii.eqb c (Ascii.ascii_of_nat 46) then Some s else None
  | EmptyString => None
  end.

(** On what [inet_ntoa] prints; on anything else the variable stays unset. *)
Definition inet_aton (s : string) : option Z :=
  let '(a, s) := decimal s 0 in s ← dot s;
  let '(b, s) := decimal s 0 in s ← dot s;
  let '(c, s) := decimal s 0 in s ← dot s;
  let '(d, s) := decimal s 0 in
  if bool_decide (s = EmptyString) && forallb (λ n, n <=? 255) [a; b; c; d]
  then Some (((a * 256 + b) * 256 + c) * 256 + d) else None.

(** ** State *)

Definition RR : Z := 1.
Definition Rr : Z := 2.
Definition DATA : Z := 3.
Definition DUMP_RS_LIMIT : Z := 60.
Definition DUMP_MAXTRY : Z := 5.
Definition HASHTABLE_SIZE : Z := 10.

(** [pkt_pad] are the two bytes between the type and the size, which travel too. *)
Record pkt_t := Pkt {
  pkt_src : Z;
  pkt_dst : Z;
  pkt_id : Z;
  pkt_type : Z;
  pkt_pad : Z;
  pkt_path : list Z;
  pkt_data : list Z;
}.

Inductive effect := Send (s : Z) (bs : list Z) | Close (s : Z).

(** A seen table maps a number to its date, [ports] an address to a socket, [myids] a
    socket to an address; the packets of the queue go with their addresses. *)
Record dump_world_t := World {
  RRrecently_seen : hash_t Z;
  Rrrecently_seen : hash_t Z;
  ports : hash_t Z;
  myids : hash_t string;
  send_wq : list (Z * pkt_t);
  pkt_brk : Z;
  seed : Z;
  dead : list Z;
  out : list effect;
}.

Definition set_RRseen (h : hash_t Z) (w : dump_world_t) : dump_world_t :=
  World h (Rrrecently_seen w) (ports w) (myids w) (send_wq w) (pkt_brk w) (seed w) (dead w) (out w).
Definition set_Rrseen (h : hash_t Z) (w : dump_world_t) : dump_world_t :=
  World (RRrecently_seen w) h (ports w) (myids w) (send_wq w) (pkt_brk w) (seed w) (dead w) (out w).
Definition set_ports (h : hash_t Z) (w : dump_world_t) : dump_world_t :=
  World (RRrecently_seen w) (Rrrecently_seen w) h (myids w) (send_wq w) (pkt_brk w) (seed w) (dead w)
    (out w).
Definition set_myids (h : hash_t string) (w : dump_world_t) : dump_world_t :=
  World (RRrecently_seen w) (Rrrecently_seen w) (ports w) h (send_wq w) (pkt_brk w) (seed w) (dead w)
    (out w).
Definition set_send_wq (q : list (Z * pkt_t)) (b : Z) (w : dump_world_t) : dump_world_t :=
  World (RRrecently_seen w) (Rrrecently_seen w) (ports w) (myids w) q b (seed w) (dead w) (out w).
Definition set_seed (n : Z) (w : dump_world_t) : dump_world_t :=
  World (RRrecently_seen w) (Rrrecently_seen w) (ports w) (myids w) (send_wq w) (pkt_brk w) n (dead w)
    (out w).
Definition emit (e : effect) (w : dump_world_t) : dump_world_t :=
  World (RRrecently_seen w) (Rrrecently_seen w) (ports w) (myids w) (send_wq w) (pkt_brk w) (seed w)
    (dead w) (out w ++ [e]).

(** [dump_init]; the state of the generator comes from the clock. *)
Definition dump_init (now : Z) : dump_world_t :=
  World (hash_create "dump_RRseen" HASHTABLE_SIZE 0) (hash_create "dump_Rrseen" HASHTABLE_SIZE 0)
    (hash_create "dump_ports" HASHTABLE_SIZE 0) (hash_create "dump_myids" HASHTABLE_SIZE 0)
    [] 0 now [] [].

(** ** Neighbours *)

(** A socket stored as a pointer: socket 0 is NULL. *)
Definition sock_ptr (s : Z) : option Z := if s =? 0 then None else Some s.
Definition sock_of (d : option Z) : Z := default 0 d.

Definition dump_add_neighbor (w : dump_world_t) (s peer_addr : Z) : result dump_world_t :=
  '(h, _) ← lift (hash_add_to (ports w) (inet_ntoa peer_addr) (sock_ptr s));
  Ok (set_ports h w).

Definition dump_del_neighbor (w : dump_world_t) (peer_addr : Z) : result dump_world_t :=
  '(h, _) ← lift (hash_del (ports w) (inet_ntoa peer_addr));
  Ok (set_ports h w).

Definition dump_lookup_neighbor (w : dump_world_t) (peer_addr : Z) : result Z :=
  d ← lift (hash_get (ports w) (inet_ntoa peer_addr));
  Ok (sock_of d).

(** ** Recently seen packets *)

Definition id_str (id : Z) : string := pretty id.

Definition dump_add_RR_recently_seen (w : dump_world_t) (now id : Z) : result dump_world_t :=
  '(h, _) ← lift (hash_add_to (RRrecently_seen w) (id_str id) (Some now));
  Ok (set_RRseen h w).

Definition dump_add_Rr_recently_seen (w : dump_world_t) (now id : Z) : result dump_world_t :=
  '(h, _) ← lift (hash_add_to (Rrrecently_seen w) (id_str id) (Some now));
  Ok (set_Rrseen h w).

Definition dump_lookup_RR_recently_seen (w : dump_world_t) (id : Z) : result bool :=
  d ← lift (hash_get (RRrecently_seen w) (id_str id));
  Ok (bool_decide (is_Some d)).

(** The table is that of the requests. *)
Definition dump_lookup_Rr_recently_seen (w : dump_world_t) (id : Z) : result bool :=
  d ← lift (hash_get (RRrecently_seen w) (id_str id));
  Ok (bool_decide (is_Some d)).

Definition expired (now date : Z) : bool := DUMP_RS_LIMIT <? now - date.

(** The entries after the one stored in the array: [hash_del] frees an expired one, and
    the loop then reads its [next], which is undefined. *)
Fixpoint clean_chain (now : Z) (actual : list (listent Z)) : result unit :=
  match actual with
  | [] => Ok tt
  | e :: actual =>
      match key e with
      | None => Ok tt
      | Some _ =>
          date ← lift (Hash.data e);
          if expired now date then Undef else clean_chain now actual
      end
  end.

(** [hash_del] of the entry in the array moves the second one into it: the loop goes on
    after that one. *)
Definition clean_slot (now : Z) (h : hash_t Z) (index : nat) : result (hash_t Z) :=
  b ← lift (t ← ent h; t !! index);
  match key (first b) with
  | None => Ok h
  | Some k =>
      date ← lift (Hash.data (first b));
      h ← (if expired now date then '(h, _) ← lift (hash_del h k); Ok h else Ok h);
      b ← lift (t ← ent h; t !! index);
      _ ← clean_chain now (Hash.next b);
      Ok h
  end.

Fixpoint clean_slots (now : Z) (h : hash_t Z) (indexes : list nat) : result (hash_t Z) :=
  match indexes with
  | [] => Ok h
  | index :: indexes => h ← clean_slot now h index; clean_slots now h indexes
  end.

Definition clean_table (now : Z) (h : hash_t Z) : result (hash_t Z) :=
  clean_slots now h (seq 0 (Z.to_nat (Hash.size h))).

Definition dump_clean_recently_seen (w : dump_world_t) (now : Z) : result dump_world_t :=
  h1 ← clean_table now (RRrecently_seen w);
  h2 ← clean_table now (Rrrecently_seen w);
  Ok (set_Rrseen h2 (set_RRseen h1 w)).

(** ** The queue of packets that wait for a route *)

Definition dump_add_send_queue (w : dump_world_t) (pkt : pkt_t) : dump_world_t :=
  set_send_wq (send_wq w ++ [(pkt_brk w, pkt)]) (pkt_brk w + 1) w.

(** The walk reads the destination of each packet: it is undefined on one of the packets
    [freed]. *)
Fixpoint lookup_queue (q : list (Z * pkt_t)) (freed : list Z) (dst : Z) : result (option (Z * pkt_t)) :=
  match q with
  | [] => Ok None
  | (p, pkt) :: q =>
      if bool_decide (p ∈ freed) then Undef
      else if pkt_dst pkt =? dst then Ok (Some (p, pkt)) else lookup_queue q freed dst
  end.

Definition dump_lookup_send_queue (w : dump_world_t) (freed : list Z) (dst : Z) :
    result (option (Z * pkt_t)) :=
  lookup_queue (send_wq w) freed dst.

(** The loop from the third element on, where [prev] is not the head. *)
Fixpoint unlink_queue (q : list (Z * pkt_t)) (pkt : Z) : list (Z * pkt_t) :=
  match q with
  | [] => []
  | e :: q => if e.1 =? pkt then q else e :: unlink_queue q pkt
  end.

(** [prev] is the head both when [tmp] is the first element and when it is the second.  No
    element is the NULL packet. *)
Definition del_queue (q : list (Z * pkt_t)) (pkt : Z) : list (Z * pkt_t) :=
  match q with
  | [] => []
  | e1 :: q1 =>
      if e1.1 =? pkt then q1
      else match q1 with
           | [] => [e1]
           | e2 :: q2 => if e2.1 =? pkt then q2 else e1 :: e2 :: unlink_queue q2 pkt
           end
  end.

Definition dump_del_send_queue (w : dump_world_t) (pkt : option Z) : dump_world_t :=
  match pkt with
  | Some pkt => set_send_wq (del_queue (send_wq w) pkt) (pkt_brk w) w
  | None => w
  end.

(** ** The addresses of the host *)

(** [strcmp] of a NULL address is undefined. *)
Fixpoint find_addr (a : string) (l : list (string * option string)) : result bool :=
  match l with
  | [] => Ok false
  | (_, d) :: l => d ← lift d; if bool_decide (d = a) then Ok true else find_addr a l
  end.

Definition dump_is_myid (w : dump_world_t) (id : Z) : result bool :=
  l ← lift (entries (myids w));
  find_addr (inet_ntoa id) l.

(** [snprintf] in five bytes with a size of four keeps three characters. *)
Definition sock_str (s : Z) : string := String.substring 0 3 (pretty s).

(** [INADDR_ANY] when the socket has no address. *)
Definition id_of_socket (w : dump_world_t) (s : Z) : result Z :=
  tmp2 ← lift (hash_get (myids w) (sock_str s));
  match tmp2 with None => Ok 0 | Some a => lift (inet_aton a) end.

(** For socket 0, the first address of the table, if any. *)
Definition dump_get_myid (w : dump_world_t) (s : Z) : result Z :=
  if s =? 0 then
    l ← lift (entries (myids w));
    match l with
    | (_, d) :: _ => a ← lift d; lift (inet_aton a)
    | [] => id_of_socket w s
    end
  else id_of_socket w s.

Definition dump_add_myid (w : dump_world_t) (id s : Z) : result dump_world_t :=
  '(h, _) ← lift (hash_add_to (myids w) (sock_str s) (Some (inet_ntoa id)));
  Ok (set_myids h w).

Definition dump_del_myid (w : dump_world_t) (s : Z) : result dump_world_t :=
  '(h, _) ← lift (hash_del (myids w) (sock_str s));
  Ok (set_myids h w).

(** ** Connections *)

Fixpoint port_of (s : Z) (l : list (string * option Z)) : option string :=
  match l with
  | [] => None
  | (k, d) :: l => if sock_of d =? s then Some k else port_of s l
  end.

Definition dump_disconnect (w : dump_world_t) (s : Z) : result (dump_world_t * Z) :=
  l ← lift (entries (ports w));
  match port_of s l with
  | None => Ok (w, -1)
  | Some k =>
      w ← dump_del_myid w s;
      '(h, _) ← lift (hash_del (ports w) k);
      Ok (emit (Close s) (set_ports h w), 0)
  end.

(** [h] is the address [gethostbyname] gives, if any. *)
Definition dump_disconnect_host (w : dump_world_t) (h : option Z) : result (dump_world_t * Z) :=
  match h with
  | None => Ok (w, -1)
  | Some addr => s ← dump_lookup_neighbor w addr; dump_disconnect w s
  end.

(** [sd], [bound] and [connected] are what [socket], [bind] and [connect] return, [loc]
    the address [getsockname] gives. *)
Definition dump_connect_to (w : dump_world_t) (h : option Z) (sd bound connected loc : Z) :
    result (dump_world_t * Z) :=
  match h with
  | None => Ok (w, 0)
  | Some addr =>
      s ← dump_lookup_neighbor w addr;
      if negb (s =? 0) then Ok (w, -1) else
      mine ← dump_is_myid w addr;
      if mine : bool then Ok (w, -1) else
      if sd <? 0 then Ok (w, -1) else
      if bound <? 0 then Ok (w, -1) else
      if connected <? 0 then Ok (w, -1) else
      w ← dump_add_neighbor w sd addr;
      w ← dump_add_myid w loc sd;
      Ok (w, sd)
  end.

(** ** Packets as bytes *)

Definition be32 (n : Z) : list Z := [byte_of n 3; byte_of n 2; byte_of n 1; byte_of n 0].
Definition be16 (n : Z) : list Z := [byte_of n 1; byte_of n 0].
Definition of_be (bs : list Z) : Z := foldl (λ acc b, acc * 256 + b) 0 bs.

Definition HDR_SIZE : nat := 24.

Definition header (pkt : pkt_t) : list Z :=
  be32 (pkt_src pkt) ++ be32 (pkt_dst pkt) ++ be32 (pkt_id pkt) ++ be16 (pkt_type pkt) ++
  be16 (pkt_pad pkt) ++ be32 (Z.of_nat (length (pkt_data pkt))) ++
  be32 (Z.of_nat (length (pkt_path pkt))).

Definition packet_bytes (pkt : pkt_t) : list Z :=
  header pkt ++ (pkt_path pkt ≫= be32) ++ pkt_data pkt.

Fixpoint words (n : nat) (bs : list Z) : list Z :=
  match n with O => [] | S n => of_be (take 4 bs) :: words n (drop 4 bs) end.

(** ** Reception *)

(** What a call of [recv] finds: bytes (none: the peer has closed), nothing yet, or an
    error.  An empty list is a connection on which nothing more comes. *)
Inductive rx_event := Rx (bs : list Z) | Again | RxError.

(** A loop on [recv] for [need] bytes: the bytes, the count of tries and what is left to
    receive; nothing when the code gives up.  The code compares [-1] with EAGAIN in the
    first two loops, and tries again only in the third ([retry]). *)
Fixpoint recv_loop (retry : bool) (need : nat) (try : Z) (evs : list rx_event) (acc : list Z) :
    option (list Z * Z * list rx_event) :=
  match evs with
  | [] => None
  | RxError :: _ => None
  | Again :: evs =>
      if retry then
        if DUMP_MAXTRY <? try + 1 then None else recv_loop retry need (try + 1) evs acc
      else None
  | Rx [] :: _ => None
  | Rx bs :: evs =>
      if (length bs <? need)%nat then recv_loop retry (need - length bs) try evs (acc ++ bs)
      else Some (acc ++ take need bs, try,
                 match drop need bs with [] => evs | rest => Rx rest :: evs end)
  end.

(** A length that does not fit the [int] counter is undefined. *)
Definition dump_recv_pkt (evs : list rx_event) : result (option (pkt_t * list rx_event)) :=
  match recv_loop false HDR_SIZE 0 evs [] with
  | None => Ok None
  | Some (hdr, try, evs) =>
      let path_len := of_be (take 4 (drop 20 hdr)) in
      let size := of_be (take 4 (drop 16 hdr)) in
      _ ← lift (guard_ub ((4 * path_len <? 2 ^ 31) && (size <? 2 ^ 31)));
      match (if path_len =? 0 then Some ([], try, evs)
             else recv_loop false (Z.to_nat (4 * path_len)) try evs []) with
      | None => Ok None
      | Some (path, try, evs) =>
          match (if size =? 0 then Some ([], try, evs)
                 else recv_loop true (Z.to_nat size) try evs []) with
          | None => Ok None
          | Some (data, _, evs) =>
              Ok (Some (Pkt (of_be (take 4 hdr)) (of_be (take 4 (drop 4 hdr)))
                          (of_be (take 4 (drop 8 hdr))) (of_be (take 2 (drop 12 hdr)))
                          (of_be (take 2 (drop 14 hdr))) (words (Z.to_nat path_len) path) data, evs))
          end
      end
  end.

(** ** Sending *)

Definition dump_send_real (w : dump_world_t) (s : Z) (pkt : pkt_t) : result (dump_world_t * Z) :=
  let data := packet_bytes pkt in
  let len := Z.of_nat (length data) in
  _ ← lift (guard_ub (len <? 2 ^ 31));
  if bool_decide (s ∈ dead w) then Exit else Ok (emit (Send s data) w, len).

Section dump.
(** The next number, and the state after it. *)
Variable rand : Z → Z * Z.

Definition dump_mk_pkt_id (w : dump_world_t) : dump_world_t * Z :=
  let '(n, s) := rand (seed w) in (set_seed s w, n).

(** A packet number of 0 asks for a fresh one. *)
Definition packet_id (w : dump_world_t) (id : Z) : dump_world_t * Z :=
  if id =? 0 then dump_mk_pkt_id w else (w, id).

Definition dump_send_RR (w : dump_world_t) (src dst : Z) (path : list Z) (next_hop_socket id : Z) :
    result (dump_world_t * Z) :=
  let '(w, id) := packet_id w id in
  dump_send_real w next_hop_socket (Pkt src dst id RR 0 path []).

Definition dump_send_Rr (w : dump_world_t) (src dst : Z) (path : list Z) (next_hop_socket id : Z) :
    result (dump_world_t * Z) :=
  let '(w, id) := packet_id w id in
  if next_hop_socket =? 0 then Ok (w, -1)
  else dump_send_real w next_hop_socket (Pkt src dst id Rr 0 path []).

(** A request to every neighbour, the path being the address it goes out from. *)
Fixpoint request_all (w : dump_world_t) (dst : Z) (l : list (string * option Z)) : result dump_world_t :=
  match l with
  | [] => Ok w
  | (_, d) :: l =>
      path ← dump_get_myid w (sock_of d);
      '(w, _) ← dump_send_RR w path dst [path] (sock_of d) 0;
      request_all w dst l
  end.

Definition dump_send (w : dump_world_t) (dst : Z) (data : list Z) : result dump_world_t :=
  src ← dump_get_myid w 0;
  let '(w, id) := dump_mk_pkt_id w in
  let w := dump_add_send_queue w (Pkt src dst id DATA 0 [] data) in
  l ← lift (entries (ports w));
  request_all w dst l.

(** ** The handlers of packets *)

(** The forwarding of a request to the neighbours but [prev]; [-1] when a call fails. *)
Fixpoint forward_RR (w : dump_world_t) (pkt : pkt_t) (prev : Z) (l : list (string * option Z)) :
    result (dump_world_t * Z) :=
  match l with
  | [] => Ok (w, 0)
  | (k, d) :: l =>
      if bool_decide (k ≠ inet_ntoa prev) then
        my ← dump_get_myid w (sock_of d);
        '(w, ret) ← dump_send_RR w (pkt_src pkt) (pkt_dst pkt) (pkt_path pkt ++ [my]) (sock_of d) (pkt_id pkt);
        if ret <? 0 then Ok (w, -1) else forward_RR w pkt prev l
      else forward_RR w pkt prev l
  end.

Definition dump_receive_RR (w : dump_world_t) (now : Z) (pkt : pkt_t) : result (dump_world_t * Z) :=
  dup ← dump_lookup_RR_recently_seen w (pkt_id pkt);
  if dup : bool then Ok (w, -1) else
  w ← dump_add_RR_recently_seen w now (pkt_id pkt);
  match last (pkt_path pkt) with
  | None => Ok (w, -1)
  | Some prev =>
      mine ← dump_is_myid w (pkt_dst pkt);
      if mine : bool then
        s ← dump_lookup_neighbor w prev;
        my ← dump_get_myid w s;
        '(w, ret) ← dump_send_Rr w (pkt_dst pkt) (pkt_src pkt) (pkt_path pkt ++ [my]) s 0;
        Ok (w, if ret <? 0 then -1 else 0)
      else
        l ← lift (entries (ports w));
        forward_RR w pkt prev l
  end.

(** [while ((spkt = dump_lookup_send_queue(pkt->src)) != NULL)]: a packet is sent and freed,
    by XFREE which leaves NULL in [spkt], and [dump_del_send_queue] is then called on this
    NULL: the packet stays in the queue, freed.  The next look at the queue reads it
    ([DumpRouteSpec.send_waiting_freed]), so that no more turns than two are made. *)
Fixpoint send_waiting (fuel : nat) (freed : list Z) (w : dump_world_t) (pkt : pkt_t) : result dump_world_t :=
  match fuel with
  | O => Undef
  | S fuel =>
      spkt ← dump_lookup_send_queue w freed (pkt_src pkt);
      match spkt with
      | None => Ok w
      | Some (p, spkt) =>
          hop ← lift (pkt_path pkt !! 1%nat);
          s ← dump_lookup_neighbor w hop;
          if s =? 0 then Exit else
          '(w, _) ← dump_send_real w s
                      (Pkt (pkt_src spkt) (pkt_dst spkt) (pkt_id spkt) (pkt_type spkt) (pkt_pad spkt)
                         (pkt_path pkt) (pkt_data spkt));
          send_waiting fuel (p :: freed) (dump_del_send_queue w None) pkt
      end
  end.

(** The first address of the path that is ours. *)
Fixpoint first_mine (w : dump_world_t) (path : list Z) (i : nat) : result (option nat) :=
  match path with
  | [] => Ok None
  | a :: path =>
      mine ← dump_is_myid w a;
      if mine : bool then Ok (Some i) else first_mine w path (S i)
  end.

Definition dump_receive_Rr (w : dump_world_t) (now : Z) (pkt : pkt_t) : result (dump_world_t * Z) :=
  dup ← dump_lookup_Rr_recently_seen w (pkt_id pkt);
  if dup : bool then Ok (w, -1) else
  w ← dump_add_Rr_recently_seen w now (pkt_id pkt);
  match pkt_path pkt with
  | [] => Ok (w, -1)
  | _ =>
      mine ← dump_is_myid w (pkt_dst pkt);
      if mine : bool then
        w ← send_waiting 2 [] w pkt;
        Ok (w, 0)
      else
        i ← first_mine w (pkt_path pkt) 0;
        match i with
        | None => Ok (w, 0)
        | Some O => Ok (w, -1)
        | Some (S i) =>
            hop ← lift (pkt_path pkt !! i);
            s ← dump_lookup_neighbor w hop;
            my ← dump_get_myid w s;
            '(w, ret) ← dump_send_Rr w (pkt_src pkt) (pkt_dst pkt) (<[S i := my]> (pkt_path pkt)) s
                          (pkt_id pkt);
            Ok (w, if ret <? 0 then -1 else 0)
        end
  end.

(** The [pkt_t *] a handler returns. *)
Inductive ret_pkt := RetNull | RetErr | RetPkt (pkt : pkt_t).

(** The loop on the path from its last index down; it starts one past the end of the
    path, in memory that holds [beyond], and what follows is undefined. *)
Fixpoint forward_DATA (w : dump_world_t) (pkt : pkt_t) (beyond : Z) (i : nat) :
    result (dump_world_t * ret_pkt) :=
  let word := (pkt_path pkt ++ [beyond]) in
  a ← lift (word !! i);
  mine ← dump_is_myid w a;
  if mine : bool then
    hop ← lift (word !! S i);
    s ← dump_lookup_neighbor w hop;
    if s =? 0 then Ok (w, RetErr) else
    '(w, ret) ← dump_send_real w s pkt;
    if ret <? 0 then Ok (w, RetErr) else Ok (w, RetNull)
  else match i with O => Ok (w, RetNull) | S i => forward_DATA w pkt beyond i end.

Definition dump_receive_DATA (w : dump_world_t) (pkt : pkt_t) (beyond : Z) :
    result (dump_world_t * ret_pkt) :=
  match pkt_path pkt with
  | [] => Ok (w, RetErr)
  | _ =>
      mine ← dump_is_myid w (pkt_dst pkt);
      if mine : bool then Ok (w, RetPkt pkt)
      else forward_DATA w pkt beyond (length (pkt_path pkt))
  end.

Definition dump_receive_cb (w : dump_world_t) (s : Z) (evs : list rx_event) (now beyond : Z) :
    result (dump_world_t * list rx_event * ret_pkt) :=
  w ← dump_clean_recently_seen w now;
  pkt ← dump_recv_pkt evs;
  match pkt with
  | None => '(w, _) ← dump_disconnect w s; Ok (w, evs, RetErr)
  | Some (pkt, evs) =>
      if pkt_type pkt =? RR then '(w, _) ← dump_receive_RR w now pkt; Ok (w, evs, RetNull)
      else if pkt_type pkt =? Rr then '(w, _) ← dump_receive_Rr w now pkt; Ok (w, evs, RetNull)
      else if pkt_type pkt =? DATA then '(w, ret) ← dump_receive_DATA w pkt beyond; Ok (w, evs, ret)
      else Exit
  end.

End dump.
