(* ===== verification/DumpSpec.v ===== *)
(** * Packets of libdump: encoding, reception in pieces, addresses, the queue (Dump.v) *)
From S2P Require Import Prelude.
From S2P Require Import Hash.
From S2P Require Import HashSpec.
From S2P Require Import Dump.

Implicit Types (bs : list Z) (evs : list rx_event) (p : pkt_t) (w : dump_world_t).

(** ** Numbers as bytes *)

Lemma byte_of_range n k : 0 ≤ byte_of n k < 256.
Proof. unfold byte_of. rewrite land_255. by apply Z.mod_pos_bound. Qed.

Lemma byte_of_div n k : 0 ≤ k → byte_of n k = n / 2 ^ (8 * k) mod 256.
Proof. intros ?. unfold byte_of. by rewrite land_255, Z.shiftr_div_pow2 by lia. Qed.

Lemma bytes_of_word n :
  0 ≤ n < 2 ^ 32 → ((byte_of n 3 * 256 + byte_of n 2) * 256 + byte_of n 1) * 256 + byte_of n 0 = n.
Proof.
  intros Hn. rewrite !byte_of_div by lia. change (2 ^ (8 * 3)) with (256 * 256 * 256).
  change (2 ^ (8 * 2)) with (256 * 256). change (2 ^ (8 * 1)) with 256. change (2 ^ (8 * 0)) with 1.
  change (2 ^ 32) with 4294967296 in Hn. rewrite <-!Z.div_div, Z.div_1_r by lia.
  Z.div_mod_to_equations. lia.
Qed.

Lemma of_be32 n : 0 ≤ n < 2 ^ 32 → of_be (be32 n) = n.
Proof. intros Hn. unfold of_be. cbn. by apply bytes_of_word. Qed.

Lemma of_be16 n : 0 ≤ n < 2 ^ 16 → of_be (be16 n) = n.
Proof.
  intros Hn. unfold of_be, be16. cbn [foldl]. rewrite !byte_of_div by lia.
  change (2 ^ (8 * 1)) with 256. change (2 ^ (8 * 0)) with 1. change (2 ^ 16) with 65536 in Hn. Z.div_mod_to_equations. lia.
Qed.

Lemma words_be32 l : Forall (λ a, 0 ≤ a < 2 ^ 32) l → words (length l) (l ≫= be32) = l.
Proof.
  induction 1 as [| a l Ha _ IH]; [done |].
  change ((a :: l) ≫= be32) with (be32 a ++ (l ≫= be32)).
  cbn [length words]. rewrite (take_app_length (be32 a)), (drop_app_length (be32 a)).
  by rewrite of_be32, IH.
Qed.

Lemma length_words l : length (l ≫= be32) = (4 * length l)%nat.
Proof. induction l as [| a l IH]; [done |]. cbn in *. lia. Qed.

(** A packet as the C type can hold it. *)
Record packet_ok p : Prop := {
  po_src : 0 ≤ pkt_src p < 2 ^ 32;
  po_dst : 0 ≤ pkt_dst p < 2 ^ 32;
  po_id : 0 ≤ pkt_id p < 2 ^ 32;
  po_type : 0 ≤ pkt_type p < 2 ^ 16;
  po_pad : 0 ≤ pkt_pad p < 2 ^ 16;
  po_path : Forall (λ a, 0 ≤ a < 2 ^ 32) (pkt_path p);
  po_len : Z.of_nat (length (packet_bytes p)) < 2 ^ 31;
}.

Lemma length_packet p :
  length (packet_bytes p) = (24 + 4 * length (pkt_path p) + length (pkt_data p))%nat.
Proof. unfold packet_bytes. rewrite !length_app, length_words. done. Qed.

(** ** Reception *)

(** The bytes that will be received. *)
Fixpoint stream evs : list Z :=
  match evs with Rx bs :: evs => bs ++ stream evs | _ :: evs => stream evs | [] => [] end.

Definition chunk (e : rx_event) : Prop := match e with Rx bs => bs ≠ [] | _ => False end.
Definition chunk_or_again (e : rx_event) : Prop :=
  match e with Rx bs => bs ≠ [] | Again => True | RxError => False end.
Fixpoint agains evs : Z :=
  match evs with [] => 0 | Again :: evs => 1 + agains evs | _ :: evs => agains evs end.

Lemma agains_nonneg evs : 0 ≤ agains evs.
Proof. induction evs as [| [] evs IH]; cbn; lia. Qed.

Lemma stream_app evs1 evs2 : stream (evs1 ++ evs2) = stream evs1 ++ stream evs2.
Proof. induction evs1 as [| [] ? IH]; cbn; rewrite ?IH, ?app_assoc; done. Qed.

Lemma chunk_again evs : Forall chunk evs → Forall chunk_or_again evs.
Proof. intros H. eapply Forall_impl; [exact H |]. by intros []. Qed.

Lemma chunk_agains evs : Forall chunk evs → agains evs = 0.
Proof. by induction 1 as [| [] evs He _ IH]. Qed.

(** The loop that tries again stops at the bytes it needs, having met at most
    [DUMP_MAXTRY] waits. *)
Lemma recv_retry need evs try acc :
  (0 < need <= length (stream evs))%nat → Forall chunk_or_again evs → try + agains evs ≤ DUMP_MAXTRY →
  ∃ try' evs', recv_loop true need try evs acc = Some (acc ++ take need (stream evs), try', evs') ∧
    Forall chunk_or_again evs' ∧ try' + agains evs' ≤ DUMP_MAXTRY ∧ stream evs' = drop need (stream evs).
Proof.
  intros Hn Hall. revert need Hn try acc. induction Hall as [| e evs He Hall IH]; intros need Hn try acc Ht.
  { cbn in Hn. lia. }
  cbn [agains] in Ht. pose proof (agains_nonneg evs).
  destruct e as [bs | |]; [| | done].
  - destruct bs as [| b bs]; [done |]. cbn [recv_loop stream] in *. rewrite length_app in Hn.
    set (l := b :: bs) in *. destruct (Nat.ltb_spec (length l) need).
    + destruct (IH (need - length l)%nat ltac:(lia) try (acc ++ l)) as (try' & evs' & -> & ? & ? & Hst); [lia |].
      exists try', evs'. split; [by rewrite take_app_ge, app_assoc by lia |]. split_and!; [done.. |].
      by rewrite drop_app_ge by lia.
    + eexists _, _. split; [by rewrite take_app_le by lia |].
      rewrite drop_app_le by lia. destruct (drop need l) eqn:E; [split_and!; [done | lia | done] |].
      split_and!; [by constructor | cbn [agains]; lia | done].
  - cbn [recv_loop stream] in *. rewrite (proj2 (Z.ltb_ge _ _)) by lia. apply IH; [done | lia].
Qed.

Lemma recv_chunks need evs1 evs2 try acc :
  (0 < need <= length (stream evs1))%nat → Forall chunk evs1 →
  ∃ evs1', recv_loop false need try (evs1 ++ evs2) acc =
             Some (acc ++ take need (stream evs1), try, evs1' ++ evs2) ∧
    Forall chunk evs1' ∧ stream evs1' = drop need (stream evs1).
Proof.
  intros Hn Hall. revert need Hn acc. induction Hall as [| e evs He Hall IH]; intros need Hn acc.
  { cbn in Hn. lia. }
  destruct e as [[| b bs] | |]; [done | | done | done]. rewrite <-app_comm_cons. cbn [recv_loop stream] in *.
  rewrite length_app in Hn. set (l := b :: bs) in *. destruct (Nat.ltb_spec (length l) need).
  - destruct (IH (need - length l)%nat ltac:(lia) (acc ++ l)) as (evs' & -> & ? & Hst).
    exists evs'. split; [by rewrite take_app_ge, app_assoc by lia |]. split; [done |].
    by rewrite drop_app_ge by lia.
  - exists (match drop need l with [] => evs | r => Rx r :: evs end).
    rewrite drop_app_le, take_app_le by lia.
    destruct (drop need l) eqn:E; (split; [done |]); (split; [| done]); [done | by constructor].
Qed.

(** A wait in one of the first two loops, or the end of what comes, and the code gives up. *)
Lemma recv_wait need evs1 evs2 try acc :
  (length (stream evs1) < need)%nat → Forall chunk evs1 →
  recv_loop false need try (evs1 ++ Again :: evs2) acc = None.
Proof.
  intros Hn Hall. revert need Hn acc. induction Hall as [| e evs He Hall IH]; intros need Hn acc; [done |].
  destruct e as [[| b bs] | |]; [done | | done | done]. rewrite <-app_comm_cons. cbn [recv_loop stream] in *.
  rewrite length_app in Hn. set (l := b :: bs) in *. rewrite (proj2 (Nat.ltb_lt _ _)) by lia.
  apply IH. lia.
Qed.

(** The header of a packet, and what follows it. *)
Lemma header_fields p :
  packet_ok p →
  length (header p) = HDR_SIZE ∧ of_be (take 4 (header p)) = pkt_src p ∧
  of_be (take 4 (drop 4 (header p))) = pkt_dst p ∧ of_be (take 4 (drop 8 (header p))) = pkt_id p ∧
  of_be (take 2 (drop 12 (header p))) = pkt_type p ∧ of_be (take 2 (drop 14 (header p))) = pkt_pad p ∧
  of_be (take 4 (drop 16 (header p))) = Z.of_nat (length (pkt_data p)) ∧
  of_be (take 4 (drop 20 (header p))) = Z.of_nat (length (pkt_path p)).
Proof.
  intros [? ? ? ? ? ? Hlen]. rewrite length_packet in Hlen.
  change (2 ^ 31) with 2147483648 in *. change (2 ^ 32) with 4294967296 in *.
  split_and!; [done | by apply of_be32 .. | by apply of_be16 | by apply of_be16 | |].
  all: apply of_be32; change (2 ^ 32) with 4294967296; lia.
Qed.

(** ** Transmission *)

Lemma take_prefix {A} (l1 l2 l3 l4 : list A) :
  l1 ++ l2 = l3 ++ l4 → (length l3 ≤ length l1)%nat → ∃ d, l1 = l3 ++ d ∧ d ++ l2 = l4.
Proof.
  intros Heq Hle. exists (drop (length l3) l1).
  assert (take (length l3) l1 = l3) as Ht.
  { rewrite <-(take_app_le l1 l2), Heq by done. apply take_app_length. }
  split; [by rewrite <-Ht at 1; rewrite take_drop |].
  apply (app_inv_head l3). by rewrite <-Heq, app_assoc, <-Ht, take_drop at 1.
Qed.

(** The fixed part is read first. *)
Lemma recv_header p evs1 evs2 d :
  packet_ok p → Forall chunk evs1 → stream evs1 = header p ++ d →
  ∃ e1, Forall chunk e1 ∧ stream e1 = d ∧
    dump_recv_pkt (evs1 ++ evs2) =
      match (if Z.of_nat (length (pkt_path p)) =? 0 then Some ([], 0, e1 ++ evs2)
             else recv_loop false (4 * length (pkt_path p)) 0 (e1 ++ evs2) []) with
      | None => Ok None
      | Some (path, try, evs) =>
          match (if Z.of_nat (length (pkt_data p)) =? 0 then Some ([], try, evs)
                 else recv_loop true (length (pkt_data p)) try evs []) with
          | None => Ok None
          | Some (data, _, evs) =>
              Ok (Some (Pkt (pkt_src p) (pkt_dst p) (pkt_id p) (pkt_type p) (pkt_pad p)
                          (words (length (pkt_path p)) path) data, evs))
          end
      end.
Proof.
  intros Hp Hc Hst. destruct (header_fields p Hp) as (Hh & H1 & H2 & H3 & H4 & H5 & H6 & H7).
  pose proof (po_len p Hp) as Hlen. rewrite length_packet in Hlen. unfold HDR_SIZE in Hh.
  destruct (recv_chunks HDR_SIZE evs1 evs2 0 []) as (e1 & Hr & He1 & Hs1);
    [rewrite Hst, length_app, Hh; unfold HDR_SIZE; lia | done |].
  exists e1. split; [done |]. unfold HDR_SIZE in *. split.
  { by rewrite Hs1, Hst, <-Hh, drop_app_length. }
  assert (take 24 (stream evs1) = header p) as Ht by (by rewrite Hst, <-Hh, take_app_length).
  unfold dump_recv_pkt, HDR_SIZE. rewrite Hr, Ht, app_nil_l, H1, H2, H3, H4, H5, H6, H7.
  change (2 ^ 31) with 2147483648 in *. rewrite !(proj2 (Z.ltb_lt _ _)) by lia.
  rewrite <-(Nat2Z.inj_mul 4), !Nat2Z.id. done.
Qed.

(** The pieces give the packet back. *)
Lemma recv_packet p evs1 evs2 rest :
  packet_ok p → Forall chunk evs1 → Forall chunk_or_again evs2 → agains evs2 ≤ DUMP_MAXTRY →
  stream (evs1 ++ evs2) = packet_bytes p ++ rest →
  (24 + 4 * length (pkt_path p) ≤ length (stream evs1))%nat →
  ∃ evs, dump_recv_pkt (evs1 ++ evs2) = Ok (Some (p, evs)) ∧ stream evs = rest.
Proof.
  intros Hp Hc1 Hc2 Ha Hst Hle. destruct (header_fields p Hp) as (Hh & _). unfold HDR_SIZE in Hh.
  pose proof (length_words (pkt_path p)) as Hw.
  rewrite stream_app in Hst. unfold packet_bytes in Hst.
  rewrite (app_assoc (header p)), <-app_assoc in Hst.
  apply take_prefix in Hst as (d & Hst & Hd); [| rewrite length_app; lia].
  rewrite <-app_assoc in Hst.
  destruct (recv_header p evs1 evs2 _ Hp Hc1 Hst) as (e1 & He1 & Hs1 & ->).
  assert (∃ e2 path, Forall chunk e2 ∧ stream e2 = d ∧ words (length (pkt_path p)) path = pkt_path p ∧
            (if Z.of_nat (length (pkt_path p)) =? 0 then Some ([], 0, e1 ++ evs2)
             else recv_loop false (4 * length (pkt_path p)) 0 (e1 ++ evs2) []) =
            Some (path, 0, e2 ++ evs2)) as (e2 & path & He2 & Hs2 & Hpath & ->).
  { destruct (Z.eqb_spec (Z.of_nat (length (pkt_path p))) 0) as [Hz |].
    - exists e1, []. destruct (pkt_path p); [by split_and! | cbn in Hz; lia].
    - destruct (recv_chunks (4 * length (pkt_path p)) e1 evs2 0 []) as (e2 & -> & He2 & Hs2);
        [rewrite Hs1, length_app; lia | done |].
      rewrite Hs1, <-Hw, drop_app_length in Hs2. rewrite Hs1, <-Hw, take_app_length.
      exists e2, (pkt_path p ≫= be32). split_and!; [done | done | | done].
      apply words_be32, Hp. }
  rewrite Hpath. assert (stream (e2 ++ evs2) = pkt_data p ++ rest) as Hst2 by (by rewrite stream_app, Hs2).
  destruct (Z.eqb_spec (Z.of_nat (length (pkt_data p))) 0) as [Hz |].
  + exists (e2 ++ evs2). destruct p as [? ? ? ? ? ? [|]]; [| done]. done.
  + destruct (recv_retry (length (pkt_data p)) (e2 ++ evs2) 0 []) as (try & e3 & -> & _ & _ & Hs3).
    { rewrite Hst2, length_app. lia. }
    { apply Forall_app. split; [by apply chunk_again | done]. }
    { assert (agains (e2 ++ evs2) = agains evs2) as ->; [| done].
      clear -He2. by induction He2 as [| [] ? ? _ IH]. }
    exists e3. rewrite Hst2, drop_app_length in Hs3. rewrite Hst2, take_app_length. by destruct p.
Qed.

(** C17. A packet that is sent is received: its bytes, cut into pieces in any way, with at
    most five waits once the path is complete, give back every field, and what follows them
    stays to be received.  A wait before the end of the path makes the receiver give up. *)
Theorem packet_roundtrip w s p :
  packet_ok p → s ∉ dead w →
  dump_send_real w s p = Ok (emit (Send s (packet_bytes p)) w, Z.of_nat (length (packet_bytes p))) ∧
  (∀ evs1 evs2 rest,
     Forall chunk evs1 → Forall chunk_or_again evs2 → agains evs2 ≤ DUMP_MAXTRY →
     stream (evs1 ++ evs2) = packet_bytes p ++ rest →
     (24 + 4 * length (pkt_path p) ≤ length (stream evs1))%nat →
     ∃ evs, dump_recv_pkt (evs1 ++ evs2) = Ok (Some (p, evs)) ∧ stream evs = rest) ∧
  (∀ evs1 evs2 rest,
     Forall chunk evs1 → stream evs1 ++ rest = packet_bytes p →
     (length (stream evs1) < 24 + 4 * length (pkt_path p))%nat →
     dump_recv_pkt (evs1 ++ Again :: evs2) = Ok None).
Proof.
  intros Hp Hs. destruct (header_fields p Hp) as (Hh & _). unfold HDR_SIZE in Hh.
  pose proof (length_packet p) as Hl. pose proof (po_len p Hp) as Hlen. rewrite Hl in Hlen.
  pose proof (length_words (pkt_path p)) as Hw. split_and!.
  - unfold dump_send_real. rewrite Hl, (proj2 (Z.ltb_lt _ _)) by done. cbn. by rewrite bool_decide_false.
  - intros evs1 evs2 rest. by apply recv_packet.
  - intros evs1 evs2 rest Hc1 Hst Hlt.
    destruct (Nat.ltb_spec (length (stream evs1)) 24).
    { unfold dump_recv_pkt. by rewrite recv_wait. }
    unfold packet_bytes in Hst. apply take_prefix in Hst as (d & Hst & Hd); [| lia].
    destruct (recv_header p evs1 (Again :: evs2) d Hp Hc1 Hst) as (e1 & He1 & Hs1 & ->).
    rewrite Hst, length_app in Hlt. rewrite (proj2 (Z.eqb_neq _ _)) by lia.
    rewrite recv_wait; [done | rewrite Hs1; lia | done].
Qed.

(** ** Addresses *)

Lemma decimal_app s acc n r :
  decimal s acc = (n, "") → decimal (s +:+ "." +:+ r) acc = (n, "." +:+ r).
Proof.
  revert acc. induction s as [| c s IH]; intros acc; [by intros [= ->] |].
  change (String c s +:+ ?x) with (String c (s +:+ x)).
  cbn [decimal]. destruct (_ && _); [apply IH | done].
Qed.

Lemma decimal_byte n :
  0 ≤ n < 256 →
  decimal (pretty n) 0 = (n, "") ∧ ∀ r, decimal (pretty n +:+ "." +:+ r) 0 = (n, "." +:+ r).
Proof.
  intros Hn. assert (decimal (pretty n) 0 = (n, "")) as Hd; [| split; [done |]; intros; by apply decimal_app].
  assert (Forall (λ n, decimal (pretty n) 0 = (n, "")) (Z.of_nat <$> seq 0 256)) as Hall.
  { apply (bool_decide_unpack _). by vm_compute. }
  rewrite Forall_forall in Hall. apply Hall, list_elem_of_fmap. exists (Z.to_nat n).
  split; [lia |]. apply elem_of_seq. lia.
Qed.

Lemma dot_dot r : dot ("." +:+ r) = Some r.
Proof. done. Qed.

Lemma inet_aton_ntoa a : 0 ≤ a < 2 ^ 32 → inet_aton (inet_ntoa a) = Some a.
Proof.
  intros Ha. unfold inet_aton, inet_ntoa.
  pose proof (byte_of_range a) as Hb.
  rewrite (proj2 (decimal_byte _ (Hb 3))), dot_dot. mstep.
  rewrite (proj2 (decimal_byte _ (Hb 2))), dot_dot. mstep.
  rewrite (proj2 (decimal_byte _ (Hb 1))), dot_dot. mstep.
  rewrite (proj1 (decimal_byte _ (Hb 0))).
  cbn [forallb]. rewrite !(proj2 (Z.leb_le _ _)) by (pose proof (Hb 0); pose proof (Hb 1);
    pose proof (Hb 2); pose proof (Hb 3); lia).
  cbn. by rewrite bytes_of_word.
Qed.

Lemma inet_ntoa_inj a b : 0 ≤ a < 2 ^ 32 → 0 ≤ b < 2 ^ 32 → inet_ntoa a = inet_ntoa b → a = b.
Proof.
  intros Ha Hb Heq. apply inet_aton_ntoa in Ha, Hb. congruence.
Qed.

Section host.
Context (P : gmap string Z) (I : gmap string string).

(** The address is one of the host. *)
Definition mine (a : Z) : Prop := inet_ntoa a ∈ (map_to_list I).*2.
#[global] Instance mine_dec a : Decision (mine a).
Proof. unfold mine. apply _. Defined.

Lemma lookup_neighbor_spec w a :
  Repr (ports w) P → dump_lookup_neighbor w a = Ok (default 0 (P !! inet_ntoa a)).
Proof. intros HR. unfold dump_lookup_neighbor. by rewrite (hash_get_Repr _ _ _ HR). Qed.

Lemma find_addr_spec a (l : list (string * option string)) (m : list (string * string)) :
  l = prod_map id Some <$> m → find_addr a l = Ok (bool_decide (a ∈ m.*2)).
Proof.
  intros ->. induction m as [| [k d] m IH]; [done |].
  cbn. destruct (decide (d = a)) as [-> | Hd].
  - by rewrite !bool_decide_true by (done || left).
  - rewrite bool_decide_false, IH by done. f_equal. apply bool_decide_ext. cbn. rewrite elem_of_cons. split; [by right | by intros [-> | ?]].
Qed.

Lemma is_myid_spec w a : Repr (myids w) I → dump_is_myid w a = Ok (bool_decide (mine a)).
Proof.
  intros HR. destruct (entries_Repr _ _ HR) as (l & Hl & Hp). unfold dump_is_myid. rewrite Hl. cbn.
  apply Permutation_map_inv in Hp as (m & -> & Hm).
  rewrite (find_addr_spec _ _ m) by done. f_equal. apply bool_decide_ext. unfold mine.
  by rewrite Hm.
Qed.

Lemma get_myid_spec w s a :
  Repr (myids w) I → s ≠ 0 → I !! sock_str s = Some (inet_ntoa a) → 0 ≤ a < 2 ^ 32 →
  dump_get_myid w s = Ok a.
Proof.
  intros HR Hs HI Ha. unfold dump_get_myid, id_of_socket. rewrite (proj2 (Z.eqb_neq _ _)) by done.
  rewrite (hash_get_Repr _ _ _ HR), HI. cbn. by rewrite inet_aton_ntoa.
Qed.

End host.

(** ** Recent packets *)

(** No entry is old enough to go: cleaning changes nothing. *)
Definition recent now (m : gmap string Z) : Prop := map_Forall (λ _ d, expired now d = false) m.

Lemma clean_chain_recent now (c : list (listent Z)) :
  (∀ k d, (k, d) ∈ live c → ∃ date, d = Some date ∧ expired now date = false) →
  clean_chain now c = Ok tt.
Proof.
  induction c as [| [[k |] d] c IH]; intros Hc; [done | | done]. cbn in *.
  destruct (Hc k d) as (date & -> & He); [by left |]. cbn. rewrite He.
  apply IH. intros k' d' Hin. apply (Hc k'). by right.
Qed.

Lemma clean_table_recent now h m : Repr h m → recent now m → clean_table now h = Ok h.
Proof.
  intros (t & Hwf & Hm) Hrec. unfold clean_table.
  assert (∀ k d, (k, d) ∈ mjoin ((live ∘ chain_of) <$> t) → ∃ date, d = Some date ∧ expired now date = false)
    as Hall.
  { intros k d. rewrite Hm, list_elem_of_fmap. intros ([k' v] & Heq & Hin). cbn in Heq. simplify_eq.
    exists v. split; [done |]. apply elem_of_map_to_list in Hin. by apply (Hrec k'). }
  assert (∀ i, i ∈ seq 0 (Z.to_nat (Hash.size h)) → ∃ b, t !! i = Some b) as Hlt.
  { intros i Hi%elem_of_seq. apply lookup_lt_is_Some. pose proof (wf_length _ _ Hwf). lia. }
  revert Hlt. generalize (seq 0 (Z.to_nat (Hash.size h))). intros idx Hlt.
  induction idx as [| i idx IH]; [done |]. cbn [clean_slots].
  assert (clean_slot now h i = Ok h) as ->.
  2: { cbn. apply IH. intros. apply Hlt. by right. }
  destruct (Hlt i) as [b Hb]; [by left |]. unfold clean_slot. rewrite (wf_ent _ _ Hwf). mstep.
  rewrite Hb. cbn. destruct (key (first b)) as [k |] eqn:Hk; [| done].
  assert (∀ k d, (k, d) ∈ live (chain_of b) → ∃ date, d = Some date ∧ expired now date = false) as Hb'.
  { intros k' d Hin. apply (Hall k'), elem_of_all. eauto. }
  unfold chain_of in Hb'. cbn in Hb'. rewrite Hk in Hb'.
  destruct (Hb' k (Hash.data (first b))) as (date & Hd & He); [by left |].
  rewrite Hd. cbn. rewrite He. cbn. rewrite (wf_ent _ _ Hwf). mstep. rewrite Hb. cbn.
  rewrite clean_chain_recent; [done |]. intros k' d Hin. apply (Hb' k'). by right.
Qed.

(** A packet with the path of the reply. *)
Definition with_path (path : list Z) p : pkt_t :=
  Pkt (pkt_src p) (pkt_dst p) (pkt_id p) (pkt_type p) (pkt_pad p) path (pkt_data p).

(** ** The theorem at a concrete input *)

Definition demo_packet : pkt_t := Pkt 167772161 167772162 77 DATA 0 [167772161; 167772162] [104; 105].

Lemma demo_packet_ok : packet_ok demo_packet.
Proof. split; [done.. | | by vm_compute]. by repeat constructor. Qed.

Lemma packet_roundtrip_witness :
  ∃ evs, dump_recv_pkt ([Rx (take 5 (packet_bytes demo_packet)); Rx (drop 5 (take 33 (packet_bytes demo_packet)))] ++
                        [Again; Rx (drop 33 (packet_bytes demo_packet) ++ [9; 9])]) =
           Ok (Some (demo_packet, evs)) ∧ stream evs = [9; 9].
Proof.
  apply (packet_roundtrip (dump_init 7) 3 demo_packet demo_packet_ok).
  - by intros ?%not_elem_of_nil.
  - by repeat constructor.
  - by repeat constructor.
  - done.
  - by vm_compute.
  - vm_compute. lia.
Defined.

(** ** What goes wrong *)

(** An old entry behind another one of its slot: it is freed, and its [next] is read. *)
Lemma clean_chain_expired now c1 k date c2 :
  Forall (λ e, is_Some (key e) ∧ ∃ d, Hash.data e = Some d ∧ expired now d = false) c1 →
  expired now date = true → clean_chain now (c1 ++ Listent (Some k) (Some date) :: c2) = Undef.
Proof.
  intros Hc He. induction Hc as [| [ko d] c [[k' Hk] (d' & Hd & Hd')] _ IH]; cbn in *; subst; cbn.
  - by rewrite He.
  - by rewrite Hd'.
Qed.

(** A neighbour ends the process with a packet of a type it does not know. *)
Lemma unknown_type_exits rand w s p now beyond w1 :
  packet_ok p → pkt_type p ∉ [RR; Rr; DATA] → dump_clean_recently_seen w now = Ok w1 →
  dump_receive_cb rand w s [Rx (packet_bytes p)] now beyond = Exit.
Proof.
  intros Hp Ht Hc. unfold dump_receive_cb. rewrite Hc. cbn [mbind result_bind].
  destruct (recv_packet p [Rx (packet_bytes p)] [] []) as (evs & Hr & _); try done.
  { by constructor. }
  { cbn [stream]. rewrite app_nil_r, length_packet. lia. }
  cbn [app] in Hr. rewrite Hr. cbn [mbind result_bind].
  rewrite !not_elem_of_cons in Ht. destruct Ht as (? & ? & ? & _).
  by rewrite !(proj2 (Z.eqb_neq _ _)) by done.
Qed.
