(* ===== verification/DumpFloodSpec.v ===== *)
(** * A network of libdump hosts: the flood of a request ends (Dump.v) *)
From S2P Require Import Prelude.
From S2P Require Import Hash.
From S2P Require Import HashSpec.
From S2P Require Import Dump.
From S2P Require Import DumpSpec.

Implicit Types (bs : list Z) (p : pkt_t) (w : dump_world_t) (effs : list effect).

(** ** Inverting a successful run *)

Lemma bind_Ok {A B} (m : result A) (f : A → result B) b :
  m ≫= f = Ok b → ∃ a, m = Ok a ∧ f a = Ok b.
Proof. destruct m; [| done | done]. eauto. Qed.

Lemma lift_Ok {A} (o : option A) a : lift o = Ok a → o = Some a.
Proof. destruct o; [by intros [= ->] | done]. Qed.

Ltac ok_step :=
  match goal with
  | H : Ok _ = Ok _ |- _ => injection H as H; subst
  | H : Exit = Ok _ |- _ => discriminate H
  | H : Undef = Ok _ |- _ => discriminate H
  | H : mbind _ _ = Ok _ |- _ => apply bind_Ok in H as (? & ? & H)
  | H : lift _ = Ok _ |- _ => apply lift_Ok in H
  | H : match ?x with _ => _ end = Ok _ |- _ => destruct x eqn:?
  | H : (_, _) = (_, _) |- _ => injection H as H; subst
  end.
Ltac ok_inv := repeat ok_step; simplify_eq.

(** ** Fields of a message *)

Definition type_field bs : Z := of_be (take 2 (drop 12 bs)).
Definition id_field bs : Z := of_be (take 4 (drop 8 bs)).

Arguments type_field : simpl never.
Arguments id_field : simpl never.

Lemma type_field_packet p : type_field (packet_bytes p) = of_be (be16 (pkt_type p)).
Proof. done. Qed.

Lemma id_field_packet p : type_field (packet_bytes p) = of_be (be16 (pkt_type p)) ∧
  id_field (packet_bytes p) = of_be (be32 (pkt_id p)).
Proof. done. Qed.

(** A message delivered whole gives its own fields. *)
Lemma recv_fields bs p evs :
  dump_recv_pkt [Rx bs] = Ok (Some (p, evs)) → pkt_type p = type_field bs ∧ pkt_id p = id_field bs.
Proof.
  unfold dump_recv_pkt. cbn [recv_loop]. destruct bs as [| b bs]; [done |].
  set (l := b :: bs). destruct (_ <? _)%nat; [done |]. cbn [app].
  intros H. ok_inv. unfold type_field, id_field, HDR_SIZE.
  rewrite !skipn_firstn_comm, !take_take. done.
Qed.

(** ** Effects *)

Definition add_out effs w : dump_world_t :=
  World (RRrecently_seen w) (Rrrecently_seen w) (ports w) (myids w) (send_wq w) (pkt_brk w) (seed w)
    (dead w) (out w ++ effs).

Lemma add_out_nil w : add_out [] w = w.
Proof. destruct w. unfold add_out. cbn. by rewrite app_nil_r. Qed.

Lemma add_out_app e1 e2 w : add_out e2 (add_out e1 w) = add_out (e1 ++ e2) w.
Proof. unfold add_out. cbn. by rewrite app_assoc. Qed.

Definition is_RR (e : effect) : bool :=
  match e with Send _ bs => type_field bs =? RR | Close _ => false end.

Definition no_RR effs : Prop := Forall (λ e, is_RR e = false) effs.

(** The host has sent no request and remembers what it did. *)
Record quiet w w' : Prop := {
  q_RR : RRrecently_seen w' = RRrecently_seen w;
  q_Rr : Rrrecently_seen w' = Rrrecently_seen w;
  q_ports : ports w' = ports w;
  q_queue : Forall (λ e, pkt_type e.2 = DATA) (send_wq w) → Forall (λ e, pkt_type e.2 = DATA) (send_wq w');
  q_out : ∃ effs, out w' = out w ++ effs ∧ no_RR effs;
}.

Lemma quiet_refl w : quiet w w.
Proof. split; try done. exists []. rewrite app_nil_r. by split; [| constructor]. Qed.

Lemma quiet_trans w1 w2 w3 : quiet w1 w2 → quiet w2 w3 → quiet w1 w3.
Proof.
  intros [H1 H2 H3 H4 (e1 & H5 & H6)] [G1 G2 G3 G4 (e2 & G5 & G6)].
  split; [congruence .. | auto |]. exists (e1 ++ e2). rewrite G5, H5, app_assoc. split; [done |].
  by apply Forall_app.
Qed.

Lemma send_real_Ok w s p w' n :
  dump_send_real w s p = Ok (w', n) → w' = add_out [Send s (packet_bytes p)] w ∧ 0 ≤ n ∧ s ∉ dead w.
Proof.
  unfold dump_send_real. intros H. apply bind_Ok in H as (_ & _ & H).
  case_bool_decide as Hd; [done |]. ok_inv. split; [done |]. split; [lia | done].
Qed.

Lemma send_quiet w s p w' n :
  pkt_type p = Rr ∨ pkt_type p = DATA → dump_send_real w s p = Ok (w', n) → quiet w w'.
Proof.
  intros Hp [-> _]%send_real_Ok. split; try done. exists [Send s (packet_bytes p)]. split; [done |].
  constructor; [| done]. cbn [is_RR]. rewrite type_field_packet. by destruct Hp as [-> | ->].
Qed.

Section hosts.
Variable rand : Z → Z * Z.

Lemma packet_id_quiet w id w' id' : packet_id rand w id = (w', id') → quiet w w'.
Proof.
  unfold packet_id, dump_mk_pkt_id. destruct (rand (seed w)). destruct (id =? 0); intros [= <- <-].
  - split; try done. exists []. rewrite app_nil_r. by split; [| constructor].
  - apply quiet_refl.
Qed.

Lemma send_Rr_quiet w src dst path s id w' n :
  dump_send_Rr rand w src dst path s id = Ok (w', n) → quiet w w'.
Proof.
  unfold dump_send_Rr. destruct (packet_id rand w id) as [w1 id'] eqn:E. apply packet_id_quiet in E.
  intros H. eapply quiet_trans; [exact E |]. repeat ok_step; [apply quiet_refl |].
  eapply send_quiet; [| exact H]. by left.
Qed.

Lemma lookup_queue_in q freed dst (p : Z) pkt : lookup_queue q freed dst = Ok (Some (p, pkt)) → (p, pkt) ∈ q.
Proof.
  induction q as [| [p' pkt'] q IH]; cbn; [done |]. case_bool_decide; [done |]. destruct (_ =? _).
  - intros [= -> ->]. by left.
  - right. auto.
Qed.

Lemma send_waiting_quiet fuel freed w pkt w' :
  Forall (λ e, pkt_type e.2 = DATA) (send_wq w) → send_waiting fuel freed w pkt = Ok w' → quiet w w'.
Proof.
  revert freed w. induction fuel as [| fuel IH]; intros freed w Hq H; [done |]. cbn [send_waiting] in H.
  apply bind_Ok in H as ([[p spkt] |] & Hl & H); [| ok_inv; apply quiet_refl].
  apply bind_Ok in H as (hop & _ & H). apply bind_Ok in H as (s & _ & H).
  destruct (s =? 0); [done |]. apply bind_Ok in H as ([w1 n] & Hs & H).
  assert (pkt_type spkt = DATA) as Ht.
  { apply lookup_queue_in in Hl. rewrite Forall_forall in Hq. by apply (Hq (p, spkt)). }
  apply send_quiet in Hs; [| by right]. pose proof (q_queue _ _ Hs Hq) as Hq1.
  eapply quiet_trans; [exact Hs |]. by eapply IH.
Qed.

Lemma forward_DATA_quiet w pkt beyond i w' r :
  pkt_type pkt = DATA → forward_DATA w pkt beyond i = Ok (w', r) → quiet w w'.
Proof.
  intros Ht. induction i as [| i IH]; cbn [forward_DATA]; intros H; repeat ok_step;
    try apply quiet_refl; try (by apply IH); by eapply send_quiet; eauto.
Qed.

(** Requests go out with the number of the one received. *)
Lemma forward_RR_Ok w pkt prev l w' r :
  0 < pkt_id pkt < 2 ^ 32 → forward_RR rand w pkt prev l = Ok (w', r) →
  ∃ effs, w' = add_out effs w ∧ (length effs ≤ length l)%nat ∧
    Forall (λ e, ∃ s bs, e = Send s bs ∧ type_field bs = RR ∧ id_field bs = pkt_id pkt) effs.
Proof.
  intros Hid. revert w. induction l as [| [k d] l IH]; intros w H; cbn [forward_RR] in H.
  { ok_inv. exists []. by rewrite add_out_nil. }
  case_bool_decide; cycle 1.
  { destruct (IH _ H) as (effs & ? & ? & ?). exists effs. cbn. split_and!; [done | lia | done]. }
  apply bind_Ok in H as (my & _ & H). apply bind_Ok in H as ([w1 n] & Hs & H).
  unfold dump_send_RR, packet_id in Hs. rewrite (proj2 (Z.eqb_neq _ _)) in Hs by lia.
  apply send_real_Ok in Hs as (-> & Hn & _). rewrite (proj2 (Z.ltb_ge _ _)) in H by lia.
  destruct (IH _ H) as (effs & -> & Hl & Hall). eexists (_ :: effs).
  rewrite add_out_app. split; [done |]. split; [cbn; lia |]. constructor; [| done].
  eexists _, _. split; [done |]. rewrite type_field_packet. split; [done |].
  rewrite (proj2 (id_field_packet _)). cbn [pkt_id]. apply of_be32. lia.
Qed.


(** ** One delivery *)

Definition flush w : dump_world_t :=
  World (RRrecently_seen w) (Rrrecently_seen w) (ports w) (myids w) (send_wq w) (pkt_brk w) (seed w)
    (dead w) [].

(** Neighbours [P], requests [m] and replies [m2] seen since [T0]. *)
Record host_ok (T0 : Z) w (P m m2 : gmap string Z) : Prop := {
  ho_ports : Repr (ports w) P;
  ho_RR : Repr (RRrecently_seen w) m;
  ho_Rr : Repr (Rrrecently_seen w) m2;
  ho_date : map_Forall (λ _ d, T0 ≤ d) m;
  ho_date2 : map_Forall (λ _ d, T0 ≤ d) m2;
  ho_queue : Forall (λ e, pkt_type e.2 = DATA) (send_wq w);
}.

Lemma host_quiet T0 w w' P m m2 : quiet w w' → host_ok T0 w P m m2 → host_ok T0 w' P m m2.
Proof. intros [H1 H2 H3 H4 _] []. split; rewrite ?H1, ?H2, ?H3; auto. Qed.

Lemma host_flush T0 w P m m2 : host_ok T0 w P m m2 → host_ok T0 (flush w) P m m2.
Proof. intros []. by split. Qed.

Lemma recent_since T0 now (m : gmap string Z) :
  map_Forall (λ _ d, T0 ≤ d) m → T0 ≤ now ≤ T0 + DUMP_RS_LIMIT → recent now m.
Proof.
  intros Hm Hn k d Hd. specialize (Hm k d Hd). cbn in Hm. unfold expired. apply Z.ltb_ge. lia.
Qed.

Definition count_RR effs : nat := length (List.filter is_RR effs).

Lemma no_RR_count effs : no_RR effs → List.filter is_RR effs = [].
Proof. induction 1 as [| e effs He _ IH]; [done |]. cbn. by rewrite He. Qed.

(** A request that is new goes out at most once to every neighbour; any other message
    makes no request go out. *)
Record delivered T0 (now : Z) bs w' (P m m2 P' m' m2' : gmap string Z) : Prop := {
  dl_ok : host_ok T0 w' P' m' m2';
  dl_ports : (base.size P' ≤ base.size P)%nat;
  dl_seen : (m' = m ∧ no_RR (out w')) ∨
    (type_field bs = RR ∧ m !! id_str (id_field bs) = None ∧ m' = <[id_str (id_field bs) := now]> m ∧
     (count_RR (out w') ≤ base.size P)%nat ∧
     Forall (λ e, ∀ s b, e = Send s b → type_field b = RR → id_field b = id_field bs) (out w'));
}.

Lemma delivered_quiet T0 now bs w w' P m m2 :
  host_ok T0 w P m m2 → out w = [] → quiet w w' → delivered T0 now bs w' P m m2 P m m2.
Proof.
  intros Hok Ho Hq. split; [by eapply host_quiet | done |]. left. split; [done |].
  destruct (q_out _ _ Hq) as (effs & -> & He). by rewrite Ho.
Qed.

Lemma entries_length {V} (h : hash_t V) m l : Repr h m → entries h = Some l → length l = base.size m.
Proof.
  intros HR Hl. destruct (entries_Repr _ _ HR) as (l' & Hl' & Hp). simplify_eq.
  by rewrite Hp, length_fmap, length_map_to_list.
Qed.

Lemma receive_RR_delivered T0 now w pkt w' r bs P m m2 :
  host_ok T0 w P m m2 → out w = [] → T0 ≤ now → type_field bs = RR → id_field bs = pkt_id pkt →
  0 < pkt_id pkt < 2 ^ 32 → dump_receive_RR rand w now pkt = Ok (w', r) →
  ∃ m', delivered T0 now bs w' P m m2 P m' m2.
Proof.
  intros Hok Ho Hnow Hty Hb Hid H. unfold dump_receive_RR, dump_lookup_RR_recently_seen in H.
  rewrite (hash_get_Repr _ _ _ (ho_RR _ _ _ _ _ Hok)) in H. cbn in H.
  case_bool_decide as Hseen.
  { ok_inv. exists m. eapply delivered_quiet; eauto using quiet_refl. }
  rewrite <-eq_None_not_Some in Hseen. exists (<[id_str (pkt_id pkt) := now]> m).
  unfold dump_add_RR_recently_seen in H.
  destruct (hash_add_to_Repr _ m (id_str (pkt_id pkt)) now (ho_RR _ _ _ _ _ Hok)) as (h & n & Hadd & HR & _).
  rewrite Hadd in H. cbn in H. set (w1 := set_RRseen h w) in *.
  assert (host_ok T0 w1 P (<[id_str (pkt_id pkt) := now]> m) m2) as Hok1.
  { destruct Hok. split; try done. apply map_Forall_insert_2; [lia | done]. }
  destruct (last (pkt_path pkt)) as [prev |].
  2: { ok_inv. split; [done.. |]. right. change (out w1) with (out w). rewrite Hb, Ho. split_and!; try done. cbn. lia. }
  apply bind_Ok in H as (mine & _ & H). destruct mine.
  - apply bind_Ok in H as (s & _ & H). apply bind_Ok in H as (my & _ & H).
    apply bind_Ok in H as ([w2 n'] & Hs & H). ok_inv. apply send_Rr_quiet in Hs.
    destruct (q_out _ _ Hs) as (effs & Heff & Hno). split; [by eapply host_quiet | done |].
    right. change (out w1) with (out w) in Heff. rewrite Ho in Heff. cbn in Heff. rewrite Hb, Heff.
    split_and!; try done.
    + unfold count_RR. rewrite no_RR_count by done. cbn. lia.
    + eapply Forall_impl; [exact Hno |]. intros e He s' b -> Ht. cbn in He. by rewrite Ht in He.
  - apply bind_Ok in H as (l & Hl & H). apply lift_Ok in Hl.
    destruct (forward_RR_Ok _ _ _ _ _ _ Hid H) as (effs & -> & Hlen & Hall).
    assert (length l = base.size P) as Hsz by (apply (entries_length (ports w)); [apply Hok | done]).
    split; [by destruct Hok1 | done |]. right.
    assert (out (add_out effs w1) = effs) as -> by (cbn; by rewrite Ho). rewrite Hb. split_and!; try done.
    + unfold count_RR. pose proof (List.filter_length_le is_RR effs). lia.
    + eapply Forall_impl; [exact Hall |]. by intros e (s & b & -> & _ & Hi) s' b' [= -> ->].
Qed.

Lemma receive_Rr_delivered T0 now w pkt w' r bs P m m2 :
  host_ok T0 w P m m2 → out w = [] → T0 ≤ now → dump_receive_Rr rand w now pkt = Ok (w', r) →
  ∃ m2', delivered T0 now bs w' P m m2 P m m2'.
Proof.
  intros Hok Ho Hnow H. unfold dump_receive_Rr, dump_lookup_Rr_recently_seen in H.
  rewrite (hash_get_Repr _ _ _ (ho_RR _ _ _ _ _ Hok)) in H. cbn [lift mbind result_bind] in H.
  case_bool_decide as Hseen.
  { ok_inv. exists m2. eapply delivered_quiet; eauto using quiet_refl. }
  exists (<[id_str (pkt_id pkt) := now]> m2). unfold dump_add_Rr_recently_seen in H.
  destruct (hash_add_to_Repr _ m2 (id_str (pkt_id pkt)) now (ho_Rr _ _ _ _ _ Hok)) as (h & n & Hadd & HR & _).
  rewrite Hadd in H. cbn [lift mbind result_bind] in H. set (w1 := set_Rrseen h w) in *.
  assert (host_ok T0 w1 P m (<[id_str (pkt_id pkt) := now]> m2)) as Hok1.
  { destruct Hok. split; try done. apply map_Forall_insert_2; [lia | done]. }
  assert (quiet w1 w' → delivered T0 now bs w' P m m2 P m (<[id_str (pkt_id pkt) := now]> m2)) as Hd.
  { intros Hq. pose proof (delivered_quiet T0 now bs w1 w' _ _ _ Hok1 Ho Hq) as []. by split. }
  apply Hd. clear Hd. destruct (pkt_path pkt); [ok_inv; apply quiet_refl |].
  apply bind_Ok in H as (mine & _ & H). destruct mine.
  - apply bind_Ok in H as (w2 & Hw & H). injection H as <- _.
    eapply send_waiting_quiet; [exact (ho_queue _ _ _ _ _ Hok1) | exact Hw].
  - apply bind_Ok in H as ([[| i] |] & _ & H); [ok_inv; apply quiet_refl | | ok_inv; apply quiet_refl].
    apply bind_Ok in H as (hop & _ & H). apply bind_Ok in H as (s & _ & H).
    apply bind_Ok in H as (my & _ & H). apply bind_Ok in H as ([w2 n'] & Hs & H). ok_inv.
    by eapply send_Rr_quiet.
Qed.

Lemma disconnect_delivered T0 now w s w' r bs P m m2 :
  host_ok T0 w P m m2 → out w = [] → dump_disconnect w s = Ok (w', r) →
  ∃ P', delivered T0 now bs w' P m m2 P' m m2.
Proof.
  intros Hok Ho H. unfold dump_disconnect in H. apply bind_Ok in H as (l & _ & H).
  destruct (port_of s l) as [k |]; [| ok_inv; exists P; eapply delivered_quiet; eauto using quiet_refl].
  apply bind_Ok in H as (w1 & Hw & H). unfold dump_del_myid in Hw. ok_inv. exists (delete k P).
  match goal with Hp : hash_del (ports _) k = Some _ |- _ =>
    destruct (hash_del_Repr _ _ k (ho_ports _ _ _ _ _ Hok)) as (h' & Hd & HR & _);
    cbn in Hp; rewrite Hd in Hp; simplify_eq end.
  split; [by destruct Hok | |].
  - rewrite map_size_delete. destruct (P !! k); [apply Nat.le_pred_l | done].
  - left. split; [done |]. cbn. rewrite Ho. by constructor.
Qed.

Lemma cb_delivered T0 now w s bs beyond w' evs ret P m m2 :
  host_ok T0 w P m m2 → out w = [] → T0 ≤ now ≤ T0 + DUMP_RS_LIMIT →
  (type_field bs = RR → 0 < id_field bs < 2 ^ 32) →
  dump_receive_cb rand w s [Rx bs] now beyond = Ok (w', evs, ret) →
  ∃ P' m' m2', delivered T0 now bs w' P m m2 P' m' m2'.
Proof.
  intros Hok Ho Hnow Hid H. unfold dump_receive_cb, dump_clean_recently_seen in H.
  rewrite (clean_table_recent now _ m (ho_RR _ _ _ _ _ Hok)) in H
    by exact (recent_since _ _ _ (ho_date _ _ _ _ _ Hok) Hnow).
  cbn [mbind result_bind] in H. rewrite (clean_table_recent now _ m2 (ho_Rr _ _ _ _ _ Hok)) in H
    by exact (recent_since _ _ _ (ho_date2 _ _ _ _ _ Hok) Hnow).
  cbn [mbind result_bind] in H.
  assert (set_Rrseen (Rrrecently_seen w) (set_RRseen (RRrecently_seen w) w) = w) as Hw by (by destruct w).
  rewrite Hw in H. apply bind_Ok in H as ([[pkt evs'] |] & Hr & H).
  2: { apply bind_Ok in H as ([w1 n] & Hd & H). ok_inv.
       destruct (disconnect_delivered T0 now w s w' n bs P m m2) as [P' ?]; eauto. }
  destruct (recv_fields _ _ _ Hr) as [Ht Hi]. rewrite Ht in H.
  destruct (type_field bs =? RR) eqn:E1.
  { apply Z.eqb_eq in E1. apply bind_Ok in H as ([w1 n] & Hd & H). ok_inv.
    destruct (receive_RR_delivered T0 now w pkt w' n bs P m m2) as [m' ?]; eauto; [lia | rewrite Hi; auto]. }
  destruct (type_field bs =? Rr).
  { apply bind_Ok in H as ([w1 n] & Hd & H). ok_inv.
    destruct (receive_Rr_delivered T0 now w pkt w' n bs P m m2) as [m2' ?]; eauto; lia. }
  destruct (type_field bs =? DATA) eqn:E3; [| done]. apply Z.eqb_eq in E3.
  apply bind_Ok in H as ([w1 r] & Hd & H). ok_inv. exists P, m, m2.
  eapply delivered_quiet; [done.. |]. unfold dump_receive_DATA in Hd.
  destruct (pkt_path pkt); [ok_inv; apply quiet_refl |].
  apply bind_Ok in Hd as (mine & _ & Hd). destruct mine; [ok_inv; apply quiet_refl |].
  eapply forward_DATA_quiet; [by rewrite Ht | exact Hd].
Qed.

End hosts.

(** ** The network

    A message in flight goes with the host and the socket that will receive it; it is
    delivered whole, in any order.  [peer] is the other end of a connection. *)
Record net := Net { hosts : gmap Z dump_world_t; wire : list (Z * Z * list Z) }.

Section network.
Variable rand : Z → Z * Z.
Variable peer : Z → Z → option (Z * Z).

Definition post (n : Z) (e : effect) : option (Z * Z * list Z) :=
  match e with Send s bs => '(n', s') ← peer n s; Some (n', s', bs) | Close _ => None end.
Definition posts (n : Z) effs : list (Z * Z * list Z) := omap (post n) effs.

Definition requests (l : list (Z * Z * list Z)) : nat :=
  length (List.filter (λ x, type_field x.2 =? RR) l).

(** One delivery at time [now]; a host that exits is gone. *)
Inductive deliver (now : Z) : net → Z * Z * list Z → net → Prop :=
| deliver_ok N n s bs l1 l2 w beyond w' evs ret :
    wire N = l1 ++ (n, s, bs) :: l2 → hosts N !! n = Some w →
    dump_receive_cb rand w s [Rx bs] now beyond = Ok (w', evs, ret) →
    deliver now N (n, s, bs) (Net (<[n := flush w']> (hosts N)) (l1 ++ l2 ++ posts n (out w')))
| deliver_exit N n s bs l1 l2 w beyond :
    wire N = l1 ++ (n, s, bs) :: l2 → hosts N !! n = Some w →
    dump_receive_cb rand w s [Rx bs] now beyond = Exit →
    deliver now N (n, s, bs) (Net (delete n (hosts N)) (l1 ++ l2)).

(** Deliveries from [T0] on, within the time a host remembers what it saw. *)
Inductive run (T0 : Z) : net → list (Z * Z * list Z) → net → Prop :=
| run_nil N : run T0 N [] N
| run_cons N x N1 tr N2 now :
    T0 ≤ now ≤ T0 + DUMP_RS_LIMIT → deliver now N x N1 → run T0 N1 tr N2 → run T0 N (x :: tr) N2.

(** What is left to flood: for every host and every number it has not seen, its
    neighbours; and the requests in flight. *)
Definition unseen (K : list Z) w : nat :=
  length (List.filter (λ id, match hash_get (RRrecently_seen w) (id_str id) with
                             | Some None => true | _ => false end) K).
Definition degree w : nat := Z.to_nat (elmnbr (ports w)).
Definition load (K : list Z) (x : Z * dump_world_t) : nat := degree x.2 * unseen K x.2.
Definition budget (K : list Z) N : nat := sum_list_with (load K) (map_to_list (hosts N)) + requests (wire N).

(** Hosts in a good state, and the numbers of the requests in flight, none 0. *)
Record net_ok (T0 : Z) (K : list Z) N : Prop := {
  no_hosts : map_Forall (λ _ w, out w = [] ∧ ∃ P m m2, host_ok T0 w P m m2) (hosts N);
  no_wire : Forall (λ x, type_field x.2 = RR → id_field x.2 ∈ K) (wire N);
  no_ids : Forall (λ id, 0 < id < 2 ^ 32) K;
}.

Lemma unseen_ok K T0 w P m m2 :
  host_ok T0 w P m m2 →
  unseen K w = length (List.filter (λ id, bool_decide (m !! id_str id = None)) K).
Proof.
  intros Hok. unfold unseen. f_equal. apply List.filter_ext. intros id.
  rewrite (hash_get_Repr _ _ _ (ho_RR _ _ _ _ _ Hok)). by destruct (m !! id_str id).
Qed.

Lemma degree_ok T0 w P m m2 : host_ok T0 w P m m2 → degree w = base.size P.
Proof. intros Hok. unfold degree. rewrite (Repr_elmnbr _ _ (ho_ports _ _ _ _ _ Hok)). lia. Qed.

Lemma unseen_new K (m : gmap string Z) id v :
  id ∈ K → m !! id_str id = None →
  (length (List.filter (λ i, bool_decide (<[id_str id := v]> m !! id_str i = None)) K) <
   length (List.filter (λ i, bool_decide (m !! id_str i = None)) K))%nat.
Proof.
  intros Hin Hid. apply (filter_imp_lt _ _ _ id); [| done | |].
  - intros i Hi. apply bool_decide_eq_true in Hi. apply lookup_insert_None in Hi as [Hi _].
    by apply bool_decide_eq_true.
  - by rewrite bool_decide_false by (by rewrite lookup_insert_eq).
  - by rewrite bool_decide_true.
Qed.

Lemma requests_app l1 l2 : requests (l1 ++ l2) = (requests l1 + requests l2)%nat.
Proof. unfold requests. by rewrite List.filter_app, length_app. Qed.

Lemma requests_posts n effs : (requests (posts n effs) ≤ count_RR effs)%nat.
Proof.
  unfold requests, posts, count_RR. induction effs as [| [s bs | s] effs IH]; [done | | done].
  cbn. destruct (peer n s) as [[n' s'] |]; cbn; destruct (type_field bs =? RR); cbn; lia.
Qed.

Lemma sum_insert (f : Z * dump_world_t → nat) (h : gmap Z dump_world_t) n w w' :
  h !! n = Some w →
  (sum_list_with f (map_to_list (<[n := w']> h)) + f (n, w) = sum_list_with f (map_to_list h) + f (n, w'))%nat.
Proof.
  intros Hn. rewrite <-(insert_delete_id h n w) at 2 by done. rewrite <-insert_delete_eq.
  rewrite !map_to_list_insert by apply lookup_delete_eq. cbn. lia.
Qed.

Lemma sum_delete (f : Z * dump_world_t → nat) (h : gmap Z dump_world_t) n w :
  h !! n = Some w →
  (sum_list_with f (map_to_list (delete n h)) + f (n, w) = sum_list_with f (map_to_list h))%nat.
Proof.
  intros Hn. rewrite <-(insert_delete_id h n w) at 2 by done.
  rewrite !map_to_list_insert by apply lookup_delete_eq. cbn. lia.
Qed.

Lemma deliver_budget T0 K now N x N' :
  net_ok T0 K N → T0 ≤ now ≤ T0 + DUMP_RS_LIMIT → deliver now N x N' →
  net_ok T0 K N' ∧ (requests [x] + budget K N' ≤ budget K N)%nat.
Proof.
  intros Hnet Hnow Hd.
  destruct Hd as [N0 n s bs l1 l2 w beyond w' evs ret HN Hn Hcb | N0 n s bs l1 l2 w beyond HN Hn Hcb].
  all: destruct Hnet as [Hh Hw HK].
  all: destruct (Hh n w Hn) as (Ho & P & m & m2 & Hok); rewrite HN in Hw.
  all: apply Forall_app in Hw as [Hw1 [Hid Hw2]%Forall_cons]; cbn in Hid.
  all: unfold budget; rewrite HN; cbn [hosts wire]; rewrite !requests_app.
  all: assert (requests ((n, s, bs) :: l2) = requests [(n, s, bs)] + requests l2)%nat as ->
         by apply (requests_app [_]).
  - destruct (cb_delivered rand T0 now w s bs beyond w' evs ret P m m2) as (P' & m' & m2' & [Hok' Hsz Hseen]);
      try done.
    { intros Ht. rewrite Forall_forall in HK. by apply HK, Hid. }
    split.
    + split; [| | done].
      * cbn. apply map_Forall_insert_2; [| done]. split; [done |]. exists P', m', m2'. by apply host_flush.
      * cbn. rewrite !Forall_app. split_and!; [done.. |].
        apply Forall_forall. intros [[n' s'] b] Hin Ht. cbn in Ht.
        apply list_elem_of_omap in Hin as ([s0 b0 | s0] & Hin & Hp); [| done]. cbn in Hp.
        destruct (peer n s0) as [[n0 s1] |]; simplify_eq/=.
        destruct Hseen as [[_ Hno] | (Ht' & _ & _ & _ & Hall)].
        { unfold no_RR in Hno. rewrite Forall_forall in Hno. specialize (Hno _ Hin). cbn in Hno.
          apply Z.eqb_neq in Hno. congruence. }
        rewrite Forall_forall in Hall. rewrite (Hall _ Hin s0 b) by done. auto.
    + pose proof (sum_insert (load K) (hosts N0) n w (flush w') Hn) as Hsum.
      pose proof (requests_posts n (out w')) as Hp.
      unfold load in Hsum at 2 4. cbn [snd] in Hsum.
      rewrite (degree_ok _ _ _ _ _ Hok), (unseen_ok K _ _ _ _ _ Hok) in Hsum.
      apply host_flush in Hok'.
      rewrite (degree_ok _ _ _ _ _ Hok'), (unseen_ok K _ _ _ _ _ Hok') in Hsum.
      destruct Hseen as [[-> Hno] | (Ht & Hm & -> & Hc & _)].
      * unfold count_RR in Hp. rewrite (no_RR_count _ Hno) in Hp. cbn in Hp. nia.
      * pose proof (unseen_new K m (id_field bs) now (Hid Ht) Hm). nia.
  - split.
    + split; [| | done]; [by apply map_Forall_delete | by apply Forall_app].
    + pose proof (sum_delete (load K) (hosts N0) n w Hn). lia.
Qed.

(** C15. The flood of a request ends.  Within the time the hosts remember what they saw, in
    any order of the deliveries and whatever else is in flight, at most as many requests
    are delivered as there are requests in flight and pairs of a neighbour and a number its
    host has not seen. *)
Theorem flood_ends T0 K N tr N' :
  net_ok T0 K N → run T0 N tr N' →
  net_ok T0 K N' ∧ (requests tr + budget K N' ≤ budget K N)%nat.
Proof.
  intros Hok Hrun. induction Hrun as [N | N x N1 tr N2 now Hnow Hd Hrun IH]; [done |].
  destruct (deliver_budget T0 K now N x N1 Hok Hnow Hd) as [Hok1 Hb]. destruct (IH Hok1) as [? Hb'].
  split; [done |]. assert (requests (x :: tr) = requests [x] + requests tr)%nat as -> by apply (requests_app [x]).
  lia.
Qed.

End network.

(** ** A host with two neighbours *)

Definition demo_rand (z : Z) : Z * Z := (z, z + 2).
Definition addr (a b c d : Z) : Z := ((a * 256 + b) * 256 + c) * 256 + d.
Definition or_init (r : result dump_world_t) : dump_world_t := match r with Ok w => w | _ => dump_init 7 end.

Definition demo_host : dump_world_t :=
  or_init (w ← dump_add_neighbor (dump_init 7) 3 (addr 10 0 0 1);
           w ← dump_add_myid w (addr 10 0 0 2) 3;
           w ← dump_add_neighbor w 4 (addr 10 0 1 3);
           dump_add_myid w (addr 10 0 1 2) 4).
Definition demo_P : gmap string Z := <["10.0.1.3" := 4]> (<["10.0.0.1" := 3]> ∅).
Definition demo_request : pkt_t := Pkt (addr 10 0 0 1) (addr 10 0 7 7) 5 RR 0 [addr 10 0 0 1] [].
Definition demo_net : net := Net {[2 := demo_host]} [(2, 3, packet_bytes demo_request)].
Definition demo_peer (n s : Z) : option (Z * Z) := if s =? 3 then Some (1, 8) else Some (3, 9).

Lemma demo_host_ok T0 : host_ok T0 demo_host demo_P ∅ ∅.
Proof.
  assert (Repr (V := Z) (hash_create "dump_ports" HASHTABLE_SIZE 0) ∅) as H0 by by apply hash_create_Repr.
  destruct (hash_add_to_Repr _ _ "10.0.0.1" 3 H0) as (h1 & r1 & E1 & H1 & _).
  destruct (hash_add_to_Repr _ _ "10.0.1.3" 4 H1) as (h2 & r2 & E2 & H2 & _).
  vm_compute in E1. simplify_eq. vm_compute in E2. simplify_eq.
  split; [exact H2 | by apply hash_create_Repr | by apply hash_create_Repr | done | done | by vm_compute].
Qed.

Lemma flood_ends_witness :
  ∃ N', run demo_rand demo_peer 100 demo_net (wire demo_net) N' ∧ requests (wire demo_net) = 1%nat ∧
    (requests (wire demo_net) + budget [5%Z] N' ≤ budget [5%Z] demo_net)%nat ∧ requests (wire N') = 1%nat.
Proof.
  eexists. split; [| split; [done |]].
  { eapply (run_cons _ _ _ _ _ _ _ _ 100); [done | | apply run_nil].
    eapply (deliver_ok _ _ _ _ 2 3 _ [] [] _ 0); [done | done |]. vm_compute. reflexivity. }
  split; [| by vm_compute].
  eapply (flood_ends demo_rand demo_peer 100 [5] demo_net (wire demo_net)).
  - split.
    + apply map_Forall_singleton. split; [done |]. eexists _, _, _. apply demo_host_ok.
    + repeat constructor.
    + repeat constructor.
  - eapply (run_cons _ _ _ _ _ _ _ _ 100); [done | | apply run_nil].
    eapply (deliver_ok _ _ _ _ 2 3 _ [] [] _ 0); [done | done |]. vm_compute. reflexivity.
Defined.
