(* ===== verification/DumpRouteSpec.v ===== *)
(** * libdump: the packets that wait for a route, and the reply that brings it (Dump.v) *)
From S2P Require Import Prelude.
From S2P Require Import Hash.
From S2P Require Import HashSpec.
From S2P Require Import Dump.
From S2P Require Import DumpSpec.
From S2P Require Import DumpFloodSpec.

Implicit Types (bs : list Z) (p : pkt_t) (w : dump_world_t) (effs : list effect) (n : Z).

(** ** Waiting packets *)

Definition to_dst (dst : Z) (e : Z * pkt_t) : bool := pkt_dst e.2 =? dst.

Definition small p : Prop := Z.of_nat (length (packet_bytes p)) < 2 ^ 31.

Lemma send_real_total w s p :
  small p → s ∉ dead w →
  dump_send_real w s p = Ok (add_out [Send s (packet_bytes p)] w, Z.of_nat (length (packet_bytes p))).
Proof.
  intros Hp Hs. unfold dump_send_real. rewrite (proj2 (Z.ltb_lt _ _)) by done. cbn.
  by rewrite bool_decide_false.
Qed.

Lemma lookup_queue_spec dst (q : list (Z * pkt_t)) :
  match List.filter (to_dst dst) q with
  | [] => lookup_queue q [] dst = Ok None
  | e :: _ => lookup_queue q [] dst = Ok (Some e) ∧ lookup_queue q [e.1] dst = Undef
  end.
Proof.
  induction q as [| [a p] q IH]; [done |]. cbn [List.filter lookup_queue].
  change (to_dst dst (a, p)) with (pkt_dst p =? dst). rewrite bool_decide_false by apply not_elem_of_nil.
  destruct (pkt_dst p =? dst) eqn:E.
  - split; [done |]. cbn. by rewrite bool_decide_true by by left.
  - destruct (List.filter (to_dst dst) q) as [| e q']; [done |]. destruct IH as [-> IH]. split; [done |].
    by case_bool_decide.
Qed.

Lemma unlink_queue_spec (q1 q2 : list (Z * pkt_t)) e :
  NoDup (q1 ++ e :: q2).*1 → unlink_queue (q1 ++ e :: q2) e.1 = q1 ++ q2.
Proof.
  induction q1 as [| e1 q1 IH]; cbn; intros Hnd; [by rewrite Z.eqb_refl |].
  apply NoDup_cons in Hnd as [Hnot Hnd]. rewrite (proj2 (Z.eqb_neq _ _)).
  - by rewrite IH.
  - intros Heq. apply Hnot. rewrite fmap_app, fmap_cons, Heq. apply elem_of_app. right. by left.
Qed.

(** [dump_del_send_queue] takes the packet off from the third place on, but at the second
    place it loses the head with it. *)
Lemma del_queue_third e1 e2 q1 e q2 :
  NoDup (e1 :: e2 :: q1 ++ e :: q2).*1 → del_queue (e1 :: e2 :: q1 ++ e :: q2) e.1 = e1 :: e2 :: q1 ++ q2.
Proof.
  intros [H1 [H2 Hnd]%NoDup_cons]%NoDup_cons. cbn [fmap list_fmap] in *.
  assert (e.1 ∈ (q1 ++ e :: q2).*1) as Hin.
  { rewrite fmap_app, fmap_cons. apply elem_of_app. right. by left. }
  unfold del_queue. rewrite (proj2 (Z.eqb_neq e1.1 e.1)), (proj2 (Z.eqb_neq e2.1 e.1)).
  - by rewrite unlink_queue_spec.
  - by intros Heq; rewrite Heq in H2.
  - intros Heq. apply H1. rewrite Heq. by right.
Qed.

Lemma del_queue_second e1 e2 q : NoDup (e1 :: e2 :: q).*1 → del_queue (e1 :: e2 :: q) e2.1 = q.
Proof.
  intros [H1 _]%NoDup_cons. cbn. rewrite (proj2 (Z.eqb_neq _ _)), Z.eqb_refl; [done |].
  intros Heq. apply H1. cbn. rewrite Heq. by left.
Qed.

Lemma send_real_queue w s p w' n : dump_send_real w s p = Ok (w', n) → send_wq w' = send_wq w.
Proof.
  unfold dump_send_real. generalize (packet_bytes p). intros bs.
  destruct (guard_ub _); [| discriminate]. cbn [lift mbind result_bind].
  case_bool_decide; [discriminate |]. intros Hs. injection Hs as <- _. reflexivity.
Qed.

Section route.
Context (P : gmap string Z).

(** Where a packet with the path goes: the neighbour at its second address. *)
Definition second_hop (path : list Z) : option Z :=
  match path with _ :: hop :: _ => Some (default 0 (P !! inet_ntoa hop)) | _ => None end.

(** No packet waits for the source of the reply; or the first one is sent, freed and read
    again in the queue. *)
Lemma send_waiting_freed w pkt :
  Repr (ports w) P →
  send_waiting 2 [] w pkt =
    match List.filter (to_dst (pkt_src pkt)) (send_wq w) with
    | [] => Ok w
    | (_, spkt) :: _ =>
        match second_hop (pkt_path pkt) with
        | Some s => if s =? 0 then Exit
                    else '(_, _) ← dump_send_real w s (with_path (pkt_path pkt) spkt); Undef
        | None => Undef
        end
    end.
Proof.
  intros HR. cbn [send_waiting]. unfold dump_lookup_send_queue.
  pose proof (lookup_queue_spec (pkt_src pkt) (send_wq w)) as Hlk.
  destruct (List.filter (to_dst (pkt_src pkt)) (send_wq w)) as [| [a spkt] q]; [by rewrite Hlk |].
  destruct Hlk as [-> Hfreed]. cbn [mbind result_bind fst] in *. unfold second_hop.
  destruct (pkt_path pkt) as [| x [| hop path]] eqn:Hp; [done | done |].
  assert ((x :: hop :: path) !! 1%nat = Some hop) as -> by done. cbn [lift mbind result_bind].
  rewrite (lookup_neighbor_spec P) by done. cbn [mbind result_bind].
  destruct (default 0 (P !! inet_ntoa hop) =? 0); [done |]. fold (with_path (x :: hop :: path) spkt).
  destruct (dump_send_real w _ _) as [[w' n] | |] eqn:Hs; [| done | done].
  cbn [mbind result_bind dump_del_send_queue].
  by rewrite (send_real_queue _ _ _ _ _ Hs), Hfreed.
Qed.

(** The reply has not been taken for a request, and is kept among the replies. *)
Lemma reply_begins (I : gmap string string) w now pkt m m2 :
  Repr (RRrecently_seen w) m → m !! id_str (pkt_id pkt) = None → Repr (Rrrecently_seen w) m2 →
  Repr (myids w) I →
  ∃ h, Repr h (<[id_str (pkt_id pkt) := now]> m2) ∧
    dump_lookup_Rr_recently_seen w (pkt_id pkt) = Ok false ∧
    dump_add_Rr_recently_seen w now (pkt_id pkt) = Ok (set_Rrseen h w) ∧
    ∀ a, dump_is_myid (set_Rrseen h w) a = Ok (bool_decide (mine I a)).
Proof.
  intros HR Hm HR2 HI.
  destruct (hash_add_to_Repr _ m2 (id_str (pkt_id pkt)) now HR2) as (h & n & Hadd & HR3 & _).
  exists h. split; [done |]. unfold dump_lookup_Rr_recently_seen, dump_add_Rr_recently_seen.
  rewrite (hash_get_Repr _ _ _ HR), Hm, Hadd. split_and!; [done | done |].
  intros a. by apply is_myid_spec.
Qed.

(** C16. A new reply for this host is remembered.  If no packet waits for its source nothing
    else happens: nothing is sent and the queue stays.  If one waits, the host exits when the
    second address of the path is not that of a neighbour; else the first packet that waits is
    sent to it, freed, and left in the queue, where the search for the next one reads it: the
    call is undefined, whatever else is in the queue. *)
Theorem reply_for_host rand (I : gmap string string) w now pkt m m2 :
  Repr (ports w) P → Repr (myids w) I → Repr (RRrecently_seen w) m → Repr (Rrrecently_seen w) m2 →
  m !! id_str (pkt_id pkt) = None → mine I (pkt_dst pkt) → pkt_path pkt ≠ [] →
  match List.filter (to_dst (pkt_src pkt)) (send_wq w) with
  | [] => ∃ w', dump_receive_Rr rand w now pkt = Ok (w', 0) ∧ out w' = out w ∧ send_wq w' = send_wq w ∧
            Repr (Rrrecently_seen w') (<[id_str (pkt_id pkt) := now]> m2)
  | (_, spkt) :: _ =>
      match second_hop (pkt_path pkt) with
      | None => dump_receive_Rr rand w now pkt = Undef
      | Some s => if s =? 0 then dump_receive_Rr rand w now pkt = Exit
                  else s ∉ dead w → dump_receive_Rr rand w now pkt = Undef
      end
  end.
Proof.
  intros HP HI HR HR2 Hm Hmine Hne. unfold dump_receive_Rr.
  destruct (reply_begins I w now pkt m m2 HR Hm HR2 HI) as (h & HRh & -> & -> & Hmy).
  cbn [mbind result_bind]. rewrite Hmy, bool_decide_true by done.
  destruct (pkt_path pkt) as [| a path] eqn:Hpath; [done |]. cbn [mbind result_bind].
  rewrite send_waiting_freed by done. rewrite Hpath. change (send_wq (set_Rrseen h w)) with (send_wq w).
  destruct (List.filter (to_dst (pkt_src pkt)) (send_wq w)) as [| [b spkt] q].
  - by eexists.
  - destruct (second_hop (a :: path)) as [s |]; [| done]. destruct (s =? 0); [done |]. intros Hdead.
    unfold dump_send_real. destruct (guard_ub _); [| done]. cbn [lift mbind result_bind].
    by rewrite bool_decide_false.
Qed.

End route.

(** ** The theorem at a concrete input *)

Definition demo_I : gmap string string := <["4" := "10.0.1.2"]> (<["3" := "10.0.0.2"]> ∅).
Definition waiting_packet (dst : Z) : pkt_t := Pkt (addr 10 0 0 2) dst 9 DATA 0 [] [1; 2].
Definition waiting_host : dump_world_t :=
  set_send_wq [(0, waiting_packet (addr 10 0 9 9)); (1, waiting_packet (addr 10 0 1 3))] 2 demo_host.
Definition demo_reply : pkt_t :=
  Pkt (addr 10 0 1 3) (addr 10 0 0 2) 8 Rr 0 [addr 10 0 0 2; addr 10 0 1 3] [].

Lemma demo_host_ids : Repr (myids demo_host) demo_I.
Proof.
  assert (Repr (V := string) (hash_create "dump_myids" HASHTABLE_SIZE 0) ∅) as H0 by by apply hash_create_Repr.
  destruct (hash_add_to_Repr _ _ "3" "10.0.0.2" H0) as (h1 & r1 & E1 & H1 & _).
  destruct (hash_add_to_Repr _ _ "4" "10.0.1.2" H1) as (h2 & r2 & E2 & H2 & _).
  vm_compute in E1. simplify_eq. vm_compute in E2. simplify_eq. exact H2.
Qed.

(** A reply nobody waits for, then one for which a packet waits. *)
Definition idle_host : dump_world_t :=
  set_send_wq [(0, waiting_packet (addr 10 0 9 9))] 2 demo_host.

Lemma reply_for_host_witness :
  (∃ w', dump_receive_Rr demo_rand idle_host 100 demo_reply = Ok (w', 0) ∧ out w' = [] ∧
     send_wq w' = send_wq idle_host) ∧
  dump_receive_Rr demo_rand waiting_host 100 demo_reply = Undef.
Proof.
  pose proof (demo_host_ok 0) as Hok. split.
  - destruct (reply_for_host demo_P demo_rand demo_I idle_host 100 demo_reply ∅ ∅
      (ho_ports _ _ _ _ _ Hok) demo_host_ids (ho_RR _ _ _ _ _ Hok) (ho_Rr _ _ _ _ _ Hok) eq_refl)
      as (w' & H & Hout & Hq & _).
    + by apply (bool_decide_unpack _).
    + done.
    + exists w'. split; [exact H |]. split; [exact Hout | exact Hq].
  - pose proof (reply_for_host demo_P demo_rand demo_I waiting_host 100 demo_reply ∅ ∅
      (ho_ports _ _ _ _ _ Hok) demo_host_ids (ho_RR _ _ _ _ _ Hok) (ho_Rr _ _ _ _ _ Hok) eq_refl) as H.
    assert (List.filter (to_dst (pkt_src demo_reply)) (send_wq waiting_host) =
      [(1, waiting_packet (addr 10 0 1 3))]) as Hf by by vm_compute.
    assert (second_hop demo_P (pkt_path demo_reply) = Some 4) as Hh by by vm_compute.
    rewrite Hf, Hh in H. apply H; [by apply (bool_decide_unpack _) | done | by intros ?%not_elem_of_nil].
Defined.
