(* ===== verification/DumpLiveSpec.v ===== *)
(** * A network of libdump hosts: a route is found, and data follow it (Dump.v)

    The first part follows one request, one reply and one packet of data from host to host;
    the second one goes from [dump_send] to the reply at the sender, and along a route. *)
From S2P Require Import Prelude.
From S2P Require Import Hash.
From S2P Require Import HashSpec.
From S2P Require Import Dump.
From S2P Require Import DumpSpec.
From S2P Require Import DumpFloodSpec.
From S2P Require Import DumpRouteSpec.

Implicit Types (bs : list Z) (p : pkt_t) (w : dump_world_t) (effs : list effect) (n a : Z).

Definition in_range (a : Z) : Prop := 0 ≤ a < 2 ^ 32.

Section arrive.
Variable rand : Z → Z * Z.
Variable peer : Z → Z → option (Z * Z).
Variable T0 : Z.
(** The neighbours and the addresses of every host. *)
Variable P : Z → gmap string Z.
Variable I : Z → gmap string string.

(** A host that works, has not seen the requests [F], and has the queue [q]. *)
Record host_st n w (F : list Z) (q : list (Z * pkt_t)) : Prop := {
  st_ok : ∃ m m2, host_ok T0 w (P n) m m2 ∧ Forall (λ id, m !! id_str id = None) F;
  st_ids : Repr (myids w) (I n);
  st_dead : dead w = [];
  st_out : out w = [];
  st_wq : send_wq w = q;
}.

(** Every neighbour is reached from an address of the host. *)
Definition known n : Prop :=
  ∀ k s, P n !! k = Some s → s ≠ 0 ∧ ∃ a, I n !! sock_str s = Some (inet_ntoa a) ∧ in_range a.

Lemma entries_in n w l k d :
  Repr (ports w) (P n) → entries (ports w) = Some l → (k, d) ∈ l ↔ ∃ s, d = Some s ∧ P n !! k = Some s.
Proof.
  intros HR Hl. destruct (entries_Repr _ _ HR) as (l' & Hl' & Hp). simplify_eq.
  rewrite Hp, list_elem_of_fmap. split.
  - intros ([k' s] & Heq & Hin). cbn in Heq. simplify_eq. exists s.
    by apply elem_of_map_to_list in Hin.
  - intros (s & -> & Hs). exists (k, s). split; [done |]. by apply elem_of_map_to_list.
Qed.

Lemma length_request src dst id type pad path :
  length (packet_bytes (Pkt src dst id type pad path [])) = (24 + 4 * length path)%nat.
Proof. rewrite length_packet. cbn. lia. Qed.

(** ** The handlers on a host that works *)

Lemma forward_RR_total n w p prev l :
  Repr (myids w) (I n) → dead w = [] → known n →
  (∀ k d, (k, d) ∈ l → ∃ s, d = Some s ∧ P n !! k = Some s) →
  pkt_id p ≠ 0 → Z.of_nat (24 + 4 * S (length (pkt_path p))) < 2 ^ 31 →
  ∃ effs, forward_RR rand w p prev l = Ok (add_out effs w, 0) ∧
    ∀ k s a, (k, Some s) ∈ l → k ≠ inet_ntoa prev → I n !! sock_str s = Some (inet_ntoa a) → in_range a →
      Send s (packet_bytes (Pkt (pkt_src p) (pkt_dst p) (pkt_id p) RR 0 (pkt_path p ++ [a]) [])) ∈ effs.
Proof.
  intros HI Hdead Hk Hl Hid Hlen. revert w HI Hdead.
  induction l as [| [k d] l IH]; intros w HI Hdead; cbn [forward_RR].
  { exists []. rewrite add_out_nil. split; [done |]. by intros ? ? ? ?%not_elem_of_nil. }
  specialize (IH ltac:(intros; apply Hl; by right)).
  case_bool_decide as Hne; cycle 1.
  { destruct (IH w HI Hdead) as (effs & -> & Hin). exists effs. split; [done |].
    intros k' s a [Heq | Hin']%elem_of_cons; [by simplify_eq | by apply Hin]. }
  destruct (Hl k d ltac:(by left)) as (s & -> & Hs). destruct (Hk k s Hs) as (Hs0 & a & HIs & Ha).
  change (sock_of (Some s)) with s. rewrite (get_myid_spec (I n) w s a) by done. cbn [mbind result_bind].
  unfold dump_send_RR, packet_id. rewrite (proj2 (Z.eqb_neq _ _)) by done.
  rewrite send_real_total.
  2: { unfold small. rewrite length_request, length_app, Nat.add_1_r. done. }
  2: { rewrite Hdead. by intros ?%not_elem_of_nil. }
  cbn [mbind result_bind]. rewrite (proj2 (Z.ltb_ge _ _)) by lia.
  destruct (IH (add_out [Send s (packet_bytes (Pkt (pkt_src p) (pkt_dst p) (pkt_id p) RR 0 (pkt_path p ++ [a]) []))] w)
              HI Hdead) as (effs & -> & Hin).
  eexists. rewrite add_out_app. split; [done |].
  intros k' s' a' [Heq | Hin']%elem_of_cons Hne' HI' Ha'; [simplify_eq | right; by eapply Hin].
  assert (a' = a) as ->; [apply inet_ntoa_inj; congruence || done | by left].
Qed.

(** A request that is new is remembered. *)
Lemma request_begins n w now id F q :
  T0 ≤ now → host_st n w (id :: F) q → id ∉ F →
  ∃ w1, dump_lookup_RR_recently_seen w id = Ok false ∧ dump_add_RR_recently_seen w now id = Ok w1 ∧
    host_st n w1 F q ∧ seed w1 = seed w.
Proof.
  intros Hnow [(m & m2 & Hok & [Hid HF]%Forall_cons) HI Hdead Hout Hq] Hnot.
  destruct (hash_add_to_Repr _ m (id_str id) now (ho_RR _ _ _ _ _ Hok)) as (h & r & Hadd & HR & _).
  exists (set_RRseen h w). unfold dump_lookup_RR_recently_seen, dump_add_RR_recently_seen.
  rewrite (hash_get_Repr _ _ _ (ho_RR _ _ _ _ _ Hok)), Hid, Hadd. split_and!; [done | done | | done].
  split; try done. exists (<[id_str id := now]> m), m2. split.
  - destruct Hok. split; try done. by apply map_Forall_insert_2.
  - rewrite Forall_forall in *. intros i Hi. rewrite lookup_insert_ne; [by apply HF |].
    intros Heq%(inj pretty). by subst.
Qed.

Lemma st_add_out n w F q effs : host_st n w F q → host_st n (flush (add_out effs w)) F q.
Proof. intros [(m & m2 & [] & HF) ? ? ? ?]. split; try done. exists m, m2. by repeat split. Qed.

Lemma st_ports n w F q : host_st n w F q → Repr (ports w) (P n).
Proof. intros [(m & m2 & Hok & _) _ _ _ _]. apply Hok. Qed.

Lemma RR_forward n w now p F q prev :
  T0 ≤ now → host_st n w (pkt_id p :: F) q → pkt_id p ∉ F → pkt_id p ≠ 0 → known n →
  last (pkt_path p) = Some prev → ¬ mine (I n) (pkt_dst p) →
  Z.of_nat (24 + 4 * S (length (pkt_path p))) < 2 ^ 31 →
  ∃ w', dump_receive_RR rand w now p = Ok (w', 0) ∧ host_st n (flush w') F q ∧
    ∀ k s a, P n !! k = Some s → k ≠ inet_ntoa prev → I n !! sock_str s = Some (inet_ntoa a) → in_range a →
      Send s (packet_bytes (Pkt (pkt_src p) (pkt_dst p) (pkt_id p) RR 0 (pkt_path p ++ [a]) [])) ∈ out w'.
Proof.
  intros Hnow Hst Hnot Hid Hk Hlast Hmine Hlen. unfold dump_receive_RR.
  destruct (request_begins n w now _ F q Hnow Hst Hnot) as (w1 & -> & -> & Hst1 & _).
  cbn [mbind result_bind]. rewrite Hlast, (is_myid_spec (I n)) by apply Hst1.
  rewrite bool_decide_false by done. cbn [mbind result_bind].
  destruct (entries_Repr _ _ (st_ports _ _ _ _ Hst1)) as (l & Hl & _). rewrite Hl. cbn [lift mbind result_bind].
  destruct (forward_RR_total n w1 p prev l) as (effs & -> & Hin); try done; [apply Hst1 | apply Hst1 | |].
  { intros k d. by apply entries_in with (w := w1); [apply (st_ports _ _ _ _ Hst1) |]. }
  exists (add_out effs w1). split; [done |]. split; [by apply st_add_out |].
  intros k s a Hs Hne HIs Ha. cbn. apply elem_of_app. right. eapply Hin; try done.
  apply (entries_in n w1); [apply (st_ports _ _ _ _ Hst1) | done |]. by exists s.
Qed.

Lemma RR_answer n w now p F q prev s a :
  T0 ≤ now → host_st n w (pkt_id p :: F) q → pkt_id p ∉ F →
  last (pkt_path p) = Some prev → mine (I n) (pkt_dst p) → P n !! inet_ntoa prev = Some s → s ≠ 0 →
  I n !! sock_str s = Some (inet_ntoa a) → in_range a →
  Z.of_nat (24 + 4 * S (length (pkt_path p))) < 2 ^ 31 →
  ∃ w', dump_receive_RR rand w now p = Ok (w', 0) ∧ host_st n (flush w') F q ∧
    Send s (packet_bytes (Pkt (pkt_dst p) (pkt_src p) (rand (seed w)).1 Rr 0 (pkt_path p ++ [a]) [])) ∈ out w'.
Proof.
  intros Hnow Hst Hnot Hlast Hmine Hs Hs0 HIs Ha Hlen. unfold dump_receive_RR.
  destruct (request_begins n w now _ F q Hnow Hst Hnot) as (w1 & -> & -> & Hst1 & Hseed).
  cbn [mbind result_bind]. rewrite Hlast, (is_myid_spec (I n)) by apply Hst1.
  rewrite bool_decide_true by done. cbn [mbind result_bind].
  rewrite (lookup_neighbor_spec (P n)), Hs by apply (st_ports _ _ _ _ Hst1). cbn [mbind result_bind from_option id].
  rewrite (get_myid_spec (I n) w1 s a) by (done || apply Hst1). cbn [mbind result_bind].
  unfold dump_send_Rr, packet_id, dump_mk_pkt_id. cbn [Z.eqb]. rewrite Hseed.
  destruct (rand (seed w)) as [r z]. rewrite (proj2 (Z.eqb_neq _ _)) by done.
  rewrite send_real_total.
  2: { unfold small. rewrite length_request, length_app, Nat.add_1_r. done. }
  2: { cbn. rewrite (st_dead _ _ _ _ Hst1). by intros ?%not_elem_of_nil. }
  cbn [mbind result_bind]. rewrite (proj2 (Z.ltb_ge _ _)) by lia.
  eexists. split; [done |]. split.
  - apply st_add_out. by destruct Hst1 as [(m & m2 & [] & HF) ? ? ? ?]; split; [exists m, m2; by repeat split | ..].
  - cbn. apply elem_of_app. right. by left.
Qed.

Lemma first_mine_at n w (pre post : list Z) a i :
  Repr (myids w) (I n) → Forall (λ x, ¬ mine (I n) x) pre → mine (I n) a →
  first_mine w (pre ++ a :: post) i = Ok (Some (i + length pre)%nat).
Proof.
  intros HI Hpre Ha. revert i. induction Hpre as [| x pre Hx _ IH]; intros i; cbn [app first_mine].
  - rewrite (is_myid_spec (I n)), bool_decide_true by done. cbn. by rewrite Nat.add_0_r.
  - rewrite (is_myid_spec (I n)), bool_decide_false by done. cbn [mbind result_bind]. rewrite IH. cbn.
    by rewrite Nat.add_succ_r.
Qed.

Lemma Rr_forward n w now p F q pre b a post s a' :
  T0 ≤ now → host_st n w F q → pkt_id p ∈ F → pkt_id p ≠ 0 → ¬ mine (I n) (pkt_dst p) →
  pkt_path p = pre ++ b :: a :: post → Forall (λ x, ¬ mine (I n) x) (pre ++ [b]) → mine (I n) a →
  P n !! inet_ntoa b = Some s → s ≠ 0 → I n !! sock_str s = Some (inet_ntoa a') → in_range a' →
  Z.of_nat (24 + 4 * S (length (pkt_path p))) < 2 ^ 31 →
  ∃ w', dump_receive_Rr rand w now p = Ok (w', 0) ∧ host_st n (flush w') F q ∧
    Send s (packet_bytes (Pkt (pkt_src p) (pkt_dst p) (pkt_id p) Rr 0 (pre ++ b :: a' :: post) [])) ∈ out w'.
Proof.
  intros Hnow Hst HF Hid Hdst Hpath Hpre Ha Hs Hs0 HIs Ha' Hlen. unfold dump_receive_Rr.
  destruct Hst as [(m & m2 & Hok & HFm) HI Hdead Hout Hq].
  assert (m !! id_str (pkt_id p) = None) as Hm by (rewrite Forall_forall in HFm; by apply HFm).
  destruct (reply_begins (I n) w now p m m2 (ho_RR _ _ _ _ _ Hok) Hm (ho_Rr _ _ _ _ _ Hok) HI)
    as (h & HRh & -> & -> & Hmy).
  cbn [mbind result_bind]. rewrite Hmy, bool_decide_false by done.
  assert (∀ (A : Type) (x y : A), match pkt_path p with [] => x | _ => y end = y) as Hne
    by (intros; rewrite Hpath; by destruct pre).
  rewrite Hne. clear Hne. cbn [mbind result_bind].
  assert (pkt_path p = (pre ++ [b]) ++ a :: post) as Hpath' by (by rewrite Hpath, <-app_assoc).
  assert (first_mine (set_Rrseen h w) (pkt_path p) 0 = Ok (Some (length (pre ++ [b])))) as ->
    by (rewrite Hpath'; by apply (first_mine_at n)).
  cbn [mbind result_bind].
  rewrite length_app. cbn [length]. rewrite Nat.add_1_r.
  assert (pkt_path p !! length pre = Some b) as Hb by (rewrite Hpath; by apply list_lookup_middle).
  rewrite Hb. cbn [lift mbind result_bind].
  rewrite (lookup_neighbor_spec (P n)), Hs by apply Hok. cbn [mbind result_bind from_option id].
  rewrite (get_myid_spec (I n) _ s a') by done. cbn [mbind result_bind].
  unfold dump_send_Rr, packet_id. rewrite !(proj2 (Z.eqb_neq _ _)) by done.
  assert (<[S (length pre) := a']> (pkt_path p) = pre ++ b :: a' :: post) as ->.
  { rewrite Hpath'. replace (S (length pre)) with (length (pre ++ [b]) + 0)%nat by (rewrite length_app; cbn; lia).
    rewrite insert_app_r. cbn. by rewrite <-app_assoc. }
  rewrite send_real_total.
  2: { unfold small. rewrite length_request. rewrite Hpath in Hlen. rewrite length_app in *. cbn in *. lia. }
  2: { cbn. rewrite Hdead. by intros ?%not_elem_of_nil. }
  cbn [mbind result_bind]. rewrite (proj2 (Z.ltb_ge _ _)) by lia.
  eexists. split; [done |]. split.
  - apply st_add_out. split; try done. exists m, (<[id_str (pkt_id p) := now]> m2). split; [| done].
    destruct Hok. split; try done. by apply map_Forall_insert_2.
  - cbn. apply elem_of_app. right. by left.
Qed.

Lemma forward_DATA_unfold w p beyond i :
  forward_DATA w p beyond i =
    (a ← lift ((pkt_path p ++ [beyond]) !! i);
     mine ← dump_is_myid w a;
     if mine : bool then
       hop ← lift ((pkt_path p ++ [beyond]) !! S i);
       s ← dump_lookup_neighbor w hop;
       if s =? 0 then Ok (w, RetErr) else
       '(w, ret) ← dump_send_real w s p;
       if ret <? 0 then Ok (w, RetErr) else Ok (w, RetNull)
     else match i with O => Ok (w, RetNull) | S i => forward_DATA w p beyond i end).
Proof. by destruct i. Qed.

(** The data go on after the last address of the path that is ours. *)
Lemma forward_DATA_at n w p beyond (pre post : list Z) a b s i :
  Repr (myids w) (I n) → Repr (ports w) (P n) → dead w = [] → small p →
  pkt_path p ++ [beyond] = pre ++ a :: b :: post → mine (I n) a → Forall (λ x, ¬ mine (I n) x) (b :: post) →
  P n !! inet_ntoa b = Some s → s ≠ 0 → (length pre ≤ i < length (pkt_path p ++ [beyond]))%nat →
  forward_DATA w p beyond i = Ok (add_out [Send s (packet_bytes p)] w, RetNull).
Proof.
  intros HI HP Hdead Hsm Hpath Ha Hpost Hs Hs0 Hi. rewrite Hpath in Hi.
  induction i as [i IH] using lt_wf_ind. rewrite forward_DATA_unfold, Hpath.
  destruct (decide (i = length pre)) as [-> | Hne].
  - rewrite (list_lookup_middle pre (b :: post) a (length pre) eq_refl). cbn [lift mbind result_bind].
    rewrite (is_myid_spec (I n)), bool_decide_true by done. cbn [mbind result_bind].
    assert ((pre ++ a :: b :: post) !! S (length pre) = Some b) as ->.
    { rewrite lookup_app_r by lia. by replace (S (length pre) - length pre)%nat with 1%nat by lia. }
    cbn [lift mbind result_bind]. rewrite (lookup_neighbor_spec (P n)), Hs by done.
    cbn [mbind result_bind from_option id]. rewrite (proj2 (Z.eqb_neq _ _)) by done.
    rewrite send_real_total; [| done | rewrite Hdead; by intros ?%not_elem_of_nil].
    cbn [mbind result_bind]. by rewrite (proj2 (Z.ltb_ge _ _)) by lia.
  - destruct (lookup_lt_is_Some_2 (pre ++ a :: b :: post) i) as [x Hx]; [lia |].
    rewrite Hx. cbn [lift mbind result_bind].
    assert (x ∈ b :: post) as Hin.
    { rewrite lookup_app_r in Hx by lia. destruct (i - length pre)%nat as [| j] eqn:E; [lia |].
      change ((b :: post) !! j = Some x) in Hx. by eapply list_elem_of_lookup_2. }
    rewrite Forall_forall in Hpost. rewrite (is_myid_spec (I n)), bool_decide_false by auto.
    cbn [mbind result_bind]. destruct i as [| i]; [lia |]. apply IH; lia.
Qed.

(** ** Deliveries *)

Definition handle w (now beyond : Z) p : result (dump_world_t * ret_pkt) :=
  if pkt_type p =? RR then '(w, _) ← dump_receive_RR rand w now p; Ok (w, RetNull)
  else if pkt_type p =? Rr then '(w, _) ← dump_receive_Rr rand w now p; Ok (w, RetNull)
  else if pkt_type p =? DATA then dump_receive_DATA w p beyond
  else Exit.

Lemma cb_receive n w F q s p now beyond :
  host_st n w F q → packet_ok p → T0 ≤ now ≤ T0 + DUMP_RS_LIMIT →
  ∃ evs, dump_receive_cb rand w s [Rx (packet_bytes p)] now beyond =
    ('(w', ret) ← handle w now beyond p; Ok (w', evs, ret)).
Proof.
  intros [(m & m2 & Hok & _) _ _ _ _] Hp Hnow. unfold dump_receive_cb, dump_clean_recently_seen.
  rewrite (clean_table_recent now _ m (ho_RR _ _ _ _ _ Hok)
             (recent_since _ _ _ (ho_date _ _ _ _ _ Hok) Hnow)).
  cbn [mbind result_bind]. rewrite (clean_table_recent now _ m2 (ho_Rr _ _ _ _ _ Hok)
             (recent_since _ _ _ (ho_date2 _ _ _ _ _ Hok) Hnow)).
  cbn [mbind result_bind]. assert (set_Rrseen (Rrrecently_seen w) (set_RRseen (RRrecently_seen w) w) = w) as ->
    by (by destruct w).
  destruct (recv_packet p [Rx (packet_bytes p)] [] []) as (evs & Hr & _); try done.
  { by constructor. }
  { cbn [stream]. rewrite app_nil_r, length_packet. lia. }
  cbn [app] in Hr. rewrite Hr. cbn [mbind result_bind]. exists evs. unfold handle.
  destruct (pkt_type p =? RR); [by destruct (dump_receive_RR _ _ _ _) as [[]| |] |].
  destruct (pkt_type p =? Rr); [by destruct (dump_receive_Rr _ _ _ _) as [[]| |] |].
  destruct (pkt_type p =? DATA); [| done]. by destruct (dump_receive_DATA _ _ _) as [[]| |].
Qed.

Lemma cb_handle n w F q s p now beyond w' ret :
  host_st n w F q → packet_ok p → T0 ≤ now ≤ T0 + DUMP_RS_LIMIT → handle w now beyond p = Ok (w', ret) →
  ∃ evs, dump_receive_cb rand w s [Rx (packet_bytes p)] now beyond = Ok (w', evs, ret).
Proof.
  intros Hst Hp Hnow Hh. destruct (cb_receive n w F q s p now beyond Hst Hp Hnow) as [evs ->].
  exists evs. by rewrite Hh.
Qed.

Lemma deliver_packet N n s p F q now beyond w w' ret :
  (n, s, packet_bytes p) ∈ wire N → hosts N !! n = Some w → host_st n w F q → packet_ok p →
  T0 ≤ now ≤ T0 + DUMP_RS_LIMIT → handle w now beyond p = Ok (w', ret) →
  ∃ N', deliver rand peer now N (n, s, packet_bytes p) N' ∧ hosts N' = <[n := flush w']> (hosts N) ∧
    ∀ s' bs n2 s2, Send s' bs ∈ out w' → peer n s' = Some (n2, s2) → (n2, s2, bs) ∈ wire N'.
Proof.
  intros Hin Hn Hst Hp Hnow Hh. destruct (cb_handle n w F q s p now beyond w' ret) as [evs Hcb]; try done.
  apply list_elem_of_split in Hin as (l1 & l2 & HN).
  eexists. split; [by eapply deliver_ok |]. split; [done |].
  intros s' bs n2 s2 Hs Hpeer. cbn. do 2 (apply elem_of_app; right).
  apply list_elem_of_omap. exists (Send s' bs). split; [done |]. cbn. by rewrite Hpeer.
Qed.

End arrive.

(** * A network of libdump hosts: from a request to the arrival of the data (Dump.v) *)

Implicit Types (N : net).

(** A connection, from one host, socket and address to another. *)
Record hop := Hop {
  h_from : Z; h_sock : Z; h_addr : Z;
  h_to : Z; h_rsock : Z; h_raddr : Z;
}.

Section live.
Variable rand : Z → Z * Z.
Variable peer : Z → Z → option (Z * Z).
Variable T0 : Z.
Variable P : Z → gmap string Z.
Variable I : Z → gmap string string.

(** Each end knows the other by its address on this connection, and its own. *)
Record hop_ok (h : hop) : Prop := {
  hp_port : P (h_from h) !! inet_ntoa (h_raddr h) = Some (h_sock h);
  hp_id : I (h_from h) !! sock_str (h_sock h) = Some (inet_ntoa (h_addr h));
  hp_rport : P (h_to h) !! inet_ntoa (h_addr h) = Some (h_rsock h);
  hp_rid : I (h_to h) !! sock_str (h_rsock h) = Some (inet_ntoa (h_raddr h));
  hp_peer : peer (h_from h) (h_sock h) = Some (h_to h, h_rsock h);
  hp_rpeer : peer (h_to h) (h_rsock h) = Some (h_from h, h_sock h);
  hp_range : in_range (h_addr h) ∧ in_range (h_raddr h);
}.

Definition hosts_of (all : list hop) : list Z := (h_from <$> all) ++ (h_to <$> all).

(** A path of connections through different hosts, no two with a common address. *)
Record route_ok (all : list hop) : Prop := {
  ro_hops : Forall hop_ok all;
  ro_chain i h h' : all !! i = Some h → all !! S i = Some h' → h_to h = h_from h';
  ro_from : NoDup (h_from <$> all);
  ro_to : NoDup (h_to <$> all);
  ro_first h : head all = Some h → h_from h ∉ h_to <$> all;
  ro_known : Forall (known P I) (hosts_of all);
  ro_unique n1 n2 a :
    n1 ∈ hosts_of all → n2 ∈ hosts_of all → mine (I n1) a → mine (I n2) a → n1 = n2;
}.

Definition holds N n (F : list Z) q : Prop := ∃ w, hosts N !! n = Some w ∧ host_st T0 P I n w F q.

Lemma run_trans N1 t1 N2 t2 N3 :
  run rand peer T0 N1 t1 N2 → run rand peer T0 N2 t2 N3 → run rand peer T0 N1 (t1 ++ t2) N3.
Proof. induction 1; [done |]. intros. cbn. econstructor; eauto. Qed.

Lemma run_one N x N' : deliver rand peer T0 N x N' → run rand peer T0 N [x] N'.
Proof. intros Hd. eapply (run_cons _ _ _ _ _ _ _ _ T0); [unfold DUMP_RS_LIMIT; lia | done | constructor]. Qed.

Lemma holds_same N N' n w' m F q :
  hosts N' = <[n := w']> (hosts N) → m ≠ n → holds N m F q → holds N' m F q.
Proof. intros HN Hne (w & Hw & Hst). exists w. by rewrite HN, lookup_insert_ne. Qed.

Lemma holds_new N N' n w' F q :
  hosts N' = <[n := w']> (hosts N) → host_st T0 P I n w' F q → holds N' n F q.
Proof. intros HN Hst. exists w'. by rewrite HN, lookup_insert_eq. Qed.

Lemma holds_weaken N n id F q : holds N n (id :: F) q → holds N n F q.
Proof.
  intros (w & Hw & [(m & m2 & Hok & [_ HF]%Forall_cons) ? ? ? ?]). exists w. split; [done |].
  split; try done. by exists m, m2.
Qed.

(** ** Along one route *)

Context (all : list hop) (first l : hop) (src D id r1 : Z) (q : Z → list (Z * pkt_t)).
Hypothesis Hroute : route_ok all.
Hypothesis Hfirst : head all = Some first.
Hypothesis Hlast : last all = Some l.
Hypothesis Hsrc : src = h_addr first.
Hypothesis HD : in_range D ∧ mine (I (h_to l)) D.
Hypothesis Hid : 0 < id < 2 ^ 32.
Hypothesis Hr1 : 0 < r1 < 2 ^ 32.
Hypothesis Hne : id ≠ r1.
Hypothesis Hlen : Z.of_nat (length all) < 2 ^ 20.

Definition good N : Prop := ∀ n, n ∈ hosts_of all → holds N n [r1] (q n).

Lemma good_update N N' n w' :
  good N → hosts N' = <[n := w']> (hosts N) → host_st T0 P I n w' [r1] (q n) → good N'.
Proof.
  intros Hg HN Hst m Hm. destruct (decide (m = n)) as [-> |].
  - by eapply holds_new.
  - eapply holds_same; [done.. |]. by apply Hg.
Qed.

Lemma hop_in h : h ∈ all → hop_ok h ∧ h_from h ∈ hosts_of all ∧ h_to h ∈ hosts_of all.
Proof.
  intros Hin. pose proof (ro_hops _ Hroute) as Hall. rewrite Forall_forall in Hall.
  split; [by apply Hall |]. unfold hosts_of.
  split; apply elem_of_app; [left | right]; by apply list_elem_of_fmap_2.
Qed.

Lemma known_in n : n ∈ hosts_of all → known P I n.
Proof. intros Hn. pose proof (ro_known _ Hroute) as Hk. rewrite Forall_forall in Hk. by apply Hk. Qed.

Lemma mine_from h : hop_ok h → mine (I (h_from h)) (h_addr h).
Proof.
  intros Hh. unfold mine. apply list_elem_of_fmap. exists (sock_str (h_sock h), inet_ntoa (h_addr h)).
  split; [done |]. apply elem_of_map_to_list, Hh.
Qed.

Lemma mine_to h : hop_ok h → mine (I (h_to h)) (h_raddr h).
Proof.
  intros Hh. unfold mine. apply list_elem_of_fmap. exists (sock_str (h_rsock h), inet_ntoa (h_raddr h)).
  split; [done |]. apply elem_of_map_to_list, Hh.
Qed.

(** Another host of the route does not own the address. *)
Lemma not_mine n m a :
  n ∈ hosts_of all → m ∈ hosts_of all → n ≠ m → mine (I m) a → ¬ mine (I n) a.
Proof. intros Hn Hm Hnm Ha Ha'. apply Hnm. by apply (ro_unique _ Hroute n m a). Qed.

Lemma chain_at pre h h' post : all = pre ++ h :: h' :: post → h_to h = h_from h'.
Proof.
  intros Heq. apply (ro_chain _ Hroute (length pre)); rewrite Heq.
  - by apply list_lookup_middle.
  - rewrite lookup_app_r by lia. by replace (S (length pre) - length pre)%nat with 1%nat by lia.
Qed.

Lemma socks h : hop_ok h → h ∈ all → h_sock h ≠ 0 ∧ h_rsock h ≠ 0.
Proof.
  intros Hh Hin. destruct (hop_in h Hin) as (_ & Hf & Ht). split.
  - by apply (known_in _ Hf _ _ (hp_port _ Hh)).
  - by apply (known_in _ Ht _ _ (hp_rport _ Hh)).
Qed.

Lemma ranges hs : (∀ h, h ∈ hs → h ∈ all) →
  Forall (λ a, 0 ≤ a < 2 ^ 32) (h_addr <$> hs) ∧ Forall (λ a, 0 ≤ a < 2 ^ 32) (h_raddr <$> hs).
Proof.
  intros Hin. split; apply Forall_fmap, Forall_forall; intros h Hh; by apply (hop_in h (Hin h Hh)).
Qed.

Lemma first_in : first ∈ all.
Proof. destruct all as [| h hs]; [done |]. cbn in Hfirst. simplify_eq. by left. Qed.

Lemma src_range : in_range src.
Proof. rewrite Hsrc. apply (hop_in first first_in). Qed.

(** The packets of the exchange are packets. *)
Lemma pkt_ok a b i ty path :
  in_range a → in_range b → in_range i → 0 ≤ ty < 2 ^ 16 → Forall (λ a, 0 ≤ a < 2 ^ 32) path →
  (length path ≤ S (length all))%nat → packet_ok (Pkt a b i ty 0 path []).
Proof.
  intros Ha Hb Hi Ht Hp Hl. split; try done. rewrite length_request.
  change (2 ^ 31) with 2147483648. change (2 ^ 20) with 1048576 in Hlen. lia.
Qed.

Lemma path_small (path : list Z) :
  (length path ≤ S (length all))%nat → Z.of_nat (24 + 4 * S (length path)) < 2 ^ 31.
Proof. intros Hl. change (2 ^ 31) with 2147483648. change (2 ^ 20) with 1048576 in Hlen. lia. Qed.

(** Hosts apart along the route. *)
Lemma split_NoDup {A} (f : hop → A) pre h post g :
  NoDup (f <$> all) → all = pre ++ h :: post → g ∈ pre ++ post → f g ≠ f h.
Proof.
  intros Hnd -> Hg Heq. rewrite fmap_app, fmap_cons in Hnd.
  apply NoDup_app in Hnd as (_ & Hdis & [Hnot _]%NoDup_cons).
  apply elem_of_app in Hg as [Hg | Hg]; apply (list_elem_of_fmap_2 f) in Hg; rewrite Heq in Hg.
  - apply (Hdis _ Hg). by left.
  - by apply Hnot.
Qed.

Lemma from_not_to pre h h' post : all = pre ++ h :: h' :: post → h_from h ≠ h_to h'.
Proof.
  intros Heq. destruct pre as [| g pre _] using rev_ind.
  - intros Hft. apply (ro_first _ Hroute h); [by rewrite Heq |]. rewrite Hft. apply list_elem_of_fmap_2.
    rewrite Heq. by right; left.
  - rewrite <-(chain_at pre g h (h' :: post)) by by rewrite Heq, <-app_assoc.
    intros Heqt. apply (split_NoDup h_to pre g (h :: h' :: post) h'); [apply Hroute | | |].
    + by rewrite Heq, <-app_assoc.
    + apply elem_of_app. right. by right; left.
    + done.
Qed.

Lemma last_in pre h post : all = pre ++ h :: post → l ∈ h :: post ∧ l ∈ all.
Proof.
  intros Heq. assert (l ∈ h :: post) as Hin.
  { rewrite Heq, last_app_cons in Hlast. by apply last_Some_elem_of. }
  split; [done |]. rewrite Heq. by apply elem_of_app; right.
Qed.

(** A host before the last one is not the destination. *)
Lemma not_dest pre h h' post : all = pre ++ h :: h' :: post → ¬ mine (I (h_to h)) D.
Proof.
  intros Heq. assert (all = (pre ++ [h]) ++ h' :: post) as Heq' by (by rewrite Heq, <-app_assoc).
  destruct (last_in _ _ _ Heq') as [Hl Hlin].
  assert (h ∈ all) as Hin by (rewrite Heq; apply elem_of_app; right; left).
  apply (not_mine (h_to h) (h_to l)); [apply (hop_in h Hin) | apply (hop_in l Hlin) | | apply HD].
  intros Hq. apply (split_NoDup h_to pre h (h' :: post) l); [apply Hroute | done | | done].
  apply elem_of_app. by right.
Qed.

(** ** The request goes to the last host *)

Definition request (hs : list hop) : pkt_t := Pkt src D id RR 0 (h_addr <$> hs) [].

Lemma request_ok hs : (∀ h, h ∈ hs → h ∈ all) → (length hs ≤ length all)%nat → packet_ok (request hs).
Proof.
  intros Hin Hl. apply pkt_ok; [apply src_range | apply HD | unfold in_range; lia | done | by apply ranges |].
  rewrite length_fmap. lia.
Qed.

Lemma handle_request w beyond p w' r :
  pkt_type p = RR → dump_receive_RR rand w T0 p = Ok (w', r) → handle rand w T0 beyond p = Ok (w', RetNull).
Proof. intros Ht H. unfold handle. by rewrite Ht, H. Qed.

Lemma now_ok : T0 ≤ T0 ≤ T0 + DUMP_RS_LIMIT.
Proof. unfold DUMP_RS_LIMIT. lia. Qed.

Lemma request_phase post : ∀ pre h N,
  all = pre ++ h :: post → good N →
  (∀ h', h' ∈ h :: post → holds N (h_to h') [id; r1] (q (h_to h'))) →
  (h_to h, h_rsock h, packet_bytes (request (pre ++ [h]))) ∈ wire N →
  ∃ tr N', run rand peer T0 N tr N' ∧ good N' ∧
    (h_to l, h_rsock l, packet_bytes (request all)) ∈ wire N' ∧
    holds N' (h_to l) [id; r1] (q (h_to l)) ∧ hosts N' !! h_to l = hosts N !! h_to l.
Proof.
  induction post as [| h' post IH]; intros pre h N Heq Hg Hst Hmsg.
  { assert (h = l) as -> by (rewrite Heq, last_snoc in Hlast; by simplify_eq).
    exists [], N. split; [constructor |]. split; [done |]. rewrite Heq. split; [done |].
    split; [by apply Hst; left | done]. }
  assert (all = (pre ++ [h]) ++ h' :: post) as Heq' by (by rewrite Heq, <-app_assoc).
  assert (h ∈ all) as Hin by (rewrite Heq; apply elem_of_app; right; left).
  assert (h' ∈ all) as Hin' by (rewrite Heq; apply elem_of_app; right; right; left).
  destruct (last_in _ _ _ Heq') as [Hlin Hlall].
  destruct (hop_in h Hin) as (Hh & Hfrom & Hto). destruct (hop_in h' Hin') as (Hh' & Hfrom' & Hto').
  pose proof (chain_at _ _ _ _ Heq) as Hch.
  assert (∀ g, g ∈ h' :: post → h_to g ≠ h_to h) as Hnext.
  { intros g Hg'. apply (split_NoDup h_to pre h (h' :: post)); [apply Hroute | done |].
    apply elem_of_app. by right. }
  destruct (Hst h ltac:(by left)) as (w & Hw & Hsth).
  assert (length (pre ++ [h]) ≤ length all)%nat as Hlp.
  { rewrite Heq, !length_app. cbn. lia. }
  destruct (RR_forward rand T0 P I (h_to h) w T0 (request (pre ++ [h])) [r1] (q (h_to h)) (h_addr h))
    as (w' & Hrr & Hst' & Hout); try done.
  { by intros ?%list_elem_of_singleton. }
  { cbn. lia. }
  { by apply known_in. }
  { cbn [request pkt_path]. rewrite fmap_app. apply last_snoc. }
  { by eapply not_dest. }
  { apply path_small. cbn. rewrite length_fmap. lia. }
  destruct (deliver_packet rand peer T0 P I N (h_to h) (h_rsock h) (request (pre ++ [h])) _ _ T0 0 w w' RetNull
              Hmsg Hw Hsth) as (N1 & Hd & HN1 & Hpost).
  { apply request_ok; [| done]. intros g Hg'. rewrite Heq'. apply elem_of_app. by left. }
  { apply now_ok. }
  { by apply (handle_request w 0 _ w' 0). }
  destruct (IH (pre ++ [h]) h' N1) as (tr & N' & Hrun & Hg' & Hm' & Hl' & Hw'); [done | | | |].
  - by eapply good_update.
  - intros g Hg'. eapply holds_same; [exact HN1 | by apply Hnext |]. apply Hst. by right.
  - apply (Hpost (h_sock h')); [| rewrite Hch; apply Hh'].
    assert (request ((pre ++ [h]) ++ [h']) =
      Pkt src D id RR 0 (pkt_path (request (pre ++ [h])) ++ [h_addr h']) []) as ->
      by (unfold request; by rewrite (fmap_app h_addr (pre ++ [h]))).
    apply (Hout (inet_ntoa (h_raddr h')) (h_sock h') (h_addr h')).
    + rewrite Hch. apply Hh'.
    + intros Hk. apply inet_ntoa_inj in Hk; [| apply Hh' | apply Hh].
      apply (not_mine (h_to h') (h_from h) (h_raddr h')); [done | done | | | by apply mine_to].
      * intros Heqn. by apply (from_not_to pre h h' post).
      * rewrite Hk. by apply mine_from.
    + rewrite Hch. apply Hh'.
    + apply Hh'.
  - exists ((h_to h, h_rsock h, packet_bytes (request (pre ++ [h]))) :: tr), N'.
    split; [by eapply (run_trans _ [_]); [apply run_one |] |]. split_and!; [done.. |].
    rewrite Hw', HN1, lookup_insert_ne; [done |]. intros Heql. by apply (Hnext l Hlin).
Qed.

(** ** The reply comes back *)

Definition reply (pre : list hop) (h : hop) (post : list hop) : pkt_t :=
  Pkt D src r1 Rr 0 ((h_addr <$> pre) ++ h_addr h :: (h_raddr <$> h :: post)) [].

Lemma reply_ok pre h post : all = pre ++ h :: post → packet_ok (reply pre h post).
Proof.
  intros Heq. apply pkt_ok; [apply HD | apply src_range | unfold in_range; lia | done | |].
  - assert (∀ g, g ∈ pre → g ∈ all) as Hp by (intros; rewrite Heq; by apply elem_of_app; left).
    assert (∀ g, g ∈ h :: post → g ∈ all) as Hq by (intros; rewrite Heq; by apply elem_of_app; right).
    apply Forall_app. split; [by apply ranges |]. constructor; [| by apply ranges].
    apply (hp_range h (proj1 (hop_in h (Hq h ltac:(by left))))).
  - rewrite length_app, length_fmap. cbn [length]. rewrite length_fmap, Heq, length_app. cbn. lia.
Qed.

Lemma handle_reply w beyond p w' r :
  pkt_type p = Rr → dump_receive_Rr rand w T0 p = Ok (w', r) → handle rand w T0 beyond p = Ok (w', RetNull).
Proof. intros Ht H. unfold handle. by rewrite Ht, H. Qed.

Lemma answer N w :
  good N → hosts N !! h_to l = Some w → holds N (h_to l) [id; r1] (q (h_to l)) → (rand (seed w)).1 = r1 →
  (h_to l, h_rsock l, packet_bytes (request all)) ∈ wire N →
  ∃ pre N', all = pre ++ [l] ∧ run rand peer T0 N [(h_to l, h_rsock l, packet_bytes (request all))] N' ∧ good N' ∧
    (h_from l, h_sock l, packet_bytes (reply pre l [])) ∈ wire N'.
Proof.
  intros Hg Hw (w0 & Hw0 & Hst) Hr Hmsg. simplify_eq.
  pose proof Hlast as (pre & Heq)%last_Some. exists pre.
  assert (l ∈ all) as Hin by (rewrite Heq; apply elem_of_app; right; left).
  destruct (hop_in l Hin) as (Hh & Hfrom & Hto). destruct (socks l Hh Hin) as [_ Hrs].
  destruct (RR_answer rand T0 P I (h_to l) w T0 (request all) [r1] (q (h_to l)) (h_addr l)
              (h_rsock l) (h_raddr l)) as (w' & Hrr & Hst' & Hout); try done.
  { by intros ?%list_elem_of_singleton. }
  { cbn [request pkt_path]. rewrite Heq, fmap_app. apply last_snoc. }
  { apply HD. }
  { apply Hh. }
  { apply Hh. }
  { apply Hh. }
  { apply path_small. cbn. rewrite length_fmap. lia. }
  destruct (deliver_packet rand peer T0 P I N (h_to l) (h_rsock l) (request all) _ _ T0 0 w w' RetNull
              Hmsg Hw Hst) as (N1 & Hd & HN1 & Hpost).
  { by apply request_ok. }
  { apply now_ok. }
  { by apply (handle_request w 0 _ w' 0). }
  exists N1. split; [done |]. split; [by apply run_one |]. split; [by eapply good_update |].
  apply (Hpost (h_rsock l)); [| apply Hh].
  assert (reply pre l [] = Pkt (pkt_dst (request all)) (pkt_src (request all)) r1 Rr 0
            (pkt_path (request all) ++ [h_raddr l]) []) as ->; [| by rewrite Hr in Hout].
  unfold reply. cbn [request pkt_dst pkt_src pkt_path]. rewrite Heq, fmap_app, <-app_assoc. done.
Qed.

Lemma reply_phase pre : ∀ h post N,
  all = pre ++ h :: post → good N → (h_from h, h_sock h, packet_bytes (reply pre h post)) ∈ wire N →
  ∃ tr N' post', run rand peer T0 N tr N' ∧ good N' ∧ all = first :: post' ∧
    (h_from first, h_sock first, packet_bytes (reply [] first post')) ∈ wire N'.
Proof.
  induction pre as [| g pre IH] using rev_ind; intros h post N Heq Hg Hmsg.
  { assert (h = first) as -> by (rewrite Heq in Hfirst; by simplify_eq/=).
    exists [], N, post. split; [constructor | done]. }
  assert (all = pre ++ g :: h :: post) as Heq' by (by rewrite Heq, <-app_assoc).
  assert (h ∈ all) as Hin by (rewrite Heq'; apply elem_of_app; right; right; left).
  assert (g ∈ all) as Hgin by (rewrite Heq'; apply elem_of_app; right; left).
  destruct (hop_in h Hin) as (Hh & Hfrom & Hto). destruct (hop_in g Hgin) as (Hgo & Hgfrom & Hgto).
  destruct (socks g Hgo Hgin) as [Hgs Hgrs].
  pose proof (chain_at _ _ _ _ Heq') as Hch.
  assert (∀ g', g' ∈ pre ++ [g] → ¬ mine (I (h_from h)) (h_addr g')) as Hnm.
  { intros g' Hg'. assert (g' ∈ all) as Hga by (rewrite Heq; by apply elem_of_app; left).
    destruct (hop_in g' Hga) as (Hgo' & Hgf' & _).
    apply (not_mine _ (h_from g')); [done | done | | by apply mine_from].
    intros Hq. apply (split_NoDup h_from (pre ++ [g]) h post g'); [apply Hroute | done | | done].
    by apply elem_of_app; left. }
  destruct (Hg (h_from h) Hfrom) as (w & Hw & Hst).
  destruct (Rr_forward rand T0 P I (h_from h) w T0 (reply (pre ++ [g]) h post) [r1] (q (h_from h))
              (h_addr <$> pre) (h_addr g) (h_addr h) (h_raddr <$> h :: post) (h_rsock g) (h_raddr g))
    as (w' & Hrr & Hst' & Hout); try done.
  { by left. }
  { cbn. lia. }
  { cbn [reply pkt_dst]. rewrite Hsrc. apply Hnm. destruct pre as [| h0 pre]; cbn in Heq |- *.
    - rewrite Heq in Hfirst. cbn in Hfirst. simplify_eq. by left.
    - rewrite Heq in Hfirst. cbn in Hfirst. simplify_eq. by left. }
  { cbn [reply pkt_path]. by rewrite fmap_app, <-app_assoc. }
  { change [h_addr g] with (h_addr <$> [g]). rewrite <-fmap_app. apply Forall_fmap, Forall_forall. exact Hnm. }
  { by apply mine_from. }
  { rewrite <-Hch. apply Hgo. }
  { rewrite <-Hch. apply Hgo. }
  { apply Hgo. }
  { pose proof (po_len _ (reply_ok _ _ _ Heq)) as Hl. unfold reply in Hl. rewrite length_request in Hl.
    cbn [reply pkt_path]. pose proof Hlen as Hlen'. rewrite Heq, !length_app in Hlen'. cbn in Hlen'.
    rewrite !length_app, length_fmap, length_app. cbn. rewrite length_fmap.
    change (2 ^ 20) with 1048576 in Hlen'. change (2 ^ 31) with 2147483648. lia. }
  destruct (deliver_packet rand peer T0 P I N (h_from h) (h_sock h) (reply (pre ++ [g]) h post) _ _ T0 0 w w' RetNull
              Hmsg Hw Hst) as (N1 & Hd & HN1 & Hpost).
  { by apply reply_ok. }
  { apply now_ok. }
  { by apply (handle_reply w 0 _ w' 0). }
  destruct (IH g (h :: post) N1) as (tr & N' & post' & Hrun & Hg' & Hall & Hm); [done | | |].
  - by eapply good_update.
  - apply (Hpost (h_rsock g)); [exact Hout | rewrite <-Hch; apply Hgo].
  - exists ((h_from h, h_sock h, packet_bytes (reply (pre ++ [g]) h post)) :: tr), N', post'.
    split; [| done]. by eapply (run_trans _ [_]); [apply run_one |].
Qed.

(** ** The data arrive *)

(** The word after the path is no address of the route. *)
Context (beyond : Z) (ptr : Z) (spkt : pkt_t).
Hypothesis Hbeyond : ∀ h, h ∈ all → ¬ mine (I (h_to h)) beyond.
Hypothesis Hqueue : (ptr, spkt) ∈ q (h_from first).
Hypothesis Hdst : pkt_dst spkt = D.
Hypothesis Hpkt : packet_ok (with_path (h_addr first :: (h_raddr <$> all)) spkt).
Hypothesis Htype : pkt_type spkt = DATA.

#[local] Abbreviation data := (with_path (h_addr first :: (h_raddr <$> all)) spkt).

Lemma data_fields : pkt_type data = DATA ∧ pkt_dst data = D ∧ pkt_path data = h_addr first :: (h_raddr <$> all).
Proof. done. Qed.

(** The host gets the packet. *)
Definition arrives N n p : Prop :=
  ∃ s w w' evs, (n, s, packet_bytes p) ∈ wire N ∧ hosts N !! n = Some w ∧
    dump_receive_cb rand w s [Rx (packet_bytes p)] T0 beyond = Ok (w', evs, RetPkt p).

(** The reply at the sender, for which a packet waits. *)
Lemma reply_at_sender post N :
  all = first :: post → good N →
  ∃ w, hosts N !! h_from first = Some w ∧
    dump_receive_cb rand w (h_sock first) [Rx (packet_bytes (reply [] first post))] T0 beyond = Undef.
Proof.
  intros Heq Hg. destruct (hop_in first first_in) as (Hh & Hfrom & Hto).
  destruct (socks first Hh first_in) as [Hs0 _].
  destruct (Hg _ Hfrom) as (w & Hw & Hst). pose proof Hst as [(m & m2 & Hok & HF) HI Hdead Hout Hq].
  apply Forall_cons in HF as [Hm _]. exists w. split; [done |].
  destruct (cb_receive rand T0 P I _ w _ _ (h_sock first) (reply [] first post) T0 beyond Hst) as [evs ->].
  { by apply reply_ok. }
  { apply now_ok. }
  assert (pkt_path (reply [] first post) = h_addr first :: (h_raddr <$> all)) as Hpath by (by rewrite Heq).
  assert (dump_receive_Rr rand w T0 (reply [] first post) = Undef) as Hrr.
  { unfold dump_receive_Rr.
    destruct (reply_begins (I (h_from first)) w T0 (reply [] first post) m m2 (ho_RR _ _ _ _ _ Hok) Hm
                (ho_Rr _ _ _ _ _ Hok) HI) as (h & HRh & -> & -> & Hmy). cbn [mbind result_bind].
    rewrite Hpath, Hmy, bool_decide_true by (cbn [reply pkt_dst]; rewrite Hsrc; by apply mine_from).
    cbn [mbind result_bind]. rewrite (send_waiting_freed (P (h_from first))) by apply Hok.
    change (send_wq (set_Rrseen h w)) with (send_wq w). change (pkt_src (reply [] first post)) with D.
    destruct (List.filter (to_dst D) (send_wq w)) as [| [b x] qq] eqn:Hf.
    { assert (List.In (ptr, spkt) []) as []. rewrite <-Hf, Hq. apply List.filter_In.
      rewrite <-list_elem_of_In. split; [done |]. unfold to_dst. cbn. rewrite Hdst. apply Z.eqb_refl. }
    rewrite Hpath, Heq. cbn [fmap list_fmap second_hop]. rewrite (hp_port _ Hh). change (default 0 (Some (h_sock first))) with (h_sock first).
    rewrite (proj2 (Z.eqb_neq _ _)) by done. unfold dump_send_real.
    destruct (guard_ub _); [| done]. cbn [lift mbind result_bind set_Rrseen dead]. rewrite Hdead.
    rewrite bool_decide_false by apply not_elem_of_nil. done. }
  unfold handle. cbn [reply pkt_type]. change (Rr =? RR) with false. change (Rr =? Rr) with true. cbv iota.
  unfold reply in Hrr |- *. by rewrite Hrr.
Qed.

Lemma data_phase post : ∀ pre h N,
  all = pre ++ h :: post → (∀ g, g ∈ all → holds N (h_to g) [r1] (q (h_to g))) →
  (h_to h, h_rsock h, packet_bytes data) ∈ wire N →
  ∃ tr N', run rand peer T0 N tr N' ∧ arrives N' (h_to l) data.
Proof.
  induction post as [| h' post IH]; intros pre h N Heq Hg Hmsg.
  { assert (h = l) as -> by (rewrite Heq, last_snoc in Hlast; by simplify_eq).
    assert (l ∈ all) as Hin by (rewrite Heq; apply elem_of_app; right; left).
    destruct (Hg l Hin) as (w & Hw & Hst).
    destruct (cb_handle rand T0 P I (h_to l) w _ _ (h_rsock l) data T0 beyond w (RetPkt data) Hst Hpkt now_ok)
      as [evs Hcb].
    { destruct data_fields as (Ht & Hds & Hpa). unfold handle, dump_receive_DATA. rewrite Ht, Hds, Hpa.
      rewrite (is_myid_spec (I (h_to l))) by apply Hst. by rewrite bool_decide_true by apply HD. }
    exists [], N. split; [constructor |]. by exists (h_rsock l), w, w, evs. }
  assert (all = (pre ++ [h]) ++ h' :: post) as Heq' by (by rewrite Heq, <-app_assoc).
  assert (h ∈ all) as Hin by (rewrite Heq; apply elem_of_app; right; left).
  assert (h' ∈ all) as Hin' by (rewrite Heq; apply elem_of_app; right; right; left).
  destruct (hop_in h Hin) as (Hh & Hfrom & Hto). destruct (hop_in h' Hin') as (Hh' & Hfrom' & Hto').
  destruct (socks h' Hh' Hin') as [Hs0 _]. pose proof (chain_at _ _ _ _ Heq) as Hch.
  destruct (Hg h Hin) as (w & Hw & Hst).
  assert (handle rand w T0 beyond data = Ok (add_out [Send (h_sock h') (packet_bytes data)] w, RetNull)) as Hhd.
  { destruct data_fields as (Ht & Hds & Hpa). unfold handle, dump_receive_DATA. rewrite Ht, Hds, Hpa.
    rewrite (is_myid_spec (I (h_to h))) by apply Hst. rewrite bool_decide_false by by eapply not_dest.
    cbn [mbind result_bind]. change (DATA =? RR) with false. change (DATA =? Rr) with false.
    change (DATA =? DATA) with true. cbv iota. rewrite <-Hpa.
    apply (forward_DATA_at P I (h_to h) w data beyond (h_addr first :: (h_raddr <$> pre))
             ((h_raddr <$> post) ++ [beyond]) (h_raddr h) (h_raddr h')).
    - apply Hst.
    - by eapply st_ports.
    - apply Hst.
    - apply Hpkt.
    - rewrite Hpa, Heq, fmap_app. cbn. by rewrite <-app_assoc.
    - by apply mine_to.
    - change (h_raddr h' :: ?x ++ [beyond]) with ((h_raddr h' :: x) ++ [beyond]).
      apply Forall_app. split; [| by constructor; [apply Hbeyond |]].
      change (h_raddr h' :: _) with (h_raddr <$> h' :: post). apply Forall_fmap, Forall_forall. intros g Hg'.
      assert (g ∈ all) as Hga by (rewrite Heq'; apply elem_of_app; by right).
      destruct (hop_in g Hga) as (Hgo & _ & Hgt).
      apply (not_mine _ (h_to g)); [done | done | | by apply mine_to].
      intros Hq. apply (split_NoDup h_to pre h (h' :: post) g); [apply Hroute | done | | done].
      apply elem_of_app. by right.
    - rewrite Hch. apply Hh'.
    - done.
    - rewrite Hpa, Heq, fmap_app, length_app. cbn. rewrite length_app. cbn. lia. }
  destruct (deliver_packet rand peer T0 P I N (h_to h) (h_rsock h) data _ _ T0 beyond w _ RetNull
              Hmsg Hw Hst Hpkt now_ok Hhd) as (N1 & Hdl & HN1 & Hpost).
  destruct (IH (pre ++ [h]) h' N1) as (tr & N' & Hrun & Harr); [done | | |].
  - intros g Hg'. destruct (decide (h_to g = h_to h)) as [Ht |].
    + rewrite Ht. eapply holds_new; [exact HN1 |]. by apply st_add_out.
    + eapply holds_same; [exact HN1 | done |]. by apply Hg.
  - apply (Hpost (h_sock h')); [cbn; apply elem_of_app; right; by left | rewrite Hch; apply Hh'].
  - eexists (_ :: tr), N'. split; [| done]. by eapply (run_trans _ [_]); [apply run_one |].
Qed.

(** From the request to the reply at the sender; the data on the first connection arrive. *)
Lemma request_answered N w :
  good N → hosts N !! h_to l = Some w → (rand (seed w)).1 = r1 →
  (∀ h, h ∈ all → holds N (h_to h) [id; r1] (q (h_to h))) →
  (h_to first, h_rsock first, packet_bytes (request [first])) ∈ wire N →
  let p := Pkt D src r1 Rr 0 (h_addr first :: (h_raddr <$> all)) [] in
  ∃ tr N' w', run rand peer T0 N tr N' ∧ (h_from first, h_sock first, packet_bytes p) ∈ wire N' ∧
    hosts N' !! h_from first = Some w' ∧
    dump_receive_cb rand w' (h_sock first) [Rx (packet_bytes p)] T0 beyond = Undef ∧
    ∃ tr2 N2, run rand peer T0 (Net (hosts N') (wire N' ++ [(h_to first, h_rsock first, packet_bytes data)])) tr2 N2 ∧
      arrives N2 (h_to l) data.
Proof.
  intros Hg Hw Hr Hst Hmsg p.
  destruct (request_phase (tail all) [] first N) as (tr1 & N1 & Hrun1 & Hg1 & Hm1 & Hl1 & Hw1); try done.
  { destruct all; [done |]. cbn in *. by simplify_eq. }
  { intros h Hin. apply Hst. destruct all; [done |]. cbn in *. by simplify_eq. }
  rewrite Hw in Hw1. destruct (answer N1 w) as (pre & N2 & Heq & Hrun2 & Hg2 & Hm2); try done.
  destruct (reply_phase pre l [] N2) as (tr3 & N3 & post & Hrun3 & Hg3 & Heq3 & Hm3); try done.
  assert (reply [] first post = p) as Hp by (unfold reply, p; by rewrite Heq3).
  destruct (reply_at_sender post N3 Heq3 Hg3) as (w' & Hw' & Hundef). rewrite Hp in Hm3, Hundef.
  destruct (data_phase post [] first
    (Net (hosts N3) (wire N3 ++ [(h_to first, h_rsock first, packet_bytes data)]))) as (tr5 & N5 & Hrun5 & Harr);
    [done | | apply elem_of_app; right; by left |].
  { intros g Hg'. destruct (Hg3 (h_to g)) as (wg & ? & ?); [by apply hop_in | by exists wg]. }
  eexists _, N3, w'. split.
  - eapply run_trans; [exact Hrun1 |]. eapply run_trans; [exact Hrun2 | exact Hrun3].
  - split_and!; [done.. |]. by exists tr5, N5.
Qed.

End live.

(** ** Sending *)

Section send.
Variable rand : Z → Z * Z.

(** The first [k] numbers drawn from a state, and the state after them. *)
Fixpoint draws (k : nat) (z : Z) : list Z :=
  match k with O => [] | S k => let '(r, z) := rand z in r :: draws k z end.
Fixpoint state_after (k : nat) (z : Z) : Z :=
  match k with O => z | S k => state_after k (rand z).2 end.

Lemma request_all_total P I n w dst l :
  Repr (myids w) (I n) → dead w = [] → known P I n →
  (∀ k d, (k, d) ∈ l → ∃ s, d = Some s ∧ P n !! k = Some s) →
  ∃ effs, request_all rand w dst l = Ok (add_out effs (set_seed (state_after (length l) (seed w)) w)) ∧
    ∀ k s a, (k, Some s) ∈ l → I n !! sock_str s = Some (inet_ntoa a) → in_range a →
      ∃ id, id ∈ draws (length l) (seed w) ∧ Send s (packet_bytes (Pkt a dst id RR 0 [a] [])) ∈ effs.
Proof.
  intros HI Hdead Hk Hl. revert w HI Hdead.
  induction l as [| [k d] l IH]; intros w HI Hdead; cbn [request_all length draws state_after].
  { exists []. rewrite add_out_nil. split; [by destruct w |]. by intros ? ? ? ?%not_elem_of_nil. }
  specialize (IH ltac:(intros; apply Hl; by right)).
  destruct (Hl k d ltac:(by left)) as (s & -> & Hs). destruct (Hk k s Hs) as (Hs0 & a & HIs & Ha).
  change (sock_of (Some s)) with s. rewrite (get_myid_spec (I n) w s a) by done. cbn [mbind result_bind].
  unfold dump_send_RR, packet_id, dump_mk_pkt_id. change (0 =? 0) with true. cbv iota.
  destruct (rand (seed w)) as [r z] eqn:Er. rewrite send_real_total; [| done |].
  2: { cbn. rewrite Hdead. by intros ?%not_elem_of_nil. }
  cbn [mbind result_bind].
  destruct (IH (add_out [Send s (packet_bytes (Pkt a dst r RR 0 [a] []))] (set_seed z w)) HI Hdead)
    as (effs & -> & Hin).
  exists (Send s (packet_bytes (Pkt a dst r RR 0 [a] [])) :: effs). split.
  { f_equal. unfold add_out. cbn. by rewrite <-app_assoc. }
  intros k' s' a' [Heq | Hin']%elem_of_cons HI' Ha'.
  - simplify_eq. assert (a' = a) as -> by (apply inet_ntoa_inj; congruence || done).
    exists r. split; by left.
  - destruct (Hin k' s' a' Hin' HI' Ha') as (id & Hid & Heff). exists id. split; by right.
Qed.

(** Every address of the host is one. *)
Definition addresses (m : gmap string string) : Prop :=
  map_Forall (λ _ v, ∃ a, v = inet_ntoa a ∧ in_range a) m ∧ m ≠ ∅.

Lemma default_id (m : gmap string string) w :
  Repr (myids w) m → addresses m → ∃ a, dump_get_myid w 0 = Ok a ∧ mine m a ∧ in_range a.
Proof.
  intros HR [Hall Hne]. destruct (entries_Repr _ _ HR) as (l & Hl & Hp). unfold dump_get_myid.
  change (0 =? 0) with true. cbv iota. rewrite Hl. cbn [lift mbind result_bind].
  destruct l as [| [k d] l].
  { exfalso. apply Hne. apply map_to_list_empty_iff. apply Permutation_nil in Hp.
    by destruct (map_to_list m). }
  assert ((k, d) ∈ prod_map id Some <$> map_to_list m) as Hin by (rewrite <-Hp; left).
  apply list_elem_of_fmap in Hin as ([k' v] & Heq & Hin). cbn in Heq. simplify_eq.
  pose proof Hin as Hv%elem_of_map_to_list. destruct (Hall _ _ Hv) as (a & -> & Ha).
  exists a. cbn [lift mbind result_bind]. rewrite inet_aton_ntoa by done. split; [done |].
  split; [| done]. apply list_elem_of_fmap. by exists (k', inet_ntoa a).
Qed.

(** [dump_send] on a host of the network. *)
Definition sends (peer : Z → Z → option (Z * Z)) N n dst (data : list Z) N' : Prop :=
  ∃ w w', hosts N !! n = Some w ∧ dump_send rand w dst data = Ok w' ∧
    N' = Net (<[n := flush w']> (hosts N)) (wire N ++ posts peer n (out w')).

Lemma dump_send_total T0 P I n w F q dst data :
  host_st T0 P I n w F q → known P I n → addresses (I n) →
  ∃ a w', dump_send rand w dst data = Ok w' ∧ in_range a ∧
    host_st T0 P I n (flush w') F
      (q ++ [(pkt_brk w, Pkt a dst (rand (seed w)).1 DATA 0 [] data)]) ∧
    ∀ k s a, P n !! k = Some s → I n !! sock_str s = Some (inet_ntoa a) → in_range a →
      ∃ id, id ∈ draws (S (base.size (P n))) (seed w) ∧
        Send s (packet_bytes (Pkt a dst id RR 0 [a] [])) ∈ out w'.
Proof.
  intros Hst Hk Haddr. pose proof Hst as [(m & m2 & Hok & HF) HI Hdead Hout Hq].
  destruct (default_id _ _ HI Haddr) as (a & Ha & _ & Hra). unfold dump_send. rewrite Ha.
  cbn [mbind result_bind]. unfold dump_mk_pkt_id. destruct (rand (seed w)) as [r z] eqn:Er.
  pose proof (ho_ports _ _ _ _ _ Hok) as HR.
  destruct (entries_Repr _ _ HR) as (l & Hl & Hp).
  change (entries (ports (dump_add_send_queue ?w ?p))) with (entries (ports w)).
  change (entries (ports (set_seed z w))) with (entries (ports w)).
  rewrite Hl. cbn [lift mbind result_bind].
  set (w1 := dump_add_send_queue (set_seed z w) (Pkt a dst r DATA 0 [] data)).
  destruct (request_all_total P I n w1 dst l HI Hdead Hk) as (effs & -> & Hin).
  { intros k d. by apply (entries_in P n w). }
  exists a. eexists. split; [done |]. split; [done |]. split.
  - split; try done; [| cbn; by rewrite Hq]. exists m, m2. split; [| done]. destruct Hok. split; try done.
    cbn. apply Forall_app. split; [done |]. by constructor.
  - intros k s a' Hs HIs Ha'. cbn [draws]. rewrite Er.
    assert (length l = base.size (P n)) as <- by (by rewrite Hp, length_fmap, length_map_to_list).
    destruct (Hin k s a') as (id & Hid & Heff); [| done | done |].
    { apply (entries_in P n w); [done | done |]. by exists s. }
    exists id. split; [by right |]. cbn. apply elem_of_app. by right.
Qed.

End send.

(** ** The whole exchange *)

Section exchange.
Variable rand : Z → Z * Z.
Variable peer : Z → Z → option (Z * Z).
Variable T0 : Z.
Variable P : Z → gmap string Z.
Variable I : Z → gmap string string.
Variable q : Z → list (Z * pkt_t).

(** A route from the host of [w0] to that of [wl], which owns [D]; hosts that work; and
    numbers ([rand]) that none of them has seen: [r1] for the reply, and those the sender
    draws. *)
Record scene (all : list hop) (first l : hop) (D beyond : Z) (data : list Z) w0 wl N : Prop := {
  sc_route : route_ok peer P I all;
  sc_first : head all = Some first;
  sc_last : last all = Some l;
  sc_length : Z.of_nat (length all) < 2 ^ 20;
  sc_dst : in_range D ∧ mine (I (h_to l)) D;
  sc_beyond h : h ∈ all → ¬ mine (I (h_to h)) beyond;
  sc_addr : addresses (I (h_from first));
  sc_w0 : hosts N !! h_from first = Some w0;
  sc_wl : hosts N !! h_to l = Some wl;
  sc_st0 : host_st T0 P I (h_from first) w0 [(rand (seed wl)).1] (q (h_from first));
  sc_st h : h ∈ all → holds T0 P I N (h_to h)
    ((rand (seed wl)).1 :: draws rand (S (base.size (P (h_from first)))) (seed w0)) (q (h_to h));
  sc_reply : 0 < (rand (seed wl)).1 < 2 ^ 32;
  sc_draws : Forall (λ id, 0 < id < 2 ^ 32 ∧ id ≠ (rand (seed wl)).1)
    (draws rand (S (base.size (P (h_from first)))) (seed w0));
  sc_data : Z.of_nat (24 + 4 * S (length all) + length data) < 2 ^ 31;
}.

Lemma hosts_of_first (all : list hop) first n :
  route_ok peer P I all → head all = Some first → n ∈ hosts_of all →
  n = h_from first ∨ ∃ h, h ∈ all ∧ n = h_to h.
Proof.
  intros Hr Hf [(h & -> & Hin)%list_elem_of_fmap | (h & -> & Hin)%list_elem_of_fmap]%elem_of_app; [| by eauto].
  apply list_elem_of_lookup in Hin as [[| i] Hi].
  - left. destruct all; [done |]. cbn in *. by simplify_eq.
  - right. destruct (lookup_lt_is_Some_2 all i) as [g Hg]; [apply lookup_lt_Some in Hi; lia |].
    exists g. split; [by eapply list_elem_of_lookup_2 |]. symmetry. by apply (ro_chain _ _ _ _ Hr i).
Qed.

Lemma st_sub n w F F' qq : (∀ id, id ∈ F' → id ∈ F) → host_st T0 P I n w F qq → host_st T0 P I n w F' qq.
Proof.
  intros Hsub [(m & m2 & Hok & HF) ? ? ? ?]. split; try done. exists m, m2. split; [done |].
  rewrite Forall_forall in *. auto.
Qed.

(** The packet that waits for the route, and the network after [dump_send]. *)
Definition waiting w0 D data a : pkt_t := Pkt a D (rand (seed w0)).1 DATA 0 [] data.
Definition queues_sent first w0 D data a (n : Z) : list (Z * pkt_t) :=
  if decide (n = h_from first) then q (h_from first) ++ [(pkt_brk w0, waiting w0 D data a)] else q n.

Section sent.
Context {all : list hop} {first l : hop} {D beyond : Z} {data : list Z}.
Context {w0 wl : dump_world_t} {N : net}.
Context (Hsc : scene all first l D beyond data w0 wl N).

Let spkt := waiting w0 D data.
Let q' := queues_sent first w0 D data.
Let N1 w' := Net (<[h_from first := flush w']> (hosts N)) (wire N ++ posts peer (h_from first) (out w')).

Lemma not_sender h : h ∈ all → h_to h ≠ h_from first.
Proof using Hsc.
  destruct Hsc as [Hroute Hf _ _ _ _ _ _ _ _ _ _ _ _]. intros Hh Heq.
  apply (ro_first _ _ _ _ Hroute first Hf). rewrite <-Heq. by apply list_elem_of_fmap_2.
Qed.

Lemma queue_first a : q' a (h_from first) = q (h_from first) ++ [(pkt_brk w0, spkt a)].
Proof. unfold q', queues_sent. by rewrite decide_True. Qed.

Lemma sent_packet_ok a : in_range a → packet_ok (with_path (h_addr first :: (h_raddr <$> all)) (spkt a)).
Proof using Hsc.
  intros Ha. destruct Hsc as [Hroute Hf _ _ HD _ _ _ _ _ _ _ Hdraws Hdata].
  pose proof (ro_hops _ _ _ _ Hroute) as Hall. rewrite Forall_forall in Hall. rewrite Forall_forall in Hdraws.
  destruct (Hdraws (rand (seed w0)).1) as [Hr0 _].
  { cbn. destruct (rand (seed w0)). by left. }
  split; try done.
  - apply HD.
  - cbn. lia.
  - constructor; [|].
    + apply Hall. destruct all; cbn in *; simplify_eq. by left.
    + apply Forall_fmap, Forall_forall. intros h Hh. apply (Hall h Hh).
  - rewrite length_packet. cbn. rewrite length_fmap. lia.
Qed.

Lemma sent_holds a w' id h F :
  id ∈ draws rand (S (base.size (P (h_from first)))) (seed w0) →
  h ∈ all → (∀ i, i ∈ F → i = (rand (seed wl)).1 ∨ i = id) → holds T0 P I (N1 w') (h_to h) F (q' a (h_to h)).
Proof using Hsc.
  intros Hid Hh HF. destruct (sc_st _ _ _ _ _ _ _ _ _ Hsc h Hh) as (w & Hw & Hs).
  pose proof (not_sender h Hh) as Hne. exists w. split.
  - cbn. by rewrite lookup_insert_ne.
  - unfold q', queues_sent. rewrite decide_False by done. eapply st_sub; [| exact Hs]. intros i [-> | ->]%HF; [left | by right].
Qed.

Lemma sent_good a w' id :
  host_st T0 P I (h_from first) (flush w') [(rand (seed wl)).1] (q' a (h_from first)) →
  id ∈ draws rand (S (base.size (P (h_from first)))) (seed w0) →
  ∀ n, n ∈ hosts_of all → holds T0 P I (N1 w') n [(rand (seed wl)).1] (q' a n).
Proof using Hsc.
  intros Hst Hid n Hn. pose proof (sc_route _ _ _ _ _ _ _ _ _ Hsc) as Hroute.
  destruct (hosts_of_first all first n Hroute (sc_first _ _ _ _ _ _ _ _ _ Hsc) Hn) as [-> | (h & Hh & ->)].
  - exists (flush w'). split; [cbn; apply lookup_insert_eq | done].
  - apply (sent_holds a w' id); [done | done |]. intros i ->%list_elem_of_singleton. by left.
Qed.
End sent.


End exchange.

(** ** Three hosts in a line *)

(** A host with the connections [ls]: a socket, the address on this side, the other. *)
Fixpoint connected (ls : list (Z * Z * Z)) w : result dump_world_t :=
  match ls with
  | [] => Ok w
  | (s, my, pr) :: ls =>
      w ← connected ls w; w ← dump_add_neighbor w s pr; dump_add_myid w my s
  end.
Definition ports_of (ls : list (Z * Z * Z)) : gmap string Z :=
  foldr (λ '(s, _, pr) m, <[inet_ntoa pr := s]> m) ∅ ls.
Definition ids_of (ls : list (Z * Z * Z)) : gmap string string :=
  foldr (λ '(s, my, _) m, <[sock_str s := inet_ntoa my]> m) ∅ ls.

Lemma connected_st T0 P I n ls z F :
  Forall (λ x, x.1.1 ≠ 0) ls → P n = ports_of ls → I n = ids_of ls →
  ∃ w, connected ls (dump_init z) = Ok w ∧ host_st T0 P I n w F [] ∧ seed w = z.
Proof.
  intros Hs HP HI.
  assert (∃ w, connected ls (dump_init z) = Ok w ∧ Repr (ports w) (ports_of ls) ∧ Repr (myids w) (ids_of ls) ∧
            Repr (RRrecently_seen w) ∅ ∧ Repr (Rrrecently_seen w) ∅ ∧ dead w = [] ∧ out w = [] ∧
            send_wq w = [] ∧ seed w = z) as (w & Hw & Hp & Hi & H1 & H2 & H3 & H4 & H5 & H6).
  { clear HP HI. induction Hs as [| [[s my] pr] ls Hs _ IH].
    - exists (dump_init z). split; [done |]. split_and!; try done; by apply hash_create_Repr.
    - destruct IH as (w & Hw & Hp & Hi & ? & ? & ? & ? & ? & ?). cbn [connected]. rewrite Hw.
      cbn [mbind result_bind]. unfold dump_add_neighbor, sock_ptr. rewrite (proj2 (Z.eqb_neq _ _)) by done.
      destruct (hash_add_to_Repr _ _ (inet_ntoa pr) s Hp) as (h1 & r & -> & HR1 & _).
      cbn [lift mbind result_bind]. unfold dump_add_myid.
      change (myids (set_ports h1 w)) with (myids w).
      destruct (hash_add_to_Repr _ _ (sock_str s) (inet_ntoa my) Hi) as (h2 & r2 & -> & HR2 & _).
      eexists. split; [done |]. by split_and!. }
  exists w. split; [done |]. split; [| done]. split; try done; [| by rewrite HI].
  exists ∅, ∅. split; [| apply Forall_forall; intros; apply lookup_empty].
  split; try done; [by rewrite HP | by rewrite H5; constructor].
Qed.

Definition line_conns (n : Z) : list (Z * Z * Z) :=
  if n =? 1 then [(3, addr 10 0 1 1, addr 10 0 1 2)]
  else if n =? 2 then [(3, addr 10 0 1 2, addr 10 0 1 1); (4, addr 10 0 2 2, addr 10 0 2 3)]
  else [(3, addr 10 0 2 3, addr 10 0 2 2)].
Definition line_P (n : Z) : gmap string Z := ports_of (line_conns n).
Definition line_I (n : Z) : gmap string string := ids_of (line_conns n).
Definition line_peer (n s : Z) : option (Z * Z) :=
  if n =? 1 then Some (2, 3) else if n =? 3 then Some (2, 4) else if s =? 3 then Some (1, 3) else Some (3, 3).
Definition line_host (n z : Z) : dump_world_t := or_init (connected (line_conns n) (dump_init z)).
Definition line_net : net := Net {[1 := line_host 1 1; 2 := line_host 2 50; 3 := line_host 3 100]} [].
Definition hop1 : hop := Hop 1 3 (addr 10 0 1 1) 2 3 (addr 10 0 1 2).
Definition hop2 : hop := Hop 2 4 (addr 10 0 2 2) 3 3 (addr 10 0 2 3).

Lemma line_st n z F : host_st 0 line_P line_I n (line_host n z) F [].
Proof.
  destruct (connected_st 0 line_P line_I n (line_conns n) z F) as (w & Hw & Hst & _); [| done | done |].
  - unfold line_conns. repeat case_match; by repeat constructor.
  - unfold line_host. by rewrite Hw.
Qed.

Lemma line_mine n a :
  mine (line_I n) a ↔ inet_ntoa a ∈ (if n =? 1 then ["10.0.1.1"]
                                   else if n =? 2 then ["10.0.1.2"; "10.0.2.2"] else ["10.0.2.3"]).
Proof.
  unfold mine. assert ((map_to_list (line_I n)).*2 = (if n =? 1 then ["10.0.1.1"]
    else if n =? 2 then ["10.0.1.2"; "10.0.2.2"] else ["10.0.2.3"])) as ->; [| done].
  unfold line_I, line_conns. by repeat case_match.
Qed.

Ltac line_cases :=
  repeat match goal with
  | H : _ ∈ _ :: _ |- _ => apply elem_of_cons in H as [H | H]
  | H : _ ∈ [] |- _ => by apply not_elem_of_nil in H
  end.

Lemma line_route : route_ok line_peer line_P line_I [hop1; hop2].
Proof.
  split.
  - repeat constructor; vm_compute; congruence.
  - intros [| [| i]] h h' H1 H2; cbn in *; by simplify_eq.
  - by apply (bool_decide_unpack _).
  - by apply (bool_decide_unpack _).
  - intros h [= <-]. by apply (bool_decide_unpack _).
  - apply Forall_forall. intros n Hn. cbn in Hn. line_cases; subst; intros k s Hs%elem_of_map_to_list.
    all: match type of Hs with _ ∈ ?m => let v := eval vm_compute in m in change m with v in Hs end.
    all: line_cases; simplify_eq; (split; [done |]).
    all: first [exists (addr 10 0 1 1); by vm_compute | exists (addr 10 0 1 2); by vm_compute |
                exists (addr 10 0 2 2); by vm_compute | exists (addr 10 0 2 3); by vm_compute].
  - intros n1 n2 a H1 H2 Hm1%line_mine Hm2%line_mine. cbn in H1, H2. line_cases; subst; cbn in *; line_cases; congruence.
Qed.

