(* ===== verification/ElfSym.v ===== *)
(** * ELF symbols (src/libelfsh/sym_common.c, sort.c, and the hash of hash.c)

    The build is ERESI32 on a little-endian host: an [elfsh_Sym] is an [Elf32_Sym] of 16
    bytes.  A pointer to a symbol is an [option]; the functions that change what it points
    to give the new symbol back.  [qsort] is that of the C library: any function that sorts
    by the comparison it is given. *)
From Stdlib Require Import Sorted.
From S2P Require Import Prelude.

(** ** Symbols in memory *)

Record elfsh_Sym := Sym {
  st_name : Z;
  st_value : Z;
  st_size : Z;
  st_info : Z;
  st_other : Z;
  st_shndx : Z;
}.

Definition set_st_name (x : Z) (s : elfsh_Sym) : elfsh_Sym :=
  Sym x (st_value s) (st_size s) (st_info s) (st_other s) (st_shndx s).
Definition set_st_value (x : Z) (s : elfsh_Sym) : elfsh_Sym :=
  Sym (st_name s) x (st_size s) (st_info s) (st_other s) (st_shndx s).
Definition set_st_size (x : Z) (s : elfsh_Sym) : elfsh_Sym :=
  Sym (st_name s) (st_value s) x (st_info s) (st_other s) (st_shndx s).
Definition set_st_info (x : Z) (s : elfsh_Sym) : elfsh_Sym :=
  Sym (st_name s) (st_value s) (st_size s) x (st_other s) (st_shndx s).
Definition set_st_other (x : Z) (s : elfsh_Sym) : elfsh_Sym :=
  Sym (st_name s) (st_value s) (st_size s) (st_info s) x (st_shndx s).
Definition set_st_shndx (x : Z) (s : elfsh_Sym) : elfsh_Sym :=
  Sym (st_name s) (st_value s) (st_size s) (st_info s) (st_other s) x.

(** The [n] bytes of a number, the lowest first, and the number of bytes. *)
Fixpoint le_bytes (n : nat) (z : Z) : list Z :=
  match n with O => [] | S n => z mod 256 :: le_bytes n (z / 256) end.
Fixpoint le_value (l : list Z) : Z :=
  match l with [] => 0 | b :: l => b + 256 * le_value l end.

Definition sym_size : nat := 16.
Definition sym_bytes (s : elfsh_Sym) : list Z :=
  le_bytes 4 (st_name s) ++ le_bytes 4 (st_value s) ++ le_bytes 4 (st_size s) ++
  le_bytes 1 (st_info s) ++ le_bytes 1 (st_other s) ++ le_bytes 2 (st_shndx s).

(** [(elfsh_Sym * ) data] as an array: the whole symbols of the data. *)
Fixpoint syms (d : list Z) : list elfsh_Sym :=
  match d with
  | n0 :: n1 :: n2 :: n3 :: v0 :: v1 :: v2 :: v3 :: s0 :: s1 :: s2 :: s3 ::
      i :: o :: x0 :: x1 :: d =>
      Sym (le_value [n0; n1; n2; n3]) (le_value [v0; v1; v2; v3]) (le_value [s0; s1; s2; s3])
        i o (le_value [x0; x1]) :: syms d
  | _ => []
  end.

(** [symtab[idx] = s] *)
Definition put_sym (d : list Z) (idx : nat) (s : elfsh_Sym) : list Z :=
  take (sym_size * idx) d ++ sym_bytes s ++ drop (sym_size * S idx) d.

(** ** Fields (sym_common.c) *)

Definition STT_OBJECT : Z := 1.
Definition STT_FUNC : Z := 2.
Definition STT_SECTION : Z := 3.
Definition STT_COMMON : Z := 5.
Definition STT_BLOCK : Z := 7.

Definition ELFSH_ST_BIND (info : Z) : Z := u8 info ≫ 4.
Definition ELFSH_ST_TYPE (info : Z) : Z := info &&& 15.
Definition ELFSH_ST_INFO (bind type : Z) : Z := bind ≪ 4 + (type &&& 15).
Definition ELFSH_ST_VISIBILITY (other : Z) : Z := other &&& 3.

Definition elfsh_get_symbol_size (s : option elfsh_Sym) : Z :=
  match s with None => u32 (-1) | Some s => st_size s end.
Definition elfsh_set_symbol_size (s : option elfsh_Sym) (size : Z) : option elfsh_Sym * Z :=
  match s with None => (None, -1) | Some s => (Some (set_st_size (u32 size) s), 0) end.
Definition elfsh_get_symbol_value (s : option elfsh_Sym) : Z :=
  match s with None => u32 (-1) | Some s => st_value s end.
Definition elfsh_set_symbol_value (s : option elfsh_Sym) (value : Z) : option elfsh_Sym * Z :=
  match s with None => (None, -1) | Some s => (Some (set_st_value value s), 0) end.
Definition elfsh_get_symbol_bind (s : option elfsh_Sym) : Z :=
  match s with None => u8 (-1) | Some s => u8 (ELFSH_ST_BIND (st_info s)) end.
Definition elfsh_set_symbol_bind (s : option elfsh_Sym) (opt : Z) : option elfsh_Sym * Z :=
  match s with
  | None => (None, u8 (-1))
  | Some s => (Some (set_st_info (u8 ((st_info s &&& 15) + ((i8 opt ≪ 4) &&& 240))) s), 0)
  end.
Definition elfsh_get_symbol_type (s : option elfsh_Sym) : Z :=
  match s with None => u8 (-1) | Some s => u8 (ELFSH_ST_TYPE (st_info s)) end.
Definition elfsh_set_symbol_type (s : option elfsh_Sym) (type : Z) : option elfsh_Sym * Z :=
  match s with
  | None => (None, u8 (-1))
  | Some s => (Some (set_st_info (u8 ((st_info s &&& 240) + (i8 type &&& 15))) s), 0)
  end.
Definition elfsh_get_symbol_visibility (s : option elfsh_Sym) : Z :=
  match s with None => u8 (-1) | Some s => u8 (ELFSH_ST_VISIBILITY (st_other s)) end.
Definition elfsh_set_symbol_visibility (s : option elfsh_Sym) (vis : Z) : option elfsh_Sym * Z :=
  match s with
  | None => (None, u32 (-1))
  | Some s => (Some (set_st_other (u8 (ELFSH_ST_VISIBILITY (i8 vis))) s), 0)
  end.
Definition elfsh_get_symbol_link (s : option elfsh_Sym) : Z :=
  match s with None => u32 (-1) | Some s => st_shndx s end.
Definition elfsh_set_symbol_link (s : option elfsh_Sym) (val : Z) : option elfsh_Sym * Z :=
  match s with None => (None, u32 (-1)) | Some s => (Some (set_st_shndx (u16 (u32 val)) s), 0) end.

Definition elfsh_create_symbol (value size type binding vis sctidx : Z) : elfsh_Sym :=
  Sym 0 value (u32 size) (u8 (ELFSH_ST_INFO binding type)) (u8 vis) (u16 sctidx).

Definition DUMPABLE (s : elfsh_Sym) : bool :=
  let t := elfsh_get_symbol_type (Some s) in
  (t =? STT_FUNC) || (t =? STT_OBJECT) || (t =? STT_COMMON) || (t =? STT_SECTION) || (t =? STT_BLOCK).
Definition BESTYPE (cand best : elfsh_Sym) : bool :=
  let c := elfsh_get_symbol_type (Some cand) in
  let b := elfsh_get_symbol_type (Some best) in
  (c =? STT_FUNC) || ((c =? STT_SECTION) && negb (b =? STT_FUNC)) ||
  ((c =? STT_BLOCK) && negb (b =? STT_FUNC) && negb (b =? STT_SECTION)).

(** ** Search by value *)

Definition ELFSH_UNSET_OFFSET : Z := 2 ^ 30.
Definition ELFSH_LOWSYM : Z := 1.
Definition ELFSH_HIGHSYM : Z := 2.
Definition ELFSH_EXACTSYM : Z := 3.

(** [low], [high] and [good] are indexes in the table. *)
Record search := Search {
  low : option Z; low_off : Z; high : option Z; high_off : Z; good : option Z
}.

(** Differences of addresses are unsigned, the offsets are kept in an [int]. *)
Definition search_step (vaddr idx : Z) (s : elfsh_Sym) (r : search) : search :=
  if (st_value s <? vaddr) && (u32 (vaddr - st_value s) <? u32 (low_off r)) then
    Search (Some idx) (i32 (u32 (vaddr - st_value s))) (high r) (high_off r) (good r)
  else if (vaddr <? st_value s) && (u32 (st_value s - vaddr) <? u32 (high_off r)) then
    Search (low r) (low_off r) (Some idx) (i32 (u32 (st_value s - vaddr))) (good r)
  else if st_value s =? vaddr then
    Search (low r) (low_off r) (high r) (high_off r) (Some idx)
  else r.

Fixpoint search_loop (vaddr idx : Z) (l : list elfsh_Sym) (r : search) : search :=
  match l with
  | [] => r
  | s :: l => search_loop vaddr (idx + 1) l (search_step vaddr idx s r)
  end.

(** The index of the symbol, and what is written through [off] when it is not NULL. *)
Definition elfsh_get_sym_by_value (sym : option (list elfsh_Sym)) (num vaddr mode : Z) :
    option (option Z * option Z) :=
  match sym with
  | Some sym =>
      if num =? 0 then Some (None, None) else
      _ ← guard_ub (bool_decide (num ≤ Z.of_nat (length sym)));
      let r := search_loop vaddr 0 (take (Z.to_nat num) sym)
                 (Search None ELFSH_UNSET_OFFSET None ELFSH_UNSET_OFFSET None) in
      Some match good r with
           | Some g => (Some g, Some 0)
           | None =>
               if mode =? ELFSH_LOWSYM then (low r, Some (low_off r))
               else if mode =? ELFSH_HIGHSYM then (high r, Some (high_off r))
               else (None, None)
           end
  | None => Some (None, None)
  end.

(** ** Copies and sorting (sym_common.c, sort.c) *)

Definition elfsh_copy_symtab (data : option (list elfsh_Sym)) (size : Z) :
    option (option (list elfsh_Sym)) :=
  match data with
  | Some l =>
      if size =? 0 then Some None
      else _ ← guard_ub (bool_decide (0 ≤ size ≤ Z.of_nat (length l))); Some (Some (take (Z.to_nat size) l))
  | None => Some None
  end.

Definition sizesort_compare (p q : elfsh_Sym) : Z :=
  if st_size p <? st_size q then -1 else if st_size q <? st_size p then 1 else 0.
Definition addrsort_compare (p q : elfsh_Sym) : Z :=
  if st_value p <? st_value q then -1 else if st_value q <? st_value p then 1 else 0.

(** What [qsort] does with a comparison that is a total order: which of the elements that
    compare equal comes first is not specified. *)
Class Qsort := {
  qsort : (elfsh_Sym → elfsh_Sym → Z) → list elfsh_Sym → list elfsh_Sym;
  qsort_perm cmp l : qsort cmp l ≡ₚ l;
  qsort_sorted (key : elfsh_Sym → Z) cmp l :
    (∀ p q, cmp p q ≤ 0 ↔ key p ≤ key q) → StronglySorted Z.le (key <$> qsort cmp l);
}.

Definition ELFSH_SORT_BY_ADDR : Z := 97.
Definition ELFSH_SORT_BY_SIZE : Z := 115.

Section sort.
Context `{!Qsort}.

Definition elfsh_sort_symtab (symtab : option (list elfsh_Sym)) (size type : Z) :
    option (option (list elfsh_Sym) * Z) :=
  match symtab with
  | Some l =>
      if size =? 0 then Some (symtab, -1)
      else if (type =? ELFSH_SORT_BY_SIZE) || (type =? ELFSH_SORT_BY_ADDR) then
        _ ← guard_ub (bool_decide (0 ≤ size ≤ Z.of_nat (length l)));
        let cmp := if type =? ELFSH_SORT_BY_SIZE then sizesort_compare else addrsort_compare in
        Some (Some (qsort cmp (take (Z.to_nat size) l) ++ drop (Z.to_nat size) l), 0)
      else Some (symtab, -1)
  | None => Some (symtab, -1)
  end.
End sort.

(** ** The hash of a name (hash.c) *)

(** [unsigned long] has [w] bits, a [char] is signed. *)
Definition hash_step (w h c : Z) : Z :=
  let h := wrapu w (h ≪ 4 + i8 c) in
  let g := h &&& 4026531840 in
  let h := if g =? 0 then h else Z.lxor h (g ≫ 24) in
  Z.land h (wrapu w (Z.lnot g)).

Definition elfsh_get_symbol_hash (w : Z) (name : list Z) : Z := u32 (foldl (hash_step w) 0 name).
