(* ===== verification/ElfSymSpec.v ===== *)
(** * ELF symbols: their encoding, the nearest symbol, sorted tables, the hash of a name *)
From Stdlib Require Import Sorted.
From S2P Require Import Prelude.
From S2P Require Import ElfSym.

Implicit Types (s t : elfsh_Sym) (l : list elfsh_Sym) (d : list Z).

(** ** Encoding *)

Definition sym_ok s : Prop :=
  0 ≤ st_name s < 2 ^ 32 ∧ 0 ≤ st_value s < 2 ^ 32 ∧ 0 ≤ st_size s < 2 ^ 32 ∧
  0 ≤ st_info s < 2 ^ 8 ∧ 0 ≤ st_other s < 2 ^ 8 ∧ 0 ≤ st_shndx s < 2 ^ 16.

(** The data of a table of symbols. *)
Definition enc l : list Z := mjoin (sym_bytes <$> l).

Lemma length_le_bytes n z : length (le_bytes n z) = n.
Proof. revert z. induction n as [| n IH]; intros z; [done |]. cbn. by rewrite IH. Qed.

Lemma le_value_bytes n z : 0 ≤ z < 256 ^ Z.of_nat n → le_value (le_bytes n z) = z.
Proof.
  revert z. induction n as [| n IH]; intros z Hz; cbn [le_bytes le_value].
  - change (256 ^ Z.of_nat 0) with 1 in Hz. lia.
  - rewrite Nat2Z.inj_succ, Z.pow_succ_r in Hz by lia.
    rewrite IH; [pose proof (Z.div_mod z 256); lia |].
    split; [apply Z.div_pos; lia | apply Z.div_lt_upper_bound; lia].
Qed.

Lemma length_sym_bytes s : length (sym_bytes s) = sym_size.
Proof. unfold sym_bytes. by rewrite !length_app, !length_le_bytes. Qed.

Lemma syms_cons s d : sym_ok s → syms (sym_bytes s ++ d) = s :: syms d.
Proof.
  intros (Hn & Hv & Hz & Hi & Ho & Hx).
  pose proof (le_value_bytes 4 (st_name s) Hn) as En. pose proof (le_value_bytes 4 (st_value s) Hv) as Ev.
  pose proof (le_value_bytes 4 (st_size s) Hz) as Ez. pose proof (le_value_bytes 2 (st_shndx s) Hx) as Ex.
  destruct s as [n v z i o x]. cbn [st_name st_value st_size st_info st_other st_shndx] in *.
  unfold sym_bytes. cbn [st_name st_value st_size st_info st_other st_shndx app le_bytes] in *.
  cbn [syms]. rewrite En, Ev, Ez, Ex. rewrite !Z.mod_small by lia. done.
Qed.

Lemma syms_enc l d : Forall sym_ok l → syms (enc l ++ d) = l ++ syms d.
Proof.
  induction 1 as [| s l Hs Hl IH]; [done |]. change (enc (s :: l)) with (sym_bytes s ++ enc l).
  rewrite <-app_assoc, syms_cons by done. cbn [app]. by rewrite IH.
Qed.

Lemma syms_of l : Forall sym_ok l → syms (enc l) = l.
Proof. intros Hl. rewrite <-(app_nil_r (enc l)), syms_enc by done. by rewrite app_nil_r. Qed.

Lemma enc_app l l' : enc (l ++ l') = enc l ++ enc l'.
Proof. unfold enc. by rewrite fmap_app, join_app. Qed.

Lemma enc_cons s l : enc (s :: l) = sym_bytes s ++ enc l.
Proof. done. Qed.

Lemma length_enc l : length (enc l) = (sym_size * length l)%nat.
Proof.
  induction l as [| s l IH]; [done |]. rewrite enc_cons, length_app, length_sym_bytes, IH. cbn. lia.
Qed.

Lemma take_enc l n : take (sym_size * n) (enc l) = enc (take n l).
Proof.
  revert n. induction l as [| s l IH]; intros [| n]; [done | by rewrite !take_nil | done |].
  cbn [take]. rewrite !enc_cons, take_app, length_sym_bytes.
  replace (sym_size * S n - sym_size)%nat with (sym_size * n)%nat by lia.
  rewrite IH, take_ge; [done |]. rewrite length_sym_bytes. lia.
Qed.

Lemma drop_enc l n : drop (sym_size * n) (enc l) = enc (drop n l).
Proof.
  revert n. induction l as [| s l IH]; intros [| n]; [done | by rewrite !drop_nil | done |].
  cbn [drop]. rewrite !enc_cons, drop_app, length_sym_bytes.
  replace (sym_size * S n - sym_size)%nat with (sym_size * n)%nat by lia.
  rewrite IH, drop_ge; [done |]. rewrite length_sym_bytes. lia.
Qed.

Lemma put_enc l i s : (i < length l)%nat → put_sym (enc l) i s = enc (<[i := s]> l).
Proof.
  intros Hi. unfold put_sym. rewrite take_enc, drop_enc, insert_take_drop by done.
  by rewrite enc_app, enc_cons.
Qed.

Lemma Forall_lookup_ok l i s : Forall sym_ok l → l !! i = Some s → sym_ok s.
Proof. intros Hl Hi. eapply Forall_lookup_1; done. Qed.

(** Setting the type of a symbol does not change its binding, and conversely. *)
Lemma nibbles_low x : x &&& 15 = x mod 16.
Proof. change 15 with (Z.ones 4). by rewrite Z.land_ones by lia. Qed.

Lemma nibbles_high x : 0 ≤ x < 256 → x &&& 240 = 16 * (x / 16).
Proof.
  intros Hx. change 240 with (15 ≪ 4). rewrite Z.mul_comm. change 16 with (2 ^ 4).
  rewrite <-Z.shiftl_mul_pow2, <-Z.shiftr_div_pow2 by lia. apply Z.bits_inj'. intros n Hn.
  rewrite Z.land_spec, !Z.shiftl_spec by done. destruct (Z.ltb_spec n 4).
  - by rewrite !(Z.testbit_neg_r _ (n - 4)), andb_false_r by lia.
  - rewrite Z.shiftr_spec, Z.sub_add by lia. change 15 with (Z.ones 4).
    destruct (Z.ltb_spec (n - 4) 4) as [Hlt | Hge].
    + by rewrite Z.ones_spec_low, andb_true_r by lia.
    + rewrite Z.ones_spec_high, andb_false_r by lia. symmetry. apply Z.testbit_false; [done |].
      rewrite Z.div_small; [done |]. split; [lia |].
      apply Z.lt_le_trans with (2 ^ 8); [lia | apply Z.pow_le_mono_r; lia].
Qed.

Lemma nibble_pair hi lo :
  0 ≤ hi < 16 → 0 ≤ lo < 16 →
  u8 (16 * hi + lo) = 16 * hi + lo ∧ (16 * hi + lo) ≫ 4 = hi ∧ (16 * hi + lo) &&& 15 = lo ∧
  (16 * hi + lo) &&& 240 = 16 * hi.
Proof.
  intros Hh Hl. assert ((16 * hi + lo) / 16 = hi) as Ed by (Z.to_euclidean_division_equations; lia).
  rewrite wrapu_small, nibbles_low, nibbles_high, Z.shiftr_div_pow2 by lia. change (2 ^ 4) with 16.
  rewrite Ed. split_and!; try done. Z.to_euclidean_division_equations; lia.
Qed.

Lemma set_bind_info s b :
  0 ≤ b < 16 → elfsh_set_symbol_bind (Some s) b = (Some (set_st_info (16 * b + st_info s mod 16) s), 0).
Proof.
  intros Hb. pose proof (Z.mod_pos_bound (st_info s) 16 ltac:(lia)).
  unfold elfsh_set_symbol_bind. rewrite wraps_small, Z.shiftl_mul_pow2 by lia. change (2 ^ 4) with 16.
  rewrite nibbles_low, nibbles_high, Z.div_mul, wrapu_small by lia. do 3 f_equal. lia.
Qed.

Lemma set_type_info s ty :
  0 ≤ ty < 16 → 0 ≤ st_info s < 256 →
  elfsh_set_symbol_type (Some s) ty = (Some (set_st_info (16 * (st_info s / 16) + ty) s), 0).
Proof.
  intros Hty Hi. unfold elfsh_set_symbol_type. rewrite wraps_small, nibbles_low, nibbles_high by lia.
  rewrite Z.mod_small, wrapu_small by (Z.to_euclidean_division_equations; lia). done.
Qed.

Lemma bind_type_set s b ty :
  sym_ok s → 0 ≤ b < 16 → 0 ≤ ty < 16 →
  ∃ s1 s2, elfsh_set_symbol_bind (Some s) b = (Some s1, 0) ∧ elfsh_set_symbol_type (Some s1) ty = (Some s2, 0) ∧
    elfsh_get_symbol_bind (Some s1) = b ∧ elfsh_get_symbol_type (Some s1) = elfsh_get_symbol_type (Some s) ∧
    elfsh_get_symbol_bind (Some s2) = b ∧ elfsh_get_symbol_type (Some s2) = ty.
Proof.
  intros (_ & _ & _ & Hi & _ & _) Hb Hty. pose proof (Z.mod_pos_bound (st_info s) 16 ltac:(lia)) as Hm.
  destruct (nibble_pair b (st_info s mod 16) Hb Hm) as (E1 & E2 & E3 & _).
  destruct (nibble_pair b ty Hb Hty) as (F1 & F2 & F3 & _).
  eexists _, _. split; [by apply set_bind_info |]. split; [apply set_type_info; cbn; lia |].
  cbn [elfsh_get_symbol_bind elfsh_get_symbol_type set_st_info st_info].
  unfold ELFSH_ST_BIND, ELFSH_ST_TYPE.
  assert ((16 * b + st_info s mod 16) / 16 = b) as -> by (Z.to_euclidean_division_equations; lia).
  rewrite E1, E2, E3, F1, F2, F3, nibbles_low, !wrapu_small by lia. done.
Qed.

(** ** The hash of a name *)

(** The hash function of the ELF specification, on bytes and numbers of 32 bits: the four high
    bits are folded back, a number of 28 bits is left. *)
Definition elf_hash_step (h c : Z) : Z :=
  let x := u32 (16 * h + c) in Z.lxor (x mod 2 ^ 28) (16 * (x / 2 ^ 28)).
Definition elf_hash (nm : list Z) : Z := foldl elf_hash_step 0 nm.

Lemma testbit_below x n k : 0 ≤ x < 2 ^ k → k ≤ n → Z.testbit x n = false.
Proof.
  intros Hx Hn. destruct (Z.eq_dec x 0) as [-> | Hne]; [by rewrite Z.testbit_0_l |].
  apply Z.bits_above_log2; [lia |]. pose proof (proj1 (Z.log2_lt_pow2 x k ltac:(lia)) ltac:(lia)). lia.
Qed.

Lemma lxor_below x y k : 0 ≤ k → 0 ≤ x < 2 ^ k → 0 ≤ y < 2 ^ k → 0 ≤ Z.lxor x y < 2 ^ k.
Proof.
  intros Hk Hx Hy. assert (0 ≤ Z.lxor x y) as H0 by (apply Z.lxor_nonneg; lia). split; [done |].
  destruct (Z.lt_ge_cases (Z.lxor x y) (2 ^ k)) as [| Hge]; [done | exfalso].
  assert (0 < Z.lxor x y) as Hpos by (pose proof (Z.pow_pos_nonneg 2 k); lia).
  pose proof (Z.bit_log2 _ Hpos) as Hb. apply Z.log2_le_pow2 in Hge; [| done].
  rewrite Z.lxor_spec, !(testbit_below _ _ k) in Hb by done. done.
Qed.

(** The four bits that are folded back. *)
Lemma land_nibble x : 0 ≤ x < 2 ^ 32 → x &&& 4026531840 = 2 ^ 28 * (x / 2 ^ 28).
Proof.
  intros Hx. change 4026531840 with (15 ≪ 28). rewrite Z.mul_comm, <-Z.shiftl_mul_pow2, <-Z.shiftr_div_pow2 by lia.
  apply Z.bits_inj'. intros n Hn. rewrite Z.land_spec, !Z.shiftl_spec by done.
  destruct (Z.ltb_spec n 28); [by rewrite !(Z.testbit_neg_r _ (n - 28)), andb_false_r by lia |].
  rewrite Z.shiftr_spec, Z.sub_add by lia. change 15 with (Z.ones 4).
  destruct (Z.ltb_spec (n - 28) 4).
  - by rewrite Z.ones_spec_low, andb_true_r by lia.
  - rewrite Z.ones_spec_high, andb_false_r, (testbit_below _ _ 32) by lia. done.
Qed.

Lemma testbit_u32 x n : 0 ≤ n < 32 → Z.testbit (u32 x) n = Z.testbit x n.
Proof. intros Hn. unfold wrapu. rewrite Z.mod_pow2_bits_low by lia. done. Qed.

Lemma u32_above x n : 32 ≤ n → Z.testbit (u32 x) n = false.
Proof. intros Hn. by apply (testbit_below _ _ 32), Hn; apply wrapu_range. Qed.

Lemma u32_wrapu w x : 32 ≤ w → u32 (wrapu w x) = u32 x.
Proof.
  intros Hw. unfold wrapu. apply Z.mod_mod_divide. exists (2 ^ (w - 32)). rewrite <-Z.pow_add_r by lia.
  f_equal. lia.
Qed.

Lemma land_nibble_low y : y &&& 4026531840 = u32 y &&& 4026531840.
Proof.
  apply Z.bits_inj'. intros n Hn. rewrite !Z.land_spec. destruct (Z.ltb_spec n 32).
  - by rewrite testbit_u32 by lia.
  - by rewrite (testbit_below 4026531840 n 32), !andb_false_r by lia.
Qed.

Lemma elf_hash_range h c : 0 ≤ elf_hash_step h c < 2 ^ 28.
Proof.
  unfold elf_hash_step. pose proof (wrapu_range 32 (16 * h + c) ltac:(done)).
  apply lxor_below; [done | by apply Z.mod_pos_bound |].
  split; Z.to_euclidean_division_equations; lia.
Qed.

(** Only the low 32 bits matter: a wider [long] changes nothing. *)
Lemma hash_step_ref w h c :
  32 ≤ w → 0 ≤ c < 128 → u32 (hash_step w h c) = elf_hash_step (u32 h) c.
Proof.
  intros Hw Hc. unfold hash_step, elf_hash_step.
  rewrite Z.shiftl_mul_pow2, (wraps_small 8) by lia. change (2 ^ 4) with 16.
  assert (u32 (16 * u32 h + c) = u32 (wrapu w (h * 16 + c))) as ->.
  { rewrite u32_wrapu by done. unfold wrapu.
    rewrite (Z.add_mod (16 * _)), (Z.mul_mod_idemp_r 16 h), <-Z.add_mod, Z.mul_comm; done. }
  generalize (wrapu w (h * 16 + c)). intros y. cbv zeta. rewrite land_nibble_low.
  pose proof (wrapu_range 32 y ltac:(done)) as Hx. rewrite land_nibble by done.
  assert (0 ≤ u32 y / 2 ^ 28 < 16) as Hq by (Z.to_euclidean_division_equations; lia).
  set (q := u32 y / 2 ^ 28) in *.
  assert ((if 2 ^ 28 * q =? 0 then y else Z.lxor y ((2 ^ 28 * q) ≫ 24)) = Z.lxor y (16 * q)) as ->.
  { replace ((2 ^ 28 * q) ≫ 24) with (16 * q).
    2: { rewrite Z.shiftr_div_pow2 by lia. apply Z.div_unique_exact; lia. }
    destruct (Z.eqb_spec (2 ^ 28 * q) 0) as [E |]; [| done].
    assert (q = 0) as -> by lia. by rewrite Z.lxor_0_r. }
  apply Z.bits_inj'. intros n Hn. rewrite Z.lxor_spec. destruct (Z.ltb_spec n 32).
  2: { assert (0 ≤ u32 y mod 2 ^ 28 < 2 ^ 28) as Hm by (apply Z.mod_pos_bound; done).
       rewrite u32_above, (testbit_below (_ mod _) n 32), (testbit_below (16 * q) n 32) by lia. done. }
  rewrite testbit_u32, Z.land_spec, Z.lxor_spec by lia. unfold wrapu at 1.
  rewrite Z.mod_pow2_bits_low, Z.lnot_spec by lia. rewrite (Z.mul_comm (2 ^ 28)).
  destruct (Z.ltb_spec n 28).
  - by rewrite Z.mod_pow2_bits_low, Z.mul_pow2_bits_low, andb_true_r, testbit_u32 by lia.
  - rewrite Z.mod_pow2_bits_high, (testbit_below (16 * q) n 8), Z.mul_pow2_bits by lia.
    unfold q. rewrite <-Z.shiftr_div_pow2, Z.shiftr_spec, Z.sub_add, testbit_u32 by lia.
    rewrite xorb_false_r. apply andb_negb_r.
Qed.

Lemma hash_fold w nm h :
  32 ≤ w → Forall (λ c, 0 ≤ c < 128) nm →
  u32 (foldl (hash_step w) h nm) = foldl elf_hash_step (u32 h) nm.
Proof.
  intros Hw Hnm. revert h. induction Hnm as [| c nm Hc _ IH]; intros h; [done |]. cbn [foldl].
  by rewrite IH, hash_step_ref.
Qed.

(** C29. The hash of a name is that of the ELF specification, a number of 28 bits, whatever the
    width of a [long], for names in ASCII; from a byte above 127 on it is not, [char] being
    signed. *)
Theorem symbol_hash_elf w nm :
  w = 32 ∨ w = 64 → Forall (λ c, 0 ≤ c < 128) nm →
  elfsh_get_symbol_hash w nm = elf_hash nm ∧ 0 ≤ elf_hash nm < 2 ^ 28 ∧
  ∀ c, 128 ≤ c < 256 → elfsh_get_symbol_hash w [c] ≠ elf_hash [c].
Proof.
  intros Hw Hnm. split; [| split].
  - unfold elfsh_get_symbol_hash. by rewrite hash_fold by (done || lia).
  - unfold elf_hash. destruct nm as [| c nm _] using rev_ind; [done |].
    rewrite foldl_snoc. apply elf_hash_range.
  - intros c Hc. rewrite <-(bool_decide_eq_true (_ ≠ _)).
    assert (Forall (λ c, bool_decide (elfsh_get_symbol_hash w [c] ≠ elf_hash [c]) = true) (seqZ 128 128)) as Hall.
    { apply (bool_decide_unpack _). destruct Hw as [-> | ->]; vm_compute; exact I. }
    rewrite Forall_forall in Hall. apply Hall, elem_of_seqZ. lia.
Qed.

Lemma symbol_hash_elf_witness : elfsh_get_symbol_hash 64 (bytes "printf") = 125371814.
Proof.
  rewrite (proj1 (symbol_hash_elf 64 (bytes "printf") (or_intror eq_refl)
    ltac:(apply (bool_decide_unpack _); vm_compute; exact I))).
  reflexivity.
Defined.

(** ** The nearest symbol *)

(** How far a symbol is below an address, and above it. *)
Definition below (v : Z) s : option Z := if st_value s <? v then Some (v - st_value s) else None.
Definition above (v : Z) s : option Z := if v <? st_value s then Some (st_value s - v) else None.

(** The first of the nearest symbols of the table for a distance, which is under 2^30. *)
Definition near (dist : elfsh_Sym → option Z) l (r : option Z) (off : Z) : Prop :=
  match r with
  | None => off = ELFSH_UNSET_OFFSET ∧ ∀ t x, t ∈ l → dist t = Some x → ELFSH_UNSET_OFFSET ≤ x
  | Some i => 0 ≤ off < ELFSH_UNSET_OFFSET ∧ ∃ s, 0 ≤ i ∧ l !! Z.to_nat i = Some s ∧ dist s = Some off ∧
      ∀ j t x, l !! j = Some t → dist t = Some x → off ≤ x ∧ (x = off → i ≤ Z.of_nat j)
  end.

Definition last_at (v : Z) l (r : option Z) : Prop :=
  match r with
  | None => Forall (λ t, st_value t ≠ v) l
  | Some i => ∃ s, 0 ≤ i ∧ l !! Z.to_nat i = Some s ∧ st_value s = v ∧
      ∀ j t, l !! j = Some t → st_value t = v → Z.of_nat j ≤ i
  end.

Lemma near_range dist l r off : near dist l r off → 0 ≤ off ≤ ELFSH_UNSET_OFFSET.
Proof. unfold near. destruct r; [intros [? _]; lia | intros [-> _]; unfold ELFSH_UNSET_OFFSET; lia]. Qed.

Lemma near_closer dist l r off s x :
  near dist l r off → dist s = Some x → 0 ≤ x < off →
  near dist (l ++ [s]) (Some (Z.of_nat (length l))) x.
Proof.
  intros Hn Hs Hx. pose proof (near_range _ _ _ _ Hn). split; [lia |]. exists s.
  rewrite Nat2Z.id, list_lookup_middle by done. split_and!; [lia | done | done |].
  intros j t y Hj Hy. apply lookup_snoc_Some in Hj as [[Hlt Hj] | [-> ->]].
  - destruct r as [i |]; destruct Hn as [Ho Hn].
    + destruct Hn as (s0 & _ & _ & _ & Hn). destruct (Hn _ _ _ Hj Hy). lia.
    + pose proof (Hn t y (list_elem_of_lookup_2 _ _ _ Hj) Hy). lia.
  - simplify_eq. lia.
Qed.

Lemma near_further dist l r off s :
  near dist l r off → (∀ x, dist s = Some x → off ≤ x) → near dist (l ++ [s]) r off.
Proof.
  intros Hn Hs. destruct r as [i |]; destruct Hn as [Ho Hn]; split; try done.
  - destruct Hn as (s0 & Hi & Hl & Hd & Hn). exists s0. split_and!; [done | by apply lookup_app_l_Some | done |].
    intros j t y Hj Hy. apply lookup_snoc_Some in Hj as [[Hlt Hj] | [-> ->]]; [by eapply Hn |].
    specialize (Hs _ Hy). split; [done |]. intros ->.
    apply lookup_lt_Some in Hl. lia.
  - intros t x [Ht | ->%list_elem_of_singleton]%elem_of_app Hx; [by eapply Hn | subst off; by apply Hs].
Qed.

Lemma last_here v l r s :
  last_at v l r → st_value s = v → last_at v (l ++ [s]) (Some (Z.of_nat (length l))).
Proof.
  intros _ Hs. exists s. rewrite Nat2Z.id, list_lookup_middle by done. split_and!; [lia | done | done |].
  intros j t Hj _. apply lookup_lt_Some in Hj. rewrite length_app in Hj. cbn in Hj. lia.
Qed.

Lemma last_elsewhere v l r s : last_at v l r → st_value s ≠ v → last_at v (l ++ [s]) r.
Proof.
  intros Hl Hs. destruct r as [i |].
  - destruct Hl as (s0 & Hi & Hl & Hv & Hn). exists s0. split_and!; [done | by apply lookup_app_l_Some | done |].
    intros j t Hj Hy. apply lookup_snoc_Some in Hj as [[_ Hj] | [-> ->]]; [by eapply Hn | done].
  - apply Forall_app. split; [done | by constructor].
Qed.

(** What the loop has found in the symbols before the index. *)
Record searched (v : Z) l (r : search) : Prop := {
  sd_low : near (below v) l (low r) (low_off r);
  sd_high : near (above v) l (high r) (high_off r);
  sd_good : last_at v l (good r);
}.

Lemma search_step_spec v l s r :
  searched v l r → 0 ≤ v < 2 ^ 32 → 0 ≤ st_value s < 2 ^ 32 →
  searched v (l ++ [s]) (search_step v (Z.of_nat (length l)) s r).
Proof.
  intros [Hl Hh Hg] Hv Hs. unfold search_step.
  pose proof (near_range _ _ _ _ Hl) as Rl. pose proof (near_range _ _ _ _ Hh) as Rh.
  unfold ELFSH_UNSET_OFFSET in Rl, Rh. rewrite (wrapu_small 32 (low_off r)), (wrapu_small 32 (high_off r)) by lia.
  destruct (Z.ltb_spec (st_value s) v) as [Hlt | Hge]; cbn [andb].
  - rewrite (wrapu_small 32 (v - st_value s)) by lia.
    assert (below v s = Some (v - st_value s)) as Hb by (unfold below; by rewrite (proj2 (Z.ltb_lt _ _))).
    assert (above v s = None) as Ha by (unfold above; by rewrite (proj2 (Z.ltb_ge _ _)) by lia).
    rewrite (proj2 (Z.ltb_ge v (st_value s))) by lia. cbn [andb]. rewrite (proj2 (Z.eqb_neq _ _)) by lia.
    destruct (Z.ltb_spec (v - st_value s) (low_off r)).
    + rewrite wraps_small by lia. split; cbn; [| by apply near_further; [| rewrite Ha] | by apply last_elsewhere; [| lia]].
      eapply near_closer; [done | done | lia].
    + split; cbn; [| by apply near_further; [| rewrite Ha] | by apply last_elsewhere; [| lia]].
      apply near_further; [done |]. intros x. rewrite Hb. intros [= <-]. done.
  - assert (below v s = None) as Hb by (unfold below; by rewrite (proj2 (Z.ltb_ge _ _))).
    destruct (Z.ltb_spec v (st_value s)) as [Hlt | Hle]; cbn [andb].
    + rewrite (wrapu_small 32 (st_value s - v)) by lia.
      assert (above v s = Some (st_value s - v)) as Ha by (unfold above; by rewrite (proj2 (Z.ltb_lt _ _))).
      rewrite (proj2 (Z.eqb_neq _ _)) by lia.
      destruct (Z.ltb_spec (st_value s - v) (high_off r)).
      * rewrite wraps_small by lia. split; cbn; [by apply near_further; [| rewrite Hb] | | by apply last_elsewhere; [| lia]].
        eapply near_closer; [done | done | lia].
      * split; cbn; [by apply near_further; [| rewrite Hb] | | by apply last_elsewhere; [| lia]].
        apply near_further; [done |]. intros x. rewrite Ha. intros [= <-]. done.
    + assert (above v s = None) as Ha by (unfold above; by rewrite (proj2 (Z.ltb_ge _ _)) by lia).
      rewrite (proj2 (Z.eqb_eq _ _)) by lia.
      split; cbn; [by apply near_further; [| rewrite Hb] | by apply near_further; [| rewrite Ha] |].
      eapply last_here; [done | lia].
Qed.

Lemma search_loop_spec v l l0 r :
  searched v l0 r → 0 ≤ v < 2 ^ 32 → Forall (λ s, 0 ≤ st_value s < 2 ^ 32) l →
  searched v (l0 ++ l) (search_loop v (Z.of_nat (length l0)) l r).
Proof.
  intros Hr Hv Hl. revert l0 r Hr. induction Hl as [| s l Hs _ IH]; intros l0 r Hr; cbn [search_loop].
  - by rewrite app_nil_r.
  - replace (Z.of_nat (length l0) + 1) with (Z.of_nat (length (l0 ++ [s]))) by (rewrite length_app; cbn; lia).
    rewrite (app_assoc l0 [s] l : l0 ++ s :: l = _). apply IH. by apply search_step_spec.
Qed.

(** C28. The search by value: the last symbol at the address; failing that, the first of the
    nearest symbols below it or above it, as asked, with its distance, provided it is nearer
    than 2^30; no symbol when only an exact one is asked for. *)
Theorem get_sym_by_value_spec l v mode :
  l ≠ [] → Z.of_nat (length l) < 2 ^ 31 → 0 ≤ v < 2 ^ 32 → Forall (λ s, 0 ≤ st_value s < 2 ^ 32) l →
  ∃ r off, elfsh_get_sym_by_value (Some l) (Z.of_nat (length l)) v mode = Some (r, off) ∧
    ((∃ s, s ∈ l ∧ st_value s = v) → last_at v l r ∧ is_Some r ∧ off = Some 0) ∧
    (Forall (λ s, st_value s ≠ v) l →
       (mode = ELFSH_LOWSYM → ∃ o, off = Some o ∧ near (below v) l r o) ∧
       (mode = ELFSH_HIGHSYM → ∃ o, off = Some o ∧ near (above v) l r o) ∧
       (mode = ELFSH_EXACTSYM → r = None ∧ off = None)).
Proof.
  intros Hne Hlen Hv Hl. unfold elfsh_get_sym_by_value, guard_ub.
  assert (Z.of_nat (length l) ≠ 0) as Hn by (by destruct l).
  rewrite (proj2 (Z.eqb_neq _ _)), bool_decide_true, Nat2Z.id, take_ge by (done || lia). mstep.
  assert (searched v [] (Search None ELFSH_UNSET_OFFSET None ELFSH_UNSET_OFFSET None)) as H0.
  { split; cbn; [.. | constructor]; (split; [done |]); by intros t x ?%not_elem_of_nil. }
  pose proof (search_loop_spec v l [] _ H0 Hv Hl) as Hs. change (Z.of_nat (length [])) with 0 in Hs.
  destruct Hs as [Hlow Hhigh Hgood]. cbn [app] in *.
  destruct (search_loop v 0 l _) as [rl ol rh oh rg]. cbn [low low_off high high_off good] in *.
  destruct rg as [g |].
  - eexists _, _. split; [done |]. split; [intros _; split; [exact Hgood | split; [by eexists | done]] |]. intros Hno. exfalso.
    destruct Hgood as (s & _ & Hg & Hs & _). by apply (Forall_lookup_1 _ _ _ _ Hno Hg).
  - unfold ELFSH_LOWSYM, ELFSH_HIGHSYM, ELFSH_EXACTSYM.
    assert ((∃ s, s ∈ l ∧ st_value s = v) → False) as Hno
      by (intros (s & Hs & Hsv); by apply (proj1 (Forall_forall _ _) Hgood s)).
    destruct (Z.eqb_spec mode 1) as [-> |]; [| destruct (Z.eqb_spec mode 2) as [-> |]];
      eexists _, _; (split; [done |]); (split; [by intros ?%Hno |]); intros _; split_and!; try lia; eauto; done.
Qed.

Definition demo_syms : list elfsh_Sym :=
  [Sym 0 0 0 0 0 0; Sym 1 4096 16 18 0 1; Sym 6 4128 32 18 0 1; Sym 11 4096 0 3 0 1].

Lemma get_sym_by_value_spec_witness :
  ∃ r off, elfsh_get_sym_by_value (Some demo_syms) 4 4100 ELFSH_LOWSYM = Some (r, off) ∧
    near (below 4100) demo_syms (Some 1) 4 ∧ r = Some 1 ∧ off = Some 4.
Proof.
  destruct (get_sym_by_value_spec demo_syms 4100 ELFSH_LOWSYM) as (r & off & E & _ & H);
    [done | done | done | apply (bool_decide_unpack _); vm_compute; exact I |].
  exists r, off. split; [exact E |].
  assert (r = Some 1 ∧ off = Some 4) as [-> ->] by (vm_compute in E; by simplify_eq).
  destruct H as [H _]; [apply (bool_decide_unpack _); vm_compute; exact I |]. destruct (H eq_refl) as (o & [= <-] & Hn). done.
Defined.

(** ** Sorting *)

(** Insertion sort: one function that [qsort] may be. *)
Fixpoint insert_by (cmp : elfsh_Sym → elfsh_Sym → Z) s l : list elfsh_Sym :=
  match l with
  | [] => [s]
  | t :: l => if cmp s t <=? 0 then s :: t :: l else t :: insert_by cmp s l
  end.
Definition sort_by (cmp : elfsh_Sym → elfsh_Sym → Z) l : list elfsh_Sym := foldr (insert_by cmp) [] l.

Lemma insert_by_perm cmp s l : insert_by cmp s l ≡ₚ s :: l.
Proof.
  induction l as [| t l IH]; [done |]. cbn. destruct (_ <=? _); [done |]. rewrite IH. apply Permutation_swap.
Qed.

Lemma insert_by_sorted (key : elfsh_Sym → Z) cmp s l :
  (∀ s t, cmp s t ≤ 0 ↔ key s ≤ key t) → StronglySorted Z.le (key <$> l) →
  StronglySorted Z.le (key <$> insert_by cmp s l).
Proof.
  intros Hc. induction l as [| t l IH]; [repeat constructor |]. rewrite fmap_cons. intros [Hl Ht]%StronglySorted_inv.
  cbn [insert_by]. destruct (Z.leb_spec (cmp s t) 0) as [Hle | Hgt].
  - apply Hc in Hle. rewrite !fmap_cons. constructor; [by constructor |]. constructor; [done |].
    eapply Forall_impl; [exact Ht |]. intros; lia.
  - rewrite fmap_cons. constructor; [by apply IH |].
    assert (key t ≤ key s) by (destruct (Z.le_gt_cases (key s) (key t)) as [?%Hc |]; lia).
    rewrite insert_by_perm, fmap_cons. by constructor.
Qed.

Definition sort_by_qsort : Qsort.
Proof.
  apply (Build_Qsort sort_by).
  - intros cmp l. induction l as [| s l IH]; [done |]. cbn. by rewrite insert_by_perm, IH.
  - intros key cmp l Hc. induction l as [| s l IH]; [constructor |]. by apply insert_by_sorted.
Defined.
