(* ===== verification/Elf.v ===== *)
(** * ELF objects: sections, string tables and symbol tables (src/libelfsh/section.c,
    strtab.c, symbol.c, dynsym.c, sort.c, sym_common.c)

    The object is in memory: its section headers, its symbol table and the string tables it
    uses are loaded.  A path that reads a table from the file or creates one
    ([elfsh_load_section], [elfsh_rebuild_strtab], [elfsh_fixup_symtab]) is not modelled and
    gives [None], like undefined behaviour.  Sections are known by their address; the header
    of a section is reached through the section that points to it.  A pointer to a symbol is
    a section and an index.  [memcpy] between overlapping areas copies forward.  The hash
    tables of symbols are never made ([elfsh_init_symbol_hashtables] returns first). *)
From Stdlib Require Import Sorted.
From S2P Require Import Prelude.
From S2P Require Import ElfSym.

Definition SHT_SYMTAB : Z := 2.
Definition SHT_NOBITS : Z := 8.
Definition SHT_DYNSYM : Z := 11.
Definition ELFSH_SECTION_RUNTIME : Z := 16.
Definition ELFSH_SECTION_DYNSYM : Z := 4.
Definition ELFSH_SECTION_DYNSTR : Z := 5.
Definition ELFSH_SECTION_SHSTRTAB : Z := 24.
Definition ELFSH_SECTION_SYMTAB : Z := 25.
Definition ELFSH_SECTION_STRTAB : Z := 26.
Definition ELFSH_SECTION_RSHSTRTAB : Z := 34.
Definition ELFSH_NOLIMIT : Z := 0.
Definition ELFSH_OS_SOLARIS : Z := 4.
Definition O_RDONLY : Z := 0.
Definition LIBELFSH_MODE_STATIC : Z := 0.
Definition LIBELFSH_MODE_RUNTIME : Z := 1.

(** ** State *)

(** The fields of a header that these functions use. *)
Record elfsh_Shdr := Shdr {
  sh_name : Z; sh_type : Z; sh_addr : Z; sh_offset : Z; sh_size : Z; sh_link : Z
}.
Definition set_sh_name (x : Z) (h : elfsh_Shdr) : elfsh_Shdr :=
  Shdr x (sh_type h) (sh_addr h) (sh_offset h) (sh_size h) (sh_link h).
Definition set_sh_addr (x : Z) (h : elfsh_Shdr) : elfsh_Shdr :=
  Shdr (sh_name h) (sh_type h) x (sh_offset h) (sh_size h) (sh_link h).
Definition set_sh_offset (x : Z) (h : elfsh_Shdr) : elfsh_Shdr :=
  Shdr (sh_name h) (sh_type h) (sh_addr h) x (sh_size h) (sh_link h).
Definition set_sh_size (x : Z) (h : elfsh_Shdr) : elfsh_Shdr :=
  Shdr (sh_name h) (sh_type h) (sh_addr h) (sh_offset h) x (sh_link h).
Definition set_sh_link (x : Z) (h : elfsh_Shdr) : elfsh_Shdr :=
  Shdr (sh_name h) (sh_type h) (sh_addr h) (sh_offset h) (sh_size h) x.

Record elfshsect_t := Sect {
  name : option (list Z);
  shdr : elfsh_Shdr;
  index : Z;
  flags : Z;
  data : option (list Z);
  altdata : option (list elfsh_Sym);
  terdata : option (list elfsh_Sym);
  curend : Z;
}.
Definition set_shdr (x : elfsh_Shdr) (s : elfshsect_t) : elfshsect_t :=
  Sect (name s) x (index s) (flags s) (data s) (altdata s) (terdata s) (curend s).
Definition set_data (x : option (list Z)) (s : elfshsect_t) : elfshsect_t :=
  Sect (name s) (shdr s) (index s) (flags s) x (altdata s) (terdata s) (curend s).
Definition set_sorted (a t : option (list elfsh_Sym)) (s : elfshsect_t) : elfshsect_t :=
  Sect (name s) (shdr s) (index s) (flags s) (data s) a t (curend s).
Definition set_curend (x : Z) (s : elfshsect_t) : elfshsect_t :=
  Sect (name s) (shdr s) (index s) (flags s) (data s) (altdata s) (terdata s) x.

(** [rsht] is whether there is a runtime table of headers, [ostype] what
    [elfsh_get_ostype] answers, [mode] the mode of the library, [base] [rhdr.base]. *)
Record elfshobj_t := Obj {
  sections : gmap Z elfshsect_t;
  sectlist : list Z;
  rsectlist : list Z;
  secthash : gmap Z Z;
  e_shnum : Z;
  e_shoff : Z;
  rights : Z;
  rsht : bool;
  ostype : Z;
  mode : Z;
  base : Z;
}.
Definition set_sections (x : gmap Z elfshsect_t) (o : elfshobj_t) : elfshobj_t :=
  Obj x (sectlist o) (rsectlist o) (secthash o) (e_shnum o) (e_shoff o) (rights o) (rsht o)
    (ostype o) (mode o) (base o).
Definition set_secthash (k p : Z) (o : elfshobj_t) : elfshobj_t :=
  Obj (sections o) (sectlist o) (rsectlist o) (<[k := p]> (secthash o)) (e_shnum o) (e_shoff o)
    (rights o) (rsht o) (ostype o) (mode o) (base o).
Definition set_e_shoff (x : Z) (o : elfshobj_t) : elfshobj_t :=
  Obj (sections o) (sectlist o) (rsectlist o) (secthash o) (e_shnum o) x (rights o) (rsht o)
    (ostype o) (mode o) (base o).

Definition get (o : elfshobj_t) (p : Z) : option elfshsect_t := sections o !! p.
Definition upd (p : Z) (f : elfshsect_t → elfshsect_t) (o : elfshobj_t) : option elfshobj_t :=
  s ← get o p; Some (set_sections (<[p := f s]> (sections o)) o).

(** [(char * ) data + off] *)
Definition cstr_at (d : list Z) (off : Z) : option (list Z) :=
  if bool_decide (0 ≤ off ≤ Z.of_nat (length d)) then cstr (drop (Z.to_nat off) d) else None.

Definition INTERVAL (a b c : Z) : bool := (a <=? b) && (b <? c).
Definition elfsh_is_runtime_mode (o : elfshobj_t) : bool := mode o =? LIBELFSH_MODE_RUNTIME.
Definition is_runtime (s : elfshsect_t) : bool := negb ((flags s &&& ELFSH_SECTION_RUNTIME) =? 0).
Definition elfsh_section_is_runtime (s : option elfshsect_t) : Z :=
  match s with Some s => if is_runtime s then 1 else 0 | None => 0 end.

(** ** Looking for sections (section.c, sht.c) *)

(** The table of names of a section, if it can be read. *)
Definition names_of (o : elfshobj_t) (s : elfshsect_t) : option Z :=
  if is_runtime s then
    match rsectlist o with
    | [] => None
    | _ => if rsht o then secthash o !! ELFSH_SECTION_RSHSTRTAB else None
    end
  else secthash o !! ELFSH_SECTION_SHSTRTAB.

(** [None] inside is NULL. *)
Definition elfsh_get_section_name (o : elfshobj_t) (p : Z) : option (option (list Z)) :=
  s ← get o p;
  match secthash o !! ELFSH_SECTION_SHSTRTAB, names_of o s with
  | Some _, Some q =>
      t ← get o q;
      match data t with
      | None => Some None
      | Some d => Some <$> cstr_at d (sh_name (shdr s))
      end
  | _, _ => Some None
  end.

(** [section->curend ? section->curend : section->shdr->sh_size] *)
Definition sect_num (s : elfshsect_t) : Z := i32 (if curend s =? 0 then sh_size (shdr s) else curend s).

(** A section with what is written through [idx], [strindex] and [num]. *)
Fixpoint by_name_withlist (o : elfshobj_t) (nm : list Z) (idx : Z) (l : list Z) :
    option (option (Z * Z * Z * Z)) :=
  match l with
  | [] => Some None
  | p :: l =>
      sname ← elfsh_get_section_name o p;
      if bool_decide (sname = Some nm) then
        s ← get o p; Some (Some (p, idx, i32 (sh_link (shdr s)), sect_num s))
      else by_name_withlist o nm (idx + 1) l
  end.

Definition elfsh_get_section_by_name (o : elfshobj_t) (nm : list Z) :
    option (option (Z * Z * Z * Z)) :=
  sect ← by_name_withlist o nm 0 (sectlist o);
  match sect with
  | Some _ => Some sect
  | None => by_name_withlist o nm 0 (rsectlist o)
  end.

Fixpoint by_type_withlist (o : elfshobj_t) (type range number local : Z) (l : list Z) (shnum : Z) :
    option (option (Z * Z * Z * Z)) :=
  match l with
  | [] => Some None
  | p :: l =>
      if negb (local <? shnum) then Some None else
      s ← get o p;
      let number := if sh_type (shdr s) =? type then number + 1 else number in
      if (sh_type (shdr s) =? type) && (range <? number) then
        Some (Some (p, local, i32 (sh_link (shdr s)), sect_num s))
      else by_type_withlist o type range number (local + 1) l shnum
  end.

(** The list of the runtime sections is never looked in: the list of the others is, twice. *)
Definition elfsh_get_section_by_type (o : elfshobj_t) (type range : Z) :
    option (option (Z * Z * Z * Z)) :=
  section ← by_type_withlist o type range 0 0 (sectlist o) (u16 (e_shnum o));
  match section, rsectlist o with
  | None, _ :: _ => by_type_withlist o type range 0 0 (sectlist o) (u16 (e_shnum o))
  | _, _ => Some section
  end.

Definition elfsh_get_section_by_index (o : elfshobj_t) (idx : Z) : option (option (Z * Z * Z)) :=
  match sectlist o !! Z.to_nat idx with
  | None => Some None
  | Some p => s ← get o p; Some (Some (p, i32 (sh_link (shdr s)), sect_num s))
  end.

(** The section and the offset in it. *)
Fixpoint parent_in (o : elfshobj_t) (value : Z) (l : list Z) : option (option (Z * Z)) :=
  match l with
  | [] => Some None
  | p :: l =>
      s ← get o p;
      if INTERVAL (sh_addr (shdr s)) value (u32 (sh_addr (shdr s) + sh_size (shdr s)))
      then Some (Some (p, i32 (u32 (value - sh_addr (shdr s)))))
      else parent_in o value l
  end.

Definition elfsh_get_parent_section (o : elfshobj_t) (value : Z) : option (option (Z * Z)) :=
  let local := if elfsh_is_runtime_mode o then u32 (value - base o) else value in
  s ← parent_in o local (sectlist o);
  match s with
  | Some _ => Some s
  | None => parent_in o value (rsectlist o)
  end.

Fixpoint foffset_in (o : elfshobj_t) (foff : Z) (l : list Z) : option (option (Z * Z)) :=
  match l with
  | [] => Some None
  | p :: l =>
      s ← get o p;
      if INTERVAL (sh_offset (shdr s)) foff (u32 (sh_offset (shdr s) + sh_size (shdr s))) &&
         negb (sh_type (shdr s) =? SHT_NOBITS)
      then Some (Some (p, i32 (u32 (foff - sh_offset (shdr s)))))
      else foffset_in o foff l
  end.

Definition elfsh_get_parent_section_by_foffset (o : elfshobj_t) (foff : Z) :
    option (option (Z * Z)) := foffset_in o foff (sectlist o).

Fixpoint starting_at (o : elfshobj_t) (value : Z) (l : list Z) : option (option Z) :=
  match l with
  | [] => Some None
  | p :: l => s ← get o p; if sh_addr (shdr s) =? value then Some (Some p) else starting_at o value l
  end.

Definition elfsh_get_section_from_sym (o : elfshobj_t) (sym : option elfsh_Sym) : option (option Z) :=
  match sym with
  | None => Some None
  | Some sym =>
      s ← starting_at o (st_value sym) (sectlist o);
      match s with
      | Some _ => Some s
      | None => starting_at o (st_value sym) (rsectlist o)
      end
  end.

(** ** Symbol tables in sections (sort.c, sym_common.c) *)

Section elf.
Context `{!Qsort}.

(** [sect->data] as an array of symbols. *)
Definition sect_syms (s : elfshsect_t) : option (list elfsh_Sym) := syms <$> data s.

Definition sort_copy (s : elfshsect_t) (nbr type : Z) : option (option (list elfsh_Sym)) :=
  copy ← elfsh_copy_symtab (sect_syms s) nbr;
  fst <$> elfsh_sort_symtab copy nbr type.

Definition elfsh_sync_sorted_symtab (o : elfshobj_t) (sect : option Z) : option (elfshobj_t * Z) :=
  match sect with
  | None => Some (o, -1)
  | Some p =>
      s ← get o p;
      if negb (sh_type (shdr s) =? SHT_SYMTAB) && negb (sh_type (shdr s) =? SHT_DYNSYM) then Some (o, -1)
      else
        let nbr := curend s / 16 in
        if nbr =? 0 then Some (o, -1) else
        alt ← sort_copy s (i32 nbr) ELFSH_SORT_BY_ADDR;
        ter ← sort_copy s (i32 nbr) ELFSH_SORT_BY_SIZE;
        o ← upd p (set_sorted alt ter) o;
        Some (o, 0)
  end.

Definition shift_sym (limit inc : Z) (s : elfsh_Sym) : elfsh_Sym :=
  if (limit <=? st_value s) && negb (limit =? ELFSH_NOLIMIT)
  then set_st_value (u32 (st_value s + inc)) s else s.

(** The first [nbr] symbols of the data changed. *)
Definition map_syms (f : elfsh_Sym → elfsh_Sym) (nbr : nat) (d : list Z) : option (list Z) :=
  _ ← guard_ub (bool_decide (nbr ≤ length (syms d))%nat);
  Some (mjoin (sym_bytes <$> (f <$> take nbr (syms d))) ++ drop (sym_size * nbr) d).

Definition elfsh_shift_syms (o : elfshobj_t) (symtab : option Z) (limit inc : Z) :
    option (elfshobj_t * Z) :=
  match symtab with
  | None => Some (o, -1)
  | Some p =>
      s ← get o p;
      match data s with
      | None => Some (o, -1)
      | Some d =>
          d ← map_syms (shift_sym limit inc) (Z.to_nat (sh_size (shdr s) / 16)) d;
          o ← upd p (set_data (Some d)) o;
          '(o, _) ← elfsh_sync_sorted_symtab o (Some p);
          Some (o, 0)
      end
  end.

(** [actual->data == NULL] *)
Definition elfsh_shift_symtab (o : elfshobj_t) (limit inc : Z) : option (elfshobj_t * Z) :=
  actual ← elfsh_get_section_by_type o SHT_SYMTAB 0;
  match actual with
  | None => Some (o, -1)
  | Some (p, _, _, _) =>
      s ← get o p;
      match data s with
      | None => Some (o, -1)
      | Some _ => '(o, err) ← elfsh_shift_syms o (Some p) limit inc; Some (o, if err <? 0 then -1 else 0)
      end
  end.

Definition elfsh_shift_dynsym (o : elfshobj_t) (limit inc : Z) : option (elfshobj_t * Z) :=
  alt ← elfsh_get_section_by_name o (bytes ".elfsh.dynsym");
  match alt with
  | Some (p, _, _, _) =>
      '(o, err) ← elfsh_shift_syms o (Some p) limit inc; Some (o, if err <? 0 then -1 else 0)
  | None =>
      actual ← elfsh_get_section_by_type o SHT_DYNSYM 0;
      match actual with
      | None => Some (o, -1)
      | Some (p, _, _, _) =>
          s ← get o p;
          match data s with
          | None => Some (o, -1)
          | Some _ => '(o, err) ← elfsh_shift_syms o (Some p) limit inc; Some (o, if err <? 0 then -1 else 0)
          end
      end
  end.

(** ** Data of sections (section.c) *)

(** The sections that follow one in the list. *)
Fixpoint after (p : Z) (l : list Z) : list Z :=
  match l with
  | [] => []
  | q :: l => if q =? p then l else after p l
  end.

(** The headers of the sections that follow are moved by [len]; [mapped] is whether the
    section that grows has an address. *)
Fixpoint shift_next (o : elfshobj_t) (mapped : bool) (len : Z) (l : list Z) : option elfshobj_t :=
  match l with
  | [] => Some o
  | q :: l =>
      s ← get o q;
      let h := shdr s in
      let h := if mapped && negb (sh_addr h =? 0) then set_sh_addr (u32 (sh_addr h + len)) h else h in
      let h := if is_runtime s then h else set_sh_offset (u32 (sh_offset h + len)) h in
      o ← upd q (set_shdr h) o;
      shift_next o mapped len l
  end.

(** What is done once the data is at the end of the section. *)
Definition shift_object (o : elfshobj_t) (p len : Z) : option elfshobj_t :=
  s ← get o p;
  let h := shdr s in
  o ← (if (rights o =? O_RDONLY) || is_runtime s then Some o
       else
         let o := if sh_offset h <=? e_shoff o then set_e_shoff (u32 (e_shoff o + len)) o else o in
         shift_next o (negb (sh_addr h =? 0)) len (after p (sectlist o)));
  if sh_addr h =? 0 then Some o
  else '(o, _) ← elfsh_shift_symtab o (u32 (sh_addr h + sh_size h - len)) (i32 len); Some o.

(** [len] is the length of the input. *)
Definition elfsh_append_data_to_section (o : elfshobj_t) (sect : option Z) (input : option (list Z)) :
    option (elfshobj_t * Z) :=
  match sect, input with
  | Some p, Some input =>
      let len := Z.of_nat (length input) in
      if len =? 0 then Some (o, -1) else
      s ← get o p;
      let h := shdr s in
      if sh_size h <? u32 (curend s + len) then
        if is_runtime s && negb (sh_addr h =? 0) then Some (o, -1) else
        d ← match data s with
            | Some d =>
                _ ← guard_ub (bool_decide (sh_size h ≤ Z.of_nat (length d)));
                Some (take (Z.to_nat (sh_size h)) d ++ input)
            | None => _ ← guard_ub (sh_size h =? 0); Some input
            end;
        o ← upd p (λ s, set_curend (u32 (curend s + len))
                          (set_shdr (set_sh_size (u32 (sh_size h + len)) h) (set_data (Some d) s))) o;
        o ← shift_object o p len;
        Some (o, i32 (u32 (u32 (sh_size h + len) - len)))
      else
        d ← data s;
        _ ← guard_ub (bool_decide (curend s + len ≤ Z.of_nat (length d)));
        let n := Z.to_nat (curend s) in
        o ← upd p (λ s, set_curend (u32 (curend s + len))
                          (set_data (Some (take n d ++ input ++ drop (n + length input) d)) s)) o;
        Some (o, i32 (curend s))
  | _, _ => Some (o, -1)
  end.

(** [memset] of [size] bytes, then the append; 0 is an error for this function. *)
Definition elfsh_fill_section (o : elfshobj_t) (sect : option Z) (c size : Z) : option (elfshobj_t * Z) :=
  '(o, ret) ← elfsh_append_data_to_section o sect (Some (replicate (Z.to_nat size) (u8 c)));
  Some (o, if ret <=? 0 then 0 else ret).

(** The offset of the data read; [None] inside is NULL. *)
Definition elfsh_get_section_data (o : elfshobj_t) (obj : option Z) (off sizelem : Z) :
    option (option Z) :=
  match obj with
  | None => Some None
  | Some p =>
      s ← get o p;
      match data s with
      | None => Some None
      | Some _ =>
          let sizelem := if sizelem =? 0 then 1 else sizelem in
          Some (if sh_size (shdr s) <=? u32 (off * sizelem) then None else Some (u32 (off * sizelem)))
      end
  end.

(** The object is read from a file: its [iotype] is static. *)
Definition elfsh_write_section_data (o : elfshobj_t) (sect : option Z) (off : Z)
    (input : option (list Z)) (size sizelem : Z) : option (elfshobj_t * Z) :=
  match sect, input with
  | Some p, Some input =>
      s ← get o p;
      match data s with
      | None => Some (o, -1)
      | Some d =>
          let sizelem := if sizelem =? 0 then 1 else sizelem in
          let start := u32 (off * sizelem) in
          if sh_size (shdr s) <? u32 (start + size) then Some (o, -1) else
          _ ← guard_ub (bool_decide (start + size ≤ Z.of_nat (length d) ∧
                                     0 ≤ size ≤ Z.of_nat (length input)));
          let n := Z.to_nat start in
          let m := Z.to_nat size in
          o ← upd p (set_data (Some (take n d ++ take m input ++ drop (n + m) d))) o;
          Some (o, 0)
      end
  | _, _ => Some (o, -1)
  end.

(** ** String tables (strtab.c) *)

Definition load_strtab (o : elfshobj_t) (p : Z) : option (elfshobj_t * option Z) :=
  q ← secthash o !! ELFSH_SECTION_SYMTAB;
  symtab ← get o q;
  o ← upd p (λ s, set_shdr (set_sh_link (u32 (index symtab)) (shdr s)) s)
        (set_secthash ELFSH_SECTION_STRTAB p o);
  s ← get o p;
  _ ← data s;
  Some (o, Some p).

Definition elfsh_get_strtab (o : elfshobj_t) (idx : Z) : option (elfshobj_t * option Z) :=
  match secthash o !! ELFSH_SECTION_STRTAB with
  | Some p => Some (o, Some p)
  | None =>
      if 0 <? idx then
        s ← elfsh_get_section_by_index o idx;
        '(p, _, _) ← s; load_strtab o p
      else
        s ← elfsh_get_section_by_name o (bytes ".strtab");
        '(p, _, _, _) ← s; load_strtab o p
  end.

(** [for (index = 0; index < size; index++) if ( *data + index == 0)] *)
Fixpoint empty_at (n : nat) (idx c : Z) : option Z :=
  match n with
  | O => None
  | S n => if u32 (i8 c + idx) =? 0 then Some idx else empty_at n (idx + 1) c
  end.

(** What an append answers, or -1. *)
Definition append_string (o : elfshobj_t) (p : Z) (nm : list Z) : option (elfshobj_t * Z) :=
  '(o, ret) ← elfsh_append_data_to_section o (Some p) (Some (nm ++ [0]));
  Some (o, if ret <? 0 then -1 else ret).

Definition elfsh_insert_in_strtab (o : elfshobj_t) (nm : option (list Z)) : option (elfshobj_t * Z) :=
  match nm with
  | None => Some (o, -1)
  | Some nm =>
      '(o, sect) ← elfsh_get_strtab o (-1);
      match sect with
      | None => Some (o, -1)
      | Some p =>
          s ← get o p;
          found ← match nm with
                  | [] =>
                      if sh_size (shdr s) =? 0 then Some None
                      else d ← data s; c ← head d; Some (empty_at (Z.to_nat (sh_size (shdr s))) 0 c)
                  | _ => Some None
                  end;
          match found with
          | Some idx => Some (o, i32 idx)
          | None => append_string o p nm
          end
      end
  end.

Definition elfsh_insert_in_dynstr (o : elfshobj_t) (nm : option (list Z)) : option (elfshobj_t * Z) :=
  match nm with
  | None => Some (o, -1)
  | Some nm =>
      sect ← elfsh_get_section_by_name o (bytes ".dynstr");
      match sect with
      | None => Some (o, -1)
      | Some (p, _, _, _) => append_string o p nm
      end
  end.

Definition elfsh_insert_in_shstrtab (o : elfshobj_t) (nm : option (list Z)) : option (elfshobj_t * Z) :=
  match nm, secthash o !! ELFSH_SECTION_SHSTRTAB with
  | Some nm, Some p => append_string o p nm
  | _, _ => Some (o, -1)
  end.

Definition elfsh_insert_in_rshstrtab (o : elfshobj_t) (nm : option (list Z)) : option (elfshobj_t * Z) :=
  match nm, secthash o !! ELFSH_SECTION_RSHSTRTAB with
  | Some nm, Some p => append_string o p nm
  | _, _ => Some (o, -1)
  end.

(** [strncpy(str, name, n)] on the data of a section, [n] at most the length of the name
    and its NUL. *)
Definition write_string (o : elfshobj_t) (p off : Z) (nm : list Z) (n : nat) : option elfshobj_t :=
  s ← get o p;
  d ← data s;
  let i := Z.to_nat off in
  _ ← guard_ub (bool_decide (i + n ≤ length d)%nat);
  upd p (set_data (Some (take i d ++ take n (nm ++ [0]) ++ drop (i + n) d))) o.

(** The length is compared without the NUL, and the NUL is not copied (sht.c). *)
Definition elfsh_set_section_name (o : elfshobj_t) (p : option Z) (nm : option (list Z)) :
    option (elfshobj_t * Z) :=
  match p, nm, secthash o !! ELFSH_SECTION_SHSTRTAB with
  | Some p, Some nm, Some _ =>
      s ← get o p;
      match names_of o s with
      | None => Some (o, if is_runtime s then 0 else -1)
      | Some q =>
          t ← get o q;
          d ← data t;
          str ← cstr_at d (sh_name (shdr s));
          o ← (if bool_decide (length nm ≤ length str)%nat
               then write_string o q (sh_name (shdr s)) nm (length nm)
               else
                 '(o, r) ← (if is_runtime s then elfsh_insert_in_rshstrtab o (Some nm)
                            else elfsh_insert_in_shstrtab o (Some nm));
                 upd p (λ s, set_shdr (set_sh_name (u32 r) (shdr s)) s) o);
          s ← get o p;
          Some (o, i32 (sh_name (shdr s)))
      end
  | _, _, _ => Some (o, -1)
  end.

(** ** Symbols of an object (symbol.c, dynsym.c) *)

(** The data of the table, and the number of symbols. *)
Definition elfsh_get_symtab (o : elfshobj_t) : option (option (list elfsh_Sym) * Z) :=
  p ← secthash o !! ELFSH_SECTION_SYMTAB;
  s ← get o p;
  Some (sect_syms s, i32 (curend s / 16)).

(** NULL when the object has no such table; the number is not written then. *)
Definition elfsh_get_dynsymtab (o : elfshobj_t) : option (option (list elfsh_Sym) * option Z) :=
  match secthash o !! ELFSH_SECTION_DYNSYM with
  | Some p =>
      s ← get o p;
      Some (sect_syms s, Some (i32 ((if curend s =? 0 then sh_size (shdr s) else curend s) / 16)))
  | None =>
      alt ← elfsh_get_section_by_name o (bytes ".elfsh.dynsym");
      dyn ← elfsh_get_section_by_type o SHT_DYNSYM 0;
      match alt, dyn with None, None => Some (None, None) | _, _ => None end
  end.

Definition elfsh_get_symbol_name (o : elfshobj_t) (s : option elfsh_Sym) : option (option (list Z)) :=
  match s with
  | None => Some None
  | Some s =>
      _ ← secthash o !! ELFSH_SECTION_SYMTAB;
      p ← secthash o !! ELFSH_SECTION_STRTAB;
      sect ← get o p;
      match data sect with
      | None => Some (Some (bytes "<unreadable>"))
      | Some d =>
          if sh_size (shdr sect) <? st_name s then Some (Some (bytes "<corrupted>"))
          else Some <$> cstr_at d (st_name s)
      end
  end.

Definition elfsh_get_dynsymbol_name (o : elfshobj_t) (s : option elfsh_Sym) : option (option (list Z)) :=
  match s with
  | None => Some None
  | Some s =>
      _ ← secthash o !! ELFSH_SECTION_DYNSYM;
      p ← secthash o !! ELFSH_SECTION_DYNSTR;
      sect ← get o p;
      d ← data sect;
      Some <$> cstr_at d (st_name s)
  end.

(** The index of the first symbol of this name among the first [n]. *)
Fixpoint find_name (name_of : option elfsh_Sym → option (option (list Z))) (nm : list Z) (idx : Z)
    (n : nat) (l : list elfsh_Sym) : option (option Z) :=
  match n with
  | O => Some None
  | S n =>
      match l with
      | [] => None
      | s :: l =>
          actual ← name_of (Some s);
          if bool_decide (actual = Some nm) then Some (Some idx) else find_name name_of nm (idx + 1) n l
      end
  end.

Definition elfsh_get_symbol_by_name (o : elfshobj_t) (nm : option (list Z)) : option (option Z) :=
  match nm with
  | None => Some None
  | Some nm =>
      '(sym, size) ← elfsh_get_symtab o;
      match sym with
      | None => Some None
      | Some l => find_name (elfsh_get_symbol_name o) nm 0 (Z.to_nat size) l
      end
  end.

Definition elfsh_get_dynsymbol_by_name (o : elfshobj_t) (nm : option (list Z)) : option (option Z) :=
  match nm with
  | None => Some None
  | Some nm =>
      '(sym, size) ← elfsh_get_dynsymtab o;
      match sym with
      | None => Some None
      | Some l => find_name (elfsh_get_dynsymbol_name o) nm 0 (Z.to_nat (default 0 size)) l
      end
  end.

(** The dynamic symbols come first: whether it is one, and its index. *)
Definition elfsh_get_metasym_by_name (o : elfshobj_t) (nm : option (list Z)) :
    option (option (bool * Z)) :=
  sym ← elfsh_get_dynsymbol_by_name o nm;
  match sym with
  | Some i => Some (Some (true, i))
  | None =>
      sym ← elfsh_get_symbol_by_name o nm;
      Some match sym with Some i => Some (false, i) | None => None end
  end.

Definition elfsh_get_symbol_by_value (o : elfshobj_t) (vaddr mode : Z) :
    option (option Z * option Z) :=
  '(d, num) ← elfsh_get_symtab o;
  match d with
  | None => Some (None, None)
  | Some _ => elfsh_get_sym_by_value d num vaddr mode
  end.

Definition elfsh_get_dynsymbol_by_value (o : elfshobj_t) (vaddr mode : Z) :
    option (option Z * option Z) :=
  '(d, num) ← elfsh_get_dynsymtab o;
  match d with
  | None => Some (None, None)
  | Some _ => num ← num; elfsh_get_sym_by_value d num vaddr mode
  end.

(** Two tables, the dynamic one first: whether the symbol is in it, its index and the
    offset. *)
Definition elfsh_get_metasym_by_value (o : elfshobj_t) (vaddr mode : Z) :
    option (option (bool * Z) * option Z) :=
  '(symtab, num) ← elfsh_get_symtab o;
  '(dynsym, dynum) ← elfsh_get_dynsymtab o;
  let vaddr := if elfsh_is_runtime_mode o then u32 (vaddr - base o) else vaddr in
  '(res, off) ← (match dynsym with
                 | None => Some (None, None)
                 | Some _ => dynum ← dynum; elfsh_get_sym_by_value dynsym dynum vaddr mode
                 end);
  match res with
  | Some i => Some (Some (true, i), off)
  | None =>
      '(res, off') ← elfsh_get_sym_by_value symtab num vaddr mode;
      Some (match res with Some i => Some (false, i) | None => None end,
            match off' with Some _ => off' | None => off end)
  end.

(** ** Changing the tables *)

Definition upd_sym (o : elfshobj_t) (p idx : Z) (f : elfsh_Sym → elfsh_Sym) : option elfshobj_t :=
  s ← get o p;
  d ← data s;
  x ← syms d !! Z.to_nat idx;
  upd p (set_data (Some (put_sym d (Z.to_nat idx) (f x)))) o.

(** [end->st_value = sym->st_value + sym->st_size] when it is below. *)
Definition raise_end (sym end_ : elfsh_Sym) : elfsh_Sym :=
  if st_value end_ <? u32 (st_value sym + st_size sym)
  then set_st_value (u32 (st_value sym + st_size sym)) end_ else end_.

Definition raise_sym (o : elfshobj_t) (sym : elfsh_Sym) (nm : string) : option elfshobj_t :=
  end_ ← elfsh_get_symbol_by_name o (Some (bytes nm));
  match end_ with
  | None => Some o
  | Some i => p ← secthash o !! ELFSH_SECTION_SYMTAB; upd_sym o p i (raise_end sym)
  end.
Definition raise_dynsym (o : elfshobj_t) (sym : elfsh_Sym) (nm : string) : option elfshobj_t :=
  end_ ← elfsh_get_dynsymbol_by_name o (Some (bytes nm));
  match end_ with
  | None => Some o
  | Some i => p ← secthash o !! ELFSH_SECTION_DYNSYM; upd_sym o p i (raise_end sym)
  end.

Definition elfsh_shift_usualsyms (o : elfshobj_t) (sym : elfsh_Sym) : option elfshobj_t :=
  o ← raise_sym o sym "_end";
  o ← raise_dynsym o sym "_end";
  o ← raise_dynsym o sym "_END_";
  if ostype o =? ELFSH_OS_SOLARIS then raise_dynsym o sym "_edata" else Some o.

(** The symbol is the caller's: its [st_name] is set.  The name is looked for in the symbol
    table whatever the section, and added to its string table. *)
Definition elfsh_insert_symbol (o : elfshobj_t) (sect : option Z) (sym : elfsh_Sym)
    (nm : option (list Z)) : option (elfshobj_t * elfsh_Sym * Z) :=
  match sect with
  | None => Some (o, sym, -1)
  | Some p =>
      s ← get o p;
      if negb (sh_type (shdr s) =? SHT_SYMTAB) && negb (sh_type (shdr s) =? SHT_DYNSYM)
      then Some (o, sym, -1) else
      let nm := default (bytes "(NULL)") nm in
      orig ← elfsh_get_symbol_by_name o (Some nm);
      q ← secthash o !! ELFSH_SECTION_SYMTAB;
      same ← match orig with
             | Some i => t ← get o q; d ← data t; x ← syms d !! Z.to_nat i; Some (st_value sym =? st_value x)
             | None => Some false
             end;
      match orig, same with
      | Some i, true => _ ← guard_ub (p =? q); Some (o, sym, i)
      | _, _ =>
          o ← elfsh_shift_usualsyms o sym;
          '(o, idx) ← elfsh_insert_in_strtab o (Some nm);
          if idx <? 0 then Some (o, sym, -1) else
          let sym := set_st_name (u32 idx) sym in
          '(o, _) ← elfsh_append_data_to_section o (Some p) (Some (sym_bytes sym));
          Some (o, sym, i32 (st_name sym))
      end
  end.

(** The symbol is looked for in the symbol table whatever the section.  What follows it is
    moved over it by [memcpy], which is undefined on areas that overlap: these do when more
    than one symbol is moved. *)
Definition elfsh_remove_symbol (o : elfshobj_t) (symtab : option Z) (nm : option (list Z)) :
    option (elfshobj_t * Z) :=
  match symtab, nm with
  | Some p, Some nm =>
      ret ← elfsh_get_symbol_by_name o (Some nm);
      match ret with
      | None => Some (o, -1)
      | Some i =>
          q ← secthash o !! ELFSH_SECTION_SYMTAB;
          _ ← guard_ub (p =? q);
          s ← get o p;
          tab ← data s;
          let off := (sym_size * Z.to_nat i)%nat in
          let h := shdr s in
          let movedsz := Z.to_nat (u32 (sh_size h - Z.of_nat off - 16)) in
          _ ← guard_ub (bool_decide (off + 16 + movedsz ≤ length tab)%nat);
          _ ← guard_ub (bool_decide (movedsz ≤ 16)%nat);
          let size := u32 (sh_size h - 16) in
          let tab := take off tab ++ take movedsz (drop (off + 16) tab) ++ drop (off + movedsz) tab in
          o ← upd p (λ s, set_curend (u32 (curend s - 16))
                            (set_shdr (set_sh_size size h) (set_data (Some (take (Z.to_nat size) tab)) s))) o;
          '(o, _) ← elfsh_sync_sorted_symtab o (Some p);
          Some (o, 0)
      end
  | _, _ => Some (o, -1)
  end.

(** The symbol is that of the symbol table at the index. *)
Definition elfsh_set_symbol_name (o : elfshobj_t) (sym : option Z) (nm : option (list Z)) :
    option (elfshobj_t * Z) :=
  match sym, nm with
  | Some i, Some nm =>
      p ← secthash o !! ELFSH_SECTION_SYMTAB;
      s ← get o p;
      d ← data s;
      x ← syms d !! Z.to_nat i;
      '(o, failed) ←
        (if elfsh_get_symbol_type (Some x) =? STT_SECTION then
           sct ← elfsh_get_section_from_sym o (Some x);
           match sct with
           | Some q => '(o, r) ← elfsh_set_section_name o (Some q) (Some nm); Some (o, r <? 0)
           | None => Some (o, false)
           end
         else Some (o, false));
      if failed : bool then Some (o, -1) else
      match secthash o !! ELFSH_SECTION_STRTAB with
      | None => Some (o, 0)
      | Some t =>
          st ← get o t;
          match data st with
          | None => Some (o, 0)
          | Some strs =>
              str ← cstr_at strs (st_name x);
              if bool_decide (length nm < length str)%nat then
                o ← write_string o t (st_name x) nm (S (length nm)); Some (o, i32 (st_name x))
              else
                '(o, r) ← elfsh_insert_in_strtab o (Some nm);
                o ← upd_sym o p i (set_st_name (u32 r));
                Some (o, i32 (u32 r))
          end
      end
  | _, _ => Some (o, -1)
  end.

(** The same on a dynamic symbol, whose names are in the section [.dynstr]. *)
Definition elfsh_set_dynsymbol_name (o : elfshobj_t) (sym : option Z) (nm : option (list Z)) :
    option (elfshobj_t * Z) :=
  match sym, nm with
  | Some i, Some nm =>
      p ← secthash o !! ELFSH_SECTION_DYNSYM;
      s ← get o p;
      d ← data s;
      x ← syms d !! Z.to_nat i;
      t ← secthash o !! ELFSH_SECTION_DYNSTR;
      st ← get o t;
      strs ← data st;
      str ← cstr_at strs (st_name x);
      if bool_decide (length nm < length str)%nat then
        o ← write_string o t (st_name x) nm (S (length nm)); Some (o, i32 (st_name x))
      else
        '(o, r) ← elfsh_insert_in_dynstr o (Some nm);
        o ← upd_sym o p i (set_st_name (u32 r));
        Some (o, i32 (u32 r))
  | _, _ => Some (o, -1)
  end.

(** ** Symbols made for sections and functions *)

Definition insert_made (o : elfshobj_t) (new : elfsh_Sym) (nm : option (list Z)) : option (elfshobj_t * Z) :=
  '(o, _, ret) ← elfsh_insert_symbol o (secthash o !! ELFSH_SECTION_SYMTAB) new nm;
  if ret <? 0 then Some (o, ret)
  else elfsh_sync_sorted_symtab o (secthash o !! ELFSH_SECTION_SYMTAB).

Definition elfsh_insert_sectsym (o : elfshobj_t) (sect : Z) : option (elfshobj_t * Z) :=
  s ← get o sect;
  insert_made o (elfsh_create_symbol (sh_addr (shdr s)) (curend s) STT_SECTION 0 0 (index s)) (name s).

Definition elfsh_insert_funcsym (o : elfshobj_t) (nm : option (list Z)) (vaddr sz sctidx : Z) :
    option (elfshobj_t * Z) :=
  insert_made o (elfsh_create_symbol vaddr sz STT_FUNC 0 0 sctidx) nm.

(** ** From an address to a name or a file offset *)

(** One turn of the loop: the best symbol so far, its name, and the offset. *)
Definition reverse_step (o : elfshobj_t) (sorted : list elfsh_Sym) (value idx : Z) (s : elfsh_Sym)
    (r : Z * option (list Z) * option Z) : option (Z * option (list Z) * option Z) :=
  let '(best, str, offset) := r in
  if (st_value s <=? value) && DUMPABLE s then
    b ← sorted !! Z.to_nat best;
    if negb (best =? 0) && negb (BESTYPE s b) then Some r
    else
      str ← elfsh_get_symbol_name o (Some s);
      Some (idx, match str with Some [] => None | _ => str end, Some (i32 (u32 (value - st_value s))))
  else Some r.

Fixpoint reverse_loop (o : elfshobj_t) (sorted : list elfsh_Sym) (value idx : Z) (n : nat)
    (l : list elfsh_Sym) (r : Z * option (list Z) * option Z) :
    option (Z * option (list Z) * option Z) :=
  match n with
  | O => Some r
  | S n =>
      match l with
      | [] => None
      | s :: l => r ← reverse_step o sorted value idx s r; reverse_loop o sorted value (idx + 1) n l r
      end
  end.

(** The name, and what is written through [offset]. *)
Definition elfsh_reverse_symbol (o : elfshobj_t) (value : Z) :
    option (elfshobj_t * option (list Z) * option Z) :=
  if (value =? 0) || (value =? 4294967295) then Some (o, None, None) else
  let value := if elfsh_is_runtime_mode o then u32 (value - base o) else value in
  '(d, num) ← elfsh_get_symtab o;
  match d with
  | None =>
      sect ← elfsh_get_parent_section o value;
      match sect with
      | None => Some (o, None, None)
      | Some (p, _) =>
          s ← get o p;
          nm ← elfsh_get_section_name o p;
          Some (o, nm, Some (i32 (u32 (sh_addr (shdr s) - value))))
      end
  | Some _ =>
      p ← secthash o !! ELFSH_SECTION_SYMTAB;
      s ← get o p;
      '(o, _) ← (match altdata s with
                 | None => elfsh_sync_sorted_symtab o (Some p)
                 | Some _ => Some (o, 0)
                 end);
      s ← get o p;
      let sorted := default [] (altdata s) in
      '(_, str, offset) ← reverse_loop o sorted value 0 (Z.to_nat num) sorted (0, None, None);
      Some (o, str, offset)
  end.

Definition elfsh_get_symbol_foffset (o : elfshobj_t) (sym : option elfsh_Sym) : option Z :=
  if elfsh_get_symbol_type sym =? STT_SECTION then
    nm ← elfsh_get_symbol_name o sym;
    nm ← nm;
    sect ← elfsh_get_section_by_name o nm;
    match sect with
    | Some (p, _, _, _) => s ← get o p; Some (i32 (sh_offset (shdr s)))
    | None => Some 0
    end
  else
    match sym with
    | None => Some 0
    | Some sym =>
        if st_value sym =? 0 then Some 0 else
        sect ← elfsh_get_parent_section o (st_value sym);
        match sect with
        | None => Some 0
        | Some (p, _) =>
            s ← get o p;
            Some (i32 (u32 (sh_offset (shdr s) + (st_value sym - sh_addr (shdr s)))))
        end
    end.
End elf.
