(* ===== verification/ElfHash.v ===== *)
(** * The hash table of the dynamic symbols (src/libelfsh/hash.c)

    The table is the data of the section [.hash]: the number of buckets, the number of
    chain elements, the buckets and the chain, as words of 32 bits.  A pointer into the
    table is the index of a word; reading outside it is undefined.  [lastdata] is the
    table last looked in: every search below leaves the table it was given there. *)
From Stdlib Require Import Sorted.
From S2P Require Import Prelude.
From S2P Require Import ElfSym.
From S2P Require Import Elf.

Definition ELFSH_SECTION_HASH : Z := 3.
Definition STN_UNDEF : Z := 0.

(** [(elfsh_Word * ) data] as an array. *)
Fixpoint words (d : list Z) : list Z :=
  match d with
  | a :: b :: c :: e :: d => le_value [a; b; c; e] :: words d
  | _ => []
  end.

Definition word (ws : list Z) (i : Z) : option Z :=
  if i <? 0 then None else ws !! Z.to_nat i.

(** ** Numbers and elements *)

Definition elfsh_get_hashnbucket (ws : list Z) : option Z := word ws 0.
Definition elfsh_get_hashnchain (ws : list Z) : option Z := word ws 1.
(** The index of the first bucket, and of the first chain element. *)
Definition elfsh_get_hashbucket : Z := 2.
Definition elfsh_get_hashchain (ws : list Z) : option Z :=
  nbucket ← elfsh_get_hashnbucket ws; Some (elfsh_get_hashbucket + nbucket).

Definition set_word (ws : list Z) (i val : Z) : option (list Z) :=
  if i <? 0 then None else store ws (Z.to_nat i) val.

(** The functions on the numbers forget [lastdata]. *)
Definition elfsh_get_hashchain_num (lastdata : option (list Z)) : option Z :=
  match lastdata with None => Some 0 | Some ws => elfsh_get_hashnchain ws end.
Definition elfsh_get_hashbucket_num (lastdata : option (list Z)) : option Z :=
  match lastdata with None => Some 0 | Some ws => elfsh_get_hashnbucket ws end.
Definition elfsh_set_hashchain_num (lastdata : option (list Z)) (val : Z) : option (option (list Z) * Z) :=
  match lastdata with
  | None => Some (None, -1)
  | Some ws => ws ← set_word ws 1 val; Some (Some ws, 0)
  end.
Definition elfsh_set_hashbucket_num (lastdata : option (list Z)) (val : Z) : option (option (list Z) * Z) :=
  match lastdata with
  | None => Some (None, -1)
  | Some ws => ws ← set_word ws 0 val; Some (Some ws, 0)
  end.

(** On a pointer to an element, [None] being NULL. *)
Definition elfsh_get_hashchain_value (ws : list Z) (chain : option Z) : option Z :=
  match chain with None => Some (u32 (-1)) | Some i => word ws i end.
Definition elfsh_set_hashchain_value (ws : list Z) (chain : option Z) (val : Z) : option (list Z * Z) :=
  match chain with None => Some (ws, -1) | Some i => ws ← set_word ws i val; Some (ws, 0) end.
Definition elfsh_get_hashbucket_value (ws : list Z) (bucket : option Z) : option Z :=
  match bucket with None => Some (u32 (-1)) | Some i => word ws i end.
Definition elfsh_set_hashbucket_value (ws : list Z) (bucket : option Z) (val : Z) : option (list Z * Z) :=
  match bucket with None => Some (ws, -1) | Some i => ws ← set_word ws i val; Some (ws, 0) end.

Definition elfsh_get_hashchain_by_index (ws : list Z) (idx : Z) : option (option Z) :=
  chain ← elfsh_get_hashchain ws;
  nchain ← elfsh_get_hashnchain ws;
  Some (if idx <? nchain then Some (chain + idx) else None).
Definition elfsh_get_hashbucket_by_index (ws : list Z) (idx : Z) : option (option Z) :=
  nbucket ← elfsh_get_hashnbucket ws;
  Some (if idx <? nbucket then Some (elfsh_get_hashbucket + idx) else None).

(** ** Looking for a symbol *)

(** The table, loaded. *)
Definition elfsh_get_hashtable (o : elfshobj_t) : option (option (list Z)) :=
  p ← secthash o !! ELFSH_SECTION_HASH;
  s ← get o p;
  Some (words <$> data s).

(** [elfsh_get_dynsymbol_name(file, sym + symid)], never NULL. *)
Definition dynname (o : elfshobj_t) (sym : list elfsh_Sym) (symid : Z) : option (list Z) :=
  s ← sym !! Z.to_nat symid;
  nm ← elfsh_get_dynsymbol_name o (Some s);
  nm.

(** The element among [n] from [idx] on, counted from [first], whose symbol has the name. *)
Fixpoint element_named (o : elfshobj_t) (sym : list elfsh_Sym) (ws : list Z) (sname : list Z)
    (first idx : Z) (n : nat) : option (option Z) :=
  match n with
  | O => Some None
  | S n =>
      symid ← word ws (first + idx);
      nm ← dynname o sym symid;
      if bool_decide (sname = nm) then Some (Some (first + idx))
      else element_named o sym ws sname first (idx + 1) n
  end.

Definition elfsh_get_hashchain_by_name (o : elfshobj_t) (sname : list Z) : option (option Z) :=
  d ← elfsh_get_hashtable o;
  match d with
  | None => Some None
  | Some ws =>
      '(sym, _) ← elfsh_get_dynsymtab o;
      match sym with
      | None => Some None
      | Some sym =>
          chain ← elfsh_get_hashchain ws;
          nchain ← elfsh_get_hashnchain ws;
          element_named o sym ws sname chain 0 (Z.to_nat nchain)
      end
  end.

Definition elfsh_get_hashbucket_by_name (o : elfshobj_t) (sname : list Z) : option (option Z) :=
  d ← elfsh_get_hashtable o;
  match d with
  | None => Some None
  | Some ws =>
      '(sym, _) ← elfsh_get_dynsymtab o;
      match sym with
      | None => Some None
      | Some sym =>
          nbucket ← elfsh_get_hashnbucket ws;
          element_named o sym ws sname elfsh_get_hashbucket 0 (Z.to_nat nbucket)
      end
  end.

(** [for (; index < nchain; index = symid)]: [fuel] bounds the turns. *)
Fixpoint chain_loop (fuel : nat) (o : elfshobj_t) (sym : list elfsh_Sym) (ws nm : list Z)
    (chain nchain idx : Z) : option Z :=
  match fuel with
  | O => None
  | S fuel =>
      if nchain <=? u32 idx then Some 0 else
      symid ← word ws (chain + idx);
      if symid =? STN_UNDEF then Some 0 else
      sname ← dynname o sym symid;
      if bool_decide (nm = sname) then s ← sym !! Z.to_nat symid; Some (i32 (st_value s))
      else chain_loop fuel o sym ws nm chain nchain (i32 symid)
  end.

(** [w] is the width of an [unsigned long]. *)
Definition elfsh_get_dynsymbol_by_hash (fuel : nat) (w : Z) (o : elfshobj_t) (nm : list Z) : option Z :=
  d ← elfsh_get_hashtable o;
  match d with
  | None => Some 0
  | Some ws =>
      '(sym, _) ← elfsh_get_dynsymtab o;
      match sym with
      | None => Some 0
      | Some sym =>
          let hash := elfsh_get_symbol_hash w nm in
          nbucket ← elfsh_get_hashnbucket ws;
          nchain ← elfsh_get_hashnchain ws;
          chain ← elfsh_get_hashchain ws;
          _ ← guard_ub (negb (nbucket =? 0));
          idx ← word ws (elfsh_get_hashbucket + hash mod nbucket);
          sname ← dynname o sym idx;
          if bool_decide (nm = sname) then s ← sym !! Z.to_nat idx; Some (i32 (st_value s))
          else chain_loop fuel o sym ws nm chain nchain (i32 idx)
      end
  end.
