(* ===== verification/ElfHashSpec.v ===== *)
(** * The hash table of the dynamic symbols: a well-formed table finds every symbol (ElfHash.v) *)
From Stdlib Require Import Sorted.
From S2P Require Import Prelude.
From S2P Require Import ElfSym.
From S2P Require Import ElfSymSpec.
From S2P Require Import Elf.
From S2P Require Import ElfHash.

(** ** Chains *)

(** From an element, the elements met until the end. *)
Inductive chain_to (chain : list Z) : Z → list Z → Prop :=
  | ct_end : chain_to chain 0 []
  | ct_next i j p : 0 < i → chain !! Z.to_nat i = Some j → chain_to chain j p → chain_to chain i (i :: p).

Section chain.
Context {chain : list Z}.

Lemma chain_to_det i p p' : chain_to chain i p → chain_to chain i p' → p = p'.
Proof.
  intros H. revert p'. induction H as [| i j p Hi Hj _ IH]; intros p' H'; inversion H'; simplify_eq; try lia; [done |].
  f_equal. by apply IH.
Qed.

Lemma chain_to_in i p k : chain_to chain i p → k ∈ p → ∃ q, chain_to chain k q ∧ (length q ≤ length p)%nat.
Proof.
  induction 1 as [| i j p Hi Hj H IH]; [by intros ?%not_elem_of_nil |].
  intros [-> | Hk]%elem_of_cons; [exists (i :: p); split; [by econstructor | done] |].
  destruct (IH Hk) as (q & Hq & Hle). exists q. split; [done | cbn; lia].
Qed.

Lemma chain_to_NoDup i p : chain_to chain i p → NoDup p.
Proof.
  induction 1 as [| i j p Hi Hj H IH]; [constructor |]. constructor; [| done]. intros Hin.
  destruct (chain_to_in _ _ _ H Hin) as (q & Hq & Hle).
  rewrite (chain_to_det _ _ _ Hq (ct_next _ i j p Hi Hj H)) in Hle. cbn in Hle. lia.
Qed.

Lemma chain_to_range i p k : chain_to chain i p → k ∈ p → 0 < k < Z.of_nat (length chain).
Proof.
  induction 1 as [| i j p Hi Hj H IH]; [by intros ?%not_elem_of_nil |].
  intros [-> | Hk]%elem_of_cons; [| by apply IH]. apply lookup_lt_Some in Hj. lia.
Qed.

Lemma chain_to_length i p : chain_to chain i p → (length p ≤ length chain)%nat.
Proof.
  intros H. replace (length chain) with (length (seqZ 0 (Z.of_nat (length chain)))).
  2: { by rewrite length_seqZ, Nat2Z.id. }
  apply submseteq_length, NoDup_submseteq; [by eapply chain_to_NoDup |].
  intros k Hk. apply elem_of_seqZ. pose proof (chain_to_range _ _ _ H Hk). lia.
Qed.
End chain.

(** The first number of a path whose name is the one looked for. *)
Definition first_named (nameof : Z → list Z) (nm : list Z) (p : list Z) : option Z :=
  snd <$> list_find (λ i, nameof i = nm) p.

Lemma first_named_cons nameof nm i p :
  first_named nameof nm (i :: p) = if bool_decide (nm = nameof i) then Some i else first_named nameof nm p.
Proof.
  unfold first_named. cbn [list_find]. destruct (decide (nameof i = nm)) as [<- | Hne].
  - by rewrite bool_decide_true.
  - rewrite bool_decide_false by congruence. by destruct (list_find _ p) as [[? ?] |].
Qed.

Lemma first_named_Some nameof nm p i : first_named nameof nm p = Some i → i ∈ p ∧ nameof i = nm.
Proof.
  unfold first_named. destruct (list_find _ p) as [[k j] |] eqn:E; cbn; [| done]. intros [= <-].
  apply list_find_Some in E as (Hk & Hn & _). split; [by eapply list_elem_of_lookup_2 | done].
Qed.

Lemma first_named_None nameof nm p i : first_named nameof nm p = None → i ∈ p → nameof i ≠ nm.
Proof.
  unfold first_named. destruct (list_find _ p) as [[k j] |] eqn:E; cbn; [done |]. intros _ Hi.
  apply list_find_None in E. by apply (proj1 (Forall_forall _ _) E).
Qed.

(** ** Well-formed tables *)

Section table.
Context (w : Z) (o : elfshobj_t) (sym : list elfsh_Sym) (nameof : Z → list Z) (buckets chain : list Z).

(** The words of the table. *)
Definition table_words : list Z :=
  Z.of_nat (length buckets) :: Z.of_nat (length chain) :: buckets ++ chain.

(** The table of an object whose dynamic symbols are [sym], with their names: every chain
    ends, and every symbol but the first is on the chain of the hash of its name. *)
Record hash_ok : Prop := {
  hk_table : elfsh_get_hashtable o = Some (Some table_words);
  hk_syms : ∃ num, elfsh_get_dynsymtab o = Some (Some sym, num);
  hk_length : length sym = length chain;
  hk_range : Z.of_nat (length chain) < 2 ^ 31;
  hk_buckets : buckets ≠ [];
  hk_names i : 0 ≤ i < Z.of_nat (length sym) → dynname o sym i = Some (nameof i);
  hk_null : chain !! 0%nat = Some 0 ∧ nameof 0 = [];
  hk_ends b h : buckets !! b = Some h → ∃ p, chain_to chain h p;
  hk_complete i h p : 0 < i < Z.of_nat (length sym) →
    buckets !! Z.to_nat (elfsh_get_symbol_hash w (nameof i) mod Z.of_nat (length buckets)) = Some h →
    chain_to chain h p → i ∈ p;
}.

Context (Hok : hash_ok).

(** The value of a symbol, as the [int] the lookup answers; 0 when there is none. *)
Definition value_of (i : option Z) : Z :=
  match i with Some i => i32 (from_option st_value 0 (sym !! Z.to_nat i)) | None => 0 end.

Lemma value_found i : 0 ≤ i < Z.of_nat (length sym) →
  (s ← sym !! Z.to_nat i; Some (i32 (st_value s))) = Some (value_of (Some i)).
Proof using Type.
  intros Hi. unfold value_of. destruct (lookup_lt_is_Some_2 sym (Z.to_nat i)) as [s ->]; [lia |]. done.
Qed.

Lemma word_chain i x : 0 ≤ i → chain !! Z.to_nat i = Some x →
  word table_words (elfsh_get_hashbucket + Z.of_nat (length buckets) + i) = Some x.
Proof using Type.
  intros Hi Hx. unfold word, table_words, elfsh_get_hashbucket. rewrite (proj2 (Z.ltb_ge _ _)) by lia.
  replace (Z.to_nat _) with (S (S (length buckets + Z.to_nat i))) by lia.
  change ((buckets ++ chain) !! (length buckets + Z.to_nat i)%nat = Some x). rewrite lookup_app_r by lia. by replace (length buckets + Z.to_nat i - length buckets)%nat with (Z.to_nat i) by lia.
Qed.

Lemma word_bucket i x : 0 ≤ i → buckets !! Z.to_nat i = Some x → word table_words (elfsh_get_hashbucket + i) = Some x.
Proof using Type.
  intros Hi Hx. unfold word, table_words, elfsh_get_hashbucket. rewrite (proj2 (Z.ltb_ge _ _)) by lia.
  replace (Z.to_nat _) with (S (S (Z.to_nat i))) by lia.
  change ((buckets ++ chain) !! Z.to_nat i = Some x). by apply lookup_app_l_Some.
Qed.

(** The loop from an element that is not the one looked for. *)
Lemma chain_loop_spec nm i j p fuel :
  0 ≤ i → chain !! Z.to_nat i = Some j → chain_to chain j p → (length p < fuel)%nat →
  chain_loop fuel o sym table_words nm (elfsh_get_hashbucket + Z.of_nat (length buckets))
    (Z.of_nat (length chain)) i = Some (value_of (first_named nameof nm p)).
Proof using Hok.
  pose proof (hk_range Hok) as Hr. pose proof (hk_length Hok) as Hlen.
  intros Hi Hj Hp. revert i Hi Hj fuel. induction Hp as [| j k p Hpos Hk Hp IH]; intros i Hi Hj fuel Hf.
  all: destruct fuel as [| fuel]; [cbn in Hf; lia |]; cbn [chain_loop].
  all: pose proof (lookup_lt_Some _ _ _ Hj) as Hlt.
  all: rewrite wrapu_small, (proj2 (Z.leb_gt _ _)), (word_chain i _ Hi Hj) by lia; mstep.
  - done.
  - pose proof (lookup_lt_Some _ _ _ Hk) as Hlk. unfold STN_UNDEF. rewrite (proj2 (Z.eqb_neq _ _)) by lia.
    rewrite (hk_names Hok) by lia. mstep. rewrite first_named_cons. case_bool_decide.
    + apply value_found. lia.
    + rewrite wraps_small by lia. apply IH; [lia | done | cbn in Hf; lia].
Qed.

(** The lookup, with more turns than there are elements. *)
Lemma by_hash_path nm fuel :
  nm ≠ [] → (length chain < fuel)%nat →
  ∃ h p, buckets !! Z.to_nat (elfsh_get_symbol_hash w nm mod Z.of_nat (length buckets)) = Some h ∧ chain_to chain h p ∧
    elfsh_get_dynsymbol_by_hash fuel w o nm = Some (value_of (first_named nameof nm p)).
Proof using Hok.
  intros Hnm Hf. pose proof (hk_range Hok) as Hr. pose proof (hk_length Hok) as Hlen.
  assert (0 < Z.of_nat (length buckets)) as Hb by (pose proof (hk_buckets Hok); destruct buckets; cbn; [done | lia]).
  set (b := elfsh_get_symbol_hash w nm mod Z.of_nat (length buckets)).
  assert (0 ≤ b < Z.of_nat (length buckets)) as Hbr by (apply Z.mod_pos_bound; lia).
  destruct (lookup_lt_is_Some_2 buckets (Z.to_nat b)) as [h Hh]; [lia |].
  destruct (hk_ends Hok _ _ Hh) as [p Hp]. exists h, p. split_and!; [done | done |].
  unfold elfsh_get_dynsymbol_by_hash. rewrite (hk_table Hok). destruct (hk_syms Hok) as [num ->]. mstep.
  unfold elfsh_get_hashnbucket, elfsh_get_hashnchain, elfsh_get_hashchain, elfsh_get_hashnbucket.
  change (word table_words 0) with (Some (Z.of_nat (length buckets))).
  change (word table_words 1) with (Some (Z.of_nat (length chain))). mstep.
  unfold guard_ub. rewrite (proj2 (Z.eqb_neq _ _)) by lia. cbn [negb]. mstep.
  fold b. rewrite (word_bucket b h) by (done || lia). mstep.
  destruct (hk_null Hok) as [H0 N0]. inversion Hp as [| ? j q Hpos Hj Hq]; subst.
  - pose proof (lookup_lt_Some _ _ _ H0). rewrite (hk_names Hok), N0 by lia. mstep.
    rewrite bool_decide_false by done. rewrite wraps_small by lia.
    rewrite (chain_loop_spec nm 0 0 [] fuel); [done | lia | done | constructor | cbn; lia].
  - pose proof (lookup_lt_Some _ _ _ Hj). rewrite (hk_names Hok) by lia. mstep. rewrite first_named_cons.
    case_bool_decide; [apply value_found; lia |]. rewrite wraps_small by lia.
    pose proof (chain_to_length _ _ Hp) as Hle. cbn in Hle.
    eapply chain_loop_spec; [lia | done | done | lia].
Qed.
End table.

(** C27. On a well-formed hash table the lookup of a name ends after fewer turns than there are
    elements in the chain, and gives the value of a dynamic symbol of this name, as an [int],
    or 0 when no symbol has the name. *)
Theorem dynsymbol_by_hash_spec w o sym nameof buckets chain nm fuel :
  hash_ok w o sym nameof buckets chain → nm ≠ [] → (length chain < fuel)%nat →
  ∃ r, elfsh_get_dynsymbol_by_hash fuel w o nm = Some r ∧
    ((∃ i s, 0 < i ∧ sym !! Z.to_nat i = Some s ∧ nameof i = nm ∧ r = i32 (st_value s)) ∨
     r = 0 ∧ ∀ i, 0 < i < Z.of_nat (length sym) → nameof i ≠ nm).
Proof.
  intros Hok Hnm Hf. destruct (by_hash_path w o sym nameof buckets chain Hok nm fuel Hnm Hf) as (h & p & Hh & Hp & ->).
  eexists. split; [done |]. destruct (first_named nameof nm p) as [i |] eqn:E.
  - left. destruct (first_named_Some _ _ _ _ E) as [Hi Hn]. pose proof (chain_to_range _ _ _ Hp Hi) as Hr.
    rewrite <-(hk_length _ _ _ _ _ _ Hok) in Hr.
    destruct (lookup_lt_is_Some_2 sym (Z.to_nat i)) as [s Hs]; [lia |]. exists i, s. split_and!; [lia | done | done |].
    unfold value_of. by rewrite Hs.
  - right. split; [done |]. intros i Hi <-.
    apply (first_named_None _ _ _ i E); [| done]. by eapply hk_complete.
Qed.

(** A chain that meets an element twice is followed for ever. *)
Lemma by_hash_cycle o sym ws nm i fuel chain nchain s :
  0 < i < 2 ^ 31 → i < nchain → word ws (chain + i) = Some i → dynname o sym i = Some s → s ≠ nm →
  chain_loop fuel o sym ws nm chain nchain i = None.
Proof.
  intros Hi Hn Hw Hs Hne. induction fuel as [| fuel IH]; [done |]. cbn [chain_loop].
  rewrite wrapu_small, (proj2 (Z.leb_gt _ _)), Hw by lia. mstep. unfold STN_UNDEF.
  rewrite (proj2 (Z.eqb_neq _ _)), Hs by lia. mstep. rewrite bool_decide_false by done. by rewrite wraps_small by lia.
Qed.

(** An object with the dynamic symbols [f] and [g], on one bucket. *)
Definition demo_dynsyms : list elfsh_Sym := [Sym 0 0 0 0 0 0; Sym 1 4096 16 18 0 1; Sym 3 4112 8 18 0 1].
Definition demo_hashed : elfshobj_t :=
  let sect ty d := Sect None (Shdr 0 ty 0 0 (Z.of_nat (length d)) 0) 0 0 (Some d) None None (Z.of_nat (length d)) in
  Obj (list_to_map [(1, sect SHT_DYNSYM (enc demo_dynsyms)); (2, sect 3 [0; 102; 0; 103; 0]);
                    (3, sect 5 (mjoin (le_bytes 4 <$> table_words [1] [0; 2; 0])))]) [1; 2; 3] []
    (list_to_map [(ELFSH_SECTION_DYNSYM, 1); (ELFSH_SECTION_DYNSTR, 2); (ELFSH_SECTION_HASH, 3)])
    3 1000 0 false 0 0 0.

Definition demo_names (i : Z) : list Z := default [] (dynname demo_hashed demo_dynsyms i).

Lemma demo_hash_ok : hash_ok 32 demo_hashed demo_dynsyms demo_names [1] [0; 2; 0].
Proof.
  assert (chain_to [0; 2; 0] 1 [1; 2]) as Hc by (by repeat econstructor).
  split; try done.
  - by eexists.
  - intros i Hi. cbn in Hi. assert (i = 0 ∨ i = 1 ∨ i = 2) as [-> | [-> | ->]] by lia; done.
  - intros [| [| b]] h; [| done | done]. intros [= <-]. by eexists.
  - intros i h p Hi Hh Hp. cbn in Hi, Hh. rewrite Z.mod_1_r in Hh. injection Hh as <-.
    rewrite (chain_to_det _ _ _ Hp Hc), !elem_of_cons. lia.
Qed.

Lemma dynsymbol_by_hash_spec_witness :
  elfsh_get_dynsymbol_by_hash 4 32 demo_hashed (bytes "g") = Some 4112 ∧
  elfsh_get_dynsymbol_by_hash 4 32 demo_hashed (bytes "h") = Some 0.
Proof.
  split.
  - destruct (dynsymbol_by_hash_spec 32 demo_hashed demo_dynsyms demo_names [1] [0; 2; 0] (bytes "g") 4 demo_hash_ok)
      as (r & E & _); [done | cbn; lia |].
    rewrite E. vm_compute in E. by simplify_eq.
  - destruct (dynsymbol_by_hash_spec 32 demo_hashed demo_dynsyms demo_names [1] [0; 2; 0] (bytes "h") 4 demo_hash_ok)
      as (r & E & _); [done | cbn; lia |].
    rewrite E. vm_compute in E. by simplify_eq.
Defined.
