(* ===== verification/ElfSpec.v ===== *)
(** * ELF objects: appending to a section, and the symbol tables of an object in memory (Elf.v) *)
From Stdlib Require Import Sorted.
From S2P Require Import Prelude.
From S2P Require Import ElfSym.
From S2P Require Import ElfSymSpec.
From S2P Require Import Elf.

Implicit Types (o : elfshobj_t) (s : elfshsect_t) (p q x : Z).

(** ** What an operation leaves alone *)

(** Two objects that differ by their sections and the place of the table of headers. *)
Definition same_meta o o' : Prop :=
  set_e_shoff 0 (set_sections ∅ o') = set_e_shoff 0 (set_sections ∅ o).

(** A section that has moved in the file. *)
Definition reoff s s' : Prop := ∃ z, s' = set_shdr (set_sh_offset z (shdr s)) s.

(** Outside of [S] the sections have only moved in the file. *)
Record frame (S : list Z) o o' : Prop := {
  fr_meta : same_meta o o';
  fr_dom : dom (sections o') = dom (sections o);
  fr_sect x s : x ∉ S → sections o !! x = Some s → ∃ s', sections o' !! x = Some s' ∧ reoff s s';
}.

Lemma reoff_refl s : reoff s s.
Proof. exists (sh_offset (shdr s)). by destruct s as [? [] ? ? ? ? ? ?]. Qed.

Lemma reoff_trans s s' s'' : reoff s s' → reoff s' s'' → reoff s s''.
Proof. intros [z ->] [z' ->]. by exists z'. Qed.

Lemma moved_refl S o : frame S o o.
Proof. split; [done | done |]. intros x s _ Hx. exists s. split; [done | apply reoff_refl]. Qed.

Lemma moved_trans S o o' o'' : frame S o o' → frame S o' o'' → frame S o o''.
Proof.
  intros [M D F] [M' D' F']. split; [unfold same_meta in *; congruence | congruence |].
  intros x s Hx Hs. destruct (F x s Hx Hs) as (s' & Hs' & R). destruct (F' x s' Hx Hs') as (s'' & Hs'' & R').
  exists s''. split; [done | by eapply reoff_trans].
Qed.

Lemma moved_weaken S S' o o' : (∀ x, x ∈ S → x ∈ S') → frame S o o' → frame S' o o'.
Proof. intros HS [M D F]. split; try done. intros x s Hx. apply F. auto. Qed.

Lemma frame_set S o x s s' : sections o !! x = Some s → x ∈ S → frame S o (set_sections (<[x := s']> (sections o)) o).
Proof.
  intros Hs HS. split; [done | |].
  - cbn. rewrite dom_insert_lookup_L; [done | by eexists].
  - intros y t Hy Ht. exists t. cbn. rewrite lookup_insert_ne by (by intros ->). split; [done | apply reoff_refl].
Qed.

Lemma meta_secthash S o o' : frame S o o' → secthash o' = secthash o.
Proof. intros [M _ _]. unfold same_meta in M. by destruct o, o'; simplify_eq/=. Qed.
Lemma meta_sectlist S o o' : frame S o o' → sectlist o' = sectlist o.
Proof. intros [M _ _]. unfold same_meta in M. by destruct o, o'; simplify_eq/=. Qed.
Lemma meta_rights S o o' : frame S o o' → rights o' = rights o.
Proof. intros [M _ _]. unfold same_meta in M. by destruct o, o'; simplify_eq/=. Qed.
Lemma meta_ostype S o o' : frame S o o' → ostype o' = ostype o.
Proof. intros [M _ _]. unfold same_meta in M. by destruct o, o'; simplify_eq/=. Qed.

(** ** Moving the sections that follow *)

(** The sections of the list are there, once. *)
Definition listed o : Prop := NoDup (sectlist o) ∧ Forall (λ x, is_Some (sections o !! x)) (sectlist o).

Lemma listed_frame S o o' : frame S o o' → listed o → listed o'.
Proof.
  intros Hf [Hn Hl]. pose proof (meta_sectlist _ _ _ Hf) as Es. split; rewrite Es; [done |].
  eapply Forall_impl; [exact Hl |]. intros x Hx. apply elem_of_dom. rewrite (fr_dom _ _ _ Hf). by apply elem_of_dom.
Qed.

Lemma after_split p (l : list Z) : p ∈ l → ∃ l1, l = l1 ++ p :: after p l ∧ p ∉ l1.
Proof.
  induction l as [| y l IH]; [by intros ?%not_elem_of_nil |]. cbn [after].
  destruct (Z.eqb_spec y p) as [-> | Hne].
  - intros _. exists []. split; [done | apply not_elem_of_nil].
  - intros [? | Hin]%elem_of_cons; [by subst |]. destruct (IH Hin) as (l1 & E & Hn).
    exists (y :: l1). split; [by rewrite E at 1 |]. rewrite not_elem_of_cons. done.
Qed.

Lemma after_in p (l : list Z) x : x ∈ after p l → x ∈ l.
Proof.
  induction l as [| y l IH]; [done |]. cbn [after]. destruct (y =? p); rewrite elem_of_cons; auto.
Qed.

Lemma after_NoDup p (l : list Z) : NoDup l → NoDup (after p l) ∧ p ∉ after p l.
Proof.
  induction 1 as [| y l Hy Hl IH]; [split; [constructor | apply not_elem_of_nil] |]. cbn [after].
  destruct (Z.eqb_spec y p) as [-> |]; done.
Qed.

(** What the growth of a section by [len] does to one that follows. *)
Definition move_sect (mapped : bool) (len : Z) s : elfshsect_t :=
  let h := shdr s in
  let h := if mapped && negb (sh_addr h =? 0) then set_sh_addr (u32 (sh_addr h + len)) h else h in
  set_shdr (if is_runtime s then h else set_sh_offset (u32 (sh_offset h + len)) h) s.

Lemma move_unmapped len s : reoff s (move_sect false len s).
Proof.
  unfold move_sect. cbn [andb]. destruct (is_runtime s).
  - exists (sh_offset (shdr s)). by destruct s as [? [] ? ? ? ? ? ?].
  - by eexists.
Qed.

Lemma shift_next_spec o mapped len (l : list Z) :
  NoDup l → Forall (λ x, is_Some (sections o !! x)) l →
  ∃ m, shift_next o mapped len l = Some (set_sections m o) ∧
    ∀ x, m !! x = if decide (x ∈ l) then move_sect mapped len <$> sections o !! x else sections o !! x.
Proof.
  intros Hn. revert o. induction Hn as [| y l Hy Hn IH]; intros o Hl.
  - exists (sections o). split; [by destruct o |]. intros x. rewrite decide_False by apply not_elem_of_nil. done.
  - apply Forall_cons in Hl as [[s Hs] Hl]. cbn [shift_next]. unfold upd, get. rewrite Hs. mstep.
    fold (move_sect mapped len s).
    destruct (IH (set_sections (<[y := move_sect mapped len s]> (sections o)) o)) as (m & E & Hm).
    { eapply Forall_impl; [exact Hl |]. intros x [t Ht]. cbn. destruct (decide (x = y)) as [-> | Hne].
      - rewrite lookup_insert_eq. by eexists.
      - rewrite lookup_insert_ne by done. by eexists. }
    exists m. split; [by rewrite E |]. intros x. rewrite Hm. cbn. destruct (decide (x = y)) as [-> | Hne].
    + rewrite decide_False, lookup_insert_eq, decide_True by (done || by left). by rewrite Hs.
    + rewrite lookup_insert_ne by done. destruct (decide (x ∈ l)).
      * by rewrite decide_True by (by right).
      * rewrite decide_False; [done |]. by intros [? | ?]%elem_of_cons.
Qed.

Section spec.
Context `{!Qsort}.

(** A section that is full, its data having the size that the header says. *)
Record full s (d : list Z) : Prop := {
  fl_data : data s = Some d;
  fl_size : sh_size (shdr s) = Z.of_nat (length d);
  fl_end : curend s = Z.of_nat (length d);
  fl_flags : is_runtime s = false;
}.

(** The section once [input] is at its end. *)
Definition longer s (d : list Z) : elfshsect_t :=
  set_curend (Z.of_nat (length d)) (set_shdr (set_sh_size (Z.of_nat (length d)) (shdr s)) (set_data (Some d) s)).

Lemma full_longer s d d' : full s d → full (longer s d') d'.
Proof. intros [_ _ _ F]. by split. Qed.

Lemma full_reoff s s' d : full s d → reoff s s' → full s' d.
Proof. intros [A B C D] [z ->]. by split. Qed.

(** The append up to the shift of what follows. *)
Lemma append_full o p s d input :
  sections o !! p = Some s → full s d → input ≠ [] →
  Z.of_nat (length d) + Z.of_nat (length input) < 2 ^ 31 →
  elfsh_append_data_to_section o (Some p) (Some input) =
  ((λ o', (o', Z.of_nat (length d))) <$>
   shift_object (set_sections (<[p := longer s (d ++ input)]> (sections o)) o) p (Z.of_nat (length input))).
Proof.
  intros Hs [Hd Hz He Hf] Hi Hlen. unfold elfsh_append_data_to_section.
  assert (0 < Z.of_nat (length input)) as Hpos by (destruct input; cbn; [done | lia]).
  rewrite (proj2 (Z.eqb_neq _ _)) by lia. unfold get at 1. rewrite Hs. mstep. rewrite Hz, He, Hf, Hd.
  rewrite (wrapu_small 32 (_ + _)), (proj2 (Z.ltb_lt _ _)) by lia. cbn [andb]. unfold guard_ub at 1.
  rewrite bool_decide_true by lia. mstep. unfold upd, get. rewrite Hs. mstep.
  rewrite Nat2Z.id, firstn_all. cbn [curend set_shdr shdr]. rewrite He, (wrapu_small 32 (_ + _)) by lia.
  assert (set_curend (Z.of_nat (length d) + Z.of_nat (length input))
            (set_shdr (set_sh_size (Z.of_nat (length d) + Z.of_nat (length input)) (shdr s))
               (set_data (Some (d ++ input)) s)) = longer s (d ++ input)) as ->
    by (unfold longer; by rewrite length_app, Nat2Z.inj_add).
  destruct (shift_object _ _ _); mstep; [| done]. do 2 f_equal.
  rewrite Z.add_simpl_r, wrapu_small, wraps_small by lia. done.
Qed.

(** Appending to a section that has no address: nothing else changes but the places in the
    file. *)
Lemma append_unmapped o p s d input :
  listed o → sections o !! p = Some s → full s d → sh_addr (shdr s) = 0 → input ≠ [] →
  Z.of_nat (length d) + Z.of_nat (length input) < 2 ^ 31 →
  ∃ o', elfsh_append_data_to_section o (Some p) (Some input) = Some (o', Z.of_nat (length d)) ∧
    frame [p] o o' ∧ sections o' !! p = Some (longer s (d ++ input)).
Proof.
  intros Hl Hs Hfu Ha Hi Hlen. rewrite (append_full o p s d) by done.
  set (o1 := set_sections _ o). set (s1 := longer s (d ++ input)).
  assert (frame [p] o o1) as F1 by (apply (frame_set _ _ _ s); [done | by left]).
  assert (sections o1 !! p = Some s1) as Hs1 by apply lookup_insert_eq.
  unfold shift_object, get. rewrite Hs1. mstep. change (sh_addr (shdr s1)) with (sh_addr (shdr s)). rewrite Ha. cbn [Z.eqb].
  destruct ((rights o1 =? O_RDONLY) || is_runtime s1); mstep; [by exists o1 |].
  match goal with |- context [shift_next ?x _ _ _] => set (o2 := x) end.
  assert (sections o2 = sections o1 ∧ sectlist o2 = sectlist o1 ∧ same_meta o1 o2) as (Es & El & Em)
    by (unfold o2; by destruct (_ <=? _)).
  destruct (listed_frame _ _ _ F1 Hl) as [Hn Hall]. rewrite <-El in Hn, Hall. rewrite <-Es in Hall.
  destruct (after_NoDup p _ Hn) as [Hna Hpa]. rewrite El in Hna, Hpa.
  destruct (shift_next_spec o2 false (Z.of_nat (length input)) (after p (sectlist o1)) Hna) as (m & E & Hm).
  { rewrite Forall_forall in *. intros x Hx. apply Hall. rewrite El. by eapply after_in. }
  cbn [negb]. rewrite El, E. mstep. eexists. split; [done |].
  assert (frame [] o1 (set_sections m o2)) as F2.
  { split.
    - unfold same_meta in *. by destruct o1, o2.
    - apply set_eq. intros x. cbn. rewrite !elem_of_dom, Hm, Es. destruct (decide _); [by rewrite fmap_is_Some | done].
    - intros x t _ Ht. cbn. rewrite Hm, Es, Ht. destruct (decide _).
      + eexists. split; [done |]. apply move_unmapped.
      + exists t. split; [done | apply reoff_refl]. }
  split.
  - eapply moved_trans; [exact F1 |]. eapply moved_weaken; [| exact F2]. by intros x ?%not_elem_of_nil.
  - cbn. by rewrite Hm, decide_False, Es by done.
Qed.
End spec.
