(* ===== verification/ElfTableSpec.v ===== *)
(** * ELF objects: inserting, finding and removing symbols, and the sorted copies (Elf.v) *)
From Stdlib Require Import Sorted.
From S2P Require Import Prelude.
From S2P Require Import ElfSym.
From S2P Require Import ElfSymSpec.
From S2P Require Import Elf.
From S2P Require Import ElfSpec.

Implicit Types (o : elfshobj_t) (s t : elfsh_Sym) (l : list elfsh_Sym) (p q x : Z) (nm strs : list Z).

(** A list of sections in a larger one. *)
Ltac frame_in := let x := fresh "x" in intros x; rewrite !elem_of_cons; tauto.

(** ** Names *)

(** The name of a symbol, in the bytes of the string table. *)
Definition name_in strs s : option (list Z) := cstr_at strs (st_name s).

(** The place of the first symbol of a name. *)
Definition find_in strs nm l : option nat := fst <$> list_find (λ s, name_in strs s = Some nm) l.

Lemma find_in_cons strs nm s l :
  find_in strs nm (s :: l) =
  if decide (name_in strs s = Some nm) then Some O else S <$> find_in strs nm l.
Proof. unfold find_in. cbn. destruct (decide _); [done |]. by destruct (list_find _ l) as [[? ?] |]. Qed.

Lemma find_in_Some strs nm l i :
  find_in strs nm l = Some i →
  ∃ s, l !! i = Some s ∧ name_in strs s = Some nm ∧ ∀ j t, (j < i)%nat → l !! j = Some t → name_in strs t ≠ Some nm.
Proof.
  unfold find_in. destruct (list_find _ l) as [[k s] |] eqn:E; [| done]. cbn. intros [= ->].
  apply list_find_Some in E as (Hi & Hn & Hb). exists s. split_and!; [done | done |]. intros j t Hj Ht. by eapply Hb.
Qed.

Lemma find_in_None strs nm l : find_in strs nm l = None ↔ Forall (λ s, name_in strs s ≠ Some nm) l.
Proof.
  unfold find_in. rewrite fmap_None, list_find_None. done.
Qed.

Lemma find_in_app strs nm l l' :
  find_in strs nm (l ++ l') =
  match find_in strs nm l with Some i => Some i | None => Nat.add (length l) <$> find_in strs nm l' end.
Proof.
  induction l as [| s l IH]; cbn [app].
  - cbn. by destruct (find_in _ _ l').
  - rewrite !find_in_cons, IH. destruct (decide _); [done |].
    destruct (find_in strs nm l); cbn; [done |]. by destruct (find_in strs nm l').
Qed.

(** Changing symbols without changing their names. *)
Lemma find_in_same strs nm l l' : st_name <$> l = st_name <$> l' → find_in strs nm l = find_in strs nm l'.
Proof.
  revert l'. induction l as [| s l IH]; intros [| s' l']; try done. rewrite !fmap_cons. intros [= Hs Hl].
  rewrite !find_in_cons, (IH l') by done. unfold name_in. by rewrite Hs.
Qed.

Lemma cstr_at_app strs more off nm : cstr_at strs off = Some nm → cstr_at (strs ++ more) off = Some nm.
Proof.
  unfold cstr_at. intros H. case_bool_decide as Ho; [| done]. rewrite bool_decide_true by (rewrite length_app; lia).
  rewrite drop_app_le by lia. revert nm H. generalize (drop (Z.to_nat off) strs). intros d.
  induction d as [| c d IH]; [done |]. cbn. destruct (c =? 0); [done |]. intros nm.
  destruct (cstr d) as [n |]; [| done]. intros [= <-]. by rewrite (IH n).
Qed.

Lemma cstr_at_end strs nm :
  Forall (λ c, 0 < c < 256) nm → cstr_at (strs ++ nm ++ [0]) (Z.of_nat (length strs)) = Some nm.
Proof.
  intros Hn. unfold cstr_at. rewrite bool_decide_true by (rewrite !length_app; lia). change [0] with (0 :: []).
  rewrite Nat2Z.id, drop_app_length. by apply cstr_app.
Qed.

(** Every name is inside of the table. *)
Definition named strs l : Prop := Forall (λ s, is_Some (name_in strs s)) l.

Lemma named_app strs more l nm :
  named strs l → named (strs ++ more) l ∧ find_in (strs ++ more) nm l = find_in strs nm l.
Proof.
  induction 1 as [| s l [n Hs] Hl [IH1 IH2]]; [split; [constructor | done] |].
  assert (name_in (strs ++ more) s = Some n) as Hs' by (by apply cstr_at_app).
  split; [constructor; [by eexists | done] |]. by rewrite !find_in_cons, IH2, Hs, Hs'.
Qed.

Lemma name_in_range strs s nm : name_in strs s = Some nm → 0 ≤ st_name s ≤ Z.of_nat (length strs).
Proof. unfold name_in, cstr_at. case_bool_decide; done. Qed.

(** ** The end of the image *)

(** [_end] raised to the end of a symbol, when the table has it. *)
Definition raised strs (end_ : string) sym l : list elfsh_Sym :=
  match find_in strs (bytes end_) l with Some i => alter (raise_end sym) i l | None => l end.

Lemma raise_end_ok sym s : sym_ok s → sym_ok (raise_end sym s).
Proof.
  intros Hs. unfold raise_end. destruct (_ <? _); [| done]. destruct Hs as (? & ? & ? & ? & ? & ?).
  pose proof (wrapu_range 32 (st_value sym + st_size sym) ltac:(done)). unfold sym_ok.
  cbn [st_name st_value st_size st_info st_other st_shndx set_st_value]. lia.
Qed.

Lemma raised_names strs e sym l : st_name <$> raised strs e sym l = st_name <$> l.
Proof.
  unfold raised. destruct (find_in _ _ l) as [i |]; [| done]. apply list_eq. intros j.
  rewrite !list_lookup_fmap. destruct (decide (i = j)) as [-> | Hne].
  - rewrite list_lookup_alter_eq. destruct (l !! j) as [s |]; [cbn | done]. unfold raise_end. by destruct (_ <? _).
  - by rewrite list_lookup_alter_ne.
Qed.

Lemma raised_ok strs e sym l : Forall sym_ok l → Forall sym_ok (raised strs e sym l).
Proof.
  intros Hl. unfold raised. destruct (find_in _ _ l); [| done]. apply Forall_alter; [done |].
  intros; by apply raise_end_ok.
Qed.

Lemma length_raised strs e sym l : length (raised strs e sym l) = length l.
Proof. unfold raised. destruct (find_in _ _ l); [| done]. apply length_alter. Qed.

Lemma named_same strs l l' : st_name <$> l = st_name <$> l' → named strs l → named strs l'.
Proof.
  unfold named. intros E Hl. assert (Forall (λ n, is_Some (cstr_at strs n)) (st_name <$> l)) as Hn
    by (rewrite Forall_fmap; exact Hl). rewrite E, Forall_fmap in Hn. exact Hn.
Qed.

(** ** The tables of an object *)

Section tables.
Context `{!Qsort}.

(** The symbols [l] in the section [p], their names in the section [q]: both are at the end of
    no mapped section. *)
Record tables o p q l strs : Prop := {
  tb_listed : listed o;
  tb_symtab : secthash o !! ELFSH_SECTION_SYMTAB = Some p;
  tb_strtab : secthash o !! ELFSH_SECTION_STRTAB = Some q;
  tb_ne : p ≠ q;
  tb_syms : ∃ sc, sections o !! p = Some sc ∧ full sc (enc l) ∧ sh_type (shdr sc) = SHT_SYMTAB ∧ sh_addr (shdr sc) = 0;
  tb_strs : ∃ sc, sections o !! q = Some sc ∧ full sc strs ∧ sh_addr (shdr sc) = 0;
  tb_ok : Forall sym_ok l;
  tb_named : named strs l;
  tb_bound : Z.of_nat (sym_size * length l) < 2 ^ 31 ∧ Z.of_nat (length strs) < 2 ^ 31;
}.

(** The dynamic symbols [l] in the section [p], their names in the section [q]. *)
Record dynamic o p q l strs : Prop := {
  dy_symtab : secthash o !! ELFSH_SECTION_DYNSYM = Some p;
  dy_strtab : secthash o !! ELFSH_SECTION_DYNSTR = Some q;
  dy_ne : p ≠ q;
  dy_syms : ∃ sc, sections o !! p = Some sc ∧ full sc (enc l);
  dy_strs : ∃ sc, sections o !! q = Some sc ∧ full sc strs;
  dy_ok : Forall sym_ok l;
  dy_named : named strs l;
  dy_bound : Z.of_nat (sym_size * length l) < 2 ^ 31;
}.

Lemma symbol_name o p q l strs s :
  tables o p q l strs → is_Some (name_in strs s) →
  elfsh_get_symbol_name o (Some s) = Some (name_in strs s).
Proof.
  intros [_ Hp Hq _ _ (t & Ht & [Hd Hz _ _] & _) _ _ _] [nm Hn]. unfold elfsh_get_symbol_name.
  rewrite Hp, Hq. mstep. unfold get. rewrite Ht. mstep. rewrite Hd, Hz. pose proof (name_in_range _ _ _ Hn).
  rewrite (proj2 (Z.ltb_ge _ _)) by lia. unfold name_in in *. by rewrite Hn.
Qed.

Lemma dynsymbol_name o p q l strs s :
  dynamic o p q l strs → is_Some (name_in strs s) →
  elfsh_get_dynsymbol_name o (Some s) = Some (name_in strs s).
Proof.
  intros [Hp Hq _ _ (t & Ht & [Hd _ _ _]) _ _ _] [nm Hn]. unfold elfsh_get_dynsymbol_name.
  rewrite Hp, Hq. mstep. unfold get. rewrite Ht. mstep. rewrite Hd. mstep. unfold name_in in *. by rewrite Hn.
Qed.

(** The search by name, given what names are. *)
Lemma find_name_spec name_of strs nm l idx :
  (∀ s, s ∈ l → name_of (Some s) = Some (name_in strs s)) →
  find_name name_of nm idx (length l) l = Some ((λ i, idx + Z.of_nat i) <$> find_in strs nm l).
Proof.
  revert idx. induction l as [| s l IH]; intros idx Hn; [done |]. cbn [find_name length].
  rewrite Hn by (by left). mstep. rewrite find_in_cons. case_bool_decide as Hs; case_decide; try done.
  - cbn. do 2 f_equal. lia.
  - rewrite IH by (intros; apply Hn; by right). destruct (find_in strs nm l); cbn; do 2 f_equal; lia.
Qed.

Lemma symtab_spec o p q l strs :
  tables o p q l strs → elfsh_get_symtab o = Some (Some l, Z.of_nat (length l)).
Proof.
  intros [_ Hp _ _ (s & Hs & [Hd _ He _] & _) _ Hok _ [Hb _]]. unfold elfsh_get_symtab. rewrite Hp. mstep.
  unfold get. rewrite Hs. mstep. unfold sect_syms. rewrite Hd, He. mstep. rewrite syms_of, length_enc by done.
  unfold sym_size in *. rewrite Nat2Z.inj_mul in *. change (Z.of_nat 16) with 16 in *.
  rewrite Z.mul_comm, Z.div_mul, wraps_small by lia. done.
Qed.

Lemma dynsymtab_spec o p q l strs :
  dynamic o p q l strs → elfsh_get_dynsymtab o = Some (Some l, Some (Z.of_nat (length l))).
Proof.
  intros [Hp _ _ (s & Hs & [Hd Hz He _]) _ Hok _ Hb]. unfold elfsh_get_dynsymtab. rewrite Hp.
  unfold get. rewrite Hs. mstep. unfold sect_syms. rewrite Hd, He, Hz. mstep. rewrite syms_of, length_enc by done.
  unfold sym_size in *. rewrite Nat2Z.inj_mul in *. change (Z.of_nat 16) with 16 in *.
  replace (if _ =? 0 then _ else _) with (16 * Z.of_nat (length l)) by (by destruct (_ =? 0)).
  rewrite Z.mul_comm, Z.div_mul, wraps_small by lia. done.
Qed.

Lemma symbol_by_name o p q l strs nm :
  tables o p q l strs → elfsh_get_symbol_by_name o (Some nm) = Some (Z.of_nat <$> find_in strs nm l).
Proof.
  intros T. unfold elfsh_get_symbol_by_name. rewrite (symtab_spec _ _ _ _ _ T). mstep. rewrite Nat2Z.id.
  rewrite (find_name_spec _ strs).
  - by destruct (find_in strs nm l).
  - intros s Hs. apply (symbol_name _ _ _ _ _ _ T). pose proof (tb_named _ _ _ _ _ T) as Hn.
    unfold named in Hn. rewrite Forall_forall in Hn. by apply Hn.
Qed.

Lemma dynsymbol_by_name o p q l strs nm :
  dynamic o p q l strs → elfsh_get_dynsymbol_by_name o (Some nm) = Some (Z.of_nat <$> find_in strs nm l).
Proof.
  intros T. unfold elfsh_get_dynsymbol_by_name. rewrite (dynsymtab_spec _ _ _ _ _ T). mstep. cbn [from_option id]. rewrite Nat2Z.id.
  rewrite (find_name_spec _ strs).
  - by destruct (find_in strs nm l).
  - intros s Hs. apply (dynsymbol_name _ _ _ _ _ _ T). pose proof (dy_named _ _ _ _ _ T) as Hn.
    unfold named in Hn. rewrite Forall_forall in Hn. by apply Hn.
Qed.
(** ** Operations that leave the tables alone *)

Lemma frame_reoff S o o' x sc : frame S o o' → x ∉ S → sections o !! x = Some sc → ∃ sc', sections o' !! x = Some sc' ∧ reoff sc sc'.
Proof. intros F Hx Hs. exact (fr_sect _ _ _ F _ _ Hx Hs). Qed.

Lemma tables_frame S o o' p q l strs :
  frame S o o' → p ∉ S → q ∉ S → tables o p q l strs → tables o' p q l strs.
Proof.
  intros F Hp Hq [Hl Ht Hs Hne (sp & Ep & Fp & Tp & Ap) (sq & Eq & Fq & Aq) Hok Hn Hb].
  destruct (frame_reoff _ _ _ _ _ F Hp Ep) as (sp' & Ep' & Rp). destruct (frame_reoff _ _ _ _ _ F Hq Eq) as (sq' & Eq' & Rq).
  pose proof (full_reoff _ _ _ Fp Rp). pose proof (full_reoff _ _ _ Fq Rq).
  split; try done; rewrite ?(meta_secthash _ _ _ F); try done.
  - by eapply listed_frame.
  - exists sp'. destruct Rp as [z ->]. done.
  - exists sq'. destruct Rq as [z ->]. done.
Qed.

Lemma dynamic_frame S o o' p q l strs :
  frame S o o' → p ∉ S → q ∉ S → dynamic o p q l strs → dynamic o' p q l strs.
Proof.
  intros F Hp Hq [Ht Hs Hne (sp & Ep & Fp) (sq & Eq & Fq) Hok Hn Hb].
  destruct (frame_reoff _ _ _ _ _ F Hp Ep) as (sp' & Ep' & Rp). destruct (frame_reoff _ _ _ _ _ F Hq Eq) as (sq' & Eq' & Rq).
  pose proof (full_reoff _ _ _ Fp Rp). pose proof (full_reoff _ _ _ Fq Rq).
  split; try done; rewrite ?(meta_secthash _ _ _ F); try done; by eexists.
Qed.

(** ** Raising the end *)

Lemma full_data sc d d' : full sc d → length d' = length d → full (set_data (Some d') sc) d'.
Proof. intros [A B C D] E. split; [done | | |]; cbn; by rewrite ?E. Qed.

Lemma upd_sym_spec o p sc l i s f :
  sections o !! p = Some sc → full sc (enc l) → Forall sym_ok l → l !! i = Some s →
  upd_sym o p (Z.of_nat i) f =
  Some (set_sections (<[p := set_data (Some (enc (alter f i l))) sc]> (sections o)) o).
Proof.
  intros Hs [Hd _ _ _] Hok Hi. unfold upd_sym, upd, get. rewrite Hs. mstep. rewrite Hd. mstep.
  rewrite syms_of, Nat2Z.id, Hi by done. mstep. rewrite put_enc by (by eapply lookup_lt_Some).
  assert (<[i := f s]> l = alter f i l) as ->; [| done]. apply list_eq. intros j. destruct (decide (i = j)) as [<- | Hne].
  - rewrite list_lookup_insert_eq, list_lookup_alter_eq, Hi by (by eapply lookup_lt_Some). done.
  - by rewrite list_lookup_insert_ne, list_lookup_alter_ne.
Qed.

Lemma length_raised_enc strs e sym l : length (enc (raised strs e sym l)) = length (enc l).
Proof. by rewrite !length_enc, length_raised. Qed.

Lemma raise_sym_spec o p q l strs sym e :
  tables o p q l strs →
  ∃ o', raise_sym o sym e = Some o' ∧ frame [p] o o' ∧ tables o' p q (raised strs e sym l) strs.
Proof.
  intros T. unfold raise_sym. rewrite (symbol_by_name _ _ _ _ _ _ T). mstep.
  pose proof (raised_ok strs e sym l (tb_ok _ _ _ _ _ T)) as Hok.
  pose proof (named_same strs l _ (eq_sym (raised_names strs e sym l)) (tb_named _ _ _ _ _ T)) as Hn.
  pose proof (length_raised_enc strs e sym l) as Hlen.
  unfold raised in *. destruct (find_in strs (bytes e) l) as [i |] eqn:E; mstep.
  2: { exists o. split_and!; [done | apply moved_refl | done]. }
  destruct T as [Hl Ht Hs Hne (sp & Ep & Fp & Tp & Ap) (sq & Eq & Fq & Aq) Hok' Hn' Hb].
  destruct (find_in_Some _ _ _ _ E) as (s & Hi & _). rewrite Ht. mstep.
  rewrite (upd_sym_spec o p sp l i s) by done. eexists. split; [done |].
  assert (frame [p] o (set_sections (<[p := set_data (Some (enc (alter (raise_end sym) i l))) sp]> (sections o)) o)) as F
    by (apply (frame_set _ _ _ sp); [done | by left]).
  split; [done |]. split; try done.
  - by eapply listed_frame.
  - eexists. split; [apply lookup_insert_eq |]. split; [by eapply full_data | done].
  - exists sq. cbn. by rewrite lookup_insert_ne.
  - by rewrite length_alter.
Qed.

Lemma raise_dynsym_spec o p q l strs sym e :
  dynamic o p q l strs →
  ∃ o', raise_dynsym o sym e = Some o' ∧ frame [p] o o' ∧ dynamic o' p q (raised strs e sym l) strs.
Proof.
  intros T. unfold raise_dynsym. rewrite (dynsymbol_by_name _ _ _ _ _ _ T). mstep.
  pose proof (raised_ok strs e sym l (dy_ok _ _ _ _ _ T)) as Hok.
  pose proof (named_same strs l _ (eq_sym (raised_names strs e sym l)) (dy_named _ _ _ _ _ T)) as Hn.
  pose proof (length_raised_enc strs e sym l) as Hlen.
  unfold raised in *. destruct (find_in strs (bytes e) l) as [i |] eqn:E; mstep.
  2: { exists o. split_and!; [done | apply moved_refl | done]. }
  destruct T as [Ht Hs Hne (sp & Ep & Fp) (sq & Eq & Fq) Hok' Hn' Hb].
  destruct (find_in_Some _ _ _ _ E) as (s & Hi & _). rewrite Ht. mstep.
  rewrite (upd_sym_spec o p sp l i s) by done. eexists. split; [done |].
  split; [apply (frame_set _ _ _ sp); [done | by left] |]. split; try done.
  - eexists. split; [apply lookup_insert_eq |]. by eapply full_data.
  - exists sq. cbn. by rewrite lookup_insert_ne.
  - by rewrite length_alter.
Qed.

(** The dynamic symbols after an insertion. *)
Definition raised_dyn (os : Z) strs sym l : list elfsh_Sym :=
  let l := raised strs "_END_" sym (raised strs "_end" sym l) in
  if os =? ELFSH_OS_SOLARIS then raised strs "_edata" sym l else l.

Lemma shift_usualsyms_spec o p q l strs dp dq dl dstrs sym :
  tables o p q l strs → dynamic o dp dq dl dstrs → NoDup [p; q; dp; dq] →
  ∃ o', elfsh_shift_usualsyms o sym = Some o' ∧ frame [p; dp] o o' ∧
    tables o' p q (raised strs "_end" sym l) strs ∧
    dynamic o' dp dq (raised_dyn (ostype o) dstrs sym dl) dstrs.
Proof.
  intros T D Hnd. assert ((p ∉ [dp]) ∧ (q ∉ [dp]) ∧ (dp ∉ [p]) ∧ (dq ∉ [p])) as (Hp & Hq & Hdp & Hdq).
  { rewrite !list_elem_of_singleton. rewrite !NoDup_cons, !not_elem_of_cons in Hnd. intuition congruence. }
  unfold elfsh_shift_usualsyms.
  destruct (raise_sym_spec o p q l strs sym "_end" T) as (o1 & -> & F1 & T1). mstep.
  pose proof (dynamic_frame _ _ _ _ _ _ _ F1 Hdp Hdq D) as D1.
  destruct (raise_dynsym_spec o1 dp dq dl dstrs sym "_end" D1) as (o2 & -> & F2 & D2). mstep.
  destruct (raise_dynsym_spec o2 dp dq _ dstrs sym "_END_" D2) as (o3 & -> & F3 & D3). mstep.
  pose proof (tables_frame _ _ _ _ _ _ _ F2 Hp Hq T1) as T2. pose proof (tables_frame _ _ _ _ _ _ _ F3 Hp Hq T2) as T3.
  assert (frame [p; dp] o o3) as F.
  { eapply moved_trans; [eapply moved_weaken; [| exact F1]; frame_in |].
    eapply moved_trans; [eapply moved_weaken; [| exact F2]; frame_in |].
    eapply moved_weaken; [| exact F3]; frame_in. }
  rewrite (meta_ostype _ _ _ F). unfold raised_dyn. destruct (ostype o =? _).
  - destruct (raise_dynsym_spec o3 dp dq _ dstrs sym "_edata" D3) as (o4 & -> & F4 & D4).
    exists o4. split_and!; try done.
    + eapply moved_trans; [exact F |]. eapply moved_weaken; [| exact F4]; frame_in.
    + exact (tables_frame _ _ _ _ _ _ _ F4 Hp Hq T3).
  - exists o3. done.
Qed.
(** ** Appending a name and a symbol *)

Lemma append_name o p q l strs nm :
  tables o p q l strs → nm ≠ [] → Z.of_nat (length strs) + Z.of_nat (length nm) + 1 < 2 ^ 31 →
  ∃ o', elfsh_insert_in_strtab o (Some nm) = Some (o', Z.of_nat (length strs)) ∧ frame [q] o o' ∧
    tables o' p q l (strs ++ nm ++ [0]).
Proof.
  intros T Hnm Hlen. pose proof T as [Hl Ht Hs Hne (sp & Ep & Fp & Tp & Ap) (sq & Eq & Fq & Aq) Hok Hn Hb].
  unfold elfsh_insert_in_strtab, elfsh_get_strtab. rewrite Hs. mstep. unfold get. rewrite Eq. mstep.
  assert (∀ A (x y : A), match nm with [] => x | _ :: _ => y end = y) as Hm by (by destruct nm).
  rewrite Hm. mstep. unfold append_string.
  destruct (append_unmapped o q sq strs (nm ++ [0])) as (o' & -> & F & E); try done.
  { by destruct nm. }
  { rewrite length_app. cbn [length]. lia. }
  mstep. rewrite (proj2 (Z.ltb_ge _ _)) by lia. exists o'. split_and!; [done | done |].
  assert (p ∉ [q]) as Hpq by (by rewrite list_elem_of_singleton).
  destruct (frame_reoff _ _ _ _ _ F Hpq Ep) as (sp' & Ep' & Rp). pose proof (full_reoff _ _ _ Fp Rp).
  split; try done; rewrite ?(meta_secthash _ _ _ F); try done.
  - by eapply listed_frame.
  - exists sp'. destruct Rp as [z ->]. done.
  - eexists. split; [exact E |]. split; [by eapply full_longer | done].
  - by apply (named_app _ _ _ nm).
  - rewrite !length_app. cbn [length]. lia.
Qed.

Lemma append_sym o p q l strs s :
  tables o p q l strs → sym_ok s → is_Some (name_in strs s) → Z.of_nat (sym_size * S (length l)) < 2 ^ 31 →
  ∃ o' r, elfsh_append_data_to_section o (Some p) (Some (sym_bytes s)) = Some (o', r) ∧ frame [p] o o' ∧
    tables o' p q (l ++ [s]) strs.
Proof.
  intros T Hs Hnm Hlen. pose proof T as [Hl Ht Hq Hne (sp & Ep & Fp & Tp & Ap) (sq & Eq & Fq & Aq) Hok Hn Hb].
  destruct (append_unmapped o p sp (enc l) (sym_bytes s)) as (o' & -> & F & E); try done.
  { rewrite length_enc, length_sym_bytes. unfold sym_size in *. lia. }
  exists o', (Z.of_nat (length (enc l))). split_and!; [done | done |].
  assert (q ∉ [p]) as Hpq by (by rewrite list_elem_of_singleton).
  destruct (frame_reoff _ _ _ _ _ F Hpq Eq) as (sq' & Eq' & Rq). pose proof (full_reoff _ _ _ Fq Rq).
  assert (enc l ++ sym_bytes s = enc (l ++ [s])) as Henc by (rewrite enc_app, enc_cons; by change (enc []) with (@nil Z); rewrite app_nil_r).
  rewrite Henc in E.
  split; try done; rewrite ?(meta_secthash _ _ _ F); try done.
  - by eapply listed_frame.
  - eexists. split; [exact E |]. split; [by eapply full_longer | done].
  - exists sq'. destruct Rq as [z ->]. done.
  - apply Forall_app. split; [done | by constructor].
  - apply Forall_app. split; [done | by constructor].
  - rewrite length_app. cbn [length]. rewrite Nat.add_1_r. lia.
Qed.

(** What an insertion makes of the symbols and of the names. *)
Definition known strs nm sym l : option nat :=
  i ← find_in strs nm l; s ← l !! i; if decide (st_value sym = st_value s) then Some i else None.
Definition inserted strs nm sym l : list elfsh_Sym :=
  match known strs nm sym l with
  | Some _ => l
  | None => raised strs "_end" sym l ++ [set_st_name (Z.of_nat (length strs)) sym]
  end.
Definition inserted_name strs nm sym l : list Z :=
  match known strs nm sym l with Some _ => strs | None => strs ++ nm ++ [0] end.
Definition inserted_dyn (os : Z) strs nm sym l dstrs dl : list elfsh_Sym :=
  match known strs nm sym l with Some _ => dl | None => raised_dyn os dstrs sym dl end.

(** The room that is left. *)
Definition room strs nm l : Prop :=
  Z.of_nat (sym_size * S (length l)) < 2 ^ 31 ∧ Z.of_nat (length strs) + Z.of_nat (length nm) + 1 < 2 ^ 31.

Lemma insert_symbol_frame o p q l strs dp dq dl dstrs sym nm :
  tables o p q l strs → dynamic o dp dq dl dstrs → NoDup [p; q; dp; dq] →
  sym_ok sym → nm ≠ [] → Forall (λ c, 0 < c < 256) nm → room strs nm l →
  ∃ o' sym', elfsh_insert_symbol o (Some p) sym (Some nm) =
    Some (o', sym', match known strs nm sym l with Some i => Z.of_nat i | None => Z.of_nat (length strs) end) ∧
    frame [p; q; dp] o o' ∧
    tables o' p q (inserted strs nm sym l) (inserted_name strs nm sym l) ∧
    dynamic o' dp dq (inserted_dyn (ostype o) strs nm sym l dstrs dl) dstrs.
Proof.
  intros T D Hnd Hsym Hne Hnul [R1 R2]. unfold elfsh_insert_symbol, inserted, inserted_name, inserted_dyn, known.
  pose proof T as [_ Ht _ _ (sp & Ep & [Hdp _ _ _] & Tp & _) _ Hok _ _].
  unfold get. rewrite Ep. mstep. rewrite Tp. cbn [negb Z.eqb SHT_SYMTAB SHT_DYNSYM Pos.eqb andb].
  cbn [from_option default id]. rewrite (symbol_by_name _ _ _ _ _ _ T). mstep. rewrite Ht. mstep.
  assert (∀ i s, l !! i = Some s →
    (t ← sections o !! p; d ← data t; x ← syms d !! Z.to_nat (Z.of_nat i); Some (st_value sym =? st_value x)) =
    Some (st_value sym =? st_value s)) as Hsame.
  { intros i s Hi. rewrite Ep. mstep. rewrite Hdp. mstep. by rewrite syms_of, Nat2Z.id, Hi. }
  assert (∃ o', (o ← elfsh_shift_usualsyms o sym;
      '(o, idx) ← elfsh_insert_in_strtab o (Some nm);
      if idx <? 0 then Some (o, sym, -1) else
      let sym := set_st_name (u32 idx) sym in
      '(o, _) ← elfsh_append_data_to_section o (Some p) (Some (sym_bytes sym));
      Some (o, sym, i32 (st_name sym))) =
      Some (o', set_st_name (Z.of_nat (length strs)) sym, Z.of_nat (length strs)) ∧ frame [p; q; dp] o o' ∧
      tables o' p q (raised strs "_end" sym l ++ [set_st_name (Z.of_nat (length strs)) sym]) (strs ++ nm ++ [0]) ∧
      dynamic o' dp dq (raised_dyn (ostype o) dstrs sym dl) dstrs) as (o' & E & F & T' & D').
  { rewrite !NoDup_cons, !not_elem_of_cons in Hnd.
    destruct (shift_usualsyms_spec o p q l strs dp dq dl dstrs sym T D) as (o1 & -> & F1 & T1 & D1).
    { rewrite !NoDup_cons, !not_elem_of_cons. intuition. }
    mstep. destruct (append_name o1 p q _ strs nm T1 Hne R2) as (o2 & -> & F2 & T2). mstep.
    rewrite (proj2 (Z.ltb_ge _ _)) by lia. rewrite wrapu_small by lia. cbv zeta.
    destruct (append_sym o2 p q _ _ (set_st_name (Z.of_nat (length strs)) sym) T2) as (o3 & r & -> & F3 & T3).
    { unfold sym_ok in *. cbn [st_name st_value st_size st_info st_other st_shndx set_st_name]. lia. }
    { unfold name_in. cbn [st_name set_st_name]. rewrite cstr_at_end by done. by eexists. }
    { by rewrite length_raised. }
    mstep. exists o3. cbn [st_name set_st_name]. rewrite wraps_small by lia. split_and!; [done | | done |].
    - eapply moved_trans; [eapply moved_weaken; [| exact F1]; frame_in |].
      eapply moved_trans; [eapply moved_weaken; [| exact F2]; frame_in |].
      eapply moved_weaken; [| exact F3]; frame_in.
    - eapply dynamic_frame; [exact F3 | rewrite list_elem_of_singleton; intuition congruence .. |].
      eapply dynamic_frame; [exact F2 | rewrite list_elem_of_singleton; intuition congruence .. | exact D1]. }
  destruct (find_in strs nm l) as [i |] eqn:Ef; mstep.
  - destruct (find_in_Some _ _ _ _ Ef) as (s & Hi & _). rewrite (Hsame i s Hi), Hi. mstep. unfold guard_ub.
    destruct (Z.eqb_spec (st_value sym) (st_value s)); case_decide; try done.
    + rewrite Z.eqb_refl. mstep. exists o, sym. split_and!; try done. apply moved_refl.
    + exists o', (set_st_name (Z.of_nat (length strs)) sym). done.
  - exists o', (set_st_name (Z.of_nat (length strs)) sym). done.
Qed.
(** ** Sorted copies *)

Lemma value_key s t : addrsort_compare s t ≤ 0 ↔ st_value s ≤ st_value t.
Proof. unfold addrsort_compare. destruct (Z.ltb_spec (st_value s) (st_value t)), (Z.ltb_spec (st_value t) (st_value s)); lia. Qed.

Lemma size_key s t : sizesort_compare s t ≤ 0 ↔ st_size s ≤ st_size t.
Proof. unfold sizesort_compare. destruct (Z.ltb_spec (st_size s) (st_size t)), (Z.ltb_spec (st_size t) (st_size s)); lia. Qed.

(** [a] holds the symbols of [l], by increasing key. *)
Definition sorted_by (key : elfsh_Sym → Z) l (a : option (list elfsh_Sym)) : Prop :=
  ∃ b, a = Some b ∧ b ≡ₚ l ∧ StronglySorted Z.le (key <$> b).

(** The copies of the table [p] are up to date. *)
Definition synced o p l : Prop :=
  ∃ sc, sections o !! p = Some sc ∧ sorted_by st_value l (altdata sc) ∧ sorted_by st_size l (terdata sc).

Lemma sort_copy_spec sc l ty :
  data sc = Some (enc l) → Forall sym_ok l → l ≠ [] → (ty = ELFSH_SORT_BY_ADDR ∨ ty = ELFSH_SORT_BY_SIZE) →
  ∃ a, sort_copy sc (Z.of_nat (length l)) ty = Some a ∧
    sorted_by (if ty =? ELFSH_SORT_BY_SIZE then st_size else st_value) l a.
Proof.
  intros Hd Hok Hne Hty. assert (0 < Z.of_nat (length l)) as Hpos by (destruct l; cbn; [done | lia]).
  unfold sort_copy, elfsh_copy_symtab, sect_syms, guard_ub. rewrite Hd. mstep. rewrite syms_of by done.
  rewrite (proj2 (Z.eqb_neq _ _)), bool_decide_true by lia. mstep. rewrite Nat2Z.id, firstn_all.
  unfold elfsh_sort_symtab, guard_ub. rewrite (proj2 (Z.eqb_neq _ _)) by lia.
  assert ((ty =? ELFSH_SORT_BY_SIZE) || (ty =? ELFSH_SORT_BY_ADDR) = true) as -> by (by destruct Hty as [-> | ->]).
  rewrite bool_decide_true by lia. mstep. rewrite Nat2Z.id, firstn_all, drop_all, app_nil_r. eexists. split; [done |].
  eexists. split; [done |]. split; [apply qsort_perm |]. apply qsort_sorted.
  destruct (ty =? ELFSH_SORT_BY_SIZE); [exact size_key | exact value_key].
Qed.

(** On a table that holds [l], whatever it is called. *)
Lemma sync_table o p sc l :
  sections o !! p = Some sc → full sc (enc l) → sh_type (shdr sc) = SHT_SYMTAB → Forall sym_ok l →
  Z.of_nat (sym_size * length l) < 2 ^ 31 →
  ∃ r a b, elfsh_sync_sorted_symtab o (Some p) = Some (set_sections (<[p := set_sorted a b sc]> (sections o)) o, r) ∧
    (l ≠ [] → r = 0 ∧ sorted_by st_value l a ∧ sorted_by st_size l b).
Proof.
  intros Ep [Hd Hz He Hr] Tp Hok Hb. unfold elfsh_sync_sorted_symtab, upd, get. rewrite Ep. mstep. rewrite Tp.
  cbn [negb Z.eqb SHT_SYMTAB SHT_DYNSYM Pos.eqb andb].
  rewrite He, length_enc. unfold sym_size in *. rewrite Nat2Z.inj_mul in *. change (Z.of_nat 16) with 16 in *.
  rewrite (Z.mul_comm 16), Z.div_mul by lia. destruct (Z.eqb_spec (Z.of_nat (length l)) 0) as [E0 | Hpos].
  - exists (-1), (altdata sc), (terdata sc). assert (set_sorted (altdata sc) (terdata sc) sc = sc) as -> by (by destruct sc).
    rewrite insert_id by done. split; [by destruct o |]. by destruct l.
  - rewrite wraps_small by lia. assert (l ≠ []) as Hne by (by intros ->).
    destruct (sort_copy_spec sc l ELFSH_SORT_BY_ADDR) as (a & -> & Ha); [done .. | by left |].
    destruct (sort_copy_spec sc l ELFSH_SORT_BY_SIZE) as (b & -> & Hts); [done .. | by right |].
    mstep. by exists 0, a, b.
Qed.

Lemma sync_spec o p q l strs :
  tables o p q l strs →
  ∃ o' r, elfsh_sync_sorted_symtab o (Some p) = Some (o', r) ∧ frame [p] o o' ∧ tables o' p q l strs ∧
    (l ≠ [] → r = 0 ∧ synced o' p l).
Proof.
  intros T. pose proof T as [Hl Ht Hq Hpq (sp & Ep & Fp & Tp & Ap) (sq & Eq & Fq & Aq) Hok Hn [Hb Hb']].
  destruct (sync_table o p sp l Ep Fp Tp Hok Hb) as (r & a & b & E & Hs). eexists _, r. split; [exact E |].
  assert (frame [p] o (set_sections (<[p := set_sorted a b sp]> (sections o)) o)) as F
    by (apply (frame_set _ _ _ sp); [done | by left]).
  pose proof Fp as [Hd Hz He Hr]. split_and!; [done | |].
  - split; try done.
    + by eapply listed_frame.
    + eexists. split; [apply lookup_insert_eq |]. split; [by split | done].
    + exists sq. cbn. by rewrite lookup_insert_ne.
  - intros Hne. destruct (Hs Hne) as (-> & Ha & Hts). split; [done |]. eexists. split; [apply lookup_insert_eq |]. done.
Qed.

(** ** Removing a symbol *)

(** One symbol at most follows the one removed. *)
Lemma remove_symbol_frame o p q l strs nm i :
  tables o p q l strs → find_in strs nm l = Some i → (length l ≤ i + 2)%nat →
  ∃ o', elfsh_remove_symbol o (Some p) (Some nm) = Some (o', 0) ∧ frame [p] o o' ∧
    tables o' p q (delete i l) strs ∧ (delete i l ≠ [] → synced o' p (delete i l)).
Proof.
  intros T Hf Hlast. pose proof T as [Hl Ht Hq Hpq (sp & Ep & Fp & Tp & Ap) (sq & Eq & Fq & Aq) Hok Hn [Hb Hb']].
  destruct (find_in_Some _ _ _ _ Hf) as (s & Hi & _). pose proof (lookup_lt_Some _ _ _ Hi) as Hlt.
  assert (length (delete i l) = length l - 1)%nat as Hdel by (apply length_delete; by eexists).
  pose proof Fp as [Hd Hz He Hr]. unfold elfsh_remove_symbol. rewrite (symbol_by_name _ _ _ _ _ _ T), Hf. mstep.
  rewrite Ht. mstep. unfold guard_ub at 1. rewrite Z.eqb_refl. mstep. unfold get. rewrite Ep. mstep. rewrite Hd. mstep.
  rewrite Nat2Z.id, Hz. pose proof (length_enc l) as Hlen. unfold sym_size in *.
  rewrite (wrapu_small 32 (_ - _ - 16)), (wrapu_small 32 (_ - 16)) by lia. unfold guard_ub.
  rewrite bool_decide_true by lia. mstep.
  assert (Z.to_nat (Z.of_nat (length (enc l)) - Z.of_nat (16 * i) - 16) = 16 * (length l - S i))%nat as -> by lia.
  rewrite bool_decide_true by lia. mstep.
  assert (take (Z.to_nat (Z.of_nat (length (enc l)) - 16))
    (take (16 * i) (enc l) ++ take (16 * (length l - S i)) (drop (16 * i + 16) (enc l)) ++
     drop (16 * i + 16 * (length l - S i)) (enc l)) = enc (delete i l)) as ->.
  { replace (16 * i + 16)%nat with (16 * S i)%nat by lia. change 16%nat with sym_size.
    rewrite drop_enc, !take_enc, (take_ge (drop (S i) l)) by (rewrite length_drop; lia).
    rewrite app_assoc, <-enc_app, <-delete_take_drop, take_app_length'; [done |].
    rewrite !length_enc, Hdel. unfold sym_size. lia. }
  assert (Z.of_nat (length (enc l)) - 16 = Z.of_nat (length (enc (delete i l)))) as ->
    by (rewrite !length_enc, Hdel; unfold sym_size; lia).
  unfold upd, get. rewrite Ep. mstep. rewrite He, (wrapu_small 32 (_ - 16)) by lia.
  assert (Z.of_nat (length (enc l)) - 16 = Z.of_nat (length (enc (delete i l)))) as ->
    by (rewrite !length_enc, Hdel; unfold sym_size; lia).
  match goal with |- context [elfsh_sync_sorted_symtab ?x] => set (o1 := x) end.
  assert (frame [p] o o1) as F1 by (apply (frame_set _ _ _ sp); [done | by left]).
  assert (tables o1 p q (delete i l) strs) as T1.
  { split; try done.
    - by eapply listed_frame.
    - eexists. split; [apply lookup_insert_eq |]. split; [by split | done].
    - exists sq. cbn. by rewrite lookup_insert_ne.
    - by apply Forall_delete.
    - by apply Forall_delete.
    - rewrite Hdel. unfold sym_size. lia. }
  destruct (sync_spec o1 p q (delete i l) strs T1) as (o2 & r & -> & F2 & T2 & S2). mstep. exists o2.
  split_and!; [done | by eapply moved_trans | done |]. by intros [_ ?]%S2.
Qed.

(** When two follow it or more, the areas of the copy overlap. *)
Lemma remove_symbol_overlap o p q l strs nm i :
  tables o p q l strs → find_in strs nm l = Some i → (i + 2 < length l)%nat →
  elfsh_remove_symbol o (Some p) (Some nm) = None.
Proof.
  intros T Hf Hlt. pose proof T as [Hl Ht Hq Hpq (sp & Ep & Fp & Tp & Ap) _ Hok Hn [Hb Hb']].
  pose proof Fp as [Hd Hz He Hr]. unfold elfsh_remove_symbol. rewrite (symbol_by_name _ _ _ _ _ _ T), Hf. mstep.
  rewrite Ht. mstep. unfold guard_ub. rewrite Z.eqb_refl. mstep. unfold get. rewrite Ep. mstep. rewrite Hd. mstep.
  rewrite Nat2Z.id, Hz. pose proof (length_enc l) as Hlen. unfold sym_size in *.
  rewrite (wrapu_small 32 (_ - _ - 16)) by lia.
  rewrite (bool_decide_true (16 * i + _ + _ ≤ _)%nat) by lia. mstep. by rewrite bool_decide_false by lia.
Qed.
End tables.
