(* ===== verification/ElfEditSpec.v ===== *)
(** * ELF objects: what inserting and removing a symbol promise (Elf.v) *)
From Stdlib Require Import Sorted.
From S2P Require Import Prelude.
From S2P Require Import ElfSym.
From S2P Require Import ElfSymSpec.
From S2P Require Import Elf.
From S2P Require Import ElfSpec.
From S2P Require Import ElfTableSpec.

Implicit Types (o : elfshobj_t) (s t sym : elfsh_Sym) (l dl : list elfsh_Sym) (p q dp dq : Z) (nm strs dstrs : list Z).

Lemma create_symbol_ok value size type binding vis sctidx :
  0 ≤ value < 2 ^ 32 → sym_ok (elfsh_create_symbol value size type binding vis sctidx).
Proof.
  intros Hv. unfold elfsh_create_symbol, sym_ok. cbn [st_name st_value st_size st_info st_other st_shndx].
  pose proof (wrapu_range 32 size ltac:(done)). pose proof (wrapu_range 8 (ELFSH_ST_INFO binding type) ltac:(done)).
  pose proof (wrapu_range 8 vis ltac:(done)). pose proof (wrapu_range 16 sctidx ltac:(done)). lia.
Qed.

Lemma known_find strs nm sym l i : known strs nm sym l = Some i → find_in strs nm l = Some i.
Proof.
  unfold known. destruct (find_in strs nm l) as [j |]; [| done]. mstep. destruct (l !! j); [| done]. mstep.
  by case_decide; simplify_eq.
Qed.

(** The names after an insertion. *)
Lemma find_inserted strs nm sym l nm' :
  named strs l → Forall (λ c, 0 < c < 256) nm →
  find_in (inserted_name strs nm sym l) nm' (inserted strs nm sym l) =
  match find_in strs nm' l with
  | Some i => Some i
  | None => if decide (nm' = nm) then Some (length l) else None
  end.
Proof.
  intros Hn Hnul. unfold inserted_name, inserted. destruct (known strs nm sym l) as [i |] eqn:K.
  - apply known_find in K. destruct (find_in strs nm' l) eqn:E; [done |]. case_decide; [by simplify_eq | done].
  - pose proof (named_same strs l _ (eq_sym (raised_names strs "_end" sym l)) Hn) as Hr.
    rewrite find_in_app, (proj2 (named_app _ _ _ nm' Hr)), (find_in_same strs nm' _ l) by apply raised_names.
    destruct (find_in strs nm' l); [done |]. rewrite find_in_cons. unfold name_in. cbn [st_name set_st_name].
    rewrite cstr_at_end by done. case_decide; case_decide; simplify_eq; try done.
    cbn. by rewrite length_raised, Nat.add_0_r.
Qed.

Section edit.
Context `{!Qsort}.

Lemma inserted_nonempty strs nm sym l : inserted strs nm sym l ≠ [].
Proof.
  unfold inserted. destruct (known strs nm sym l) as [i |] eqn:K; [| by destruct (raised _ _ _ _)].
  apply known_find, find_in_Some in K as (s & Hi & _). by destruct l.
Qed.

Lemma insert_funcsym_frame o p q l strs dp dq dl dstrs nm vaddr sz sctidx :
  tables o p q l strs → dynamic o dp dq dl dstrs → NoDup [p; q; dp; dq] →
  0 ≤ vaddr < 2 ^ 32 → nm ≠ [] → Forall (λ c, 0 < c < 256) nm → room strs nm l →
  let sym := elfsh_create_symbol vaddr sz STT_FUNC 0 0 sctidx in
  let l' := inserted strs nm sym l in
  ∃ o', elfsh_insert_funcsym o (Some nm) vaddr sz sctidx = Some (o', 0) ∧
    tables o' p q l' (inserted_name strs nm sym l) ∧ synced o' p l' ∧
    dynamic o' dp dq (inserted_dyn (ostype o) strs nm sym l dstrs dl) dstrs ∧
    frame [p; q; dp] o o'.
Proof.
  intros T D Hnd Hv Hne Hnul R sym l'. unfold elfsh_insert_funcsym, insert_made. fold sym.
  rewrite (tb_symtab _ _ _ _ _ T).
  destruct (insert_symbol_frame o p q l strs dp dq dl dstrs sym nm T D Hnd) as (o1 & sym' & -> & F1 & T1 & D1);
    [by apply create_symbol_ok | done .. |].
  mstep. rewrite (proj2 (Z.ltb_ge _ _)) by (destruct (known strs nm sym l); lia). rewrite (tb_symtab _ _ _ _ _ T1).
  destruct (sync_spec o1 p q _ _ T1) as (o2 & r & -> & F2 & T2 & S2).
  destruct (S2 (inserted_nonempty _ _ _ _)) as [-> S3].
  exists o2. rewrite !NoDup_cons, !not_elem_of_cons in Hnd. split_and!; [done | done | done | |].
  - eapply dynamic_frame; [exact F2 | rewrite list_elem_of_singleton; intuition congruence .. | done].
  - eapply moved_trans; [exact F1 |]. eapply moved_weaken; [| exact F2]; frame_in.
Qed.

(** C22. Inserting a function symbol in an object whose tables are loaded succeeds.  A symbol
    that the table has, with the same name and address, is left; else the name is added to the
    string table, the symbol to the end of the table, and the symbols of the end of the image
    are raised to the end of the function.  Every symbol keeps its name and its place, the new
    one is found under its name unless another was there, the sorted copies hold the symbols of
    the table by address and by size, and the other sections have only moved in the file. *)
Theorem insert_funcsym_spec o p q l strs dp dq dl dstrs nm vaddr sz sctidx :
  tables o p q l strs → dynamic o dp dq dl dstrs → NoDup [p; q; dp; dq] →
  0 ≤ vaddr < 2 ^ 32 → nm ≠ [] → Forall (λ c, 0 < c < 256) nm → room strs nm l →
  let sym := elfsh_create_symbol vaddr sz STT_FUNC 0 0 sctidx in
  let l' := inserted strs nm sym l in
  ∃ o', elfsh_insert_funcsym o (Some nm) vaddr sz sctidx = Some (o', 0) ∧
    tables o' p q l' (inserted_name strs nm sym l) ∧ synced o' p l' ∧
    dynamic o' dp dq (inserted_dyn (ostype o) strs nm sym l dstrs dl) dstrs ∧
    frame [p; q; dp] o o' ∧
    ∀ nm', elfsh_get_symbol_by_name o' (Some nm') =
      Some (Z.of_nat <$> match find_in strs nm' l with
                         | Some i => Some i
                         | None => if decide (nm' = nm) then Some (length l) else None
                         end).
Proof.
  intros T D Hnd Hv Hne Hnul R sym l'.
  destruct (insert_funcsym_frame o p q l strs dp dq dl dstrs nm vaddr sz sctidx) as (o' & E & T' & S & D' & F); try done.
  exists o'. split_and!; try done. intros nm'. rewrite (symbol_by_name _ _ _ _ _ _ T'). do 2 f_equal.
  by rewrite find_inserted by (done || apply (tb_named _ _ _ _ _ T)).
Qed.

(** C23. Removing a symbol by its name fails without effect when no symbol has the name.  Else,
    if the first one of the name is the last of the table or the one before, it leaves the
    table, the others keep their order and their names, the sorted copies hold what is left
    when something is, and no other section changes.  If two symbols or more follow it, the
    copy that moves them overlaps itself and the call is undefined. *)
Theorem remove_symbol_spec o p q l strs nm :
  tables o p q l strs →
  match find_in strs nm l with
  | None => elfsh_remove_symbol o (Some p) (Some nm) = Some (o, -1)
  | Some i =>
      if decide (length l ≤ i + 2)%nat then
        ∃ o', elfsh_remove_symbol o (Some p) (Some nm) = Some (o', 0) ∧ frame [p] o o' ∧
          tables o' p q (delete i l) strs ∧ (delete i l ≠ [] → synced o' p (delete i l))
      else elfsh_remove_symbol o (Some p) (Some nm) = None
  end.
Proof.
  intros T. destruct (find_in strs nm l) as [i |] eqn:E.
  - case_decide; [by apply remove_symbol_frame | by apply (remove_symbol_overlap o p q l strs nm i); [.. | lia]].
  - unfold elfsh_remove_symbol. rewrite (symbol_by_name _ _ _ _ _ _ T), E. done.
Qed.

(** C24. Removing a function symbol that has just been inserted under a new name gives the symbols
    back, but for the end of the image: the same names lead to the same places.  The name stays
    in the string table. *)
Theorem insert_remove_symbol o p q l strs dp dq dl dstrs nm vaddr sz sctidx :
  tables o p q l strs → dynamic o dp dq dl dstrs → NoDup [p; q; dp; dq] →
  0 ≤ vaddr < 2 ^ 32 → nm ≠ [] → Forall (λ c, 0 < c < 256) nm → room strs nm l → find_in strs nm l = None →
  ∃ o' o'', elfsh_insert_funcsym o (Some nm) vaddr sz sctidx = Some (o', 0) ∧
    elfsh_remove_symbol o' (Some p) (Some nm) = Some (o'', 0) ∧
    tables o'' p q (raised strs "_end" (elfsh_create_symbol vaddr sz STT_FUNC 0 0 sctidx) l) (strs ++ nm ++ [0]) ∧
    ∀ nm', elfsh_get_symbol_by_name o'' (Some nm') = elfsh_get_symbol_by_name o (Some nm').
Proof.
  intros T D Hnd Hv Hne Hnul R Hf.
  destruct (insert_funcsym_frame o p q l strs dp dq dl dstrs nm vaddr sz sctidx) as (o1 & E1 & T1 & _); try done.
  set (sym := elfsh_create_symbol vaddr sz STT_FUNC 0 0 sctidx) in *.
  assert (known strs nm sym l = None) as K by (unfold known; by rewrite Hf).
  pose proof (find_inserted strs nm sym l nm (tb_named _ _ _ _ _ T) Hnul) as Hi.
  rewrite Hf, decide_True in Hi by done.
  destruct (remove_symbol_frame o1 p q _ _ nm _ T1 Hi) as (o2 & E2 & _ & T2 & _).
  { unfold inserted. rewrite K, length_app, length_raised. simpl. lia. }
  assert (delete (length l) (inserted strs nm sym l) = raised strs "_end" sym l) as Hdel.
  { unfold inserted. rewrite K, <-(length_raised strs "_end" sym l), delete_middle. apply app_nil_r. }
  unfold inserted_name in T2. rewrite K in T2. exists o1, o2. split_and!; [done | done | |].
  - by rewrite Hdel in T2.
  - intros nm'. rewrite (symbol_by_name _ _ _ _ _ _ T2), (symbol_by_name _ _ _ _ _ _ T), Hdel.
    pose proof (named_same strs l _ (eq_sym (raised_names strs "_end" sym l)) (tb_named _ _ _ _ _ T)) as Hr.
    by rewrite (proj2 (named_app _ _ _ nm' Hr)), (find_in_same strs nm' _ l) by apply raised_names.
Qed.
End edit.

(** ** An object *)

#[local] Existing Instance sort_by_qsort.

(** A program with [main] and [_end], and the dynamic symbol [_end]. *)
Definition demo_strs : list Z := 0 :: bytes "main" ++ 0 :: bytes "_end" ++ [0].
Definition demo_dynstrs : list Z := 0 :: bytes "_end" ++ [0].
Definition demo_syms : list elfsh_Sym := [Sym 0 0 0 0 0 0; Sym 1 4096 64 18 0 1; Sym 6 4160 0 16 0 65521].
Definition demo_dyns : list elfsh_Sym := [Sym 0 0 0 0 0 0; Sym 1 4160 0 16 0 65521].
Definition demo_sect (ty : Z) (d : list Z) : elfshsect_t :=
  Sect None (Shdr 0 ty 0 0 (Z.of_nat (length d)) 0) 0 0 (Some d) None None (Z.of_nat (length d)).
Definition demo_obj : elfshobj_t :=
  Obj (list_to_map [(1, demo_sect SHT_SYMTAB (enc demo_syms)); (2, demo_sect 3 demo_strs);
                    (3, demo_sect SHT_DYNSYM (enc demo_dyns)); (4, demo_sect 3 demo_dynstrs)]) [3; 4; 1; 2] []
    (list_to_map [(ELFSH_SECTION_SYMTAB, 1); (ELFSH_SECTION_STRTAB, 2); (ELFSH_SECTION_DYNSYM, 3);
                  (ELFSH_SECTION_DYNSTR, 4)])
    4 1000 2 false 0 0 0.

Lemma demo_tables : tables demo_obj 1 2 demo_syms demo_strs.
Proof.
  split; try done.
  - split; [apply (bool_decide_unpack _); by vm_compute |]. repeat constructor; by eexists.
  - eexists. split; [reflexivity |]. by repeat split.
  - eexists. split; [reflexivity |]. by repeat split.
  - by repeat constructor.
  - repeat constructor; by eexists.
Qed.

Lemma demo_dynamic : dynamic demo_obj 3 4 demo_dyns demo_dynstrs.
Proof.
  split; try done.
  - eexists. split; [reflexivity |]. by repeat split.
  - eexists. split; [reflexivity |]. by repeat split.
  - by repeat constructor.
  - repeat constructor; by eexists.
Qed.

Lemma demo_apart : NoDup [1; 2; 3; 4].
Proof. apply (bool_decide_unpack _). by vm_compute. Qed.

Lemma demo_name : Forall (λ c, 0 < c < 256) (bytes "foo").
Proof. repeat constructor. Qed.

Lemma insert_funcsym_spec_witness :
  ∃ o', elfsh_insert_funcsym demo_obj (Some (bytes "foo")) 8192 16 1 = Some (o', 0) ∧
    elfsh_get_symbol_by_name o' (Some (bytes "foo")) = Some (Some 3).
Proof.
  destruct (insert_funcsym_spec demo_obj 1 2 demo_syms demo_strs 3 4 demo_dyns demo_dynstrs (bytes "foo") 8192 16 1
    demo_tables demo_dynamic demo_apart) as (o' & E & _ & _ & _ & _ & Hn);
    [lia | done | exact demo_name | by split |].
  exists o'. split; [exact E |]. by rewrite Hn.
Defined.

Lemma remove_symbol_spec_witness :
  ∃ o', elfsh_remove_symbol demo_obj (Some 1) (Some (bytes "main")) = Some (o', 0) ∧
    tables o' 1 2 [Sym 0 0 0 0 0 0; Sym 6 4160 0 16 0 65521] demo_strs.
Proof.
  pose proof (remove_symbol_spec demo_obj 1 2 demo_syms demo_strs (bytes "main") demo_tables) as H.
  destruct H as (o' & E & _ & T & _). exists o'. split; [exact E | exact T].
Defined.

Lemma insert_remove_symbol_witness :
  ∃ o' o'', elfsh_insert_funcsym demo_obj (Some (bytes "foo")) 8192 16 1 = Some (o', 0) ∧
    elfsh_remove_symbol o' (Some 1) (Some (bytes "foo")) = Some (o'', 0) ∧
    elfsh_get_symbol_by_name o'' (Some (bytes "foo")) = Some None.
Proof.
  destruct (insert_remove_symbol demo_obj 1 2 demo_syms demo_strs 3 4 demo_dyns demo_dynstrs (bytes "foo") 8192 16 1
    demo_tables demo_dynamic demo_apart) as (o' & o'' & E & E' & _ & Hn);
    [lia | done | exact demo_name | by split | done |].
  exists o', o''. split_and!; [exact E | exact E' |]. rewrite Hn. reflexivity.
Defined.
