(* ===== verification/ElfLayoutSpec.v ===== *)
(** * ELF objects: the layout of the sections when one of them grows (Elf.v) *)
From Stdlib Require Import Sorted.
From S2P Require Import Prelude.
From S2P Require Import ElfSym.
From S2P Require Import ElfSymSpec.
From S2P Require Import Elf.
From S2P Require Import ElfSpec.
From S2P Require Import ElfTableSpec.

Implicit Types (o : elfshobj_t) (s t : elfshsect_t) (l : list elfsh_Sym) (p q x y : Z) (d : list Z).

(** ** Sections in order *)

(** A section comes before another one, in the file and, when both are mapped, in memory. *)
Definition before s t : Prop :=
  (sh_type (shdr s) ≠ SHT_NOBITS → sh_offset (shdr s) + sh_size (shdr s) ≤ sh_offset (shdr t)) ∧
  (sh_addr (shdr s) ≠ 0 → sh_addr (shdr t) ≠ 0 → sh_addr (shdr s) + sh_size (shdr s) ≤ sh_addr (shdr t)).

(** The sections follow each other in the order of the list. *)
Definition laid_out o : Prop :=
  ∀ i j x y s t, (i < j)%nat → sectlist o !! i = Some x → sectlist o !! j = Some y →
    sections o !! x = Some s → sections o !! y = Some t → before s t.

(** There is room for [len] more bytes after each section. *)
Definition may_grow (len : Z) s : Prop :=
  is_runtime s = false ∧ 0 ≤ sh_size (shdr s) ∧ 0 ≤ sh_addr (shdr s) ∧ 0 ≤ sh_offset (shdr s) ∧
  sh_addr (shdr s) + sh_size (shdr s) + len < 2 ^ 32 ∧ sh_offset (shdr s) + sh_size (shdr s) + len < 2 ^ 32.

(** What the growth of a mapped section does to one that follows, without wrap-around. *)
Lemma move_sect_shdr len s :
  0 ≤ len → may_grow len s →
  shdr (move_sect true len s) =
  set_sh_offset (sh_offset (shdr s) + len)
    (if sh_addr (shdr s) =? 0 then shdr s else set_sh_addr (sh_addr (shdr s) + len) (shdr s)).
Proof.
  intros Hl (Hr & Hz & Ha & Ho & Hb & Hb'). unfold move_sect. rewrite Hr. cbn [andb shdr set_shdr].
  rewrite (wrapu_small 32 (sh_addr _ + _)) by lia.
  destruct (sh_addr (shdr s) =? 0); cbn [negb sh_offset set_sh_addr]; by rewrite wrapu_small by lia.
Qed.

Lemma after_index p (l : list Z) k i x :
  NoDup l → l !! k = Some p → l !! i = Some x → x ∈ after p l ↔ (k < i)%nat.
Proof.
  intros Hnd. revert k i. induction Hnd as [| y l Hy Hnd IH]; intros k i Hk Hi; [done |]. cbn [after].
  destruct k as [| k]; cbn in Hk.
  - injection Hk as ->. rewrite Z.eqb_refl. destruct i as [| i]; cbn in Hi.
    + injection Hi as ->. split; [done | lia].
    + split; [lia |]. intros _. by eapply list_elem_of_lookup_2.
  - pose proof (list_elem_of_lookup_2 _ _ _ Hk) as Hp. rewrite (proj2 (Z.eqb_neq _ _)) by (by intros ->).
    destruct i as [| i]; cbn in Hi.
    + injection Hi as ->. split; [| lia]. intros Hx%after_in. done.
    + rewrite (IH k i) by done. lia.
Qed.

(** Sections that do not move keep their order, those that move together too. *)
Lemma before_same s t s' t' :
  shdr s' = shdr s → shdr t' = shdr t → before s t → before s' t'.
Proof. unfold before. by intros -> ->. Qed.

Lemma before_moved len s t :
  0 ≤ len → may_grow len s → may_grow len t → before s t → before (move_sect true len s) (move_sect true len t).
Proof.
  intros Hl Hs Ht [B1 B2]. unfold before. rewrite !move_sect_shdr by done.
  destruct Hs as (_ & Hzs & Has & Hos & Hs1 & Hs2), Ht as (_ & Hzt & Hat & Hot & Ht1 & Ht2).
  destruct (Z.eqb_spec (sh_addr (shdr s)) 0), (Z.eqb_spec (sh_addr (shdr t)) 0);
    cbn [sh_type sh_offset sh_size sh_addr set_sh_offset set_sh_addr]; split; intros; try lia.
  all: match goal with H : _ ≠ SHT_NOBITS |- _ => specialize (B1 H); lia | _ => specialize (B2 ltac:(done) ltac:(done)); lia end.
Qed.

(** A section that stays and one that moves away from it, the first longer by [grow]. *)
Lemma before_apart len grow s s' t :
  0 ≤ grow ≤ len → may_grow len t →
  sh_type (shdr s') = sh_type (shdr s) → sh_offset (shdr s') = sh_offset (shdr s) → sh_addr (shdr s') = sh_addr (shdr s) →
  sh_size (shdr s') = sh_size (shdr s) + grow → before s t → before s' (move_sect true len t).
Proof.
  intros Hl Ht Ety Eo Ea Ez [B1 B2]. unfold before. rewrite move_sect_shdr, Ety, Eo, Ea, Ez by (done || lia).
  destruct Ht as (_ & Hzt & Hat & Hot & Ht1 & Ht2).
  destruct (Z.eqb_spec (sh_addr (shdr t)) 0);
    cbn [sh_type sh_offset sh_size sh_addr set_sh_offset set_sh_addr]; split; intros; try lia.
  all: match goal with H : _ ≠ SHT_NOBITS |- _ => specialize (B1 H); lia | _ => specialize (B2 ltac:(done) ltac:(done)); lia end.
Qed.

(** The sections once [p] has grown by [len]: what the shift makes of the whole list. *)
Lemma grown_laid_out o o' p len s h :
  laid_out o → listed o → p ∈ sectlist o → 0 ≤ len → sectlist o' = sectlist o →
  (∀ x t, x ∈ sectlist o → sections o !! x = Some t → may_grow len t) →
  sections o !! p = Some s →
  (∀ x t t', x ∈ sectlist o → sections o !! x = Some t → sections o' !! x = Some t' →
    shdr t' = if decide (x = p) then h else if decide (x ∈ after p (sectlist o)) then shdr (move_sect true len t) else shdr t) →
  h = set_sh_size (sh_size (shdr s) + len) (shdr s) →
  laid_out o'.
Proof.
  intros Hlay [Hnd Hall] [k Hk]%list_elem_of_lookup Hl El Hg Hs Hx Es' i j x y t' u' Hij Hi Hj Ht' Hu'. rewrite El in Hi, Hj.
  assert (∀ i x, sectlist o !! i = Some x → ∃ t, sections o !! x = Some t ∧ x ∈ sectlist o) as Hex.
  { intros m z Hm. apply list_elem_of_lookup_2 in Hm. rewrite Forall_forall in Hall. destruct (Hall z Hm) as [t Ht].
    by exists t. }
  destruct (Hex _ _ Hi) as (t & Ht & Hxin), (Hex _ _ Hj) as (u & Hu & Hyin).
  pose proof (Hlay i j x y t u Hij Hi Hj Ht Hu) as Hb.
  pose proof (Hx _ _ _ Hxin Ht Ht') as Et. pose proof (Hx _ _ _ Hyin Hu Hu') as Eu.
  pose proof (after_index p _ k i x Hnd Hk Hi) as Ai. pose proof (after_index p _ k j y Hnd Hk Hj) as Aj.
  assert (x = p ↔ i = k) as Xi by (split; [intros ->; by eapply NoDup_lookup | intros ->; by simplify_eq]).
  assert (y = p ↔ j = k) as Xj by (split; [intros ->; by eapply NoDup_lookup | intros ->; by simplify_eq]).
  destruct (lt_eq_lt_dec i k) as [[Hik | ->] | Hik].
  - rewrite decide_False, decide_False in Et by (rewrite ?Ai, ?Xi; lia).
    destruct (lt_eq_lt_dec j k) as [[Hjk | ->] | Hjk].
    + rewrite decide_False, decide_False in Eu by (rewrite ?Aj, ?Xj; lia). by eapply before_same.
    + rewrite decide_True in Eu by (by apply Xj). assert (y = p) as -> by (by apply Xj). simplify_eq.
      unfold before in *. by rewrite Et, Eu.
    + rewrite decide_False, decide_True in Eu by (rewrite ?Aj, ?Xj; lia).
      eapply before_same; [reflexivity | exact Eu |].
      eapply (before_apart len 0 t); [lia | by eapply Hg | rewrite Et; try done .. | done]. lia.
  - rewrite decide_True in Et by (by apply Xi). assert (x = p) as -> by (by apply Xi). simplify_eq.
    rewrite decide_False, decide_True in Eu by (rewrite ?Aj, ?Xj; lia).
    eapply before_same; [reflexivity | exact Eu |].
    eapply (before_apart len len s); [lia | by eapply Hg | by rewrite Et .. | done].
  - rewrite decide_False, decide_True in Et by (rewrite ?Ai, ?Xi; lia).
    rewrite decide_False, decide_True in Eu by (rewrite ?Aj, ?Xj; lia).
    eapply before_same; [exact Et | exact Eu |]. by apply before_moved; eauto.
Qed.

(** ** The symbols follow their sections *)

Section layout.
Context `{!Qsort}.

(** The table [q] is the first of the list that holds symbols. *)
Definition first_symtab o q : Prop :=
  ∃ l1 l2 : list Z, sectlist o = l1 ++ q :: l2 ∧ Z.of_nat (length l1) < u16 (e_shnum o) ∧
    ∀ x s, x ∈ l1 → sections o !! x = Some s → sh_type (shdr s) ≠ SHT_SYMTAB.

Lemma by_type_find o ty q t (l1 l2 : list Z) local shnum :
  Forall (λ x, is_Some (sections o !! x)) l1 → (∀ x s, x ∈ l1 → sections o !! x = Some s → sh_type (shdr s) ≠ ty) →
  sections o !! q = Some t → sh_type (shdr t) = ty → local + Z.of_nat (length l1) < shnum →
  ∃ r, by_type_withlist o ty 0 0 local (l1 ++ q :: l2) shnum = Some (Some (q, r, i32 (sh_link (shdr t)), sect_num t)).
Proof.
  intros Hall. revert local. induction Hall as [| x l1 [s Hs] _ IH]; intros local Hn Hq Ht Hb; cbn [app by_type_withlist].
  - rewrite (proj2 (Z.ltb_lt _ _)) by (cbn in Hb; lia). cbn [negb]. unfold get. rewrite Hq. mstep. rewrite Ht, Z.eqb_refl.
    by exists local.
  - cbn [length] in Hb. rewrite (proj2 (Z.ltb_lt _ _)) by lia. cbn [negb]. unfold get. rewrite Hs. mstep.
    rewrite (proj2 (Z.eqb_neq _ _)) by (eapply Hn; [by left | done]). cbn [andb].
    apply IH; [| done .. | lia]. intros y u Hy. apply Hn. by right.
Qed.

Lemma shift_sym_ok limit inc (s : elfsh_Sym) : sym_ok s → sym_ok (shift_sym limit inc s).
Proof.
  unfold shift_sym. intros Hs. destruct (_ && _); [| done]. unfold sym_ok in *.
  cbn [st_name st_value st_size st_info st_other st_shndx set_st_value].
  pose proof (wrapu_range 32 (st_value s + inc) ltac:(done)). lia.
Qed.

Lemma shift_symtab_spec o q t l limit inc :
  listed o → first_symtab o q → sections o !! q = Some t → full t (enc l) → sh_type (shdr t) = SHT_SYMTAB →
  Forall sym_ok l → Z.of_nat (sym_size * length l) < 2 ^ 31 →
  ∃ r a b, elfsh_shift_symtab o limit inc =
    Some (set_sections (<[q := set_sorted a b (set_data (Some (enc (shift_sym limit inc <$> l))) t)]> (sections o)) o, r).
Proof.
  intros [_ Hall] (l1 & l2 & E & Hb & Hn) Hq Ft Tt Hok Hlen. pose proof Ft as [Hd Hz He _].
  unfold elfsh_shift_symtab, elfsh_get_section_by_type. rewrite E in Hall |- *. apply Forall_app in Hall as [Hall _].
  destruct (by_type_find o SHT_SYMTAB q t l1 l2 0 (u16 (e_shnum o)) Hall Hn Hq Tt) as [r ->]; [lia |]. mstep.
  unfold get at 1. rewrite Hq. mstep. rewrite Hd. unfold elfsh_shift_syms, upd, get. rewrite Hq. mstep. rewrite Hd, Hz.
  rewrite length_enc. unfold sym_size in *. rewrite Nat2Z.inj_mul in *. change (Z.of_nat 16) with 16 in *.
  rewrite (Z.mul_comm 16), Z.div_mul, Nat2Z.id by lia. unfold map_syms, guard_ub.
  rewrite syms_of, bool_decide_true, firstn_all by done. mstep. change 16%nat with sym_size.
  rewrite drop_enc, drop_all, app_nil_r.
  fold (enc (shift_sym limit inc <$> l)).
  set (t1 := set_data _ t). set (o1 := set_sections _ o).
  destruct (sync_table o1 q t1 (shift_sym limit inc <$> l)) as (r' & a & b & -> & _).
  - apply lookup_insert_eq.
  - apply full_data with (d := enc l); [done |]. by rewrite !length_enc, length_fmap.
  - done.
  - rewrite Forall_fmap. eapply Forall_impl; [exact Hok |]. intros; by apply shift_sym_ok.
  - rewrite length_fmap. unfold sym_size. lia.
  - mstep. eexists _, a, b. do 2 f_equal. unfold o1. cbn. by rewrite insert_insert_eq.
Qed.
Lemma moved_is_Some (P : Prop) `{!Decision P} (f : elfshsect_t → elfshsect_t) (v : option elfshsect_t) :
  is_Some (if decide P then f <$> v else v) ↔ is_Some v.
Proof. case_decide; [apply fmap_is_Some | done]. Qed.

Lemma move_type mapped len s : sh_type (shdr (move_sect mapped len s)) = sh_type (shdr s).
Proof. unfold move_sect. by destruct (mapped && _), (is_runtime s). Qed.

Lemma move_full mapped len s d : full s d → full (move_sect mapped len s) d.
Proof.
  intros [A B C D]. unfold move_sect. rewrite D. split; [exact A | | exact C | exact D].
  cbn. by destruct (mapped && _).
Qed.

(** What an append to a mapped section makes of the sections. *)
Definition grown p q (len : Z) (moving : list Z) (s' : elfshsect_t) l x t t' : Prop :=
  if decide (x = p) then t' = s'
  else let t1 := if decide (x ∈ moving) then move_sect true len t else t in
       if decide (x = q) then ∃ a b, t' = set_sorted a b (set_data (Some (enc l)) t1) else t' = t1.

Lemma append_mapped o p q s d t l input :
  listed o → p ∈ sectlist o → sections o !! p = Some s → full s d → 0 < sh_addr (shdr s) → input ≠ [] →
  rights o ≠ O_RDONLY →
  first_symtab o q → q ≠ p → sections o !! q = Some t → full t (enc l) → sh_type (shdr t) = SHT_SYMTAB →
  Forall sym_ok l → Z.of_nat (sym_size * length l) < 2 ^ 31 →
  Z.of_nat (length d) + Z.of_nat (length input) < 2 ^ 31 →
  sh_addr (shdr s) + Z.of_nat (length d) + Z.of_nat (length input) < 2 ^ 32 →
  let len := Z.of_nat (length input) in
  let l' := shift_sym (sh_addr (shdr s) + Z.of_nat (length d)) len <$> l in
  ∃ o', elfsh_append_data_to_section o (Some p) (Some input) = Some (o', Z.of_nat (length d)) ∧
    sectlist o' = sectlist o ∧ dom (sections o') = dom (sections o) ∧
    ∀ x u u', sections o !! x = Some u → sections o' !! x = Some u' →
      grown p q len (after p (sectlist o)) (longer s (d ++ input)) l' x u u'.
Proof.
  intros Hl Hp Hs Hf Ha Hi Hr Hq Hqp Ht Hft Htt Hok Hlb Hb1 Hb2 len l'. rewrite (append_full o p s d) by done.
  set (o1 := set_sections _ o). set (s1 := longer s (d ++ input)).
  assert (frame [p] o o1) as F1 by (apply (frame_set _ _ _ s); [done | by left]).
  assert (sections o1 !! p = Some s1) as Hs1 by apply lookup_insert_eq.
  unfold shift_object, get. rewrite Hs1. mstep. change (sh_addr (shdr s1)) with (sh_addr (shdr s)).
  rewrite (proj2 (Z.eqb_neq (sh_addr _) 0)) by lia. cbn [negb].
  change (rights o1) with (rights o). rewrite (proj2 (Z.eqb_neq (rights o) _)) by done. cbn [orb].
  change (is_runtime s1) with (is_runtime s). rewrite (fl_flags _ _ Hf).
  match goal with |- context [shift_next ?x _ _ _] => set (o2 := x) end.
  assert (sections o2 = sections o1 ∧ sectlist o2 = sectlist o ∧ e_shnum o2 = e_shnum o) as (Es & El & En)
    by (unfold o2; by destruct (_ <=? _)).
  destruct (listed_frame _ _ _ F1 Hl) as [Hn Hall]. change (sectlist o1) with (sectlist o) in Hn, Hall |- *.
  rewrite <-Es in Hall. destruct (after_NoDup p _ Hn) as [Hna Hpa].
  destruct (shift_next_spec o2 true len (after p (sectlist o)) Hna) as (m & E & Hm).
  { rewrite Forall_forall in *. intros x Hx. apply Hall. by eapply after_in. }
  fold len. rewrite El, E. mstep. set (o3 := set_sections m o2).
  assert (∀ x u, x ≠ p → sections o !! x = Some u →
    m !! x = Some (if decide (x ∈ after p (sectlist o)) then move_sect true len u else u)) as Hmx.
  { intros x u Hx Hu. rewrite Hm, Es. cbn. rewrite lookup_insert_ne, Hu by done. by destruct (decide _). }
  assert (m !! p = Some s1) as Hmp by (by rewrite Hm, decide_False, Es).
  pose proof Hf as [_ Hz _ _].
  assert (u32 (sh_addr (shdr s) + sh_size (shdr s1) - len) = sh_addr (shdr s) + Z.of_nat (length d)) as ->.
  { cbn. rewrite length_app, Nat2Z.inj_add, wrapu_small by lia. lia. }
  rewrite wraps_small by lia. fold l'.
  set (t3 := if decide (q ∈ after p (sectlist o)) then move_sect true len t else t).
  assert (full t3 (enc l) ∧ sh_type (shdr t3) = SHT_SYMTAB) as [Hft3 Htt3].
  { unfold t3. destruct (decide _); [| done]. rewrite move_type. split; [| done].
    by apply move_full. }
  destruct (shift_symtab_spec o3 q t3 l (sh_addr (shdr s) + Z.of_nat (length d)) len) as (r & a & b & ->); try done.
  { unfold listed. change (sectlist o3) with (sectlist o2). rewrite El. split; [done |]. eapply Forall_impl; [exact Hall |].
    intros x Hx. change (is_Some (m !! x)). rewrite Hm. by apply moved_is_Some. }
  { destruct Hq as (l1 & l2 & El' & Hlen & Hty). exists l1, l2. change (sectlist o3) with (sectlist o2).
    change (e_shnum o3) with (e_shnum o2). rewrite El, En. split_and!; [done | done |]. intros x u Hx Hu.
    change (m !! x = Some u) in Hu. destruct (decide (x = p)) as [-> | Hne].
    - rewrite Hmp in Hu. injection Hu as <-. by apply (Hty p s).
    - rewrite Forall_forall in Hall. destruct (sections o !! x) as [v |] eqn:Ev.
      + rewrite (Hmx x v Hne Ev) in Hu. injection Hu as <-. specialize (Hty x v Hx Ev). case_decide; [| done].
        by rewrite move_type.
      + rewrite Hm, Es in Hu. cbn in Hu. rewrite lookup_insert_ne, Ev in Hu by done. by case_decide. }
  { by apply Hmx. }
  mstep. eexists. split; [done |]. cbn. split_and!; [done | |].
  - apply set_eq. intros x. rewrite dom_insert, elem_of_union, elem_of_singleton, !elem_of_dom, Hm, Es. cbn.
    destruct (decide (x = q)) as [-> | Hxq]; [split; [by rewrite Ht; eexists | by left] |].
    rewrite moved_is_Some.
    destruct (decide (x = p)) as [-> | Hxp].
    + rewrite lookup_insert_eq, Hs. split; [by eexists | right; by eexists].
    + rewrite lookup_insert_ne by done. split; [by intros [? | ?] | by right].
  - intros x u u' Hu Hu'. unfold grown. destruct (decide (x = p)) as [-> | Hxp].
    + rewrite lookup_insert_ne, Hmp in Hu' by done. by injection Hu' as <-.
    + cbv zeta. destruct (decide (x = q)) as [-> | Hxq].
      * rewrite lookup_insert_eq in Hu'. simplify_eq. exists a, b. done.
      * rewrite lookup_insert_ne, (Hmx x u) in Hu' by done. by injection Hu' as <-.
Qed.
(** An object open for writing, laid out with room for [len] bytes, whose mapped section [p]
    holds [d] and whose table [q] holds the symbols [l]. *)
Record growable o p s d q t l (len : Z) : Prop := {
  gr_listed : listed o;
  gr_layout : laid_out o;
  gr_rights : rights o ≠ O_RDONLY;
  gr_room : ∀ x u, x ∈ sectlist o → sections o !! x = Some u → may_grow len u;
  gr_in : p ∈ sectlist o;
  gr_sect : sections o !! p = Some s;
  gr_full : full s d;
  gr_mapped : 0 < sh_addr (shdr s);
  gr_length : Z.of_nat (length d) + len < 2 ^ 31;
  gr_symtab : first_symtab o q ∧ q ≠ p ∧ sections o !! q = Some t ∧ sh_type (shdr t) = SHT_SYMTAB;
  gr_syms : full t (enc l);
  gr_ok : Forall sym_ok l;
  gr_bound : Z.of_nat (sym_size * length l) < 2 ^ 31;
}.

(** The header of a section after the append. *)
Lemma grown_shdr p q len moving s' l x t t' :
  grown p q len moving s' l x t t' →
  shdr t' = if decide (x = p) then shdr s'
            else if decide (x ∈ moving) then shdr (move_sect true len t) else shdr t.
Proof.
  unfold grown. case_decide; [by intros -> |]. cbv zeta. destruct (decide (x = q)).
  - intros (a & b & ->). cbn. by case_decide.
  - intros ->. by case_decide.
Qed.

(** A symbol of a section stays at its place in it. *)
Lemma symbol_follows o p s d q t l len x u (sy : elfsh_Sym) :
  growable o p s d q t l len → 0 < len → x ∈ sectlist o → sections o !! x = Some u → sh_addr (shdr u) ≠ 0 →
  sh_addr (shdr u) ≤ st_value sy < sh_addr (shdr u) + sh_size (shdr u) →
  st_value (shift_sym (sh_addr (shdr s) + Z.of_nat (length d)) len sy) - st_value sy =
  sh_addr (if decide (x = p) then shdr s
           else if decide (x ∈ after p (sectlist o)) then shdr (move_sect true len u) else shdr u) - sh_addr (shdr u).
Proof.
  intros G Hlen Hx Hu Ha Hv. pose proof G as [[Hnd _] Hlay _ Hg Hp Hs [_ Hz _ _] Hpos _ _ _ _ _].
  destruct (Hg _ _ Hx Hu) as (Hr & Hzu & Hau & Hou & Hb1 & Hb2).
  apply list_elem_of_lookup in Hp as [k Hk]. apply list_elem_of_lookup in Hx as [i Hi].
  pose proof (after_index p _ k i x Hnd Hk Hi) as Ai. unfold shift_sym, ELFSH_NOLIMIT.
  rewrite (proj2 (Z.eqb_neq (_ + _) 0)) by lia. rewrite andb_true_r.
  destruct (lt_eq_lt_dec i k) as [[Hik | ->] | Hik].
  - destruct (Hlay i k x p u s Hik Hi Hk Hu Hs) as [_ B]. specialize (B Ha ltac:(lia)).
    rewrite (proj2 (Z.leb_gt _ _)), decide_False, decide_False by (rewrite ?Ai; try lia; intros ->; assert (i = k) by (by eapply NoDup_lookup); lia).
    lia.
  - simplify_eq. rewrite (proj2 (Z.leb_gt _ _)), decide_True by (done || lia). lia.
  - destruct (Hlay k i p x s u Hik Hk Hi Hs Hu) as [_ B]. specialize (B ltac:(lia) Ha).
    rewrite (proj2 (Z.leb_le _ _)), decide_False, decide_True by (rewrite ?Ai; try lia; intros ->; assert (i = k) by (by eapply NoDup_lookup); lia).
    rewrite move_sect_shdr by (done || lia). rewrite (proj2 (Z.eqb_neq _ _)) by done.
    cbn [st_value set_st_value sh_addr set_sh_offset set_sh_addr]. rewrite wrapu_small by lia. lia.
Qed.

(** C25. Appending bytes to a full mapped section answers where they are, puts them at its end
    and keeps the layout: the sections that follow move by as much in the file and in memory, so
    that no two of them overlap, their data is left, and every symbol stays at the same offset
    of the section that holds it. *)
Theorem append_layout o p s d q t l input :
  growable o p s d q t l (Z.of_nat (length input)) → input ≠ [] →
  let l' := shift_sym (sh_addr (shdr s) + Z.of_nat (length d)) (Z.of_nat (length input)) <$> l in
  ∃ o', elfsh_append_data_to_section o (Some p) (Some input) = Some (o', Z.of_nat (length d)) ∧
    laid_out o' ∧
    (∃ s', sections o' !! p = Some s' ∧ full s' (d ++ input) ∧ sh_addr (shdr s') = sh_addr (shdr s) ∧
       sh_offset (shdr s') = sh_offset (shdr s)) ∧
    (∃ t', sections o' !! q = Some t' ∧ full t' (enc l')) ∧
    (∀ x u, x ≠ p → x ≠ q → sections o !! x = Some u → ∃ u', sections o' !! x = Some u' ∧ data u' = data u) ∧
    (∀ x u i sy, x ∈ sectlist o → sections o !! x = Some u → sh_addr (shdr u) ≠ 0 → l !! i = Some sy →
       sh_addr (shdr u) ≤ st_value sy < sh_addr (shdr u) + sh_size (shdr u) →
       ∃ u' sy', sections o' !! x = Some u' ∧ l' !! i = Some sy' ∧
         st_value sy' - sh_addr (shdr u') = st_value sy - sh_addr (shdr u)).
Proof.
  intros G Hi l'. set (len := Z.of_nat (length input)) in *.
  assert (0 < len) as Hlen by (unfold len; destruct input; cbn; [done | lia]).
  pose proof G as [Hl Hlay Hr Hg Hp Hs Hf Ha Hb (Hq & Hqp & Ht & Htt) Hft Hok Hlb].
  pose proof (Hg p s Hp Hs) as (_ & _ & _ & _ & Hb2 & _). pose proof (fl_size _ _ Hf) as Hz.
  destruct (append_mapped o p q s d t l input) as (o' & E & El & Ed & Hgr); try done; [fold len; lia |].
  assert (∀ x u, sections o !! x = Some u → ∃ u', sections o' !! x = Some u' ∧
    grown p q len (after p (sectlist o)) (longer s (d ++ input)) l' x u u') as Hex.
  { intros x u Hu. assert (is_Some (sections o' !! x)) as [u' Hu'] by (apply elem_of_dom; rewrite Ed; by apply elem_of_dom_2 in Hu).
    exists u'. split; [done |]. by apply Hgr. }
  assert (shdr (longer s (d ++ input)) = set_sh_size (sh_size (shdr s) + len) (shdr s)) as Hlg.
  { cbn. unfold set_sh_size. f_equal. rewrite length_app, Nat2Z.inj_add, Hz. done. }
  exists o'. split; [exact E |]. split_and!.
  - eapply (grown_laid_out o o' p len s (shdr (longer s (d ++ input)))); try done; [lia |].
    intros x u u' Hx Hu Hu'. eapply grown_shdr. by apply Hgr.
  - destruct (Hex p s Hs) as (s' & Hs' & Hg'). exists s'. unfold grown in Hg'. rewrite decide_True in Hg' by done. subst s'.
    split_and!; [done | by eapply full_longer | done | done].
  - destruct (Hex q t Ht) as (t' & Ht' & Hg'). exists t'. unfold grown in Hg'. rewrite decide_False in Hg' by done.
    cbv zeta in Hg'. rewrite decide_True in Hg' by done. destruct Hg' as (a & b & ->). split; [done |].
    assert (full (if decide (q ∈ after p (sectlist o)) then move_sect true len t else t) (enc l)) as F
      by (case_decide; [by apply move_full | done]).
    apply (full_data _ _ (enc l')) in F; [by destruct F; split |]. by unfold l'; rewrite !length_enc, length_fmap.
  - intros x u Hxp Hxq Hu. destruct (Hex x u Hu) as (u' & Hu' & Hg'). exists u'. split; [done |].
    unfold grown in Hg'. rewrite decide_False in Hg' by done. cbv zeta in Hg'. rewrite decide_False in Hg' by done.
    subst u'. by case_decide.
  - intros x u i sy Hx Hu Hau Hsy Hv. destruct (Hex x u Hu) as (u' & Hu' & Hg'%grown_shdr).
    exists u', (shift_sym (sh_addr (shdr s) + Z.of_nat (length d)) len sy). split_and!; [done | |].
    + unfold l'. by rewrite list_lookup_fmap, Hsy.
    + pose proof (symbol_follows o p s d q t l len x u sy G Hlen Hx Hu Hau Hv) as Hfol. rewrite Hg', Hlg.
      destruct (decide (x = p)); cbn [sh_addr set_sh_size] in *; lia.
Qed.
End layout.

(** ** A program of two mapped sections *)

#[local] Existing Instance sort_by_qsort.

Definition grow_syms : list elfsh_Sym := [Sym 0 0 0 0 0 0; Sym 1 4096 4 18 0 1; Sym 6 4100 2 17 0 2].
Definition grow_sect (ty addr off : Z) d : elfshsect_t :=
  Sect None (Shdr 0 ty addr off (Z.of_nat (length d)) 0) 0 0 (Some d) None None (Z.of_nat (length d)).
Definition grow_text : elfshsect_t := grow_sect 1 4096 52 [85; 137; 229; 195].
Definition grow_data : elfshsect_t := grow_sect 1 4100 56 [1; 2].
Definition grow_symtab : elfshsect_t := grow_sect SHT_SYMTAB 0 58 (enc grow_syms).
Definition grow_obj : elfshobj_t :=
  Obj (list_to_map [(1, grow_text); (2, grow_data); (3, grow_symtab)]) [1; 2; 3] []
    (list_to_map [(ELFSH_SECTION_SYMTAB, 3)]) 3 200 2 false 0 0 0.

Lemma growable_obj : growable grow_obj 1 grow_text [85; 137; 229; 195] 3 grow_symtab grow_syms 2.
Proof.
  assert (∀ x u, sections grow_obj !! x = Some u → (x = 1 ∧ u = grow_text) ∨ (x = 2 ∧ u = grow_data) ∨ (x = 3 ∧ u = grow_symtab)) as Hs.
  { intros x u. unfold grow_obj. cbn [sections list_to_map foldr uncurry fst snd].
    rewrite !lookup_insert_Some, lookup_empty. intuition congruence. }
  split; try done.
  - split; [apply (bool_decide_unpack _); by vm_compute |]. repeat constructor; by eexists.
  - intros i j x y u v Hij Hi Hj Hu Hv.
    destruct i as [| [| [| i]]], j as [| [| [| j]]]; try lia; cbn in Hi, Hj; simplify_eq;
      destruct (Hs _ _ Hu) as [[? ->] | [[? ->] | [? ->]]]; try done;
      destruct (Hs _ _ Hv) as [[? ->] | [[? ->] | [? ->]]]; try done;
      split; intros; try done; by vm_compute.
  - intros x u _ [[-> ->] | [[-> ->] | [-> ->]]]%Hs; by vm_compute.
  - by left.
  - split_and!; try done. exists [1; 2], []. split_and!; [done | done |].
    intros x u Hx Hu. destruct (Hs _ _ Hu) as [[-> ->] | [[-> ->] | [-> ->]]]; try done.
    rewrite !elem_of_cons, elem_of_nil in Hx. destruct Hx as [? | [? | []]]; lia.
  - by repeat constructor.
Qed.

Lemma append_layout_witness :
  ∃ o' s', elfsh_append_data_to_section grow_obj (Some 1) (Some [144; 144]) = Some (o', 4) ∧
    sections o' !! 1 = Some s' ∧ data s' = Some [85; 137; 229; 195; 144; 144] ∧
    ∃ u' sy', sections o' !! 2 = Some u' ∧ st_value sy' = sh_addr (shdr u').
Proof.
  destruct (append_layout grow_obj 1 grow_text [85; 137; 229; 195] 3 grow_symtab grow_syms [144; 144])
    as (o' & E & _ & (s' & Hs & [Hd _ _ _] & _) & _ & _ & Hsym); [exact growable_obj | done |].
  exists o', s'. split; [exact E |]. split; [exact Hs |]. split; [exact Hd |].
  destruct (Hsym 2 grow_data 2%nat (Sym 6 4100 2 17 0 2)) as (u' & sy' & Hu & _ & Hv); try done.
  - by right; left.
  - exists u', sy'. split; [exact Hu |]. cbn in Hv. lia.
Defined.
