(* ===== verification/ElfDataSpec.v ===== *)
(** * ELF objects: reading and writing the data of a section (Elf.v) *)
From S2P Require Import Prelude.
From S2P Require Import Elf.

Implicit Types (o : elfshobj_t) (s : elfshsect_t) (p off size sizelem : Z) (d input : list Z).

(** [l] with the bytes of [l'] from [n] on. *)
Definition splice (n : nat) (l' l : list Z) : list Z := take n l ++ l' ++ drop (n + length l') l.

Lemma splice_length n l' l : (n + length l' ≤ length l)%nat → length (splice n l' l) = length l.
Proof. intros Hn. unfold splice. rewrite !length_app, length_take, length_drop. lia. Qed.

Lemma splice_read n l' l : (n + length l' ≤ length l)%nat → take (length l') (drop n (splice n l' l)) = l'.
Proof.
  intros Hn. unfold splice. rewrite drop_app_length' by (rewrite length_take; lia). by rewrite take_app_length.
Qed.

Lemma splice_outside n l' l i :
  (n + length l' ≤ length l)%nat → (i < n ∨ n + length l' ≤ i)%nat → splice n l' l !! i = l !! i.
Proof.
  intros Hn Hi. unfold splice. destruct (decide (i < n)%nat).
  - by rewrite lookup_app_l, lookup_take_lt by (rewrite ?length_take; lia).
  - rewrite !lookup_app_r by (rewrite ?length_take; lia). rewrite lookup_drop. f_equal. rewrite length_take. lia.
Qed.

(** The place of an element, 0 counting for a byte. *)
Definition place off sizelem : Z := off * (if sizelem =? 0 then 1 else sizelem).

(** The write, given where it goes, the bound being what is checked. *)
Lemma write_at o p s d off input size sizelem start :
  sections o !! p = Some s → data s = Some d → sh_size (shdr s) = Z.of_nat (length d) →
  u32 (place off sizelem) = start → 0 ≤ size ≤ Z.of_nat (length input) →
  start + size ≤ Z.of_nat (length d) → Z.of_nat (length d) < 2 ^ 32 →
  elfsh_write_section_data o (Some p) off (Some input) size sizelem =
  Some (set_sections (<[p := set_data (Some (splice (Z.to_nat start) (take (Z.to_nat size) input) d)) s]> (sections o)) o, 0).
Proof.
  intros Hs Hd Hz Hst Hsz Hb Hl. unfold elfsh_write_section_data, upd, get. rewrite Hs. mstep. rewrite Hd.
  fold (place off sizelem). rewrite Hst, Hz. pose proof (wrapu_range 32 (place off sizelem) ltac:(done)).
  rewrite (wrapu_small 32 (start + size)), (proj2 (Z.ltb_ge _ _)) by lia. unfold guard_ub. rewrite bool_decide_true by lia.
  mstep. unfold splice. rewrite length_take, Nat.min_l by lia. done.
Qed.

(** C26. For a write whose place and end are under 2^32 (beyond, the sum wraps and the test of
    the size is passed: [write_wraps]), in a section whose data is loaded: it fails without
    effect when the bytes would not fit in the size of the header; else the bytes take their
    place, no other byte and no other section changes, and [elfsh_get_section_data] finds them
    where they were written. *)
Theorem write_section_data_spec o p s d off input size sizelem :
  sections o !! p = Some s → data s = Some d → sh_size (shdr s) = Z.of_nat (length d) →
  Z.of_nat (length d) < 2 ^ 32 → 0 ≤ off → 0 ≤ sizelem → 0 < size ≤ Z.of_nat (length input) →
  place off sizelem + size < 2 ^ 32 →
  if decide (place off sizelem + size ≤ Z.of_nat (length d)) then
    ∃ o' s' d', elfsh_write_section_data o (Some p) off (Some input) size sizelem = Some (o', 0) ∧
      sections o' !! p = Some s' ∧ data s' = Some d' ∧ length d' = length d ∧
      elfsh_get_section_data o' (Some p) off sizelem = Some (Some (place off sizelem)) ∧
      take (Z.to_nat size) (drop (Z.to_nat (place off sizelem)) d') = take (Z.to_nat size) input ∧
      (∀ i, 0 ≤ i < place off sizelem ∨ place off sizelem + size ≤ i → d' !! Z.to_nat i = d !! Z.to_nat i) ∧
      (∀ q, q ≠ p → sections o' !! q = sections o !! q)
  else elfsh_write_section_data o (Some p) off (Some input) size sizelem = Some (o, -1).
Proof.
  intros Hs Hd Hz Hl Ho He Hsz Hb. assert (0 ≤ place off sizelem) as H0.
  { unfold place. destruct (Z.eqb_spec sizelem 0); lia || nia. }
  case_decide as Hfit.
  - pose proof (write_at o p s d off input size sizelem (place off sizelem) Hs Hd Hz) as E.
    rewrite wrapu_small in E by lia. specialize (E eq_refl ltac:(lia) Hfit Hl).
    assert (length (take (Z.to_nat size) input) = Z.to_nat size) as Ht by (rewrite length_take; lia).
    set (d' := splice _ _ d) in E. exists (set_sections (<[p := set_data (Some d') s]> (sections o)) o), (set_data (Some d') s), d'.
    assert (length d' = length d) as Hd' by (apply splice_length; lia).
    split_and!; [exact E | apply lookup_insert_eq | done | done | | | |].
    + unfold elfsh_get_section_data, get. cbn [sections set_sections]. rewrite lookup_insert_eq. mstep.
      cbn [data set_data shdr]. fold (place off sizelem). rewrite Hz, wrapu_small, (proj2 (Z.leb_gt _ _)) by lia. done.
    + rewrite <-Ht at 1. apply splice_read. lia.
    + intros i Hi. apply splice_outside; lia.
    + intros q Hq. cbn. by rewrite lookup_insert_ne.
  - unfold elfsh_write_section_data, get. rewrite Hs. mstep. rewrite Hd. fold (place off sizelem).
    rewrite Hz, !wrapu_small, (proj2 (Z.ltb_lt _ _)) by (rewrite ?wrapu_small; lia). done.
Qed.

(** A section of four bytes. *)
Definition demo_data : elfshobj_t :=
  Obj {[1 := Sect None (Shdr 0 1 0 0 4 0) 0 0 (Some [1; 2; 3; 4]) None None 4]} [1] [] ∅ 1 0 2 false 0 0 0.

Lemma write_section_data_spec_witness :
  (∃ o' s', elfsh_write_section_data demo_data (Some 1) 1 (Some [7; 8]) 2 2 = Some (o', 0) ∧
    sections o' !! 1 = Some s' ∧ ∃ d', data s' = Some d' ∧ take 2 (drop 2 d') = [7; 8]) ∧
  elfsh_write_section_data demo_data (Some 1) 3 (Some [7; 8]) 2 1 = Some (demo_data, -1).
Proof.
  split.
  - pose proof (write_section_data_spec demo_data 1 _ [1; 2; 3; 4] 1 [7; 8] 2 2 eq_refl eq_refl eq_refl
      eq_refl ltac:(lia) ltac:(lia) ltac:(cbn; lia) eq_refl) as H.
    rewrite decide_True in H by (by vm_compute). destruct H as (o' & s' & d' & E & Hs & Hd & _ & _ & Ht & _).
    exists o', s'. split; [exact E |]. split; [exact Hs |]. exists d'. split; [exact Hd | exact Ht].
  - pose proof (write_section_data_spec demo_data 1 _ [1; 2; 3; 4] 3 [7; 8] 2 1 eq_refl eq_refl eq_refl
      eq_refl ltac:(lia) ltac:(lia) ltac:(cbn; lia) eq_refl) as H.
    rewrite decide_False in H by (unfold place; cbn; lia). exact H.
Defined.

(** The product is taken modulo 2^32: an element far outside of the section is written at the
    start of it. *)
Lemma write_wraps :
  ∃ o', elfsh_write_section_data demo_data (Some 1) (2 ^ 31) (Some [7; 8]) 2 2 = Some (o', 0) ∧
    (sections o' !! 1 ≫= data) = Some [7; 8; 3; 4].
Proof. by eexists. Qed.
