(* ===== verification/LibasmVector.v ===== *)
(** * The vectors of libasm (src/libasm/src/register.c)

    A processor registers its handlers in vectors of libaspect (Vectors.v), one
    element for each index.  The registrations are kept in the order they are
    made: an element registered twice is the last one, one never registered is
    the default of the vector. *)
From S2P Require Import Prelude.

Definition registered {K A} `{EqDecision K} (dflt : A) (regs : list (K * A)) (k : K) : A :=
  foldl (λ a p, if decide (p.1 = k) then p.2 else a) dflt regs.

Lemma registered_in {K A} `{EqDecision K} (d : A) (regs : list (K * A)) k a :
  NoDup regs.*1 → (k, a) ∈ regs → registered d regs k = a.
Proof.
  unfold registered. revert d. induction regs as [| [k' a'] regs IH]; intros d Hnd Hin.
  - by apply not_elem_of_nil in Hin.
  - cbn [foldl fst snd]. apply NoDup_cons in Hnd as [Hk Hnd]. apply elem_of_cons in Hin as [[= <- <-] | Hin].
    + rewrite decide_True by done. clear IH Hnd. revert Hk.
      induction regs as [| [k2 a2] regs IH]; intros Hk; [done |]. cbn [foldl fst snd] in *.
      apply not_elem_of_cons in Hk as [Hne Hk]. rewrite decide_False by done. by apply IH.
    + by apply IH.
Qed.

Lemma registered_elim {K A} `{EqDecision K} (P : A → Prop) d (regs : list (K * A)) k :
  P d → Forall (λ r, P r.2) regs → P (registered d regs k).
Proof.
  intros Hd Hregs. unfold registered. revert d Hd.
  induction Hregs as [| [k' a] regs Ha _ IH]; intros d Hd; cbn [foldl]; [done |].
  apply IH. by case_decide.
Qed.
