(* ===== verification/Ia32.v ===== *)
(** The IA-32 disassembler of libasm: its data (include/libasm-structs.h,
    include/libasm-i386.h) and the steps its handlers are made of.

    The disassembler decodes one instruction of a buffer into an
    [asm_instr].  A handler of arch/ia32/handlers is a C function
    [int h(asm_instr *new, u_char *opcode, u_int len, asm_processor *proc)];
    here it is a [handler]: a function of the offset [opcode] in the buffer
    and of [len], in a monad [M] that threads the instruction being filled
    and the internal structure of the processor.  Every read of the buffer is
    explicit, and one outside of it ends in [Overread]. *)

From S2P Require Import Prelude.

(** ** Enumerations and flags *)

(** The instructions, in the order of the enumeration. *)
Inductive e_asm_instr :=
  | ASM_NONE | ASM_IPREFIX_MIN | ASM_IPREFIX_CS | ASM_IPREFIX_DS | ASM_IPREFIX_ES
  | ASM_IPREFIX_FS | ASM_IPREFIX_GS | ASM_IPREFIX_SS | ASM_IPREFIX_OPSIZE | ASM_IPREFIX_ADSIZE
  | ASM_IPREFIX_MAX | ASM_GROUP_MIN | ASM_GROUP1 | ASM_GROUP2 | ASM_GROUP3 | ASM_GROUP4
  | ASM_GROUP5 | ASM_GROUP6 | ASM_GROUP7 | ASM_GROUP8 | ASM_GROUP9 | ASM_GROUP10 | ASM_GROUP11
  | ASM_GROUP12 | ASM_GROUP13 | ASM_GROUP14 | ASM_GROUP15 | ASM_GROUP16 | ASM_GROUP17
  | ASM_ESC0 | ASM_ESC1 | ASM_ESC2 | ASM_ESC3 | ASM_ESC4 | ASM_ESC5 | ASM_ESC6 | ASM_ESC7
  | ASM_GROUP_MAX | ASM_2BYTES | ASM_CALL | ASM_BRANCH | ASM_BRANCH_U_LESS
  | ASM_BRANCH_U_LESS_EQUAL | ASM_BRANCH_S_LESS | ASM_BRANCH_S_LESS_EQUAL
  | ASM_BRANCH_U_GREATER | ASM_BRANCH_U_GREATER_EQUAL | ASM_BRANCH_S_GREATER
  | ASM_BRANCH_S_GREATER_EQUAL | ASM_BRANCH_EQUAL | ASM_BRANCH_NOT_EQUAL | ASM_BRANCH_PARITY
  | ASM_BRANCH_NOT_PARITY | ASM_BRANCH_OVERFLOW | ASM_BRANCH_NOT_OVERFLOW | ASM_BRANCH_SIGNED
  | ASM_BRANCH_NOT_SIGNED | ASM_BRANCH_CXZ | ASM_JO | ASM_JNO | ASM_JB | ASM_JNB | ASM_JZ
  | ASM_JNZ | ASM_JBE | ASM_JNBE | ASM_JS | ASM_JNS | ASM_JP | ASM_JNP | ASM_JL | ASM_JNL
  | ASM_JLE | ASM_JNLE | ASM_ADD | ASM_CBW | ASM_CWD | ASM_LEA | ASM_OR | ASM_ADC | ASM_SBB
  | ASM_AND | ASM_SUB | ASM_XOR | ASM_XADD | ASM_CLFLUSH | ASM_CMP | ASM_IN | ASM_INC | ASM_DEC
  | ASM_PUSH | ASM_PUSHF | ASM_CWTD | ASM_CBTW | ASM_POP | ASM_POPF | ASM_TEST | ASM_NOP
  | ASM_LOAD | ASM_STORE | ASM_MOV | ASM_MOVW | ASM_INT | ASM_RET | ASM_XCHG | ASM_INSB
  | ASM_INSW | ASM_INSD | ASM_PUSHA | ASM_POPA | ASM_AAM | ASM_AAD | ASM_LOCK | ASM_LOOP
  | ASM_LOOPE | ASM_LOOPNE | ASM_JECX | ASM_SALC | ASM_LEAVE | ASM_HLT | ASM_SHR | ASM_DIV
  | ASM_IDIV | ASM_MUL | ASM_IMUL | ASM_NOT | ASM_NEG | ASM_SAHF | ASM_LAHF | ASM_MOVSB
  | ASM_MOVSBW | ASM_MOVSD | ASM_CMPSB | ASM_CMPSW | ASM_CMPSD | ASM_STOSB | ASM_STOSW
  | ASM_STOSD | ASM_LODSB | ASM_LODSD | ASM_SCASB | ASM_SCASD | ASM_INTO | ASM_IRET | ASM_SHIFT
  | ASM_XLATB | ASM_XLAT | ASM_ORB | ASM_MOVZWL | ASM_CLD | ASM_SMSW | ASM_LMSW | ASM_STD
  | ASM_OUT | ASM_SHL | ASM_RETF | ASM_ENTER | ASM_MOVZBL | ASM_REPNZ | ASM_REPZ
  | ASM_SET_OVERFLOW | ASM_SET_NOT_OVERFLOW | ASM_SET_PARITY | ASM_SET_NOT_PARITY
  | ASM_SET_SIGNED | ASM_SET_NOT_SIGNED | ASM_SET_EQUAL | ASM_SET_NOT_EQUAL | ASM_SET_U_LESS
  | ASM_SET_U_LESS_EQUAL | ASM_SET_S_LESS | ASM_SET_S_LESS_EQUAL | ASM_SET_U_GREATER
  | ASM_SET_U_GREATER_EQUAL | ASM_SET_S_GREATER | ASM_SET_S_GREATER_EQUAL | ASM_CPUID
  | ASM_SHRD | ASM_SHLD | ASM_CLTD | ASM_SAR | ASM_ROR | ASM_BT | ASM_BTS | ASM_INT3 | ASM_CMC
  | ASM_RCL | ASM_SAL | ASM_ROL | ASM_SCASW | ASM_WAIT | ASM_FWAIT | ASM_BSR | ASM_BSF
  | ASM_RCR | ASM_CLI | ASM_CWTL | ASM_OUTSB | ASM_OUTSW | ASM_OUTSD | ASM_STI | ASM_CMOVNE
  | ASM_LSS | ASM_MOVSW | ASM_MOVZBW | ASM_BOUND | ASM_LES | ASM_LDS | ASM_AAA | ASM_DAA
  | ASM_ARPL | ASM_CLC | ASM_STC | ASM_INT1 | ASM_VERR | ASM_VERW | ASM_BRANCHE | ASM_AAS
  | ASM_DAS | ASM_UD2A | ASM_UD2 | ASM_BTC | ASM_CMPXCHG | ASM_LIDT | ASM_LGDT | ASM_FXSAVE
  | ASM_FXRSTOR | ASM_LDMXCSR | ASM_STMXCSR | ASM_LFENCE | ASM_MLENCE | ASM_SLENCE | ASM_WBINVD
  | ASM_RDMSR | ASM_XSTORERNG | ASM_XCRYPTCBC | ASM_XCRYPTCFB | ASM_XCRYPTOFB | ASM_BTRL
  | ASM_PREFETCH_NTA | ASM_PREFETCH_T0 | ASM_PREFETCH_T1 | ASM_PREFETCH_T2 | ASM_HINT_NOP
  | ASM_SGDT | ASM_SIDT | ASM_STR | ASM_BTR | ASM_LTR | ASM_SLDT | ASM_INVLPG | ASM_RDTSC
  | ASM_LLDT | ASM_LBRANCH | ASM_CMOVA | ASM_CMOVE | ASM_CMOVAE | ASM_CMOVO | ASM_CMOVNO
  | ASM_CMOVB | ASM_CMOVBE | ASM_CMOVS | ASM_CMOVNS | ASM_CMOVP | ASM_CMOVNP | ASM_CMOVL
  | ASM_CMOVNL | ASM_CMOVLE | ASM_CMOVNLE | ASM_MOVSBL | ASM_MOVSWL | ASM_MOVD | ASM_MOVQ
  | ASM_BSWAP | ASM_PAND | ASM_POR | ASM_PXOR | ASM_PSLLQ | ASM_PSRLQ | ASM_PSRLW | ASM_PSRAW
  | ASM_PSLLW | ASM_PMULLW | ASM_PADDUSW | ASM_PADDUSB | ASM_PUNPCKLBW | ASM_PUNPCKHBW
  | ASM_PACKUSWB | ASM_EMMS | ASM_FXRSTORE | ASM_MFENCE | ASM_SFENCE | ASM_F2XM1 | ASM_FABS
  | ASM_FADD | ASM_FADDP | ASM_FBLD | ASM_FBSTP | ASM_FCHS | ASM_FCLEX | ASM_FCMOVB
  | ASM_FCMOVU | ASM_FCOM | ASM_FCOMP | ASM_FCOMPP | ASM_FCOMPS | ASM_FDECSTP | ASM_FDISI
  | ASM_FDIV | ASM_FDIVP | ASM_FDIVR | ASM_DIVRP | ASM_FENI | ASM_FFREE | ASM_FIADD | ASM_FICOM
  | ASM_FICOMP | ASM_FIDIV | ASM_FIDIVR | ASM_FILD | ASM_FIMUL | ASM_FINCSTP | ASM_FINIT
  | ASM_FIST | ASM_FISTP | ASM_FISUB | ASM_FISUBR | ASM_FUCOM | ASM_FUCOMP | ASM_FUCOMPP
  | ASM_FLDLN2 | ASM_FTST | ASM_FPREM | ASM_FRNDINT | ASM_FNOP | ASM_FCMOVNE | ASM_FSTP1
  | ASM_FSCALE | ASM_FSQRT | ASM_FSIN | ASM_FCOS | ASM_FISTTP | ASM_FDIVRP | ASM_FREEP
  | ASM_FSUBP | ASM_FSUBRP | ASM_FCMOVBE | ASM_FMUL | ASM_FMULP | ASM_FRSTOR | ASM_FSAVE
  | ASM_FNSAVE | ASM_FSTP | ASM_FSUB | ASM_FSUBR | ASM_FPATAN | ASM_FST | ASM_FXAM
  | ASM_FCMOVNBE | ASM_FCMOVNU | ASM_FXCH | ASM_FSINCOS | ASM_FYL2X | ASM_FSTENV | ASM_FLDL2T
  | ASM_FLDL2E | ASM_FLDPI | ASM_FPTAN | ASM_FXTRACT | ASM_FYL2XP1 | ASM_FLD | ASM_FLDZ
  | ASM_FLD1 | ASM_FSTSW | ASM_FNSTSW | AM_FNSTSW | ASM_FCMOVE | ASM_FCMOVNB | ASM_FLDLG2
  | ASM_FSORT | ASM_FXCH4 | ASM_FTSTP | ASM_FPEM1 | ASM_FLDCW | ASM_FNSTENV | ASM_FSTCW
  | ASM_FNSTCW | ASM_FLDENV | ASM_FSETPM | ASM_FRSTPM | ASM_FUCOMI | ASM_FRICHOP | ASM_FCOMI
  | ASM_FCOMP5 | ASM_FRINT2 | ASM_FCOM2 | ASM_FCOMP3 | ASM_FXCH7 | ASM_FSTP8 | ASM_FSTP9
  | ASM_FSTDW | ASM_FSTSG | ASM_FUCOMIP | ASM_FRINEAR | ASM_FCOMIP | ASM_BAD.

(** The value of an enumerator. *)
Definition asm_instr_id (i : e_asm_instr) : Z :=
  match i with
  | ASM_NONE => 0 | ASM_IPREFIX_MIN => 1 | ASM_IPREFIX_CS => 2 | ASM_IPREFIX_DS => 3
  | ASM_IPREFIX_ES => 4 | ASM_IPREFIX_FS => 5 | ASM_IPREFIX_GS => 6 | ASM_IPREFIX_SS => 7
  | ASM_IPREFIX_OPSIZE => 8 | ASM_IPREFIX_ADSIZE => 9 | ASM_IPREFIX_MAX => 10
  | ASM_GROUP_MIN => 11 | ASM_GROUP1 => 12 | ASM_GROUP2 => 13 | ASM_GROUP3 => 14
  | ASM_GROUP4 => 15 | ASM_GROUP5 => 16 | ASM_GROUP6 => 17 | ASM_GROUP7 => 18
  | ASM_GROUP8 => 19 | ASM_GROUP9 => 20 | ASM_GROUP10 => 21 | ASM_GROUP11 => 22
  | ASM_GROUP12 => 23 | ASM_GROUP13 => 24 | ASM_GROUP14 => 25 | ASM_GROUP15 => 26
  | ASM_GROUP16 => 27 | ASM_GROUP17 => 28 | ASM_ESC0 => 29 | ASM_ESC1 => 30 | ASM_ESC2 => 31
  | ASM_ESC3 => 32 | ASM_ESC4 => 33 | ASM_ESC5 => 34 | ASM_ESC6 => 35 | ASM_ESC7 => 36
  | ASM_GROUP_MAX => 37 | ASM_2BYTES => 38 | ASM_CALL => 39 | ASM_BRANCH => 40
  | ASM_BRANCH_U_LESS => 41 | ASM_BRANCH_U_LESS_EQUAL => 42 | ASM_BRANCH_S_LESS => 43
  | ASM_BRANCH_S_LESS_EQUAL => 44 | ASM_BRANCH_U_GREATER => 45
  | ASM_BRANCH_U_GREATER_EQUAL => 46 | ASM_BRANCH_S_GREATER => 47
  | ASM_BRANCH_S_GREATER_EQUAL => 48 | ASM_BRANCH_EQUAL => 49 | ASM_BRANCH_NOT_EQUAL => 50
  | ASM_BRANCH_PARITY => 51 | ASM_BRANCH_NOT_PARITY => 52 | ASM_BRANCH_OVERFLOW => 53
  | ASM_BRANCH_NOT_OVERFLOW => 54 | ASM_BRANCH_SIGNED => 55 | ASM_BRANCH_NOT_SIGNED => 56
  | ASM_BRANCH_CXZ => 57 | ASM_JO => 58 | ASM_JNO => 59 | ASM_JB => 60 | ASM_JNB => 61
  | ASM_JZ => 62 | ASM_JNZ => 63 | ASM_JBE => 64 | ASM_JNBE => 65 | ASM_JS => 66
  | ASM_JNS => 67 | ASM_JP => 68 | ASM_JNP => 69 | ASM_JL => 70 | ASM_JNL => 71 | ASM_JLE => 72
  | ASM_JNLE => 73 | ASM_ADD => 74 | ASM_CBW => 75 | ASM_CWD => 76 | ASM_LEA => 77
  | ASM_OR => 78 | ASM_ADC => 79 | ASM_SBB => 80 | ASM_AND => 81 | ASM_SUB => 82
  | ASM_XOR => 83 | ASM_XADD => 84 | ASM_CLFLUSH => 85 | ASM_CMP => 86 | ASM_IN => 87
  | ASM_INC => 88 | ASM_DEC => 89 | ASM_PUSH => 90 | ASM_PUSHF => 91 | ASM_CWTD => 92
  | ASM_CBTW => 93 | ASM_POP => 94 | ASM_POPF => 95 | ASM_TEST => 96 | ASM_NOP => 97
  | ASM_LOAD => 98 | ASM_STORE => 99 | ASM_MOV => 100 | ASM_MOVW => 101 | ASM_INT => 102
  | ASM_RET => 103 | ASM_XCHG => 104 | ASM_INSB => 105 | ASM_INSW => 106 | ASM_INSD => 107
  | ASM_PUSHA => 108 | ASM_POPA => 109 | ASM_AAM => 110 | ASM_AAD => 111 | ASM_LOCK => 112
  | ASM_LOOP => 113 | ASM_LOOPE => 114 | ASM_LOOPNE => 115 | ASM_JECX => 116 | ASM_SALC => 117
  | ASM_LEAVE => 118 | ASM_HLT => 119 | ASM_SHR => 120 | ASM_DIV => 121 | ASM_IDIV => 122
  | ASM_MUL => 123 | ASM_IMUL => 124 | ASM_NOT => 125 | ASM_NEG => 126 | ASM_SAHF => 127
  | ASM_LAHF => 128 | ASM_MOVSB => 129 | ASM_MOVSBW => 130 | ASM_MOVSD => 131
  | ASM_CMPSB => 132 | ASM_CMPSW => 133 | ASM_CMPSD => 134 | ASM_STOSB => 135
  | ASM_STOSW => 136 | ASM_STOSD => 137 | ASM_LODSB => 138 | ASM_LODSD => 139
  | ASM_SCASB => 140 | ASM_SCASD => 141 | ASM_INTO => 142 | ASM_IRET => 143 | ASM_SHIFT => 144
  | ASM_XLATB => 145 | ASM_XLAT => 146 | ASM_ORB => 147 | ASM_MOVZWL => 148 | ASM_CLD => 149
  | ASM_SMSW => 150 | ASM_LMSW => 151 | ASM_STD => 152 | ASM_OUT => 153 | ASM_SHL => 154
  | ASM_RETF => 155 | ASM_ENTER => 156 | ASM_MOVZBL => 157 | ASM_REPNZ => 158 | ASM_REPZ => 159
  | ASM_SET_OVERFLOW => 160 | ASM_SET_NOT_OVERFLOW => 161 | ASM_SET_PARITY => 162
  | ASM_SET_NOT_PARITY => 163 | ASM_SET_SIGNED => 164 | ASM_SET_NOT_SIGNED => 165
  | ASM_SET_EQUAL => 166 | ASM_SET_NOT_EQUAL => 167 | ASM_SET_U_LESS => 168
  | ASM_SET_U_LESS_EQUAL => 169 | ASM_SET_S_LESS => 170 | ASM_SET_S_LESS_EQUAL => 171
  | ASM_SET_U_GREATER => 172 | ASM_SET_U_GREATER_EQUAL => 173 | ASM_SET_S_GREATER => 174
  | ASM_SET_S_GREATER_EQUAL => 175 | ASM_CPUID => 176 | ASM_SHRD => 177 | ASM_SHLD => 178
  | ASM_CLTD => 179 | ASM_SAR => 180 | ASM_ROR => 181 | ASM_BT => 182 | ASM_BTS => 183
  | ASM_INT3 => 184 | ASM_CMC => 185 | ASM_RCL => 186 | ASM_SAL => 187 | ASM_ROL => 188
  | ASM_SCASW => 189 | ASM_WAIT => 190 | ASM_FWAIT => 191 | ASM_BSR => 192 | ASM_BSF => 193
  | ASM_RCR => 194 | ASM_CLI => 195 | ASM_CWTL => 196 | ASM_OUTSB => 197 | ASM_OUTSW => 198
  | ASM_OUTSD => 199 | ASM_STI => 200 | ASM_CMOVNE => 201 | ASM_LSS => 202 | ASM_MOVSW => 203
  | ASM_MOVZBW => 204 | ASM_BOUND => 205 | ASM_LES => 206 | ASM_LDS => 207 | ASM_AAA => 208
  | ASM_DAA => 209 | ASM_ARPL => 210 | ASM_CLC => 211 | ASM_STC => 212 | ASM_INT1 => 213
  | ASM_VERR => 214 | ASM_VERW => 215 | ASM_BRANCHE => 216 | ASM_AAS => 217 | ASM_DAS => 218
  | ASM_UD2A => 219 | ASM_UD2 => 220 | ASM_BTC => 221 | ASM_CMPXCHG => 222 | ASM_LIDT => 223
  | ASM_LGDT => 224 | ASM_FXSAVE => 225 | ASM_FXRSTOR => 226 | ASM_LDMXCSR => 227
  | ASM_STMXCSR => 228 | ASM_LFENCE => 229 | ASM_MLENCE => 230 | ASM_SLENCE => 231
  | ASM_WBINVD => 232 | ASM_RDMSR => 233 | ASM_XSTORERNG => 234 | ASM_XCRYPTCBC => 235
  | ASM_XCRYPTCFB => 236 | ASM_XCRYPTOFB => 237 | ASM_BTRL => 238 | ASM_PREFETCH_NTA => 239
  | ASM_PREFETCH_T0 => 240 | ASM_PREFETCH_T1 => 241 | ASM_PREFETCH_T2 => 242
  | ASM_HINT_NOP => 243 | ASM_SGDT => 244 | ASM_SIDT => 245 | ASM_STR => 246 | ASM_BTR => 247
  | ASM_LTR => 248 | ASM_SLDT => 249 | ASM_INVLPG => 250 | ASM_RDTSC => 251 | ASM_LLDT => 252
  | ASM_LBRANCH => 253 | ASM_CMOVA => 254 | ASM_CMOVE => 255 | ASM_CMOVAE => 256
  | ASM_CMOVO => 257 | ASM_CMOVNO => 258 | ASM_CMOVB => 259 | ASM_CMOVBE => 260
  | ASM_CMOVS => 261 | ASM_CMOVNS => 262 | ASM_CMOVP => 263 | ASM_CMOVNP => 264
  | ASM_CMOVL => 265 | ASM_CMOVNL => 266 | ASM_CMOVLE => 267 | ASM_CMOVNLE => 268
  | ASM_MOVSBL => 269 | ASM_MOVSWL => 270 | ASM_MOVD => 271 | ASM_MOVQ => 272
  | ASM_BSWAP => 273 | ASM_PAND => 274 | ASM_POR => 275 | ASM_PXOR => 276 | ASM_PSLLQ => 277
  | ASM_PSRLQ => 278 | ASM_PSRLW => 279 | ASM_PSRAW => 280 | ASM_PSLLW => 281
  | ASM_PMULLW => 282 | ASM_PADDUSW => 283 | ASM_PADDUSB => 284 | ASM_PUNPCKLBW => 285
  | ASM_PUNPCKHBW => 286 | ASM_PACKUSWB => 287 | ASM_EMMS => 288 | ASM_FXRSTORE => 289
  | ASM_MFENCE => 290 | ASM_SFENCE => 291 | ASM_F2XM1 => 292 | ASM_FABS => 293
  | ASM_FADD => 294 | ASM_FADDP => 295 | ASM_FBLD => 296 | ASM_FBSTP => 297 | ASM_FCHS => 298
  | ASM_FCLEX => 299 | ASM_FCMOVB => 300 | ASM_FCMOVU => 301 | ASM_FCOM => 302
  | ASM_FCOMP => 303 | ASM_FCOMPP => 304 | ASM_FCOMPS => 305 | ASM_FDECSTP => 306
  | ASM_FDISI => 307 | ASM_FDIV => 308 | ASM_FDIVP => 309 | ASM_FDIVR => 310 | ASM_DIVRP => 311
  | ASM_FENI => 312 | ASM_FFREE => 313 | ASM_FIADD => 314 | ASM_FICOM => 315
  | ASM_FICOMP => 316 | ASM_FIDIV => 317 | ASM_FIDIVR => 318 | ASM_FILD => 319
  | ASM_FIMUL => 320 | ASM_FINCSTP => 321 | ASM_FINIT => 322 | ASM_FIST => 323
  | ASM_FISTP => 324 | ASM_FISUB => 325 | ASM_FISUBR => 326 | ASM_FUCOM => 327
  | ASM_FUCOMP => 328 | ASM_FUCOMPP => 329 | ASM_FLDLN2 => 330 | ASM_FTST => 331
  | ASM_FPREM => 332 | ASM_FRNDINT => 333 | ASM_FNOP => 334 | ASM_FCMOVNE => 335
  | ASM_FSTP1 => 336 | ASM_FSCALE => 337 | ASM_FSQRT => 338 | ASM_FSIN => 339 | ASM_FCOS => 340
  | ASM_FISTTP => 341 | ASM_FDIVRP => 342 | ASM_FREEP => 343 | ASM_FSUBP => 344
  | ASM_FSUBRP => 345 | ASM_FCMOVBE => 346 | ASM_FMUL => 347 | ASM_FMULP => 348
  | ASM_FRSTOR => 349 | ASM_FSAVE => 350 | ASM_FNSAVE => 351 | ASM_FSTP => 352
  | ASM_FSUB => 353 | ASM_FSUBR => 354 | ASM_FPATAN => 355 | ASM_FST => 356 | ASM_FXAM => 357
  | ASM_FCMOVNBE => 358 | ASM_FCMOVNU => 359 | ASM_FXCH => 360 | ASM_FSINCOS => 361
  | ASM_FYL2X => 362 | ASM_FSTENV => 363 | ASM_FLDL2T => 364 | ASM_FLDL2E => 365
  | ASM_FLDPI => 366 | ASM_FPTAN => 367 | ASM_FXTRACT => 368 | ASM_FYL2XP1 => 369
  | ASM_FLD => 370 | ASM_FLDZ => 371 | ASM_FLD1 => 372 | ASM_FSTSW => 373 | ASM_FNSTSW => 374
  | AM_FNSTSW => 375 | ASM_FCMOVE => 376 | ASM_FCMOVNB => 377 | ASM_FLDLG2 => 378
  | ASM_FSORT => 379 | ASM_FXCH4 => 380 | ASM_FTSTP => 381 | ASM_FPEM1 => 382
  | ASM_FLDCW => 383 | ASM_FNSTENV => 384 | ASM_FSTCW => 385 | ASM_FNSTCW => 386
  | ASM_FLDENV => 387 | ASM_FSETPM => 388 | ASM_FRSTPM => 389 | ASM_FUCOMI => 390
  | ASM_FRICHOP => 391 | ASM_FCOMI => 392 | ASM_FCOMP5 => 393 | ASM_FRINT2 => 394
  | ASM_FCOM2 => 395 | ASM_FCOMP3 => 396 | ASM_FXCH7 => 397 | ASM_FSTP8 => 398
  | ASM_FSTP9 => 399 | ASM_FSTDW => 400 | ASM_FSTSG => 401 | ASM_FUCOMIP => 402
  | ASM_FRINEAR => 403 | ASM_FCOMIP => 404 | ASM_BAD => 405
  end.

(** The operand types. *)
Inductive e_asm_operand_type :=
  | ASM_OTYPE_NONE | ASM_OTYPE_FIXED | ASM_OTYPE_OPMOD | ASM_OTYPE_ADDRESS | ASM_OTYPE_CONTROL
  | ASM_OTYPE_DEBUG | ASM_OTYPE_ENCODED | ASM_OTYPE_ENCODEDBYTE | ASM_OTYPE_FLAGS
  | ASM_OTYPE_GENERAL | ASM_OTYPE_GENERALBYTE | ASM_OTYPE_IMMEDIATE | ASM_OTYPE_IMMEDIATEWORD
  | ASM_OTYPE_IMMEDIATEBYTE | ASM_OTYPE_SHORTJUMP | ASM_OTYPE_JUMP | ASM_OTYPE_MEMORY
  | ASM_OTYPE_OFFSET | ASM_OTYPE_PMMX | ASM_OTYPE_QMMX | ASM_OTYPE_REGISTER | ASM_OTYPE_SEGMENT
  | ASM_OTYPE_TEST | ASM_OTYPE_VSFP | ASM_OTYPE_WSFP | ASM_OTYPE_XSRC | ASM_OTYPE_YDEST
  | ASM_OTYPE_VALUE | ASM_OTYPE_REG0 | ASM_OTYPE_REG1 | ASM_OTYPE_REG2 | ASM_OTYPE_REG3
  | ASM_OTYPE_REG4 | ASM_OTYPE_REG5 | ASM_OTYPE_REG6 | ASM_OTYPE_REG7 | ASM_OTYPE_ST
  | ASM_OTYPE_ST_0 | ASM_OTYPE_ST_1 | ASM_OTYPE_ST_2 | ASM_OTYPE_ST_3 | ASM_OTYPE_ST_4
  | ASM_OTYPE_ST_5 | ASM_OTYPE_ST_6 | ASM_OTYPE_ST_7 | ASM_OTYPE_NUM.

#[global] Instance e_asm_operand_type_eq_dec : EqDecision e_asm_operand_type.
Proof. solve_decision. Defined.

(** Instruction types (libasm.h, [e_instr_types]). *)
Definition ASM_TYPE_NONE : Z := 0.
Definition ASM_TYPE_BRANCH : Z := 1.
Definition ASM_TYPE_CALLPROC : Z := 2.
Definition ASM_TYPE_RETPROC : Z := 4.
Definition ASM_TYPE_ARITH : Z := 8.
Definition ASM_TYPE_LOAD : Z := 16.
Definition ASM_TYPE_STORE : Z := 32.
Definition ASM_TYPE_ARCH : Z := 64.
Definition ASM_TYPE_WRITEFLAG : Z := 128.
Definition ASM_TYPE_READFLAG : Z := 256.
Definition ASM_TYPE_INT : Z := 512.
Definition ASM_TYPE_ASSIGN : Z := 1024.
Definition ASM_TYPE_COMPARISON : Z := 2048.
Definition ASM_TYPE_CONTROL : Z := 4096.
Definition ASM_TYPE_NOP : Z := 8192.
Definition ASM_TYPE_TOUCHSP : Z := 16384.
Definition ASM_TYPE_BITTEST : Z := 32768.
Definition ASM_TYPE_BITSET : Z := 65536.
Definition ASM_TYPE_INCDEC : Z := 131072.
Definition ASM_TYPE_PROLOG : Z := 262144.
Definition ASM_TYPE_EPILOG : Z := 524288.
Definition ASM_TYPE_STOP : Z := 1048576.
Definition ASM_TYPE_IO : Z := 2097152.
Definition ASM_TYPE_CONDCONTROL : Z := 4194304.
Definition ASM_TYPE_INDCONTROL : Z := 8388608.
Definition ASM_TYPE_OTHER : Z := 16777216.

(** Flags of the status register (libasm-i386.h, [e_ia32_flags]). *)
Definition ASM_FLAG_CF : Z := 1.
Definition ASM_FLAG_PF : Z := 4.
Definition ASM_FLAG_AF : Z := 16.
Definition ASM_FLAG_ZF : Z := 64.
Definition ASM_FLAG_SF : Z := 128.
Definition ASM_FLAG_TF : Z := 256.
Definition ASM_FLAG_IF : Z := 512.
Definition ASM_FLAG_DF : Z := 1024.
Definition ASM_FLAG_OF : Z := 2048.
Definition ASM_FLAG_IOPL : Z := 4096.
Definition ASM_FLAG_NT : Z := 16384.
Definition ASM_FLAG_RF : Z := 65536.
Definition ASM_FLAG_VM : Z := 131072.
Definition ASM_FLAG_AC : Z := 262144.
Definition ASM_FLAG_VIF : Z := 524288.
Definition ASM_FLAG_VIP : Z := 1048576.
Definition ASM_FLAG_ID : Z := 2097152.

(** Contents of an operand. *)
Definition ASM_OP_VALUE : Z := 1.
Definition ASM_OP_BASE : Z := 2.
Definition ASM_OP_INDEX : Z := 4.
Definition ASM_OP_SCALE : Z := 8.
Definition ASM_OP_FIXED : Z := 16.
Definition ASM_OP_REFERENCE : Z := 32.
Definition ASM_OP_ADDRESS : Z := 64.
Definition ASM_OP_FPU : Z := 128.

(** Prefixes ([e_ia32_prefix]). *)
Definition ASM_PREFIX_REP : Z := 1.
Definition ASM_PREFIX_REPNE : Z := 2.
Definition ASM_PREFIX_SEG : Z := 60.
Definition ASM_PREFIX_DS : Z := 4.
Definition ASM_PREFIX_ES : Z := 8.
Definition ASM_PREFIX_SS : Z := 12.
Definition ASM_PREFIX_CS : Z := 16.
Definition ASM_PREFIX_FS : Z := 20.
Definition ASM_PREFIX_GS : Z := 24.
Definition ASM_PREFIX_MASK : Z := 60.
Definition ASM_PREFIX_LOCK : Z := 64.
Definition ASM_PREFIX_OPSIZE : Z := 128.
Definition ASM_PREFIX_ADDSIZE : Z := 256.
Definition ASM_PREFIX_FWAIT : Z := 512.

(** Register sets. *)
Definition ASM_REGSET_R8 : Z := 256.
Definition ASM_REGSET_R16 : Z := 512.
Definition ASM_REGSET_R32 : Z := 1024.
Definition ASM_REGSET_MM : Z := 2048.
Definition ASM_REGSET_XMM : Z := 4096.
Definition ASM_REGSET_SREG : Z := 8192.
Definition ASM_REGSET_CREG : Z := 16384.
Definition ASM_REGSET_DREG : Z := 32768.

(** Registers and operand sizes. *)
Definition ASM_REG_AL : Z := 0.
Definition ASM_REG_CL : Z := 1.
Definition ASM_REG_AX : Z := 0.
Definition ASM_REG_DX : Z := 2.
Definition ASM_REG_EAX : Z := 0.
Definition ASM_REG_ECX : Z := 1.
Definition ASM_REG_EDX : Z := 2.
Definition ASM_REG_ESP : Z := 4.
Definition ASM_REG_EBP : Z := 5.
Definition ASM_REG_ESI : Z := 6.
Definition ASM_REG_EDI : Z := 7.
Definition ASM_REG_ES : Z := 0.
Definition ASM_REG_CS : Z := 1.
Definition ASM_REG_SS : Z := 2.
Definition ASM_REG_DS : Z := 3.
Definition ASM_REG_FS : Z := 4.
Definition ASM_OSIZE_BYTE : Z := 1.
Definition ASM_OSIZE_DWORD : Z := 3.
Definition ASM_OSIZE_QWORD : Z := 4.
Definition ASM_OSIZE_VECTOR : Z := 7.

Definition INTEL_REAL : Z := 0.
Definition INTEL_PROT : Z := 1.

(** The mnemonics (arch/ia32/tables_i386.c); a missing entry is NULL. *)
Definition instr_table (i : e_asm_instr) : option string :=
  match i with
  | ASM_ADC => Some "adc" | ASM_ADD => Some "add" | ASM_AND => Some "and"
  | ASM_AAM => Some "aam" | ASM_AAD => Some "aad" | ASM_AAA => Some "aaa"
  | ASM_AAS => Some "aas" | ASM_ARPL => Some "arpl" | ASM_BOUND => Some "bound"
  | ASM_BSWAP => Some "bswap" | ASM_BTRL => Some "btrl" | ASM_CMPSB => Some "cmpsb"
  | ASM_CMPSD => Some "cmpsd" | ASM_CALL => Some "call" | ASM_CMP => Some "cmp"
  | ASM_CWTL => Some "cwtl" | ASM_CWTD => Some "cwtd" | ASM_CBTW => Some "cbtw"
  | ASM_CLTD => Some "cltd" | ASM_CPUID => Some "cpuid" | ASM_CLD => Some "cld"
  | ASM_CLI => Some "cli" | ASM_CLC => Some "clc" | ASM_DAA => Some "daa"
  | ASM_DAS => Some "das" | ASM_DIV => Some "div" | ASM_DEC => Some "dec"
  | ASM_EMMS => Some "emms" | ASM_ENTER => Some "enter" | ASM_FWAIT => Some "fwait"
  | ASM_HLT => Some "hlt" | ASM_INTO => Some "into" | ASM_IRET => Some "iret"
  | ASM_INT => Some "int" | ASM_INT3 => Some "int3" | ASM_INT1 => Some "int1"
  | ASM_IN => Some "in" | ASM_INSB => Some "insb" | ASM_INSW => Some "insw"
  | ASM_INSD => Some "insd" | ASM_INC => Some "inc" | ASM_IMUL => Some "imul"
  | ASM_IDIV => Some "idiv" | ASM_BRANCH => Some "jmp" | ASM_BRANCH_U_LESS => Some "jb"
  | ASM_BRANCH_U_LESS_EQUAL => Some "jbe" | ASM_BRANCH_S_LESS => Some "jl"
  | ASM_BRANCH_S_LESS_EQUAL => Some "jle" | ASM_BRANCH_U_GREATER => Some "ja"
  | ASM_BRANCH_U_GREATER_EQUAL => Some "jae" | ASM_BRANCH_S_GREATER => Some "jg"
  | ASM_BRANCH_S_GREATER_EQUAL => Some "jge" | ASM_BRANCH_EQUAL => Some "je"
  | ASM_BRANCH_NOT_EQUAL => Some "jne" | ASM_BRANCH_PARITY => Some "jp"
  | ASM_BRANCH_NOT_PARITY => Some "jnp" | ASM_BRANCH_OVERFLOW => Some "jo"
  | ASM_BRANCH_NOT_OVERFLOW => Some "jno" | ASM_BRANCH_SIGNED => Some "js"
  | ASM_BRANCH_NOT_SIGNED => Some "jns" | ASM_BRANCH_CXZ => Some "jecxz"
  | ASM_LEA => Some "lea" | ASM_LOAD => Some "ld" | ASM_LOCK => Some "lock"
  | ASM_LOOP => Some "loop" | ASM_LOOPE => Some "loope" | ASM_LOOPNE => Some "loopne"
  | ASM_LEAVE => Some "leave" | ASM_LAHF => Some "lahf" | ASM_LODSB => Some "lodsb"
  | ASM_LODSD => Some "lodsd" | ASM_LES => Some "les" | ASM_LDS => Some "lds"
  | ASM_LBRANCH => Some "ljmp" | ASM_MOVSB => Some "movsb" | ASM_MOVSW => Some "movsw"
  | ASM_MOVSD => Some "movsl" | ASM_MOVSBL => Some "movsbl" | ASM_MOVSBW => Some "movsbw"
  | ASM_MOVSWL => Some "movswl" | ASM_MOVZWL => Some "movzwl" | ASM_MOVZBW => Some "movzbw"
  | ASM_MOVZBL => Some "movzbl" | ASM_MUL => Some "mull" | ASM_MOV => Some "mov"
  | ASM_MOVW => Some "movw" | ASM_MOVD => Some "movd" | ASM_MOVQ => Some "movq"
  | ASM_NEG => Some "neg" | ASM_NOT => Some "not" | ASM_NOP => Some "nop" | ASM_OR => Some "or"
  | ASM_ORB => Some "orb" | ASM_OUT => Some "out" | ASM_OUTSB => Some "outsb"
  | ASM_OUTSW => Some "outsw" | ASM_PUSH => Some "push" | ASM_POP => Some "pop"
  | ASM_PUSHF => Some "pushf" | ASM_POPF => Some "popf" | ASM_PUSHA => Some "pusha"
  | ASM_POPA => Some "popa" | ASM_PAND => Some "pand" | ASM_POR => Some "por"
  | ASM_PXOR => Some "pxor" | ASM_PUNPCKLBW => Some "punpcklbw"
  | ASM_PUNPCKHBW => Some "punpckhbw" | ASM_PACKUSWB => Some "packuswb"
  | ASM_PSLLQ => Some "psllq" | ASM_PSRLQ => Some "psrlq" | ASM_PSRLW => Some "psrlw"
  | ASM_PSRAW => Some "psraw" | ASM_PSLLW => Some "psllw" | ASM_PMULLW => Some "pmullw"
  | ASM_PADDUSW => Some "paddusw" | ASM_PADDUSB => Some "paddusb" | ASM_RET => Some "ret"
  | ASM_REPNZ => Some "repnz" | ASM_REPZ => Some "repz" | ASM_RCL => Some "rcl"
  | ASM_ROL => Some "rol" | ASM_ROR => Some "ror" | ASM_RCR => Some "rcr"
  | ASM_RETF => Some "retf" | ASM_RDMSR => Some "rdmsr" | ASM_STORE => Some "st"
  | ASM_STI => Some "sti" | ASM_SUB => Some "sub" | ASM_SBB => Some "sbb"
  | ASM_SCASB => Some "scas" | ASM_SCASD => Some "scasd" | ASM_STOSB => Some "stosb"
  | ASM_STOSD => Some "stos" | ASM_SHR => Some "shr" | ASM_SAHF => Some "sahf"
  | ASM_SHIFT => Some "shift" | ASM_SAR => Some "sar" | ASM_STD => Some "std"
  | ASM_SHL => Some "shl" | ASM_SHRD => Some "shrd" | ASM_STC => Some "stc"
  | ASM_TEST => Some "test" | ASM_XADD => Some "xadd" | ASM_XOR => Some "xor"
  | ASM_XCHG => Some "xchg" | ASM_XLATB => Some "xlatb" | ASM_XSTORERNG => Some "xstore-rng"
  | ASM_XCRYPTCBC => Some "xcrypt-cbc" | ASM_XCRYPTCFB => Some "xcrypt-cfb"
  | ASM_XCRYPTOFB => Some "xcrypt-ofb" | ASM_WBINVD => Some "wbinvd"
  | ASM_SET_U_LESS => Some "setb" | ASM_CMPXCHG => Some "cmpxchg" | ASM_RDTSC => Some "rdtsc"
  | ASM_BTR => Some "btr" | ASM_SET_U_LESS_EQUAL => Some "setbe"
  | ASM_SET_S_LESS => Some "setl" | ASM_SET_S_LESS_EQUAL => Some "setle"
  | ASM_SET_U_GREATER => Some "seta" | ASM_SET_U_GREATER_EQUAL => Some "setae"
  | ASM_SET_S_GREATER => Some "setg" | ASM_SET_S_GREATER_EQUAL => Some "setge"
  | ASM_SET_SIGNED => Some "sets" | ASM_SET_NOT_SIGNED => Some "setns"
  | ASM_SET_PARITY => Some "setp" | ASM_SET_NOT_PARITY => Some "setnp"
  | ASM_SET_OVERFLOW => Some "seto" | ASM_SET_NOT_OVERFLOW => Some "setno"
  | ASM_SET_EQUAL => Some "sete" | ASM_SET_NOT_EQUAL => Some "setne" | ASM_BT => Some "bt"
  | ASM_BTS => Some "bts" | ASM_SHLD => Some "shld" | ASM_CMC => Some "cmc"
  | ASM_BSR => Some "bsr" | ASM_CMOVNE => Some "cmovne" | ASM_CMOVA => Some "cmova"
  | ASM_CMOVAE => Some "cmovae" | ASM_CMOVE => Some "cmove" | ASM_CMOVO => Some "cmovo"
  | ASM_CMOVNO => Some "cmovno" | ASM_CMOVB => Some "cmovb" | ASM_CMOVBE => Some "cmovbe"
  | ASM_CMOVS => Some "cmovs" | ASM_CMOVNS => Some "cmovns" | ASM_CMOVP => Some "cmovp"
  | ASM_CMOVNP => Some "cmovnp" | ASM_CMOVL => Some "cmovl" | ASM_CMOVNL => Some "cmovnl"
  | ASM_CMOVLE => Some "cmovle" | ASM_CMOVNLE => Some "cmovnle" | ASM_LSS => Some "lss"
  | ASM_UD2A => Some "ud2a" | ASM_LGDT => Some "lgdt" | ASM_LIDT => Some "lidt"
  | ASM_SGDT => Some "sgdtl" | ASM_SIDT => Some "sidt" | ASM_STR => Some "str"
  | ASM_LTR => Some "ltr" | ASM_LLDT => Some "lldt" | ASM_STMXCSR => Some "stmxcsr"
  | ASM_LDMXCSR => Some "ldmxcsr" | ASM_BSF => Some "bsf" | ASM_LFENCE => Some "lfence"
  | ASM_MFENCE => Some "mfence" | ASM_SFENCE => Some "sfence" | ASM_FXSAVE => Some "fxsave"
  | ASM_FXRSTORE => Some "fxrstore" | ASM_FILD => Some "fild" | ASM_FIMUL => Some "fimul"
  | ASM_FSTP => Some "fstp" | ASM_FSAVE => Some "fsave" | ASM_FNSAVE => Some "fnsave"
  | ASM_FCOM => Some "fcom" | ASM_FCOMP => Some "fcomp" | ASM_FCOMPP => Some "fcompp"
  | ASM_FLD => Some "fld" | ASM_FLDZ => Some "fldz" | ASM_FADD => Some "fadd"
  | ASM_FIADD => Some "fiadd" | ASM_FABS => Some "fabs" | ASM_FADDP => Some "faddp"
  | ASM_FDIV => Some "fdiv" | ASM_FDIVR => Some "fdivr" | ASM_FDIVP => Some "fdivp"
  | ASM_FDIVRP => Some "fdivrp" | ASM_FXCH => Some "fxch" | ASM_FINIT => Some "finit"
  | ASM_FICOMP => Some "ficomp" | ASM_FIDIV => Some "fidiv" | ASM_FIDIVR => Some "fidivr"
  | ASM_FLD1 => Some "fld1" | ASM_FLDCW => Some "fldcw" | ASM_FCHS => Some "fchs"
  | ASM_FST => Some "fst" | ASM_FISUB => Some "fisub" | ASM_FISUBR => Some "fisubr"
  | ASM_FIST => Some "fist" | ASM_FISTP => Some "fistp" | ASM_FMUL => Some "fmul"
  | ASM_FMULP => Some "fmulp" | ASM_FSUB => Some "fsub" | ASM_FSUBR => Some "fsubr"
  | ASM_FSUBP => Some "fsubp" | ASM_FSUBRP => Some "fsubrp" | ASM_FUCOM => Some "fucom"
  | ASM_FUCOMP => Some "fucomp" | ASM_FUCOMPP => Some "fucompp" | ASM_FSTSW => Some "fstsw"
  | ASM_FNSTSW => Some "fnstsw" | ASM_FPREM => Some "fprem" | ASM_FSCALE => Some "fscale"
  | ASM_FSQRT => Some "fsqrt" | ASM_FNSTCW => Some "fnstcw" | ASM_FSTCW => Some "fstcw"
  | ASM_FRNDINT => Some "frndint" | ASM_FPATAN => Some "fpatan" | ASM_BAD => Some "(bad)"
  | _ => None
  end.

(** ** Operands, instructions and the processor

    Pointers into the buffer are offsets, [None] for NULL.  [op_imm] is the
    32-bit pattern of the C [int].  Fields no IA-32 code writes are left out
    (those of SPARC and ARM operands, [nb_op], [arith], [annul]...). *)

Record asm_operand := {
  op_len : Z;
  op_ptr : option Z;
  op_type : e_asm_operand_type;
  op_size : Z;
  op_content : Z;
  op_regset : Z;
  op_prefix : Z;
  op_imm : Z;
  op_baser : Z;
  op_indexr : Z;
  op_sbaser : option string;
  op_sindex : option string;
  op_scale : Z
}.

Record asm_instr := {
  ins_ptr_instr : option Z;
  ins_name : option string;
  ins_instr : e_asm_instr;
  ins_type : Z;
  ins_prefix : Z;
  ins_spdiff : Z;
  ins_flagswritten : Z;
  ins_flagsread : Z;
  ins_ptr_prefix : option Z;
  ins_op : list asm_operand;
  ins_len : Z
}.

Record s_asm_proc_i386 := {
  mode : Z;
  addsize : Z;
  opsize : Z
}.

Definition set_op_len (v : Z) (o : asm_operand) : asm_operand :=
  {| op_len := v; op_ptr := op_ptr o; op_type := op_type o; op_size := op_size o;
  op_content := op_content o; op_regset := op_regset o; op_prefix := op_prefix o;
  op_imm := op_imm o; op_baser := op_baser o; op_indexr := op_indexr o;
  op_sbaser := op_sbaser o; op_sindex := op_sindex o; op_scale := op_scale o |}.
Definition set_op_ptr (v : option Z) (o : asm_operand) : asm_operand :=
  {| op_len := op_len o; op_ptr := v; op_type := op_type o; op_size := op_size o;
  op_content := op_content o; op_regset := op_regset o; op_prefix := op_prefix o;
  op_imm := op_imm o; op_baser := op_baser o; op_indexr := op_indexr o;
  op_sbaser := op_sbaser o; op_sindex := op_sindex o; op_scale := op_scale o |}.
Definition set_op_type (v : e_asm_operand_type) (o : asm_operand) : asm_operand :=
  {| op_len := op_len o; op_ptr := op_ptr o; op_type := v; op_size := op_size o;
  op_content := op_content o; op_regset := op_regset o; op_prefix := op_prefix o;
  op_imm := op_imm o; op_baser := op_baser o; op_indexr := op_indexr o;
  op_sbaser := op_sbaser o; op_sindex := op_sindex o; op_scale := op_scale o |}.
Definition set_op_size (v : Z) (o : asm_operand) : asm_operand :=
  {| op_len := op_len o; op_ptr := op_ptr o; op_type := op_type o; op_size := v;
  op_content := op_content o; op_regset := op_regset o; op_prefix := op_prefix o;
  op_imm := op_imm o; op_baser := op_baser o; op_indexr := op_indexr o;
  op_sbaser := op_sbaser o; op_sindex := op_sindex o; op_scale := op_scale o |}.
Definition set_op_content (v : Z) (o : asm_operand) : asm_operand :=
  {| op_len := op_len o; op_ptr := op_ptr o; op_type := op_type o; op_size := op_size o;
  op_content := v; op_regset := op_regset o; op_prefix := op_prefix o; op_imm := op_imm o;
  op_baser := op_baser o; op_indexr := op_indexr o; op_sbaser := op_sbaser o;
  op_sindex := op_sindex o; op_scale := op_scale o |}.
Definition set_op_regset (v : Z) (o : asm_operand) : asm_operand :=
  {| op_len := op_len o; op_ptr := op_ptr o; op_type := op_type o; op_size := op_size o;
  op_content := op_content o; op_regset := v; op_prefix := op_prefix o; op_imm := op_imm o;
  op_baser := op_baser o; op_indexr := op_indexr o; op_sbaser := op_sbaser o;
  op_sindex := op_sindex o; op_scale := op_scale o |}.
Definition set_op_prefix (v : Z) (o : asm_operand) : asm_operand :=
  {| op_len := op_len o; op_ptr := op_ptr o; op_type := op_type o; op_size := op_size o;
  op_content := op_content o; op_regset := op_regset o; op_prefix := v; op_imm := op_imm o;
  op_baser := op_baser o; op_indexr := op_indexr o; op_sbaser := op_sbaser o;
  op_sindex := op_sindex o; op_scale := op_scale o |}.
Definition set_op_imm (v : Z) (o : asm_operand) : asm_operand :=
  {| op_len := op_len o; op_ptr := op_ptr o; op_type := op_type o; op_size := op_size o;
  op_content := op_content o; op_regset := op_regset o; op_prefix := op_prefix o; op_imm := v;
  op_baser := op_baser o; op_indexr := op_indexr o; op_sbaser := op_sbaser o;
  op_sindex := op_sindex o; op_scale := op_scale o |}.
Definition set_op_baser (v : Z) (o : asm_operand) : asm_operand :=
  {| op_len := op_len o; op_ptr := op_ptr o; op_type := op_type o; op_size := op_size o;
  op_content := op_content o; op_regset := op_regset o; op_prefix := op_prefix o;
  op_imm := op_imm o; op_baser := v; op_indexr := op_indexr o; op_sbaser := op_sbaser o;
  op_sindex := op_sindex o; op_scale := op_scale o |}.
Definition set_op_indexr (v : Z) (o : asm_operand) : asm_operand :=
  {| op_len := op_len o; op_ptr := op_ptr o; op_type := op_type o; op_size := op_size o;
  op_content := op_content o; op_regset := op_regset o; op_prefix := op_prefix o;
  op_imm := op_imm o; op_baser := op_baser o; op_indexr := v; op_sbaser := op_sbaser o;
  op_sindex := op_sindex o; op_scale := op_scale o |}.
Definition set_op_sbaser (v : option string) (o : asm_operand) : asm_operand :=
  {| op_len := op_len o; op_ptr := op_ptr o; op_type := op_type o; op_size := op_size o;
  op_content := op_content o; op_regset := op_regset o; op_prefix := op_prefix o;
  op_imm := op_imm o; op_baser := op_baser o; op_indexr := op_indexr o; op_sbaser := v;
  op_sindex := op_sindex o; op_scale := op_scale o |}.
Definition set_op_sindex (v : option string) (o : asm_operand) : asm_operand :=
  {| op_len := op_len o; op_ptr := op_ptr o; op_type := op_type o; op_size := op_size o;
  op_content := op_content o; op_regset := op_regset o; op_prefix := op_prefix o;
  op_imm := op_imm o; op_baser := op_baser o; op_indexr := op_indexr o;
  op_sbaser := op_sbaser o; op_sindex := v; op_scale := op_scale o |}.
Definition set_op_scale (v : Z) (o : asm_operand) : asm_operand :=
  {| op_len := op_len o; op_ptr := op_ptr o; op_type := op_type o; op_size := op_size o;
  op_content := op_content o; op_regset := op_regset o; op_prefix := op_prefix o;
  op_imm := op_imm o; op_baser := op_baser o; op_indexr := op_indexr o;
  op_sbaser := op_sbaser o; op_sindex := op_sindex o; op_scale := v |}.

Definition set_ins_ptr_instr (v : option Z) (o : asm_instr) : asm_instr :=
  {| ins_ptr_instr := v; ins_name := ins_name o; ins_instr := ins_instr o;
  ins_type := ins_type o; ins_prefix := ins_prefix o; ins_spdiff := ins_spdiff o;
  ins_flagswritten := ins_flagswritten o; ins_flagsread := ins_flagsread o;
  ins_ptr_prefix := ins_ptr_prefix o; ins_op := ins_op o; ins_len := ins_len o |}.
Definition set_ins_name (v : option string) (o : asm_instr) : asm_instr :=
  {| ins_ptr_instr := ins_ptr_instr o; ins_name := v; ins_instr := ins_instr o;
  ins_type := ins_type o; ins_prefix := ins_prefix o; ins_spdiff := ins_spdiff o;
  ins_flagswritten := ins_flagswritten o; ins_flagsread := ins_flagsread o;
  ins_ptr_prefix := ins_ptr_prefix o; ins_op := ins_op o; ins_len := ins_len o |}.
Definition set_ins_instr (v : e_asm_instr) (o : asm_instr) : asm_instr :=
  {| ins_ptr_instr := ins_ptr_instr o; ins_name := ins_name o; ins_instr := v;
  ins_type := ins_type o; ins_prefix := ins_prefix o; ins_spdiff := ins_spdiff o;
  ins_flagswritten := ins_flagswritten o; ins_flagsread := ins_flagsread o;
  ins_ptr_prefix := ins_ptr_prefix o; ins_op := ins_op o; ins_len := ins_len o |}.
Definition set_ins_type (v : Z) (o : asm_instr) : asm_instr :=
  {| ins_ptr_instr := ins_ptr_instr o; ins_name := ins_name o; ins_instr := ins_instr o;
  ins_type := v; ins_prefix := ins_prefix o; ins_spdiff := ins_spdiff o;
  ins_flagswritten := ins_flagswritten o; ins_flagsread := ins_flagsread o;
  ins_ptr_prefix := ins_ptr_prefix o; ins_op := ins_op o; ins_len := ins_len o |}.
Definition set_ins_prefix (v : Z) (o : asm_instr) : asm_instr :=
  {| ins_ptr_instr := ins_ptr_instr o; ins_name := ins_name o; ins_instr := ins_instr o;
  ins_type := ins_type o; ins_prefix := v; ins_spdiff := ins_spdiff o;
  ins_flagswritten := ins_flagswritten o; ins_flagsread := ins_flagsread o;
  ins_ptr_prefix := ins_ptr_prefix o; ins_op := ins_op o; ins_len := ins_len o |}.
Definition set_ins_spdiff (v : Z) (o : asm_instr) : asm_instr :=
  {| ins_ptr_instr := ins_ptr_instr o; ins_name := ins_name o; ins_instr := ins_instr o;
  ins_type := ins_type o; ins_prefix := ins_prefix o; ins_spdiff := v;
  ins_flagswritten := ins_flagswritten o; ins_flagsread := ins_flagsread o;
  ins_ptr_prefix := ins_ptr_prefix o; ins_op := ins_op o; ins_len := ins_len o |}.
Definition set_ins_flagswritten (v : Z) (o : asm_instr) : asm_instr :=
  {| ins_ptr_instr := ins_ptr_instr o; ins_name := ins_name o; ins_instr := ins_instr o;
  ins_type := ins_type o; ins_prefix := ins_prefix o; ins_spdiff := ins_spdiff o;
  ins_flagswritten := v; ins_flagsread := ins_flagsread o; ins_ptr_prefix := ins_ptr_prefix o;
  ins_op := ins_op o; ins_len := ins_len o |}.
Definition set_ins_flagsread (v : Z) (o : asm_instr) : asm_instr :=
  {| ins_ptr_instr := ins_ptr_instr o; ins_name := ins_name o; ins_instr := ins_instr o;
  ins_type := ins_type o; ins_prefix := ins_prefix o; ins_spdiff := ins_spdiff o;
  ins_flagswritten := ins_flagswritten o; ins_flagsread := v;
  ins_ptr_prefix := ins_ptr_prefix o; ins_op := ins_op o; ins_len := ins_len o |}.
Definition set_ins_ptr_prefix (v : option Z) (o : asm_instr) : asm_instr :=
  {| ins_ptr_instr := ins_ptr_instr o; ins_name := ins_name o; ins_instr := ins_instr o;
  ins_type := ins_type o; ins_prefix := ins_prefix o; ins_spdiff := ins_spdiff o;
  ins_flagswritten := ins_flagswritten o; ins_flagsread := ins_flagsread o;
  ins_ptr_prefix := v; ins_op := ins_op o; ins_len := ins_len o |}.
Definition set_ins_op (v : list asm_operand) (o : asm_instr) : asm_instr :=
  {| ins_ptr_instr := ins_ptr_instr o; ins_name := ins_name o; ins_instr := ins_instr o;
  ins_type := ins_type o; ins_prefix := ins_prefix o; ins_spdiff := ins_spdiff o;
  ins_flagswritten := ins_flagswritten o; ins_flagsread := ins_flagsread o;
  ins_ptr_prefix := ins_ptr_prefix o; ins_op := v; ins_len := ins_len o |}.
Definition set_ins_len (v : Z) (o : asm_instr) : asm_instr :=
  {| ins_ptr_instr := ins_ptr_instr o; ins_name := ins_name o; ins_instr := ins_instr o;
  ins_type := ins_type o; ins_prefix := ins_prefix o; ins_spdiff := ins_spdiff o;
  ins_flagswritten := ins_flagswritten o; ins_flagsread := ins_flagsread o;
  ins_ptr_prefix := ins_ptr_prefix o; ins_op := ins_op o; ins_len := v |}.

Definition set_addsize (v : Z) (o : s_asm_proc_i386) : s_asm_proc_i386 :=
  {| mode := mode o; addsize := v; opsize := opsize o |}.
Definition set_opsize (v : Z) (o : s_asm_proc_i386) : s_asm_proc_i386 :=
  {| mode := mode o; addsize := addsize o; opsize := v |}.

(** What [memset(instr, 0, sizeof (asm_instr))] leaves. *)
Definition operand0 : asm_operand :=
  {| op_len := 0; op_ptr := None; op_type := ASM_OTYPE_NONE; op_size := 0; op_content := 0;
     op_regset := 0; op_prefix := 0; op_imm := 0; op_baser := 0; op_indexr := 0;
     op_sbaser := None; op_sindex := None; op_scale := 0 |}.

Definition instr0 : asm_instr :=
  {| ins_ptr_instr := None; ins_name := None; ins_instr := ASM_NONE; ins_type := 0;
     ins_prefix := 0; ins_spdiff := 0; ins_flagswritten := 0; ins_flagsread := 0;
     ins_ptr_prefix := None; ins_op := replicate 6 operand0; ins_len := 0 |}.

(** ** The monad of the handlers *)

Inductive outcome (A : Type) :=
| Done (a : A)
| Overread
| OutOfFuel.
Arguments Done {A} a.
Arguments Overread {A}.
Arguments OutOfFuel {A}.

(** The state: the instruction [new] and [proc->internals]. *)
Record dis := Dis { d_ins : asm_instr; d_proc : s_asm_proc_i386 }.

(** What does not change: the buffer, and the call of the element of index
    [opcode] of the vector "opcode-ia32". *)
Record env := Env {
  e_buf : list Z;
  e_vector : Z → Z → Z → dis → outcome (Z * dis)
}.

Definition M (A : Type) : Type := env → dis → outcome (A * dis).

Definition ret {A} (a : A) : M A := λ _ s, Done (a, s).
Definition bind {A B} (m : M A) (f : A → M B) : M B := λ e s,
  match m e s with
  | Done (a, s) => f a e s
  | Overread => Overread
  | OutOfFuel => OutOfFuel
  end.

Declare Scope ia32_scope.
Delimit Scope ia32_scope with ia32.
Open Scope ia32_scope.
Notation "x ← m ; k" := (bind m (λ x, k))
  (at level 20, m at level 100, k at level 200, only parsing) : ia32_scope.
Notation "m ;; k" := (bind m (λ _, k))
  (at level 100, k at level 200, only parsing, right associativity) : ia32_scope.

Definition handler := Z → Z → M Z.

Definition skip : M unit := ret tt.

(** [switch (v) { case k: ...; break; ... default: ...; }] *)
Fixpoint switch {A} (v : Z) (cases : list (Z * M A)) (dflt : M A) : M A :=
  match cases with
  | [] => dflt
  | (k, m) :: cases => if v =? k then m else switch v cases dflt
  end.

(** [*p] on a pointer into the buffer. *)
Definition byte_at (buf : list Z) (p : Z) : option Z :=
  if 0 <=? p then buf !! Z.to_nat p else None.

Definition read (p : Z) : M Z := λ e s,
  match byte_at (e_buf e) p with Some b => Done (b, s) | None => Overread end.

(** [n] bytes from [p], as the little-endian number [memcpy] makes of them. *)
Fixpoint read_le (p : Z) (n : nat) : M Z :=
  match n with
  | O => ret 0
  | S n => b ← read p; v ← read_le (p + 1) n; ret (b + 256 * v)
  end.

(** The fields of [struct s_modrm] and [struct s_sidbyte] (libasm-int.h). *)
Definition s_modrm_m (b : Z) : Z := b &&& 7.
Definition s_modrm_r (b : Z) : Z := (b ≫ 3) &&& 7.
Definition s_modrm_mod (b : Z) : Z := (b ≫ 6) &&& 3.
Definition s_sidbyte_base (b : Z) : Z := b &&& 7.
Definition s_sidbyte_index (b : Z) : Z := (b ≫ 3) &&& 7.
Definition s_sidbyte_sid (b : Z) : Z := (b ≫ 6) &&& 3.

Definition modrm_m (p : Z) : M Z := b ← read p; ret (s_modrm_m b).
Definition modrm_r (p : Z) : M Z := b ← read p; ret (s_modrm_r b).
Definition modrm_mod (p : Z) : M Z := b ← read p; ret (s_modrm_mod b).
Definition sidbyte_base (p : Z) : M Z := b ← read p; ret (s_sidbyte_base b).
Definition sidbyte_index (p : Z) : M Z := b ← read p; ret (s_sidbyte_index b).
Definition sidbyte_sid (p : Z) : M Z := b ← read p; ret (s_sidbyte_sid b).

(** Assignments to the fields of [new]. *)
Definition get_ins : M asm_instr := λ _ s, Done (d_ins s, s).
Definition ins_upd (f : asm_instr → asm_instr) : M unit := λ _ s,
  Done (tt, Dis (f (d_ins s)) (d_proc s)).

Definition set_ptr_instr (p : Z) : M unit := ins_upd (set_ins_ptr_instr (Some p)).
Definition set_ptr_prefix (p : Z) : M unit := ins_upd (set_ins_ptr_prefix (Some p)).
Definition set_name (n : option string) : M unit := ins_upd (set_ins_name n).
Definition set_instr (i : e_asm_instr) : M unit := ins_upd (set_ins_instr i).
Definition set_type (t : Z) : M unit := ins_upd (set_ins_type t).
Definition or_type (t : Z) : M unit := ins_upd (λ i, set_ins_type (ins_type i ||| t) i).
Definition set_prefix (p : Z) : M unit := ins_upd (set_ins_prefix p).
Definition or_prefix (p : Z) : M unit := ins_upd (λ i, set_ins_prefix (ins_prefix i ||| p) i).
Definition set_spdiff (d : Z) : M unit := ins_upd (set_ins_spdiff d).
Definition set_flagswritten (f : Z) : M unit := ins_upd (set_ins_flagswritten f).
Definition or_flagswritten (f : Z) : M unit :=
  ins_upd (λ i, set_ins_flagswritten (ins_flagswritten i ||| f) i).
Definition xor_flagswritten (f : Z) : M unit :=
  ins_upd (λ i, set_ins_flagswritten (Z.lxor (ins_flagswritten i) f) i).
Definition set_flagsread (f : Z) : M unit := ins_upd (set_ins_flagsread f).
Definition set_len (n : Z) : M unit := ins_upd (set_ins_len n).
(** [new->len += n]: [len] is a [u_int]. *)
Definition add_len (n : Z) : M unit := ins_upd (λ i, set_ins_len (u32 (ins_len i + n)) i).
(** [return (new->len)]: the function returns an [int]. *)
Definition ret_len : M Z := i ← get_ins; ret (i32 (ins_len i)).

(** [new->op[k]] and the assignments to its fields. *)
Definition get_op (k : nat) : M asm_operand :=
  i ← get_ins; ret (nth k (ins_op i) operand0).
Definition op_upd (k : nat) (f : asm_operand → asm_operand) : M unit :=
  ins_upd (λ i, set_ins_op (alter f k (ins_op i)) i).

Definition op_set_len (k : nat) (n : Z) : M unit := op_upd k (set_op_len n).
Definition op_set_ptr (k : nat) (p : option Z) : M unit := op_upd k (set_op_ptr p).
Definition op_set_type (k : nat) (t : e_asm_operand_type) : M unit := op_upd k (set_op_type t).
Definition op_set_size (k : nat) (n : Z) : M unit := op_upd k (set_op_size n).
Definition op_set_content (k : nat) (c : Z) : M unit := op_upd k (set_op_content c).
Definition op_or_content (k : nat) (c : Z) : M unit :=
  op_upd k (λ o, set_op_content (op_content o ||| c) o).
Definition op_set_regset (k : nat) (r : Z) : M unit := op_upd k (set_op_regset r).
Definition op_set_prefix (k : nat) (p : Z) : M unit := op_upd k (set_op_prefix p).
Definition op_set_imm (k : nat) (v : Z) : M unit := op_upd k (set_op_imm v).
Definition op_and_imm (k : nat) (v : Z) : M unit :=
  op_upd k (λ o, set_op_imm (op_imm o &&& v) o).
Definition op_set_baser (k : nat) (r : Z) : M unit := op_upd k (set_op_baser r).
Definition op_set_indexr (k : nat) (r : Z) : M unit := op_upd k (set_op_indexr r).
Definition op_set_sbaser (k : nat) (s : string) : M unit := op_upd k (set_op_sbaser (Some s)).
Definition op_set_sindex (k : nat) (s : string) : M unit := op_upd k (set_op_sindex (Some s)).
Definition op_set_scale (k : nat) (s : Z) : M unit := op_upd k (set_op_scale s).

(** [memset((char * ) &op->imm + first, 0xff, n)] *)
Definition imm_memset (first n : Z) (imm : Z) : Z := imm ||| ((256 ^ n - 1) ≪ (8 * first)).
(** [memcpy(&op->imm, p, n)], [v] being the bytes at [p]. *)
Definition imm_memcpy (n : Z) (v imm : Z) : Z := imm / 256 ^ n * 256 ^ n + v.

Definition op_memset_imm (k : nat) (first n : Z) : M unit :=
  op_upd k (λ o, set_op_imm (imm_memset first n (op_imm o)) o).
Definition op_memcpy_imm (k : nat) (p n : Z) : M unit :=
  v ← read_le p (Z.to_nat n); op_upd k (λ o, set_op_imm (imm_memcpy n v (op_imm o)) o).

(** [proc->internals] *)
Definition get_proc : M s_asm_proc_i386 := λ _ s, Done (d_proc s, s).
Definition proc_upd (f : s_asm_proc_i386 → s_asm_proc_i386) : M unit := λ _ s,
  Done (tt, Dis (d_ins s) (f (d_proc s))).

(** ** The processor (generic.c, init_i386.c) *)

Definition asm_ia32_get_mode : M Z := p ← get_proc; ret (mode p).
Definition asm_proc_is_protected : M bool := p ← get_proc; ret (mode p =? INTEL_PROT).
Definition asm_proc_opsize : M bool := p ← get_proc; ret (negb (opsize p =? 0)).
Definition asm_proc_addsize : M bool := p ← get_proc; ret (negb (addsize p =? 0)).
Definition asm_proc_vector_size : M Z := o ← asm_proc_opsize; ret (if o then 2 else 4 : Z).
Definition asm_proc_vector_len : M Z := o ← asm_proc_opsize; ret (if o then 2 else 4 : Z).

(** The internals [asm_init_ia32] allocates. *)
Definition asm_init_ia32 : s_asm_proc_i386 :=
  {| mode := INTEL_PROT; addsize := 0; opsize := 0 |}.

Definition asm_ia32_switch_mode (m : Z) (p : s_asm_proc_i386) : s_asm_proc_i386 :=
  if m =? INTEL_PROT then {| mode := m; addsize := 0; opsize := 0 |}
  else {| mode := m; addsize := 1; opsize := 1 |}.

Definition asm_instruction_is_prefixed (ins : asm_instr) (prefix : Z) : bool :=
  negb (ins_prefix ins &&& prefix =? 0).
Definition asm_operand_is_reference (op : asm_operand) : bool :=
  negb (op_content op &&& ASM_OP_REFERENCE =? 0).

Fixpoint asm_int_pow2 (val : nat) : Z :=
  match val with O => 1 | S val => 2 * asm_int_pow2 val end.

(** ** Fetching

    The element of index [opcode] of the vector, called on [buf]. *)
Definition asm_opcode_fetch (opcode : Z) : handler := λ buf len e s,
  e_vector e opcode buf len s.

Definition fetch_i386 : handler := λ buf len,
  opcode ← read buf;
  to_ret ← asm_opcode_fetch opcode buf len;
  (if 0 <? to_ret then i ← get_ins; set_name (instr_table (ins_instr i)) else skip);;
  ret to_ret.

(** [proc->fetch], which [asm_init_ia32] sets to [fetch_i386]. *)
Definition proc_fetch : handler := fetch_i386.
