(* ===== verification/Ia32Operand.v ===== *)
(** The operands of IA-32 instructions: the decoding of the ModR/M and SIB
    bytes (arch/ia32/operand_ia32.c), the operand handlers
    (arch/ia32/operand_handlers) and the vector that selects them
    (arch/ia32/register.c). *)

From S2P Require Import Prelude LibasmVector Ia32.

(** ** Names of registers (output_ia32.c) *)

Definition reg_name (names : list string) (r : Z) : string :=
  nth (Z.to_nat r) names "???"%string.

Definition get_reg_intel (r regset : Z) : string :=
  (let rsub := ["al"; "cl"; "dl"; "bl"; "ah"; "ch"; "dh"; "bh"] in
   let r16 := ["ax"; "cx"; "dx"; "bx"; "sp"; "bp"; "si"; "di"] in
   let r32 := ["eax"; "ecx"; "edx"; "ebx"; "esp"; "ebp"; "esi"; "edi"] in
   let rseg := ["es"; "cs"; "ss"; "ds"; "fs"; "gs"; "#@!"; "#@!"] in
   let rmm := ["mm0"; "mm1"; "mm2"; "mm3"; "mm4"; "mm5"; "mm6"; "mm7"] in
   let rxmm := ["xmm0"; "xmm1"; "xmm2"; "xmm3"; "xmm4"; "xmm5"; "xmm6"; "xmm7"] in
   let rcr := ["cr0"; "cr1"; "cr2"; "cr3"; "cr4"; "cr5"; "cr6"; "cr7"] in
   let rdr := ["db0"; "db1"; "db2"; "db3"; "db4"; "db5"; "db6"; "db7"] in
   let rdefault := ["r0"; "r1"; "r2"; "r3"; "r4"; "r5"; "r6"; "r7"] in
   if ((0 <=? r) && (r <? 8))%Z then
     if (regset =? ASM_REGSET_R8)%Z then reg_name rsub r
     else if (regset =? ASM_REGSET_R16)%Z then reg_name r16 r
     else if (regset =? ASM_REGSET_R32)%Z then reg_name r32 r
     else if (regset =? ASM_REGSET_XMM)%Z then reg_name rxmm r
     else if (regset =? ASM_REGSET_CREG)%Z then reg_name rcr r
     else if (regset =? ASM_REGSET_DREG)%Z then reg_name rdr r
     else if (regset =? ASM_REGSET_MM)%Z then reg_name rmm r
     else if (regset =? ASM_REGSET_SREG)%Z then reg_name rseg r
     else reg_name rdefault r
   else "???")%string.

(** [op->sbaser = get_reg_intel(op->baser, op->regset)] and the same for the index. *)
Definition name_baser (k : nat) : M unit :=
  o ← get_op k; op_set_sbaser k (get_reg_intel (op_baser o) (op_regset o)).
Definition name_indexr (k : nat) : M unit :=
  o ← get_op k; op_set_sindex k (get_reg_intel (op_indexr o) (op_regset o)).
Definition ret_op_len (k : nat) : M Z := o ← get_op k; ret (i32 (op_len o)).

(** ** ModR/M and SIB (operand_ia32.c)

    [op] is [new->op[k]]; [pmode] selects the C expressions
    [(pmode ? a : b)]. *)

(** The sign of a byte displacement at [p] is spread on the bytes above it. *)
Definition sign_disp8 (k : nat) (pmode : bool) (p : Z) : M unit :=
  b ← read p;
  (if 128 <=? b then op_memset_imm k 1 (if pmode then 3 else 1) else op_set_imm k 0);;
  op_memcpy_imm k p 1.

Definition operand_rmb (k : nat) (opcode len : Z) : M Z :=
  let modrm := opcode in
  let sidbyte := opcode + 1 in
  m ← asm_ia32_get_mode;
  let pmode := m =? INTEL_PROT in
  md ← modrm_mod modrm;
  switch md
    [(0,
      rm ← modrm_m modrm;
      switch rm
        [(ASM_REG_ESP,
          base ← sidbyte_base sidbyte;
          if base =? ASM_REG_EBP then
            op_set_content k (ASM_OP_REFERENCE ||| ASM_OP_VALUE ||| ASM_OP_INDEX ||| ASM_OP_SCALE);;
            op_set_regset k ASM_REGSET_R32;;
            op_set_len k (if pmode then 6 else 4);;
            op_set_ptr k (Some opcode);;
            sid ← sidbyte_sid sidbyte; op_set_scale k (asm_int_pow2 (Z.to_nat sid));;
            op_memcpy_imm k (opcode + 2) (if pmode then 4 else 2);;
            index ← sidbyte_index sidbyte; op_set_indexr k index
          else
            index ← sidbyte_index sidbyte; op_set_indexr k index;;
            (if negb (index =? ASM_REG_ESP) then
               op_set_content k (ASM_OP_REFERENCE ||| ASM_OP_BASE ||| ASM_OP_INDEX ||| ASM_OP_SCALE)
             else op_set_content k (ASM_OP_REFERENCE ||| ASM_OP_BASE ||| ASM_OP_SCALE));;
            op_set_len k 2;;
            op_set_ptr k (Some opcode);;
            op_set_regset k ASM_REGSET_R32;;
            op_set_baser k base;;
            sid ← sidbyte_sid sidbyte; op_set_scale k (asm_int_pow2 (Z.to_nat sid)));
         (ASM_REG_EBP,
          op_set_content k (ASM_OP_REFERENCE ||| ASM_OP_VALUE);;
          op_set_ptr k (Some opcode);;
          op_set_len k (if pmode then 5 else 3);;
          op_memcpy_imm k (opcode + 1) (if pmode then 4 else 2))]
        (op_set_ptr k (Some opcode);;
         op_set_len k 1;;
         op_set_content k (ASM_OP_REFERENCE ||| ASM_OP_BASE);;
         op_set_baser k rm;;
         op_set_regset k (if pmode then ASM_REGSET_R32 else ASM_REGSET_R16)));
     (1,
      rm ← modrm_m modrm;
      if rm =? ASM_REG_ESP then
        index ← sidbyte_index sidbyte; op_set_indexr k index;;
        (if negb (index =? ASM_REG_ESP) then
           op_set_content k
             (ASM_OP_REFERENCE ||| ASM_OP_VALUE ||| ASM_OP_BASE ||| ASM_OP_INDEX ||| ASM_OP_SCALE)
         else
           op_set_content k (ASM_OP_REFERENCE ||| ASM_OP_VALUE ||| ASM_OP_BASE ||| ASM_OP_SCALE));;
        op_set_ptr k (Some opcode);;
        op_set_len k (if pmode then 3 else 1);;
        op_set_regset k ASM_REGSET_R32;;
        base ← sidbyte_base sidbyte; op_set_baser k base;;
        op_set_indexr k index;;
        sid ← sidbyte_sid sidbyte; op_set_scale k (asm_int_pow2 (Z.to_nat sid));;
        sign_disp8 k pmode (opcode + 2)
      else
        op_set_content k (ASM_OP_REFERENCE ||| ASM_OP_BASE ||| ASM_OP_VALUE);;
        op_set_len k 2;;
        op_set_baser k rm;;
        op_set_regset k ASM_REGSET_R32;;
        sign_disp8 k pmode (opcode + 1));
     (2,
      op_set_ptr k (Some opcode);;
      rm ← modrm_m modrm;
      if rm =? ASM_REG_ESP then
        base ← sidbyte_base sidbyte;
        (if base =? ASM_REG_ESP then
           op_set_content k (ASM_OP_REFERENCE ||| ASM_OP_BASE ||| ASM_OP_INDEX ||| ASM_OP_SCALE)
         else
           op_set_content k
             (ASM_OP_REFERENCE ||| ASM_OP_VALUE ||| ASM_OP_BASE ||| ASM_OP_INDEX ||| ASM_OP_SCALE));;
        op_set_regset k ASM_REGSET_R32;;
        op_set_baser k base;;
        index ← sidbyte_index sidbyte; op_set_indexr k index;;
        sid ← sidbyte_sid sidbyte; op_set_scale k (asm_int_pow2 (Z.to_nat sid));;
        op_set_len k (if pmode then 6 else 4);;
        op_memcpy_imm k (opcode + 2) (if pmode then 4 else 2)
      else
        op_set_content k (ASM_OP_REFERENCE ||| ASM_OP_BASE ||| ASM_OP_VALUE);;
        op_set_len k (if pmode then 5 else 3);;
        op_set_regset k ASM_REGSET_R32;;
        op_set_baser k rm;;
        op_set_imm k 0;;
        op_memcpy_imm k (opcode + 1) (if pmode then 4 else 2));
     (3,
      op_set_content k ASM_OP_BASE;;
      op_set_regset k ASM_REGSET_R8;;
      op_set_len k 1;;
      op_set_ptr k (Some opcode);;
      rm ← modrm_m modrm; op_set_baser k rm)]
    skip;;
  ret_op_len k.

Definition operand_rmv (k : nat) (opcode len : Z) : M Z :=
  let modrm := opcode in
  let sidbyte := opcode + 1 in
  m ← asm_ia32_get_mode;
  let pmode := m =? INTEL_PROT in
  op_set_regset k (if pmode then ASM_REGSET_R32 else ASM_REGSET_R16);;
  md ← modrm_mod modrm;
  switch md
    [(0,
      rm ← modrm_m modrm;
      switch rm
        [(ASM_REG_ESP,
          base ← sidbyte_base sidbyte;
          switch base
            [(ASM_REG_EBP,
              op_set_content k (ASM_OP_REFERENCE ||| ASM_OP_VALUE ||| ASM_OP_INDEX ||| ASM_OP_SCALE);;
              op_set_regset k ASM_REGSET_R32;;
              op_set_len k (if pmode then 6 else 4);;
              op_set_ptr k (Some opcode);;
              sid ← sidbyte_sid sidbyte; op_set_scale k (asm_int_pow2 (Z.to_nat sid));;
              op_memcpy_imm k (opcode + 2) (if pmode then 4 else 2);;
              op_set_baser k (-1);;
              index ← sidbyte_index sidbyte; op_set_indexr k index);
             (ASM_REG_ESP,
              op_set_content k (ASM_OP_REFERENCE ||| ASM_OP_SCALE ||| ASM_OP_BASE);;
              op_set_len k 2;;
              op_set_baser k base;;
              sid ← sidbyte_sid sidbyte; op_set_scale k (asm_int_pow2 (Z.to_nat sid)))]
            (op_set_content k (ASM_OP_REFERENCE ||| ASM_OP_BASE ||| ASM_OP_INDEX ||| ASM_OP_SCALE);;
             op_set_len k 2;;
             op_set_ptr k (Some opcode);;
             op_set_regset k ASM_REGSET_R32;;
             op_set_baser k base;;
             sid ← sidbyte_sid sidbyte; op_set_scale k (asm_int_pow2 (Z.to_nat sid));;
             index ← sidbyte_index sidbyte; op_set_indexr k index));
         (ASM_REG_EBP,
          op_set_content k (ASM_OP_REFERENCE ||| ASM_OP_VALUE);;
          op_set_ptr k (Some opcode);;
          op_set_len k (if pmode then 5 else 3);;
          op_memcpy_imm k (opcode + 1) (if pmode then 4 else 2))]
        (op_set_ptr k (Some opcode);;
         op_set_len k 1;;
         op_set_content k (ASM_OP_REFERENCE ||| ASM_OP_BASE);;
         op_set_baser k rm));
     (1,
      rm ← modrm_m modrm;
      if rm =? ASM_REG_ESP then
        base ← sidbyte_base sidbyte;
        (if base =? ASM_REG_ESP then
           op_set_content k (ASM_OP_REFERENCE ||| ASM_OP_VALUE ||| ASM_OP_BASE ||| ASM_OP_SCALE)
         else
           op_set_content k
             (ASM_OP_REFERENCE ||| ASM_OP_VALUE ||| ASM_OP_BASE ||| ASM_OP_INDEX ||| ASM_OP_SCALE));;
        op_set_ptr k (Some opcode);;
        op_set_len k 3;;
        op_set_regset k ASM_REGSET_R32;;
        op_set_baser k base;;
        index ← sidbyte_index sidbyte; op_set_indexr k index;;
        sid ← sidbyte_sid sidbyte; op_set_scale k (asm_int_pow2 (Z.to_nat sid));;
        sign_disp8 k pmode (opcode + 2)
      else
        op_set_content k (ASM_OP_REFERENCE ||| ASM_OP_BASE ||| ASM_OP_VALUE);;
        op_set_len k 2;;
        op_set_regset k ASM_REGSET_R32;;
        op_set_baser k rm;;
        sign_disp8 k pmode (opcode + 1));
     (2,
      rm ← modrm_m modrm;
      if rm =? ASM_REG_ESP then
        base ← sidbyte_base sidbyte;
        (if base =? ASM_REG_ESP then
           op_set_content k (ASM_OP_REFERENCE ||| ASM_OP_VALUE ||| ASM_OP_BASE ||| ASM_OP_SCALE)
         else
           op_set_content k
             (ASM_OP_REFERENCE ||| ASM_OP_VALUE ||| ASM_OP_BASE ||| ASM_OP_INDEX ||| ASM_OP_SCALE));;
        op_set_len k (if pmode then 6 else 4);;
        op_set_ptr k (Some opcode);;
        op_set_baser k base;;
        op_set_regset k ASM_REGSET_R32;;
        index ← sidbyte_index sidbyte; op_set_indexr k index;;
        sid ← sidbyte_sid sidbyte; op_set_scale k (asm_int_pow2 (Z.to_nat sid));;
        op_memcpy_imm k (opcode + 2) (if pmode then 4 else 2)
      else
        op_set_content k (ASM_OP_REFERENCE ||| ASM_OP_BASE ||| ASM_OP_VALUE);;
        op_set_len k (if pmode then 5 else 3);;
        op_set_ptr k (Some opcode);;
        op_set_regset k ASM_REGSET_R32;;
        op_set_baser k rm;;
        op_memcpy_imm k (opcode + 1) (if pmode then 4 else 2));
     (3,
      op_set_content k ASM_OP_BASE;;
      op_set_len k 1;;
      op_set_ptr k (Some opcode);;
      o ← asm_proc_opsize; op_set_regset k (if o then ASM_REGSET_R16 else ASM_REGSET_R32);;
      rm ← modrm_m modrm; op_set_baser k rm)]
    skip;;
  ret_op_len k.

Definition operand_rmb_ib (opcode len : Z) : M Z :=
  operand_rmb 0 opcode len;;
  op_set_content 1 ASM_OP_VALUE;;
  op_set_len 1 1;;
  o ← get_op 0;
  let olen := if negb (op_len o =? 0) then op_len o else 1 in
  op_set_ptr 1 (Some (opcode + olen));;
  op_set_imm 1 0;;
  op_memcpy_imm 1 (opcode + olen) 1;;
  o1 ← get_op 1;
  add_len (olen + op_len o1);;
  ret 1.

(** ** The operand handlers *)

Definition operand_handler := nat → Z → e_asm_operand_type → M Z.

Definition asm_content_pack (k : nat) (content : Z) (otype : e_asm_operand_type) : M Z := ret 0.

(** vectors.c: the element a vector is filled with. *)
Definition asm_operand_fetch_default : operand_handler := λ _ _ _, ret (-1).

Definition asm_operand_fetch_address : operand_handler := λ k opcode otype,
  op_set_type k ASM_OTYPE_ADDRESS;;
  op_set_content k ASM_OP_VALUE;;
  op_set_ptr k (Some opcode);;
  op_set_imm k 0;;
  o ← asm_proc_opsize;
  let len := if o then 2 else 4 in
  op_set_len k len;;
  op_memcpy_imm k opcode len;;
  (if len =? 2 then op_and_imm k 65535 else skip);;
  ret len.

Definition asm_operand_fetch_control : operand_handler := λ k opcode otype,
  let modrm := opcode in
  op_set_type k ASM_OTYPE_CONTROL;;
  op_set_content k ASM_OP_BASE;;
  op_set_regset k ASM_REGSET_CREG;;
  r ← modrm_r modrm; op_set_baser k r;;
  op_set_ptr k (Some opcode);;
  op_set_imm k 0;;
  op_set_len k 0;;
  name_baser k;;
  name_indexr k;;
  ret 1.

Definition asm_operand_fetch_debug : operand_handler := λ k opcode otype,
  let modrm := opcode in
  op_set_type k ASM_OTYPE_DEBUG;;
  op_set_content k ASM_OP_BASE;;
  op_set_regset k ASM_REGSET_CREG;;
  r ← modrm_r modrm; op_set_baser k r;;
  op_set_ptr k (Some opcode);;
  op_set_imm k 0;;
  op_set_len k 0;;
  name_baser k;;
  name_indexr k;;
  ret 1.

Definition asm_operand_fetch_encoded : operand_handler := λ k opcode otype,
  op_set_type k ASM_OTYPE_ENCODED;;
  len ← operand_rmv k opcode 4;
  name_baser k;;
  name_indexr k;;
  ret len.

Definition asm_operand_fetch_encodedbyte : operand_handler := λ k opcode otype,
  op_set_type k ASM_OTYPE_ENCODED;;
  len ← operand_rmb k opcode 5;
  name_baser k;;
  name_indexr k;;
  ret len.

Definition asm_operand_fetch_fixed : operand_handler := λ k opcode otype,
  op_set_type k ASM_OTYPE_FIXED;;
  ret 0.

Definition asm_operand_fetch_general : operand_handler := λ k opcode otype,
  op_set_type k ASM_OTYPE_GENERAL;;
  op_set_content k ASM_OP_BASE;;
  p ← asm_proc_is_protected;
  op_set_regset k (if p then ASM_REGSET_R32 else ASM_REGSET_R16);;
  let modrm := opcode in
  r ← modrm_r modrm; op_set_baser k r;;
  name_baser k;;
  op_set_len k 0;;
  ret 0.

Definition asm_operand_fetch_generalbyte : operand_handler := λ k opcode otype,
  op_set_type k ASM_OTYPE_GENERAL;;
  op_set_content k ASM_OP_BASE;;
  op_set_regset k ASM_REGSET_R8;;
  let modrm := opcode in
  r ← modrm_r modrm; op_set_baser k r;;
  name_baser k;;
  name_indexr k;;
  op_set_len k 0;;
  ret 0.

Definition asm_operand_fetch_immediate : operand_handler := λ k opcode otype,
  op_set_type k ASM_OTYPE_IMMEDIATE;;
  op_set_content k ASM_OP_VALUE;;
  op_set_ptr k (Some opcode);;
  op_set_imm k 0;;
  o ← asm_proc_opsize;
  op_set_len k (if o then 2 else 4);;
  op_memcpy_imm k opcode (if o then 2 else 4);;
  ret_op_len k.

Definition asm_operand_fetch_immediatebyte : operand_handler := λ k opcode otype,
  op_set_type k ASM_OTYPE_IMMEDIATE;;
  op_set_content k ASM_OP_VALUE;;
  op_set_ptr k (Some opcode);;
  op_set_imm k 0;;
  op_set_len k 1;;
  b ← read opcode;
  (if 128 <=? b then
     o ← asm_proc_opsize;
     let len := if o then 2 else 4 in
     op_memset_imm k 0 len
   else skip);;
  op_memcpy_imm k opcode 1;;
  ret 1.

Definition asm_operand_fetch_immediateword : operand_handler := λ k opcode otype,
  op_set_type k ASM_OTYPE_IMMEDIATE;;
  op_set_content k ASM_OP_VALUE;;
  op_set_ptr k (Some opcode);;
  op_set_imm k 0;;
  op_set_len k 2;;
  op_memcpy_imm k opcode 2;;
  ret 2.

Definition asm_operand_fetch_jump : operand_handler := λ k opcode otype,
  op_set_type k ASM_OTYPE_JUMP;;
  op_set_content k (ASM_OP_VALUE ||| ASM_OP_ADDRESS);;
  op_set_ptr k (Some opcode);;
  op_set_imm k 0;;
  o ← asm_proc_opsize;
  let len := if o then 2 else 4 in
  op_set_len k len;;
  op_memcpy_imm k opcode len;;
  name_baser k;;
  ret len.

Definition asm_operand_fetch_memory : operand_handler := λ k opcode otype,
  let modrm := opcode in
  op_set_type k ASM_OTYPE_MEMORY;;
  op_set_content k ASM_OP_BASE;;
  op_set_regset k ASM_REGSET_R32;;
  r ← modrm_r modrm; op_set_baser k r;;
  name_baser k;;
  ret 0.

Definition asm_operand_fetch_offset : operand_handler := λ k opcode otype,
  op_set_type k ASM_OTYPE_OFFSET;;
  op_set_content k (ASM_OP_VALUE ||| ASM_OP_REFERENCE);;
  op_set_ptr k (Some opcode);;
  op_set_imm k 0;;
  p ← asm_proc_is_protected;
  op_set_regset k (if p then ASM_REGSET_R32 else ASM_REGSET_R16);;
  o ← asm_proc_opsize;
  let len := if o then 2 else 4 in
  op_set_len k len;;
  op_memcpy_imm k opcode len;;
  name_baser k;;
  ret len.

Definition asm_operand_fetch_opmod : operand_handler := λ k opcode otype,
  o ← asm_proc_opsize;
  op_set_regset k (if o then ASM_REGSET_R16 else ASM_REGSET_R32);;
  op_set_type k ASM_OTYPE_OPMOD;;
  op_set_content k ASM_OP_BASE;;
  op_set_regset k (if o then ASM_REGSET_R16 else ASM_REGSET_R32);;
  let modrm := opcode in
  rm ← modrm_m modrm; op_set_baser k rm;;
  name_baser k;;
  ret 0.

Definition asm_operand_fetch_pmmx : operand_handler := λ k opcode otype,
  op_set_type k ASM_OTYPE_PMMX;;
  len ← operand_rmv k opcode 4;
  o ← get_op k;
  asm_content_pack k (op_content o) (op_type o);;
  op_set_regset k ASM_REGSET_MM;;
  name_baser k;;
  ret len.

Definition asm_operand_fetch_register : operand_handler := λ k opcode otype,
  let modrm := opcode in
  asm_content_pack k ASM_OP_BASE ASM_OTYPE_REGISTER;;
  o ← asm_proc_opsize;
  op_set_regset k (if o then ASM_REGSET_R16 else ASM_REGSET_R32);;
  rm ← modrm_m modrm; op_set_baser k rm;;
  name_baser k;;
  op_set_ptr k (Some opcode);;
  op_set_imm k 0;;
  op_set_len k 0;;
  ret 0.

Definition asm_operand_fetch_segment : operand_handler := λ k opcode otype,
  let modrm := opcode in
  op_set_type k ASM_OTYPE_SEGMENT;;
  op_set_content k ASM_OP_BASE;;
  op_set_regset k ASM_REGSET_SREG;;
  r ← modrm_r modrm; op_set_baser k r;;
  name_baser k;;
  ret 0.

Definition asm_operand_fetch_shortjump : operand_handler := λ k opcode otype,
  op_set_content k (ASM_OP_VALUE ||| ASM_OP_ADDRESS);;
  op_set_type k ASM_OTYPE_SHORTJUMP;;
  op_set_len k 1;;
  op_set_imm k 0;;
  o ← asm_proc_opsize;
  let len := if o then 1 else 3 in
  b ← read opcode;
  (if 128 <=? b then op_memset_imm k 1 len else skip);;
  op_memcpy_imm k opcode 1;;
  ret 1.

Definition asm_operand_fetch_xsrc : operand_handler := λ k opcode otype,
  op_set_type k ASM_OTYPE_XSRC;;
  op_set_content k (ASM_OP_BASE ||| ASM_OP_REFERENCE);;
  op_set_baser k ASM_REG_ESI;;
  o ← asm_proc_opsize;
  op_set_regset k (if o then ASM_REGSET_R16 else ASM_REGSET_R32);;
  name_baser k;;
  op_set_prefix k ASM_PREFIX_DS;;
  ret 0.

Definition asm_operand_fetch_ydest : operand_handler := λ k opcode otype,
  op_set_type k ASM_OTYPE_YDEST;;
  op_set_content k (ASM_OP_BASE ||| ASM_OP_REFERENCE);;
  op_set_baser k ASM_REG_EDI;;
  o ← asm_proc_opsize;
  op_set_regset k (if o then ASM_REGSET_R16 else ASM_REGSET_R32);;
  name_baser k;;
  op_set_prefix k ASM_PREFIX_ES;;
  ret 0.

(** ** The operand vector (register.c) *)

Definition asm_register_ia32_operands : list (e_asm_operand_type * operand_handler) :=
  [(ASM_OTYPE_NONE, asm_operand_fetch_default);
   (ASM_OTYPE_FIXED, asm_operand_fetch_fixed);
   (ASM_OTYPE_OPMOD, asm_operand_fetch_opmod);
   (ASM_OTYPE_ADDRESS, asm_operand_fetch_address);
   (ASM_OTYPE_CONTROL, asm_operand_fetch_control);
   (ASM_OTYPE_DEBUG, asm_operand_fetch_debug);
   (ASM_OTYPE_ENCODED, asm_operand_fetch_encoded);
   (ASM_OTYPE_ENCODEDBYTE, asm_operand_fetch_encodedbyte);
   (ASM_OTYPE_FLAGS, asm_operand_fetch_default);
   (ASM_OTYPE_GENERAL, asm_operand_fetch_general);
   (ASM_OTYPE_GENERALBYTE, asm_operand_fetch_generalbyte);
   (ASM_OTYPE_IMMEDIATE, asm_operand_fetch_immediate);
   (ASM_OTYPE_IMMEDIATEWORD, asm_operand_fetch_immediateword);
   (ASM_OTYPE_IMMEDIATEBYTE, asm_operand_fetch_immediatebyte);
   (ASM_OTYPE_JUMP, asm_operand_fetch_jump);
   (ASM_OTYPE_SHORTJUMP, asm_operand_fetch_shortjump);
   (ASM_OTYPE_MEMORY, asm_operand_fetch_memory);
   (ASM_OTYPE_OFFSET, asm_operand_fetch_offset);
   (ASM_OTYPE_PMMX, asm_operand_fetch_pmmx);
   (ASM_OTYPE_QMMX, asm_operand_fetch_default);
   (ASM_OTYPE_REGISTER, asm_operand_fetch_register);
   (ASM_OTYPE_SEGMENT, asm_operand_fetch_segment);
   (ASM_OTYPE_TEST, asm_operand_fetch_default);
   (ASM_OTYPE_VSFP, asm_operand_fetch_default);
   (ASM_OTYPE_WSFP, asm_operand_fetch_default);
   (ASM_OTYPE_XSRC, asm_operand_fetch_xsrc);
   (ASM_OTYPE_YDEST, asm_operand_fetch_ydest);
   (ASM_OTYPE_VALUE, asm_operand_fetch_default);
   (ASM_OTYPE_REG0, asm_operand_fetch_default);
   (ASM_OTYPE_REG1, asm_operand_fetch_default);
   (ASM_OTYPE_REG2, asm_operand_fetch_default);
   (ASM_OTYPE_REG3, asm_operand_fetch_default);
   (ASM_OTYPE_REG4, asm_operand_fetch_default);
   (ASM_OTYPE_REG5, asm_operand_fetch_default);
   (ASM_OTYPE_REG6, asm_operand_fetch_default);
   (ASM_OTYPE_REG7, asm_operand_fetch_default);
   (ASM_OTYPE_ST, asm_operand_fetch_default);
   (ASM_OTYPE_ST_0, asm_operand_fetch_default);
   (ASM_OTYPE_ST_1, asm_operand_fetch_default);
   (ASM_OTYPE_ST_2, asm_operand_fetch_default);
   (ASM_OTYPE_ST_3, asm_operand_fetch_default);
   (ASM_OTYPE_ST_4, asm_operand_fetch_default);
   (ASM_OTYPE_ST_5, asm_operand_fetch_default);
   (ASM_OTYPE_ST_6, asm_operand_fetch_default);
   (ASM_OTYPE_ST_7, asm_operand_fetch_default)].

Definition operand_vector : e_asm_operand_type → operand_handler :=
  registered asm_operand_fetch_default asm_register_ia32_operands.

Definition asm_operand_fetch : operand_handler := λ k opcode otype,
  to_ret ← operand_vector otype k opcode otype;
  (if to_ret =? -1 then skip
   else
     o ← get_op k;
     op_set_sbaser k
       (if negb (op_content o &&& ASM_OP_BASE =? 0) then get_reg_intel (op_baser o) (op_regset o)
        else "");;
     op_set_sindex k
       (if negb (op_content o &&& ASM_OP_BASE =? 0) then get_reg_intel (op_indexr o) (op_regset o)
        else ""));;
  ret to_ret.

Arguments asm_operand_fetch _%_nat_scope _%_Z_scope _.
