(* ===== verification/Ia32Arith.v ===== *)
(** The IA-32 handlers of arch/ia32/handlers for the arithmetic of the opcodes 0x00 to 0x3f. Each
    definition translates the function of that name of the file of that name. *)

From S2P Require Import Prelude Ia32 Ia32Operand.

Definition op_add_rmb_rb : handler := λ opcode len,
  set_instr ASM_ADD;;
  set_ptr_instr opcode;;
  add_len 1;;
  set_type (ASM_TYPE_ARITH ||| ASM_TYPE_WRITEFLAG);;
  set_flagswritten (ASM_FLAG_CF ||| ASM_FLAG_ZF ||| ASM_FLAG_PF ||| ASM_FLAG_OF |||
    ASM_FLAG_AF ||| ASM_FLAG_SF);;
  n ← asm_operand_fetch 0 (opcode + 1) ASM_OTYPE_ENCODEDBYTE;
  add_len n;;
  n ← asm_operand_fetch 1 (opcode + 1) ASM_OTYPE_GENERALBYTE;
  add_len n;;
  ret_len.

Definition op_add_rmv_rv : handler := λ opcode len,
  add_len 1;;
  set_ptr_instr opcode;;
  set_instr ASM_ADD;;
  set_type (ASM_TYPE_ARITH ||| ASM_TYPE_WRITEFLAG);;
  set_flagswritten (ASM_FLAG_CF ||| ASM_FLAG_ZF ||| ASM_FLAG_PF ||| ASM_FLAG_OF |||
    ASM_FLAG_AF ||| ASM_FLAG_SF);;
  n ← asm_operand_fetch 0 (opcode + 1) ASM_OTYPE_ENCODED;
  add_len n;;
  n ← asm_operand_fetch 1 (opcode + 1) ASM_OTYPE_GENERAL;
  add_len n;;
  ret_len.

Definition op_add_rb_rmb : handler := λ opcode len,
  set_instr ASM_ADD;;
  set_ptr_instr opcode;;
  add_len 1;;
  set_type (ASM_TYPE_ARITH ||| ASM_TYPE_WRITEFLAG);;
  set_flagswritten (ASM_FLAG_CF ||| ASM_FLAG_ZF ||| ASM_FLAG_PF ||| ASM_FLAG_OF |||
    ASM_FLAG_AF ||| ASM_FLAG_SF);;
  n ← asm_operand_fetch 0 (opcode + 1) ASM_OTYPE_GENERALBYTE;
  add_len n;;
  n ← asm_operand_fetch 1 (opcode + 1) ASM_OTYPE_ENCODEDBYTE;
  add_len n;;
  ret_len.

Definition op_add_rv_rmv : handler := λ opcode len,
  set_instr ASM_ADD;;
  add_len 1;;
  set_ptr_instr opcode;;
  set_type (ASM_TYPE_ARITH ||| ASM_TYPE_WRITEFLAG);;
  set_flagswritten (ASM_FLAG_CF ||| ASM_FLAG_ZF ||| ASM_FLAG_PF ||| ASM_FLAG_OF |||
    ASM_FLAG_AF ||| ASM_FLAG_SF);;
  n ← asm_operand_fetch 0 (opcode + 1) ASM_OTYPE_GENERAL;
  add_len n;;
  n ← asm_operand_fetch 1 (opcode + 1) ASM_OTYPE_ENCODED;
  add_len n;;
  ret_len.

Definition op_add_al_ib : handler := λ opcode len,
  set_instr ASM_ADD;;
  set_ptr_instr opcode;;
  add_len 1;;
  set_type (ASM_TYPE_ARITH ||| ASM_TYPE_WRITEFLAG);;
  set_flagswritten (ASM_FLAG_OF ||| ASM_FLAG_SF ||| ASM_FLAG_ZF ||| ASM_FLAG_AF |||
    ASM_FLAG_CF ||| ASM_FLAG_PF);;
  n ← asm_operand_fetch 0 opcode ASM_OTYPE_FIXED;
  add_len n;;
  op_set_content 0 (ASM_OP_BASE ||| ASM_OP_FIXED);;
  op_set_ptr 0 (Some opcode);;
  op_set_len 0 0;;
  op_set_baser 0 ASM_REG_AL;;
  op_set_regset 0 ASM_REGSET_R8;;
  n ← asm_operand_fetch 1 (opcode + 1) ASM_OTYPE_IMMEDIATEBYTE;
  add_len n;;
  ret_len.

Definition op_add_eax_iv : handler := λ opcode len,
  set_instr ASM_ADD;;
  set_ptr_instr opcode;;
  add_len 1;;
  set_type (ASM_TYPE_ARITH ||| ASM_TYPE_WRITEFLAG);;
  set_flagswritten (ASM_FLAG_CF ||| ASM_FLAG_ZF ||| ASM_FLAG_PF ||| ASM_FLAG_OF |||
    ASM_FLAG_AF ||| ASM_FLAG_SF);;
  n ← asm_operand_fetch 0 (opcode + 1) ASM_OTYPE_FIXED;
  add_len n;;
  op_set_content 0 (ASM_OP_FIXED ||| ASM_OP_BASE);;
  op_set_len 0 0;;
  op_set_baser 0 ASM_REG_EAX;;
  o ← asm_proc_opsize;
  op_set_regset 0 (if o then ASM_REGSET_R16 else ASM_REGSET_R32);;
  n ← asm_operand_fetch 1 (opcode + 1) ASM_OTYPE_IMMEDIATE;
  add_len n;;
  ret_len.

Definition op_push_es : handler := λ opcode len,
  add_len 1;;
  set_ptr_instr opcode;;
  set_instr ASM_PUSH;;
  set_type (ASM_TYPE_TOUCHSP ||| ASM_TYPE_STORE);;
  set_spdiff (-4);;
  n ← asm_operand_fetch 0 opcode ASM_OTYPE_FIXED;
  add_len n;;
  op_or_content 0 (ASM_OP_BASE ||| ASM_OP_FIXED);;
  op_set_regset 0 ASM_REGSET_SREG;;
  op_set_baser 0 ASM_REG_ES;;
  ret_len.

Definition op_pop_es : handler := λ opcode len,
  set_instr ASM_POP;;
  set_type (ASM_TYPE_TOUCHSP ||| ASM_TYPE_ASSIGN ||| ASM_TYPE_LOAD);;
  set_spdiff 4;;
  add_len 1;;
  n ← asm_operand_fetch 0 opcode ASM_OTYPE_FIXED;
  add_len n;;
  op_set_content 0 (ASM_OP_BASE ||| ASM_OP_FIXED);;
  op_set_regset 0 ASM_REGSET_SREG;;
  op_set_baser 0 ASM_REG_ES;;
  ret_len.

Definition op_or_rmb_rb : handler := λ opcode len,
  set_instr ASM_OR;;
  set_type (ASM_TYPE_ARITH ||| ASM_TYPE_WRITEFLAG);;
  set_ptr_instr opcode;;
  add_len 1;;
  set_flagswritten (ASM_FLAG_CF ||| ASM_FLAG_OF ||| ASM_FLAG_PF ||| ASM_FLAG_ZF ||| ASM_FLAG_SF);;
  n ← asm_operand_fetch 0 (opcode + 1) ASM_OTYPE_ENCODEDBYTE;
  add_len n;;
  n ← asm_operand_fetch 1 (opcode + 1) ASM_OTYPE_GENERALBYTE;
  add_len n;;
  ret_len.

Definition op_or_rmv_rv : handler := λ opcode len,
  add_len 1;;
  set_type (ASM_TYPE_ARITH ||| ASM_TYPE_WRITEFLAG);;
  set_ptr_instr opcode;;
  set_instr ASM_OR;;
  set_flagswritten (ASM_FLAG_CF ||| ASM_FLAG_OF ||| ASM_FLAG_PF ||| ASM_FLAG_ZF ||| ASM_FLAG_SF);;
  n ← asm_operand_fetch 0 (opcode + 1) ASM_OTYPE_ENCODED;
  add_len n;;
  n ← asm_operand_fetch 1 (opcode + 1) ASM_OTYPE_GENERAL;
  add_len n;;
  ret_len.

Definition op_or_rb_rmb : handler := λ opcode len,
  set_instr ASM_OR;;
  set_type (ASM_TYPE_ARITH ||| ASM_TYPE_WRITEFLAG);;
  set_ptr_instr opcode;;
  add_len 1;;
  set_flagswritten (ASM_FLAG_CF ||| ASM_FLAG_OF ||| ASM_FLAG_PF ||| ASM_FLAG_ZF ||| ASM_FLAG_SF);;
  n ← asm_operand_fetch 0 (opcode + 1) ASM_OTYPE_GENERALBYTE;
  add_len n;;
  n ← asm_operand_fetch 1 (opcode + 1) ASM_OTYPE_ENCODEDBYTE;
  add_len n;;
  ret_len.

Definition op_or_rv_rmv : handler := λ opcode len,
  set_instr ASM_OR;;
  set_type (ASM_TYPE_ARITH ||| ASM_TYPE_WRITEFLAG);;
  set_ptr_instr opcode;;
  add_len 1;;
  set_flagswritten (ASM_FLAG_CF ||| ASM_FLAG_OF ||| ASM_FLAG_PF ||| ASM_FLAG_ZF ||| ASM_FLAG_SF);;
  n ← asm_operand_fetch 0 (opcode + 1) ASM_OTYPE_GENERAL;
  add_len n;;
  n ← asm_operand_fetch 1 (opcode + 1) ASM_OTYPE_ENCODED;
  add_len n;;
  ret_len.

Definition op_or_al_ib : handler := λ opcode len,
  set_instr ASM_OR;;
  set_type (ASM_TYPE_ARITH ||| ASM_TYPE_WRITEFLAG);;
  set_ptr_instr opcode;;
  add_len 1;;
  set_flagswritten (ASM_FLAG_CF ||| ASM_FLAG_OF ||| ASM_FLAG_PF ||| ASM_FLAG_ZF ||| ASM_FLAG_SF);;
  n ← asm_operand_fetch 0 opcode ASM_OTYPE_FIXED;
  add_len n;;
  op_set_content 0 (ASM_OP_BASE ||| ASM_OP_FIXED);;
  op_set_ptr 0 (Some opcode);;
  op_set_baser 0 ASM_REG_AL;;
  op_set_regset 0 ASM_REGSET_R8;;
  n ← asm_operand_fetch 1 opcode ASM_OTYPE_IMMEDIATEBYTE;
  add_len n;;
  ret_len.

Definition op_or_eax_iv : handler := λ opcode len,
  set_instr ASM_OR;;
  set_type (ASM_TYPE_ARITH ||| ASM_TYPE_WRITEFLAG);;
  set_ptr_instr opcode;;
  add_len 1;;
  set_flagswritten (ASM_FLAG_CF ||| ASM_FLAG_OF ||| ASM_FLAG_PF ||| ASM_FLAG_ZF ||| ASM_FLAG_SF);;
  n ← asm_operand_fetch 0 opcode ASM_OTYPE_FIXED;
  add_len n;;
  op_set_content 0 (ASM_OP_FIXED ||| ASM_OP_BASE);;
  o ← asm_proc_opsize;
  op_set_regset 0 (if o then ASM_REGSET_R16 else ASM_REGSET_R32);;
  op_set_baser 0 ASM_REG_EAX;;
  n ← asm_operand_fetch 1 opcode ASM_OTYPE_IMMEDIATE;
  add_len n;;
  ret_len.

Definition op_push_cs : handler := λ opcode len,
  add_len 1;;
  set_ptr_instr opcode;;
  set_instr ASM_PUSH;;
  set_type (ASM_TYPE_TOUCHSP ||| ASM_TYPE_STORE);;
  set_spdiff (-4);;
  n ← asm_operand_fetch 0 opcode ASM_OTYPE_FIXED;
  add_len n;;
  op_set_content 0 (ASM_OP_BASE ||| ASM_OP_FIXED);;
  op_set_regset 0 ASM_REGSET_SREG;;
  op_set_baser 0 ASM_REG_CS;;
  ret_len.

Definition op_386sp : handler := λ buf len,
  if len <? 2 then ret (-1)
  else
    b ← read (buf + 1);
    let opcode := b + 256 in
    (i ← get_ins;
     if bool_decide (ins_ptr_instr i = None) then set_ptr_instr buf else skip);;
    add_len 1;;
    asm_opcode_fetch opcode (buf + 1) (u32 (len - 1)).

Definition op_adc_rmb_rb : handler := λ opcode len,
  add_len 1;;
  set_ptr_instr opcode;;
  set_instr ASM_ADC;;
  set_type (ASM_TYPE_ARITH ||| ASM_TYPE_READFLAG ||| ASM_TYPE_WRITEFLAG);;
  set_flagsread ASM_FLAG_CF;;
  set_flagswritten (ASM_FLAG_OF ||| ASM_FLAG_SF ||| ASM_FLAG_ZF ||| ASM_FLAG_AF |||
    ASM_FLAG_CF ||| ASM_FLAG_PF);;
  n ← asm_operand_fetch 0 (opcode + 1) ASM_OTYPE_ENCODEDBYTE;
  add_len n;;
  n ← asm_operand_fetch 1 (opcode + 1) ASM_OTYPE_GENERALBYTE;
  add_len n;;
  ret_len.

Definition op_adc_rmv_rv : handler := λ opcode len,
  add_len 1;;
  set_ptr_instr opcode;;
  set_instr ASM_ADC;;
  set_type (ASM_TYPE_ARITH ||| ASM_TYPE_READFLAG ||| ASM_TYPE_WRITEFLAG);;
  set_flagsread ASM_FLAG_CF;;
  set_flagswritten (ASM_FLAG_OF ||| ASM_FLAG_SF ||| ASM_FLAG_ZF ||| ASM_FLAG_AF |||
    ASM_FLAG_CF ||| ASM_FLAG_PF);;
  n ← asm_operand_fetch 0 (opcode + 1) ASM_OTYPE_ENCODED;
  add_len n;;
  n ← asm_operand_fetch 1 (opcode + 1) ASM_OTYPE_GENERAL;
  add_len n;;
  ret_len.

Definition op_adc_rb_rmb : handler := λ opcode len,
  add_len 1;;
  set_instr ASM_ADC;;
  set_ptr_instr opcode;;
  set_type (ASM_TYPE_ARITH ||| ASM_TYPE_READFLAG ||| ASM_TYPE_WRITEFLAG);;
  set_flagsread ASM_FLAG_CF;;
  set_flagswritten (ASM_FLAG_OF ||| ASM_FLAG_SF ||| ASM_FLAG_ZF ||| ASM_FLAG_AF |||
    ASM_FLAG_CF ||| ASM_FLAG_PF);;
  n ← asm_operand_fetch 0 (opcode + 1) ASM_OTYPE_GENERALBYTE;
  add_len n;;
  n ← asm_operand_fetch 1 (opcode + 1) ASM_OTYPE_ENCODEDBYTE;
  add_len n;;
  ret_len.

Definition op_adc_rv_rmv : handler := λ opcode len,
  add_len 1;;
  set_ptr_instr opcode;;
  set_instr ASM_ADC;;
  set_type (ASM_TYPE_ARITH ||| ASM_TYPE_READFLAG ||| ASM_TYPE_WRITEFLAG);;
  set_flagsread ASM_FLAG_CF;;
  set_flagswritten (ASM_FLAG_OF ||| ASM_FLAG_SF ||| ASM_FLAG_ZF ||| ASM_FLAG_AF |||
    ASM_FLAG_CF ||| ASM_FLAG_PF);;
  n ← asm_operand_fetch 0 (opcode + 1) ASM_OTYPE_GENERAL;
  add_len n;;
  n ← asm_operand_fetch 1 (opcode + 1) ASM_OTYPE_ENCODED;
  add_len n;;
  ret_len.

Definition op_adc_al_ib : handler := λ opcode len,
  set_instr ASM_ADC;;
  add_len 1;;
  set_ptr_instr opcode;;
  set_type (ASM_TYPE_ARITH ||| ASM_TYPE_READFLAG ||| ASM_TYPE_WRITEFLAG);;
  set_flagsread ASM_FLAG_CF;;
  set_flagswritten (ASM_FLAG_OF ||| ASM_FLAG_SF ||| ASM_FLAG_ZF ||| ASM_FLAG_AF |||
    ASM_FLAG_CF ||| ASM_FLAG_PF);;
  n ← asm_operand_fetch 0 (opcode + 1) ASM_OTYPE_FIXED;
  add_len n;;
  op_set_content 0 (ASM_OP_BASE ||| ASM_OP_FIXED);;
  op_set_ptr 0 (Some opcode);;
  op_set_len 0 0;;
  op_set_baser 0 ASM_REG_AL;;
  op_set_regset 0 ASM_REGSET_R8;;
  n ← asm_operand_fetch 0 (opcode + 1) ASM_OTYPE_IMMEDIATEBYTE;
  add_len n;;
  ret_len.

Definition op_adc_eax_iv : handler := λ opcode len,
  set_instr ASM_ADC;;
  set_ptr_instr opcode;;
  add_len 1;;
  set_type (ASM_TYPE_ARITH ||| ASM_TYPE_READFLAG ||| ASM_TYPE_WRITEFLAG);;
  set_flagsread ASM_FLAG_CF;;
  set_flagswritten (ASM_FLAG_OF ||| ASM_FLAG_SF ||| ASM_FLAG_ZF ||| ASM_FLAG_AF |||
    ASM_FLAG_CF ||| ASM_FLAG_PF);;
  n ← asm_operand_fetch 0 opcode ASM_OTYPE_FIXED;
  add_len n;;
  op_set_type 0 ASM_OTYPE_FIXED;;
  sz ← asm_proc_vector_size;
  op_set_size 1 sz;;
  op_set_size 0 sz;;
  op_set_content 0 (ASM_OP_FIXED ||| ASM_OP_BASE);;
  op_set_baser 0 ASM_REG_EAX;;
  n ← asm_operand_fetch 1 (opcode + 1) ASM_OTYPE_IMMEDIATE;
  add_len n;;
  ret_len.

Definition op_push_ss : handler := λ opcode len,
  set_instr ASM_PUSH;;
  add_len 1;;
  set_ptr_instr opcode;;
  set_type (ASM_TYPE_TOUCHSP ||| ASM_TYPE_STORE);;
  set_spdiff (-4);;
  n ← asm_operand_fetch 0 opcode ASM_OTYPE_FIXED;
  add_len n;;
  op_set_content 0 ASM_OP_BASE;;
  op_set_regset 0 ASM_REGSET_SREG;;
  op_set_baser 0 ASM_REG_SS;;
  ret_len.

Definition op_pop_ss : handler := λ opcode len,
  set_instr ASM_POP;;
  add_len 1;;
  set_type (ASM_TYPE_TOUCHSP ||| ASM_TYPE_ASSIGN ||| ASM_TYPE_LOAD);;
  set_spdiff 4;;
  set_ptr_instr opcode;;
  n ← asm_operand_fetch 0 opcode ASM_OTYPE_FIXED;
  add_len n;;
  op_set_content 0 (ASM_OP_BASE ||| ASM_OP_FIXED);;
  op_set_regset 0 ASM_REGSET_SREG;;
  op_set_baser 0 ASM_REG_SS;;
  ret_len.

Definition op_sbb_rmb_rb : handler := λ opcode len,
  add_len 1;;
  set_instr ASM_SBB;;
  set_ptr_instr opcode;;
  set_type (ASM_TYPE_ARITH ||| ASM_TYPE_WRITEFLAG ||| ASM_TYPE_READFLAG);;
  set_flagsread ASM_FLAG_CF;;
  set_flagswritten (ASM_FLAG_AF ||| ASM_FLAG_CF ||| ASM_FLAG_PF ||| ASM_FLAG_OF |||
    ASM_FLAG_SF ||| ASM_FLAG_ZF);;
  n ← asm_operand_fetch 0 (opcode + 1) ASM_OTYPE_ENCODEDBYTE;
  add_len n;;
  n ← asm_operand_fetch 1 (opcode + 1) ASM_OTYPE_GENERALBYTE;
  add_len n;;
  ret_len.

Definition op_sbb_rmv_rv : handler := λ opcode len,
  set_ptr_instr opcode;;
  add_len 1;;
  set_instr ASM_SBB;;
  set_type (ASM_TYPE_ARITH ||| ASM_TYPE_WRITEFLAG ||| ASM_TYPE_READFLAG);;
  set_flagsread ASM_FLAG_CF;;
  set_flagswritten (ASM_FLAG_AF ||| ASM_FLAG_CF ||| ASM_FLAG_PF ||| ASM_FLAG_OF |||
    ASM_FLAG_SF ||| ASM_FLAG_ZF);;
  n ← asm_operand_fetch 0 (opcode + 1) ASM_OTYPE_ENCODED;
  add_len n;;
  n ← asm_operand_fetch 1 (opcode + 1) ASM_OTYPE_GENERAL;
  add_len n;;
  ret_len.

Definition op_sbb_rb_rmb : handler := λ opcode len,
  add_len 1;;
  set_ptr_instr opcode;;
  set_instr ASM_SBB;;
  set_type (ASM_TYPE_ARITH ||| ASM_TYPE_WRITEFLAG ||| ASM_TYPE_READFLAG);;
  set_flagsread ASM_FLAG_CF;;
  set_flagswritten (ASM_FLAG_AF ||| ASM_FLAG_CF ||| ASM_FLAG_PF ||| ASM_FLAG_OF |||
    ASM_FLAG_SF ||| ASM_FLAG_ZF);;
  n ← asm_operand_fetch 0 (opcode + 1) ASM_OTYPE_GENERALBYTE;
  add_len n;;
  n ← asm_operand_fetch 1 (opcode + 1) ASM_OTYPE_ENCODEDBYTE;
  add_len n;;
  ret_len.

Definition op_sbb_rv_rmv : handler := λ opcode len,
  add_len 1;;
  set_instr ASM_SBB;;
  set_ptr_instr opcode;;
  set_type (ASM_TYPE_ARITH ||| ASM_TYPE_WRITEFLAG ||| ASM_TYPE_READFLAG);;
  set_flagsread ASM_FLAG_CF;;
  set_flagswritten (ASM_FLAG_AF ||| ASM_FLAG_CF ||| ASM_FLAG_PF ||| ASM_FLAG_OF |||
    ASM_FLAG_SF ||| ASM_FLAG_ZF);;
  n ← asm_operand_fetch 0 (opcode + 1) ASM_OTYPE_GENERAL;
  add_len n;;
  n ← asm_operand_fetch 1 (opcode + 1) ASM_OTYPE_ENCODED;
  add_len n;;
  ret_len.

Definition op_sbb_al_ib : handler := λ opcode len,
  set_instr ASM_SBB;;
  add_len 1;;
  set_ptr_instr opcode;;
  set_type (ASM_TYPE_ARITH ||| ASM_TYPE_WRITEFLAG ||| ASM_TYPE_READFLAG);;
  set_flagsread ASM_FLAG_CF;;
  set_flagswritten (ASM_FLAG_AF ||| ASM_FLAG_CF ||| ASM_FLAG_PF ||| ASM_FLAG_OF |||
    ASM_FLAG_SF ||| ASM_FLAG_ZF);;
  n ← asm_operand_fetch 0 (opcode + 1) ASM_OTYPE_FIXED;
  add_len n;;
  op_set_size 1 ASM_OSIZE_BYTE;;
  op_set_size 0 ASM_OSIZE_BYTE;;
  op_set_content 0 (ASM_OP_BASE ||| ASM_OP_FIXED);;
  op_set_ptr 0 (Some opcode);;
  op_set_len 0 0;;
  op_set_baser 0 ASM_REG_AL;;
  op_set_regset 0 ASM_REGSET_R8;;
  n ← asm_operand_fetch 1 (opcode + 1) ASM_OTYPE_IMMEDIATEBYTE;
  add_len n;;
  ret_len.

Definition op_sbb_eax_iv : handler := λ opcode len,
  add_len 1;;
  set_ptr_instr opcode;;
  set_instr ASM_SBB;;
  set_type (ASM_TYPE_ARITH ||| ASM_TYPE_WRITEFLAG ||| ASM_TYPE_READFLAG);;
  set_flagsread ASM_FLAG_CF;;
  set_flagswritten (ASM_FLAG_AF ||| ASM_FLAG_CF ||| ASM_FLAG_PF ||| ASM_FLAG_OF |||
    ASM_FLAG_SF ||| ASM_FLAG_ZF);;
  n ← asm_operand_fetch 0 opcode ASM_OTYPE_FIXED;
  add_len n;;
  op_set_size 1 ASM_OSIZE_VECTOR;;
  op_set_size 0 ASM_OSIZE_VECTOR;;
  op_set_content 0 (ASM_OP_FIXED ||| ASM_OP_BASE);;
  op_set_baser 0 ASM_REG_EAX;;
  o ← asm_proc_opsize;
  op_set_regset 0 (if o then ASM_REGSET_R32 else ASM_REGSET_R16);;
  n ← asm_operand_fetch 1 (opcode + 1) ASM_OTYPE_IMMEDIATE;
  add_len n;;
  ret_len.

Definition op_push_ds : handler := λ opcode len,
  set_ptr_instr opcode;;
  set_instr ASM_PUSH;;
  set_type (ASM_TYPE_TOUCHSP ||| ASM_TYPE_STORE);;
  set_spdiff (-4);;
  n ← asm_operand_fetch 0 opcode ASM_OTYPE_FIXED;
  add_len n;;
  op_or_content 0 (ASM_OP_BASE ||| ASM_OP_FIXED);;
  op_set_regset 0 ASM_REGSET_SREG;;
  op_set_baser 0 ASM_REG_DS;;
  ret_len.

Definition op_pop_ds : handler := λ opcode len,
  set_instr ASM_POP;;
  set_ptr_instr opcode;;
  add_len 1;;
  set_type (ASM_TYPE_TOUCHSP ||| ASM_TYPE_LOAD ||| ASM_TYPE_ASSIGN);;
  set_spdiff 4;;
  n ← asm_operand_fetch 0 opcode ASM_OTYPE_FIXED;
  add_len n;;
  op_set_content 0 (ASM_OP_BASE ||| ASM_OP_FIXED);;
  op_set_regset 0 ASM_REGSET_SREG;;
  op_set_baser 0 ASM_REG_DS;;
  ret_len.

Definition op_and_rmb_rb : handler := λ opcode len,
  add_len 1;;
  set_ptr_instr opcode;;
  set_instr ASM_AND;;
  set_type (ASM_TYPE_ARITH ||| ASM_TYPE_WRITEFLAG);;
  set_flagswritten (ASM_FLAG_CF ||| ASM_FLAG_ZF ||| ASM_FLAG_PF ||| ASM_FLAG_OF ||| ASM_FLAG_SF);;
  n ← asm_operand_fetch 0 (opcode + 1) ASM_OTYPE_ENCODEDBYTE;
  add_len n;;
  n ← asm_operand_fetch 1 (opcode + 1) ASM_OTYPE_GENERALBYTE;
  add_len n;;
  ret_len.

Definition op_and_rmv_rv : handler := λ opcode len,
  add_len 1;;
  set_ptr_instr opcode;;
  set_instr ASM_AND;;
  set_type (ASM_TYPE_ARITH ||| ASM_TYPE_WRITEFLAG);;
  set_flagswritten (ASM_FLAG_CF ||| ASM_FLAG_ZF ||| ASM_FLAG_PF ||| ASM_FLAG_OF ||| ASM_FLAG_SF);;
  n ← asm_operand_fetch 0 (opcode + 1) ASM_OTYPE_ENCODED;
  add_len n;;
  n ← asm_operand_fetch 1 (opcode + 1) ASM_OTYPE_GENERAL;
  add_len n;;
  ret_len.

Definition op_and_rb_rmb : handler := λ opcode len,
  add_len 1;;
  set_ptr_instr opcode;;
  set_instr ASM_AND;;
  set_type (ASM_TYPE_ARITH ||| ASM_TYPE_WRITEFLAG);;
  set_flagswritten (ASM_FLAG_CF ||| ASM_FLAG_ZF ||| ASM_FLAG_PF ||| ASM_FLAG_OF ||| ASM_FLAG_SF);;
  n ← asm_operand_fetch 0 (opcode + 1) ASM_OTYPE_GENERALBYTE;
  add_len n;;
  n ← asm_operand_fetch 1 (opcode + 1) ASM_OTYPE_ENCODEDBYTE;
  add_len n;;
  ret_len.

Definition op_and_rv_rmv : handler := λ opcode len,
  add_len 1;;
  set_ptr_instr opcode;;
  set_instr ASM_AND;;
  set_type (ASM_TYPE_ARITH ||| ASM_TYPE_WRITEFLAG);;
  set_flagswritten (ASM_FLAG_CF ||| ASM_FLAG_ZF ||| ASM_FLAG_PF ||| ASM_FLAG_OF ||| ASM_FLAG_SF);;
  n ← asm_operand_fetch 0 (opcode + 1) ASM_OTYPE_GENERAL;
  add_len n;;
  n ← asm_operand_fetch 1 (opcode + 1) ASM_OTYPE_ENCODED;
  add_len n;;
  ret_len.

Definition op_and_al_ib : handler := λ opcode len,
  add_len 1;;
  set_instr ASM_AND;;
  set_ptr_instr opcode;;
  set_type (ASM_TYPE_ARITH ||| ASM_TYPE_WRITEFLAG);;
  set_flagswritten (ASM_FLAG_CF ||| ASM_FLAG_ZF ||| ASM_FLAG_PF ||| ASM_FLAG_OF ||| ASM_FLAG_SF);;
  n ← asm_operand_fetch 0 (opcode + 1) ASM_OTYPE_FIXED;
  add_len n;;
  op_set_content 0 (ASM_OP_BASE ||| ASM_OP_FIXED);;
  op_set_regset 0 ASM_REGSET_R8;;
  op_set_ptr 0 (Some opcode);;
  op_set_len 0 0;;
  op_set_baser 0 ASM_REG_AL;;
  n ← asm_operand_fetch 1 (opcode + 1) ASM_OTYPE_IMMEDIATEBYTE;
  add_len n;;
  ret_len.

Definition op_and_eax_iv : handler := λ opcode len,
  set_instr ASM_AND;;
  add_len 1;;
  set_ptr_instr opcode;;
  set_type (ASM_TYPE_ARITH ||| ASM_TYPE_WRITEFLAG);;
  set_flagswritten (ASM_FLAG_CF ||| ASM_FLAG_ZF ||| ASM_FLAG_PF ||| ASM_FLAG_OF ||| ASM_FLAG_SF);;
  n ← asm_operand_fetch 0 opcode ASM_OTYPE_FIXED;
  add_len n;;
  op_set_content 0 (ASM_OP_BASE ||| ASM_OP_FIXED);;
  op_set_regset 0 ASM_REGSET_R32;;
  op_set_ptr 0 (Some opcode);;
  op_set_len 0 0;;
  op_set_baser 0 ASM_REG_EAX;;
  o ← asm_proc_is_protected;
  op_set_regset 0 (if o then ASM_REGSET_R32 else ASM_REGSET_R16);;
  n ← asm_operand_fetch 1 (opcode + 1) ASM_OTYPE_IMMEDIATE;
  add_len n;;
  ret_len.

Definition op_prefix_es : handler := λ opcode len,
  or_prefix ASM_PREFIX_ES;;
  (i ← get_ins;
   if bool_decide (ins_ptr_prefix i = None) then set_ptr_prefix opcode else skip);;
  add_len 1;;
  proc_fetch (opcode + 1) (u32 (len - 1)).

Definition op_daa : handler := λ opcode len,
  add_len 1;;
  set_ptr_instr opcode;;
  set_instr ASM_DAA;;
  set_type (ASM_TYPE_ARITH ||| ASM_TYPE_READFLAG ||| ASM_TYPE_WRITEFLAG);;
  set_flagsread (ASM_FLAG_AF ||| ASM_FLAG_CF);;
  set_flagswritten (ASM_FLAG_AF ||| ASM_FLAG_CF ||| ASM_FLAG_PF ||| ASM_FLAG_SF ||| ASM_FLAG_ZF);;
  ret_len.

Definition op_sub_rmb_rb : handler := λ opcode len,
  add_len 1;;
  set_instr ASM_SUB;;
  set_type (ASM_TYPE_ARITH ||| ASM_TYPE_WRITEFLAG);;
  set_flagswritten (ASM_FLAG_AF ||| ASM_FLAG_CF ||| ASM_FLAG_PF ||| ASM_FLAG_OF |||
    ASM_FLAG_SF ||| ASM_FLAG_ZF);;
  n ← asm_operand_fetch 0 (opcode + 1) ASM_OTYPE_ENCODEDBYTE;
  add_len n;;
  n ← asm_operand_fetch 1 (opcode + 1) ASM_OTYPE_GENERALBYTE;
  add_len n;;
  ret_len.

Definition op_sub_rmv_rv : handler := λ opcode len,
  add_len 1;;
  set_ptr_instr opcode;;
  set_instr ASM_SUB;;
  set_type (ASM_TYPE_ARITH ||| ASM_TYPE_WRITEFLAG);;
  set_flagswritten (ASM_FLAG_AF ||| ASM_FLAG_CF ||| ASM_FLAG_PF ||| ASM_FLAG_OF |||
    ASM_FLAG_SF ||| ASM_FLAG_ZF);;
  n ← asm_operand_fetch 0 (opcode + 1) ASM_OTYPE_ENCODED;
  add_len n;;
  n ← asm_operand_fetch 1 (opcode + 1) ASM_OTYPE_GENERAL;
  add_len n;;
  ret_len.

Definition op_sub_rb_rmb : handler := λ opcode len,
  add_len 1;;
  set_instr ASM_SUB;;
  set_ptr_instr opcode;;
  set_type (ASM_TYPE_ARITH ||| ASM_TYPE_WRITEFLAG);;
  set_flagswritten (ASM_FLAG_AF ||| ASM_FLAG_CF ||| ASM_FLAG_PF ||| ASM_FLAG_OF |||
    ASM_FLAG_SF ||| ASM_FLAG_ZF);;
  n ← asm_operand_fetch 0 (opcode + 1) ASM_OTYPE_GENERALBYTE;
  add_len n;;
  n ← asm_operand_fetch 1 (opcode + 1) ASM_OTYPE_ENCODEDBYTE;
  add_len n;;
  ret_len.

Definition op_sub_rv_rmv : handler := λ opcode len,
  add_len 1;;
  set_instr ASM_SUB;;
  set_ptr_instr opcode;;
  set_type (ASM_TYPE_ARITH ||| ASM_TYPE_WRITEFLAG);;
  set_flagswritten (ASM_FLAG_AF ||| ASM_FLAG_CF ||| ASM_FLAG_PF ||| ASM_FLAG_OF |||
    ASM_FLAG_SF ||| ASM_FLAG_ZF);;
  n ← asm_operand_fetch 0 (opcode + 1) ASM_OTYPE_GENERAL;
  add_len n;;
  n ← asm_operand_fetch 1 (opcode + 1) ASM_OTYPE_ENCODED;
  add_len n;;
  ret_len.

Definition op_sub_al_ib : handler := λ opcode len,
  add_len 1;;
  set_instr ASM_SUB;;
  set_ptr_instr opcode;;
  set_type (ASM_TYPE_ARITH ||| ASM_TYPE_WRITEFLAG);;
  set_flagswritten (ASM_FLAG_AF ||| ASM_FLAG_CF ||| ASM_FLAG_PF ||| ASM_FLAG_OF |||
    ASM_FLAG_SF ||| ASM_FLAG_ZF);;
  n ← asm_operand_fetch 0 opcode ASM_OTYPE_FIXED;
  add_len n;;
  op_set_content 0 (ASM_OP_BASE ||| ASM_OP_FIXED);;
  op_set_ptr 0 (Some opcode);;
  op_set_len 0 0;;
  op_set_regset 0 ASM_REGSET_R8;;
  op_set_baser 0 ASM_REG_AL;;
  n ← asm_operand_fetch 1 (opcode + 1) ASM_OTYPE_IMMEDIATEBYTE;
  add_len n;;
  ret_len.

Definition op_sub_eax_iv : handler := λ opcode len,
  set_instr ASM_SUB;;
  add_len 1;;
  set_ptr_instr opcode;;
  set_type (ASM_TYPE_ARITH ||| ASM_TYPE_WRITEFLAG);;
  set_flagswritten (ASM_FLAG_AF ||| ASM_FLAG_CF ||| ASM_FLAG_PF ||| ASM_FLAG_OF |||
    ASM_FLAG_SF ||| ASM_FLAG_ZF);;
  n ← asm_operand_fetch 0 opcode ASM_OTYPE_FIXED;
  add_len n;;
  op_set_content 0 (ASM_OP_BASE ||| ASM_OP_FIXED);;
  op_set_ptr 0 (Some opcode);;
  op_set_len 0 0;;
  op_set_regset 0 ASM_REGSET_R32;;
  op_set_baser 0 ASM_REG_EAX;;
  n ← asm_operand_fetch 1 opcode ASM_OTYPE_IMMEDIATE;
  add_len n;;
  ret_len.

Definition op_prefix_cs : handler := λ opcode len,
  or_prefix ASM_PREFIX_CS;;
  (i ← get_ins;
   if bool_decide (ins_ptr_prefix i = None) then set_ptr_prefix opcode else skip);;
  add_len 1;;
  proc_fetch (opcode + 1) (u32 (len - 1)).

Definition op_das : handler := λ opcode len,
  set_ptr_instr opcode;;
  add_len 1;;
  set_instr ASM_DAS;;
  set_type (ASM_TYPE_ARITH ||| ASM_TYPE_READFLAG ||| ASM_TYPE_WRITEFLAG);;
  set_flagsread (ASM_FLAG_AF ||| ASM_FLAG_CF);;
  set_flagswritten (ASM_FLAG_AF ||| ASM_FLAG_CF ||| ASM_FLAG_PF ||| ASM_FLAG_SF ||| ASM_FLAG_ZF);;
  ret_len.

Definition op_xor_rmb_rb : handler := λ opcode len,
  add_len 1;;
  set_ptr_instr opcode;;
  set_instr ASM_XOR;;
  set_type (ASM_TYPE_ARITH ||| ASM_TYPE_WRITEFLAG);;
  set_flagswritten (ASM_FLAG_CF ||| ASM_FLAG_OF ||| ASM_FLAG_PF ||| ASM_FLAG_ZF ||| ASM_FLAG_SF);;
  n ← asm_operand_fetch 0 (opcode + 1) ASM_OTYPE_ENCODEDBYTE;
  add_len n;;
  n ← asm_operand_fetch 1 (opcode + 1) ASM_OTYPE_GENERALBYTE;
  add_len n;;
  ret_len.

Definition op_xor_rmv_rv : handler := λ opcode len,
  add_len 1;;
  set_ptr_instr opcode;;
  set_instr ASM_XOR;;
  set_type (ASM_TYPE_ARITH ||| ASM_TYPE_WRITEFLAG);;
  set_flagswritten (ASM_FLAG_CF ||| ASM_FLAG_OF ||| ASM_FLAG_PF ||| ASM_FLAG_ZF ||| ASM_FLAG_SF);;
  n ← asm_operand_fetch 0 (opcode + 1) ASM_OTYPE_ENCODED;
  add_len n;;
  n ← asm_operand_fetch 1 (opcode + 1) ASM_OTYPE_GENERAL;
  add_len n;;
  ret_len.

Definition op_xor_rb_rmb : handler := λ opcode len,
  set_instr ASM_XOR;;
  add_len 1;;
  set_type (ASM_TYPE_ARITH ||| ASM_TYPE_WRITEFLAG);;
  set_flagswritten (ASM_FLAG_CF ||| ASM_FLAG_OF ||| ASM_FLAG_PF ||| ASM_FLAG_ZF ||| ASM_FLAG_SF);;
  n ← asm_operand_fetch 0 (opcode + 1) ASM_OTYPE_GENERALBYTE;
  add_len n;;
  n ← asm_operand_fetch 1 (opcode + 1) ASM_OTYPE_ENCODEDBYTE;
  add_len n;;
  ret_len.

Definition op_xor_rv_rmv : handler := λ opcode len,
  set_instr ASM_XOR;;
  set_ptr_instr opcode;;
  add_len 1;;
  set_type (ASM_TYPE_ARITH ||| ASM_TYPE_WRITEFLAG);;
  set_flagswritten (ASM_FLAG_CF ||| ASM_FLAG_OF ||| ASM_FLAG_PF ||| ASM_FLAG_ZF ||| ASM_FLAG_SF);;
  n ← asm_operand_fetch 0 (opcode + 1) ASM_OTYPE_GENERAL;
  add_len n;;
  n ← asm_operand_fetch 1 (opcode + 1) ASM_OTYPE_ENCODED;
  add_len n;;
  ret_len.

Definition op_xor_al_ib : handler := λ opcode len,
  set_instr ASM_XOR;;
  add_len 1;;
  set_ptr_instr opcode;;
  set_type (ASM_TYPE_ARITH ||| ASM_TYPE_WRITEFLAG);;
  set_flagswritten (ASM_FLAG_CF ||| ASM_FLAG_OF ||| ASM_FLAG_PF ||| ASM_FLAG_ZF ||| ASM_FLAG_SF);;
  n ← asm_operand_fetch 0 opcode ASM_OTYPE_FIXED;
  add_len n;;
  op_set_ptr 0 (Some opcode);;
  op_set_len 0 0;;
  op_set_baser 0 ASM_REG_AL;;
  op_set_regset 0 ASM_REGSET_R8;;
  n ← asm_operand_fetch 1 (opcode + 1) ASM_OTYPE_IMMEDIATEBYTE;
  add_len n;;
  ret_len.

Definition op_xor_eax_iv : handler := λ opcode len,
  set_instr ASM_XOR;;
  set_ptr_instr opcode;;
  add_len 1;;
  set_type (ASM_TYPE_ARITH ||| ASM_TYPE_WRITEFLAG);;
  set_flagswritten (ASM_FLAG_CF ||| ASM_FLAG_OF ||| ASM_FLAG_PF ||| ASM_FLAG_ZF ||| ASM_FLAG_SF);;
  n ← asm_operand_fetch 0 opcode ASM_OTYPE_FIXED;
  add_len n;;
  op_set_ptr 0 (Some opcode);;
  op_set_len 0 0;;
  op_set_baser 0 ASM_REG_EAX;;
  o ← asm_proc_is_protected;
  op_set_regset 0 (if o then ASM_REGSET_R32 else ASM_REGSET_R16);;
  n ← asm_operand_fetch 1 (opcode + 1) ASM_OTYPE_IMMEDIATE;
  add_len n;;
  ret_len.

Definition op_prefix_ss : handler := λ opcode len,
  or_prefix ASM_PREFIX_SS;;
  (i ← get_ins;
   if bool_decide (ins_ptr_prefix i = None) then set_ptr_prefix opcode else skip);;
  proc_fetch (opcode + 1) (u32 (len - 1)).

Definition op_aaa : handler := λ opcode len,
  set_ptr_instr opcode;;
  add_len 1;;
  set_instr ASM_AAA;;
  set_type (ASM_TYPE_WRITEFLAG ||| ASM_TYPE_READFLAG ||| ASM_TYPE_ARITH);;
  set_flagswritten (ASM_FLAG_AF ||| ASM_FLAG_CF);;
  set_flagsread ASM_FLAG_AF;;
  ret_len.

Definition op_cmp_rmb_rb : handler := λ opcode len,
  set_ptr_instr opcode;;
  add_len 1;;
  set_instr ASM_CMP;;
  set_type (ASM_TYPE_COMPARISON ||| ASM_TYPE_WRITEFLAG);;
  set_flagswritten (ASM_FLAG_AF ||| ASM_FLAG_CF ||| ASM_FLAG_PF ||| ASM_FLAG_OF |||
    ASM_FLAG_SF ||| ASM_FLAG_ZF);;
  n ← asm_operand_fetch 0 (opcode + 1) ASM_OTYPE_ENCODEDBYTE;
  add_len n;;
  n ← asm_operand_fetch 1 (opcode + 1) ASM_OTYPE_GENERALBYTE;
  add_len n;;
  ret_len.

Definition op_cmp_rmv_rv : handler := λ opcode len,
  add_len 1;;
  set_ptr_instr opcode;;
  set_instr ASM_CMP;;
  set_type (ASM_TYPE_COMPARISON ||| ASM_TYPE_WRITEFLAG);;
  set_flagswritten (ASM_FLAG_AF ||| ASM_FLAG_CF ||| ASM_FLAG_PF ||| ASM_FLAG_OF |||
    ASM_FLAG_SF ||| ASM_FLAG_ZF);;
  n ← asm_operand_fetch 0 (opcode + 1) ASM_OTYPE_ENCODED;
  add_len n;;
  n ← asm_operand_fetch 1 (opcode + 1) ASM_OTYPE_GENERAL;
  add_len n;;
  ret_len.

Definition op_cmp_rb_rmb : handler := λ opcode len,
  add_len 1;;
  set_ptr_instr opcode;;
  set_instr ASM_CMP;;
  set_type (ASM_TYPE_COMPARISON ||| ASM_TYPE_WRITEFLAG);;
  set_flagswritten (ASM_FLAG_AF ||| ASM_FLAG_CF ||| ASM_FLAG_PF ||| ASM_FLAG_OF |||
    ASM_FLAG_SF ||| ASM_FLAG_ZF);;
  n ← asm_operand_fetch 0 (opcode + 1) ASM_OTYPE_GENERALBYTE;
  add_len n;;
  n ← asm_operand_fetch 1 (opcode + 1) ASM_OTYPE_ENCODEDBYTE;
  add_len n;;
  ret_len.

Definition op_cmp_rv_rmv : handler := λ opcode len,
  add_len 1;;
  set_ptr_instr opcode;;
  set_instr ASM_CMP;;
  set_type (ASM_TYPE_COMPARISON ||| ASM_TYPE_WRITEFLAG);;
  set_flagswritten (ASM_FLAG_AF ||| ASM_FLAG_CF ||| ASM_FLAG_PF ||| ASM_FLAG_OF |||
    ASM_FLAG_SF ||| ASM_FLAG_ZF);;
  n ← asm_operand_fetch 0 (opcode + 1) ASM_OTYPE_GENERAL;
  add_len n;;
  n ← asm_operand_fetch 1 (opcode + 1) ASM_OTYPE_ENCODED;
  add_len n;;
  ret_len.

Definition op_cmp_al_ib : handler := λ opcode len,
  set_instr ASM_CMP;;
  add_len 1;;
  set_type (ASM_TYPE_COMPARISON ||| ASM_TYPE_WRITEFLAG);;
  set_flagswritten (ASM_FLAG_CF ||| ASM_FLAG_PF ||| ASM_FLAG_AF ||| ASM_FLAG_SF |||
    ASM_FLAG_OF ||| ASM_FLAG_ZF);;
  n ← asm_operand_fetch 0 opcode ASM_OTYPE_FIXED;
  add_len n;;
  op_set_content 0 (ASM_OP_BASE ||| ASM_OP_FIXED);;
  op_set_regset 0 ASM_REGSET_R8;;
  op_set_ptr 0 (Some opcode);;
  op_set_len 0 0;;
  op_set_baser 0 ASM_REG_AL;;
  n ← asm_operand_fetch 1 (opcode + 1) ASM_OTYPE_IMMEDIATEBYTE;
  add_len n;;
  ret_len.

Definition op_cmp_eax_iv : handler := λ opcode len,
  set_instr ASM_CMP;;
  set_ptr_instr opcode;;
  add_len 1;;
  set_type (ASM_TYPE_COMPARISON ||| ASM_TYPE_WRITEFLAG);;
  set_flagswritten (ASM_FLAG_AF ||| ASM_FLAG_CF ||| ASM_FLAG_PF ||| ASM_FLAG_OF |||
    ASM_FLAG_SF ||| ASM_FLAG_ZF);;
  n ← asm_operand_fetch 0 opcode ASM_OTYPE_FIXED;
  add_len n;;
  op_set_content 0 (ASM_OP_FIXED ||| ASM_OP_BASE);;
  op_set_baser 0 ASM_REG_EAX;;
  o ← asm_proc_opsize;
  op_set_regset 0 (if o then ASM_REGSET_R16 else ASM_REGSET_R32);;
  n ← asm_operand_fetch 1 (opcode + 1) ASM_OTYPE_IMMEDIATE;
  add_len n;;
  ret_len.

Definition op_prefix_ds : handler := λ opcode len,
  (i ← get_ins;
   if bool_decide (ins_ptr_prefix i = None) then set_ptr_prefix opcode else skip);;
  add_len 1;;
  or_prefix ASM_PREFIX_DS;;
  proc_fetch (opcode + 1) (u32 (len - 1)).

Definition op_aas : handler := λ opcode len,
  add_len 1;;
  set_ptr_instr opcode;;
  set_instr ASM_AAS;;
  set_type (ASM_TYPE_WRITEFLAG ||| ASM_TYPE_READFLAG ||| ASM_TYPE_ARITH);;
  set_flagswritten (ASM_FLAG_AF ||| ASM_FLAG_CF);;
  set_flagsread ASM_FLAG_AF;;
  ret_len.
