(* ===== verification/Ia32Move.v ===== *)
(** The IA-32 handlers of arch/ia32/handlers for registers, stack, short branches and moves, the opcodes 0x40 to 0x8f. Each
    definition translates the function of that name of the file of that name. *)

From S2P Require Import Prelude Ia32 Ia32Operand.

Definition op_inc_reg : handler := λ opcode len,
  let modrm := opcode in
  add_len 1;;
  set_instr ASM_INC;;
  set_ptr_instr opcode;;
  set_type (ASM_TYPE_ARITH ||| ASM_TYPE_INCDEC ||| ASM_TYPE_WRITEFLAG);;
  set_flagswritten (ASM_FLAG_AF ||| ASM_FLAG_OF ||| ASM_FLAG_PF ||| ASM_FLAG_SF ||| ASM_FLAG_ZF);;
  n ← asm_operand_fetch 0 opcode ASM_OTYPE_OPMOD;
  add_len n;;
  ret_len.

Definition op_dec_reg : handler := λ opcode len,
  let modrm := opcode in
  set_ptr_instr opcode;;
  set_instr ASM_DEC;;
  add_len 1;;
  set_type (ASM_TYPE_ARITH ||| ASM_TYPE_INCDEC ||| ASM_TYPE_WRITEFLAG);;
  set_flagswritten (ASM_FLAG_AF ||| ASM_FLAG_OF ||| ASM_FLAG_PF ||| ASM_FLAG_SF ||| ASM_FLAG_ZF);;
  n ← asm_operand_fetch 0 opcode ASM_OTYPE_OPMOD;
  add_len n;;
  ret_len.

Definition op_push_reg : handler := λ opcode len,
  let modrm := opcode in
  add_len 1;;
  set_ptr_instr opcode;;
  set_instr ASM_PUSH;;
  set_type (ASM_TYPE_TOUCHSP ||| ASM_TYPE_STORE);;
  set_spdiff (-4);;
  n ← asm_operand_fetch 0 opcode ASM_OTYPE_OPMOD;
  add_len n;;
  (o0 ← get_op 0;
   if op_baser o0 =? ASM_REG_EBP then or_type ASM_TYPE_PROLOG else skip);;
  ret_len.

Definition op_pop_reg : handler := λ opcode len,
  set_ptr_instr opcode;;
  add_len 1;;
  set_instr ASM_POP;;
  set_type (ASM_TYPE_TOUCHSP ||| ASM_TYPE_ASSIGN ||| ASM_TYPE_LOAD);;
  set_spdiff 4;;
  n ← asm_operand_fetch 0 opcode ASM_OTYPE_OPMOD;
  add_len n;;
  (o0 ← get_op 0;
   if op_baser o0 =? ASM_REG_EBP then or_type ASM_TYPE_EPILOG else skip);;
  ret_len.

Definition op_pusha : handler := λ opcode len,
  add_len 1;;
  set_ptr_instr opcode;;
  set_instr ASM_PUSHA;;
  set_type (ASM_TYPE_TOUCHSP ||| ASM_TYPE_STORE);;
  set_spdiff (-4 * 8);;
  ret_len.

Definition op_popa : handler := λ opcode len,
  add_len 1;;
  set_ptr_instr opcode;;
  set_instr ASM_POPA;;
  set_spdiff (8 * 4);;
  set_type (ASM_TYPE_TOUCHSP ||| ASM_TYPE_LOAD);;
  ret_len.

Definition op_bound_gv_ma : handler := λ opcode len,
  set_instr ASM_BOUND;;
  add_len 1;;
  set_ptr_instr opcode;;
  n ← asm_operand_fetch 0 (opcode + 1) ASM_OTYPE_ENCODED;
  add_len n;;
  n ← asm_operand_fetch 1 (opcode + 1) ASM_OTYPE_MEMORY;
  add_len n;;
  ret_len.

Definition op_arpl_ew_rw : handler := λ opcode len,
  set_ptr_instr opcode;;
  set_instr ASM_ARPL;;
  add_len 1;;
  ret_len.

Definition op_prefix_fs : handler := λ opcode len,
  or_prefix ASM_PREFIX_FS;;
  (i ← get_ins;
   if bool_decide (ins_ptr_prefix i = None) then set_ptr_prefix opcode else skip);;
  add_len 1;;
  proc_fetch (opcode + 1) (u32 (len - 1)).

Definition op_prefix_gs : handler := λ opcode len,
  (i ← get_ins;
   if bool_decide (ins_ptr_prefix i = None) then set_ptr_prefix opcode else skip);;
  or_prefix ASM_PREFIX_GS;;
  add_len 1;;
  proc_fetch (opcode + 1) (u32 (len - 1)).

Definition op_opsize : handler := λ opcode len,
  (i ← get_ins;
   if bool_decide (ins_ptr_prefix i = None) then set_ptr_prefix opcode else skip);;
  proc_upd (λ p, set_opsize (if opsize p =? 0 then 1 else 0) p);;
  add_len 1;;
  or_prefix ASM_PREFIX_OPSIZE;;
  len ← proc_fetch (opcode + 1) (u32 (len - 1));
  proc_upd (λ p, set_opsize (if opsize p =? 0 then 1 else 0) p);;
  ret len.

Definition op_addsize : handler := λ opcode len,
  (i ← get_ins;
   if bool_decide (ins_ptr_prefix i = None) then set_ptr_prefix opcode else skip);;
  or_prefix ASM_PREFIX_ADDSIZE;;
  proc_upd (λ p, set_addsize (if addsize p =? 0 then 1 else 0) p);;
  len ← proc_fetch (opcode + 1) (u32 (len - 1));
  proc_upd (λ p, set_addsize (if addsize p =? 0 then 1 else 0) p);;
  ret len.

Definition op_push_iv : handler := λ opcode len,
  set_instr ASM_PUSH;;
  add_len 1;;
  set_ptr_instr opcode;;
  set_type (ASM_TYPE_TOUCHSP ||| ASM_TYPE_STORE);;
  set_spdiff (-4);;
  n ← asm_operand_fetch 0 (opcode + 1) ASM_OTYPE_IMMEDIATE;
  add_len n;;
  ret_len.

Definition op_imul_rv_rmv_iv : handler := λ opcode len,
  set_instr ASM_IMUL;;
  set_type (ASM_TYPE_ARITH ||| ASM_TYPE_WRITEFLAG);;
  set_ptr_instr opcode;;
  add_len 1;;
  set_flagswritten (ASM_FLAG_OF ||| ASM_FLAG_CF);;
  n ← asm_operand_fetch 0 (opcode + 1) ASM_OTYPE_GENERAL;
  add_len n;;
  olen ← asm_operand_fetch 1 (opcode + 1) ASM_OTYPE_ENCODED;
  add_len olen;;
  n ← asm_operand_fetch 2 (opcode + 1 + olen) ASM_OTYPE_IMMEDIATE;
  add_len n;;
  ret_len.

Definition op_push_ib : handler := λ opcode len,
  set_instr ASM_PUSH;;
  add_len 1;;
  set_ptr_instr opcode;;
  set_type (ASM_TYPE_TOUCHSP ||| ASM_TYPE_STORE);;
  set_spdiff (-4);;
  n ← asm_operand_fetch 0 (opcode + 1) ASM_OTYPE_IMMEDIATEBYTE;
  add_len n;;
  ret_len.

Definition op_imul_gv_ev_ib : handler := λ opcode len,
  add_len 1;;
  set_ptr_instr opcode;;
  set_instr ASM_IMUL;;
  set_type (ASM_TYPE_ARITH ||| ASM_TYPE_WRITEFLAG);;
  set_flagswritten (ASM_FLAG_OF ||| ASM_FLAG_CF);;
  n ← asm_operand_fetch 0 (opcode + 1) ASM_OTYPE_GENERAL;
  add_len n;;
  olen ← asm_operand_fetch 1 (opcode + 1) ASM_OTYPE_ENCODED;
  add_len olen;;
  n ← asm_operand_fetch 2 (opcode + 1 + olen) ASM_OTYPE_IMMEDIATEBYTE;
  add_len n;;
  ret_len.

Definition op_insb : handler := λ opcode len,
  add_len 1;;
  set_instr ASM_INSB;;
  set_ptr_instr opcode;;
  n ← asm_operand_fetch 0 opcode ASM_OTYPE_YDEST;
  add_len n;;
  n ← asm_operand_fetch 1 opcode ASM_OTYPE_FIXED;
  add_len n;;
  op_set_content 1 (ASM_OP_BASE ||| ASM_OP_REFERENCE);;
  op_set_regset 1 ASM_REGSET_R16;;
  op_set_baser 1 ASM_REG_EDX;;
  ret_len.

Definition op_insw : handler := λ opcode len,
  add_len 1;;
  set_ptr_instr opcode;;
  (o ← asm_proc_opsize;
   if negb o then set_instr ASM_INSW else set_instr ASM_INSD);;
  set_ptr_instr opcode;;
  n ← asm_operand_fetch 0 opcode ASM_OTYPE_YDEST;
  add_len n;;
  n ← asm_operand_fetch 1 opcode ASM_OTYPE_FIXED;
  add_len n;;
  op_set_content 1 (ASM_OP_BASE ||| ASM_OP_REFERENCE);;
  op_set_regset 1 ASM_REGSET_R16;;
  op_set_baser 1 ASM_REG_DX;;
  ret_len.

Definition op_outsb : handler := λ opcode len,
  add_len 1;;
  set_instr ASM_OUTSB;;
  set_ptr_instr opcode;;
  n ← asm_operand_fetch 0 opcode ASM_OTYPE_FIXED;
  add_len n;;
  op_set_content 0 (ASM_OP_BASE ||| ASM_OP_REFERENCE);;
  op_set_regset 0 ASM_REGSET_R16;;
  op_set_baser 0 ASM_REG_EDX;;
  n ← asm_operand_fetch 1 opcode ASM_OTYPE_XSRC;
  add_len n;;
  ret_len.

Definition op_outsw : handler := λ opcode len,
  set_ptr_instr opcode;;
  add_len 1;;
  (o ← asm_proc_opsize;
   if negb o then set_instr ASM_OUTSW else set_instr ASM_OUTSD);;
  n ← asm_operand_fetch 0 opcode ASM_OTYPE_FIXED;
  add_len n;;
  op_set_content 0 (ASM_OP_BASE ||| ASM_OP_REFERENCE);;
  op_set_regset 0 ASM_REGSET_R16;;
  op_set_baser 0 ASM_REG_DX;;
  n ← asm_operand_fetch 1 opcode ASM_OTYPE_XSRC;
  add_len n;;
  ret_len.

Definition op_jo : handler := λ opcode len,
  add_len 1;;
  set_ptr_instr opcode;;
  set_type (ASM_TYPE_BRANCH ||| ASM_TYPE_CONDCONTROL);;
  set_instr ASM_BRANCH_OVERFLOW;;
  n ← asm_operand_fetch 0 (opcode + 1) ASM_OTYPE_SHORTJUMP;
  add_len n;;
  ret_len.

Definition op_jno : handler := λ opcode len,
  add_len 1;;
  set_type (ASM_TYPE_BRANCH ||| ASM_TYPE_CONDCONTROL);;
  set_instr ASM_BRANCH_NOT_OVERFLOW;;
  set_ptr_instr opcode;;
  n ← asm_operand_fetch 0 (opcode + 1) ASM_OTYPE_JUMP;
  add_len n;;
  ret_len.

Definition op_jb : handler := λ opcode len,
  add_len 1;;
  set_type (ASM_TYPE_BRANCH ||| ASM_TYPE_CONDCONTROL);;
  set_instr ASM_BRANCH_U_LESS;;
  set_ptr_instr opcode;;
  n ← asm_operand_fetch 0 (opcode + 1) ASM_OTYPE_SHORTJUMP;
  add_len n;;
  ret_len.

Definition op_jae : handler := λ opcode len,
  add_len 1;;
  set_type (ASM_TYPE_BRANCH ||| ASM_TYPE_CONDCONTROL);;
  set_instr ASM_BRANCH_U_GREATER_EQUAL;;
  set_ptr_instr opcode;;
  n ← asm_operand_fetch 0 (opcode + 1) ASM_OTYPE_SHORTJUMP;
  add_len n;;
  ret_len.

Definition op_je : handler := λ opcode len,
  add_len 1;;
  set_instr ASM_BRANCH_EQUAL;;
  set_type (ASM_TYPE_BRANCH ||| ASM_TYPE_CONDCONTROL);;
  set_ptr_instr opcode;;
  n ← asm_operand_fetch 0 (opcode + 1) ASM_OTYPE_SHORTJUMP;
  add_len n;;
  ret_len.

Definition op_jne : handler := λ opcode len,
  add_len 1;;
  set_ptr_instr opcode;;
  set_type (ASM_TYPE_BRANCH ||| ASM_TYPE_CONDCONTROL);;
  set_instr ASM_BRANCH_NOT_EQUAL;;
  n ← asm_operand_fetch 0 (opcode + 1) ASM_OTYPE_SHORTJUMP;
  add_len n;;
  ret_len.

Definition op_jbe : handler := λ opcode len,
  add_len 1;;
  set_ptr_instr opcode;;
  set_type (ASM_TYPE_BRANCH ||| ASM_TYPE_CONDCONTROL);;
  set_instr ASM_BRANCH_U_LESS_EQUAL;;
  n ← asm_operand_fetch 0 (opcode + 1) ASM_OTYPE_SHORTJUMP;
  add_len n;;
  ret_len.

Definition op_ja : handler := λ opcode len,
  add_len 1;;
  set_type (ASM_TYPE_BRANCH ||| ASM_TYPE_CONDCONTROL);;
  set_instr ASM_BRANCH_U_GREATER;;
  set_ptr_instr opcode;;
  n ← asm_operand_fetch 0 (opcode + 1) ASM_OTYPE_SHORTJUMP;
  add_len n;;
  ret_len.

Definition op_js : handler := λ opcode len,
  set_ptr_instr opcode;;
  add_len 1;;
  set_type (ASM_TYPE_BRANCH ||| ASM_TYPE_CONDCONTROL);;
  set_instr ASM_BRANCH_SIGNED;;
  n ← asm_operand_fetch 0 (opcode + 1) ASM_OTYPE_SHORTJUMP;
  add_len n;;
  ret_len.

Definition op_jns : handler := λ opcode len,
  set_ptr_instr opcode;;
  add_len 1;;
  set_type (ASM_TYPE_BRANCH ||| ASM_TYPE_CONDCONTROL);;
  set_instr ASM_BRANCH_NOT_SIGNED;;
  n ← asm_operand_fetch 0 (opcode + 1) ASM_OTYPE_SHORTJUMP;
  add_len n;;
  ret_len.

Definition op_jp : handler := λ opcode len,
  set_ptr_instr opcode;;
  add_len 1;;
  set_type (ASM_TYPE_BRANCH ||| ASM_TYPE_CONDCONTROL);;
  set_instr ASM_BRANCH_PARITY;;
  n ← asm_operand_fetch 0 (opcode + 1) ASM_OTYPE_SHORTJUMP;
  add_len n;;
  ret_len.

Definition op_jnp : handler := λ opcode len,
  add_len 1;;
  set_ptr_instr opcode;;
  set_type (ASM_TYPE_BRANCH ||| ASM_TYPE_CONDCONTROL);;
  set_instr ASM_BRANCH_NOT_PARITY;;
  n ← asm_operand_fetch 0 (opcode + 1) ASM_OTYPE_SHORTJUMP;
  add_len n;;
  ret_len.

Definition op_jl : handler := λ opcode len,
  set_ptr_instr opcode;;
  add_len 1;;
  set_type (ASM_TYPE_BRANCH ||| ASM_TYPE_CONDCONTROL);;
  set_instr ASM_BRANCH_S_LESS;;
  n ← asm_operand_fetch 0 (opcode + 1) ASM_OTYPE_SHORTJUMP;
  add_len n;;
  ret_len.

Definition op_jge : handler := λ opcode len,
  set_ptr_instr opcode;;
  add_len 1;;
  set_type (ASM_TYPE_BRANCH ||| ASM_TYPE_CONDCONTROL);;
  set_instr ASM_BRANCH_S_GREATER_EQUAL;;
  n ← asm_operand_fetch 0 (opcode + 1) ASM_OTYPE_SHORTJUMP;
  add_len n;;
  ret_len.

Definition op_jle : handler := λ opcode len,
  add_len 1;;
  set_ptr_instr opcode;;
  set_type (ASM_TYPE_BRANCH ||| ASM_TYPE_CONDCONTROL);;
  set_instr ASM_BRANCH_S_LESS_EQUAL;;
  n ← asm_operand_fetch 0 (opcode + 1) ASM_OTYPE_SHORTJUMP;
  add_len n;;
  ret_len.

Definition op_jg : handler := λ opcode len,
  set_ptr_instr opcode;;
  add_len 1;;
  set_type (ASM_TYPE_BRANCH ||| ASM_TYPE_CONDCONTROL);;
  set_instr ASM_BRANCH_S_GREATER;;
  n ← asm_operand_fetch 0 (opcode + 1) ASM_OTYPE_SHORTJUMP;
  add_len n;;
  ret_len.

Definition op_immed_rmb_ib : handler := λ opcode len,
  set_ptr_instr opcode;;
  let modrm := opcode + 1 in
  add_len 1;;
  set_type (ASM_TYPE_ARITH ||| ASM_TYPE_WRITEFLAG);;
  set_flagswritten (ASM_FLAG_AF ||| ASM_FLAG_CF ||| ASM_FLAG_OF ||| ASM_FLAG_PF |||
    ASM_FLAG_SF ||| ASM_FLAG_ZF);;
  olen ← asm_operand_fetch 0 (opcode + 1) ASM_OTYPE_ENCODEDBYTE;
  add_len olen;;
  n ← asm_operand_fetch 1 (opcode + 1 + olen) ASM_OTYPE_IMMEDIATEBYTE;
  add_len n;;
  (r ← modrm_r modrm;
   switch r
     [(0, set_instr ASM_ADD);
      (1,
       set_instr ASM_ORB;;
       xor_flagswritten ASM_FLAG_AF;;
       op_and_imm 1 255);
      (2,
       set_instr ASM_ADC;;
       or_type ASM_TYPE_READFLAG;;
       set_flagsread ASM_FLAG_CF);
      (3,
       set_instr ASM_SBB;;
       or_type ASM_TYPE_READFLAG;;
       set_flagsread ASM_FLAG_CF);
      (4,
       set_instr ASM_AND;;
       xor_flagswritten ASM_FLAG_AF;;
       op_and_imm 1 255);
      (5,
       set_instr ASM_SUB;;
       (o0 ← get_op 0;
        if (op_content o0 =? ASM_OP_BASE) && (op_baser o0 =? ASM_REG_ESP) then
          or_type ASM_TYPE_EPILOG
        else skip));
      (6,
       set_instr ASM_XOR;;
       xor_flagswritten ASM_FLAG_AF);
      (7,
       set_instr ASM_CMP;;
       set_type (ASM_TYPE_COMPARISON ||| ASM_TYPE_WRITEFLAG);;
       op_and_imm 1 255)]
     skip);;
  ret_len.

Definition op_immed_rmv_iv : handler := λ opcode len,
  set_ptr_instr opcode;;
  let modrm := opcode + 1 in
  add_len 1;;
  set_type (ASM_TYPE_ARITH ||| ASM_TYPE_WRITEFLAG);;
  set_flagswritten (ASM_FLAG_AF ||| ASM_FLAG_CF ||| ASM_FLAG_OF ||| ASM_FLAG_PF |||
    ASM_FLAG_SF ||| ASM_FLAG_ZF);;
  (r ← modrm_r modrm;
   switch r
     [(0, set_instr ASM_ADD);
      (1,
       set_instr ASM_OR;;
       xor_flagswritten ASM_FLAG_AF);
      (2,
       set_instr ASM_ADC;;
       or_type ASM_TYPE_READFLAG;;
       set_flagsread ASM_FLAG_CF);
      (3,
       set_instr ASM_SBB;;
       or_type ASM_TYPE_READFLAG;;
       set_flagsread ASM_FLAG_CF);
      (4,
       set_instr ASM_AND;;
       xor_flagswritten ASM_FLAG_AF);
      (5,
       set_instr ASM_SUB;;
       (o0 ← get_op 0;
        if (op_content o0 =? ASM_OP_BASE) && (op_baser o0 =? ASM_REG_ESP) then
          or_type ASM_TYPE_EPILOG
        else skip));
      (6,
       set_instr ASM_XOR;;
       xor_flagswritten ASM_FLAG_AF);
      (7,
       set_instr ASM_CMP;;
       set_type (ASM_TYPE_COMPARISON ||| ASM_TYPE_WRITEFLAG))]
     skip);;
  olen ← asm_operand_fetch 0 (opcode + 1) ASM_OTYPE_ENCODED;
  add_len olen;;
  n ← asm_operand_fetch 1 (opcode + 1 + olen) ASM_OTYPE_IMMEDIATE;
  add_len n;;
  ret_len.

Definition op_immed_rmv_ib : handler := λ opcode len,
  let modrm := opcode + 1 in
  set_ptr_instr opcode;;
  add_len 1;;
  set_type (ASM_TYPE_ARITH ||| ASM_TYPE_WRITEFLAG);;
  set_flagswritten (ASM_FLAG_AF ||| ASM_FLAG_CF ||| ASM_FLAG_OF ||| ASM_FLAG_PF |||
    ASM_FLAG_SF ||| ASM_FLAG_ZF);;
  (r ← modrm_r modrm;
   switch r
     [(0, set_instr ASM_ADD);
      (1,
       set_instr ASM_OR;;
       xor_flagswritten ASM_FLAG_AF);
      (2,
       set_instr ASM_ADC;;
       or_type ASM_TYPE_READFLAG;;
       set_flagsread ASM_FLAG_CF);
      (3,
       set_instr ASM_SBB;;
       or_type ASM_TYPE_READFLAG;;
       set_flagsread ASM_FLAG_CF);
      (4,
       set_instr ASM_AND;;
       xor_flagswritten ASM_FLAG_AF);
      (5,
       set_instr ASM_SUB;;
       (o0 ← get_op 0;
        if (op_content o0 =? ASM_OP_BASE) && (op_baser o0 =? ASM_REG_ESP) then
          or_type ASM_TYPE_EPILOG
        else skip));
      (6,
       set_instr ASM_XOR;;
       xor_flagswritten ASM_FLAG_AF);
      (7,
       set_instr ASM_CMP;;
       set_type (ASM_TYPE_COMPARISON ||| ASM_TYPE_WRITEFLAG))]
     skip);;
  olen ← asm_operand_fetch 0 (opcode + 1) ASM_OTYPE_ENCODED;
  add_len olen;;
  n ← asm_operand_fetch 1 (opcode + 1 + olen) ASM_OTYPE_IMMEDIATEBYTE;
  add_len n;;
  ret_len.

Definition op_test_rmb_rb : handler := λ opcode len,
  add_len 1;;
  set_instr ASM_TEST;;
  set_ptr_instr opcode;;
  set_type (ASM_TYPE_COMPARISON ||| ASM_TYPE_WRITEFLAG);;
  set_flagswritten (ASM_FLAG_OF ||| ASM_FLAG_CF ||| ASM_FLAG_PF ||| ASM_FLAG_SF ||| ASM_FLAG_ZF);;
  n ← asm_operand_fetch 0 (opcode + 1) ASM_OTYPE_ENCODEDBYTE;
  add_len n;;
  n ← asm_operand_fetch 1 (opcode + 1) ASM_OTYPE_GENERALBYTE;
  add_len n;;
  ret_len.

Definition op_test_rmv_rv : handler := λ opcode len,
  add_len 1;;
  set_instr ASM_TEST;;
  set_ptr_instr opcode;;
  set_type (ASM_TYPE_COMPARISON ||| ASM_TYPE_WRITEFLAG);;
  set_flagswritten (ASM_FLAG_OF ||| ASM_FLAG_CF ||| ASM_FLAG_PF ||| ASM_FLAG_SF ||| ASM_FLAG_ZF);;
  n ← asm_operand_fetch 0 (opcode + 1) ASM_OTYPE_ENCODED;
  add_len n;;
  n ← asm_operand_fetch 1 (opcode + 1) ASM_OTYPE_GENERAL;
  add_len n;;
  ret_len.

Definition op_xchg_rmb_rb : handler := λ opcode len,
  add_len 1;;
  set_ptr_instr opcode;;
  set_instr ASM_XCHG;;
  set_type (ASM_TYPE_LOAD ||| ASM_TYPE_STORE);;
  n ← asm_operand_fetch 0 (opcode + 1) ASM_OTYPE_ENCODEDBYTE;
  add_len n;;
  n ← asm_operand_fetch 1 (opcode + 1) ASM_OTYPE_GENERALBYTE;
  add_len n;;
  ret_len.

Definition op_xchg_rmv_rv : handler := λ opcode len,
  add_len 1;;
  set_ptr_instr opcode;;
  set_instr ASM_XCHG;;
  set_type (ASM_TYPE_LOAD ||| ASM_TYPE_STORE);;
  n ← asm_operand_fetch 0 (opcode + 1) ASM_OTYPE_ENCODED;
  add_len n;;
  n ← asm_operand_fetch 1 (opcode + 1) ASM_OTYPE_GENERAL;
  add_len n;;
  ret_len.

Definition op_mov_rmb_rb : handler := λ opcode len,
  add_len 1;;
  set_ptr_instr opcode;;
  set_type ASM_TYPE_ASSIGN;;
  set_instr ASM_MOV;;
  n ← asm_operand_fetch 0 (opcode + 1) ASM_OTYPE_ENCODEDBYTE;
  add_len n;;
  n ← asm_operand_fetch 1 (opcode + 1) ASM_OTYPE_GENERALBYTE;
  add_len n;;
  ret_len.

Definition op_mov_rmv_rv : handler := λ opcode len,
  set_ptr_instr opcode;;
  set_type ASM_TYPE_ASSIGN;;
  add_len 1;;
  set_instr ASM_MOV;;
  n ← asm_operand_fetch 0 (opcode + 1) ASM_OTYPE_ENCODED;
  add_len n;;
  n ← asm_operand_fetch 1 (opcode + 1) ASM_OTYPE_GENERAL;
  add_len n;;
  (o0 ← get_op 0;
   o1 ← get_op 1;
   if (op_content o0 =? ASM_OP_BASE) && (op_baser o0 =? ASM_REG_EBP) && (op_baser o1 =? ASM_REG_ESP)
     then
     or_type ASM_TYPE_PROLOG
   else
     (o0 ← get_op 0;
      o1 ← get_op 1;
      if (op_content o0 =? ASM_OP_BASE) && (op_baser o0 =? ASM_REG_ESP) && (op_baser o1 =? ASM_REG_EBP)
        then
        or_type ASM_TYPE_EPILOG
      else skip));;
  ret_len.

Definition op_mov_rb_rmb : handler := λ opcode len,
  add_len 1;;
  set_type ASM_TYPE_ASSIGN;;
  set_instr ASM_MOV;;
  set_ptr_instr opcode;;
  n ← asm_operand_fetch 0 (opcode + 1) ASM_OTYPE_GENERALBYTE;
  add_len n;;
  n ← asm_operand_fetch 1 (opcode + 1) ASM_OTYPE_ENCODEDBYTE;
  add_len n;;
  ret_len.

Definition op_mov_rv_rmv : handler := λ opcode len,
  set_ptr_instr opcode;;
  add_len 1;;
  set_type ASM_TYPE_ASSIGN;;
  set_instr ASM_MOV;;
  n ← asm_operand_fetch 0 (opcode + 1) ASM_OTYPE_GENERAL;
  add_len n;;
  n ← asm_operand_fetch 1 (opcode + 1) ASM_OTYPE_ENCODED;
  add_len n;;
  (o1 ← get_op 1;
   o0 ← get_op 0;
   if (op_content o1 =? ASM_OP_BASE) && (op_baser o0 =? ASM_REG_EBP) && (op_baser o1 =? ASM_REG_ESP)
     then
     or_type ASM_TYPE_PROLOG
   else
     (o1 ← get_op 1;
      o0 ← get_op 0;
      if (op_content o1 =? ASM_OP_BASE) && (op_baser o0 =? ASM_REG_ESP) && (op_baser o1 =? ASM_REG_EBP)
        then
        or_type ASM_TYPE_EPILOG
      else skip));;
  ret_len.

Definition op_mov_rm_segr : handler := λ opcode len,
  let modrm := opcode + 1 in
  set_type ASM_TYPE_ASSIGN;;
  set_ptr_instr opcode;;
  add_len 1;;
  set_instr ASM_MOV;;
  n ← asm_operand_fetch 0 (opcode + 1) ASM_OTYPE_ENCODED;
  add_len n;;
  n ← asm_operand_fetch 1 (opcode + 1) ASM_OTYPE_SEGMENT;
  add_len n;;
  ret_len.

Definition op_lea_rv_m : handler := λ opcode len,
  add_len 1;;
  set_ptr_instr opcode;;
  set_instr ASM_LEA;;
  set_type ASM_TYPE_ARITH;;
  n ← asm_operand_fetch 0 (opcode + 1) ASM_OTYPE_GENERAL;
  add_len n;;
  n ← asm_operand_fetch 1 (opcode + 1) ASM_OTYPE_ENCODED;
  add_len n;;
  ret_len.

Definition op_mov_segr_rm : handler := λ opcode len,
  let modrm := opcode + 1 in
  set_type ASM_TYPE_ASSIGN;;
  add_len 1;;
  set_ptr_instr opcode;;
  set_instr ASM_MOV;;
  n ← asm_operand_fetch 0 (opcode + 1) ASM_OTYPE_SEGMENT;
  add_len n;;
  n ← asm_operand_fetch 1 (opcode + 1) ASM_OTYPE_ENCODED;
  add_len n;;
  ret_len.

Definition op_pop_rmv : handler := λ opcode len,
  add_len 1;;
  set_instr ASM_POP;;
  set_ptr_instr opcode;;
  set_type (ASM_TYPE_TOUCHSP ||| ASM_TYPE_ASSIGN ||| ASM_TYPE_LOAD);;
  set_spdiff 4;;
  n ← asm_operand_fetch 0 (opcode + 1) ASM_OTYPE_ENCODED;
  add_len n;;
  ret_len.
