(* ===== verification/Ia32Fpu.v ===== *)
(** The IA-32 handlers of arch/ia32/handlers for the escapes of the floating point unit, 0xd8 to 0xdf. Each
    definition translates the function of that name of the file of that name. *)

From S2P Require Import Prelude Ia32 Ia32Operand.

Definition op_esc0 : handler := λ opcode len,
  set_ptr_instr opcode;;
  let modrm := opcode + 1 in
  add_len 1;;
  (r ← modrm_r modrm;
   switch r
     [(0, set_instr ASM_FADD);
      (1, set_instr ASM_FMUL);
      (2, set_instr ASM_FCOM);
      (3, set_instr ASM_FCOMP);
      (4, set_instr ASM_FSUB);
      (5, set_instr ASM_FSUBR);
      (6, set_instr ASM_FDIV);
      (7, set_instr ASM_FDIVR)]
     skip);;
  (md ← modrm_mod modrm;
   if md <? 3 then
     n ← asm_operand_fetch 0 (opcode + 1) ASM_OTYPE_ENCODED;
     add_len n
   else
     add_len 1;;
     (r ← modrm_r modrm;
      switch r
        [(6,
          n ← asm_operand_fetch 0 opcode ASM_OTYPE_FIXED;
          add_len n;;
          op_set_content 0 (ASM_OP_FPU ||| ASM_OP_BASE);;
          n ← asm_operand_fetch 1 opcode ASM_OTYPE_FIXED;
          add_len n;;
          op_set_content 1 (ASM_OP_FPU ||| ASM_OP_SCALE ||| ASM_OP_BASE);;
          rm ← modrm_m modrm;
          op_set_scale 1 rm);
         (0,
          n ← asm_operand_fetch 0 opcode ASM_OTYPE_FIXED;
          add_len n;;
          op_set_content 0 (ASM_OP_FPU ||| ASM_OP_BASE);;
          n ← asm_operand_fetch 1 opcode ASM_OTYPE_FIXED;
          add_len n;;
          op_set_content 1 (ASM_OP_FPU ||| ASM_OP_SCALE ||| ASM_OP_BASE);;
          rm ← modrm_m modrm;
          op_set_scale 1 rm);
         (5,
          n ← asm_operand_fetch 0 opcode ASM_OTYPE_FIXED;
          add_len n;;
          op_set_content 0 (ASM_OP_FPU ||| ASM_OP_BASE);;
          n ← asm_operand_fetch 1 opcode ASM_OTYPE_FIXED;
          add_len n;;
          op_set_content 1 (ASM_OP_FPU ||| ASM_OP_SCALE ||| ASM_OP_BASE);;
          rm ← modrm_m modrm;
          op_set_scale 1 rm);
         (1,
          n ← asm_operand_fetch 0 opcode ASM_OTYPE_FIXED;
          add_len n;;
          op_set_content 0 (ASM_OP_FPU ||| ASM_OP_BASE);;
          n ← asm_operand_fetch 1 opcode ASM_OTYPE_FIXED;
          add_len n;;
          op_set_content 1 (ASM_OP_FPU ||| ASM_OP_SCALE ||| ASM_OP_BASE);;
          rm ← modrm_m modrm;
          op_set_scale 1 rm);
         (4,
          n ← asm_operand_fetch 0 opcode ASM_OTYPE_FIXED;
          add_len n;;
          op_set_content 0 (ASM_OP_FPU ||| ASM_OP_BASE);;
          n ← asm_operand_fetch 1 opcode ASM_OTYPE_FIXED;
          add_len n;;
          op_set_content 1 (ASM_OP_FPU ||| ASM_OP_SCALE ||| ASM_OP_BASE);;
          rm ← modrm_m modrm;
          op_set_scale 1 rm);
         (7,
          n ← asm_operand_fetch 0 opcode ASM_OTYPE_FIXED;
          add_len n;;
          op_set_content 0 (ASM_OP_FPU ||| ASM_OP_BASE);;
          n ← asm_operand_fetch 1 opcode ASM_OTYPE_FIXED;
          add_len n;;
          op_set_content 1 (ASM_OP_FPU ||| ASM_OP_SCALE ||| ASM_OP_BASE);;
          rm ← modrm_m modrm;
          op_set_scale 1 rm);
         (2,
          n ← asm_operand_fetch 0 opcode ASM_OTYPE_FIXED;
          add_len n;;
          op_set_content 0 (ASM_OP_FPU ||| ASM_OP_SCALE ||| ASM_OP_BASE);;
          rm ← modrm_m modrm;
          op_set_scale 0 rm);
         (3,
          n ← asm_operand_fetch 0 opcode ASM_OTYPE_FIXED;
          add_len n;;
          op_set_content 0 (ASM_OP_FPU ||| ASM_OP_SCALE ||| ASM_OP_BASE);;
          rm ← modrm_m modrm;
          op_set_scale 0 rm)]
        skip));;
  ret_len.

Definition op_esc1 : handler := λ opcode len,
  let modrm := opcode + 1 in
  set_ptr_instr opcode;;
  add_len 1;;
  (md ← modrm_mod modrm;
   if md =? 3 then
     (r ← modrm_r modrm;
      switch r
        [(0,
          set_instr ASM_FLD;;
          n ← asm_operand_fetch 0 opcode ASM_OTYPE_FIXED;
          add_len n;;
          add_len 1;;
          op_set_content 0 (ASM_OP_FPU ||| ASM_OP_SCALE ||| ASM_OP_BASE);;
          op_set_len 0 1;;
          rm ← modrm_m modrm;
          op_set_scale 0 rm);
         (1,
          set_instr ASM_FXCH;;
          n ← asm_operand_fetch 0 opcode ASM_OTYPE_FIXED;
          add_len n;;
          add_len 1;;
          op_set_type 0 ASM_OTYPE_FIXED;;
          op_set_len 0 1;;
          op_set_content 0 (ASM_OP_FPU ||| ASM_OP_SCALE ||| ASM_OP_BASE);;
          rm ← modrm_m modrm;
          op_set_scale 0 rm);
         (2, set_instr ASM_FNOP);
         (4,
          add_len 1;;
          (rm ← modrm_m modrm;
           switch rm
             [(0, set_instr ASM_FCHS);
              (1, set_instr ASM_FABS);
              (4, set_instr ASM_FTST);
              (5, set_instr ASM_FXAM)]
             (set_instr ASM_BAD)));
         (5,
          add_len 1;;
          (rm ← modrm_m modrm;
           switch rm
             [(0, set_instr ASM_FLD1);
              (1, set_instr ASM_FLDL2T);
              (2, set_instr ASM_FLDL2E);
              (3, set_instr ASM_FLDPI);
              (4, set_instr ASM_FLDLG2);
              (5, set_instr ASM_FLDLN2);
              (6, set_instr ASM_FLDZ)]
             skip));
         (6,
          add_len 1;;
          (rm ← modrm_m modrm;
           switch rm
             [(0, set_instr ASM_F2XM1);
              (1, set_instr ASM_FYL2X);
              (2, set_instr ASM_FPTAN);
              (3, set_instr ASM_FPATAN);
              (4, set_instr ASM_FXTRACT);
              (6, set_instr ASM_FDECSTP);
              (7, set_instr ASM_FINCSTP)]
             skip));
         (7,
          add_len 1;;
          (rm ← modrm_m modrm;
           switch rm
             [(0, set_instr ASM_FPREM);
              (1, set_instr ASM_FYL2XP1);
              (2, set_instr ASM_FSQRT);
              (3, set_instr ASM_FSINCOS);
              (4, set_instr ASM_FRNDINT);
              (5, set_instr ASM_FSCALE)]
             skip))]
        skip)
   else
     (r ← modrm_r modrm;
      switch r
        [(0, set_instr ASM_FLD);
         (1, set_instr ASM_BAD);
         (2, set_instr ASM_FST);
         (3, set_instr ASM_FSTP);
         (4, set_instr ASM_FLDENV);
         (5, set_instr ASM_FLDCW);
         (6,
          (i ← get_ins;
           if negb (negb (ins_prefix i &&& ASM_PREFIX_FWAIT =? 0)) then
             set_instr ASM_FNSTENV
           else set_instr ASM_FSTENV));
         (7,
          (i ← get_ins;
           if negb (negb (ins_prefix i &&& ASM_PREFIX_FWAIT =? 0)) then
             set_instr ASM_FNSTCW
           else set_instr ASM_FSTCW))]
        skip));;
  (md ← modrm_mod modrm;
   if md <? 3 then
     n ← asm_operand_fetch 0 (opcode + 1) ASM_OTYPE_ENCODED;
     add_len n
   else skip);;
  ret_len.

Definition op_esc2 : handler := λ opcode len,
  let modrm := opcode + 1 in
  set_ptr_instr opcode;;
  add_len 1;;
  (md ← modrm_mod modrm;
   if md =? 3 then
     (r ← modrm_r modrm;
      switch r
        [(5, set_instr ASM_FUCOMPP)]
        (set_instr ASM_BAD))
   else
     (r ← modrm_r modrm;
      switch r
        [(0, set_instr ASM_FIADD);
         (1, set_instr ASM_FIMUL);
         (2, set_instr ASM_FICOM);
         (3, set_instr ASM_FICOMP);
         (4, set_instr ASM_FISUB);
         (5, set_instr ASM_FISUBR);
         (6, set_instr ASM_FIDIV);
         (7, set_instr ASM_FIDIVR)]
        skip));;
  (b ← read (opcode + 1);
   if negb (b =? 233) then
     n ← asm_operand_fetch 0 (opcode + 1) ASM_OTYPE_ENCODED;
     add_len n
   else add_len 1);;
  ret_len.

Definition op_esc3 : handler := λ opcode len,
  set_ptr_instr opcode;;
  let modrm := opcode + 1 in
  add_len 1;;
  (r ← modrm_r modrm;
   switch r
     [(0, set_instr ASM_FILD);
      (1, set_instr ASM_BAD);
      (2, set_instr ASM_FIST);
      (3, set_instr ASM_FISTP);
      (4, skip);
      (5, set_instr ASM_FLD);
      (6, set_instr ASM_FSTP);
      (7, set_instr ASM_FSTP)]
     skip);;
  n ← asm_operand_fetch 0 (opcode + 1) ASM_OTYPE_ENCODED;
  add_len n;;
  ret_len.

Definition op_esc4 : handler := λ opcode len,
  set_ptr_instr opcode;;
  let modrm := opcode + 1 in
  add_len 1;;
  (r ← modrm_r modrm;
   switch r
     [(0, set_instr ASM_FADD);
      (1, set_instr ASM_FMUL);
      (2, set_instr ASM_FCOM);
      (3, set_instr ASM_FCOMP);
      (4, set_instr ASM_FSUB);
      (5, set_instr ASM_FSUBR);
      (6, set_instr ASM_FDIV);
      (7, set_instr ASM_FDIVR)]
     skip);;
  (md ← modrm_mod modrm;
   if md =? 3 then
     n ← asm_operand_fetch 0 (opcode + 1) ASM_OTYPE_FIXED;
     add_len n;;
     op_set_type 0 ASM_OTYPE_FIXED;;
     op_set_content 0 (ASM_OP_FPU ||| ASM_OP_BASE ||| ASM_OP_SCALE);;
     op_set_len 0 1;;
     rm ← modrm_m modrm;
     op_set_scale 0 rm;;
     n ← asm_operand_fetch 1 (opcode + 1) ASM_OTYPE_FIXED;
     add_len n;;
     op_set_type 1 ASM_OTYPE_FIXED;;
     op_set_content 1 (ASM_OP_FPU ||| ASM_OP_BASE);;
     add_len 1
   else
     n ← asm_operand_fetch 0 (opcode + 1) ASM_OTYPE_ENCODED;
     add_len n);;
  ret_len.

Definition op_esc5 : handler := λ opcode len,
  set_ptr_instr opcode;;
  let modrm := opcode + 1 in
  add_len 1;;
  (md ← modrm_mod modrm;
   if md =? 3 then
     add_len 1;;
     (r ← modrm_r modrm;
      switch r
        [(3, set_instr ASM_FSTP);
         (4, set_instr ASM_FUCOM);
         (5, set_instr ASM_FUCOMP)]
        (set_instr ASM_BAD))
   else
     (r ← modrm_r modrm;
      switch r
        [(0, set_instr ASM_FLD);
         (1, set_instr ASM_BAD);
         (2, set_instr ASM_FST);
         (3, set_instr ASM_FSTP);
         (4, set_instr ASM_BAD);
         (5, set_instr ASM_BAD);
         (6,
          (i ← get_ins;
           if negb (negb (ins_prefix i &&& ASM_PREFIX_FWAIT =? 0)) then
             set_instr ASM_FNSAVE
           else set_instr ASM_FSAVE));
         (7,
          (i ← get_ins;
           if negb (negb (ins_prefix i &&& ASM_PREFIX_FWAIT =? 0)) then
             set_instr ASM_FNSAVE
           else set_instr ASM_FSAVE))]
        skip));;
  (md ← modrm_mod modrm;
   if md =? 3 then
     n ← asm_operand_fetch 0 (opcode + 1) ASM_OTYPE_FIXED;
     add_len n;;
     op_set_content 0 (ASM_OP_FPU ||| ASM_OP_BASE ||| ASM_OP_SCALE);;
     op_set_len 0 1;;
     op_set_ptr 0 (Some (opcode + 1));;
     rm ← modrm_m modrm;
     op_set_scale 0 rm
   else
     n ← asm_operand_fetch 0 (opcode + 1) ASM_OTYPE_ENCODED;
     add_len n);;
  ret_len.

Definition op_esc6 : handler := λ opcode len,
  set_ptr_instr opcode;;
  let modrm := opcode + 1 in
  add_len 1;;
  (md ← modrm_mod modrm;
   if md <=? 2 then
     (r ← modrm_r modrm;
      switch r
        [(0, set_instr ASM_FIADD);
         (1, set_instr ASM_FIMUL);
         (2, set_instr ASM_FICOM);
         (3, set_instr ASM_FICOMP);
         (4, set_instr ASM_FISUB);
         (5, set_instr ASM_FISUBR);
         (6, set_instr ASM_FIDIV);
         (7, set_instr ASM_FIDIVR)]
        skip)
   else
     (r ← modrm_r modrm;
      switch r
        [(0, set_instr ASM_FADDP);
         (1, set_instr ASM_FMULP);
         (2, set_instr ASM_FCOMPS);
         (3, set_instr ASM_FCOMPP);
         (4, set_instr ASM_FSUBP);
         (5, set_instr ASM_FSUBRP);
         (6,
          (rm ← modrm_m modrm;
           switch rm
             [(3, set_instr ASM_FDIVP);
              (5, set_instr ASM_FDIVP);
              (2, set_instr ASM_FDIVP);
              (4, set_instr ASM_FDIVP);
              (6, set_instr ASM_FDIVP);
              (1, set_instr ASM_FDIVP);
              (0, set_instr ASM_FDIVP)]
             (set_instr ASM_FDIVP)));
         (7,
          (rm ← modrm_m modrm;
           switch rm
             [(3, set_instr ASM_FDIVR)]
             (set_instr ASM_FDIV)))]
        skip));;
  (b ← read (opcode + 1);
   if negb (b =? 217) then
     n ← asm_operand_fetch 0 (opcode + 1) ASM_OTYPE_FIXED;
     add_len n;;
     op_set_content 0 (ASM_OP_FPU ||| ASM_OP_BASE ||| ASM_OP_SCALE);;
     op_set_len 0 1;;
     rm ← modrm_m modrm;
     op_set_scale 0 rm;;
     n ← asm_operand_fetch 1 (opcode + 1) ASM_OTYPE_FIXED;
     add_len n;;
     op_set_content 1 (ASM_OP_FPU ||| ASM_OP_BASE);;
     op_set_len 1 0
   else add_len 1);;
  (o0 ← get_op 0;
   if bool_decide (op_type o0 ≠ ASM_OTYPE_NONE) then
     o0 ← get_op 0;
     add_len (op_len o0)
   else skip);;
  ret_len.

Definition op_esc7 : handler := λ opcode len,
  let modrm := opcode + 1 in
  set_ptr_instr opcode;;
  add_len 1;;
  (b ← read (opcode + 1);
   if b =? 224 then
     (i ← get_ins;
      if negb (negb (ins_prefix i &&& ASM_PREFIX_FWAIT =? 0)) then
        set_instr ASM_FNSTSW
      else set_instr ASM_FSTSW);;
     op_set_type 0 ASM_OTYPE_FIXED;;
     op_set_content 0 ASM_OP_BASE;;
     op_set_regset 0 ASM_REGSET_R16;;
     op_set_baser 0 ASM_REG_EAX
   else
     (r ← modrm_r modrm;
      switch r
        [(0, set_instr ASM_FILD);
         (1, skip);
         (2, set_instr ASM_FIST);
         (3, set_instr ASM_FISTP);
         (4, set_instr ASM_FBLD);
         (5, set_instr ASM_FILD);
         (6, set_instr ASM_FBSTP);
         (7, set_instr ASM_FISTP)]
        skip));;
  (b ← read (opcode + 1);
   if negb (b =? 224) then
     n ← asm_operand_fetch 0 (opcode + 1) ASM_OTYPE_ENCODED;
     add_len n
   else add_len 1);;
  ret_len.
