(* ===== verification/Ia32Misc.v ===== *)
(** The IA-32 handlers of arch/ia32/handlers for the opcodes 0x90 to 0xd7: strings, moves of constants, shifts, returns, and 0xe0
    to 0xff: loops, ports, calls, jumps and prefixes (x87 is in Ia32Fpu.v). Each
    definition translates the function of that name of the file of that name. *)

From S2P Require Import Prelude Ia32 Ia32Operand.

Definition op_nop : handler := λ opcode len,
  set_ptr_instr opcode;;
  add_len 1;;
  set_instr ASM_NOP;;
  set_type ASM_TYPE_NOP;;
  ret_len.

Definition op_xchg_eax_reg : handler := λ opcode len,
  set_instr ASM_XCHG;;
  set_ptr_instr opcode;;
  add_len 1;;
  n ← asm_operand_fetch 0 (opcode + 1) ASM_OTYPE_FIXED;
  add_len n;;
  op_set_content 0 (ASM_OP_BASE ||| ASM_OP_FIXED);;
  op_set_len 0 0;;
  op_set_baser 0 ASM_REG_EAX;;
  o ← asm_proc_opsize;
  op_set_regset 0 (if o then ASM_REGSET_R16 else ASM_REGSET_R32);;
  n ← asm_operand_fetch 1 opcode ASM_OTYPE_OPMOD;
  add_len n;;
  ret_len.

Definition op_cwtl : handler := λ opcode len,
  add_len 1;;
  set_ptr_instr opcode;;
  set_type ASM_TYPE_ARITH;;
  (o ← asm_proc_opsize;
   if o then set_instr ASM_CBTW else set_instr ASM_CWTL);;
  ret_len.

Definition op_cltd : handler := λ opcode len,
  set_ptr_instr opcode;;
  add_len 1;;
  set_type ASM_TYPE_ARITH;;
  (o ← asm_proc_opsize;
   if o then set_instr ASM_CWTD else set_instr ASM_CLTD);;
  ret_len.

Definition op_fwait : handler := λ opcode len,
  add_len 1;;
  (i ← get_ins;
   if bool_decide (ins_ptr_prefix i = None) then set_ptr_instr opcode else skip);;
  or_prefix ASM_PREFIX_FWAIT;;
  proc_fetch (opcode + 1) (u32 (len - 1)).

Definition op_pushf : handler := λ opcode len,
  add_len 1;;
  set_ptr_instr opcode;;
  set_instr ASM_PUSHF;;
  set_type (ASM_TYPE_TOUCHSP ||| ASM_TYPE_STORE ||| ASM_TYPE_READFLAG);;
  set_spdiff (-4);;
  set_flagsread (ASM_FLAG_CF ||| ASM_FLAG_PF ||| ASM_FLAG_AF ||| ASM_FLAG_ZF ||| ASM_FLAG_SF |||
    ASM_FLAG_TF ||| ASM_FLAG_IF ||| ASM_FLAG_DF ||| ASM_FLAG_OF ||| ASM_FLAG_IOPL |||
    ASM_FLAG_NT ||| ASM_FLAG_RF ||| ASM_FLAG_AC ||| ASM_FLAG_VIF ||| ASM_FLAG_VIP |||
    ASM_FLAG_ID);;
  ret_len.

Definition op_popf : handler := λ opcode len,
  set_ptr_instr opcode;;
  add_len 1;;
  set_instr ASM_POPF;;
  set_type (ASM_TYPE_TOUCHSP ||| ASM_TYPE_LOAD ||| ASM_TYPE_WRITEFLAG);;
  set_spdiff 4;;
  set_flagswritten (ASM_FLAG_CF ||| ASM_FLAG_PF ||| ASM_FLAG_AF ||| ASM_FLAG_ZF |||
    ASM_FLAG_SF ||| ASM_FLAG_TF ||| ASM_FLAG_IF ||| ASM_FLAG_DF ||| ASM_FLAG_OF |||
    ASM_FLAG_IOPL ||| ASM_FLAG_NT ||| ASM_FLAG_RF ||| ASM_FLAG_AC ||| ASM_FLAG_VIF |||
    ASM_FLAG_VIP ||| ASM_FLAG_ID);;
  ret_len.

Definition op_sahf : handler := λ opcode len,
  add_len 1;;
  set_ptr_instr opcode;;
  set_instr ASM_SAHF;;
  set_type ASM_TYPE_WRITEFLAG;;
  set_flagswritten (ASM_FLAG_CF ||| ASM_FLAG_PF ||| ASM_FLAG_AF ||| ASM_FLAG_SF ||| ASM_FLAG_ZF);;
  ret_len.

Definition op_lahf : handler := λ opcode len,
  set_ptr_instr opcode;;
  add_len 1;;
  set_instr ASM_LAHF;;
  set_type ASM_TYPE_READFLAG;;
  set_flagsread (ASM_FLAG_SF ||| ASM_FLAG_ZF ||| ASM_FLAG_AF ||| ASM_FLAG_PF ||| ASM_FLAG_CF);;
  ret_len.

Definition op_mov_al_ref_iv : handler := λ opcode len,
  add_len 1;;
  set_instr ASM_MOV;;
  set_ptr_instr opcode;;
  set_type ASM_TYPE_ASSIGN;;
  n ← asm_operand_fetch 0 opcode ASM_OTYPE_FIXED;
  add_len n;;
  op_set_content 0 ASM_OP_BASE;;
  op_set_baser 0 ASM_REG_AL;;
  op_set_regset 0 ASM_REGSET_R8;;
  n ← asm_operand_fetch 1 (opcode + 1) ASM_OTYPE_OFFSET;
  add_len n;;
  ret_len.

Definition op_mov_eax_ref_iv : handler := λ opcode len,
  set_instr ASM_MOV;;
  set_ptr_instr opcode;;
  add_len 1;;
  set_type ASM_TYPE_ASSIGN;;
  n ← asm_operand_fetch 0 (opcode + 1) ASM_OTYPE_FIXED;
  add_len n;;
  op_set_content 0 ASM_OP_BASE;;
  op_set_ptr 0 (Some opcode);;
  op_set_type 0 ASM_OTYPE_FIXED;;
  o ← asm_proc_opsize;
  op_set_regset 0 (if o then ASM_REGSET_R16 else ASM_REGSET_R32);;
  op_set_baser 0 ASM_REG_EAX;;
  n ← asm_operand_fetch 1 (opcode + 1) ASM_OTYPE_OFFSET;
  add_len n;;
  ret_len.

Definition op_mov_ref_iv_al : handler := λ opcode len,
  set_instr ASM_MOV;;
  set_type ASM_TYPE_ASSIGN;;
  set_ptr_instr opcode;;
  add_len 1;;
  n ← asm_operand_fetch 0 (opcode + 1) ASM_OTYPE_OFFSET;
  add_len n;;
  n ← asm_operand_fetch 1 (opcode + 1) ASM_OTYPE_FIXED;
  add_len n;;
  op_set_type 1 ASM_OTYPE_FIXED;;
  op_set_regset 1 ASM_REGSET_R8;;
  op_set_content 1 ASM_OP_BASE;;
  op_set_baser 1 ASM_REG_AL;;
  ret_len.

Definition op_mov_ref_iv_eax : handler := λ opcode len,
  set_instr ASM_MOV;;
  set_type ASM_TYPE_ASSIGN;;
  add_len 1;;
  set_ptr_instr opcode;;
  n ← asm_operand_fetch 0 (opcode + 1) ASM_OTYPE_OFFSET;
  add_len n;;
  n ← asm_operand_fetch 1 (opcode + 1) ASM_OTYPE_GENERAL;
  add_len n;;
  ret_len.

Definition op_movsb : handler := λ opcode len,
  set_instr ASM_MOVSB;;
  add_len 1;;
  set_ptr_instr opcode;;
  set_type (ASM_TYPE_LOAD ||| ASM_TYPE_STORE ||| ASM_TYPE_ASSIGN);;
  n ← asm_operand_fetch 0 opcode ASM_OTYPE_YDEST;
  add_len n;;
  n ← asm_operand_fetch 1 opcode ASM_OTYPE_XSRC;
  add_len n;;
  ret_len.

Definition op_movsd : handler := λ opcode len,
  add_len 1;;
  set_ptr_instr opcode;;
  (o ← asm_proc_opsize;
   if o then set_instr ASM_MOVSW else set_instr ASM_MOVSD);;
  set_type (ASM_TYPE_LOAD ||| ASM_TYPE_STORE ||| ASM_TYPE_ASSIGN);;
  n ← asm_operand_fetch 0 opcode ASM_OTYPE_YDEST;
  add_len n;;
  n ← asm_operand_fetch 1 opcode ASM_OTYPE_XSRC;
  add_len n;;
  ret_len.

Definition op_cmpsb : handler := λ opcode len,
  set_instr ASM_CMPSB;;
  add_len 1;;
  set_ptr_instr opcode;;
  set_type (ASM_TYPE_COMPARISON ||| ASM_TYPE_WRITEFLAG);;
  set_flagswritten (ASM_FLAG_AF ||| ASM_FLAG_CF ||| ASM_FLAG_PF ||| ASM_FLAG_OF |||
    ASM_FLAG_SF ||| ASM_FLAG_ZF);;
  n ← asm_operand_fetch 0 (opcode + 1) ASM_OTYPE_XSRC;
  add_len n;;
  n ← asm_operand_fetch 1 (opcode + 1) ASM_OTYPE_YDEST;
  add_len n;;
  ret_len.

Definition op_cmpsd : handler := λ opcode len,
  add_len 1;;
  set_ptr_instr opcode;;
  set_instr ASM_CMPSD;;
  set_type (ASM_TYPE_COMPARISON ||| ASM_TYPE_WRITEFLAG);;
  set_flagswritten (ASM_FLAG_AF ||| ASM_FLAG_CF ||| ASM_FLAG_PF ||| ASM_FLAG_OF |||
    ASM_FLAG_SF ||| ASM_FLAG_ZF);;
  n ← asm_operand_fetch 0 (opcode + 1) ASM_OTYPE_XSRC;
  add_len n;;
  n ← asm_operand_fetch 1 (opcode + 1) ASM_OTYPE_YDEST;
  add_len n;;
  ret_len.

Definition op_test_al_rb : handler := λ opcode len,
  set_instr ASM_TEST;;
  add_len 1;;
  set_type (ASM_TYPE_COMPARISON ||| ASM_TYPE_WRITEFLAG);;
  set_flagswritten (ASM_FLAG_OF ||| ASM_FLAG_CF ||| ASM_FLAG_PF ||| ASM_FLAG_SF ||| ASM_FLAG_ZF);;
  n ← asm_operand_fetch 0 opcode ASM_OTYPE_FIXED;
  add_len n;;
  op_set_content 0 ASM_OP_BASE;;
  op_set_baser 0 ASM_REG_AL;;
  op_set_regset 0 ASM_REGSET_R8;;
  n ← asm_operand_fetch 1 (opcode + 1) ASM_OTYPE_IMMEDIATEBYTE;
  add_len n;;
  ret_len.

Definition op_test_eax_iv : handler := λ opcode len,
  set_instr ASM_TEST;;
  add_len 1;;
  set_ptr_instr opcode;;
  set_type (ASM_TYPE_COMPARISON ||| ASM_TYPE_WRITEFLAG);;
  set_flagswritten (ASM_FLAG_OF ||| ASM_FLAG_CF ||| ASM_FLAG_PF ||| ASM_FLAG_SF ||| ASM_FLAG_ZF);;
  n ← asm_operand_fetch 0 opcode ASM_OTYPE_FIXED;
  add_len n;;
  op_set_content 0 ASM_OP_BASE;;
  o ← asm_proc_opsize;
  op_set_regset 0 (if o then ASM_REGSET_R16 else ASM_REGSET_R32);;
  op_set_baser 0 ASM_REG_AX;;
  n ← asm_operand_fetch 0 opcode ASM_OTYPE_IMMEDIATE;
  add_len n;;
  ret_len.

Definition op_stosb : handler := λ opcode len,
  set_ptr_instr opcode;;
  set_instr ASM_STOSB;;
  add_len 1;;
  set_type ASM_TYPE_STORE;;
  n ← asm_operand_fetch 0 opcode ASM_OTYPE_YDEST;
  add_len n;;
  n ← asm_operand_fetch 1 opcode ASM_OTYPE_XSRC;
  add_len n;;
  ret_len.

Definition op_stosd : handler := λ opcode len,
  set_instr ASM_STOSD;;
  set_ptr_instr opcode;;
  add_len 1;;
  set_type ASM_TYPE_STORE;;
  n ← asm_operand_fetch 0 opcode ASM_OTYPE_YDEST;
  add_len n;;
  n ← asm_operand_fetch 1 opcode ASM_OTYPE_FIXED;
  add_len n;;
  op_set_content 1 ASM_OP_BASE;;
  op_set_len 1 0;;
  o ← asm_proc_opsize;
  op_set_regset 1 (if o then ASM_REGSET_R16 else ASM_REGSET_R32);;
  op_set_baser 1 ASM_REG_EAX;;
  ret_len.

Definition op_lodsb : handler := λ opcode len,
  set_instr ASM_LODSB;;
  add_len 1;;
  set_ptr_instr opcode;;
  set_type ASM_TYPE_LOAD;;
  n ← asm_operand_fetch 0 opcode ASM_OTYPE_YDEST;
  add_len n;;
  n ← asm_operand_fetch 1 opcode ASM_OTYPE_FIXED;
  add_len n;;
  op_set_content 1 (ASM_OP_BASE ||| ASM_OP_FIXED);;
  o ← asm_proc_opsize;
  op_set_regset 1 (if o then ASM_REGSET_R16 else ASM_REGSET_R32);;
  op_set_baser 1 ASM_REG_EAX;;
  ret_len.

Definition op_lodsd : handler := λ opcode len,
  add_len 1;;
  set_instr ASM_LODSD;;
  set_ptr_instr opcode;;
  set_type ASM_TYPE_LOAD;;
  n ← asm_operand_fetch 0 opcode ASM_OTYPE_YDEST;
  add_len n;;
  n ← asm_operand_fetch 0 opcode ASM_OTYPE_XSRC;
  add_len n;;
  ret_len.

Definition op_scasb : handler := λ opcode len,
  set_instr ASM_SCASB;;
  set_ptr_instr opcode;;
  add_len 1;;
  set_type (ASM_TYPE_COMPARISON ||| ASM_TYPE_WRITEFLAG);;
  set_flagswritten (ASM_FLAG_AF ||| ASM_FLAG_CF ||| ASM_FLAG_PF ||| ASM_FLAG_OF |||
    ASM_FLAG_SF ||| ASM_FLAG_ZF);;
  n ← asm_operand_fetch 0 opcode ASM_OTYPE_FIXED;
  add_len n;;
  op_set_content 0 ASM_OP_BASE;;
  op_set_regset 0 ASM_REGSET_R8;;
  op_set_baser 0 ASM_REG_EAX;;
  n ← asm_operand_fetch 1 opcode ASM_OTYPE_YDEST;
  add_len n;;
  ret_len.

Definition op_scasd : handler := λ opcode len,
  add_len 1;;
  (o ← asm_proc_opsize;
   if o then set_instr ASM_SCASW else set_instr ASM_SCASD);;
  set_ptr_instr opcode;;
  set_type (ASM_TYPE_COMPARISON ||| ASM_TYPE_WRITEFLAG);;
  set_flagswritten (ASM_FLAG_AF ||| ASM_FLAG_CF ||| ASM_FLAG_PF ||| ASM_FLAG_OF |||
    ASM_FLAG_SF ||| ASM_FLAG_ZF);;
  n ← asm_operand_fetch 0 opcode ASM_OTYPE_FIXED;
  add_len n;;
  op_set_content 0 ASM_OP_BASE;;
  op_set_regset 0 ASM_REGSET_R8;;
  op_set_baser 0 ASM_REG_EAX;;
  n ← asm_operand_fetch 1 opcode ASM_OTYPE_YDEST;
  add_len n;;
  ret_len.

Definition op_mov_subreg_ib : handler := λ opcode len,
  let modrm := opcode in
  set_ptr_instr opcode;;
  set_type ASM_TYPE_ASSIGN;;
  set_instr ASM_MOV;;
  add_len 1;;
  n ← asm_operand_fetch 0 opcode ASM_OTYPE_OPMOD;
  add_len n;;
  n ← asm_operand_fetch 1 (opcode + 1) ASM_OTYPE_IMMEDIATEBYTE;
  add_len n;;
  ret_len.

Definition op_mov_reg_iv : handler := λ opcode len,
  let modrm := opcode in
  set_type ASM_TYPE_ASSIGN;;
  set_ptr_instr opcode;;
  set_instr ASM_MOV;;
  add_len 1;;
  n ← asm_operand_fetch 0 (opcode + 0) ASM_OTYPE_OPMOD;
  add_len n;;
  n ← asm_operand_fetch 1 (opcode + 1) ASM_OTYPE_IMMEDIATE;
  add_len n;;
  ret_len.

Definition op_shr_rmb_ib : handler := λ opcode len,
  let modrm := opcode + 1 in
  set_ptr_instr opcode;;
  add_len 1;;
  set_type (ASM_TYPE_ARITH ||| ASM_TYPE_WRITEFLAG);;
  set_flagswritten (ASM_FLAG_CF ||| ASM_FLAG_OF);;
  (r ← modrm_r modrm;
   if r =? ASM_REG_EAX then
     set_instr ASM_ROL
   else
     (r ← modrm_r modrm;
      if r =? ASM_REG_EBP then
        set_instr ASM_SHR;;
        or_flagswritten (ASM_FLAG_PF ||| ASM_FLAG_ZF ||| ASM_FLAG_SF)
      else
        (r ← modrm_r modrm;
         if r =? ASM_REG_EDI then
           set_instr ASM_SAR;;
           or_flagswritten (ASM_FLAG_PF ||| ASM_FLAG_ZF ||| ASM_FLAG_SF)
         else
           (r ← modrm_r modrm;
            if r =? ASM_REG_ECX then
              set_instr ASM_ROR
            else
              (r ← modrm_r modrm;
               if r =? 3 then
                 set_instr ASM_RCR
               else
                 set_instr ASM_SHL;;
                 or_flagswritten (ASM_FLAG_PF ||| ASM_FLAG_ZF ||| ASM_FLAG_SF))))));;
  olen ← asm_operand_fetch 0 (opcode + 1) ASM_OTYPE_ENCODEDBYTE;
  add_len olen;;
  n ← asm_operand_fetch 1 (opcode + 1 + olen) ASM_OTYPE_IMMEDIATEBYTE;
  add_len n;;
  ret_len.

Definition op_shr_rmv_ib : handler := λ opcode len,
  let modrm := opcode + 1 in
  set_ptr_instr opcode;;
  add_len 1;;
  set_type (ASM_TYPE_ARITH ||| ASM_TYPE_WRITEFLAG);;
  set_flagswritten (ASM_FLAG_OF ||| ASM_FLAG_CF);;
  (r ← modrm_r modrm;
   if r =? ASM_REG_EAX then set_instr ASM_ROL else skip);;
  (r ← modrm_r modrm;
   if r =? ASM_REG_EBP then
     set_instr ASM_SHR;;
     or_flagswritten (ASM_FLAG_PF ||| ASM_FLAG_ZF ||| ASM_FLAG_SF)
   else
     (r ← modrm_r modrm;
      if r =? ASM_REG_EDI then
        set_instr ASM_SAR;;
        or_flagswritten (ASM_FLAG_PF ||| ASM_FLAG_ZF ||| ASM_FLAG_SF)
      else
        (r ← modrm_r modrm;
         if r =? ASM_REG_ECX then
           set_instr ASM_ROR
         else
           (r ← modrm_r modrm;
            if r =? ASM_REG_EAX then
              set_instr ASM_ROL
            else
              set_instr ASM_SHL;;
              or_flagswritten (ASM_FLAG_PF ||| ASM_FLAG_ZF ||| ASM_FLAG_SF)))));;
  olen ← asm_operand_fetch 0 (opcode + 1) ASM_OTYPE_ENCODED;
  add_len olen;;
  n ← asm_operand_fetch 1 (opcode + 1 + olen) ASM_OTYPE_IMMEDIATEBYTE;
  add_len n;;
  ret_len.

Definition op_ret_i2 : handler := λ opcode len,
  add_len 1;;
  set_type (ASM_TYPE_RETPROC ||| ASM_TYPE_TOUCHSP ||| ASM_TYPE_EPILOG);;
  set_spdiff 4;;
  set_instr ASM_RET;;
  set_ptr_instr opcode;;
  n ← asm_operand_fetch 0 (opcode + 1) ASM_OTYPE_IMMEDIATEWORD;
  add_len n;;
  ret_len.

Definition op_ret : handler := λ opcode len,
  add_len 1;;
  set_ptr_instr opcode;;
  set_type (ASM_TYPE_RETPROC ||| ASM_TYPE_TOUCHSP ||| ASM_TYPE_EPILOG);;
  set_spdiff 4;;
  set_instr ASM_RET;;
  ret_len.

Definition op_les_rm_rmp : handler := λ opcode len,
  set_ptr_instr opcode;;
  set_instr ASM_LES;;
  add_len 1;;
  set_type ASM_TYPE_LOAD;;
  ret_len.

Definition op_lds_rm_rmp : handler := λ opcode len,
  set_ptr_instr opcode;;
  set_instr ASM_LDS;;
  add_len 1;;
  set_type ASM_TYPE_LOAD;;
  ret_len.

Definition op_mov_rmb_ib : handler := λ opcode len,
  set_type ASM_TYPE_ASSIGN;;
  add_len 1;;
  set_instr ASM_MOV;;
  set_ptr_instr opcode;;
  olen ← asm_operand_fetch 0 (opcode + 1) ASM_OTYPE_ENCODEDBYTE;
  add_len olen;;
  n ← asm_operand_fetch 1 (opcode + 1 + olen) ASM_OTYPE_IMMEDIATEBYTE;
  add_len n;;
  ret_len.

Definition op_mov_rmv_iv : handler := λ opcode len,
  add_len 1;;
  set_type ASM_TYPE_ASSIGN;;
  set_ptr_instr opcode;;
  set_instr ASM_MOV;;
  olen ← asm_operand_fetch 0 (opcode + 1) ASM_OTYPE_ENCODED;
  add_len olen;;
  n ← asm_operand_fetch 1 (opcode + 1 + olen) ASM_OTYPE_IMMEDIATE;
  add_len n;;
  (i ← get_ins;
   if asm_instruction_is_prefixed i ASM_PREFIX_OPSIZE then
     (o0 ← get_op 0;
      if asm_operand_is_reference o0 then set_instr ASM_MOVW else skip)
   else set_instr ASM_MOV);;
  ret_len.

Definition op_enter : handler := λ opcode len,
  set_instr ASM_ENTER;;
  add_len 1;;
  set_ptr_instr opcode;;
  set_type ASM_TYPE_TOUCHSP;;
  n ← asm_operand_fetch 0 (opcode + 1) ASM_OTYPE_IMMEDIATEWORD;
  add_len n;;
  o0 ← get_op 0;
  set_spdiff (i32 (- i32 (op_imm o0)));;
  ret_len.

Definition op_leave : handler := λ opcode len,
  add_len 1;;
  set_ptr_instr opcode;;
  set_type ASM_TYPE_TOUCHSP;;
  set_spdiff 4;;
  set_instr ASM_LEAVE;;
  ret_len.

Definition op_retf_i2 : handler := λ opcode len,
  set_instr ASM_RETF;;
  set_ptr_instr opcode;;
  add_len 1;;
  set_type (ASM_TYPE_RETPROC ||| ASM_TYPE_TOUCHSP ||| ASM_TYPE_EPILOG);;
  n ← asm_operand_fetch 0 (opcode + 1) ASM_OTYPE_IMMEDIATEWORD;
  add_len n;;
  ret_len.

Definition op_retf : handler := λ opcode len,
  add_len 1;;
  set_ptr_instr opcode;;
  set_instr ASM_RETF;;
  set_type (ASM_TYPE_RETPROC ||| ASM_TYPE_TOUCHSP ||| ASM_TYPE_EPILOG);;
  ret_len.

Definition op_int_3 : handler := λ opcode len,
  set_ptr_instr opcode;;
  add_len 1;;
  set_instr ASM_INT3;;
  set_type (ASM_TYPE_INT ||| ASM_TYPE_TOUCHSP);;
  ret_len.

Definition op_int_ib : handler := λ opcode len,
  set_ptr_instr opcode;;
  set_instr ASM_INT;;
  set_type (ASM_TYPE_INT ||| ASM_TYPE_TOUCHSP);;
  add_len 1;;
  n ← asm_operand_fetch 0 (opcode + 1) ASM_OTYPE_IMMEDIATEBYTE;
  add_len n;;
  ret_len.

Definition op_into : handler := λ opcode len,
  set_ptr_instr opcode;;
  add_len 1;;
  set_instr ASM_INTO;;
  set_type (ASM_TYPE_INT ||| ASM_TYPE_TOUCHSP ||| ASM_TYPE_READFLAG ||| ASM_TYPE_BITTEST);;
  set_flagsread ASM_FLAG_OF;;
  ret_len.

Definition op_iret : handler := λ opcode len,
  set_ptr_instr opcode;;
  add_len 1;;
  set_instr ASM_IRET;;
  set_type (ASM_TYPE_INT ||| ASM_TYPE_TOUCHSP ||| ASM_TYPE_RETPROC ||| ASM_TYPE_READFLAG);;
  set_flagsread (ASM_FLAG_NT ||| ASM_FLAG_VM);;
  ret_len.

Definition op_shift_rmb_1 : handler := λ opcode len,
  set_ptr_instr opcode;;
  add_len 1;;
  set_instr ASM_SHR;;
  set_type (ASM_TYPE_ARITH ||| ASM_TYPE_WRITEFLAG);;
  set_flagswritten (ASM_FLAG_PF ||| ASM_FLAG_ZF ||| ASM_FLAG_SF ||| ASM_FLAG_CF ||| ASM_FLAG_OF);;
  n ← asm_operand_fetch 0 (opcode + 1) ASM_OTYPE_ENCODEDBYTE;
  add_len n;;
  ret_len.

Definition op_shift_rmv_1 : handler := λ opcode len,
  let modrm := opcode + 1 in
  set_ptr_instr opcode;;
  add_len 1;;
  set_type (ASM_TYPE_ARITH ||| ASM_TYPE_WRITEFLAG);;
  set_flagswritten (ASM_FLAG_PF ||| ASM_FLAG_ZF ||| ASM_FLAG_SF ||| ASM_FLAG_CF ||| ASM_FLAG_OF);;
  (r ← modrm_r modrm;
   switch r
     [(ASM_REG_EDI, set_instr ASM_SAR);
      (ASM_REG_ESP, set_instr ASM_SHL)]
     (set_instr ASM_SHR));;
  n ← asm_operand_fetch 0 (opcode + 1) ASM_OTYPE_ENCODED;
  add_len n;;
  ret_len.

Definition op_shift_rmb_cl : handler := λ opcode len,
  let modrm := opcode + 1 in
  set_ptr_instr opcode;;
  add_len 1;;
  set_type (ASM_TYPE_ARITH ||| ASM_TYPE_WRITEFLAG);;
  set_flagswritten (ASM_FLAG_CF ||| ASM_FLAG_OF);;
  (r ← modrm_r modrm;
   switch r
     [(0, set_instr ASM_ROL);
      (1, set_instr ASM_ROR);
      (2, set_instr ASM_RCL);
      (3, set_instr ASM_RCR);
      (4,
       set_instr ASM_SHL;;
       or_flagswritten (ASM_FLAG_PF ||| ASM_FLAG_ZF ||| ASM_FLAG_SF));
      (5,
       set_instr ASM_SHR;;
       or_flagswritten (ASM_FLAG_PF ||| ASM_FLAG_ZF ||| ASM_FLAG_SF));
      (6,
       set_instr ASM_SAL;;
       or_flagswritten (ASM_FLAG_PF ||| ASM_FLAG_ZF ||| ASM_FLAG_SF));
      (7,
       set_instr ASM_SAR;;
       or_flagswritten (ASM_FLAG_PF ||| ASM_FLAG_ZF ||| ASM_FLAG_SF))]
     skip);;
  n ← asm_operand_fetch 0 (opcode + 1) ASM_OTYPE_ENCODEDBYTE;
  add_len n;;
  n ← asm_operand_fetch 1 (opcode + 1) ASM_OTYPE_FIXED;
  add_len n;;
  op_set_content 1 ASM_OP_BASE;;
  op_set_regset 1 ASM_REGSET_R8;;
  op_set_baser 1 ASM_REG_CL;;
  ret_len.

Definition op_shift_rmv_cl : handler := λ opcode len,
  set_ptr_instr opcode;;
  let modrm := opcode + 1 in
  add_len 1;;
  set_type (ASM_TYPE_ARITH ||| ASM_TYPE_WRITEFLAG);;
  set_flagswritten (ASM_FLAG_CF ||| ASM_FLAG_OF);;
  (r ← modrm_r modrm;
   switch r
     [(0, set_instr ASM_ROL);
      (5,
       set_instr ASM_SHR;;
       or_flagswritten (ASM_FLAG_PF ||| ASM_FLAG_ZF ||| ASM_FLAG_SF));
      (4,
       set_instr ASM_SHL;;
       or_flagswritten (ASM_FLAG_PF ||| ASM_FLAG_ZF ||| ASM_FLAG_SF));
      (7,
       set_instr ASM_SAR;;
       or_flagswritten (ASM_FLAG_PF ||| ASM_FLAG_ZF ||| ASM_FLAG_SF))]
     (set_instr ASM_BAD));;
  n ← asm_operand_fetch 0 (opcode + 1) ASM_OTYPE_ENCODED;
  add_len n;;
  n ← asm_operand_fetch 1 opcode ASM_OTYPE_FIXED;
  add_len n;;
  op_set_content 1 (ASM_OP_BASE ||| ASM_OP_FIXED);;
  op_set_regset 1 ASM_REGSET_R8;;
  op_set_baser 1 ASM_REG_CL;;
  op_set_len 1 0;;
  op_set_ptr 1 None;;
  ret_len.

Definition op_aam : handler := λ opcode len,
  add_len 1;;
  set_ptr_instr opcode;;
  set_instr ASM_AAM;;
  set_type (ASM_TYPE_ARITH ||| ASM_TYPE_WRITEFLAG);;
  set_flagswritten (ASM_FLAG_SF ||| ASM_FLAG_ZF ||| ASM_FLAG_PF);;
  ret_len.

Definition op_aad : handler := λ opcode len,
  add_len 1;;
  set_ptr_instr opcode;;
  set_instr ASM_AAD;;
  set_type (ASM_TYPE_WRITEFLAG ||| ASM_TYPE_ARITH);;
  set_flagswritten (ASM_FLAG_SF ||| ASM_FLAG_ZF ||| ASM_FLAG_PF);;
  ret_len.

Definition op_xlatb : handler := λ opcode len,
  add_len 1;;
  set_ptr_instr opcode;;
  set_instr ASM_XLATB;;
  set_type (ASM_TYPE_LOAD ||| ASM_TYPE_ASSIGN);;
  ret_len.

(** * Loops, ports, calls, jumps and prefixes: 0xe0 to 0xff *)

Definition op_loopne : handler := λ opcode len,
  set_instr ASM_LOOPNE;;
  set_type (ASM_TYPE_BRANCH ||| ASM_TYPE_CONDCONTROL ||| ASM_TYPE_READFLAG);;
  set_ptr_instr opcode;;
  add_len 1;;
  set_flagsread ASM_FLAG_ZF;;
  n ← asm_operand_fetch 0 (opcode + 1) ASM_OTYPE_SHORTJUMP;
  add_len n;;
  ret_len.

Definition op_loope : handler := λ opcode len,
  add_len 1;;
  set_ptr_instr opcode;;
  set_instr ASM_LOOPE;;
  set_type (ASM_TYPE_BRANCH ||| ASM_TYPE_CONDCONTROL ||| ASM_TYPE_READFLAG);;
  set_flagsread ASM_FLAG_ZF;;
  n ← asm_operand_fetch 0 (opcode + 1) ASM_OTYPE_SHORTJUMP;
  add_len n;;
  ret_len.

Definition op_loop : handler := λ opcode len,
  add_len 1;;
  set_ptr_instr opcode;;
  set_type (ASM_TYPE_BRANCH ||| ASM_TYPE_CONDCONTROL);;
  set_instr ASM_LOOP;;
  n ← asm_operand_fetch 0 (opcode + 1) ASM_OTYPE_SHORTJUMP;
  add_len n;;
  ret_len.

Definition op_je_cxz : handler := λ opcode len,
  add_len 1;;
  set_ptr_instr opcode;;
  set_type (ASM_TYPE_BRANCH ||| ASM_TYPE_CONDCONTROL);;
  set_instr ASM_BRANCH_CXZ;;
  n ← asm_operand_fetch 0 (opcode + 1) ASM_OTYPE_SHORTJUMP;
  add_len n;;
  ret_len.

Definition op_in_al_ref_ib : handler := λ opcode len,
  set_instr ASM_IN;;
  set_ptr_instr opcode;;
  add_len 1;;
  set_type (ASM_TYPE_LOAD ||| ASM_TYPE_IO);;
  n ← asm_operand_fetch 0 (opcode + 1) ASM_OTYPE_FIXED;
  add_len n;;
  op_set_content 0 ASM_OP_BASE;;
  op_set_regset 0 ASM_REGSET_R8;;
  op_set_baser 0 ASM_REG_AL;;
  n ← asm_operand_fetch 1 (opcode + 1) ASM_OTYPE_IMMEDIATEBYTE;
  add_len n;;
  op_set_type 0 ASM_OTYPE_FIXED;;
  op_set_content 0 ASM_OP_BASE;;
  op_set_regset 0 ASM_REGSET_R8;;
  op_set_baser 0 ASM_REG_AL;;
  op_set_type 1 ASM_OTYPE_IMMEDIATE;;
  op_set_content 1 ASM_OP_VALUE;;
  add_len 1;;
  op_set_imm 1 0;;
  op_memcpy_imm 1 (opcode + 1) 1;;
  ret_len.

Definition op_in_eax_ref_ib : handler := λ opcode len,
  set_instr ASM_IN;;
  set_ptr_instr opcode;;
  add_len 1;;
  set_type (ASM_TYPE_LOAD ||| ASM_TYPE_IO);;
  n ← asm_operand_fetch 0 (opcode + 1) ASM_OTYPE_FIXED;
  add_len n;;
  op_set_content 0 (ASM_OP_BASE ||| ASM_OP_FIXED);;
  op_set_baser 0 ASM_REG_EAX;;
  o ← asm_proc_opsize;
  op_set_regset 0 (if o then ASM_REGSET_R16 else ASM_REGSET_R32);;
  n ← asm_operand_fetch 1 (opcode + 1) ASM_OTYPE_IMMEDIATEBYTE;
  add_len n;;
  op_set_content 1 (ASM_OP_REFERENCE ||| ASM_OP_VALUE);;
  ret_len.

Definition op_out_ref_ib_al : handler := λ opcode len,
  set_instr ASM_OUT;;
  set_ptr_instr opcode;;
  add_len 1;;
  set_type (ASM_TYPE_IO ||| ASM_TYPE_STORE);;
  n ← asm_operand_fetch 0 (opcode + 1) ASM_OTYPE_IMMEDIATEBYTE;
  add_len n;;
  n ← asm_operand_fetch 1 (opcode + 1) ASM_OTYPE_FIXED;
  add_len n;;
  op_set_content 1 ASM_OP_BASE;;
  op_set_regset 1 ASM_REGSET_R8;;
  op_set_baser 1 ASM_REG_AL;;
  ret_len.

Definition op_out_ref_ib_eax : handler := λ opcode len,
  set_ptr_instr opcode;;
  set_instr ASM_OUT;;
  add_len 1;;
  set_type (ASM_TYPE_IO ||| ASM_TYPE_STORE);;
  n ← asm_operand_fetch 0 (opcode + 1) ASM_OTYPE_IMMEDIATEBYTE;
  add_len n;;
  n ← asm_operand_fetch 1 opcode ASM_OTYPE_FIXED;
  add_len n;;
  op_set_content 1 ASM_OP_BASE;;
  op_set_regset 1 ASM_REGSET_R32;;
  op_set_baser 1 ASM_REG_EAX;;
  ret_len.

Definition op_call_iv : handler := λ opcode len,
  set_ptr_instr opcode;;
  set_instr ASM_CALL;;
  set_type (ASM_TYPE_CALLPROC ||| ASM_TYPE_TOUCHSP);;
  add_len 1;;
  n ← asm_operand_fetch 0 (opcode + 1) ASM_OTYPE_JUMP;
  add_len n;;
  ret_len.

Definition op_jmp_iv : handler := λ opcode len,
  set_instr ASM_BRANCH;;
  set_type ASM_TYPE_BRANCH;;
  set_ptr_instr opcode;;
  add_len 1;;
  n ← asm_operand_fetch 0 (opcode + 1) ASM_OTYPE_JUMP;
  add_len n;;
  ret_len.

Definition op_jmp_ap : handler := λ opcode len,
  set_ptr_instr opcode;;
  set_instr ASM_LBRANCH;;
  add_len 1;;
  set_type ASM_TYPE_BRANCH;;
  n ← asm_operand_fetch 0 (opcode + 1) ASM_OTYPE_ADDRESS;
  add_len n;;
  ret_len.

Definition op_jmp_ib : handler := λ opcode len,
  set_instr ASM_BRANCH;;
  set_type ASM_TYPE_BRANCH;;
  set_ptr_instr opcode;;
  add_len 1;;
  n ← asm_operand_fetch 0 (opcode + 1) ASM_OTYPE_SHORTJUMP;
  add_len n;;
  ret_len.

Definition op_in_al_dx : handler := λ opcode len,
  add_len 1;;
  set_instr ASM_IN;;
  set_type (ASM_TYPE_LOAD ||| ASM_TYPE_IO);;
  n ← asm_operand_fetch 0 opcode ASM_OTYPE_FIXED;
  add_len n;;
  set_ptr_instr opcode;;
  op_set_content 0 ASM_OP_BASE;;
  op_set_regset 0 ASM_REGSET_R8;;
  op_set_baser 0 ASM_REG_AL;;
  n ← asm_operand_fetch 1 opcode ASM_OTYPE_FIXED;
  add_len n;;
  op_set_content 1 (ASM_OP_BASE ||| ASM_OP_REFERENCE);;
  op_set_regset 1 ASM_REGSET_R16;;
  op_set_baser 1 ASM_REG_DX;;
  ret_len.

Definition op_in_eax_dx : handler := λ opcode len,
  add_len 1;;
  set_instr ASM_IN;;
  set_ptr_instr opcode;;
  set_type (ASM_TYPE_LOAD ||| ASM_TYPE_IO);;
  n ← asm_operand_fetch 0 opcode ASM_OTYPE_FIXED;
  add_len n;;
  op_set_content 0 ASM_OP_BASE;;
  op_set_regset 0 ASM_REGSET_R32;;
  op_set_baser 0 ASM_REG_EAX;;
  n ← asm_operand_fetch 1 opcode ASM_OTYPE_FIXED;
  add_len n;;
  op_set_regset 1 ASM_REGSET_R16;;
  op_set_baser 1 ASM_REG_DX;;
  op_set_content 1 (ASM_OP_BASE ||| ASM_OP_REFERENCE);;
  ret_len.

Definition op_out_dx_al : handler := λ opcode len,
  add_len 1;;
  set_ptr_instr opcode;;
  set_instr ASM_OUT;;
  set_type (ASM_TYPE_IO ||| ASM_TYPE_STORE);;
  n ← asm_operand_fetch 0 opcode ASM_OTYPE_FIXED;
  add_len n;;
  op_set_content 0 (ASM_OP_BASE ||| ASM_OP_REFERENCE);;
  op_set_regset 0 ASM_REGSET_R16;;
  op_set_baser 0 ASM_REG_DX;;
  n ← asm_operand_fetch 1 opcode ASM_OTYPE_FIXED;
  add_len n;;
  op_set_content 1 ASM_OP_BASE;;
  op_set_regset 1 ASM_REGSET_R8;;
  op_set_baser 1 ASM_REG_AL;;
  ret_len.

Definition op_out_dx_eax : handler := λ opcode len,
  add_len 1;;
  set_ptr_instr opcode;;
  set_instr ASM_OUT;;
  set_type (ASM_TYPE_IO ||| ASM_TYPE_STORE);;
  n ← asm_operand_fetch 0 opcode ASM_OTYPE_FIXED;
  add_len n;;
  op_set_content 0 (ASM_OP_BASE ||| ASM_OP_REFERENCE);;
  op_set_regset 0 ASM_REGSET_R16;;
  op_set_baser 0 ASM_REG_DX;;
  n ← asm_operand_fetch 1 opcode ASM_OTYPE_FIXED;
  add_len n;;
  op_set_content 1 ASM_OP_BASE;;
  op_set_regset 1 ASM_REGSET_R32;;
  op_set_baser 1 ASM_REG_EAX;;
  ret_len.

Definition op_lock : handler := λ opcode len,
  (i ← get_ins;
   if bool_decide (ins_ptr_prefix i = None) then set_ptr_prefix opcode else skip);;
  add_len 1;;
  set_prefix ASM_PREFIX_LOCK;;
  proc_fetch (opcode + 1) (u32 (len - 1)).

Definition op_int1 : handler := λ opcode len,
  set_ptr_instr opcode;;
  add_len 1;;
  set_instr ASM_INT1;;
  set_type (ASM_TYPE_INT ||| ASM_TYPE_TOUCHSP);;
  ret_len.

Definition op_repnz : handler := λ opcode len,
  (i ← get_ins;
   if bool_decide (ins_ptr_prefix i = None) then set_ptr_prefix opcode else skip);;
  add_len 1;;
  set_prefix ASM_PREFIX_REPNE;;
  proc_fetch (opcode + 1) (u32 (len - 1)).

Definition op_repz : handler := λ opcode len,
  (i ← get_ins;
   if bool_decide (ins_ptr_prefix i = None) then set_ptr_prefix opcode else skip);;
  add_len 1;;
  set_prefix ASM_PREFIX_REP;;
  proc_fetch (opcode + 1) (u32 (len - 1)).

Definition op_hlt : handler := λ opcode len,
  set_ptr_instr opcode;;
  add_len 1;;
  set_instr ASM_HLT;;
  set_type ASM_TYPE_STOP;;
  ret_len.

Definition op_cmc : handler := λ opcode len,
  set_ptr_instr opcode;;
  add_len 1;;
  set_instr ASM_CMC;;
  set_type ASM_TYPE_WRITEFLAG;;
  set_flagswritten ASM_FLAG_CF;;
  ret_len.

Definition op_unary_rmb : handler := λ opcode len,
  set_ptr_instr opcode;;
  let modrm := opcode + 1 in
  add_len 1;;
  set_type ASM_TYPE_ARITH;;
  early ← (r ← modrm_r modrm;
     switch r
       [(0,
         set_instr ASM_TEST;;
         set_type (ASM_TYPE_COMPARISON ||| ASM_TYPE_WRITEFLAG);;
         set_flagswritten (ASM_FLAG_OF ||| ASM_FLAG_CF ||| ASM_FLAG_PF ||| ASM_FLAG_SF |||
           ASM_FLAG_ZF);;
         op_set_type 0 ASM_OTYPE_ENCODED;;
         olen ← asm_operand_fetch 0 (opcode + 1) ASM_OTYPE_ENCODEDBYTE;
         add_len olen;;
         n ← asm_operand_fetch 1 (opcode + 1 + olen) ASM_OTYPE_IMMEDIATEBYTE;
         add_len n;;
         ret None);
        (1, ret (Some 0));
        (2,
         set_instr ASM_NOT;;
         ret None);
        (3,
         set_instr ASM_NEG;;
         or_type ASM_TYPE_WRITEFLAG;;
         set_flagswritten ASM_FLAG_CF;;
         ret None);
        (4,
         set_instr ASM_MUL;;
         or_type ASM_TYPE_WRITEFLAG;;
         set_flagswritten (ASM_FLAG_OF ||| ASM_FLAG_CF);;
         ret None);
        (5,
         set_instr ASM_IMUL;;
         or_type ASM_TYPE_WRITEFLAG;;
         set_flagswritten (ASM_FLAG_OF ||| ASM_FLAG_CF);;
         ret None);
        (6,
         set_instr ASM_DIV;;
         ret None);
        (7,
         set_instr ASM_IDIV;;
         ret None)]
       (ret None));
  match early with
  | Some v => ret v
  | None =>
    (o0 ← get_op 0;
     if bool_decide (op_type o0 = ASM_OTYPE_NONE) then
       n ← asm_operand_fetch 0 (opcode + 1) ASM_OTYPE_ENCODEDBYTE;
       add_len n
     else skip);;
    ret_len
  end.

Definition op_unary_rmv : handler := λ opcode len,
  let modrm := opcode + 1 in
  set_ptr_instr opcode;;
  add_len 1;;
  set_type ASM_TYPE_ARITH;;
  early ← (r ← modrm_r modrm;
     switch r
       [(0,
         set_instr ASM_TEST;;
         set_type (ASM_TYPE_COMPARISON ||| ASM_TYPE_WRITEFLAG);;
         set_flagswritten (ASM_FLAG_OF ||| ASM_FLAG_CF ||| ASM_FLAG_PF ||| ASM_FLAG_SF |||
           ASM_FLAG_ZF);;
         ret None);
        (1, ret (Some 0));
        (2,
         set_instr ASM_NOT;;
         ret None);
        (3,
         set_instr ASM_NEG;;
         or_type ASM_TYPE_WRITEFLAG;;
         set_flagswritten ASM_FLAG_CF;;
         ret None);
        (4,
         set_instr ASM_MUL;;
         or_type ASM_TYPE_WRITEFLAG;;
         set_flagswritten (ASM_FLAG_OF ||| ASM_FLAG_CF);;
         ret None);
        (5,
         set_instr ASM_IMUL;;
         or_type ASM_TYPE_WRITEFLAG;;
         set_flagswritten (ASM_FLAG_OF ||| ASM_FLAG_CF);;
         ret None);
        (6,
         set_instr ASM_DIV;;
         ret None);
        (7,
         set_instr ASM_IDIV;;
         ret None)]
       (ret None));
  match early with
  | Some v => ret v
  | None =>
    olen ← asm_operand_fetch 0 (opcode + 1) ASM_OTYPE_ENCODED;
    add_len olen;;
    (i ← get_ins;
     if asm_instr_id (ins_instr i) =? asm_instr_id ASM_TEST then
       n ← asm_operand_fetch 1 (opcode + 1 + olen) ASM_OTYPE_IMMEDIATE;
       add_len n
     else skip);;
    ret_len
  end.

Definition op_clc : handler := λ opcode len,
  add_len 1;;
  set_ptr_instr opcode;;
  set_instr ASM_CLC;;
  set_type ASM_TYPE_WRITEFLAG;;
  set_flagswritten ASM_FLAG_CF;;
  ret_len.

Definition op_stc : handler := λ opcode len,
  add_len 1;;
  set_ptr_instr opcode;;
  set_instr ASM_STC;;
  set_type ASM_TYPE_WRITEFLAG;;
  set_flagswritten ASM_FLAG_CF;;
  ret_len.

Definition op_cli : handler := λ opcode len,
  add_len 1;;
  set_ptr_instr opcode;;
  set_instr ASM_CLI;;
  set_type ASM_TYPE_WRITEFLAG;;
  set_flagswritten ASM_FLAG_IF;;
  ret_len.

Definition op_sti : handler := λ opcode len,
  add_len 1;;
  set_ptr_instr opcode;;
  set_instr ASM_STI;;
  set_type ASM_TYPE_WRITEFLAG;;
  set_flagswritten ASM_FLAG_IF;;
  ret_len.

Definition op_cld : handler := λ opcode len,
  add_len 1;;
  set_ptr_instr opcode;;
  set_instr ASM_CLD;;
  set_type ASM_TYPE_WRITEFLAG;;
  set_flagswritten ASM_FLAG_DF;;
  ret_len.

Definition op_std : handler := λ opcode len,
  add_len 1;;
  set_ptr_instr opcode;;
  set_instr ASM_STD;;
  set_type ASM_TYPE_WRITEFLAG;;
  set_flagswritten ASM_FLAG_DF;;
  ret_len.

Definition op_incdec_rmb : handler := λ opcode len,
  set_ptr_instr opcode;;
  let modrm := opcode + 1 in
  add_len 1;;
  set_type (ASM_TYPE_ARITH ||| ASM_TYPE_INCDEC ||| ASM_TYPE_WRITEFLAG);;
  set_flagswritten (ASM_FLAG_AF ||| ASM_FLAG_OF ||| ASM_FLAG_PF ||| ASM_FLAG_SF ||| ASM_FLAG_ZF);;
  (r ← modrm_r modrm;
   switch r
     [(0, set_instr ASM_INC);
      (1, set_instr ASM_DEC);
      (2, skip);
      (3, skip);
      (4, skip);
      (5, skip);
      (6, skip);
      (7, skip)]
     skip);;
  n ← asm_operand_fetch 0 (opcode + 1) ASM_OTYPE_ENCODEDBYTE;
  add_len n;;
  ret_len.

Definition op_indir_rmv : handler := λ opcode len,
  set_ptr_instr opcode;;
  let modrm := opcode + 1 in
  add_len 1;;
  (r ← modrm_r modrm;
   switch r
     [(0,
       set_instr ASM_INC;;
       set_type (ASM_TYPE_INCDEC ||| ASM_TYPE_ARITH ||| ASM_TYPE_WRITEFLAG);;
       set_flagswritten (ASM_FLAG_AF ||| ASM_FLAG_OF ||| ASM_FLAG_PF ||| ASM_FLAG_SF |||
         ASM_FLAG_ZF);;
       op_set_type 0 ASM_OTYPE_ENCODED;;
       op_set_size 0 ASM_OSIZE_VECTOR);
      (1,
       set_instr ASM_DEC;;
       set_type (ASM_TYPE_INCDEC ||| ASM_TYPE_ARITH ||| ASM_TYPE_WRITEFLAG);;
       set_flagswritten (ASM_FLAG_AF ||| ASM_FLAG_OF ||| ASM_FLAG_PF ||| ASM_FLAG_SF |||
         ASM_FLAG_ZF);;
       op_set_type 0 ASM_OTYPE_ENCODED;;
       op_set_size 0 ASM_OSIZE_VECTOR);
      (2,
       set_type (ASM_TYPE_CALLPROC ||| ASM_TYPE_TOUCHSP);;
       set_spdiff (-4);;
       set_instr ASM_CALL;;
       op_set_type 0 ASM_OTYPE_MEMORY);
      (3,
       set_type (ASM_TYPE_CALLPROC ||| ASM_TYPE_TOUCHSP);;
       set_instr ASM_CALL;;
       op_set_type 0 ASM_OTYPE_MEMORY);
      (4,
       set_type ASM_TYPE_BRANCH;;
       set_instr ASM_BRANCH;;
       op_set_type 0 ASM_OTYPE_MEMORY);
      (5,
       set_type ASM_TYPE_BRANCH;;
       set_instr ASM_BRANCH;;
       op_set_type 0 ASM_OTYPE_MEMORY);
      (6,
       set_instr ASM_PUSH;;
       set_type (ASM_TYPE_TOUCHSP ||| ASM_TYPE_STORE);;
       op_set_type 0 ASM_OTYPE_ENCODED;;
       op_set_size 0 ASM_OSIZE_VECTOR);
      (7,
       set_instr ASM_BAD;;
       op_set_type 0 ASM_OTYPE_ENCODED;;
       op_set_size 0 ASM_OSIZE_VECTOR)]
     skip);;
  (o0 ← get_op 0;
   if (bool_decide (op_type o0 = ASM_OTYPE_ENCODED)) ||
     (bool_decide (op_type o0 = ASM_OTYPE_MEMORY)) then
     n ← asm_operand_fetch 0 (opcode + 1) ASM_OTYPE_ENCODED;
     add_len n;;
     (o0 ← get_op 0;
      if bool_decide (op_type o0 = ASM_OTYPE_MEMORY) then
        op_or_content 0 ASM_OP_ADDRESS
      else skip)
   else skip);;
  ret_len.
