(* ===== verification/Ia32Ext.v ===== *)
(** The IA-32 handlers of arch/ia32/handlers for the two-byte opcodes. Each
    definition translates the function of that name of the file of that name. *)

From S2P Require Import Prelude Ia32 Ia32Operand.

Definition op_group6 : handler := λ opcode len,
  add_len 1;;
  let modrm := opcode + 1 in
  (r ← modrm_r modrm;
   switch r
     [(0, set_instr ASM_SLDT);
      (1, set_instr ASM_STR);
      (2, set_instr ASM_LLDT);
      (3, set_instr ASM_LTR);
      (4, skip);
      (5, skip);
      (6, skip);
      (7, skip)]
     skip);;
  n ← asm_operand_fetch 0 (opcode + 1) ASM_OTYPE_ENCODED;
  add_len n;;
  op_set_regset 0 ASM_REGSET_R16;;
  ret_len.

Definition op_group7 : handler := λ opcode len,
  add_len 1;;
  let modrm := opcode + 1 in
  (r ← modrm_r modrm;
   switch r
     [(0,
       set_instr ASM_SGDT;;
       n ← asm_operand_fetch 0 (opcode + 1) ASM_OTYPE_ENCODED;
       add_len n);
      (1, set_instr ASM_SIDT);
      (2,
       set_instr ASM_LGDT;;
       n ← asm_operand_fetch 0 (opcode + 1) ASM_OTYPE_ENCODED;
       add_len n);
      (3,
       set_instr ASM_LIDT;;
       n ← asm_operand_fetch 0 (opcode + 1) ASM_OTYPE_ENCODED;
       add_len n);
      (4, skip);
      (5, set_instr ASM_BAD);
      (6, skip);
      (7, skip)]
     skip);;
  ret_len.

Definition i386_wbinvd : handler := λ opcode len,
  add_len 1;;
  set_instr ASM_WBINVD;;
  ret_len.

Definition op_ud2a : handler := λ opcode len,
  add_len 1;;
  set_instr ASM_UD2A;;
  ret_len.

Definition i386_mov_rm_cr : handler := λ opcode len,
  let modrm := opcode + 1 in
  add_len 1;;
  n ← asm_operand_fetch 0 (opcode + 1) ASM_OTYPE_REGISTER;
  add_len n;;
  n ← asm_operand_fetch 1 (opcode + 1) ASM_OTYPE_CONTROL;
  add_len n;;
  ret_len.

Definition i386_mov_cr_rm : handler := λ opcode len,
  let modrm := opcode + 1 in
  add_len 1;;
  set_instr ASM_MOV;;
  n ← asm_operand_fetch 0 (opcode + 1) ASM_OTYPE_CONTROL;
  add_len n;;
  n ← asm_operand_fetch 1 (opcode + 1) ASM_OTYPE_REGISTER;
  add_len n;;
  ret_len.

Definition i386_mov_dr_rm : handler := λ opcode len,
  let modrm := opcode + 1 in
  add_len 1;;
  set_instr ASM_MOV;;
  n ← asm_operand_fetch 0 (opcode + 1) ASM_OTYPE_DEBUG;
  add_len n;;
  n ← asm_operand_fetch 1 (opcode + 1) ASM_OTYPE_REGISTER;
  add_len n;;
  ret_len.

Definition i386_rdtsc : handler := λ opcode len,
  set_ptr_instr opcode;;
  add_len 1;;
  set_instr ASM_RDTSC;;
  ret_len.

Definition i386_rdmsr : handler := λ opcode len,
  set_ptr_instr opcode;;
  add_len 1;;
  set_instr ASM_RDMSR;;
  ret_len.

Definition i386_cmovo : handler := λ opcode len,
  add_len 1;;
  set_instr ASM_CMOVO;;
  n ← asm_operand_fetch 0 (opcode + 1) ASM_OTYPE_GENERAL;
  add_len n;;
  n ← asm_operand_fetch 1 (opcode + 1) ASM_OTYPE_ENCODED;
  add_len n;;
  ret_len.

Definition i386_cmovno : handler := λ opcode len,
  add_len 1;;
  set_instr ASM_CMOVNO;;
  n ← asm_operand_fetch 0 (opcode + 1) ASM_OTYPE_GENERAL;
  add_len n;;
  n ← asm_operand_fetch 1 (opcode + 1) ASM_OTYPE_ENCODED;
  add_len n;;
  ret_len.

Definition i386_cmovb : handler := λ opcode len,
  add_len 1;;
  set_instr ASM_CMOVB;;
  n ← asm_operand_fetch 0 (opcode + 1) ASM_OTYPE_GENERAL;
  add_len n;;
  n ← asm_operand_fetch 1 (opcode + 1) ASM_OTYPE_ENCODED;
  add_len n;;
  ret_len.

Definition i386_cmovae : handler := λ opcode len,
  add_len 1;;
  set_instr ASM_CMOVAE;;
  n ← asm_operand_fetch 0 (opcode + 1) ASM_OTYPE_GENERAL;
  add_len n;;
  n ← asm_operand_fetch 1 (opcode + 1) ASM_OTYPE_ENCODED;
  add_len n;;
  ret_len.

Definition i386_cmove : handler := λ opcode len,
  add_len 1;;
  set_instr ASM_CMOVE;;
  n ← asm_operand_fetch 0 (opcode + 1) ASM_OTYPE_GENERAL;
  add_len n;;
  n ← asm_operand_fetch 1 (opcode + 1) ASM_OTYPE_ENCODED;
  add_len n;;
  ret_len.

Definition i386_cmovne : handler := λ opcode len,
  add_len 1;;
  set_instr ASM_CMOVNE;;
  n ← asm_operand_fetch 0 (opcode + 1) ASM_OTYPE_GENERAL;
  add_len n;;
  n ← asm_operand_fetch 1 (opcode + 1) ASM_OTYPE_ENCODED;
  add_len n;;
  ret_len.

Definition i386_cmovbe : handler := λ opcode len,
  add_len 1;;
  set_instr ASM_CMOVBE;;
  n ← asm_operand_fetch 0 (opcode + 1) ASM_OTYPE_GENERAL;
  add_len n;;
  n ← asm_operand_fetch 1 (opcode + 1) ASM_OTYPE_ENCODED;
  add_len n;;
  ret_len.

Definition i386_cmova : handler := λ opcode len,
  add_len 1;;
  set_instr ASM_CMOVA;;
  set_type (ASM_TYPE_ASSIGN ||| ASM_TYPE_COMPARISON);;
  n ← asm_operand_fetch 0 (opcode + 1) ASM_OTYPE_GENERAL;
  add_len n;;
  n ← asm_operand_fetch 1 (opcode + 1) ASM_OTYPE_ENCODED;
  add_len n;;
  ret_len.

Definition i386_cmovs : handler := λ opcode len,
  add_len 1;;
  set_instr ASM_CMOVA;;
  n ← asm_operand_fetch 0 (opcode + 1) ASM_OTYPE_GENERAL;
  add_len n;;
  n ← asm_operand_fetch 1 (opcode + 1) ASM_OTYPE_ENCODED;
  add_len n;;
  ret_len.

Definition i386_cmovns : handler := λ opcode len,
  add_len 1;;
  set_instr ASM_CMOVNS;;
  n ← asm_operand_fetch 0 (opcode + 1) ASM_OTYPE_GENERAL;
  add_len n;;
  n ← asm_operand_fetch 1 (opcode + 1) ASM_OTYPE_ENCODED;
  add_len n;;
  ret_len.

Definition i386_cmovp : handler := λ opcode len,
  add_len 1;;
  set_instr ASM_CMOVP;;
  n ← asm_operand_fetch 0 (opcode + 1) ASM_OTYPE_GENERAL;
  add_len n;;
  n ← asm_operand_fetch 1 (opcode + 1) ASM_OTYPE_ENCODED;
  add_len n;;
  ret_len.

Definition i386_cmovnp : handler := λ opcode len,
  add_len 1;;
  set_instr ASM_CMOVNP;;
  n ← asm_operand_fetch 0 (opcode + 1) ASM_OTYPE_GENERAL;
  add_len n;;
  n ← asm_operand_fetch 1 (opcode + 1) ASM_OTYPE_ENCODED;
  add_len n;;
  ret_len.

Definition i386_cmovl : handler := λ opcode len,
  add_len 1;;
  set_instr ASM_CMOVL;;
  n ← asm_operand_fetch 0 (opcode + 1) ASM_OTYPE_GENERAL;
  add_len n;;
  n ← asm_operand_fetch 1 (opcode + 1) ASM_OTYPE_ENCODED;
  add_len n;;
  ret_len.

Definition i386_cmovnl : handler := λ opcode len,
  add_len 1;;
  set_instr ASM_CMOVNL;;
  n ← asm_operand_fetch 0 (opcode + 1) ASM_OTYPE_GENERAL;
  add_len n;;
  n ← asm_operand_fetch 1 (opcode + 1) ASM_OTYPE_ENCODED;
  add_len n;;
  ret_len.

Definition i386_cmovle : handler := λ opcode len,
  add_len 1;;
  set_instr ASM_CMOVLE;;
  n ← asm_operand_fetch 0 (opcode + 1) ASM_OTYPE_GENERAL;
  add_len n;;
  n ← asm_operand_fetch 1 (opcode + 1) ASM_OTYPE_ENCODED;
  add_len n;;
  ret_len.

Definition i386_cmovnle : handler := λ opcode len,
  add_len 1;;
  set_instr ASM_CMOVNLE;;
  n ← asm_operand_fetch 0 (opcode + 1) ASM_OTYPE_GENERAL;
  add_len n;;
  n ← asm_operand_fetch 1 (opcode + 1) ASM_OTYPE_ENCODED;
  add_len n;;
  ret_len.

Definition i386_punpcklbw_pq_qd : handler := λ opcode len,
  set_ptr_instr opcode;;
  add_len 1;;
  set_instr ASM_PUNPCKLBW;;
  n ← asm_operand_fetch 0 (opcode + 1) ASM_OTYPE_GENERAL;
  add_len n;;
  n ← asm_operand_fetch 1 (opcode + 1) ASM_OTYPE_ENCODED;
  add_len n;;
  op_set_regset 0 ASM_REGSET_MM;;
  op_set_regset 1 ASM_REGSET_MM;;
  ret_len.

Definition i386_packuswb_pq_qq : handler := λ opcode len,
  set_ptr_instr opcode;;
  add_len 1;;
  set_instr ASM_PACKUSWB;;
  op_set_type 0 ASM_OTYPE_PMMX;;
  op_set_size 0 ASM_OSIZE_QWORD;;
  op_set_type 1 ASM_OTYPE_QMMX;;
  op_set_size 1 ASM_OSIZE_QWORD;;
  n ← asm_operand_fetch 0 (opcode + 1) ASM_OTYPE_GENERAL;
  add_len n;;
  n ← asm_operand_fetch 1 (opcode + 1) ASM_OTYPE_ENCODED;
  add_len n;;
  op_set_regset 0 ASM_REGSET_MM;;
  op_set_regset 1 ASM_REGSET_MM;;
  ret_len.

Definition i386_punpckhbw_pq_qq : handler := λ opcode len,
  set_ptr_instr opcode;;
  add_len 1;;
  set_instr ASM_PUNPCKHBW;;
  n ← asm_operand_fetch 0 (opcode + 1) ASM_OTYPE_GENERAL;
  add_len n;;
  n ← asm_operand_fetch 1 (opcode + 1) ASM_OTYPE_ENCODED;
  add_len n;;
  op_set_regset 0 ASM_REGSET_MM;;
  op_set_regset 1 ASM_REGSET_MM;;
  ret_len.

Definition i386_movd_pd_qd : handler := λ opcode len,
  set_ptr_instr opcode;;
  add_len 1;;
  set_instr ASM_MOVD;;
  n ← asm_operand_fetch 0 (opcode + 1) ASM_OTYPE_GENERAL;
  add_len n;;
  n ← asm_operand_fetch 1 (opcode + 1) ASM_OTYPE_ENCODED;
  add_len n;;
  ret_len.

Definition i386_movq_pq_qq : handler := λ opcode len,
  set_ptr_instr opcode;;
  add_len 1;;
  set_instr ASM_MOVQ;;
  n ← asm_operand_fetch 0 (opcode + 1) ASM_OTYPE_GENERAL;
  add_len n;;
  n ← asm_operand_fetch 1 (opcode + 1) ASM_OTYPE_PMMX;
  add_len n;;
  ret_len.

Definition i386_group12 : handler := λ opcode len,
  let modrm := opcode + 1 in
  set_ptr_instr opcode;;
  add_len 1;;
  early ← (r ← modrm_r modrm;
     switch r
       [(2,
         set_instr ASM_PSRLW;;
         ret None);
        (4,
         set_instr ASM_PSRAW;;
         ret None);
        (6,
         set_instr ASM_PSLLW;;
         ret None)]
       (set_instr ASM_BAD;;
        set_len 0;;
        v ← ret_len;
        ret (Some v)));
  match early with
  | Some v => ret v
  | None =>
    olen ← asm_operand_fetch 0 (opcode + 1) ASM_OTYPE_PMMX;
    add_len olen;;
    n ← asm_operand_fetch 1 (opcode + 1 + olen) ASM_OTYPE_IMMEDIATEBYTE;
    add_len n;;
    ret_len
  end.

Definition i386_group14 : handler := λ opcode len,
  let modrm := opcode + 1 in
  set_ptr_instr opcode;;
  add_len 1;;
  early ← (r ← modrm_r modrm;
     switch r
       [(2,
         set_instr ASM_PSRLQ;;
         ret None);
        (6,
         set_instr ASM_PSLLQ;;
         op_set_type 0 ASM_OTYPE_PMMX;;
         op_set_size 0 ASM_OSIZE_QWORD;;
         op_set_type 1 ASM_OTYPE_IMMEDIATE;;
         op_set_size 1 ASM_OSIZE_BYTE;;
         operand_rmb_ib (opcode + 1) (u32 (len - 1));;
         op_set_regset 0 ASM_REGSET_MM;;
         ret None)]
       (set_instr ASM_BAD;;
        set_len 0;;
        v ← ret_len;
        ret (Some v)));
  match early with
  | Some v => ret v
  | None =>
    olen ← asm_operand_fetch 0 (opcode + 1) ASM_OTYPE_PMMX;
    add_len olen;;
    n ← asm_operand_fetch 1 (opcode + 1 + olen) ASM_OTYPE_IMMEDIATEBYTE;
    add_len n;;
    ret_len
  end.

Definition i386_group15 : handler := λ opcode len,
  let modrm := opcode + 1 in
  add_len 1;;
  (r ← modrm_r modrm;
   switch r
     [(2,
       set_instr ASM_LDMXCSR;;
       op_set_type 0 ASM_OTYPE_ENCODED;;
       n ← asm_operand_fetch 0 (opcode + 1) ASM_OTYPE_ENCODED;
       add_len n);
      (3,
       set_instr ASM_STMXCSR;;
       n ← asm_operand_fetch 0 (opcode + 1) ASM_OTYPE_ENCODED;
       add_len n);
      (7,
       set_instr ASM_CLFLUSH;;
       op_set_type 0 ASM_OTYPE_GENERAL)]
     (set_len 0));;
  ret_len.

Definition i386_emms : handler := λ opcode len,
  add_len 1;;
  set_ptr_instr opcode;;
  set_instr ASM_MOVQ;;
  ret_len.

Definition i386_movq_qq_pq : handler := λ opcode len,
  set_ptr_instr opcode;;
  add_len 1;;
  set_instr ASM_MOVQ;;
  n ← asm_operand_fetch 0 (opcode + 1) ASM_OTYPE_GENERAL;
  add_len n;;
  n ← asm_operand_fetch 1 (opcode + 1) ASM_OTYPE_PMMX;
  add_len n;;
  ret_len.

Definition i386_jb : handler := λ opcode len,
  set_instr ASM_BRANCH_U_LESS;;
  add_len 1;;
  n ← asm_operand_fetch 0 (opcode + 1) ASM_OTYPE_JUMP;
  add_len n;;
  ret_len.

Definition i386_jae : handler := λ opcode len,
  set_instr ASM_BRANCH_U_GREATER_EQUAL;;
  add_len 1;;
  n ← asm_operand_fetch 0 (opcode + 1) ASM_OTYPE_JUMP;
  add_len n;;
  ret_len.

Definition i386_je : handler := λ opcode len,
  set_type (ASM_TYPE_BRANCH ||| ASM_TYPE_CONDCONTROL);;
  set_instr ASM_BRANCH_EQUAL;;
  add_len 1;;
  n ← asm_operand_fetch 0 (opcode + 1) ASM_OTYPE_JUMP;
  add_len n;;
  ret_len.

Definition i386_jne : handler := λ opcode len,
  set_type (ASM_TYPE_BRANCH ||| ASM_TYPE_CONDCONTROL);;
  set_instr ASM_BRANCH_NOT_EQUAL;;
  add_len 1;;
  n ← asm_operand_fetch 0 (opcode + 1) ASM_OTYPE_JUMP;
  add_len n;;
  ret_len.

Definition i386_jbe : handler := λ opcode len,
  set_instr ASM_BRANCH_U_LESS_EQUAL;;
  add_len 1;;
  n ← asm_operand_fetch 0 (opcode + 1) ASM_OTYPE_JUMP;
  add_len n;;
  ret_len.

Definition i386_ja : handler := λ opcode len,
  set_type (ASM_TYPE_BRANCH ||| ASM_TYPE_CONDCONTROL);;
  set_instr ASM_BRANCH_U_GREATER;;
  add_len 1;;
  n ← asm_operand_fetch 0 (opcode + 1) ASM_OTYPE_JUMP;
  add_len n;;
  ret_len.

Definition i386_js : handler := λ opcode len,
  set_instr ASM_BRANCH_SIGNED;;
  add_len 1;;
  n ← asm_operand_fetch 0 (opcode + 1) ASM_OTYPE_JUMP;
  add_len n;;
  ret_len.

Definition i386_jns : handler := λ opcode len,
  set_type (ASM_TYPE_BRANCH ||| ASM_TYPE_CONDCONTROL);;
  set_instr ASM_BRANCH_NOT_SIGNED;;
  add_len 1;;
  n ← asm_operand_fetch 0 (opcode + 1) ASM_OTYPE_JUMP;
  add_len n;;
  ret_len.

Definition i386_jp : handler := λ opcode len,
  set_type (ASM_TYPE_BRANCH ||| ASM_TYPE_CONDCONTROL);;
  set_instr ASM_BRANCH_PARITY;;
  add_len 1;;
  n ← asm_operand_fetch 0 (opcode + 1) ASM_OTYPE_JUMP;
  add_len n;;
  ret_len.

Definition i386_jnp : handler := λ opcode len,
  set_type (ASM_TYPE_BRANCH ||| ASM_TYPE_CONDCONTROL);;
  set_instr ASM_BRANCH_NOT_PARITY;;
  add_len 1;;
  n ← asm_operand_fetch 0 (opcode + 1) ASM_OTYPE_JUMP;
  add_len n;;
  ret_len.

Definition i386_jl : handler := λ opcode len,
  set_type (ASM_TYPE_BRANCH ||| ASM_TYPE_CONDCONTROL);;
  set_instr ASM_BRANCH_S_LESS;;
  add_len 1;;
  n ← asm_operand_fetch 0 (opcode + 1) ASM_OTYPE_JUMP;
  add_len n;;
  ret_len.

Definition i386_jge : handler := λ opcode len,
  set_type (ASM_TYPE_BRANCH ||| ASM_TYPE_CONDCONTROL);;
  set_instr ASM_BRANCH_S_GREATER_EQUAL;;
  add_len 1;;
  n ← asm_operand_fetch 0 (opcode + 1) ASM_OTYPE_JUMP;
  add_len n;;
  ret_len.

Definition i386_jle : handler := λ opcode len,
  set_type (ASM_TYPE_BRANCH ||| ASM_TYPE_CONDCONTROL);;
  set_instr ASM_BRANCH_S_LESS_EQUAL;;
  add_len 1;;
  n ← asm_operand_fetch 0 (opcode + 1) ASM_OTYPE_JUMP;
  add_len n;;
  ret_len.

Definition i386_jg : handler := λ opcode len,
  set_type (ASM_TYPE_BRANCH ||| ASM_TYPE_CONDCONTROL);;
  set_instr ASM_BRANCH_S_GREATER;;
  add_len 1;;
  n ← asm_operand_fetch 0 (opcode + 1) ASM_OTYPE_JUMP;
  add_len n;;
  ret_len.

(** * From 0x0f 0x90 *)

Definition op_seto_rmb : handler := λ opcode len,
  add_len 1;;
  set_instr ASM_SET_OVERFLOW;;
  n ← asm_operand_fetch 0 (opcode + 1) ASM_OTYPE_ENCODEDBYTE;
  add_len n;;
  ret_len.

Definition op_setno_rmb : handler := λ opcode len,
  add_len 1;;
  set_instr ASM_SET_NOT_OVERFLOW;;
  n ← asm_operand_fetch 0 (opcode + 1) ASM_OTYPE_ENCODEDBYTE;
  add_len n;;
  ret_len.

Definition op_setb_rmb : handler := λ opcode len,
  set_instr ASM_SET_U_LESS;;
  add_len 1;;
  n ← asm_operand_fetch 0 (opcode + 1) ASM_OTYPE_ENCODEDBYTE;
  add_len n;;
  ret_len.

Definition op_setae_rmb : handler := λ opcode len,
  add_len 1;;
  set_instr ASM_SET_U_GREATER_EQUAL;;
  n ← asm_operand_fetch 0 (opcode + 1) ASM_OTYPE_ENCODEDBYTE;
  add_len n;;
  ret_len.

Definition op_sete_rmb : handler := λ opcode len,
  set_instr ASM_SET_EQUAL;;
  add_len 1;;
  n ← asm_operand_fetch 0 (opcode + 1) ASM_OTYPE_ENCODEDBYTE;
  add_len n;;
  ret_len.

Definition op_setne_rmb : handler := λ opcode len,
  add_len 1;;
  set_instr ASM_SET_NOT_EQUAL;;
  n ← asm_operand_fetch 0 (opcode + 1) ASM_OTYPE_ENCODEDBYTE;
  add_len n;;
  ret_len.

Definition op_setbe_rmb : handler := λ opcode len,
  add_len 1;;
  set_instr ASM_SET_U_LESS_EQUAL;;
  n ← asm_operand_fetch 0 (opcode + 1) ASM_OTYPE_ENCODEDBYTE;
  add_len n;;
  ret_len.

Definition op_seta_rmb : handler := λ opcode len,
  add_len 1;;
  set_instr ASM_SET_U_GREATER;;
  n ← asm_operand_fetch 0 (opcode + 1) ASM_OTYPE_ENCODEDBYTE;
  add_len n;;
  ret_len.

Definition op_sets_rmb : handler := λ opcode len,
  add_len 1;;
  set_instr ASM_SET_SIGNED;;
  n ← asm_operand_fetch 0 (opcode + 1) ASM_OTYPE_ENCODEDBYTE;
  add_len n;;
  ret_len.

Definition op_setns_rmb : handler := λ opcode len,
  add_len 1;;
  set_instr ASM_SET_NOT_SIGNED;;
  n ← asm_operand_fetch 0 (opcode + 1) ASM_OTYPE_ENCODEDBYTE;
  add_len n;;
  ret_len.

Definition op_setp_rmb : handler := λ opcode len,
  add_len 1;;
  set_instr ASM_SET_PARITY;;
  n ← asm_operand_fetch 0 (opcode + 1) ASM_OTYPE_ENCODEDBYTE;
  add_len n;;
  ret_len.

Definition op_setnp_rmb : handler := λ opcode len,
  add_len 1;;
  set_instr ASM_SET_NOT_PARITY;;
  n ← asm_operand_fetch 0 (opcode + 1) ASM_OTYPE_ENCODEDBYTE;
  add_len n;;
  ret_len.

Definition op_setl_rmb : handler := λ opcode len,
  set_instr ASM_SET_S_LESS;;
  add_len 1;;
  n ← asm_operand_fetch 0 (opcode + 1) ASM_OTYPE_ENCODEDBYTE;
  add_len n;;
  ret_len.

Definition op_setge_rmb : handler := λ opcode len,
  add_len 1;;
  set_instr ASM_SET_S_GREATER_EQUAL;;
  n ← asm_operand_fetch 0 (opcode + 1) ASM_OTYPE_ENCODEDBYTE;
  add_len n;;
  ret_len.

Definition op_setle_rmb : handler := λ opcode len,
  add_len 1;;
  set_instr ASM_SET_S_LESS_EQUAL;;
  n ← asm_operand_fetch 0 (opcode + 1) ASM_OTYPE_ENCODEDBYTE;
  add_len n;;
  ret_len.

Definition op_setg_rmb : handler := λ opcode len,
  set_instr ASM_SET_S_GREATER;;
  add_len 1;;
  n ← asm_operand_fetch 0 (opcode + 1) ASM_OTYPE_ENCODEDBYTE;
  add_len n;;
  ret_len.

Definition i386_push_fs : handler := λ opcode len,
  set_instr ASM_PUSH;;
  add_len 1;;
  n ← asm_operand_fetch 0 opcode ASM_OTYPE_FIXED;
  add_len n;;
  op_set_content 0 (ASM_OP_BASE ||| ASM_OP_FIXED);;
  op_set_regset 0 ASM_REGSET_SREG;;
  op_set_len 0 0;;
  op_set_ptr 0 None;;
  op_set_baser 0 ASM_REG_FS;;
  ret_len.

Definition i386_pop_fs : handler := λ opcode len,
  set_instr ASM_POP;;
  add_len 1;;
  n ← asm_operand_fetch 0 opcode ASM_OTYPE_FIXED;
  add_len n;;
  op_set_regset 0 ASM_REGSET_SREG;;
  op_set_content 0 (ASM_OP_BASE ||| ASM_OP_FIXED);;
  op_set_len 0 0;;
  op_set_ptr 0 None;;
  op_set_baser 0 ASM_REG_FS;;
  ret_len.

Definition i386_cpuid : handler := λ opcode len,
  add_len 1;;
  set_instr ASM_CPUID;;
  ret_len.

Definition i386_bt_rm_r : handler := λ opcode len,
  let modrm := opcode + 1 in
  set_instr ASM_BT;;
  add_len 1;;
  set_type (ASM_TYPE_BITTEST ||| ASM_TYPE_WRITEFLAG);;
  set_flagswritten ASM_FLAG_CF;;
  n ← asm_operand_fetch 0 (opcode + 1) ASM_OTYPE_ENCODED;
  add_len n;;
  n ← asm_operand_fetch 1 (opcode + 1) ASM_OTYPE_GENERAL;
  add_len n;;
  ret_len.

Definition i386_shld : handler := λ opcode len,
  add_len 1;;
  let modrm := opcode + 1 in
  set_instr ASM_SHLD;;
  n ← asm_operand_fetch 0 (opcode + 1) ASM_OTYPE_REGISTER;
  add_len n;;
  n ← asm_operand_fetch 1 (opcode + 1) ASM_OTYPE_GENERAL;
  add_len n;;
  n ← asm_operand_fetch 2 (opcode + 2) ASM_OTYPE_IMMEDIATEBYTE;
  add_len n;;
  add_len 1;;
  ret_len.

Definition i386_shld_rmv_rv_cl : handler := λ opcode len,
  set_instr ASM_SHRD;;
  add_len 1;;
  n ← asm_operand_fetch 0 (opcode + 1) ASM_OTYPE_ENCODED;
  add_len n;;
  n ← asm_operand_fetch 1 (opcode + 1) ASM_OTYPE_GENERAL;
  add_len n;;
  n ← asm_operand_fetch 2 (opcode + 1) ASM_OTYPE_FIXED;
  add_len n;;
  op_set_content 2 ASM_OP_BASE;;
  op_set_regset 2 ASM_REGSET_R8;;
  op_set_ptr 2 (Some opcode);;
  op_set_len 2 0;;
  op_set_baser 2 ASM_REG_CL;;
  ret_len.

Definition i386_xstorenrg : handler := λ opcode len,
  (b ← read (opcode + 1);
   switch b
     [(192, set_instr ASM_XSTORERNG);
      (208, set_instr ASM_XCRYPTCBC);
      (224, set_instr ASM_XCRYPTCFB);
      (232, set_instr ASM_XCRYPTOFB)]
     (set_instr ASM_NONE));;
  add_len 2;;
  ret_len.

Definition i386_bts : handler := λ opcode len,
  add_len 1;;
  set_instr ASM_BTS;;
  set_type (ASM_TYPE_BITTEST ||| ASM_TYPE_BITSET ||| ASM_TYPE_WRITEFLAG);;
  set_flagswritten ASM_FLAG_CF;;
  n ← asm_operand_fetch 0 (opcode + 1) ASM_OTYPE_ENCODED;
  add_len n;;
  n ← asm_operand_fetch 1 (opcode + 1) ASM_OTYPE_GENERAL;
  add_len n;;
  ret_len.

Definition i386_shrd_rmv_rv_ib : handler := λ opcode len,
  set_instr ASM_SHRD;;
  add_len 1;;
  olen ← asm_operand_fetch 0 (opcode + 1) ASM_OTYPE_ENCODED;
  add_len olen;;
  n ← asm_operand_fetch 1 (opcode + 1) ASM_OTYPE_GENERAL;
  add_len n;;
  n ← asm_operand_fetch 2 (opcode + 1 + olen) ASM_OTYPE_IMMEDIATEBYTE;
  add_len n;;
  ret_len.

Definition i386_shrd_rmv_rv_cl : handler := λ opcode len,
  set_instr ASM_SHRD;;
  add_len 1;;
  n ← asm_operand_fetch 0 (opcode + 1) ASM_OTYPE_ENCODED;
  add_len n;;
  n ← asm_operand_fetch 1 (opcode + 1) ASM_OTYPE_GENERAL;
  add_len n;;
  n ← asm_operand_fetch 0 (opcode + 1) ASM_OTYPE_FIXED;
  add_len n;;
  op_set_content 2 ASM_OP_BASE;;
  op_set_regset 2 ASM_REGSET_R8;;
  op_set_ptr 2 (Some opcode);;
  op_set_len 2 0;;
  op_set_baser 2 ASM_REG_CL;;
  ret_len.

Definition i386_group16 : handler := λ opcode len,
  (i ← get_ins;
   if bool_decide (ins_ptr_instr i ≠ None) then set_ptr_instr (opcode - 1) else skip);;
  add_len 1;;
  set_instr ASM_BAD;;
  let modrm := opcode + 1 in
  (r ← modrm_r modrm;
   switch r
     [(0,
       set_instr ASM_FXSAVE;;
       n ← asm_operand_fetch 0 (opcode + 1) ASM_OTYPE_ENCODED;
       add_len n);
      (1,
       set_instr ASM_FXRSTORE;;
       n ← asm_operand_fetch 0 (opcode + 1) ASM_OTYPE_ENCODED;
       add_len n);
      (2,
       set_instr ASM_LDMXCSR;;
       n ← asm_operand_fetch 0 (opcode + 1) ASM_OTYPE_ENCODED;
       add_len n);
      (3,
       set_instr ASM_STMXCSR;;
       n ← asm_operand_fetch 0 (opcode + 1) ASM_OTYPE_ENCODED;
       add_len n);
      (4, set_instr ASM_BAD);
      (5, set_instr ASM_LFENCE);
      (6, set_instr ASM_MFENCE);
      (7, set_instr ASM_SFENCE)]
     skip);;
  ret_len.

Definition i386_imul_rv_rmv : handler := λ opcode len,
  set_instr ASM_IMUL;;
  add_len 1;;
  n ← asm_operand_fetch 0 (opcode + 1) ASM_OTYPE_GENERAL;
  add_len n;;
  n ← asm_operand_fetch 1 (opcode + 1) ASM_OTYPE_ENCODED;
  add_len n;;
  ret_len.

Definition op_cmp_xchg : handler := λ opcode len,
  add_len 1;;
  set_type (ASM_TYPE_COMPARISON ||| ASM_TYPE_CONTROL);;
  set_instr ASM_CMPXCHG;;
  n ← asm_operand_fetch 0 (opcode + 1) ASM_OTYPE_ENCODED;
  add_len n;;
  n ← asm_operand_fetch 1 (opcode + 1) ASM_OTYPE_GENERAL;
  add_len n;;
  ret_len.

Definition op_lss_rv_rmv : handler := λ opcode len,
  add_len 1;;
  set_instr ASM_LSS;;
  n ← asm_operand_fetch 0 (opcode + 1) ASM_OTYPE_GENERAL;
  add_len n;;
  n ← asm_operand_fetch 1 (opcode + 1) ASM_OTYPE_ENCODED;
  add_len n;;
  ret_len.

Definition op_btr_rmv_rv : handler := λ opcode len,
  add_len 1;;
  set_instr ASM_BTR;;
  n ← asm_operand_fetch 0 (opcode + 1) ASM_OTYPE_ENCODED;
  add_len n;;
  n ← asm_operand_fetch 1 (opcode + 1) ASM_OTYPE_GENERAL;
  add_len n;;
  ret_len.

Definition i386_movzbl_rv_rmb : handler := λ opcode len,
  add_len 1;;
  (o ← asm_proc_opsize;
   if o then set_instr ASM_MOVZBW else set_instr ASM_MOVZBL);;
  n ← asm_operand_fetch 0 (opcode + 1) ASM_OTYPE_GENERAL;
  add_len n;;
  n ← asm_operand_fetch 1 (opcode + 1) ASM_OTYPE_ENCODEDBYTE;
  add_len n;;
  ret_len.

Definition i386_movzwl_rv_rm2 : handler := λ opcode len,
  add_len 1;;
  set_instr ASM_MOVZWL;;
  n ← asm_operand_fetch 0 (opcode + 1) ASM_OTYPE_GENERAL;
  add_len n;;
  n ← asm_operand_fetch 1 (opcode + 1) ASM_OTYPE_ENCODED;
  add_len n;;
  ret_len.

Definition i386_btrl : handler := λ opcode len,
  add_len 1;;
  set_instr ASM_BTRL;;
  set_type (ASM_TYPE_BITTEST ||| ASM_TYPE_BITSET ||| ASM_TYPE_WRITEFLAG);;
  set_flagswritten ASM_FLAG_CF;;
  n ← asm_operand_fetch 0 (opcode + 1) ASM_OTYPE_ENCODED;
  add_len n;;
  n ← asm_operand_fetch 1 (opcode + 1) ASM_OTYPE_IMMEDIATEBYTE;
  add_len n;;
  ret_len.

Definition i386_bsf : handler := λ opcode len,
  add_len 1;;
  set_instr ASM_BSF;;
  set_type (ASM_TYPE_BITTEST ||| ASM_TYPE_WRITEFLAG);;
  set_flagswritten ASM_FLAG_ZF;;
  n ← asm_operand_fetch 0 (opcode + 1) ASM_OTYPE_GENERAL;
  add_len n;;
  n ← asm_operand_fetch 1 (opcode + 1) ASM_OTYPE_ENCODED;
  add_len n;;
  ret_len.

Definition i386_bsr_rv_rmb : handler := λ opcode len,
  add_len 1;;
  set_instr ASM_BSR;;
  set_type (ASM_TYPE_BITTEST ||| ASM_TYPE_WRITEFLAG);;
  set_flagswritten ASM_FLAG_ZF;;
  n ← asm_operand_fetch 0 (opcode + 1) ASM_OTYPE_GENERAL;
  add_len n;;
  n ← asm_operand_fetch 1 (opcode + 1) ASM_OTYPE_ENCODED;
  add_len n;;
  ret_len.

Definition i386_movsbl_rv_rmb : handler := λ opcode len,
  (o ← asm_proc_opsize;
   if o then set_instr ASM_MOVSBW else set_instr ASM_MOVSBL);;
  add_len 1;;
  n ← asm_operand_fetch 0 (opcode + 1) ASM_OTYPE_GENERAL;
  add_len n;;
  n ← asm_operand_fetch 1 (opcode + 1) ASM_OTYPE_ENCODEDBYTE;
  add_len n;;
  ret_len.

Definition i386_movswl_rv_rm2 : handler := λ opcode len,
  (o ← asm_proc_opsize;
   if o then set_instr ASM_MOVSBW else set_instr ASM_MOVSWL);;
  add_len 1;;
  n ← asm_operand_fetch 0 (opcode + 1) ASM_OTYPE_GENERAL;
  add_len n;;
  n ← asm_operand_fetch 1 (opcode + 1) ASM_OTYPE_ENCODED;
  add_len n;;
  ret_len.

Definition i386_xadd : handler := λ opcode len,
  let modrm := opcode in
  set_instr ASM_XADD;;
  add_len 1;;
  n ← asm_operand_fetch 0 (opcode + 1) ASM_OTYPE_ENCODED;
  add_len n;;
  n ← asm_operand_fetch 0 (opcode + 1) ASM_OTYPE_GENERAL;
  add_len n;;
  ret_len.

Definition i386_bswap : handler := λ opcode len,
  let modrm := opcode in
  add_len 1;;
  set_ptr_instr opcode;;
  set_instr ASM_BSWAP;;
  set_type ASM_TYPE_OTHER;;
  n ← asm_operand_fetch 0 opcode ASM_OTYPE_OPMOD;
  add_len n;;
  ret_len.

Definition i386_pmullw_pq_qq : handler := λ opcode len,
  set_ptr_instr opcode;;
  add_len 1;;
  set_instr ASM_PMULLW;;
  n ← asm_operand_fetch 0 (opcode + 1) ASM_OTYPE_GENERAL;
  add_len n;;
  n ← asm_operand_fetch 1 (opcode + 1) ASM_OTYPE_ENCODED;
  add_len n;;
  op_set_regset 0 ASM_REGSET_MM;;
  op_set_regset 1 ASM_REGSET_MM;;
  ret_len.

Definition i386_pand_pq_qq : handler := λ opcode len,
  set_ptr_instr opcode;;
  add_len 1;;
  set_instr ASM_PAND;;
  n ← asm_operand_fetch 0 (opcode + 1) ASM_OTYPE_GENERAL;
  add_len n;;
  n ← asm_operand_fetch 1 (opcode + 1) ASM_OTYPE_ENCODED;
  add_len n;;
  op_set_regset 0 ASM_REGSET_MM;;
  op_set_regset 1 ASM_REGSET_MM;;
  ret_len.

Definition i386_paddusb_pq_qq : handler := λ opcode len,
  set_ptr_instr opcode;;
  add_len 1;;
  set_instr ASM_PADDUSB;;
  n ← asm_operand_fetch 0 (opcode + 1) ASM_OTYPE_GENERAL;
  add_len n;;
  n ← asm_operand_fetch 1 (opcode + 1) ASM_OTYPE_ENCODED;
  add_len n;;
  op_set_regset 0 ASM_REGSET_MM;;
  op_set_regset 1 ASM_REGSET_MM;;
  ret_len.

Definition i386_paddusw_pq_qq : handler := λ opcode len,
  set_ptr_instr opcode;;
  add_len 1;;
  set_instr ASM_PADDUSW;;
  n ← asm_operand_fetch 0 (opcode + 1) ASM_OTYPE_GENERAL;
  add_len n;;
  n ← asm_operand_fetch 1 (opcode + 1) ASM_OTYPE_ENCODED;
  add_len n;;
  op_set_regset 0 ASM_REGSET_MM;;
  op_set_regset 1 ASM_REGSET_MM;;
  ret_len.

Definition i386_por_pq_qq : handler := λ opcode len,
  set_ptr_instr opcode;;
  add_len 1;;
  set_instr ASM_POR;;
  n ← asm_operand_fetch 0 (opcode + 1) ASM_OTYPE_GENERAL;
  add_len n;;
  n ← asm_operand_fetch 1 (opcode + 1) ASM_OTYPE_ENCODED;
  add_len n;;
  op_set_regset 0 ASM_REGSET_MM;;
  op_set_regset 1 ASM_REGSET_MM;;
  ret_len.

Definition i386_pxor_pq_qq : handler := λ opcode len,
  set_ptr_instr opcode;;
  add_len 1;;
  set_instr ASM_PXOR;;
  n ← asm_operand_fetch 0 (opcode + 1) ASM_OTYPE_GENERAL;
  add_len n;;
  n ← asm_operand_fetch 1 (opcode + 1) ASM_OTYPE_ENCODED;
  add_len n;;
  op_set_regset 0 ASM_REGSET_MM;;
  op_set_regset 1 ASM_REGSET_MM;;
  ret_len.
