(* ===== verification/Ia32Fetch.v ===== *)
(** The dispatch of the IA-32 disassembler: the vector of the opcode handlers
    (arch/ia32/register.c), the recursion of prefixes and two-byte opcodes
    through [proc->fetch], and [asm_read_instr] (generic.c). *)

From S2P Require Import Prelude LibasmVector Ia32 Ia32Operand Ia32Arith Ia32Move Ia32Misc Ia32Fpu.
From S2P Require Import Ia32Ext.

(** The registrations, in the order they are made.  The indices are written in
    decimal; those of two-byte opcodes start at 0x100 = 256. *)
Definition asm_register_ia32_opcodes : list (Z * handler) :=
  [(0, op_add_rmb_rb);
   (1, op_add_rmv_rv);
   (2, op_add_rb_rmb);
   (3, op_add_rv_rmv);
   (4, op_add_al_ib);
   (5, op_add_eax_iv);
   (6, op_push_es);
   (7, op_pop_es);
   (8, op_or_rmb_rb);
   (9, op_or_rmv_rv);
   (10, op_or_rb_rmb);
   (11, op_or_rv_rmv);
   (12, op_or_al_ib);
   (13, op_or_eax_iv);
   (14, op_push_cs);
   (15, op_386sp);
   (16, op_adc_rmb_rb);
   (17, op_adc_rmv_rv);
   (18, op_adc_rb_rmb);
   (19, op_adc_rv_rmv);
   (20, op_adc_al_ib);
   (21, op_adc_eax_iv);
   (22, op_push_ss);
   (23, op_pop_es);
   (24, op_sbb_rmb_rb);
   (25, op_sbb_rmv_rv);
   (26, op_sbb_rb_rmb);
   (27, op_sbb_rv_rmv);
   (28, op_sbb_al_ib);
   (29, op_sbb_eax_iv);
   (30, op_push_ds);
   (31, op_pop_ds);
   (32, op_and_rmb_rb);
   (33, op_and_rmv_rv);
   (34, op_and_rb_rmb);
   (35, op_and_rv_rmv);
   (36, op_and_al_ib);
   (37, op_and_eax_iv);
   (38, op_prefix_es);
   (39, op_daa);
   (40, op_sub_rmb_rb);
   (41, op_sub_rmv_rv);
   (42, op_sub_rb_rmb);
   (43, op_sub_rv_rmv);
   (44, op_sub_al_ib);
   (45, op_sub_eax_iv);
   (46, op_prefix_cs);
   (47, op_das);
   (48, op_xor_rmb_rb);
   (49, op_xor_rmv_rv);
   (50, op_xor_rb_rmb);
   (51, op_xor_rv_rmv);
   (52, op_xor_al_ib);
   (53, op_xor_eax_iv);
   (54, op_prefix_ss);
   (55, op_aaa);
   (56, op_cmp_rmb_rb);
   (57, op_cmp_rmv_rv);
   (58, op_cmp_rb_rmb);
   (59, op_cmp_rv_rmv);
   (60, op_cmp_al_ib);
   (61, op_cmp_eax_iv);
   (62, op_prefix_ds);
   (63, op_aas);
   (64, op_inc_reg);
   (65, op_inc_reg);
   (66, op_inc_reg);
   (67, op_inc_reg);
   (68, op_inc_reg);
   (69, op_inc_reg);
   (70, op_inc_reg);
   (71, op_inc_reg);
   (72, op_dec_reg);
   (73, op_dec_reg);
   (74, op_dec_reg);
   (75, op_dec_reg);
   (76, op_dec_reg);
   (77, op_dec_reg);
   (78, op_dec_reg);
   (79, op_dec_reg);
   (80, op_push_reg);
   (81, op_push_reg);
   (82, op_push_reg);
   (83, op_push_reg);
   (84, op_push_reg);
   (85, op_push_reg);
   (86, op_push_reg);
   (87, op_push_reg);
   (88, op_pop_reg);
   (89, op_pop_reg);
   (90, op_pop_reg);
   (91, op_pop_reg);
   (92, op_pop_reg);
   (93, op_pop_reg);
   (94, op_pop_reg);
   (95, op_pop_reg);
   (96, op_pusha);
   (97, op_popa);
   (98, op_bound_gv_ma);
   (99, op_arpl_ew_rw);
   (100, op_prefix_fs);
   (101, op_prefix_gs);
   (102, op_opsize);
   (103, op_addsize);
   (104, op_push_iv);
   (105, op_imul_rv_rmv_iv);
   (106, op_push_ib);
   (107, op_imul_gv_ev_ib);
   (108, op_insb);
   (109, op_insw);
   (110, op_outsb);
   (111, op_outsw);
   (112, op_jo);
   (113, op_jno);
   (114, op_jb);
   (115, op_jae);
   (116, op_je);
   (117, op_jne);
   (118, op_jbe);
   (119, op_ja);
   (120, op_js);
   (121, op_jns);
   (122, op_jp);
   (123, op_jnp);
   (124, op_jl);
   (125, op_jge);
   (126, op_jle);
   (127, op_jg);
   (128, op_immed_rmb_ib);
   (130, op_immed_rmb_ib);
   (129, op_immed_rmv_iv);
   (131, op_immed_rmv_ib);
   (132, op_test_rmb_rb);
   (133, op_test_rmv_rv);
   (134, op_xchg_rmb_rb);
   (135, op_xchg_rmv_rv);
   (136, op_mov_rmb_rb);
   (137, op_mov_rmv_rv);
   (138, op_mov_rb_rmb);
   (139, op_mov_rv_rmv);
   (140, op_mov_rm_segr);
   (141, op_lea_rv_m);
   (142, op_mov_segr_rm);
   (143, op_pop_rmv);
   (144, op_nop);
   (145, op_xchg_eax_reg);
   (146, op_xchg_eax_reg);
   (147, op_xchg_eax_reg);
   (148, op_xchg_eax_reg);
   (149, op_xchg_eax_reg);
   (150, op_xchg_eax_reg);
   (151, op_xchg_eax_reg);
   (152, op_cwtl);
   (153, op_cltd);
   (155, op_fwait);
   (156, op_pushf);
   (157, op_popf);
   (158, op_sahf);
   (159, op_lahf);
   (160, op_mov_al_ref_iv);
   (161, op_mov_eax_ref_iv);
   (162, op_mov_ref_iv_al);
   (163, op_mov_ref_iv_eax);
   (164, op_movsb);
   (165, op_movsd);
   (166, op_cmpsb);
   (167, op_cmpsd);
   (168, op_test_al_rb);
   (169, op_test_eax_iv);
   (170, op_stosb);
   (171, op_stosd);
   (172, op_lodsb);
   (173, op_lodsd);
   (174, op_scasb);
   (175, op_scasd);
   (176, op_mov_subreg_ib);
   (177, op_mov_subreg_ib);
   (178, op_mov_subreg_ib);
   (179, op_mov_subreg_ib);
   (180, op_mov_subreg_ib);
   (181, op_mov_subreg_ib);
   (182, op_mov_subreg_ib);
   (183, op_mov_subreg_ib);
   (184, op_mov_reg_iv);
   (185, op_mov_reg_iv);
   (186, op_mov_reg_iv);
   (187, op_mov_reg_iv);
   (188, op_mov_reg_iv);
   (189, op_mov_reg_iv);
   (190, op_mov_reg_iv);
   (191, op_mov_reg_iv);
   (192, op_shr_rmb_ib);
   (193, op_shr_rmv_ib);
   (194, op_ret_i2);
   (195, op_ret);
   (196, op_les_rm_rmp);
   (197, op_lds_rm_rmp);
   (198, op_mov_rmb_ib);
   (199, op_mov_rmv_iv);
   (200, op_enter);
   (201, op_leave);
   (202, op_retf_i2);
   (203, op_retf);
   (204, op_int_3);
   (205, op_int_ib);
   (206, op_into);
   (207, op_iret);
   (208, op_shift_rmb_1);
   (209, op_shift_rmv_1);
   (210, op_shift_rmb_cl);
   (211, op_shift_rmv_cl);
   (212, op_aam);
   (213, op_aad);
   (215, op_xlatb);
   (216, op_esc0);
   (217, op_esc1);
   (218, op_esc2);
   (219, op_esc3);
   (220, op_esc4);
   (221, op_esc5);
   (222, op_esc6);
   (223, op_esc7);
   (224, op_loopne);
   (225, op_loope);
   (226, op_loop);
   (227, op_je_cxz);
   (228, op_in_al_ref_ib);
   (229, op_in_eax_ref_ib);
   (230, op_out_ref_ib_al);
   (231, op_out_ref_ib_eax);
   (232, op_call_iv);
   (233, op_jmp_iv);
   (234, op_jmp_ap);
   (235, op_jmp_ib);
   (236, op_in_al_dx);
   (237, op_in_eax_dx);
   (238, op_out_dx_al);
   (239, op_out_dx_eax);
   (240, op_lock);
   (241, op_lock);
   (242, op_repnz);
   (243, op_repz);
   (244, op_hlt);
   (245, op_cmc);
   (246, op_unary_rmb);
   (247, op_unary_rmv);
   (248, op_clc);
   (249, op_stc);
   (250, op_cli);
   (251, op_sti);
   (252, op_cld);
   (253, op_std);
   (254, op_incdec_rmb);
   (255, op_indir_rmv);
   (256, op_group6);
   (257, op_group7);
   (265, i386_wbinvd);
   (267, op_ud2a);
   (288, i386_mov_rm_cr);
   (290, i386_mov_cr_rm);
   (291, i386_mov_dr_rm);
   (305, i386_rdtsc);
   (306, i386_rdmsr);
   (320, i386_cmovo);
   (321, i386_cmovno);
   (322, i386_cmovb);
   (323, i386_cmovae);
   (324, i386_cmove);
   (325, i386_cmovne);
   (326, i386_cmovbe);
   (327, i386_cmova);
   (328, i386_cmovs);
   (329, i386_cmovns);
   (330, i386_cmovp);
   (331, i386_cmovnp);
   (332, i386_cmovl);
   (333, i386_cmovnl);
   (334, i386_cmovle);
   (335, i386_cmovnle);
   (352, i386_punpcklbw_pq_qd);
   (359, i386_packuswb_pq_qq);
   (360, i386_punpckhbw_pq_qq);
   (366, i386_movd_pd_qd);
   (367, i386_movq_pq_qq);
   (369, i386_group12);
   (370, i386_group14);
   (371, i386_group15);
   (375, i386_emms);
   (383, i386_movq_qq_pq);
   (386, i386_jb);
   (387, i386_jae);
   (388, i386_je);
   (389, i386_jne);
   (390, i386_jbe);
   (391, i386_ja);
   (392, i386_js);
   (393, i386_jns);
   (394, i386_jp);
   (395, i386_jnp);
   (396, i386_jl);
   (397, i386_jge);
   (398, i386_jle);
   (399, i386_jg);
   (400, i386_jg);
   (401, op_setno_rmb);
   (402, op_setb_rmb);
   (403, op_setae_rmb);
   (404, op_sete_rmb);
   (405, op_setne_rmb);
   (406, op_setbe_rmb);
   (407, op_seta_rmb);
   (408, op_sets_rmb);
   (409, op_setns_rmb);
   (410, op_setp_rmb);
   (411, op_setnp_rmb);
   (412, op_setl_rmb);
   (413, op_setge_rmb);
   (414, op_setle_rmb);
   (415, op_setg_rmb);
   (416, i386_push_fs);
   (417, i386_pop_fs);
   (418, i386_cpuid);
   (419, i386_bt_rm_r);
   (420, i386_shld);
   (421, i386_shld_rmv_rv_cl);
   (423, i386_xstorenrg);
   (427, i386_bts);
   (428, i386_shrd_rmv_rv_ib);
   (429, i386_shrd_rmv_rv_cl);
   (430, i386_group16);
   (431, i386_imul_rv_rmv);
   (433, op_cmp_xchg);
   (434, op_lss_rv_rmv);
   (435, op_btr_rmv_rv);
   (438, i386_movzbl_rv_rmb);
   (439, i386_movzwl_rv_rm2);
   (442, i386_btrl);
   (444, i386_bsf);
   (445, i386_bsr_rv_rmb);
   (446, i386_movsbl_rv_rmb);
   (447, i386_movswl_rv_rm2);
   (449, i386_xadd);
   (456, i386_bswap);
   (457, i386_bswap);
   (458, i386_bswap);
   (459, i386_bswap);
   (460, i386_bswap);
   (461, i386_bswap);
   (462, i386_bswap);
   (463, i386_bswap);
   (469, i386_pmullw_pq_qq);
   (475, i386_pand_pq_qq);
   (476, i386_paddusb_pq_qq);
   (477, i386_paddusw_pq_qq);
   (491, i386_por_pq_qq);
   (495, i386_pxor_pq_qq)].

(** The element the vector is created with: a function of the operand vector,
    called here with the arguments of an instruction handler. *)
Definition opcode_default : handler := λ _ _, ret (-1).

Definition opcode_vector : Z → handler :=
  registered opcode_default asm_register_ia32_opcodes.

(** A call of an element of the vector.  A handler may call the vector again,
    on a later byte of the buffer: fuel bounds the nesting. *)
Fixpoint call_vector (fuel : nat) (buf : list Z) (opcode p len : Z) (s : dis)
    : outcome (Z * dis) :=
  match fuel with
  | O => OutOfFuel
  | S fuel => opcode_vector opcode p len (Env buf (call_vector fuel buf)) s
  end.

Definition fetch (fuel : nat) (buf : list Z) (p len : Z) (s : dis) : outcome (Z * dis) :=
  fetch_i386 p len (Env buf (call_vector fuel buf)) s.

(** [asm_read_instr(instr, buf, len, proc)] *)
Definition asm_read_instr (fuel : nat) (buf : list Z) (len : Z) (proc : s_asm_proc_i386)
    : outcome (Z * dis) :=
  match fetch fuel buf 0 len (Dis instr0 proc) with
  | Done (to_ret, Dis i p) => Done (to_ret, Dis (set_ins_name (instr_table (ins_instr i)) i) p)
  | r => r
  end.
