(* ===== verification/Ia32Wp.v ===== *)
(** Reasoning about IA-32 handlers: total correctness [wp], the rules of the
    primitive steps, and the specification of the fetch of an operand. *)

From S2P Require Import Prelude Ia32 Ia32Operand.

(** ** The buffer *)

Definition byte (buf : list Z) (p : Z) : Z := default 0 (byte_at buf p).

Lemma byte_at_byte buf p :
  0 ≤ p < Z.of_nat (length buf) → byte_at buf p = Some (byte buf p).
Proof.
  intros Hp. unfold byte, byte_at. rewrite (proj2 (Z.leb_le 0 p)) by lia.
  destruct (lookup_lt_is_Some_2 buf (Z.to_nat p)) as [b ->]; [lia | done].
Qed.

(** All the bytes are bytes. *)
Definition bytes_ok (buf : list Z) : Prop := Forall (λ b, 0 ≤ b < 256) buf.

Lemma byte_range buf p : bytes_ok buf → 0 ≤ byte buf p < 256.
Proof.
  intros Hb. unfold byte, byte_at. case_match; [| cbn; lia].
  destruct (buf !! Z.to_nat p) as [b |] eqn:E; [| cbn; lia].
  cbn. unfold bytes_ok in Hb. rewrite Forall_lookup in Hb. eauto.
Qed.

(** The little-endian number made of [n] bytes from [p]. *)
Fixpoint le_bytes (buf : list Z) (p : Z) (n : nat) : Z :=
  match n with
  | O => 0
  | S n => byte buf p + 256 * le_bytes buf (p + 1) n
  end.

(** ** Weakest preconditions *)

(** [m] terminates, stays inside the buffer and ends as [Q] says. *)
Definition wp {A} (m : M A) (e : env) (Q : A → dis → Prop) (s : dis) : Prop :=
  match m e s with
  | Done (a, s) => Q a s
  | _ => False
  end.

Lemma wp_done {A} (m : M A) e (Q : A → dis → Prop) s a s' :
  m e s = Done (a, s') → Q a s' → wp m e Q s.
Proof. unfold wp. by intros ->. Qed.

Lemma wp_ret {A} (a : A) e (Q : A → dis → Prop) s : Q a s → wp (ret a) e Q s.
Proof. done. Qed.

Lemma wp_bind {A B} (m : M A) (f : A → M B) e Q s :
  wp m e (λ a s, wp (f a) e Q s) s → wp (bind m f) e Q s.
Proof. unfold wp, bind. by destruct (m e s) as [[a s'] | |]. Qed.

Lemma wp_mono {A} (m : M A) e (P Q : A → dis → Prop) s :
  wp m e P s → (∀ a s, P a s → Q a s) → wp m e Q s.
Proof. unfold wp. destruct (m e s) as [[a s'] | |]; auto. Qed.

Lemma wp_elim {A} (m : M A) e (Q : A → dis → Prop) s :
  wp m e Q s → ∃ a s', m e s = Done (a, s') ∧ Q a s'.
Proof. unfold wp. destruct (m e s) as [[a s'] | |]; [eauto | done..]. Qed.

Lemma wp_read p e Q s :
  0 ≤ p < Z.of_nat (length (e_buf e)) → Q (byte (e_buf e) p) s → wp (read p) e Q s.
Proof. intros Hp HQ. unfold wp, read. by rewrite byte_at_byte. Qed.

Lemma wp_read_le n p e Q s :
  0 ≤ p → p + Z.of_nat n ≤ Z.of_nat (length (e_buf e)) →
  Q (le_bytes (e_buf e) p n) s → wp (read_le p n) e Q s.
Proof.
  revert p Q. induction n as [| n IH]; intros p Q Hp Hn HQ; [done |]. cbn [read_le].
  apply wp_bind, wp_read; [lia |]. apply wp_bind, IH; [lia.. |]. by apply wp_ret.
Qed.

Lemma wp_switch_nil {A} v (d : M A) e Q s : wp d e Q s → wp (switch v [] d) e Q s.
Proof. done. Qed.

Lemma wp_switch_cons {A} v k (m : M A) cs d e Q s :
  (v = k → wp m e Q s) → (v ≠ k → wp (switch v cs d) e Q s) →
  wp (switch v ((k, m) :: cs) d) e Q s.
Proof. intros H1 H2. cbn [switch]. destruct (Z.eqb_spec v k); auto. Qed.

Lemma wp_if {A} (b : bool) (m n : M A) e Q s :
  (b = true → wp m e Q s) → (b = false → wp n e Q s) →
  wp (if b then m else n) e Q s.
Proof. destruct b; auto. Qed.

(** ** The fields of ModR/M and SIB as Intel numbers them *)

Definition mod_of (b : Z) : Z := b / 64 mod 4.
Definition reg_of (b : Z) : Z := b / 8 mod 8.
Definition rm_of (b : Z) : Z := b mod 8.

Lemma mod_of_spec b : s_modrm_mod b = mod_of b.
Proof.
  unfold s_modrm_mod, mod_of. change 3 with (Z.ones 2).
  by rewrite Z.land_ones, Z.shiftr_div_pow2 by lia.
Qed.
Lemma reg_of_spec b : s_modrm_r b = reg_of b.
Proof.
  unfold s_modrm_r, reg_of. change 7 with (Z.ones 3).
  by rewrite Z.land_ones, Z.shiftr_div_pow2 by lia.
Qed.
Lemma rm_of_spec b : s_modrm_m b = rm_of b.
Proof. unfold s_modrm_m, rm_of. change 7 with (Z.ones 3). by rewrite Z.land_ones by lia. Qed.

Lemma mod_of_range b : 0 ≤ mod_of b < 4.
Proof. apply Z.mod_pos_bound. lia. Qed.
Lemma reg_of_range b : 0 ≤ reg_of b < 8.
Proof. apply Z.mod_pos_bound. lia. Qed.
Lemma rm_of_range b : 0 ≤ rm_of b < 8.
Proof. apply Z.mod_pos_bound. lia. Qed.

(** Bytes of ModR/M, SIB and displacement at [p], in 32-bit addressing. *)
Definition modrm_len (buf : list Z) (p : Z) : Z :=
  let b := byte buf p in
  if mod_of b =? 3 then 1
  else
    let base := if rm_of b =? 4 then rm_of (byte buf (p + 1)) else rm_of b in
    1 + (if rm_of b =? 4 then 1 else 0)
      + (if mod_of b =? 1 then 1
         else if mod_of b =? 2 then 4
         else if base =? 5 then 4 else 0).

Lemma modrm_len_pos buf p : 1 ≤ modrm_len buf p ≤ 6.
Proof. unfold modrm_len. repeat case_match; lia. Qed.
Lemma modrm_len_3 buf p : mod_of (byte buf p) = 3 → modrm_len buf p = 1.
Proof. unfold modrm_len. by intros ->. Qed.
(** The last quarter of the bytes names registers. *)
Lemma modrm_len_high buf p : 192 ≤ byte buf p < 256 → modrm_len buf p = 1.
Proof. intros. apply modrm_len_3. unfold mod_of. Z.div_mod_to_equations. lia. Qed.

(** ** One operand of the instruction

    Operand code touches one element of [new->op]: [at_op k i pr o] is the
    state whose instruction is [i] with [o] in that element. *)

Definition at_op (k : nat) (i : asm_instr) (pr : s_asm_proc_i386) (o : asm_operand) : dis :=
  Dis (set_ins_op (<[k := o]> (ins_op i)) i) pr.

Lemma at_op_id k i pr o : ins_op i !! k = Some o → Dis i pr = at_op k i pr o.
Proof.
  intros Ho. unfold at_op. rewrite list_insert_id by done. by destruct i.
Qed.

Section operand.
Context (k : nat) (i : asm_instr) (pr : s_asm_proc_i386) (e : env).
Context (Hk : (k < length (ins_op i))%nat).

Lemma wp_op_upd f o (Q : unit → dis → Prop) :
  Q tt (at_op k i pr (f o)) → wp (op_upd k f) e Q (at_op k i pr o).
Proof.
  intros HQ. unfold wp, op_upd, ins_upd, at_op. cbn [d_ins d_proc ins_op set_ins_op].
  assert (alter f k (<[k:=o]> (ins_op i)) = <[k:=f o]> (ins_op i)) as ->; [| done].
  apply list_eq. intros j. destruct (decide (j = k)) as [-> |].
  - by rewrite list_lookup_alter_eq, !list_lookup_insert_eq by done.
  - by rewrite list_lookup_alter_ne, !list_lookup_insert_ne by done.
Qed.

Lemma wp_get_op o (Q : asm_operand → dis → Prop) :
  Q o (at_op k i pr o) → wp (get_op k) e Q (at_op k i pr o).
Proof.
  intros HQ. unfold wp, get_op, bind, get_ins, ret, at_op. cbn [d_ins ins_op set_ins_op].
  rewrite (nth_lookup_Some _ _ _ o); [done |]. by rewrite list_lookup_insert_eq.
Qed.

Lemma wp_get_proc o (Q : s_asm_proc_i386 → dis → Prop) :
  Q pr (at_op k i pr o) → wp get_proc e Q (at_op k i pr o).
Proof. done. Qed.
End operand.

Lemma wp_op_memcpy_imm k i pr e p n o (Q : unit → dis → Prop) :
  (k < length (ins_op i))%nat → 0 ≤ p → 0 ≤ n → p + n ≤ Z.of_nat (length (e_buf e)) →
  Q tt (at_op k i pr (set_op_imm (imm_memcpy n (le_bytes (e_buf e) p (Z.to_nat n)) (op_imm o)) o)) →
  wp (op_memcpy_imm k p n) e Q (at_op k i pr o).
Proof.
  intros. unfold op_memcpy_imm. apply wp_bind, wp_read_le; [lia.. |]. by apply wp_op_upd.
Qed.

(** Run operand code: [op_step] makes one step, and leaves a goal for each
    branch of a test. *)
Ltac op_unfold :=
  cbv [op_set_len op_set_ptr op_set_type op_set_size op_set_content op_or_content op_set_regset
       op_set_prefix op_set_imm op_and_imm op_set_baser op_set_indexr op_set_sbaser op_set_sindex
       op_set_scale op_memset_imm sign_disp8 name_baser name_indexr ret_op_len asm_ia32_get_mode
       asm_proc_is_protected asm_proc_opsize modrm_m modrm_r modrm_mod sidbyte_base sidbyte_index
       sidbyte_sid asm_content_pack skip ASM_REG_ESP ASM_REG_EBP].

(** [op_side] proves that an access is in the bytes of the operand. *)
Ltac op_side := unfold modrm_len in *; repeat (lia || case_match).

Ltac op_step :=
  lazymatch goal with
  | |- wp (bind _ _) _ _ _ => apply wp_bind
  | |- wp (ret _) _ _ _ => apply wp_ret
  | |- wp (op_upd _ _) _ _ _ => apply wp_op_upd; [done |]
  | |- wp (op_memcpy_imm _ _ _) _ _ _ => apply wp_op_memcpy_imm; [done | op_side.. |]
  | |- wp (get_op _) _ _ _ => apply wp_get_op; [done |]
  | Hm : mode ?pr = INTEL_PROT |- wp get_proc _ _ (at_op _ _ ?pr _) =>
      apply wp_get_proc; rewrite ?Hm; change (INTEL_PROT =? INTEL_PROT) with true
  | |- wp (read _) _ _ _ => apply wp_read; [op_side | rewrite ?mod_of_spec, ?reg_of_spec, ?rm_of_spec]
  | |- wp (switch _ [] _) _ _ _ => apply wp_switch_nil
  | |- wp (switch _ (_ :: _) _) _ _ _ => apply wp_switch_cons; intros
  | |- wp (if _ then _ else _) _ _ _ => apply wp_if; intros
  end; cbv beta zeta iota.

(** ** The decoders of ModR/M *)

Lemma i32_small n : 0 ≤ n < 2147483648 → i32 n = n.
Proof. intros. apply wraps_small; lia. Qed.

(** The bytes [p], [p + 1], ... the length of the operand covers. *)
Definition covers (e : env) (p n : Z) : Prop := 0 ≤ p ∧ p + n ≤ Z.of_nat (length (e_buf e)).

Section modrm.
Context (k : nat) (i : asm_instr) (pr : s_asm_proc_i386) (e : env) (p : Z) (o : asm_operand).
Context (Hk : (k < length (ins_op i))%nat) (Hm : mode pr = INTEL_PROT).
Context (Hc : covers e p (modrm_len (e_buf e) p)).

(** What a decoder of ModR/M must establish. *)
Let post (Q : Z → dis → Prop) : Prop :=
  ∀ o', op_len o' = modrm_len (e_buf e) p → op_type o' = op_type o →
        Q (modrm_len (e_buf e) p) (at_op k i pr o').

Lemma post_ret Q o' :
  post Q → op_len o' = modrm_len (e_buf e) p → op_type o' = op_type o →
  Q (i32 (op_len o')) (at_op k i pr o').
Proof.
  intros HQ Ho Ht. rewrite Ho, i32_small; [by apply HQ |].
  pose proof (modrm_len_pos (e_buf e) p). lia.
Qed.

Ltac rm_run :=
  op_unfold; pose proof (mod_of_range (byte (e_buf e) p)); unfold covers in *;
  repeat op_step; try lia; (apply post_ret; [done | cbn; op_side | done]).

Lemma wp_operand_rmv len (Q : Z → dis → Prop) :
  post Q → wp (operand_rmv k p len) e Q (at_op k i pr o).
Proof using All. intros HQ. unfold operand_rmv. rm_run. Qed.

Lemma wp_operand_rmb len (Q : Z → dis → Prop) :
  post Q → wp (operand_rmb k p len) e Q (at_op k i pr o).
Proof using All. intros HQ. unfold operand_rmb. rm_run. Qed.
End modrm.

(** ** The fetch of an operand

    What [asm_operand_fetch] does with the lengths, by type: the bytes it
    reads, the length it returns, and the length and type of the operand. *)

Inductive fetch_class :=
| FModrm        (* ModR/M, SIB and displacement *)
| FReg          (* a field of ModR/M *)
| FRegLen       (* a field of ModR/M, of length 1 *)
| FVector       (* 2 or 4 bytes *)
| FBytes (n : Z)
| FNone.

Definition fetch_class_of (t : e_asm_operand_type) : option fetch_class :=
  match t with
  | ASM_OTYPE_ENCODED | ASM_OTYPE_ENCODEDBYTE | ASM_OTYPE_PMMX => Some FModrm
  | ASM_OTYPE_GENERAL | ASM_OTYPE_GENERALBYTE | ASM_OTYPE_MEMORY | ASM_OTYPE_SEGMENT
  | ASM_OTYPE_OPMOD | ASM_OTYPE_REGISTER => Some FReg
  | ASM_OTYPE_CONTROL | ASM_OTYPE_DEBUG => Some FRegLen
  | ASM_OTYPE_IMMEDIATE | ASM_OTYPE_JUMP | ASM_OTYPE_OFFSET | ASM_OTYPE_ADDRESS => Some FVector
  | ASM_OTYPE_IMMEDIATEBYTE | ASM_OTYPE_SHORTJUMP => Some (FBytes 1)
  | ASM_OTYPE_IMMEDIATEWORD => Some (FBytes 2)
  | ASM_OTYPE_FIXED | ASM_OTYPE_XSRC | ASM_OTYPE_YDEST => Some FNone
  | _ => None
  end.

Definition vector_len (pr : s_asm_proc_i386) : Z := if opsize pr =? 0 then 4 else 2.

(** The bytes read and the length returned. *)
Definition fetch_reads (c : fetch_class) (pr : s_asm_proc_i386) (buf : list Z) (p : Z) : Z :=
  match c with
  | FModrm => modrm_len buf p
  | FReg | FRegLen => 1
  | FVector => vector_len pr
  | FBytes n => n
  | FNone => 0
  end.
Definition fetch_ret (c : fetch_class) (pr : s_asm_proc_i386) (buf : list Z) (p : Z) : Z :=
  match c with
  | FReg => 0
  | c => fetch_reads c pr buf p
  end.

(** The length of the operand afterwards, when the fetch sets it. *)
Definition fetch_oplen (t : e_asm_operand_type) (c : fetch_class) pr buf p : option Z :=
  match t with
  | ASM_OTYPE_MEMORY | ASM_OTYPE_SEGMENT | ASM_OTYPE_OPMOD | ASM_OTYPE_FIXED
  | ASM_OTYPE_XSRC | ASM_OTYPE_YDEST => None
  | ASM_OTYPE_CONTROL | ASM_OTYPE_DEBUG => Some 0
  | _ => Some (fetch_ret c pr buf p)
  end.

Definition fetch_type (t : e_asm_operand_type) : option e_asm_operand_type :=
  match t with
  | ASM_OTYPE_ENCODEDBYTE => Some ASM_OTYPE_ENCODED
  | ASM_OTYPE_GENERALBYTE => Some ASM_OTYPE_GENERAL
  | ASM_OTYPE_IMMEDIATEBYTE | ASM_OTYPE_IMMEDIATEWORD => Some ASM_OTYPE_IMMEDIATE
  | ASM_OTYPE_REGISTER => None
  | t => Some t
  end.

Definition handler_of (t : e_asm_operand_type) : operand_handler :=
  match t with
  | ASM_OTYPE_FIXED => asm_operand_fetch_fixed
  | ASM_OTYPE_OPMOD => asm_operand_fetch_opmod
  | ASM_OTYPE_ADDRESS => asm_operand_fetch_address
  | ASM_OTYPE_CONTROL => asm_operand_fetch_control
  | ASM_OTYPE_DEBUG => asm_operand_fetch_debug
  | ASM_OTYPE_ENCODED => asm_operand_fetch_encoded
  | ASM_OTYPE_ENCODEDBYTE => asm_operand_fetch_encodedbyte
  | ASM_OTYPE_GENERAL => asm_operand_fetch_general
  | ASM_OTYPE_GENERALBYTE => asm_operand_fetch_generalbyte
  | ASM_OTYPE_IMMEDIATE => asm_operand_fetch_immediate
  | ASM_OTYPE_IMMEDIATEWORD => asm_operand_fetch_immediateword
  | ASM_OTYPE_IMMEDIATEBYTE => asm_operand_fetch_immediatebyte
  | ASM_OTYPE_JUMP => asm_operand_fetch_jump
  | ASM_OTYPE_SHORTJUMP => asm_operand_fetch_shortjump
  | ASM_OTYPE_MEMORY => asm_operand_fetch_memory
  | ASM_OTYPE_OFFSET => asm_operand_fetch_offset
  | ASM_OTYPE_PMMX => asm_operand_fetch_pmmx
  | ASM_OTYPE_REGISTER => asm_operand_fetch_register
  | ASM_OTYPE_SEGMENT => asm_operand_fetch_segment
  | ASM_OTYPE_XSRC => asm_operand_fetch_xsrc
  | ASM_OTYPE_YDEST => asm_operand_fetch_ydest
  | _ => asm_operand_fetch_default
  end.

Lemma operand_vector_spec t : operand_vector t = handler_of t.
Proof. by destruct t. Qed.

(** The element the vector has for a type of class [c]. *)
Ltac op_handlers :=
  cbv [handler_of asm_operand_fetch_fixed asm_operand_fetch_opmod asm_operand_fetch_address
       asm_operand_fetch_control asm_operand_fetch_debug asm_operand_fetch_encoded
       asm_operand_fetch_encodedbyte asm_operand_fetch_general asm_operand_fetch_generalbyte
       asm_operand_fetch_immediate asm_operand_fetch_immediateword asm_operand_fetch_immediatebyte
       asm_operand_fetch_jump asm_operand_fetch_shortjump asm_operand_fetch_memory
       asm_operand_fetch_offset asm_operand_fetch_pmmx asm_operand_fetch_register
       asm_operand_fetch_segment asm_operand_fetch_xsrc asm_operand_fetch_ydest].

Lemma wp_handler_of t c k i pr e p o (Q : Z → dis → Prop) :
  fetch_class_of t = Some c → (k < length (ins_op i))%nat → mode pr = INTEL_PROT →
  covers e p (fetch_reads c pr (e_buf e) p) →
  (∀ o', op_len o' = default (op_len o) (fetch_oplen t c pr (e_buf e) p) →
         op_type o' = default (op_type o) (fetch_type t) →
         Q (fetch_ret c pr (e_buf e) p) (at_op k i pr o')) →
  wp (handler_of t k p t) e Q (at_op k i pr o).
Proof.
  intros Ht Hk Hm Hc HQ.
  destruct t; simplify_eq/=; unfold covers, vector_len in *.
  all: op_handlers; op_unfold; repeat op_step.
  all: lazymatch goal with
       | |- wp _ _ _ _ => idtac
       | |- _ => try (destruct (opsize pr =? 0); simplify_eq/=); by apply HQ
       end.
  all: lazymatch goal with
       | |- wp (operand_rmv _ _ _) _ _ _ => apply wp_operand_rmv
       | |- wp (operand_rmb _ _ _) _ _ _ => apply wp_operand_rmb
       end; try done.
  all: intros o' Hl Hy; repeat op_step; by apply HQ.
Qed.

Lemma wp_fetch t c k i pr e p (Q : Z → dis → Prop) o :
  ins_op i !! k = Some o → fetch_class_of t = Some c → mode pr = INTEL_PROT →
  covers e p (fetch_reads c pr (e_buf e) p) →
  (∀ o', op_len o' = default (op_len o) (fetch_oplen t c pr (e_buf e) p) →
         op_type o' = default (op_type o) (fetch_type t) →
         Q (fetch_ret c pr (e_buf e) p) (at_op k i pr o')) →
  wp (asm_operand_fetch k p t) e Q (Dis i pr).
Proof.
  intros Ho Ht Hm Hc HQ. rewrite (at_op_id k i pr o) by done.
  assert (k < length (ins_op i))%nat as Hk by by eapply lookup_lt_Some.
  unfold asm_operand_fetch. rewrite operand_vector_spec.
  apply wp_bind, (wp_handler_of t c); [done.. |]. intros o' Hl Hy.
  op_unfold. op_step. apply wp_if; intros _; repeat op_step; by apply HQ.
Qed.
