(* ===== verification/Ia32Intel.v ===== *)
(** The reference the IA-32 disassembler is compared to: how many bytes follow
    an opcode and what it does to the flow of control, after the opcode maps
    of the processor's manual; and what it means for a handler to agree. *)

From S2P Require Import Prelude Ia32 Ia32Operand Ia32Wp.

(** ** Layout of an instruction *)

(** Immediate data. *)
Inductive imm :=
| ImmNone
| Imm8
| Imm16
| ImmZ          (* a word or a doubleword, by operand size *)
| ImmPtr        (* a far pointer: an offset and a selector *)
| ImmEnter      (* a word and a byte *)
| ImmOffs.      (* an address, of 4 bytes in 32-bit addressing *)

(** What follows the opcode. *)
Inductive layout :=
| Plain (i : imm)
| Modrm (i : imm)
| ModrmTest (i : imm)   (* only the rows 0 and 1 have the immediate *)
| ModrmReg.             (* ModR/M that always names a register *)

Definition imm_len (pr : s_asm_proc_i386) (i : imm) : Z :=
  match i with
  | ImmNone => 0
  | Imm8 => 1
  | Imm16 => 2
  | ImmZ => vector_len pr
  | ImmPtr => vector_len pr + 2
  | ImmEnter => 3
  | ImmOffs => 4
  end.

(** The bytes after an opcode that ends before [p]. *)
Definition body_len (pr : s_asm_proc_i386) (l : layout) (buf : list Z) (p : Z) : Z :=
  match l with
  | Plain i => imm_len pr i
  | Modrm i => modrm_len buf p + imm_len pr i
  | ModrmTest i => modrm_len buf p + (if reg_of (byte buf p) <? 2 then imm_len pr i else 0)
  | ModrmReg => 1
  end.

(** ** Flow of control *)

Inductive flow :=
| Next            (* the next instruction *)
| Jump
| CondJump
| Call
| Ret
| Interrupt
| IntRet
| Stop.

(** The bits of [type] that say where control goes. *)
Definition flow_mask : Z :=
  ASM_TYPE_BRANCH ||| ASM_TYPE_CALLPROC ||| ASM_TYPE_RETPROC ||| ASM_TYPE_INT |||
  ASM_TYPE_STOP ||| ASM_TYPE_CONDCONTROL.

Definition flow_type (f : flow) : Z :=
  match f with
  | Next => 0
  | Jump => ASM_TYPE_BRANCH
  | CondJump => ASM_TYPE_BRANCH ||| ASM_TYPE_CONDCONTROL
  | Call => ASM_TYPE_CALLPROC
  | Ret => ASM_TYPE_RETPROC
  | Interrupt => ASM_TYPE_INT
  | IntRet => ASM_TYPE_RETPROC ||| ASM_TYPE_INT
  | Stop => ASM_TYPE_STOP
  end.

(** The indirect group 5: the row of ModR/M decides. *)
Definition group5_flow (b : Z) : flow :=
  if (reg_of b =? 2) || (reg_of b =? 3) then Call
  else if (reg_of b =? 4) || (reg_of b =? 5) then Jump
  else Next.

(** ** Agreement of a handler

    The instruction as the handler of an opcode finds it: prefixes and a first
    opcode byte may have counted in [ins_len], no operand has been filled. *)
Definition fresh (i : asm_instr) : Prop :=
  ins_op i = replicate 6 operand0 ∧ ins_type i = 0 ∧ 0 ≤ ins_len i < 1073741824.

(** In protected mode, on an opcode at [p] whose next byte [ok] accepts,
    followed by the bytes the layout announces, [h] returns the length of the
    instruction, records it, classifies it, and leaves the processor alone. *)
Definition decodes (h : handler) (l : layout) (fl : Z → flow) (ok : s_asm_proc_i386 → Z → bool)
    : Prop :=
  ∀ e p len i pr,
    mode pr = INTEL_PROT → fresh i → 0 ≤ p →
    p + 1 + body_len pr l (e_buf e) (p + 1) ≤ Z.of_nat (length (e_buf e)) →
    ok pr (byte (e_buf e) (p + 1)) = true →
    wp (h p len) e
      (λ r s, r = ins_len i + 1 + body_len pr l (e_buf e) (p + 1) ∧
              ins_len (d_ins s) = r ∧
              ins_type (d_ins s) &&& flow_mask = flow_type (fl (byte (e_buf e) (p + 1))) ∧
              d_proc s = pr)
      (Dis i pr).

Definition always (pr : s_asm_proc_i386) (b : Z) : bool := true.
Definition seq_flow (b : Z) : flow := Next.

(** ** Rules of the steps of a handler *)

Lemma wp_ins_upd f e i pr (Q : unit → dis → Prop) :
  Q tt (Dis (f i) pr) → wp (ins_upd f) e Q (Dis i pr).
Proof. done. Qed.

Lemma wp_add_len n e i pr (Q : unit → dis → Prop) :
  0 ≤ ins_len i + n < 4294967296 →
  Q tt (Dis (set_ins_len (ins_len i + n) i) pr) → wp (add_len n) e Q (Dis i pr).
Proof. intros Hn HQ. unfold wp, add_len, ins_upd. cbn. by rewrite wrapu_small. Qed.

Lemma wp_ret_len e i pr (Q : Z → dis → Prop) :
  0 ≤ ins_len i < 2147483648 → Q (ins_len i) (Dis i pr) → wp ret_len e Q (Dis i pr).
Proof. intros Hn HQ. unfold wp, ret_len, bind, get_ins, ret. cbn. by rewrite i32_small. Qed.

Lemma wp_get_ins e i pr (Q : asm_instr → dis → Prop) :
  Q i (Dis i pr) → wp get_ins e Q (Dis i pr).
Proof. done. Qed.

Lemma wp_ins_get_op k e i pr (Q : asm_operand → dis → Prop) :
  Q (nth k (ins_op i) operand0) (Dis i pr) → wp (get_op k) e Q (Dis i pr).
Proof. done. Qed.

Lemma wp_ins_get_proc e i pr (Q : s_asm_proc_i386 → dis → Prop) :
  Q pr (Dis i pr) → wp get_proc e Q (Dis i pr).
Proof. done. Qed.

Lemma wp_proc_upd f e i pr (Q : unit → dis → Prop) :
  Q tt (Dis i (f pr)) → wp (proc_upd f) e Q (Dis i pr).
Proof. done. Qed.

(** The state of a handler is kept in the form of a record, its operands in the
    form of a list of six. *)
Ltac h_norm :=
  cbv [at_op set_ins_ptr_instr set_ins_name set_ins_instr set_ins_type set_ins_prefix
       set_ins_spdiff set_ins_flagswritten set_ins_flagsread set_ins_ptr_prefix set_ins_op
       set_ins_len ins_ptr_instr ins_name ins_instr ins_type ins_prefix ins_spdiff
       ins_flagswritten ins_flagsread ins_ptr_prefix ins_op ins_len d_ins d_proc
       alter list_alter insert list_insert nth replicate].

Ltac h_unfold :=
  cbv [set_ptr_instr set_ptr_prefix set_name set_instr set_type or_type set_prefix or_prefix
       set_spdiff set_flagswritten or_flagswritten xor_flagswritten set_flagsread set_len op_upd
       op_memcpy_imm asm_proc_vector_size];
  op_unfold; cbv [op_upd].

(** The operands' lengths and types are known from the fetches. *)
Ltac h_known :=
  repeat match goal with
         | H : op_type ?o = _, H' : context [op_type ?o] |- _ => is_var o; rewrite H in H'
         | H : op_len ?o = _ |- context [op_len ?o] => is_var o; rewrite H
         | H : op_len ?o = _, H' : context [op_len ?o] |- _ => is_var o; rewrite H in H'
         end.

(** Bounds of the accesses and of the lengths. *)
Ltac h_side :=
  cbn [ins_len fetch_reads fetch_ret fetch_class_of op_len set_op_len set_op_content set_op_scale] in *;
  h_known; unfold covers, vector_len in *; repeat (lia || case_match).

Ltac h_step :=
  lazymatch goal with
  | |- wp (bind _ _) _ _ _ => apply wp_bind
  | |- wp (ret _) _ _ _ => apply wp_ret
  | |- wp (ins_upd _) _ _ _ => apply wp_ins_upd; h_norm
  | |- wp (add_len _) _ _ _ => apply wp_add_len; [h_side | h_norm]
  | |- wp ret_len _ _ _ => apply wp_ret_len; [h_side | h_norm]
  | |- wp get_ins _ _ _ => apply wp_get_ins; h_norm
  | |- wp (get_op _) _ _ _ => apply wp_ins_get_op; h_norm
  | |- wp get_proc _ _ _ => apply wp_ins_get_proc
  | |- wp (proc_upd _) _ _ _ => apply wp_proc_upd
  | |- wp (read _) _ _ _ => apply wp_read; [h_side | rewrite ?mod_of_spec, ?reg_of_spec, ?rm_of_spec]
  | |- wp (read_le _ _) _ _ _ => apply wp_read_le; [h_side.. |]
  | |- wp (asm_operand_fetch ?k ?p ?t) _ _ _ =>
      eapply (wp_fetch t);
      [reflexivity | reflexivity | done | h_side | intros ? ?Hlen ?Htype; h_norm; cbn in Hlen, Htype]
  | |- wp (switch _ [] _) _ _ _ => apply wp_switch_nil
  | |- wp (switch _ (_ :: _) _) _ _ _ => apply wp_switch_cons; intros
  | |- wp (if _ then _ else _) _ _ _ => apply wp_if; intros
  end; cbv beta zeta iota.

Ltac h_flow :=
  unfold always, seq_flow, group5_flow;
  repeat match goal with H : reg_of _ = _ |- context [reg_of _] => rewrite H end;
  reflexivity.

(** A leaf: an impossible path, or the lengths and the flow agree. *)
Ltac h_leaf :=
  cbn in *;
  first [ discriminate | exfalso; lia
        | h_known; cbn in *;
          first [ discriminate | split_and!; [h_side | h_side | h_flow | done] ] ].

Ltac h_start :=
  intros e p len i pr Hm (Hop & Hty & Hln) Hp Hc Hok;
  destruct i; cbn [ins_op ins_type ins_len] in Hop, Hty, Hln; subst;
  pose proof (modrm_len_pos (e_buf e) (p + 1));
  pose proof (modrm_len_3 (e_buf e) (p + 1));
  pose proof (modrm_len_high (e_buf e) (p + 1));
  pose proof (reg_of_range (byte (e_buf e) (p + 1)));
  pose proof (mod_of_range (byte (e_buf e) (p + 1)));
  cbn [body_len imm_len] in *.

Create HintDb ia32_decodes discriminated.
#[export] Hint Constants Opaque : ia32_decodes.

Ltac h_decode h := h_start; unfold h; h_unfold; repeat h_step; h_leaf.
