(* ===== verification/Ia32ArithSpec.v ===== *)
(** The handlers of Ia32Arith.v and Ia32Move.v agree with the opcode maps: length, record of the
    length, flow of control, state of the processor. *)

From S2P Require Import Prelude Ia32 Ia32Operand Ia32Wp Ia32Intel Ia32Arith.
From S2P Require Import Ia32Move.

Lemma op_add_rmb_rb_decodes : decodes op_add_rmb_rb (Modrm ImmNone) seq_flow always.
Proof. h_decode op_add_rmb_rb. Qed.

Lemma op_add_rmv_rv_decodes : decodes op_add_rmv_rv (Modrm ImmNone) seq_flow always.
Proof. h_decode op_add_rmv_rv. Qed.

Lemma op_add_rb_rmb_decodes : decodes op_add_rb_rmb (Modrm ImmNone) seq_flow always.
Proof. h_decode op_add_rb_rmb. Qed.

Lemma op_add_rv_rmv_decodes : decodes op_add_rv_rmv (Modrm ImmNone) seq_flow always.
Proof. h_decode op_add_rv_rmv. Qed.

Lemma op_add_al_ib_decodes : decodes op_add_al_ib (Plain Imm8) seq_flow always.
Proof. h_decode op_add_al_ib. Qed.

Lemma op_add_eax_iv_decodes : decodes op_add_eax_iv (Plain ImmZ) seq_flow always.
Proof. h_decode op_add_eax_iv. Qed.

Lemma op_push_es_decodes : decodes op_push_es (Plain ImmNone) seq_flow always.
Proof. h_decode op_push_es. Qed.

Lemma op_pop_es_decodes : decodes op_pop_es (Plain ImmNone) seq_flow always.
Proof. h_decode op_pop_es. Qed.

Lemma op_or_rmb_rb_decodes : decodes op_or_rmb_rb (Modrm ImmNone) seq_flow always.
Proof. h_decode op_or_rmb_rb. Qed.

Lemma op_or_rmv_rv_decodes : decodes op_or_rmv_rv (Modrm ImmNone) seq_flow always.
Proof. h_decode op_or_rmv_rv. Qed.

Lemma op_or_rb_rmb_decodes : decodes op_or_rb_rmb (Modrm ImmNone) seq_flow always.
Proof. h_decode op_or_rb_rmb. Qed.

Lemma op_or_rv_rmv_decodes : decodes op_or_rv_rmv (Modrm ImmNone) seq_flow always.
Proof. h_decode op_or_rv_rmv. Qed.

Lemma op_or_al_ib_decodes : decodes op_or_al_ib (Plain Imm8) seq_flow always.
Proof. h_decode op_or_al_ib. Qed.

Lemma op_or_eax_iv_decodes : decodes op_or_eax_iv (Plain ImmZ) seq_flow always.
Proof. h_decode op_or_eax_iv. Qed.

Lemma op_push_cs_decodes : decodes op_push_cs (Plain ImmNone) seq_flow always.
Proof. h_decode op_push_cs. Qed.

Lemma op_adc_rmb_rb_decodes : decodes op_adc_rmb_rb (Modrm ImmNone) seq_flow always.
Proof. h_decode op_adc_rmb_rb. Qed.

Lemma op_adc_rmv_rv_decodes : decodes op_adc_rmv_rv (Modrm ImmNone) seq_flow always.
Proof. h_decode op_adc_rmv_rv. Qed.

Lemma op_adc_rb_rmb_decodes : decodes op_adc_rb_rmb (Modrm ImmNone) seq_flow always.
Proof. h_decode op_adc_rb_rmb. Qed.

Lemma op_adc_rv_rmv_decodes : decodes op_adc_rv_rmv (Modrm ImmNone) seq_flow always.
Proof. h_decode op_adc_rv_rmv. Qed.

Lemma op_adc_al_ib_decodes : decodes op_adc_al_ib (Plain Imm8) seq_flow always.
Proof. h_decode op_adc_al_ib. Qed.

Lemma op_adc_eax_iv_decodes : decodes op_adc_eax_iv (Plain ImmZ) seq_flow always.
Proof. h_decode op_adc_eax_iv. Qed.

Lemma op_push_ss_decodes : decodes op_push_ss (Plain ImmNone) seq_flow always.
Proof. h_decode op_push_ss. Qed.

Lemma op_sbb_rmb_rb_decodes : decodes op_sbb_rmb_rb (Modrm ImmNone) seq_flow always.
Proof. h_decode op_sbb_rmb_rb. Qed.

Lemma op_sbb_rmv_rv_decodes : decodes op_sbb_rmv_rv (Modrm ImmNone) seq_flow always.
Proof. h_decode op_sbb_rmv_rv. Qed.

Lemma op_sbb_rb_rmb_decodes : decodes op_sbb_rb_rmb (Modrm ImmNone) seq_flow always.
Proof. h_decode op_sbb_rb_rmb. Qed.

Lemma op_sbb_rv_rmv_decodes : decodes op_sbb_rv_rmv (Modrm ImmNone) seq_flow always.
Proof. h_decode op_sbb_rv_rmv. Qed.

Lemma op_sbb_al_ib_decodes : decodes op_sbb_al_ib (Plain Imm8) seq_flow always.
Proof. h_decode op_sbb_al_ib. Qed.

Lemma op_sbb_eax_iv_decodes : decodes op_sbb_eax_iv (Plain ImmZ) seq_flow always.
Proof. h_decode op_sbb_eax_iv. Qed.

Lemma op_pop_ds_decodes : decodes op_pop_ds (Plain ImmNone) seq_flow always.
Proof. h_decode op_pop_ds. Qed.

Lemma op_and_rmb_rb_decodes : decodes op_and_rmb_rb (Modrm ImmNone) seq_flow always.
Proof. h_decode op_and_rmb_rb. Qed.

Lemma op_and_rmv_rv_decodes : decodes op_and_rmv_rv (Modrm ImmNone) seq_flow always.
Proof. h_decode op_and_rmv_rv. Qed.

Lemma op_and_rb_rmb_decodes : decodes op_and_rb_rmb (Modrm ImmNone) seq_flow always.
Proof. h_decode op_and_rb_rmb. Qed.

Lemma op_and_rv_rmv_decodes : decodes op_and_rv_rmv (Modrm ImmNone) seq_flow always.
Proof. h_decode op_and_rv_rmv. Qed.

Lemma op_and_al_ib_decodes : decodes op_and_al_ib (Plain Imm8) seq_flow always.
Proof. h_decode op_and_al_ib. Qed.

Lemma op_and_eax_iv_decodes : decodes op_and_eax_iv (Plain ImmZ) seq_flow always.
Proof. h_decode op_and_eax_iv. Qed.

Lemma op_daa_decodes : decodes op_daa (Plain ImmNone) seq_flow always.
Proof. h_decode op_daa. Qed.

Lemma op_sub_rmb_rb_decodes : decodes op_sub_rmb_rb (Modrm ImmNone) seq_flow always.
Proof. h_decode op_sub_rmb_rb. Qed.

Lemma op_sub_rmv_rv_decodes : decodes op_sub_rmv_rv (Modrm ImmNone) seq_flow always.
Proof. h_decode op_sub_rmv_rv. Qed.

Lemma op_sub_rb_rmb_decodes : decodes op_sub_rb_rmb (Modrm ImmNone) seq_flow always.
Proof. h_decode op_sub_rb_rmb. Qed.

Lemma op_sub_rv_rmv_decodes : decodes op_sub_rv_rmv (Modrm ImmNone) seq_flow always.
Proof. h_decode op_sub_rv_rmv. Qed.

Lemma op_sub_al_ib_decodes : decodes op_sub_al_ib (Plain Imm8) seq_flow always.
Proof. h_decode op_sub_al_ib. Qed.

Lemma op_sub_eax_iv_decodes : decodes op_sub_eax_iv (Plain ImmZ) seq_flow always.
Proof. h_decode op_sub_eax_iv. Qed.

Lemma op_das_decodes : decodes op_das (Plain ImmNone) seq_flow always.
Proof. h_decode op_das. Qed.

Lemma op_xor_rmb_rb_decodes : decodes op_xor_rmb_rb (Modrm ImmNone) seq_flow always.
Proof. h_decode op_xor_rmb_rb. Qed.

Lemma op_xor_rmv_rv_decodes : decodes op_xor_rmv_rv (Modrm ImmNone) seq_flow always.
Proof. h_decode op_xor_rmv_rv. Qed.

Lemma op_xor_rb_rmb_decodes : decodes op_xor_rb_rmb (Modrm ImmNone) seq_flow always.
Proof. h_decode op_xor_rb_rmb. Qed.

Lemma op_xor_rv_rmv_decodes : decodes op_xor_rv_rmv (Modrm ImmNone) seq_flow always.
Proof. h_decode op_xor_rv_rmv. Qed.

Lemma op_xor_al_ib_decodes : decodes op_xor_al_ib (Plain Imm8) seq_flow always.
Proof. h_decode op_xor_al_ib. Qed.

Lemma op_xor_eax_iv_decodes : decodes op_xor_eax_iv (Plain ImmZ) seq_flow always.
Proof. h_decode op_xor_eax_iv. Qed.

Lemma op_aaa_decodes : decodes op_aaa (Plain ImmNone) seq_flow always.
Proof. h_decode op_aaa. Qed.

Lemma op_cmp_rmb_rb_decodes : decodes op_cmp_rmb_rb (Modrm ImmNone) seq_flow always.
Proof. h_decode op_cmp_rmb_rb. Qed.

Lemma op_cmp_rmv_rv_decodes : decodes op_cmp_rmv_rv (Modrm ImmNone) seq_flow always.
Proof. h_decode op_cmp_rmv_rv. Qed.

Lemma op_cmp_rb_rmb_decodes : decodes op_cmp_rb_rmb (Modrm ImmNone) seq_flow always.
Proof. h_decode op_cmp_rb_rmb. Qed.

Lemma op_cmp_rv_rmv_decodes : decodes op_cmp_rv_rmv (Modrm ImmNone) seq_flow always.
Proof. h_decode op_cmp_rv_rmv. Qed.

Lemma op_cmp_al_ib_decodes : decodes op_cmp_al_ib (Plain Imm8) seq_flow always.
Proof. h_decode op_cmp_al_ib. Qed.

Lemma op_cmp_eax_iv_decodes : decodes op_cmp_eax_iv (Plain ImmZ) seq_flow always.
Proof. h_decode op_cmp_eax_iv. Qed.

Lemma op_aas_decodes : decodes op_aas (Plain ImmNone) seq_flow always.
Proof. h_decode op_aas. Qed.

#[export] Hint Resolve
  op_add_rmb_rb_decodes op_add_rmv_rv_decodes op_add_rb_rmb_decodes op_add_rv_rmv_decodes
  op_add_al_ib_decodes op_add_eax_iv_decodes op_push_es_decodes op_pop_es_decodes
  op_or_rmb_rb_decodes op_or_rmv_rv_decodes op_or_rb_rmb_decodes op_or_rv_rmv_decodes
  op_or_al_ib_decodes op_or_eax_iv_decodes op_push_cs_decodes op_adc_rmb_rb_decodes
  op_adc_rmv_rv_decodes op_adc_rb_rmb_decodes op_adc_rv_rmv_decodes op_adc_al_ib_decodes
  op_adc_eax_iv_decodes op_push_ss_decodes op_sbb_rmb_rb_decodes op_sbb_rmv_rv_decodes
  op_sbb_rb_rmb_decodes op_sbb_rv_rmv_decodes op_sbb_al_ib_decodes op_sbb_eax_iv_decodes
  op_pop_ds_decodes op_and_rmb_rb_decodes op_and_rmv_rv_decodes op_and_rb_rmb_decodes
  op_and_rv_rmv_decodes op_and_al_ib_decodes op_and_eax_iv_decodes op_daa_decodes
  op_sub_rmb_rb_decodes op_sub_rmv_rv_decodes op_sub_rb_rmb_decodes op_sub_rv_rmv_decodes
  op_sub_al_ib_decodes op_sub_eax_iv_decodes op_das_decodes op_xor_rmb_rb_decodes
  op_xor_rmv_rv_decodes op_xor_rb_rmb_decodes op_xor_rv_rmv_decodes op_xor_al_ib_decodes
  op_xor_eax_iv_decodes op_aaa_decodes op_cmp_rmb_rb_decodes op_cmp_rmv_rv_decodes
  op_cmp_rb_rmb_decodes op_cmp_rv_rmv_decodes op_cmp_al_ib_decodes op_cmp_eax_iv_decodes
  op_aas_decodes : ia32_decodes.

(** * Moves *)

Lemma op_inc_reg_decodes : decodes op_inc_reg (Plain ImmNone) seq_flow always.
Proof. h_decode op_inc_reg. Qed.

Lemma op_dec_reg_decodes : decodes op_dec_reg (Plain ImmNone) seq_flow always.
Proof. h_decode op_dec_reg. Qed.

Lemma op_push_reg_decodes : decodes op_push_reg (Plain ImmNone) seq_flow always.
Proof. h_decode op_push_reg. Qed.

Lemma op_pop_reg_decodes : decodes op_pop_reg (Plain ImmNone) seq_flow always.
Proof. h_decode op_pop_reg. Qed.

Lemma op_pusha_decodes : decodes op_pusha (Plain ImmNone) seq_flow always.
Proof. h_decode op_pusha. Qed.

Lemma op_popa_decodes : decodes op_popa (Plain ImmNone) seq_flow always.
Proof. h_decode op_popa. Qed.

Lemma op_bound_gv_ma_decodes : decodes op_bound_gv_ma (Modrm ImmNone) seq_flow always.
Proof. h_decode op_bound_gv_ma. Qed.

Lemma op_push_iv_decodes : decodes op_push_iv (Plain ImmZ) seq_flow always.
Proof. h_decode op_push_iv. Qed.

Lemma op_imul_rv_rmv_iv_decodes : decodes op_imul_rv_rmv_iv (Modrm ImmZ) seq_flow always.
Proof. h_decode op_imul_rv_rmv_iv. Qed.

Lemma op_push_ib_decodes : decodes op_push_ib (Plain Imm8) seq_flow always.
Proof. h_decode op_push_ib. Qed.

Lemma op_imul_gv_ev_ib_decodes : decodes op_imul_gv_ev_ib (Modrm Imm8) seq_flow always.
Proof. h_decode op_imul_gv_ev_ib. Qed.

Lemma op_insb_decodes : decodes op_insb (Plain ImmNone) seq_flow always.
Proof. h_decode op_insb. Qed.

Lemma op_insw_decodes : decodes op_insw (Plain ImmNone) seq_flow always.
Proof. h_decode op_insw. Qed.

Lemma op_outsb_decodes : decodes op_outsb (Plain ImmNone) seq_flow always.
Proof. h_decode op_outsb. Qed.

Lemma op_outsw_decodes : decodes op_outsw (Plain ImmNone) seq_flow always.
Proof. h_decode op_outsw. Qed.

Lemma op_jo_decodes : decodes op_jo (Plain Imm8) (λ _, CondJump) always.
Proof. h_decode op_jo. Qed.

Lemma op_jb_decodes : decodes op_jb (Plain Imm8) (λ _, CondJump) always.
Proof. h_decode op_jb. Qed.

Lemma op_jae_decodes : decodes op_jae (Plain Imm8) (λ _, CondJump) always.
Proof. h_decode op_jae. Qed.

Lemma op_je_decodes : decodes op_je (Plain Imm8) (λ _, CondJump) always.
Proof. h_decode op_je. Qed.

Lemma op_jne_decodes : decodes op_jne (Plain Imm8) (λ _, CondJump) always.
Proof. h_decode op_jne. Qed.

Lemma op_jbe_decodes : decodes op_jbe (Plain Imm8) (λ _, CondJump) always.
Proof. h_decode op_jbe. Qed.

Lemma op_ja_decodes : decodes op_ja (Plain Imm8) (λ _, CondJump) always.
Proof. h_decode op_ja. Qed.

Lemma op_js_decodes : decodes op_js (Plain Imm8) (λ _, CondJump) always.
Proof. h_decode op_js. Qed.

Lemma op_jns_decodes : decodes op_jns (Plain Imm8) (λ _, CondJump) always.
Proof. h_decode op_jns. Qed.

Lemma op_jp_decodes : decodes op_jp (Plain Imm8) (λ _, CondJump) always.
Proof. h_decode op_jp. Qed.

Lemma op_jnp_decodes : decodes op_jnp (Plain Imm8) (λ _, CondJump) always.
Proof. h_decode op_jnp. Qed.

Lemma op_jl_decodes : decodes op_jl (Plain Imm8) (λ _, CondJump) always.
Proof. h_decode op_jl. Qed.

Lemma op_jge_decodes : decodes op_jge (Plain Imm8) (λ _, CondJump) always.
Proof. h_decode op_jge. Qed.

Lemma op_jle_decodes : decodes op_jle (Plain Imm8) (λ _, CondJump) always.
Proof. h_decode op_jle. Qed.

Lemma op_jg_decodes : decodes op_jg (Plain Imm8) (λ _, CondJump) always.
Proof. h_decode op_jg. Qed.

Lemma op_immed_rmb_ib_decodes : decodes op_immed_rmb_ib (Modrm Imm8) seq_flow always.
Proof. h_decode op_immed_rmb_ib. Qed.

Lemma op_immed_rmv_iv_decodes : decodes op_immed_rmv_iv (Modrm ImmZ) seq_flow always.
Proof. h_decode op_immed_rmv_iv. Qed.

Lemma op_immed_rmv_ib_decodes : decodes op_immed_rmv_ib (Modrm Imm8) seq_flow always.
Proof. h_decode op_immed_rmv_ib. Qed.

Lemma op_test_rmb_rb_decodes : decodes op_test_rmb_rb (Modrm ImmNone) seq_flow always.
Proof. h_decode op_test_rmb_rb. Qed.

Lemma op_test_rmv_rv_decodes : decodes op_test_rmv_rv (Modrm ImmNone) seq_flow always.
Proof. h_decode op_test_rmv_rv. Qed.

Lemma op_xchg_rmb_rb_decodes : decodes op_xchg_rmb_rb (Modrm ImmNone) seq_flow always.
Proof. h_decode op_xchg_rmb_rb. Qed.

Lemma op_xchg_rmv_rv_decodes : decodes op_xchg_rmv_rv (Modrm ImmNone) seq_flow always.
Proof. h_decode op_xchg_rmv_rv. Qed.

Lemma op_mov_rmb_rb_decodes : decodes op_mov_rmb_rb (Modrm ImmNone) seq_flow always.
Proof. h_decode op_mov_rmb_rb. Qed.

Lemma op_mov_rmv_rv_decodes : decodes op_mov_rmv_rv (Modrm ImmNone) seq_flow always.
Proof. h_decode op_mov_rmv_rv. Qed.

Lemma op_mov_rb_rmb_decodes : decodes op_mov_rb_rmb (Modrm ImmNone) seq_flow always.
Proof. h_decode op_mov_rb_rmb. Qed.

Lemma op_mov_rv_rmv_decodes : decodes op_mov_rv_rmv (Modrm ImmNone) seq_flow always.
Proof. h_decode op_mov_rv_rmv. Qed.

Lemma op_mov_rm_segr_decodes : decodes op_mov_rm_segr (Modrm ImmNone) seq_flow always.
Proof. h_decode op_mov_rm_segr. Qed.

Lemma op_lea_rv_m_decodes : decodes op_lea_rv_m (Modrm ImmNone) seq_flow always.
Proof. h_decode op_lea_rv_m. Qed.

Lemma op_mov_segr_rm_decodes : decodes op_mov_segr_rm (Modrm ImmNone) seq_flow always.
Proof. h_decode op_mov_segr_rm. Qed.

Lemma op_pop_rmv_decodes : decodes op_pop_rmv (Modrm ImmNone) seq_flow always.
Proof. h_decode op_pop_rmv. Qed.

#[export] Hint Resolve
  op_inc_reg_decodes op_dec_reg_decodes op_push_reg_decodes op_pop_reg_decodes op_pusha_decodes
  op_popa_decodes op_bound_gv_ma_decodes op_push_iv_decodes op_imul_rv_rmv_iv_decodes
  op_push_ib_decodes op_imul_gv_ev_ib_decodes op_insb_decodes op_insw_decodes op_outsb_decodes
  op_outsw_decodes op_jo_decodes op_jb_decodes op_jae_decodes op_je_decodes op_jne_decodes
  op_jbe_decodes op_ja_decodes op_js_decodes op_jns_decodes op_jp_decodes op_jnp_decodes
  op_jl_decodes op_jge_decodes op_jle_decodes op_jg_decodes op_immed_rmb_ib_decodes
  op_immed_rmv_iv_decodes op_immed_rmv_ib_decodes op_test_rmb_rb_decodes op_test_rmv_rv_decodes
  op_xchg_rmb_rb_decodes op_xchg_rmv_rv_decodes op_mov_rmb_rb_decodes op_mov_rmv_rv_decodes
  op_mov_rb_rmb_decodes op_mov_rv_rmv_decodes op_mov_rm_segr_decodes op_lea_rv_m_decodes
  op_mov_segr_rm_decodes op_pop_rmv_decodes : ia32_decodes.
