(* ===== verification/Ia32MiscSpec.v ===== *)
(** The handlers of Ia32Misc.v and Ia32Fpu.v agree with the opcode maps: length, record of the
    length, flow of control, state of the processor. *)

From S2P Require Import Prelude Ia32 Ia32Operand Ia32Wp Ia32Intel Ia32Misc.
From S2P Require Import Ia32Fpu.

Lemma op_nop_decodes : decodes op_nop (Plain ImmNone) seq_flow always.
Proof. h_decode op_nop. Qed.

Lemma op_xchg_eax_reg_decodes : decodes op_xchg_eax_reg (Plain ImmNone) seq_flow always.
Proof. h_decode op_xchg_eax_reg. Qed.

Lemma op_cwtl_decodes : decodes op_cwtl (Plain ImmNone) seq_flow always.
Proof. h_decode op_cwtl. Qed.

Lemma op_cltd_decodes : decodes op_cltd (Plain ImmNone) seq_flow always.
Proof. h_decode op_cltd. Qed.

Lemma op_pushf_decodes : decodes op_pushf (Plain ImmNone) seq_flow always.
Proof. h_decode op_pushf. Qed.

Lemma op_popf_decodes : decodes op_popf (Plain ImmNone) seq_flow always.
Proof. h_decode op_popf. Qed.

Lemma op_sahf_decodes : decodes op_sahf (Plain ImmNone) seq_flow always.
Proof. h_decode op_sahf. Qed.

Lemma op_lahf_decodes : decodes op_lahf (Plain ImmNone) seq_flow always.
Proof. h_decode op_lahf. Qed.

Lemma op_mov_al_ref_iv_decodes :
  decodes op_mov_al_ref_iv (Plain ImmOffs) seq_flow
    (λ pr _, opsize pr =? 0).
Proof. h_decode op_mov_al_ref_iv. Qed.

Lemma op_mov_eax_ref_iv_decodes :
  decodes op_mov_eax_ref_iv (Plain ImmOffs) seq_flow
    (λ pr _, opsize pr =? 0).
Proof. h_decode op_mov_eax_ref_iv. Qed.

Lemma op_mov_ref_iv_al_decodes :
  decodes op_mov_ref_iv_al (Plain ImmOffs) seq_flow
    (λ pr _, opsize pr =? 0).
Proof. h_decode op_mov_ref_iv_al. Qed.

Lemma op_mov_ref_iv_eax_decodes :
  decodes op_mov_ref_iv_eax (Plain ImmOffs) seq_flow
    (λ pr _, opsize pr =? 0).
Proof. h_decode op_mov_ref_iv_eax. Qed.

Lemma op_movsb_decodes : decodes op_movsb (Plain ImmNone) seq_flow always.
Proof. h_decode op_movsb. Qed.

Lemma op_movsd_decodes : decodes op_movsd (Plain ImmNone) seq_flow always.
Proof. h_decode op_movsd. Qed.

Lemma op_cmpsb_decodes : decodes op_cmpsb (Plain ImmNone) seq_flow always.
Proof. h_decode op_cmpsb. Qed.

Lemma op_cmpsd_decodes : decodes op_cmpsd (Plain ImmNone) seq_flow always.
Proof. h_decode op_cmpsd. Qed.

Lemma op_test_al_rb_decodes : decodes op_test_al_rb (Plain Imm8) seq_flow always.
Proof. h_decode op_test_al_rb. Qed.

Lemma op_test_eax_iv_decodes : decodes op_test_eax_iv (Plain ImmZ) seq_flow always.
Proof. h_decode op_test_eax_iv. Qed.

Lemma op_stosb_decodes : decodes op_stosb (Plain ImmNone) seq_flow always.
Proof. h_decode op_stosb. Qed.

Lemma op_stosd_decodes : decodes op_stosd (Plain ImmNone) seq_flow always.
Proof. h_decode op_stosd. Qed.

Lemma op_lodsb_decodes : decodes op_lodsb (Plain ImmNone) seq_flow always.
Proof. h_decode op_lodsb. Qed.

Lemma op_lodsd_decodes : decodes op_lodsd (Plain ImmNone) seq_flow always.
Proof. h_decode op_lodsd. Qed.

Lemma op_scasb_decodes : decodes op_scasb (Plain ImmNone) seq_flow always.
Proof. h_decode op_scasb. Qed.

Lemma op_scasd_decodes : decodes op_scasd (Plain ImmNone) seq_flow always.
Proof. h_decode op_scasd. Qed.

Lemma op_mov_subreg_ib_decodes : decodes op_mov_subreg_ib (Plain Imm8) seq_flow always.
Proof. h_decode op_mov_subreg_ib. Qed.

Lemma op_mov_reg_iv_decodes : decodes op_mov_reg_iv (Plain ImmZ) seq_flow always.
Proof. h_decode op_mov_reg_iv. Qed.

Lemma op_shr_rmb_ib_decodes : decodes op_shr_rmb_ib (Modrm Imm8) seq_flow always.
Proof. h_decode op_shr_rmb_ib. Qed.

Lemma op_shr_rmv_ib_decodes : decodes op_shr_rmv_ib (Modrm Imm8) seq_flow always.
Proof. h_decode op_shr_rmv_ib. Qed.

Lemma op_ret_i2_decodes : decodes op_ret_i2 (Plain Imm16) (λ _, Ret) always.
Proof. h_decode op_ret_i2. Qed.

Lemma op_ret_decodes : decodes op_ret (Plain ImmNone) (λ _, Ret) always.
Proof. h_decode op_ret. Qed.

Lemma op_mov_rmb_ib_decodes : decodes op_mov_rmb_ib (Modrm Imm8) seq_flow always.
Proof. h_decode op_mov_rmb_ib. Qed.

Lemma op_mov_rmv_iv_decodes : decodes op_mov_rmv_iv (Modrm ImmZ) seq_flow always.
Proof. h_decode op_mov_rmv_iv. Qed.

Lemma op_leave_decodes : decodes op_leave (Plain ImmNone) seq_flow always.
Proof. h_decode op_leave. Qed.

Lemma op_retf_i2_decodes : decodes op_retf_i2 (Plain Imm16) (λ _, Ret) always.
Proof. h_decode op_retf_i2. Qed.

Lemma op_retf_decodes : decodes op_retf (Plain ImmNone) (λ _, Ret) always.
Proof. h_decode op_retf. Qed.

Lemma op_int_3_decodes : decodes op_int_3 (Plain ImmNone) (λ _, Interrupt) always.
Proof. h_decode op_int_3. Qed.

Lemma op_int_ib_decodes : decodes op_int_ib (Plain Imm8) (λ _, Interrupt) always.
Proof. h_decode op_int_ib. Qed.

Lemma op_into_decodes : decodes op_into (Plain ImmNone) (λ _, Interrupt) always.
Proof. h_decode op_into. Qed.

Lemma op_iret_decodes : decodes op_iret (Plain ImmNone) (λ _, IntRet) always.
Proof. h_decode op_iret. Qed.

Lemma op_shift_rmb_1_decodes : decodes op_shift_rmb_1 (Modrm ImmNone) seq_flow always.
Proof. h_decode op_shift_rmb_1. Qed.

Lemma op_shift_rmv_1_decodes : decodes op_shift_rmv_1 (Modrm ImmNone) seq_flow always.
Proof. h_decode op_shift_rmv_1. Qed.

Lemma op_shift_rmb_cl_decodes : decodes op_shift_rmb_cl (Modrm ImmNone) seq_flow always.
Proof. h_decode op_shift_rmb_cl. Qed.

Lemma op_shift_rmv_cl_decodes : decodes op_shift_rmv_cl (Modrm ImmNone) seq_flow always.
Proof. h_decode op_shift_rmv_cl. Qed.

Lemma op_xlatb_decodes : decodes op_xlatb (Plain ImmNone) seq_flow always.
Proof. h_decode op_xlatb. Qed.

#[export] Hint Resolve
  op_nop_decodes op_xchg_eax_reg_decodes op_cwtl_decodes op_cltd_decodes op_pushf_decodes
  op_popf_decodes op_sahf_decodes op_lahf_decodes op_mov_al_ref_iv_decodes
  op_mov_eax_ref_iv_decodes op_mov_ref_iv_al_decodes op_mov_ref_iv_eax_decodes op_movsb_decodes
  op_movsd_decodes op_cmpsb_decodes op_cmpsd_decodes op_test_al_rb_decodes
  op_test_eax_iv_decodes op_stosb_decodes op_stosd_decodes op_lodsb_decodes op_lodsd_decodes
  op_scasb_decodes op_scasd_decodes op_mov_subreg_ib_decodes op_mov_reg_iv_decodes
  op_shr_rmb_ib_decodes op_shr_rmv_ib_decodes op_ret_i2_decodes op_ret_decodes
  op_mov_rmb_ib_decodes op_mov_rmv_iv_decodes op_leave_decodes op_retf_i2_decodes
  op_retf_decodes op_int_3_decodes op_int_ib_decodes op_into_decodes op_iret_decodes
  op_shift_rmb_1_decodes op_shift_rmv_1_decodes op_shift_rmb_cl_decodes op_shift_rmv_cl_decodes
  op_xlatb_decodes : ia32_decodes.

(** * Floating point *)

Lemma op_esc0_decodes : decodes op_esc0 (Modrm ImmNone) seq_flow always.
Proof. h_decode op_esc0. Qed.

Lemma op_esc1_decodes :
  decodes op_esc1 (Modrm ImmNone) seq_flow
    (λ _ b, negb ((mod_of b =? 3) && ((reg_of b =? 2) || (reg_of b =? 3)))).
Proof. h_decode op_esc1. Qed.

Lemma op_esc2_decodes : decodes op_esc2 (Modrm ImmNone) seq_flow always.
Proof. h_decode op_esc2. Qed.

Lemma op_esc3_decodes : decodes op_esc3 (Modrm ImmNone) seq_flow always.
Proof. h_decode op_esc3. Qed.

Lemma op_esc4_decodes : decodes op_esc4 (Modrm ImmNone) seq_flow always.
Proof. h_decode op_esc4. Qed.

Lemma op_esc5_decodes : decodes op_esc5 (Modrm ImmNone) seq_flow always.
Proof. h_decode op_esc5. Qed.

Lemma op_esc6_decodes : decodes op_esc6 (Modrm ImmNone) seq_flow (λ _ b, mod_of b =? 3).
Proof. h_decode op_esc6. Qed.

Lemma op_esc7_decodes : decodes op_esc7 (Modrm ImmNone) seq_flow always.
Proof. h_decode op_esc7. Qed.

#[export] Hint Resolve
  op_esc0_decodes op_esc1_decodes op_esc2_decodes op_esc3_decodes op_esc4_decodes
  op_esc5_decodes op_esc6_decodes op_esc7_decodes : ia32_decodes.

(** * Loops, ports, calls, jumps and prefixes *)

Lemma op_loopne_decodes : decodes op_loopne (Plain Imm8) (λ _, CondJump) always.
Proof. h_decode op_loopne. Qed.

Lemma op_loope_decodes : decodes op_loope (Plain Imm8) (λ _, CondJump) always.
Proof. h_decode op_loope. Qed.

Lemma op_loop_decodes : decodes op_loop (Plain Imm8) (λ _, CondJump) always.
Proof. h_decode op_loop. Qed.

Lemma op_je_cxz_decodes : decodes op_je_cxz (Plain Imm8) (λ _, CondJump) always.
Proof. h_decode op_je_cxz. Qed.

Lemma op_in_eax_ref_ib_decodes : decodes op_in_eax_ref_ib (Plain Imm8) seq_flow always.
Proof. h_decode op_in_eax_ref_ib. Qed.

Lemma op_out_ref_ib_al_decodes : decodes op_out_ref_ib_al (Plain Imm8) seq_flow always.
Proof. h_decode op_out_ref_ib_al. Qed.

Lemma op_out_ref_ib_eax_decodes : decodes op_out_ref_ib_eax (Plain Imm8) seq_flow always.
Proof. h_decode op_out_ref_ib_eax. Qed.

Lemma op_call_iv_decodes : decodes op_call_iv (Plain ImmZ) (λ _, Call) always.
Proof. h_decode op_call_iv. Qed.

Lemma op_jmp_iv_decodes : decodes op_jmp_iv (Plain ImmZ) (λ _, Jump) always.
Proof. h_decode op_jmp_iv. Qed.

Lemma op_jmp_ib_decodes : decodes op_jmp_ib (Plain Imm8) (λ _, Jump) always.
Proof. h_decode op_jmp_ib. Qed.

Lemma op_in_al_dx_decodes : decodes op_in_al_dx (Plain ImmNone) seq_flow always.
Proof. h_decode op_in_al_dx. Qed.

Lemma op_in_eax_dx_decodes : decodes op_in_eax_dx (Plain ImmNone) seq_flow always.
Proof. h_decode op_in_eax_dx. Qed.

Lemma op_out_dx_al_decodes : decodes op_out_dx_al (Plain ImmNone) seq_flow always.
Proof. h_decode op_out_dx_al. Qed.

Lemma op_out_dx_eax_decodes : decodes op_out_dx_eax (Plain ImmNone) seq_flow always.
Proof. h_decode op_out_dx_eax. Qed.

Lemma op_hlt_decodes : decodes op_hlt (Plain ImmNone) (λ _, Stop) always.
Proof. h_decode op_hlt. Qed.

Lemma op_cmc_decodes : decodes op_cmc (Plain ImmNone) seq_flow always.
Proof. h_decode op_cmc. Qed.

Lemma op_unary_rmb_decodes :
  decodes op_unary_rmb (ModrmTest Imm8) seq_flow
    (λ _ b, negb (reg_of b =? 1)).
Proof. h_decode op_unary_rmb. Qed.

Lemma op_unary_rmv_decodes :
  decodes op_unary_rmv (ModrmTest ImmZ) seq_flow
    (λ _ b, negb (reg_of b =? 1)).
Proof. h_decode op_unary_rmv. Qed.

Lemma op_clc_decodes : decodes op_clc (Plain ImmNone) seq_flow always.
Proof. h_decode op_clc. Qed.

Lemma op_stc_decodes : decodes op_stc (Plain ImmNone) seq_flow always.
Proof. h_decode op_stc. Qed.

Lemma op_cli_decodes : decodes op_cli (Plain ImmNone) seq_flow always.
Proof. h_decode op_cli. Qed.

Lemma op_sti_decodes : decodes op_sti (Plain ImmNone) seq_flow always.
Proof. h_decode op_sti. Qed.

Lemma op_cld_decodes : decodes op_cld (Plain ImmNone) seq_flow always.
Proof. h_decode op_cld. Qed.

Lemma op_std_decodes : decodes op_std (Plain ImmNone) seq_flow always.
Proof. h_decode op_std. Qed.

Lemma op_incdec_rmb_decodes : decodes op_incdec_rmb (Modrm ImmNone) seq_flow always.
Proof. h_decode op_incdec_rmb. Qed.

Lemma op_indir_rmv_decodes : decodes op_indir_rmv (Modrm ImmNone) group5_flow always.
Proof. h_decode op_indir_rmv. Qed.

#[export] Hint Resolve
  op_loopne_decodes op_loope_decodes op_loop_decodes op_je_cxz_decodes op_in_eax_ref_ib_decodes
  op_out_ref_ib_al_decodes op_out_ref_ib_eax_decodes op_call_iv_decodes op_jmp_iv_decodes
  op_jmp_ib_decodes op_in_al_dx_decodes op_in_eax_dx_decodes op_out_dx_al_decodes
  op_out_dx_eax_decodes op_hlt_decodes op_cmc_decodes op_unary_rmb_decodes op_unary_rmv_decodes
  op_clc_decodes op_stc_decodes op_cli_decodes op_sti_decodes op_cld_decodes op_std_decodes
  op_incdec_rmb_decodes op_indir_rmv_decodes : ia32_decodes.
