(* ===== verification/Ia32ExtSpec.v ===== *)
(** The handlers of Ia32Ext.v agree with the opcode maps: length, record of the
    length, flow of control, state of the processor. *)

From S2P Require Import Prelude Ia32 Ia32Operand Ia32Wp Ia32Intel Ia32Ext.

Lemma op_group6_decodes : decodes op_group6 (Modrm ImmNone) seq_flow always.
Proof. h_decode op_group6. Qed.

Lemma op_group7_decodes :
  decodes op_group7 (Modrm ImmNone) seq_flow
    (λ _ b, (reg_of b =? 0) || (reg_of b =? 2) || (reg_of b =? 3)).
Proof. h_decode op_group7. Qed.

Lemma i386_wbinvd_decodes : decodes i386_wbinvd (Plain ImmNone) seq_flow always.
Proof. h_decode i386_wbinvd. Qed.

Lemma op_ud2a_decodes : decodes op_ud2a (Plain ImmNone) seq_flow always.
Proof. h_decode op_ud2a. Qed.

Lemma i386_mov_rm_cr_decodes : decodes i386_mov_rm_cr ModrmReg seq_flow always.
Proof. h_decode i386_mov_rm_cr. Qed.

Lemma i386_mov_cr_rm_decodes : decodes i386_mov_cr_rm ModrmReg seq_flow always.
Proof. h_decode i386_mov_cr_rm. Qed.

Lemma i386_mov_dr_rm_decodes : decodes i386_mov_dr_rm ModrmReg seq_flow always.
Proof. h_decode i386_mov_dr_rm. Qed.

Lemma i386_rdtsc_decodes : decodes i386_rdtsc (Plain ImmNone) seq_flow always.
Proof. h_decode i386_rdtsc. Qed.

Lemma i386_rdmsr_decodes : decodes i386_rdmsr (Plain ImmNone) seq_flow always.
Proof. h_decode i386_rdmsr. Qed.

Lemma i386_cmovo_decodes : decodes i386_cmovo (Modrm ImmNone) seq_flow always.
Proof. h_decode i386_cmovo. Qed.

Lemma i386_cmovno_decodes : decodes i386_cmovno (Modrm ImmNone) seq_flow always.
Proof. h_decode i386_cmovno. Qed.

Lemma i386_cmovb_decodes : decodes i386_cmovb (Modrm ImmNone) seq_flow always.
Proof. h_decode i386_cmovb. Qed.

Lemma i386_cmovae_decodes : decodes i386_cmovae (Modrm ImmNone) seq_flow always.
Proof. h_decode i386_cmovae. Qed.

Lemma i386_cmove_decodes : decodes i386_cmove (Modrm ImmNone) seq_flow always.
Proof. h_decode i386_cmove. Qed.

Lemma i386_cmovne_decodes : decodes i386_cmovne (Modrm ImmNone) seq_flow always.
Proof. h_decode i386_cmovne. Qed.

Lemma i386_cmovbe_decodes : decodes i386_cmovbe (Modrm ImmNone) seq_flow always.
Proof. h_decode i386_cmovbe. Qed.

Lemma i386_cmova_decodes : decodes i386_cmova (Modrm ImmNone) seq_flow always.
Proof. h_decode i386_cmova. Qed.

Lemma i386_cmovs_decodes : decodes i386_cmovs (Modrm ImmNone) seq_flow always.
Proof. h_decode i386_cmovs. Qed.

Lemma i386_cmovns_decodes : decodes i386_cmovns (Modrm ImmNone) seq_flow always.
Proof. h_decode i386_cmovns. Qed.

Lemma i386_cmovp_decodes : decodes i386_cmovp (Modrm ImmNone) seq_flow always.
Proof. h_decode i386_cmovp. Qed.

Lemma i386_cmovnp_decodes : decodes i386_cmovnp (Modrm ImmNone) seq_flow always.
Proof. h_decode i386_cmovnp. Qed.

Lemma i386_cmovl_decodes : decodes i386_cmovl (Modrm ImmNone) seq_flow always.
Proof. h_decode i386_cmovl. Qed.

Lemma i386_cmovnl_decodes : decodes i386_cmovnl (Modrm ImmNone) seq_flow always.
Proof. h_decode i386_cmovnl. Qed.

Lemma i386_cmovle_decodes : decodes i386_cmovle (Modrm ImmNone) seq_flow always.
Proof. h_decode i386_cmovle. Qed.

Lemma i386_cmovnle_decodes : decodes i386_cmovnle (Modrm ImmNone) seq_flow always.
Proof. h_decode i386_cmovnle. Qed.

Lemma i386_punpcklbw_pq_qd_decodes : decodes i386_punpcklbw_pq_qd (Modrm ImmNone) seq_flow always.
Proof. h_decode i386_punpcklbw_pq_qd. Qed.

Lemma i386_packuswb_pq_qq_decodes : decodes i386_packuswb_pq_qq (Modrm ImmNone) seq_flow always.
Proof. h_decode i386_packuswb_pq_qq. Qed.

Lemma i386_punpckhbw_pq_qq_decodes : decodes i386_punpckhbw_pq_qq (Modrm ImmNone) seq_flow always.
Proof. h_decode i386_punpckhbw_pq_qq. Qed.

Lemma i386_movd_pd_qd_decodes : decodes i386_movd_pd_qd (Modrm ImmNone) seq_flow always.
Proof. h_decode i386_movd_pd_qd. Qed.

Lemma i386_movq_pq_qq_decodes : decodes i386_movq_pq_qq (Modrm ImmNone) seq_flow always.
Proof. h_decode i386_movq_pq_qq. Qed.

Lemma i386_group12_decodes :
  decodes i386_group12 (Modrm Imm8) seq_flow
    (λ _ b, (reg_of b =? 2) || (reg_of b =? 4) || (reg_of b =? 6)).
Proof. h_decode i386_group12. Qed.

Lemma i386_group14_decodes : decodes i386_group14 (Modrm Imm8) seq_flow (λ _ b, reg_of b =? 2).
Proof. h_decode i386_group14. Qed.

Lemma i386_emms_decodes : decodes i386_emms (Plain ImmNone) seq_flow always.
Proof. h_decode i386_emms. Qed.

Lemma i386_movq_qq_pq_decodes : decodes i386_movq_qq_pq (Modrm ImmNone) seq_flow always.
Proof. h_decode i386_movq_qq_pq. Qed.

Lemma i386_jb_decodes : decodes i386_jb (Plain ImmZ) seq_flow always.
Proof. h_decode i386_jb. Qed.

Lemma i386_jae_decodes : decodes i386_jae (Plain ImmZ) seq_flow always.
Proof. h_decode i386_jae. Qed.

Lemma i386_je_decodes : decodes i386_je (Plain ImmZ) (λ _, CondJump) always.
Proof. h_decode i386_je. Qed.

Lemma i386_jne_decodes : decodes i386_jne (Plain ImmZ) (λ _, CondJump) always.
Proof. h_decode i386_jne. Qed.

Lemma i386_jbe_decodes : decodes i386_jbe (Plain ImmZ) seq_flow always.
Proof. h_decode i386_jbe. Qed.

Lemma i386_ja_decodes : decodes i386_ja (Plain ImmZ) (λ _, CondJump) always.
Proof. h_decode i386_ja. Qed.

Lemma i386_js_decodes : decodes i386_js (Plain ImmZ) seq_flow always.
Proof. h_decode i386_js. Qed.

Lemma i386_jns_decodes : decodes i386_jns (Plain ImmZ) (λ _, CondJump) always.
Proof. h_decode i386_jns. Qed.

Lemma i386_jp_decodes : decodes i386_jp (Plain ImmZ) (λ _, CondJump) always.
Proof. h_decode i386_jp. Qed.

Lemma i386_jnp_decodes : decodes i386_jnp (Plain ImmZ) (λ _, CondJump) always.
Proof. h_decode i386_jnp. Qed.

Lemma i386_jl_decodes : decodes i386_jl (Plain ImmZ) (λ _, CondJump) always.
Proof. h_decode i386_jl. Qed.

Lemma i386_jge_decodes : decodes i386_jge (Plain ImmZ) (λ _, CondJump) always.
Proof. h_decode i386_jge. Qed.

Lemma i386_jle_decodes : decodes i386_jle (Plain ImmZ) (λ _, CondJump) always.
Proof. h_decode i386_jle. Qed.

Lemma i386_jg_decodes : decodes i386_jg (Plain ImmZ) (λ _, CondJump) always.
Proof. h_decode i386_jg. Qed.

#[export] Hint Resolve
  op_group6_decodes op_group7_decodes i386_wbinvd_decodes op_ud2a_decodes i386_mov_rm_cr_decodes
  i386_mov_cr_rm_decodes i386_mov_dr_rm_decodes i386_rdtsc_decodes i386_rdmsr_decodes
  i386_cmovo_decodes i386_cmovno_decodes i386_cmovb_decodes i386_cmovae_decodes
  i386_cmove_decodes i386_cmovne_decodes i386_cmovbe_decodes i386_cmova_decodes
  i386_cmovs_decodes i386_cmovns_decodes i386_cmovp_decodes i386_cmovnp_decodes
  i386_cmovl_decodes i386_cmovnl_decodes i386_cmovle_decodes i386_cmovnle_decodes
  i386_punpcklbw_pq_qd_decodes i386_packuswb_pq_qq_decodes i386_punpckhbw_pq_qq_decodes
  i386_movd_pd_qd_decodes i386_movq_pq_qq_decodes i386_group12_decodes i386_group14_decodes
  i386_emms_decodes i386_movq_qq_pq_decodes i386_jb_decodes i386_jae_decodes i386_je_decodes
  i386_jne_decodes i386_jbe_decodes i386_ja_decodes i386_js_decodes i386_jns_decodes
  i386_jp_decodes i386_jnp_decodes i386_jl_decodes i386_jge_decodes i386_jle_decodes
  i386_jg_decodes : ia32_decodes.

(** * From 0x0f 0x90 *)

Lemma op_setno_rmb_decodes : decodes op_setno_rmb (Modrm ImmNone) seq_flow always.
Proof. h_decode op_setno_rmb. Qed.

Lemma op_setb_rmb_decodes : decodes op_setb_rmb (Modrm ImmNone) seq_flow always.
Proof. h_decode op_setb_rmb. Qed.

Lemma op_setae_rmb_decodes : decodes op_setae_rmb (Modrm ImmNone) seq_flow always.
Proof. h_decode op_setae_rmb. Qed.

Lemma op_sete_rmb_decodes : decodes op_sete_rmb (Modrm ImmNone) seq_flow always.
Proof. h_decode op_sete_rmb. Qed.

Lemma op_setne_rmb_decodes : decodes op_setne_rmb (Modrm ImmNone) seq_flow always.
Proof. h_decode op_setne_rmb. Qed.

Lemma op_setbe_rmb_decodes : decodes op_setbe_rmb (Modrm ImmNone) seq_flow always.
Proof. h_decode op_setbe_rmb. Qed.

Lemma op_seta_rmb_decodes : decodes op_seta_rmb (Modrm ImmNone) seq_flow always.
Proof. h_decode op_seta_rmb. Qed.

Lemma op_sets_rmb_decodes : decodes op_sets_rmb (Modrm ImmNone) seq_flow always.
Proof. h_decode op_sets_rmb. Qed.

Lemma op_setns_rmb_decodes : decodes op_setns_rmb (Modrm ImmNone) seq_flow always.
Proof. h_decode op_setns_rmb. Qed.

Lemma op_setp_rmb_decodes : decodes op_setp_rmb (Modrm ImmNone) seq_flow always.
Proof. h_decode op_setp_rmb. Qed.

Lemma op_setnp_rmb_decodes : decodes op_setnp_rmb (Modrm ImmNone) seq_flow always.
Proof. h_decode op_setnp_rmb. Qed.

Lemma op_setl_rmb_decodes : decodes op_setl_rmb (Modrm ImmNone) seq_flow always.
Proof. h_decode op_setl_rmb. Qed.

Lemma op_setge_rmb_decodes : decodes op_setge_rmb (Modrm ImmNone) seq_flow always.
Proof. h_decode op_setge_rmb. Qed.

Lemma op_setle_rmb_decodes : decodes op_setle_rmb (Modrm ImmNone) seq_flow always.
Proof. h_decode op_setle_rmb. Qed.

Lemma op_setg_rmb_decodes : decodes op_setg_rmb (Modrm ImmNone) seq_flow always.
Proof. h_decode op_setg_rmb. Qed.

Lemma i386_push_fs_decodes : decodes i386_push_fs (Plain ImmNone) seq_flow always.
Proof. h_decode i386_push_fs. Qed.

Lemma i386_pop_fs_decodes : decodes i386_pop_fs (Plain ImmNone) seq_flow always.
Proof. h_decode i386_pop_fs. Qed.

Lemma i386_cpuid_decodes : decodes i386_cpuid (Plain ImmNone) seq_flow always.
Proof. h_decode i386_cpuid. Qed.

Lemma i386_bt_rm_r_decodes : decodes i386_bt_rm_r (Modrm ImmNone) seq_flow always.
Proof. h_decode i386_bt_rm_r. Qed.

Lemma i386_shld_decodes : decodes i386_shld (Modrm Imm8) seq_flow (λ _ b, mod_of b =? 3).
Proof. h_decode i386_shld. Qed.

Lemma i386_shld_rmv_rv_cl_decodes : decodes i386_shld_rmv_rv_cl (Modrm ImmNone) seq_flow always.
Proof. h_decode i386_shld_rmv_rv_cl. Qed.

Lemma i386_xstorenrg_decodes : decodes i386_xstorenrg ModrmReg seq_flow always.
Proof. h_decode i386_xstorenrg. Qed.

Lemma i386_bts_decodes : decodes i386_bts (Modrm ImmNone) seq_flow always.
Proof. h_decode i386_bts. Qed.

Lemma i386_shrd_rmv_rv_ib_decodes : decodes i386_shrd_rmv_rv_ib (Modrm Imm8) seq_flow always.
Proof. h_decode i386_shrd_rmv_rv_ib. Qed.

Lemma i386_shrd_rmv_rv_cl_decodes : decodes i386_shrd_rmv_rv_cl (Modrm ImmNone) seq_flow always.
Proof. h_decode i386_shrd_rmv_rv_cl. Qed.

Lemma i386_group16_decodes : decodes i386_group16 (Modrm ImmNone) seq_flow (λ _ b, reg_of b <? 4).
Proof. h_decode i386_group16. Qed.

Lemma i386_imul_rv_rmv_decodes : decodes i386_imul_rv_rmv (Modrm ImmNone) seq_flow always.
Proof. h_decode i386_imul_rv_rmv. Qed.

Lemma op_cmp_xchg_decodes : decodes op_cmp_xchg (Modrm ImmNone) seq_flow always.
Proof. h_decode op_cmp_xchg. Qed.

Lemma op_lss_rv_rmv_decodes : decodes op_lss_rv_rmv (Modrm ImmNone) seq_flow always.
Proof. h_decode op_lss_rv_rmv. Qed.

Lemma op_btr_rmv_rv_decodes : decodes op_btr_rmv_rv (Modrm ImmNone) seq_flow always.
Proof. h_decode op_btr_rmv_rv. Qed.

Lemma i386_movzbl_rv_rmb_decodes : decodes i386_movzbl_rv_rmb (Modrm ImmNone) seq_flow always.
Proof. h_decode i386_movzbl_rv_rmb. Qed.

Lemma i386_movzwl_rv_rm2_decodes : decodes i386_movzwl_rv_rm2 (Modrm ImmNone) seq_flow always.
Proof. h_decode i386_movzwl_rv_rm2. Qed.

Lemma i386_btrl_decodes : decodes i386_btrl (Modrm Imm8) seq_flow always.
Proof. h_decode i386_btrl. Qed.

Lemma i386_bsf_decodes : decodes i386_bsf (Modrm ImmNone) seq_flow always.
Proof. h_decode i386_bsf. Qed.

Lemma i386_bsr_rv_rmb_decodes : decodes i386_bsr_rv_rmb (Modrm ImmNone) seq_flow always.
Proof. h_decode i386_bsr_rv_rmb. Qed.

Lemma i386_movsbl_rv_rmb_decodes : decodes i386_movsbl_rv_rmb (Modrm ImmNone) seq_flow always.
Proof. h_decode i386_movsbl_rv_rmb. Qed.

Lemma i386_movswl_rv_rm2_decodes : decodes i386_movswl_rv_rm2 (Modrm ImmNone) seq_flow always.
Proof. h_decode i386_movswl_rv_rm2. Qed.

Lemma i386_xadd_decodes : decodes i386_xadd (Modrm ImmNone) seq_flow always.
Proof. h_decode i386_xadd. Qed.

Lemma i386_bswap_decodes : decodes i386_bswap (Plain ImmNone) seq_flow always.
Proof. h_decode i386_bswap. Qed.

Lemma i386_pmullw_pq_qq_decodes : decodes i386_pmullw_pq_qq (Modrm ImmNone) seq_flow always.
Proof. h_decode i386_pmullw_pq_qq. Qed.

Lemma i386_pand_pq_qq_decodes : decodes i386_pand_pq_qq (Modrm ImmNone) seq_flow always.
Proof. h_decode i386_pand_pq_qq. Qed.

Lemma i386_paddusb_pq_qq_decodes : decodes i386_paddusb_pq_qq (Modrm ImmNone) seq_flow always.
Proof. h_decode i386_paddusb_pq_qq. Qed.

Lemma i386_paddusw_pq_qq_decodes : decodes i386_paddusw_pq_qq (Modrm ImmNone) seq_flow always.
Proof. h_decode i386_paddusw_pq_qq. Qed.

Lemma i386_por_pq_qq_decodes : decodes i386_por_pq_qq (Modrm ImmNone) seq_flow always.
Proof. h_decode i386_por_pq_qq. Qed.

Lemma i386_pxor_pq_qq_decodes : decodes i386_pxor_pq_qq (Modrm ImmNone) seq_flow always.
Proof. h_decode i386_pxor_pq_qq. Qed.

#[export] Hint Resolve
  op_setno_rmb_decodes op_setb_rmb_decodes op_setae_rmb_decodes op_sete_rmb_decodes
  op_setne_rmb_decodes op_setbe_rmb_decodes op_seta_rmb_decodes op_sets_rmb_decodes
  op_setns_rmb_decodes op_setp_rmb_decodes op_setnp_rmb_decodes op_setl_rmb_decodes
  op_setge_rmb_decodes op_setle_rmb_decodes op_setg_rmb_decodes i386_push_fs_decodes
  i386_pop_fs_decodes i386_cpuid_decodes i386_bt_rm_r_decodes i386_shld_decodes
  i386_shld_rmv_rv_cl_decodes i386_xstorenrg_decodes i386_bts_decodes
  i386_shrd_rmv_rv_ib_decodes i386_shrd_rmv_rv_cl_decodes i386_group16_decodes
  i386_imul_rv_rmv_decodes op_cmp_xchg_decodes op_lss_rv_rmv_decodes op_btr_rmv_rv_decodes
  i386_movzbl_rv_rmb_decodes i386_movzwl_rv_rm2_decodes i386_btrl_decodes i386_bsf_decodes
  i386_bsr_rv_rmb_decodes i386_movsbl_rv_rmb_decodes i386_movswl_rv_rm2_decodes
  i386_xadd_decodes i386_bswap_decodes i386_pmullw_pq_qq_decodes i386_pand_pq_qq_decodes
  i386_paddusb_pq_qq_decodes i386_paddusw_pq_qq_decodes i386_por_pq_qq_decodes
  i386_pxor_pq_qq_decodes : ia32_decodes.
