(* ===== verification/Ia32LenSpec.v ===== *)
(** The lengths and the flow of control of the instructions the IA-32
    disassembler decodes, against the opcode maps of the processor. *)

From S2P Require Import Prelude LibasmVector Ia32 Ia32Operand Ia32Wp Ia32Intel.
From S2P Require Import Ia32Arith Ia32Move Ia32Misc Ia32Fpu Ia32Ext Ia32Fetch.
From S2P Require Import Ia32ArithSpec Ia32MiscSpec.
From S2P Require Import Ia32ExtSpec.

(** ** The opcode maps *)

Definition among (op : Z) (l : list Z) : bool := existsb (Z.eqb op) l.
Definition within (op a b : Z) : bool := (a <=? op) && (op <=? b).

(** The one-byte opcodes; [None] for the prefixes, 0x0f, 0x9b (wait, which the
    library decodes as a prefix) and 0xd6. *)
Definition intel_one (op : Z) : option layout :=
  if among op [15; 38; 46; 54; 62; 100; 101; 102; 103; 155; 214; 240; 242; 243] then None
  else if within op 0 63 then
    Some (let l := op mod 8 in
          if l <? 4 then Modrm ImmNone
          else if l =? 4 then Plain Imm8
          else if l =? 5 then Plain ImmZ
          else Plain ImmNone)
  else if among op [98; 99; 196; 197; 254; 255] || within op 132 143 || within op 208 211
          || within op 216 223 then Some (Modrm ImmNone)
  else if among op [107; 128; 130; 131; 192; 193; 198] then Some (Modrm Imm8)
  else if among op [105; 129; 199] then Some (Modrm ImmZ)
  else if op =? 246 then Some (ModrmTest Imm8)
  else if op =? 247 then Some (ModrmTest ImmZ)
  else if among op [106; 168; 205; 212; 213; 235] || within op 112 127 || within op 176 183
          || within op 224 231 then Some (Plain Imm8)
  else if among op [104; 169; 232; 233] || within op 184 191 then Some (Plain ImmZ)
  else if among op [194; 202] then Some (Plain Imm16)
  else if among op [154; 234] then Some (Plain ImmPtr)
  else if op =? 200 then Some (Plain ImmEnter)
  else if within op 160 163 then Some (Plain ImmOffs)
  else Some (Plain ImmNone).

(** The two-byte opcodes, 0x0f [op], among those the library registers. *)
Definition intel_two (op : Z) : option layout :=
  if among op [9; 11; 49; 50; 119; 160; 161; 162] || within op 200 207 then Some (Plain ImmNone)
  else if within op 130 143 then Some (Plain ImmZ)
  else if among op [32; 34; 35; 167] then Some ModrmReg
  else if among op [113; 114; 115; 164; 172; 186] then Some (Modrm Imm8)
  else if among op [0; 1; 96; 103; 104; 110; 111; 127; 163; 165; 171; 173; 174; 175; 177; 178; 179;
                    182; 183; 188; 189; 190; 191; 193; 213; 219; 220; 221; 235; 239]
          || within op 64 79 || within op 144 159 then Some (Modrm ImmNone)
  else None.

(** By index in the vector: two-byte opcodes start at 0x100. *)
Definition intel_layout (op : Z) : option layout :=
  if op <? 256 then intel_one op else intel_two (op - 256).

Definition intel_flow (op b : Z) : flow :=
  if within op 112 127 || within op 224 227 || within op (256 + 130) (256 + 143) then CondJump
  else if among op [154; 232] then Call
  else if among op [233; 234; 235] then Jump
  else if among op [194; 195; 202; 203] then Ret
  else if among op [204; 205; 206] then Interrupt
  else if op =? 207 then IntRet
  else if op =? 244 then Stop
  else if op =? 255 then group5_flow b
  else Next.

(** ** Where the library departs from the maps

    [len_agrees op pr b]: the handler of [op], followed by [b], gives the
    length of the maps.  The exceptions are
    - 0x1e push ds, 0x63 arpl, 0x71 jno, 0xc4 les, 0xc5 lds, 0xc8 enter,
      0xd4 aam, 0xd5 aad, 0xe4 in, 0xea ljmp, 0xf1 int1, 0x0f 0x73, 0x0f 0x90;
    - 0xa0 to 0xa3 with the operand size prefix;
    - 0xd9 fnop and its reserved row, 0xde on memory, row 1 of 0xf6 and 0xf7;
    - the rows of 0x0f 0x01, 0x0f 0x71, 0x0f 0x72 and 0x0f 0xae the handler
      does not complete, 0x0f 0xa4 shld on memory. *)
Definition len_agrees (op : Z) (pr : s_asm_proc_i386) (b : Z) : bool :=
  if among op [30; 99; 113; 154; 196; 197; 200; 212; 213; 228; 234; 241; 371; 400] then false
  else if within op 160 163 then opsize pr =? 0
  else if op =? 217 then negb ((mod_of b =? 3) && ((reg_of b =? 2) || (reg_of b =? 3)))
  else if op =? 222 then mod_of b =? 3
  else if among op [246; 247] then negb (reg_of b =? 1)
  else if op =? 257 then (reg_of b =? 0) || (reg_of b =? 2) || (reg_of b =? 3)
  else if op =? 369 then (reg_of b =? 2) || (reg_of b =? 4) || (reg_of b =? 6)
  else if op =? 370 then reg_of b =? 2
  else if op =? 420 then mod_of b =? 3
  else if op =? 430 then reg_of b <? 4
  else true.

(** The near jumps 0x0f 0x82, 0x83, 0x86 and 0x88 (jb, jae, jbe, js) are given
    no type. *)
Definition flow_agrees (op : Z) : bool := negb (among op [386; 387; 390; 392]).

(** ** The vector *)

Definition entry_ok (op : Z) (h : handler) : Prop :=
  ∀ l, intel_layout op = Some l →
  (∀ pr b, len_agrees op pr b = false) ∨
  ∃ fl, decodes h l fl (len_agrees op) ∧ (flow_agrees op = true → ∀ b, fl b = intel_flow op b).

Lemma decodes_weaken h l fl (ok ok' : s_asm_proc_i386 → Z → bool) :
  decodes h l fl ok → (∀ pr b, ok' pr b = true → ok pr b = true) → decodes h l fl ok'.
Proof. intros Hd Hok e p len i pr Hm Hf Hp Hl Hb. by apply Hd; [.. | apply Hok]. Qed.

Ltac entry :=
  intros l Hl; vm_compute in Hl; simplify_eq;
  first [ left; intros pr b; reflexivity
        | right; eexists; split;
          [ eapply decodes_weaken;
            [ typeclasses eauto with ia32_decodes
            | intros pr b Hb; first [ reflexivity | exact Hb ] ]
          | first [ intros _ b; reflexivity | intros H; vm_compute in H; discriminate H ] ] ].

Lemma opcodes_ok : Forall (λ r, entry_ok r.1 r.2) asm_register_ia32_opcodes.
Proof.
  unfold asm_register_ia32_opcodes.
  repeat (apply Forall_cons; cbn [fst snd]; split; [entry |]). done.
Qed.

Lemma opcodes_nodup : NoDup asm_register_ia32_opcodes.*1.
Proof. apply (bool_decide_unpack _). by vm_compute. Qed.

(** Every opcode of the maps is registered, but 0x9a lcall. *)
Definition layout_registered (op : Z) : bool :=
  match intel_layout op with
  | Some _ => bool_decide (op ∈ asm_register_ia32_opcodes.*1) || (op =? 154)
  | None => true
  end.

Lemma layouts_registered op : 0 ≤ op < 512 → layout_registered op = true.
Proof.
  intros Hop. assert (forallb layout_registered (seqZ 0 512) = true) as Hall by by vm_compute.
  rewrite forallb_forall in Hall. apply Hall, list_elem_of_In, elem_of_seqZ. lia.
Qed.

Lemma vector_ok op l :
  0 ≤ op < 512 → intel_layout op = Some l →
  (∀ pr b, len_agrees op pr b = false) ∨
  ∃ fl, decodes (opcode_vector op) l fl (len_agrees op) ∧
        (flow_agrees op = true → ∀ b, fl b = intel_flow op b).
Proof.
  intros Hop Hl. pose proof (layouts_registered op Hop) as Hr. unfold layout_registered in Hr.
  rewrite Hl in Hr. apply orb_true_iff in Hr as [Hr%bool_decide_eq_true | ->%Z.eqb_eq].
  - apply list_elem_of_fmap in Hr as ([op' h] & -> & Hin). cbn [fst] in *.
    unfold opcode_vector. rewrite (registered_in _ _ _ h opcodes_nodup Hin).
    pose proof opcodes_ok as Hall. rewrite Forall_forall in Hall. by apply (Hall _ Hin).
  - by left.
Qed.

(** ** Prefixes *)

(** The prefixes of the processor, but 0x67, which the library notes and does
    not obey, and 0x36 ss, which it does not count in the length. *)
Definition prefixes : list Z := [38; 46; 62; 100; 101; 102; 240; 242; 243].

(** 0x66 flips the size of operands for the rest of the instruction. *)
Definition flip_opsize (pr : s_asm_proc_i386) : s_asm_proc_i386 :=
  set_opsize (if opsize pr =? 0 then 1 else 0) pr.
Definition under_prefix (b : Z) (pr : s_asm_proc_i386) : s_asm_proc_i386 :=
  if b =? 102 then flip_opsize pr else pr.

Definition opsize_ok (pr : s_asm_proc_i386) : Prop :=
  mode pr = INTEL_PROT ∧ (opsize pr = 0 ∨ opsize pr = 1).

Lemma flip_opsize_ok pr : opsize_ok pr → opsize_ok (flip_opsize pr).
Proof. intros [Hm [Ho | Ho]]; split; cbn; rewrite ?Ho; auto. Qed.
Lemma flip_flip pr : opsize_ok pr → flip_opsize (flip_opsize pr) = pr.
Proof. destruct pr as [m a o]. by intros [_ [Ho | Ho]]; cbn in Ho; subst. Qed.
Lemma under_prefix_ok b pr : opsize_ok pr → opsize_ok (under_prefix b pr).
Proof. unfold under_prefix. case_match; auto using flip_opsize_ok. Qed.

(** The handler of a prefix counts it, decodes what follows, and restores the
    processor. *)
Lemma wp_prefix b fuel buf p len i pr (Q : Z → dis → Prop) :
  b ∈ prefixes → fresh i → ins_len i < 1073741823 → opsize_ok pr → 1 ≤ len < 4294967296 →
  (∀ i', fresh i' → ins_len i' = ins_len i + 1 →
     wp (proc_fetch (p + 1) (len - 1)) (Env buf (call_vector fuel buf))
       (λ r s, d_proc s = under_prefix b pr ∧ Q r (Dis (d_ins s) pr)) (Dis i' (under_prefix b pr))) →
  wp (opcode_vector b p len) (Env buf (call_vector fuel buf)) Q (Dis i pr).
Proof.
  intros Hb (Hop & Hty & Hln) Hlen Hpr Hl Hnext.
  assert (∀ i', ins_op i' = ins_op i → ins_type i' = ins_type i → ins_len i' = ins_len i + 1 →
            wp (proc_fetch (p + 1) (len - 1)) (Env buf (call_vector fuel buf))
              (λ r s, d_proc s = under_prefix b pr ∧ Q r (Dis (d_ins s) pr))
              (Dis i' (under_prefix b pr))) as Hrest.
  { intros i' Ho Ht Hi. apply Hnext; [| done]. split_and!; [congruence | congruence | lia..]. }
  clear Hnext. destruct i as [pi nm ii ty px sd fw fr pp op ln]. cbn [ins_op ins_type ins_len] in *.
  assert (∀ i', ins_op i' = op → ins_type i' = ty → ins_len i' = ln + 1 → b ≠ 102 →
            wp (proc_fetch (p + 1) (u32 (len - 1))) (Env buf (call_vector fuel buf)) Q (Dis i' pr))
    as Hplain.
  { intros i' Ho Ht Hi Hne. rewrite wrapu_small by lia.
    specialize (Hrest i' Ho Ht Hi). unfold under_prefix in Hrest.
    rewrite (proj2 (Z.eqb_neq _ _) Hne) in Hrest. eapply wp_mono; [exact Hrest |].
    intros r [i2 pr2] [Hp HQ]. cbn in Hp. by subst. }
  repeat (apply elem_of_cons in Hb as [-> | Hb]); [.. | by apply not_elem_of_nil in Hb].
  6: {
    change (opcode_vector 102) with op_opsize. unfold op_opsize. h_unfold. repeat h_step.
    all: rewrite wrapu_small by lia; eapply wp_mono; [by apply Hrest |].
    all: intros r [i2 pr2] [Hp HQ]; cbn [d_ins d_proc] in *; change (under_prefix 102 pr) with (flip_opsize pr) in Hp.
    all: subst pr2; repeat h_step; unfold proc_upd, wp; cbn [d_ins d_proc].
    all: by fold (flip_opsize (flip_opsize pr)); rewrite flip_flip. }
  1: change (opcode_vector 38) with op_prefix_es; unfold op_prefix_es.
  2: change (opcode_vector 46) with op_prefix_cs; unfold op_prefix_cs.
  3: change (opcode_vector 62) with op_prefix_ds; unfold op_prefix_ds.
  4: change (opcode_vector 100) with op_prefix_fs; unfold op_prefix_fs.
  5: change (opcode_vector 101) with op_prefix_gs; unfold op_prefix_gs.
  6: change (opcode_vector 240) with op_lock; unfold op_lock.
  7: change (opcode_vector 242) with op_repnz; unfold op_repnz.
  8: change (opcode_vector 243) with op_repz; unfold op_repz.
  all: h_unfold; repeat h_step; by apply Hplain.
Qed.

(** ** One instruction *)

(** Where the opcode of the instruction at [p] is, and its index. *)
Definition opcode_at (buf : list Z) (p : Z) : Z :=
  if byte buf p =? 15 then 256 + byte buf (p + 1) else byte buf p.
Definition opcode_bytes (buf : list Z) (p : Z) : Z := if byte buf p =? 15 then 2 else 1.

Definition intel_len (pr : s_asm_proc_i386) (buf : list Z) (p : Z) : option Z :=
  match intel_layout (opcode_at buf p) with
  | Some l => Some (opcode_bytes buf p + body_len pr l buf (p + opcode_bytes buf p))
  | None => None
  end.

(** The byte after the opcode. *)
Definition next_byte (buf : list Z) (p : Z) : Z := byte buf (p + opcode_bytes buf p).

(** What decoding [n] bytes into [i] must yield. *)
Definition decoded (i : asm_instr) (pr : s_asm_proc_i386) (op b n : Z) (r : Z) (s : dis) : Prop :=
  r = ins_len i + n ∧ ins_len (d_ins s) = r ∧
  (flow_agrees op = true → ins_type (d_ins s) &&& flow_mask = flow_type (intel_flow op b)) ∧
  d_proc s = pr.

Lemma wp_vector fuel buf op p len (Q : Z → dis → Prop) s :
  wp (opcode_vector op p len) (Env buf (call_vector fuel buf)) Q s →
  wp (asm_opcode_fetch op p len) (Env buf (call_vector (S fuel) buf)) Q s.
Proof. done. Qed.

(** [fetch_i386] adds the mnemonic to what the handler made. *)
Lemma wp_fetch_i386 buf v p len (Q : Z → dis → Prop) s :
  0 ≤ p < Z.of_nat (length buf) →
  (∀ r i pr nm, Q r (Dis i pr) → Q r (Dis (set_ins_name nm i) pr)) →
  wp (asm_opcode_fetch (byte buf p) p len) (Env buf v) Q s →
  wp (proc_fetch p len) (Env buf v) Q s.
Proof.
  intros Hp HQ Hw. unfold proc_fetch, fetch_i386. apply wp_bind, wp_read; [done |].
  apply wp_bind. eapply wp_mono; [exact Hw |]. intros r [i pr] Hr. cbn beta.
  apply wp_bind, wp_if; intros _; [| done]. apply wp_bind, wp_get_ins. by apply wp_ins_upd, HQ.
Qed.

Lemma decoded_name i pr op b n r i' pr' nm :
  decoded i pr op b n r (Dis i' pr') → decoded i pr op b n r (Dis (set_ins_name nm i') pr').
Proof. done. Qed.

(** The vector on the index of an opcode of the maps. *)
Lemma wp_opcode fuel buf op p len i pr l :
  0 ≤ op < 512 → intel_layout op = Some l → mode pr = INTEL_PROT → fresh i → 0 ≤ p →
  p + 1 + body_len pr l buf (p + 1) ≤ Z.of_nat (length buf) →
  len_agrees op pr (byte buf (p + 1)) = true →
  wp (opcode_vector op p len) (Env buf (call_vector fuel buf))
    (decoded i pr op (byte buf (p + 1)) (1 + body_len pr l buf (p + 1))) (Dis i pr).
Proof.
  intros Hop Hl Hm Hf Hp Hc Ha.
  destruct (vector_ok op l Hop Hl) as [Hno | (fl & Hd & Hflow)].
  { by rewrite Hno in Ha. }
  eapply wp_mono; [by apply (Hd (Env buf (call_vector fuel buf)) p len i pr) |]. cbn [e_buf].
  intros r s (Hr & Hlen & Ht & Hs). split_and!; [lia | done | | done].
  intros Hfa. rewrite Ht. by rewrite Hflow.
Qed.

Lemma body_len_nonneg pr l buf p : 0 ≤ body_len pr l buf p ≤ 12.
Proof.
  pose proof (modrm_len_pos buf p). destruct l as [[] | [] | [] |]; cbn [body_len imm_len];
    unfold vector_len; repeat case_match; lia.
Qed.

Lemma wp_instr fuel buf p len i pr n :
  fresh i → ins_len i < 1073741823 → mode pr = INTEL_PROT → bytes_ok buf → 0 ≤ p →
  intel_len pr buf p = Some n → p + n ≤ Z.of_nat (length buf) → n ≤ len < 4294967296 →
  len_agrees (opcode_at buf p) pr (next_byte buf p) = true →
  wp (proc_fetch p len) (Env buf (call_vector (S (S fuel)) buf))
    (decoded i pr (opcode_at buf p) (next_byte buf p) n) (Dis i pr).
Proof.
  intros Hf Hi Hm Hb Hp Hn Hc Hlen Ha. unfold next_byte, intel_len, opcode_at, opcode_bytes in *.
  pose proof (byte_range buf p Hb) as Hb0. pose proof (byte_range buf (p + 1) Hb) as Hb1.
  destruct (Z.eqb_spec (byte buf p) 15) as [E | E];
    destruct (intel_layout _) as [l |] eqn:Hl; simplify_eq.
  - pose proof (body_len_nonneg pr l buf (p + 2)) as Hbl. apply wp_fetch_i386; [lia | apply decoded_name |].
    rewrite E. apply wp_vector. change (opcode_vector 15) with op_386sp. unfold op_386sp.
    apply wp_if; [intros; lia | intros _]. apply wp_bind, wp_read; [cbn; lia |]. cbv zeta. cbn [e_buf].
    rewrite (Z.add_comm (byte buf (p + 1)) 256). replace (p + 2) with (p + 1 + 1) in * by lia.
    destruct Hf as (Hop & Hty & Hln).
    assert (∀ i', ins_op i' = ins_op i → ins_type i' = ins_type i → ins_len i' = ins_len i + 1 →
              wp (asm_opcode_fetch (256 + byte buf (p + 1)) (p + 1) (u32 (len - 1)))
                (Env buf (call_vector (S fuel) buf))
                (decoded i pr (256 + byte buf (p + 1)) (byte buf (p + 1 + 1))
                   (2 + body_len pr l buf (p + 1 + 1))) (Dis i' pr)) as Hgo.
    { intros i' Ho Ht Hi'. apply wp_vector. eapply wp_mono.
      - apply (wp_opcode fuel buf _ (p + 1) _ i' pr l); try done; try lia.
        split_and!; [congruence | congruence | lia..].
      - intros r s (Hr & Hrl & Hfl & Hs). split_and!; [lia | done..]. }
    apply wp_bind, wp_bind, wp_get_ins, wp_if; intros _;
      [apply wp_ins_upd | apply wp_ret]; (apply wp_bind, wp_add_len; [cbn [ins_len set_ins_ptr_instr]; lia |]);
      by apply Hgo.
  - pose proof (body_len_nonneg pr l buf (p + 1)) as Hbl. apply wp_fetch_i386; [lia | apply decoded_name |].
    apply wp_vector. apply wp_opcode; try done; lia.
Qed.

(** ** Instructions with prefixes *)

Definition under_prefixes (ps : list Z) (pr : s_asm_proc_i386) : s_asm_proc_i386 :=
  foldl (λ pr b, under_prefix b pr) pr ps.

Lemma decoded_step i i' pr op b n r s :
  ins_len i' = ins_len i + 1 → decoded i' pr op b n r s → decoded i pr op b (1 + n) r s.
Proof. intros Hi (Hr & Hl & Hf & Hs). split_and!; [lia | done..]. Qed.

Lemma wp_prefixed ps fuel buf : ∀ p len i pr n,
  let q := p + Z.of_nat (length ps) in
  let pr' := under_prefixes ps pr in
  fresh i → ins_len i + Z.of_nat (length ps) < 1073741823 → opsize_ok pr → bytes_ok buf → 0 ≤ p →
  (∀ j b, ps !! j = Some b → byte buf (p + Z.of_nat j) = b) → Forall (λ b, b ∈ prefixes) ps →
  intel_len pr' buf q = Some n → q + n ≤ Z.of_nat (length buf) →
  Z.of_nat (length ps) + n ≤ len < 4294967296 → 1 ≤ n →
  len_agrees (opcode_at buf q) pr' (next_byte buf q) = true →
  wp (proc_fetch p len) (Env buf (call_vector (length ps + S (S fuel)) buf))
    (decoded i pr (opcode_at buf q) (next_byte buf q) (Z.of_nat (length ps) + n)) (Dis i pr).
Proof.
  induction ps as [| b ps IH]; intros p len i pr n q pr' Hf Hi Hpr Hb Hp Hps Hall Hn Hc Hlen Hn1 Ha.
  - subst q pr'. cbn [length under_prefixes foldl] in *. rewrite Z.add_0_r in *.
    replace (Z.of_nat 0 + n) with n by lia. apply wp_instr; try done; try lia. by destruct Hpr.
  - subst q pr'. apply Forall_cons in Hall as [Hbp Hall]. cbn [length] in *.
    replace (p + Z.of_nat (S (length ps))) with (p + 1 + Z.of_nat (length ps)) in * by lia.
    assert (byte buf p = b) as Hbyte by (rewrite <-(Z.add_0_r p); by apply (Hps 0%nat)).
    apply wp_fetch_i386; [lia | apply decoded_name |]. rewrite Hbyte.
    change (S (length ps) + S (S fuel))%nat with (S (length ps + S (S fuel))). apply wp_vector.
    apply wp_prefix; try done; try lia. intros i' Hf' Hi'.
    eapply wp_mono; [apply (IH (p + 1) (len - 1) i' (under_prefix b pr) n); try done; try lia |].
    + by apply under_prefix_ok.
    + intros j b' Hj. replace (p + 1 + Z.of_nat j) with (p + Z.of_nat (S j)) by lia. by apply Hps.
    + intros r s (Hr & Hl & Hfl & Hs). split; [done |]. split_and!; [lia | done..].
Qed.

(** Intel's reading of the prefixes: 0x66 once or more changes the size. *)
Definition intel_opsize (ps : list Z) (pr : s_asm_proc_i386) : s_asm_proc_i386 :=
  if bool_decide (102 ∈ ps) then flip_opsize pr else pr.

Definition opsize_count (ps : list Z) : nat := length (filter (λ b, b = 102) ps).

Lemma under_prefixes_none ps pr : 102 ∉ ps → under_prefixes ps pr = pr.
Proof.
  revert pr. induction ps as [| b ps IH]; intros pr Hnot; [done |].
  apply not_elem_of_cons in Hnot as [Hb Hps]. cbn. unfold under_prefix.
  rewrite (proj2 (Z.eqb_neq b 102)) by congruence. by apply IH.
Qed.

Lemma under_prefixes_intel ps pr :
  (opsize_count ps ≤ 1)%nat → under_prefixes ps pr = intel_opsize ps pr.
Proof.
  unfold intel_opsize, opsize_count. revert pr. induction ps as [| b ps IH]; intros pr Hone.
  { rewrite bool_decide_false; [done | apply not_elem_of_nil]. }
  rewrite filter_cons in Hone. cbn [under_prefixes foldl]. fold (under_prefixes ps (under_prefix b pr)).
  destruct (decide (b = 102)) as [-> | Hb].
  - cbn in Hone. rewrite bool_decide_true by set_solver. apply under_prefixes_none.
    intros Hin. assert (102 ∈ filter (λ b, b = 102) ps) as Hf by by apply list_elem_of_filter.
    destruct (filter _ ps); [by apply not_elem_of_nil in Hf | cbn in Hone; lia].
  - rewrite IH by done. unfold under_prefix. rewrite (proj2 (Z.eqb_neq b 102)) by done.
    erewrite bool_decide_ext; [done |]. set_solver.
Qed.

(** Reading after the prefixes. *)
Lemma byte_app ps code k : 0 ≤ k → byte (ps ++ code) (Z.of_nat (length ps) + k) = byte code k.
Proof.
  intros Hk. unfold byte, byte_at. rewrite !(proj2 (Z.leb_le _ _)) by lia.
  rewrite lookup_app_r by lia. do 2 f_equal. lia.
Qed.

Lemma modrm_len_app ps code k :
  0 ≤ k → modrm_len (ps ++ code) (Z.of_nat (length ps) + k) = modrm_len code k.
Proof.
  intros Hk. unfold modrm_len.
  replace (Z.of_nat (length ps) + k + 1) with (Z.of_nat (length ps) + (k + 1)) by lia.
  by rewrite !byte_app by lia.
Qed.

Lemma body_len_app ps code pr l k :
  0 ≤ k → body_len pr l (ps ++ code) (Z.of_nat (length ps) + k) = body_len pr l code k.
Proof. intros Hk. destruct l; cbn [body_len]; by rewrite ?modrm_len_app, ?byte_app by done. Qed.

Lemma opcode_app ps code :
  opcode_at (ps ++ code) (Z.of_nat (length ps)) = opcode_at code 0 ∧
  opcode_bytes (ps ++ code) (Z.of_nat (length ps)) = opcode_bytes code 0.
Proof.
  assert (byte (ps ++ code) (Z.of_nat (length ps)) = byte code 0) as E.
  { rewrite <-(Z.add_0_r (Z.of_nat _)). by apply byte_app. }
  unfold opcode_at, opcode_bytes. by rewrite E, byte_app by lia.
Qed.

Lemma opcode_bytes_range code p : 1 ≤ opcode_bytes code p ≤ 2.
Proof. unfold opcode_bytes. case_match; lia. Qed.

Lemma intel_len_app ps code pr :
  intel_len pr (ps ++ code) (Z.of_nat (length ps)) = intel_len pr code 0.
Proof.
  unfold intel_len. destruct (opcode_app ps code) as [-> ->].
  pose proof (opcode_bytes_range code 0). case_match; [| done]. by rewrite body_len_app by lia.
Qed.
Lemma next_byte_app ps code :
  next_byte (ps ++ code) (Z.of_nat (length ps)) = next_byte code 0.
Proof.
  unfold next_byte. destruct (opcode_app ps code) as [_ ->].
  pose proof (opcode_bytes_range code 0). by rewrite byte_app by lia.
Qed.

(** ** The instruction [asm_read_instr] makes *)

Section read.
Context (ps code : list Z) (pr : s_asm_proc_i386) (len n : Z) (fuel : nat).
Let pr' := intel_opsize ps pr.
Context (Hpr : opsize_ok pr) (Hbytes : bytes_ok (ps ++ code)).
Context (Hps : Forall (λ b, b ∈ prefixes) ps) (Hone : (opsize_count ps ≤ 1)%nat).
Context (Hn : intel_len pr' code 0 = Some n) (Hcode : n ≤ Z.of_nat (length code)).
Context (Hlen : Z.of_nat (length ps) + n ≤ len < 1073741823).
Context (Hagree : len_agrees (opcode_at code 0) pr' (next_byte code 0) = true).

Lemma read_decoded :
  ∃ i, asm_read_instr (length ps + S (S fuel)) (ps ++ code) len pr =
         Done (Z.of_nat (length ps) + n, Dis i pr) ∧
       ins_len i = Z.of_nat (length ps) + n ∧
       (flow_agrees (opcode_at code 0) = true →
        ins_type i &&& flow_mask = flow_type (intel_flow (opcode_at code 0) (next_byte code 0))).
Proof using All.
  assert (1 ≤ n) as Hn1.
  { unfold intel_len in Hn. case_match; [| done].
    pose proof (opcode_bytes_range code 0). pose proof (body_len_nonneg pr' l code (0 + opcode_bytes code 0)).
    injection Hn as <-. lia. }
  pose proof (wp_prefixed ps fuel (ps ++ code) 0 len instr0 pr n) as Hwp. cbv zeta in Hwp.
  rewrite under_prefixes_intel, !Z.add_0_l in Hwp by done.
  rewrite intel_len_app, next_byte_app in Hwp. destruct (opcode_app ps code) as [Hop _].
  rewrite Hop, length_app in Hwp.
  assert (fresh instr0) as Hfresh by by split_and!.
  specialize (Hwp Hfresh). cbn [ins_len instr0] in Hwp.
  destruct (wp_elim _ _ _ _ (Hwp ltac:(lia) Hpr Hbytes ltac:(lia)
    ltac:(intros j b Hj; rewrite Z.add_0_l; unfold byte, byte_at; rewrite (proj2 (Z.leb_le _ _)) by lia;
          rewrite Nat2Z.id, lookup_app_l by (by eapply lookup_lt_Some); by rewrite Hj)
    Hps Hn ltac:(lia) ltac:(lia) Hn1 Hagree)) as (r & [i pr2] & Hrun & Hr & Hl & Hf & Hs).
  cbn [d_ins d_proc ins_len instr0] in *. subst pr2. rewrite Z.add_0_l in Hr. subst r.
  exists (set_ins_name (instr_table (ins_instr i)) i). split_and!; [| done | done].
  unfold asm_read_instr, fetch. fold proc_fetch. change fetch_i386 with proc_fetch. by rewrite Hrun.
Qed.
End read.

(** C30. After any number of the prefixes 0xf0, 0xf2, 0xf3, 0x26, 0x2e, 0x3e, 0x64 and 0x65
    and 0x66 once at most (the prefixes 0x36 and 0x67 and a second 0x66 are left out: the
    length is wrong under them, [prefix_exceptions]), on every opcode of the maps but the exceptions of
    [len_agrees], the disassembler returns the length the maps give: prefixes,
    opcode, ModR/M, SIB, displacement and immediate.  It records it in the
    instruction, restores the processor, and needs no byte beyond it. *)
Theorem instr_length_intel (ps code : list Z) (pr : s_asm_proc_i386) (len n : Z) (fuel : nat) :
  opsize_ok pr → bytes_ok (ps ++ code) →
  Forall (λ b, b ∈ prefixes) ps → (opsize_count ps ≤ 1)%nat →
  intel_len (intel_opsize ps pr) code 0 = Some n → n ≤ Z.of_nat (length code) →
  Z.of_nat (length ps) + n ≤ len < 1073741823 →
  len_agrees (opcode_at code 0) (intel_opsize ps pr) (next_byte code 0) = true →
  ∃ i, asm_read_instr (length ps + S (S fuel)) (ps ++ code) len pr =
         Done (Z.of_nat (length ps) + n, Dis i pr) ∧
       ins_len i = Z.of_nat (length ps) + n.
Proof.
  intros Hpr Hb Hps Hone Hn Hcode Hlen Ha.
  destruct (read_decoded ps code pr len n fuel Hpr Hb Hps Hone Hn Hcode Hlen Ha)
    as (i & Hrun & Hl & _).
  by exists i.
Qed.

Ltac check_bytes := repeat apply Forall_cons_2; [lia.. | apply Forall_nil_2].

(** [lock add word fs:[esp + eax * 4 + 0x11223344], 0x1234]: three prefixes. *)
Lemma instr_length_intel_witness :
  ∃ i, asm_read_instr 5 ([240; 102; 100] ++ [129; 132; 132; 68; 51; 34; 17; 52; 18]) 12
         asm_init_ia32 = Done (12, Dis i asm_init_ia32) ∧ ins_len i = 12.
Proof.
  apply (instr_length_intel [240; 102; 100] [129; 132; 132; 68; 51; 34; 17; 52; 18]
           asm_init_ia32 12 9 0).
  - split; [done | by left].
  - check_bytes.
  - repeat apply Forall_cons_2; [apply (bool_decide_unpack _); by vm_compute.. | apply Forall_nil_2].
  - vm_compute. lia.
  - by vm_compute.
  - cbn. lia.
  - cbn. lia.
  - by vm_compute.
Defined.

(** C31. The type the disassembler gives an instruction tells where control goes
    as the maps do: jump, conditional jump, call, return, interrupt, halt or
    the next instruction, the row of ModR/M deciding for 0xff; but for the near
    jumps of [flow_agrees]. *)
Theorem control_flow_intel (ps code : list Z) (pr : s_asm_proc_i386) (len n : Z) (fuel : nat) :
  opsize_ok pr → bytes_ok (ps ++ code) →
  Forall (λ b, b ∈ prefixes) ps → (opsize_count ps ≤ 1)%nat →
  intel_len (intel_opsize ps pr) code 0 = Some n → n ≤ Z.of_nat (length code) →
  Z.of_nat (length ps) + n ≤ len < 1073741823 →
  len_agrees (opcode_at code 0) (intel_opsize ps pr) (next_byte code 0) = true →
  flow_agrees (opcode_at code 0) = true →
  ∃ r i, asm_read_instr (length ps + S (S fuel)) (ps ++ code) len pr = Done (r, Dis i pr) ∧
         ins_type i &&& flow_mask = flow_type (intel_flow (opcode_at code 0) (next_byte code 0)).
Proof.
  intros Hpr Hb Hps Hone Hn Hcode Hlen Ha Hf.
  destruct (read_decoded ps code pr len n fuel Hpr Hb Hps Hone Hn Hcode Hlen Ha)
    as (i & Hrun & _ & Hflow).
  eauto.
Qed.

(** [call *0x8(%eax)] *)
Lemma control_flow_intel_witness :
  ∃ r i, asm_read_instr 2 ([] ++ [255; 80; 8]) 3 asm_init_ia32 = Done (r, Dis i asm_init_ia32) ∧
         ins_type i &&& flow_mask = ASM_TYPE_CALLPROC.
Proof.
  apply (control_flow_intel [] [255; 80; 8] asm_init_ia32 3 3 0).
  - split; [done | by left].
  - check_bytes.
  - apply Forall_nil_2.
  - vm_compute. lia.
  - by vm_compute.
  - cbn. lia.
  - cbn. lia.
  - by vm_compute.
  - by vm_compute.
Defined.

(** ** The exceptions are real

    For each exception, bytes on which the length of the maps (the second
    number) is not the one the disassembler returns (the first). *)

Definition returned_len (pr : s_asm_proc_i386) (bytes : list Z) : Z :=
  match asm_read_instr (length bytes) bytes (Z.of_nat (length bytes)) pr with
  | Done (r, _) => r
  | _ => -2
  end.

Definition code16 (op : list Z) : list Z := op ++ replicate 12 1.

Lemma length_exceptions :
  map (λ op, (returned_len asm_init_ia32 (code16 op), intel_len asm_init_ia32 (code16 op) 0))
    [[30]; [99; 192]; [113]; [196; 0]; [197; 0]; [200]; [212]; [213]; [228]; [234];
     [217; 208]; [222; 64]; [15; 1; 8]; [15; 113; 192]; [15; 114; 192]; [15; 115; 208];
     [15; 144; 192]; [15; 164; 64]; [15; 174; 240]] =
  [(0, Some 1); (1, Some 2); (5, Some 2); (1, Some 2); (1, Some 2); (3, Some 4); (1, Some 2);
   (1, Some 2); (3, Some 2); (5, Some 7); (1, Some 2); (2, Some 3); (2, Some 3); (0, Some 4);
   (0, Some 4); (3, Some 4); (6, Some 3); (4, Some 5); (2, Some 3)].
Proof. by vm_compute. Qed.

(** 0x36 and 0x67 are not counted (nop of 2 bytes); 0x66 twice is taken for
    none (mov of 5 bytes); 0xa0 with 0x66 keeps its 4-byte address. *)
Lemma prefix_exceptions :
  map (returned_len asm_init_ia32)
    [[54; 144]; [103; 144]; code16 [102; 102; 184]; code16 [102; 160]] = [1; 1; 7; 4].
Proof. by vm_compute. Qed.

(** The near jb, jae, jbe and js have the type of no jump; 0x0f 0x90 seto is
    decoded as one. *)
Lemma flow_exceptions :
  map (λ op, match asm_read_instr 16 (code16 op) 14 asm_init_ia32 with
             | Done (_, s) => ins_type (d_ins s) &&& flow_mask
             | _ => -1
             end)
    [[15; 130]; [15; 131]; [15; 134]; [15; 136]; [15; 132]; [15; 144]] =
  [0; 0; 0; 0; flow_type CondJump; flow_type CondJump].
Proof. by vm_compute. Qed.
