(* ===== verification/Ia32StructSpec.v ===== *)
(** What holds of the IA-32 disassembler on any bytes: it terminates, it gives
    the processor back as it found it, and the instructions it names have a
    mnemonic but for a few. *)

From S2P Require Import Prelude LibasmVector Ia32 Ia32Operand Ia32Wp.
From S2P Require Import Ia32Arith Ia32Move Ia32Misc Ia32Fpu Ia32Ext Ia32Fetch.

(** The instructions the handlers set and the table of mnemonics leaves out. *)
Definition unnamed : list e_asm_instr :=
  [ASM_CLFLUSH; ASM_F2XM1; ASM_FBLD; ASM_FBSTP; ASM_FCOMPS; ASM_FDECSTP; ASM_FICOM;
   ASM_FINCSTP; ASM_FLDENV; ASM_FLDL2E; ASM_FLDL2T; ASM_FLDLG2; ASM_FLDLN2; ASM_FLDPI;
   ASM_FNOP; ASM_FNSTENV; ASM_FPTAN; ASM_FSINCOS; ASM_FSTENV; ASM_FTST; ASM_FXAM; ASM_FXTRACT;
   ASM_FYL2X; ASM_FYL2XP1; ASM_NONE; ASM_OUTSD; ASM_SAL; ASM_SCASW; ASM_SLDT].

Definition unnamed_ids : list Z := asm_instr_id <$> unnamed.

Definition named (i : e_asm_instr) : bool :=
  match instr_table i with
  | Some _ => true
  | None => bool_decide (asm_instr_id i ∈ unnamed_ids)
  end.

(** [opsize] and [addsize] are booleans. *)
Definition sizes_ok (pr : s_asm_proc_i386) : Prop :=
  (opsize pr = 0 ∨ opsize pr = 1) ∧ (addsize pr = 0 ∨ addsize pr = 1).

(** [m] does not run out of fuel and preserves the processor and [named]. *)
Definition stable {A} (e : env) (m : M A) : Prop := ∀ s,
  sizes_ok (d_proc s) → named (ins_instr (d_ins s)) = true →
  match m e s with
  | Done (_, s') => d_proc s' = d_proc s ∧ named (ins_instr (d_ins s')) = true
  | Overread => True
  | OutOfFuel => False
  end.

(** Calls of the vector on later bytes of the buffer. *)
Definition calls_stable (e : env) (p : Z) : Prop := ∀ op p' len,
  p < p' < Z.of_nat (length (e_buf e)) → stable e (λ _, e_vector e op p' len).

Section stable.
Context (e : env).

Lemma stable_ret {A} (a : A) : stable e (ret a).
Proof. by intros s Hs Hn. Qed.

Lemma stable_bind {A B} (m : M A) (f : A → M B) :
  stable e m → (∀ a, stable e (f a)) → stable e (bind m f).
Proof.
  intros Hm Hf s Hs Hn. unfold bind. specialize (Hm s Hs Hn).
  destruct (m e s) as [[a s'] | |]; [| done..]. destruct Hm as [Hp Hn'].
  assert (sizes_ok (d_proc s')) as Hs' by by rewrite Hp. specialize (Hf a s' Hs' Hn').
  by rewrite Hp in Hf.
Qed.

Lemma stable_read p : stable e (read p).
Proof. intros s Hs Hn. unfold read. by destruct (byte_at (e_buf e) p). Qed.

Lemma stable_read_then {B} p (f : Z → M B) :
  (∀ b, 0 ≤ p < Z.of_nat (length (e_buf e)) → stable e (f b)) → stable e (bind (read p) f).
Proof.
  intros Hf s Hs Hn. unfold bind, read, byte_at. destruct (Z.leb_spec 0 p); [| done].
  destruct (e_buf e !! Z.to_nat p) eqn:E; [| done].
  apply Hf; [| done..]. apply lookup_lt_Some in E. lia.
Qed.

Lemma stable_read_le n p : stable e (read_le p n).
Proof.
  revert p. induction n as [| n IH]; intros p; [apply stable_ret |]. cbn [read_le].
  apply stable_bind; [apply stable_read |]. intros b. apply stable_bind; [apply IH |].
  intros v. apply stable_ret.
Qed.

Lemma stable_ins_upd f : (∀ i, ins_instr (f i) = ins_instr i) → stable e (ins_upd f).
Proof. intros Hf s Hs Hn. cbn. by rewrite Hf. Qed.

Lemma stable_set_instr i : named i = true → stable e (set_instr i).
Proof. by intros Hi s Hs Hn. Qed.

Lemma stable_get_ins : stable e get_ins.
Proof. by intros s Hs Hn. Qed.
Lemma stable_get_proc : stable e get_proc.
Proof. by intros s Hs Hn. Qed.

Lemma stable_if {A} (b : bool) (m n : M A) :
  stable e m → stable e n → stable e (if b then m else n).
Proof. by destruct b. Qed.

Lemma stable_match {A B} (o : option B) (f : B → M A) (n : M A) :
  (∀ b, stable e (f b)) → stable e n →
  stable e (match o with Some b => f b | None => n end).
Proof. by destruct o. Qed.

Lemma stable_switch {A} v (cs : list (Z * M A)) d :
  Forall (λ c, stable e c.2) cs → stable e d → stable e (switch v cs d).
Proof. intros Hcs Hd. induction Hcs as [| [k m] cs Hc _ IH]; cbn [switch]; [done |]. by case_match. Qed.

Lemma stable_op_upd k f : stable e (op_upd k f).
Proof. by apply stable_ins_upd. Qed.
Lemma stable_add_len n : stable e (add_len n).
Proof. by apply stable_ins_upd. Qed.
Lemma stable_get_op k : stable e (get_op k).
Proof. apply stable_bind; [apply stable_get_ins | intros; apply stable_ret]. Qed.
Lemma stable_ret_len : stable e ret_len.
Proof. apply stable_bind; [apply stable_get_ins | intros; apply stable_ret]. Qed.
Lemma stable_op_memcpy_imm k p n : stable e (op_memcpy_imm k p n).
Proof. apply stable_bind; [apply stable_read_le | intros; apply stable_op_upd]. Qed.
End stable.

Create HintDb stable discriminated.
#[export] Hint Resolve stable_ret stable_read stable_read_le stable_get_ins stable_get_proc
  stable_op_upd stable_op_memcpy_imm stable_add_len stable_get_op stable_ret_len : stable.

Ltac st_unfold :=
  cbv [set_ptr_instr set_ptr_prefix set_name set_type or_type set_prefix or_prefix
       set_spdiff set_flagswritten or_flagswritten xor_flagswritten set_flagsread set_len
       asm_proc_vector_size];
  op_unfold.

Ltac st_step :=
  lazymatch goal with
  | |- stable _ (bind _ _) => apply stable_bind; [| intros]
  | |- stable _ (set_instr _) => apply stable_set_instr; by vm_compute
  | |- stable _ (ins_upd _) => apply stable_ins_upd; done
  | |- stable _ (if _ then _ else _) => apply stable_if
  | |- stable _ (match _ with Some _ => _ | None => _ end) => apply stable_match; [intros |]
  | |- stable _ (switch _ _ _) => apply stable_switch; [repeat apply Forall_cons_2; [.. | apply Forall_nil_2]; cbn [fst snd] |]
  | |- stable _ _ => solve [auto with stable nocore]
  end; cbv beta zeta.

Lemma stable_operand_rmv e k p len : stable e (operand_rmv k p len).
Proof. unfold operand_rmv. st_unfold. repeat st_step. Qed.
Lemma stable_operand_rmb e k p len : stable e (operand_rmb k p len).
Proof. unfold operand_rmb. st_unfold. repeat st_step. Qed.
#[export] Hint Resolve stable_operand_rmv stable_operand_rmb : stable.

Lemma stable_operand_rmb_ib e p len : stable e (operand_rmb_ib p len).
Proof. unfold operand_rmb_ib. st_unfold. repeat st_step. Qed.

Lemma stable_fetch e k p t : stable e (asm_operand_fetch k p t).
Proof.
  unfold asm_operand_fetch. rewrite operand_vector_spec. apply stable_bind.
  - destruct t; cbn [handler_of]; op_handlers; unfold asm_operand_fetch_default; st_unfold; repeat st_step.
  - intros r. st_unfold. repeat st_step.
Qed.
#[export] Hint Resolve stable_operand_rmb_ib stable_fetch : stable.

(** ** Prefixes and nested calls *)

Definition handler_stable (h : handler) : Prop := ∀ e p len,
  0 ≤ p → calls_stable e p → stable e (h p len).

Lemma stable_proc_fetch e p p' len : p < p' → calls_stable e p → stable e (proc_fetch p' len).
Proof.
  intros Hp Hc. unfold proc_fetch, fetch_i386. apply stable_read_then. intros b Hb.
  apply stable_bind; [apply (Hc b p' len); lia |]. intros r. st_unfold. repeat st_step.
Qed.

Lemma op_386sp_stable : handler_stable op_386sp.
Proof.
  intros e p len Hp Hc. unfold op_386sp. st_unfold. apply stable_if; [apply stable_ret |].
  apply stable_read_then. intros b Hb. cbv zeta. repeat st_step.
  apply (Hc (b + 256) (p + 1)). lia.
Qed.

(** The two prefixes that flip a size flip it back afterwards: [flips_back f m]
    from a state where [f] has been applied. *)
Section flip.
Context (e : env) (f : s_asm_proc_i386 → s_asm_proc_i386).
Context (Hf : ∀ pr, sizes_ok pr → sizes_ok (f pr) ∧ f (f pr) = pr).

Definition flips_back {A} (m : M A) : Prop := ∀ i pr,
  sizes_ok pr → named (ins_instr i) = true →
  match m e (Dis i (f pr)) with
  | Done (_, s') => d_proc s' = pr ∧ named (ins_instr (d_ins s')) = true
  | Overread => True
  | OutOfFuel => False
  end.

Lemma flips_back_bind {A B} (m : M A) (k : A → M B) :
  stable e m → (∀ a, flips_back (k a)) → flips_back (bind m k).
Proof using Hf.
  intros Hm Hk i pr Hs Hn. destruct (Hf pr Hs) as [Hs' _]. unfold bind.
  specialize (Hm (Dis i (f pr)) Hs' Hn).
  destruct (m e (Dis i (f pr))) as [[a [i' pr']] | |]; [| done..].
  cbn [d_proc d_ins] in Hm. destruct Hm as [-> Hn']. by apply Hk.
Qed.

Lemma flips_back_end {A} (a : A) : flips_back (proc_upd f;; ret a).
Proof using Hf. intros i pr Hs Hn. cbn. by destruct (Hf pr Hs) as [_ ->]. Qed.

Lemma stable_flips {A} (m : M A) : flips_back m → stable e (proc_upd f;; m).
Proof. intros Hm [i pr] Hs Hn. by apply Hm. Qed.
End flip.

Lemma flip_opsize_back pr :
  sizes_ok pr →
  let f := λ p, set_opsize (if opsize p =? 0 then 1 else 0) p in
  sizes_ok (f pr) ∧ f (f pr) = pr.
Proof. unfold sizes_ok. intros [[Ho | Ho] Ha]; destruct pr; cbn in *; subst; auto. Qed.

Lemma flip_addsize_back pr :
  sizes_ok pr →
  let f := λ p, set_addsize (if addsize p =? 0 then 1 else 0) p in
  sizes_ok (f pr) ∧ f (f pr) = pr.
Proof. unfold sizes_ok. intros [Ho [Ha | Ha]]; destruct pr; cbn in *; subst; auto. Qed.

Lemma op_opsize_stable : handler_stable op_opsize.
Proof.
  intros e p len Hp Hc. unfold op_opsize. apply stable_bind; [st_unfold; repeat st_step | intros _].
  apply stable_flips. do 2 (apply flips_back_bind; [exact flip_opsize_back | by apply stable_ins_upd | intros _]).
  apply flips_back_bind; [exact flip_opsize_back | apply (stable_proc_fetch e p); [lia | done] | intros r].
  apply flips_back_end, flip_opsize_back.
Qed.

Lemma op_addsize_stable : handler_stable op_addsize.
Proof.
  intros e p len Hp Hc. unfold op_addsize. apply stable_bind; [st_unfold; repeat st_step | intros _].
  apply stable_bind; [by apply stable_ins_upd | intros _]. apply stable_flips.
  apply flips_back_bind; [exact flip_addsize_back | apply (stable_proc_fetch e p); [lia | done] | intros r].
  apply flips_back_end, flip_addsize_back.
Qed.

(** Every handler of the vector. *)
Ltac handler_tac :=
  lazymatch goal with
  | |- handler_stable op_opsize => exact op_opsize_stable
  | |- handler_stable op_addsize => exact op_addsize_stable
  | |- handler_stable op_386sp => exact op_386sp_stable
  | |- handler_stable ?h =>
      intros e p len Hp Hc; unfold h; st_unfold;
      repeat first [ st_step | apply (stable_proc_fetch e p); [lia | exact Hc] ]
  end.

Lemma handlers_stable : Forall (λ r, handler_stable r.2) asm_register_ia32_opcodes.
Proof.
  unfold asm_register_ia32_opcodes.
  repeat (apply Forall_cons_2; cbn [fst snd]; [handler_tac |]). apply Forall_nil_2.
Qed.

Lemma opcode_vector_stable op : handler_stable (opcode_vector op).
Proof.
  unfold opcode_vector. apply registered_elim; [| apply handlers_stable].
  intros e p len _ _. apply stable_ret.
Qed.

(** ** The whole disassembler *)

Lemma call_vector_stable buf fuel : ∀ e op p len,
  0 ≤ p < Z.of_nat (length buf) → Z.of_nat (length buf) - p ≤ Z.of_nat fuel →
  stable e (λ _, call_vector fuel buf op p len).
Proof.
  induction fuel as [| fuel IH]; intros e op p len Hp Hf; [lia |].
  intros s Hs Hn. cbn [call_vector].
  apply (opcode_vector_stable op (Env buf (call_vector fuel buf)) p len); [lia | | done..].
  intros op' p' len' Hp'. cbn [e_buf e_vector] in *. apply IH; lia.
Qed.

Lemma read_instr_stable buf len pr fuel :
  sizes_ok pr → (length buf ≤ fuel)%nat →
  match asm_read_instr fuel buf len pr with
  | Done (_, s) =>
      d_proc s = pr ∧ named (ins_instr (d_ins s)) = true ∧
      ins_name (d_ins s) = instr_table (ins_instr (d_ins s))
  | Overread => True
  | OutOfFuel => False
  end.
Proof.
  intros Hs Hf. unfold asm_read_instr, fetch.
  assert (stable (Env buf (call_vector fuel buf)) (fetch_i386 0 len)) as Hst.
  { apply (stable_proc_fetch _ (-1)); [lia |]. intros op p' len' Hp'. cbn [e_buf e_vector] in *.
    apply call_vector_stable; lia. }
  specialize (Hst (Dis instr0 pr) Hs eq_refl).
  destruct (fetch_i386 _ _ _ _) as [[r [i pr']] | |]; [| done..]. cbn in *. naive_solver.
Qed.

(** C33. On any bytes the disassembler terminates: prefixes are the only
    recursion, each takes a byte, and a nesting as deep as the buffer is long
    is enough. *)
Theorem disassembler_terminates (buf : list Z) (len : Z) (pr : s_asm_proc_i386) (fuel : nat) :
  sizes_ok pr → (length buf ≤ fuel)%nat →
  asm_read_instr fuel buf len pr ≠ OutOfFuel.
Proof.
  intros Hs Hf E. pose proof (read_instr_stable buf len pr fuel Hs Hf) as H. by rewrite E in H.
Qed.

(** Three operand size prefixes and a nop. *)
Lemma disassembler_terminates_witness :
  asm_read_instr 4 [102; 102; 102; 144] 4 asm_init_ia32 ≠ OutOfFuel.
Proof.
  apply (disassembler_terminates [102; 102; 102; 144] 4 asm_init_ia32 4).
  - split; left; reflexivity.
  - cbn. lia.
Defined.

(** C34. Whatever the bytes are, the disassembler gives the processor back with
    the operand and address sizes it had before the prefixes, and the
    instruction it returns carries the mnemonic of the table, missing only for
    the instructions of [unnamed]. *)
Theorem disassembler_restores (buf : list Z) (len : Z) (pr : s_asm_proc_i386) (fuel : nat) r i pr' :
  sizes_ok pr → (length buf ≤ fuel)%nat →
  asm_read_instr fuel buf len pr = Done (r, Dis i pr') →
  pr' = pr ∧ ins_name i = instr_table (ins_instr i) ∧
  (ins_name i = None → asm_instr_id (ins_instr i) ∈ unnamed_ids).
Proof.
  intros Hs Hf E. pose proof (read_instr_stable buf len pr fuel Hs Hf) as H. rewrite E in H.
  cbn in H. destruct H as (-> & Hn & Hname). split_and!; [done | done |]. rewrite Hname.
  unfold named in Hn. case_match; [done |]. by apply bool_decide_eq_true in Hn.
Qed.

(** An add of a word to memory through an index. *)
Lemma disassembler_restores_witness :
  ∃ r i, asm_read_instr 16 ([102; 1; 68; 36] ++ replicate 12 8) 16 asm_init_ia32 =
           Done (r, Dis i asm_init_ia32) ∧ ins_name i = Some "add"%string.
Proof.
  destruct (asm_read_instr 16 ([102; 1; 68; 36] ++ replicate 12 8) 16 asm_init_ia32) as [[r [i pr']] | |] eqn:E;
    [| vm_compute in E; discriminate ..].
  assert (sizes_ok asm_init_ia32) as Hs by (split; left; reflexivity).
  destruct (disassembler_restores ([102; 1; 68; 36] ++ replicate 12 8) 16 asm_init_ia32 16 r i pr'
              Hs ltac:(cbn; lia) E) as (-> & Hn & _).
  exists r, i. split; [reflexivity |]. vm_compute in E. injection E as <- <-. exact Hn.
Defined.
