(* ===== verification/Ia32EaSpec.v ===== *)
(** The memory operands the IA-32 disassembler decodes, against the address the
    processor computes from ModR/M and SIB. *)

From S2P Require Import Prelude Ia32 Ia32Operand Ia32Wp.

(** ** Addresses *)

(** [base + index * scale + displacement], registers by number. *)
Record address := {
  a_base : option Z;
  a_index : option (Z * Z);
  a_disp : Z
}.

Definition has (o : asm_operand) (flag : Z) : bool := negb (op_content o &&& flag =? 0).

(** The address an operand stands for: its flags say which fields count. *)
Definition operand_address (o : asm_operand) : address :=
  {| a_base := if has o ASM_OP_BASE then Some (op_baser o) else None;
     a_index := if has o ASM_OP_INDEX then Some (op_indexr o, op_scale o) else None;
     a_disp := if has o ASM_OP_VALUE then i32 (op_imm o) else 0 |}.

(** What the processor does, in 32-bit addressing, with the ModR/M byte at [p]. *)
Definition intel_base (buf : list Z) (p : Z) : option Z :=
  let b := byte buf p in
  let r := if rm_of b =? 4 then rm_of (byte buf (p + 1)) else rm_of b in
  if (r =? 5) && (mod_of b =? 0) then None else Some r.

Definition intel_index (buf : list Z) (p : Z) : option (Z * Z) :=
  let sib := byte buf (p + 1) in
  if (rm_of (byte buf p) =? 4) && negb (reg_of sib =? 4) then Some (reg_of sib, 2 ^ mod_of sib)
  else None.

Definition intel_disp (buf : list Z) (p : Z) : Z :=
  let b := byte buf p in
  let q := if rm_of b =? 4 then p + 2 else p + 1 in
  if mod_of b =? 1 then i8 (byte buf q)
  else if (mod_of b =? 2) || bool_decide (intel_base buf p = None) then i32 (le_bytes buf q 4)
  else 0.

Definition intel_address (buf : list Z) (p : Z) : address :=
  {| a_base := intel_base buf p; a_index := intel_index buf p; a_disp := intel_disp buf p |}.

(** ** Immediates *)

Lemma imm_memcpy_4 v imm : 0 ≤ imm < 2 ^ 32 → imm_memcpy 4 v imm = v.
Proof. intros Hi. unfold imm_memcpy. change (256 ^ 4) with (2 ^ 32). rewrite Z.div_small by done. lia. Qed.

Lemma le_bytes_range buf p n :
  (∀ q, 0 ≤ byte buf q < 256) → 0 ≤ le_bytes buf p n < 256 ^ Z.of_nat n.
Proof.
  intros Hb. revert p. induction n as [| n IH]; intros p; cbn [le_bytes]; [lia |].
  rewrite Nat2Z.inj_succ, Z.pow_succ_r by lia. pose proof (Hb p). pose proof (IH (p + 1)). lia.
Qed.

(** A byte displacement, spread over the bytes above it. *)
Lemma disp8_neg b imm :
  128 ≤ b < 256 → 0 ≤ imm < 2 ^ 32 → i32 (imm_memcpy 1 b (imm_memset 1 3 imm)) = i8 b.
Proof.
  intros Hb Hi. unfold imm_memcpy, imm_memset.
  assert ((imm ||| (256 ^ 3 - 1) ≪ (8 * 1)) / 256 ^ 1 = 2 ^ 24 - 1) as ->.
  { change (256 ^ 1) with (2 ^ 8). rewrite <-Z.shiftr_div_pow2 by lia.
    rewrite Z.shiftr_lor, Z.shiftr_shiftl_r by lia. change (8 - 8 * 1) with 0. rewrite Z.shiftr_0_r.
    change (256 ^ 3 - 1) with (Z.ones 24). change (2 ^ 24 - 1) with (Z.ones 24).
    apply Z.lor_ones_low; [apply Z.shiftr_nonneg; lia |].
    rewrite Z.shiftr_div_pow2 by lia. apply (Z.le_lt_trans _ (Z.log2 (2 ^ 24 - 1))); [| reflexivity].
    apply Z.log2_le_mono. assert (imm / 2 ^ 8 < 2 ^ 24) by (apply Z.div_lt_upper_bound; lia). lia. }
  unfold wraps. cbn -[Z.modulo Z.add]. Z.div_mod_to_equations. lia.
Qed.

Lemma disp8_pos b : 0 ≤ b < 128 → i32 (imm_memcpy 1 b 0) = i8 b.
Proof.
  intros Hb. unfold imm_memcpy. change (0 / 256 ^ 1 * 256 ^ 1) with 0.
  rewrite !wraps_small by lia. lia.
Qed.

(** ** The decoder of operands of 16 or 32 bits *)

(** The SIB forms the decoder gets right: it takes the base to say what the
    index says, that there is none. *)
Definition sib_agrees (buf : list Z) (p : Z) : Prop :=
  rm_of (byte buf p) = 4 →
  (rm_of (byte buf (p + 1)) = 4 ↔ reg_of (byte buf (p + 1)) = 4).

Lemma asm_int_pow2_spec n : asm_int_pow2 n = 2 ^ Z.of_nat n.
Proof.
  induction n as [| n IH]; [done |]. cbn [asm_int_pow2].
  by rewrite IH, Nat2Z.inj_succ, Z.pow_succ_r by lia.
Qed.

Lemma address_iff o buf p (P : Prop) :
  a_base (operand_address o) = intel_base buf p →
  a_disp (operand_address o) = intel_disp buf p →
  (a_index (operand_address o) = intel_index buf p ↔ P) →
  (operand_address o = intel_address buf p ↔ P).
Proof.
  intros Hb Hd [Hi1 Hi2]. unfold operand_address, intel_address in *. cbn in *.
  split; [intros [= _ Hi _]; auto |]. intros HP. by rewrite Hb, Hd, Hi2.
Qed.

(** Compute the fields of the operand and those of the reference, with what the
    branch says of ModR/M and SIB. *)
Ltac ea_fields :=
  repeat match goal with
         | H : negb _ = true |- _ => apply negb_true_iff in H
         | H : negb _ = false |- _ => apply negb_false_iff in H
         | H : (_ =? _) = true |- _ => apply Z.eqb_eq in H
         | H : (_ =? _) = false |- _ => apply Z.eqb_neq in H
         | H : mod_of _ = _ |- _ => rewrite H in *; clear H
         | H : rm_of _ = _ |- _ => rewrite H in *; clear H
         | H : rm_of ?b ≠ ?k |- context [rm_of ?b =? ?k] => rewrite (proj2 (Z.eqb_neq _ _) H)
         end.

Ltac ea_compute :=
  cbn [operand_address a_base a_index a_disp];
  repeat match goal with
         | |- context [has ?o ?f] =>
             let b := eval vm_compute in (has o f) in
             replace (has o f) with b by (vm_compute; reflexivity)
         end;
  cbn [op_content op_baser op_indexr op_scale op_imm
       set_op_len set_op_ptr set_op_type set_op_size set_op_content set_op_regset set_op_prefix
       set_op_imm set_op_baser set_op_indexr set_op_sbaser set_op_sindex set_op_scale].

Ltac ea_reference :=
  unfold intel_base, intel_disp, intel_index, intel_base, sib_agrees;
  do 2 (ea_fields; rewrite ?andb_false_r, ?andb_true_r; cbn -[Z.pow Z.div Z.modulo imm_memcpy imm_memset le_bytes i32 i8]).

(** The displacement: 4 bytes, or a byte with its sign. *)
Ltac ea_disp :=
  change (Z.to_nat 4) with 4%nat; change (Z.to_nat 1) with 1%nat;
  first [ reflexivity
        | rewrite imm_memcpy_4 by done; reflexivity
        | cbn [le_bytes]; rewrite Z.mul_0_r, Z.add_0_r;
          first [ rewrite disp8_pos by lia | rewrite disp8_neg by (done || lia) ]; reflexivity ].

Ltac ea_index :=
  rewrite ?asm_int_pow2_spec, ?Z2Nat.id by apply mod_of_range;
  lazymatch goal with
  | |- context [reg_of ?b =? 4] => destruct (Z.eqb_spec (reg_of b) 4)
  | |- _ => idtac
  end; cbn; intuition congruence.

Lemma rmv_address k i pr e p o len :
  (k < length (ins_op i))%nat → mode pr = INTEL_PROT → covers e p (modrm_len (e_buf e) p) →
  (∀ q, 0 ≤ byte (e_buf e) q < 256) → 0 ≤ op_imm o < 2 ^ 32 → mod_of (byte (e_buf e) p) ≠ 3 →
  wp (operand_rmv k p len) e
    (λ _ s, ∃ o', s = at_op k i pr o' ∧ has o' ASM_OP_REFERENCE = true ∧
       (operand_address o' = intel_address (e_buf e) p ↔ sib_agrees (e_buf e) p))
    (at_op k i pr o).
Proof.
  intros Hk Hm Hc Hb Hi Hmod. unfold operand_rmv. op_unfold.
  pose proof (mod_of_range (byte (e_buf e) p)). unfold covers in *.
  repeat op_step; try lia.
  all: eexists; split; [reflexivity |]; split; [reflexivity |].
  all: pose proof (Hb (p + 1)); pose proof (Hb (p + 2)).
  all: change (INTEL_PROT =? INTEL_PROT) with true; cbv iota; apply address_iff; ea_compute.
  all: ea_reference.
  all: lazymatch goal with
       | |- _ ↔ _ => ea_index
       | |- @eq Z _ _ => ea_disp
       | |- _ => reflexivity
       end.
Qed.

(** ** The decoder of byte operands *)

(** The SIB forms it gets right: without base it always takes an index; with a
    byte displacement it looks at the index; with a doubleword it always takes
    an index, and drops the displacement when the base is ESP. *)
Definition sib_byte_agrees (buf : list Z) (p : Z) : Prop :=
  rm_of (byte buf p) = 4 →
  if mod_of (byte buf p) =? 0 then
    rm_of (byte buf (p + 1)) = 5 → reg_of (byte buf (p + 1)) ≠ 4
  else if mod_of (byte buf p) =? 1 then True
  else reg_of (byte buf (p + 1)) ≠ 4 ∧
       (rm_of (byte buf (p + 1)) = 4 → i32 (le_bytes buf (p + 2) 4) = 0).

Lemma address_iff_disp o buf p (P Q : Prop) :
  a_base (operand_address o) = intel_base buf p →
  (a_disp (operand_address o) = intel_disp buf p ↔ Q) →
  (a_index (operand_address o) = intel_index buf p ↔ P) →
  (operand_address o = intel_address buf p ↔ P ∧ Q).
Proof.
  intros Hb Hd Hi. unfold operand_address, intel_address in *. cbn in *.
  rewrite <-Hd, <-Hi. split; [by intros [= _ -> ->] |]. intros [-> ->]. by rewrite Hb.
Qed.

Lemma rmb_address k i pr e p o len :
  (k < length (ins_op i))%nat → mode pr = INTEL_PROT → covers e p (modrm_len (e_buf e) p) →
  (∀ q, 0 ≤ byte (e_buf e) q < 256) → 0 ≤ op_imm o < 2 ^ 32 → mod_of (byte (e_buf e) p) ≠ 3 →
  wp (operand_rmb k p len) e
    (λ _ s, ∃ o', s = at_op k i pr o' ∧ has o' ASM_OP_REFERENCE = true ∧
       (operand_address o' = intel_address (e_buf e) p ↔ sib_byte_agrees (e_buf e) p))
    (at_op k i pr o).
Proof.
  intros Hk Hm Hc Hb Hi Hmod. unfold operand_rmb. op_unfold.
  pose proof (mod_of_range (byte (e_buf e) p)). unfold covers in *.
  repeat op_step; try lia.
  all: eexists; split; [reflexivity |]; split; [reflexivity |].
  all: pose proof (Hb (p + 1)); pose proof (Hb (p + 2)).
  all: change (INTEL_PROT =? INTEL_PROT) with true; cbv iota.
  all: lazymatch goal with
       | _ : (rm_of ?b =? 4) = true, _ : (rm_of ?b' =? 4) = true |- _ =>
           etransitivity;
           [apply (address_iff_disp _ _ _ (reg_of (byte (e_buf e) (p + 1)) ≠ 4)
                     (intel_disp (e_buf e) p = 0)) |]
       | |- _ => apply address_iff
       end; ea_compute; unfold sib_byte_agrees; ea_reference.
  all: lazymatch goal with
       | |- _ ↔ _ => ea_index
       | |- @eq Z _ _ => ea_disp
       | |- _ => reflexivity
       end.
Qed.

(** ** The fetch of a memory operand *)

Lemma wp_and {A} (m : M A) e (P Q : A → dis → Prop) s :
  wp m e P s → wp m e Q s → wp m e (λ a s, P a s ∧ Q a s) s.
Proof. unfold wp. by destruct (m e s) as [[a s'] | |]. Qed.

(** What the fetch makes of the operand the decoder filled: the names of the
    registers, nothing of the address. *)
Lemma wp_fetch_encoded t k i pr e p o (A : asm_operand → Prop) :
  t = ASM_OTYPE_ENCODED ∨ t = ASM_OTYPE_ENCODEDBYTE →
  ins_op i !! k = Some o → mode pr = INTEL_PROT → covers e p (modrm_len (e_buf e) p) →
  (∀ o s, A o → A (set_op_sbaser s o)) → (∀ o s, A o → A (set_op_sindex s o)) →
  wp (if decide (t = ASM_OTYPE_ENCODED) then operand_rmv k p 4 else operand_rmb k p 5) e
    (λ _ s, ∃ o', s = at_op k i pr o' ∧ A o') (at_op k i pr (set_op_type ASM_OTYPE_ENCODED o)) →
  wp (asm_operand_fetch k p t) e
    (λ r s, r = modrm_len (e_buf e) p ∧ ∃ o', s = at_op k i pr o' ∧ A o') (Dis i pr).
Proof.
  intros Ht Ho Hm Hc Hb1 Hb2 Hw. assert (k < length (ins_op i))%nat as Hk by by eapply lookup_lt_Some.
  apply wp_and.
  { destruct Ht as [-> | ->]; by eapply wp_fetch. }
  rewrite (at_op_id k i pr o) by done. unfold asm_operand_fetch. rewrite operand_vector_spec.
  destruct Ht as [-> | ->]; cbn [handler_of];
    [rewrite decide_True in Hw by done | rewrite decide_False in Hw by done].
  all: op_handlers; op_unfold; do 3 op_step; apply wp_bind;
    eapply wp_mono; [exact Hw |]; intros r s (o' & -> & HA).
  all: repeat op_step; eexists; (split; [reflexivity |]); auto.
Qed.

(** The condition for an operand of type [t]. *)
Definition address_agrees (t : e_asm_operand_type) (buf : list Z) (p : Z) : Prop :=
  if decide (t = ASM_OTYPE_ENCODED) then sib_agrees buf p else sib_byte_agrees buf p.

(** C32. The operand decoded from a ModR/M byte that names memory: the length is
    that of ModR/M, SIB and displacement, and base, index, scale and
    displacement are those the processor computes exactly when, for an operand
    of 16 or 32 bits, the SIB byte has ESP as base if and only if it has no
    index, and, for a byte operand, the conditions of [sib_byte_agrees] hold. *)
Theorem operand_address_intel (buf : list Z) v p i pr k o t :
  t = ASM_OTYPE_ENCODED ∨ t = ASM_OTYPE_ENCODEDBYTE →
  mode pr = INTEL_PROT → ins_op i !! k = Some o → 0 ≤ op_imm o < 2 ^ 32 →
  (∀ q, 0 ≤ byte buf q < 256) → 0 ≤ p → p + modrm_len buf p ≤ Z.of_nat (length buf) →
  mod_of (byte buf p) ≠ 3 →
  ∃ o', asm_operand_fetch k p t (Env buf v) (Dis i pr) = Done (modrm_len buf p, at_op k i pr o') ∧
        has o' ASM_OP_REFERENCE = true ∧
        (operand_address o' = intel_address buf p ↔ address_agrees t buf p).
Proof.
  intros Ht Hm Ho Hi Hb Hp Hlen Hmod. assert (k < length (ins_op i))%nat as Hk by by eapply lookup_lt_Some.
  assert (covers (Env buf v) p (modrm_len buf p)) as Hc by by split.
  pose proof (wp_fetch_encoded t k i pr (Env buf v) p o
    (λ o', has o' ASM_OP_REFERENCE = true ∧ (operand_address o' = intel_address buf p ↔ address_agrees t buf p))
    Ht Ho Hm Hc (λ _ _ H, H) (λ _ _ H, H)) as Hw.
  destruct (wp_elim _ _ _ _ (Hw ltac:(destruct Ht as [-> | ->]; [apply rmv_address | apply rmb_address]; done)))
    as (r & s & Hrun & -> & o' & -> & HA).
  eauto.
Qed.

(** [0x8(%ebx,%esi,4)] is decoded; [(%eax)] through a SIB byte without index is
    taken for [(%eax,%esp)]. *)
Lemma operand_address_intel_witness :
  (∃ o, asm_operand_fetch 0 0 ASM_OTYPE_ENCODED (Env [68; 179; 8] (λ _ _ _ _, Overread)) (Dis instr0 asm_init_ia32) =
         Done (3, at_op 0 instr0 asm_init_ia32 o) ∧
        operand_address o = {| a_base := Some 3; a_index := Some (6, 4); a_disp := 8 |}) ∧
  (∃ o, asm_operand_fetch 0 0 ASM_OTYPE_ENCODED (Env [4; 32] (λ _ _ _ _, Overread)) (Dis instr0 asm_init_ia32) =
         Done (2, at_op 0 instr0 asm_init_ia32 o) ∧
        operand_address o ≠ {| a_base := Some 0; a_index := None; a_disp := 0 |}).
Proof.
  split.
  - destruct (operand_address_intel [68; 179; 8] (λ _ _ _ _, Overread) 0 instr0 asm_init_ia32 0 operand0
      ASM_OTYPE_ENCODED) as (o & Hrun & _ & Ha);
      [by left | done | done | cbn; lia | | lia | vm_compute; congruence | by vm_compute |].
    { intros q. apply byte_range. repeat apply Forall_cons_2; [lia.. | apply Forall_nil_2]. }
    exists o. split; [exact Hrun |]. rewrite (proj2 Ha); [by vm_compute |]. intros _. by vm_compute.
  - destruct (operand_address_intel [4; 32] (λ _ _ _ _, Overread) 0 instr0 asm_init_ia32 0 operand0
      ASM_OTYPE_ENCODED) as (o & Hrun & _ & Ha);
      [by left | done | done | cbn; lia | | lia | vm_compute; congruence | by vm_compute |].
    { intros q. apply byte_range. repeat apply Forall_cons_2; [lia.. | apply Forall_nil_2]. }
    exists o. split; [exact Hrun |]. intros E. apply (proj1 Ha) in E.
    pose proof (proj2 (E eq_refl) eq_refl) as H. vm_compute in H. discriminate H.
Defined.
