(* ===== verification/Cfg.v ===== *)
(** * The driver of the control-flow analysis (src/libmjollnir/src/core.c, cfg.c,
    history.c, findentry.c)

    It disassembles the bytes of a section (Ia32Fetch.v), resolves where each
    instruction may go, and cuts and links the blocks (Blocks.v) it discovers,
    recursively.  The processor is an IA-32 one; the object is read in static
    mode, where [elfsh_readmema] answers a pointer into the data of the section
    and its copy on itself has no effect. *)
From S2P Require Import Prelude.
From S2P Require Import Ia32.
From S2P Require Import Ia32Fetch.
From S2P Require Import Hash.
From S2P Require Import Elist.
From S2P Require Import Container.
From S2P Require Import Blocks.
Close Scope ia32_scope.

(** ** Outcomes

    [Undefined]: a NULL pointer, a read outside of the data of a section, an
    assertion that fails. *)
Inductive run (A : Type) :=
| Ended (a : A)
| Undefined
| NoFuel.
Arguments Ended {A} a.
Arguments Undefined {A}.
Arguments NoFuel {A}.

Definition lift {A} (m : option A) : run A :=
  match m with Some a => Ended a | None => Undefined end.

#[export] Instance run_bind : MBind run := λ A B f m,
  match m with Ended a => f a | Undefined => Undefined | NoFuel => NoFuel end.

(** ** The object *)

(** What the analysis reads of a section: [sh_addr], [sh_size], and [data],
    NULL for a section without data. *)
Record section_t := Section_ { sec_addr : Z; sec_size : Z; sec_data : option (list Z) }.

Class CodeLayer (E : Type) := {
  (** [elfsh_get_parent_section]: the section an address is in. *)
  parent_section : E → Z → option section_t;
  elfsh_get_entrypoint : E → Z;
  (** Is the type of the object ET_EXEC. *)
  is_exec : E → bool;
  (** The value of the symbol of a name, in one of the symbol tables. *)
  elfsh_get_metasym_by_name : E → string → option Z;
}.

(** ** The state *)

Definition MJR_HISTORY_LEN : nat := 5.
Definition MJR_HISTORY_CUR : nat := 4.
Definition MJR_BLOCK_EXIST : Z := 4294967294.
Definition MJR_MAX_BLOCK_SIZE : Z := 200.
Definition MJR_BIN_LINUX : Z := 0.
Definition MJR_BIN_FREEBSD : Z := 1.
Definition MJR_MIN (x y : Z) : Z := if y <? x then y else x.

Record mjrhistory_t := Hist { h_vaddr : Z; h_instr : asm_instr }.

(** The rest of [mjrcontext_t]: object, processor, history, table of targets
    given by hand, and counters. *)
Record flow_t (E : Type) := Flow {
  f_ctx : mjrcontext_t;
  f_obj : E;
  f_proc : s_asm_proc_i386;
  f_hist : list mjrhistory_t;
  goto_hash : hash_t string;
  calls_seen : Z;
  calls_found : Z;
}.
Arguments Flow {E} _ _ _ _ _ _ _.
Arguments f_ctx {E} _.
Arguments f_obj {E} _.
Arguments f_proc {E} _.
Arguments f_hist {E} _.
Arguments goto_hash {E} _.
Arguments calls_seen {E} _.
Arguments calls_found {E} _.

Definition set_graph {E} (x : mjrcontext_t) (e : E) (f : flow_t E) : flow_t E :=
  Flow x e (f_proc f) (f_hist f) (goto_hash f) (calls_seen f) (calls_found f).
Definition set_f_proc {E} (pr : s_asm_proc_i386) (f : flow_t E) : flow_t E :=
  Flow (f_ctx f) (f_obj f) pr (f_hist f) (goto_hash f) (calls_seen f) (calls_found f).
Definition set_hist {E} (h : list mjrhistory_t) (f : flow_t E) : flow_t E :=
  Flow (f_ctx f) (f_obj f) (f_proc f) h (goto_hash f) (calls_seen f) (calls_found f).
Definition set_calls {E} (s n : Z) (f : flow_t E) : flow_t E :=
  Flow (f_ctx f) (f_obj f) (f_proc f) (f_hist f) (goto_hash f) s n.

(** ** History (history.c): entry 0 is the oldest *)

Definition mjr_history_write {E} (f : flow_t E) (i : asm_instr) (a : Z) (idx : nat) : flow_t E :=
  if (MJR_HISTORY_LEN <=? idx)%nat then f else set_hist (<[idx := Hist a i]> (f_hist f)) f.

Definition shift_entry (h : list mjrhistory_t) (i : nat) : list mjrhistory_t :=
  match h !! S i with Some e => <[i := e]> h | None => h end.

Definition mjr_history_shift {E} (f : flow_t E) (inst : asm_instr) (addr : Z) : flow_t E :=
  if asm_instr_id (ins_instr inst) =? asm_instr_id ASM_NOP then f
  else mjr_history_write (set_hist (foldl shift_entry (f_hist f) (seq 0 (MJR_HISTORY_LEN - 1))) f)
         inst addr MJR_HISTORY_CUR.

(** ** Destinations *)

Definition asm_instr_len (ins : asm_instr) : Z := i32 (ins_len ins).

(** [init_i386.c]: in real mode the offset stays in the segment. *)
Definition asm_dest_resolve (pr : s_asm_proc_i386) (addr shift : Z) : Z :=
  if mode pr =? INTEL_REAL
  then u32 ((addr &&& 4294901760) + u16 ((addr &&& 65535) + shift))
  else u32 (addr + shift).

(** [operand.c]: the immediate of operand [num], counted from 1, as four bytes. *)
Definition asm_operand_get_immediate (ins : asm_instr) (num : Z) : option Z :=
  if num =? 1 then Some (op_imm (nth 0 (ins_op ins) operand0))
  else if num =? 2 then Some (op_imm (nth 1 (ins_op ins) operand0))
  else if num =? 3 then Some (op_imm (nth 2 (ins_op ins) operand0))
  else None.

Definition has_bit (v m : Z) : bool := negb (v &&& m =? 0).

(** [strtol(s, NULL, 16)] of the C library, [long_bits] wide. *)
Definition hex_value (c : Ascii.ascii) : option Z :=
  let n := Z.of_N (Ascii.N_of_ascii c) in
  if (48 <=? n) && (n <=? 57) then Some (n - 48)
  else if (65 <=? n) && (n <=? 70) then Some (n - 55)
  else if (97 <=? n) && (n <=? 102) then Some (n - 87)
  else None.
Fixpoint hex_digits (acc : Z) (s : string) : Z :=
  match s with
  | EmptyString => acc
  | String c s' => match hex_value c with Some d => hex_digits (16 * acc + d) s' | None => acc end
  end.
Definition skip_0x (s : string) : string :=
  match s with
  | String a (String b s') =>
      if Ascii.eqb a (Ascii.ascii_of_N 48) && (Ascii.eqb b (Ascii.ascii_of_N 120) || Ascii.eqb b (Ascii.ascii_of_N 88)) then s' else s
  | _ => s
  end.
Fixpoint strtol16 (long_bits : Z) (s : string) : Z :=
  let top := 2 ^ (long_bits - 1) in
  match s with
  | EmptyString => 0
  | String c s' =>
      let n := Z.of_N (Ascii.N_of_ascii c) in
      if (n =? 32) || ((9 <=? n) && (n <=? 13)) then strtol16 long_bits s'
      else if n =? 45 then Z.max (- hex_digits 0 (skip_0x s')) (- top)
      else if n =? 43 then Z.min (hex_digits 0 (skip_0x s')) (top - 1)
      else Z.min (hex_digits 0 (skip_0x s)) (top - 1)
  end.

Section cfg.
Variable type_name : Z → option string.
Variables bloc_prefix func_prefix : string.
Context {E : Type} `{!ElfLayer E, !CodeLayer E}.
(** The width of a [long]. *)
Variable long_bits : Z.
(** The limit of depth; none when it is not positive. *)
Variable maxdepth : Z.
Implicit Types (f : flow_t E).

(** The instruction under analysis. *)
Definition current f : option mjrhistory_t := f_hist f !! MJR_HISTORY_CUR.

Definition mjr_compute_fctptr f : option Z :=
  h ← current f;
  found ← hash_get (goto_hash f) (AFMT (h_vaddr h));
  match found with
  | None => Some MJR_BLOCK_INVALID
  | Some s => Some (u32 (strtol16 long_bits s))
  end.

(** [mjr_get_call_destaddr] and [mjr_get_jmp_destaddr] have the same text for IA-32. *)
Definition mjr_get_call_destaddr f : option Z :=
  h ← current f;
  let ins := h_instr h in
  let content := op_content (nth 0 (ins_op ins) operand0) in
  if has_bit content ASM_OP_VALUE && negb (has_bit content ASM_OP_REFERENCE) then
    let ilen := asm_instr_len ins in
    dest ← asm_operand_get_immediate ins 1;
    Some (asm_dest_resolve (f_proc f) (h_vaddr h) (u32 (dest + ilen)))
  else if has_bit content ASM_OP_BASE then mjr_compute_fctptr f
  else Some MJR_BLOCK_INVALID.

Definition mjr_get_jmp_destaddr f : option Z :=
  h ← current f;
  let ins := h_instr h in
  let content := op_content (nth 0 (ins_op ins) operand0) in
  if has_bit content ASM_OP_VALUE && negb (has_bit content ASM_OP_REFERENCE) then
    let ilen := asm_instr_len ins in
    dest ← asm_operand_get_immediate ins 1;
    Some (asm_dest_resolve (f_proc f) (h_vaddr h) (u32 (dest + ilen)))
  else if has_bit content ASM_OP_BASE then mjr_compute_fctptr f
  else Some MJR_BLOCK_INVALID.

(** ** One instruction (cfg.c)

    [dst] and [ret] are what [*dstaddr] and [*retaddr] hold before; the result is
    the state, the size of the delay slot, and what they hold after. *)
Definition mjr_trace_control f (curblock : Z) (curins : asm_instr) (curvaddr dst ret : Z) :
    option (flow_t E * Z * Z * Z) :=
  let f := mjr_history_write f curins curvaddr MJR_HISTORY_CUR in
  let f := mjr_history_write f curins curvaddr 0 in
  let ilen := asm_instr_len curins in
  let addend := 0 in
  bloc ← mjr_block_get_by_vaddr (f_ctx f) curvaddr MJR_BLOCK_GET_STRICT;
  other ← match bloc with
          | None => Some None
          | Some b =>
              cb ← conts (f_ctx f) !! b;
              cc ← conts (f_ctx f) !! curblock;
              Some (if cid cb =? cid cc then None else Some b)
          end;
  match other with
  | Some b =>
      x ← link_both (f_ctx f) curblock b MJR_LINK_BLOCK_COND_ALWAYS MJR_LINK_BLOCK_COND_ALWAYS
            MJR_LINK_SCOPE_LOCAL;
      Some (set_graph x (f_obj f) f, 0, MJR_BLOCK_EXIST, MJR_BLOCK_INVALID)
  | None =>
      let type := ins_type curins in
      if has_bit type ASM_TYPE_BRANCH && has_bit type ASM_TYPE_CONDCONTROL then
        dst ← mjr_get_jmp_destaddr f;
        let ret := u32 (curvaddr + ilen + addend) in
        '(x, e, _) ← mjr_link_block_jump type_name bloc_prefix (f_ctx f) (f_obj f) curvaddr dst ret;
        Some (set_graph x e f, addend, dst, ret)
      else if has_bit type ASM_TYPE_BRANCH && negb (has_bit type ASM_TYPE_CONDCONTROL) then
        dst ← mjr_get_jmp_destaddr f;
        '(x, e) ← (if negb (dst =? MJR_BLOCK_INVALID) then
                     '(x, e, _) ← mjr_link_block_jump type_name bloc_prefix (f_ctx f) (f_obj f)
                                    curvaddr dst MJR_BLOCK_INVALID;
                     Some (x, e)
                   else Some (f_ctx f, f_obj f));
        Some (set_graph x e f, addend, dst, ret)
      else if has_bit type ASM_TYPE_CALLPROC then
        dst ← mjr_get_call_destaddr f;
        let f := set_calls (u32 (calls_seen f + 1)) (calls_found f) f in
        let after := u32 (curvaddr + ilen + addend) in
        let ret := match elfsh_get_parent_section (f_obj f) after with
                   | None => MJR_BLOCK_INVALID
                   | Some _ => after
                   end in
        '(x, e, _) ← mjr_link_block_call type_name bloc_prefix (f_ctx f) (f_obj f) curvaddr dst ret;
        let f := set_graph x e f in
        f ← (if negb (dst =? MJR_BLOCK_INVALID) then
               '(x, e, _) ← mjr_link_func_call type_name bloc_prefix func_prefix (f_ctx f) (f_obj f)
                              curvaddr dst ret;
               Some (set_calls (calls_seen f) (u32 (calls_found f + 1)) (set_graph x e f))
             else Some f);
        Some (f, addend, dst, ret)
      else if has_bit type ASM_TYPE_RETPROC then
        let st := func_stack (f_ctx f) in
        x ← (if 1 <? lelmnbr st then
               let '(st, cur) := elist_pop (Some st) in
               st ← st; Some (set_curfunc cur st (f_ctx f))
             else Some (f_ctx f));
        Some (set_graph x (f_obj f) f, addend, dst, ret)
      else Some (f, addend, dst, ret)
  end.

(** ** The analysis from an address (core.c) *)

Definition set_size (x : mjrcontext_t) (p n : Z) : option mjrcontext_t :=
  b ← block_of x p; set_block x p (Block (vaddr b) (u32 n) (symoff b) (seen b)).

Definition grow_block (x : mjrcontext_t) (p n : Z) : option mjrcontext_t :=
  b ← block_of x p; set_size x p (bsize b + n).

(** [elfsh_readmema(obj, addr, ...)] in static mode: the data of the section from
    [addr] on.  An address outside of the sections, or in a section without data,
    gives a pointer that cannot be read. *)
Definition elfsh_readmema (e : E) (addr : Z) : option (list Z) :=
  s ← parent_section e addr;
  d ← sec_data s;
  Some (drop (Z.to_nat (addr - sec_addr s)) d).

(** The variables of the loop: [lo_ptr] is what [ptr] points to. *)
Record loop_t := Loop {
  lo_vaddr : Z;
  lo_curr : Z;
  lo_curlen : Z;
  lo_eos : bool;
  lo_sect : section_t;
  lo_ptr : list Z;
}.

Definition set_curr (c : Z) (l : loop_t) : loop_t :=
  Loop (lo_vaddr l) c (lo_curlen l) (lo_eos l) (lo_sect l) (lo_ptr l).

Definition remaining (s : section_t) (addr : Z) : Z :=
  MJR_MIN (u32 (sec_size s - (addr - sec_addr s))) MJR_MAX_BLOCK_SIZE.

(** The window of bytes is moved when fewer than 15 are left in it. *)
Definition refill f (l : loop_t) : option loop_t :=
  if negb (lo_eos l) && (lo_curlen l <=? u32 (lo_curr l + 15)) then
    let here := u32 (lo_vaddr l + lo_curr l) in
    sect ← parent_section (f_obj f) here;
    let restlen := remaining sect here in
    ptr ← elfsh_readmema (f_obj f) here;
    Some (Loop here 0 (u32 (u32 (lo_curlen l + restlen) - lo_curr l))
            (negb (restlen =? MJR_MAX_BLOCK_SIZE)) sect ptr)
  else Some l.

(** [ilen = asm_read_instr(&instr, ptr + curr, curlen - curr, proc)], an [int]. *)
Definition read_instr f (l : loop_t) : run (flow_t E * Z * asm_instr) :=
  let buf := drop (Z.to_nat (lo_curr l)) (lo_ptr l) in
  match asm_read_instr (length buf) buf (u32 (lo_curlen l - lo_curr l)) (f_proc f) with
  | Done (ilen, Dis i pr) => Ended (set_f_proc pr f, i32 ilen, i)
  | Overread => Undefined
  | OutOfFuel => NoFuel
  end.

(** The loop on the instructions of a block; [rec] is the recursive call. *)
Fixpoint analyse_loop (fuel : nat) (rec : flow_t E → Z → Z → run (flow_t E)) f
    (curblock curdepth : Z) (l : loop_t) : run (flow_t E) :=
  match fuel with
  | O => NoFuel
  | S fuel =>
      if negb (u32 (lo_vaddr l + lo_curr l) <? u32 (sec_addr (lo_sect l) + sec_size (lo_sect l)))
      then Ended f
      else
        l ← lift (refill f l);
        '(f, ilen, instr) ← read_instr f l;
        if ilen <=? 0 then Ended f
        else
          let addr := u32 (lo_vaddr l + lo_curr l) in
          let f := mjr_history_shift f instr addr in
          x ← lift (grow_block (f_ctx f) curblock ilen);
          let f := set_graph x (f_obj f) f in
          '(f, delay, trueaddr, falseaddr) ←
            lift (mjr_trace_control f curblock instr addr MJR_BLOCK_INVALID MJR_BLOCK_INVALID);
          if trueaddr =? MJR_BLOCK_EXIST then
            x ← lift (grow_block (f_ctx f) curblock (- ilen));
            Ended (set_graph x (f_obj f) f)
          else
            f ← (if negb (trueaddr =? MJR_BLOCK_INVALID)
                 then rec f trueaddr
                        (curdepth + (if has_bit (ins_type instr) ASM_TYPE_CALLPROC then 1 else 0))
                 else Ended f);
            f ← (if negb (falseaddr =? MJR_BLOCK_INVALID) then rec f falseaddr curdepth else Ended f);
            if negb (falseaddr =? MJR_BLOCK_INVALID) || negb (trueaddr =? MJR_BLOCK_INVALID) ||
               has_bit (ins_type instr) ASM_TYPE_RETPROC || has_bit (ins_type instr) ASM_TYPE_STOP
            then
              x ← lift (grow_block (f_ctx f) curblock delay);
              Ended (set_graph x (f_obj f) f)
            else analyse_loop fuel rec f curblock curdepth (set_curr (u32 (lo_curr l + ilen)) l)
  end.

Fixpoint mjr_analyse_rec (fuel : nat) f (addr curdepth : Z) : run (flow_t E) :=
  match fuel with
  | O => NoFuel
  | S fuel =>
      if (0 <? maxdepth) && (maxdepth <=? curdepth) then
        let st := func_stack (f_ctx f) in
        if 1 <? lelmnbr st then
          let '(st, cur) := elist_pop (Some st) in
          st ← lift st;
          Ended (set_graph (set_curfunc cur st (f_ctx f)) (f_obj f) f)
        else Ended f
      else
        curblock ← lift (hash_get (blkhash (f_ctx f)) (vaddr2str addr));
        curblock ← lift curblock;
        block ← lift (block_of (f_ctx f) curblock);
        if seen block =? 1 then Ended f
        else
          x ← lift (set_block (f_ctx f) curblock (Block (vaddr block) (bsize block) (symoff block) 1));
          let f := set_graph x (f_obj f) f in
          match parent_section (f_obj f) addr with
          | None => Ended f
          | Some sect =>
              let curlen := remaining sect addr in
              ptr ← lift (elfsh_readmema (f_obj f) addr);
              analyse_loop fuel (mjr_analyse_rec fuel) f curblock curdepth
                (Loop addr 0 curlen (negb (curlen =? MJR_MAX_BLOCK_SIZE)) sect ptr)
          end
  end.

Definition mjr_analysed f (addr : Z) : option Z :=
  cont ← hash_get (blkhash (f_ctx f)) (vaddr2str addr);
  Some (match cont with Some _ => 1 | None => 0 end).

(** ** The entry point (findentry.c) *)

Definition ELFSH_SECTION_NAME_INIT : string := ".init".

(** The variables of [mjr_find_main]; the last three are [None] until they are
    assigned. *)
Record find_t := Find {
  fi_dis : Z;
  fi_done : Z;
  fetch_next : bool;
  arch_bin : option Z;
  init_addr : option Z;
  main_addr : option Z;
}.

(** What the first instruction says of the system. *)
Definition find_first f (ins : asm_instr) (v : find_t) : option find_t :=
  if negb (fi_dis v =? 0) then Some v
  else
    v ← (if asm_instr_id (ins_instr ins) =? asm_instr_id ASM_XOR
         then Some (Find (fi_dis v) (fi_done v) (fetch_next v) (Some MJR_BIN_LINUX) (init_addr v)
                      (main_addr v))
         else if asm_instr_id (ins_instr ins) =? asm_instr_id ASM_PUSH
         then sym ← elfsh_get_metasym_by_name (f_obj f) ELFSH_SECTION_NAME_INIT;
              Some (Find (fi_dis v) (fi_done v) (fetch_next v) (Some MJR_BIN_FREEBSD) (Some sym)
                      (main_addr v))
         else Some v);
    _ ← arch_bin v;
    Some v.

(** One instruction of length [ilen]: the variables, and [stop]. *)
Definition find_step f (ins : asm_instr) (len addr ilen : Z) (v : find_t) : option (find_t * bool) :=
  v ← find_first f ins v;
  '(v, stop) ←
    (if asm_instr_id (ins_instr ins) =? asm_instr_id ASM_PUSH then
       if fi_dis v =? 0 then Some (v, false)
       else
         arch ← arch_bin v;
         if (arch =? MJR_BIN_LINUX) &&
            bool_decide (op_type (nth 0 (ins_op ins) operand0) = ASM_OTYPE_IMMEDIATE)
         then m ← asm_operand_get_immediate ins 1;
              Some (Find (fi_dis v) (fi_done v) (fetch_next v) (arch_bin v) (init_addr v) (Some m), false)
         else Some (v, false)
     else if asm_instr_id (ins_instr ins) =? asm_instr_id ASM_CALL then
       arch ← arch_bin v;
       if arch =? MJR_BIN_FREEBSD then
         m ← asm_operand_get_immediate ins 1;
         let m := u32 (m + (addr + fi_dis v + ilen)) in
         init ← init_addr v;
         Some (Find (fi_dis v) (fi_done v) (fetch_next v || (m =? init)) (arch_bin v) (init_addr v)
                 (Some m), fetch_next v)
       else Some (v, arch =? MJR_BIN_LINUX)
     else Some (v, false));
  let done := u32 (fi_done v + ilen) in
  let dis := u32 (fi_dis v + ilen) in
  Some (if len <=? done
        then (Find dis done (fetch_next v) (arch_bin v) (init_addr v) (Some addr), true)
        else (Find dis done (fetch_next v) (arch_bin v) (init_addr v) (main_addr v), stop)).

(** The address of main and the number of bytes read. *)
Fixpoint find_loop (fuel : nat) f (buf : list Z) (len addr : Z) (v : find_t) : run (flow_t E * Z * Z) :=
  match fuel with
  | O => NoFuel
  | S fuel =>
      let buf' := drop (Z.to_nat (fi_dis v)) buf in
      match asm_read_instr (length buf') buf' (u32 (len - fi_dis v)) (f_proc f) with
      | Overread => Undefined
      | OutOfFuel => NoFuel
      | Done (ilen, Dis ins pr) =>
          let f := set_f_proc pr f in
          '(v, stop) ← lift (find_step f ins len addr (u32 ilen) v);
          if stop : bool then m ← lift (main_addr v); Ended (f, m, fi_dis v)
          else find_loop fuel f buf len addr v
      end
  end.

Definition mjr_find_main (fuel : nat) f (buf : list Z) (len addr : Z) : run (flow_t E * Z * Z) :=
  find_loop fuel f buf len addr (Find 0 0 false None None None).

(** A new function of this name, in the registry and in the table. *)
Definition new_function (x : mjrcontext_t) (addr : Z) (name : string) : option (mjrcontext_t * Z) :=
  '(x, p) ← mjr_create_function_container type_name x addr 0 (Some name);
  '(x, _) ← mjr_function_register x addr p;
  p ← p;
  Some (x, p).

Definition mjr_trace_start (fuel : nat) f (buf : list Z) (len addr : Z) : run (flow_t E * Z) :=
  if negb (is_exec (f_obj f)) then Ended (f, 0)
  else
    let sym := default 0 (elfsh_get_metasym_by_name (f_obj f) "main") in
    '(f, main_addr, dis) ← (if negb (sym =? 0) then Ended (f, sym, 0) else mjr_find_main fuel f buf len addr);
    if main_addr =? u32 (-1) then Ended (f, 0)
    else if main_addr =? addr then Ended (f, main_addr)
    else
      '(x, tmpcntnr) ← lift (new_function (f_ctx f) addr "_start");
      '(x, main_container) ← lift (new_function x main_addr "main");
      x ← lift (link_both x tmpcntnr main_container MJR_LINK_FUNC_CALL MJR_LINK_FUNC_RET
                  MJR_LINK_SCOPE_LOCAL);
      '(x, e, _) ← lift (mjr_link_block_call type_name bloc_prefix x (f_obj f) addr main_addr
                           (u32 (addr + dis)));
      let e := if sym =? 0 then elfsh_insert_symbol e main_addr 0 STT_FUNC "main" else e in
      Ended (set_graph x e f, main_addr).

(** ** The analysis (core.c) *)

(** [elist_empty] on the stack of functions, which is registered by its name. *)
Definition emptied (st : list_t Z) : option (list_t Z) :=
  _ ← elist_get_keys (Some st); Some (List [] 0 (ltype st) 0 (lname st)).

(** A stack that holds [cont] only, which becomes the current function. *)
Definition enter_function (x : mjrcontext_t) (cont : option Z) : option mjrcontext_t :=
  st ← emptied (func_stack x);
  '(st, _) ← elist_push (Some st) cont;
  st ← st;
  Some (set_curfunc cont st x).

(** [mjr_analyse] up to the storage of its results in the object. *)
Definition mjr_analyse (fuel : nat) f (addr : Z) : run (flow_t E * Z) :=
  if addr =? 0 then Ended (f, -1)
  else match parent_section (f_obj f) addr with
  | None => Ended (f, -1)
  | Some _ =>
      '(x, cont) ← lift (mjr_create_block_container type_name (f_ctx f) 0 addr 0 0);
      match cont with
      | None => Ended (set_graph x (f_obj f) f, -1)
      | Some cont =>
          '(h, _) ← lift (hash_add_to (blkhash x) (vaddr2str addr) (Some cont));
          let f := set_graph (set_blkhash h x) (f_obj f) f in
          '(f, main_addr) ←
            (if addr =? elfsh_get_entrypoint (f_obj f) then
               buf ← lift (elfsh_readmema (f_obj f) addr);
               let n := 2 * MJR_MAX_BLOCK_SIZE in
               _ ← lift (guard_ub (bool_decide (n ≤ Z.of_nat (length buf))));
               mjr_trace_start fuel f (take (Z.to_nat n) buf) n addr
             else
               '(x, cont) ← lift (mjr_create_function_container type_name (f_ctx f) addr 0
                                    (Some (vaddr2str addr)));
               '(x, _) ← lift (mjr_function_register x addr cont);
               x ← lift (enter_function x cont);
               Ended (set_graph x (f_obj f) f, 0));
          f ← mjr_analyse_rec fuel f addr 0;
          if main_addr =? 0 then Ended (f, 0)
          else
            cont ← lift (mjr_function_get_by_vaddr (f_ctx f) main_addr);
            x ← lift (enter_function (f_ctx f) cont);
            f ← mjr_analyse_rec fuel (set_graph x (f_obj f) f) main_addr 0;
            Ended (f, 0)
      end
  end.

End cfg.
