(* ===== verification/CfgSpec.v ===== *)
(** * The analysis of control flow ends, and keeps what it knows (Cfg.v)

    First what the graph operations leave of the blocks already known (Container.v,
    Blocks.v, Cfg.v): none of them forgets a block, moves it, or makes it unseen. *)
From S2P Require Import Prelude.
From S2P Require Import Hash.
From S2P Require Import HashSpec.
From S2P Require Import Elist.
From S2P Require Import Container.
From S2P Require Import Blocks.
From S2P Require Import SplitSpec.
From S2P Require Import Ia32.
From S2P Require Import Ia32Fetch.
From S2P Require Import Ia32StructSpec.
From S2P Require Import Btree.
From S2P Require Import Cfg.

Implicit Types (x : mjrcontext_t) (b : mjrblock_t) (p : Z).

(** ** Names of addresses *)

Lemma hex_char_inj m n : 0 ≤ m < 16 → 0 ≤ n < 16 → hex_char m = hex_char n → m = n.
Proof.
  intros Hm Hn H. unfold hex_char in H. apply (f_equal Ascii.N_of_ascii) in H.
  rewrite !Ascii.N_ascii_embedding in H by (repeat case_match; lia). repeat case_match; lia.
Qed.

Lemma nibble_mod a k : 0 ≤ k → a mod 2 ^ (k + 4) = ((a ≫ k) &&& 15) * 2 ^ k + a mod 2 ^ k.
Proof.
  intros Hk. change 15 with (Z.ones 4). rewrite Z.land_ones, Z.shiftr_div_pow2 by lia.
  rewrite Z.pow_add_r, Z.rem_mul_r by (lia || apply Z.pow_nonzero; lia). lia.
Qed.

Lemma hex_string_inj n a c :
  hex_string n a = hex_string n c → a mod 2 ^ (4 * Z.of_nat n) = c mod 2 ^ (4 * Z.of_nat n).
Proof.
  induction n as [| n IH]; intros H; [by rewrite !Z.mod_1_r |].
  cbn [hex_string] in H. injection H as Hc Hs.
  replace (4 * Z.of_nat (S n)) with (4 * Z.of_nat n + 4) by lia. rewrite !nibble_mod by lia.
  rewrite (IH Hs). f_equal. f_equal. apply hex_char_inj; [.. | done].
  all: change 15 with (Z.ones 4); rewrite Z.land_ones by lia; by apply Z.mod_pos_bound.
Qed.

Lemma vaddr2str_inj a c : 0 ≤ a < 2 ^ 32 → 0 ≤ c < 2 ^ 32 → vaddr2str a = vaddr2str c → a = c.
Proof. intros Ha Hc H%hex_string_inj. by rewrite !Z.mod_small in H by done. Qed.

(** ** Running an operation backwards *)

Ltac undo :=
  repeat match goal with
  | H : mbind _ ?m = Some _ |- _ =>
      let E := fresh "E" in destruct m eqn:E; cbn [mbind option_bind] in H; [| discriminate H]
  | H : (let '(_, _) := ?q in _) = Some _ |- _ => let E := fresh "E" in destruct q eqn:E
  | H : Some _ = Some _ |- _ => injection H as H; simplify_eq
  | H : None = Some _ |- _ => discriminate H
  | H : match ?q with _ => _ end = Some _ |- _ =>
      let E := fresh "E" in destruct q eqn:E; try discriminate H
  end.

(** ** Operations that leave blocks alone *)

Record mild x x' : Prop := {
  mi_hash : blkhash x' = blkhash x;
  mi_conts : conts_ok x → conts_ok x';
  mi_blocks p b : conts_ok x → block_of x p = Some b → block_of x' p = Some b;
}.

#[export] Instance mild_refl : Reflexive mild.
Proof. by intros x. Qed.
#[export] Instance mild_trans : Transitive mild.
Proof.
  intros x y z [H1 H2 H3] [H4 H5 H6]. split; [congruence | auto | auto].
Qed.

Lemma mild_same x x' : conts x' = conts x → cbrk x' = cbrk x → blkhash x' = blkhash x → mild x x'.
Proof.
  intros Hc Hb Hh. split; [done | unfold conts_ok; by rewrite Hc, Hb |].
  intros p b _. unfold block_of. by rewrite Hc.
Qed.

(** A container is rewritten with the same contents. *)
Lemma mild_set_cont x p c c' : conts x !! p = Some c → data c' = data c → mild x (set_cont p c' x).
Proof.
  intros Hc Hd. split; [done | |].
  - intros Hok q Hq. cbn in *. rewrite lookup_insert_ne; [by apply Hok |].
    intros ->. by rewrite Hok in Hc.
  - intros q b _ Hb. unfold block_of in *. cbn. destruct (decide (p = q)) as [-> |].
    + rewrite lookup_insert_eq. rewrite Hc in Hb. cbn in *. by rewrite Hd.
    + by rewrite lookup_insert_ne.
Qed.

Lemma mild_new_cont x c y p : new_cont c x = (y, p) → mild x y.
Proof.
  intros [= <- <-]. split; [done | |].
  - intros Hok q Hq. cbn in *. rewrite lookup_insert_ne by lia. apply Hok. lia.
  - intros q b Hok Hb. unfold block_of in *. cbn.
    rewrite lookup_insert_ne; [done |]. intros <-. by rewrite Hok in Hb by lia.
Qed.

Create HintDb mild discriminated.
#[export] Hint Resolve mild_refl mild_same : mild.

(** Chain the facts at hand, from the last state back. *)
Ltac mild_via y := transitivity y; [| by apply mild_same].
Ltac mild_chain :=
  lazymatch goal with
  | |- mild ?x ?x => reflexivity
  | H : mild ?z ?y |- mild _ ?y => transitivity z; [clear H; mild_chain | exact H]
  | |- mild _ (set_cont _ _ ?m) =>
      transitivity m; [mild_chain | eapply mild_set_cont; [eassumption | done]]
  | |- mild _ (set_links _ ?m) => mild_via m; mild_chain
  | |- mild _ (set_linkhash _ ?m) => mild_via m; mild_chain
  | |- mild _ (set_reg _ _ _ ?m) => mild_via m; mild_chain
  | |- mild _ (set_btree _ ?m) => mild_via m; mild_chain
  | |- mild _ (set_funchash _ ?m) => mild_via m; mild_chain
  | |- mild _ (set_curfunc _ _ ?m) => mild_via m; mild_chain
  end.

Lemma link_list_mild x name x' l : link_list x name = Some (x', l) → mild x x'.
Proof. intros H. unfold link_list in H. undo; by apply mild_same. Qed.


Section mild.
Variable type_name : Z → option string.
Variables bloc_prefix func_prefix : string.
Context {E : Type} `{!ElfLayer E}.

Lemma linklists_create_mild x p t u x' r :
  container_linklists_create type_name x p t u = Some (x', r) → mild x x'.
Proof.
  intros H. unfold container_linklists_create in H.
  destruct (conts x !! p) as [c |] eqn:Hc; [| discriminate]. cbn [mbind option_bind] in H.
  undo; try reflexivity.
  all: lazymatch goal with Hl : link_list _ _ = Some (?y, _) |- _ =>
    assert (conts y = conts x) as Hy by (unfold link_list in Hl; undo; done);
    apply link_list_mild in Hl; rewrite <-Hy in Hc end.
  all: mild_chain.
Qed.

Lemma copy_links_mild x l x' r : copy_links x l = Some (x', r) → mild x x'.
Proof. intros H. unfold copy_links in H. undo; by apply mild_same. Qed.

Lemma container_create_mild x t d i o u x' q :
  container_create type_name x t d i o u = Some (x', q) → mild x x'.
Proof.
  intros H. unfold container_create in H. undo; try reflexivity.
  all: repeat match goal with
       | H : new_cont _ _ = _ |- _ => apply mild_new_cont in H
       | H : container_linklists_create _ _ _ _ _ = Some _ |- _ => apply linklists_create_mild in H
       | H : copy_links _ _ = Some _ |- _ => apply copy_links_mild in H
       end.
  all: mild_chain.
Qed.

Lemma register_mild x p x' i : mjr_register_container x p = Some (x', i) → mild x x'.
Proof.
  intros H. unfold mjr_register_container in H. case_match; undo; [reflexivity |].
  assert (mild x (if cntnrs_size x <=? next_id x then mjr_resize_containers x 0 else x)) as Hx.
  { case_match; [by apply mild_same | reflexivity]. }
  mild_chain.
Qed.

Lemma scan_links_mild lst ty id lt ents : ∀ x x' k,
  scan_links x lst ty id lt ents = Some (x', k) → mild x x'.
Proof.
  induction ents as [| e ents IH]; intros x x' k H; cbn [scan_links] in H; undo; try reflexivity.
  all: apply IH in H; mild_chain.
Qed.

Lemma add_link_mild x c id lt sc dir x' k :
  mjr_container_add_link x c id lt sc dir = Some (x', k) → mild x x'.
Proof.
  intros H. unfold mjr_container_add_link in H. undo.
  all: match goal with H : scan_links _ _ _ _ _ _ = Some _ |- _ => apply scan_links_mild in H end.
  all: mild_chain.
Qed.

Lemma link_both_mild x src dst tout tin sc x' : link_both x src dst tout tin sc = Some x' → mild x x'.
Proof.
  intros H. unfold link_both in H. undo.
  repeat match goal with
         | H : mjr_container_add_link _ _ _ _ _ _ = Some _ |- _ => apply add_link_mild in H
         end.
  mild_chain.
Qed.

Lemma relink_mild x src dst dir x' : mjr_block_relink x src dst dir = Some x' → mild x x'.
Proof.
  intros H. unfold mjr_block_relink in H. undo.
  revert H. generalize (Elist.head l) as ents. intros ents. clear. revert x.
  induction ents as [| e ents IH]; intros x H; cbn [relink_loop] in H; undo; [reflexivity |].
  apply IH in H. match goal with H : mjr_container_add_link _ _ _ _ _ _ = Some _ |- _ => apply add_link_mild in H end.
  mild_chain.
Qed.

Lemma create_function_mild x a n name x' q :
  mjr_create_function_container type_name x a n name = Some (x', q) → mild x x'.
Proof.
  intros H. unfold mjr_create_function_container in H. undo.
  all: match goal with H : container_create _ _ _ _ _ _ _ = Some _ |- _ => apply container_create_mild in H end.
  all: try match goal with H : mjr_register_container _ _ = Some _ |- _ => apply register_mild in H end.
  all: mild_chain.
Qed.

Lemma function_register_mild x a q x' r :
  mjr_function_register x a q = Some (x', r) → mild x x'.
Proof. intros H. unfold mjr_function_register in H. undo; mild_chain. Qed.

Lemma link_func_call_mild x (e : E) src dst re x' e' r :
  mjr_link_func_call type_name bloc_prefix func_prefix x e src dst re = Some (x', e', r) → mild x x'.
Proof.
  intros H. unfold mjr_link_func_call in H. undo.
  all: repeat match goal with
       | H : mjr_container_add_link _ _ _ _ _ _ = Some _ |- _ => apply add_link_mild in H
       | H : mjr_create_function_container _ _ _ _ _ = Some _ |- _ => apply create_function_mild in H
       | H : mjr_function_register _ _ _ = Some _ |- _ => apply function_register_mild in H
       end.
  all: mild_chain.
Qed.


(** A new block container holds the block it was made for. *)
Lemma create_block_block x b u x' p :
  container_create type_name x ASPECT_TYPE_BLOC (DBlock b) None None u = Some (x', Some p) →
  conts_ok x → block_of x' p = Some b ∧ conts x !! p = None.
Proof.
  intros H Hok. unfold container_create in H. undo.
  match goal with H : new_cont _ _ = _ |- _ =>
    pose proof (mild_new_cont _ _ _ _ H) as Hn; injection H as <- <- end.
  repeat match goal with
         | H : container_linklists_create _ _ _ _ _ = Some _ |- _ => apply linklists_create_mild in H
         end.
  split; [| apply Hok; lia].
  eapply mi_blocks; [eassumption | | eapply mi_blocks; [eassumption | |]].
  - eapply mi_conts; [eassumption |]. by eapply mi_conts.
  - by eapply mi_conts.
  - unfold block_of. cbn. by rewrite lookup_insert_eq.
Qed.

Lemma create_block_mild x so a n sn x' q :
  mjr_create_block_container type_name x so a n sn = Some (x', q) →
  mild x x' ∧
  ∀ p, q = Some p → conts_ok x → block_of x' p = Some (Block a n so sn) ∧ conts x !! p = None.
Proof.
  intros H. unfold mjr_create_block_container in H. undo.
  all: match goal with H : container_create _ _ _ _ _ _ _ = Some _ |- _ =>
         pose proof (container_create_mild _ _ _ _ _ _ _ _ H) end.
  2: { split; [mild_chain | done]. }
  match goal with H : mjr_register_container _ _ = Some _ |- _ => apply register_mild in H as Hr end.
  split; [mild_chain |]. intros p [= <-] Hok.
  match goal with H : container_create _ _ _ _ _ _ _ = Some _ |- _ =>
    destruct (create_block_block _ _ _ _ _ H Hok) as [Hb Hn] end.
  split; [| done]. change (block_of m0 z = Some (Block a n so sn)).
  eapply mi_blocks; [exact Hr | | exact Hb]. by eapply mi_conts.
Qed.
End mild.

(** ** What every operation keeps

    [mb] is the table of blocks: each key is the address of its block. *)

Record known x (mb : gmap string Z) : Prop := {
  kn_repr : Repr (blkhash x) mb;
  kn_conts : conts_ok x;
  kn_block key p : mb !! key = Some p →
    ∃ b, block_of x p = Some b ∧ vaddr2str (vaddr b) = key ∧ 0 ≤ vaddr b < 2 ^ 32;
}.

(** [b'] is [b] later: it has not moved, and it is not forgotten that it was seen. *)
Definition later b b' : Prop := vaddr b' = vaddr b ∧ (seen b = 1 → seen b' = 1).

Definition keeps x x' : Prop := ∀ mb, known x mb →
  ∃ mb', known x' mb' ∧ mb ⊆ mb' ∧
    ∀ p b, block_of x p = Some b → ∃ b', block_of x' p = Some b' ∧ later b b'.

#[export] Instance later_refl : Reflexive later.
Proof. by intros b. Qed.
#[export] Instance later_trans : Transitive later.
Proof. intros b1 b2 b3 [H1 H2] [H3 H4]. split; [congruence | auto]. Qed.

#[export] Instance keeps_refl : Reflexive keeps.
Proof. intros x mb Hk. exists mb. split_and!; [done | done |]. intros p b Hb. by exists b. Qed.
#[export] Instance keeps_trans : Transitive keeps.
Proof.
  intros x y z Hxy Hyz mb Hk. destruct (Hxy mb Hk) as (mb1 & Hk1 & Hs1 & Hb1).
  destruct (Hyz mb1 Hk1) as (mb2 & Hk2 & Hs2 & Hb2). exists mb2. split_and!; [done | by etrans |].
  intros p b Hb. destruct (Hb1 p b Hb) as (b1 & Hp1 & Hl1). destruct (Hb2 p b1 Hp1) as (b2 & Hp2 & Hl2).
  exists b2. split; [done | by etrans].
Qed.

Ltac keep_chain :=
  lazymatch goal with
  | |- keeps ?x ?x => reflexivity
  | H : keeps ?z ?y |- keeps _ ?y => transitivity z; [clear H; keep_chain | exact H]
  end.

Lemma mild_keeps x x' : mild x x' → keeps x x'.
Proof.
  intros [Hh Hc Hb] mb [HR Hok Hk]. exists mb. split_and!; [| done |].
  - split; [by rewrite Hh | auto |]. intros key p Hp. destruct (Hk _ _ Hp) as (b & Hpb & ?).
    exists b. split; [by apply Hb | done].
  - intros p b Hp. exists b. split; [by apply Hb | done].
Qed.

(** A block is rewritten in place. *)
Lemma set_block_block x p b x' :
  set_block x p b = Some x' →
  blkhash x' = blkhash x ∧ (conts_ok x → conts_ok x') ∧ block_of x' p = Some b ∧
  ∀ q, q ≠ p → block_of x' q = block_of x q.
Proof.
  intros H. unfold set_block in H. undo. split_and!; [done | | |].
  - intros Hok q Hq. cbn in *. rewrite lookup_insert_ne; [by apply Hok |]. intros ->. by rewrite Hok in E.
  - unfold block_of. cbn. by rewrite lookup_insert_eq.
  - intros q Hq. unfold block_of. cbn. by rewrite lookup_insert_ne.
Qed.

Lemma set_block_keeps x p b b' x' :
  block_of x p = Some b → later b b' → set_block x p b' = Some x' → keeps x x'.
Proof.
  intros Hb Hl H. destruct (set_block_block x p b' x' H) as (Hh & Hc & Hp & Ho).
  assert (∀ q bq, block_of x q = Some bq → ∃ bq', block_of x' q = Some bq' ∧ later bq bq') as Hall.
  { intros q bq Hq. destruct (decide (q = p)) as [-> | Hne].
    - exists b'. simplify_eq. by split.
    - exists bq. by rewrite Ho. }
  intros mb [HR Hok Hk]. exists mb. split_and!; [| done | done].
  split; [by rewrite Hh | auto |]. intros key q Hq. destruct (Hk _ _ Hq) as (bq & Hbq & Hkey & Hr).
  destruct (Hall _ _ Hbq) as (bq' & Hbq' & Hv & _). exists bq'. by rewrite Hv.
Qed.

(** A block is entered in the table under its address, which has no entry. *)
Lemma enter_block_keeps x p b h r :
  block_of x p = Some b → 0 ≤ vaddr b < 2 ^ 32 →
  hash_get (blkhash x) (vaddr2str (vaddr b)) = Some None →
  hash_add_to (blkhash x) (vaddr2str (vaddr b)) (Some p) = Some (h, r) →
  keeps x (set_blkhash h x).
Proof.
  intros Hb Hr Hnone Hadd mb [HR Hok Hk].
  rewrite (hash_get_Repr _ _ _ HR) in Hnone.
  destruct (hash_add_to_Repr (blkhash x) mb (vaddr2str (vaddr b)) p HR) as (h' & r' & Hadd' & HR' & _ & _).
  rewrite Hadd in Hadd'. simplify_eq.
  exists (<[vaddr2str (vaddr b) := p]> mb). split_and!; [| by apply insert_subseteq |].
  - split; [done | done |]. intros key q [[<- <-] | [_ Hq]]%lookup_insert_Some; [by exists b |].
    by apply (Hk key).
  - intros q bq Hq. by exists bq.
Qed.

(** ** Splitting and linking blocks *)

Section keep.
Variable type_name : Z → option string.
Variables bloc_prefix func_prefix : string.
Context {E : Type} `{!ElfLayer E}.

(** A lookup that ends in the search tree found nothing in the table. *)
Lemma get_fuzzy x a q : mjr_block_get_by_vaddr x a MJR_BLOCK_GET_FUZZY = Some q →
  (∃ p, q = Some p ∧ hash_get (blkhash x) (vaddr2str a) = Some (Some p)) ∨
  hash_get (blkhash x) (vaddr2str a) = Some None.
Proof.
  unfold mjr_block_get_by_vaddr. intros H.
  destruct (hash_get (blkhash x) (vaddr2str a)) as [[p |] |] eqn:Hh; [| by right | done].
  left. exists p. cbn in H. by simplify_eq.
Qed.

(** A new block at [a], which the table does not have: it is entered in it. *)
Lemma new_block_keeps x so a n sn x' p h r :
  0 ≤ a < 2 ^ 32 → hash_get (blkhash x) (vaddr2str a) = Some None →
  mjr_create_block_container type_name x so a n sn = Some (x', Some p) →
  hash_add_to (blkhash x') (vaddr2str a) (Some p) = Some (h, r) →
  keeps x (set_blkhash h x').
Proof.
  intros Ha Hno Hcr Hadd mb Hk. destruct (create_block_mild _ _ _ _ _ _ _ _ Hcr) as [Hm Hb].
  destruct (Hb p eq_refl (kn_conts _ _ Hk)) as [Hp _].
  apply (keeps_trans x x' _ (mild_keeps _ _ Hm)); [| done].
  apply (enter_block_keeps x' p _ h r Hp); [done | | done]. by rewrite (mi_hash _ _ Hm).
Qed.

Lemma block_split_keeps x (e : E) dst w x' e' q :
  0 ≤ dst < 2 ^ 32 → mjr_block_split type_name bloc_prefix x e dst w = Some (x', e', q) → keeps x x'.
Proof.
  intros Hd H mb Hk. cut (keeps x x'); [intros Hc; by apply Hc |]. unfold mjr_block_split in H.
  destruct (mjr_block_get_by_vaddr x dst MJR_BLOCK_GET_FUZZY) as [tmp |] eqn:Hget; [| done].
  cbn [mbind option_bind] in H. apply get_fuzzy in Hget.
  destruct tmp as [p |].
  - destruct (block_of x p) as [b |] eqn:Hb; [| done]. cbn [mbind option_bind] in H.
    destruct (elfsh_get_symbol_by_value e (vaddr b)) as [sym |]; [| done]. cbn [mbind option_bind] in H.
    destruct (Z.eqb_spec (vaddr b) dst) as [Hv | Hv]; cbn [negb] in H; [undo; reflexivity |].
    assert (hash_get (blkhash x) (vaddr2str dst) = Some None) as Hno.
    { destruct Hget as [(p' & [= <-] & Hget) | ?]; [| done]. destruct Hv.
      rewrite (hash_get_Repr _ _ _ (kn_repr _ _ Hk)) in Hget. injection Hget as Hget.
      destruct (kn_block _ _ Hk _ _ Hget) as (b' & Hb' & Hkey & Hr).
      rewrite Hb in Hb'. injection Hb' as <-. by apply vaddr2str_inj. }
    cbv zeta in H. undo.
    repeat match goal with
           | H : mjr_block_relink _ _ _ _ = Some _ |- _ => apply relink_mild, mild_keeps in H
           | H : link_both _ _ _ _ _ _ = Some _ |- _ => apply link_both_mild, mild_keeps in H
           end.
    match goal with H : set_block _ _ _ = Some _ |- _ =>
      destruct (set_block_block _ _ _ _ H) as (Hh & _);
      apply (set_block_keeps _ _ _ _ _ Hb) in H; [| by split] end.
    etrans; [eassumption |]. etrans; [| eassumption]. etrans; [| eassumption].
    eapply new_block_keeps; [exact Hd | by rewrite Hh | eassumption | eassumption].
  - assert (hash_get (blkhash x) (vaddr2str dst) = Some None) as Hno by by destruct Hget as [(? & ? & ?) |].
    undo. match goal with H : set_block _ _ _ = Some _ |- _ => rename H into Hs end.
    match goal with H : block_of (set_blkhash _ _) _ = Some _ |- _ => rename H into Hb end.
    etrans; [eapply new_block_keeps; eassumption |]. by apply (set_block_keeps _ _ _ _ _ Hb) in Hs.
Qed.

Ltac keep_facts :=
  repeat match goal with
  | H : link_both _ _ _ _ _ _ = Some _ |- _ => apply link_both_mild, mild_keeps in H
  | H : mjr_link_func_call _ _ _ _ _ _ _ _ = Some _ |- _ => apply link_func_call_mild, mild_keeps in H
  | H : mjr_block_split _ _ _ _ _ _ = Some _ |- _ => apply block_split_keeps in H; [| assumption]
  end.

Lemma link_block_call_keeps x (e : E) src dst re x' e' r :
  0 ≤ dst < 2 ^ 32 → 0 ≤ re < 2 ^ 32 →
  mjr_link_block_call type_name bloc_prefix x e src dst re = Some (x', e', r) → keeps x x'.
Proof. intros Hd Hr H. unfold mjr_link_block_call in H. undo; keep_facts; keep_chain. Qed.

Lemma link_block_jump_keeps x (e : E) src dst re x' e' r :
  0 ≤ src < 2 ^ 32 → 0 ≤ dst < 2 ^ 32 → 0 ≤ re < 2 ^ 32 →
  mjr_link_block_jump type_name bloc_prefix x e src dst re = Some (x', e', r) → keeps x x'.
Proof. intros Hs Hd Hr H. unfold mjr_link_block_jump in H. undo; keep_facts; keep_chain. Qed.
End keep.

(** * The analysis *)

Close Scope ia32_scope.

(** An object whose sections lie in the lower half of the address space, which
    symbols inserted by the analysis do not change. *)
Class LowObject (E : Type) `{!ElfLayer E, !CodeLayer E} := {
  low : E → Prop;
  low_section e a s : low e → parent_section e a = Some s →
    sec_addr s ≤ a < sec_addr s + sec_size s ∧ 0 ≤ sec_addr s ∧ sec_addr s + sec_size s ≤ 2 ^ 31;
  low_insert e v sz t n : low e → low (elfsh_insert_symbol e v sz t n);
  low_size e s sz : low e → low (set_st_size e s sz);
}.

Section cfg.
Variable type_name : Z → option string.
Variables bloc_prefix func_prefix : string.
Context {E : Type} `{!ElfLayer E, !CodeLayer E, !LowObject E}.
Variables long_bits maxdepth : Z.
Implicit Types (f : flow_t E) (e : E).

(** ** The object stays low *)

Hint Resolve low_insert low_size : core.

Lemma block_symbol_low x e p e' off : mjr_block_symbol bloc_prefix x e p = Some (e', off) → low e → low e'.
Proof. intros H Hl. unfold mjr_block_symbol in H. undo; auto. Qed.

Lemma block_split_low x e dst w x' e' q :
  mjr_block_split type_name bloc_prefix x e dst w = Some (x', e', q) → low e → low e'.
Proof.
  intros H Hl. unfold mjr_block_split in H. cbv zeta in H.
  undo; try done; eapply block_symbol_low; eauto.
Qed.

Ltac low_facts :=
  repeat match goal with
  | H : mjr_block_symbol _ _ ?e _ = Some _, Hl : low ?e |- _ =>
      apply block_symbol_low in H; [| exact Hl]
  | H : mjr_block_split _ _ _ ?e _ _ = Some _, Hl : low ?e |- _ => apply block_split_low in H; [| exact Hl]
  end.

Lemma link_block_call_low x e src dst re x' e' r :
  mjr_link_block_call type_name bloc_prefix x e src dst re = Some (x', e', r) → low e → low e'.
Proof. intros H Hl. unfold mjr_link_block_call in H. undo; low_facts; done. Qed.

Lemma link_block_jump_low x e src dst re x' e' r :
  mjr_link_block_jump type_name bloc_prefix x e src dst re = Some (x', e', r) → low e → low e'.
Proof. intros H Hl. unfold mjr_link_block_jump in H. undo; low_facts; done. Qed.

Lemma function_symbol_low x e p e' :
  mjr_function_symbol bloc_prefix func_prefix x e p = Some e' → low e → low e'.
Proof. intros H Hl. unfold mjr_function_symbol in H. undo; auto. Qed.

Lemma link_func_call_low x e src dst re x' e' r :
  mjr_link_func_call type_name bloc_prefix func_prefix x e src dst re = Some (x', e', r) → low e → low e'.
Proof.
  intros H Hl. unfold mjr_link_func_call in H. undo; try done.
  all: eapply function_symbol_low; eauto.
Qed.

(** ** One instruction *)

Lemma compute_fctptr_range f d :
  mjr_compute_fctptr long_bits f = Some d → 0 ≤ d < 2 ^ 32.
Proof. intros H. unfold mjr_compute_fctptr in H. undo; [apply wrapu_range; lia | done]. Qed.

Lemma dest_resolve_range pr a n : 0 ≤ asm_dest_resolve pr a n < 2 ^ 32.
Proof. unfold asm_dest_resolve. case_match; apply wrapu_range; lia. Qed.

Lemma jmp_destaddr_range f d : mjr_get_jmp_destaddr long_bits f = Some d → 0 ≤ d < 2 ^ 32.
Proof.
  intros H. unfold mjr_get_jmp_destaddr in H.
  undo; [apply dest_resolve_range | by eapply compute_fctptr_range | done].
Qed.
Lemma call_destaddr_range f d : mjr_get_call_destaddr long_bits f = Some d → 0 ≤ d < 2 ^ 32.
Proof. apply jmp_destaddr_range. Qed.

(** What one step of the analysis keeps. *)
Definition holds f f' : Prop :=
  keeps (f_ctx f) (f_ctx f') ∧ f_proc f' = f_proc f ∧ (low (f_obj f) → low (f_obj f')).

#[local] Instance holds_refl : Reflexive holds.
Proof. by intros f. Qed.
#[local] Instance holds_trans : Transitive holds.
Proof.
  intros f g h (K1 & P1 & L1) (K2 & P2 & L2). split_and!; [by etrans | congruence | auto].
Qed.

Lemma holds_write f i a n : holds f (mjr_history_write f i a n).
Proof. unfold mjr_history_write. by case_match. Qed.
Lemma holds_shift f i a : holds f (mjr_history_shift f i a).
Proof. unfold mjr_history_shift. case_match; [done |]. by etrans; [| apply holds_write]. Qed.

Lemma holds_graph f g x e :
  keeps (f_ctx f) x → f_proc g = f_proc f → (low (f_obj f) → low e) → holds f (set_graph x e g).
Proof. intros Hk Hp Hl. exact (conj Hk (conj Hp Hl)). Qed.

Lemma trace_control_holds f p i a d t fl f' :
  0 ≤ a < 2 ^ 32 →
  mjr_trace_control type_name bloc_prefix func_prefix long_bits f p i a MJR_BLOCK_INVALID MJR_BLOCK_INVALID =
    Some (f', d, t, fl) →
  holds f f' ∧ 0 ≤ t < 2 ^ 32 ∧ 0 ≤ fl < 2 ^ 32.
Proof.
  intros Ha H. unfold mjr_trace_control in H. cbv zeta in H.
  set (g := mjr_history_write (mjr_history_write f i a MJR_HISTORY_CUR) i a 0) in *.
  assert (holds f g) as Hg by (etrans; apply holds_write).
  cut (holds g f' ∧ 0 ≤ t < 2 ^ 32 ∧ 0 ≤ fl < 2 ^ 32).
  { intros [? ?]. split; [by etrans | done]. }
  clear Hg. clearbody g.
  assert (∀ z, 0 ≤ u32 z < 2 ^ 32) as Hu by (intros z; apply wrapu_range; lia).
  assert (0 ≤ MJR_BLOCK_INVALID < 2 ^ 32) as Hi by done.
  assert (∀ s : option (string * bool), 0 ≤ match s with
            | Some _ => u32 (a + asm_instr_len i + 0) | None => MJR_BLOCK_INVALID end < 2 ^ 32) as Hr
    by (intros [s |]; [apply Hu | done]).
  undo.
  all: repeat match goal with
       | H : mjr_get_jmp_destaddr _ _ = Some _ |- _ => apply jmp_destaddr_range in H
       | H : mjr_get_call_destaddr _ _ = Some _ |- _ => apply call_destaddr_range in H
       | H : link_both _ _ _ _ _ _ = Some _ |- _ => apply link_both_mild, mild_keeps in H
       | H : mjr_link_block_jump _ _ _ _ _ _ _ = Some _ |- _ =>
           pose proof (link_block_jump_low _ _ _ _ _ _ _ _ H); apply link_block_jump_keeps in H; [| done..]
       | H : mjr_link_block_call _ _ _ _ _ _ _ = Some _ |- _ =>
           pose proof (link_block_call_low _ _ _ _ _ _ _ _ H); apply link_block_call_keeps in H; [| done..]
       | H : mjr_link_func_call _ _ _ _ _ _ _ _ = Some _ |- _ =>
           pose proof (link_func_call_low _ _ _ _ _ _ _ _ H); apply link_func_call_mild, mild_keeps in H
       end.
  all: split; [| split; [first [assumption | done] | first [apply Hu | apply Hr | done]]].
  all: unfold holds; cbn [f_ctx f_obj f_proc set_graph set_calls] in *.
  all: split; [| split; [reflexivity | auto]].
  all: first [keep_chain | by apply mild_keeps, mild_same].
Qed.

(** ** The recursion

    An address is explored when its block has been seen. *)
Definition explored x (a : Z) : bool :=
  match hash_get (blkhash x) (vaddr2str a) with
  | Some (Some p) => match block_of x p with Some b => seen b =? 1 | None => false end
  | _ => false
  end.

Lemma explored_later x x' a mb :
  known x mb → keeps x x' → explored x a = true → explored x' a = true.
Proof.
  intros Hk Hkeep He. destruct (Hkeep mb Hk) as (mb' & Hk' & Hsub & Hb).
  unfold explored in *. rewrite (hash_get_Repr _ _ _ (kn_repr _ _ Hk)) in He.
  rewrite (hash_get_Repr _ _ _ (kn_repr _ _ Hk')).
  destruct (mb !! vaddr2str a) as [p |] eqn:Hp; [| done].
  rewrite (lookup_weaken _ _ _ _ Hp Hsub).
  destruct (block_of x p) as [b |] eqn:Hbp; [| done].
  destruct (Hb _ _ Hbp) as (b' & -> & _ & Hseen). apply Z.eqb_eq in He. by rewrite Hseen.
Qed.

(** How many addresses below [n] are left. *)
Definition unexplored (n : Z) x : nat := length (List.filter (λ a, negb (explored x a)) (seqZ 0 n)).

Lemma unexplored_later n x x' mb : known x mb → keeps x x' → (unexplored n x' ≤ unexplored n x)%nat.
Proof.
  intros Hk Hkeep. apply filter_imp_le. intros a Ha.
  destruct (explored x a) eqn:He; [| done]. by rewrite (explored_later x x' a mb) in Ha.
Qed.

Lemma unexplored_step n x x' a mb :
  known x mb → keeps x x' → 0 ≤ a < n → explored x a = false → explored x' a = true →
  (unexplored n x' < unexplored n x)%nat.
Proof.
  intros Hk Hkeep Ha He He'. apply (filter_imp_lt _ _ _ a).
  - intros c Hc. destruct (explored x c) eqn:Hx; [| done]. by rewrite (explored_later x x' c mb) in Hc.
  - apply elem_of_seqZ. lia.
  - by rewrite He'.
  - by rewrite He.
Qed.
(** ** The loop *)

Definition ready f : Prop := (∃ mb, known (f_ctx f) mb) ∧ sizes_ok (f_proc f) ∧ low (f_obj f).

Lemma ready_holds f f' : ready f → holds f f' → ready f'.
Proof.
  intros ([mb Hk] & Hs & Hl) (Hkeep & Hp & Hl'). destruct (Hkeep mb Hk) as (mb' & Hk' & _).
  split; [by exists mb' | split; [by rewrite Hp | auto]].
Qed.

(** A run that keeps what [f] knows; [short] says what it is to run out of fuel. *)
Variable short : Prop.
Definition sound f (r : run (flow_t E)) : Prop :=
  match r with Ended f' => holds f f' | Undefined => True | NoFuel => short end.

Lemma sound_holds f g r : holds f g → sound g r → sound f r.
Proof. destruct r; cbn; [by intros; etrans | done..]. Qed.

Lemma sound_bind f g (m : run (flow_t E)) k :
  sound g m → holds f g → (∀ g', holds f g' → sound f (k g')) → sound f (m ≫= k).
Proof. destruct m; cbn; [| done..]. intros Hg Hfg Hk. apply Hk. by etrans. Qed.

Lemma sound_lift {A} f (m : option A) (k : A → run (flow_t E)) :
  (∀ a, m = Some a → sound f (k a)) → sound f (lift m ≫= k).
Proof. destruct m; cbn; auto. Qed.

Definition low_sect (s : section_t) : Prop := 0 ≤ sec_addr s + sec_size s ≤ 2 ^ 31.

Definition here (l : loop_t) : Z := u32 (lo_vaddr l + lo_curr l).

Lemma here_set_curr l n : here (set_curr (u32 (lo_curr l + n)) l) = u32 (here l + n).
Proof.
  unfold here, wrapu. cbn [set_curr lo_vaddr lo_curr].
  rewrite Zplus_mod_idemp_r, Zplus_mod_idemp_l. f_equal. lia.
Qed.

Lemma refill_here f l l' :
  low (f_obj f) → low_sect (lo_sect l) → refill f l = Some l' → here l' = here l ∧ low_sect (lo_sect l').
Proof.
  intros Hl Hs H. unfold refill in H. undo; [| done]. split.
  - unfold here. cbn. by rewrite Z.add_0_r, wrapu_wrapu.
  - cbn. match goal with H : parent_section _ _ = Some _ |- _ => destruct (low_section _ _ _ Hl H) as (? & ? & ?); unfold low_sect; cbn; lia end.
Qed.

Lemma read_instr_sound f l :
  ready f →
  match read_instr f l with
  | Ended (f', n, _) => holds f f' ∧ f_ctx f' = f_ctx f ∧ n < 2 ^ 31
  | Undefined => True
  | NoFuel => False
  end.
Proof.
  intros (_ & Hs & _). unfold read_instr.
  set (buf := drop _ _). pose proof (read_instr_stable buf (u32 (lo_curlen l - lo_curr l)) (f_proc f) (length buf)
    Hs ltac:(lia)) as H.
  destruct (asm_read_instr _ _ _ _) as [[n [i pr]] | |]; [| done..].
  destruct H as [Hp _]. cbn in Hp. subst pr. split_and!; [by split_and! | done |].
  apply (wraps_range 32). lia.
Qed.

Lemma grow_block_holds f p n x : grow_block (f_ctx f) p n = Some x → holds f (set_graph x (f_obj f) f).
Proof.
  intros H. unfold grow_block, set_size in H. undo. apply holds_graph; [| done | done].
  eapply set_block_keeps; [eassumption | | eassumption]. by split.
Qed.
Lemma analyse_loop_sound N rec m p d fuel : ∀ f l,
  (∀ g t k, ready g → 0 ≤ t < 2 ^ 32 → (unexplored N (f_ctx g) ≤ m)%nat → sound g (rec g t k)) →
  ready f → (unexplored N (f_ctx f) ≤ m)%nat → low_sect (lo_sect l) →
  short ∨ Z.max 0 (2 ^ 31 - here l) < Z.of_nat fuel →
  sound f (analyse_loop type_name bloc_prefix func_prefix long_bits fuel rec f p d l).
Proof.
  induction fuel as [| fuel IH]; intros f l Hrec Hf Hm Hs Hfuel; [destruct Hfuel; [done | lia] |].
  cbn [analyse_loop]. fold (here l).
  destruct (Z.ltb_spec (here l) (u32 (sec_addr (lo_sect l) + sec_size (lo_sect l)))) as [Hin | Hin];
    cbn [negb]; [| by cbn].
  assert (here l < 2 ^ 31) as Hlow by (rewrite wrapu_small in Hin; unfold low_sect in *; lia).
  assert (0 ≤ here l) as Hpos by (apply (wrapu_range 32); lia).
  apply sound_lift. intros l' Hl'.
  destruct (refill_here f l l' (proj2 (proj2 Hf)) Hs Hl') as [Hh Hs'].
  pose proof (read_instr_sound f l' Hf) as Hread.
  destruct (read_instr f l') as [[[f1 n] i] | |]; [| done..]. destruct Hread as (Hf1 & Hx1 & Hn).
  cbn [mbind run_bind]. destruct (Z.leb_spec n 0) as [Hn0 | Hn0]; [done |].
  fold (here l'). rewrite Hh.
  set (f2 := mjr_history_shift f1 i (here l)).
  assert (holds f f2) as Hf2 by (etrans; [exact Hf1 | apply holds_shift]).
  apply sound_lift. intros x Hx. apply grow_block_holds in Hx.
  set (f3 := set_graph x (f_obj f2) f2) in *.
  assert (holds f f3) as Hf3 by by etrans. clearbody f3. clear Hx.
  apply sound_lift. intros [[[f4 dl] t] fl] Ht.
  apply trace_control_holds in Ht as (Hf4 & Htr & Hfl); [| lia].
  assert (holds f f4) as Hf4' by by etrans.
  destruct (t =? MJR_BLOCK_EXIST).
  { apply sound_lift. intros y Hy. apply grow_block_holds in Hy. cbn. by etrans. }
  assert (∀ g, holds f g → ready g ∧ (unexplored N (f_ctx g) ≤ m)%nat) as Hnext.
  { intros g Hg. split; [by apply (ready_holds f) |]. destruct Hf as ([mb Hk] & _), Hg as [Hkeep _].
    pose proof (unexplored_later N _ _ mb Hk Hkeep). lia. }
  assert (∀ g a k, holds f g → 0 ≤ a < 2 ^ 32 → sound f (if negb (a =? MJR_BLOCK_INVALID) then rec g a k else Ended g))
    as Hcall.
  { intros g a k Hg Ha. case_match; [| done]. apply (sound_holds f g); [done |].
    destruct (Hnext g Hg). by apply Hrec. }
  apply (sound_bind f f); [by apply Hcall | done |]. intros f5 Hf5.
  apply (sound_bind f f); [by apply Hcall | done |]. intros f6 Hf6.
  case_match.
  { apply sound_lift. intros y Hy. apply grow_block_holds in Hy. cbn. by etrans. }
  apply (sound_holds f f6); [done |]. destruct (Hnext f6 Hf6).
  apply IH; [done | done | done | done |].
  destruct Hfuel as [| Hfuel]; [by left | right].
  rewrite here_set_curr, Hh, wrapu_small by lia. lia.
Qed.
(** ** The recursion ends *)

(** The block of [a] is marked: [a] is explored from then on. *)
Lemma mark_explored f a p b x :
  hash_get (blkhash (f_ctx f)) (vaddr2str a) = Some (Some p) → block_of (f_ctx f) p = Some b →
  set_block (f_ctx f) p (Block (vaddr b) (bsize b) (symoff b) 1) = Some x →
  keeps (f_ctx f) x ∧ explored x a = true.
Proof.
  intros Hh Hb Hx. split; [by apply (set_block_keeps _ _ _ _ _ Hb) in Hx |].
  destruct (set_block_block _ _ _ _ Hx) as (Hhash & _ & Hp & _).
  unfold explored. by rewrite Hhash, Hh, Hp.
Qed.

Definition limited (d : Z) : bool := (0 <? maxdepth) && (maxdepth <=? d).

(** The block of [a] is explored when the run ends. *)
Definition explores (a : Z) (r : run (flow_t E)) : Prop :=
  match r with Ended f' => explored (f_ctx f') a = true | _ => True end.

Lemma explores_sound f a r : ready f → explored (f_ctx f) a = true → sound f r → explores a r.
Proof. destruct r; [| done..]. intros ([mb Hk] & _) He [Hkeep _]. by apply (explored_later _ _ _ mb Hk Hkeep). Qed.

Lemma analyse_rec_sound N : N = 2 ^ 32 → ∀ m fuel f a d,
  ready f → 0 ≤ a < N → (unexplored N (f_ctx f) ≤ m)%nat →
  short ∨ 2 ^ 31 + 1 + Z.of_nat m < Z.of_nat fuel →
  let r := mjr_analyse_rec type_name bloc_prefix func_prefix long_bits maxdepth fuel f a d in
  sound f r ∧ (limited d = false → explores a r).
Proof.
  intros HN m. induction m as [m IH] using lt_wf_ind. intros fuel f a d Hf Ha Hm Hfuel.
  destruct fuel as [| fuel]; [destruct Hfuel; [by split | lia] |]. cbn [mjr_analyse_rec]. fold (limited d).
  destruct (limited d) eqn:Hlim.
  { split; [| done]. case_match; [| done]. cbn [elist_pop].
    destruct (Elist.head (func_stack (f_ctx f))); cbn; by apply holds_graph; [apply mild_keeps, mild_same | |]. }
  destruct (hash_get (blkhash (f_ctx f)) (vaddr2str a)) as [[p |] |] eqn:Hp; cbn [lift mbind run_bind];
    [| done..].
  destruct (block_of (f_ctx f) p) as [b |] eqn:Hb; cbn [lift mbind run_bind]; [| done].
  destruct (Z.eqb_spec (seen b) 1) as [Hseen | Hseen].
  { split; [done | intros _]. unfold explores, explored. by rewrite Hp, Hb, Hseen. }
  destruct (set_block _ _ _) as [x |] eqn:Hx; cbn [lift mbind run_bind]; [| done].
  destruct (mark_explored f a p b x Hp Hb Hx) as [Hkeep Hex].
  set (f1 := set_graph x (f_obj f) f) in *.
  assert (holds f f1) as H1 by by apply holds_graph.
  pose proof (ready_holds f f1 Hf H1) as Hf1.
  cut (∀ r, sound f1 r → sound f r ∧ (false = false → explores a r)).
  2: { intros r Hr. split; [by apply (sound_holds f f1) | intros _]. by apply (explores_sound f1). }
  intros Hcut. change (f_obj f) with (f_obj f1).
  destruct (parent_section (f_obj f1) a) as [sect |] eqn:Hs; [| by apply Hcut].
  destruct (elfsh_readmema (f_obj f1) a) as [ptr |]; cbn [lift mbind run_bind]; [| by apply Hcut].
  apply Hcut. destruct Hf1 as ([mb1 Hk1] & Hp1 & Hl1). destruct (low_section _ _ _ Hl1 Hs) as (? & ? & ?).
  assert (unexplored N (f_ctx f1) < unexplored N (f_ctx f))%nat as Hless.
  { destruct Hf as ([mb Hk] & _). apply (unexplored_step N _ _ a mb Hk Hkeep Ha); [| done].
    unfold explored. rewrite Hp, Hb. by apply Z.eqb_neq. }
  apply (analyse_loop_sound N _ (unexplored N (f_ctx f1))); [| by split; [exists mb1 | split] | done | |].
  - intros g t k Hg Ht Hle. apply (IH (unexplored N (f_ctx f1))); [lia | done | lia | done |].
    destruct Hfuel; [by left | right; lia].
  - unfold low_sect. cbn. lia.
  - destruct Hfuel; [by left | right].
    unfold here. cbn [lo_vaddr lo_curr]. rewrite Z.add_0_r, wrapu_small by lia. lia.
Qed.
Lemma analyse_rec_any fuel f a d :
  ready f → 0 ≤ a < 2 ^ 32 → short ∨ 2 ^ 33 ≤ Z.of_nat fuel →
  let r := mjr_analyse_rec type_name bloc_prefix func_prefix long_bits maxdepth fuel f a d in
  sound f r ∧ (limited d = false → explores a r).
Proof.
  intros Hf Ha Hfuel. remember (2 ^ 32) as N eqn:HN.
  assert (unexplored N (f_ctx f) ≤ Z.to_nat N)%nat as Hle.
  { unfold unexplored. rewrite filter_length_le, length_seqZ. done. }
  apply (analyse_rec_sound N HN (Z.to_nat N)); [done | done | done |].
  destruct Hfuel as [| Hfuel]; [by left | right]. rewrite Z2Nat.id by (subst; lia).
  change (2 ^ 33) with (2 * 2 ^ 32) in Hfuel. rewrite <-HN in Hfuel.
  assert (2 ^ 31 + 1 < N) by by subst. lia.
Qed.
End cfg.

Section analysis.
Variable type_name : Z → option string.
Variables bloc_prefix func_prefix : string.
Context {E : Type} `{!ElfLayer E, !CodeLayer E, !LowObject E}.
Variables long_bits maxdepth : Z.

(** C37. The analysis ends, whatever the code it reads: an address whose block
    has been seen is not analysed again, and the loop on the instructions of a
    block advances in a section that ends below 2^31.  The depth of the calls is
    bounded by the number of addresses, so 2^33 is enough fuel. *)
Theorem analyse_ends fuel f a d :
  ready f → 0 ≤ a < 2 ^ 32 → 2 ^ 33 ≤ Z.of_nat fuel →
  mjr_analyse_rec type_name bloc_prefix func_prefix long_bits maxdepth fuel f a d ≠ NoFuel.
Proof.
  intros Hf Ha Hfuel Hr.
  destruct (analyse_rec_any type_name bloc_prefix func_prefix long_bits maxdepth False fuel f a d Hf Ha
    ltac:(by right)) as [Hs _].
  by rewrite Hr in Hs.
Qed.

(** C38. When the analysis of an address ends, every block known before is still
    known under its address, has not moved, and is not forgotten to have been
    seen, whatever was cut meanwhile; and unless the limit of depth was reached
    the address begins a block that has been seen. *)
Theorem analyse_keeps fuel f a d f' mb :
  known (f_ctx f) mb → sizes_ok (f_proc f) → low (f_obj f) → 0 ≤ a < 2 ^ 32 →
  mjr_analyse_rec type_name bloc_prefix func_prefix long_bits maxdepth fuel f a d = Ended f' →
  (∃ mb', known (f_ctx f') mb' ∧ mb ⊆ mb') ∧
  (∀ p b, block_of (f_ctx f) p = Some b →
    ∃ b', block_of (f_ctx f') p = Some b' ∧ vaddr b' = vaddr b ∧ (seen b = 1 → seen b' = 1)) ∧
  ((0 <? maxdepth) && (maxdepth <=? d) = false → explored (f_ctx f') a = true).
Proof.
  intros Hk Hsz Hl Ha Hr.
  destruct (analyse_rec_any type_name bloc_prefix func_prefix long_bits maxdepth True fuel f a d
    (conj (ex_intro _ mb Hk) (conj Hsz Hl)) Ha ltac:(by left)) as [Hs Hex].
  rewrite Hr in Hs, Hex. destruct Hs as [Hkeep _]. destruct (Hkeep mb Hk) as (mb' & ? & ? & Hb).
  split_and!; [by exists mb' | exact Hb | exact Hex].
Qed.
End analysis.

(** ** The theorems at a concrete program *)

(** [je 1f; inc %eax; ret; 1: ret] at 4096. *)
Definition demo_code : list Z := [116; 2; 64; 195; 195].

#[local] Instance demo_elf : ElfLayer (list Z) := {
  elfsh_get_symbol_by_name _ _ := false;
  symtab_size e := Z.of_nat (length e);
  elfsh_insert_symbol e v _ _ _ := v :: e;
  elfsh_get_symbol_by_value e v := if bool_decide (v ∈ e) then Some v else None;
  set_st_size e _ _ := e;
  elfsh_get_parent_section _ _ := Some (".text"%string, true);
  elfsh_reverse_metasym _ _ := (""%string, 1);
}.
#[local] Instance demo_obj : CodeLayer (list Z) := {
  parent_section _ a := if (4096 <=? a) && (a <? 4101) then Some (Section_ 4096 5 (Some demo_code)) else None;
  elfsh_get_entrypoint _ := 4096;
  is_exec _ := true;
  elfsh_get_metasym_by_name _ _ := None;
}.
#[local, program] Instance demo_low : LowObject (list Z) := { low _ := True }.
Next Obligation. intros e a s _ H. cbn in H. case_match; simplify_eq. cbn. lia. Qed.
Solve All Obligations with done.

Definition demo_types (t : Z) : option string :=
  if t =? ASPECT_TYPE_BLOC then Some "bloc"%string
  else if t =? ASPECT_TYPE_FUNC then Some "func"%string else None.

(** An empty graph, and the same with a block at 4096. *)
Definition demo_empty : mjrcontext_t :=
  Ctx ∅ 1 (replicate 200 (Some None)) 200 1 (Lworld ∅ (hash_create "lists" 3 0) 14 18)
    (hash_create "links" 3 0) (hash_create "blocks" 3 0) (hash_create "funcs" 3 0) Leaf None
    (List [] 0 ASPECT_TYPE_FUNC 0 (Some "path"%string)) 0.
Definition demo_block : mjrcontext_t :=
  default demo_empty (fst <$> mjr_create_block_container demo_types demo_empty 0 4096 0 0).
Definition demo_table : hash_t Z :=
  default (blkhash demo_block) (fst <$> hash_add_to (blkhash demo_block) (vaddr2str 4096) (Some 1)).
Definition demo_flow : flow_t (list Z) :=
  Flow (set_blkhash demo_table demo_block) [4096] asm_init_ia32 (replicate 5 (Hist 0 instr0))
    (hash_create "gotos" 3 0) 0 0.

Lemma demo_known : ∃ mb, known (f_ctx demo_flow) mb.
Proof.
  assert (known demo_empty ∅) as Hk.
  { split; [apply hash_create_Repr; lia | done | by intros ? ?]. }
  destruct (new_block_keeps demo_types demo_empty 0 4096 0 0 demo_block 1 demo_table 1) with (mb := ∅ : gmap string Z)
    as (mb & ? & _); [done | by vm_compute | by vm_compute | by vm_compute | done |].
  by exists mb.
Qed.

Lemma demo_ready : ready demo_flow.
Proof. split; [exact demo_known | by split; [split; left |]]. Qed.

Lemma analyse_ends_witness :
  mjr_analyse_rec demo_types "bloc_" "func_" 32 0 (Z.to_nat (2 ^ 33)) demo_flow 4096 0 ≠ NoFuel.
Proof. apply (analyse_ends demo_types "bloc_" "func_" (E := list Z)); [exact demo_ready | done | by rewrite Z2Nat.id]. Defined.

Definition demo_seen (r : run (flow_t (list Z))) : bool :=
  match r with Ended f' => explored (f_ctx f') 4098 && explored (f_ctx f') 4100 | _ => false end.

(** With fuel for ten nested calls: the three blocks of the program are seen. *)
Lemma analyse_keeps_witness :
  ∃ f', mjr_analyse_rec demo_types "bloc_" "func_" 32 0 10 demo_flow 4096 0 = Ended f' ∧
    explored (f_ctx f') 4096 = true ∧ explored (f_ctx f') 4098 = true ∧ explored (f_ctx f') 4100 = true.
Proof.
  destruct demo_ready as ([mb Hk] & Hs & Hl).
  assert (0 ≤ 4096 < 2 ^ 32) as Ha by done.
  assert (demo_seen (mjr_analyse_rec demo_types "bloc_" "func_" 32 0 10 demo_flow 4096 0) = true) as Ht
    by (vm_compute; reflexivity).
  cut (∀ r, mjr_analyse_rec demo_types "bloc_" "func_" 32 0 10 demo_flow 4096 0 = r → demo_seen r = true →
    ∃ f', r = Ended f' ∧
    explored (f_ctx f') 4096 = true ∧ explored (f_ctx f') 4098 = true ∧ explored (f_ctx f') 4100 = true);
    [intros H; exact (H _ eq_refl Ht) | clear Ht].
  intros [f' | |] Hr Ht; [| discriminate Ht..]. apply andb_prop in Ht.
  exists f'. split; [reflexivity | split; [| exact Ht]].
  destruct (analyse_keeps demo_types "bloc_" "func_" 32 0 10 demo_flow 4096 0 f' mb Hk Hs Hl Ha Hr)
    as (_ & _ & He).
  exact (He eq_refl).
Defined.
