(* ===== verification/BranchSpec.v ===== *)
(** * Where control goes, from the bytes of an instruction to the edges of the
    graph: the disassembler (Ia32Fetch.v) and the driver (Cfg.v) together *)

From S2P Require Import Prelude LibasmVector Ia32 Ia32Operand Ia32Wp Ia32Intel Ia32EaSpec.
From S2P Require Import Ia32Arith Ia32Move Ia32Misc Ia32Fpu Ia32Ext Ia32Fetch Ia32LenSpec.
From S2P Require Import Container Blocks Cfg CfgSpec.

(** ** The direct transfers of the processor *)

(** Short jumps (but 0x71 jno, see [len_agrees]), and near jumps and calls, with
    32-bit operands. *)
Definition short_branch (op : Z) : bool :=
  (within op 112 127 && negb (op =? 113)) || within op 224 227 || (op =? 235).
Definition near_branch (op : Z) : bool :=
  among op [232; 233] || (within op (256 + 130) (256 + 143) && flow_agrees op).
Definition direct_branch (op : Z) : bool := short_branch op || near_branch op.

Lemma direct_range op : direct_branch op = true → 112 ≤ op < 400.
Proof.
  unfold direct_branch, short_branch, near_branch, within, among. cbn [existsb].
  repeat rewrite ?orb_true_iff, ?andb_true_iff. rewrite !Z.leb_le, !Z.eqb_eq. lia.
Qed.

#[local] Instance imm_eq_dec : EqDecision imm.
Proof. solve_decision. Defined.
#[local] Instance layout_eq_dec : EqDecision layout.
Proof. solve_decision. Defined.

(** What all direct transfers satisfy, checked on each. *)
Lemma direct_ind (P : Z → Prop) `{!∀ op, Decision (P op)} op :
  bool_decide (Forall (λ z, direct_branch z = true → P z) (seqZ 112 288)) = true →
  direct_branch op = true → P op.
Proof.
  intros Hall%bool_decide_eq_true Hd. rewrite Forall_forall in Hall. apply Hall; [| done].
  apply elem_of_seqZ. apply direct_range in Hd. lia.
Qed.

Lemma direct_layout op :
  direct_branch op = true → intel_layout op = Some (Plain (if short_branch op then Imm8 else ImmZ)).
Proof. apply (direct_ind (λ z, intel_layout z = Some (Plain (if short_branch z then Imm8 else ImmZ)))). by vm_compute. Qed.

Lemma direct_registered op : direct_branch op = true → op ∈ asm_register_ia32_opcodes.*1.
Proof. apply (direct_ind (λ z, z ∈ asm_register_ia32_opcodes.*1)). by vm_compute. Qed.

(** The displacement at [p], and that of the instruction at the beginning of
    [code]; the target of that instruction when it has [n] bytes and is at [a]. *)
Definition disp_at (op : Z) (buf : list Z) (p : Z) : Z :=
  if short_branch op then i8 (byte buf p) else i32 (le_bytes buf p 4).
Definition intel_target (a n : Z) (code : list Z) : Z :=
  u32 (a + n + disp_at (opcode_at code 0) code (opcode_bytes code 0)).

(** ** The operand of a branch *)

Definition branch_operand (disp : Z) (o : asm_operand) : Prop :=
  op_content o = ASM_OP_VALUE ||| ASM_OP_ADDRESS ∧ op_imm o = u32 disp.

Lemma short_imm b :
  0 ≤ b < 256 → imm_memcpy 1 b (if 128 <=? b then imm_memset 1 3 0 else 0) = u32 (i8 b).
Proof.
  intros Hb. change (imm_memset 1 3 0) with 4294967040. unfold imm_memcpy, wrapu, wraps.
  cbn -[Z.modulo Z.add Z.div]. destruct (Z.leb_spec 128 b); Z.div_mod_to_equations; lia.
Qed.

Lemma wp_fetch_branch op k i pr e p (Q : Z → dis → Prop) o :
  ins_op i !! k = Some o → opsize pr = 0 → mode pr = INTEL_PROT →
  covers e p (if short_branch op then 1 else 4) →
  (∀ q, 0 ≤ byte (e_buf e) q < 256) →
  (∀ o', branch_operand (disp_at op (e_buf e) p) o' →
    Q (if short_branch op then 1 else 4) (at_op k i pr o')) →
  wp (asm_operand_fetch k p (if short_branch op then ASM_OTYPE_SHORTJUMP else ASM_OTYPE_JUMP)) e Q (Dis i pr).
Proof.
  unfold disp_at. intros Ho Hs Hm [Hc1 Hc2] Hb HQ. rewrite (at_op_id k i pr o) by done.
  assert (k < length (ins_op i))%nat as Hk by by eapply lookup_lt_Some.
  pose proof (Hb p) as Hbp. pose proof (le_bytes_range (e_buf e) p 4 Hb) as Hv.
  unfold asm_operand_fetch. destruct (short_branch op);
    rewrite operand_vector_spec; op_handlers; op_unfold; rewrite ?Hs; repeat op_step; try lia;
    rewrite ?Hs; apply HQ; (split; [reflexivity |]); cbn [op_imm set_op_imm set_op_sbaser set_op_len].
  - rewrite <-short_imm, H by done. transitivity (imm_memcpy 1 (le_bytes (e_buf e) p 1) (imm_memset 1 3 0));
      [reflexivity |]. cbn [le_bytes]. by rewrite Z.add_0_r.
  - rewrite <-short_imm, H by done. transitivity (imm_memcpy 1 (le_bytes (e_buf e) p 1) 0); [reflexivity |].
    cbn [le_bytes]. by rewrite Z.add_0_r.
  - rewrite wrapu_wraps, wrapu_small by done. transitivity (imm_memcpy 4 (le_bytes (e_buf e) p 4) 0); [reflexivity |].
    by apply imm_memcpy_4.
  - rewrite wrapu_wraps, wrapu_small by done. transitivity (imm_memcpy 4 (le_bytes (e_buf e) p 4) 0); [reflexivity |].
    by apply imm_memcpy_4.
Qed.

(** ** The handlers *)

Definition branches (h : handler) (op : Z) : Prop :=
  ∀ e p len i pr,
    mode pr = INTEL_PROT → opsize pr = 0 → fresh i → 0 ≤ p →
    p + 1 + (if short_branch op then 1 else 4) ≤ Z.of_nat (length (e_buf e)) →
    (∀ q, 0 ≤ byte (e_buf e) q < 256) →
    wp (h p len) e
      (λ _ s, ∃ o, ins_op (d_ins s) !! 0%nat = Some o ∧ branch_operand (disp_at op (e_buf e) (p + 1)) o)
      (Dis i pr).

Ltac branch_step op :=
  lazymatch goal with
  | |- wp (asm_operand_fetch ?k ?p ?t) _ _ _ =>
      eapply (wp_fetch_branch op);
      [reflexivity | assumption | assumption | split; [lia | cbn; lia] | assumption
      | intros ?o' ?Ho'; h_norm]
  | |- _ => h_step
  end.

Ltac branch_decode :=
  lazymatch goal with |- branches ?h ?op =>
    intros e p len i pr Hm Hs (Hop & Hty & Hln) Hp Hc Hb;
    destruct i; cbn [ins_op ins_type ins_len] in Hop, Hty, Hln; subst;
    let b := eval vm_compute in (short_branch op) in change (short_branch op) with b in *; cbv iota in Hc;
    unfold h; h_unfold; repeat branch_step op;
    eexists; split; [reflexivity | eassumption]
  end.

Lemma opcodes_branch :
  Forall (λ r, direct_branch r.1 = true → branches r.2 r.1) asm_register_ia32_opcodes.
Proof.
  unfold asm_register_ia32_opcodes.
  repeat (apply Forall_cons; cbn [fst snd]; split;
    [intros H; vm_compute in H; first [discriminate H | clear H] |]); [.. | by apply Forall_nil].
  all: branch_decode.
Qed.

Lemma vector_branches op : direct_branch op = true → branches (opcode_vector op) op.
Proof.
  intros Hd. pose proof (direct_registered op Hd) as Hin.
  apply list_elem_of_fmap in Hin as ([op' h] & -> & Hin). cbn [fst] in *.
  unfold opcode_vector. rewrite (registered_in _ _ _ h opcodes_nodup Hin).
  pose proof opcodes_branch as Hall. rewrite Forall_forall in Hall. by apply (Hall _ Hin).
Qed.

(** ** The instruction *)

(** What the element of the vector makes of an instruction after its prefixes is
    what [fetch_i386] makes of it; the handler starts at the last byte of the
    opcode. *)
Lemma wp_fetch_opcode fuel buf p len i pr (R : dis → Prop) :
  fresh i → ins_len i < 1073741823 → bytes_ok buf → 0 ≤ p →
  p + opcode_bytes buf p ≤ Z.of_nat (length buf) → opcode_bytes buf p ≤ len →
  (∀ v i' len', fresh i' →
    wp (opcode_vector (opcode_at buf p) (p + opcode_bytes buf p - 1) len')
      (Env buf v) (λ _ s, R s) (Dis i' pr)) →
  (∀ j pr' nm, R (Dis j pr') → R (Dis (set_ins_name nm j) pr')) →
  wp (proc_fetch p len) (Env buf (call_vector (S (S fuel)) buf)) (λ _ s, R s) (Dis i pr).
Proof.
  intros Hf Hi Hb Hp Hc Hl Hgo HR. unfold opcode_at, opcode_bytes in *.
  pose proof (byte_range buf p Hb) as Hb0. pose proof (byte_range buf (p + 1) Hb) as Hb1.
  destruct (Z.eqb_spec (byte buf p) 15) as [E | E].
  - apply wp_fetch_i386; [lia | by intros; apply HR |].
    rewrite E. apply wp_vector. change (opcode_vector 15) with op_386sp. unfold op_386sp.
    apply wp_if; [intros; lia | intros _]. apply wp_bind, wp_read; [cbn; lia |]. cbv zeta. cbn [e_buf].
    rewrite (Z.add_comm (byte buf (p + 1)) 256). replace (p + 2 - 1) with (p + 1) in * by lia.
    destruct Hf as (Hop & Hty & Hln).
    apply wp_bind, wp_bind, wp_get_ins, wp_if; intros _;
      [apply wp_ins_upd | apply wp_ret]; (apply wp_bind, wp_add_len; [cbn [ins_len set_ins_ptr_instr]; lia |]);
      apply wp_vector, Hgo; split_and!; cbn; try done; lia.
  - apply wp_fetch_i386; [lia | by intros; apply HR |].
    apply wp_vector. replace (p + 1 - 1) with p in * by lia. by apply Hgo.
Qed.

(** The instruction at the beginning of [code], of [n] bytes: length, flow of
    control, and the operand of a direct transfer. *)
Definition read_as (code : list Z) (n : Z) (i : asm_instr) : Prop :=
  let op := opcode_at code 0 in
  ins_len i = n ∧
  ins_type i &&& flow_mask = flow_type (intel_flow op (next_byte code 0)) ∧
  (direct_branch op = true →
   ∃ o, ins_op i !! 0%nat = Some o ∧ branch_operand (disp_at op code (opcode_bytes code 0)) o).

Lemma branch_len code pr n :
  opsize pr = 0 → direct_branch (opcode_at code 0) = true → intel_len pr code 0 = Some n →
  n = opcode_bytes code 0 + (if short_branch (opcode_at code 0) then 1 else 4).
Proof.
  intros Hs Hd Hn. unfold intel_len in Hn. rewrite (direct_layout _ Hd) in Hn. injection Hn as <-.
  case_match; cbn; [done |]. unfold vector_len. by rewrite Hs.
Qed.

Section read.
Context (code : list Z) (pr : s_asm_proc_i386) (len n : Z) (fuel : nat).
Context (Hm : mode pr = INTEL_PROT) (Hs : opsize pr = 0) (Hbytes : bytes_ok code).
Context (Hn : intel_len pr code 0 = Some n) (Hcode : n ≤ Z.of_nat (length code)).
Context (Hlen : n ≤ len < 1073741823).
Context (Hagree : len_agrees (opcode_at code 0) pr (next_byte code 0) = true).
Context (Hflow : flow_agrees (opcode_at code 0) = true).

Lemma read_branch :
  ∃ i, asm_read_instr (S (S fuel)) code len pr = Done (n, Dis i pr) ∧ read_as code n i.
Proof using All.
  destruct (read_decoded [] code pr len n fuel) as (i & Hrun & Hl & Hf);
    [split; [done | by left] | done | by apply Forall_nil_2 | cbn; lia | done | done | cbn; lia | done |].
  rewrite Z.add_0_l in *. change ([] ++ code) with code in *. change (length [] + S (S fuel))%nat with (S (S fuel)) in *.
  exists i. split; [exact Hrun |]. split_and!; [exact Hl | by apply Hf |]. intros Hd. clear Hl Hf.
  pose proof (branch_len _ _ _ Hs Hd Hn) as Hlen2.
  assert (opcode_bytes code 0 ≤ n) by (case_match; lia).
  pose (R s := ∃ o, ins_op (d_ins s) !! 0%nat = Some o ∧
    branch_operand (disp_at (opcode_at code 0) code (opcode_bytes code 0)) o).
  assert (∀ v i' len', fresh i' →
    wp (opcode_vector (opcode_at code 0) (0 + opcode_bytes code 0 - 1) len') (Env code v) (λ _ s, R s) (Dis i' pr))
    as Hv.
  { intros v i' len' Hf. pose proof (opcode_bytes_range code 0).
    pose proof (vector_branches _ Hd (Env code v) (opcode_bytes code 0 - 1) len' i' pr Hm Hs Hf) as H2.
    cbn [e_buf] in H2. replace (opcode_bytes code 0 - 1 + 1) with (opcode_bytes code 0) in H2 by lia.
    rewrite Z.add_0_l. apply H2; [lia.. | intros q; by apply byte_range]. }
  assert (fresh instr0) as Hfresh by by split_and!.
  pose proof (wp_fetch_opcode fuel code 0 len instr0 pr R Hfresh ltac:(done) Hbytes ltac:(lia) ltac:(lia)
    ltac:(lia) Hv (λ _ _ _ H, H)) as Hwp.
  destruct (wp_elim _ _ _ _ Hwp) as (r & [j pr'] & Hrun' & HR).
  revert Hrun. unfold asm_read_instr, fetch. fold proc_fetch. change fetch_i386 with proc_fetch.
  rewrite Hrun'. intros [= _ <- _]. exact HR.
Qed.
End read.

(** ** Successors *)

(** Where control may go after an instruction of [n] bytes at [a]: the target and
    the instruction after it, as the driver reports them; [mapped] tells that
    the instruction after a call is in a section. *)
Definition successors (fl : flow) (a n target : Z) (mapped : bool) : Z * Z :=
  match fl with
  | CondJump => (target, u32 (a + n))
  | Jump => (target, MJR_BLOCK_INVALID)
  | Call => (target, if mapped then u32 (a + n) else MJR_BLOCK_INVALID)
  | _ => (MJR_BLOCK_INVALID, MJR_BLOCK_INVALID)
  end.

Definition transfers (fl : flow) : bool := match fl with Jump | CondJump | Call => true | _ => false end.

Lemma intel_flow_byte op b : op ≠ 255 → intel_flow op b = intel_flow op 0.
Proof. intros Hop. unfold intel_flow. by rewrite (proj2 (Z.eqb_neq op 255)). Qed.

Lemma transfer_direct op pr b :
  0 ≤ op < 512 → op ≠ 255 → len_agrees op pr b = true → flow_agrees op = true →
  transfers (intel_flow op b) = true → direct_branch op = true.
Proof.
  intros Hop Hne Hl Hf Ht. rewrite intel_flow_byte in Ht by done.
  assert (forallb (λ z, implb (transfers (intel_flow z 0) && flow_agrees z && negb (among z [113; 154; 234; 255]))
                          (direct_branch z)) (seqZ 0 512) = true) as Hall by by vm_compute.
  rewrite forallb_forall in Hall. specialize (Hall op ltac:(apply list_elem_of_In, elem_of_seqZ; lia)).
  rewrite Ht, Hf in Hall. destruct (among op [113; 154; 234; 255]) eqn:E; [| done]. exfalso.
  unfold among in E. cbn [existsb] in E. rewrite !orb_true_iff, !Z.eqb_eq in E.
  destruct E as [-> | [-> | [-> | [-> | [=]]]]]; by vm_compute in Hl.
Qed.

(** The bits of [type] the driver tests. *)
Lemma flow_bit t fl m :
  t &&& flow_mask = flow_type fl → m &&& flow_mask = m → has_bit t m = has_bit (flow_type fl) m.
Proof.
  intros Ht Hm. unfold has_bit. rewrite <-Ht. do 2 f_equal.
  by rewrite <-Z.land_assoc, (Z.land_comm flow_mask), Hm.
Qed.

Section successors.
Variable type_name : Z → option string.
Variables bloc_prefix func_prefix : string.
Context {E : Type} `{!ElfLayer E, !CodeLayer E}.
Variable long_bits : Z.
Implicit Types (f : flow_t E).

Lemma direct_destination f a n code i :
  mode (f_proc f) = INTEL_PROT → current f = Some (Hist a i) → 0 ≤ n < 2 ^ 31 → read_as code n i →
  direct_branch (opcode_at code 0) = true →
  mjr_get_jmp_destaddr long_bits f = Some (intel_target a n code).
Proof.
  intros Hm Hc Hn (Hl & _ & Hop) Hd. destruct (Hop Hd) as (o & Ho & Hcont & Himm).
  unfold mjr_get_jmp_destaddr. rewrite Hc. cbn [mbind option_bind h_instr h_vaddr].
  rewrite (nth_lookup_Some _ _ _ _ Ho), Hcont. change (has_bit _ ASM_OP_VALUE && _) with true. cbv iota.
  assert (asm_operand_get_immediate i 1 = Some (u32 (disp_at (opcode_at code 0) code (opcode_bytes code 0)))) as ->.
  { unfold asm_operand_get_immediate. by rewrite (nth_lookup_Some _ _ _ _ Ho), Himm. }
  cbn [mbind option_bind]. unfold asm_instr_len, asm_dest_resolve. rewrite Hl, Hm, i32_small by lia.
  change (INTEL_PROT =? INTEL_REAL) with false. cbv iota. unfold intel_target, wrapu. f_equal.
  rewrite Zplus_mod_idemp_l, Zplus_mod_idemp_r. f_equal. lia.
Qed.

(** The block looked up at [a] is none but [p]. *)
Definition alone f (p a : Z) : Prop :=
  mjr_block_get_by_vaddr (f_ctx f) a MJR_BLOCK_GET_STRICT = Some None ∨
  mjr_block_get_by_vaddr (f_ctx f) a MJR_BLOCK_GET_STRICT = Some (Some p).

Lemma current_write f i a : length (f_hist f) = MJR_HISTORY_LEN →
  let g := mjr_history_write (mjr_history_write f i a MJR_HISTORY_CUR) i a 0 in
  current g = Some (Hist a i) ∧ f_ctx g = f_ctx f ∧ f_obj g = f_obj f ∧ f_proc g = f_proc f.
Proof.
  intros Hl. cbn. split; [| done]. unfold current. cbn [f_hist set_hist].
  rewrite list_lookup_insert_ne by done. apply list_lookup_insert_eq. unfold MJR_HISTORY_LEN, MJR_HISTORY_CUR in *. lia.
Qed.

Ltac flow_bits :=
  repeat match goal with
  | H : context [has_bit (flow_type ?x) ?m] |- _ =>
      let b := eval vm_compute in (has_bit (flow_type x) m) in change (has_bit (flow_type x) m) with b in H
  end.

Lemma trace_successors f p i a n code f' d t fl :
  mode (f_proc f) = INTEL_PROT → length (f_hist f) = MJR_HISTORY_LEN → 0 ≤ n < 2 ^ 31 → read_as code n i →
  (transfers (intel_flow (opcode_at code 0) (next_byte code 0)) = true → direct_branch (opcode_at code 0) = true) →
  alone f p a →
  mjr_trace_control type_name bloc_prefix func_prefix long_bits f p i a MJR_BLOCK_INVALID MJR_BLOCK_INVALID =
    Some (f', d, t, fl) →
  d = 0 ∧ (t, fl) = successors (intel_flow (opcode_at code 0) (next_byte code 0)) a n (intel_target a n code)
                      (bool_decide (is_Some (elfsh_get_parent_section (f_obj f) (u32 (a + n))))).
Proof.
  intros Hm Hh Hn Hread Hd Ha H. unfold mjr_trace_control in H. cbv zeta in H.
  destruct (current_write f i a Hh) as (Hc & Hx & Ho & Hp).
  set (g := mjr_history_write (mjr_history_write f i a MJR_HISTORY_CUR) i a 0) in *. clearbody g.
  pose proof Hread as (Hl & Ht & _).
  assert (asm_instr_len i = n) as Hn' by (unfold asm_instr_len; rewrite Hl; apply i32_small; lia).
  rewrite Hn', Hx, Ho, !Z.add_0_r in H.
  change (mjr_get_call_destaddr long_bits g) with (mjr_get_jmp_destaddr long_bits g) in H.
  assert (∀ fl', intel_flow (opcode_at code 0) (next_byte code 0) = fl' → transfers fl' = true →
    mjr_get_jmp_destaddr long_bits g = Some (intel_target a n code)) as Hj.
  { intros fl' Hfl Htr. apply (direct_destination g a n code i); [by rewrite Hp | done.. | apply Hd; by rewrite Hfl]. }
  rewrite !(flow_bit _ _ ASM_TYPE_BRANCH Ht eq_refl), !(flow_bit _ _ ASM_TYPE_CONDCONTROL Ht eq_refl),
    (flow_bit _ _ ASM_TYPE_CALLPROC Ht eq_refl), (flow_bit _ _ ASM_TYPE_RETPROC Ht eq_refl) in H.
  clear Ht Hread Hd. destruct Ha as [Ha | Ha]; rewrite Ha in H; cbn [mbind option_bind] in H;
    [| destruct (conts (f_ctx f) !! p); [| discriminate H]; cbn [mbind option_bind] in H;
       rewrite Z.eqb_refl in H].
  all: destruct (intel_flow _ _); flow_bits; cbn [andb negb] in H;
    try rewrite (Hj _ eq_refl eq_refl) in H; cbn [mbind option_bind] in H; clear Hj.
  all: undo; (split; [reflexivity |]); cbn [successors f_obj set_calls set_graph]; rewrite ?Ho.
  all: try reflexivity; f_equal.
  all: match goal with |- context [elfsh_get_parent_section ?e ?v] => by destruct (elfsh_get_parent_section e v) end.
Qed.

(** C39. On the bytes of any instruction of the opcode maps, but the exceptions of
    [len_agrees], the near jumps without a type and the indirect group 5, with
    32-bit operands and no prefix: what the disassembler reads leads the driver
    to the successors the processor has.  The target of a direct jump or call is
    the address after the instruction plus the sign-extended displacement, modulo
    2^32; a conditional jump and a call also continue after the instruction; the
    other instructions have no successor to analyse apart from what follows. *)
Theorem successors_intel (code : list Z) (pr : s_asm_proc_i386) (len n : Z) (fuel : nat) :
  mode pr = INTEL_PROT → opsize pr = 0 → bytes_ok code →
  intel_len pr code 0 = Some n → n ≤ Z.of_nat (length code) → n ≤ len < 1073741823 →
  len_agrees (opcode_at code 0) pr (next_byte code 0) = true → flow_agrees (opcode_at code 0) = true →
  opcode_at code 0 ≠ 255 →
  ∃ i, asm_read_instr (S (S fuel)) code len pr = Done (n, Dis i pr) ∧
    (∀ f a, f_proc f = pr → current f = Some (Hist a i) → direct_branch (opcode_at code 0) = true →
       mjr_get_jmp_destaddr long_bits f = Some (intel_target a n code) ∧
       mjr_get_call_destaddr long_bits f = Some (intel_target a n code)) ∧
    (∀ f p a f' d t fl, f_proc f = pr → length (f_hist f) = MJR_HISTORY_LEN → alone f p a →
       mjr_trace_control type_name bloc_prefix func_prefix long_bits f p i a MJR_BLOCK_INVALID MJR_BLOCK_INVALID =
         Some (f', d, t, fl) →
       d = 0 ∧ (t, fl) = successors (intel_flow (opcode_at code 0) (next_byte code 0)) a n (intel_target a n code)
                           (bool_decide (is_Some (elfsh_get_parent_section (f_obj f) (u32 (a + n)))))).
Proof.
  intros Hm Hs Hb Hn Hcode Hlen Hl Hf Hop.
  destruct (read_branch code pr len n fuel Hm Hs Hb Hn Hcode Hlen Hl Hf) as (i & Hrun & Hread).
  assert (0 ≤ n < 2 ^ 31) as Hr.
  { unfold intel_len in Hn. case_match; [| done]. pose proof (opcode_bytes_range code 0).
    pose proof (body_len_nonneg pr l code (0 + opcode_bytes code 0)). injection Hn as <-. lia. }
  assert (0 ≤ opcode_at code 0 < 512) as Ho.
  { unfold opcode_at. pose proof (byte_range code 0 Hb). pose proof (byte_range code (0 + 1) Hb). case_match; lia. }
  exists i. split_and!; [exact Hrun | |].
  - intros f a <- Hc Hd. pose proof (direct_destination f a n code i Hm Hc Hr Hread Hd) as H. by split.
  - intros f p a f' d t fl <- Hh Ha H. eapply (trace_successors f p i); eauto using transfer_direct.
Qed.
End successors.

#[local] Existing Instances demo_elf demo_obj.

(** [je 1f; inc %eax; ret; 1: ret] at 4096: 4100 and 4098. *)
Lemma successors_intel_witness :
  ∃ i, asm_read_instr 2 demo_code 5 asm_init_ia32 = Done (2, Dis i asm_init_ia32) ∧
    match mjr_trace_control demo_types "bloc_" "func_" 32 demo_flow 1 i 4096 MJR_BLOCK_INVALID MJR_BLOCK_INVALID with
    | Some (_, d, t, fl) => d = 0 ∧ (t, fl) = (4100, 4098)
    | None => False
    end.
Proof.
  destruct (successors_intel demo_types "bloc_" "func_" (E := list Z) 32 demo_code asm_init_ia32 5 2 0)
    as (i & Hrun & _ & Hs);
    [done | done | repeat apply Forall_cons_2; [lia.. | apply Forall_nil_2] | by vm_compute | done | done |
     by vm_compute | by vm_compute | by vm_compute |].
  exists i. split; [exact Hrun |]. specialize (Hs demo_flow 1 4096).
  assert (match asm_read_instr 2 demo_code 5 asm_init_ia32 with
          | Done (_, Dis j _) => bool_decide (is_Some (mjr_trace_control demo_types "bloc_" "func_" 32 demo_flow 1 j 4096
              MJR_BLOCK_INVALID MJR_BLOCK_INVALID))
          | _ => false
          end = true) as Hd by (vm_compute; reflexivity).
  rewrite Hrun in Hd. apply bool_decide_eq_true in Hd as [[[[f' d] t] fl] Ht].
  rewrite Ht. destruct (Hs f' d t fl eq_refl eq_refl) as [-> Hr];
    [right; vm_compute; reflexivity | exact Ht | split; [reflexivity | exact Hr]].
Defined.

(** ** The search for main may not end

    [xor %eax,%eax] and row 1 of 0xf7, to which the disassembler gives the length
    0: the search stays on it for ever. *)
Definition stuck_code : list Z := [49; 192; 247; 200; 0; 0; 0; 0].

Lemma find_main_diverges {E} `{!CodeLayer E} (f : flow_t E) fuel :
  f_proc f = asm_init_ia32 → mjr_find_main fuel f stuck_code 8 4096 = NoFuel.
Proof.
  intros Hf. unfold mjr_find_main.
  assert (∀ fuel g, f_proc g = asm_init_ia32 →
    find_loop fuel g stuck_code 8 4096 (Find 2 2 false (Some MJR_BIN_LINUX) None None) = NoFuel) as Hloop.
  { clear. intros fuel. induction fuel as [| fuel IH]; intros g Hg; [done |]. cbn [find_loop].
    rewrite Hg. change (drop _ stuck_code) with [247; 200; 0; 0; 0; 0].
    destruct (asm_read_instr _ _ _ _) as [[n [i pr]] | |] eqn:Hr; vm_compute in Hr; [| done..].
    injection Hr as <- <- <-. apply IH. reflexivity. }
  destruct fuel as [| fuel]; [done |]. cbn [find_loop]. rewrite Hf.
  destruct (asm_read_instr _ _ _ _) as [[n [i pr]] | |] eqn:Hr; vm_compute in Hr; [| done..].
  injection Hr as <- <- <-. apply (Hloop fuel). reflexivity.
Qed.
