(* ===== verification/Mips.v ===== *)
(** * The MIPS disassembler: data (src/libasm/include/libasm-mips.h,
    libasm-mips-structs.h, src/libasm/src/arch/mips/mips_convert.c, operand_handlers/)

    The host is little-endian and the configuration says so
    ([CONFIG_ASM_LITTLE_ENDIAN], the default): the four bytes of an instruction
    are read as a big-endian word, which the handlers get as [buf].  The fields
    of [asm_instr] the MIPS code does not use are left out, and so is [name]
    (see the findings). *)
From S2P Require Import Prelude.
From S2P Require Import LibasmVector.
From S2P Require Import Ia32.
Close Scope ia32_scope.

(** ** Enumerations *)

Definition ASM_MIPS_REG_FPU : Z := 1.

(** enum [opcode_field_encoding] *)
Definition MIPS_OPCODE_SPECIAL : Z := 0.
Definition MIPS_OPCODE_REGIMM : Z := 1.
Definition MIPS_OPCODE_J : Z := 2.
Definition MIPS_OPCODE_JAL : Z := 3.
Definition MIPS_OPCODE_BEQ : Z := 4.
Definition MIPS_OPCODE_BNE : Z := 5.
Definition MIPS_OPCODE_BLEZ : Z := 6.
Definition MIPS_OPCODE_BGTZ : Z := 7.
Definition MIPS_OPCODE_ADDI : Z := 8.
Definition MIPS_OPCODE_ADDIU : Z := 9.
Definition MIPS_OPCODE_SLTI : Z := 10.
Definition MIPS_OPCODE_SLTIU : Z := 11.
Definition MIPS_OPCODE_ANDI : Z := 12.
Definition MIPS_OPCODE_ORI : Z := 13.
Definition MIPS_OPCODE_XORI : Z := 14.
Definition MIPS_OPCODE_LUI : Z := 15.
Definition MIPS_OPCODE_COP0 : Z := 16.
Definition MIPS_OPCODE_COP1 : Z := 17.
Definition MIPS_OPCODE_COP2 : Z := 18.
Definition MIPS_OPCODE_COP1X : Z := 19.
Definition MIPS_OPCODE_BEQL : Z := 20.
Definition MIPS_OPCODE_BNEL : Z := 21.
Definition MIPS_OPCODE_BLEZL : Z := 22.
Definition MIPS_OPCODE_BGTZL : Z := 23.
Definition MIPS_OPCODE_SPECIAL2 : Z := 28.
Definition MIPS_OPCODE_JALX : Z := 29.
Definition MIPS_OPCODE_SPECIAL3 : Z := 31.
Definition MIPS_OPCODE_LB : Z := 32.
Definition MIPS_OPCODE_LH : Z := 33.
Definition MIPS_OPCODE_LWL : Z := 34.
Definition MIPS_OPCODE_LW : Z := 35.
Definition MIPS_OPCODE_LBU : Z := 36.
Definition MIPS_OPCODE_LHU : Z := 37.
Definition MIPS_OPCODE_LWR : Z := 38.
Definition MIPS_OPCODE_SB : Z := 40.
Definition MIPS_OPCODE_SH : Z := 41.
Definition MIPS_OPCODE_SWL : Z := 42.
Definition MIPS_OPCODE_SW : Z := 43.
Definition MIPS_OPCODE_SWR : Z := 46.
Definition MIPS_OPCODE_CACHE : Z := 47.
Definition MIPS_OPCODE_LL : Z := 48.
Definition MIPS_OPCODE_LWC1 : Z := 49.
Definition MIPS_OPCODE_LWC2 : Z := 50.
Definition MIPS_OPCODE_PREF : Z := 51.
Definition MIPS_OPCODE_LDC1 : Z := 53.
Definition MIPS_OPCODE_LDC2 : Z := 54.
Definition MIPS_OPCODE_SC : Z := 56.
Definition MIPS_OPCODE_SWC1 : Z := 57.
Definition MIPS_OPCODE_SWC2 : Z := 58.
Definition MIPS_OPCODE_SDC1 : Z := 61.
Definition MIPS_OPCODE_SDC2 : Z := 62.
Definition MIPS_OPCODE_DADDI : Z := 24.
Definition MIPS_OPCODE_DADDIU : Z := 25.
Definition MIPS_OPCODE_LDL : Z := 26.
Definition MIPS_OPCODE_LDR : Z := 27.
Definition MIPS_OPCODE_LLD : Z := 52.
Definition MIPS_OPCODE_LD : Z := 55.
Definition MIPS_OPCODE_LWU : Z := 39.
Definition MIPS_OPCODE_SCD : Z := 60.
Definition MIPS_OPCODE_SD : Z := 63.
Definition MIPS_OPCODE_SDL : Z := 44.
Definition MIPS_OPCODE_SDR : Z := 45.

(** enum [SPECIAL_function_field_encoding] *)
Definition MIPS_OPCODE_SLL : Z := 0.
Definition MIPS_OPCODE_MOVCI : Z := 1.
Definition MIPS_OPCODE_SRL : Z := 2.
Definition MIPS_OPCODE_SRA : Z := 3.
Definition MIPS_OPCODE_SLLV : Z := 4.
Definition MIPS_OPCODE_SRLV : Z := 6.
Definition MIPS_OPCODE_SRAV : Z := 7.
Definition MIPS_OPCODE_JR : Z := 8.
Definition MIPS_OPCODE_JALR : Z := 9.
Definition MIPS_OPCODE_MOVZ : Z := 10.
Definition MIPS_OPCODE_MOVN : Z := 11.
Definition MIPS_OPCODE_SYSCALL : Z := 12.
Definition MIPS_OPCODE_BREAK : Z := 13.
Definition MIPS_OPCODE_SYNC : Z := 15.
Definition MIPS_OPCODE_MFHI : Z := 16.
Definition MIPS_OPCODE_MTHI : Z := 17.
Definition MIPS_OPCODE_MFLO : Z := 18.
Definition MIPS_OPCODE_MTLO : Z := 19.
Definition MIPS_OPCODE_MULT : Z := 24.
Definition MIPS_OPCODE_MULTU : Z := 25.
Definition MIPS_OPCODE_DIV : Z := 26.
Definition MIPS_OPCODE_DIVU : Z := 27.
Definition MIPS_OPCODE_ADD : Z := 32.
Definition MIPS_OPCODE_ADDU : Z := 33.
Definition MIPS_OPCODE_SUB : Z := 34.
Definition MIPS_OPCODE_SUBU : Z := 35.
Definition MIPS_OPCODE_AND : Z := 36.
Definition MIPS_OPCODE_OR : Z := 37.
Definition MIPS_OPCODE_XOR : Z := 38.
Definition MIPS_OPCODE_NOR : Z := 39.
Definition MIPS_OPCODE_SLT : Z := 42.
Definition MIPS_OPCODE_SLTU : Z := 43.
Definition MIPS_OPCODE_TGE : Z := 48.
Definition MIPS_OPCODE_TGEU : Z := 49.
Definition MIPS_OPCODE_TLT : Z := 50.
Definition MIPS_OPCODE_TLTU : Z := 51.
Definition MIPS_OPCODE_TEQ : Z := 52.
Definition MIPS_OPCODE_TNE : Z := 54.
Definition MIPS_OPCODE_DADD : Z := 44.
Definition MIPS_OPCODE_DADDU : Z := 45.
Definition MIPS_OPCODE_DSUB : Z := 46.
Definition MIPS_OPCODE_DSUBU : Z := 47.
Definition MIPS_OPCODE_DMULT : Z := 28.
Definition MIPS_OPCODE_DMULTU : Z := 29.
Definition MIPS_OPCODE_DDIV : Z := 30.
Definition MIPS_OPCODE_DDIVU : Z := 31.
Definition MIPS_OPCODE_DSLL : Z := 56.
Definition MIPS_OPCODE_DSLL32 : Z := 60.
Definition MIPS_OPCODE_DSLLV : Z := 20.
Definition MIPS_OPCODE_DSRL : Z := 58.
Definition MIPS_OPCODE_DSRA : Z := 59.
Definition MIPS_OPCODE_DSRL32 : Z := 62.
Definition MIPS_OPCODE_DSRA32 : Z := 63.
Definition MIPS_OPCODE_DSRLV : Z := 22.
Definition MIPS_OPCODE_DSRAV : Z := 23.

(** enum [REGIMM_rt_field_encoding] *)
Definition MIPS_OPCODE_BLTZ : Z := 0.
Definition MIPS_OPCODE_BGEZ : Z := 1.
Definition MIPS_OPCODE_BLTZL : Z := 2.
Definition MIPS_OPCODE_BGEZL : Z := 3.
Definition MIPS_OPCODE_TGEI : Z := 8.
Definition MIPS_OPCODE_TGEIU : Z := 9.
Definition MIPS_OPCODE_TLTI : Z := 10.
Definition MIPS_OPCODE_TLTIU : Z := 11.
Definition MIPS_OPCODE_TEQI : Z := 12.
Definition MIPS_OPCODE_TNEI : Z := 14.
Definition MIPS_OPCODE_BLTZAL : Z := 16.
Definition MIPS_OPCODE_BGEZAL : Z := 17.
Definition MIPS_OPCODE_BLTZALL : Z := 18.
Definition MIPS_OPCODE_BGEZALL : Z := 19.
Definition MIPS_OPCODE_SYNCI : Z := 31.

(** enum [SPECIAL2_function_field_encoding] *)
Definition MIPS_OPCODE_MADD : Z := 0.
Definition MIPS_OPCODE_MADDU : Z := 1.
Definition MIPS_OPCODE_MUL : Z := 2.
Definition MIPS_OPCODE_MSUB : Z := 4.
Definition MIPS_OPCODE_MSUBU : Z := 5.
Definition MIPS_OPCODE_CLZ : Z := 32.
Definition MIPS_OPCODE_CLO : Z := 33.
Definition MIPS_OPCODE_SDBBP : Z := 63.
Definition MIPS_OPCODE_DCLZ : Z := 36.
Definition MIPS_OPCODE_DCLO : Z := 37.

(** enum [SPECIAL3_function_field_encoding] *)
Definition MIPS_OPCODE_EXT : Z := 0.
Definition MIPS_OPCODE_INS : Z := 4.
Definition MIPS_OPCODE_BSHFL : Z := 32.
Definition MIPS_OPCODE_RDHWR : Z := 59.

(** enum [MOVCI_tf_field_encoding] *)
Definition MIPS_OPCODE_MOVF : Z := 0.
Definition MIPS_OPCODE_MOVT : Z := 1.

(** enum [SRL_shiftrotate_field_encoding] *)
Definition MIPS_OPCODE_SRL_42 : Z := 0.
Definition MIPS_OPCODE_ROTR : Z := 1.

(** enum [SRLV_shiftrotate_field_ecoding] *)
Definition MIPS_OPCODE_SRLV_42 : Z := 0.
Definition MIPS_OPCODE_ROTRV : Z := 1.

(** enum [BSHFL_sa_field_encoding] *)
Definition MIPS_OPCODE_WSBH : Z := 2.
Definition MIPS_OPCODE_SEB : Z := 16.
Definition MIPS_OPCODE_SEH : Z := 24.

(** enum [COP2_func] *)
Definition MIPS_OPCODE_MFC2 : Z := 0.
Definition MIPS_OPCODE_DMFC2 : Z := 1.
Definition MIPS_OPCODE_CFC2 : Z := 2.
Definition MIPS_OPCODE_MTC2 : Z := 4.
Definition MIPS_OPCODE_DMTC2 : Z := 5.
Definition MIPS_OPCODE_CTC2 : Z := 6.
Definition MIPS_OPCODE_BCC2 : Z := 8.

(** enum [COP1X_func] *)
Definition MIPS_OPCODE_LWXC1 : Z := 0.
Definition MIPS_OPCODE_LDXC1 : Z := 1.
Definition MIPS_OPCODE_LUXC1 : Z := 5.
Definition MIPS_OPCODE_SWXC1 : Z := 8.
Definition MIPS_OPCODE_SDXC1 : Z := 9.
Definition MIPS_OPCODE_SUXC1 : Z := 13.
Definition MIPS_OPCODE_PREFX : Z := 15.
Definition MIPS_OPCODE_ALNV_PS : Z := 30.
Definition MIPS_OPCODE_MADD_S : Z := 32.
Definition MIPS_OPCODE_MADD_D : Z := 33.
Definition MIPS_OPCODE_MADD_PS : Z := 38.
Definition MIPS_OPCODE_MSUB_S : Z := 40.
Definition MIPS_OPCODE_MSUB_D : Z := 41.
Definition MIPS_OPCODE_MSUB_PS : Z := 46.
Definition MIPS_OPCODE_NMADD_S : Z := 48.
Definition MIPS_OPCODE_NMADD_D : Z := 49.
Definition MIPS_OPCODE_NMADD_PS : Z := 54.
Definition MIPS_OPCODE_NMSUB_S : Z := 56.
Definition MIPS_OPCODE_NMSUB_D : Z := 57.
Definition MIPS_OPCODE_NMSUB_PS : Z := 62.

(** enum [COP0_func] *)
Definition MIPS_OPCODE_MFC0 : Z := 0.
Definition MIPS_OPCODE_DMFC0 : Z := 1.
Definition MIPS_OPCODE_TLBWI : Z := 2.
Definition MIPS_OPCODE_MTC0 : Z := 4.
Definition MIPS_OPCODE_DMTC0 : Z := 5.
Definition MIPS_OPCODE_TLBWR : Z := 6.
Definition MIPS_OPCODE_ERET : Z := 24.
Definition MIPS_OPCODE_TLBP : Z := 8.
Definition MIPS_OPCODE_TLBR : Z := 1.
Definition MIPS_OPCODE_DERET : Z := 31.
Definition MIPS_OPCODE_WAIT : Z := 32.

(** enum [COP1_func] *)
Definition MIPS_OPCODE_F_ADD : Z := 0.
Definition MIPS_OPCODE_F_SUB : Z := 1.
Definition MIPS_OPCODE_F_MUL : Z := 2.
Definition MIPS_OPCODE_F_DIV : Z := 3.
Definition MIPS_OPCODE_F_SQRT : Z := 4.
Definition MIPS_OPCODE_ABS : Z := 5.
Definition MIPS_OPCODE_F_MOV : Z := 6.
Definition MIPS_OPCODE_F_NEG : Z := 7.
Definition MIPS_OPCODE_F_ROUND_L : Z := 8.
Definition MIPS_OPCODE_F_TRUNC_L : Z := 9.
Definition MIPS_OPCODE_F_ROUND_W : Z := 12.
Definition MIPS_OPCODE_F_TRUNC_W : Z := 13.
Definition MIPS_OPCODE_F_CEIL_L : Z := 10.
Definition MIPS_OPCODE_F_FLOOR_L : Z := 11.
Definition MIPS_OPCODE_F_CEIL_W : Z := 14.
Definition MIPS_OPCODE_F_FLOOR_W : Z := 15.
Definition MIPS_OPCODE_F_RECIP : Z := 21.
Definition MIPS_OPCODE_F_RSQRT : Z := 22.
Definition MIPS_OPCODE_F_MOVCF : Z := 17.
Definition MIPS_OPCODE_F_MOVZ : Z := 18.
Definition MIPS_OPCODE_F_MOVN : Z := 19.
Definition MIPS_OPCODE_F_CVT_S : Z := 32.
Definition MIPS_OPCODE_F_CVT_D : Z := 33.
Definition MIPS_OPCODE_F_CVT_W : Z := 36.
Definition MIPS_OPCODE_F_CVT_L : Z := 37.
Definition MIPS_OPCODE_F_CVT_PS_S : Z := 38.
Definition MIPS_OPCODE_F_CVT_S_PL : Z := 40.
Definition MIPS_OPCODE_F_MFC1 : Z := 0.
Definition MIPS_OPCODE_F_CFC1 : Z := 2.
Definition MIPS_OPCODE_F_MTC1 : Z := 4.
Definition MIPS_OPCODE_F_CTC1 : Z := 6.

(** enum [COP1_fmt] *)
Definition MIPS_OPCODE_FMT_S : Z := 16.
Definition MIPS_OPCODE_FMT_D : Z := 17.
Definition MIPS_OPCODE_FMT_W : Z := 20.
Definition MIPS_OPCODE_FMT_L : Z := 21.
Definition MIPS_OPCODE_FMT_PS : Z := 22.

(** enum [COP1_cond] *)
Definition MIPS_OPCODE_COND_F : Z := 0.
Definition MIPS_OPCODE_COND_UN : Z := 1.
Definition MIPS_OPCODE_COND_EQ : Z := 2.
Definition MIPS_OPCODE_COND_UEQ : Z := 3.
Definition MIPS_OPCODE_COND_OLT : Z := 4.
Definition MIPS_OPCODE_COND_ULT : Z := 5.
Definition MIPS_OPCODE_COND_OLE : Z := 6.
Definition MIPS_OPCODE_COND_ULE : Z := 7.
Definition MIPS_OPCODE_COND_SF : Z := 8.
Definition MIPS_OPCODE_COND_NGLE : Z := 9.
Definition MIPS_OPCODE_COND_SEQ : Z := 10.
Definition MIPS_OPCODE_COND_NGL : Z := 11.
Definition MIPS_OPCODE_COND_LT : Z := 12.
Definition MIPS_OPCODE_COND_NGE : Z := 13.
Definition MIPS_OPCODE_COND_LE : Z := 14.
Definition MIPS_OPCODE_COND_NGT : Z := 15.

(** enum [e_fix_compile_errors] *)
Definition MIPS_OPCODE_NOP : Z := 0.
Definition MIPS_OPCODE_SSNOP : Z := 1.

Inductive e_mips_instr_types :=
| ASM_MIPS_ADD | ASM_MIPS_ADDI | ASM_MIPS_ADDIU | ASM_MIPS_ADDU | ASM_MIPS_CLO | ASM_MIPS_CLZ
| ASM_MIPS_DADD | ASM_MIPS_DADDI | ASM_MIPS_DADDIU | ASM_MIPS_DADDU | ASM_MIPS_DCLO
| ASM_MIPS_DCLZ | ASM_MIPS_DDIV | ASM_MIPS_DDIVU | ASM_MIPS_DIV | ASM_MIPS_DIVU | ASM_MIPS_DMULT
| ASM_MIPS_DMULTU | ASM_MIPS_DSUB | ASM_MIPS_DSUBU | ASM_MIPS_MADD | ASM_MIPS_MADDU
| ASM_MIPS_MSUB | ASM_MIPS_MSUBU | ASM_MIPS_MUL | ASM_MIPS_MULT | ASM_MIPS_MULTU | ASM_MIPS_SLT
| ASM_MIPS_SLTI | ASM_MIPS_SLTIU | ASM_MIPS_SLTU | ASM_MIPS_SUB | ASM_MIPS_SUBU | ASM_MIPS_SEB
| ASM_MIPS_SEH | ASM_MIPS_B | ASM_MIPS_BAL | ASM_MIPS_BEQ | ASM_MIPS_BGEZ | ASM_MIPS_BGEZAL
| ASM_MIPS_BGTZ | ASM_MIPS_BLEZ | ASM_MIPS_BLTZ | ASM_MIPS_BLTZAL | ASM_MIPS_BNE | ASM_MIPS_J
| ASM_MIPS_JAL | ASM_MIPS_JALR | ASM_MIPS_JR | ASM_MIPS_JALR_HB | ASM_MIPS_JR_HB | ASM_MIPS_NOP
| ASM_MIPS_SSNOP | ASM_MIPS_LB | ASM_MIPS_LBU | ASM_MIPS_LD | ASM_MIPS_LDL | ASM_MIPS_LDR
| ASM_MIPS_LH | ASM_MIPS_LHU | ASM_MIPS_LL | ASM_MIPS_LLD | ASM_MIPS_LW | ASM_MIPS_LWL
| ASM_MIPS_LWR | ASM_MIPS_LWU | ASM_MIPS_PREF | ASM_MIPS_SB | ASM_MIPS_SC | ASM_MIPS_SCD
| ASM_MIPS_SD | ASM_MIPS_SDL | ASM_MIPS_SDR | ASM_MIPS_SH | ASM_MIPS_SW | ASM_MIPS_SWL
| ASM_MIPS_SWR | ASM_MIPS_SYNC | ASM_MIPS_SYNCI | ASM_MIPS_AND | ASM_MIPS_ANDI | ASM_MIPS_LUI
| ASM_MIPS_NOR | ASM_MIPS_OR | ASM_MIPS_ORI | ASM_MIPS_XOR | ASM_MIPS_XORI | ASM_MIPS_EXT
| ASM_MIPS_INS | ASM_MIPS_WSBH | ASM_MIPS_MFHI | ASM_MIPS_MFLO | ASM_MIPS_MOVF | ASM_MIPS_MOVN
| ASM_MIPS_MOVT | ASM_MIPS_MOVZ | ASM_MIPS_MTHI | ASM_MIPS_MTLO | ASM_MIPS_DSLL | ASM_MIPS_DSLL32
| ASM_MIPS_DSLLV | ASM_MIPS_DSRA | ASM_MIPS_DSRA32 | ASM_MIPS_DSRAV | ASM_MIPS_DSRL
| ASM_MIPS_DSRL32 | ASM_MIPS_DSRLV | ASM_MIPS_SLL | ASM_MIPS_SLLV | ASM_MIPS_SRA | ASM_MIPS_SRAV
| ASM_MIPS_SRL | ASM_MIPS_SRLV | ASM_MIPS_RDHWR | ASM_MIPS_ROTR | ASM_MIPS_ROTRV | ASM_MIPS_BREAK
| ASM_MIPS_SYSCALL | ASM_MIPS_TEQ | ASM_MIPS_TEQI | ASM_MIPS_TGE | ASM_MIPS_TGEI | ASM_MIPS_TGEIU
| ASM_MIPS_TGEU | ASM_MIPS_TLT | ASM_MIPS_TLTI | ASM_MIPS_TLTIU | ASM_MIPS_TLTU | ASM_MIPS_TNE
| ASM_MIPS_TNEI | ASM_MIPS_BEQL | ASM_MIPS_BGEZALL | ASM_MIPS_BGEZL | ASM_MIPS_BGTZL
| ASM_MIPS_BLEZL | ASM_MIPS_BLTZALL | ASM_MIPS_BLTZL | ASM_MIPS_BNEL | ASM_MIPS_BC2F
| ASM_MIPS_BC2T | ASM_MIPS_COP2 | ASM_MIPS_LDC2 | ASM_MIPS_LWC2 | ASM_MIPS_SDC2 | ASM_MIPS_SWC2
| ASM_MIPS_CFC2 | ASM_MIPS_CTC2 | ASM_MIPS_DMFC2 | ASM_MIPS_DMTC2 | ASM_MIPS_MFC2 | ASM_MIPS_MTC2
| ASM_MIPS_BC2FL | ASM_MIPS_BC2TL | ASM_MIPS_LWXC1 | ASM_MIPS_LDXC1 | ASM_MIPS_LUXC1
| ASM_MIPS_SWXC1 | ASM_MIPS_SDXC1 | ASM_MIPS_SUXC1 | ASM_MIPS_PREFX | ASM_MIPS_ALNV_PS
| ASM_MIPS_MADD_S | ASM_MIPS_MADD_D | ASM_MIPS_MADD_PS | ASM_MIPS_MSUB_S | ASM_MIPS_MSUB_D
| ASM_MIPS_MSUB_PS | ASM_MIPS_NMADD_S | ASM_MIPS_NMADD_D | ASM_MIPS_NMADD_PS | ASM_MIPS_NMSUB_S
| ASM_MIPS_NMSUB_D | ASM_MIPS_NMSUB_PS | ASM_MIPS_MFC0 | ASM_MIPS_DMFC0 | ASM_MIPS_TLBWI
| ASM_MIPS_MTC0 | ASM_MIPS_DMTC0 | ASM_MIPS_TLBWR | ASM_MIPS_ERET | ASM_MIPS_TLBP | ASM_MIPS_TLBR
| ASM_MIPS_WAIT | ASM_MIPS_DERET | ASM_MIPS_SDBBP | ASM_MIPS_ABS_S | ASM_MIPS_ABS_D
| ASM_MIPS_ABS_PS | ASM_MIPS_ADD_S | ASM_MIPS_ADD_D | ASM_MIPS_ADD_PS | ASM_MIPS_DIV_S
| ASM_MIPS_DIV_D | ASM_MIPS_MUL_S | ASM_MIPS_MUL_D | ASM_MIPS_MUL_PS | ASM_MIPS_NEG_S
| ASM_MIPS_NEG_D | ASM_MIPS_NEG_PS | ASM_MIPS_RECIP_S | ASM_MIPS_RECIP_D | ASM_MIPS_RSQRT_S
| ASM_MIPS_RSQRT_D | ASM_MIPS_SQRT_S | ASM_MIPS_SQRT_D | ASM_MIPS_SUB_S | ASM_MIPS_SUB_D
| ASM_MIPS_SUB_PS | ASM_MIPS_BC1F | ASM_MIPS_BC1T | ASM_MIPS_CEIL_L_S | ASM_MIPS_CEIL_L_D
| ASM_MIPS_CEIL_W_S | ASM_MIPS_CEIL_W_D | ASM_MIPS_CVT_D_S | ASM_MIPS_CVT_D_W | ASM_MIPS_CVT_D_L
| ASM_MIPS_CVT_L_S | ASM_MIPS_CVT_L_D | ASM_MIPS_CVT_PS_S | ASM_MIPS_CVT_S_D | ASM_MIPS_CVT_S_W
| ASM_MIPS_CVT_S_L | ASM_MIPS_CVT_S_PL | ASM_MIPS_CVT_S_PU | ASM_MIPS_CVT_W_S | ASM_MIPS_CVT_W_D
| ASM_MIPS_FLOOR_L_S | ASM_MIPS_FLOOR_L_D | ASM_MIPS_FLOOR_W_S | ASM_MIPS_FLOOR_W_D
| ASM_MIPS_ROUND_L_S | ASM_MIPS_ROUND_L_D | ASM_MIPS_ROUND_W_S | ASM_MIPS_ROUND_W_D
| ASM_MIPS_TRUNC_L_S | ASM_MIPS_TRUNC_L_D | ASM_MIPS_TRUNC_W_S | ASM_MIPS_TRUNC_W_D
| ASM_MIPS_LDC1 | ASM_MIPS_LWC1 | ASM_MIPS_SDC1 | ASM_MIPS_SWC1 | ASM_MIPS_CFC1 | ASM_MIPS_CTC1
| ASM_MIPS_MFC1 | ASM_MIPS_MTC1 | ASM_MIPS_MOV_S | ASM_MIPS_MOV_D | ASM_MIPS_MOV_PS
| ASM_MIPS_MOVF_S | ASM_MIPS_MOVF_D | ASM_MIPS_MOVF_PS | ASM_MIPS_MOVT_S | ASM_MIPS_MOVT_D
| ASM_MIPS_MOVT_PS | ASM_MIPS_MOVN_S | ASM_MIPS_MOVN_D | ASM_MIPS_MOVN_PS | ASM_MIPS_MOVZ_S
| ASM_MIPS_MOVZ_D | ASM_MIPS_MOVZ_PS | ASM_MIPS_BC1FL | ASM_MIPS_BC1TL | ASM_MIPS_DMTC1
| ASM_MIPS_DMFC1 | ASM_MIPS_C_F_S | ASM_MIPS_C_F_D | ASM_MIPS_C_F_PS | ASM_MIPS_C_UN_S
| ASM_MIPS_C_UN_D | ASM_MIPS_C_UN_PS | ASM_MIPS_C_EQ_S | ASM_MIPS_C_EQ_D | ASM_MIPS_C_EQ_PS
| ASM_MIPS_C_UEQ_S | ASM_MIPS_C_UEQ_D | ASM_MIPS_C_UEQ_PS | ASM_MIPS_C_OLT_S | ASM_MIPS_C_OLT_D
| ASM_MIPS_C_OLT_PS | ASM_MIPS_C_ULT_S | ASM_MIPS_C_ULT_D | ASM_MIPS_C_ULT_PS | ASM_MIPS_C_OLE_S
| ASM_MIPS_C_OLE_D | ASM_MIPS_C_OLE_PS | ASM_MIPS_C_ULE_S | ASM_MIPS_C_ULE_D | ASM_MIPS_C_ULE_PS
| ASM_MIPS_C_SF_S | ASM_MIPS_C_SF_D | ASM_MIPS_C_SF_PS | ASM_MIPS_C_NGLE_S | ASM_MIPS_C_NGLE_D
| ASM_MIPS_C_NGLE_PS | ASM_MIPS_C_SEQ_S | ASM_MIPS_C_SEQ_D | ASM_MIPS_C_SEQ_PS | ASM_MIPS_C_NGL_S
| ASM_MIPS_C_NGL_D | ASM_MIPS_C_NGL_PS | ASM_MIPS_C_LT_S | ASM_MIPS_C_LT_D | ASM_MIPS_C_LT_PS
| ASM_MIPS_C_NGE_S | ASM_MIPS_C_NGE_D | ASM_MIPS_C_NGE_PS | ASM_MIPS_C_LE_S | ASM_MIPS_C_LE_D
| ASM_MIPS_C_LE_PS | ASM_MIPS_C_NGT_S | ASM_MIPS_C_NGT_D | ASM_MIPS_C_NGT_PS | ASM_MIPS_BAD.

(** The value of an enumerator. *)
Definition mips_code (x : e_mips_instr_types) : Z :=
  match x with
  | ASM_MIPS_ADD => 0 | ASM_MIPS_ADDI => 1 | ASM_MIPS_ADDIU => 2 | ASM_MIPS_ADDU => 3
  | ASM_MIPS_CLO => 4 | ASM_MIPS_CLZ => 5 | ASM_MIPS_DADD => 6 | ASM_MIPS_DADDI => 7
  | ASM_MIPS_DADDIU => 8 | ASM_MIPS_DADDU => 9 | ASM_MIPS_DCLO => 10 | ASM_MIPS_DCLZ => 11
  | ASM_MIPS_DDIV => 12 | ASM_MIPS_DDIVU => 13 | ASM_MIPS_DIV => 14 | ASM_MIPS_DIVU => 15
  | ASM_MIPS_DMULT => 16 | ASM_MIPS_DMULTU => 17 | ASM_MIPS_DSUB => 18 | ASM_MIPS_DSUBU => 19
  | ASM_MIPS_MADD => 20 | ASM_MIPS_MADDU => 21 | ASM_MIPS_MSUB => 22 | ASM_MIPS_MSUBU => 23
  | ASM_MIPS_MUL => 24 | ASM_MIPS_MULT => 25 | ASM_MIPS_MULTU => 26 | ASM_MIPS_SLT => 27
  | ASM_MIPS_SLTI => 28 | ASM_MIPS_SLTIU => 29 | ASM_MIPS_SLTU => 30 | ASM_MIPS_SUB => 31
  | ASM_MIPS_SUBU => 32 | ASM_MIPS_SEB => 33 | ASM_MIPS_SEH => 34 | ASM_MIPS_B => 35
  | ASM_MIPS_BAL => 36 | ASM_MIPS_BEQ => 37 | ASM_MIPS_BGEZ => 38 | ASM_MIPS_BGEZAL => 39
  | ASM_MIPS_BGTZ => 40 | ASM_MIPS_BLEZ => 41 | ASM_MIPS_BLTZ => 42 | ASM_MIPS_BLTZAL => 43
  | ASM_MIPS_BNE => 44 | ASM_MIPS_J => 45 | ASM_MIPS_JAL => 46 | ASM_MIPS_JALR => 47
  | ASM_MIPS_JR => 48 | ASM_MIPS_JALR_HB => 49 | ASM_MIPS_JR_HB => 50 | ASM_MIPS_NOP => 51
  | ASM_MIPS_SSNOP => 52 | ASM_MIPS_LB => 53 | ASM_MIPS_LBU => 54 | ASM_MIPS_LD => 55
  | ASM_MIPS_LDL => 56 | ASM_MIPS_LDR => 57 | ASM_MIPS_LH => 58 | ASM_MIPS_LHU => 59
  | ASM_MIPS_LL => 60 | ASM_MIPS_LLD => 61 | ASM_MIPS_LW => 62 | ASM_MIPS_LWL => 63
  | ASM_MIPS_LWR => 64 | ASM_MIPS_LWU => 65 | ASM_MIPS_PREF => 66 | ASM_MIPS_SB => 67
  | ASM_MIPS_SC => 68 | ASM_MIPS_SCD => 69 | ASM_MIPS_SD => 70 | ASM_MIPS_SDL => 71
  | ASM_MIPS_SDR => 72 | ASM_MIPS_SH => 73 | ASM_MIPS_SW => 74 | ASM_MIPS_SWL => 75
  | ASM_MIPS_SWR => 76 | ASM_MIPS_SYNC => 77 | ASM_MIPS_SYNCI => 78 | ASM_MIPS_AND => 79
  | ASM_MIPS_ANDI => 80 | ASM_MIPS_LUI => 81 | ASM_MIPS_NOR => 82 | ASM_MIPS_OR => 83
  | ASM_MIPS_ORI => 84 | ASM_MIPS_XOR => 85 | ASM_MIPS_XORI => 86 | ASM_MIPS_EXT => 87
  | ASM_MIPS_INS => 88 | ASM_MIPS_WSBH => 89 | ASM_MIPS_MFHI => 90 | ASM_MIPS_MFLO => 91
  | ASM_MIPS_MOVF => 92 | ASM_MIPS_MOVN => 93 | ASM_MIPS_MOVT => 94 | ASM_MIPS_MOVZ => 95
  | ASM_MIPS_MTHI => 96 | ASM_MIPS_MTLO => 97 | ASM_MIPS_DSLL => 98 | ASM_MIPS_DSLL32 => 99
  | ASM_MIPS_DSLLV => 100 | ASM_MIPS_DSRA => 101 | ASM_MIPS_DSRA32 => 102 | ASM_MIPS_DSRAV => 103
  | ASM_MIPS_DSRL => 104 | ASM_MIPS_DSRL32 => 105 | ASM_MIPS_DSRLV => 106 | ASM_MIPS_SLL => 107
  | ASM_MIPS_SLLV => 108 | ASM_MIPS_SRA => 109 | ASM_MIPS_SRAV => 110 | ASM_MIPS_SRL => 111
  | ASM_MIPS_SRLV => 112 | ASM_MIPS_RDHWR => 113 | ASM_MIPS_ROTR => 114 | ASM_MIPS_ROTRV => 115
  | ASM_MIPS_BREAK => 116 | ASM_MIPS_SYSCALL => 117 | ASM_MIPS_TEQ => 118 | ASM_MIPS_TEQI => 119
  | ASM_MIPS_TGE => 120 | ASM_MIPS_TGEI => 121 | ASM_MIPS_TGEIU => 122 | ASM_MIPS_TGEU => 123
  | ASM_MIPS_TLT => 124 | ASM_MIPS_TLTI => 125 | ASM_MIPS_TLTIU => 126 | ASM_MIPS_TLTU => 127
  | ASM_MIPS_TNE => 128 | ASM_MIPS_TNEI => 129 | ASM_MIPS_BEQL => 130 | ASM_MIPS_BGEZALL => 131
  | ASM_MIPS_BGEZL => 132 | ASM_MIPS_BGTZL => 133 | ASM_MIPS_BLEZL => 134
  | ASM_MIPS_BLTZALL => 135 | ASM_MIPS_BLTZL => 136 | ASM_MIPS_BNEL => 137 | ASM_MIPS_BC2F => 138
  | ASM_MIPS_BC2T => 139 | ASM_MIPS_COP2 => 140 | ASM_MIPS_LDC2 => 141 | ASM_MIPS_LWC2 => 142
  | ASM_MIPS_SDC2 => 143 | ASM_MIPS_SWC2 => 144 | ASM_MIPS_CFC2 => 145 | ASM_MIPS_CTC2 => 146
  | ASM_MIPS_DMFC2 => 147 | ASM_MIPS_DMTC2 => 148 | ASM_MIPS_MFC2 => 149 | ASM_MIPS_MTC2 => 150
  | ASM_MIPS_BC2FL => 151 | ASM_MIPS_BC2TL => 152 | ASM_MIPS_LWXC1 => 153 | ASM_MIPS_LDXC1 => 154
  | ASM_MIPS_LUXC1 => 155 | ASM_MIPS_SWXC1 => 156 | ASM_MIPS_SDXC1 => 157 | ASM_MIPS_SUXC1 => 158
  | ASM_MIPS_PREFX => 159 | ASM_MIPS_ALNV_PS => 160 | ASM_MIPS_MADD_S => 161
  | ASM_MIPS_MADD_D => 162 | ASM_MIPS_MADD_PS => 163 | ASM_MIPS_MSUB_S => 164
  | ASM_MIPS_MSUB_D => 165 | ASM_MIPS_MSUB_PS => 166 | ASM_MIPS_NMADD_S => 167
  | ASM_MIPS_NMADD_D => 168 | ASM_MIPS_NMADD_PS => 169 | ASM_MIPS_NMSUB_S => 170
  | ASM_MIPS_NMSUB_D => 171 | ASM_MIPS_NMSUB_PS => 172 | ASM_MIPS_MFC0 => 173
  | ASM_MIPS_DMFC0 => 174 | ASM_MIPS_TLBWI => 175 | ASM_MIPS_MTC0 => 176 | ASM_MIPS_DMTC0 => 177
  | ASM_MIPS_TLBWR => 178 | ASM_MIPS_ERET => 179 | ASM_MIPS_TLBP => 180 | ASM_MIPS_TLBR => 181
  | ASM_MIPS_WAIT => 182 | ASM_MIPS_DERET => 183 | ASM_MIPS_SDBBP => 184 | ASM_MIPS_ABS_S => 185
  | ASM_MIPS_ABS_D => 186 | ASM_MIPS_ABS_PS => 187 | ASM_MIPS_ADD_S => 188
  | ASM_MIPS_ADD_D => 189 | ASM_MIPS_ADD_PS => 190 | ASM_MIPS_DIV_S => 191
  | ASM_MIPS_DIV_D => 192 | ASM_MIPS_MUL_S => 193 | ASM_MIPS_MUL_D => 194
  | ASM_MIPS_MUL_PS => 195 | ASM_MIPS_NEG_S => 196 | ASM_MIPS_NEG_D => 197
  | ASM_MIPS_NEG_PS => 198 | ASM_MIPS_RECIP_S => 199 | ASM_MIPS_RECIP_D => 200
  | ASM_MIPS_RSQRT_S => 201 | ASM_MIPS_RSQRT_D => 202 | ASM_MIPS_SQRT_S => 203
  | ASM_MIPS_SQRT_D => 204 | ASM_MIPS_SUB_S => 205 | ASM_MIPS_SUB_D => 206
  | ASM_MIPS_SUB_PS => 207 | ASM_MIPS_BC1F => 208 | ASM_MIPS_BC1T => 209
  | ASM_MIPS_CEIL_L_S => 210 | ASM_MIPS_CEIL_L_D => 211 | ASM_MIPS_CEIL_W_S => 212
  | ASM_MIPS_CEIL_W_D => 213 | ASM_MIPS_CVT_D_S => 214 | ASM_MIPS_CVT_D_W => 215
  | ASM_MIPS_CVT_D_L => 216 | ASM_MIPS_CVT_L_S => 217 | ASM_MIPS_CVT_L_D => 218
  | ASM_MIPS_CVT_PS_S => 219 | ASM_MIPS_CVT_S_D => 220 | ASM_MIPS_CVT_S_W => 221
  | ASM_MIPS_CVT_S_L => 222 | ASM_MIPS_CVT_S_PL => 223 | ASM_MIPS_CVT_S_PU => 224
  | ASM_MIPS_CVT_W_S => 225 | ASM_MIPS_CVT_W_D => 226 | ASM_MIPS_FLOOR_L_S => 227
  | ASM_MIPS_FLOOR_L_D => 228 | ASM_MIPS_FLOOR_W_S => 229 | ASM_MIPS_FLOOR_W_D => 230
  | ASM_MIPS_ROUND_L_S => 231 | ASM_MIPS_ROUND_L_D => 232 | ASM_MIPS_ROUND_W_S => 233
  | ASM_MIPS_ROUND_W_D => 234 | ASM_MIPS_TRUNC_L_S => 235 | ASM_MIPS_TRUNC_L_D => 236
  | ASM_MIPS_TRUNC_W_S => 237 | ASM_MIPS_TRUNC_W_D => 238 | ASM_MIPS_LDC1 => 239
  | ASM_MIPS_LWC1 => 240 | ASM_MIPS_SDC1 => 241 | ASM_MIPS_SWC1 => 242 | ASM_MIPS_CFC1 => 243
  | ASM_MIPS_CTC1 => 244 | ASM_MIPS_MFC1 => 245 | ASM_MIPS_MTC1 => 246 | ASM_MIPS_MOV_S => 247
  | ASM_MIPS_MOV_D => 248 | ASM_MIPS_MOV_PS => 249 | ASM_MIPS_MOVF_S => 250
  | ASM_MIPS_MOVF_D => 251 | ASM_MIPS_MOVF_PS => 252 | ASM_MIPS_MOVT_S => 253
  | ASM_MIPS_MOVT_D => 254 | ASM_MIPS_MOVT_PS => 255 | ASM_MIPS_MOVN_S => 256
  | ASM_MIPS_MOVN_D => 257 | ASM_MIPS_MOVN_PS => 258 | ASM_MIPS_MOVZ_S => 259
  | ASM_MIPS_MOVZ_D => 260 | ASM_MIPS_MOVZ_PS => 261 | ASM_MIPS_BC1FL => 262
  | ASM_MIPS_BC1TL => 263 | ASM_MIPS_DMTC1 => 264 | ASM_MIPS_DMFC1 => 265 | ASM_MIPS_C_F_S => 266
  | ASM_MIPS_C_F_D => 267 | ASM_MIPS_C_F_PS => 268 | ASM_MIPS_C_UN_S => 269
  | ASM_MIPS_C_UN_D => 270 | ASM_MIPS_C_UN_PS => 271 | ASM_MIPS_C_EQ_S => 272
  | ASM_MIPS_C_EQ_D => 273 | ASM_MIPS_C_EQ_PS => 274 | ASM_MIPS_C_UEQ_S => 275
  | ASM_MIPS_C_UEQ_D => 276 | ASM_MIPS_C_UEQ_PS => 277 | ASM_MIPS_C_OLT_S => 278
  | ASM_MIPS_C_OLT_D => 279 | ASM_MIPS_C_OLT_PS => 280 | ASM_MIPS_C_ULT_S => 281
  | ASM_MIPS_C_ULT_D => 282 | ASM_MIPS_C_ULT_PS => 283 | ASM_MIPS_C_OLE_S => 284
  | ASM_MIPS_C_OLE_D => 285 | ASM_MIPS_C_OLE_PS => 286 | ASM_MIPS_C_ULE_S => 287
  | ASM_MIPS_C_ULE_D => 288 | ASM_MIPS_C_ULE_PS => 289 | ASM_MIPS_C_SF_S => 290
  | ASM_MIPS_C_SF_D => 291 | ASM_MIPS_C_SF_PS => 292 | ASM_MIPS_C_NGLE_S => 293
  | ASM_MIPS_C_NGLE_D => 294 | ASM_MIPS_C_NGLE_PS => 295 | ASM_MIPS_C_SEQ_S => 296
  | ASM_MIPS_C_SEQ_D => 297 | ASM_MIPS_C_SEQ_PS => 298 | ASM_MIPS_C_NGL_S => 299
  | ASM_MIPS_C_NGL_D => 300 | ASM_MIPS_C_NGL_PS => 301 | ASM_MIPS_C_LT_S => 302
  | ASM_MIPS_C_LT_D => 303 | ASM_MIPS_C_LT_PS => 304 | ASM_MIPS_C_NGE_S => 305
  | ASM_MIPS_C_NGE_D => 306 | ASM_MIPS_C_NGE_PS => 307 | ASM_MIPS_C_LE_S => 308
  | ASM_MIPS_C_LE_D => 309 | ASM_MIPS_C_LE_PS => 310 | ASM_MIPS_C_NGT_S => 311
  | ASM_MIPS_C_NGT_D => 312 | ASM_MIPS_C_NGT_PS => 313 | ASM_MIPS_BAD => 314
  end.

Inductive e_mips_operand_type :=
| ASM_MIPS_OTYPE_NONE | ASM_MIPS_OTYPE_REGISTER | ASM_MIPS_OTYPE_IMMEDIATE | ASM_MIPS_OTYPE_JUMP
| ASM_MIPS_OTYPE_NOOP | ASM_MIPS_OTYPE_BRANCH | ASM_MIPS_OTYPE_REGBASE | ASM_MIPS_OTYPE_LAST.

Definition otype_code (x : e_mips_operand_type) : Z :=
  match x with
  | ASM_MIPS_OTYPE_NONE => 0 | ASM_MIPS_OTYPE_REGISTER => 1 | ASM_MIPS_OTYPE_IMMEDIATE => 2
  | ASM_MIPS_OTYPE_JUMP => 3 | ASM_MIPS_OTYPE_NOOP => 4 | ASM_MIPS_OTYPE_BRANCH => 5
  | ASM_MIPS_OTYPE_REGBASE => 6 | ASM_MIPS_OTYPE_LAST => 7
  end.

#[export] Instance e_mips_operand_type_eq_dec : EqDecision e_mips_operand_type.
Proof. solve_decision. Defined.

(** enum [e_mips_register_types] *)
Definition ASM_MIPS_REG_ZERO : Z := 0.
Definition ASM_MIPS_REG_AT : Z := 1.
Definition ASM_MIPS_REG_V0 : Z := 2.
Definition ASM_MIPS_REG_V1 : Z := 3.
Definition ASM_MIPS_REG_A0 : Z := 4.
Definition ASM_MIPS_REG_A1 : Z := 5.
Definition ASM_MIPS_REG_A2 : Z := 6.
Definition ASM_MIPS_REG_A3 : Z := 7.
Definition ASM_MIPS_REG_T0 : Z := 8.
Definition ASM_MIPS_REG_T1 : Z := 9.
Definition ASM_MIPS_REG_T2 : Z := 10.
Definition ASM_MIPS_REG_T3 : Z := 11.
Definition ASM_MIPS_REG_T4 : Z := 12.
Definition ASM_MIPS_REG_T5 : Z := 13.
Definition ASM_MIPS_REG_T6 : Z := 14.
Definition ASM_MIPS_REG_T7 : Z := 15.
Definition ASM_MIPS_REG_S0 : Z := 16.
Definition ASM_MIPS_REG_S1 : Z := 17.
Definition ASM_MIPS_REG_S2 : Z := 18.
Definition ASM_MIPS_REG_S3 : Z := 19.
Definition ASM_MIPS_REG_S4 : Z := 20.
Definition ASM_MIPS_REG_S5 : Z := 21.
Definition ASM_MIPS_REG_S6 : Z := 22.
Definition ASM_MIPS_REG_S7 : Z := 23.
Definition ASM_MIPS_REG_T8 : Z := 24.
Definition ASM_MIPS_REG_T9 : Z := 25.
Definition ASM_MIPS_REG_K0 : Z := 26.
Definition ASM_MIPS_REG_K1 : Z := 27.
Definition ASM_MIPS_REG_GP : Z := 28.
Definition ASM_MIPS_REG_SP : Z := 29.
Definition ASM_MIPS_REG_FP : Z := 30.
Definition ASM_MIPS_REG_RA : Z := 31.

(** ** The instruction *)

(** What the MIPS code uses of [asm_operand] and [asm_instr]. *)
Record mips_operand := MipsOp {
  mop_type : e_mips_operand_type;
  mop_baser : Z;
  mop_imm : Z;
  mop_regset : Z;
}.
Record mips_instr := MipsInstr {
  mins_instr : e_mips_instr_types;
  mins_type : Z;
  mins_len : Z;
  mins_nb_op : Z;
  mins_op : list mips_operand;
}.

(** After [memset(instr, 0, sizeof (asm_instr))]. *)
Definition mips_operand0 : mips_operand := MipsOp ASM_MIPS_OTYPE_NONE 0 0 0.
Definition mips_instr0 : mips_instr := MipsInstr ASM_MIPS_ADD 0 0 0 (replicate 6 mips_operand0).

(** Handlers change the instruction. *)
Definition mips_st (A : Type) : Type := mips_instr → A * mips_instr.
Definition ret {A} (a : A) : mips_st A := λ s, (a, s).
Definition bind {A B} (m : mips_st A) (f : A → mips_st B) : mips_st B := λ s, let '(a, s) := m s in f a s.
Declare Scope mips_scope.
Delimit Scope mips_scope with mips.
Notation "x ← m ; k" := (bind m (λ x, k)) (at level 20, m at level 100, k at level 200, right associativity) : mips_scope.
Notation "m ;; k" := (bind m (λ _, k)) (at level 100, k at level 200, right associativity) : mips_scope.
Open Scope mips_scope.

(** [buf] is the word its four bytes hold; the result is the length. *)
Definition mips_handler : Type := Z → mips_st Z.

Definition set_mins_instr (i : e_mips_instr_types) : mips_st () := λ s,
  (tt, MipsInstr i (mins_type s) (mins_len s) (mins_nb_op s) (mins_op s)).
Definition set_mins_type (t : Z) : mips_st () := λ s,
  (tt, MipsInstr (mins_instr s) t (mins_len s) (mins_nb_op s) (mins_op s)).
Definition mop_upd (k : nat) (f : mips_operand → mips_operand) : mips_st () := λ s,
  (tt, MipsInstr (mins_instr s) (mins_type s) (mins_len s) (mins_nb_op s) (alter f k (mins_op s))).
Definition set_mop_type (k : nat) (t : e_mips_operand_type) : mips_st () :=
  mop_upd k (λ o, MipsOp t (mop_baser o) (mop_imm o) (mop_regset o)).
Definition set_mop_baser (k : nat) (r : Z) : mips_st () :=
  mop_upd k (λ o, MipsOp (mop_type o) r (mop_imm o) (mop_regset o)).
Definition set_mop_imm (k : nat) (v : Z) : mips_st () :=
  mop_upd k (λ o, MipsOp (mop_type o) (mop_baser o) v (mop_regset o)).
Definition set_mop_regset (k : nat) (r : Z) : mips_st () :=
  mop_upd k (λ o, MipsOp (mop_type o) (mop_baser o) (mop_imm o) r).

(** ** Formats (libasm-mips-structs.h, mips_convert.c) *)

Record s_mips_decode_reg := { reg_op : Z; reg_rs : Z; reg_rt : Z; reg_rd : Z; reg_sa : Z; reg_fn : Z; }.
Definition mips_convert_format_r (buf : Z) : s_mips_decode_reg :=
  {|
     reg_op := (buf ≫ 26) &&& 63;
     reg_rs := (buf ≫ 21) &&& 31;
     reg_rt := (buf ≫ 16) &&& 31;
     reg_rd := (buf ≫ 11) &&& 31;
     reg_sa := (buf ≫ 6) &&& 31;
     reg_fn := (buf ≫ 0) &&& 63
  |}.

Record s_mips_decode_imm := { imm_op : Z; imm_rs : Z; imm_rt : Z; imm_im : Z; }.
Definition mips_convert_format_i (buf : Z) : s_mips_decode_imm :=
  {|
     imm_op := (buf ≫ 26) &&& 63;
     imm_rs := (buf ≫ 21) &&& 31;
     imm_rt := (buf ≫ 16) &&& 31;
     imm_im := (buf ≫ 0) &&& 65535
  |}.

Record s_mips_decode_jump := { jump_op : Z; jump_ta : Z; }.
Definition mips_convert_format_j (buf : Z) : s_mips_decode_jump :=
  {|
     jump_op := (buf ≫ 26) &&& 63;
     jump_ta := (buf ≫ 0) &&& 67108863
  |}.

Record s_mips_decode_trap := { trap_op : Z; trap_rs : Z; trap_rt : Z; trap_code : Z; trap_fn : Z; }.
Definition mips_convert_format_t (buf : Z) : s_mips_decode_trap :=
  {|
     trap_op := (buf ≫ 26) &&& 63;
     trap_rs := (buf ≫ 21) &&& 31;
     trap_rt := (buf ≫ 16) &&& 31;
     trap_code := (buf ≫ 6) &&& 1023;
     trap_fn := (buf ≫ 0) &&& 63
  |}.

Record s_mips_decode_cop2 := { cop2_op : Z; cop2_rs : Z; cop2_rt : Z; cop2_rd : Z; cop2_fn : Z; cop2_sl : Z; }.
Definition mips_convert_format_cop2 (buf : Z) : s_mips_decode_cop2 :=
  {|
     cop2_op := (buf ≫ 26) &&& 63;
     cop2_rs := (buf ≫ 21) &&& 31;
     cop2_rt := (buf ≫ 16) &&& 31;
     cop2_rd := (buf ≫ 11) &&& 31;
     cop2_fn := (buf ≫ 3) &&& 255;
     cop2_sl := (buf ≫ 0) &&& 7
  |}.

(** A macro. *)
Definition mips_convert_format_priv (buf : Z) : s_mips_decode_cop2 := mips_convert_format_cop2 buf.

Record s_mips_decode_mov := { mov_op : Z; mov_rs : Z; mov_cc : Z; mov_b1 : Z; mov_tf : Z; mov_rd : Z; mov_b2 : Z; mov_fn : Z; }.
Definition mips_convert_format_mov (buf : Z) : s_mips_decode_mov :=
  {|
     mov_op := (buf ≫ 26) &&& 63;
     mov_rs := (buf ≫ 21) &&& 31;
     mov_cc := (buf ≫ 18) &&& 7;
     mov_b1 := (buf ≫ 17) &&& 1;
     mov_tf := (buf ≫ 16) &&& 1;
     mov_rd := (buf ≫ 11) &&& 31;
     mov_b2 := (buf ≫ 6) &&& 31;
     mov_fn := (buf ≫ 0) &&& 63
  |}.

Record s_mips_decode_cop1x := { cop1x_op : Z; cop1x_bs : Z; cop1x_in : Z; cop1x_f1 : Z; cop1x_f2 : Z; cop1x_fn : Z; cop1x_fmt : Z; }.
Definition mips_convert_format_cop1x (buf : Z) : s_mips_decode_cop1x :=
  {|
     cop1x_op := (buf ≫ 26) &&& 63;
     cop1x_bs := (buf ≫ 21) &&& 31;
     cop1x_in := (buf ≫ 16) &&& 31;
     cop1x_f1 := (buf ≫ 11) &&& 31;
     cop1x_f2 := (buf ≫ 6) &&& 31;
     cop1x_fn := (buf ≫ 3) &&& 3;
     cop1x_fmt := (buf ≫ 0) &&& 3
  |}.

(** ** Operands

    The handlers return nothing; the vector calls them as functions that return
    an [int], which no instruction looks at. *)

Definition mips_operand_handler : Type := nat → mips_st ().
Definition asm_mips_operand_none : mips_operand_handler := λ k, set_mop_type k ASM_MIPS_OTYPE_NONE.
Definition asm_mips_operand_r : mips_operand_handler := λ k, set_mop_type k ASM_MIPS_OTYPE_REGISTER.
Definition asm_mips_operand_i : mips_operand_handler := λ k, set_mop_type k ASM_MIPS_OTYPE_IMMEDIATE.
Definition asm_mips_operand_j : mips_operand_handler := λ k, set_mop_type k ASM_MIPS_OTYPE_JUMP.
Definition asm_mips_operand_noop : mips_operand_handler := λ k, set_mop_type k ASM_MIPS_OTYPE_NOOP.
Definition asm_mips_operand_branch : mips_operand_handler := λ k, set_mop_type k ASM_MIPS_OTYPE_BRANCH.
Definition asm_mips_operand_regbase : mips_operand_handler := λ k, set_mop_type k ASM_MIPS_OTYPE_REGBASE.

Definition asm_register_mips_operands : list (Z * mips_operand_handler) :=
  [(otype_code ASM_MIPS_OTYPE_NONE, asm_mips_operand_none);
   (otype_code ASM_MIPS_OTYPE_REGISTER, asm_mips_operand_r);
   (otype_code ASM_MIPS_OTYPE_IMMEDIATE, asm_mips_operand_i);
   (otype_code ASM_MIPS_OTYPE_JUMP, asm_mips_operand_j);
   (otype_code ASM_MIPS_OTYPE_NOOP, asm_mips_operand_noop);
   (otype_code ASM_MIPS_OTYPE_BRANCH, asm_mips_operand_branch);
   (otype_code ASM_MIPS_OTYPE_REGBASE, asm_mips_operand_regbase)].

Definition asm_mips_operand_fetch (k : nat) (opcode : Z) (otype : e_mips_operand_type) : mips_st () :=
  registered (λ _, ret tt) asm_register_mips_operands (otype_code otype) k.
