(* ===== verification/MipsCpu.v ===== *)
(** * MIPS: the handlers of the instructions of the processor
    (src/libasm/src/arch/mips/handlers/)

    Each is the C function of its name; [buf] is the word at the pointer [buf],
    and [temp] the structure of fields it is converted to. *)
From S2P Require Import Prelude.
From S2P Require Import Ia32.
From S2P Require Import Mips.
Close Scope ia32_scope.
Open Scope mips_scope.

Definition asm_mips_add : mips_handler := λ buf,
  set_mins_instr ASM_MIPS_ADD;;
  set_mins_type ASM_TYPE_ARITH;;
  let temp := mips_convert_format_r buf in
  set_mop_baser 0 (reg_rd temp);;
  asm_mips_operand_fetch 0 buf ASM_MIPS_OTYPE_REGISTER;;
  set_mop_baser 1 (reg_rs temp);;
  asm_mips_operand_fetch 1 buf ASM_MIPS_OTYPE_REGISTER;;
  set_mop_baser 2 (reg_rt temp);;
  asm_mips_operand_fetch 2 buf ASM_MIPS_OTYPE_REGISTER;;
  ret 4.

Definition asm_mips_addi : mips_handler := λ buf,
  set_mins_instr ASM_MIPS_ADDI;;
  set_mins_type ASM_TYPE_ARITH;;
  let temp := mips_convert_format_i buf in
  set_mop_baser 0 (imm_rt temp);;
  asm_mips_operand_fetch 0 buf ASM_MIPS_OTYPE_REGISTER;;
  set_mop_baser 1 (imm_rs temp);;
  asm_mips_operand_fetch 1 buf ASM_MIPS_OTYPE_REGISTER;;
  set_mop_imm 2 (imm_im temp);;
  asm_mips_operand_fetch 2 buf ASM_MIPS_OTYPE_IMMEDIATE;;
  ret 4.

Definition asm_mips_addiu : mips_handler := λ buf,
  set_mins_instr ASM_MIPS_ADDIU;;
  set_mins_type ASM_TYPE_ARITH;;
  let temp := mips_convert_format_i buf in
  set_mop_baser 0 (imm_rt temp);;
  asm_mips_operand_fetch 0 buf ASM_MIPS_OTYPE_REGISTER;;
  set_mop_baser 1 (imm_rs temp);;
  asm_mips_operand_fetch 1 buf ASM_MIPS_OTYPE_REGISTER;;
  set_mop_imm 2 (imm_im temp);;
  asm_mips_operand_fetch 2 buf ASM_MIPS_OTYPE_IMMEDIATE;;
  ret 4.

Definition asm_mips_addu : mips_handler := λ buf,
  set_mins_instr ASM_MIPS_ADDU;;
  set_mins_type ASM_TYPE_ARITH;;
  let temp := mips_convert_format_r buf in
  set_mop_baser 0 (reg_rd temp);;
  asm_mips_operand_fetch 0 buf ASM_MIPS_OTYPE_REGISTER;;
  set_mop_baser 1 (reg_rs temp);;
  asm_mips_operand_fetch 1 buf ASM_MIPS_OTYPE_REGISTER;;
  set_mop_baser 2 (reg_rt temp);;
  asm_mips_operand_fetch 2 buf ASM_MIPS_OTYPE_REGISTER;;
  ret 4.

Definition asm_mips_clo : mips_handler := λ buf,
  set_mins_instr ASM_MIPS_CLO;;
  set_mins_type ASM_TYPE_ARCH;;
  let temp := mips_convert_format_r buf in
  set_mop_baser 0 (reg_rd temp);;
  asm_mips_operand_fetch 0 buf ASM_MIPS_OTYPE_REGISTER;;
  set_mop_baser 1 (reg_rs temp);;
  asm_mips_operand_fetch 1 buf ASM_MIPS_OTYPE_REGISTER;;
  ret 4.

Definition asm_mips_clz : mips_handler := λ buf,
  set_mins_instr ASM_MIPS_CLZ;;
  set_mins_type ASM_TYPE_ARCH;;
  let temp := mips_convert_format_r buf in
  set_mop_baser 0 (reg_rd temp);;
  asm_mips_operand_fetch 0 buf ASM_MIPS_OTYPE_REGISTER;;
  set_mop_baser 1 (reg_rs temp);;
  asm_mips_operand_fetch 1 buf ASM_MIPS_OTYPE_REGISTER;;
  ret 4.

Definition asm_mips_dadd : mips_handler := λ buf,
  set_mins_instr ASM_MIPS_DADD;;
  set_mins_type ASM_TYPE_ARITH;;
  let temp := mips_convert_format_r buf in
  set_mop_baser 0 (reg_rd temp);;
  asm_mips_operand_fetch 0 buf ASM_MIPS_OTYPE_REGISTER;;
  set_mop_baser 1 (reg_rs temp);;
  asm_mips_operand_fetch 1 buf ASM_MIPS_OTYPE_REGISTER;;
  set_mop_baser 2 (reg_rt temp);;
  asm_mips_operand_fetch 2 buf ASM_MIPS_OTYPE_REGISTER;;
  ret 4.

Definition asm_mips_daddi : mips_handler := λ buf,
  set_mins_instr ASM_MIPS_DADDI;;
  set_mins_type ASM_TYPE_ARITH;;
  let temp := mips_convert_format_i buf in
  set_mop_baser 0 (imm_rt temp);;
  asm_mips_operand_fetch 0 buf ASM_MIPS_OTYPE_REGISTER;;
  set_mop_baser 1 (imm_rs temp);;
  asm_mips_operand_fetch 1 buf ASM_MIPS_OTYPE_REGISTER;;
  set_mop_imm 2 (imm_im temp);;
  asm_mips_operand_fetch 2 buf ASM_MIPS_OTYPE_IMMEDIATE;;
  ret 4.

Definition asm_mips_daddiu : mips_handler := λ buf,
  set_mins_instr ASM_MIPS_DADDIU;;
  set_mins_type ASM_TYPE_ARITH;;
  let temp := mips_convert_format_i buf in
  set_mop_baser 0 (imm_rt temp);;
  asm_mips_operand_fetch 0 buf ASM_MIPS_OTYPE_REGISTER;;
  set_mop_baser 1 (imm_rs temp);;
  asm_mips_operand_fetch 1 buf ASM_MIPS_OTYPE_REGISTER;;
  set_mop_imm 2 (imm_im temp);;
  asm_mips_operand_fetch 2 buf ASM_MIPS_OTYPE_IMMEDIATE;;
  ret 4.

Definition asm_mips_daddu : mips_handler := λ buf,
  set_mins_instr ASM_MIPS_DADDU;;
  set_mins_type ASM_TYPE_ARITH;;
  let temp := mips_convert_format_r buf in
  set_mop_baser 0 (reg_rd temp);;
  asm_mips_operand_fetch 0 buf ASM_MIPS_OTYPE_REGISTER;;
  set_mop_baser 1 (reg_rs temp);;
  asm_mips_operand_fetch 1 buf ASM_MIPS_OTYPE_REGISTER;;
  set_mop_baser 2 (reg_rt temp);;
  asm_mips_operand_fetch 2 buf ASM_MIPS_OTYPE_REGISTER;;
  ret 4.

Definition asm_mips_dclo : mips_handler := λ buf,
  set_mins_instr ASM_MIPS_DCLO;;
  set_mins_type ASM_TYPE_ARCH;;
  let temp := mips_convert_format_r buf in
  set_mop_baser 0 (reg_rd temp);;
  asm_mips_operand_fetch 0 buf ASM_MIPS_OTYPE_REGISTER;;
  set_mop_baser 1 (reg_rs temp);;
  asm_mips_operand_fetch 1 buf ASM_MIPS_OTYPE_REGISTER;;
  ret 4.

Definition asm_mips_dclz : mips_handler := λ buf,
  set_mins_instr ASM_MIPS_DCLZ;;
  set_mins_type ASM_TYPE_ARCH;;
  let temp := mips_convert_format_r buf in
  set_mop_baser 0 (reg_rd temp);;
  asm_mips_operand_fetch 0 buf ASM_MIPS_OTYPE_REGISTER;;
  set_mop_baser 1 (reg_rs temp);;
  asm_mips_operand_fetch 1 buf ASM_MIPS_OTYPE_REGISTER;;
  ret 4.

Definition asm_mips_ddiv : mips_handler := λ buf,
  set_mins_instr ASM_MIPS_DDIV;;
  set_mins_type ASM_TYPE_ARITH;;
  let temp := mips_convert_format_t buf in
  set_mop_baser 0 (trap_rs temp);;
  asm_mips_operand_fetch 0 buf ASM_MIPS_OTYPE_REGISTER;;
  set_mop_baser 1 (trap_rt temp);;
  asm_mips_operand_fetch 1 buf ASM_MIPS_OTYPE_REGISTER;;
  ret 4.

Definition asm_mips_ddivu : mips_handler := λ buf,
  set_mins_instr ASM_MIPS_DDIVU;;
  set_mins_type ASM_TYPE_ARITH;;
  let temp := mips_convert_format_t buf in
  set_mop_baser 0 (trap_rs temp);;
  asm_mips_operand_fetch 0 buf ASM_MIPS_OTYPE_REGISTER;;
  set_mop_baser 1 (trap_rt temp);;
  asm_mips_operand_fetch 1 buf ASM_MIPS_OTYPE_REGISTER;;
  ret 4.

Definition asm_mips_div : mips_handler := λ buf,
  set_mins_instr ASM_MIPS_DIV;;
  set_mins_type ASM_TYPE_ARITH;;
  let temp := mips_convert_format_t buf in
  set_mop_baser 0 (trap_rs temp);;
  asm_mips_operand_fetch 0 buf ASM_MIPS_OTYPE_REGISTER;;
  set_mop_baser 1 (trap_rt temp);;
  asm_mips_operand_fetch 1 buf ASM_MIPS_OTYPE_REGISTER;;
  ret 4.

Definition asm_mips_divu : mips_handler := λ buf,
  set_mins_instr ASM_MIPS_DIVU;;
  set_mins_type ASM_TYPE_ARITH;;
  let temp := mips_convert_format_t buf in
  set_mop_baser 0 (trap_rs temp);;
  asm_mips_operand_fetch 0 buf ASM_MIPS_OTYPE_REGISTER;;
  set_mop_baser 1 (trap_rt temp);;
  asm_mips_operand_fetch 1 buf ASM_MIPS_OTYPE_REGISTER;;
  ret 4.

Definition asm_mips_dmult : mips_handler := λ buf,
  set_mins_instr ASM_MIPS_DMULT;;
  set_mins_type ASM_TYPE_ARITH;;
  let temp := mips_convert_format_t buf in
  set_mop_baser 0 (trap_rs temp);;
  asm_mips_operand_fetch 0 buf ASM_MIPS_OTYPE_REGISTER;;
  set_mop_baser 1 (trap_rt temp);;
  asm_mips_operand_fetch 1 buf ASM_MIPS_OTYPE_REGISTER;;
  ret 4.

Definition asm_mips_dmultu : mips_handler := λ buf,
  set_mins_instr ASM_MIPS_DMULTU;;
  set_mins_type ASM_TYPE_ARITH;;
  let temp := mips_convert_format_t buf in
  set_mop_baser 0 (trap_rs temp);;
  asm_mips_operand_fetch 0 buf ASM_MIPS_OTYPE_REGISTER;;
  set_mop_baser 1 (trap_rt temp);;
  asm_mips_operand_fetch 1 buf ASM_MIPS_OTYPE_REGISTER;;
  ret 4.

Definition asm_mips_dsub : mips_handler := λ buf,
  set_mins_instr ASM_MIPS_DSUB;;
  set_mins_type ASM_TYPE_ARITH;;
  let temp := mips_convert_format_r buf in
  set_mop_baser 0 (reg_rd temp);;
  asm_mips_operand_fetch 0 buf ASM_MIPS_OTYPE_REGISTER;;
  set_mop_baser 1 (reg_rs temp);;
  asm_mips_operand_fetch 1 buf ASM_MIPS_OTYPE_REGISTER;;
  set_mop_baser 2 (reg_rt temp);;
  asm_mips_operand_fetch 2 buf ASM_MIPS_OTYPE_REGISTER;;
  ret 4.

Definition asm_mips_dsubu : mips_handler := λ buf,
  set_mins_instr ASM_MIPS_DSUBU;;
  set_mins_type ASM_TYPE_ARITH;;
  let temp := mips_convert_format_r buf in
  set_mop_baser 0 (reg_rd temp);;
  asm_mips_operand_fetch 0 buf ASM_MIPS_OTYPE_REGISTER;;
  set_mop_baser 1 (reg_rs temp);;
  asm_mips_operand_fetch 1 buf ASM_MIPS_OTYPE_REGISTER;;
  set_mop_baser 2 (reg_rt temp);;
  asm_mips_operand_fetch 2 buf ASM_MIPS_OTYPE_REGISTER;;
  ret 4.

Definition asm_mips_madd : mips_handler := λ buf,
  set_mins_instr ASM_MIPS_MADD;;
  set_mins_type ASM_TYPE_ARITH;;
  let temp := mips_convert_format_r buf in
  set_mop_baser 0 (reg_rs temp);;
  asm_mips_operand_fetch 0 buf ASM_MIPS_OTYPE_REGISTER;;
  set_mop_baser 1 (reg_rt temp);;
  asm_mips_operand_fetch 1 buf ASM_MIPS_OTYPE_REGISTER;;
  ret 4.

Definition asm_mips_maddu : mips_handler := λ buf,
  set_mins_instr ASM_MIPS_MADDU;;
  set_mins_type ASM_TYPE_ARITH;;
  let temp := mips_convert_format_r buf in
  set_mop_baser 0 (reg_rs temp);;
  asm_mips_operand_fetch 0 buf ASM_MIPS_OTYPE_REGISTER;;
  set_mop_baser 1 (reg_rt temp);;
  asm_mips_operand_fetch 1 buf ASM_MIPS_OTYPE_REGISTER;;
  ret 4.

Definition asm_mips_msub : mips_handler := λ buf,
  set_mins_instr ASM_MIPS_MSUB;;
  set_mins_type ASM_TYPE_ARITH;;
  let temp := mips_convert_format_r buf in
  set_mop_baser 0 (reg_rs temp);;
  asm_mips_operand_fetch 0 buf ASM_MIPS_OTYPE_REGISTER;;
  set_mop_baser 1 (reg_rt temp);;
  asm_mips_operand_fetch 1 buf ASM_MIPS_OTYPE_REGISTER;;
  ret 4.

Definition asm_mips_msubu : mips_handler := λ buf,
  set_mins_instr ASM_MIPS_MSUBU;;
  set_mins_type ASM_TYPE_ARITH;;
  let temp := mips_convert_format_r buf in
  set_mop_baser 0 (reg_rs temp);;
  asm_mips_operand_fetch 0 buf ASM_MIPS_OTYPE_REGISTER;;
  set_mop_baser 1 (reg_rt temp);;
  asm_mips_operand_fetch 1 buf ASM_MIPS_OTYPE_REGISTER;;
  ret 4.

Definition asm_mips_mul : mips_handler := λ buf,
  set_mins_instr ASM_MIPS_MUL;;
  set_mins_type ASM_TYPE_ARITH;;
  let temp := mips_convert_format_r buf in
  set_mop_baser 0 (reg_rd temp);;
  asm_mips_operand_fetch 0 buf ASM_MIPS_OTYPE_REGISTER;;
  set_mop_baser 1 (reg_rs temp);;
  asm_mips_operand_fetch 1 buf ASM_MIPS_OTYPE_REGISTER;;
  set_mop_baser 2 (reg_rt temp);;
  asm_mips_operand_fetch 2 buf ASM_MIPS_OTYPE_REGISTER;;
  ret 4.

Definition asm_mips_mult : mips_handler := λ buf,
  set_mins_instr ASM_MIPS_MULT;;
  set_mins_type ASM_TYPE_ARITH;;
  let temp := mips_convert_format_t buf in
  set_mop_baser 0 (trap_rs temp);;
  asm_mips_operand_fetch 0 buf ASM_MIPS_OTYPE_REGISTER;;
  set_mop_baser 1 (trap_rt temp);;
  asm_mips_operand_fetch 1 buf ASM_MIPS_OTYPE_REGISTER;;
  ret 4.

Definition asm_mips_multu : mips_handler := λ buf,
  set_mins_instr ASM_MIPS_MULTU;;
  set_mins_type ASM_TYPE_ARITH;;
  let temp := mips_convert_format_t buf in
  set_mop_baser 0 (trap_rs temp);;
  asm_mips_operand_fetch 0 buf ASM_MIPS_OTYPE_REGISTER;;
  set_mop_baser 1 (trap_rt temp);;
  asm_mips_operand_fetch 1 buf ASM_MIPS_OTYPE_REGISTER;;
  ret 4.

Definition asm_mips_slt : mips_handler := λ buf,
  set_mins_instr ASM_MIPS_SLT;;
  set_mins_type ASM_TYPE_COMPARISON;;
  let temp := mips_convert_format_r buf in
  set_mop_baser 0 (reg_rd temp);;
  asm_mips_operand_fetch 0 buf ASM_MIPS_OTYPE_REGISTER;;
  set_mop_baser 1 (reg_rs temp);;
  asm_mips_operand_fetch 1 buf ASM_MIPS_OTYPE_REGISTER;;
  set_mop_baser 2 (reg_rt temp);;
  asm_mips_operand_fetch 2 buf ASM_MIPS_OTYPE_REGISTER;;
  ret 4.

Definition asm_mips_slti : mips_handler := λ buf,
  set_mins_instr ASM_MIPS_SLTI;;
  set_mins_type ASM_TYPE_COMPARISON;;
  let temp := mips_convert_format_i buf in
  set_mop_baser 0 (imm_rt temp);;
  asm_mips_operand_fetch 0 buf ASM_MIPS_OTYPE_REGISTER;;
  set_mop_baser 1 (imm_rs temp);;
  asm_mips_operand_fetch 1 buf ASM_MIPS_OTYPE_REGISTER;;
  set_mop_imm 2 (imm_im temp);;
  asm_mips_operand_fetch 2 buf ASM_MIPS_OTYPE_IMMEDIATE;;
  ret 4.

Definition asm_mips_sltiu : mips_handler := λ buf,
  set_mins_instr ASM_MIPS_SLTIU;;
  set_mins_type ASM_TYPE_COMPARISON;;
  let temp := mips_convert_format_i buf in
  set_mop_baser 0 (imm_rt temp);;
  asm_mips_operand_fetch 0 buf ASM_MIPS_OTYPE_REGISTER;;
  set_mop_baser 1 (imm_rs temp);;
  asm_mips_operand_fetch 1 buf ASM_MIPS_OTYPE_REGISTER;;
  set_mop_imm 2 (imm_im temp);;
  asm_mips_operand_fetch 2 buf ASM_MIPS_OTYPE_IMMEDIATE;;
  ret 4.

Definition asm_mips_sltu : mips_handler := λ buf,
  set_mins_instr ASM_MIPS_SLTU;;
  set_mins_type ASM_TYPE_COMPARISON;;
  let temp := mips_convert_format_r buf in
  set_mop_baser 0 (reg_rd temp);;
  asm_mips_operand_fetch 0 buf ASM_MIPS_OTYPE_REGISTER;;
  set_mop_baser 1 (reg_rs temp);;
  asm_mips_operand_fetch 1 buf ASM_MIPS_OTYPE_REGISTER;;
  set_mop_baser 2 (reg_rt temp);;
  asm_mips_operand_fetch 2 buf ASM_MIPS_OTYPE_REGISTER;;
  ret 4.

Definition asm_mips_sub : mips_handler := λ buf,
  set_mins_instr ASM_MIPS_SUB;;
  set_mins_type ASM_TYPE_ARITH;;
  let temp := mips_convert_format_r buf in
  set_mop_baser 0 (reg_rd temp);;
  asm_mips_operand_fetch 0 buf ASM_MIPS_OTYPE_REGISTER;;
  set_mop_baser 1 (reg_rs temp);;
  asm_mips_operand_fetch 1 buf ASM_MIPS_OTYPE_REGISTER;;
  set_mop_baser 2 (reg_rt temp);;
  asm_mips_operand_fetch 2 buf ASM_MIPS_OTYPE_REGISTER;;
  ret 4.

Definition asm_mips_subu : mips_handler := λ buf,
  set_mins_instr ASM_MIPS_SUBU;;
  set_mins_type ASM_TYPE_ARITH;;
  let temp := mips_convert_format_r buf in
  set_mop_baser 0 (reg_rd temp);;
  asm_mips_operand_fetch 0 buf ASM_MIPS_OTYPE_REGISTER;;
  set_mop_baser 1 (reg_rs temp);;
  asm_mips_operand_fetch 1 buf ASM_MIPS_OTYPE_REGISTER;;
  set_mop_baser 2 (reg_rt temp);;
  asm_mips_operand_fetch 2 buf ASM_MIPS_OTYPE_REGISTER;;
  ret 4.

Definition asm_mips_seb : mips_handler := λ buf,
  set_mins_instr ASM_MIPS_SEB;;
  ret 4.

Definition asm_mips_seh : mips_handler := λ buf,
  set_mins_instr ASM_MIPS_SEH;;
  ret 4.

Definition asm_mips_b : mips_handler := λ buf,
  set_mins_instr ASM_MIPS_B;;
  set_mins_type ASM_TYPE_BRANCH;;
  let temp := mips_convert_format_i buf in
  set_mop_imm 0 (imm_im temp);;
  asm_mips_operand_fetch 0 buf ASM_MIPS_OTYPE_BRANCH;;
  ret 4.

Definition asm_mips_bal : mips_handler := λ buf,
  set_mins_instr ASM_MIPS_BAL;;
  set_mins_type ASM_TYPE_CALLPROC;;
  let temp := mips_convert_format_i buf in
  set_mop_imm 0 (imm_im temp);;
  asm_mips_operand_fetch 0 buf ASM_MIPS_OTYPE_BRANCH;;
  ret 4.

Definition asm_mips_beq : mips_handler := λ buf,
  let converted := buf in
  (let v := (converted ≫ 16) &&& 1023 in
     if v =? otype_code ASM_MIPS_OTYPE_NONE then _ ← asm_mips_b buf; ret tt else
     set_mins_instr ASM_MIPS_BEQ;;
     set_mins_type (ASM_TYPE_BRANCH ||| ASM_TYPE_CONDCONTROL);;
     let temp := mips_convert_format_i buf in
     set_mop_baser 0 (imm_rs temp);;
     asm_mips_operand_fetch 0 buf ASM_MIPS_OTYPE_REGISTER;;
     set_mop_baser 1 (imm_rt temp);;
     asm_mips_operand_fetch 1 buf ASM_MIPS_OTYPE_REGISTER;;
     set_mop_imm 2 (imm_im temp);;
     asm_mips_operand_fetch 2 buf ASM_MIPS_OTYPE_BRANCH;;
     ret tt);;
  ret 4.

Definition asm_mips_bgez : mips_handler := λ buf,
  set_mins_instr ASM_MIPS_BGEZ;;
  set_mins_type (ASM_TYPE_BRANCH ||| ASM_TYPE_CONDCONTROL);;
  let temp := mips_convert_format_i buf in
  set_mop_baser 0 (imm_rs temp);;
  asm_mips_operand_fetch 0 buf ASM_MIPS_OTYPE_REGISTER;;
  set_mop_imm 1 (imm_im temp);;
  asm_mips_operand_fetch 1 buf ASM_MIPS_OTYPE_BRANCH;;
  ret 4.

Definition asm_mips_bgezal : mips_handler := λ buf,
  set_mins_instr ASM_MIPS_BGEZAL;;
  set_mins_type (ASM_TYPE_CONDCONTROL ||| ASM_TYPE_CALLPROC);;
  let temp := mips_convert_format_i buf in
  set_mop_baser 0 (imm_rs temp);;
  asm_mips_operand_fetch 0 buf ASM_MIPS_OTYPE_REGISTER;;
  set_mop_imm 1 (imm_im temp);;
  asm_mips_operand_fetch 1 buf ASM_MIPS_OTYPE_BRANCH;;
  ret 4.

Definition asm_mips_bgtz : mips_handler := λ buf,
  set_mins_instr ASM_MIPS_BGTZ;;
  set_mins_type (ASM_TYPE_BRANCH ||| ASM_TYPE_CONDCONTROL);;
  let temp := mips_convert_format_i buf in
  set_mop_baser 0 (imm_rs temp);;
  asm_mips_operand_fetch 0 buf ASM_MIPS_OTYPE_REGISTER;;
  set_mop_imm 1 (imm_im temp);;
  asm_mips_operand_fetch 1 buf ASM_MIPS_OTYPE_BRANCH;;
  ret 4.

Definition asm_mips_blez : mips_handler := λ buf,
  set_mins_instr ASM_MIPS_BLEZ;;
  set_mins_type (ASM_TYPE_BRANCH ||| ASM_TYPE_CONDCONTROL);;
  let temp := mips_convert_format_i buf in
  set_mop_baser 0 (imm_rs temp);;
  asm_mips_operand_fetch 0 buf ASM_MIPS_OTYPE_REGISTER;;
  set_mop_imm 1 (imm_im temp);;
  asm_mips_operand_fetch 1 buf ASM_MIPS_OTYPE_BRANCH;;
  ret 4.

Definition asm_mips_bltz : mips_handler := λ buf,
  set_mins_instr ASM_MIPS_BLTZ;;
  set_mins_type (ASM_TYPE_BRANCH ||| ASM_TYPE_CONDCONTROL);;
  let temp := mips_convert_format_i buf in
  set_mop_baser 0 (imm_rs temp);;
  asm_mips_operand_fetch 0 buf ASM_MIPS_OTYPE_REGISTER;;
  set_mop_imm 1 (imm_im temp);;
  asm_mips_operand_fetch 1 buf ASM_MIPS_OTYPE_BRANCH;;
  ret 4.

Definition asm_mips_bltzal : mips_handler := λ buf,
  set_mins_instr ASM_MIPS_BLTZAL;;
  set_mins_type (ASM_TYPE_CONDCONTROL ||| ASM_TYPE_CALLPROC);;
  let temp := mips_convert_format_i buf in
  set_mop_baser 0 (imm_rs temp);;
  asm_mips_operand_fetch 0 buf ASM_MIPS_OTYPE_REGISTER;;
  set_mop_imm 1 (imm_im temp);;
  asm_mips_operand_fetch 1 buf ASM_MIPS_OTYPE_BRANCH;;
  ret 4.

Definition asm_mips_bne : mips_handler := λ buf,
  set_mins_instr ASM_MIPS_BNE;;
  set_mins_type (ASM_TYPE_BRANCH ||| ASM_TYPE_CONDCONTROL);;
  let temp := mips_convert_format_i buf in
  set_mop_baser 0 (imm_rs temp);;
  asm_mips_operand_fetch 0 buf ASM_MIPS_OTYPE_REGISTER;;
  set_mop_baser 1 (imm_rt temp);;
  asm_mips_operand_fetch 1 buf ASM_MIPS_OTYPE_REGISTER;;
  set_mop_imm 2 (imm_im temp);;
  asm_mips_operand_fetch 2 buf ASM_MIPS_OTYPE_BRANCH;;
  ret 4.

Definition asm_mips_j : mips_handler := λ buf,
  set_mins_instr ASM_MIPS_J;;
  set_mins_type ASM_TYPE_BRANCH;;
  let temp := mips_convert_format_j buf in
  set_mop_imm 0 (jump_ta temp);;
  asm_mips_operand_fetch 0 buf ASM_MIPS_OTYPE_JUMP;;
  ret 4.

Definition asm_mips_jal : mips_handler := λ buf,
  set_mins_instr ASM_MIPS_JAL;;
  set_mins_type ASM_TYPE_CALLPROC;;
  let temp := mips_convert_format_j buf in
  set_mop_imm 0 (jump_ta temp);;
  asm_mips_operand_fetch 0 buf ASM_MIPS_OTYPE_JUMP;;
  ret 4.

Definition asm_mips_jalr : mips_handler := λ buf,
  set_mins_instr ASM_MIPS_JALR;;
  set_mins_type ASM_TYPE_CALLPROC;;
  let temp := mips_convert_format_r buf in
  set_mop_baser 0 (reg_rs temp);;
  asm_mips_operand_fetch 0 buf ASM_MIPS_OTYPE_REGISTER;;
  ret 4.

Definition asm_mips_jr : mips_handler := λ buf,
  set_mins_instr ASM_MIPS_JR;;
  let temp := mips_convert_format_r buf in
  set_mop_baser 0 (reg_rs temp);;
  asm_mips_operand_fetch 0 buf ASM_MIPS_OTYPE_REGISTER;;
  (if reg_rs temp =? ASM_MIPS_REG_RA then set_mins_type ASM_TYPE_RETPROC else set_mins_type ASM_TYPE_BRANCH);;
  ret 4.

Definition asm_mips_jalr_hb : mips_handler := λ buf,
  _ ← asm_mips_jalr buf;
  ret 4.

Definition asm_mips_jr_hb : mips_handler := λ buf,
  _ ← asm_mips_jr buf;
  ret 4.

Definition asm_mips_nop : mips_handler := λ buf,
  set_mins_instr ASM_MIPS_NOP;;
  set_mins_type ASM_TYPE_NOP;;
  asm_mips_operand_fetch 0 buf ASM_MIPS_OTYPE_NOOP;;
  ret 4.

Definition asm_mips_ssnop : mips_handler := λ buf,
  set_mins_instr ASM_MIPS_SSNOP;;
  set_mins_type ASM_TYPE_NOP;;
  asm_mips_operand_fetch 0 buf ASM_MIPS_OTYPE_NOOP;;
  ret 4.

Definition asm_mips_lb : mips_handler := λ buf,
  set_mins_instr ASM_MIPS_LB;;
  set_mins_type ASM_TYPE_LOAD;;
  let temp := mips_convert_format_i buf in
  set_mop_baser 0 (imm_rt temp);;
  asm_mips_operand_fetch 0 buf ASM_MIPS_OTYPE_REGISTER;;
  set_mop_imm 1 (imm_im temp);;
  asm_mips_operand_fetch 1 buf ASM_MIPS_OTYPE_IMMEDIATE;;
  set_mop_baser 2 (imm_rs temp);;
  asm_mips_operand_fetch 2 buf ASM_MIPS_OTYPE_REGBASE;;
  ret 4.

Definition asm_mips_lbu : mips_handler := λ buf,
  set_mins_instr ASM_MIPS_LBU;;
  set_mins_type ASM_TYPE_LOAD;;
  let temp := mips_convert_format_i buf in
  set_mop_baser 0 (imm_rt temp);;
  asm_mips_operand_fetch 0 buf ASM_MIPS_OTYPE_REGISTER;;
  set_mop_imm 1 (imm_im temp);;
  asm_mips_operand_fetch 1 buf ASM_MIPS_OTYPE_IMMEDIATE;;
  set_mop_baser 2 (imm_rs temp);;
  asm_mips_operand_fetch 2 buf ASM_MIPS_OTYPE_REGBASE;;
  ret 4.

Definition asm_mips_ld : mips_handler := λ buf,
  set_mins_instr ASM_MIPS_LD;;
  set_mins_type ASM_TYPE_LOAD;;
  let temp := mips_convert_format_i buf in
  set_mop_baser 0 (imm_rt temp);;
  asm_mips_operand_fetch 0 buf ASM_MIPS_OTYPE_REGISTER;;
  set_mop_imm 1 (imm_im temp);;
  asm_mips_operand_fetch 1 buf ASM_MIPS_OTYPE_IMMEDIATE;;
  set_mop_baser 2 (imm_rs temp);;
  asm_mips_operand_fetch 2 buf ASM_MIPS_OTYPE_REGBASE;;
  ret 4.

Definition asm_mips_ldl : mips_handler := λ buf,
  set_mins_instr ASM_MIPS_LDL;;
  set_mins_type (ASM_TYPE_LOAD ||| ASM_TYPE_ARCH);;
  let temp := mips_convert_format_i buf in
  set_mop_baser 0 (imm_rt temp);;
  asm_mips_operand_fetch 0 buf ASM_MIPS_OTYPE_REGISTER;;
  set_mop_imm 1 (imm_im temp);;
  asm_mips_operand_fetch 1 buf ASM_MIPS_OTYPE_IMMEDIATE;;
  set_mop_baser 2 (imm_rs temp);;
  asm_mips_operand_fetch 2 buf ASM_MIPS_OTYPE_REGBASE;;
  ret 4.

Definition asm_mips_ldr : mips_handler := λ buf,
  set_mins_instr ASM_MIPS_LDR;;
  set_mins_type (ASM_TYPE_LOAD ||| ASM_TYPE_ARCH);;
  let temp := mips_convert_format_i buf in
  set_mop_baser 0 (imm_rt temp);;
  asm_mips_operand_fetch 0 buf ASM_MIPS_OTYPE_REGISTER;;
  set_mop_imm 1 (imm_im temp);;
  asm_mips_operand_fetch 1 buf ASM_MIPS_OTYPE_IMMEDIATE;;
  set_mop_baser 2 (imm_rs temp);;
  asm_mips_operand_fetch 2 buf ASM_MIPS_OTYPE_REGBASE;;
  ret 4.

Definition asm_mips_lh : mips_handler := λ buf,
  set_mins_instr ASM_MIPS_LH;;
  set_mins_type ASM_TYPE_LOAD;;
  let temp := mips_convert_format_i buf in
  set_mop_baser 0 (imm_rt temp);;
  asm_mips_operand_fetch 0 buf ASM_MIPS_OTYPE_REGISTER;;
  set_mop_imm 1 (imm_im temp);;
  asm_mips_operand_fetch 1 buf ASM_MIPS_OTYPE_IMMEDIATE;;
  set_mop_baser 2 (imm_rs temp);;
  asm_mips_operand_fetch 2 buf ASM_MIPS_OTYPE_REGBASE;;
  ret 4.

Definition asm_mips_lhu : mips_handler := λ buf,
  set_mins_instr ASM_MIPS_LHU;;
  set_mins_type ASM_TYPE_LOAD;;
  let temp := mips_convert_format_i buf in
  set_mop_baser 0 (imm_rt temp);;
  asm_mips_operand_fetch 0 buf ASM_MIPS_OTYPE_REGISTER;;
  set_mop_imm 1 (imm_im temp);;
  asm_mips_operand_fetch 1 buf ASM_MIPS_OTYPE_IMMEDIATE;;
  set_mop_baser 2 (imm_rs temp);;
  asm_mips_operand_fetch 2 buf ASM_MIPS_OTYPE_REGBASE;;
  ret 4.

Definition asm_mips_ll : mips_handler := λ buf,
  set_mins_instr ASM_MIPS_LL;;
  set_mins_type ASM_TYPE_LOAD;;
  let temp := mips_convert_format_i buf in
  set_mop_baser 0 (imm_rt temp);;
  asm_mips_operand_fetch 0 buf ASM_MIPS_OTYPE_REGISTER;;
  set_mop_imm 1 (imm_im temp);;
  asm_mips_operand_fetch 1 buf ASM_MIPS_OTYPE_IMMEDIATE;;
  set_mop_baser 2 (imm_rs temp);;
  asm_mips_operand_fetch 2 buf ASM_MIPS_OTYPE_REGBASE;;
  ret 4.

Definition asm_mips_lld : mips_handler := λ buf,
  set_mins_instr ASM_MIPS_LLD;;
  set_mins_type ASM_TYPE_LOAD;;
  let temp := mips_convert_format_i buf in
  set_mop_baser 0 (imm_rt temp);;
  asm_mips_operand_fetch 0 buf ASM_MIPS_OTYPE_REGISTER;;
  set_mop_imm 1 (imm_im temp);;
  asm_mips_operand_fetch 1 buf ASM_MIPS_OTYPE_IMMEDIATE;;
  set_mop_baser 2 (imm_rs temp);;
  asm_mips_operand_fetch 2 buf ASM_MIPS_OTYPE_REGBASE;;
  ret 4.

Definition asm_mips_lw : mips_handler := λ buf,
  set_mins_instr ASM_MIPS_LW;;
  set_mins_type ASM_TYPE_LOAD;;
  let temp := mips_convert_format_i buf in
  set_mop_baser 0 (imm_rt temp);;
  asm_mips_operand_fetch 0 buf ASM_MIPS_OTYPE_REGISTER;;
  set_mop_imm 1 (imm_im temp);;
  asm_mips_operand_fetch 1 buf ASM_MIPS_OTYPE_IMMEDIATE;;
  set_mop_baser 2 (imm_rs temp);;
  asm_mips_operand_fetch 2 buf ASM_MIPS_OTYPE_REGBASE;;
  ret 4.

Definition asm_mips_lwl : mips_handler := λ buf,
  set_mins_instr ASM_MIPS_LWL;;
  set_mins_type ASM_TYPE_LOAD;;
  let temp := mips_convert_format_i buf in
  set_mop_baser 0 (imm_rt temp);;
  asm_mips_operand_fetch 0 buf ASM_MIPS_OTYPE_REGISTER;;
  set_mop_imm 1 (imm_im temp);;
  asm_mips_operand_fetch 1 buf ASM_MIPS_OTYPE_IMMEDIATE;;
  set_mop_baser 2 (imm_rs temp);;
  asm_mips_operand_fetch 2 buf ASM_MIPS_OTYPE_REGBASE;;
  ret 4.

Definition asm_mips_lwr : mips_handler := λ buf,
  set_mins_instr ASM_MIPS_LWR;;
  set_mins_type (ASM_TYPE_LOAD ||| ASM_TYPE_ARCH);;
  let temp := mips_convert_format_i buf in
  set_mop_baser 0 (imm_rt temp);;
  asm_mips_operand_fetch 0 buf ASM_MIPS_OTYPE_REGISTER;;
  set_mop_imm 1 (imm_im temp);;
  asm_mips_operand_fetch 1 buf ASM_MIPS_OTYPE_IMMEDIATE;;
  set_mop_baser 2 (imm_rs temp);;
  asm_mips_operand_fetch 2 buf ASM_MIPS_OTYPE_REGBASE;;
  ret 4.

Definition asm_mips_lwu : mips_handler := λ buf,
  set_mins_instr ASM_MIPS_LWU;;
  set_mins_type (ASM_TYPE_LOAD ||| ASM_TYPE_ARCH);;
  let temp := mips_convert_format_i buf in
  set_mop_baser 0 (imm_rt temp);;
  asm_mips_operand_fetch 0 buf ASM_MIPS_OTYPE_REGISTER;;
  set_mop_imm 1 (imm_im temp);;
  asm_mips_operand_fetch 1 buf ASM_MIPS_OTYPE_IMMEDIATE;;
  set_mop_baser 2 (imm_rs temp);;
  asm_mips_operand_fetch 2 buf ASM_MIPS_OTYPE_REGBASE;;
  ret 4.

Definition asm_mips_pref : mips_handler := λ buf,
  set_mins_instr ASM_MIPS_PREF;;
  set_mins_type (ASM_TYPE_ARCH ||| ASM_TYPE_LOAD);;
  let temp := mips_convert_format_i buf in
  set_mop_baser 0 (imm_rt temp);;
  asm_mips_operand_fetch 0 buf ASM_MIPS_OTYPE_REGISTER;;
  set_mop_imm 1 (imm_im temp);;
  asm_mips_operand_fetch 1 buf ASM_MIPS_OTYPE_IMMEDIATE;;
  set_mop_baser 2 (imm_rs temp);;
  asm_mips_operand_fetch 2 buf ASM_MIPS_OTYPE_REGBASE;;
  ret 4.

Definition asm_mips_sb : mips_handler := λ buf,
  set_mins_instr ASM_MIPS_SB;;
  set_mins_type ASM_TYPE_STORE;;
  let temp := mips_convert_format_i buf in
  set_mop_baser 0 (imm_rt temp);;
  asm_mips_operand_fetch 0 buf ASM_MIPS_OTYPE_REGISTER;;
  set_mop_imm 1 (imm_im temp);;
  asm_mips_operand_fetch 1 buf ASM_MIPS_OTYPE_IMMEDIATE;;
  set_mop_baser 2 (imm_rs temp);;
  asm_mips_operand_fetch 2 buf ASM_MIPS_OTYPE_REGBASE;;
  ret 4.

Definition asm_mips_sc : mips_handler := λ buf,
  set_mins_instr ASM_MIPS_SC;;
  set_mins_type ASM_TYPE_STORE;;
  let temp := mips_convert_format_i buf in
  set_mop_baser 0 (imm_rt temp);;
  asm_mips_operand_fetch 0 buf ASM_MIPS_OTYPE_REGISTER;;
  set_mop_imm 1 (imm_im temp);;
  asm_mips_operand_fetch 1 buf ASM_MIPS_OTYPE_IMMEDIATE;;
  set_mop_baser 2 (imm_rs temp);;
  asm_mips_operand_fetch 2 buf ASM_MIPS_OTYPE_REGBASE;;
  ret 4.

Definition asm_mips_scd : mips_handler := λ buf,
  set_mins_instr ASM_MIPS_SCD;;
  set_mins_type ASM_TYPE_STORE;;
  let temp := mips_convert_format_i buf in
  set_mop_baser 0 (imm_rt temp);;
  asm_mips_operand_fetch 0 buf ASM_MIPS_OTYPE_REGISTER;;
  set_mop_imm 1 (imm_im temp);;
  asm_mips_operand_fetch 1 buf ASM_MIPS_OTYPE_IMMEDIATE;;
  set_mop_baser 2 (imm_rs temp);;
  asm_mips_operand_fetch 2 buf ASM_MIPS_OTYPE_REGBASE;;
  ret 4.

Definition asm_mips_sd : mips_handler := λ buf,
  set_mins_instr ASM_MIPS_SD;;
  set_mins_type ASM_TYPE_STORE;;
  let temp := mips_convert_format_i buf in
  set_mop_baser 0 (imm_rt temp);;
  asm_mips_operand_fetch 0 buf ASM_MIPS_OTYPE_REGISTER;;
  set_mop_imm 1 (imm_im temp);;
  asm_mips_operand_fetch 1 buf ASM_MIPS_OTYPE_IMMEDIATE;;
  set_mop_baser 2 (imm_rs temp);;
  asm_mips_operand_fetch 2 buf ASM_MIPS_OTYPE_REGBASE;;
  ret 4.

Definition asm_mips_sdl : mips_handler := λ buf,
  set_mins_instr ASM_MIPS_SDL;;
  set_mins_type ASM_TYPE_STORE;;
  let temp := mips_convert_format_i buf in
  set_mop_baser 0 (imm_rt temp);;
  asm_mips_operand_fetch 0 buf ASM_MIPS_OTYPE_REGISTER;;
  set_mop_imm 1 (imm_im temp);;
  asm_mips_operand_fetch 1 buf ASM_MIPS_OTYPE_IMMEDIATE;;
  set_mop_baser 2 (imm_rs temp);;
  asm_mips_operand_fetch 2 buf ASM_MIPS_OTYPE_REGBASE;;
  ret 4.

Definition asm_mips_sdr : mips_handler := λ buf,
  set_mins_instr ASM_MIPS_SDR;;
  set_mins_type ASM_TYPE_STORE;;
  let temp := mips_convert_format_i buf in
  set_mop_baser 0 (imm_rt temp);;
  asm_mips_operand_fetch 0 buf ASM_MIPS_OTYPE_REGISTER;;
  set_mop_imm 1 (imm_im temp);;
  asm_mips_operand_fetch 1 buf ASM_MIPS_OTYPE_IMMEDIATE;;
  set_mop_baser 2 (imm_rs temp);;
  asm_mips_operand_fetch 2 buf ASM_MIPS_OTYPE_REGBASE;;
  ret 4.

Definition asm_mips_sh : mips_handler := λ buf,
  set_mins_instr ASM_MIPS_SH;;
  set_mins_type ASM_TYPE_STORE;;
  let temp := mips_convert_format_i buf in
  set_mop_baser 0 (imm_rt temp);;
  asm_mips_operand_fetch 0 buf ASM_MIPS_OTYPE_REGISTER;;
  set_mop_imm 1 (imm_im temp);;
  asm_mips_operand_fetch 1 buf ASM_MIPS_OTYPE_IMMEDIATE;;
  set_mop_baser 2 (imm_rs temp);;
  asm_mips_operand_fetch 2 buf ASM_MIPS_OTYPE_REGBASE;;
  ret 4.

Definition asm_mips_sw : mips_handler := λ buf,
  set_mins_instr ASM_MIPS_SW;;
  set_mins_type ASM_TYPE_STORE;;
  let temp := mips_convert_format_i buf in
  set_mop_baser 0 (imm_rt temp);;
  asm_mips_operand_fetch 0 buf ASM_MIPS_OTYPE_REGISTER;;
  set_mop_imm 1 (imm_im temp);;
  asm_mips_operand_fetch 1 buf ASM_MIPS_OTYPE_IMMEDIATE;;
  set_mop_baser 2 (imm_rs temp);;
  asm_mips_operand_fetch 2 buf ASM_MIPS_OTYPE_REGBASE;;
  ret 4.

Definition asm_mips_swl : mips_handler := λ buf,
  set_mins_instr ASM_MIPS_SWL;;
  set_mins_type ASM_TYPE_STORE;;
  let temp := mips_convert_format_i buf in
  set_mop_baser 0 (imm_rt temp);;
  asm_mips_operand_fetch 0 buf ASM_MIPS_OTYPE_REGISTER;;
  set_mop_imm 1 (imm_im temp);;
  asm_mips_operand_fetch 1 buf ASM_MIPS_OTYPE_IMMEDIATE;;
  set_mop_baser 2 (imm_rs temp);;
  asm_mips_operand_fetch 2 buf ASM_MIPS_OTYPE_REGBASE;;
  ret 4.

Definition asm_mips_swr : mips_handler := λ buf,
  set_mins_instr ASM_MIPS_SWR;;
  set_mins_type ASM_TYPE_STORE;;
  let temp := mips_convert_format_i buf in
  set_mop_baser 0 (imm_rt temp);;
  asm_mips_operand_fetch 0 buf ASM_MIPS_OTYPE_REGISTER;;
  set_mop_imm 1 (imm_im temp);;
  asm_mips_operand_fetch 1 buf ASM_MIPS_OTYPE_IMMEDIATE;;
  set_mop_baser 2 (imm_rs temp);;
  asm_mips_operand_fetch 2 buf ASM_MIPS_OTYPE_REGBASE;;
  ret 4.

Definition asm_mips_sync : mips_handler := λ buf,
  set_mins_instr ASM_MIPS_SYNC;;
  set_mins_type (ASM_TYPE_LOAD ||| ASM_TYPE_STORE ||| ASM_TYPE_ARCH);;
  asm_mips_operand_fetch 0 buf ASM_MIPS_OTYPE_NOOP;;
  ret 4.

Definition asm_mips_synci : mips_handler := λ buf,
  set_mins_instr ASM_MIPS_SYNCI;;
  ret 4.

Definition asm_mips_and : mips_handler := λ buf,
  set_mins_instr ASM_MIPS_AND;;
  set_mins_type ASM_TYPE_ARITH;;
  let temp := mips_convert_format_r buf in
  set_mop_baser 0 (reg_rd temp);;
  asm_mips_operand_fetch 0 buf ASM_MIPS_OTYPE_REGISTER;;
  set_mop_baser 1 (reg_rs temp);;
  asm_mips_operand_fetch 1 buf ASM_MIPS_OTYPE_REGISTER;;
  set_mop_baser 2 (reg_rt temp);;
  asm_mips_operand_fetch 2 buf ASM_MIPS_OTYPE_REGISTER;;
  ret 4.

Definition asm_mips_andi : mips_handler := λ buf,
  set_mins_instr ASM_MIPS_ANDI;;
  set_mins_type ASM_TYPE_ARITH;;
  let temp := mips_convert_format_i buf in
  set_mop_baser 0 (imm_rt temp);;
  asm_mips_operand_fetch 0 buf ASM_MIPS_OTYPE_REGISTER;;
  set_mop_baser 1 (imm_rs temp);;
  asm_mips_operand_fetch 1 buf ASM_MIPS_OTYPE_REGISTER;;
  set_mop_imm 2 (imm_im temp);;
  asm_mips_operand_fetch 2 buf ASM_MIPS_OTYPE_IMMEDIATE;;
  ret 4.

Definition asm_mips_lui : mips_handler := λ buf,
  set_mins_instr ASM_MIPS_LUI;;
  set_mins_type ASM_TYPE_LOAD;;
  let temp := mips_convert_format_i buf in
  set_mop_baser 0 (imm_rt temp);;
  asm_mips_operand_fetch 0 buf ASM_MIPS_OTYPE_REGISTER;;
  set_mop_imm 1 (imm_im temp);;
  asm_mips_operand_fetch 1 buf ASM_MIPS_OTYPE_IMMEDIATE;;
  ret 4.

Definition asm_mips_nor : mips_handler := λ buf,
  set_mins_instr ASM_MIPS_NOR;;
  set_mins_type ASM_TYPE_ARITH;;
  let temp := mips_convert_format_r buf in
  set_mop_baser 0 (reg_rd temp);;
  asm_mips_operand_fetch 0 buf ASM_MIPS_OTYPE_REGISTER;;
  set_mop_baser 1 (reg_rs temp);;
  asm_mips_operand_fetch 1 buf ASM_MIPS_OTYPE_REGISTER;;
  set_mop_baser 2 (reg_rt temp);;
  asm_mips_operand_fetch 2 buf ASM_MIPS_OTYPE_REGISTER;;
  ret 4.

Definition asm_mips_or : mips_handler := λ buf,
  set_mins_instr ASM_MIPS_OR;;
  set_mins_type ASM_TYPE_ARITH;;
  let temp := mips_convert_format_r buf in
  set_mop_baser 0 (reg_rd temp);;
  asm_mips_operand_fetch 0 buf ASM_MIPS_OTYPE_REGISTER;;
  set_mop_baser 1 (reg_rs temp);;
  asm_mips_operand_fetch 1 buf ASM_MIPS_OTYPE_REGISTER;;
  set_mop_baser 2 (reg_rt temp);;
  asm_mips_operand_fetch 2 buf ASM_MIPS_OTYPE_REGISTER;;
  ret 4.

Definition asm_mips_ori : mips_handler := λ buf,
  set_mins_instr ASM_MIPS_ORI;;
  set_mins_type ASM_TYPE_ARITH;;
  let temp := mips_convert_format_i buf in
  set_mop_baser 0 (imm_rt temp);;
  asm_mips_operand_fetch 0 buf ASM_MIPS_OTYPE_REGISTER;;
  set_mop_baser 1 (imm_rs temp);;
  asm_mips_operand_fetch 1 buf ASM_MIPS_OTYPE_REGISTER;;
  set_mop_imm 2 (imm_im temp);;
  asm_mips_operand_fetch 2 buf ASM_MIPS_OTYPE_IMMEDIATE;;
  ret 4.

Definition asm_mips_xor : mips_handler := λ buf,
  set_mins_instr ASM_MIPS_XOR;;
  set_mins_type ASM_TYPE_ARITH;;
  let temp := mips_convert_format_r buf in
  set_mop_baser 0 (reg_rd temp);;
  asm_mips_operand_fetch 0 buf ASM_MIPS_OTYPE_REGISTER;;
  set_mop_baser 1 (reg_rs temp);;
  asm_mips_operand_fetch 1 buf ASM_MIPS_OTYPE_REGISTER;;
  set_mop_baser 2 (reg_rt temp);;
  asm_mips_operand_fetch 2 buf ASM_MIPS_OTYPE_REGISTER;;
  ret 4.

Definition asm_mips_xori : mips_handler := λ buf,
  set_mins_instr ASM_MIPS_XORI;;
  set_mins_type ASM_TYPE_ARITH;;
  let temp := mips_convert_format_i buf in
  set_mop_baser 0 (imm_rt temp);;
  asm_mips_operand_fetch 0 buf ASM_MIPS_OTYPE_REGISTER;;
  set_mop_baser 1 (imm_rs temp);;
  asm_mips_operand_fetch 1 buf ASM_MIPS_OTYPE_REGISTER;;
  set_mop_imm 2 (imm_im temp);;
  asm_mips_operand_fetch 2 buf ASM_MIPS_OTYPE_IMMEDIATE;;
  ret 4.

Definition asm_mips_ext : mips_handler := λ buf,
  set_mins_instr ASM_MIPS_EXT;;
  ret 4.

Definition asm_mips_ins : mips_handler := λ buf,
  set_mins_instr ASM_MIPS_INS;;
  ret 4.

Definition asm_mips_wsbh : mips_handler := λ buf,
  set_mins_instr ASM_MIPS_WSBH;;
  ret 4.

Definition asm_mips_mfhi : mips_handler := λ buf,
  set_mins_instr ASM_MIPS_MFHI;;
  set_mins_type (ASM_TYPE_ARCH ||| ASM_TYPE_ASSIGN);;
  let temp := mips_convert_format_r buf in
  set_mop_baser 0 (reg_rd temp);;
  asm_mips_operand_fetch 0 buf ASM_MIPS_OTYPE_REGISTER;;
  ret 4.

Definition asm_mips_mflo : mips_handler := λ buf,
  set_mins_instr ASM_MIPS_MFLO;;
  set_mins_type (ASM_TYPE_ARCH ||| ASM_TYPE_ASSIGN);;
  let temp := mips_convert_format_r buf in
  set_mop_baser 0 (reg_rd temp);;
  asm_mips_operand_fetch 0 buf ASM_MIPS_OTYPE_REGISTER;;
  ret 4.

Definition asm_mips_movf : mips_handler := λ buf,
  set_mins_instr ASM_MIPS_MOVF;;
  set_mins_type (ASM_TYPE_ARCH ||| ASM_TYPE_ASSIGN);;
  let temp := mips_convert_format_mov buf in
  set_mop_baser 0 (mov_rd temp);;
  asm_mips_operand_fetch 0 buf ASM_MIPS_OTYPE_REGISTER;;
  set_mop_baser 1 (mov_rs temp);;
  asm_mips_operand_fetch 1 buf ASM_MIPS_OTYPE_REGISTER;;
  set_mop_imm 2 (mov_cc temp);;
  asm_mips_operand_fetch 2 buf ASM_MIPS_OTYPE_IMMEDIATE;;
  ret 4.

Definition asm_mips_movn : mips_handler := λ buf,
  set_mins_instr ASM_MIPS_MOVN;;
  set_mins_type (ASM_TYPE_ARCH ||| ASM_TYPE_ASSIGN);;
  let temp := mips_convert_format_r buf in
  set_mop_baser 0 (reg_rd temp);;
  asm_mips_operand_fetch 0 buf ASM_MIPS_OTYPE_REGISTER;;
  set_mop_baser 1 (reg_rs temp);;
  asm_mips_operand_fetch 1 buf ASM_MIPS_OTYPE_REGISTER;;
  set_mop_baser 2 (reg_rt temp);;
  asm_mips_operand_fetch 2 buf ASM_MIPS_OTYPE_REGISTER;;
  ret 4.

Definition asm_mips_movt : mips_handler := λ buf,
  set_mins_instr ASM_MIPS_MOVT;;
  set_mins_type (ASM_TYPE_ARCH ||| ASM_TYPE_ASSIGN);;
  let temp := mips_convert_format_mov buf in
  set_mop_baser 0 (mov_rd temp);;
  asm_mips_operand_fetch 0 buf ASM_MIPS_OTYPE_REGISTER;;
  set_mop_baser 1 (mov_rs temp);;
  asm_mips_operand_fetch 1 buf ASM_MIPS_OTYPE_REGISTER;;
  set_mop_imm 2 (mov_cc temp);;
  asm_mips_operand_fetch 2 buf ASM_MIPS_OTYPE_IMMEDIATE;;
  ret 4.

Definition asm_mips_movz : mips_handler := λ buf,
  set_mins_instr ASM_MIPS_MOVZ;;
  set_mins_type (ASM_TYPE_ARCH ||| ASM_TYPE_ASSIGN);;
  let temp := mips_convert_format_r buf in
  set_mop_baser 0 (reg_rd temp);;
  asm_mips_operand_fetch 0 buf ASM_MIPS_OTYPE_REGISTER;;
  set_mop_baser 1 (reg_rs temp);;
  asm_mips_operand_fetch 1 buf ASM_MIPS_OTYPE_REGISTER;;
  set_mop_baser 2 (reg_rt temp);;
  asm_mips_operand_fetch 2 buf ASM_MIPS_OTYPE_REGISTER;;
  ret 4.

Definition asm_mips_mthi : mips_handler := λ buf,
  set_mins_instr ASM_MIPS_MTHI;;
  set_mins_type (ASM_TYPE_ARCH ||| ASM_TYPE_ASSIGN);;
  let temp := mips_convert_format_r buf in
  set_mop_baser 0 (reg_rs temp);;
  asm_mips_operand_fetch 0 buf ASM_MIPS_OTYPE_REGISTER;;
  ret 4.

Definition asm_mips_mtlo : mips_handler := λ buf,
  set_mins_instr ASM_MIPS_MTLO;;
  set_mins_type (ASM_TYPE_ARCH ||| ASM_TYPE_ASSIGN);;
  let temp := mips_convert_format_r buf in
  set_mop_baser 0 (reg_rs temp);;
  asm_mips_operand_fetch 0 buf ASM_MIPS_OTYPE_REGISTER;;
  ret 4.

Definition asm_mips_dsll : mips_handler := λ buf,
  set_mins_instr ASM_MIPS_DSLL;;
  set_mins_type ASM_TYPE_ARITH;;
  let temp := mips_convert_format_r buf in
  set_mop_baser 0 (reg_rd temp);;
  asm_mips_operand_fetch 0 buf ASM_MIPS_OTYPE_REGISTER;;
  set_mop_baser 1 (reg_rt temp);;
  asm_mips_operand_fetch 1 buf ASM_MIPS_OTYPE_REGISTER;;
  set_mop_imm 2 (reg_sa temp);;
  asm_mips_operand_fetch 2 buf ASM_MIPS_OTYPE_IMMEDIATE;;
  ret 4.

Definition asm_mips_dsll32 : mips_handler := λ buf,
  set_mins_instr ASM_MIPS_DSLL32;;
  set_mins_type ASM_TYPE_ARITH;;
  let temp := mips_convert_format_r buf in
  set_mop_baser 0 (reg_rd temp);;
  asm_mips_operand_fetch 0 buf ASM_MIPS_OTYPE_REGISTER;;
  set_mop_baser 1 (reg_rt temp);;
  asm_mips_operand_fetch 1 buf ASM_MIPS_OTYPE_REGISTER;;
  set_mop_imm 2 (reg_sa temp);;
  asm_mips_operand_fetch 2 buf ASM_MIPS_OTYPE_IMMEDIATE;;
  ret 4.

Definition asm_mips_dsllv : mips_handler := λ buf,
  set_mins_instr ASM_MIPS_DSLLV;;
  set_mins_type ASM_TYPE_ARITH;;
  let temp := mips_convert_format_r buf in
  set_mop_baser 0 (reg_rd temp);;
  asm_mips_operand_fetch 0 buf ASM_MIPS_OTYPE_REGISTER;;
  set_mop_baser 1 (reg_rt temp);;
  asm_mips_operand_fetch 1 buf ASM_MIPS_OTYPE_REGISTER;;
  set_mop_baser 2 (reg_rs temp);;
  asm_mips_operand_fetch 2 buf ASM_MIPS_OTYPE_REGISTER;;
  ret 4.

Definition asm_mips_dsra : mips_handler := λ buf,
  set_mins_instr ASM_MIPS_DSRA;;
  set_mins_type ASM_TYPE_ARITH;;
  let temp := mips_convert_format_r buf in
  set_mop_baser 0 (reg_rd temp);;
  asm_mips_operand_fetch 0 buf ASM_MIPS_OTYPE_REGISTER;;
  set_mop_baser 1 (reg_rt temp);;
  asm_mips_operand_fetch 1 buf ASM_MIPS_OTYPE_REGISTER;;
  set_mop_imm 2 (reg_sa temp);;
  asm_mips_operand_fetch 2 buf ASM_MIPS_OTYPE_IMMEDIATE;;
  ret 4.

Definition asm_mips_dsra32 : mips_handler := λ buf,
  set_mins_instr ASM_MIPS_DSRA32;;
  set_mins_type ASM_TYPE_ARITH;;
  let temp := mips_convert_format_r buf in
  set_mop_baser 0 (reg_rd temp);;
  asm_mips_operand_fetch 0 buf ASM_MIPS_OTYPE_REGISTER;;
  set_mop_baser 1 (reg_rt temp);;
  asm_mips_operand_fetch 1 buf ASM_MIPS_OTYPE_REGISTER;;
  set_mop_imm 2 (reg_sa temp);;
  asm_mips_operand_fetch 2 buf ASM_MIPS_OTYPE_IMMEDIATE;;
  ret 4.

Definition asm_mips_dsrav : mips_handler := λ buf,
  set_mins_instr ASM_MIPS_DSRAV;;
  set_mins_type ASM_TYPE_ARITH;;
  let temp := mips_convert_format_r buf in
  set_mop_baser 0 (reg_rd temp);;
  asm_mips_operand_fetch 0 buf ASM_MIPS_OTYPE_REGISTER;;
  set_mop_baser 1 (reg_rt temp);;
  asm_mips_operand_fetch 1 buf ASM_MIPS_OTYPE_REGISTER;;
  set_mop_baser 2 (reg_rs temp);;
  asm_mips_operand_fetch 2 buf ASM_MIPS_OTYPE_REGISTER;;
  ret 4.

Definition asm_mips_dsrl : mips_handler := λ buf,
  set_mins_instr ASM_MIPS_DSRL;;
  set_mins_type ASM_TYPE_ARITH;;
  let temp := mips_convert_format_r buf in
  set_mop_baser 0 (reg_rd temp);;
  asm_mips_operand_fetch 0 buf ASM_MIPS_OTYPE_REGISTER;;
  set_mop_baser 1 (reg_rt temp);;
  asm_mips_operand_fetch 1 buf ASM_MIPS_OTYPE_REGISTER;;
  set_mop_imm 2 (reg_sa temp);;
  asm_mips_operand_fetch 2 buf ASM_MIPS_OTYPE_IMMEDIATE;;
  ret 4.

Definition asm_mips_dsrl32 : mips_handler := λ buf,
  set_mins_instr ASM_MIPS_DSRL32;;
  set_mins_type ASM_TYPE_ARITH;;
  let temp := mips_convert_format_r buf in
  set_mop_baser 0 (reg_rd temp);;
  asm_mips_operand_fetch 0 buf ASM_MIPS_OTYPE_REGISTER;;
  set_mop_baser 1 (reg_rt temp);;
  asm_mips_operand_fetch 1 buf ASM_MIPS_OTYPE_REGISTER;;
  set_mop_imm 2 (reg_sa temp);;
  asm_mips_operand_fetch 2 buf ASM_MIPS_OTYPE_IMMEDIATE;;
  ret 4.

Definition asm_mips_dsrlv : mips_handler := λ buf,
  set_mins_instr ASM_MIPS_DSRLV;;
  set_mins_type ASM_TYPE_ARITH;;
  let temp := mips_convert_format_r buf in
  set_mop_baser 0 (reg_rd temp);;
  asm_mips_operand_fetch 0 buf ASM_MIPS_OTYPE_REGISTER;;
  set_mop_baser 1 (reg_rt temp);;
  asm_mips_operand_fetch 1 buf ASM_MIPS_OTYPE_REGISTER;;
  set_mop_baser 2 (reg_rs temp);;
  asm_mips_operand_fetch 2 buf ASM_MIPS_OTYPE_REGISTER;;
  ret 4.

Definition asm_mips_sll : mips_handler := λ buf,
  let converted := buf in
  (let v := (converted ≫ 6) &&& 1048575 in
     if v =? MIPS_OPCODE_NOP then _ ← asm_mips_nop buf; ret tt else
     if v =? MIPS_OPCODE_SSNOP then _ ← asm_mips_ssnop buf; ret tt else
     set_mins_instr ASM_MIPS_SLL;;
     set_mins_type ASM_TYPE_ARITH;;
     let temp := mips_convert_format_r buf in
     set_mop_baser 0 (reg_rd temp);;
     asm_mips_operand_fetch 0 buf ASM_MIPS_OTYPE_REGISTER;;
     set_mop_baser 1 (reg_rt temp);;
     asm_mips_operand_fetch 1 buf ASM_MIPS_OTYPE_REGISTER;;
     set_mop_imm 2 (reg_sa temp);;
     asm_mips_operand_fetch 2 buf ASM_MIPS_OTYPE_IMMEDIATE;;
     ret tt);;
  ret 4.

Definition asm_mips_sllv : mips_handler := λ buf,
  set_mins_instr ASM_MIPS_SLLV;;
  set_mins_type ASM_TYPE_ARITH;;
  let temp := mips_convert_format_r buf in
  set_mop_baser 0 (reg_rd temp);;
  asm_mips_operand_fetch 0 buf ASM_MIPS_OTYPE_REGISTER;;
  set_mop_baser 1 (reg_rt temp);;
  asm_mips_operand_fetch 1 buf ASM_MIPS_OTYPE_REGISTER;;
  set_mop_baser 2 (reg_rs temp);;
  asm_mips_operand_fetch 2 buf ASM_MIPS_OTYPE_REGISTER;;
  ret 4.

Definition asm_mips_sra : mips_handler := λ buf,
  set_mins_instr ASM_MIPS_SRA;;
  set_mins_type ASM_TYPE_ARITH;;
  let temp := mips_convert_format_r buf in
  set_mop_baser 0 (reg_rd temp);;
  asm_mips_operand_fetch 0 buf ASM_MIPS_OTYPE_REGISTER;;
  set_mop_baser 1 (reg_rt temp);;
  asm_mips_operand_fetch 1 buf ASM_MIPS_OTYPE_REGISTER;;
  set_mop_imm 2 (reg_sa temp);;
  asm_mips_operand_fetch 2 buf ASM_MIPS_OTYPE_IMMEDIATE;;
  ret 4.

Definition asm_mips_srav : mips_handler := λ buf,
  set_mins_instr ASM_MIPS_SRAV;;
  set_mins_type ASM_TYPE_ARITH;;
  let temp := mips_convert_format_r buf in
  set_mop_baser 0 (reg_rd temp);;
  asm_mips_operand_fetch 0 buf ASM_MIPS_OTYPE_REGISTER;;
  set_mop_baser 1 (reg_rt temp);;
  asm_mips_operand_fetch 1 buf ASM_MIPS_OTYPE_REGISTER;;
  set_mop_baser 2 (reg_rs temp);;
  asm_mips_operand_fetch 2 buf ASM_MIPS_OTYPE_REGISTER;;
  ret 4.

Definition asm_mips_srl : mips_handler := λ buf,
  set_mins_instr ASM_MIPS_SRL;;
  set_mins_type ASM_TYPE_ARITH;;
  let temp := mips_convert_format_r buf in
  set_mop_baser 0 (reg_rd temp);;
  asm_mips_operand_fetch 0 buf ASM_MIPS_OTYPE_REGISTER;;
  set_mop_baser 1 (reg_rt temp);;
  asm_mips_operand_fetch 1 buf ASM_MIPS_OTYPE_REGISTER;;
  set_mop_imm 2 (reg_sa temp);;
  asm_mips_operand_fetch 2 buf ASM_MIPS_OTYPE_IMMEDIATE;;
  ret 4.

Definition asm_mips_srlv : mips_handler := λ buf,
  set_mins_instr ASM_MIPS_SRLV;;
  set_mins_type ASM_TYPE_ARITH;;
  let temp := mips_convert_format_r buf in
  set_mop_baser 0 (reg_rd temp);;
  asm_mips_operand_fetch 0 buf ASM_MIPS_OTYPE_REGISTER;;
  set_mop_baser 1 (reg_rt temp);;
  asm_mips_operand_fetch 1 buf ASM_MIPS_OTYPE_REGISTER;;
  set_mop_baser 2 (reg_rs temp);;
  asm_mips_operand_fetch 2 buf ASM_MIPS_OTYPE_REGISTER;;
  ret 4.

Definition asm_mips_rdhwr : mips_handler := λ buf,
  set_mins_instr ASM_MIPS_RDHWR;;
  ret 4.

Definition asm_mips_rotr : mips_handler := λ buf,
  set_mins_instr ASM_MIPS_ROTR;;
  ret 4.

Definition asm_mips_rotrv : mips_handler := λ buf,
  set_mins_instr ASM_MIPS_ROTRV;;
  ret 4.

Definition asm_mips_break : mips_handler := λ buf,
  set_mins_instr ASM_MIPS_BREAK;;
  set_mins_type ASM_TYPE_STOP;;
  asm_mips_operand_fetch 0 buf ASM_MIPS_OTYPE_NOOP;;
  ret 4.

Definition asm_mips_syscall : mips_handler := λ buf,
  set_mins_instr ASM_MIPS_SYSCALL;;
  set_mins_type ASM_TYPE_ARCH;;
  asm_mips_operand_fetch 0 buf ASM_MIPS_OTYPE_NOOP;;
  ret 4.

Definition asm_mips_teq : mips_handler := λ buf,
  set_mins_instr ASM_MIPS_TEQ;;
  set_mins_type (ASM_TYPE_ARCH ||| ASM_TYPE_COMPARISON ||| ASM_TYPE_INT);;
  let temp := mips_convert_format_t buf in
  set_mop_baser 0 (trap_rs temp);;
  asm_mips_operand_fetch 0 buf ASM_MIPS_OTYPE_REGISTER;;
  set_mop_baser 1 (trap_rt temp);;
  asm_mips_operand_fetch 1 buf ASM_MIPS_OTYPE_REGISTER;;
  ret 4.

Definition asm_mips_teqi : mips_handler := λ buf,
  set_mins_instr ASM_MIPS_TEQI;;
  set_mins_type (ASM_TYPE_ARCH ||| ASM_TYPE_COMPARISON ||| ASM_TYPE_INT);;
  let temp := mips_convert_format_i buf in
  set_mop_baser 0 (imm_rs temp);;
  asm_mips_operand_fetch 0 buf ASM_MIPS_OTYPE_REGISTER;;
  set_mop_imm 1 (imm_im temp);;
  asm_mips_operand_fetch 1 buf ASM_MIPS_OTYPE_IMMEDIATE;;
  ret 4.

Definition asm_mips_tge : mips_handler := λ buf,
  set_mins_instr ASM_MIPS_TGE;;
  set_mins_type (ASM_TYPE_ARCH ||| ASM_TYPE_COMPARISON ||| ASM_TYPE_INT);;
  let temp := mips_convert_format_t buf in
  set_mop_baser 0 (trap_rs temp);;
  asm_mips_operand_fetch 0 buf ASM_MIPS_OTYPE_REGISTER;;
  set_mop_baser 1 (trap_rt temp);;
  asm_mips_operand_fetch 1 buf ASM_MIPS_OTYPE_REGISTER;;
  ret 4.

Definition asm_mips_tgei : mips_handler := λ buf,
  set_mins_instr ASM_MIPS_TGEI;;
  set_mins_type (ASM_TYPE_ARCH ||| ASM_TYPE_COMPARISON ||| ASM_TYPE_INT);;
  let temp := mips_convert_format_i buf in
  set_mop_baser 0 (imm_rs temp);;
  asm_mips_operand_fetch 0 buf ASM_MIPS_OTYPE_REGISTER;;
  set_mop_imm 1 (imm_im temp);;
  asm_mips_operand_fetch 1 buf ASM_MIPS_OTYPE_IMMEDIATE;;
  ret 4.

Definition asm_mips_tgeiu : mips_handler := λ buf,
  set_mins_instr ASM_MIPS_TGEIU;;
  set_mins_type (ASM_TYPE_ARCH ||| ASM_TYPE_COMPARISON ||| ASM_TYPE_INT);;
  let temp := mips_convert_format_i buf in
  set_mop_baser 0 (imm_rs temp);;
  asm_mips_operand_fetch 0 buf ASM_MIPS_OTYPE_REGISTER;;
  set_mop_imm 1 (imm_im temp);;
  asm_mips_operand_fetch 1 buf ASM_MIPS_OTYPE_IMMEDIATE;;
  ret 4.

Definition asm_mips_tgeu : mips_handler := λ buf,
  set_mins_instr ASM_MIPS_TGEU;;
  set_mins_type (ASM_TYPE_ARCH ||| ASM_TYPE_COMPARISON ||| ASM_TYPE_INT);;
  let temp := mips_convert_format_t buf in
  set_mop_baser 0 (trap_rs temp);;
  asm_mips_operand_fetch 0 buf ASM_MIPS_OTYPE_REGISTER;;
  set_mop_baser 1 (trap_rt temp);;
  asm_mips_operand_fetch 1 buf ASM_MIPS_OTYPE_REGISTER;;
  ret 4.

Definition asm_mips_tlt : mips_handler := λ buf,
  set_mins_instr ASM_MIPS_TLT;;
  set_mins_type (ASM_TYPE_ARCH ||| ASM_TYPE_COMPARISON ||| ASM_TYPE_INT);;
  let temp := mips_convert_format_t buf in
  set_mop_baser 0 (trap_rs temp);;
  asm_mips_operand_fetch 0 buf ASM_MIPS_OTYPE_REGISTER;;
  set_mop_baser 1 (trap_rt temp);;
  asm_mips_operand_fetch 1 buf ASM_MIPS_OTYPE_REGISTER;;
  ret 4.

Definition asm_mips_tlti : mips_handler := λ buf,
  set_mins_instr ASM_MIPS_TLTI;;
  set_mins_type (ASM_TYPE_ARCH ||| ASM_TYPE_COMPARISON ||| ASM_TYPE_INT);;
  let temp := mips_convert_format_i buf in
  set_mop_baser 0 (imm_rs temp);;
  asm_mips_operand_fetch 0 buf ASM_MIPS_OTYPE_REGISTER;;
  set_mop_imm 1 (imm_im temp);;
  asm_mips_operand_fetch 1 buf ASM_MIPS_OTYPE_IMMEDIATE;;
  ret 4.

Definition asm_mips_tltiu : mips_handler := λ buf,
  set_mins_instr ASM_MIPS_TLTIU;;
  set_mins_type (ASM_TYPE_ARCH ||| ASM_TYPE_COMPARISON ||| ASM_TYPE_INT);;
  let temp := mips_convert_format_i buf in
  set_mop_baser 0 (imm_rs temp);;
  asm_mips_operand_fetch 0 buf ASM_MIPS_OTYPE_REGISTER;;
  set_mop_imm 1 (imm_im temp);;
  asm_mips_operand_fetch 1 buf ASM_MIPS_OTYPE_IMMEDIATE;;
  ret 4.

Definition asm_mips_tltu : mips_handler := λ buf,
  set_mins_instr ASM_MIPS_TLTU;;
  set_mins_type (ASM_TYPE_ARCH ||| ASM_TYPE_COMPARISON ||| ASM_TYPE_INT);;
  let temp := mips_convert_format_t buf in
  set_mop_baser 0 (trap_rs temp);;
  asm_mips_operand_fetch 0 buf ASM_MIPS_OTYPE_REGISTER;;
  set_mop_baser 1 (trap_rt temp);;
  asm_mips_operand_fetch 1 buf ASM_MIPS_OTYPE_REGISTER;;
  ret 4.

Definition asm_mips_tne : mips_handler := λ buf,
  set_mins_instr ASM_MIPS_TNE;;
  set_mins_type (ASM_TYPE_ARCH ||| ASM_TYPE_COMPARISON ||| ASM_TYPE_INT);;
  let temp := mips_convert_format_t buf in
  set_mop_baser 0 (trap_rs temp);;
  asm_mips_operand_fetch 0 buf ASM_MIPS_OTYPE_REGISTER;;
  set_mop_baser 1 (trap_rt temp);;
  asm_mips_operand_fetch 1 buf ASM_MIPS_OTYPE_REGISTER;;
  ret 4.

Definition asm_mips_tnei : mips_handler := λ buf,
  set_mins_instr ASM_MIPS_TNEI;;
  set_mins_type (ASM_TYPE_ARCH ||| ASM_TYPE_COMPARISON ||| ASM_TYPE_INT);;
  let temp := mips_convert_format_i buf in
  set_mop_baser 0 (imm_rs temp);;
  asm_mips_operand_fetch 0 buf ASM_MIPS_OTYPE_REGISTER;;
  set_mop_imm 1 (imm_im temp);;
  asm_mips_operand_fetch 1 buf ASM_MIPS_OTYPE_IMMEDIATE;;
  ret 4.

Definition asm_mips_beql : mips_handler := λ buf,
  set_mins_instr ASM_MIPS_BEQL;;
  set_mins_type (ASM_TYPE_BRANCH ||| ASM_TYPE_CONDCONTROL);;
  let temp := mips_convert_format_i buf in
  set_mop_baser 0 (imm_rs temp);;
  asm_mips_operand_fetch 0 buf ASM_MIPS_OTYPE_REGISTER;;
  set_mop_baser 1 (imm_rt temp);;
  asm_mips_operand_fetch 1 buf ASM_MIPS_OTYPE_REGISTER;;
  set_mop_imm 2 (imm_im temp);;
  asm_mips_operand_fetch 2 buf ASM_MIPS_OTYPE_BRANCH;;
  ret 4.

Definition asm_mips_bgezall : mips_handler := λ buf,
  set_mins_instr ASM_MIPS_BGEZALL;;
  set_mins_type (ASM_TYPE_CONDCONTROL ||| ASM_TYPE_CALLPROC);;
  let temp := mips_convert_format_i buf in
  set_mop_baser 0 (imm_rs temp);;
  asm_mips_operand_fetch 0 buf ASM_MIPS_OTYPE_REGISTER;;
  set_mop_imm 1 (imm_im temp);;
  asm_mips_operand_fetch 1 buf ASM_MIPS_OTYPE_BRANCH;;
  ret 4.

Definition asm_mips_bgezl : mips_handler := λ buf,
  set_mins_instr ASM_MIPS_BGEZL;;
  set_mins_type (ASM_TYPE_BRANCH ||| ASM_TYPE_CONDCONTROL);;
  let temp := mips_convert_format_i buf in
  set_mop_baser 0 (imm_rs temp);;
  asm_mips_operand_fetch 0 buf ASM_MIPS_OTYPE_REGISTER;;
  set_mop_imm 1 (imm_im temp);;
  asm_mips_operand_fetch 1 buf ASM_MIPS_OTYPE_BRANCH;;
  ret 4.

Definition asm_mips_bgtzl : mips_handler := λ buf,
  set_mins_instr ASM_MIPS_BGTZL;;
  set_mins_type (ASM_TYPE_BRANCH ||| ASM_TYPE_CONDCONTROL);;
  let temp := mips_convert_format_i buf in
  set_mop_baser 0 (imm_rs temp);;
  asm_mips_operand_fetch 0 buf ASM_MIPS_OTYPE_REGISTER;;
  set_mop_imm 1 (imm_im temp);;
  asm_mips_operand_fetch 1 buf ASM_MIPS_OTYPE_BRANCH;;
  ret 4.

Definition asm_mips_blezl : mips_handler := λ buf,
  set_mins_instr ASM_MIPS_BLEZL;;
  set_mins_type (ASM_TYPE_BRANCH ||| ASM_TYPE_CONDCONTROL);;
  let temp := mips_convert_format_i buf in
  set_mop_baser 0 (imm_rs temp);;
  asm_mips_operand_fetch 0 buf ASM_MIPS_OTYPE_REGISTER;;
  set_mop_imm 1 (imm_im temp);;
  asm_mips_operand_fetch 1 buf ASM_MIPS_OTYPE_BRANCH;;
  ret 4.

Definition asm_mips_bltzall : mips_handler := λ buf,
  set_mins_instr ASM_MIPS_BLTZALL;;
  set_mins_type (ASM_TYPE_CONDCONTROL ||| ASM_TYPE_CALLPROC);;
  let temp := mips_convert_format_i buf in
  set_mop_baser 0 (imm_rs temp);;
  asm_mips_operand_fetch 0 buf ASM_MIPS_OTYPE_REGISTER;;
  set_mop_imm 1 (imm_im temp);;
  asm_mips_operand_fetch 1 buf ASM_MIPS_OTYPE_BRANCH;;
  ret 4.

Definition asm_mips_bltzl : mips_handler := λ buf,
  set_mins_instr ASM_MIPS_BLTZL;;
  set_mins_type (ASM_TYPE_BRANCH ||| ASM_TYPE_CONDCONTROL);;
  let temp := mips_convert_format_i buf in
  set_mop_baser 0 (imm_rs temp);;
  asm_mips_operand_fetch 0 buf ASM_MIPS_OTYPE_REGISTER;;
  set_mop_imm 1 (imm_im temp);;
  asm_mips_operand_fetch 1 buf ASM_MIPS_OTYPE_BRANCH;;
  ret 4.

Definition asm_mips_bnel : mips_handler := λ buf,
  set_mins_instr ASM_MIPS_BNEL;;
  set_mins_type (ASM_TYPE_BRANCH ||| ASM_TYPE_CONDCONTROL);;
  let temp := mips_convert_format_i buf in
  set_mop_baser 0 (imm_rs temp);;
  asm_mips_operand_fetch 0 buf ASM_MIPS_OTYPE_REGISTER;;
  set_mop_baser 1 (imm_rt temp);;
  asm_mips_operand_fetch 1 buf ASM_MIPS_OTYPE_REGISTER;;
  set_mop_imm 2 (imm_im temp);;
  asm_mips_operand_fetch 2 buf ASM_MIPS_OTYPE_BRANCH;;
  ret 4.

Definition asm_mips_ehb : mips_handler := λ buf,
  set_mins_instr ASM_MIPS_BAD;;
  ret 4.
