(* ===== verification/MipsCop.v ===== *)
(** * MIPS: the handlers of the coprocessors: 0, 2 and COP1X, floating point, comparisons
    (src/libasm/src/arch/mips/handlers/) *)
From S2P Require Import Prelude.
From S2P Require Import Ia32.
From S2P Require Import Mips.
Close Scope ia32_scope.
Open Scope mips_scope.

Definition asm_mips_bc2f : mips_handler := λ buf,
  set_mins_instr ASM_MIPS_BC2F;;
  set_mins_type (ASM_TYPE_ARCH ||| ASM_TYPE_BRANCH ||| ASM_TYPE_CONDCONTROL);;
  let temp := mips_convert_format_i buf in
  set_mop_imm 0 (imm_im temp);;
  asm_mips_operand_fetch 0 buf ASM_MIPS_OTYPE_BRANCH;;
  ret 4.

Definition asm_mips_bc2t : mips_handler := λ buf,
  set_mins_instr ASM_MIPS_BC2T;;
  set_mins_type (ASM_TYPE_ARCH ||| ASM_TYPE_BRANCH ||| ASM_TYPE_CONDCONTROL);;
  let temp := mips_convert_format_i buf in
  set_mop_imm 0 (imm_im temp);;
  asm_mips_operand_fetch 0 buf ASM_MIPS_OTYPE_BRANCH;;
  ret 4.

Definition asm_mips_cop2 : mips_handler := λ buf,
  set_mins_instr ASM_MIPS_COP2;;
  set_mins_type ASM_TYPE_ARCH;;
  ret 4.

Definition asm_mips_ldc2 : mips_handler := λ buf,
  set_mins_instr ASM_MIPS_LDC2;;
  set_mins_type (ASM_TYPE_LOAD ||| ASM_TYPE_ARCH);;
  let temp := mips_convert_format_i buf in
  set_mop_baser 0 (imm_rt temp);;
  asm_mips_operand_fetch 0 buf ASM_MIPS_OTYPE_REGISTER;;
  set_mop_imm 1 (imm_im temp);;
  asm_mips_operand_fetch 1 buf ASM_MIPS_OTYPE_IMMEDIATE;;
  set_mop_baser 2 (imm_rs temp);;
  asm_mips_operand_fetch 2 buf ASM_MIPS_OTYPE_REGBASE;;
  ret 4.

Definition asm_mips_lwc2 : mips_handler := λ buf,
  set_mins_instr ASM_MIPS_LWC2;;
  set_mins_type (ASM_TYPE_LOAD ||| ASM_TYPE_ARCH);;
  let temp := mips_convert_format_i buf in
  set_mop_baser 0 (imm_rt temp);;
  asm_mips_operand_fetch 0 buf ASM_MIPS_OTYPE_REGISTER;;
  set_mop_imm 1 (imm_im temp);;
  asm_mips_operand_fetch 1 buf ASM_MIPS_OTYPE_IMMEDIATE;;
  set_mop_baser 2 (imm_rs temp);;
  asm_mips_operand_fetch 2 buf ASM_MIPS_OTYPE_REGBASE;;
  ret 4.

Definition asm_mips_sdc2 : mips_handler := λ buf,
  set_mins_instr ASM_MIPS_SDC2;;
  set_mins_type (ASM_TYPE_STORE ||| ASM_TYPE_ARCH);;
  let temp := mips_convert_format_i buf in
  set_mop_baser 0 (imm_rt temp);;
  asm_mips_operand_fetch 0 buf ASM_MIPS_OTYPE_REGISTER;;
  set_mop_imm 1 (imm_im temp);;
  asm_mips_operand_fetch 1 buf ASM_MIPS_OTYPE_IMMEDIATE;;
  set_mop_baser 2 (imm_rs temp);;
  asm_mips_operand_fetch 2 buf ASM_MIPS_OTYPE_REGBASE;;
  ret 4.

Definition asm_mips_swc2 : mips_handler := λ buf,
  set_mins_instr ASM_MIPS_SWC2;;
  set_mins_type (ASM_TYPE_STORE ||| ASM_TYPE_ARCH);;
  let temp := mips_convert_format_i buf in
  set_mop_baser 0 (imm_rt temp);;
  asm_mips_operand_fetch 0 buf ASM_MIPS_OTYPE_REGISTER;;
  set_mop_imm 1 (imm_im temp);;
  asm_mips_operand_fetch 1 buf ASM_MIPS_OTYPE_IMMEDIATE;;
  set_mop_baser 2 (imm_rs temp);;
  asm_mips_operand_fetch 2 buf ASM_MIPS_OTYPE_REGBASE;;
  ret 4.

Definition asm_mips_cfc2 : mips_handler := λ buf,
  set_mins_instr ASM_MIPS_CFC2;;
  set_mins_type (ASM_TYPE_ARCH ||| ASM_TYPE_ASSIGN);;
  let temp := mips_convert_format_cop2 buf in
  set_mop_baser 0 (cop2_rt temp);;
  asm_mips_operand_fetch 0 buf ASM_MIPS_OTYPE_REGISTER;;
  set_mop_baser 1 (cop2_rd temp);;
  asm_mips_operand_fetch 1 buf ASM_MIPS_OTYPE_REGISTER;;
  ret 4.

Definition asm_mips_ctc2 : mips_handler := λ buf,
  set_mins_instr ASM_MIPS_CTC2;;
  set_mins_type (ASM_TYPE_ARCH ||| ASM_TYPE_ASSIGN);;
  let temp := mips_convert_format_cop2 buf in
  set_mop_baser 0 (cop2_rt temp);;
  asm_mips_operand_fetch 0 buf ASM_MIPS_OTYPE_REGISTER;;
  set_mop_baser 1 (cop2_rd temp);;
  asm_mips_operand_fetch 1 buf ASM_MIPS_OTYPE_REGISTER;;
  ret 4.

Definition asm_mips_dmfc2 : mips_handler := λ buf,
  set_mins_instr ASM_MIPS_DMFC2;;
  set_mins_type (ASM_TYPE_ARCH ||| ASM_TYPE_ASSIGN);;
  let temp := mips_convert_format_cop2 buf in
  set_mop_baser 0 (cop2_rt temp);;
  asm_mips_operand_fetch 0 buf ASM_MIPS_OTYPE_REGISTER;;
  set_mop_baser 1 (cop2_rd temp);;
  asm_mips_operand_fetch 1 buf ASM_MIPS_OTYPE_REGISTER;;
  set_mop_imm 2 (cop2_sl temp);;
  asm_mips_operand_fetch 2 buf ASM_MIPS_OTYPE_IMMEDIATE;;
  ret 4.

Definition asm_mips_dmtc2 : mips_handler := λ buf,
  set_mins_instr ASM_MIPS_DMTC2;;
  set_mins_type (ASM_TYPE_ARCH ||| ASM_TYPE_ASSIGN);;
  let temp := mips_convert_format_cop2 buf in
  set_mop_baser 0 (cop2_rt temp);;
  asm_mips_operand_fetch 0 buf ASM_MIPS_OTYPE_REGISTER;;
  set_mop_baser 1 (cop2_rd temp);;
  asm_mips_operand_fetch 1 buf ASM_MIPS_OTYPE_REGISTER;;
  set_mop_imm 2 (cop2_sl temp);;
  asm_mips_operand_fetch 2 buf ASM_MIPS_OTYPE_IMMEDIATE;;
  ret 4.

Definition asm_mips_mfc2 : mips_handler := λ buf,
  set_mins_instr ASM_MIPS_MFC2;;
  set_mins_type (ASM_TYPE_ARCH ||| ASM_TYPE_ASSIGN);;
  let temp := mips_convert_format_cop2 buf in
  set_mop_baser 0 (cop2_rt temp);;
  asm_mips_operand_fetch 0 buf ASM_MIPS_OTYPE_REGISTER;;
  set_mop_baser 1 (cop2_rd temp);;
  asm_mips_operand_fetch 1 buf ASM_MIPS_OTYPE_REGISTER;;
  set_mop_imm 2 (cop2_sl temp);;
  asm_mips_operand_fetch 2 buf ASM_MIPS_OTYPE_IMMEDIATE;;
  ret 4.

Definition asm_mips_mtc2 : mips_handler := λ buf,
  set_mins_instr ASM_MIPS_MTC2;;
  set_mins_type (ASM_TYPE_ARCH ||| ASM_TYPE_ASSIGN);;
  let temp := mips_convert_format_cop2 buf in
  set_mop_baser 0 (cop2_rt temp);;
  asm_mips_operand_fetch 0 buf ASM_MIPS_OTYPE_REGISTER;;
  set_mop_baser 1 (cop2_rd temp);;
  asm_mips_operand_fetch 1 buf ASM_MIPS_OTYPE_REGISTER;;
  set_mop_imm 2 (cop2_sl temp);;
  asm_mips_operand_fetch 2 buf ASM_MIPS_OTYPE_IMMEDIATE;;
  ret 4.

Definition asm_mips_bc2fl : mips_handler := λ buf,
  set_mins_instr ASM_MIPS_BC2FL;;
  set_mins_type (ASM_TYPE_ARCH ||| ASM_TYPE_BRANCH ||| ASM_TYPE_CONDCONTROL);;
  let temp := mips_convert_format_i buf in
  set_mop_imm 0 (imm_im temp);;
  asm_mips_operand_fetch 0 buf ASM_MIPS_OTYPE_BRANCH;;
  ret 4.

Definition asm_mips_bc2tl : mips_handler := λ buf,
  set_mins_instr ASM_MIPS_BC2TL;;
  set_mins_type (ASM_TYPE_ARCH ||| ASM_TYPE_BRANCH ||| ASM_TYPE_CONDCONTROL);;
  let temp := mips_convert_format_i buf in
  set_mop_imm 0 (imm_im temp);;
  asm_mips_operand_fetch 0 buf ASM_MIPS_OTYPE_BRANCH;;
  ret 4.

Definition asm_mips_lwxc1 : mips_handler := λ buf,
  set_mins_instr ASM_MIPS_LWXC1;;
  set_mins_type (ASM_TYPE_LOAD ||| ASM_TYPE_ARCH);;
  let temp := mips_convert_format_cop1x buf in
  set_mop_regset 0 ASM_MIPS_REG_FPU;;
  set_mop_baser 0 (cop1x_f2 temp);;
  asm_mips_operand_fetch 0 buf ASM_MIPS_OTYPE_REGISTER;;
  set_mop_baser 1 (cop1x_in temp);;
  asm_mips_operand_fetch 1 buf ASM_MIPS_OTYPE_REGISTER;;
  set_mop_baser 2 (cop1x_bs temp);;
  asm_mips_operand_fetch 2 buf ASM_MIPS_OTYPE_REGBASE;;
  ret 4.

Definition asm_mips_ldxc1 : mips_handler := λ buf,
  set_mins_instr ASM_MIPS_LDXC1;;
  set_mins_type (ASM_TYPE_LOAD ||| ASM_TYPE_ARCH);;
  let temp := mips_convert_format_cop1x buf in
  set_mop_regset 0 ASM_MIPS_REG_FPU;;
  set_mop_baser 0 (cop1x_f2 temp);;
  asm_mips_operand_fetch 0 buf ASM_MIPS_OTYPE_REGISTER;;
  set_mop_baser 1 (cop1x_in temp);;
  asm_mips_operand_fetch 1 buf ASM_MIPS_OTYPE_REGISTER;;
  set_mop_baser 2 (cop1x_bs temp);;
  asm_mips_operand_fetch 2 buf ASM_MIPS_OTYPE_REGBASE;;
  ret 4.

Definition asm_mips_luxc1 : mips_handler := λ buf,
  set_mins_instr ASM_MIPS_LUXC1;;
  set_mins_type (ASM_TYPE_LOAD ||| ASM_TYPE_ARCH);;
  let temp := mips_convert_format_cop1x buf in
  set_mop_regset 0 ASM_MIPS_REG_FPU;;
  set_mop_baser 0 (cop1x_f2 temp);;
  asm_mips_operand_fetch 0 buf ASM_MIPS_OTYPE_REGISTER;;
  set_mop_baser 1 (cop1x_in temp);;
  asm_mips_operand_fetch 1 buf ASM_MIPS_OTYPE_REGISTER;;
  set_mop_baser 2 (cop1x_bs temp);;
  asm_mips_operand_fetch 2 buf ASM_MIPS_OTYPE_REGBASE;;
  ret 4.

Definition asm_mips_swxc1 : mips_handler := λ buf,
  set_mins_instr ASM_MIPS_SWXC1;;
  set_mins_type (ASM_TYPE_STORE ||| ASM_TYPE_ARCH);;
  let temp := mips_convert_format_cop1x buf in
  set_mop_regset 0 ASM_MIPS_REG_FPU;;
  set_mop_baser 0 (cop1x_f1 temp);;
  asm_mips_operand_fetch 0 buf ASM_MIPS_OTYPE_REGISTER;;
  set_mop_baser 1 (cop1x_in temp);;
  asm_mips_operand_fetch 1 buf ASM_MIPS_OTYPE_REGISTER;;
  set_mop_baser 2 (cop1x_bs temp);;
  asm_mips_operand_fetch 2 buf ASM_MIPS_OTYPE_REGBASE;;
  ret 4.

Definition asm_mips_sdxc1 : mips_handler := λ buf,
  set_mins_instr ASM_MIPS_SDXC1;;
  set_mins_type (ASM_TYPE_STORE ||| ASM_TYPE_ARCH);;
  let temp := mips_convert_format_cop1x buf in
  set_mop_regset 0 ASM_MIPS_REG_FPU;;
  set_mop_baser 0 (cop1x_f1 temp);;
  asm_mips_operand_fetch 0 buf ASM_MIPS_OTYPE_REGISTER;;
  set_mop_baser 1 (cop1x_in temp);;
  asm_mips_operand_fetch 1 buf ASM_MIPS_OTYPE_REGISTER;;
  set_mop_baser 2 (cop1x_bs temp);;
  asm_mips_operand_fetch 2 buf ASM_MIPS_OTYPE_REGBASE;;
  ret 4.

Definition asm_mips_suxc1 : mips_handler := λ buf,
  set_mins_instr ASM_MIPS_SUXC1;;
  set_mins_type (ASM_TYPE_STORE ||| ASM_TYPE_ARCH);;
  let temp := mips_convert_format_cop1x buf in
  set_mop_regset 0 ASM_MIPS_REG_FPU;;
  set_mop_baser 0 (cop1x_f1 temp);;
  asm_mips_operand_fetch 0 buf ASM_MIPS_OTYPE_REGISTER;;
  set_mop_baser 1 (cop1x_in temp);;
  asm_mips_operand_fetch 1 buf ASM_MIPS_OTYPE_REGISTER;;
  set_mop_baser 2 (cop1x_bs temp);;
  asm_mips_operand_fetch 2 buf ASM_MIPS_OTYPE_REGBASE;;
  ret 4.

Definition asm_mips_prefx : mips_handler := λ buf,
  set_mins_instr ASM_MIPS_PREFX;;
  set_mins_type (ASM_TYPE_ASSIGN ||| ASM_TYPE_ARCH);;
  let temp := mips_convert_format_cop1x buf in
  set_mop_baser 0 (cop1x_f1 temp);;
  asm_mips_operand_fetch 0 buf ASM_MIPS_OTYPE_REGISTER;;
  set_mop_baser 1 (cop1x_in temp);;
  asm_mips_operand_fetch 1 buf ASM_MIPS_OTYPE_REGISTER;;
  set_mop_baser 2 (cop1x_bs temp);;
  asm_mips_operand_fetch 2 buf ASM_MIPS_OTYPE_REGBASE;;
  ret 4.

Definition asm_mips_alnv_ps : mips_handler := λ buf,
  set_mins_instr ASM_MIPS_ALNV_PS;;
  set_mins_type ASM_TYPE_ARCH;;
  let temp := mips_convert_format_cop1x buf in
  set_mop_regset 0 ASM_MIPS_REG_FPU;;
  set_mop_baser 0 (cop1x_f2 temp);;
  asm_mips_operand_fetch 0 buf ASM_MIPS_OTYPE_REGISTER;;
  set_mop_regset 1 ASM_MIPS_REG_FPU;;
  set_mop_baser 1 (cop1x_f1 temp);;
  asm_mips_operand_fetch 1 buf ASM_MIPS_OTYPE_REGISTER;;
  set_mop_regset 2 ASM_MIPS_REG_FPU;;
  set_mop_baser 2 (cop1x_in temp);;
  asm_mips_operand_fetch 2 buf ASM_MIPS_OTYPE_REGISTER;;
  set_mop_baser 3 (cop1x_bs temp);;
  asm_mips_operand_fetch 3 buf ASM_MIPS_OTYPE_REGISTER;;
  ret 4.

Definition asm_mips_madd_s : mips_handler := λ buf,
  set_mins_instr ASM_MIPS_MADD_S;;
  set_mins_type (ASM_TYPE_ARITH ||| ASM_TYPE_ARCH);;
  let temp := mips_convert_format_cop1x buf in
  set_mop_regset 0 ASM_MIPS_REG_FPU;;
  set_mop_baser 0 (cop1x_f2 temp);;
  asm_mips_operand_fetch 0 buf ASM_MIPS_OTYPE_REGISTER;;
  set_mop_regset 1 ASM_MIPS_REG_FPU;;
  set_mop_baser 1 (cop1x_bs temp);;
  asm_mips_operand_fetch 1 buf ASM_MIPS_OTYPE_REGISTER;;
  set_mop_regset 2 ASM_MIPS_REG_FPU;;
  set_mop_baser 2 (cop1x_f2 temp);;
  asm_mips_operand_fetch 2 buf ASM_MIPS_OTYPE_REGISTER;;
  set_mop_regset 3 ASM_MIPS_REG_FPU;;
  set_mop_baser 3 (cop1x_in temp);;
  asm_mips_operand_fetch 3 buf ASM_MIPS_OTYPE_REGISTER;;
  ret 4.

Definition asm_mips_madd_d : mips_handler := λ buf,
  set_mins_instr ASM_MIPS_MADD_D;;
  set_mins_type (ASM_TYPE_ARITH ||| ASM_TYPE_ARCH);;
  let temp := mips_convert_format_cop1x buf in
  set_mop_regset 0 ASM_MIPS_REG_FPU;;
  set_mop_baser 0 (cop1x_f2 temp);;
  asm_mips_operand_fetch 0 buf ASM_MIPS_OTYPE_REGISTER;;
  set_mop_regset 1 ASM_MIPS_REG_FPU;;
  set_mop_baser 1 (cop1x_bs temp);;
  asm_mips_operand_fetch 1 buf ASM_MIPS_OTYPE_REGISTER;;
  set_mop_regset 2 ASM_MIPS_REG_FPU;;
  set_mop_baser 2 (cop1x_f2 temp);;
  asm_mips_operand_fetch 2 buf ASM_MIPS_OTYPE_REGISTER;;
  set_mop_regset 3 ASM_MIPS_REG_FPU;;
  set_mop_baser 3 (cop1x_in temp);;
  asm_mips_operand_fetch 3 buf ASM_MIPS_OTYPE_REGISTER;;
  ret 4.

Definition asm_mips_madd_ps : mips_handler := λ buf,
  set_mins_instr ASM_MIPS_MADD_PS;;
  set_mins_type (ASM_TYPE_ARITH ||| ASM_TYPE_ARCH);;
  let temp := mips_convert_format_cop1x buf in
  set_mop_regset 0 ASM_MIPS_REG_FPU;;
  set_mop_baser 0 (cop1x_f2 temp);;
  asm_mips_operand_fetch 0 buf ASM_MIPS_OTYPE_REGISTER;;
  set_mop_regset 1 ASM_MIPS_REG_FPU;;
  set_mop_baser 1 (cop1x_bs temp);;
  asm_mips_operand_fetch 1 buf ASM_MIPS_OTYPE_REGISTER;;
  set_mop_regset 2 ASM_MIPS_REG_FPU;;
  set_mop_baser 2 (cop1x_f2 temp);;
  asm_mips_operand_fetch 2 buf ASM_MIPS_OTYPE_REGISTER;;
  set_mop_regset 3 ASM_MIPS_REG_FPU;;
  set_mop_baser 3 (cop1x_in temp);;
  asm_mips_operand_fetch 3 buf ASM_MIPS_OTYPE_REGISTER;;
  ret 4.

Definition asm_mips_msub_s : mips_handler := λ buf,
  set_mins_instr ASM_MIPS_MSUB_S;;
  set_mins_type (ASM_TYPE_ARITH ||| ASM_TYPE_ARCH);;
  let temp := mips_convert_format_cop1x buf in
  set_mop_regset 0 ASM_MIPS_REG_FPU;;
  set_mop_baser 0 (cop1x_f2 temp);;
  asm_mips_operand_fetch 0 buf ASM_MIPS_OTYPE_REGISTER;;
  set_mop_regset 1 ASM_MIPS_REG_FPU;;
  set_mop_baser 1 (cop1x_bs temp);;
  asm_mips_operand_fetch 1 buf ASM_MIPS_OTYPE_REGISTER;;
  set_mop_regset 2 ASM_MIPS_REG_FPU;;
  set_mop_baser 2 (cop1x_f2 temp);;
  asm_mips_operand_fetch 2 buf ASM_MIPS_OTYPE_REGISTER;;
  set_mop_regset 3 ASM_MIPS_REG_FPU;;
  set_mop_baser 3 (cop1x_in temp);;
  asm_mips_operand_fetch 3 buf ASM_MIPS_OTYPE_REGISTER;;
  ret 4.

Definition asm_mips_msub_d : mips_handler := λ buf,
  set_mins_instr ASM_MIPS_MSUB_D;;
  set_mins_type (ASM_TYPE_ARITH ||| ASM_TYPE_ARCH);;
  let temp := mips_convert_format_cop1x buf in
  set_mop_regset 0 ASM_MIPS_REG_FPU;;
  set_mop_baser 0 (cop1x_f2 temp);;
  asm_mips_operand_fetch 0 buf ASM_MIPS_OTYPE_REGISTER;;
  set_mop_regset 1 ASM_MIPS_REG_FPU;;
  set_mop_baser 1 (cop1x_bs temp);;
  asm_mips_operand_fetch 1 buf ASM_MIPS_OTYPE_REGISTER;;
  set_mop_regset 2 ASM_MIPS_REG_FPU;;
  set_mop_baser 2 (cop1x_f2 temp);;
  asm_mips_operand_fetch 2 buf ASM_MIPS_OTYPE_REGISTER;;
  set_mop_regset 3 ASM_MIPS_REG_FPU;;
  set_mop_baser 3 (cop1x_in temp);;
  asm_mips_operand_fetch 3 buf ASM_MIPS_OTYPE_REGISTER;;
  ret 4.

Definition asm_mips_msub_ps : mips_handler := λ buf,
  set_mins_instr ASM_MIPS_MSUB_PS;;
  set_mins_type (ASM_TYPE_ARITH ||| ASM_TYPE_ARCH);;
  let temp := mips_convert_format_cop1x buf in
  set_mop_regset 0 ASM_MIPS_REG_FPU;;
  set_mop_baser 0 (cop1x_f2 temp);;
  asm_mips_operand_fetch 0 buf ASM_MIPS_OTYPE_REGISTER;;
  set_mop_regset 1 ASM_MIPS_REG_FPU;;
  set_mop_baser 1 (cop1x_bs temp);;
  asm_mips_operand_fetch 1 buf ASM_MIPS_OTYPE_REGISTER;;
  set_mop_regset 2 ASM_MIPS_REG_FPU;;
  set_mop_baser 2 (cop1x_f2 temp);;
  asm_mips_operand_fetch 2 buf ASM_MIPS_OTYPE_REGISTER;;
  set_mop_regset 3 ASM_MIPS_REG_FPU;;
  set_mop_baser 3 (cop1x_in temp);;
  asm_mips_operand_fetch 3 buf ASM_MIPS_OTYPE_REGISTER;;
  ret 4.

Definition asm_mips_nmadd_s : mips_handler := λ buf,
  set_mins_instr ASM_MIPS_NMADD_S;;
  set_mins_type (ASM_TYPE_ARITH ||| ASM_TYPE_ARCH);;
  let temp := mips_convert_format_cop1x buf in
  set_mop_regset 0 ASM_MIPS_REG_FPU;;
  set_mop_baser 0 (cop1x_f2 temp);;
  asm_mips_operand_fetch 0 buf ASM_MIPS_OTYPE_REGISTER;;
  set_mop_regset 1 ASM_MIPS_REG_FPU;;
  set_mop_baser 1 (cop1x_bs temp);;
  asm_mips_operand_fetch 1 buf ASM_MIPS_OTYPE_REGISTER;;
  set_mop_regset 2 ASM_MIPS_REG_FPU;;
  set_mop_baser 2 (cop1x_f2 temp);;
  asm_mips_operand_fetch 2 buf ASM_MIPS_OTYPE_REGISTER;;
  set_mop_regset 3 ASM_MIPS_REG_FPU;;
  set_mop_baser 3 (cop1x_in temp);;
  asm_mips_operand_fetch 3 buf ASM_MIPS_OTYPE_REGISTER;;
  ret 4.

Definition asm_mips_nmadd_d : mips_handler := λ buf,
  set_mins_instr ASM_MIPS_NMADD_D;;
  set_mins_type (ASM_TYPE_ARITH ||| ASM_TYPE_ARCH);;
  let temp := mips_convert_format_cop1x buf in
  set_mop_regset 0 ASM_MIPS_REG_FPU;;
  set_mop_baser 0 (cop1x_f2 temp);;
  asm_mips_operand_fetch 0 buf ASM_MIPS_OTYPE_REGISTER;;
  set_mop_regset 1 ASM_MIPS_REG_FPU;;
  set_mop_baser 1 (cop1x_bs temp);;
  asm_mips_operand_fetch 1 buf ASM_MIPS_OTYPE_REGISTER;;
  set_mop_regset 2 ASM_MIPS_REG_FPU;;
  set_mop_baser 2 (cop1x_f2 temp);;
  asm_mips_operand_fetch 2 buf ASM_MIPS_OTYPE_REGISTER;;
  set_mop_regset 3 ASM_MIPS_REG_FPU;;
  set_mop_baser 3 (cop1x_in temp);;
  asm_mips_operand_fetch 3 buf ASM_MIPS_OTYPE_REGISTER;;
  ret 4.

Definition asm_mips_nmadd_ps : mips_handler := λ buf,
  set_mins_instr ASM_MIPS_NMADD_PS;;
  set_mins_type (ASM_TYPE_ARITH ||| ASM_TYPE_ARCH);;
  let temp := mips_convert_format_cop1x buf in
  set_mop_regset 0 ASM_MIPS_REG_FPU;;
  set_mop_baser 0 (cop1x_f2 temp);;
  asm_mips_operand_fetch 0 buf ASM_MIPS_OTYPE_REGISTER;;
  set_mop_regset 1 ASM_MIPS_REG_FPU;;
  set_mop_baser 1 (cop1x_bs temp);;
  asm_mips_operand_fetch 1 buf ASM_MIPS_OTYPE_REGISTER;;
  set_mop_regset 2 ASM_MIPS_REG_FPU;;
  set_mop_baser 2 (cop1x_f2 temp);;
  asm_mips_operand_fetch 2 buf ASM_MIPS_OTYPE_REGISTER;;
  set_mop_regset 3 ASM_MIPS_REG_FPU;;
  set_mop_baser 3 (cop1x_in temp);;
  asm_mips_operand_fetch 3 buf ASM_MIPS_OTYPE_REGISTER;;
  ret 4.

Definition asm_mips_nmsub_s : mips_handler := λ buf,
  set_mins_instr ASM_MIPS_NMSUB_S;;
  set_mins_type (ASM_TYPE_ARITH ||| ASM_TYPE_ARCH);;
  let temp := mips_convert_format_cop1x buf in
  set_mop_regset 0 ASM_MIPS_REG_FPU;;
  set_mop_baser 0 (cop1x_f2 temp);;
  asm_mips_operand_fetch 0 buf ASM_MIPS_OTYPE_REGISTER;;
  set_mop_regset 1 ASM_MIPS_REG_FPU;;
  set_mop_baser 1 (cop1x_bs temp);;
  asm_mips_operand_fetch 1 buf ASM_MIPS_OTYPE_REGISTER;;
  set_mop_regset 2 ASM_MIPS_REG_FPU;;
  set_mop_baser 2 (cop1x_f2 temp);;
  asm_mips_operand_fetch 2 buf ASM_MIPS_OTYPE_REGISTER;;
  set_mop_regset 3 ASM_MIPS_REG_FPU;;
  set_mop_baser 3 (cop1x_in temp);;
  asm_mips_operand_fetch 3 buf ASM_MIPS_OTYPE_REGISTER;;
  ret 4.

Definition asm_mips_nmsub_d : mips_handler := λ buf,
  set_mins_instr ASM_MIPS_NMSUB_D;;
  set_mins_type (ASM_TYPE_ARITH ||| ASM_TYPE_ARCH);;
  let temp := mips_convert_format_cop1x buf in
  set_mop_regset 0 ASM_MIPS_REG_FPU;;
  set_mop_baser 0 (cop1x_f2 temp);;
  asm_mips_operand_fetch 0 buf ASM_MIPS_OTYPE_REGISTER;;
  set_mop_regset 1 ASM_MIPS_REG_FPU;;
  set_mop_baser 1 (cop1x_bs temp);;
  asm_mips_operand_fetch 1 buf ASM_MIPS_OTYPE_REGISTER;;
  set_mop_regset 2 ASM_MIPS_REG_FPU;;
  set_mop_baser 2 (cop1x_f2 temp);;
  asm_mips_operand_fetch 2 buf ASM_MIPS_OTYPE_REGISTER;;
  set_mop_regset 3 ASM_MIPS_REG_FPU;;
  set_mop_baser 3 (cop1x_in temp);;
  asm_mips_operand_fetch 3 buf ASM_MIPS_OTYPE_REGISTER;;
  ret 4.

Definition asm_mips_nmsub_ps : mips_handler := λ buf,
  set_mins_instr ASM_MIPS_NMSUB_PS;;
  set_mins_type (ASM_TYPE_ARITH ||| ASM_TYPE_ARCH);;
  let temp := mips_convert_format_cop1x buf in
  set_mop_regset 0 ASM_MIPS_REG_FPU;;
  set_mop_baser 0 (cop1x_f2 temp);;
  asm_mips_operand_fetch 0 buf ASM_MIPS_OTYPE_REGISTER;;
  set_mop_regset 1 ASM_MIPS_REG_FPU;;
  set_mop_baser 1 (cop1x_bs temp);;
  asm_mips_operand_fetch 1 buf ASM_MIPS_OTYPE_REGISTER;;
  set_mop_regset 2 ASM_MIPS_REG_FPU;;
  set_mop_baser 2 (cop1x_f2 temp);;
  asm_mips_operand_fetch 2 buf ASM_MIPS_OTYPE_REGISTER;;
  set_mop_regset 3 ASM_MIPS_REG_FPU;;
  set_mop_baser 3 (cop1x_in temp);;
  asm_mips_operand_fetch 3 buf ASM_MIPS_OTYPE_REGISTER;;
  ret 4.

Definition asm_mips_mfc0 : mips_handler := λ buf,
  set_mins_instr ASM_MIPS_MFC0;;
  set_mins_type (ASM_TYPE_ARCH ||| ASM_TYPE_ASSIGN);;
  let temp := mips_convert_format_priv buf in
  set_mop_baser 0 (cop2_rt temp);;
  asm_mips_operand_fetch 0 buf ASM_MIPS_OTYPE_REGISTER;;
  set_mop_baser 1 (cop2_rd temp);;
  asm_mips_operand_fetch 1 buf ASM_MIPS_OTYPE_REGISTER;;
  ret 4.

Definition asm_mips_dmfc0 : mips_handler := λ buf,
  set_mins_instr ASM_MIPS_DMFC0;;
  set_mins_type (ASM_TYPE_ARCH ||| ASM_TYPE_ASSIGN);;
  let temp := mips_convert_format_priv buf in
  set_mop_baser 0 (cop2_rt temp);;
  asm_mips_operand_fetch 0 buf ASM_MIPS_OTYPE_REGISTER;;
  set_mop_baser 1 (cop2_rd temp);;
  asm_mips_operand_fetch 1 buf ASM_MIPS_OTYPE_REGISTER;;
  set_mop_imm 2 (cop2_sl temp);;
  asm_mips_operand_fetch 2 buf ASM_MIPS_OTYPE_IMMEDIATE;;
  ret 4.

Definition asm_mips_tlbwi : mips_handler := λ buf,
  set_mins_instr ASM_MIPS_TLBWI;;
  set_mins_type (ASM_TYPE_ARCH ||| ASM_TYPE_CONTROL);;
  asm_mips_operand_fetch 0 buf ASM_MIPS_OTYPE_NOOP;;
  ret 4.

Definition asm_mips_mtc0 : mips_handler := λ buf,
  set_mins_instr ASM_MIPS_MTC0;;
  set_mins_type (ASM_TYPE_ARCH ||| ASM_TYPE_ASSIGN);;
  let temp := mips_convert_format_priv buf in
  set_mop_baser 0 (cop2_rt temp);;
  asm_mips_operand_fetch 0 buf ASM_MIPS_OTYPE_REGISTER;;
  set_mop_baser 1 (cop2_rd temp);;
  asm_mips_operand_fetch 1 buf ASM_MIPS_OTYPE_REGISTER;;
  ret 4.

Definition asm_mips_dmtc0 : mips_handler := λ buf,
  set_mins_instr ASM_MIPS_DMTC0;;
  set_mins_type (ASM_TYPE_ARCH ||| ASM_TYPE_ASSIGN);;
  let temp := mips_convert_format_priv buf in
  set_mop_baser 0 (cop2_rt temp);;
  asm_mips_operand_fetch 0 buf ASM_MIPS_OTYPE_REGISTER;;
  set_mop_baser 1 (cop2_rd temp);;
  asm_mips_operand_fetch 1 buf ASM_MIPS_OTYPE_REGISTER;;
  set_mop_imm 2 (cop2_sl temp);;
  asm_mips_operand_fetch 2 buf ASM_MIPS_OTYPE_IMMEDIATE;;
  ret 4.

Definition asm_mips_tlbwr : mips_handler := λ buf,
  set_mins_instr ASM_MIPS_TLBWR;;
  set_mins_type (ASM_TYPE_ARCH ||| ASM_TYPE_CONTROL);;
  asm_mips_operand_fetch 0 buf ASM_MIPS_OTYPE_NOOP;;
  ret 4.

Definition asm_mips_eret : mips_handler := λ buf,
  set_mins_instr ASM_MIPS_ERET;;
  set_mins_type (ASM_TYPE_ARCH ||| ASM_TYPE_RETPROC);;
  asm_mips_operand_fetch 0 buf ASM_MIPS_OTYPE_NOOP;;
  ret 4.

Definition asm_mips_tlbp : mips_handler := λ buf,
  set_mins_instr ASM_MIPS_TLBP;;
  set_mins_type ASM_TYPE_ARCH;;
  asm_mips_operand_fetch 0 buf ASM_MIPS_OTYPE_NOOP;;
  ret 4.

Definition asm_mips_tlbr : mips_handler := λ buf,
  set_mins_instr ASM_MIPS_TLBR;;
  set_mins_type ASM_TYPE_ARCH;;
  asm_mips_operand_fetch 0 buf ASM_MIPS_OTYPE_NOOP;;
  ret 4.

Definition asm_mips_wait : mips_handler := λ buf,
  set_mins_instr ASM_MIPS_WAIT;;
  set_mins_type ASM_TYPE_ARCH;;
  asm_mips_operand_fetch 0 buf ASM_MIPS_OTYPE_NOOP;;
  ret 4.

Definition asm_mips_deret : mips_handler := λ buf,
  set_mins_instr ASM_MIPS_DERET;;
  set_mins_type (ASM_TYPE_ARCH ||| ASM_TYPE_RETPROC);;
  asm_mips_operand_fetch 0 buf ASM_MIPS_OTYPE_NOOP;;
  ret 4.

Definition asm_mips_sdbbp : mips_handler := λ buf,
  set_mins_instr ASM_MIPS_SDBBP;;
  set_mins_type ASM_TYPE_ARCH;;
  let temp := mips_convert_format_j buf in
  set_mop_imm 0 ((jump_ta temp ≫ 6) &&& 1048575);;
  asm_mips_operand_fetch 0 buf ASM_MIPS_OTYPE_JUMP;;
  ret 4.

(** * MIPS: the handlers of the floating point instructions
    (src/libasm/src/arch/mips/handlers/) *)

Close Scope ia32_scope.
Open Scope mips_scope.

Definition asm_mips_abs_s : mips_handler := λ buf,
  set_mins_instr ASM_MIPS_ABS_S;;
  set_mins_type (ASM_TYPE_ARITH ||| ASM_TYPE_ARCH);;
  let temp := mips_convert_format_r buf in
  set_mop_regset 0 ASM_MIPS_REG_FPU;;
  set_mop_baser 0 (reg_sa temp);;
  asm_mips_operand_fetch 0 buf ASM_MIPS_OTYPE_REGISTER;;
  set_mop_regset 1 ASM_MIPS_REG_FPU;;
  set_mop_baser 1 (reg_rd temp);;
  asm_mips_operand_fetch 1 buf ASM_MIPS_OTYPE_REGISTER;;
  ret 4.

Definition asm_mips_abs_d : mips_handler := λ buf,
  set_mins_instr ASM_MIPS_ABS_D;;
  set_mins_type (ASM_TYPE_ARITH ||| ASM_TYPE_ARCH);;
  let temp := mips_convert_format_r buf in
  set_mop_regset 0 ASM_MIPS_REG_FPU;;
  set_mop_baser 0 (reg_sa temp);;
  asm_mips_operand_fetch 0 buf ASM_MIPS_OTYPE_REGISTER;;
  set_mop_regset 1 ASM_MIPS_REG_FPU;;
  set_mop_baser 1 (reg_rd temp);;
  asm_mips_operand_fetch 1 buf ASM_MIPS_OTYPE_REGISTER;;
  ret 4.

Definition asm_mips_abs_ps : mips_handler := λ buf,
  set_mins_instr ASM_MIPS_ABS_PS;;
  set_mins_type (ASM_TYPE_ARITH ||| ASM_TYPE_ARCH);;
  let temp := mips_convert_format_r buf in
  set_mop_regset 0 ASM_MIPS_REG_FPU;;
  set_mop_baser 0 (reg_sa temp);;
  asm_mips_operand_fetch 0 buf ASM_MIPS_OTYPE_REGISTER;;
  set_mop_regset 1 ASM_MIPS_REG_FPU;;
  set_mop_baser 1 (reg_rd temp);;
  asm_mips_operand_fetch 1 buf ASM_MIPS_OTYPE_REGISTER;;
  ret 4.

Definition asm_mips_add_s : mips_handler := λ buf,
  set_mins_instr ASM_MIPS_ADD_S;;
  set_mins_type (ASM_TYPE_ARITH ||| ASM_TYPE_ARCH);;
  let temp := mips_convert_format_r buf in
  set_mop_regset 0 ASM_MIPS_REG_FPU;;
  set_mop_baser 0 (reg_sa temp);;
  asm_mips_operand_fetch 0 buf ASM_MIPS_OTYPE_REGISTER;;
  set_mop_regset 1 ASM_MIPS_REG_FPU;;
  set_mop_baser 1 (reg_rd temp);;
  asm_mips_operand_fetch 1 buf ASM_MIPS_OTYPE_REGISTER;;
  set_mop_regset 2 ASM_MIPS_REG_FPU;;
  set_mop_baser 2 (reg_rt temp);;
  asm_mips_operand_fetch 2 buf ASM_MIPS_OTYPE_REGISTER;;
  ret 4.

Definition asm_mips_add_d : mips_handler := λ buf,
  set_mins_instr ASM_MIPS_ADD_D;;
  set_mins_type (ASM_TYPE_ARITH ||| ASM_TYPE_ARCH);;
  let temp := mips_convert_format_r buf in
  set_mop_regset 0 ASM_MIPS_REG_FPU;;
  set_mop_baser 0 (reg_sa temp);;
  asm_mips_operand_fetch 0 buf ASM_MIPS_OTYPE_REGISTER;;
  set_mop_regset 1 ASM_MIPS_REG_FPU;;
  set_mop_baser 1 (reg_rd temp);;
  asm_mips_operand_fetch 1 buf ASM_MIPS_OTYPE_REGISTER;;
  set_mop_regset 2 ASM_MIPS_REG_FPU;;
  set_mop_baser 2 (reg_rt temp);;
  asm_mips_operand_fetch 2 buf ASM_MIPS_OTYPE_REGISTER;;
  ret 4.

Definition asm_mips_add_ps : mips_handler := λ buf,
  set_mins_instr ASM_MIPS_ADD_PS;;
  set_mins_type (ASM_TYPE_ARITH ||| ASM_TYPE_ARCH);;
  let temp := mips_convert_format_r buf in
  set_mop_regset 0 ASM_MIPS_REG_FPU;;
  set_mop_baser 0 (reg_sa temp);;
  asm_mips_operand_fetch 0 buf ASM_MIPS_OTYPE_REGISTER;;
  set_mop_regset 1 ASM_MIPS_REG_FPU;;
  set_mop_baser 1 (reg_rd temp);;
  asm_mips_operand_fetch 1 buf ASM_MIPS_OTYPE_REGISTER;;
  set_mop_regset 2 ASM_MIPS_REG_FPU;;
  set_mop_baser 2 (reg_rt temp);;
  asm_mips_operand_fetch 2 buf ASM_MIPS_OTYPE_REGISTER;;
  ret 4.

Definition asm_mips_div_s : mips_handler := λ buf,
  set_mins_instr ASM_MIPS_DIV_S;;
  set_mins_type (ASM_TYPE_ARITH ||| ASM_TYPE_ARCH);;
  let temp := mips_convert_format_r buf in
  set_mop_regset 0 ASM_MIPS_REG_FPU;;
  set_mop_baser 0 (reg_sa temp);;
  asm_mips_operand_fetch 0 buf ASM_MIPS_OTYPE_REGISTER;;
  set_mop_regset 1 ASM_MIPS_REG_FPU;;
  set_mop_baser 1 (reg_rd temp);;
  asm_mips_operand_fetch 1 buf ASM_MIPS_OTYPE_REGISTER;;
  set_mop_regset 2 ASM_MIPS_REG_FPU;;
  set_mop_baser 2 (reg_rt temp);;
  asm_mips_operand_fetch 2 buf ASM_MIPS_OTYPE_REGISTER;;
  ret 4.

Definition asm_mips_div_d : mips_handler := λ buf,
  set_mins_instr ASM_MIPS_DIV_D;;
  set_mins_type (ASM_TYPE_ARITH ||| ASM_TYPE_ARCH);;
  let temp := mips_convert_format_r buf in
  set_mop_regset 0 ASM_MIPS_REG_FPU;;
  set_mop_baser 0 (reg_sa temp);;
  asm_mips_operand_fetch 0 buf ASM_MIPS_OTYPE_REGISTER;;
  set_mop_regset 1 ASM_MIPS_REG_FPU;;
  set_mop_baser 1 (reg_rd temp);;
  asm_mips_operand_fetch 1 buf ASM_MIPS_OTYPE_REGISTER;;
  set_mop_regset 2 ASM_MIPS_REG_FPU;;
  set_mop_baser 2 (reg_rt temp);;
  asm_mips_operand_fetch 2 buf ASM_MIPS_OTYPE_REGISTER;;
  ret 4.

Definition asm_mips_mul_s : mips_handler := λ buf,
  set_mins_instr ASM_MIPS_MUL_S;;
  set_mins_type (ASM_TYPE_ARITH ||| ASM_TYPE_ARCH);;
  let temp := mips_convert_format_r buf in
  set_mop_regset 0 ASM_MIPS_REG_FPU;;
  set_mop_baser 0 (reg_sa temp);;
  asm_mips_operand_fetch 0 buf ASM_MIPS_OTYPE_REGISTER;;
  set_mop_regset 1 ASM_MIPS_REG_FPU;;
  set_mop_baser 1 (reg_rd temp);;
  asm_mips_operand_fetch 1 buf ASM_MIPS_OTYPE_REGISTER;;
  set_mop_regset 2 ASM_MIPS_REG_FPU;;
  set_mop_baser 2 (reg_rt temp);;
  asm_mips_operand_fetch 2 buf ASM_MIPS_OTYPE_REGISTER;;
  ret 4.

Definition asm_mips_mul_d : mips_handler := λ buf,
  set_mins_instr ASM_MIPS_MUL_D;;
  set_mins_type (ASM_TYPE_ARITH ||| ASM_TYPE_ARCH);;
  let temp := mips_convert_format_r buf in
  set_mop_regset 0 ASM_MIPS_REG_FPU;;
  set_mop_baser 0 (reg_sa temp);;
  asm_mips_operand_fetch 0 buf ASM_MIPS_OTYPE_REGISTER;;
  set_mop_regset 1 ASM_MIPS_REG_FPU;;
  set_mop_baser 1 (reg_rd temp);;
  asm_mips_operand_fetch 1 buf ASM_MIPS_OTYPE_REGISTER;;
  set_mop_regset 2 ASM_MIPS_REG_FPU;;
  set_mop_baser 2 (reg_rt temp);;
  asm_mips_operand_fetch 2 buf ASM_MIPS_OTYPE_REGISTER;;
  ret 4.

Definition asm_mips_mul_ps : mips_handler := λ buf,
  set_mins_instr ASM_MIPS_MUL_PS;;
  set_mins_type (ASM_TYPE_ARITH ||| ASM_TYPE_ARCH);;
  let temp := mips_convert_format_r buf in
  set_mop_regset 0 ASM_MIPS_REG_FPU;;
  set_mop_baser 0 (reg_sa temp);;
  asm_mips_operand_fetch 0 buf ASM_MIPS_OTYPE_REGISTER;;
  set_mop_regset 1 ASM_MIPS_REG_FPU;;
  set_mop_baser 1 (reg_rd temp);;
  asm_mips_operand_fetch 1 buf ASM_MIPS_OTYPE_REGISTER;;
  set_mop_regset 2 ASM_MIPS_REG_FPU;;
  set_mop_baser 2 (reg_rt temp);;
  asm_mips_operand_fetch 2 buf ASM_MIPS_OTYPE_REGISTER;;
  ret 4.

Definition asm_mips_neg_s : mips_handler := λ buf,
  set_mins_instr ASM_MIPS_NEG_S;;
  set_mins_type (ASM_TYPE_ARITH ||| ASM_TYPE_ARCH);;
  let temp := mips_convert_format_r buf in
  set_mop_regset 0 ASM_MIPS_REG_FPU;;
  set_mop_baser 0 (reg_sa temp);;
  asm_mips_operand_fetch 0 buf ASM_MIPS_OTYPE_REGISTER;;
  set_mop_regset 1 ASM_MIPS_REG_FPU;;
  set_mop_baser 1 (reg_rd temp);;
  asm_mips_operand_fetch 1 buf ASM_MIPS_OTYPE_REGISTER;;
  ret 4.

Definition asm_mips_neg_d : mips_handler := λ buf,
  set_mins_instr ASM_MIPS_NEG_D;;
  set_mins_type (ASM_TYPE_ARITH ||| ASM_TYPE_ARCH);;
  let temp := mips_convert_format_r buf in
  set_mop_regset 0 ASM_MIPS_REG_FPU;;
  set_mop_baser 0 (reg_sa temp);;
  asm_mips_operand_fetch 0 buf ASM_MIPS_OTYPE_REGISTER;;
  set_mop_regset 1 ASM_MIPS_REG_FPU;;
  set_mop_baser 1 (reg_rd temp);;
  asm_mips_operand_fetch 1 buf ASM_MIPS_OTYPE_REGISTER;;
  ret 4.

Definition asm_mips_neg_ps : mips_handler := λ buf,
  set_mins_instr ASM_MIPS_NEG_PS;;
  set_mins_type (ASM_TYPE_ARITH ||| ASM_TYPE_ARCH);;
  let temp := mips_convert_format_r buf in
  set_mop_regset 0 ASM_MIPS_REG_FPU;;
  set_mop_baser 0 (reg_sa temp);;
  asm_mips_operand_fetch 0 buf ASM_MIPS_OTYPE_REGISTER;;
  set_mop_regset 1 ASM_MIPS_REG_FPU;;
  set_mop_baser 1 (reg_rd temp);;
  asm_mips_operand_fetch 1 buf ASM_MIPS_OTYPE_REGISTER;;
  ret 4.

Definition asm_mips_recip_s : mips_handler := λ buf,
  set_mins_instr ASM_MIPS_RECIP_S;;
  set_mins_type (ASM_TYPE_ARITH ||| ASM_TYPE_ARCH);;
  let temp := mips_convert_format_r buf in
  set_mop_regset 0 ASM_MIPS_REG_FPU;;
  set_mop_baser 0 (reg_sa temp);;
  asm_mips_operand_fetch 0 buf ASM_MIPS_OTYPE_REGISTER;;
  set_mop_regset 1 ASM_MIPS_REG_FPU;;
  set_mop_baser 1 (reg_rd temp);;
  asm_mips_operand_fetch 1 buf ASM_MIPS_OTYPE_REGISTER;;
  ret 4.

Definition asm_mips_recip_d : mips_handler := λ buf,
  set_mins_instr ASM_MIPS_RECIP_D;;
  set_mins_type (ASM_TYPE_ARITH ||| ASM_TYPE_ARCH);;
  let temp := mips_convert_format_r buf in
  set_mop_regset 0 ASM_MIPS_REG_FPU;;
  set_mop_baser 0 (reg_sa temp);;
  asm_mips_operand_fetch 0 buf ASM_MIPS_OTYPE_REGISTER;;
  set_mop_regset 1 ASM_MIPS_REG_FPU;;
  set_mop_baser 1 (reg_rd temp);;
  asm_mips_operand_fetch 1 buf ASM_MIPS_OTYPE_REGISTER;;
  ret 4.

Definition asm_mips_rsqrt_s : mips_handler := λ buf,
  set_mins_instr ASM_MIPS_RSQRT_S;;
  set_mins_type (ASM_TYPE_ARITH ||| ASM_TYPE_ARCH);;
  let temp := mips_convert_format_r buf in
  set_mop_regset 0 ASM_MIPS_REG_FPU;;
  set_mop_baser 0 (reg_sa temp);;
  asm_mips_operand_fetch 0 buf ASM_MIPS_OTYPE_REGISTER;;
  set_mop_regset 1 ASM_MIPS_REG_FPU;;
  set_mop_baser 1 (reg_rd temp);;
  asm_mips_operand_fetch 1 buf ASM_MIPS_OTYPE_REGISTER;;
  ret 4.

Definition asm_mips_rsqrt_d : mips_handler := λ buf,
  set_mins_instr ASM_MIPS_RSQRT_D;;
  set_mins_type (ASM_TYPE_ARITH ||| ASM_TYPE_ARCH);;
  let temp := mips_convert_format_r buf in
  set_mop_regset 0 ASM_MIPS_REG_FPU;;
  set_mop_baser 0 (reg_sa temp);;
  asm_mips_operand_fetch 0 buf ASM_MIPS_OTYPE_REGISTER;;
  set_mop_regset 1 ASM_MIPS_REG_FPU;;
  set_mop_baser 1 (reg_rd temp);;
  asm_mips_operand_fetch 1 buf ASM_MIPS_OTYPE_REGISTER;;
  ret 4.

Definition asm_mips_sqrt_s : mips_handler := λ buf,
  set_mins_instr ASM_MIPS_SQRT_S;;
  set_mins_type (ASM_TYPE_ARITH ||| ASM_TYPE_ARCH);;
  let temp := mips_convert_format_r buf in
  set_mop_regset 0 ASM_MIPS_REG_FPU;;
  set_mop_baser 0 (reg_sa temp);;
  asm_mips_operand_fetch 0 buf ASM_MIPS_OTYPE_REGISTER;;
  set_mop_regset 1 ASM_MIPS_REG_FPU;;
  set_mop_baser 1 (reg_rd temp);;
  asm_mips_operand_fetch 1 buf ASM_MIPS_OTYPE_REGISTER;;
  ret 4.

Definition asm_mips_sqrt_d : mips_handler := λ buf,
  set_mins_instr ASM_MIPS_SQRT_D;;
  set_mins_type (ASM_TYPE_ARITH ||| ASM_TYPE_ARCH);;
  let temp := mips_convert_format_r buf in
  set_mop_regset 0 ASM_MIPS_REG_FPU;;
  set_mop_baser 0 (reg_sa temp);;
  asm_mips_operand_fetch 0 buf ASM_MIPS_OTYPE_REGISTER;;
  set_mop_regset 1 ASM_MIPS_REG_FPU;;
  set_mop_baser 1 (reg_rd temp);;
  asm_mips_operand_fetch 1 buf ASM_MIPS_OTYPE_REGISTER;;
  ret 4.

Definition asm_mips_sub_s : mips_handler := λ buf,
  set_mins_instr ASM_MIPS_SUB_S;;
  set_mins_type (ASM_TYPE_ARITH ||| ASM_TYPE_ARCH);;
  let temp := mips_convert_format_r buf in
  set_mop_regset 0 ASM_MIPS_REG_FPU;;
  set_mop_baser 0 (reg_sa temp);;
  asm_mips_operand_fetch 0 buf ASM_MIPS_OTYPE_REGISTER;;
  set_mop_regset 1 ASM_MIPS_REG_FPU;;
  set_mop_baser 1 (reg_rd temp);;
  asm_mips_operand_fetch 1 buf ASM_MIPS_OTYPE_REGISTER;;
  set_mop_regset 2 ASM_MIPS_REG_FPU;;
  set_mop_baser 2 (reg_rt temp);;
  asm_mips_operand_fetch 2 buf ASM_MIPS_OTYPE_REGISTER;;
  ret 4.

Definition asm_mips_sub_d : mips_handler := λ buf,
  set_mins_instr ASM_MIPS_SUB_D;;
  set_mins_type (ASM_TYPE_ARITH ||| ASM_TYPE_ARCH);;
  let temp := mips_convert_format_r buf in
  set_mop_regset 0 ASM_MIPS_REG_FPU;;
  set_mop_baser 0 (reg_sa temp);;
  asm_mips_operand_fetch 0 buf ASM_MIPS_OTYPE_REGISTER;;
  set_mop_regset 1 ASM_MIPS_REG_FPU;;
  set_mop_baser 1 (reg_rd temp);;
  asm_mips_operand_fetch 1 buf ASM_MIPS_OTYPE_REGISTER;;
  set_mop_regset 2 ASM_MIPS_REG_FPU;;
  set_mop_baser 2 (reg_rt temp);;
  asm_mips_operand_fetch 2 buf ASM_MIPS_OTYPE_REGISTER;;
  ret 4.

Definition asm_mips_sub_ps : mips_handler := λ buf,
  set_mins_instr ASM_MIPS_SUB_PS;;
  set_mins_type (ASM_TYPE_ARITH ||| ASM_TYPE_ARCH);;
  let temp := mips_convert_format_r buf in
  set_mop_regset 0 ASM_MIPS_REG_FPU;;
  set_mop_baser 0 (reg_sa temp);;
  asm_mips_operand_fetch 0 buf ASM_MIPS_OTYPE_REGISTER;;
  set_mop_regset 1 ASM_MIPS_REG_FPU;;
  set_mop_baser 1 (reg_rd temp);;
  asm_mips_operand_fetch 1 buf ASM_MIPS_OTYPE_REGISTER;;
  set_mop_regset 2 ASM_MIPS_REG_FPU;;
  set_mop_baser 2 (reg_rt temp);;
  asm_mips_operand_fetch 2 buf ASM_MIPS_OTYPE_REGISTER;;
  ret 4.

Definition asm_mips_bc1f : mips_handler := λ buf,
  set_mins_instr ASM_MIPS_BC1F;;
  set_mins_type (ASM_TYPE_ARCH ||| ASM_TYPE_BRANCH ||| ASM_TYPE_CONDCONTROL);;
  let temp := mips_convert_format_i buf in
  set_mop_imm 0 (imm_im temp);;
  asm_mips_operand_fetch 0 buf ASM_MIPS_OTYPE_BRANCH;;
  ret 4.

Definition asm_mips_bc1t : mips_handler := λ buf,
  set_mins_instr ASM_MIPS_BC1T;;
  set_mins_type (ASM_TYPE_ARCH ||| ASM_TYPE_BRANCH ||| ASM_TYPE_CONDCONTROL);;
  let temp := mips_convert_format_i buf in
  set_mop_imm 0 (imm_im temp);;
  asm_mips_operand_fetch 0 buf ASM_MIPS_OTYPE_BRANCH;;
  ret 4.

Definition asm_mips_ceil_l_s : mips_handler := λ buf,
  set_mins_instr ASM_MIPS_CEIL_L_S;;
  set_mins_type (ASM_TYPE_ARITH ||| ASM_TYPE_ARCH);;
  let temp := mips_convert_format_r buf in
  set_mop_regset 0 ASM_MIPS_REG_FPU;;
  set_mop_baser 0 (reg_sa temp);;
  asm_mips_operand_fetch 0 buf ASM_MIPS_OTYPE_REGISTER;;
  set_mop_regset 1 ASM_MIPS_REG_FPU;;
  set_mop_baser 1 (reg_rd temp);;
  asm_mips_operand_fetch 1 buf ASM_MIPS_OTYPE_REGISTER;;
  ret 4.

Definition asm_mips_ceil_l_d : mips_handler := λ buf,
  set_mins_instr ASM_MIPS_CEIL_L_D;;
  set_mins_type (ASM_TYPE_ARITH ||| ASM_TYPE_ARCH);;
  let temp := mips_convert_format_r buf in
  set_mop_regset 0 ASM_MIPS_REG_FPU;;
  set_mop_baser 0 (reg_sa temp);;
  asm_mips_operand_fetch 0 buf ASM_MIPS_OTYPE_REGISTER;;
  set_mop_regset 1 ASM_MIPS_REG_FPU;;
  set_mop_baser 1 (reg_rd temp);;
  asm_mips_operand_fetch 1 buf ASM_MIPS_OTYPE_REGISTER;;
  ret 4.

Definition asm_mips_ceil_w_s : mips_handler := λ buf,
  set_mins_instr ASM_MIPS_CEIL_W_S;;
  set_mins_type (ASM_TYPE_ARITH ||| ASM_TYPE_ARCH);;
  let temp := mips_convert_format_r buf in
  set_mop_regset 0 ASM_MIPS_REG_FPU;;
  set_mop_baser 0 (reg_sa temp);;
  asm_mips_operand_fetch 0 buf ASM_MIPS_OTYPE_REGISTER;;
  set_mop_regset 1 ASM_MIPS_REG_FPU;;
  set_mop_baser 1 (reg_rd temp);;
  asm_mips_operand_fetch 1 buf ASM_MIPS_OTYPE_REGISTER;;
  ret 4.

Definition asm_mips_ceil_w_d : mips_handler := λ buf,
  set_mins_instr ASM_MIPS_CEIL_W_D;;
  set_mins_type (ASM_TYPE_ARITH ||| ASM_TYPE_ARCH);;
  let temp := mips_convert_format_r buf in
  set_mop_regset 0 ASM_MIPS_REG_FPU;;
  set_mop_baser 0 (reg_sa temp);;
  asm_mips_operand_fetch 0 buf ASM_MIPS_OTYPE_REGISTER;;
  set_mop_regset 1 ASM_MIPS_REG_FPU;;
  set_mop_baser 1 (reg_rd temp);;
  asm_mips_operand_fetch 1 buf ASM_MIPS_OTYPE_REGISTER;;
  ret 4.

Definition asm_mips_cvt_d_s : mips_handler := λ buf,
  set_mins_instr ASM_MIPS_CVT_D_S;;
  set_mins_type (ASM_TYPE_ARITH ||| ASM_TYPE_ARCH);;
  let temp := mips_convert_format_r buf in
  set_mop_regset 0 ASM_MIPS_REG_FPU;;
  set_mop_baser 0 (reg_sa temp);;
  asm_mips_operand_fetch 0 buf ASM_MIPS_OTYPE_REGISTER;;
  set_mop_regset 1 ASM_MIPS_REG_FPU;;
  set_mop_baser 1 (reg_rd temp);;
  asm_mips_operand_fetch 1 buf ASM_MIPS_OTYPE_REGISTER;;
  ret 4.

Definition asm_mips_cvt_d_w : mips_handler := λ buf,
  set_mins_instr ASM_MIPS_CVT_D_W;;
  set_mins_type (ASM_TYPE_ARITH ||| ASM_TYPE_ARCH);;
  let temp := mips_convert_format_r buf in
  set_mop_regset 0 ASM_MIPS_REG_FPU;;
  set_mop_baser 0 (reg_sa temp);;
  asm_mips_operand_fetch 0 buf ASM_MIPS_OTYPE_REGISTER;;
  set_mop_regset 1 ASM_MIPS_REG_FPU;;
  set_mop_baser 1 (reg_rd temp);;
  asm_mips_operand_fetch 1 buf ASM_MIPS_OTYPE_REGISTER;;
  ret 4.

Definition asm_mips_cvt_d_l : mips_handler := λ buf,
  set_mins_instr ASM_MIPS_CVT_D_L;;
  set_mins_type (ASM_TYPE_ARITH ||| ASM_TYPE_ARCH);;
  let temp := mips_convert_format_r buf in
  set_mop_regset 0 ASM_MIPS_REG_FPU;;
  set_mop_baser 0 (reg_sa temp);;
  asm_mips_operand_fetch 0 buf ASM_MIPS_OTYPE_REGISTER;;
  set_mop_regset 1 ASM_MIPS_REG_FPU;;
  set_mop_baser 1 (reg_rd temp);;
  asm_mips_operand_fetch 1 buf ASM_MIPS_OTYPE_REGISTER;;
  ret 4.

Definition asm_mips_cvt_l_s : mips_handler := λ buf,
  set_mins_instr ASM_MIPS_CVT_L_S;;
  set_mins_type (ASM_TYPE_ARITH ||| ASM_TYPE_ARCH);;
  let temp := mips_convert_format_r buf in
  set_mop_regset 0 ASM_MIPS_REG_FPU;;
  set_mop_baser 0 (reg_sa temp);;
  asm_mips_operand_fetch 0 buf ASM_MIPS_OTYPE_REGISTER;;
  set_mop_regset 1 ASM_MIPS_REG_FPU;;
  set_mop_baser 1 (reg_rd temp);;
  asm_mips_operand_fetch 1 buf ASM_MIPS_OTYPE_REGISTER;;
  ret 4.

Definition asm_mips_cvt_l_d : mips_handler := λ buf,
  set_mins_instr ASM_MIPS_CVT_L_D;;
  set_mins_type (ASM_TYPE_ARITH ||| ASM_TYPE_ARCH);;
  let temp := mips_convert_format_r buf in
  set_mop_regset 0 ASM_MIPS_REG_FPU;;
  set_mop_baser 0 (reg_sa temp);;
  asm_mips_operand_fetch 0 buf ASM_MIPS_OTYPE_REGISTER;;
  set_mop_regset 1 ASM_MIPS_REG_FPU;;
  set_mop_baser 1 (reg_rd temp);;
  asm_mips_operand_fetch 1 buf ASM_MIPS_OTYPE_REGISTER;;
  ret 4.

Definition asm_mips_cvt_ps_s : mips_handler := λ buf,
  set_mins_instr ASM_MIPS_CVT_PS_S;;
  set_mins_type (ASM_TYPE_ARITH ||| ASM_TYPE_ARCH);;
  let temp := mips_convert_format_r buf in
  set_mop_regset 0 ASM_MIPS_REG_FPU;;
  set_mop_baser 0 (reg_sa temp);;
  asm_mips_operand_fetch 0 buf ASM_MIPS_OTYPE_REGISTER;;
  set_mop_regset 1 ASM_MIPS_REG_FPU;;
  set_mop_baser 1 (reg_rd temp);;
  asm_mips_operand_fetch 1 buf ASM_MIPS_OTYPE_REGISTER;;
  set_mop_regset 2 ASM_MIPS_REG_FPU;;
  set_mop_baser 2 (reg_rt temp);;
  asm_mips_operand_fetch 2 buf ASM_MIPS_OTYPE_REGISTER;;
  ret 4.

Definition asm_mips_cvt_s_d : mips_handler := λ buf,
  set_mins_instr ASM_MIPS_CVT_S_D;;
  set_mins_type (ASM_TYPE_ARITH ||| ASM_TYPE_ARCH);;
  let temp := mips_convert_format_r buf in
  set_mop_regset 0 ASM_MIPS_REG_FPU;;
  set_mop_baser 0 (reg_sa temp);;
  asm_mips_operand_fetch 0 buf ASM_MIPS_OTYPE_REGISTER;;
  set_mop_regset 1 ASM_MIPS_REG_FPU;;
  set_mop_baser 1 (reg_rd temp);;
  asm_mips_operand_fetch 1 buf ASM_MIPS_OTYPE_REGISTER;;
  ret 4.

Definition asm_mips_cvt_s_w : mips_handler := λ buf,
  set_mins_instr ASM_MIPS_CVT_S_W;;
  set_mins_type (ASM_TYPE_ARITH ||| ASM_TYPE_ARCH);;
  let temp := mips_convert_format_r buf in
  set_mop_regset 0 ASM_MIPS_REG_FPU;;
  set_mop_baser 0 (reg_sa temp);;
  asm_mips_operand_fetch 0 buf ASM_MIPS_OTYPE_REGISTER;;
  set_mop_regset 1 ASM_MIPS_REG_FPU;;
  set_mop_baser 1 (reg_rd temp);;
  asm_mips_operand_fetch 1 buf ASM_MIPS_OTYPE_REGISTER;;
  ret 4.

Definition asm_mips_cvt_s_l : mips_handler := λ buf,
  set_mins_instr ASM_MIPS_CVT_S_L;;
  set_mins_type (ASM_TYPE_ARITH ||| ASM_TYPE_ARCH);;
  let temp := mips_convert_format_r buf in
  set_mop_regset 0 ASM_MIPS_REG_FPU;;
  set_mop_baser 0 (reg_sa temp);;
  asm_mips_operand_fetch 0 buf ASM_MIPS_OTYPE_REGISTER;;
  set_mop_regset 1 ASM_MIPS_REG_FPU;;
  set_mop_baser 1 (reg_rd temp);;
  asm_mips_operand_fetch 1 buf ASM_MIPS_OTYPE_REGISTER;;
  ret 4.

Definition asm_mips_cvt_s_pl : mips_handler := λ buf,
  set_mins_instr ASM_MIPS_CVT_S_PL;;
  set_mins_type (ASM_TYPE_ARITH ||| ASM_TYPE_ARCH);;
  let temp := mips_convert_format_r buf in
  set_mop_regset 0 ASM_MIPS_REG_FPU;;
  set_mop_baser 0 (reg_sa temp);;
  asm_mips_operand_fetch 0 buf ASM_MIPS_OTYPE_REGISTER;;
  set_mop_regset 1 ASM_MIPS_REG_FPU;;
  set_mop_baser 1 (reg_rd temp);;
  asm_mips_operand_fetch 1 buf ASM_MIPS_OTYPE_REGISTER;;
  ret 4.

Definition asm_mips_cvt_s_pu : mips_handler := λ buf,
  set_mins_instr ASM_MIPS_CVT_S_PU;;
  set_mins_type (ASM_TYPE_ARITH ||| ASM_TYPE_ARCH);;
  let temp := mips_convert_format_r buf in
  set_mop_regset 0 ASM_MIPS_REG_FPU;;
  set_mop_baser 0 (reg_sa temp);;
  asm_mips_operand_fetch 0 buf ASM_MIPS_OTYPE_REGISTER;;
  set_mop_regset 1 ASM_MIPS_REG_FPU;;
  set_mop_baser 1 (reg_rd temp);;
  asm_mips_operand_fetch 1 buf ASM_MIPS_OTYPE_REGISTER;;
  ret 4.

Definition asm_mips_cvt_w_s : mips_handler := λ buf,
  set_mins_instr ASM_MIPS_CVT_W_S;;
  set_mins_type (ASM_TYPE_ARITH ||| ASM_TYPE_ARCH);;
  let temp := mips_convert_format_r buf in
  set_mop_regset 0 ASM_MIPS_REG_FPU;;
  set_mop_baser 0 (reg_sa temp);;
  asm_mips_operand_fetch 0 buf ASM_MIPS_OTYPE_REGISTER;;
  set_mop_regset 1 ASM_MIPS_REG_FPU;;
  set_mop_baser 1 (reg_rd temp);;
  asm_mips_operand_fetch 1 buf ASM_MIPS_OTYPE_REGISTER;;
  ret 4.

Definition asm_mips_cvt_w_d : mips_handler := λ buf,
  set_mins_instr ASM_MIPS_CVT_W_D;;
  set_mins_type (ASM_TYPE_ARITH ||| ASM_TYPE_ARCH);;
  let temp := mips_convert_format_r buf in
  set_mop_regset 0 ASM_MIPS_REG_FPU;;
  set_mop_baser 0 (reg_sa temp);;
  asm_mips_operand_fetch 0 buf ASM_MIPS_OTYPE_REGISTER;;
  set_mop_regset 1 ASM_MIPS_REG_FPU;;
  set_mop_baser 1 (reg_rd temp);;
  asm_mips_operand_fetch 1 buf ASM_MIPS_OTYPE_REGISTER;;
  ret 4.

Definition asm_mips_floor_l_s : mips_handler := λ buf,
  set_mins_instr ASM_MIPS_FLOOR_L_S;;
  set_mins_type (ASM_TYPE_ARITH ||| ASM_TYPE_ARCH);;
  let temp := mips_convert_format_r buf in
  set_mop_regset 0 ASM_MIPS_REG_FPU;;
  set_mop_baser 0 (reg_sa temp);;
  asm_mips_operand_fetch 0 buf ASM_MIPS_OTYPE_REGISTER;;
  set_mop_regset 1 ASM_MIPS_REG_FPU;;
  set_mop_baser 1 (reg_rd temp);;
  asm_mips_operand_fetch 1 buf ASM_MIPS_OTYPE_REGISTER;;
  ret 4.

Definition asm_mips_floor_l_d : mips_handler := λ buf,
  set_mins_instr ASM_MIPS_FLOOR_L_D;;
  set_mins_type (ASM_TYPE_ARITH ||| ASM_TYPE_ARCH);;
  let temp := mips_convert_format_r buf in
  set_mop_regset 0 ASM_MIPS_REG_FPU;;
  set_mop_baser 0 (reg_sa temp);;
  asm_mips_operand_fetch 0 buf ASM_MIPS_OTYPE_REGISTER;;
  set_mop_regset 1 ASM_MIPS_REG_FPU;;
  set_mop_baser 1 (reg_rd temp);;
  asm_mips_operand_fetch 1 buf ASM_MIPS_OTYPE_REGISTER;;
  ret 4.

Definition asm_mips_floor_w_s : mips_handler := λ buf,
  set_mins_instr ASM_MIPS_FLOOR_W_S;;
  set_mins_type (ASM_TYPE_ARITH ||| ASM_TYPE_ARCH);;
  let temp := mips_convert_format_r buf in
  set_mop_regset 0 ASM_MIPS_REG_FPU;;
  set_mop_baser 0 (reg_sa temp);;
  asm_mips_operand_fetch 0 buf ASM_MIPS_OTYPE_REGISTER;;
  set_mop_regset 1 ASM_MIPS_REG_FPU;;
  set_mop_baser 1 (reg_rd temp);;
  asm_mips_operand_fetch 1 buf ASM_MIPS_OTYPE_REGISTER;;
  ret 4.

Definition asm_mips_floor_w_d : mips_handler := λ buf,
  set_mins_instr ASM_MIPS_FLOOR_W_D;;
  set_mins_type (ASM_TYPE_ARITH ||| ASM_TYPE_ARCH);;
  let temp := mips_convert_format_r buf in
  set_mop_regset 0 ASM_MIPS_REG_FPU;;
  set_mop_baser 0 (reg_sa temp);;
  asm_mips_operand_fetch 0 buf ASM_MIPS_OTYPE_REGISTER;;
  set_mop_regset 1 ASM_MIPS_REG_FPU;;
  set_mop_baser 1 (reg_rd temp);;
  asm_mips_operand_fetch 1 buf ASM_MIPS_OTYPE_REGISTER;;
  ret 4.

Definition asm_mips_round_l_s : mips_handler := λ buf,
  set_mins_instr ASM_MIPS_ROUND_L_S;;
  set_mins_type (ASM_TYPE_ARITH ||| ASM_TYPE_ARCH);;
  let temp := mips_convert_format_r buf in
  set_mop_regset 0 ASM_MIPS_REG_FPU;;
  set_mop_baser 0 (reg_sa temp);;
  asm_mips_operand_fetch 0 buf ASM_MIPS_OTYPE_REGISTER;;
  set_mop_regset 1 ASM_MIPS_REG_FPU;;
  set_mop_baser 1 (reg_rd temp);;
  asm_mips_operand_fetch 1 buf ASM_MIPS_OTYPE_REGISTER;;
  ret 4.

Definition asm_mips_round_l_d : mips_handler := λ buf,
  set_mins_instr ASM_MIPS_ROUND_L_D;;
  set_mins_type (ASM_TYPE_ARITH ||| ASM_TYPE_ARCH);;
  let temp := mips_convert_format_r buf in
  set_mop_regset 0 ASM_MIPS_REG_FPU;;
  set_mop_baser 0 (reg_sa temp);;
  asm_mips_operand_fetch 0 buf ASM_MIPS_OTYPE_REGISTER;;
  set_mop_regset 1 ASM_MIPS_REG_FPU;;
  set_mop_baser 1 (reg_rd temp);;
  asm_mips_operand_fetch 1 buf ASM_MIPS_OTYPE_REGISTER;;
  ret 4.

Definition asm_mips_round_w_s : mips_handler := λ buf,
  set_mins_instr ASM_MIPS_ROUND_W_S;;
  set_mins_type (ASM_TYPE_ARITH ||| ASM_TYPE_ARCH);;
  let temp := mips_convert_format_r buf in
  set_mop_regset 0 ASM_MIPS_REG_FPU;;
  set_mop_baser 0 (reg_sa temp);;
  asm_mips_operand_fetch 0 buf ASM_MIPS_OTYPE_REGISTER;;
  set_mop_regset 1 ASM_MIPS_REG_FPU;;
  set_mop_baser 1 (reg_rd temp);;
  asm_mips_operand_fetch 1 buf ASM_MIPS_OTYPE_REGISTER;;
  ret 4.

Definition asm_mips_round_w_d : mips_handler := λ buf,
  set_mins_instr ASM_MIPS_ROUND_W_D;;
  set_mins_type (ASM_TYPE_ARITH ||| ASM_TYPE_ARCH);;
  let temp := mips_convert_format_r buf in
  set_mop_regset 0 ASM_MIPS_REG_FPU;;
  set_mop_baser 0 (reg_sa temp);;
  asm_mips_operand_fetch 0 buf ASM_MIPS_OTYPE_REGISTER;;
  set_mop_regset 1 ASM_MIPS_REG_FPU;;
  set_mop_baser 1 (reg_rd temp);;
  asm_mips_operand_fetch 1 buf ASM_MIPS_OTYPE_REGISTER;;
  ret 4.

Definition asm_mips_trunc_l_s : mips_handler := λ buf,
  set_mins_instr ASM_MIPS_TRUNC_L_S;;
  set_mins_type (ASM_TYPE_ARITH ||| ASM_TYPE_ARCH);;
  let temp := mips_convert_format_r buf in
  set_mop_regset 0 ASM_MIPS_REG_FPU;;
  set_mop_baser 0 (reg_sa temp);;
  asm_mips_operand_fetch 0 buf ASM_MIPS_OTYPE_REGISTER;;
  set_mop_regset 1 ASM_MIPS_REG_FPU;;
  set_mop_baser 1 (reg_rd temp);;
  asm_mips_operand_fetch 1 buf ASM_MIPS_OTYPE_REGISTER;;
  ret 4.

Definition asm_mips_trunc_l_d : mips_handler := λ buf,
  set_mins_instr ASM_MIPS_TRUNC_L_D;;
  set_mins_type (ASM_TYPE_ARITH ||| ASM_TYPE_ARCH);;
  let temp := mips_convert_format_r buf in
  set_mop_regset 0 ASM_MIPS_REG_FPU;;
  set_mop_baser 0 (reg_sa temp);;
  asm_mips_operand_fetch 0 buf ASM_MIPS_OTYPE_REGISTER;;
  set_mop_regset 1 ASM_MIPS_REG_FPU;;
  set_mop_baser 1 (reg_rd temp);;
  asm_mips_operand_fetch 1 buf ASM_MIPS_OTYPE_REGISTER;;
  ret 4.

Definition asm_mips_trunc_w_s : mips_handler := λ buf,
  set_mins_instr ASM_MIPS_TRUNC_W_S;;
  set_mins_type (ASM_TYPE_ARITH ||| ASM_TYPE_ARCH);;
  let temp := mips_convert_format_r buf in
  set_mop_regset 0 ASM_MIPS_REG_FPU;;
  set_mop_baser 0 (reg_sa temp);;
  asm_mips_operand_fetch 0 buf ASM_MIPS_OTYPE_REGISTER;;
  set_mop_regset 1 ASM_MIPS_REG_FPU;;
  set_mop_baser 1 (reg_rd temp);;
  asm_mips_operand_fetch 1 buf ASM_MIPS_OTYPE_REGISTER;;
  ret 4.

Definition asm_mips_trunc_w_d : mips_handler := λ buf,
  set_mins_instr ASM_MIPS_TRUNC_W_D;;
  set_mins_type (ASM_TYPE_ARITH ||| ASM_TYPE_ARCH);;
  let temp := mips_convert_format_r buf in
  set_mop_regset 0 ASM_MIPS_REG_FPU;;
  set_mop_baser 0 (reg_sa temp);;
  asm_mips_operand_fetch 0 buf ASM_MIPS_OTYPE_REGISTER;;
  set_mop_regset 1 ASM_MIPS_REG_FPU;;
  set_mop_baser 1 (reg_rd temp);;
  asm_mips_operand_fetch 1 buf ASM_MIPS_OTYPE_REGISTER;;
  ret 4.

Definition asm_mips_ldc1 : mips_handler := λ buf,
  set_mins_instr ASM_MIPS_LDC1;;
  set_mins_type (ASM_TYPE_LOAD ||| ASM_TYPE_ARCH);;
  let temp := mips_convert_format_i buf in
  set_mop_baser 0 (imm_rt temp);;
  asm_mips_operand_fetch 0 buf ASM_MIPS_OTYPE_REGISTER;;
  set_mop_imm 1 (imm_im temp);;
  asm_mips_operand_fetch 1 buf ASM_MIPS_OTYPE_IMMEDIATE;;
  set_mop_baser 2 (imm_rs temp);;
  asm_mips_operand_fetch 2 buf ASM_MIPS_OTYPE_REGBASE;;
  ret 4.

Definition asm_mips_lwc1 : mips_handler := λ buf,
  set_mins_instr ASM_MIPS_LWC1;;
  set_mins_type (ASM_TYPE_LOAD ||| ASM_TYPE_ARCH);;
  let temp := mips_convert_format_i buf in
  set_mop_baser 0 (imm_rt temp);;
  asm_mips_operand_fetch 0 buf ASM_MIPS_OTYPE_REGISTER;;
  set_mop_imm 1 (imm_im temp);;
  asm_mips_operand_fetch 1 buf ASM_MIPS_OTYPE_IMMEDIATE;;
  set_mop_baser 2 (imm_rs temp);;
  asm_mips_operand_fetch 2 buf ASM_MIPS_OTYPE_REGBASE;;
  ret 4.

Definition asm_mips_sdc1 : mips_handler := λ buf,
  set_mins_instr ASM_MIPS_SDC1;;
  set_mins_type (ASM_TYPE_STORE ||| ASM_TYPE_ARCH);;
  let temp := mips_convert_format_i buf in
  set_mop_baser 0 (imm_rt temp);;
  asm_mips_operand_fetch 0 buf ASM_MIPS_OTYPE_REGISTER;;
  set_mop_imm 1 (imm_im temp);;
  asm_mips_operand_fetch 1 buf ASM_MIPS_OTYPE_IMMEDIATE;;
  set_mop_baser 2 (imm_rs temp);;
  asm_mips_operand_fetch 2 buf ASM_MIPS_OTYPE_REGBASE;;
  ret 4.

Definition asm_mips_swc1 : mips_handler := λ buf,
  set_mins_instr ASM_MIPS_SWC1;;
  set_mins_type (ASM_TYPE_STORE ||| ASM_TYPE_ARCH);;
  let temp := mips_convert_format_i buf in
  set_mop_baser 0 (imm_rt temp);;
  asm_mips_operand_fetch 0 buf ASM_MIPS_OTYPE_REGISTER;;
  set_mop_imm 1 (imm_im temp);;
  asm_mips_operand_fetch 1 buf ASM_MIPS_OTYPE_IMMEDIATE;;
  set_mop_baser 2 (imm_rs temp);;
  asm_mips_operand_fetch 2 buf ASM_MIPS_OTYPE_REGBASE;;
  ret 4.

Definition asm_mips_cfc1 : mips_handler := λ buf,
  set_mins_instr ASM_MIPS_CFC1;;
  set_mins_type (ASM_TYPE_ARCH ||| ASM_TYPE_ASSIGN);;
  let temp := mips_convert_format_cop2 buf in
  set_mop_baser 0 (cop2_rt temp);;
  asm_mips_operand_fetch 0 buf ASM_MIPS_OTYPE_REGISTER;;
  set_mop_baser 1 (cop2_rd temp);;
  asm_mips_operand_fetch 1 buf ASM_MIPS_OTYPE_REGISTER;;
  ret 4.

Definition asm_mips_ctc1 : mips_handler := λ buf,
  set_mins_instr ASM_MIPS_CTC1;;
  set_mins_type (ASM_TYPE_ARCH ||| ASM_TYPE_ASSIGN);;
  let temp := mips_convert_format_cop2 buf in
  set_mop_baser 0 (cop2_rt temp);;
  asm_mips_operand_fetch 0 buf ASM_MIPS_OTYPE_REGISTER;;
  set_mop_baser 1 (cop2_rd temp);;
  asm_mips_operand_fetch 1 buf ASM_MIPS_OTYPE_REGISTER;;
  ret 4.

Definition asm_mips_mfc1 : mips_handler := λ buf,
  set_mins_instr ASM_MIPS_MFC1;;
  set_mins_type (ASM_TYPE_ARCH ||| ASM_TYPE_ASSIGN);;
  let temp := mips_convert_format_priv buf in
  set_mop_baser 0 (cop2_rt temp);;
  asm_mips_operand_fetch 0 buf ASM_MIPS_OTYPE_REGISTER;;
  set_mop_baser 1 (cop2_rd temp);;
  asm_mips_operand_fetch 1 buf ASM_MIPS_OTYPE_REGISTER;;
  ret 4.

Definition asm_mips_mtc1 : mips_handler := λ buf,
  set_mins_instr ASM_MIPS_MTC1;;
  set_mins_type (ASM_TYPE_ARCH ||| ASM_TYPE_ASSIGN);;
  let temp := mips_convert_format_priv buf in
  set_mop_baser 0 (cop2_rt temp);;
  asm_mips_operand_fetch 0 buf ASM_MIPS_OTYPE_REGISTER;;
  set_mop_baser 1 (cop2_rd temp);;
  asm_mips_operand_fetch 1 buf ASM_MIPS_OTYPE_REGISTER;;
  ret 4.

Definition asm_mips_mov_s : mips_handler := λ buf,
  set_mins_instr ASM_MIPS_MOV_S;;
  set_mins_type (ASM_TYPE_ARITH ||| ASM_TYPE_ARCH ||| ASM_TYPE_ASSIGN);;
  let temp := mips_convert_format_r buf in
  set_mop_regset 0 ASM_MIPS_REG_FPU;;
  set_mop_baser 0 (reg_sa temp);;
  asm_mips_operand_fetch 0 buf ASM_MIPS_OTYPE_REGISTER;;
  set_mop_regset 1 ASM_MIPS_REG_FPU;;
  set_mop_baser 1 (reg_rd temp);;
  asm_mips_operand_fetch 1 buf ASM_MIPS_OTYPE_REGISTER;;
  ret 4.

Definition asm_mips_mov_d : mips_handler := λ buf,
  set_mins_instr ASM_MIPS_MOV_D;;
  set_mins_type (ASM_TYPE_ARITH ||| ASM_TYPE_ARCH ||| ASM_TYPE_ASSIGN);;
  let temp := mips_convert_format_r buf in
  set_mop_regset 0 ASM_MIPS_REG_FPU;;
  set_mop_baser 0 (reg_sa temp);;
  asm_mips_operand_fetch 0 buf ASM_MIPS_OTYPE_REGISTER;;
  set_mop_regset 1 ASM_MIPS_REG_FPU;;
  set_mop_baser 1 (reg_rd temp);;
  asm_mips_operand_fetch 1 buf ASM_MIPS_OTYPE_REGISTER;;
  ret 4.

Definition asm_mips_mov_ps : mips_handler := λ buf,
  set_mins_instr ASM_MIPS_MOV_PS;;
  set_mins_type (ASM_TYPE_ARITH ||| ASM_TYPE_ARCH ||| ASM_TYPE_ASSIGN);;
  let temp := mips_convert_format_r buf in
  set_mop_regset 0 ASM_MIPS_REG_FPU;;
  set_mop_baser 0 (reg_sa temp);;
  asm_mips_operand_fetch 0 buf ASM_MIPS_OTYPE_REGISTER;;
  set_mop_regset 1 ASM_MIPS_REG_FPU;;
  set_mop_baser 1 (reg_rd temp);;
  asm_mips_operand_fetch 1 buf ASM_MIPS_OTYPE_REGISTER;;
  ret 4.

Definition asm_mips_movcf_s : mips_handler := λ buf,
  let converted := buf in
  (if negb ((converted ≫ 16) &&& 1 =? 0) then set_mins_instr ASM_MIPS_MOVT_S else set_mins_instr ASM_MIPS_MOVF_S);;
  set_mins_type (ASM_TYPE_ARITH ||| ASM_TYPE_ARCH ||| ASM_TYPE_ASSIGN);;
  let temp := mips_convert_format_r buf in
  set_mop_regset 0 ASM_MIPS_REG_FPU;;
  set_mop_baser 0 (reg_sa temp);;
  asm_mips_operand_fetch 0 buf ASM_MIPS_OTYPE_REGISTER;;
  set_mop_regset 1 ASM_MIPS_REG_FPU;;
  set_mop_baser 1 (reg_rd temp);;
  asm_mips_operand_fetch 1 buf ASM_MIPS_OTYPE_REGISTER;;
  set_mop_imm 2 (reg_rt temp ≫ 2);;
  asm_mips_operand_fetch 2 buf ASM_MIPS_OTYPE_IMMEDIATE;;
  ret 4.

Definition asm_mips_movcf_d : mips_handler := λ buf,
  let converted := buf in
  (if negb ((converted ≫ 16) &&& 1 =? 0) then set_mins_instr ASM_MIPS_MOVT_D else set_mins_instr ASM_MIPS_MOVF_D);;
  set_mins_type (ASM_TYPE_ARITH ||| ASM_TYPE_ARCH ||| ASM_TYPE_ASSIGN);;
  let temp := mips_convert_format_r buf in
  set_mop_regset 0 ASM_MIPS_REG_FPU;;
  set_mop_baser 0 (reg_sa temp);;
  asm_mips_operand_fetch 0 buf ASM_MIPS_OTYPE_REGISTER;;
  set_mop_regset 1 ASM_MIPS_REG_FPU;;
  set_mop_baser 1 (reg_rd temp);;
  asm_mips_operand_fetch 1 buf ASM_MIPS_OTYPE_REGISTER;;
  set_mop_imm 2 (reg_rt temp ≫ 2);;
  asm_mips_operand_fetch 2 buf ASM_MIPS_OTYPE_IMMEDIATE;;
  ret 4.

Definition asm_mips_movcf_ps : mips_handler := λ buf,
  let converted := buf in
  (if negb ((converted ≫ 16) &&& 1 =? 0) then set_mins_instr ASM_MIPS_MOVT_PS else set_mins_instr ASM_MIPS_MOVF_PS);;
  set_mins_type (ASM_TYPE_ARITH ||| ASM_TYPE_ARCH ||| ASM_TYPE_ASSIGN);;
  let temp := mips_convert_format_r buf in
  set_mop_regset 0 ASM_MIPS_REG_FPU;;
  set_mop_baser 0 (reg_sa temp);;
  asm_mips_operand_fetch 0 buf ASM_MIPS_OTYPE_REGISTER;;
  set_mop_regset 1 ASM_MIPS_REG_FPU;;
  set_mop_baser 1 (reg_rd temp);;
  asm_mips_operand_fetch 1 buf ASM_MIPS_OTYPE_REGISTER;;
  set_mop_imm 2 (reg_rt temp ≫ 2);;
  asm_mips_operand_fetch 2 buf ASM_MIPS_OTYPE_IMMEDIATE;;
  ret 4.

Definition asm_mips_movn_s : mips_handler := λ buf,
  set_mins_instr ASM_MIPS_MOVN_S;;
  set_mins_type (ASM_TYPE_ARITH ||| ASM_TYPE_ARCH ||| ASM_TYPE_ASSIGN);;
  let temp := mips_convert_format_r buf in
  set_mop_regset 0 ASM_MIPS_REG_FPU;;
  set_mop_baser 0 (reg_sa temp);;
  asm_mips_operand_fetch 0 buf ASM_MIPS_OTYPE_REGISTER;;
  set_mop_regset 1 ASM_MIPS_REG_FPU;;
  set_mop_baser 1 (reg_rd temp);;
  asm_mips_operand_fetch 1 buf ASM_MIPS_OTYPE_REGISTER;;
  set_mop_baser 2 (reg_rt temp);;
  asm_mips_operand_fetch 2 buf ASM_MIPS_OTYPE_REGISTER;;
  ret 4.

Definition asm_mips_movn_d : mips_handler := λ buf,
  set_mins_instr ASM_MIPS_MOVN_D;;
  set_mins_type (ASM_TYPE_ARITH ||| ASM_TYPE_ARCH ||| ASM_TYPE_ASSIGN);;
  let temp := mips_convert_format_r buf in
  set_mop_regset 0 ASM_MIPS_REG_FPU;;
  set_mop_baser 0 (reg_sa temp);;
  asm_mips_operand_fetch 0 buf ASM_MIPS_OTYPE_REGISTER;;
  set_mop_regset 1 ASM_MIPS_REG_FPU;;
  set_mop_baser 1 (reg_rd temp);;
  asm_mips_operand_fetch 1 buf ASM_MIPS_OTYPE_REGISTER;;
  set_mop_baser 2 (reg_rt temp);;
  asm_mips_operand_fetch 2 buf ASM_MIPS_OTYPE_REGISTER;;
  ret 4.

Definition asm_mips_movn_ps : mips_handler := λ buf,
  set_mins_instr ASM_MIPS_MOVN_PS;;
  set_mins_type (ASM_TYPE_ARITH ||| ASM_TYPE_ARCH ||| ASM_TYPE_ASSIGN);;
  let temp := mips_convert_format_r buf in
  set_mop_regset 0 ASM_MIPS_REG_FPU;;
  set_mop_baser 0 (reg_sa temp);;
  asm_mips_operand_fetch 0 buf ASM_MIPS_OTYPE_REGISTER;;
  set_mop_regset 1 ASM_MIPS_REG_FPU;;
  set_mop_baser 1 (reg_rd temp);;
  asm_mips_operand_fetch 1 buf ASM_MIPS_OTYPE_REGISTER;;
  set_mop_baser 2 (reg_rt temp);;
  asm_mips_operand_fetch 2 buf ASM_MIPS_OTYPE_REGISTER;;
  ret 4.

Definition asm_mips_movz_s : mips_handler := λ buf,
  set_mins_instr ASM_MIPS_MOVZ_S;;
  set_mins_type (ASM_TYPE_ARITH ||| ASM_TYPE_ARCH ||| ASM_TYPE_ASSIGN);;
  let temp := mips_convert_format_r buf in
  set_mop_regset 0 ASM_MIPS_REG_FPU;;
  set_mop_baser 0 (reg_sa temp);;
  asm_mips_operand_fetch 0 buf ASM_MIPS_OTYPE_REGISTER;;
  set_mop_regset 1 ASM_MIPS_REG_FPU;;
  set_mop_baser 1 (reg_rd temp);;
  asm_mips_operand_fetch 1 buf ASM_MIPS_OTYPE_REGISTER;;
  set_mop_baser 2 (reg_rt temp);;
  asm_mips_operand_fetch 2 buf ASM_MIPS_OTYPE_REGISTER;;
  ret 4.

Definition asm_mips_movz_d : mips_handler := λ buf,
  set_mins_instr ASM_MIPS_MOVZ_D;;
  set_mins_type (ASM_TYPE_ARITH ||| ASM_TYPE_ARCH ||| ASM_TYPE_ASSIGN);;
  let temp := mips_convert_format_r buf in
  set_mop_regset 0 ASM_MIPS_REG_FPU;;
  set_mop_baser 0 (reg_sa temp);;
  asm_mips_operand_fetch 0 buf ASM_MIPS_OTYPE_REGISTER;;
  set_mop_regset 1 ASM_MIPS_REG_FPU;;
  set_mop_baser 1 (reg_rd temp);;
  asm_mips_operand_fetch 1 buf ASM_MIPS_OTYPE_REGISTER;;
  set_mop_baser 2 (reg_rt temp);;
  asm_mips_operand_fetch 2 buf ASM_MIPS_OTYPE_REGISTER;;
  ret 4.

Definition asm_mips_movz_ps : mips_handler := λ buf,
  set_mins_instr ASM_MIPS_MOVZ_PS;;
  set_mins_type (ASM_TYPE_ARITH ||| ASM_TYPE_ARCH ||| ASM_TYPE_ASSIGN);;
  let temp := mips_convert_format_r buf in
  set_mop_regset 0 ASM_MIPS_REG_FPU;;
  set_mop_baser 0 (reg_sa temp);;
  asm_mips_operand_fetch 0 buf ASM_MIPS_OTYPE_REGISTER;;
  set_mop_regset 1 ASM_MIPS_REG_FPU;;
  set_mop_baser 1 (reg_rd temp);;
  asm_mips_operand_fetch 1 buf ASM_MIPS_OTYPE_REGISTER;;
  set_mop_baser 2 (reg_rt temp);;
  asm_mips_operand_fetch 2 buf ASM_MIPS_OTYPE_REGISTER;;
  ret 4.

Definition asm_mips_bc1fl : mips_handler := λ buf,
  set_mins_instr ASM_MIPS_BC1FL;;
  set_mins_type (ASM_TYPE_ARCH ||| ASM_TYPE_BRANCH ||| ASM_TYPE_CONDCONTROL);;
  let temp := mips_convert_format_i buf in
  set_mop_imm 0 (imm_im temp);;
  asm_mips_operand_fetch 0 buf ASM_MIPS_OTYPE_BRANCH;;
  ret 4.

Definition asm_mips_bc1tl : mips_handler := λ buf,
  set_mins_instr ASM_MIPS_BC1TL;;
  set_mins_type (ASM_TYPE_ARCH ||| ASM_TYPE_BRANCH ||| ASM_TYPE_CONDCONTROL);;
  let temp := mips_convert_format_i buf in
  set_mop_imm 0 (imm_im temp);;
  asm_mips_operand_fetch 0 buf ASM_MIPS_OTYPE_BRANCH;;
  ret 4.

Definition asm_mips_dmtc1 : mips_handler := λ buf,
  set_mins_instr ASM_MIPS_DMTC1;;
  set_mins_type (ASM_TYPE_ARCH ||| ASM_TYPE_ASSIGN);;
  let temp := mips_convert_format_cop2 buf in
  set_mop_baser 0 (cop2_rt temp);;
  asm_mips_operand_fetch 0 buf ASM_MIPS_OTYPE_REGISTER;;
  set_mop_baser 1 (cop2_rd temp);;
  asm_mips_operand_fetch 1 buf ASM_MIPS_OTYPE_REGISTER;;
  ret 4.

Definition asm_mips_dmfc1 : mips_handler := λ buf,
  set_mins_instr ASM_MIPS_DMFC1;;
  set_mins_type (ASM_TYPE_ARCH ||| ASM_TYPE_ASSIGN);;
  let temp := mips_convert_format_cop2 buf in
  set_mop_baser 0 (cop2_rt temp);;
  asm_mips_operand_fetch 0 buf ASM_MIPS_OTYPE_REGISTER;;
  set_mop_baser 1 (cop2_rd temp);;
  asm_mips_operand_fetch 1 buf ASM_MIPS_OTYPE_REGISTER;;
  ret 4.

(** * MIPS: the handlers of the floating point comparisons
    (src/libasm/src/arch/mips/handlers/) *)

Close Scope ia32_scope.
Open Scope mips_scope.

Definition asm_mips_c_f_s : mips_handler := λ buf,
  set_mins_instr ASM_MIPS_C_F_S;;
  set_mins_type (ASM_TYPE_ARCH ||| ASM_TYPE_ASSIGN ||| ASM_TYPE_COMPARISON);;
  let temp := mips_convert_format_cop2 buf in
  set_mop_baser 0 (cop2_rd temp);;
  asm_mips_operand_fetch 0 buf ASM_MIPS_OTYPE_REGISTER;;
  set_mop_baser 1 (cop2_rt temp);;
  asm_mips_operand_fetch 1 buf ASM_MIPS_OTYPE_REGISTER;;
  ret 4.

Definition asm_mips_c_f_d : mips_handler := λ buf,
  set_mins_instr ASM_MIPS_C_F_D;;
  set_mins_type (ASM_TYPE_ARCH ||| ASM_TYPE_ASSIGN ||| ASM_TYPE_COMPARISON);;
  let temp := mips_convert_format_cop2 buf in
  set_mop_baser 0 (cop2_rd temp);;
  asm_mips_operand_fetch 0 buf ASM_MIPS_OTYPE_REGISTER;;
  set_mop_baser 1 (cop2_rt temp);;
  asm_mips_operand_fetch 1 buf ASM_MIPS_OTYPE_REGISTER;;
  ret 4.

Definition asm_mips_c_f_ps : mips_handler := λ buf,
  set_mins_instr ASM_MIPS_C_F_PS;;
  set_mins_type (ASM_TYPE_ARCH ||| ASM_TYPE_ASSIGN ||| ASM_TYPE_COMPARISON);;
  let temp := mips_convert_format_cop2 buf in
  set_mop_baser 0 (cop2_rd temp);;
  asm_mips_operand_fetch 0 buf ASM_MIPS_OTYPE_REGISTER;;
  set_mop_baser 1 (cop2_rt temp);;
  asm_mips_operand_fetch 1 buf ASM_MIPS_OTYPE_REGISTER;;
  ret 4.

Definition asm_mips_c_un_s : mips_handler := λ buf,
  set_mins_instr ASM_MIPS_C_UN_S;;
  set_mins_type (ASM_TYPE_ARCH ||| ASM_TYPE_ASSIGN ||| ASM_TYPE_COMPARISON);;
  let temp := mips_convert_format_cop2 buf in
  set_mop_baser 0 (cop2_rd temp);;
  asm_mips_operand_fetch 0 buf ASM_MIPS_OTYPE_REGISTER;;
  set_mop_baser 1 (cop2_rt temp);;
  asm_mips_operand_fetch 1 buf ASM_MIPS_OTYPE_REGISTER;;
  ret 4.

Definition asm_mips_c_un_d : mips_handler := λ buf,
  set_mins_instr ASM_MIPS_C_UN_D;;
  set_mins_type (ASM_TYPE_ARCH ||| ASM_TYPE_ASSIGN ||| ASM_TYPE_COMPARISON);;
  let temp := mips_convert_format_cop2 buf in
  set_mop_baser 0 (cop2_rd temp);;
  asm_mips_operand_fetch 0 buf ASM_MIPS_OTYPE_REGISTER;;
  set_mop_baser 1 (cop2_rt temp);;
  asm_mips_operand_fetch 1 buf ASM_MIPS_OTYPE_REGISTER;;
  ret 4.

Definition asm_mips_c_un_ps : mips_handler := λ buf,
  set_mins_instr ASM_MIPS_C_UN_PS;;
  set_mins_type (ASM_TYPE_ARCH ||| ASM_TYPE_ASSIGN ||| ASM_TYPE_COMPARISON);;
  let temp := mips_convert_format_cop2 buf in
  set_mop_baser 0 (cop2_rd temp);;
  asm_mips_operand_fetch 0 buf ASM_MIPS_OTYPE_REGISTER;;
  set_mop_baser 1 (cop2_rt temp);;
  asm_mips_operand_fetch 1 buf ASM_MIPS_OTYPE_REGISTER;;
  ret 4.

Definition asm_mips_c_eq_s : mips_handler := λ buf,
  set_mins_instr ASM_MIPS_C_EQ_S;;
  set_mins_type (ASM_TYPE_ARCH ||| ASM_TYPE_ASSIGN ||| ASM_TYPE_COMPARISON);;
  let temp := mips_convert_format_cop2 buf in
  set_mop_baser 0 (cop2_rd temp);;
  asm_mips_operand_fetch 0 buf ASM_MIPS_OTYPE_REGISTER;;
  set_mop_baser 1 (cop2_rt temp);;
  asm_mips_operand_fetch 1 buf ASM_MIPS_OTYPE_REGISTER;;
  ret 4.

Definition asm_mips_c_eq_d : mips_handler := λ buf,
  set_mins_instr ASM_MIPS_C_EQ_D;;
  set_mins_type (ASM_TYPE_ARCH ||| ASM_TYPE_ASSIGN ||| ASM_TYPE_COMPARISON);;
  let temp := mips_convert_format_cop2 buf in
  set_mop_baser 0 (cop2_rd temp);;
  asm_mips_operand_fetch 0 buf ASM_MIPS_OTYPE_REGISTER;;
  set_mop_baser 1 (cop2_rt temp);;
  asm_mips_operand_fetch 1 buf ASM_MIPS_OTYPE_REGISTER;;
  ret 4.

Definition asm_mips_c_eq_ps : mips_handler := λ buf,
  set_mins_instr ASM_MIPS_C_EQ_PS;;
  set_mins_type (ASM_TYPE_ARCH ||| ASM_TYPE_ASSIGN ||| ASM_TYPE_COMPARISON);;
  let temp := mips_convert_format_cop2 buf in
  set_mop_baser 0 (cop2_rd temp);;
  asm_mips_operand_fetch 0 buf ASM_MIPS_OTYPE_REGISTER;;
  set_mop_baser 1 (cop2_rt temp);;
  asm_mips_operand_fetch 1 buf ASM_MIPS_OTYPE_REGISTER;;
  ret 4.

Definition asm_mips_c_ueq_s : mips_handler := λ buf,
  set_mins_instr ASM_MIPS_C_UEQ_S;;
  set_mins_type (ASM_TYPE_ARCH ||| ASM_TYPE_ASSIGN ||| ASM_TYPE_COMPARISON);;
  let temp := mips_convert_format_cop2 buf in
  set_mop_baser 0 (cop2_rd temp);;
  asm_mips_operand_fetch 0 buf ASM_MIPS_OTYPE_REGISTER;;
  set_mop_baser 1 (cop2_rt temp);;
  asm_mips_operand_fetch 1 buf ASM_MIPS_OTYPE_REGISTER;;
  ret 4.

Definition asm_mips_c_ueq_d : mips_handler := λ buf,
  set_mins_instr ASM_MIPS_C_UEQ_D;;
  set_mins_type (ASM_TYPE_ARCH ||| ASM_TYPE_ASSIGN ||| ASM_TYPE_COMPARISON);;
  let temp := mips_convert_format_cop2 buf in
  set_mop_baser 0 (cop2_rd temp);;
  asm_mips_operand_fetch 0 buf ASM_MIPS_OTYPE_REGISTER;;
  set_mop_baser 1 (cop2_rt temp);;
  asm_mips_operand_fetch 1 buf ASM_MIPS_OTYPE_REGISTER;;
  ret 4.

Definition asm_mips_c_ueq_ps : mips_handler := λ buf,
  set_mins_instr ASM_MIPS_C_UEQ_PS;;
  set_mins_type (ASM_TYPE_ARCH ||| ASM_TYPE_ASSIGN ||| ASM_TYPE_COMPARISON);;
  let temp := mips_convert_format_cop2 buf in
  set_mop_baser 0 (cop2_rd temp);;
  asm_mips_operand_fetch 0 buf ASM_MIPS_OTYPE_REGISTER;;
  set_mop_baser 1 (cop2_rt temp);;
  asm_mips_operand_fetch 1 buf ASM_MIPS_OTYPE_REGISTER;;
  ret 4.

Definition asm_mips_c_olt_s : mips_handler := λ buf,
  set_mins_instr ASM_MIPS_C_OLT_S;;
  set_mins_type (ASM_TYPE_ARCH ||| ASM_TYPE_ASSIGN ||| ASM_TYPE_COMPARISON);;
  let temp := mips_convert_format_cop2 buf in
  set_mop_baser 0 (cop2_rd temp);;
  asm_mips_operand_fetch 0 buf ASM_MIPS_OTYPE_REGISTER;;
  set_mop_baser 1 (cop2_rt temp);;
  asm_mips_operand_fetch 1 buf ASM_MIPS_OTYPE_REGISTER;;
  ret 4.

Definition asm_mips_c_olt_d : mips_handler := λ buf,
  set_mins_instr ASM_MIPS_C_OLT_D;;
  set_mins_type (ASM_TYPE_ARCH ||| ASM_TYPE_ASSIGN ||| ASM_TYPE_COMPARISON);;
  let temp := mips_convert_format_cop2 buf in
  set_mop_baser 0 (cop2_rd temp);;
  asm_mips_operand_fetch 0 buf ASM_MIPS_OTYPE_REGISTER;;
  set_mop_baser 1 (cop2_rt temp);;
  asm_mips_operand_fetch 1 buf ASM_MIPS_OTYPE_REGISTER;;
  ret 4.

Definition asm_mips_c_olt_ps : mips_handler := λ buf,
  set_mins_instr ASM_MIPS_C_OLT_PS;;
  set_mins_type (ASM_TYPE_ARCH ||| ASM_TYPE_ASSIGN ||| ASM_TYPE_COMPARISON);;
  let temp := mips_convert_format_cop2 buf in
  set_mop_baser 0 (cop2_rd temp);;
  asm_mips_operand_fetch 0 buf ASM_MIPS_OTYPE_REGISTER;;
  set_mop_baser 1 (cop2_rt temp);;
  asm_mips_operand_fetch 1 buf ASM_MIPS_OTYPE_REGISTER;;
  ret 4.

Definition asm_mips_c_ult_s : mips_handler := λ buf,
  set_mins_instr ASM_MIPS_C_ULT_S;;
  set_mins_type (ASM_TYPE_ARCH ||| ASM_TYPE_ASSIGN ||| ASM_TYPE_COMPARISON);;
  let temp := mips_convert_format_cop2 buf in
  set_mop_baser 0 (cop2_rd temp);;
  asm_mips_operand_fetch 0 buf ASM_MIPS_OTYPE_REGISTER;;
  set_mop_baser 1 (cop2_rt temp);;
  asm_mips_operand_fetch 1 buf ASM_MIPS_OTYPE_REGISTER;;
  ret 4.

Definition asm_mips_c_ult_d : mips_handler := λ buf,
  set_mins_instr ASM_MIPS_C_ULT_D;;
  set_mins_type (ASM_TYPE_ARCH ||| ASM_TYPE_ASSIGN ||| ASM_TYPE_COMPARISON);;
  let temp := mips_convert_format_cop2 buf in
  set_mop_baser 0 (cop2_rd temp);;
  asm_mips_operand_fetch 0 buf ASM_MIPS_OTYPE_REGISTER;;
  set_mop_baser 1 (cop2_rt temp);;
  asm_mips_operand_fetch 1 buf ASM_MIPS_OTYPE_REGISTER;;
  ret 4.

Definition asm_mips_c_ult_ps : mips_handler := λ buf,
  set_mins_instr ASM_MIPS_C_ULT_PS;;
  set_mins_type (ASM_TYPE_ARCH ||| ASM_TYPE_ASSIGN ||| ASM_TYPE_COMPARISON);;
  let temp := mips_convert_format_cop2 buf in
  set_mop_baser 0 (cop2_rd temp);;
  asm_mips_operand_fetch 0 buf ASM_MIPS_OTYPE_REGISTER;;
  set_mop_baser 1 (cop2_rt temp);;
  asm_mips_operand_fetch 1 buf ASM_MIPS_OTYPE_REGISTER;;
  ret 4.

Definition asm_mips_c_ole_s : mips_handler := λ buf,
  set_mins_instr ASM_MIPS_C_OLE_S;;
  set_mins_type (ASM_TYPE_ARCH ||| ASM_TYPE_ASSIGN ||| ASM_TYPE_COMPARISON);;
  let temp := mips_convert_format_cop2 buf in
  set_mop_baser 0 (cop2_rd temp);;
  asm_mips_operand_fetch 0 buf ASM_MIPS_OTYPE_REGISTER;;
  set_mop_baser 1 (cop2_rt temp);;
  asm_mips_operand_fetch 1 buf ASM_MIPS_OTYPE_REGISTER;;
  ret 4.

Definition asm_mips_c_ole_d : mips_handler := λ buf,
  set_mins_instr ASM_MIPS_C_OLE_D;;
  set_mins_type (ASM_TYPE_ARCH ||| ASM_TYPE_ASSIGN ||| ASM_TYPE_COMPARISON);;
  let temp := mips_convert_format_cop2 buf in
  set_mop_baser 0 (cop2_rd temp);;
  asm_mips_operand_fetch 0 buf ASM_MIPS_OTYPE_REGISTER;;
  set_mop_baser 1 (cop2_rt temp);;
  asm_mips_operand_fetch 1 buf ASM_MIPS_OTYPE_REGISTER;;
  ret 4.

Definition asm_mips_c_ole_ps : mips_handler := λ buf,
  set_mins_instr ASM_MIPS_C_OLE_PS;;
  set_mins_type (ASM_TYPE_ARCH ||| ASM_TYPE_ASSIGN ||| ASM_TYPE_COMPARISON);;
  let temp := mips_convert_format_cop2 buf in
  set_mop_baser 0 (cop2_rd temp);;
  asm_mips_operand_fetch 0 buf ASM_MIPS_OTYPE_REGISTER;;
  set_mop_baser 1 (cop2_rt temp);;
  asm_mips_operand_fetch 1 buf ASM_MIPS_OTYPE_REGISTER;;
  ret 4.

Definition asm_mips_c_ule_s : mips_handler := λ buf,
  set_mins_instr ASM_MIPS_C_ULE_S;;
  set_mins_type (ASM_TYPE_ARCH ||| ASM_TYPE_ASSIGN ||| ASM_TYPE_COMPARISON);;
  let temp := mips_convert_format_cop2 buf in
  set_mop_baser 0 (cop2_rd temp);;
  asm_mips_operand_fetch 0 buf ASM_MIPS_OTYPE_REGISTER;;
  set_mop_baser 1 (cop2_rt temp);;
  asm_mips_operand_fetch 1 buf ASM_MIPS_OTYPE_REGISTER;;
  ret 4.

Definition asm_mips_c_ule_d : mips_handler := λ buf,
  set_mins_instr ASM_MIPS_C_ULE_D;;
  set_mins_type (ASM_TYPE_ARCH ||| ASM_TYPE_ASSIGN ||| ASM_TYPE_COMPARISON);;
  let temp := mips_convert_format_cop2 buf in
  set_mop_baser 0 (cop2_rd temp);;
  asm_mips_operand_fetch 0 buf ASM_MIPS_OTYPE_REGISTER;;
  set_mop_baser 1 (cop2_rt temp);;
  asm_mips_operand_fetch 1 buf ASM_MIPS_OTYPE_REGISTER;;
  ret 4.

Definition asm_mips_c_ule_ps : mips_handler := λ buf,
  set_mins_instr ASM_MIPS_C_ULE_PS;;
  set_mins_type (ASM_TYPE_ARCH ||| ASM_TYPE_ASSIGN ||| ASM_TYPE_COMPARISON);;
  let temp := mips_convert_format_cop2 buf in
  set_mop_baser 0 (cop2_rd temp);;
  asm_mips_operand_fetch 0 buf ASM_MIPS_OTYPE_REGISTER;;
  set_mop_baser 1 (cop2_rt temp);;
  asm_mips_operand_fetch 1 buf ASM_MIPS_OTYPE_REGISTER;;
  ret 4.

Definition asm_mips_c_sf_s : mips_handler := λ buf,
  set_mins_instr ASM_MIPS_C_SF_S;;
  set_mins_type (ASM_TYPE_ARCH ||| ASM_TYPE_ASSIGN ||| ASM_TYPE_COMPARISON);;
  let temp := mips_convert_format_cop2 buf in
  set_mop_baser 0 (cop2_rd temp);;
  asm_mips_operand_fetch 0 buf ASM_MIPS_OTYPE_REGISTER;;
  set_mop_baser 1 (cop2_rt temp);;
  asm_mips_operand_fetch 1 buf ASM_MIPS_OTYPE_REGISTER;;
  ret 4.

Definition asm_mips_c_sf_d : mips_handler := λ buf,
  set_mins_instr ASM_MIPS_C_SF_D;;
  set_mins_type (ASM_TYPE_ARCH ||| ASM_TYPE_ASSIGN ||| ASM_TYPE_COMPARISON);;
  let temp := mips_convert_format_cop2 buf in
  set_mop_baser 0 (cop2_rd temp);;
  asm_mips_operand_fetch 0 buf ASM_MIPS_OTYPE_REGISTER;;
  set_mop_baser 1 (cop2_rt temp);;
  asm_mips_operand_fetch 1 buf ASM_MIPS_OTYPE_REGISTER;;
  ret 4.

Definition asm_mips_c_sf_ps : mips_handler := λ buf,
  set_mins_instr ASM_MIPS_C_SF_PS;;
  set_mins_type (ASM_TYPE_ARCH ||| ASM_TYPE_ASSIGN ||| ASM_TYPE_COMPARISON);;
  let temp := mips_convert_format_cop2 buf in
  set_mop_baser 0 (cop2_rd temp);;
  asm_mips_operand_fetch 0 buf ASM_MIPS_OTYPE_REGISTER;;
  set_mop_baser 1 (cop2_rt temp);;
  asm_mips_operand_fetch 1 buf ASM_MIPS_OTYPE_REGISTER;;
  ret 4.

Definition asm_mips_c_ngle_s : mips_handler := λ buf,
  set_mins_instr ASM_MIPS_C_NGLE_S;;
  set_mins_type (ASM_TYPE_ARCH ||| ASM_TYPE_ASSIGN ||| ASM_TYPE_COMPARISON);;
  let temp := mips_convert_format_cop2 buf in
  set_mop_baser 0 (cop2_rd temp);;
  asm_mips_operand_fetch 0 buf ASM_MIPS_OTYPE_REGISTER;;
  set_mop_baser 1 (cop2_rt temp);;
  asm_mips_operand_fetch 1 buf ASM_MIPS_OTYPE_REGISTER;;
  ret 4.

Definition asm_mips_c_ngle_d : mips_handler := λ buf,
  set_mins_instr ASM_MIPS_C_NGLE_D;;
  set_mins_type (ASM_TYPE_ARCH ||| ASM_TYPE_ASSIGN ||| ASM_TYPE_COMPARISON);;
  let temp := mips_convert_format_cop2 buf in
  set_mop_baser 0 (cop2_rd temp);;
  asm_mips_operand_fetch 0 buf ASM_MIPS_OTYPE_REGISTER;;
  set_mop_baser 1 (cop2_rt temp);;
  asm_mips_operand_fetch 1 buf ASM_MIPS_OTYPE_REGISTER;;
  ret 4.

Definition asm_mips_c_ngle_ps : mips_handler := λ buf,
  set_mins_instr ASM_MIPS_C_NGLE_PS;;
  set_mins_type (ASM_TYPE_ARCH ||| ASM_TYPE_ASSIGN ||| ASM_TYPE_COMPARISON);;
  let temp := mips_convert_format_cop2 buf in
  set_mop_baser 0 (cop2_rd temp);;
  asm_mips_operand_fetch 0 buf ASM_MIPS_OTYPE_REGISTER;;
  set_mop_baser 1 (cop2_rt temp);;
  asm_mips_operand_fetch 1 buf ASM_MIPS_OTYPE_REGISTER;;
  ret 4.

Definition asm_mips_c_seq_s : mips_handler := λ buf,
  set_mins_instr ASM_MIPS_C_SEQ_S;;
  set_mins_type (ASM_TYPE_ARCH ||| ASM_TYPE_ASSIGN ||| ASM_TYPE_COMPARISON);;
  let temp := mips_convert_format_cop2 buf in
  set_mop_baser 0 (cop2_rd temp);;
  asm_mips_operand_fetch 0 buf ASM_MIPS_OTYPE_REGISTER;;
  set_mop_baser 1 (cop2_rt temp);;
  asm_mips_operand_fetch 1 buf ASM_MIPS_OTYPE_REGISTER;;
  ret 4.

Definition asm_mips_c_seq_d : mips_handler := λ buf,
  set_mins_instr ASM_MIPS_C_SEQ_D;;
  set_mins_type (ASM_TYPE_ARCH ||| ASM_TYPE_ASSIGN ||| ASM_TYPE_COMPARISON);;
  let temp := mips_convert_format_cop2 buf in
  set_mop_baser 0 (cop2_rd temp);;
  asm_mips_operand_fetch 0 buf ASM_MIPS_OTYPE_REGISTER;;
  set_mop_baser 1 (cop2_rt temp);;
  asm_mips_operand_fetch 1 buf ASM_MIPS_OTYPE_REGISTER;;
  ret 4.

Definition asm_mips_c_seq_ps : mips_handler := λ buf,
  set_mins_instr ASM_MIPS_C_SEQ_PS;;
  set_mins_type (ASM_TYPE_ARCH ||| ASM_TYPE_ASSIGN ||| ASM_TYPE_COMPARISON);;
  let temp := mips_convert_format_cop2 buf in
  set_mop_baser 0 (cop2_rd temp);;
  asm_mips_operand_fetch 0 buf ASM_MIPS_OTYPE_REGISTER;;
  set_mop_baser 1 (cop2_rt temp);;
  asm_mips_operand_fetch 1 buf ASM_MIPS_OTYPE_REGISTER;;
  ret 4.

Definition asm_mips_c_ngl_s : mips_handler := λ buf,
  set_mins_instr ASM_MIPS_C_NGL_S;;
  set_mins_type (ASM_TYPE_ARCH ||| ASM_TYPE_ASSIGN ||| ASM_TYPE_COMPARISON);;
  let temp := mips_convert_format_cop2 buf in
  set_mop_baser 0 (cop2_rd temp);;
  asm_mips_operand_fetch 0 buf ASM_MIPS_OTYPE_REGISTER;;
  set_mop_baser 1 (cop2_rt temp);;
  asm_mips_operand_fetch 1 buf ASM_MIPS_OTYPE_REGISTER;;
  ret 4.

Definition asm_mips_c_ngl_d : mips_handler := λ buf,
  set_mins_instr ASM_MIPS_C_NGL_D;;
  set_mins_type (ASM_TYPE_ARCH ||| ASM_TYPE_ASSIGN ||| ASM_TYPE_COMPARISON);;
  let temp := mips_convert_format_cop2 buf in
  set_mop_baser 0 (cop2_rd temp);;
  asm_mips_operand_fetch 0 buf ASM_MIPS_OTYPE_REGISTER;;
  set_mop_baser 1 (cop2_rt temp);;
  asm_mips_operand_fetch 1 buf ASM_MIPS_OTYPE_REGISTER;;
  ret 4.

Definition asm_mips_c_ngl_ps : mips_handler := λ buf,
  set_mins_instr ASM_MIPS_C_NGL_PS;;
  set_mins_type (ASM_TYPE_ARCH ||| ASM_TYPE_ASSIGN ||| ASM_TYPE_COMPARISON);;
  let temp := mips_convert_format_cop2 buf in
  set_mop_baser 0 (cop2_rd temp);;
  asm_mips_operand_fetch 0 buf ASM_MIPS_OTYPE_REGISTER;;
  set_mop_baser 1 (cop2_rt temp);;
  asm_mips_operand_fetch 1 buf ASM_MIPS_OTYPE_REGISTER;;
  ret 4.

Definition asm_mips_c_lt_s : mips_handler := λ buf,
  set_mins_instr ASM_MIPS_C_LT_S;;
  set_mins_type (ASM_TYPE_ARCH ||| ASM_TYPE_ASSIGN ||| ASM_TYPE_COMPARISON);;
  let temp := mips_convert_format_cop2 buf in
  set_mop_baser 0 (cop2_rd temp);;
  asm_mips_operand_fetch 0 buf ASM_MIPS_OTYPE_REGISTER;;
  set_mop_baser 1 (cop2_rt temp);;
  asm_mips_operand_fetch 1 buf ASM_MIPS_OTYPE_REGISTER;;
  ret 4.

Definition asm_mips_c_lt_d : mips_handler := λ buf,
  set_mins_instr ASM_MIPS_C_LT_D;;
  set_mins_type (ASM_TYPE_ARCH ||| ASM_TYPE_ASSIGN ||| ASM_TYPE_COMPARISON);;
  let temp := mips_convert_format_cop2 buf in
  set_mop_baser 0 (cop2_rd temp);;
  asm_mips_operand_fetch 0 buf ASM_MIPS_OTYPE_REGISTER;;
  set_mop_baser 1 (cop2_rt temp);;
  asm_mips_operand_fetch 1 buf ASM_MIPS_OTYPE_REGISTER;;
  ret 4.

Definition asm_mips_c_lt_ps : mips_handler := λ buf,
  set_mins_instr ASM_MIPS_C_LT_PS;;
  set_mins_type (ASM_TYPE_ARCH ||| ASM_TYPE_ASSIGN ||| ASM_TYPE_COMPARISON);;
  let temp := mips_convert_format_cop2 buf in
  set_mop_baser 0 (cop2_rd temp);;
  asm_mips_operand_fetch 0 buf ASM_MIPS_OTYPE_REGISTER;;
  set_mop_baser 1 (cop2_rt temp);;
  asm_mips_operand_fetch 1 buf ASM_MIPS_OTYPE_REGISTER;;
  ret 4.

Definition asm_mips_c_nge_s : mips_handler := λ buf,
  set_mins_instr ASM_MIPS_C_NGE_S;;
  set_mins_type (ASM_TYPE_ARCH ||| ASM_TYPE_ASSIGN ||| ASM_TYPE_COMPARISON);;
  let temp := mips_convert_format_cop2 buf in
  set_mop_baser 0 (cop2_rd temp);;
  asm_mips_operand_fetch 0 buf ASM_MIPS_OTYPE_REGISTER;;
  set_mop_baser 1 (cop2_rt temp);;
  asm_mips_operand_fetch 1 buf ASM_MIPS_OTYPE_REGISTER;;
  ret 4.

Definition asm_mips_c_nge_d : mips_handler := λ buf,
  set_mins_instr ASM_MIPS_C_NGE_D;;
  set_mins_type (ASM_TYPE_ARCH ||| ASM_TYPE_ASSIGN ||| ASM_TYPE_COMPARISON);;
  let temp := mips_convert_format_cop2 buf in
  set_mop_baser 0 (cop2_rd temp);;
  asm_mips_operand_fetch 0 buf ASM_MIPS_OTYPE_REGISTER;;
  set_mop_baser 1 (cop2_rt temp);;
  asm_mips_operand_fetch 1 buf ASM_MIPS_OTYPE_REGISTER;;
  ret 4.

Definition asm_mips_c_nge_ps : mips_handler := λ buf,
  set_mins_instr ASM_MIPS_C_NGE_PS;;
  set_mins_type (ASM_TYPE_ARCH ||| ASM_TYPE_ASSIGN ||| ASM_TYPE_COMPARISON);;
  let temp := mips_convert_format_cop2 buf in
  set_mop_baser 0 (cop2_rd temp);;
  asm_mips_operand_fetch 0 buf ASM_MIPS_OTYPE_REGISTER;;
  set_mop_baser 1 (cop2_rt temp);;
  asm_mips_operand_fetch 1 buf ASM_MIPS_OTYPE_REGISTER;;
  ret 4.

Definition asm_mips_c_le_s : mips_handler := λ buf,
  set_mins_instr ASM_MIPS_C_LE_S;;
  set_mins_type (ASM_TYPE_ARCH ||| ASM_TYPE_ASSIGN ||| ASM_TYPE_COMPARISON);;
  let temp := mips_convert_format_cop2 buf in
  set_mop_baser 0 (cop2_rd temp);;
  asm_mips_operand_fetch 0 buf ASM_MIPS_OTYPE_REGISTER;;
  set_mop_baser 1 (cop2_rt temp);;
  asm_mips_operand_fetch 1 buf ASM_MIPS_OTYPE_REGISTER;;
  ret 4.

Definition asm_mips_c_le_d : mips_handler := λ buf,
  set_mins_instr ASM_MIPS_C_LE_D;;
  set_mins_type (ASM_TYPE_ARCH ||| ASM_TYPE_ASSIGN ||| ASM_TYPE_COMPARISON);;
  let temp := mips_convert_format_cop2 buf in
  set_mop_baser 0 (cop2_rd temp);;
  asm_mips_operand_fetch 0 buf ASM_MIPS_OTYPE_REGISTER;;
  set_mop_baser 1 (cop2_rt temp);;
  asm_mips_operand_fetch 1 buf ASM_MIPS_OTYPE_REGISTER;;
  ret 4.

Definition asm_mips_c_le_ps : mips_handler := λ buf,
  set_mins_instr ASM_MIPS_C_LE_PS;;
  set_mins_type (ASM_TYPE_ARCH ||| ASM_TYPE_ASSIGN ||| ASM_TYPE_COMPARISON);;
  let temp := mips_convert_format_cop2 buf in
  set_mop_baser 0 (cop2_rd temp);;
  asm_mips_operand_fetch 0 buf ASM_MIPS_OTYPE_REGISTER;;
  set_mop_baser 1 (cop2_rt temp);;
  asm_mips_operand_fetch 1 buf ASM_MIPS_OTYPE_REGISTER;;
  ret 4.

Definition asm_mips_c_ngt_s : mips_handler := λ buf,
  set_mins_instr ASM_MIPS_C_NGT_S;;
  set_mins_type (ASM_TYPE_ARCH ||| ASM_TYPE_ASSIGN ||| ASM_TYPE_COMPARISON);;
  let temp := mips_convert_format_cop2 buf in
  set_mop_baser 0 (cop2_rd temp);;
  asm_mips_operand_fetch 0 buf ASM_MIPS_OTYPE_REGISTER;;
  set_mop_baser 1 (cop2_rt temp);;
  asm_mips_operand_fetch 1 buf ASM_MIPS_OTYPE_REGISTER;;
  ret 4.

Definition asm_mips_c_ngt_d : mips_handler := λ buf,
  set_mins_instr ASM_MIPS_C_NGT_D;;
  set_mins_type (ASM_TYPE_ARCH ||| ASM_TYPE_ASSIGN ||| ASM_TYPE_COMPARISON);;
  let temp := mips_convert_format_cop2 buf in
  set_mop_baser 0 (cop2_rd temp);;
  asm_mips_operand_fetch 0 buf ASM_MIPS_OTYPE_REGISTER;;
  set_mop_baser 1 (cop2_rt temp);;
  asm_mips_operand_fetch 1 buf ASM_MIPS_OTYPE_REGISTER;;
  ret 4.

Definition asm_mips_c_ngt_ps : mips_handler := λ buf,
  set_mins_instr ASM_MIPS_C_NGT_PS;;
  set_mins_type (ASM_TYPE_ARCH ||| ASM_TYPE_ASSIGN ||| ASM_TYPE_COMPARISON);;
  let temp := mips_convert_format_cop2 buf in
  set_mop_baser 0 (cop2_rd temp);;
  asm_mips_operand_fetch 0 buf ASM_MIPS_OTYPE_REGISTER;;
  set_mop_baser 1 (cop2_rt temp);;
  asm_mips_operand_fetch 1 buf ASM_MIPS_OTYPE_REGISTER;;
  ret 4.
