(* ===== verification/MipsFetch.v ===== *)
(** * The MIPS disassembler: table, registration, dispatch and output
    (src/libasm/src/arch/mips/tables_mips.c, register_mips.c, init_mips.c, output_mips.c) *)
From S2P Require Import Prelude.
From S2P Require Import LibasmVector.
From S2P Require Import Ia32.
From S2P Require Import Container.
From S2P Require Import Mips.
From S2P Require Import MipsCpu.
From S2P Require Import MipsCop.
Close Scope ia32_scope.
Close Scope mips_scope.

(** ** The table (tables_mips.c) *)

Record e_mips_instr := MipsRow {
  mnemonic : string;
  code : e_mips_instr_types;
  index1 : Z;
  index2 : Z;
  index3 : Z;
  func_op : mips_handler;
}.

(** Without its last row, which ends it. *)
Definition e_mips_instrs : list e_mips_instr :=
  [MipsRow "add" ASM_MIPS_ADD MIPS_OPCODE_SPECIAL MIPS_OPCODE_ADD 0 asm_mips_add;
   MipsRow "addi" ASM_MIPS_ADDI MIPS_OPCODE_ADDI 0 0 asm_mips_addi;
   MipsRow "addiu" ASM_MIPS_ADDIU MIPS_OPCODE_ADDIU 0 0 asm_mips_addiu;
   MipsRow "addu" ASM_MIPS_ADDU MIPS_OPCODE_SPECIAL MIPS_OPCODE_ADDU 0 asm_mips_addu;
   MipsRow "clo" ASM_MIPS_CLO MIPS_OPCODE_SPECIAL2 MIPS_OPCODE_CLO 0 asm_mips_clo;
   MipsRow "clz" ASM_MIPS_CLZ MIPS_OPCODE_SPECIAL2 MIPS_OPCODE_CLZ 0 asm_mips_clz;
   MipsRow "dadd" ASM_MIPS_DADD MIPS_OPCODE_SPECIAL MIPS_OPCODE_DADD 0 asm_mips_dadd;
   MipsRow "daddi" ASM_MIPS_DADDI MIPS_OPCODE_DADDI 0 0 asm_mips_daddi;
   MipsRow "daddiu" ASM_MIPS_DADDIU MIPS_OPCODE_DADDIU 0 0 asm_mips_daddiu;
   MipsRow "daddu" ASM_MIPS_DADDU MIPS_OPCODE_SPECIAL MIPS_OPCODE_DADDU 0 asm_mips_daddu;
   MipsRow "dclo" ASM_MIPS_DCLO MIPS_OPCODE_SPECIAL2 MIPS_OPCODE_DCLO 0 asm_mips_dclo;
   MipsRow "dclz" ASM_MIPS_DCLZ MIPS_OPCODE_SPECIAL2 MIPS_OPCODE_DCLZ 0 asm_mips_dclz;
   MipsRow "ddiv" ASM_MIPS_DDIV MIPS_OPCODE_SPECIAL MIPS_OPCODE_DDIV 0 asm_mips_ddiv;
   MipsRow "ddivu" ASM_MIPS_DDIVU MIPS_OPCODE_SPECIAL MIPS_OPCODE_DDIVU 0 asm_mips_ddivu;
   MipsRow "div" ASM_MIPS_DIV MIPS_OPCODE_SPECIAL MIPS_OPCODE_DIV 0 asm_mips_div;
   MipsRow "divu" ASM_MIPS_DIVU MIPS_OPCODE_SPECIAL MIPS_OPCODE_DIVU 0 asm_mips_divu;
   MipsRow "dmult" ASM_MIPS_DMULT MIPS_OPCODE_SPECIAL MIPS_OPCODE_DMULT 0 asm_mips_dmult;
   MipsRow "dmultu" ASM_MIPS_DMULTU MIPS_OPCODE_SPECIAL MIPS_OPCODE_DMULTU 0 asm_mips_dmultu;
   MipsRow "dsub" ASM_MIPS_DSUB MIPS_OPCODE_SPECIAL MIPS_OPCODE_DSUB 0 asm_mips_dsub;
   MipsRow "dsubu" ASM_MIPS_DSUBU MIPS_OPCODE_SPECIAL MIPS_OPCODE_DSUBU 0 asm_mips_dsubu;
   MipsRow "madd" ASM_MIPS_MADD MIPS_OPCODE_SPECIAL2 MIPS_OPCODE_MADD 0 asm_mips_madd;
   MipsRow "maddu" ASM_MIPS_MADDU MIPS_OPCODE_SPECIAL2 MIPS_OPCODE_MADDU 0 asm_mips_maddu;
   MipsRow "msub" ASM_MIPS_MSUB MIPS_OPCODE_SPECIAL2 MIPS_OPCODE_MSUB 0 asm_mips_msub;
   MipsRow "msubu" ASM_MIPS_MSUBU MIPS_OPCODE_SPECIAL2 MIPS_OPCODE_MSUBU 0 asm_mips_msubu;
   MipsRow "mul" ASM_MIPS_MUL MIPS_OPCODE_SPECIAL2 MIPS_OPCODE_MUL 0 asm_mips_mul;
   MipsRow "mult" ASM_MIPS_MULT MIPS_OPCODE_SPECIAL MIPS_OPCODE_MULT 0 asm_mips_mult;
   MipsRow "multu" ASM_MIPS_MULTU MIPS_OPCODE_SPECIAL MIPS_OPCODE_MULTU 0 asm_mips_multu;
   MipsRow "slt" ASM_MIPS_SLT MIPS_OPCODE_SPECIAL MIPS_OPCODE_SLT 0 asm_mips_slt;
   MipsRow "slti" ASM_MIPS_SLTI MIPS_OPCODE_SLTI 0 0 asm_mips_slti;
   MipsRow "sltiu" ASM_MIPS_SLTIU MIPS_OPCODE_SLTIU 0 0 asm_mips_sltiu;
   MipsRow "sltu" ASM_MIPS_SLTU MIPS_OPCODE_SPECIAL MIPS_OPCODE_SLTU 0 asm_mips_sltu;
   MipsRow "sub" ASM_MIPS_SUB MIPS_OPCODE_SPECIAL MIPS_OPCODE_SUB 0 asm_mips_sub;
   MipsRow "subu" ASM_MIPS_SUBU MIPS_OPCODE_SPECIAL MIPS_OPCODE_SUBU 0 asm_mips_subu;
   MipsRow "seb" ASM_MIPS_SEB MIPS_OPCODE_SPECIAL3 MIPS_OPCODE_BSHFL MIPS_OPCODE_SEB asm_mips_seb;
   MipsRow "seh" ASM_MIPS_SEH MIPS_OPCODE_SPECIAL3 MIPS_OPCODE_BSHFL MIPS_OPCODE_SEH asm_mips_seh;
   MipsRow "b" ASM_MIPS_B MIPS_OPCODE_BEQ 0 0 asm_mips_b;
   MipsRow "bal" ASM_MIPS_BAL MIPS_OPCODE_REGIMM MIPS_OPCODE_BGEZAL 0 asm_mips_bal;
   MipsRow "beq" ASM_MIPS_BEQ MIPS_OPCODE_BEQ 0 0 asm_mips_beq;
   MipsRow "bgez" ASM_MIPS_BGEZ MIPS_OPCODE_REGIMM MIPS_OPCODE_BGEZ 0 asm_mips_bgez;
   MipsRow "bgezal" ASM_MIPS_BGEZAL MIPS_OPCODE_REGIMM MIPS_OPCODE_BGEZAL 0 asm_mips_bgezal;
   MipsRow "bgtz" ASM_MIPS_BGTZ MIPS_OPCODE_BGTZ 0 0 asm_mips_bgtz;
   MipsRow "blez" ASM_MIPS_BLEZ MIPS_OPCODE_BLEZ 0 0 asm_mips_blez;
   MipsRow "bltz" ASM_MIPS_BLTZ MIPS_OPCODE_REGIMM MIPS_OPCODE_BLTZ 0 asm_mips_bltz;
   MipsRow "bltzal" ASM_MIPS_BLTZAL MIPS_OPCODE_REGIMM MIPS_OPCODE_BLTZAL 0 asm_mips_bltzal;
   MipsRow "bne" ASM_MIPS_BNE MIPS_OPCODE_BNE 0 0 asm_mips_bne;
   MipsRow "j" ASM_MIPS_J MIPS_OPCODE_J 0 0 asm_mips_j;
   MipsRow "jal" ASM_MIPS_JAL MIPS_OPCODE_JAL 0 0 asm_mips_jal;
   MipsRow "jalr" ASM_MIPS_JALR MIPS_OPCODE_SPECIAL MIPS_OPCODE_JALR 0 asm_mips_jalr;
   MipsRow "jr" ASM_MIPS_JR MIPS_OPCODE_SPECIAL MIPS_OPCODE_JR 0 asm_mips_jr;
   MipsRow "jalr.hb" ASM_MIPS_JALR_HB MIPS_OPCODE_SPECIAL MIPS_OPCODE_JALR 0 asm_mips_jalr_hb;
   MipsRow "jr.hb" ASM_MIPS_JR_HB MIPS_OPCODE_SPECIAL MIPS_OPCODE_JR 0 asm_mips_jr_hb;
   MipsRow "nop" ASM_MIPS_NOP MIPS_OPCODE_SPECIAL MIPS_OPCODE_SLL MIPS_OPCODE_NOP asm_mips_nop;
   MipsRow "ssnop" ASM_MIPS_SSNOP MIPS_OPCODE_SPECIAL MIPS_OPCODE_SLL MIPS_OPCODE_SSNOP asm_mips_ssnop;
   MipsRow "lb" ASM_MIPS_LB MIPS_OPCODE_LB 0 0 asm_mips_lb;
   MipsRow "lbu" ASM_MIPS_LBU MIPS_OPCODE_LBU 0 0 asm_mips_lbu;
   MipsRow "ld" ASM_MIPS_LD MIPS_OPCODE_LD 0 0 asm_mips_ld;
   MipsRow "ldl" ASM_MIPS_LDL MIPS_OPCODE_LDL 0 0 asm_mips_ldl;
   MipsRow "ldr" ASM_MIPS_LDR MIPS_OPCODE_LDR 0 0 asm_mips_ldr;
   MipsRow "lh" ASM_MIPS_LH MIPS_OPCODE_LH 0 0 asm_mips_lh;
   MipsRow "lhu" ASM_MIPS_LHU MIPS_OPCODE_LHU 0 0 asm_mips_lhu;
   MipsRow "ll" ASM_MIPS_LL MIPS_OPCODE_LL 0 0 asm_mips_ll;
   MipsRow "lld" ASM_MIPS_LLD MIPS_OPCODE_LLD 0 0 asm_mips_lld;
   MipsRow "lw" ASM_MIPS_LW MIPS_OPCODE_LW 0 0 asm_mips_lw;
   MipsRow "lwl" ASM_MIPS_LWL MIPS_OPCODE_LWL 0 0 asm_mips_lwl;
   MipsRow "lwr" ASM_MIPS_LWR MIPS_OPCODE_LWR 0 0 asm_mips_lwr;
   MipsRow "lwu" ASM_MIPS_LWU MIPS_OPCODE_LWU 0 0 asm_mips_lwu;
   MipsRow "pref" ASM_MIPS_PREF MIPS_OPCODE_PREF 0 0 asm_mips_pref;
   MipsRow "sb" ASM_MIPS_SB MIPS_OPCODE_SB 0 0 asm_mips_sb;
   MipsRow "sc" ASM_MIPS_SC MIPS_OPCODE_SC 0 0 asm_mips_sc;
   MipsRow "scd" ASM_MIPS_SCD MIPS_OPCODE_SCD 0 0 asm_mips_scd;
   MipsRow "sd" ASM_MIPS_SD MIPS_OPCODE_SD 0 0 asm_mips_sd;
   MipsRow "sdl" ASM_MIPS_SDL MIPS_OPCODE_SDL 0 0 asm_mips_sdl;
   MipsRow "sdr" ASM_MIPS_SDR MIPS_OPCODE_SDR 0 0 asm_mips_sdr;
   MipsRow "sh" ASM_MIPS_SH MIPS_OPCODE_SH 0 0 asm_mips_sh;
   MipsRow "sw" ASM_MIPS_SW MIPS_OPCODE_SW 0 0 asm_mips_sw;
   MipsRow "swl" ASM_MIPS_SWL MIPS_OPCODE_SWL 0 0 asm_mips_swl;
   MipsRow "swr" ASM_MIPS_SWR MIPS_OPCODE_SWR 0 0 asm_mips_swr;
   MipsRow "sync" ASM_MIPS_SYNC MIPS_OPCODE_SPECIAL MIPS_OPCODE_SYNC 0 asm_mips_sync;
   MipsRow "synci" ASM_MIPS_SYNCI MIPS_OPCODE_REGIMM MIPS_OPCODE_SYNCI 0 asm_mips_synci;
   MipsRow "and" ASM_MIPS_AND MIPS_OPCODE_SPECIAL MIPS_OPCODE_AND 0 asm_mips_and;
   MipsRow "andi" ASM_MIPS_ANDI MIPS_OPCODE_ANDI 0 0 asm_mips_andi;
   MipsRow "lui" ASM_MIPS_LUI MIPS_OPCODE_LUI 0 0 asm_mips_lui;
   MipsRow "nor" ASM_MIPS_NOR MIPS_OPCODE_SPECIAL MIPS_OPCODE_NOR 0 asm_mips_nor;
   MipsRow "or" ASM_MIPS_OR MIPS_OPCODE_SPECIAL MIPS_OPCODE_OR 0 asm_mips_or;
   MipsRow "ori" ASM_MIPS_ORI MIPS_OPCODE_ORI 0 0 asm_mips_ori;
   MipsRow "xor" ASM_MIPS_XOR MIPS_OPCODE_SPECIAL MIPS_OPCODE_XOR 0 asm_mips_xor;
   MipsRow "xori" ASM_MIPS_XORI MIPS_OPCODE_XORI 0 0 asm_mips_xori;
   MipsRow "ext" ASM_MIPS_EXT MIPS_OPCODE_SPECIAL3 MIPS_OPCODE_EXT 0 asm_mips_ext;
   MipsRow "ins" ASM_MIPS_INS MIPS_OPCODE_SPECIAL3 MIPS_OPCODE_INS 0 asm_mips_ins;
   MipsRow "wsbh" ASM_MIPS_WSBH MIPS_OPCODE_SPECIAL3 MIPS_OPCODE_BSHFL MIPS_OPCODE_WSBH asm_mips_wsbh;
   MipsRow "mfhi" ASM_MIPS_MFHI MIPS_OPCODE_SPECIAL MIPS_OPCODE_MFHI 0 asm_mips_mfhi;
   MipsRow "mflo" ASM_MIPS_MFLO MIPS_OPCODE_SPECIAL MIPS_OPCODE_MFLO 0 asm_mips_mflo;
   MipsRow "movf" ASM_MIPS_MOVF MIPS_OPCODE_SPECIAL MIPS_OPCODE_MOVCI MIPS_OPCODE_MOVF asm_mips_movf;
   MipsRow "movn" ASM_MIPS_MOVN MIPS_OPCODE_SPECIAL MIPS_OPCODE_MOVN 0 asm_mips_movn;
   MipsRow "movt" ASM_MIPS_MOVT MIPS_OPCODE_SPECIAL MIPS_OPCODE_MOVCI MIPS_OPCODE_MOVT asm_mips_movt;
   MipsRow "movz" ASM_MIPS_MOVZ MIPS_OPCODE_SPECIAL MIPS_OPCODE_MOVZ 0 asm_mips_movz;
   MipsRow "mthi" ASM_MIPS_MTHI MIPS_OPCODE_SPECIAL MIPS_OPCODE_MTHI 0 asm_mips_mthi;
   MipsRow "mtlo" ASM_MIPS_MTLO MIPS_OPCODE_SPECIAL MIPS_OPCODE_MTLO 0 asm_mips_mtlo;
   MipsRow "dsll" ASM_MIPS_DSLL MIPS_OPCODE_SPECIAL MIPS_OPCODE_DSLL 0 asm_mips_dsll;
   MipsRow "dsll32" ASM_MIPS_DSLL32 MIPS_OPCODE_SPECIAL MIPS_OPCODE_DSLL32 0 asm_mips_dsll32;
   MipsRow "dsllv" ASM_MIPS_DSLLV MIPS_OPCODE_SPECIAL MIPS_OPCODE_DSLLV 0 asm_mips_dsllv;
   MipsRow "dsra" ASM_MIPS_DSRA MIPS_OPCODE_SPECIAL MIPS_OPCODE_DSRA 0 asm_mips_dsra;
   MipsRow "dsra32" ASM_MIPS_DSRA32 MIPS_OPCODE_SPECIAL MIPS_OPCODE_DSRA32 0 asm_mips_dsra32;
   MipsRow "dsrav" ASM_MIPS_DSRAV MIPS_OPCODE_SPECIAL MIPS_OPCODE_DSRAV 0 asm_mips_dsrav;
   MipsRow "dsrl" ASM_MIPS_DSRL MIPS_OPCODE_SPECIAL MIPS_OPCODE_DSRL 0 asm_mips_dsrl;
   MipsRow "dsrl32" ASM_MIPS_DSRL32 MIPS_OPCODE_SPECIAL MIPS_OPCODE_DSRL32 0 asm_mips_dsrl32;
   MipsRow "dsrlv" ASM_MIPS_DSRLV MIPS_OPCODE_SPECIAL MIPS_OPCODE_DSRLV 0 asm_mips_dsrlv;
   MipsRow "sll" ASM_MIPS_SLL MIPS_OPCODE_SPECIAL MIPS_OPCODE_SLL 0 asm_mips_sll;
   MipsRow "sllv" ASM_MIPS_SLLV MIPS_OPCODE_SPECIAL MIPS_OPCODE_SLLV 0 asm_mips_sllv;
   MipsRow "sra" ASM_MIPS_SRA MIPS_OPCODE_SPECIAL MIPS_OPCODE_SRA 0 asm_mips_sra;
   MipsRow "srav" ASM_MIPS_SRAV MIPS_OPCODE_SPECIAL MIPS_OPCODE_SRAV 0 asm_mips_srav;
   MipsRow "srl" ASM_MIPS_SRL MIPS_OPCODE_SPECIAL MIPS_OPCODE_SRL 0 asm_mips_srl;
   MipsRow "srlv" ASM_MIPS_SRLV MIPS_OPCODE_SPECIAL MIPS_OPCODE_SRLV 0 asm_mips_srlv;
   MipsRow "rdhwr" ASM_MIPS_RDHWR MIPS_OPCODE_SPECIAL3 MIPS_OPCODE_RDHWR 0 asm_mips_rdhwr;
   MipsRow "rotr" ASM_MIPS_ROTR MIPS_OPCODE_SPECIAL MIPS_OPCODE_SRL MIPS_OPCODE_ROTR asm_mips_rotr;
   MipsRow "rotrv" ASM_MIPS_ROTRV MIPS_OPCODE_SPECIAL MIPS_OPCODE_SRLV MIPS_OPCODE_ROTRV asm_mips_rotrv;
   MipsRow "break" ASM_MIPS_BREAK MIPS_OPCODE_SPECIAL MIPS_OPCODE_BREAK 0 asm_mips_break;
   MipsRow "syscall" ASM_MIPS_SYSCALL MIPS_OPCODE_SPECIAL MIPS_OPCODE_SYSCALL 0 asm_mips_syscall;
   MipsRow "teq" ASM_MIPS_TEQ MIPS_OPCODE_SPECIAL MIPS_OPCODE_TEQ 0 asm_mips_teq;
   MipsRow "teqi" ASM_MIPS_TEQI MIPS_OPCODE_REGIMM MIPS_OPCODE_TEQI 0 asm_mips_teqi;
   MipsRow "tge" ASM_MIPS_TGE MIPS_OPCODE_SPECIAL MIPS_OPCODE_TGE 0 asm_mips_tge;
   MipsRow "tgei" ASM_MIPS_TGEI MIPS_OPCODE_REGIMM MIPS_OPCODE_TGEI 0 asm_mips_tgei;
   MipsRow "tgeiu" ASM_MIPS_TGEIU MIPS_OPCODE_REGIMM MIPS_OPCODE_TGEIU 0 asm_mips_tgeiu;
   MipsRow "tgeu" ASM_MIPS_TGEU MIPS_OPCODE_SPECIAL MIPS_OPCODE_TGEU 0 asm_mips_tgeu;
   MipsRow "tlt" ASM_MIPS_TLT MIPS_OPCODE_SPECIAL MIPS_OPCODE_TLT 0 asm_mips_tlt;
   MipsRow "tlti" ASM_MIPS_TLTI MIPS_OPCODE_REGIMM MIPS_OPCODE_TLTI 0 asm_mips_tlti;
   MipsRow "tltiu" ASM_MIPS_TLTIU MIPS_OPCODE_REGIMM MIPS_OPCODE_TLTIU 0 asm_mips_tltiu;
   MipsRow "tltu" ASM_MIPS_TLTU MIPS_OPCODE_SPECIAL MIPS_OPCODE_TLTU 0 asm_mips_tltu;
   MipsRow "tne" ASM_MIPS_TNE MIPS_OPCODE_SPECIAL MIPS_OPCODE_TNE 0 asm_mips_tne;
   MipsRow "tnei" ASM_MIPS_TNEI MIPS_OPCODE_REGIMM MIPS_OPCODE_TNEI 0 asm_mips_tnei;
   MipsRow "beql" ASM_MIPS_BEQL MIPS_OPCODE_BEQL 0 0 asm_mips_beql;
   MipsRow "bgezall" ASM_MIPS_BGEZALL MIPS_OPCODE_REGIMM MIPS_OPCODE_BGEZALL 0 asm_mips_bgezall;
   MipsRow "bgezl" ASM_MIPS_BGEZL MIPS_OPCODE_REGIMM MIPS_OPCODE_BGEZL 0 asm_mips_bgezl;
   MipsRow "bgtzl" ASM_MIPS_BGTZL MIPS_OPCODE_BGTZL 0 0 asm_mips_bgtzl;
   MipsRow "blezl" ASM_MIPS_BLEZL MIPS_OPCODE_BLEZL 0 0 asm_mips_blezl;
   MipsRow "bltzall" ASM_MIPS_BLTZALL MIPS_OPCODE_REGIMM MIPS_OPCODE_BLTZALL 0 asm_mips_bltzall;
   MipsRow "bltzl" ASM_MIPS_BLTZL MIPS_OPCODE_REGIMM MIPS_OPCODE_BLTZL 0 asm_mips_bltzl;
   MipsRow "bnel" ASM_MIPS_BNEL MIPS_OPCODE_BNEL 0 0 asm_mips_bnel;
   MipsRow "bc2f" ASM_MIPS_BC2F MIPS_OPCODE_COP2 MIPS_OPCODE_BCC2 0 asm_mips_bc2f;
   MipsRow "bc2t" ASM_MIPS_BC2T MIPS_OPCODE_COP2 MIPS_OPCODE_BCC2 1 asm_mips_bc2t;
   MipsRow "cop2" ASM_MIPS_COP2 MIPS_OPCODE_COP2 1 0 asm_mips_cop2;
   MipsRow "ldc2" ASM_MIPS_LDC2 MIPS_OPCODE_LDC2 0 0 asm_mips_ldc2;
   MipsRow "lwc2" ASM_MIPS_LWC2 MIPS_OPCODE_LWC2 0 0 asm_mips_lwc2;
   MipsRow "sdc2" ASM_MIPS_SDC2 MIPS_OPCODE_SDC2 0 0 asm_mips_sdc2;
   MipsRow "swc2" ASM_MIPS_SWC2 MIPS_OPCODE_SWC2 0 0 asm_mips_swc2;
   MipsRow "cfc2" ASM_MIPS_CFC2 MIPS_OPCODE_COP2 MIPS_OPCODE_CFC2 0 asm_mips_cfc2;
   MipsRow "ctc2" ASM_MIPS_CTC2 MIPS_OPCODE_COP2 MIPS_OPCODE_CTC2 0 asm_mips_ctc2;
   MipsRow "dmfc2" ASM_MIPS_DMFC2 MIPS_OPCODE_COP2 MIPS_OPCODE_DMFC2 0 asm_mips_dmfc2;
   MipsRow "dmtc2" ASM_MIPS_DMTC2 MIPS_OPCODE_COP2 MIPS_OPCODE_DMTC2 0 asm_mips_dmtc2;
   MipsRow "mfc2" ASM_MIPS_MFC2 MIPS_OPCODE_COP2 MIPS_OPCODE_MFC2 0 asm_mips_mfc2;
   MipsRow "mtc2" ASM_MIPS_MTC2 MIPS_OPCODE_COP2 MIPS_OPCODE_MTC2 0 asm_mips_mtc2;
   MipsRow "bc2fl" ASM_MIPS_BC2FL MIPS_OPCODE_COP2 MIPS_OPCODE_BCC2 2 asm_mips_bc2fl;
   MipsRow "bc2tl" ASM_MIPS_BC2TL MIPS_OPCODE_COP2 MIPS_OPCODE_BCC2 3 asm_mips_bc2tl;
   MipsRow "lwxc1" ASM_MIPS_LWXC1 MIPS_OPCODE_COP1X MIPS_OPCODE_LWXC1 0 asm_mips_lwxc1;
   MipsRow "ldxc1" ASM_MIPS_LDXC1 MIPS_OPCODE_COP1X MIPS_OPCODE_LDXC1 0 asm_mips_ldxc1;
   MipsRow "luxc1" ASM_MIPS_LUXC1 MIPS_OPCODE_COP1X MIPS_OPCODE_LUXC1 0 asm_mips_luxc1;
   MipsRow "swxc1" ASM_MIPS_SWXC1 MIPS_OPCODE_COP1X MIPS_OPCODE_SWXC1 0 asm_mips_swxc1;
   MipsRow "sdxc1" ASM_MIPS_SDXC1 MIPS_OPCODE_COP1X MIPS_OPCODE_SDXC1 0 asm_mips_sdxc1;
   MipsRow "suxc1" ASM_MIPS_SUXC1 MIPS_OPCODE_COP1X MIPS_OPCODE_SUXC1 0 asm_mips_suxc1;
   MipsRow "prefx" ASM_MIPS_PREFX MIPS_OPCODE_COP1X MIPS_OPCODE_PREFX 0 asm_mips_prefx;
   MipsRow "alnv.ps" ASM_MIPS_ALNV_PS MIPS_OPCODE_COP1X MIPS_OPCODE_ALNV_PS 0 asm_mips_alnv_ps;
   MipsRow "madd.s" ASM_MIPS_MADD_S MIPS_OPCODE_COP1X MIPS_OPCODE_MADD_S 0 asm_mips_madd_s;
   MipsRow "madd.d" ASM_MIPS_MADD_D MIPS_OPCODE_COP1X MIPS_OPCODE_MADD_D 0 asm_mips_madd_d;
   MipsRow "madd.ps" ASM_MIPS_MADD_PS MIPS_OPCODE_COP1X MIPS_OPCODE_MADD_PS 0 asm_mips_madd_ps;
   MipsRow "msub.s" ASM_MIPS_MSUB_S MIPS_OPCODE_COP1X MIPS_OPCODE_MSUB_S 0 asm_mips_msub_s;
   MipsRow "msub.d" ASM_MIPS_MSUB_D MIPS_OPCODE_COP1X MIPS_OPCODE_MSUB_D 0 asm_mips_msub_d;
   MipsRow "msub.ps" ASM_MIPS_MSUB_PS MIPS_OPCODE_COP1X MIPS_OPCODE_MSUB_PS 0 asm_mips_msub_ps;
   MipsRow "nmadd.s" ASM_MIPS_NMADD_S MIPS_OPCODE_COP1X MIPS_OPCODE_NMADD_S 0 asm_mips_nmadd_s;
   MipsRow "nmadd.d" ASM_MIPS_NMADD_D MIPS_OPCODE_COP1X MIPS_OPCODE_NMADD_D 0 asm_mips_nmadd_d;
   MipsRow "nmadd.ps" ASM_MIPS_NMADD_PS MIPS_OPCODE_COP1X MIPS_OPCODE_NMADD_PS 0 asm_mips_nmadd_ps;
   MipsRow "nmsub.s" ASM_MIPS_NMSUB_S MIPS_OPCODE_COP1X MIPS_OPCODE_NMSUB_S 0 asm_mips_nmsub_s;
   MipsRow "nmsub.d" ASM_MIPS_NMSUB_D MIPS_OPCODE_COP1X MIPS_OPCODE_NMSUB_D 0 asm_mips_nmsub_d;
   MipsRow "nmsub.ps" ASM_MIPS_NMSUB_PS MIPS_OPCODE_COP1X MIPS_OPCODE_NMSUB_PS 0 asm_mips_nmsub_ps;
   MipsRow "mfc0" ASM_MIPS_MFC0 MIPS_OPCODE_COP0 MIPS_OPCODE_MFC0 0 asm_mips_mfc0;
   MipsRow "dmfc0" ASM_MIPS_DMFC0 MIPS_OPCODE_COP0 MIPS_OPCODE_DMFC0 0 asm_mips_dmfc0;
   MipsRow "tlbwi" ASM_MIPS_TLBWI MIPS_OPCODE_COP0 MIPS_OPCODE_TLBWI 0 asm_mips_tlbwi;
   MipsRow "mtc0" ASM_MIPS_MTC0 MIPS_OPCODE_COP0 MIPS_OPCODE_MTC0 0 asm_mips_mtc0;
   MipsRow "dmtc0" ASM_MIPS_DMTC0 MIPS_OPCODE_COP0 MIPS_OPCODE_DMTC0 0 asm_mips_dmtc0;
   MipsRow "tlbwr" ASM_MIPS_TLBWR MIPS_OPCODE_COP0 MIPS_OPCODE_TLBWR 0 asm_mips_tlbwr;
   MipsRow "eret" ASM_MIPS_ERET MIPS_OPCODE_COP0 MIPS_OPCODE_ERET 0 asm_mips_eret;
   MipsRow "tlbp" ASM_MIPS_TLBP MIPS_OPCODE_COP0 MIPS_OPCODE_TLBP 0 asm_mips_tlbp;
   MipsRow "tlbr" ASM_MIPS_TLBR MIPS_OPCODE_COP0 MIPS_OPCODE_TLBR 0 asm_mips_tlbr;
   MipsRow "wait" ASM_MIPS_WAIT MIPS_OPCODE_COP0 MIPS_OPCODE_WAIT 0 asm_mips_wait;
   MipsRow "deret" ASM_MIPS_DERET MIPS_OPCODE_COP0 MIPS_OPCODE_DERET 0 asm_mips_deret;
   MipsRow "sdbbp" ASM_MIPS_SDBBP MIPS_OPCODE_COP0 MIPS_OPCODE_SDBBP 0 asm_mips_sdbbp;
   MipsRow "abs.s" ASM_MIPS_ABS_S MIPS_OPCODE_COP1 MIPS_OPCODE_ABS MIPS_OPCODE_FMT_S asm_mips_abs_s;
   MipsRow "abs.d" ASM_MIPS_ABS_D MIPS_OPCODE_COP1 MIPS_OPCODE_ABS MIPS_OPCODE_FMT_D asm_mips_abs_d;
   MipsRow "abs.ps" ASM_MIPS_ABS_PS MIPS_OPCODE_COP1 MIPS_OPCODE_ABS MIPS_OPCODE_FMT_PS asm_mips_abs_ps;
   MipsRow "add.s" ASM_MIPS_ADD_S MIPS_OPCODE_COP1 MIPS_OPCODE_F_ADD MIPS_OPCODE_FMT_S asm_mips_add_s;
   MipsRow "add.d" ASM_MIPS_ADD_D MIPS_OPCODE_COP1 MIPS_OPCODE_F_ADD MIPS_OPCODE_FMT_D asm_mips_add_d;
   MipsRow "add.ps" ASM_MIPS_ADD_PS MIPS_OPCODE_COP1 MIPS_OPCODE_F_ADD MIPS_OPCODE_FMT_PS asm_mips_add_ps;
   MipsRow "div.s" ASM_MIPS_DIV_S MIPS_OPCODE_COP1 MIPS_OPCODE_F_DIV MIPS_OPCODE_FMT_S asm_mips_div_s;
   MipsRow "div.d" ASM_MIPS_DIV_D MIPS_OPCODE_COP1 MIPS_OPCODE_F_DIV MIPS_OPCODE_FMT_D asm_mips_div_d;
   MipsRow "mul.s" ASM_MIPS_MUL_S MIPS_OPCODE_COP1 MIPS_OPCODE_F_MUL MIPS_OPCODE_FMT_S asm_mips_mul_s;
   MipsRow "mul.d" ASM_MIPS_MUL_D MIPS_OPCODE_COP1 MIPS_OPCODE_F_MUL MIPS_OPCODE_FMT_D asm_mips_mul_d;
   MipsRow "mul.ps" ASM_MIPS_MUL_PS MIPS_OPCODE_COP1 MIPS_OPCODE_F_MUL MIPS_OPCODE_FMT_PS asm_mips_mul_ps;
   MipsRow "neg.s" ASM_MIPS_NEG_S MIPS_OPCODE_COP1 MIPS_OPCODE_F_NEG MIPS_OPCODE_FMT_S asm_mips_neg_s;
   MipsRow "neg.d" ASM_MIPS_NEG_D MIPS_OPCODE_COP1 MIPS_OPCODE_F_NEG MIPS_OPCODE_FMT_D asm_mips_neg_d;
   MipsRow "neg.ps" ASM_MIPS_NEG_PS MIPS_OPCODE_COP1 MIPS_OPCODE_F_NEG MIPS_OPCODE_FMT_PS asm_mips_neg_ps;
   MipsRow "recip.s" ASM_MIPS_RECIP_S MIPS_OPCODE_COP1 MIPS_OPCODE_F_RECIP MIPS_OPCODE_FMT_S asm_mips_recip_s;
   MipsRow "recip.d" ASM_MIPS_RECIP_D MIPS_OPCODE_COP1 MIPS_OPCODE_F_RECIP MIPS_OPCODE_FMT_D asm_mips_recip_d;
   MipsRow "rsqrt.s" ASM_MIPS_RSQRT_S MIPS_OPCODE_COP1 MIPS_OPCODE_F_RSQRT MIPS_OPCODE_FMT_S asm_mips_rsqrt_s;
   MipsRow "rsqrt.d" ASM_MIPS_RSQRT_D MIPS_OPCODE_COP1 MIPS_OPCODE_F_RSQRT MIPS_OPCODE_FMT_D asm_mips_rsqrt_d;
   MipsRow "sqrt.s" ASM_MIPS_SQRT_S MIPS_OPCODE_COP1 MIPS_OPCODE_F_SQRT MIPS_OPCODE_FMT_S asm_mips_sqrt_s;
   MipsRow "sqrt.d" ASM_MIPS_SQRT_D MIPS_OPCODE_COP1 MIPS_OPCODE_F_SQRT MIPS_OPCODE_FMT_D asm_mips_sqrt_d;
   MipsRow "sub.s" ASM_MIPS_SUB_S MIPS_OPCODE_COP1 MIPS_OPCODE_F_SUB MIPS_OPCODE_FMT_S asm_mips_sub_s;
   MipsRow "sub.d" ASM_MIPS_SUB_D MIPS_OPCODE_COP1 MIPS_OPCODE_F_SUB MIPS_OPCODE_FMT_D asm_mips_sub_d;
   MipsRow "sub.ps" ASM_MIPS_SUB_PS MIPS_OPCODE_COP1 MIPS_OPCODE_F_SUB MIPS_OPCODE_FMT_PS asm_mips_sub_ps;
   MipsRow "bc1f" ASM_MIPS_BC1F MIPS_OPCODE_COP1 MIPS_OPCODE_BCC2 0 asm_mips_bc1f;
   MipsRow "bc1t" ASM_MIPS_BC1T MIPS_OPCODE_COP1 MIPS_OPCODE_BCC2 1 asm_mips_bc1t;
   MipsRow "ceil.l.s" ASM_MIPS_CEIL_L_S MIPS_OPCODE_COP1 MIPS_OPCODE_F_CEIL_L MIPS_OPCODE_FMT_S asm_mips_ceil_l_s;
   MipsRow "ceil.l.d" ASM_MIPS_CEIL_L_D MIPS_OPCODE_COP1 MIPS_OPCODE_F_CEIL_L MIPS_OPCODE_FMT_D asm_mips_ceil_l_d;
   MipsRow "ceil.w.s" ASM_MIPS_CEIL_W_S MIPS_OPCODE_COP1 MIPS_OPCODE_F_CEIL_W MIPS_OPCODE_FMT_S asm_mips_ceil_w_s;
   MipsRow "ceil.w.d" ASM_MIPS_CEIL_W_D MIPS_OPCODE_COP1 MIPS_OPCODE_F_CEIL_W MIPS_OPCODE_FMT_D asm_mips_ceil_w_d;
   MipsRow "cvt.d.s" ASM_MIPS_CVT_D_S MIPS_OPCODE_COP1 MIPS_OPCODE_F_CVT_D MIPS_OPCODE_FMT_S asm_mips_cvt_d_s;
   MipsRow "cvt.d.w" ASM_MIPS_CVT_D_W MIPS_OPCODE_COP1 MIPS_OPCODE_F_CVT_D MIPS_OPCODE_FMT_W asm_mips_cvt_d_w;
   MipsRow "cvt.d.l" ASM_MIPS_CVT_D_L MIPS_OPCODE_COP1 MIPS_OPCODE_F_CVT_D MIPS_OPCODE_FMT_L asm_mips_cvt_d_l;
   MipsRow "cvt.l.s" ASM_MIPS_CVT_L_S MIPS_OPCODE_COP1 MIPS_OPCODE_F_CVT_L MIPS_OPCODE_FMT_S asm_mips_cvt_l_s;
   MipsRow "cvt.l.d" ASM_MIPS_CVT_L_D MIPS_OPCODE_COP1 MIPS_OPCODE_F_CVT_L MIPS_OPCODE_FMT_D asm_mips_cvt_l_d;
   MipsRow "cvt.ps.s" ASM_MIPS_CVT_PS_S MIPS_OPCODE_COP1 MIPS_OPCODE_F_CVT_PS_S MIPS_OPCODE_FMT_S asm_mips_cvt_ps_s;
   MipsRow "cvt.s.d" ASM_MIPS_CVT_S_D MIPS_OPCODE_COP1 MIPS_OPCODE_F_CVT_S MIPS_OPCODE_FMT_D asm_mips_cvt_s_d;
   MipsRow "cvt.s.w" ASM_MIPS_CVT_S_W MIPS_OPCODE_COP1 MIPS_OPCODE_F_CVT_S MIPS_OPCODE_FMT_W asm_mips_cvt_s_w;
   MipsRow "cvt.s.l" ASM_MIPS_CVT_S_L MIPS_OPCODE_COP1 MIPS_OPCODE_F_CVT_S MIPS_OPCODE_FMT_L asm_mips_cvt_s_l;
   MipsRow "cvt.s.pl" ASM_MIPS_CVT_S_PL MIPS_OPCODE_COP1 MIPS_OPCODE_F_CVT_S_PL MIPS_OPCODE_FMT_PS asm_mips_cvt_s_pl;
   MipsRow "cvt.s.pu" ASM_MIPS_CVT_S_PU MIPS_OPCODE_COP1 MIPS_OPCODE_F_CVT_S MIPS_OPCODE_FMT_PS asm_mips_cvt_s_pu;
   MipsRow "cvt.w.s" ASM_MIPS_CVT_W_S MIPS_OPCODE_COP1 MIPS_OPCODE_F_CVT_W MIPS_OPCODE_FMT_S asm_mips_cvt_w_s;
   MipsRow "cvt.w.d" ASM_MIPS_CVT_W_D MIPS_OPCODE_COP1 MIPS_OPCODE_F_CVT_W MIPS_OPCODE_FMT_D asm_mips_cvt_w_d;
   MipsRow "floor.l.s" ASM_MIPS_FLOOR_L_S MIPS_OPCODE_COP1 MIPS_OPCODE_F_FLOOR_L MIPS_OPCODE_FMT_S asm_mips_floor_l_s;
   MipsRow "floor.l.d" ASM_MIPS_FLOOR_L_D MIPS_OPCODE_COP1 MIPS_OPCODE_F_FLOOR_L MIPS_OPCODE_FMT_D asm_mips_floor_l_d;
   MipsRow "floor.w.s" ASM_MIPS_FLOOR_W_S MIPS_OPCODE_COP1 MIPS_OPCODE_F_FLOOR_W MIPS_OPCODE_FMT_S asm_mips_floor_w_s;
   MipsRow "floor.w.d" ASM_MIPS_FLOOR_W_D MIPS_OPCODE_COP1 MIPS_OPCODE_F_FLOOR_W MIPS_OPCODE_FMT_D asm_mips_floor_w_d;
   MipsRow "round.l.s" ASM_MIPS_ROUND_L_S MIPS_OPCODE_COP1 MIPS_OPCODE_F_ROUND_L MIPS_OPCODE_FMT_S asm_mips_round_l_s;
   MipsRow "round.l.d" ASM_MIPS_ROUND_L_D MIPS_OPCODE_COP1 MIPS_OPCODE_F_ROUND_L MIPS_OPCODE_FMT_D asm_mips_round_l_d;
   MipsRow "round.w.s" ASM_MIPS_ROUND_W_S MIPS_OPCODE_COP1 MIPS_OPCODE_F_ROUND_W MIPS_OPCODE_FMT_S asm_mips_round_w_s;
   MipsRow "round.w.d" ASM_MIPS_ROUND_W_D MIPS_OPCODE_COP1 MIPS_OPCODE_F_ROUND_W MIPS_OPCODE_FMT_D asm_mips_round_w_d;
   MipsRow "trunc.l.s" ASM_MIPS_TRUNC_L_S MIPS_OPCODE_COP1 MIPS_OPCODE_F_TRUNC_L MIPS_OPCODE_FMT_S asm_mips_trunc_l_s;
   MipsRow "trunc.l.d" ASM_MIPS_TRUNC_L_D MIPS_OPCODE_COP1 MIPS_OPCODE_F_TRUNC_L MIPS_OPCODE_FMT_D asm_mips_trunc_l_d;
   MipsRow "trunc.w.s" ASM_MIPS_TRUNC_W_S MIPS_OPCODE_COP1 MIPS_OPCODE_F_TRUNC_W MIPS_OPCODE_FMT_S asm_mips_trunc_w_s;
   MipsRow "trunc.w.d" ASM_MIPS_TRUNC_W_D MIPS_OPCODE_COP1 MIPS_OPCODE_F_TRUNC_W MIPS_OPCODE_FMT_D asm_mips_trunc_w_d;
   MipsRow "ldc1" ASM_MIPS_LDC1 MIPS_OPCODE_LDC1 0 0 asm_mips_ldc1;
   MipsRow "lwc1" ASM_MIPS_LWC1 MIPS_OPCODE_LWC1 0 0 asm_mips_lwc1;
   MipsRow "sdc1" ASM_MIPS_SDC1 MIPS_OPCODE_SDC1 0 0 asm_mips_sdc1;
   MipsRow "swc1" ASM_MIPS_SWC1 MIPS_OPCODE_SWC1 0 0 asm_mips_swc1;
   MipsRow "cfc1" ASM_MIPS_CFC1 MIPS_OPCODE_COP1 MIPS_OPCODE_F_CFC1 0 asm_mips_cfc1;
   MipsRow "ctc1" ASM_MIPS_CTC1 MIPS_OPCODE_COP1 MIPS_OPCODE_F_CTC1 0 asm_mips_ctc1;
   MipsRow "mfc1" ASM_MIPS_MFC1 MIPS_OPCODE_COP1 MIPS_OPCODE_F_MFC1 0 asm_mips_mfc1;
   MipsRow "mtc1" ASM_MIPS_MTC1 MIPS_OPCODE_COP1 MIPS_OPCODE_F_MTC1 0 asm_mips_mtc1;
   MipsRow "mov.s" ASM_MIPS_MOV_S MIPS_OPCODE_COP1 MIPS_OPCODE_F_MOV MIPS_OPCODE_FMT_S asm_mips_mov_s;
   MipsRow "mov.d" ASM_MIPS_MOV_D MIPS_OPCODE_COP1 MIPS_OPCODE_F_MOV MIPS_OPCODE_FMT_D asm_mips_mov_d;
   MipsRow "mov.ps" ASM_MIPS_MOV_PS MIPS_OPCODE_COP1 MIPS_OPCODE_F_MOV MIPS_OPCODE_FMT_PS asm_mips_mov_ps;
   MipsRow "movf.s" ASM_MIPS_MOVF_S MIPS_OPCODE_COP1 MIPS_OPCODE_F_MOVCF MIPS_OPCODE_FMT_S asm_mips_movcf_s;
   MipsRow "movf.d" ASM_MIPS_MOVF_D MIPS_OPCODE_COP1 MIPS_OPCODE_F_MOVCF MIPS_OPCODE_FMT_D asm_mips_movcf_d;
   MipsRow "movf.ps" ASM_MIPS_MOVF_PS MIPS_OPCODE_COP1 MIPS_OPCODE_F_MOVCF MIPS_OPCODE_FMT_PS asm_mips_movcf_ps;
   MipsRow "movt.s" ASM_MIPS_MOVT_S MIPS_OPCODE_COP1 MIPS_OPCODE_F_MOVCF MIPS_OPCODE_FMT_S asm_mips_movcf_s;
   MipsRow "movt.d" ASM_MIPS_MOVT_D MIPS_OPCODE_COP1 MIPS_OPCODE_F_MOVCF MIPS_OPCODE_FMT_D asm_mips_movcf_d;
   MipsRow "movt.ps" ASM_MIPS_MOVT_PS MIPS_OPCODE_COP1 MIPS_OPCODE_F_MOVCF MIPS_OPCODE_FMT_PS asm_mips_movcf_ps;
   MipsRow "movn.s" ASM_MIPS_MOVN_S MIPS_OPCODE_COP1 MIPS_OPCODE_F_MOVN MIPS_OPCODE_FMT_S asm_mips_movn_s;
   MipsRow "movn.d" ASM_MIPS_MOVN_D MIPS_OPCODE_COP1 MIPS_OPCODE_F_MOVN MIPS_OPCODE_FMT_D asm_mips_movn_d;
   MipsRow "movn.ps" ASM_MIPS_MOVN_PS MIPS_OPCODE_COP1 MIPS_OPCODE_F_MOVN MIPS_OPCODE_FMT_PS asm_mips_movn_ps;
   MipsRow "movz.s" ASM_MIPS_MOVZ_S MIPS_OPCODE_COP1 MIPS_OPCODE_F_MOVZ MIPS_OPCODE_FMT_S asm_mips_movz_s;
   MipsRow "movz.d" ASM_MIPS_MOVZ_D MIPS_OPCODE_COP1 MIPS_OPCODE_F_MOVZ MIPS_OPCODE_FMT_D asm_mips_movz_d;
   MipsRow "movz.ps" ASM_MIPS_MOVZ_PS MIPS_OPCODE_COP1 MIPS_OPCODE_F_MOVZ MIPS_OPCODE_FMT_PS asm_mips_movz_ps;
   MipsRow "bc1fl" ASM_MIPS_BC1FL MIPS_OPCODE_COP1 MIPS_OPCODE_BCC2 2 asm_mips_bc1fl;
   MipsRow "bc1tl" ASM_MIPS_BC1TL MIPS_OPCODE_COP1 MIPS_OPCODE_BCC2 3 asm_mips_bc1tl;
   MipsRow "dmtc1" ASM_MIPS_DMTC1 MIPS_OPCODE_COP1 MIPS_OPCODE_DMTC2 0 asm_mips_dmtc1;
   MipsRow "dmfc1" ASM_MIPS_DMFC1 MIPS_OPCODE_COP1 MIPS_OPCODE_DMFC2 0 asm_mips_dmfc1;
   MipsRow "c.f.s" ASM_MIPS_C_F_S MIPS_OPCODE_COP1 MIPS_OPCODE_COND_F MIPS_OPCODE_FMT_S asm_mips_c_f_s;
   MipsRow "c.f.d" ASM_MIPS_C_F_D MIPS_OPCODE_COP1 MIPS_OPCODE_COND_F MIPS_OPCODE_FMT_D asm_mips_c_f_d;
   MipsRow "c.f.ps" ASM_MIPS_C_F_PS MIPS_OPCODE_COP1 MIPS_OPCODE_COND_F MIPS_OPCODE_FMT_PS asm_mips_c_f_ps;
   MipsRow "c.un.s" ASM_MIPS_C_UN_S MIPS_OPCODE_COP1 MIPS_OPCODE_COND_UN MIPS_OPCODE_FMT_S asm_mips_c_un_s;
   MipsRow "c.un.d" ASM_MIPS_C_UN_D MIPS_OPCODE_COP1 MIPS_OPCODE_COND_UN MIPS_OPCODE_FMT_D asm_mips_c_un_d;
   MipsRow "c.un.ps" ASM_MIPS_C_UN_PS MIPS_OPCODE_COP1 MIPS_OPCODE_COND_UN MIPS_OPCODE_FMT_PS asm_mips_c_un_ps;
   MipsRow "c.eq.s" ASM_MIPS_C_EQ_S MIPS_OPCODE_COP1 MIPS_OPCODE_COND_EQ MIPS_OPCODE_FMT_S asm_mips_c_eq_s;
   MipsRow "c.eq.d" ASM_MIPS_C_EQ_D MIPS_OPCODE_COP1 MIPS_OPCODE_COND_EQ MIPS_OPCODE_FMT_D asm_mips_c_eq_d;
   MipsRow "c.eq.ps" ASM_MIPS_C_EQ_PS MIPS_OPCODE_COP1 MIPS_OPCODE_COND_EQ MIPS_OPCODE_FMT_PS asm_mips_c_eq_ps;
   MipsRow "c.ueq.s" ASM_MIPS_C_UEQ_S MIPS_OPCODE_COP1 MIPS_OPCODE_COND_UEQ MIPS_OPCODE_FMT_S asm_mips_c_ueq_s;
   MipsRow "c.ueq.d" ASM_MIPS_C_UEQ_D MIPS_OPCODE_COP1 MIPS_OPCODE_COND_UEQ MIPS_OPCODE_FMT_D asm_mips_c_ueq_d;
   MipsRow "c.ueq.ps" ASM_MIPS_C_UEQ_PS MIPS_OPCODE_COP1 MIPS_OPCODE_COND_UEQ MIPS_OPCODE_FMT_PS asm_mips_c_ueq_ps;
   MipsRow "c.olt.s" ASM_MIPS_C_OLT_S MIPS_OPCODE_COP1 MIPS_OPCODE_COND_OLT MIPS_OPCODE_FMT_S asm_mips_c_olt_s;
   MipsRow "c.olt.d" ASM_MIPS_C_OLT_D MIPS_OPCODE_COP1 MIPS_OPCODE_COND_OLT MIPS_OPCODE_FMT_D asm_mips_c_olt_d;
   MipsRow "c.olt.ps" ASM_MIPS_C_OLT_PS MIPS_OPCODE_COP1 MIPS_OPCODE_COND_OLT MIPS_OPCODE_FMT_PS asm_mips_c_olt_ps;
   MipsRow "c.ult.s" ASM_MIPS_C_ULT_S MIPS_OPCODE_COP1 MIPS_OPCODE_COND_ULT MIPS_OPCODE_FMT_S asm_mips_c_ult_s;
   MipsRow "c.ult.d" ASM_MIPS_C_ULT_D MIPS_OPCODE_COP1 MIPS_OPCODE_COND_ULT MIPS_OPCODE_FMT_D asm_mips_c_ult_d;
   MipsRow "c.ult.ps" ASM_MIPS_C_ULT_PS MIPS_OPCODE_COP1 MIPS_OPCODE_COND_ULT MIPS_OPCODE_FMT_PS asm_mips_c_ult_ps;
   MipsRow "c.ole.s" ASM_MIPS_C_OLE_S MIPS_OPCODE_COP1 MIPS_OPCODE_COND_OLE MIPS_OPCODE_FMT_S asm_mips_c_ole_s;
   MipsRow "c.ole.d" ASM_MIPS_C_OLE_D MIPS_OPCODE_COP1 MIPS_OPCODE_COND_OLE MIPS_OPCODE_FMT_D asm_mips_c_ole_d;
   MipsRow "c.ole.ps" ASM_MIPS_C_OLE_PS MIPS_OPCODE_COP1 MIPS_OPCODE_COND_OLE MIPS_OPCODE_FMT_PS asm_mips_c_ole_ps;
   MipsRow "c.ule.s" ASM_MIPS_C_ULE_S MIPS_OPCODE_COP1 MIPS_OPCODE_COND_ULE MIPS_OPCODE_FMT_S asm_mips_c_ule_s;
   MipsRow "c.ule.d" ASM_MIPS_C_ULE_D MIPS_OPCODE_COP1 MIPS_OPCODE_COND_ULE MIPS_OPCODE_FMT_D asm_mips_c_ule_d;
   MipsRow "c.ule.ps" ASM_MIPS_C_ULE_PS MIPS_OPCODE_COP1 MIPS_OPCODE_COND_ULE MIPS_OPCODE_FMT_PS asm_mips_c_ule_ps;
   MipsRow "c.sf.s" ASM_MIPS_C_SF_S MIPS_OPCODE_COP1 MIPS_OPCODE_COND_SF MIPS_OPCODE_FMT_S asm_mips_c_sf_s;
   MipsRow "c.sf.d" ASM_MIPS_C_SF_D MIPS_OPCODE_COP1 MIPS_OPCODE_COND_SF MIPS_OPCODE_FMT_D asm_mips_c_sf_d;
   MipsRow "c.sf.ps" ASM_MIPS_C_SF_PS MIPS_OPCODE_COP1 MIPS_OPCODE_COND_SF MIPS_OPCODE_FMT_PS asm_mips_c_sf_ps;
   MipsRow "c.ngle.s" ASM_MIPS_C_NGLE_S MIPS_OPCODE_COP1 MIPS_OPCODE_COND_NGLE MIPS_OPCODE_FMT_S asm_mips_c_ngle_s;
   MipsRow "c.ngle.d" ASM_MIPS_C_NGLE_D MIPS_OPCODE_COP1 MIPS_OPCODE_COND_NGLE MIPS_OPCODE_FMT_D asm_mips_c_ngle_d;
   MipsRow "c.ngle.ps" ASM_MIPS_C_NGLE_PS MIPS_OPCODE_COP1 MIPS_OPCODE_COND_NGLE MIPS_OPCODE_FMT_PS asm_mips_c_ngle_ps;
   MipsRow "c.seq.s" ASM_MIPS_C_SEQ_S MIPS_OPCODE_COP1 MIPS_OPCODE_COND_SEQ MIPS_OPCODE_FMT_S asm_mips_c_seq_s;
   MipsRow "c.seq.d" ASM_MIPS_C_SEQ_D MIPS_OPCODE_COP1 MIPS_OPCODE_COND_SEQ MIPS_OPCODE_FMT_D asm_mips_c_seq_d;
   MipsRow "c.seq.ps" ASM_MIPS_C_SEQ_PS MIPS_OPCODE_COP1 MIPS_OPCODE_COND_SEQ MIPS_OPCODE_FMT_PS asm_mips_c_seq_ps;
   MipsRow "c.ngl.s" ASM_MIPS_C_NGL_S MIPS_OPCODE_COP1 MIPS_OPCODE_COND_NGL MIPS_OPCODE_FMT_S asm_mips_c_ngl_s;
   MipsRow "c.ngl.d" ASM_MIPS_C_NGL_D MIPS_OPCODE_COP1 MIPS_OPCODE_COND_NGL MIPS_OPCODE_FMT_D asm_mips_c_ngl_d;
   MipsRow "c.ngl.ps" ASM_MIPS_C_NGL_PS MIPS_OPCODE_COP1 MIPS_OPCODE_COND_NGL MIPS_OPCODE_FMT_PS asm_mips_c_ngl_ps;
   MipsRow "c.lt.s" ASM_MIPS_C_LT_S MIPS_OPCODE_COP1 MIPS_OPCODE_COND_LT MIPS_OPCODE_FMT_S asm_mips_c_lt_s;
   MipsRow "c.lt.d" ASM_MIPS_C_LT_D MIPS_OPCODE_COP1 MIPS_OPCODE_COND_LT MIPS_OPCODE_FMT_D asm_mips_c_lt_d;
   MipsRow "c.lt.ps" ASM_MIPS_C_LT_PS MIPS_OPCODE_COP1 MIPS_OPCODE_COND_LT MIPS_OPCODE_FMT_PS asm_mips_c_lt_ps;
   MipsRow "c.nge.s" ASM_MIPS_C_NGE_S MIPS_OPCODE_COP1 MIPS_OPCODE_COND_NGE MIPS_OPCODE_FMT_S asm_mips_c_nge_s;
   MipsRow "c.nge.d" ASM_MIPS_C_NGE_D MIPS_OPCODE_COP1 MIPS_OPCODE_COND_NGE MIPS_OPCODE_FMT_D asm_mips_c_nge_d;
   MipsRow "c.nge.ps" ASM_MIPS_C_NGE_PS MIPS_OPCODE_COP1 MIPS_OPCODE_COND_NGE MIPS_OPCODE_FMT_PS asm_mips_c_nge_ps;
   MipsRow "c.le.s" ASM_MIPS_C_LE_S MIPS_OPCODE_COP1 MIPS_OPCODE_COND_LE MIPS_OPCODE_FMT_S asm_mips_c_le_s;
   MipsRow "c.le.d" ASM_MIPS_C_LE_D MIPS_OPCODE_COP1 MIPS_OPCODE_COND_LE MIPS_OPCODE_FMT_D asm_mips_c_le_d;
   MipsRow "c.le.ps" ASM_MIPS_C_LE_PS MIPS_OPCODE_COP1 MIPS_OPCODE_COND_LE MIPS_OPCODE_FMT_PS asm_mips_c_le_ps;
   MipsRow "c.ngt.s" ASM_MIPS_C_NGT_S MIPS_OPCODE_COP1 MIPS_OPCODE_COND_NGT MIPS_OPCODE_FMT_S asm_mips_c_ngt_s;
   MipsRow "c.ngt.d" ASM_MIPS_C_NGT_D MIPS_OPCODE_COP1 MIPS_OPCODE_COND_NGT MIPS_OPCODE_FMT_D asm_mips_c_ngt_d;
   MipsRow "c.ngt.ps" ASM_MIPS_C_NGT_PS MIPS_OPCODE_COP1 MIPS_OPCODE_COND_NGT MIPS_OPCODE_FMT_PS asm_mips_c_ngt_ps].

Record e_mips_register := MipsReg { ext_mnemonic : string; reg_mnemonic : string; fpu_mnemonic : string }.
Definition e_mips_registers : list e_mips_register :=
  [MipsReg "zero" "r0" "f0";
   MipsReg "at" "r1" "f1";
   MipsReg "v0" "r2" "f2";
   MipsReg "v1" "r3" "f3";
   MipsReg "a0" "r4" "f4";
   MipsReg "a1" "r5" "f5";
   MipsReg "a2" "r6" "f6";
   MipsReg "a3" "r7" "f7";
   MipsReg "t0" "r8" "f8";
   MipsReg "t1" "r9" "f9";
   MipsReg "t2" "r10" "f10";
   MipsReg "t3" "r11" "f11";
   MipsReg "t4" "r12" "f12";
   MipsReg "t5" "r13" "f13";
   MipsReg "t6" "r14" "f14";
   MipsReg "t7" "r15" "f15";
   MipsReg "s0" "r16" "f16";
   MipsReg "s1" "r17" "f17";
   MipsReg "s2" "r18" "f18";
   MipsReg "s3" "r19" "f19";
   MipsReg "s4" "r20" "f20";
   MipsReg "s5" "r21" "f21";
   MipsReg "s6" "r22" "f22";
   MipsReg "s7" "r23" "f23";
   MipsReg "t8" "r24" "f24";
   MipsReg "t9" "r25" "f25";
   MipsReg "k0" "r26" "f26";
   MipsReg "k1" "r27" "f27";
   MipsReg "gp" "r28" "f28";
   MipsReg "sp" "r29" "f29";
   MipsReg "fp" "r30" "f30";
   MipsReg "ra" "r31" "f31"].

(** ** Registration (register_mips.c) *)

Definition asm_register_mips_opcodes : list (Z * Z * Z * mips_handler) :=
  (λ r, (index1 r, index2 r, index3 r, func_op r)) <$> e_mips_instrs.

(** [asm_fetch_default] for this processor. *)
Definition mips_fetch_default : mips_handler := λ _, ret (-1).

Definition mips_opcode_vector (dim : Z * Z * Z) : mips_handler :=
  registered mips_fetch_default asm_register_mips_opcodes dim.

(** The size of each dimension of the vector. *)
Definition mips_dims : Z * Z * Z := (64, 64, 64).

(** ** Dispatch (init_mips.c) *)

(** The four bytes of [buf], the last first. *)
Definition mips_converted (buf : list Z) : option Z :=
  b0 ← buf !! 0%nat; b1 ← buf !! 1%nat; b2 ← buf !! 2%nat; b3 ← buf !! 3%nat;
  Some (b3 ||| (b2 ≪ 8) ||| (b1 ≪ 16) ||| (b0 ≪ 24)).

(** The index of the handler: [dim]. *)
Definition mips_dim (converted : Z) : Z * Z * Z :=
  let dim0 := converted ≫ 26 in
  if dim0 =? MIPS_OPCODE_SPECIAL then
    let dim1 := converted &&& 63 in
    (dim0, dim1,
     if dim1 =? MIPS_OPCODE_MOVCI then (converted &&& 65536) ≫ 16
     else if dim1 =? MIPS_OPCODE_SRL then (converted ≫ 21) &&& 31
     else if dim1 =? MIPS_OPCODE_SRLV then (converted ≫ 6) &&& 31
     else 0)
  else if dim0 =? MIPS_OPCODE_REGIMM then (dim0, (converted ≫ 16) &&& 31, 0)
  else if dim0 =? MIPS_OPCODE_SPECIAL2 then (dim0, converted &&& 63, 0)
  else if dim0 =? MIPS_OPCODE_SPECIAL3 then
    let dim1 := converted &&& 63 in
    (dim0, dim1, if dim1 =? MIPS_OPCODE_BSHFL then ((converted &&& 1984) ≫ 6) + 6 else 0)
  else if dim0 =? MIPS_OPCODE_COP0 then
    let tmp := (converted ≫ 3) &&& 255 in
    (dim0, if tmp =? 0 then tmp else converted &&& 63, 0)
  else if dim0 =? MIPS_OPCODE_COP1 then
    let tmp := (converted ≫ 0) &&& 63 in
    let fmt := (converted ≫ 21) &&& 31 in
    let jajo := (converted ≫ 4) &&& 15 in
    let kupa := (converted ≫ 0) &&& 15 in
    if fmt =? MIPS_OPCODE_BCC2 then (dim0, fmt, (converted ≫ 16) &&& 3)
    else if (fmt =? MIPS_OPCODE_F_CFC1) || (fmt =? MIPS_OPCODE_F_CTC1) || (fmt =? MIPS_OPCODE_F_MFC1) ||
            (fmt =? MIPS_OPCODE_F_MTC1) || (fmt =? MIPS_OPCODE_DMFC2) || (fmt =? MIPS_OPCODE_DMTC2)
    then (dim0, fmt, 0)
    else if jajo =? 3 then (dim0, kupa, fmt)
    else (dim0, tmp, fmt)
  else if dim0 =? MIPS_OPCODE_COP2 then
    let tmp := (converted ≫ 25) &&& 1 in
    if negb (tmp =? 0) then (dim0, tmp, 0)
    else
      let dim1 := (converted ≫ 21) &&& 31 in
      (dim0, dim1, if dim1 =? MIPS_OPCODE_BCC2 then (converted ≫ 16) &&& 3 else 0)
  else if dim0 =? MIPS_OPCODE_COP1X then (dim0, converted &&& 63, 0)
  else (dim0, 0, 0).

(** [ins->len], [nb_op] and [type] as [asm_fetch_mips] sets them. *)
Definition mips_start : mips_st () := λ s,
  (tt, MipsInstr (mins_instr s) ASM_TYPE_NONE 4 0 (mins_op s)).

Definition asm_fetch_mips (buf : list Z) : option (mips_st Z) :=
  converted ← mips_converted buf;
  Some (mips_start;; mips_opcode_vector (mips_dim converted) converted)%mips.

(** [asm_read_instr] (generic.c) with this processor. *)
Definition mips_read_instr (buf : list Z) : option (Z * mips_instr) :=
  fetch ← asm_fetch_mips buf; Some (fetch mips_instr0).

(** ** Output (output_mips.c) *)

(** [snprintf] in a buffer of [n] bytes. *)
Definition mips_snprintf (n : nat) (s : string) : string := String.substring 0 (n - 1) s.

Definition XFMT (v : Z) : string := "0x" +:+ AFMT v.

Definition comma (i : nat) (s : string) : string := (if (i =? 0)%nat then "" else ",") +:+ s.

(** The name of the register of an operand. *)
Definition mips_reg_name (op : mips_operand) : option string :=
  r ← e_mips_registers !! Z.to_nat (mop_baser op);
  Some (if negb (mop_regset op =? 0) then fpu_mnemonic r else ext_mnemonic r).

(** [temp[i]]. *)
Definition mips_temp (ins : mips_instr) (addr : Z) (i : nat) : option string :=
  op ← mins_op ins !! i;
  match mop_type op with
  | ASM_MIPS_OTYPE_REGISTER => r ← mips_reg_name op; Some (mips_snprintf 20 (comma i r))
  | ASM_MIPS_OTYPE_IMMEDIATE => Some (mips_snprintf 20 (comma i (pretty (i16 (mop_imm op)))))
  | ASM_MIPS_OTYPE_JUMP =>
      Some (mips_snprintf 20 (comma i (XFMT
        (u32 ((u32 (mop_imm op ≪ 2)) ||| (((u32 (addr + 8) ≫ 28) &&& 15) ≪ 28))))))
  | ASM_MIPS_OTYPE_BRANCH =>
      Some (mips_snprintf 20 (comma i (XFMT (u32 (addr + (i16 (mop_imm op) + 1) * 4)))))
  | ASM_MIPS_OTYPE_REGBASE => r ← mips_reg_name op; Some (mips_snprintf 20 ("(" +:+ r +:+ ")"))
  | ASM_MIPS_OTYPE_NONE | ASM_MIPS_OTYPE_NOOP | ASM_MIPS_OTYPE_LAST => Some ""
  end.

(** NULL when nothing is written.  [strcat] writes past [bufer], of 80 bytes,
    when what it holds is longer. *)
Definition asm_mips_display_operand (ins : mips_instr) (num : Z) (addr : Z) : option (option string) :=
  temps ← mapM (mips_temp ins addr) (seq 0 4);
  let bufer := foldl String.append "" temps in
  if bool_decide (80 ≤ String.length bufer)%nat then None
  else Some (if String.eqb bufer "" then None else Some bufer).

Definition asm_mips_display_instr (ins : mips_instr) (addr : Z) : option string :=
  tmp ← asm_mips_display_operand ins 0 addr;
  row ← e_mips_instrs !! Z.to_nat (mips_code (mins_instr ins));
  Some (mips_snprintf 120 (match tmp with
                           | Some s => mnemonic row +:+ " " +:+ s
                           | None => mnemonic row
                           end)).
