(* ===== verification/MipsManual.v ===== *)
(** * The instructions of MIPS64, after the manual of the architecture

    The reference the MIPS disassembler is compared to: for each instruction the
    library knows, the encoding (fields that are fixed), the idioms that have a
    name of their own, the mnemonic and the operands of the assembly language. *)
From S2P Require Import Prelude.

(** [n] bits of a word from bit [lo]. *)
Definition bits (lo n w : Z) : Z := w / 2 ^ lo mod 2 ^ n.

(** The operands, by the bits they come from.  Immediates, displacements and
    targets are the bits of their field. *)
Inductive mval :=
| VGpr (r : Z)          (* a general register *)
| VFpr (r : Z)          (* a floating point register *)
| VCpr (r : Z)          (* a register of another coprocessor, or of control *)
| VBase (r : Z)         (* the base of an address *)
| VImm (v : Z)
| VBranch (v : Z)       (* a displacement in words from the delay slot *)
| VJump (v : Z).        (* a word in the 256 MB region of the delay slot *)

Definition mspec : Type := Z → mval.
Definition Gpr (lo : Z) : mspec := λ w, VGpr (bits lo 5 w).
Definition Fpr (lo : Z) : mspec := λ w, VFpr (bits lo 5 w).
Definition Cpr (lo : Z) : mspec := λ w, VCpr (bits lo 5 w).
Definition Base (lo : Z) : mspec := λ w, VBase (bits lo 5 w).
Definition Num (lo n : Z) : mspec := λ w, VImm (bits lo n w).
Definition Branch : mspec := λ w, VBranch (bits 0 16 w).
Definition Jump : mspec := λ w, VJump (bits 0 26 w).

(** The usual fields. *)
Definition rs : Z := 21.
Definition rt : Z := 16.
Definition rd : Z := 11.
Definition sa : Z := 6.
Abbreviation Imm16 := (Num 0 16) (only parsing).

(** [(lo, n, v)]: the [n] bits from [lo] are [v]. *)
Definition fixed : Type := Z * Z * Z.
Definition holds_field (w : Z) (f : fixed) : bool := let '(lo, n, v) := f in bits lo n w =? v.
Definition matches (w : Z) (fs : list fixed) : bool := forallb (holds_field w) fs.

Record mrow := MRow {
  m_name : string;
  m_fixed : list fixed;
  m_unless : list (list fixed);   (* idioms with rows of their own *)
  m_ops : list mspec;
}.

Definition row_matches (w : Z) (r : mrow) : bool :=
  matches w (m_fixed r) && negb (existsb (matches w) (m_unless r)).

(** ** Encodings by class *)

Definition opcode (op : Z) : fixed := (26, 6, op).
Definition rs_is (v : Z) : fixed := (rs, 5, v).
Definition rt_is (v : Z) : fixed := (rt, 5, v).
Definition rd_is (v : Z) : fixed := (rd, 5, v).
Definition sa_is (v : Z) : fixed := (sa, 5, v).
Definition special (fn : Z) (fs : list fixed) : list fixed := opcode 0 :: (0, 6, fn) :: fs.
Definition regimm (rt : Z) : list fixed := [opcode 1; rt_is rt].
Definition special2 (fn : Z) (fs : list fixed) : list fixed := opcode 28 :: (0, 6, fn) :: fs.
Definition special3 (fn : Z) (fs : list fixed) : list fixed := opcode 31 :: (0, 6, fn) :: fs.
Definition cop0_co (fn : Z) : list fixed := [opcode 16; (25, 1, 1); (6, 19, 0); (0, 6, fn)].
Definition cop_move (cop rs : Z) : list fixed := [opcode cop; rs_is rs].
Definition cop_branch (cop nd_tf : Z) (fs : list fixed) : list fixed :=
  opcode cop :: rs_is 8 :: (16, 2, nd_tf) :: fs.
Definition cop1 (fmt fn : Z) (fs : list fixed) : list fixed := opcode 17 :: rs_is fmt :: (0, 6, fn) :: fs.
Definition cop1x (fn : Z) (fs : list fixed) : list fixed := opcode 19 :: (0, 6, fn) :: fs.

(** ** Rows by shape *)

Definition r3 (n : string) (fn : Z) : mrow := MRow n (special fn [sa_is 0]) [] [Gpr rd; Gpr rs; Gpr rt].
Definition r2 (n : string) (fn : Z) : mrow := MRow n (special fn [rd_is 0; sa_is 0]) [] [Gpr rs; Gpr rt].
Definition shift (n : string) (fn : Z) : mrow := MRow n (special fn [rs_is 0]) [] [Gpr rd; Gpr rt; Num sa 5].
Definition shiftv (n : string) (fn : Z) : mrow := MRow n (special fn [sa_is 0]) [] [Gpr rd; Gpr rt; Gpr rs].
Definition trap (n : string) (fn : Z) : mrow := MRow n (special fn []) [] [Gpr rs; Gpr rt].
Definition trapi (n : string) (rt : Z) : mrow := MRow n (regimm rt) [] [Gpr rs; Imm16].
Definition branch1 (n : string) (rt : Z) : mrow := MRow n (regimm rt) [] [Gpr rs; Branch].
Definition branchz (n : string) (op : Z) : mrow := MRow n [opcode op; rt_is 0] [] [Gpr rs; Branch].
Definition arithi (n : string) (op : Z) : mrow := MRow n [opcode op] [] [Gpr rt; Gpr rs; Imm16].
Definition mem (n : string) (op : Z) : mrow := MRow n [opcode op] [] [Gpr rt; Imm16; Base rs].
Definition fmem (n : string) (op : Z) : mrow := MRow n [opcode op] [] [Fpr rt; Imm16; Base rs].
Definition cmem (n : string) (op : Z) : mrow := MRow n [opcode op] [] [Cpr rt; Imm16; Base rs].
Definition f3 (n : string) (fmt fn : Z) : mrow := MRow n (cop1 fmt fn []) [] [Fpr sa; Fpr rd; Fpr rt].
Definition f2 (n : string) (fmt fn : Z) : mrow := MRow n (cop1 fmt fn [rt_is 0]) [] [Fpr sa; Fpr rd].
Definition fma (n : string) (fn : Z) : mrow := MRow n (cop1x fn []) [] [Fpr sa; Fpr rs; Fpr rd; Fpr rt].

(** ** The manual *)

Definition manual_alu : list mrow :=
  [r3 "add" 32;
   r3 "addu" 33;
   r3 "sub" 34;
   r3 "subu" 35;
   r3 "and" 36;
   r3 "or" 37;
   r3 "xor" 38;
   r3 "nor" 39;
   r3 "slt" 42;
   r3 "sltu" 43;
   r3 "dadd" 44;
   r3 "daddu" 45;
   r3 "dsub" 46;
   r3 "dsubu" 47;
   r3 "movz" 10;
   r3 "movn" 11;
   r2 "mult" 24;
   r2 "multu" 25;
   r2 "div" 26;
   r2 "divu" 27;
   r2 "dmult" 28;
   r2 "dmultu" 29;
   r2 "ddiv" 30;
   r2 "ddivu" 31;
   MRow "mfhi" (special 16 [rs_is 0; rt_is 0; sa_is 0]) [] [Gpr rd];
   MRow "mflo" (special 18 [rs_is 0; rt_is 0; sa_is 0]) [] [Gpr rd];
   MRow "mthi" (special 17 [rt_is 0; rd_is 0; sa_is 0]) [] [Gpr rs];
   MRow "mtlo" (special 19 [rt_is 0; rd_is 0; sa_is 0]) [] [Gpr rs];
   MRow "movf" (special 1 [(16, 1, 0); (17, 1, 0); sa_is 0]) [] [Gpr rd; Gpr rs; Num 18 3];
   MRow "movt" (special 1 [(16, 1, 1); (17, 1, 0); sa_is 0]) [] [Gpr rd; Gpr rs; Num 18 3];
   arithi "addi" 8;
   arithi "addiu" 9;
   arithi "slti" 10;
   arithi "sltiu" 11;
   arithi "andi" 12;
   arithi "ori" 13;
   arithi "xori" 14;
   arithi "daddi" 24;
   arithi "daddiu" 25;
   MRow "lui" [opcode 15; rs_is 0] [] [Gpr rt; Imm16];
   MRow "madd" (special2 0 [rd_is 0; sa_is 0]) [] [Gpr rs; Gpr rt];
   MRow "maddu" (special2 1 [rd_is 0; sa_is 0]) [] [Gpr rs; Gpr rt];
   MRow "msub" (special2 4 [rd_is 0; sa_is 0]) [] [Gpr rs; Gpr rt];
   MRow "msubu" (special2 5 [rd_is 0; sa_is 0]) [] [Gpr rs; Gpr rt];
   MRow "mul" (special2 2 [sa_is 0]) [] [Gpr rd; Gpr rs; Gpr rt];
   MRow "clz" (special2 32 [sa_is 0]) [] [Gpr rd; Gpr rs];
   MRow "clo" (special2 33 [sa_is 0]) [] [Gpr rd; Gpr rs];
   MRow "dclz" (special2 36 [sa_is 0]) [] [Gpr rd; Gpr rs];
   MRow "dclo" (special2 37 [sa_is 0]) [] [Gpr rd; Gpr rs];
   MRow "ext" (special3 0 []) [] [Gpr rt; Gpr rs; Num sa 5; λ w, VImm (bits rd 5 w + 1)];
   MRow "ins" (special3 4 []) [] [Gpr rt; Gpr rs; Num sa 5; λ w, VImm (bits rd 5 w - bits sa 5 w + 1)];
   MRow "wsbh" (special3 32 [rs_is 0; sa_is 2]) [] [Gpr rd; Gpr rt];
   MRow "seb" (special3 32 [rs_is 0; sa_is 16]) [] [Gpr rd; Gpr rt];
   MRow "seh" (special3 32 [rs_is 0; sa_is 24]) [] [Gpr rd; Gpr rt];
   MRow "rdhwr" (special3 59 [rs_is 0; sa_is 0]) [] [Gpr rt; Cpr rd]].

Definition manual_shift : list mrow :=
  [MRow "nop" (special 0 [(6, 20, 0)]) [] [];
   MRow "ssnop" (special 0 [(6, 20, 1)]) [] [];
   MRow "sll" (special 0 [rs_is 0]) [[(6, 20, 0)]; [(6, 20, 1)]] [Gpr rd; Gpr rt; Num sa 5];
   shift "srl" 2;
   shift "sra" 3;
   shift "dsll" 56;
   shift "dsrl" 58;
   shift "dsra" 59;
   shift "dsll32" 60;
   shift "dsrl32" 62;
   shift "dsra32" 63;
   MRow "rotr" (special 2 [rs_is 1]) [] [Gpr rd; Gpr rt; Num sa 5];
   shiftv "sllv" 4;
   shiftv "srlv" 6;
   shiftv "srav" 7;
   shiftv "dsllv" 20;
   shiftv "dsrlv" 22;
   shiftv "dsrav" 23;
   MRow "rotrv" (special 6 [sa_is 1]) [] [Gpr rd; Gpr rt; Gpr rs]].

Definition manual_control : list mrow :=
  [MRow "j" [opcode 2] [] [Jump];
   MRow "jal" [opcode 3] [] [Jump];
   MRow "b" [opcode 4; (16, 10, 0)] [] [Branch];
   MRow "beq" [opcode 4] [[(16, 10, 0)]] [Gpr rs; Gpr rt; Branch];
   MRow "bne" [opcode 5] [] [Gpr rs; Gpr rt; Branch];
   MRow "beql" [opcode 20] [] [Gpr rs; Gpr rt; Branch];
   MRow "bnel" [opcode 21] [] [Gpr rs; Gpr rt; Branch];
   branchz "blez" 6;
   branchz "bgtz" 7;
   branchz "blezl" 22;
   branchz "bgtzl" 23;
   branch1 "bltz" 0;
   branch1 "bgez" 1;
   branch1 "bltzl" 2;
   branch1 "bgezl" 3;
   branch1 "bltzal" 16;
   branch1 "bltzall" 18;
   branch1 "bgezall" 19;
   MRow "bal" [opcode 1; rt_is 17; rs_is 0] [] [Branch];
   MRow "bgezal" (regimm 17) [[rs_is 0]] [Gpr rs; Branch];
   MRow "jr" (special 8 [rt_is 0; rd_is 0; sa_is 0]) [] [Gpr rs];
   MRow "jr.hb" (special 8 [rt_is 0; rd_is 0; sa_is 16]) [] [Gpr rs];
   MRow "jalr" (special 9 [rt_is 0; rd_is 31; sa_is 0]) [] [Gpr rs];
   MRow "jalr" (special 9 [rt_is 0; sa_is 0]) [[rd_is 31]] [Gpr rd; Gpr rs];
   MRow "jalr.hb" (special 9 [rt_is 0; rd_is 31; sa_is 16]) [] [Gpr rs];
   MRow "syscall" (special 12 []) [] [];
   MRow "break" (special 13 []) [] [];
   MRow "sync" (special 15 [rs_is 0; rt_is 0; rd_is 0]) [] [];
   trap "tge" 48;
   trap "tgeu" 49;
   trap "tlt" 50;
   trap "tltu" 51;
   trap "teq" 52;
   trap "tne" 54;
   trapi "tgei" 8;
   trapi "tgeiu" 9;
   trapi "tlti" 10;
   trapi "tltiu" 11;
   trapi "teqi" 12;
   trapi "tnei" 14;
   MRow "sdbbp" (special2 63 []) [] [Num 6 20]].

Definition manual_memory : list mrow :=
  [mem "lb" 32;
   mem "lh" 33;
   mem "lwl" 34;
   mem "lw" 35;
   mem "lbu" 36;
   mem "lhu" 37;
   mem "lwr" 38;
   mem "lwu" 39;
   mem "sb" 40;
   mem "sh" 41;
   mem "swl" 42;
   mem "sw" 43;
   mem "sdl" 44;
   mem "sdr" 45;
   mem "swr" 46;
   mem "ll" 48;
   mem "lld" 52;
   mem "ld" 55;
   mem "sc" 56;
   mem "scd" 60;
   mem "sd" 63;
   mem "ldl" 26;
   mem "ldr" 27;
   fmem "lwc1" 49;
   fmem "ldc1" 53;
   fmem "swc1" 57;
   fmem "sdc1" 61;
   cmem "lwc2" 50;
   cmem "ldc2" 54;
   cmem "swc2" 58;
   cmem "sdc2" 62;
   MRow "pref" [opcode 51] [] [Num rt 5; Imm16; Base rs];
   MRow "synci" (regimm 31) [] [Imm16; Base rs];
   MRow "lwxc1" (cop1x 0 [rd_is 0]) [] [Fpr sa; Gpr rt; Base rs];
   MRow "ldxc1" (cop1x 1 [rd_is 0]) [] [Fpr sa; Gpr rt; Base rs];
   MRow "luxc1" (cop1x 5 [rd_is 0]) [] [Fpr sa; Gpr rt; Base rs];
   MRow "swxc1" (cop1x 8 [sa_is 0]) [] [Fpr rd; Gpr rt; Base rs];
   MRow "sdxc1" (cop1x 9 [sa_is 0]) [] [Fpr rd; Gpr rt; Base rs];
   MRow "suxc1" (cop1x 13 [sa_is 0]) [] [Fpr rd; Gpr rt; Base rs];
   MRow "prefx" (cop1x 15 [sa_is 0]) [] [Num rd 5; Gpr rt; Base rs]].

Definition manual_coprocessor : list mrow :=
  [MRow "mfc0" ([opcode 16; rs_is 0; (0, 11, 0)]) [] [Gpr rt; Cpr rd];
   MRow "mfc0" ([opcode 16; rs_is 0; (3, 8, 0)]) [[(0, 3, 0)]] [Gpr rt; Cpr rd; Num 0 3];
   MRow "dmfc0" ([opcode 16; rs_is 1; (0, 11, 0)]) [] [Gpr rt; Cpr rd];
   MRow "dmfc0" ([opcode 16; rs_is 1; (3, 8, 0)]) [[(0, 3, 0)]] [Gpr rt; Cpr rd; Num 0 3];
   MRow "mtc0" ([opcode 16; rs_is 4; (0, 11, 0)]) [] [Gpr rt; Cpr rd];
   MRow "mtc0" ([opcode 16; rs_is 4; (3, 8, 0)]) [[(0, 3, 0)]] [Gpr rt; Cpr rd; Num 0 3];
   MRow "dmtc0" ([opcode 16; rs_is 5; (0, 11, 0)]) [] [Gpr rt; Cpr rd];
   MRow "dmtc0" ([opcode 16; rs_is 5; (3, 8, 0)]) [[(0, 3, 0)]] [Gpr rt; Cpr rd; Num 0 3];
   MRow "tlbr" (cop0_co 1) [] [];
   MRow "tlbwi" (cop0_co 2) [] [];
   MRow "tlbwr" (cop0_co 6) [] [];
   MRow "tlbp" (cop0_co 8) [] [];
   MRow "eret" (cop0_co 24) [] [];
   MRow "deret" (cop0_co 31) [] [];
   MRow "wait" [opcode 16; (25, 1, 1); (0, 6, 32)] [] [];
   MRow "mfc2" (opcode 18 :: rs_is 0 :: [(0, 11, 0)]) [] [Gpr rt; Cpr rd];
   MRow "dmfc2" (opcode 18 :: rs_is 1 :: [(0, 11, 0)]) [] [Gpr rt; Cpr rd];
   MRow "cfc2" (opcode 18 :: rs_is 2 :: [(0, 11, 0)]) [] [Gpr rt; Cpr rd];
   MRow "mtc2" (opcode 18 :: rs_is 4 :: [(0, 11, 0)]) [] [Gpr rt; Cpr rd];
   MRow "dmtc2" (opcode 18 :: rs_is 5 :: [(0, 11, 0)]) [] [Gpr rt; Cpr rd];
   MRow "ctc2" (opcode 18 :: rs_is 6 :: [(0, 11, 0)]) [] [Gpr rt; Cpr rd];
   MRow "bc2f" (cop_branch 18 0 [(18, 3, 0)]) [] [Branch];
   MRow "bc2f" (cop_branch 18 0 []) [[(18, 3, 0)]] [Num 18 3; Branch];
   MRow "bc2t" (cop_branch 18 1 [(18, 3, 0)]) [] [Branch];
   MRow "bc2t" (cop_branch 18 1 []) [[(18, 3, 0)]] [Num 18 3; Branch];
   MRow "bc2fl" (cop_branch 18 2 [(18, 3, 0)]) [] [Branch];
   MRow "bc2fl" (cop_branch 18 2 []) [[(18, 3, 0)]] [Num 18 3; Branch];
   MRow "bc2tl" (cop_branch 18 3 [(18, 3, 0)]) [] [Branch];
   MRow "bc2tl" (cop_branch 18 3 []) [[(18, 3, 0)]] [Num 18 3; Branch];
   MRow "cop2" [opcode 18; (25, 1, 1)] [] [Num 0 25]].

Definition manual_float : list mrow :=
  [f3 "add.s" 16 0;
   f3 "add.d" 17 0;
   f3 "add.ps" 22 0;
   f3 "sub.s" 16 1;
   f3 "sub.d" 17 1;
   f3 "sub.ps" 22 1;
   f3 "mul.s" 16 2;
   f3 "mul.d" 17 2;
   f3 "mul.ps" 22 2;
   f3 "div.s" 16 3;
   f3 "div.d" 17 3;
   f2 "sqrt.s" 16 4;
   f2 "sqrt.d" 17 4;
   f2 "abs.s" 16 5;
   f2 "abs.d" 17 5;
   f2 "abs.ps" 22 5;
   f2 "mov.s" 16 6;
   f2 "mov.d" 17 6;
   f2 "mov.ps" 22 6;
   f2 "neg.s" 16 7;
   f2 "neg.d" 17 7;
   f2 "neg.ps" 22 7;
   f2 "round.l.s" 16 8;
   f2 "round.l.d" 17 8;
   f2 "trunc.l.s" 16 9;
   f2 "trunc.l.d" 17 9;
   f2 "ceil.l.s" 16 10;
   f2 "ceil.l.d" 17 10;
   f2 "floor.l.s" 16 11;
   f2 "floor.l.d" 17 11;
   f2 "round.w.s" 16 12;
   f2 "round.w.d" 17 12;
   f2 "trunc.w.s" 16 13;
   f2 "trunc.w.d" 17 13;
   f2 "ceil.w.s" 16 14;
   f2 "ceil.w.d" 17 14;
   f2 "floor.w.s" 16 15;
   f2 "floor.w.d" 17 15;
   f2 "recip.s" 16 21;
   f2 "recip.d" 17 21;
   f2 "rsqrt.s" 16 22;
   f2 "rsqrt.d" 17 22;
   f2 "cvt.s.d" 17 32;
   f2 "cvt.s.w" 20 32;
   f2 "cvt.s.l" 21 32;
   f2 "cvt.d.s" 16 33;
   f2 "cvt.d.w" 20 33;
   f2 "cvt.d.l" 21 33;
   f2 "cvt.w.s" 16 36;
   f2 "cvt.w.d" 17 36;
   f2 "cvt.l.s" 16 37;
   f2 "cvt.l.d" 17 37;
   f2 "cvt.s.pu" 22 32;
   f2 "cvt.s.pl" 22 40;
   f3 "cvt.ps.s" 16 38;
   MRow "movf.s" (cop1 16 17 [(16, 1, 0); (17, 1, 0)]) [] [Fpr sa; Fpr rd; Num 18 3];
   MRow "movt.s" (cop1 16 17 [(16, 1, 1); (17, 1, 0)]) [] [Fpr sa; Fpr rd; Num 18 3];
   MRow "movz.s" (cop1 16 18 []) [] [Fpr sa; Fpr rd; Gpr rt];
   MRow "movn.s" (cop1 16 19 []) [] [Fpr sa; Fpr rd; Gpr rt];
   MRow "movf.d" (cop1 17 17 [(16, 1, 0); (17, 1, 0)]) [] [Fpr sa; Fpr rd; Num 18 3];
   MRow "movt.d" (cop1 17 17 [(16, 1, 1); (17, 1, 0)]) [] [Fpr sa; Fpr rd; Num 18 3];
   MRow "movz.d" (cop1 17 18 []) [] [Fpr sa; Fpr rd; Gpr rt];
   MRow "movn.d" (cop1 17 19 []) [] [Fpr sa; Fpr rd; Gpr rt];
   MRow "movf.ps" (cop1 22 17 [(16, 1, 0); (17, 1, 0)]) [] [Fpr sa; Fpr rd; Num 18 3];
   MRow "movt.ps" (cop1 22 17 [(16, 1, 1); (17, 1, 0)]) [] [Fpr sa; Fpr rd; Num 18 3];
   MRow "movz.ps" (cop1 22 18 []) [] [Fpr sa; Fpr rd; Gpr rt];
   MRow "movn.ps" (cop1 22 19 []) [] [Fpr sa; Fpr rd; Gpr rt];
   MRow "mfc1" (opcode 17 :: rs_is 0 :: [(0, 11, 0)]) [] [Gpr rt; Fpr rd];
   MRow "dmfc1" (opcode 17 :: rs_is 1 :: [(0, 11, 0)]) [] [Gpr rt; Fpr rd];
   MRow "cfc1" (opcode 17 :: rs_is 2 :: [(0, 11, 0)]) [] [Gpr rt; Cpr rd];
   MRow "mtc1" (opcode 17 :: rs_is 4 :: [(0, 11, 0)]) [] [Gpr rt; Fpr rd];
   MRow "dmtc1" (opcode 17 :: rs_is 5 :: [(0, 11, 0)]) [] [Gpr rt; Fpr rd];
   MRow "ctc1" (opcode 17 :: rs_is 6 :: [(0, 11, 0)]) [] [Gpr rt; Cpr rd];
   MRow "bc1f" (cop_branch 17 0 [(18, 3, 0)]) [] [Branch];
   MRow "bc1f" (cop_branch 17 0 []) [[(18, 3, 0)]] [Num 18 3; Branch];
   MRow "bc1t" (cop_branch 17 1 [(18, 3, 0)]) [] [Branch];
   MRow "bc1t" (cop_branch 17 1 []) [[(18, 3, 0)]] [Num 18 3; Branch];
   MRow "bc1fl" (cop_branch 17 2 [(18, 3, 0)]) [] [Branch];
   MRow "bc1fl" (cop_branch 17 2 []) [[(18, 3, 0)]] [Num 18 3; Branch];
   MRow "bc1tl" (cop_branch 17 3 [(18, 3, 0)]) [] [Branch];
   MRow "bc1tl" (cop_branch 17 3 []) [[(18, 3, 0)]] [Num 18 3; Branch];
   fma "madd.s" 32;
   fma "madd.d" 33;
   fma "madd.ps" 38;
   fma "msub.s" 40;
   fma "msub.d" 41;
   fma "msub.ps" 46;
   fma "nmadd.s" 48;
   fma "nmadd.d" 49;
   fma "nmadd.ps" 54;
   fma "nmsub.s" 56;
   fma "nmsub.d" 57;
   fma "nmsub.ps" 62;
   MRow "alnv.ps" (cop1x 30 []) [] [Fpr sa; Fpr rd; Fpr rt; Gpr rs]].

(** The sixteen comparisons in a format: on the condition 0, and on another one. *)
Definition conditions : list string :=
  ["f"; "un"; "eq"; "ueq"; "olt"; "ult"; "ole"; "ule"; "sf"; "ngle"; "seq"; "ngl"; "lt"; "nge"; "le"; "ngt"].
Definition compare (fmt : string) (f : Z) : list mrow :=
  imap (λ i c, MRow ("c." +:+ c +:+ "." +:+ fmt) (cop1 f (48 + Z.of_nat i) [(6, 2, 0); (8, 3, 0)]) [] [Fpr rd; Fpr rt])
    conditions ++
  imap (λ i c, MRow ("c." +:+ c +:+ "." +:+ fmt) (cop1 f (48 + Z.of_nat i) [(6, 2, 0)]) [[(8, 3, 0)]]
                 [Num 8 3; Fpr rd; Fpr rt]) conditions.
Definition manual_compare : list mrow := compare "s" 16 ++ compare "d" 17 ++ compare "ps" 22.

Definition manual : list mrow :=
  manual_alu ++ manual_shift ++ manual_control ++ manual_memory ++ manual_coprocessor ++ manual_float ++ manual_compare.
