(* ===== verification/MipsSpec.v ===== *)
(** * What the MIPS disassembler reads, against the manual *)
From S2P Require Import Prelude.
From S2P Require Import LibasmVector.
From S2P Require Import Ia32.
From S2P Require Import Mips.
From S2P Require Import MipsCpu.
From S2P Require Import MipsCop.
From S2P Require Import MipsFetch.
From S2P Require Import MipsManual.
Close Scope ia32_scope.
Close Scope mips_scope.

(** ** The word in memory and what is read *)

(** The bytes of an instruction, most significant first. *)
Definition word_bytes (w : Z) : list Z := (λ lo, bits lo 8 w) <$> [24; 16; 8; 0].

(** What an operand means. *)
Definition denote (o : mips_operand) : option mval :=
  match mop_type o with
  | ASM_MIPS_OTYPE_REGISTER => Some (if mop_regset o =? 0 then VGpr (mop_baser o) else VFpr (mop_baser o))
  | ASM_MIPS_OTYPE_IMMEDIATE => Some (VImm (mop_imm o))
  | ASM_MIPS_OTYPE_BRANCH => Some (VBranch (mop_imm o))
  | ASM_MIPS_OTYPE_JUMP => Some (VJump (mop_imm o))
  | ASM_MIPS_OTYPE_REGBASE => Some (VBase (mop_baser o))
  | ASM_MIPS_OTYPE_NONE | ASM_MIPS_OTYPE_NOOP | ASM_MIPS_OTYPE_LAST => None
  end.

(** The length, the mnemonic and the operands. *)
Definition shown (ri : Z * mips_instr) : option (Z * string * list mval) :=
  row ← e_mips_instrs !! Z.to_nat (mips_code (mins_instr ri.2));
  Some (ri.1, mnemonic row, omap denote (mins_op ri.2)).
Definition read (w : Z) : option (Z * string * list mval) := mips_read_instr (word_bytes w) ≫= shown.

(** [w] is read as the row of the manual says. *)
Definition read_as (r : mrow) (w : Z) : Prop :=
  read w = Some (4, m_name r, (λ f, f w) <$> m_ops r).

#[export] Instance mval_eq_dec : EqDecision mval. Proof. solve_decision. Defined.
#[export] Instance read_as_dec r w : Decision (read_as r w).
Proof. unfold read_as. apply _. Defined.

(** ** Fields of a word *)

Lemma land_bits lo n mask w :
  0 ≤ lo → 0 ≤ n → mask = Z.ones n → Z.land (Z.shiftr w lo) mask = bits lo n w.
Proof. intros Hlo Hn ->. by rewrite Z.land_ones, Z.shiftr_div_pow2. Qed.

Lemma land_bits0 n mask w : 0 ≤ n → mask = Z.ones n → Z.land w mask = bits 0 n w.
Proof. intros Hn ->. rewrite Z.land_ones by done. unfold bits. by rewrite Z.div_1_r. Qed.

(** The masks of the source, as fields. *)
Ltac fields :=
  repeat match goal with
  | |- context [Z.land (Z.shiftr ?w ?lo) ?mask] =>
      let n := eval vm_compute in (Z.log2 (mask + 1)) in
      rewrite (land_bits lo n mask w ltac:(done) ltac:(done) ltac:(done))
  | |- context [Z.land ?w ?mask] =>
      let n := eval vm_compute in (Z.log2 (mask + 1)) in
      rewrite (land_bits0 n mask w ltac:(done) ltac:(done))
  end.

Lemma bits_range lo n w : 0 ≤ n → 0 ≤ bits lo n w < 2 ^ n.
Proof. intros. unfold bits. apply Z.mod_pos_bound. apply Z.pow_pos_nonneg; lia. Qed.

(** A field is the low part of itself and the high part. *)
Lemma bits_join lo n k w :
  0 ≤ lo → 0 ≤ n → 0 ≤ k → bits lo (n + k) w = bits lo n w + 2 ^ n * bits (lo + n) k w.
Proof.
  intros. unfold bits. rewrite !Z.pow_add_r by lia.
  rewrite Z.rem_mul_r by (apply Z.pow_nonzero || apply Z.pow_pos_nonneg; lia).
  by rewrite Z.div_div by (apply Z.pow_nonzero || apply Z.pow_pos_nonneg; lia).
Qed.
Lemma bits_shiftr lo n k w :
  0 ≤ lo → 0 ≤ k ≤ n → Z.shiftr (bits lo n w) k = bits (lo + k) (n - k) w.
Proof.
  intros. replace n with (k + (n - k)) at 1 by lia. rewrite bits_join, Z.shiftr_div_pow2 by lia.
  rewrite (Z.mul_comm (2 ^ k)), Z.div_add by (apply Z.pow_nonzero; lia).
  rewrite Z.div_small by (apply bits_range; lia). lia.
Qed.
Lemma bits_low lo n k w : 0 ≤ lo → 0 ≤ k ≤ n → bits lo k w = bits lo n w mod 2 ^ k.
Proof.
  intros. replace n with (k + (n - k)) by lia. rewrite bits_join by lia.
  rewrite (Z.mul_comm (2 ^ k)), Z.mod_add by (apply Z.pow_nonzero; lia).
  rewrite Z.mod_small; [done | apply bits_range; lia].
Qed.

Lemma bits_lor lo n k w :
  0 ≤ lo → 0 ≤ n → 0 ≤ k → Z.lor (bits lo n w) (Z.shiftl (bits (lo + n) k w) n) = bits lo (n + k) w.
Proof.
  intros. rewrite Z.lor_comm, Z.shiftl_mul_pow2, lor_low by (try apply bits_range; lia).
  rewrite bits_join by lia. lia.
Qed.

Lemma word_converted w : 0 ≤ w < 2 ^ 32 → mips_converted (word_bytes w) = Some w.
Proof.
  intros Hw. change (Some (bits 0 8 w ||| (bits (0 + 8) 8 w ≪ 8) ||| (bits (0 + 16) 8 w ≪ 16) |||
                           (bits (0 + 24) 8 w ≪ 24)) = Some w).
  rewrite (bits_lor 0 8 8), (bits_lor 0 16 8), (bits_lor 0 24 8) by lia.
  unfold bits. by rewrite Z.div_1_r, Z.mod_small.
Qed.

(** ** The index of the handler, by fields *)

Definition dim_of (op fn fmt sa rt bit16 bcc : Z) (low6 : Z) : Z * Z * Z :=
  if op =? MIPS_OPCODE_SPECIAL then
    (op, fn, if fn =? MIPS_OPCODE_MOVCI then bit16
             else if fn =? MIPS_OPCODE_SRL then fmt
             else if fn =? MIPS_OPCODE_SRLV then sa
             else 0)
  else if op =? MIPS_OPCODE_REGIMM then (op, rt, 0)
  else if op =? MIPS_OPCODE_SPECIAL2 then (op, fn, 0)
  else if op =? MIPS_OPCODE_SPECIAL3 then (op, fn, if fn =? MIPS_OPCODE_BSHFL then sa + 6 else 0)
  else if op =? MIPS_OPCODE_COP0 then (op, if (fn / 8 =? 0) && (sa =? 0) then 0 else fn, 0)
  else if op =? MIPS_OPCODE_COP1 then
    if fmt =? MIPS_OPCODE_BCC2 then (op, fmt, bcc)
    else if (fmt =? MIPS_OPCODE_F_CFC1) || (fmt =? MIPS_OPCODE_F_CTC1) || (fmt =? MIPS_OPCODE_F_MFC1) ||
            (fmt =? MIPS_OPCODE_F_MTC1) || (fmt =? MIPS_OPCODE_DMFC2) || (fmt =? MIPS_OPCODE_DMTC2)
    then (op, fmt, 0)
    else if (fn / 16 =? 3) && (low6 =? 0) then (op, fn mod 16, fmt)
    else (op, fn, fmt)
  else if op =? MIPS_OPCODE_COP2 then
    if negb (fmt / 16 =? 0) then (op, fmt / 16, 0)
    else (op, fmt, if fmt =? MIPS_OPCODE_BCC2 then bcc else 0)
  else if op =? MIPS_OPCODE_COP1X then (op, fn, 0)
  else (op, 0, 0).

Lemma mips_dim_bits w :
  0 ≤ w < 2 ^ 32 →
  mips_dim w = dim_of (bits 26 6 w) (bits 0 6 w) (bits 21 5 w) (bits 6 5 w) (bits 16 5 w) (bits 16 1 w)
                 (bits 16 2 w) (bits 6 2 w).
Proof.
  intros Hw. unfold mips_dim, dim_of.
  replace (w ≫ 26) with (bits 26 6 w).
  2:{ unfold bits. rewrite Z.shiftr_div_pow2 by lia. apply Z.mod_small.
      split; [apply Z.div_pos; lia | apply Z.div_lt_upper_bound; lia]. }
  rewrite !Z.shiftr_land, !Z.shiftr_0_r. fields.
  replace (bits 0 4 w) with (bits 0 6 w mod 16) by (symmetry; by apply (bits_low 0 6 4)).
  replace (bits 25 1 w) with (bits 21 5 w / 16) by (rewrite <-(Z.shiftr_div_pow2 _ 4) by done; by apply (bits_shiftr 21 5 4)).
  replace (bits 4 4 w =? 3) with ((bits 0 6 w / 16 =? 3) && (bits 6 2 w =? 0)).
  2:{ rewrite <-(Z.shiftr_div_pow2 _ 4), (bits_shiftr 0 6 4), (bits_join 4 2 2) by done.
      change (0 + 4) with 4. change (6 - 4) with 2. change (4 + 2) with 6. change (2 ^ 2) with 4.
      apply eq_true_iff_eq. rewrite andb_true_iff, !Z.eqb_eq.
      pose proof (bits_range 4 2 w). pose proof (bits_range 6 2 w). lia. }
  replace (bits 3 8 w =? 0) with ((bits 0 6 w / 8 =? 0) && (bits 6 5 w =? 0)).
  2:{ rewrite <-(Z.shiftr_div_pow2 _ 3), (bits_shiftr 0 6 3), (bits_join 3 3 5) by done.
      change (0 + 3) with 3. change (6 - 3) with 3. change (3 + 3) with 6. change (2 ^ 3) with 8.
      apply eq_true_iff_eq. rewrite andb_true_iff, !Z.eqb_eq.
      pose proof (bits_range 3 3 w). pose proof (bits_range 6 5 w). lia. }
  replace (if (bits 0 6 w / 8 =? 0) && (bits 6 5 w =? 0) then bits 3 8 w else bits 0 6 w)
    with (if (bits 0 6 w / 8 =? 0) && (bits 6 5 w =? 0) then 0 else bits 0 6 w); [done |].
  case_match eqn:E; [| done]. apply andb_true_iff in E as [E1 E2].
  rewrite <-(Z.shiftr_div_pow2 _ 3), (bits_shiftr 0 6 3) in E1 by done.
  rewrite Z.eqb_eq in E1, E2. rewrite (bits_join 3 3 5) by done. change (3 + 3) with 6.
  rewrite E2. change (6 - 3) with 3 in E1. change (0 + 3) with 3 in E1. lia.
Qed.

(** ** The handler *)

(** The last registration of an index, by its place. *)
Definition last_at {K A} `{EqDecision K} (regs : list (K * A)) (k : K) : option nat :=
  registered None (imap (λ i p, (p.1, Some i)) regs) k.

Lemma registered_last {K A} `{EqDecision K} (d : A) (regs : list (K * A)) k :
  registered d regs k = from_option snd d (i ← last_at regs k; regs !! i).
Proof.
  unfold last_at, registered. induction regs as [| [k' a] regs IH] using rev_ind; [done |].
  rewrite imap_app, !foldl_app. cbn [imap foldl fst snd]. case_decide.
  - rewrite Nat.add_0_r. cbn. by rewrite list_lookup_middle.
  - rewrite IH. destruct (foldl _ _ _) as [i |] eqn:E; [| done]. cbn.
    rewrite lookup_app_l; [done |]. clear IH. revert i E.
    induction regs as [| [k2 a2] regs IH] using rev_ind; [done |]. intros i.
    rewrite imap_app, foldl_app, length_app. cbn [imap foldl fst snd length]. case_decide.
    + intros [= <-]. lia.
    + intros Hi. apply IH in Hi. lia.
Qed.

Definition handler_place (dim : Z * Z * Z) : option nat :=
  last_at ((λ r, (index1 r, index2 r, index3 r, ())) <$> e_mips_instrs) dim.

Lemma handler_lookup dim i :
  handler_place dim = Some i →
  mips_opcode_vector dim = from_option func_op mips_fetch_default (e_mips_instrs !! i).
Proof.
  intros Hi. unfold mips_opcode_vector. rewrite registered_last.
  replace (last_at asm_register_mips_opcodes dim) with (Some i).
  cbn [mbind option_bind]. unfold asm_register_mips_opcodes. rewrite list_lookup_fmap. by destruct (_ !! i).
Qed.

(** ** Reading a row *)

Definition fixed_prop (w : Z) (f : fixed) : Prop := let '(lo, n, v) := f in bits lo n w = v.
Fixpoint all_fixed (w : Z) (fs : list fixed) : Prop :=
  match fs with [] => True | f :: fs => fixed_prop w f ∧ all_fixed w fs end.
Fixpoint none_of (w : Z) (fss : list (list fixed)) : Prop :=
  match fss with [] => True | fs :: fss => matches w fs = false ∧ none_of w fss end.

Lemma matches_fixed w fs : matches w fs = true → all_fixed w fs.
Proof.
  induction fs as [| [[lo n] v] fs IH]; [done |]. cbn [matches forallb all_fixed].
  intros [H1 H2]%andb_true_iff. split; [by apply Z.eqb_eq | by apply IH].
Qed.
Lemma row_matches_fixed w r : row_matches w r = true → all_fixed w (m_fixed r) ∧ none_of w (m_unless r).
Proof.
  unfold row_matches. intros [H1 H2]%andb_true_iff. split; [by apply matches_fixed |].
  apply negb_true_iff in H2. induction (m_unless r) as [| fs l IH]; [done |].
  cbn [existsb none_of] in *. apply orb_false_iff in H2 as [? ?]. auto.
Qed.

Lemma read_handler w i h :
  0 ≤ w < 2 ^ 32 → handler_place (mips_dim w) = Some i → func_op <$> e_mips_instrs !! i = Some h →
  read w = shown ((mips_start;; h w)%mips mips_instr0).
Proof.
  intros Hw Hi Hh. unfold read, mips_read_instr, asm_fetch_mips. rewrite word_converted by done.
  cbn [mbind option_bind]. rewrite (handler_lookup _ i) by done.
  by destruct (e_mips_instrs !! i); simplify_eq/=.
Qed.

(** The rows the disassembler reads otherwise. *)
Definition excepted_names : list string :=
  ["ext"; "ins"; "wsbh"; "seb"; "seh"; "rdhwr"; "rotr"; "rotrv"; "bal"; "jr.hb"; "jalr.hb"; "sdbbp";
   "lwc1"; "ldc1"; "swc1"; "sdc1"; "lwc2"; "ldc2"; "swc2"; "sdc2"; "pref"; "prefx"; "synci";
   "mfc0"; "dmfc0"; "mtc0"; "dmtc0"; "tlbr"; "tlbwi"; "tlbwr"; "cop2";
   "mfc1"; "dmfc1"; "cfc1"; "mtc1"; "dmtc1"; "ctc1"; "mfc2"; "dmfc2"; "cfc2"; "mtc2"; "dmtc2"; "ctc2"].
(** These lose an operand the other row of their name does not have. *)
Definition excepted_forms : list string :=
  ["jalr"; "bc1f"; "bc1t"; "bc1fl"; "bc1tl"; "bc2f"; "bc2t"; "bc2fl"; "bc2tl"].
(** Floating point: the functions that share a handler with a comparison, the
    comparisons and the multiplications and additions. *)
Definition excepted_float (fs : list fixed) : bool :=
  match fs with
  | (26, _, op) :: (21, _, _) :: (0, 6, fn) :: _ => (op =? 17) && ((fn <? 16) || (48 <=? fn))
  | (26, _, op) :: (0, 6, fn) :: _ => (op =? 19) && (32 <=? fn)
  | _ => false
  end.
Definition excepted (r : mrow) : bool :=
  existsb (String.eqb (m_name r)) excepted_names ||
  (existsb (String.eqb (m_name r)) excepted_forms && negb (bool_decide (m_unless r = []))) ||
  excepted_float (m_fixed r).


Definition right (r : mrow) : Prop := ∀ w, 0 ≤ w < 2 ^ 32 → row_matches w r = true → read_as r w.

Ltac rewrite_fields :=
  repeat match goal with H : bits _ _ _ = _ |- _ => rewrite H in * end.
Ltac right_row :=
  let w := fresh "w" in let Hw := fresh in let Hm := fresh in let Hn := fresh in let Hd := fresh in
  intros w Hw Hm; apply row_matches_fixed in Hm as [Hm Hn];
  lazy -[bits Z.eqb] in Hm; lazy -[bits Z.eqb] in Hn;
  pose proof (mips_dim_bits w Hw) as Hd; unfold dim_of in Hd;
  repeat match goal with H : _ = _ ∧ _ |- _ => destruct H end;
  repeat match goal with H : bits _ _ _ = _ |- _ => rewrite H in Hd end;
  lazy -[bits mips_dim] in Hd;
  unfold read_as; erewrite read_handler;
    [ | exact Hw | rewrite Hd; vm_compute; reflexivity
      | cbv [lookup list_lookup e_mips_instrs fmap option_fmap option_map func_op]; reflexivity];
  lazy -[bits Z.land Z.shiftr Z.eqb String.eqb].
Ltac close_row :=
  fields; rewrite ?bits_shiftr by done; rewrite_fields;
  repeat match goal with
  | H : (if ?b then true else false) = false ∧ _ |- _ => destruct H
  | H : (if ?b then true else false) = false |- _ => destruct b; [discriminate H |]; clear H
  end;
  try match goal with |- context [if (bits ?lo ?n ?w =? ?v) then _ else _] => destruct (bits lo n w =? v) end;
  lazy -[bits]; reflexivity.
Ltac right_rows :=
  repeat (apply Forall_cons; split); [..| apply Forall_nil_2];
  let Hx := fresh in intros Hx; first [vm_compute in Hx; discriminate Hx | clear Hx; right_row; try close_row].

Lemma right_alu : Forall (λ r, excepted r = false → right r) manual_alu.
Proof. unfold manual_alu. right_rows.
Qed.

Lemma right_shift : Forall (λ r, excepted r = false → right r) manual_shift.
Proof. unfold manual_shift. right_rows.
Qed.

Lemma right_control : Forall (λ r, excepted r = false → right r) manual_control.
Proof. unfold manual_control. right_rows.
Qed.

Lemma right_memory : Forall (λ r, excepted r = false → right r) manual_memory.
Proof. unfold manual_memory. right_rows.
Qed.

Lemma right_coprocessor : Forall (λ r, excepted r = false → right r) manual_coprocessor.
Proof. unfold manual_coprocessor. right_rows.
Qed.

Lemma right_float : Forall (λ r, excepted r = false → right r) manual_float.
Proof. unfold manual_float. right_rows.
Qed.

Lemma right_compare : Forall (λ r, excepted r = true) manual_compare.
Proof. apply List.Forall_forall, List.forallb_forall. by vm_compute. Qed.

(** A word of a row, from any word. *)
Definition put (w : Z) (f : fixed) : Z := let '(lo, n, v) := f in w - bits lo n w * 2 ^ lo + v * 2 ^ lo.
Definition sample (seed : Z) (r : mrow) : Z := foldl put seed (m_fixed r).
Definition wrong_at (r : mrow) (w : Z) : bool :=
  (0 <=? w) && (w <? 2 ^ 32) && row_matches w r && negb (bool_decide (read_as r w)).

Lemma excepted_wrong :
  forallb (λ r, implb (excepted r) (existsb (wrong_at r) (flip sample r <$> [0x01A73905; 0x03FFFFFF]))) manual = true.
Proof. by vm_compute. Qed.

Lemma right_manual : Forall (λ r, excepted r = false → right r) manual.
Proof.
  unfold manual. rewrite !Forall_app.
  repeat split; auto using right_alu, right_shift, right_control, right_memory, right_coprocessor, right_float.
  eapply Forall_impl; [exact right_compare |]. intros r Hr Hr'. congruence.
Qed.

(** C35. The disassembler reads a row of the manual as it says - the length, the
    mnemonic and the operands, for every word of the row - exactly for the rows
    that are not listed as exceptions. *)
Theorem read_manual r : r ∈ manual → right r ↔ excepted r = false.
Proof.
  intros Hr. split.
  - intros Hright. apply not_true_iff_false. intros He.
    pose proof excepted_wrong as Hall. rewrite List.forallb_forall in Hall.
    specialize (Hall r). rewrite He in Hall. cbn [implb] in Hall.
    apply list_elem_of_In in Hr. apply Hall, existsb_exists in Hr as (w & _ & Hw). unfold wrong_at in Hw.
    rewrite !andb_true_iff, Z.leb_le, Z.ltb_lt, negb_true_iff, bool_decide_eq_false in Hw.
    destruct Hw as [[Hw Hm] Hbad]. by apply Hbad, Hright.
  - by eapply (proj1 (Forall_forall _ _) right_manual).
Qed.
Lemma read_manual_witness :
  r3 "add" 32 ∈ manual ∧ (right (r3 "add" 32) ↔ excepted (r3 "add" 32) = false) ∧
  read 0x012A4020 = Some (4, "add", [VGpr 8; VGpr 9; VGpr 10]).
Proof.
  assert (Hin : r3 "add" 32 ∈ manual) by (apply list_elem_of_In; left; reflexivity).
  split; [exact Hin |]. split; [exact (read_manual _ Hin) |].
  apply (proj2 (read_manual _ Hin)); [reflexivity | lia | reflexivity].
Defined.
