(* ===== verification/MipsDisplaySpec.v ===== *)
(** * What the MIPS disassembler writes

    Whatever the word, a handler fills the operands from the first one, at most
    four of them, each with a register of the tables; the handler itself is in
    the vector, and the text fits in the buffers it is built in: it is the
    mnemonic and the operands, in the syntax of assembly. *)
From S2P Require Import Prelude.
From S2P Require Import LibasmVector.
From S2P Require Import Ia32.
From S2P Require Import Container.
From S2P Require Import Mips.
From S2P Require Import MipsCpu.
From S2P Require Import MipsCop.
From S2P Require Import MipsFetch.
From S2P Require Import MipsManual.
From S2P Require Import MipsSpec.
Close Scope ia32_scope.
Close Scope mips_scope.

(** ** Operands that can be shown *)

Definition op_ok (o : mips_operand) : Prop :=
  (0 ≤ mop_baser o < 32) ∧
  match mop_type o with
  | ASM_MIPS_OTYPE_REGISTER => True
  | ASM_MIPS_OTYPE_REGBASE => mop_regset o = 0
  | ASM_MIPS_OTYPE_IMMEDIATE => True
  | ASM_MIPS_OTYPE_JUMP => True
  | ASM_MIPS_OTYPE_BRANCH => True
  | _ => False
  end.
(** At most [n] operands, and then none. *)
Fixpoint ops_ok (n : nat) (ops : list mips_operand) : Prop :=
  match ops with
  | [] => True
  | o :: ops =>
      match mop_type o, n with
      | ASM_MIPS_OTYPE_NONE, _ | ASM_MIPS_OTYPE_NOOP, _ => ops = replicate (length ops) mips_operand0
      | _, O => False
      | _, S n => op_ok o ∧ ops_ok n ops
      end
  end.
Definition shows (s : mips_instr) : Prop :=
  ops_ok 4 (mins_op s) ∧ length (mins_op s) = 6%nat ∧ mins_instr s ≠ ASM_MIPS_BAD.

Lemma reg_nonneg lo w : 0 ≤ bits lo 5 w.
Proof. by apply bits_range. Qed.
Lemma reg_small lo w : bits lo 5 w < 32.
Proof. by apply (bits_range lo 5 w). Qed.

Ltac handler_shows :=
  intros w; lazy -[Z.land Z.shiftr Z.le Z.lt Z.eqb]; fields;
  repeat match goal with |- context [if (bits ?lo ?n ?w =? ?v) then _ else _] => destruct (bits lo n w =? v) end;
  lazy -[bits Z.shiftr Z.le Z.lt];
  repeat split; first [done | apply reg_nonneg | apply reg_small].

Lemma handlers_show :
  Forall (λ r, ∀ w, shows ((mips_start;; func_op r w)%mips mips_instr0).2) e_mips_instrs.
Proof.
  unfold e_mips_instrs. repeat (apply Forall_cons; split); [..| apply Forall_nil_2].
  all: handler_shows.
Qed.

(** * What the MIPS disassembler writes

    Whatever the word, the handler is in the vector, the registers of the
    operands are in their table and the text fits in the buffers it is built in:
    it is the mnemonic and the operands, in the syntax of assembly. *)

Close Scope ia32_scope.
Close Scope mips_scope.

(** ** The syntax *)

Definition register_text (f : e_mips_register → string) (r : Z) : string :=
  from_option f "" (e_mips_registers !! Z.to_nat r).

(** Displacements count words from the delay slot; targets are in the region of
    the instruction after it. *)
Definition value_text (addr : Z) (v : mval) : string :=
  match v with
  | VGpr r => register_text ext_mnemonic r
  | VFpr r => register_text fpu_mnemonic r
  | VCpr _ => ""
  | VBase r => "(" +:+ register_text ext_mnemonic r +:+ ")"
  | VImm v => pretty (i16 v)
  | VBranch d => XFMT (u32 (addr + (i16 d + 1) * 4))
  | VJump t => XFMT (u32 (u32 (t * 4) ||| (u32 (addr + 8) / 2 ^ 28 * 2 ^ 28)))
  end.
Fixpoint rest_text (addr : Z) (vs : list mval) : string :=
  match vs with
  | [] => ""
  | VBase r :: vs => value_text addr (VBase r) +:+ rest_text addr vs
  | v :: vs => "," +:+ value_text addr v +:+ rest_text addr vs
  end.
Definition instr_text (addr : Z) (name : string) (vs : list mval) : string :=
  match vs with
  | [] => name
  | v :: vs => name +:+ " " +:+ value_text addr v +:+ rest_text addr vs
  end.

(** ** The text *)

Lemma substring_all s n : (String.length s ≤ n)%nat → String.substring 0 n s = s.
Proof.
  revert n. induction s as [| c s IH]; intros [| n]; cbn; try done; [lia |].
  intros. f_equal. apply IH. lia.
Qed.
Lemma snprintf_all n s : (String.length s < n)%nat → mips_snprintf n s = s.
Proof. intros. apply substring_all. lia. Qed.

#[local] Instance string_app_nil_r : RightId (=) "" String.append.
Proof. intros s. induction s as [| c s IH]; [done |]. change (String c (String.append s "") = String c s). by rewrite IH. Qed.
#[local] Instance string_app_assoc : Assoc (=) String.append.
Proof.
  intros s t u. induction s as [| c s IH]; [done |].
  change (String c (String.append s (String.append t u)) = String c (String.append (String.append s t) u)).
  by rewrite IH.
Qed.
Lemma length_string_app s t : String.length (s +:+ t) = (String.length s + String.length t)%nat.
Proof. induction s as [| c s IH]; [done |]. change (S (String.length (s +:+ t)) = S (String.length s + String.length t)). by rewrite IH. Qed.

Lemma length_hex_string n v : String.length (hex_string n v) = n.
Proof. induction n as [| n IH]; [done |]. cbn. by rewrite IH. Qed.

(** The decimals of a number. *)
Lemma length_pretty_N_go k x t :
  (x < 10 ^ N.of_nat k)%N → (String.length (pretty_N_go x t) ≤ k + String.length t)%nat.
Proof.
  revert x t. induction k as [| k IH]; intros x t Hx.
  - assert (x = 0%N) as -> by (cbn in Hx; lia). by rewrite pretty_N_go_0.
  - destruct (decide (x = 0%N)) as [-> |]; [rewrite pretty_N_go_0; lia |].
    rewrite pretty_N_go_step by lia. etrans; [apply IH |].
    + apply N.Div0.div_lt_upper_bound. by rewrite Nat2N.inj_succ, N.pow_succ_r' in Hx.
    + cbn. lia.
Qed.
Lemma length_pretty_pos p : (Z.pos p < 100000) → (String.length (pretty (Npos p)) ≤ 5)%nat.
Proof. intros. change (pretty (Npos p)) with (pretty_N_go (Npos p) ""). apply (length_pretty_N_go 5). lia. Qed.
Lemma pretty_N_go_longer x t : (String.length t ≤ String.length (pretty_N_go x t))%nat.
Proof.
  revert t. induction (N.lt_wf_0 x) as [x _ IH]; intros t.
  destruct (decide (x = 0%N)) as [-> |]; [by rewrite pretty_N_go_0 |].
  rewrite pretty_N_go_step by lia. etrans; [| apply IH, N.div_lt; lia]. cbn. lia.
Qed.
Lemma pretty_not_empty v : pretty (v : Z) ≠ "".
Proof.
  destruct v as [| p | p]; [done | | done].
  change (pretty (Z.pos p)) with (pretty_N_go (Npos p) ""). rewrite pretty_N_go_step by lia.
  intros E. pose proof (pretty_N_go_longer (Npos p / 10) (String (pretty_N_char (Npos p mod 10)) "")) as Hl.
  rewrite E in Hl. cbn in Hl. lia.
Qed.
Lemma length_pretty_i16 v : (String.length (pretty (i16 v)) ≤ 6)%nat.
Proof.
  pose proof (wraps_range 16 v ltac:(done)) as Hr. change (wraps 16 v) with (i16 v) in Hr.
  change (- 2 ^ (16 - 1)) with (-32768) in Hr. change (2 ^ (16 - 1)) with 32768 in Hr.
  destruct (i16 v) as [| p | p]; [cbn; lia | |].
  - change (pretty (Z.pos p)) with (pretty (Npos p)). pose proof (length_pretty_pos p ltac:(lia)). lia.
  - change (pretty (Z.neg p)) with ("-" +:+ pretty (Npos p)). rewrite length_string_app.
    pose proof (length_pretty_pos p ltac:(lia)). cbn [String.length]. lia.
Qed.

Lemma register_lookup r : 0 ≤ r < 32 → is_Some (e_mips_registers !! Z.to_nat r).
Proof. intros. apply lookup_lt_is_Some_2. change (length e_mips_registers) with 32%nat. lia. Qed.
Lemma length_register_text f r :
  f = ext_mnemonic ∨ f = fpu_mnemonic → (String.length (register_text f r) ≤ 4)%nat.
Proof.
  intros Hf. unfold register_text. destruct (e_mips_registers !! _) as [x |] eqn:E; [| cbn; lia].
  apply list_elem_of_lookup_2, list_elem_of_In in E. cbn.
  assert (Hall : forallb (λ x, (String.length (ext_mnemonic x) <=? 4)%nat &&
    (String.length (fpu_mnemonic x) <=? 4)%nat) e_mips_registers = true) by done.
  rewrite List.forallb_forall in Hall. apply Hall, andb_true_iff in E as [?%Nat.leb_le ?%Nat.leb_le].
  by destruct Hf as [-> | ->].
Qed.
Lemma register_not_empty f r :
  f = ext_mnemonic ∨ f = fpu_mnemonic → 0 ≤ r < 32 → register_text f r ≠ "".
Proof.
  intros Hf Hr. unfold register_text. destruct (register_lookup _ Hr) as [x E]. rewrite E.
  apply list_elem_of_lookup_2, list_elem_of_In in E.
  assert (Hall : forallb (λ x, negb (String.eqb (ext_mnemonic x) "") &&
    negb (String.eqb (fpu_mnemonic x) "")) e_mips_registers = true) by done.
  rewrite List.forallb_forall in Hall. apply Hall in E.
  rewrite andb_true_iff, !negb_true_iff, !String.eqb_neq in E. cbn. by destruct Hf as [-> | ->], E.
Qed.
Lemma length_value_text addr v : (String.length (value_text addr v) ≤ 10)%nat.
Proof.
  assert (Hx : ∀ z, String.length (XFMT z) = 10%nat).
  { intros z. unfold XFMT, AFMT. by rewrite length_string_app, length_hex_string. }
  pose proof (λ r, length_register_text ext_mnemonic r (or_introl eq_refl)).
  pose proof (λ r, length_register_text fpu_mnemonic r (or_intror eq_refl)).
  destruct v; cbn [value_text]; rewrite ?length_string_app, ?Hx; cbn [String.length];
    repeat match goal with H : ∀ r : Z, _ |- context [register_text _ ?r] => specialize (H r) end; try lia.
  pose proof (length_pretty_i16 v). lia.
Qed.

(** *** One operand *)

(** A value, with its comma when it is not the first one or a base. *)
Definition piece (addr : Z) (i : nat) (v : mval) : string :=
  match v with VBase _ => value_text addr v | _ => comma i (value_text addr v) end.

Lemma length_piece addr i v : (String.length (piece addr i v) ≤ 11)%nat.
Proof.
  pose proof (length_value_text addr v). unfold piece, comma.
  destruct v, (i =? 0)%nat; rewrite ?length_string_app; cbn [String.length]; lia.
Qed.

Lemma reg_name_text op :
  0 ≤ mop_baser op < 32 →
  mips_reg_name op =
    Some (register_text (if negb (mop_regset op =? 0) then fpu_mnemonic else ext_mnemonic) (mop_baser op)).
Proof.
  intros Hr. unfold mips_reg_name, register_text. destruct (register_lookup _ Hr) as [x ->].
  cbn. by destruct (negb _).
Qed.

Lemma piece_fits addr i v : mips_snprintf 20 (piece addr i v) = piece addr i v.
Proof. pose proof (length_piece addr i v). apply snprintf_all. lia. Qed.

Lemma jump_target t x :
  u32 (u32 (t ≪ 2) ||| ((u32 x ≫ 28) &&& 15) ≪ 28) = u32 (u32 (t * 4) ||| (u32 x / 2 ^ 28 * 2 ^ 28)).
Proof.
  pose proof (wrapu_range 32 x ltac:(done)) as Hx. change (wrapu 32 x) with (u32 x) in Hx.
  rewrite !Z.shiftl_mul_pow2, Z.shiftr_div_pow2 by lia. change 15 with (Z.ones 4). rewrite Z.land_ones by lia.
  rewrite (Z.mod_small (u32 x / 2 ^ 28)); [done |].
  split; [apply Z.div_pos; lia | apply Z.div_lt_upper_bound; lia].
Qed.

(** An operand that is shown: what it means, and its text. *)
Lemma temp_ok ins addr i op :
  mins_op ins !! i = Some op → op_ok op →
  ∃ v, denote op = Some v ∧ mips_temp ins addr i = Some (piece addr i v) ∧ value_text addr v ≠ "".
Proof.
  intros Hi [Hr Ht]. unfold mips_temp, denote. rewrite Hi. cbn [mbind option_bind].
  destruct (mop_type op); try done.
  - rewrite reg_name_text by done. cbn [mbind option_bind]. destruct (mop_regset op =? 0); cbn [negb].
    + exists (VGpr (mop_baser op)). rewrite <-piece_fits. split_and!; try done. by apply register_not_empty; [auto |].
    + exists (VFpr (mop_baser op)). rewrite <-piece_fits. split_and!; try done. by apply register_not_empty; [auto |].
  - exists (VImm (mop_imm op)). rewrite <-piece_fits. split_and!; try done. apply pretty_not_empty.
  - exists (VJump (mop_imm op)). rewrite <-piece_fits. cbn [piece value_text]. by rewrite jump_target.
  - exists (VBranch (mop_imm op)). by rewrite <-piece_fits.
  - rewrite reg_name_text, Ht by done. exists (VBase (mop_baser op)). by rewrite <-piece_fits.
Qed.

(** *** The line *)

Definition text_from (addr : Z) (i : nat) (vs : list mval) : string :=
  match i, vs with
  | O, v :: vs => piece addr 0 v +:+ rest_text addr vs
  | _, _ => rest_text addr vs
  end.

Lemma temps_none ins addr i n :
  (∀ j, (i ≤ j < i + n)%nat → ∃ op, mins_op ins !! j = Some op ∧
     (mop_type op = ASM_MIPS_OTYPE_NONE ∨ mop_type op = ASM_MIPS_OTYPE_NOOP)) →
  mapM (mips_temp ins addr) (seq i n) = Some (replicate n "").
Proof.
  revert i. induction n as [| n IH]; intros i Hj; [done |].
  assert (mips_temp ins addr i = Some "") as Hi.
  { destruct (Hj i ltac:(lia)) as (op & Hop & Ht). unfold mips_temp. rewrite Hop. cbn [mbind option_bind]. by destruct Ht as [-> | ->]. }
  cbn [seq mapM replicate]. rewrite Hi, IH by (intros; apply Hj; lia). done.
Qed.

Lemma foldl_append_replicate n s : foldl String.append s (replicate n "") = s.
Proof.
  revert s. induction n as [| n IH]; intros s; [done |]. cbn [replicate foldl].
  rewrite IH. apply string_app_nil_r.
Qed.

Lemma text_from_cons addr i v vs : text_from addr i (v :: vs) = piece addr i v +:+ rest_text addr vs.
Proof. destruct i as [| i]; [done |]. destruct v; cbn [text_from rest_text piece comma Nat.eqb]; by rewrite ?string_app_assoc. Qed.
Lemma text_from_nil addr i : text_from addr i [] = "".
Proof. by destruct i. Qed.

Definition no_operand (op : mips_operand) : Prop :=
  mop_type op = ASM_MIPS_OTYPE_NONE ∨ mop_type op = ASM_MIPS_OTYPE_NOOP.
Lemma ops_ok_cons n o ops :
  ops_ok n (o :: ops) →
  (no_operand o ∧ ops = replicate (length ops) mips_operand0) ∨ (∃ m, n = S m ∧ op_ok o ∧ ops_ok m ops).
Proof.
  unfold no_operand. intros Ho. destruct (mop_type o) eqn:Ht, n as [| n]; cbn [ops_ok] in Ho; rewrite Ht in Ho;
    first [by destruct Ho | left; split; [by auto | exact Ho] | right; eexists; split; [reflexivity | exact Ho]].
Qed.
Lemma no_operands o ops :
  no_operand o → ops = replicate (length ops) mips_operand0 →
  Forall no_operand (o :: ops) ∧ omap denote (o :: ops) = [].
Proof.
  intros Ho ->. split.
  - constructor; [done |]. apply Forall_replicate. by left.
  - cbn. unfold denote at 1. destruct Ho as [-> | ->]; by induction (length ops).
Qed.

(** The operands from the [i]-th one. *)
Lemma temps_ok ins addr n i ops :
  ops_ok n ops → (∀ j, ops !! j = mins_op ins !! (i + j)%nat) → (n ≤ length ops)%nat →
  ∃ ts, mapM (mips_temp ins addr) (seq i n) = Some ts ∧
    (∀ s, foldl String.append s ts = s +:+ text_from addr i (omap denote ops)) ∧
    (String.length (text_from addr i (omap denote ops)) ≤ 11 * n)%nat ∧
    (∀ v vs, omap denote ops = v :: vs → value_text addr v ≠ "").
Proof.
  revert i ops. induction n as [| n IH]; intros i [| o ops] Hok Hops Hlen; try (cbn in Hlen; lia).
  1: { exists []. cbn. rewrite text_from_nil. split_and!; try done. intros. by rewrite string_app_nil_r. }
  all: apply ops_ok_cons in Hok as [[Ho Hrest] | (m & [= <-] & Ho & Hok)].
  1, 2: destruct (no_operands _ _ Ho Hrest) as [Hall ->]; rewrite text_from_nil.
  1, 2: eexists (replicate _ ""); split; [apply temps_none |].
  - intros j ?. lia.
  - split_and!; [| cbn; lia | done]. intros s. by rewrite foldl_append_replicate, string_app_nil_r.
  - intros j Hj. rewrite Forall_lookup in Hall.
    destruct (lookup_lt_is_Some_2 (o :: ops) (j - i)) as [op Hop]; [lia |].
    exists op. rewrite Hops in Hop. replace (i + (j - i))%nat with j in Hop by lia. split; [done |].
    apply (Hall (j - i)%nat). rewrite Hops. by replace (i + (j - i))%nat with j by lia.
  - split_and!; [| cbn; lia | done]. intros s. by rewrite foldl_append_replicate, string_app_nil_r.
  - destruct (temp_ok ins addr i o) as (v & Hv & Ht & Hne); [by rewrite <-(Nat.add_0_r i), <-Hops | done |].
    destruct (IH (S i) ops) as (ts & Hts & Htext & Hl & _); [done | | cbn in Hlen; lia |].
    { intros j. rewrite Nat.add_succ_comm, <-Hops. done. }
    exists (piece addr i v :: ts). cbn [seq mapM]. rewrite Ht, Hts. split; [done |].
    replace (omap denote (o :: ops)) with (v :: omap denote ops) by (cbn; by rewrite Hv).
    rewrite text_from_cons. cbn [foldl text_from] in *. split_and!.
    + intros s. rewrite Htext. by rewrite <-string_app_assoc.
    + rewrite length_string_app. pose proof (length_piece addr i v). lia.
    + by intros ? ? [= <- _].
Qed.

Lemma display_shows ins addr row :
  shows ins → e_mips_instrs !! Z.to_nat (mips_code (mins_instr ins)) = Some row →
  (String.length (mnemonic row) ≤ 12)%nat →
  asm_mips_display_instr ins addr = Some (instr_text addr (mnemonic row) (omap denote (mins_op ins))).
Proof.
  intros (Hok & Hlen & _) Hrow Hname.
  destruct (temps_ok ins addr 4 0 (mins_op ins) Hok) as (ts & Hts & Htext & Hl & Hne); [done | lia |].
  specialize (Htext ""). change ("" +:+ ?t) with t in Htext.
  unfold asm_mips_display_instr, asm_mips_display_operand. rewrite Hts. cbn [mbind option_bind].
  rewrite Htext, bool_decide_eq_false_2 by lia. rewrite Hrow.
  destruct (omap denote (mins_op ins)) as [| v vs].
  - rewrite text_from_nil. cbn [mbind option_bind instr_text String.eqb]. f_equal. apply snprintf_all. lia.
  - specialize (Hne v vs eq_refl). rewrite text_from_cons in Hl |- *.
    assert (piece addr 0 v = value_text addr v) as Ep by (by destruct v). rewrite Ep in *.
    destruct (String.eqb_spec (value_text addr v +:+ rest_text addr vs) "") as [E |].
    { apply (f_equal String.length) in E. rewrite length_string_app in E.
      destruct (value_text addr v); [done | cbn in E; lia]. }
    cbn [mbind option_bind instr_text]. f_equal. apply snprintf_all.
    rewrite !length_string_app in *. cbn [String.length]. lia.
Qed.

(** *** Every word *)

Lemma code_named i : i ≠ ASM_MIPS_BAD → is_Some (e_mips_instrs !! Z.to_nat (mips_code i)).
Proof. intros Hi. apply lookup_lt_is_Some_2. destruct i; try done; apply Nat.ltb_lt; by vm_compute. Qed.
Lemma length_mnemonics : forallb (λ r, (String.length (mnemonic r) <=? 12)%nat) e_mips_instrs = true.
Proof. by vm_compute. Qed.

Definition in_dims (dim : Z * Z * Z) : Prop :=
  let '(d0, d1, d2) := dim in let '(n0, n1, n2) := mips_dims in
  (0 ≤ d0 < n0) ∧ (0 ≤ d1 < n1) ∧ (0 ≤ d2 < n2).


(** A 5-bit or 6-bit field fits. *)
Lemma mips_dim_in w : 0 ≤ w < 2 ^ 32 → in_dims (mips_dim w).
Proof.
  intros Hw. rewrite mips_dim_bits by done. unfold dim_of, in_dims, mips_dims.
  assert (Hf : ∀ lo n, 0 ≤ n ≤ 6 → 0 ≤ bits lo n w < 64).
  { intros lo n Hn. pose proof (bits_range lo n w ltac:(lia)). pose proof (Z.pow_le_mono_r 2 n 6). lia. }
  pose proof (bits_range 6 5 w ltac:(done)). pose proof (Z.mod_pos_bound (bits 0 6 w) 16).
  pose proof (Hf 26 6). pose proof (Hf 0 6). pose proof (Hf 21 5). pose proof (Hf 6 5). pose proof (Hf 16 5).
  pose proof (Hf 16 1). pose proof (Hf 16 2). pose proof (Hf 6 2).
  assert (0 ≤ bits 21 5 w / 16 < 64) by (split; [apply Z.div_pos | apply Z.div_lt_upper_bound]; lia).
  change (2 ^ 5) with 32 in *. repeat case_match; simplify_eq; lia.
Qed.

Lemma mips_reads w :
  0 ≤ w < 2 ^ 32 →
  ∃ r ins, mips_read_instr (word_bytes w) = Some (r, ins) ∧ shows ins.
Proof.
  intros Hw. unfold mips_read_instr, asm_fetch_mips. rewrite word_converted by done. cbn [mbind option_bind].
  unfold mips_opcode_vector.
  apply (registered_elim (λ h, ∃ r ins, Some ((mips_start;; h w)%mips mips_instr0) = Some (r, ins) ∧ shows ins)).
  - do 2 eexists. split; [reflexivity |]. by repeat split.
  - unfold asm_register_mips_opcodes. apply Forall_fmap. eapply Forall_impl; [exact handlers_show |].
    intros row Hrow. cbn. specialize (Hrow w).
    exists ((mips_start;; func_op row w)%mips mips_instr0).1, ((mips_start;; func_op row w)%mips mips_instr0).2.
    by rewrite <-surjective_pairing.
Qed.

(** C36. Whatever the word and its address, the index of the handler is in the
    vector, the registers of the operands are in their table, no buffer
    overflows and nothing is cut: the line is the mnemonic and the operands the
    instruction was read with, in the syntax of assembly. *)
Theorem display_every_word w addr :
  0 ≤ w < 2 ^ 32 →
  in_dims (mips_dim w) ∧
  ∃ r ins name vs,
    mips_read_instr (word_bytes w) = Some (r, ins) ∧ shown (r, ins) = Some (r, name, vs) ∧
    asm_mips_display_instr ins addr = Some (instr_text addr name vs) ∧
    (String.length (instr_text addr name vs) < 120)%nat.
Proof.
  intros Hw. split; [by apply mips_dim_in |]. destruct (mips_reads w Hw) as (r & ins & Hread & Hshows).
  destruct (code_named (mins_instr ins)) as [row Hrow]; [apply Hshows |].
  assert (Hname : (String.length (mnemonic row) ≤ 12)%nat).
  { pose proof length_mnemonics as Hall. rewrite List.forallb_forall in Hall.
    apply Nat.leb_le, Hall, list_elem_of_In. by eapply list_elem_of_lookup_2. }
  exists r, ins, (mnemonic row), (omap denote (mins_op ins)). split_and!; [done | | by apply display_shows |].
  - unfold shown. cbn [fst snd]. by rewrite Hrow.
  - pose proof Hshows as (Hok & Hlen & _).
    destruct (temps_ok ins addr 4 0 (mins_op ins) Hok) as (ts & _ & _ & Hl & _); [done | lia |].
    destruct (omap denote (mins_op ins)) as [| v vs]; cbn [instr_text]; [lia |].
    rewrite text_from_cons in Hl. assert (Ep : piece addr 0 v = value_text addr v) by (by destruct v).
    rewrite Ep in Hl. rewrite !length_string_app in *. cbn [String.length]. lia.
Qed.
Lemma display_every_word_witness :
  in_dims (mips_dim 0x8FA80010) ∧
  ∃ r ins name vs,
    mips_read_instr (word_bytes 0x8FA80010) = Some (r, ins) ∧ shown (r, ins) = Some (r, name, vs) ∧
    asm_mips_display_instr ins 0 = Some (instr_text 0 name vs) ∧
    (String.length (instr_text 0 name vs) < 120)%nat.
Proof. apply (display_every_word 0x8FA80010 0). lia. Defined.
Example display_lw :
  (i ← mips_read_instr (word_bytes 0x8FA80010); asm_mips_display_instr i.2 0) = Some "lw t0,16(sp)".
Proof. by vm_compute. Qed.
