(* ===== verification/Scan.v ===== *)
(** * The scanner of the ERESI shell (src/librevm/lang/scanner.c,
    src/librevm/api/filter.c)

    A line is cut in place: the memory is one buffer of bytes that includes the
    NUL of the line, a [char *] into it is an offset, and [None] is an access
    outside the buffer (or a loop that does not end).  The first part holds the
    functions of the C library the scanner calls, then the scanner; the
    theorems state that a printed line is cut back into its words and that
    escaped bytes are decoded. *)
From S2P Require Import Prelude.

(** ** The C library on buffers *)

Abbreviation buffer := (list Z).

(** [strchr]: the offset of the first [c] before the NUL, or NULL. *)
Fixpoint strchr_at (c : Z) (i : nat) (s : list Z) : option (option nat) :=
  match s with
  | [] => None
  | x :: s => if x =? c then Some (Some i) else if x =? 0 then Some None
              else strchr_at c (S i) s
  end.
Definition strchr (b : buffer) (p : nat) (c : Z) : option (option nat) :=
  strchr_at c p (drop p b).

(** [strstr] of a needle of two bytes or more. *)
Fixpoint prefix_at (w s : list Z) : option bool :=
  match w, s with
  | [], _ => Some true
  | _, [] => None
  | c :: w, x :: s => if x =? c then prefix_at w s else Some false
  end.
Fixpoint strstr_at (w : list Z) (i : nat) (s : list Z) : option (option nat) :=
  match s with
  | [] => None
  | x :: s' => if x =? 0 then Some None else
               found ← prefix_at w s;
               if found : bool then Some (Some i) else strstr_at w (S i) s'
  end.
Definition strstr (b : buffer) (p : nat) (w : list Z) : option (option nat) :=
  strstr_at w p (drop p b).

Definition strlen (b : buffer) (p : nat) : option nat := length <$> cstr (drop p b).

(** [memmove(b + dst, b + src, n)]. *)
Definition memmove (b : buffer) (dst src n : nat) : option buffer :=
  guard_ub (bool_decide (dst + n ≤ length b)%nat);;
  guard_ub (bool_decide (src + n ≤ length b)%nat);;
  Some (take dst b ++ take n (drop src b) ++ drop (dst + n) b).

(** [strcpy(b + dst, b + src)] with [dst] before [src]: undefined when the bytes read and the
    bytes written overlap. *)
Definition strcpy (b : buffer) (dst src : nat) : option buffer :=
  s ← cstr (drop src b);
  guard_ub (bool_decide (dst + length s < src)%nat);;
  Some (take dst b ++ s ++ 0 :: drop (dst + length s + 1) b).

Definition digit_of (c : Z) : option Z :=
  if (48 <=? c) && (c <=? 57) then Some (c - 48)
  else if (65 <=? c) && (c <=? 70) then Some (c - 55)
  else if (97 <=? c) && (c <=? 102) then Some (c - 87)
  else None.
(** The digits of [%X]; a value that an [u_int] does not hold is undefined. *)
Fixpoint scan_digits (acc : Z) (s : list Z) : option Z :=
  match s with
  | c :: s => match digit_of c with
              | Some d => guard_ub (16 * acc + d <? 2 ^ 32);; scan_digits (16 * acc + d) s
              | None => Some acc
              end
  | [] => Some acc
  end.
Definition isspace (c : Z) : bool := (c =? 32) || ((9 <=? c) && (c <=? 13)).
Fixpoint skip_space (s : list Z) : list Z :=
  match s with c :: s' => if isspace c then skip_space s' else s | [] => [] end.
Definition scan_sign (s : list Z) : bool * list Z :=
  match s with
  | c :: s' => if c =? 45 then (true, s') else if c =? 43 then (false, s') else (false, s)
  | [] => (false, [])
  end.
Definition scan_0x (s : list Z) : list Z :=
  match s with
  | c :: x :: s' => if (c =? 48) && ((x =? 120) || (x =? 88)) then s' else s
  | _ => s
  end.
(** [sscanf(s, "%X", &nbr)]: [None] when no digit is found and [nbr] is left as
    it was (not initialised in the callers). *)
Definition sscanf_X (s : list Z) : option Z :=
  let '(neg, s) := scan_sign (skip_space s) in
  let s := scan_0x s in
  c ← s !! 0%nat;
  _ ← digit_of c;
  v ← scan_digits 0 s;
  Some (if neg then u32 (- v) else v).

(** ** src/librevm/include/revm-macros.h *)

Definition IS_BLANK (c : Z) : bool := (c =? 32) || (c =? 9).

(** [while (IS_BLANK( *sav)) sav++;] *)
Fixpoint skip_blanks_at (i : nat) (s : list Z) : option nat :=
  match s with
  | [] => None
  | x :: s => if IS_BLANK x then skip_blanks_at (S i) s else Some i
  end.
Definition skip_blanks (b : buffer) (p : nat) : option nat := skip_blanks_at p (drop p b).

(** The end of a word: the first space of the rest of the line, else the first
    tabulation. *)
Definition next_blank (b : buffer) (p : nat) : option (option nat) :=
  ptr ← strchr b p 32;
  match ptr with
  | Some ptr => Some (Some ptr)
  | None => strchr b p 9
  end.

(** ** Words of a line *)

(** The [do ... while (ptr && sav < buf + len)] of revm_findblanks. *)
Fixpoint blanks_loop (fuel : nat) (b : buffer) (len nbr sav : nat) : option nat :=
  match fuel with
  | O => None
  | S fuel =>
      sav ← skip_blanks b sav;
      c ← b !! sav;
      if c =? 0 then Some nbr else
      ptr ← next_blank b sav;
      match ptr with
      | None => Some nbr
      | Some ptr =>
          ptr ← skip_blanks b ptr;
          c ← b !! ptr;
          if c =? 0 then Some nbr else
          let nbr := S nbr in
          let sav := ptr in
          if bool_decide (sav < len)%nat then blanks_loop fuel b len nbr sav else Some nbr
      end
  end.
Definition revm_findblanks (b : buffer) : option nat :=
  len ← strlen b 0;
  blanks_loop (S (length b)) b len 1 0.

(** The loop of revm_doargv over [index = 1 .. nbr]. *)
Fixpoint doargv_loop (n : nat) (b : buffer) (sav : nat) : option (list nat * buffer) :=
  match n with
  | O => Some ([], b)
  | S n =>
      sav ← skip_blanks b sav;
      let arg := sav in
      ptr ← next_blank b sav;
      r ← match ptr with
          | Some ptr => b ← store b ptr 0; doargv_loop n b (ptr + 1)
          | None => doargv_loop n b sav
          end;
      let '(args, b) := r in
      Some (arg :: args, b)
  end.
(** The array of [nbr + 2] pointers, [argc], and the line cut in place. *)
Definition revm_doargv (nbr : nat) (b : buffer) : option (list (option nat) * nat * buffer) :=
  r ← doargv_loop nbr b 0;
  let '(args, b) := r in
  Some (None :: (Some <$> args) ++ [None], nbr + 1, b)%nat.

(** ** Escapes *)

Definition backslash_x : list Z := [92; 120].

(** revm_filter_param (filter.c). *)
Definition revm_filter_param (b : buffer) (buf ptr : nat) : option (buffer * nat) :=
  c ← b !! (ptr + 2)%nat;
  if c =? 0 then Some (b, buf) else
  d ← b !! (ptr + 3)%nat;
  if (c =? 48) && negb (((65 <=? d) && (d <=? 70)) || ((49 <=? d) && (d <=? 57))) then
    let off := if d =? 0 then 3%nat else 4%nat in
    Some (b, ptr + off)%nat
  else
    nbr ← sscanf_X (drop (ptr + 2) b);
    b ← store b ptr (u8 nbr);
    let buf := (ptr + 4)%nat in
    b ← strcpy b (ptr + 1) buf;
    Some (b, ptr + 1)%nat.

(** The loop of revm_findhex on one entry. *)
Fixpoint findhex_loop (fuel : nat) (b : buffer) (buf : nat) : option buffer :=
  match fuel with
  | O => None
  | S fuel =>
      ptr ← strstr b buf backslash_x;
      match ptr with
      | None => Some b
      | Some ptr =>
          r ← revm_filter_param b buf ptr;
          let '(b, buf) := r in
          findhex_loop fuel b buf
      end
  end.
Fixpoint revm_findhex (argv : list (option nat)) (b : buffer) : option buffer :=
  match argv with
  | [] => Some b
  | None :: argv => revm_findhex argv b
  | Some buf :: argv =>
      b ← findhex_loop (S (length b)) b buf;
      revm_findhex argv b
  end.

(** The end of revm_input, once the line is read: the arguments, [argc] and
    the buffer they point into. *)
Definition revm_input (buf : buffer) : option (list (option nat) * nat * buffer) :=
  nbr ← revm_findblanks buf;
  r ← revm_doargv nbr buf;
  let '(argv, argc, b) := r in
  b ← revm_findhex (take argc argv) b;
  Some (argv, argc, b).

(** revm_filter_zero (filter.c): [size] is the length the function believes
    the rest of the string has; a count below 0 wraps to one no buffer holds. *)
Definition zero4 : list Z := [92; 120; 48; 48].
Definition zero3 : list Z := [92; 120; 48].
Fixpoint filter_zero_loop (fuel : nat) (b : buffer) (buf size : nat) : option buffer :=
  match fuel with
  | O => None
  | S fuel =>
      ptr ← strstr b buf zero4;
      match ptr with
      | Some ptr =>
          b ← store b ptr 0%Z;
          guard_ub (bool_decide (ptr + 4 ≤ buf + size));;
          b ← memmove b (ptr + 1) (ptr + 4) (buf + size - (ptr + 4));
          filter_zero_loop fuel b (ptr + 1) (size - 3)
      | None =>
          ptr ← strstr b buf zero3;
          match ptr with
          | None => Some b
          | Some ptr =>
              b ← store b ptr 0%Z;
              guard_ub (bool_decide (ptr + 3 ≤ buf + size));;
              b ← memmove b (ptr + 1) (ptr + 3) (buf + size - (ptr + 3));
              filter_zero_loop fuel b (ptr + 1) (size - 2)
          end
      end
  end%nat.
Definition revm_filter_zero (b : buffer) (buf : nat) : option buffer :=
  size ← strlen b buf;
  filter_zero_loop (S (length b)) b buf size.

(** ** Escaped blanks *)

Definition speblank : list Z := [92; 32].

(** revm_replace_speblanks on one entry; [len] is not updated by the loop. *)
Fixpoint speblanks_loop (fuel : nat) (b : buffer) (buf len ptr : nat) : option buffer :=
  match fuel with
  | O => None
  | S fuel =>
      ptr ← strstr b ptr speblank;
      match ptr with
      | None => Some b
      | Some ptr =>
          b ← store b ptr 32%Z;
          b ← memmove b (ptr + 1) (ptr + 2) (len - (ptr - buf + 2));
          speblanks_loop fuel b buf len (ptr + 1)
      end
  end%nat.
Definition replace_speblank (b : buffer) : option buffer :=
  len ← strlen b 0;
  speblanks_loop (S (length b)) b 0 len 0.
(** The entries are allocated apart ([strdup]): one buffer each. *)
Definition revm_replace_speblanks (argv : list buffer) : option (list buffer) :=
  mapM replace_speblank argv.

(** The end trimmed by revm_trans_speblank; the string starts with a character
    that is not a space, which ends the loop. *)
Fixpoint trim_end (fuel : nat) (str : list Z) : option (list Z) :=
  match fuel with
  | O => None
  | S fuel =>
      last ← str !! (length str - 1)%nat;
      if last =? 32 then
        before ← str !! (length str - 2)%nat;
        if before =? 92 then Some str else trim_end fuel (take (length str - 1) str)
      else Some str
  end.
(** The spaces turned into NULs, with the number of words; [prev] is the byte
    before. *)
Fixpoint cut_spaces (i : nat) (prev : Z) (str : list Z) : list Z * nat :=
  match str with
  | [] => ([], 0%nat)
  | c :: str =>
      if (c =? 32) && bool_decide (0 < i)%nat && negb (prev =? 92) then
        let '(str, n) := cut_spaces (S i) 0 str in (0 :: str, S n)
      else
        let '(str, n) := cut_spaces (S i) c str in (c :: str, n)
  end.
Fixpoint dup_words (n : nat) (b : buffer) (ptr : nat) : option (list buffer) :=
  match n with
  | O => Some []
  | S n =>
      w ← cstr (drop ptr b);
      ws ← dup_words n b (ptr + length w + 1);
      Some ((w ++ [0]) :: ws)
  end.
Fixpoint trim_start (str : list Z) : list Z :=
  match str with c :: s => if c =? 32 then trim_start s else str | [] => [] end.
(** [Some None] is the error. *)
Definition revm_trans_speblank (input : list Z) : option (option (list buffer)) :=
  let str := trim_start (take (Z.to_nat 8190) input) in
  if bool_decide (str = []) then Some None else
  str ← trim_end (length str) str;
  let '(str, n) := cut_spaces 0 0 str in
  words ← dup_words (S n) (str ++ [0]) 0;
  argv ← revm_replace_speblanks words;
  Some (Some argv).

(** ** Lines of words *)

(** A word as it is typed: plain characters and escaped bytes. *)
Inductive item := Plain (c : Z) | Escaped (v : Z).
Definition hex_upper (d : Z) : Z := if d <? 10 then 48 + d else 55 + d.
Definition typed (it : item) : list Z :=
  match it with
  | Plain c => [c]
  | Escaped v => [92; 120; hex_upper (v / 16); hex_upper (v mod 16)]
  end.
Definition meant (it : item) : Z := match it with Plain c => c | Escaped v => v end.

(** The character that starts the rest of a word. *)
Definition next_plain (its : list item) : option Z :=
  match its with Plain c :: _ => Some c | _ => None end.
(** The characters of a word. *)
Definition spelled (its : list item) : list Z := concat (typed <$> its).

(** A word that can be typed: no blank, no NUL, no plain "\x"; an escape is not followed by a
    plain hexadecimal digit, and by two characters at most. *)
Fixpoint typable (its : list item) : Prop :=
  match its with
  | [] => True
  | Plain c :: its =>
      0 < c < 256 ∧ IS_BLANK c = false ∧ (c = 92 → next_plain its ≠ Some 120) ∧ typable its
  | Escaped v :: its =>
      0 < v < 256 ∧ ((∀ c, next_plain its = Some c → digit_of c = None) ∧ (length (spelled its) ≤ 2)%nat) ∧
      typable its
  end.

(** The bytes it means. *)
Definition value (its : list item) : list Z := meant <$> its.

Definition blanks (s : list Z) : Prop := Forall (λ c, IS_BLANK c = true) s.
(** The words of a line, each with the blanks after it; only the last word can
    have none. *)
Fixpoint spaced {A} (ws : list (list A * list Z)) : Prop :=
  match ws with
  | [] => True
  | (w, sep) :: ws => w ≠ [] ∧ blanks sep ∧ (ws ≠ [] → sep ≠ []) ∧ spaced ws
  end.
Definition line (ws : list (list Z * list Z)) : list Z := concat ((λ '(w, sep), w ++ sep) <$> ws).
(** No space follows a tabulation. *)
Definition tabs_last (s : list Z) : Prop := ∀ l1 l2, s = l1 ++ 9 :: l2 → 32 ∉ l2.
Definition word_ok (w : list Z) : Prop := Forall (λ c, 0 < c < 256 ∧ IS_BLANK c = false) w.

(** The words [ws] at the offsets [ps] of a buffer whose rest, from the offset
    [p], is given. *)
Inductive laid : nat → list nat → list (list Z) → list Z → Prop :=
  | laid_nil p s : laid p [] [] s
  | laid_cons p gap w s ps ws :
      laid (p + length gap + length w + 1) ps ws s →
      laid p (p + length gap :: ps)%nat (w :: ws) (gap ++ w ++ 0 :: s).

(** ** The functions of the library *)

(** Both sides of an equation of lists, flattened. *)
Ltac flat := repeat (progress (rewrite <-?app_assoc; cbn [app])); reflexivity.

Lemma strchr_at_found c w i s :
  Forall (λ x, x ≠ c ∧ x ≠ 0) w → strchr_at c i (w ++ c :: s) = Some (Some (i + length w)%nat).
Proof.
  intros Hw. revert i. induction Hw as [| x w [Hx H0] _ IH]; intros i; cbn.
  - by rewrite Z.eqb_refl, Nat.add_0_r.
  - rewrite (proj2 (Z.eqb_neq x c)), (proj2 (Z.eqb_neq x 0)), IH by done. do 2 f_equal. lia.
Qed.
Lemma strchr_at_none c w i s :
  c ≠ 0 → Forall (λ x, x ≠ c ∧ x ≠ 0) w → strchr_at c i (w ++ 0 :: s) = Some None.
Proof.
  intros Hc Hw. revert i.
  induction Hw as [| x w [Hx H0] _ IH]; intros i; cbn [app strchr_at].
  - by rewrite (proj2 (Z.eqb_neq 0 c)).
  - by rewrite (proj2 (Z.eqb_neq x c)), (proj2 (Z.eqb_neq x 0)), IH.
Qed.
Lemma skip_blanks_app pre sep c s :
  blanks sep → IS_BLANK c = false →
  skip_blanks (pre ++ sep ++ c :: s) (length pre) = Some (length pre + length sep)%nat.
Proof.
  intros Hsep Hc. unfold skip_blanks. rewrite drop_app_length. generalize (length pre).
  induction Hsep as [| x sep Hx _ IH]; intros i; cbn.
  - by rewrite Hc, Nat.add_0_r.
  - rewrite Hx, IH. f_equal. lia.
Qed.
Lemma lookup_mid {A} (pre s : list A) x i : i = length pre → (pre ++ x :: s) !! i = Some x.
Proof. intros ->. by apply list_lookup_middle. Qed.
Lemma lookup_gap {A} (pre gap s : list A) c :
  (pre ++ gap ++ c :: s) !! (length pre + length gap)%nat = Some c.
Proof. rewrite app_assoc. apply lookup_mid. by rewrite length_app. Qed.
Lemma lookup_head {A} (pre sep l s rest : list A) c :
  l = c :: s → (pre ++ sep ++ l ++ rest) !! (length pre + length sep)%nat = Some c.
Proof. intros ->. apply lookup_gap. Qed.
Lemma store_mid pre (s : list Z) x y i :
  i = length pre → store (pre ++ x :: s) i y = Some (pre ++ y :: s).
Proof.
  intros ->. rewrite store_Some by (rewrite length_app; cbn; lia).
  by rewrite insert_app_r_alt, Nat.sub_diag by lia.
Qed.

(** ** Cutting the words *)

Lemma laid_length p ps ws s : laid p ps ws s → length ps = length ws.
Proof. induction 1; cbn; congruence. Qed.

Lemma word_no_blank w c : word_ok w → IS_BLANK c = true → Forall (λ x, x ≠ c ∧ x ≠ 0) w.
Proof.
  intros Hw Hc. eapply Forall_impl; [exact Hw |]. cbn. intros x [? Hx].
  split; [intros -> | lia]. congruence.
Qed.
Lemma blank_cases c : IS_BLANK c = true → c = 32 ∨ c = 9.
Proof. unfold IS_BLANK. lia. Qed.
Lemma tabs_last_app s1 s2 : tabs_last (s1 ++ s2) → tabs_last s2.
Proof. intros H l1 l2 ->. apply (H (s1 ++ l1)). by rewrite <-app_assoc. Qed.
Lemma tabs_last_after s c l : tabs_last (s ++ c :: l) → c = 9 → 32 ∉ l.
Proof. intros H ->. by apply (H s). Qed.
Lemma nonzero_line (s : list Z) : Forall (λ c, 0 < c) s → 32 ∉ s → Forall (λ x, x ≠ 32 ∧ x ≠ 0) s.
Proof.
  intros Hs Hn. apply Forall_forall. intros x Hx.
  rewrite Forall_forall in Hs. specialize (Hs x Hx). split; [by intros -> | lia].
Qed.

(** The end of a word that blanks follow. *)
Lemma next_blank_some pre w c s rest :
  word_ok w → IS_BLANK c = true → Forall (λ x, 0 < x) s → tabs_last (c :: s) →
  next_blank (pre ++ w ++ c :: s ++ 0 :: rest) (length pre) = Some (Some (length pre + length w)%nat).
Proof.
  intros Hw Hc Hs Ht. unfold next_blank, strchr. rewrite drop_app_length.
  destruct (blank_cases _ Hc) as [-> | ->].
  - by rewrite strchr_at_found by by apply word_no_blank.
  - replace (w ++ 9 :: s ++ 0 :: rest) with ((w ++ 9 :: s) ++ 0 :: rest) at 1
      by by rewrite <-app_assoc.
    rewrite strchr_at_none; [| done |].
    + mstep. by rewrite strchr_at_found by by apply word_no_blank.
    + apply Forall_app. split; [by apply word_no_blank |].
      apply Forall_cons. split; [done |]. apply nonzero_line; [done |].
      by apply (tabs_last_after [] 9).
Qed.
(** The end of the last word of a line. *)
Lemma next_blank_none pre w rest :
  word_ok w → next_blank (pre ++ w ++ 0 :: rest) (length pre) = Some None.
Proof.
  intros Hw. unfold next_blank, strchr. rewrite drop_app_length.
  rewrite strchr_at_none by (try done; by apply word_no_blank).
  mstep. by rewrite strchr_at_none by (try done; by apply word_no_blank).
Qed.

Lemma line_cons w sep ws : line ((w, sep) :: ws) = w ++ sep ++ line ws.
Proof. unfold line. cbn. by rewrite <-app_assoc. Qed.

(** What the scanner needs of the words of a line. *)
Definition words_ok (ws : list (list Z * list Z)) : Prop :=
  spaced ws ∧ Forall (λ '(w, sep), word_ok w) ws.
Lemma words_ok_cons w sep ws :
  words_ok ((w, sep) :: ws) →
  w ≠ [] ∧ word_ok w ∧ blanks sep ∧ (ws ≠ [] → sep ≠ []) ∧ words_ok ws.
Proof.
  intros [(Hne & Hb & Hs & Hr) Hok]. apply Forall_cons in Hok as [? ?]. split_and!; try done.
Qed.
Lemma blanks_bytes sep : blanks sep → Forall (λ x, 0 < x < 256) sep.
Proof.
  intros H. eapply Forall_impl; [exact H |]. cbn. intros x Hx.
  destruct (blank_cases _ Hx); lia.
Qed.
Lemma line_bytes ws : words_ok ws → Forall (λ x, 0 < x < 256) (line ws).
Proof.
  induction ws as [| [w sep] ws IH]; [done |]. intros (_ & Hw & Hb & _ & Hr)%words_ok_cons.
  rewrite line_cons, !Forall_app. split_and!; [| by apply blanks_bytes | by apply IH].
  eapply Forall_impl; [exact Hw |]. cbn. lia.
Qed.
Lemma bytes_pos s : Forall (λ x, 0 < x < 256) s → Forall (λ x, 0 < x) s.
Proof. intros H. eapply Forall_impl; [exact H |]. cbn. lia. Qed.
(** A line that is not empty starts with a character that is no blank. *)
Lemma line_head ws : words_ok ws → ws ≠ [] → ∃ c s, line ws = c :: s ∧ IS_BLANK c = false ∧ 0 < c.
Proof.
  destruct ws as [| [w sep] ws]; [done |]. intros (Hne & Hw & _)%words_ok_cons _.
  rewrite line_cons. destruct w as [| c w]; [done |].
  apply Forall_cons in Hw as [[? ?] _]. exists c, (w ++ sep ++ line ws). split_and!; [done.. | lia].
Qed.
Lemma skip_to_line pre sep ws rest :
  blanks sep → words_ok ws → ws ≠ [] →
  skip_blanks (pre ++ sep ++ line ws ++ 0 :: rest) (length pre) = Some (length pre + length sep)%nat.
Proof.
  intros Hsep Hok Hne. destruct (line_head ws Hok Hne) as (c & s & -> & Hc & _).
  by apply skip_blanks_app.
Qed.

Lemma tabs_last_sep sep s : tabs_last (sep ++ s) → ∀ c sep', sep = c :: sep' → tabs_last (c :: sep' ++ s).
Proof. by intros H c sep' ->. Qed.

Lemma blanks_loop_words ws : ∀ fuel b pre lead rest nbr len p,
  b = pre ++ lead ++ line ws ++ 0 :: rest → p = length pre →
  blanks lead → words_ok ws → ws ≠ [] → tabs_last (line ws) → (length ws ≤ fuel)%nat →
  len = (length pre + length lead + length (line ws))%nat →
  blanks_loop fuel b len nbr p = Some (nbr + length ws - 1)%nat.
Proof.
  induction ws as [| [w sep] ws IH]; [done |].
  intros [| fuel] b pre lead rest nbr len p Hb -> Hlead Hok _ Ht Hf Hlen; [cbn in Hf; lia |].
  destruct (words_ok_cons _ _ _ Hok) as (Hne & Hw & Hsep & Hlast & Hok').
  cbn [blanks_loop]. rewrite Hb at 1. rewrite skip_to_line by done. mstep.
  destruct (line_head _ Hok) as (c & s & Hc & Hcb & Hcz); [done |].
  rewrite Hb, (lookup_head _ _ _ _ _ _ Hc), <-Hb.
  mstep. rewrite (proj2 (Z.eqb_neq c 0)) by lia.
  rewrite line_cons in Hb, Ht, Hlen. rewrite !length_app in Hlen.
  destruct sep as [| x sep].
  - destruct ws; [| by specialize (Hlast ltac:(done))].
    rewrite Hb, app_assoc, <-length_app. cbn [app line fmap list_fmap concat]. rewrite app_nil_r.
    rewrite next_blank_none by done. mstep. f_equal. cbn. lia.
  - apply Forall_cons in Hsep as [Hx Hsep].
    replace b with ((pre ++ lead) ++ w ++ x :: (sep ++ line ws) ++ 0 :: rest)
      by (rewrite Hb; flat).
    rewrite <-length_app, next_blank_some; [| exact Hw | exact Hx | |].
    2: { apply bytes_pos, Forall_app. split; [by apply blanks_bytes | by apply line_bytes]. }
    2: { by apply (tabs_last_app w). }
    mstep. rewrite <-length_app.
    replace ((pre ++ lead) ++ w ++ x :: (sep ++ line ws) ++ 0 :: rest)
      with (((pre ++ lead) ++ w) ++ (x :: sep) ++ line ws ++ 0 :: rest)
      by flat.
    destruct ws as [| ws0 ws].
    + cbn [line fmap list_fmap concat app].
      change (x :: sep ++ 0 :: rest) with ((x :: sep) ++ 0 :: rest).
      rewrite (skip_blanks_app _ (x :: sep) 0) by (done || by apply Forall_cons). mstep.
      rewrite app_assoc, lookup_mid by by rewrite (length_app _ (x :: sep)).
      mstep. f_equal. cbn. lia.
    + rewrite skip_to_line; [| by apply Forall_cons | done | done]. mstep.
      destruct (line_head _ Hok') as (c' & s' & Hc' & Hcb' & Hcz'); [done |].
      rewrite (lookup_head _ _ _ _ _ _ Hc').
      mstep. rewrite (proj2 (Z.eqb_neq c' 0)) by lia.
      rewrite bool_decide_true.
      2: { rewrite Hlen, Hc', !length_app. cbn. lia. }
      rewrite (IH fuel _ (((pre ++ lead) ++ w) ++ (x :: sep)) [] rest).
      * f_equal. cbn. lia.
      * flat.
      * by rewrite (length_app _ (x :: sep)).
      * by apply Forall_nil.
      * done.
      * done.
      * by apply (tabs_last_app (x :: sep)), (tabs_last_app w).
      * cbn in Hf |- *. lia.
      * rewrite !length_app. cbn in Hlen |- *. lia.
Qed.

Lemma laid_app p gap ps ws s : laid (p + length gap) ps ws s → ws ≠ [] → laid p ps ws (gap ++ s).
Proof.
  inversion 1 as [| ? gap' w s' ps' ws' Hl]; subst; [done |]. intros _.
  replace (gap ++ gap' ++ w ++ 0 :: s') with ((gap ++ gap') ++ w ++ 0 :: s') by flat.
  replace (p + length gap + length gap')%nat with (p + length (gap ++ gap'))%nat
    by (rewrite length_app; lia).
  apply laid_cons. by rewrite length_app, Nat.add_assoc.
Qed.
Lemma laid_weaken p gap ps ws s : laid (p + length gap) ps ws s → laid p ps ws (gap ++ s).
Proof.
  intros H. destruct ws; [inversion H; constructor |]. by apply laid_app.
Qed.

Lemma doargv_loop_words ws : ∀ b pre lead rest,
  b = pre ++ lead ++ line ws ++ 0 :: rest → blanks lead → words_ok ws → tabs_last (line ws) →
  ∃ ps tail, doargv_loop (length ws) b (length pre) = Some (ps, pre ++ tail) ∧
    laid (length pre) ps (ws.*1) tail.
Proof.
  induction ws as [| [w sep] ws IH]; intros b pre lead rest Hb Hlead Hok Ht.
  { subst b. eexists _, _. split; [done | constructor]. }
  destruct (words_ok_cons _ _ _ Hok) as (Hne & Hw & Hsep & Hlast & Hok').
  cbn [length doargv_loop].
  assert (skip_blanks b (length pre) = Some (length pre + length lead)%nat) as ->
    by (rewrite Hb; by apply skip_to_line).
  mstep.
  rewrite line_cons in Hb, Ht. destruct sep as [| x sep].
  - destruct ws; [| by specialize (Hlast ltac:(done))].
    replace b with ((pre ++ lead) ++ w ++ 0 :: rest).
    2: { rewrite Hb. cbn [app line fmap list_fmap concat]. rewrite app_nil_r. flat. }
    rewrite <-length_app, next_blank_none by done. mstep.
    eexists _, (lead ++ w ++ 0 :: rest). split; [cbn; by rewrite <-!app_assoc |].
    rewrite length_app. apply laid_cons, laid_nil.
  - apply Forall_cons in Hsep as [Hx Hsep].
    replace b with ((pre ++ lead) ++ w ++ x :: (sep ++ line ws) ++ 0 :: rest)
      by (rewrite Hb; flat).
    rewrite <-length_app, next_blank_some; [| done | done | |].
    2: { apply bytes_pos, Forall_app. split; [by apply blanks_bytes | by apply line_bytes]. }
    2: { by apply (tabs_last_app w). }
    mstep. rewrite (app_assoc (pre ++ lead)), store_mid by by rewrite (length_app (pre ++ lead)). mstep.
    destruct (IH (((pre ++ lead) ++ w) ++ 0 :: (sep ++ line ws) ++ 0 :: rest)
      (((pre ++ lead) ++ w) ++ [0]) sep rest) as (ps & tail & He & Hl); [flat | done | done | |].
    { apply (tabs_last_app (x :: sep)), (tabs_last_app w). exact Ht. }
    replace (length (pre ++ lead) + length w + 1)%nat
      with (length (((pre ++ lead) ++ w) ++ [0])) by (rewrite !length_app; cbn; lia).
    rewrite He. mstep. eexists _, (lead ++ w ++ 0 :: tail). split.
    + do 2 f_equal. flat.
    + rewrite length_app. apply laid_cons.
      replace (length pre + length lead + length w + 1)%nat
        with (length (((pre ++ lead) ++ w) ++ [0])) by (rewrite !length_app; cbn; lia).
      exact Hl.
Qed.

(** ** Decoding the escapes *)

(** The rest of the string moves over the gap, which it does not overlap; what is left behind
    has the length of the gap. *)
Lemma strcpy_gap p gap s rest :
  Forall (λ c, 0 < c < 256) s → (length s < length gap)%nat →
  ∃ junk, length junk = length gap ∧
    strcpy (p ++ gap ++ s ++ 0 :: rest) (length p) (length p + length gap) = Some (p ++ s ++ 0 :: junk ++ rest).
Proof.
  intros Hs Hl. unfold strcpy.
  replace (drop (length p + length gap) (p ++ gap ++ s ++ 0 :: rest)) with (s ++ 0 :: rest)
    by (rewrite app_assoc; symmetry; apply drop_app_length'; by rewrite length_app).
  rewrite cstr_app by done. mstep. unfold guard_ub. rewrite bool_decide_true by lia. mstep.
  rewrite take_app_length, <-Nat.add_assoc, drop_app_add.
  exists (drop (length s + 1) gap ++ s ++ [0]). split.
  - rewrite !length_app, length_drop. cbn. lia.
  - rewrite drop_app_le by lia. do 3 f_equal. flat.
Qed.

(** Nothing to decode in a string without "\x". *)
Lemma hex_upper_digit d : 0 ≤ d < 16 → digit_of (hex_upper d) = Some d.
Proof.
  intros Hd. unfold hex_upper, digit_of. destruct (Z.ltb_spec d 10).
  - rewrite (proj2 (Z.leb_le 48 _)), (proj2 (Z.leb_le _ 57)) by lia. cbn [andb]. f_equal. lia.
  - rewrite (proj2 (Z.leb_gt (55 + d) 57)) by lia. rewrite andb_false_r.
    rewrite (proj2 (Z.leb_le 65 _)), (proj2 (Z.leb_le _ 70)) by lia. cbn [andb]. f_equal. lia.
Qed.
Lemma hex_upper_range d :
  0 ≤ d < 16 → hex_upper d = 48 + d ∧ d < 10 ∨ hex_upper d = 55 + d ∧ 10 ≤ d.
Proof. unfold hex_upper. destruct (Z.ltb_spec d 10); lia. Qed.

(** Two digits, and what follows is no digit. *)
Lemma sscanf_X_two h l c s :
  0 ≤ h < 16 → 0 ≤ l < 16 → digit_of c = None →
  sscanf_X (hex_upper h :: hex_upper l :: c :: s) = Some (16 * h + l).
Proof.
  intros Hh Hl Hc. pose proof (hex_upper_range h Hh). pose proof (hex_upper_range l Hl).
  assert (isspace (hex_upper h) = false) as E1 by (unfold isspace; lia).
  assert ((hex_upper h =? 45) = false) as E2 by lia.
  assert ((hex_upper h =? 43) = false) as E3 by lia.
  assert (((hex_upper l =? 120) || (hex_upper l =? 88)) = false) as E4 by lia.
  unfold sscanf_X. cbn [skip_space]. rewrite E1. cbn [scan_sign]. rewrite E2, E3. cbn [scan_0x].
  rewrite E4, andb_false_r. cbn [lookup list_lookup]. mstep. cbn [scan_digits].
  rewrite !hex_upper_digit by done. mstep. unfold guard_ub.
  rewrite !(proj2 (Z.ltb_lt _ (2 ^ 32))) by lia. mstep. rewrite Hc. done.
Qed.

(** One escape: the byte it means, and the rest of the string moved after it. *)
Lemma filter_param_escape pre v s rest b buf :
  b = pre ++ typed (Escaped v) ++ s ++ 0 :: rest →
  0 < v < 256 → Forall (λ c, 0 < c < 256) s → (length s ≤ 2)%nat →
  (∀ c s', s = c :: s' → digit_of c = None) →
  ∃ junk, length junk = 3%nat ∧
    revm_filter_param b buf (length pre) = Some ((pre ++ [v]) ++ s ++ 0 :: junk ++ rest, S (length pre)).
Proof.
  intros Hb Hv Hs Hs2 Hd. subst b.
  assert (0 ≤ v / 16 < 16) as Hh by (split; [apply Z.div_pos | apply Z.div_lt_upper_bound]; lia).
  assert (0 ≤ v mod 16 < 16) as Hl by (apply Z.mod_pos_bound; lia).
  pose proof (Z.div_mod v 16) as Hdm.
  pose proof (hex_upper_range _ Hh) as Rh. pose proof (hex_upper_range _ Hl) as Rl.
  set (h := v / 16) in *. set (l := v mod 16) in *.
  cbn [typed app]. fold h l. unfold revm_filter_param.
  assert (∀ x : list Z, pre ++ 92 :: 120 :: x = (pre ++ [92; 120]) ++ x) as E2 by (intros; flat).
  replace ((pre ++ 92 :: 120 :: hex_upper h :: hex_upper l :: s ++ 0 :: rest) !! (length pre + 2)%nat)
    with (Some (hex_upper h)) by (symmetry; apply (lookup_gap pre [92; 120])).
  replace ((pre ++ 92 :: 120 :: hex_upper h :: hex_upper l :: s ++ 0 :: rest) !! (length pre + 3)%nat)
    with (Some (hex_upper l)) by (symmetry; apply (lookup_gap pre [92; 120; hex_upper h])).
  mstep. rewrite (proj2 (Z.eqb_neq (hex_upper h) 0)) by lia.
  replace ((hex_upper h =? 48) && _) with false.
  2: { symmetry. clear -Rh Rl Hdm Hh Hl Hv. lia. }
  replace (drop (length pre + 2) _) with (hex_upper h :: hex_upper l :: s ++ 0 :: rest).
  2: { rewrite E2. symmetry. apply drop_app_length'. by rewrite length_app. }
  assert (∃ c s', s ++ 0 :: rest = c :: s' ∧ digit_of c = None) as (c & s' & Ec & Hc).
  { destruct s as [| c s]; [by eexists _, _ |]. eexists c, _. split; [done |]. by apply (Hd c s). }
  rewrite Ec, sscanf_X_two, <-Ec by done. mstep.
  rewrite store_mid by done. mstep.
  rewrite wrapu_small by lia.
  replace (pre ++ 16 * h + l :: 120 :: hex_upper h :: hex_upper l :: s ++ 0 :: rest)
    with ((pre ++ [v]) ++ [120; hex_upper h; hex_upper l] ++ s ++ 0 :: rest).
  2: { rewrite <-app_assoc. cbn [app]. repeat f_equal. lia. }
  replace (length pre + 1)%nat with (length (pre ++ [v])) by (rewrite length_app; cbn; lia).
  replace (length pre + 4)%nat with (length (pre ++ [v]) + length [120%Z; hex_upper h; hex_upper l])%nat
    by (rewrite length_app; cbn; lia).
  destruct (strcpy_gap (pre ++ [v]) [120; hex_upper h; hex_upper l] s rest) as (junk & Hj & ->); [done | cbn; lia |].
  mstep. exists junk. split; [done |]. do 2 f_equal. rewrite length_app. cbn. lia.
Qed.

(** With three characters or more behind the escape, the copy overlaps itself. *)
Lemma strcpy_overlap p gap s rest :
  Forall (λ c, 0 < c < 256) s → (length gap ≤ length s)%nat →
  strcpy (p ++ gap ++ s ++ 0 :: rest) (length p) (length p + length gap) = None.
Proof.
  intros Hs Hl. unfold strcpy.
  replace (drop (length p + length gap) (p ++ gap ++ s ++ 0 :: rest)) with (s ++ 0 :: rest)
    by (rewrite app_assoc; symmetry; apply drop_app_length'; by rewrite length_app).
  rewrite cstr_app by done. mstep. unfold guard_ub. by rewrite bool_decide_false by lia.
Qed.

Lemma strstr_at_cons w i x s :
  strstr_at w i (x :: s) = if x =? 0 then Some None else
    found ← prefix_at w (x :: s);
    if found : bool then Some (Some i) else strstr_at w (S i) s.
Proof. done. Qed.
(** A search passes the plain characters of a word. *)
Lemma strstr_plain cs : ∀ tail i c s,
  typable ((Plain <$> cs) ++ tail) → next_plain tail = None → c ≠ 120 →
  strstr_at backslash_x i (cs ++ c :: s) = strstr_at backslash_x (i + length cs) (c :: s).
Proof.
  induction cs as [| x cs IH]; intros tail i c s Ht Hn Hc; [by rewrite Nat.add_0_r |].
  cbn [fmap list_fmap app typable] in Ht. destruct Ht as (Hx & _ & Hx92 & Ht).
  cbn [app length]. rewrite strstr_at_cons, (proj2 (Z.eqb_neq x 0)) by lia.
  replace (prefix_at backslash_x (x :: cs ++ c :: s)) with (Some false).
  2: { cbn [prefix_at backslash_x]. destruct (Z.eqb_spec x 92) as [-> |]; [| done]. specialize (Hx92 eq_refl).
       destruct cs as [| y cs]; cbn; [by rewrite (proj2 (Z.eqb_neq c 120)) |].
       cbn in Hx92. by rewrite (proj2 (Z.eqb_neq y 120)) by congruence. }
  mstep. rewrite (IH tail) by done. f_equal. lia.
Qed.
Lemma first_escape its :
  (∃ cs, its = Plain <$> cs) ∨ ∃ cs v its', its = (Plain <$> cs) ++ Escaped v :: its'.
Proof.
  induction its as [| [c | v] its IH]; [by left; exists [] | |].
  - destruct IH as [[cs ->] | (cs & v & its' & ->)].
    + left. by exists (c :: cs).
    + right. by exists (c :: cs), v, its'.
  - right. by exists [], v, its.
Qed.
Lemma typable_app its1 its2 : typable (its1 ++ its2) → typable its2.
Proof. induction its1 as [| [c | v] its1 IH]; [done | |]; cbn; intros; apply IH; tauto. Qed.
Lemma spelled_plain (cs : list Z) : spelled (Plain <$> cs) = cs.
Proof. induction cs as [| c cs IH]; [done |]. cbn. f_equal. exact IH. Qed.
Lemma meant_plain (cs : list Z) : meant <$> (Plain <$> cs) = cs.
Proof. induction cs as [| c cs IH]; [done |]. cbn. f_equal. exact IH. Qed.
Lemma spelled_app its1 its2 : spelled (its1 ++ its2) = spelled its1 ++ spelled its2.
Proof. unfold spelled. by rewrite fmap_app, concat_app. Qed.

Lemma typed_ok v : 0 < v < 256 → word_ok (typed (Escaped v)).
Proof.
  intros Hv.
  assert (0 ≤ v / 16 < 16) as Hh by (split; [apply Z.div_pos | apply Z.div_lt_upper_bound]; lia).
  assert (0 ≤ v mod 16 < 16) as Hl by (apply Z.mod_pos_bound; lia).
  pose proof (hex_upper_range _ Hh). pose proof (hex_upper_range _ Hl).
  unfold word_ok, IS_BLANK. cbn [typed]. rewrite !Forall_cons. split_and!; (done || lia).
Qed.
Lemma typable_word its : typable its → word_ok (spelled its).
Proof.
  induction its as [| [c | v] its IH]; [by intros; constructor | |]; cbn [typable].
  - intros (? & ? & _ & Ht). apply Forall_cons. split; [by split | by apply IH].
  - intros (Hv & _ & Ht). apply Forall_app. split; [by apply typed_ok | by apply IH].
Qed.
Lemma typable_head v its c s :
  typable (Escaped v :: its) → spelled its = c :: s → digit_of c = None.
Proof.
  intros (_ & [Hd _] & _) Hc. destruct its as [| [x | x] its]; [done | |].
  - cbn in Hc. injection Hc as -> _. by apply Hd.
  - cbn in Hc. injection Hc as <- _. done.
Qed.

Lemma findhex_loop_typed n : ∀ its fuel b pre rest,
  (length its ≤ n)%nat → (n < fuel)%nat → typable its →
  b = pre ++ spelled its ++ 0 :: rest →
  ∃ junk, (length junk + length its = length (spelled its))%nat ∧
    findhex_loop fuel b (length pre) = Some (pre ++ (meant <$> its) ++ 0 :: junk ++ rest).
Proof.
  induction n as [| n IH]; intros its [| fuel] b pre rest Hlen Hf Ht Hb; try lia.
  - destruct its; [| cbn in Hlen; lia]. subst b. exists []. split; [done |].
    cbn [findhex_loop]. unfold strstr. by rewrite drop_app_length.
  - cbn [findhex_loop]. unfold strstr. destruct (first_escape its) as [[cs ->] | (cs & v & its' & ->)].
    + rewrite spelled_plain in Hb |- *. subst b. rewrite drop_app_length.
      rewrite (strstr_plain cs []) by (done || by rewrite app_nil_r). mstep. cbn [strstr_at Z.eqb].
      mstep. exists []. rewrite meant_plain, length_fmap. done.
    + rewrite length_app in Hlen. cbn [length] in Hlen.
      rewrite spelled_app, spelled_plain in Hb |- *.
      change (spelled (Escaped v :: its')) with (typed (Escaped v) ++ spelled its') in *.
      pose proof (typable_app _ _ Ht) as Hte.
      subst b. rewrite drop_app_length, <-app_assoc. cbn [typed app].
      rewrite (strstr_plain cs (Escaped v :: its')) by done.
      cbn [strstr_at prefix_at backslash_x]. cbn [Z.eqb Pos.eqb]. mstep.
      rewrite <-length_app.
      edestruct (filter_param_escape (pre ++ cs) v (spelled its') rest) as (junk & Hj & He);
        [reflexivity | by destruct Hte | | by destruct Hte as (_ & [_ ?] & _) | |].
      { eapply Forall_impl; [by apply typable_word; destruct Hte as (_ & _ & ?) |]. cbn. lia. }
      { intros c s. by apply (typable_head v). }
      replace (pre ++ cs ++ 92 :: 120 :: hex_upper (v / 16) :: hex_upper (v mod 16) ::
        spelled its' ++ 0 :: rest)
        with ((pre ++ cs) ++ typed (Escaped v) ++ spelled its' ++ 0 :: rest) by (cbn [typed]; flat).
      rewrite He. mstep.
      destruct (IH its' fuel (((pre ++ cs) ++ [v]) ++ spelled its' ++ 0 :: junk ++ rest)
        ((pre ++ cs) ++ [v]) (junk ++ rest)) as (junk' & Hj' & He').
      { lia. } { lia. } { by destruct Hte as (_ & _ & ?). } { done. }
      replace (S (length (pre ++ cs))) with (length ((pre ++ cs) ++ [v]))
        by (rewrite (length_app _ [v]); cbn; lia).
      rewrite He'. exists (junk' ++ junk). split.
      * rewrite !length_app, length_fmap. cbn [length]. lia.
      * rewrite fmap_app, meant_plain. f_equal. cbn [fmap list_fmap meant]. flat.
Qed.

Lemma findhex_laid p ps ws tail :
  laid p ps (spelled <$> ws) tail → Forall typable ws → ∀ pre, length pre = p →
  ∃ tail', revm_findhex (Some <$> ps) (pre ++ tail) = Some (pre ++ tail') ∧
    laid p ps (value <$> ws) tail'.
Proof.
  remember (spelled <$> ws) as sws eqn:Hws. intros Hl. revert ws Hws.
  induction Hl as [p s | p gap w s ps sws Hl IH]; intros ws Hws Ht pre <-.
  { destruct ws; [| done]. exists s. split; [done | constructor]. }
  destruct ws as [| its ws]; [done |]. cbn in Hws. injection Hws as -> ->.
  apply Forall_cons in Ht as [Ht Hts].
  cbn [fmap list_fmap revm_findhex].
  destruct (findhex_loop_typed (length its) its
    (S (length (pre ++ gap ++ spelled its ++ 0 :: s))) (pre ++ gap ++ spelled its ++ 0 :: s)
    (pre ++ gap) s) as (junk & Hj & He); [done | | done | flat |].
  { assert (length its ≤ length (spelled its))%nat.
    { clear. unfold spelled. induction its as [| it its IH]; [done |].
      cbn. rewrite length_app. destruct it; cbn; lia. }
    rewrite !length_app. lia. }
  rewrite (length_app pre gap) in He. rewrite He. mstep.
  set (pre' := pre ++ gap ++ (meant <$> its) ++ 0 :: junk).
  assert (length pre' = length pre + length gap + length (spelled its) + 1)%nat as Hp'.
  { unfold pre'. rewrite !length_app. cbn [length]. rewrite length_fmap. lia. }
  destruct (IH ws eq_refl Hts pre' Hp') as (tail' & He' & Hl').
  replace ((pre ++ gap) ++ (meant <$> its) ++ 0 :: junk ++ s) with (pre' ++ s) by (unfold pre'; flat).
  exists (gap ++ (meant <$> its) ++ 0 :: junk ++ tail'). split.
  - cbn in He'. etransitivity; [exact He' |]. f_equal. unfold pre'. flat.
  - apply laid_cons, laid_weaken.
    replace (_ + length junk)%nat with (length pre + length gap + length (spelled its) + 1)%nat;
      [exact Hl' |]. rewrite length_fmap. lia.
Qed.

Lemma laid_words p ps ws tail :
  laid p ps ws tail → Forall (Forall (λ c, 0 < c < 256)) ws → ∀ pre, length pre = p →
  Forall2 (λ q w, cstr (drop q (pre ++ tail)) = Some w) ps ws.
Proof.
  induction 1 as [| p gap w s ps ws Hl IH]; intros Hw pre <-; [constructor |].
  apply Forall_cons in Hw as [Hw Hws]. constructor.
  - replace (pre ++ gap ++ w ++ 0 :: s) with ((pre ++ gap) ++ w ++ 0 :: s) by flat.
    rewrite drop_app_length' by by rewrite length_app. by apply cstr_app.
  - replace (pre ++ gap ++ w ++ 0 :: s) with ((pre ++ gap ++ w ++ [0]) ++ s) by flat.
    apply IH; [done |]. rewrite !length_app. cbn. lia.
Qed.
Lemma meant_bytes its : typable its → Forall (λ c, 0 < c < 256) (meant <$> its).
Proof.
  induction its as [| [c | v] its IH]; [constructor | |]; cbn [typable fmap list_fmap meant].
  - intros (? & _ & _ & ?). constructor; [done | by apply IH].
  - intros (? & _ & ?). constructor; [done | by apply IH].
Qed.

(** The line as it is typed. *)
Definition text (ws : list (list item * list Z)) : list Z :=
  line ((λ '(w, sep), (spelled w, sep)) <$> ws).

Lemma text_words_ok ws :
  spaced ws → Forall (λ w, typable w.1) ws → words_ok ((λ '(w, sep), (spelled w, sep)) <$> ws).
Proof.
  induction ws as [| [w sep] ws IH]; intros Hs Ht; [by split |].
  destruct Hs as (Hne & Hb & Hl & Hs). apply Forall_cons in Ht as [Ht Hts].
  destruct (IH Hs Hts) as [Hs' Hw']. split.
  - split_and!; [| done | | done].
    + destruct w as [| [] ?]; done.
    + intros H. apply Hl. by destruct ws.
  - constructor; [by apply typable_word | done].
Qed.

(** C40. A line of words, each typed with plain characters and escaped bytes
    ("\x41") and separated by blanks, is cut by revm_input into exactly these
    words, their escapes decoded in place, provided that no space follows a
    tabulation in the line, no escape is followed by a hexadecimal digit, and
    by two characters at most in its word (with three the copy overlaps,
    [escape_overlaps]); the arguments are then NULL, the words, NULL, and their
    number is counted with the unused first one. *)
Theorem revm_input_words lead ws rest :
  blanks lead → ws ≠ [] → spaced ws → Forall (λ w, typable w.1) ws → tabs_last (text ws) →
  ∃ ps b', revm_input (lead ++ text ws ++ 0 :: rest) =
    Some (None :: (Some <$> ps) ++ [None], S (length ws), b') ∧
    Forall2 (λ p w, cstr (drop p b') = Some (value w.1)) ps ws.
Proof.
  intros Hlead Hne Hs Ht Htabs. unfold text in *.
  set (lws := (λ '(w, sep), (spelled w, sep)) <$> ws) in *.
  assert (length lws = length ws) as Hlen by apply length_fmap.
  pose proof (text_words_ok ws Hs Ht) as Hok. fold lws in Hok.
  set (b := lead ++ line lws ++ 0 :: rest).
  assert (revm_findblanks b = Some (length ws)) as Hblanks.
  { unfold revm_findblanks.
    replace (strlen b 0) with (Some (length (lead ++ line lws))).
    2: { unfold strlen, b. rewrite drop_0, app_assoc, cstr_app; [done |].
         apply Forall_app. split; [by apply blanks_bytes | by apply line_bytes]. }
    mstep. rewrite (blanks_loop_words lws _ _ [] lead rest); try done.
    - f_equal. destruct ws; [done |]. rewrite Hlen. cbn. lia.
    - intros E. destruct ws; [done |]. by rewrite E in Hlen.
    - unfold b. rewrite !length_app. cbn [length].
      assert (length lws ≤ length (line lws))%nat; [| lia].
      clear -Hok. induction lws as [| [w sep] lws IH]; [done |].
      destruct (words_ok_cons _ _ _ Hok) as (Hne & _ & _ & _ & Hr).
      rewrite line_cons, !length_app. specialize (IH Hr). destruct w; [done |]. cbn. lia.
    - by rewrite length_app. }
  destruct (doargv_loop_words lws b [] lead rest) as (ps & tail & Ha & Hl); [done.. |].
  cbn [app length] in Ha, Hl. rewrite Hlen in Ha.
  assert (lws.*1 = spelled <$> ws.*1) as Hw1.
  { unfold lws. rewrite <-!list_fmap_compose. apply list_fmap_ext. by intros ? [] _. }
  rewrite Hw1 in Hl.
  assert (Forall typable ws.*1) as Ht1 by by apply Forall_fmap.
  destruct (findhex_laid 0 ps ws.*1 tail Hl Ht1 [] eq_refl) as (tail' & Hh & Hl').
  cbn [app] in Hh. exists ps, tail'. split.
  - unfold revm_input. rewrite Hblanks. mstep. unfold revm_doargv. rewrite Ha. mstep.
    replace (take (length ws + 1) (None :: (Some <$> ps) ++ [None])) with (None :: (Some <$> ps)).
    2: { rewrite Nat.add_1_r. cbn [take]. f_equal. rewrite take_app_length'; [done |].
         rewrite length_fmap, (laid_length _ _ _ _ Hl). by rewrite !length_fmap. }
    cbn [revm_findhex]. rewrite Hh. mstep. do 3 f_equal. lia.
  - assert (Forall2 (λ q w, cstr (drop q ([] ++ tail')) = Some w) ps (value <$> ws.*1)) as H2.
    { apply (laid_words 0); [done | | done].
      rewrite !Forall_fmap. eapply Forall_impl; [exact Ht |]. intros w. apply meant_bytes. }
    rewrite !Forall2_fmap_r in H2. exact H2.
Qed.

(** "add $x  a\x20z" typed with two blanks: three words, the last "a z". *)
Lemma revm_input_words_witness :
  ∃ ps b', revm_input (bytes "add $x  a\x20z" ++ [0]) =
    Some (None :: (Some <$> ps) ++ [None], 4%nat, b') ∧
    Forall2 (λ p w, cstr (drop p b') = Some w) ps [bytes "add"; bytes "$x"; bytes "a z"].
Proof.
  pose proof (revm_input_words []
    [(Plain <$> bytes "add", [32]); (Plain <$> bytes "$x", [32; 32]);
     ([Plain 97; Escaped 32; Plain 122], [])] []) as H.
  destruct H as (ps & b' & H1 & H2).
  - constructor.
  - done.
  - cbn. split_and!; try done; by repeat constructor.
  - repeat (apply Forall_cons_2 || apply Forall_nil_2); cbn; split_and!; naive_solver lia.
  - intros l1 l2 E. exfalso.
    assert (9 ∈ text [(Plain <$> bytes "add", [32]); (Plain <$> bytes "$x", [32; 32]);
     ([Plain 97; Escaped 32; Plain 122], [])]) as Hin by (rewrite E; set_solver).
    vm_compute in Hin. repeat (apply elem_of_cons in Hin as [? | Hin]; [discriminate |]).
    by apply elem_of_nil in Hin.
  - exists ps, b'. split; [exact H1 |].
    exact (proj2 (Forall2_fmap_r (λ w : list item * list Z, value w.1) _ _ _) H2).
Defined.

(** What the scanner does outside of this theorem: an escape takes every
    hexadecimal digit that follows and drops two of them; a tabulation before
    a space does not separate; a word that ends in "\x" is scanned for ever. *)
Lemma escape_takes_digits :
  ∃ argv b, revm_input (bytes "\x41B" ++ [0]) = Some (argv, 2%nat, b) ∧
    argv !! 1%nat = Some (Some 0%nat) ∧ cstr b = Some [27; 66].
Proof. eexists _, _. split_and!; [by vm_compute | done | by vm_compute]. Qed.
Lemma escape_overlaps :
  revm_input (bytes "\x41\x42" ++ [0]) = None ∧ revm_input (bytes "\x20end" ++ [0]) = None.
Proof. by split; vm_compute. Qed.
Lemma tabulation_before_space :
  ∃ argv b, revm_input ([97; 9; 98; 32; 99; 0]) = Some (argv, 3%nat, b) ∧
    argv !! 1%nat = Some (Some 0%nat) ∧ cstr b = Some [97; 9; 98].
Proof. eexists _, _. split_and!; [by vm_compute | done | by vm_compute]. Qed.
Lemma last_escape_diverges pre rest fuel : findhex_loop fuel (pre ++ 92 :: 120 :: 0 :: rest) (length pre) = None.
Proof.
  induction fuel as [| fuel IH]; [done |]. cbn [findhex_loop]. unfold strstr.
  rewrite drop_app_length. cbn [strstr_at prefix_at backslash_x Z.eqb Pos.eqb]. mstep.
  unfold revm_filter_param.
  assert ((pre ++ 92 :: 120 :: 0 :: rest) !! (length pre + 2)%nat = Some 0) as ->
    by apply (lookup_gap pre [92; 120]).
  mstep. exact IH.
Qed.

(** The last character of a word is written twice for each blank it escapes. *)
Lemma speblank_duplicates :
  revm_replace_speblanks [bytes "a\ b" ++ [0]] = Some [bytes "a bb" ++ [0]].
Proof. by vm_compute. Qed.
